(* ===== verification/_CoqProject ===== *)
-Q . S2P
Prelude.v
Xdr.v
XdrSpec.v
XdrBuf.v
XdrDecode.v
XdrEncode.v
XdrTheorems.v
Nfs3Types.v
Nfs3Client.v
Nfs3Server.v
Nfs3Wire.v
Nfs3Attr.v
Nfs3Safety.v
Nfs3Theorems.v
WaitQueue.v
WaitQueueInv.v
WaitQueueTheorems.v
WaitQueueFrame.v
Session.v
SessionInv.v
SessionTheorems.v
SeqServer.v
SeqServerTheorems.v
SeqClient.v
SeqClientTheorems.v
SeqProtocol.v
SeqCallback.v
SeqCallbackTheorems.v
Mesh.v
MeshTheorems.v
Multipath.v
MultipathInv.v
MultipathChoice.v
MultipathTheorems.v
RbTree.v
ExtentTree.v
ExtentMap.v
ExtentInsert.v
ExtentMark.v
ExtentTheorems.v
RpcTimer.v
Transport.v
TransportLock.v
TransportCong.v
TransportQueues.v
TransportOps.v
TransportSlots.v
TransportRelease.v
TransportSteps.v
TransportTasks.v
TransportSock.v
TransportTheorems.v
RpcMsg.v
ReplyCache.v
ReplyCacheInv.v
ReplyCacheOps.v
ReplyCacheTheorems.v
RpcServer.v
RpcClient.v
RpcWire.v
RpcRead.v
RpcTheorems.v
