(* ===== verification/Prelude.v ===== *)
(** * VAST NFS: verification of the RPC and NFS core

    VAST NFS is a Linux NFS client and server with its own SunRPC stack: [bundle/net/sunrpc]
    (RPC), [bundle/fs/nfs] (client), [bundle/fs/nfsd] (server), [bundle/fs/lockd] and
    [bundle/fs/nfs_common].  Sources are named below relative to [src/bundle/]; the trees under
    [src/src/v3.9.30...] are older copies for other kernels and are not modelled.

    ** How the program is put together

    An NFS operation of the client is encoded by the codec of its protocol version into an XDR
    stream over a [struct xdr_buf], becomes an RPC task, waits on priority queues for a slot of
    its session (NFSv4.1) and for a transport, is sent over one of several connections, and its
    reply is matched, decoded and handed back.  On the server the call is decoded, checked
    against a reply cache, run, and its result encoded.  pNFS layouts let the client write to the
    disks and report what it wrote.

    ** Files, and the code they model

    - Wire format.  [Xdr] (xdr.h: padding, items, and the stream interfaces as classes
      [InStream], [OutStream] that the codecs are proved against), [XdrSpec] (how a codec is
      specified against them), [XdrBuf] (net/sunrpc/xdr.c: [struct xdr_buf], segments, copying),
      [XdrDecode] and [XdrEncode] (decode and encode streams over head, pages and tail, which
      discharge the interfaces), [XdrTheorems].
    - NFSv3.  [Nfs3Types] (constants and structs), [Nfs3Client] (fs/nfs/nfs3xdr.c), [Nfs3Server]
      (fs/nfsd/nfs3xdr.c), [Nfs3Wire] (an abstract description of the calls and replies of RFC 1813
      that both codecs refine), [Nfs3Attr] (attributes across the wire), [Nfs3Safety] (decoders on
      arbitrary input), [Nfs3Theorems].
    - RPC wait queues.  [WaitQueue] (net/sunrpc/sched.c), [WaitQueueInv], [WaitQueueTheorems].
    - NFSv4.1 sessions.  [Session] (fs/nfs/nfs4session.c: slot tables), [SessionInv],
      [SessionTheorems]; [SeqServer] (fs/nfsd/nfs4state.c: SEQUENCE and the reply cache),
      [SeqServerTheorems]; [SeqClient] (fs/nfs/nfs4proc.c: what becomes of a slot),
      [SeqClientTheorems]; [SeqProtocol] (both ends over a network that loses, delays and repeats);
      [SeqCallback] (fs/nfs/callback_proc.c, callback_xdr.c), [SeqCallbackTheorems].
    - Several connections.  [Mesh] (rpc_create in net/sunrpc/clnt.c, port tables of xprt.c,
      nfs4client.c), [MeshTheorems]; [Multipath] (net/sunrpc/xprtmultipath.c and the choice of a
      transport in clnt.c), [MultipathInv], [MultipathChoice], [MultipathTheorems].
    - pNFS block extents.  [ExtentTree] (fs/nfs/blocklayout/extent_tree.c), [ExtentMap] (extents as
      a map from sectors), [ExtentInsert], [ExtentMark], [ExtentTheorems].
    - Server reply cache.  [ReplyCache] (fs/nfsd/nfscache.c and [nfsd_dispatch] of nfssvc.c),
      [ReplyCacheInv], [ReplyCacheOps], [ReplyCacheTheorems].  [RbTree] holds the red-black trees
      that extents and this cache use.
    - RPC calls.  [RpcMsg] the numbers of the protocol; [RpcServer] (net/sunrpc/svc.c, svcauth.c,
      svcauth_unix.c): [svc_process] with AUTH_NULL and AUTH_UNIX; [RpcClient] (clnt.c, auth_null.c,
      auth_unix.c): marshalling of the header and [call_decode]; [RpcWire], [RpcRead] the bytes of
      the two, [RpcTheorems].
    - RPC transports.  [RpcTimer] (net/sunrpc/timer.c: round-trip estimates); [Transport]
      (net/sunrpc/xprt.c: one transport with its write lock, congestion window, queues and slots,
      its methods as the record [rpc_xprt_ops]); [WaitQueueFrame] (several wait queues over the same
      tasks); [TransportLock], [TransportCong], [TransportQueues] (the invariant, part by part);
      [TransportOps] (the contract [XprtOps] the methods of a transport keep), [TransportSlots],
      [TransportRelease], [TransportSteps], [TransportTasks] (the operations against the contract);
      [TransportSock] (xprtsock.c, socklib.c: the UDP transport, which discharges the contract),
      [TransportTheorems].

    ** How states and operations are written

    A struct is a Record with the fields the code uses, updated with [r <| field := v |>]; an
    operation is a function from the state to the new state and its result, with error numbers as
    negative [Z] or in [res]; pointers to shared objects are keys of finite maps or places in
    lists.  Integers are [Z] with the wrap-around of their C type written out ([u32], [u64]).  Code
    outside the repository (memory, time, the network, id mapping, tree rebalancing) is an argument
    of the definitions; the outcome of an allocation is a boolean argument.  Where tasks or
    administrators interleave, the component is a transition system whose steps are the whole
    operations the code runs under its locks.

    ** What the theorems show

    - XDR: reserving and decoding agree with the plain byte sequence of a message for every
      fragmentation over head, pages and tail, and refuse what does not fit.
    - NFSv3: every call and reply modelled is read back as it was written, or up to what the
      protocol loses; no decoder leaves the message whatever arrives.
    - Wait queues: the invariant over all operations, order of service within an owner, between
      owners and between priorities, and that waking a queue ends.
    - Sessions: slot tables stay well-formed, a slot belongs to its call until it is freed, both
      ends agree on the numbers, and together they run each call at most once.
    - Connections: the spread of a client's connections over ports, the invariant of the switch
      with all its users, which transport a task gets and that the choice ends.
    - Extents: each operation on a block layout changes the map from sectors exactly as it says,
      in trees of any shape, and keeps the trees sorted and disjoint.
    - Reply cache: over every interleaving of threads a call is run only when nothing is kept for
      it, a duplicate is dropped or answered with the kept reply; what each operation does; the
      shrinker and the shutdown.
    - RPC calls: a call arrives with the program, procedure, credential and arguments it was sent
      with; every answer has the outcome the protocol gives it; neither end leaves the message;
      retries come to an end; what a too short datagram or credential makes the server do.
    - Transports: over every order of tasks, replies, timers and socket events the lock, the count
      of requests in flight, the slots and the queues agree; nobody waits for a lock or a slot that
      is to be had; sending ends; a reply reaches the task whose number it carries; the congestion
      window and the retransmission timeout stay in their bounds, and the latter finds a steady
      network's pace.

    ** Bounds and fuel

    Loops that are not structural take fuel, and theorems show that the fuel given is enough:
    [next_queue] number of priorities + 1; [rpc_wake_up] and [wake_slot_loop] queued tasks + 1;
    [create_slots] slots to make + 1; [spray_loop] number of ports; [roundrobin_loop] active
    transports + list length + 2; [iterate_loop] list length + 1; [xprt_iter_get_helper] 1 retry;
    [insert_loop] and [committed_loop] number of extents + 1, [mark_loop] number of extents + 3 (two
    cuts), [prepare_loop] 2 (the second pass has the size counted by the first);
    [shutdown_loop] length of the list, [csum_pages] 256 (each round takes at least a byte),
    [xprt_transmit] the length of the transmit queue plus one (each round takes a request off).
    Sectors are below [2 ^ 55], so that their sums do not wrap.

    ** Not modelled

    I/O itself (sockets, RDMA, disks), the kernel's VFS, page cache and inode life cycles,
    cryptography and key rings, debugging and sysfs text interfaces other than the state changes of
    a transport.  Of the NFSv3 codecs the results that carry page data are left out.  The
    NFSv4 codec and its procedures other than sessions, the lock manager, ACL codecs, RPCSEC_GSS,
    the mapping of client addresses to domains, TCP and local sockets, RDMA and the states of an
    RPC task are not modelled; nor is concurrency inside an operation that runs under one lock.

    ** Plan

    TCP record streams, the states of an RPC task, the GSS sequence window, layout segments, the
    ACL codec, the NFSv4 codec. *)

From stdpp Require Export base list numbers list_numbers tactics.
From Stdlib Require Export ZArith Lia.
From Stdlib Require Export Strings.Byte.

#[export] Set Default Goal Selector "1".

(** ** Notations *)

Declare Scope nfs_scope.
Delimit Scope nfs_scope with nfs.
#[global] Open Scope Z_scope.

(** Field update of the C structs modelled as records:
    [r <| f := v |>].  A record opts in with an [Updatable] instance (its eta
    expansion); the per-field setter is computed from that by abstracting the
    projection. *)
Class Updatable (R : Type) := rebuild : R -> R.
Class FieldUpd {R T : Type} (proj : R -> T) := field_upd : (T -> T) -> R -> R.
Arguments field_upd {R T} proj {_} _ _.

Ltac mk_field_upd proj :=
  match type of proj with
  | ?R -> ?T =>
      let i := constr:(_ : Updatable R) in
      let b := eval hnf in i in
      let b' := eval pattern proj in b in
      match b' with
      | ?g _ => exact (fun (f : T -> T) (r : R) => g (fun r0 => f (proj r0)) r)
      end
  end.
#[export] Hint Extern 0 (FieldUpd ?p) => mk_field_upd p : typeclass_instances.

Notation "r <| f := v |>" := (@field_upd _ _ f _ (fun _ => v) r)
  (at level 1, left associativity, f at level 99) : nfs_scope.
#[global] Open Scope nfs_scope.

(** ** Proof automation *)

Create HintDb nfs discriminated.
Create Rewrite HintDb nfs_len.

Ltac invc H := inversion H; clear H; subst.

(** Split every boolean test / option match in the goal or a hypothesis. *)
Ltac split_tests :=
  repeat (case_match; simplify_eq/=; try done).

(** Turn boolean integer tests of the code into [Z] propositions. *)
Ltac zbool :=
  repeat match goal with
  | H : negb _ = true |- _ => apply negb_true_iff in H
  | H : negb _ = false |- _ => apply negb_false_iff in H
  | H : _ && _ = true |- _ => apply andb_true_iff in H; destruct H
  | H : _ || _ = false |- _ => apply orb_false_iff in H; destruct H
  | H : (_ <? _) = true |- _ => apply Z.ltb_lt in H
  | H : (_ <? _) = false |- _ => apply Z.ltb_ge in H
  | H : (_ <=? _) = true |- _ => apply Z.leb_le in H
  | H : (_ <=? _) = false |- _ => apply Z.leb_gt in H
  | H : (_ =? _) = true |- _ => apply Z.eqb_eq in H
  | H : (_ =? _) = false |- _ => apply Z.eqb_neq in H
  end.

(** Decide a boolean integer test whose truth value follows by [lia]. *)
Ltac ztest :=
  repeat match goal with
  | |- context [?a <? ?b] =>
      first [rewrite (proj2 (Z.ltb_lt a b)) by lia | rewrite (proj2 (Z.ltb_ge a b)) by lia]
  | |- context [?a <=? ?b] =>
      first [rewrite (proj2 (Z.leb_le a b)) by lia | rewrite (proj2 (Z.leb_gt a b)) by lia]
  | |- context [?a =? ?b] =>
      first [rewrite (proj2 (Z.eqb_eq a b)) by lia | rewrite (proj2 (Z.eqb_neq a b)) by lia]
  end.

(** [lia] after turning div/mod by constants into linear constraints. *)
Ltac zlia := Z.to_euclidean_division_equations; lia.

(** ** Machine integers *)

Definition u32 (z : Z) : Z := z mod 2 ^ 32.
Definition u64 (z : Z) : Z := z mod 2 ^ 64.
Definition u16 (z : Z) : Z := z mod 2 ^ 16.
(** Two's complement reading of the low 32 bits. *)
Definition s32 (z : Z) : Z := let r := u32 z in if r <? 2 ^ 31 then r else r - 2 ^ 32.

Definition is_u32 (z : Z) : Prop := 0 <= z < 2 ^ 32.
Definition is_u64 (z : Z) : Prop := 0 <= z < 2 ^ 64.

Lemma u32_range z : is_u32 (u32 z).
Proof. unfold is_u32, u32. apply Z.mod_pos_bound. lia. Qed.

Lemma u64_range z : is_u64 (u64 z).
Proof. unfold is_u64, u64. apply Z.mod_pos_bound. lia. Qed.

Lemma u32_id z : is_u32 z -> u32 z = z.
Proof. intros. apply Z.mod_small. exact H. Qed.

Lemma s32_small z : 0 <= z < 2 ^ 31 -> s32 z = z.
Proof. intros. unfold s32. rewrite u32_id by (unfold is_u32; lia). by rewrite (proj2 (Z.ltb_lt _ _)) by lia. Qed.

Lemma u64_id z : is_u64 z -> u64 z = z.
Proof. intros. apply Z.mod_small. exact H. Qed.

#[export] Hint Resolve u32_range u64_range : nfs.

(** ** Bytes *)

Definition byte_of_Z (z : Z) : byte :=
  match Byte.of_N (Z.to_N (z mod 256)) with Some b => b | None => x00 end.

Definition Z_of_byte (b : byte) : Z := Z.of_N (Byte.to_N b).

Lemma Z_of_byte_range b : 0 <= Z_of_byte b < 256.
Proof. unfold Z_of_byte. pose proof (Byte.to_N_bounded b). lia. Qed.

Lemma Z_of_byte_of_Z z : Z_of_byte (byte_of_Z z) = z mod 256.
Proof.
  unfold Z_of_byte, byte_of_Z.
  pose proof (Z.mod_pos_bound z 256 ltac:(lia)).
  destruct (Byte.of_N _) as [b|] eqn:E.
  - apply Byte.to_of_N in E. rewrite E. lia.
  - apply Byte.of_N_None_iff in E. lia.
Qed.

Lemma byte_of_Z_of_byte b : byte_of_Z (Z_of_byte b) = b.
Proof.
  unfold byte_of_Z, Z_of_byte. pose proof (Byte.to_N_bounded b).
  rewrite Z.mod_small by lia. rewrite N2Z.id. by rewrite Byte.of_to_N.
Qed.

#[export] Instance byte_eq_dec : EqDecision byte := Byte.byte_eq_dec.

(** ** Lists indexed by machine integers *)

Definition zlen {A} (l : list A) : Z := Z.of_nat (length l).
Definition ztake {A} (n : Z) (l : list A) : list A := take (Z.to_nat n) l.
Definition zdrop {A} (n : Z) (l : list A) : list A := drop (Z.to_nat n) l.
Definition zrep (n : Z) : list byte := replicate (Z.to_nat n) x00.
(** [memcpy(base + off, src, length src)] into the area [dst]. *)
Definition zwrite {A} (off : Z) (src dst : list A) : list A :=
  ztake off dst ++ src ++ zdrop (off + zlen src) dst.

Lemma zlen_nonneg {A} (l : list A) : 0 <= zlen l.
Proof. unfold zlen. lia. Qed.

Lemma zlen_nil {A} : zlen (@nil A) = 0.
Proof. done. Qed.

Lemma zlen_cons {A} (x : A) l : zlen (x :: l) = 1 + zlen l.
Proof. unfold zlen. simpl. lia. Qed.

Lemma zlen_app {A} (l k : list A) : zlen (l ++ k) = zlen l + zlen k.
Proof. unfold zlen. rewrite length_app. lia. Qed.

Lemma zlen_ztake {A} n (l : list A) : zlen (ztake n l) = Z.max 0 (Z.min n (zlen l)).
Proof. unfold zlen, ztake. rewrite length_take. lia. Qed.

Lemma zlen_zdrop {A} n (l : list A) : zlen (zdrop n l) = Z.max 0 (zlen l - Z.max 0 n).
Proof. unfold zlen, zdrop. rewrite length_drop. lia. Qed.

Lemma zlen_zrep n : zlen (zrep n) = Z.max 0 n.
Proof. unfold zlen, zrep. rewrite length_replicate. lia. Qed.

Lemma zlen_map {A B} (f : A -> B) l : zlen (f <$> l) = zlen l.
Proof. unfold zlen. by rewrite length_fmap. Qed.

#[export] Hint Rewrite @zlen_nil @zlen_cons @zlen_app @zlen_ztake @zlen_zdrop zlen_zrep
  @zlen_map : nfs_len.

(** Arithmetic goals over list lengths. *)
Ltac llia := autorewrite with nfs_len in *; lia.

Lemma ztake_app_exact {A} n (l k : list A) : n = zlen l -> ztake n (l ++ k) = l.
Proof. intros ->. unfold ztake, zlen. rewrite Nat2Z.id. apply take_app_length. Qed.

Lemma zdrop_app_exact {A} n (l k : list A) : n = zlen l -> zdrop n (l ++ k) = k.
Proof. intros ->. unfold zdrop, zlen. rewrite Nat2Z.id. apply drop_app_length. Qed.

Lemma ztake_app_le {A} n (l k : list A) : n <= zlen l -> ztake n (l ++ k) = ztake n l.
Proof. intros. unfold ztake, zlen in *. apply take_app_le. lia. Qed.

Lemma zdrop_app_le {A} n (l k : list A) : n <= zlen l -> zdrop n (l ++ k) = zdrop n l ++ k.
Proof. intros. unfold zdrop, zlen in *. apply drop_app_le. lia. Qed.

Lemma ztake_app_ge {A} n (l k : list A) :
  zlen l <= n -> ztake n (l ++ k) = l ++ ztake (n - zlen l) k.
Proof.
  intros. unfold ztake, zlen in *. rewrite take_app_ge by lia. do 2 f_equal. lia.
Qed.

Lemma zdrop_app_ge {A} n (l k : list A) :
  zlen l <= n -> zdrop n (l ++ k) = zdrop (n - zlen l) k.
Proof.
  intros. unfold zdrop, zlen in *. rewrite drop_app_ge by lia. f_equal. lia.
Qed.

Lemma ztake_all {A} n (l : list A) : zlen l <= n -> ztake n l = l.
Proof. intros. unfold ztake, zlen in *. apply take_ge. lia. Qed.

Lemma zdrop_all {A} n (l : list A) : zlen l <= n -> zdrop n l = [].
Proof. intros. unfold zdrop, zlen in *. apply drop_ge. lia. Qed.

Lemma ztake_le0 {A} n (l : list A) : n <= 0 -> ztake n l = [].
Proof. intros. unfold ztake. by replace (Z.to_nat n) with O by lia. Qed.

Lemma zdrop_le0 {A} n (l : list A) : n <= 0 -> zdrop n l = l.
Proof. intros. unfold zdrop. by replace (Z.to_nat n) with O by lia. Qed.

Lemma ztake_ztake {A} m n (l : list A) : ztake m (ztake n l) = ztake (Z.min m n) l.
Proof. unfold ztake. rewrite take_take. f_equal. lia. Qed.

Lemma zdrop_zdrop {A} m n (l : list A) :
  0 <= m -> 0 <= n -> zdrop m (zdrop n l) = zdrop (n + m) l.
Proof. intros. unfold zdrop. rewrite drop_drop. f_equal. lia. Qed.

Lemma ztake_zdrop {A} n (l : list A) : ztake n l ++ zdrop n l = l.
Proof. unfold ztake, zdrop. apply take_drop. Qed.

Lemma zdrop_ztake {A} m n (l : list A) :
  0 <= m -> zdrop m (ztake n l) = ztake (n - m) (zdrop m l).
Proof.
  intros. unfold ztake, zdrop.
  destruct (Z_le_gt_dec m n).
  - rewrite skipn_firstn_comm. f_equal. lia.
  - rewrite (drop_ge (take _ _)) by (rewrite length_take; lia).
    by replace (Z.to_nat (n - m)) with O by lia.
Qed.

(** Two successive blocks read one after the other are one block. *)
Lemma ztake_split {A} m n (l : list A) :
  0 <= m <= n -> ztake n l = ztake m l ++ ztake (n - m) (zdrop m l).
Proof.
  intros. rewrite <- (ztake_zdrop m l) at 1.
  destruct (Z_le_gt_dec m (zlen l)).
  - rewrite ztake_app_ge by llia. f_equal. f_equal. llia.
  - rewrite (zdrop_all m l) by lia. rewrite app_nil_r, (ztake_all m l) by lia.
    unfold ztake at 2. rewrite take_nil, app_nil_r. apply ztake_all. lia.
Qed.
