(* ===== verification/Xdr.v ===== *)
(** * XDR primitives and the stream interface

    [include/linux/sunrpc/xdr.h] and the head of [net/sunrpc/xdr.c]: the
    32-bit and 64-bit big-endian items, the padding arithmetic, and the
    opaque and string items.  The file ends with the two interfaces the codecs
    are written against: [XdrIn], a stream bytes can be taken from with
    [xdr_inline_decode], and [XdrOut], a stream space can be reserved in with
    [xdr_reserve_space].  [XdrInLaws] and [XdrOutLaws] say what a stream
    promises; XdrDecode and XdrEncode discharge them for [struct xdr_stream]. *)

From S2P Require Import Prelude.

(** ** Errno values the XDR layer returns (negated, as in the C code) *)

Definition EPERM := 1.
Definition ENOENT := 2.
Definition EIO := 5.
Definition ENXIO := 6.
Definition EAGAIN := 11.
Definition ENOMEM := 12.
Definition EACCES := 13.
Definition EBUSY := 16.
Definition EEXIST := 17.
Definition EXDEV := 18.
Definition ENODEV := 19.
Definition ENOTDIR := 20.
Definition EISDIR := 21.
Definition EINVAL := 22.
Definition EFBIG := 27.
Definition ENOSPC := 28.
Definition EROFS := 30.
Definition EMLINK := 31.
Definition ENAMETOOLONG := 36.
Definition ENOTEMPTY := 39.
Definition E2BIG := 7.
Definition EREMOTE := 66.
Definition EBADMSG := 74.
Definition EMSGSIZE := 90.
Definition EDQUOT := 122.
Definition ESTALE := 116.
Definition EREMOTEIO := 121.
Definition EBADHANDLE := 521.
Definition ENOTSYNC := 522.
Definition EBADCOOKIE := 523.
Definition ENOTSUPP := 524.
Definition ETOOSMALL := 525.
Definition EBADTYPE := 527.
Definition EJUKEBOX := 528.

(** ** Sizes *)

Definition XDR_UNIT := 4.
Definition XDR_MAX_NETOBJ := 1024.

(** [XDR_QUADLEN(l)] on an [unsigned int]: the sum wraps at 32 bits. *)
Definition XDR_QUADLEN (l : Z) : Z := Z.shiftr (u32 (l + 3)) 2.
(** The same macro on a [size_t]. *)
Definition XDR_QUADLEN_sz (l : Z) : Z := Z.shiftr (u64 (l + 3)) 2.

Definition xdr_align_size (n : Z) : Z :=
  let mask := XDR_UNIT - 1 in Z.land (u64 (n + mask)) (u64 (Z.lnot mask)).

Definition xdr_pad_size (n : Z) : Z := u64 (xdr_align_size n - n).

(** Padding arithmetic without machine words; the specification side. *)
Definition align4 (n : Z) : Z := 4 * ((n + 3) / 4).

Lemma land_lnot3 m : 0 <= m < 2 ^ 64 -> Z.land m (u64 (Z.lnot 3)) = 4 * (m / 4).
Proof.
  intros. rewrite Z.mul_comm. change 4 with (2 ^ 2).
  rewrite <- Z.shiftr_div_pow2, <- Z.shiftl_mul_pow2 by lia.
  apply Z.bits_inj'. intros i Hi. rewrite Z.land_spec.
  destruct (decide (i < 2)).
  - rewrite Z.shiftl_spec_low by lia.
    assert (i = 0 \/ i = 1) as [-> | ->] by lia; apply andb_false_r.
  - rewrite Z.shiftl_spec_high, Z.shiftr_spec by lia.
    replace (i - 2 + 2) with i by lia.
    destruct (decide (i < 64)).
    + unfold u64. rewrite Z.mod_pow2_bits_low, Z.lnot_spec by lia.
      change 3 with (Z.ones 2). rewrite Z.ones_spec_high by lia. apply andb_true_r.
    + unfold u64. rewrite Z.mod_pow2_bits_high by lia. rewrite andb_false_r.
      symmetry. apply Z.bits_above_log2; [lia|].
      destruct (decide (m = 0)) as [->|]; [simpl; lia|].
      apply Z.log2_lt_pow2; [lia|].
      apply Z.lt_le_trans with (2 ^ 64); [lia|apply Z.pow_le_mono_r; lia].
Qed.

Lemma xdr_align_size_align4 n : 0 <= n < 2 ^ 64 - 3 -> xdr_align_size n = align4 n.
Proof.
  intros. unfold xdr_align_size, XDR_UNIT, align4.
  change (4 - 1) with 3. rewrite u64_id by (unfold is_u64; lia).
  apply land_lnot3. lia.
Qed.

Lemma XDR_QUADLEN_sz_div n : 0 <= n < 2 ^ 64 - 3 -> XDR_QUADLEN_sz n = (n + 3) / 4.
Proof.
  intros. unfold XDR_QUADLEN_sz. rewrite u64_id by (unfold is_u64; lia).
  by rewrite Z.shiftr_div_pow2 by lia.
Qed.

Lemma XDR_QUADLEN_div n : 0 <= n < 2 ^ 32 - 3 -> XDR_QUADLEN n = (n + 3) / 4.
Proof.
  intros. unfold XDR_QUADLEN. rewrite u32_id by (unfold is_u32; lia).
  by rewrite Z.shiftr_div_pow2 by lia.
Qed.

Lemma align4_range n : n <= align4 n < n + 4.
Proof. unfold align4. zlia. Qed.

Lemma align4_mod n : align4 n mod 4 = 0.
Proof. unfold align4. zlia. Qed.

Lemma align4_id n : n mod 4 = 0 -> align4 n = n.
Proof. unfold align4. intros. zlia. Qed.

Lemma align4_mono m n : m <= n -> align4 m <= align4 n.
Proof. unfold align4. intros. zlia. Qed.

(** [xdr_pad_size] is the branch-free computation of the 0..3 pad bytes. *)
Lemma xdr_pad_size_spec n : 0 <= n < 2 ^ 64 - 3 -> xdr_pad_size n = (- n) mod 4.
Proof.
  intros. unfold xdr_pad_size. rewrite xdr_align_size_align4 by lia.
  pose proof (align4_range n). unfold u64, align4 in *. zlia.
Qed.

(** ** Big-endian items *)

(** [cpu_to_be32]: the four bytes of the low 32 bits of a host integer. *)
Definition be32 (v : Z) : list byte :=
  [byte_of_Z (v / 2 ^ 24); byte_of_Z (v / 2 ^ 16); byte_of_Z (v / 2 ^ 8); byte_of_Z v].

(** [be32_to_cpup] at the start of an area. *)
Definition be32_to_cpu (p : list byte) : Z :=
  match p with
  | a :: b :: c :: d :: _ =>
      Z_of_byte a * 2 ^ 24 + Z_of_byte b * 2 ^ 16 + Z_of_byte c * 2 ^ 8 + Z_of_byte d
  | _ => 0
  end.

(** [put_unaligned_be64] and [get_unaligned_be64], the body of
    [xdr_encode_hyper] and [xdr_decode_hyper]. *)
Definition be64 (v : Z) : list byte := be32 (v / 2 ^ 32) ++ be32 v.
Definition be64_to_cpu (p : list byte) : Z :=
  be32_to_cpu p * 2 ^ 32 + be32_to_cpu (drop 4 p).

#[global] Arguments be32 : simpl never.
#[global] Arguments be64 : simpl never.

Lemma zlen_be32 v : zlen (be32 v) = 4.
Proof. done. Qed.

Lemma zlen_be64 v : zlen (be64 v) = 8.
Proof. done. Qed.

#[export] Hint Rewrite zlen_be32 zlen_be64 : nfs_len.

Lemma be32_to_cpu_app v r : be32_to_cpu (be32 v ++ r) = u32 v.
Proof.
  unfold be32, be32_to_cpu. simpl app. cbv iota beta. rewrite !Z_of_byte_of_Z.
  unfold u32. zlia.
Qed.

Lemma be64_to_cpu_app v r : be64_to_cpu (be64 v ++ r) = u64 v.
Proof.
  unfold be64, be64_to_cpu. rewrite <- app_assoc.
  rewrite (drop_app_length' (be32 _)) by done.
  rewrite !be32_to_cpu_app. unfold u32, u64. zlia.
Qed.

Lemma be32_to_cpu_range p : is_u32 (be32_to_cpu p).
Proof.
  unfold be32_to_cpu, is_u32. destruct p as [|a [|b [|c [|d p]]]]; try lia.
  pose proof (Z_of_byte_range a). pose proof (Z_of_byte_range b).
  pose proof (Z_of_byte_range c). pose proof (Z_of_byte_range d). lia.
Qed.

Lemma be64_to_cpu_range p : is_u64 (be64_to_cpu p).
Proof.
  unfold be64_to_cpu, is_u64.
  pose proof (be32_to_cpu_range p). pose proof (be32_to_cpu_range (drop 4 p)).
  unfold is_u32 in *. lia.
Qed.

(** Four wire bytes are the encoding of the number they hold. *)
Lemma be32_be32_to_cpu a b c d : be32 (be32_to_cpu [a; b; c; d]) = [a; b; c; d].
Proof.
  unfold be32, be32_to_cpu.
  pose proof (Z_of_byte_range a). pose proof (Z_of_byte_range b).
  pose proof (Z_of_byte_range c). pose proof (Z_of_byte_range d).
  assert (E : forall z x, z mod 256 = Z_of_byte x -> byte_of_Z z = x).
  { intros z x E. rewrite <- (byte_of_Z_of_byte x), <- E.
    unfold byte_of_Z. by rewrite Z.mod_mod by lia. }
  f_equal; [apply E; zlia|]. f_equal; [apply E; zlia|]. f_equal; [apply E; zlia|].
  f_equal. apply E. zlia.
Qed.

#[export] Hint Resolve be32_to_cpu_range be64_to_cpu_range : nfs.

(** ** Opaque items, written at a pointer

    A function that stores at [p] and returns the advanced pointer is modelled
    by the bytes it leaves there; the pointer advances by their number. *)

(** [xdr_encode_opaque_fixed].  [data] is [*ptr], or, when [ptr] is NULL, the
    bytes already at [p] (then "only the padding is performed"). *)
Definition xdr_encode_opaque_fixed (data : list byte) (nbytes : Z) : list byte :=
  if nbytes =? 0 then []
  else
    let quadlen := XDR_QUADLEN nbytes in
    let padding := u32 (Z.shiftl quadlen 2 - nbytes) in
    ztake nbytes data ++ (if padding =? 0 then [] else zrep padding).

Definition xdr_encode_opaque (data : list byte) (nbytes : Z) : list byte :=
  be32 nbytes ++ xdr_encode_opaque_fixed data nbytes.

(** [xdr_encode_netobj] zeroes the last word first and then copies over it;
    [old] is what the area at [p] held before. *)
Definition xdr_encode_netobj (old data : list byte) (len : Z) : list byte :=
  let quadlen := XDR_QUADLEN len in
  let a := zwrite (4 * quadlen) (be32 0) old in
  let a := zwrite 0 (be32 len) a in
  let a := zwrite 4 (ztake len data) a in
  ztake (4 + 4 * quadlen) a.

(** [xdr_decode_netobj]: [None] is the NULL return; otherwise the object's
    bytes and what follows them. *)
Definition xdr_decode_netobj (p : list byte) : option (list byte * list byte) :=
  let len := be32_to_cpu p in
  let p := zdrop 4 p in
  if XDR_MAX_NETOBJ <? len then None
  else Some (ztake len p, zdrop (4 * XDR_QUADLEN len) p).

(** [xdr_decode_string_inplace] *)
Definition xdr_decode_string_inplace (p : list byte) (maxlen : Z)
    : option (list byte * Z * list byte) :=
  let len := be32_to_cpu p in
  let p := zdrop 4 p in
  if maxlen <? len then None
  else Some (ztake len p, len, zdrop (4 * XDR_QUADLEN len) p).

(** [xdr_encode_bool] *)
Definition xdr_encode_bool (n : Z) : list byte := if n =? 0 then be32 0 else be32 1.

(** The XDR (RFC 4506) form of an opaque item: its bytes padded with zeros to
    a multiple of four, preceded by the length when it is variable. *)
Definition w_fixed (bs : list byte) : list byte := bs ++ zrep ((- zlen bs) mod 4).
Definition w_opaque (bs : list byte) : list byte := be32 (zlen bs) ++ w_fixed bs.

Lemma zlen_w_fixed bs : zlen (w_fixed bs) = align4 (zlen bs).
Proof.
  unfold w_fixed, align4. autorewrite with nfs_len.
  pose proof (zlen_nonneg bs). zlia.
Qed.

Lemma zlen_w_opaque bs : zlen (w_opaque bs) = 4 + align4 (zlen bs).
Proof. unfold w_opaque. autorewrite with nfs_len. by rewrite zlen_w_fixed. Qed.

#[export] Hint Rewrite zlen_w_fixed zlen_w_opaque : nfs_len.

Lemma xdr_encode_opaque_fixed_spec bs :
  zlen bs < 2 ^ 32 - 3 -> xdr_encode_opaque_fixed bs (zlen bs) = w_fixed bs.
Proof.
  intros. unfold xdr_encode_opaque_fixed, w_fixed. pose proof (zlen_nonneg bs).
  destruct (Z.eqb_spec (zlen bs) 0) as [E|].
  - unfold zlen in E. destruct bs; [done|simpl in E; lia].
  - rewrite ztake_all by lia. rewrite XDR_QUADLEN_div by lia.
    rewrite Z.shiftl_mul_pow2 by lia.
    replace (u32 ((zlen bs + 3) / 4 * 2 ^ 2 - zlen bs)) with ((- zlen bs) mod 4)
      by (unfold u32; zlia).
    f_equal. destruct (Z.eqb_spec ((- zlen bs) mod 4) 0) as [->|]; done.
Qed.

Lemma xdr_encode_opaque_spec bs :
  zlen bs < 2 ^ 32 - 3 -> xdr_encode_opaque bs (zlen bs) = w_opaque bs.
Proof. intros. unfold xdr_encode_opaque, w_opaque. by rewrite xdr_encode_opaque_fixed_spec. Qed.

Lemma zwrite_0 {A} (src dst : list A) : zwrite 0 src dst = src ++ zdrop (zlen src) dst.
Proof. unfold zwrite. rewrite ztake_le0 by lia. by rewrite Z.add_0_l. Qed.

Lemma zlen_zwrite {A} off (src dst : list A) :
  0 <= off -> off + zlen src <= zlen dst -> zlen (zwrite off src dst) = zlen dst.
Proof. intros. pose proof (zlen_nonneg src). unfold zwrite. llia. Qed.

Lemma zrep_be32_0 : be32 0 = zrep 4.
Proof. done. Qed.

Lemma zdrop_zrep m n : 0 <= m -> zdrop m (zrep n) = zrep (n - m).
Proof.
  intros. unfold zdrop, zrep. rewrite drop_replicate. f_equal. lia.
Qed.

(** Zeroing the last word before the copy leaves exactly the padded item,
    whatever the buffer held. *)
Lemma xdr_encode_netobj_spec old bs :
  zlen bs < 2 ^ 32 - 3 -> zlen old = 4 + align4 (zlen bs) ->
  xdr_encode_netobj old bs (zlen bs) = w_opaque bs.
Proof.
  intros Hl Ho. pose proof (zlen_nonneg bs). unfold xdr_encode_netobj.
  rewrite XDR_QUADLEN_div by lia. rewrite (ztake_all _ bs) by lia.
  change (4 * ((zlen bs + 3) / 4)) with (align4 (zlen bs)).
  pose proof (align4_range (zlen bs)). pose proof (align4_mod (zlen bs)).
  set (q := align4 (zlen bs)) in *.
  assert (L1 : zlen (zwrite q (be32 0) old) = zlen old) by (apply zlen_zwrite; llia).
  assert (L2 : zlen (zwrite 0 (be32 (zlen bs)) (zwrite q (be32 0) old)) = zlen old)
    by (rewrite zlen_zwrite; rewrite ?L1; llia).
  rewrite (ztake_all (4 + q)) by (rewrite zlen_zwrite; rewrite ?L2; lia).
  rewrite zwrite_0. autorewrite with nfs_len.
  unfold zwrite at 1. rewrite ztake_app_exact by done.
  rewrite zdrop_app_ge by llia. autorewrite with nfs_len.
  replace (4 + zlen bs - 4) with (zlen bs) by lia.
  unfold w_opaque, w_fixed. f_equal. f_equal.
  destruct (decide (q = 0)) as [E|].
  { assert (zlen bs = 0) as -> by lia. rewrite E. rewrite zwrite_0.
    rewrite zrep_be32_0. autorewrite with nfs_len.
    rewrite (zdrop_all _ old) by lia. done. }
  unfold zwrite. rewrite (zdrop_all _ old) by llia. rewrite app_nil_r.
  rewrite zdrop_zdrop by lia. rewrite zdrop_app_ge by llia. autorewrite with nfs_len.
  rewrite zrep_be32_0, zdrop_zrep by lia.
  f_equal. unfold q in *. unfold align4 in *. zlia.
Qed.

Lemma xdr_decode_netobj_spec bs r :
  zlen bs <= XDR_MAX_NETOBJ -> xdr_decode_netobj (w_opaque bs ++ r) = Some (bs, r).
Proof.
  unfold XDR_MAX_NETOBJ. intros. pose proof (zlen_nonneg bs).
  unfold xdr_decode_netobj, w_opaque, XDR_MAX_NETOBJ.
  rewrite <- app_assoc, be32_to_cpu_app, u32_id by (unfold is_u32; lia).
  rewrite (proj2 (Z.ltb_ge _ _)) by lia.
  rewrite (zdrop_app_exact 4) by done.
  rewrite XDR_QUADLEN_div by lia. change (4 * ((zlen bs + 3) / 4)) with (align4 (zlen bs)).
  rewrite (zdrop_app_exact _ (w_fixed bs)) by llia.
  unfold w_fixed. rewrite <- app_assoc. by rewrite ztake_app_exact.
Qed.

(** ** The decode stream interface *)

(** What a C decoder returned: [Ok v] with the values stored through its
    output pointers, or [Err r], its failure value (a negative errno, or 0
    where the function returns [false]). *)
Inductive res (A : Type) :=
| Ok (a : A)
| Err (e : Z).
Arguments Ok {A} a.
Arguments Err {A} e.

Class XdrIn (S : Type) := xdr_inline_decode : Z -> S -> option (list byte) * S.

Definition dec (S A : Type) := S -> res A * S.

Definition dret {S A} (a : A) : dec S A := fun s => (Ok a, s).
Definition dfail {S A} (e : Z) : dec S A := fun s => (Err e, s).
Definition dbind {S A B} (m : dec S A) (k : A -> dec S B) : dec S B := fun s =>
  match m s with (Ok a, s') => k a s' | (Err e, s') => (Err e, s') end.
(** [if (m < 0) return e;] *)
Definition or_return {S A} (e : Z) (m : dec S A) : dec S A := fun s =>
  match m s with (Ok a, s') => (Ok a, s') | (Err _, s') => (Err e, s') end.
Definition dguard {S} (b : bool) (e : Z) : dec S unit := if b then dret tt else dfail e.

Notation "x <- m ;; k" := (dbind m (fun x => k))
  (at level 100, m at next level, right associativity) : nfs_scope.
Notation "' p <- m ;; k" := (dbind m (fun x => match x with p => k end))
  (at level 20, p pattern, m at level 99, k at level 200) : nfs_scope.
Notation "m ;;; k" := (dbind m (fun _ => k))
  (at level 100, right associativity) : nfs_scope.

(** What a decode stream promises: [xi_rest] is the part of the message not
    yet decoded, [xi_contig] a number of bytes of it that lie in the buffer
    fragment the stream points into.  A request inside that fragment succeeds;
    any request that succeeds returns the next bytes of the message and
    consumes them with their padding. *)
Class XdrInLaws (S : Type) `{XdrIn S} := {
  xi_wf : S -> Prop;
  xi_rest : S -> list byte;
  xi_contig : S -> Z;
  xi_contig_le : forall s, xi_wf s -> 0 <= xi_contig s <= zlen (xi_rest s);
  xi_inline_ok : forall s n, xi_wf s -> 0 <= n -> align4 n <= xi_contig s ->
    exists s', xdr_inline_decode n s = (Some (ztake n (xi_rest s)), s') /\ xi_wf s' /\
      xi_rest s' = zdrop (align4 n) (xi_rest s) /\ xi_contig s' = xi_contig s - align4 n;
  xi_inline_sound : forall s n r s', xi_wf s -> 0 <= n < 2 ^ 32 ->
    xdr_inline_decode n s = (r, s') -> xi_wf s' /\
    match r with
    | Some bs => bs = ztake n (xi_rest s) /\ zlen bs = n /\
                 xi_rest s' = zdrop (align4 n) (xi_rest s)
    | None => exists w, xi_rest s = w ++ xi_rest s'
    end;
}.

Section Dec.
  Context {S : Type} `{XI : XdrIn S}.

(** [p = xdr_inline_decode(xdr, n); if (unlikely(!p)) return e;] *)
Definition inline_or (n e : Z) : dec S (list byte) := fun s =>
  match xdr_inline_decode n s with
  | (Some bs, s') => (Ok bs, s')
  | (None, s') => (Err e, s')
  end.

Definition xdr_stream_decode_bool : dec S Z :=
  p <- inline_or 4 (- EBADMSG);;
  dret (if be32_to_cpu p =? 0 then 0 else 1).

Definition xdr_stream_decode_u32 : dec S Z :=
  p <- inline_or 4 (- EBADMSG);; dret (be32_to_cpu p).

Definition xdr_stream_decode_u64 : dec S Z :=
  p <- inline_or 8 (- EBADMSG);; dret (be64_to_cpu p).

Definition xdr_stream_decode_opaque_fixed (len : Z) : dec S (list byte) :=
  p <- inline_or len (- EBADMSG);; dret (ztake len p).

(** The object returned is [*ptr] and its length the return value. *)
Definition xdr_stream_decode_opaque_inline (maxlen : Z) : dec S (list byte) :=
  len <- or_return (- EBADMSG) xdr_stream_decode_u32;;
  if negb (len =? 0) then
    p <- inline_or len (- EBADMSG);;
    if maxlen <? len then dfail (- EMSGSIZE) else dret (ztake len p)
  else dret [].

(** The words stored in [array] (none past [array_size]); a longer array is
    stored up to [array_size] and reported with -EMSGSIZE. *)
Fixpoint be32_words (n : nat) (p : list byte) : list Z :=
  match n with O => [] | Datatypes.S n => be32_to_cpu p :: be32_words n (drop 4 p) end.

Definition xdr_stream_decode_uint32_array (array_size : Z) : dec S (list Z) :=
  len <- or_return (- EBADMSG) xdr_stream_decode_u32;;
  if (2 ^ 64 - 1) / 4 <? len then dfail (- EBADMSG) else
  p <- inline_or (len * 4) (- EBADMSG);;
  if len <=? array_size
  then dret (be32_words (Z.to_nat len) p ++ repeat 0 (Z.to_nat (array_size - len)))
  else dfail (- EMSGSIZE).
End Dec.

(** ** The encode stream interface

    [xdr_put n bs]: [p = xdr_reserve_space(xdr, n)] followed by the stores of
    [bs] at [p]; [None] when the reservation returned NULL.
    [xdr_write_pages pages base len]: insert the bytes of a page array into
    the message; [None] where the C code hits its BUG_ON. *)
Class XdrOut (S : Type) := {
  xdr_put : Z -> list byte -> S -> option S;
  xdr_write_pages : Z -> Z -> Z -> S -> option S;
  xdr_or_flags : Z -> S -> S;            (* [xdr->buf->flags |= f] *)
}.

Definition enc (S : Type) := S -> option S.
Definition enop {S} : enc S := fun s => Some s.
Definition efail {S} : enc S := fun _ => None.
Definition eseq {S} (a b : enc S) : enc S := fun s =>
  match a s with Some s' => b s' | None => None end.
Notation "a >> b" := (eseq a b) (at level 62, right associativity) : nfs_scope.

(** [xo_out] is the message encoded so far, [xo_room] the space left.
    [xo_inl] holds while the message is still in one kvec, the condition under
    which page data can be inserted; [xo_pdata] is that data. *)
Class XdrOutLaws (S : Type) `{XdrOut S} := {
  xo_wf : S -> Prop;
  xo_out : S -> list byte;
  xo_room : S -> Z;
  xo_inl : S -> Prop;
  xo_pdata : S -> Z -> Z -> Z -> option (list byte);
  xo_put_ok : forall s n bs, xo_wf s -> 0 <= n <= 4096 -> zlen bs = align4 n ->
    align4 n <= xo_room s ->
    exists s', xdr_put n bs s = Some s' /\ xo_wf s' /\
      xo_out s' = xo_out s ++ bs /\ xo_room s' = xo_room s - align4 n /\
      (xo_inl s -> xo_inl s' /\ forall p b l, xo_pdata s' p b l = xo_pdata s p b l);
  xo_write_pages_ok : forall s p b l bs, xo_wf s -> xo_inl s -> xo_pdata s p b l = Some bs ->
    4 <= xo_room s ->
    exists s', xdr_write_pages p b l s = Some s' /\ xo_wf s' /\ xo_out s' = xo_out s ++ w_fixed bs;
  xo_or_flags_ok : forall s f, xo_wf s -> xo_wf (xdr_or_flags f s) /\ xo_out (xdr_or_flags f s) = xo_out s;
}.

Section Enc.
  Context {S : Type} `{XO : XdrOut S}.

Definition xdr_stream_encode_item_present : enc S := xdr_put XDR_UNIT (be32 1).
Definition xdr_stream_encode_item_absent : enc S := xdr_put XDR_UNIT (be32 0).
Definition xdr_stream_encode_bool (n : Z) : enc S := xdr_put XDR_UNIT (xdr_encode_bool n).
Definition xdr_stream_encode_u32 (n : Z) : enc S := xdr_put 4 (be32 n).
Definition xdr_stream_encode_u64 (n : Z) : enc S := xdr_put 8 (be64 n).
Definition xdr_stream_encode_opaque_fixed (bs : list byte) (len : Z) : enc S :=
  xdr_put len (xdr_encode_opaque_fixed bs len).
Definition xdr_stream_encode_opaque (bs : list byte) (len : Z) : enc S :=
  xdr_put (4 + xdr_align_size len) (xdr_encode_opaque bs len).
Definition xdr_stream_encode_uint32_array (array : list Z) : enc S :=
  xdr_put ((zlen array + 1) * 4) (be32 (zlen array) ++ concat (be32 <$> array)).
End Enc.
