(* ===== verification/XdrSpec.v ===== *)
(** * Wire-format reasoning

    How the codecs are specified against the stream interfaces of Xdr:
    [encodes m w] (the encoder appends exactly the bytes [w]), [decodes m w v]
    (the decoder, met with the bytes [w], consumes them and returns [v]),
    [rejects m w e] (it returns the failure value [e]), and [safe m] (on any
    message whatsoever the decoder keeps the stream well formed and only ever
    moves forward inside the message).  The composition lemmas and the hint
    database [xdr] built here carry the codec proofs. *)

From S2P Require Import Prelude Xdr.

Create HintDb xdr discriminated.

(** ** Decoding *)

Section Decodes.
  Context {S : Type} `{XI : XdrIn S} {XL : @XdrInLaws S XI}.

Definition decodes {A} (m : dec S A) (w : list byte) (v : A) : Prop :=
  forall s r, xi_wf s -> xi_rest s = w ++ r -> zlen w <= xi_contig s ->
  exists s', m s = (Ok v, s') /\ xi_wf s' /\ xi_rest s' = r /\
    xi_contig s' = xi_contig s - zlen w.

Definition rejects {A} (m : dec S A) (w : list byte) (e : Z) : Prop :=
  forall s r, xi_wf s -> xi_rest s = w ++ r -> zlen w <= xi_contig s ->
  exists s', m s = (Err e, s') /\ xi_wf s'.

Definition safe {A} (m : dec S A) : Prop :=
  forall s x s', xi_wf s -> m s = (x, s') ->
  xi_wf s' /\ exists w, xi_rest s = w ++ xi_rest s'.

Lemma decodes_ret {A} (v : A) : decodes (dret v) [] v.
Proof.
  intros s r W E _. exists s. rewrite zlen_nil, Z.sub_0_r. done.
Qed.

Lemma decodes_bind {A B} (m : dec S A) (k : A -> dec S B) w1 w2 a b :
  decodes m w1 a -> decodes (k a) w2 b -> decodes (dbind m k) (w1 ++ w2) b.
Proof.
  intros H1 H2 s r W E L. rewrite <- app_assoc in E. autorewrite with nfs_len in L.
  pose proof (zlen_nonneg w2).
  destruct (H1 s _ W E) as (s1 & E1 & W1 & R1 & C1); [lia|].
  destruct (H2 s1 r W1 R1) as (s2 & E2 & W2 & R2 & C2); [lia|].
  exists s2. unfold dbind. rewrite E1, E2. split_and!; try done. llia.
Qed.

(** The last item of a message. *)
Lemma decodes_last {A B} (m : dec S A) (k : A -> dec S B) w a b :
  decodes m w a -> decodes (k a) [] b -> decodes (dbind m k) w b.
Proof. intros. rewrite <- (app_nil_r w). by eapply decodes_bind. Qed.

Lemma decodes_or_return {A} e (m : dec S A) w v : decodes m w v -> decodes (or_return e m) w v.
Proof.
  intros H s r W E L. destruct (H s r W E L) as (s' & E' & ?).
  exists s'. unfold or_return. by rewrite E'.
Qed.

Lemma rejects_bind_l {A B} (m : dec S A) (k : A -> dec S B) w e :
  rejects m w e -> rejects (dbind m k) w e.
Proof.
  intros H s r W E L. destruct (H s r W E L) as (s' & E' & ?).
  exists s'. unfold dbind. by rewrite E'.
Qed.

Lemma rejects_bind_r {A B} (m : dec S A) (k : A -> dec S B) w1 w2 a e :
  decodes m w1 a -> rejects (k a) w2 e -> rejects (dbind m k) (w1 ++ w2) e.
Proof.
  intros H1 H2 s r W E L. rewrite <- app_assoc in E. autorewrite with nfs_len in L.
  pose proof (zlen_nonneg w2).
  destruct (H1 s _ W E) as (s1 & E1 & W1 & R1 & C1); [lia|].
  destruct (H2 s1 r W1 R1) as (s2 & E2 & W2); [lia|].
  exists s2. unfold dbind. by rewrite E1, E2.
Qed.

Lemma rejects_fail {A} e : rejects (@dfail S A e) [] e.
Proof. intros s r W E _. by exists s. Qed.

(** The decoders' one primitive: take [n] bytes with their padding. *)
Lemma decodes_inline n e bs pad :
  zlen bs = n -> zlen pad = align4 n - n -> decodes (inline_or n e) (bs ++ pad) bs.
Proof.
  intros Hb Hp s r W E L. autorewrite with nfs_len in L.
  pose proof (zlen_nonneg bs).
  destruct (xi_inline_ok s n W) as (s' & E' & W' & R' & C'); [lia..|].
  exists s'. unfold inline_or. rewrite E'. split_and!; try done.
  - rewrite E, <- app_assoc. by rewrite ztake_app_exact.
  - rewrite R', E. apply zdrop_app_exact. llia.
  - llia.
Qed.

Lemma decodes_inline_aligned n e bs :
  zlen bs = n -> n mod 4 = 0 -> decodes (inline_or n e) bs bs.
Proof.
  intros Hb Hn. rewrite <- (app_nil_r bs) at 1. apply decodes_inline; [done|].
  rewrite align4_id by done. rewrite zlen_nil. lia.
Qed.

Lemma decodes_inline_fixed n e bs : zlen bs = n -> decodes (inline_or n e) (w_fixed bs) bs.
Proof.
  intros <-. apply decodes_inline; [done|]. autorewrite with nfs_len.
  pose proof (zlen_nonneg bs). unfold align4. zlia.
Qed.

(** A decoder that reads an aligned block and interprets it. *)
Lemma decodes_block {B} n e (k : list byte -> dec S B) bs b :
  zlen bs = n -> n mod 4 = 0 -> decodes (k bs) [] b ->
  decodes (dbind (inline_or n e) k) bs b.
Proof.
  intros. rewrite <- (app_nil_r bs). eapply decodes_bind; [|done].
  by apply decodes_inline_aligned.
Qed.

(** [safe]: closed under the combinators. *)
Lemma safe_ret {A} (v : A) : safe (dret v).
Proof. intros s x s' W [= <- <-]. split; [done|]. by exists []. Qed.

Lemma safe_fail {A} e : safe (@dfail S A e).
Proof. intros s x s' W [= <- <-]. split; [done|]. by exists []. Qed.

Lemma safe_bind {A B} (m : dec S A) (k : A -> dec S B) :
  safe m -> (forall a, safe (k a)) -> safe (dbind m k).
Proof.
  intros H1 H2 s x s' W E. unfold dbind in E. destruct (m s) as [[a|e] s1] eqn:Em.
  - destruct (H1 _ _ _ W Em) as (W1 & w1 & R1). destruct (H2 _ _ _ _ W1 E) as (W2 & w2 & R2).
    split; [done|]. exists (w1 ++ w2). by rewrite R1, R2, app_assoc.
  - simplify_eq. by apply (H1 s (Err e)).
Qed.

Lemma safe_or_return {A} e (m : dec S A) : safe m -> safe (or_return e m).
Proof.
  intros H s x s' W E. unfold or_return in E.
  destruct (m s) as [[a|e'] s1] eqn:Em; simplify_eq; eapply H; eauto.
Qed.

Lemma safe_inline n e : 0 <= n < 2 ^ 32 -> safe (inline_or n e).
Proof.
  intros Hn s x s' W E. unfold inline_or in E.
  destruct (xdr_inline_decode n s) as [r s1] eqn:Ei.
  destruct (xi_inline_sound s n r s1 W Hn Ei) as [W1 H].
  destruct r as [bs|]; simplify_eq; split; try done.
  destruct H as (_ & _ & ->). exists (ztake (align4 n) (xi_rest s)).
  by rewrite ztake_zdrop.
Qed.

Lemma safe_if {A} (b : bool) (m1 m2 : dec S A) : safe m1 -> safe m2 -> safe (if b then m1 else m2).
Proof. by destruct b. Qed.

Lemma safe_guard b e : safe (@dguard S b e).
Proof. destruct b; [apply safe_ret|apply safe_fail]. Qed.

(** A decoded word is a 32-bit number: what the code does with a length read
    from the wire may rely on it. *)
Lemma safe_bind_u32 {B} (k : Z -> dec S B) e :
  (forall v, is_u32 v -> safe (k v)) -> safe (dbind (or_return e xdr_stream_decode_u32) k).
Proof.
  intros H s x s' W E.
  assert (Su : safe (or_return e xdr_stream_decode_u32)).
  { apply safe_or_return, safe_bind; [apply safe_inline; lia|intros; apply safe_ret]. }
  unfold dbind at 1 in E.
  destruct (or_return e xdr_stream_decode_u32 s) as [[a|e'] s1] eqn:Em.
  - assert (is_u32 a).
    { unfold or_return, xdr_stream_decode_u32, dbind, inline_or, dret in Em.
      destruct (xdr_inline_decode 4 s) as [[bs|] ?]; simplify_eq/=. apply be32_to_cpu_range. }
    destruct (Su _ _ _ W Em) as (W1 & w1 & R1).
    destruct (H a H0 _ _ _ W1 E) as (W2 & w2 & R2).
    split; [done|]. exists (w1 ++ w2). by rewrite R1, R2, app_assoc.
  - simplify_eq. by apply (Su s (Err e')).
Qed.

Lemma safe_bind_u32_inline {B} (k : Z -> dec S B) e :
  (forall v, is_u32 v -> safe (k v)) ->
  safe (dbind (inline_or 4 e) (fun p => k (be32_to_cpu p))).
Proof.
  intros H. apply safe_bind; [apply safe_inline; lia|].
  intros p. apply H, be32_to_cpu_range.
Qed.

(** ** The items of xdr.h *)

Lemma safe_u32 : safe xdr_stream_decode_u32.
Proof. apply safe_bind; [apply safe_inline; lia|intros; apply safe_ret]. Qed.
Lemma safe_u64 : safe xdr_stream_decode_u64.
Proof. apply safe_bind; [apply safe_inline; lia|intros; apply safe_ret]. Qed.
Lemma safe_bool : safe xdr_stream_decode_bool.
Proof. apply safe_bind; [apply safe_inline; lia|intros; apply safe_ret]. Qed.

Lemma safe_opaque_inline maxlen : safe (xdr_stream_decode_opaque_inline maxlen).
Proof.
  apply safe_bind_u32. intros v Hv. unfold is_u32 in Hv.
  apply safe_if; [|apply safe_ret]. apply safe_bind; [by apply safe_inline|].
  intros. apply safe_if; [apply safe_fail|apply safe_ret].
Qed.

Lemma decodes_u32 v : is_u32 v -> decodes xdr_stream_decode_u32 (be32 v) v.
Proof.
  intros. unfold xdr_stream_decode_u32. apply decodes_block; [done..|].
  rewrite <- (app_nil_r (be32 v)), be32_to_cpu_app, u32_id by done. apply decodes_ret.
Qed.

Lemma decodes_u64 v : is_u64 v -> decodes xdr_stream_decode_u64 (be64 v) v.
Proof.
  intros. unfold xdr_stream_decode_u64. apply decodes_block; [done..|].
  rewrite <- (app_nil_r (be64 v)), be64_to_cpu_app, u64_id by done. apply decodes_ret.
Qed.

Lemma decodes_bool n :
  decodes xdr_stream_decode_bool (xdr_encode_bool n) (if n =? 0 then 0 else 1).
Proof.
  unfold xdr_stream_decode_bool, xdr_encode_bool. apply decodes_block; [by destruct (n =? 0)|done|].
  destruct (n =? 0); apply decodes_ret.
Qed.

Lemma decodes_opaque_inline bs maxlen :
  zlen bs < 2 ^ 32 -> zlen bs <= maxlen ->
  decodes (xdr_stream_decode_opaque_inline maxlen) (w_opaque bs) bs.
Proof.
  intros Hu Hm. pose proof (zlen_nonneg bs). unfold w_opaque, xdr_stream_decode_opaque_inline.
  eapply decodes_bind; [apply decodes_or_return, decodes_u32; unfold is_u32; lia|].
  simpl. destruct (Z.eqb_spec (zlen bs) 0) as [E|]; simpl.
  - assert (bs = []) as -> by (destruct bs; [done|unfold zlen in E; simpl in E; lia]).
    apply decodes_ret.
  - rewrite <- (app_nil_r (w_fixed bs)).
    eapply decodes_bind; [by apply decodes_inline_fixed|]. simpl.
    rewrite (proj2 (Z.ltb_ge _ _)) by lia. rewrite ztake_all by lia. apply decodes_ret.
Qed.
End Decodes.

(** ** Encoding *)

Section Encodes.
  Context {S : Type} `{XO : XdrOut S} {XL : @XdrOutLaws S XO}.

(** What an encoder leaves unchanged for a later [xdr_write_pages]. *)
Definition keeps_inl (s s' : S) : Prop :=
  xo_inl s -> xo_inl s' /\ forall p b l, xo_pdata s' p b l = xo_pdata s p b l.

Definition encodes (m : enc S) (w : list byte) : Prop :=
  forall s, xo_wf s -> zlen w <= xo_room s ->
  exists s', m s = Some s' /\ xo_wf s' /\ xo_out s' = xo_out s ++ w /\
    xo_room s' = xo_room s - zlen w /\ keeps_inl s s'.

(** The same for a request that ends with page data [d] of the page array
    [pages], from [base] on. *)
Definition encodes_last (m : enc S) (w : list byte) (pages base : Z) (d : list byte) : Prop :=
  forall s, xo_wf s -> xo_inl s -> xo_pdata s pages base (zlen d) = Some d ->
  zlen w + 4 <= xo_room s ->
  exists s', m s = Some s' /\ xo_wf s' /\ xo_out s' = xo_out s ++ w ++ w_fixed d.

Lemma encodes_nop : encodes enop [].
Proof.
  intros s W _. exists s. rewrite app_nil_r, zlen_nil, Z.sub_0_r. done.
Qed.

Lemma encodes_seq m1 m2 w1 w2 : encodes m1 w1 -> encodes m2 w2 -> encodes (m1 >> m2) (w1 ++ w2).
Proof.
  intros H1 H2 s W L. autorewrite with nfs_len in L.
  pose proof (zlen_nonneg w2).
  destruct (H1 s W) as (s1 & E1 & W1 & O1 & C1 & K1); [lia|].
  destruct (H2 s1 W1) as (s2 & E2 & W2 & O2 & C2 & K2); [lia|].
  exists s2. unfold eseq. rewrite E1. split_and!; try done.
  - by rewrite O2, O1, app_assoc.
  - llia.
  - intros I. destruct (K1 I) as [I1 P1]. destruct (K2 I1) as [I2 P2].
    split; [done|]. intros. by rewrite P2, P1.
Qed.

Lemma encodes_seq_last m1 m2 w1 w2 pages base d :
  encodes m1 w1 -> encodes_last m2 w2 pages base d ->
  encodes_last (m1 >> m2) (w1 ++ w2) pages base d.
Proof.
  intros H1 H2 s W I P L. autorewrite with nfs_len in L. pose proof (zlen_nonneg w2).
  destruct (H1 s W) as (s1 & E1 & W1 & O1 & C1 & K1); [lia|]. destruct (K1 I) as [I1 P1].
  destruct (H2 s1 W1 I1) as (s2 & E2 & W2 & O2); [by rewrite P1|lia|].
  exists s2. unfold eseq. rewrite E1. split_and!; try done. by rewrite O2, O1, <- !app_assoc.
Qed.

Lemma encodes_write_pages pages base d :
  encodes_last (xdr_write_pages pages base (zlen d)) [] pages base d.
Proof. intros s W I P L. rewrite zlen_nil in L. by apply xo_write_pages_ok. Qed.

Lemma encodes_put n w : 0 <= n <= 4096 -> zlen w = align4 n -> encodes (xdr_put n w) w.
Proof.
  intros Hn Hw s W L. destruct (xo_put_ok s n w W Hn Hw) as (s' & E & W' & O & R & K); [lia|].
  exists s'. rewrite Hw. done.
Qed.

Lemma encodes_u32 v : encodes (xdr_stream_encode_u32 v) (be32 v).
Proof. by apply encodes_put. Qed.
Lemma encodes_u64 v : encodes (xdr_stream_encode_u64 v) (be64 v).
Proof. by apply encodes_put. Qed.
Lemma encodes_bool v : encodes (xdr_stream_encode_bool v) (xdr_encode_bool v).
Proof. apply encodes_put; [done|]. unfold xdr_encode_bool. by destruct (v =? 0). Qed.
Lemma encodes_present : encodes xdr_stream_encode_item_present (be32 1).
Proof. by apply encodes_put. Qed.
Lemma encodes_absent : encodes xdr_stream_encode_item_absent (be32 0).
Proof. by apply encodes_put. Qed.

(** The two-part count of an opaque item is its reserved space. *)
Lemma zlen_opaque_reserved (bs : list byte) : align4 (4 + zlen bs) = 4 + align4 (zlen bs).
Proof. unfold align4. zlia. Qed.

Lemma encodes_put_opaque bs :
  zlen bs <= 4092 ->
  encodes (xdr_put (4 + zlen bs) (xdr_encode_opaque bs (zlen bs))) (w_opaque bs).
Proof.
  intros. rewrite xdr_encode_opaque_spec by lia. pose proof (zlen_nonneg bs).
  apply encodes_put; [lia|]. rewrite zlen_opaque_reserved. llia.
Qed.

Lemma encodes_opaque bs :
  zlen bs <= 4092 -> encodes (xdr_stream_encode_opaque bs (zlen bs)) (w_opaque bs).
Proof.
  intros. unfold xdr_stream_encode_opaque. pose proof (zlen_nonneg bs).
  rewrite xdr_encode_opaque_spec, xdr_align_size_align4 by lia.
  apply encodes_put.
  - pose proof (align4_range (zlen bs)). unfold align4 in *. zlia.
  - autorewrite with nfs_len. unfold align4. zlia.
Qed.
End Encodes.

#[export] Hint Resolve decodes_ret decodes_u32 decodes_u64 decodes_bool
  decodes_or_return encodes_nop encodes_seq encodes_u32 encodes_u64 encodes_bool
  encodes_present encodes_absent encodes_opaque encodes_put_opaque encodes_seq_last
  encodes_write_pages
  safe_ret safe_fail safe_bind safe_or_return safe_guard safe_if
  safe_u32 safe_u64 safe_bool safe_opaque_inline : xdr.
#[export] Hint Extern 3 (safe (inline_or _ _)) => apply safe_inline; lia : xdr.

(** ** Proof tactics for codecs *)

(** Decode the next item: the goal is [decodes (dbind m k) (w1 ++ w2) v]. *)
Ltac dstep :=
  lazymatch goal with
  | |- decodes (dbind _ _) (_ ++ _) _ => eapply decodes_bind; [|cbv beta]
  | |- decodes (dbind _ _) _ _ => rewrite <- (app_nil_r _); eapply decodes_bind; [|cbv beta]
  end.

(** Unfold a decoder and prove that it never leaves the message. *)
Ltac solve_safe :=
  repeat first
    [ progress eauto 2 with xdr
    | apply safe_bind; [|intros ?]
    | apply safe_or_return
    | apply safe_ret | apply safe_fail | apply safe_guard
    | apply safe_inline; (lia || (split; done))
    | apply safe_if
    | case_match ].
