(* ===== verification/XdrBuf.v ===== *)
(** * struct xdr_buf and its byte ranges

    [struct xdr_buf] of [include/linux/sunrpc/xdr.h] with the operations of
    [net/sunrpc/xdr.c] that move bytes in and out of it or re-describe a range
    of it.  A buffer is a descriptor: the addresses and lengths of a head and a
    tail kvec and of a range of a page array.  The bytes live in a memory
    [xdr_mem] the descriptors share, so that a sub-segment really aliases the
    buffer it was cut from.  [buf_bytes] is the message a descriptor denotes. *)

From S2P Require Import Prelude Xdr.

Definition PAGE_SHIFT := 12.
Definition PAGE_SIZE := 4096.

(** The memory behind a buffer: the kvec storage (one address space, kvecs are
    regions of it) and the pages. *)
Record xdr_mem := mk_mem { m_lin : list byte; m_pages : list (list byte) }.

Record kvec := mk_kvec { iov_base : Z; iov_len : Z }.

Record xdr_buf := mk_buf {
  head : kvec;
  tail : kvec;
  pages : Z;        (* index of [pages[0]] in the memory's page array *)
  page_base : Z;
  page_len : Z;
  flags : Z;
  buflen : Z;
  xlen : Z;         (* [len] *)
}.

#[export] Instance upd_mem : Updatable xdr_mem := fun m => mk_mem (m_lin m) (m_pages m).
#[export] Instance upd_kvec : Updatable kvec := fun k => mk_kvec (iov_base k) (iov_len k).
#[export] Instance upd_buf : Updatable xdr_buf := fun b =>
  mk_buf (head b) (tail b) (pages b) (page_base b) (page_len b) (flags b) (buflen b) (xlen b).

(** [pgbase & ~PAGE_MASK] and [pgbase >> PAGE_SHIFT] *)
Definition page_off (a : Z) : Z := Z.land a (PAGE_SIZE - 1).
Definition page_idx (a : Z) : Z := Z.shiftr a PAGE_SHIFT.

Lemma page_off_mod a : page_off a = a mod PAGE_SIZE.
Proof. unfold page_off. change (PAGE_SIZE - 1) with (Z.ones 12). by rewrite Z.land_ones. Qed.

Lemma page_idx_div a : page_idx a = a / PAGE_SIZE.
Proof. unfold page_idx, PAGE_SHIFT. by rewrite Z.shiftr_div_pow2. Qed.

(** ** The bytes a descriptor denotes *)

Definition kvec_bytes (m : xdr_mem) (k : kvec) : list byte :=
  ztake (iov_len k) (zdrop (iov_base k) (m_lin m)).

Definition pages_bytes (m : xdr_mem) (b : xdr_buf) : list byte :=
  ztake (page_len b) (zdrop (pages b * PAGE_SIZE + page_base b) (concat (m_pages m))).

Definition buf_bytes (m : xdr_mem) (b : xdr_buf) : list byte :=
  kvec_bytes m (head b) ++ pages_bytes m b ++ kvec_bytes m (tail b).

Definition kvec_ok (m : xdr_mem) (k : kvec) : Prop :=
  0 <= iov_base k /\ 0 <= iov_len k /\ iov_base k + iov_len k <= zlen (m_lin m).

Definition pages_ok (m : xdr_mem) : Prop := Forall (fun p => zlen p = PAGE_SIZE) (m_pages m).

Record buf_ok (m : xdr_mem) (b : xdr_buf) : Prop := {
  ok_head : kvec_ok m (head b);
  ok_tail : kvec_ok m (tail b);
  ok_mem : pages_ok m;
  ok_pages : 0 <= pages b /\ 0 <= page_base b /\ 0 <= page_len b;
  ok_prange : pages b * PAGE_SIZE + page_base b + page_len b <= zlen (m_pages m) * PAGE_SIZE;
}.

(** ** Operations *)

(** [xdr_buf_init]; [tail[0].iov_base] and [page_base] keep what they held. *)
Definition xdr_buf_init (old : xdr_buf) (start len : Z) : xdr_buf :=
  old <| head := mk_kvec start len |>
      <| tail := (tail old) <| iov_len := 0 |> |>
      <| pages := 0 |> <| page_len := 0 |> <| flags := 0 |>
      <| xlen := 0 |> <| buflen := len |>.

Definition xdr_buf_pagecount (b : xdr_buf) : Z :=
  if page_len b =? 0 then 0
  else Z.shiftr (page_base b + page_len b + PAGE_SIZE - 1) PAGE_SHIFT.

Definition xdr_inline_pages (b : xdr_buf) (offset newpages base len : Z) : xdr_buf :=
  let buf := iov_base (head b) in
  let hlen := iov_len (head b) in
  b <| head := (head b) <| iov_len := offset |> |>
    <| pages := newpages |> <| page_base := base |> <| page_len := len |>
    <| tail := mk_kvec (buf + offset) (hlen - offset) |>
    <| buflen := buflen b + len |>.

(** The page loop of [_copy_from_pages]: a copy shorter than what is left ends
    at a page boundary, so each round moves to the next page. *)
Fixpoint copy_from_pages_loop (pgfrom : list (list byte)) (pgbase len : Z) : list byte :=
  match pgfrom with
  | [] => []
  | pg :: pgfrom' =>
      let copy := if len <? PAGE_SIZE - pgbase then len else PAGE_SIZE - pgbase in
      let chunk := ztake copy (zdrop pgbase pg) in
      if len - copy =? 0 then chunk
      else chunk ++ copy_from_pages_loop pgfrom' 0 (len - copy)
  end.

(** [_copy_from_pages]: the bytes left at [p].  [pgs] is the page array, from
    [pages[0]] on. *)
Definition _copy_from_pages (pgs : list (list byte)) (pgbase len : Z) : list byte :=
  if len =? 0 then []
  else copy_from_pages_loop (zdrop (page_idx pgbase) pgs) (page_off pgbase) len.

Fixpoint copy_to_pages_loop (pgto : list (list byte)) (pgbase : Z) (p : list byte) (len : Z)
    : list (list byte) :=
  match pgto with
  | [] => []
  | pg :: pgto' =>
      let copy := if len <? PAGE_SIZE - pgbase then len else PAGE_SIZE - pgbase in
      let pg' := zwrite pgbase (ztake copy p) pg in
      if len - copy =? 0 then pg' :: pgto'
      else pg' :: copy_to_pages_loop pgto' 0 (zdrop copy p) (len - copy)
  end.

(** [_copy_to_pages]: the page array after the copy. *)
Definition _copy_to_pages (pgs : list (list byte)) (pgbase : Z) (p : list byte) (len : Z)
    : list (list byte) :=
  if len =? 0 then pgs
  else ztake (page_idx pgbase) pgs ++
       copy_to_pages_loop (zdrop (page_idx pgbase) pgs) (page_off pgbase) p len.

Definition xdr_buf_from_iov (old : xdr_buf) (iov : kvec) : xdr_buf :=
  old <| head := iov |> <| tail := mk_kvec 0 0 |> <| page_len := 0 |>
      <| buflen := iov_len iov |> <| xlen := iov_len iov |>.

(** [xdr_buf_subsegment]: the status it returns and the descriptor it fills.
    ([flags] of the result is not written by the function.) *)
Definition xdr_buf_subsegment (buf sub : xdr_buf) (base len : Z) : Z * xdr_buf :=
  let sub := sub <| buflen := len |> <| xlen := len |> in
  let '(sub, base, len) :=
    if base <? iov_len (head buf) then
      let n := Z.min len (iov_len (head buf) - base) in
      (sub <| head := mk_kvec (iov_base (head buf) + base) n |>, 0, len - n)
    else
      (sub <| head := mk_kvec (iov_base (head buf)) 0 |>, base - iov_len (head buf), len) in
  let '(sub, base, len) :=
    if base <? page_len buf then
      let n := Z.min (page_len buf - base) len in
      let base := base + page_base buf in
      (sub <| page_len := n |> <| page_base := page_off base |>
           <| pages := pages buf + page_idx base |>, 0, len - n)
    else
      (sub <| pages := pages buf |> <| page_base := 0 |> <| page_len := 0 |>,
       base - page_len buf, len) in
  let '(sub, base, len) :=
    if base <? iov_len (tail buf) then
      let n := Z.min len (iov_len (tail buf) - base) in
      (sub <| tail := mk_kvec (iov_base (tail buf) + base) n |>, 0, len - n)
    else
      (sub <| tail := mk_kvec (iov_base (tail buf)) 0 |>, base - iov_len (tail buf), len) in
  if negb (base =? 0) || negb (len =? 0) then (-1, sub) else (0, sub).

(** [xdr_buf_trim]; [goto fix_len] is the early exit of each stage. *)
Definition xdr_buf_trim (buf : xdr_buf) (len : Z) : xdr_buf :=
  let fix_len (b : xdr_buf) (trim : Z) := b <| xlen := xlen b - (len - trim) |> in
  let trim := len in
  let '(b, trim) :=
    if negb (iov_len (tail buf) =? 0) then
      let cur := Z.min (iov_len (tail buf)) trim in
      (buf <| tail := (tail buf) <| iov_len := iov_len (tail buf) - cur |> |>, trim - cur)
    else (buf, trim) in
  if negb (iov_len (tail buf) =? 0) && (trim =? 0) then fix_len b trim
  else
  let '(b', trim) :=
    if negb (page_len b =? 0) then
      let cur := Z.min (page_len b) trim in
      (b <| page_len := page_len b - cur |>, trim - cur)
    else (b, trim) in
  if negb (page_len b =? 0) && (trim =? 0) then fix_len b' trim
  else
  let '(b'', trim) :=
    if negb (iov_len (head b') =? 0) then
      let cur := Z.min (iov_len (head b')) trim in
      (b' <| head := (head b') <| iov_len := iov_len (head b') - cur |> |>, trim - cur)
    else (b', trim) in
  fix_len b'' trim.

(** [__read_bytes_from_xdr_buf]: the bytes stored at [obj]. *)
Definition __read_bytes_from_xdr_buf (m : xdr_mem) (subbuf : xdr_buf) (len : Z) : list byte :=
  let this_len := Z.min len (iov_len (head subbuf)) in
  let obj := ztake this_len (zdrop (iov_base (head subbuf)) (m_lin m)) in
  let len := len - this_len in
  let this_len := Z.min len (page_len subbuf) in
  let obj := obj ++ _copy_from_pages (zdrop (pages subbuf) (m_pages m)) (page_base subbuf) this_len in
  let len := len - this_len in
  let this_len := Z.min len (iov_len (tail subbuf)) in
  obj ++ ztake this_len (zdrop (iov_base (tail subbuf)) (m_lin m)).

(** [read_bytes_from_xdr_buf]: [inl] the failure status, [inr] the bytes. *)
Definition read_bytes_from_xdr_buf (m : xdr_mem) (buf : xdr_buf) (base len : Z) : res (list byte) :=
  let '(status, subbuf) := xdr_buf_subsegment buf buf base len in
  if negb (status =? 0) then Err status
  else Ok (__read_bytes_from_xdr_buf m subbuf len).

(** [__write_bytes_to_xdr_buf]: the memory after the stores. *)
Definition __write_bytes_to_xdr_buf (m : xdr_mem) (subbuf : xdr_buf) (obj : list byte) (len : Z)
    : xdr_mem :=
  let this_len := Z.min len (iov_len (head subbuf)) in
  let m := m <| m_lin := zwrite (iov_base (head subbuf)) (ztake this_len obj) (m_lin m) |> in
  let len := len - this_len in
  let obj := zdrop this_len obj in
  let this_len := Z.min len (page_len subbuf) in
  let m := m <| m_pages := ztake (pages subbuf) (m_pages m) ++
       _copy_to_pages (zdrop (pages subbuf) (m_pages m)) (page_base subbuf) obj this_len |> in
  let len := len - this_len in
  let obj := zdrop this_len obj in
  let this_len := Z.min len (iov_len (tail subbuf)) in
  m <| m_lin := zwrite (iov_base (tail subbuf)) (ztake this_len obj) (m_lin m) |>.

Definition write_bytes_to_xdr_buf (m : xdr_mem) (buf : xdr_buf) (base : Z) (obj : list byte) (len : Z)
    : Z * xdr_mem :=
  let '(status, subbuf) := xdr_buf_subsegment buf buf base len in
  if negb (status =? 0) then (status, m)
  else (0, __write_bytes_to_xdr_buf m subbuf obj len).

Definition xdr_decode_word (m : xdr_mem) (buf : xdr_buf) (base : Z) : res Z :=
  match read_bytes_from_xdr_buf m buf base 4 with
  | Err status => Err status
  | Ok raw => Ok (be32_to_cpu raw)
  end.

Definition xdr_encode_word (m : xdr_mem) (buf : xdr_buf) (base obj : Z) : Z * xdr_mem :=
  write_bytes_to_xdr_buf m buf base (be32 obj) 4.

(** ** Page loops *)

Ltac plia := unfold PAGE_SIZE in *; autorewrite with nfs_len in *; lia.

Lemma zlen_concat_pages pgs :
  Forall (fun p : list byte => zlen p = PAGE_SIZE) pgs -> zlen (concat pgs) = zlen pgs * PAGE_SIZE.
Proof. induction 1; simpl; plia. Qed.

Lemma zdrop_concat_pages pgs i :
  Forall (fun p : list byte => zlen p = PAGE_SIZE) pgs -> 0 <= i ->
  zdrop (i * PAGE_SIZE) (concat pgs) = concat (zdrop i pgs).
Proof.
  intros H. revert i. induction H as [|p pgs Hp _ IH]; intros i Hi.
  - unfold zdrop. rewrite (drop_nil (Z.to_nat i)). apply drop_nil.
  - destruct (decide (i = 0)) as [->|].
    + rewrite (zdrop_le0 (0 * PAGE_SIZE)), (zdrop_le0 0) by plia. done.
    + simpl. rewrite zdrop_app_ge by plia. rewrite Hp.
      replace (i * PAGE_SIZE - PAGE_SIZE) with ((i - 1) * PAGE_SIZE) by plia.
      rewrite IH by lia. f_equal. unfold zdrop.
      by replace (Z.to_nat i) with (S (Z.to_nat (i - 1))) by lia.
Qed.

Lemma Forall_zdrop {A} (P : A -> Prop) n l : Forall P l -> Forall P (zdrop n l).
Proof. apply Forall_drop. Qed.

Lemma Forall_ztake {A} (P : A -> Prop) n l : Forall P l -> Forall P (ztake n l).
Proof. apply Forall_take. Qed.

#[export] Hint Resolve Forall_zdrop Forall_ztake : nfs.

Lemma copy_from_pages_loop_spec pgs pgbase len :
  Forall (fun p : list byte => zlen p = PAGE_SIZE) pgs ->
  0 <= pgbase < PAGE_SIZE -> 0 < len -> pgbase + len <= zlen pgs * PAGE_SIZE ->
  copy_from_pages_loop pgs pgbase len = ztake len (zdrop pgbase (concat pgs)).
Proof.
  intros H. revert pgbase len. induction H as [|p pgs Hp Hps IH]; intros pgbase len Hb Hl Hr.
  - plia.
  - simpl. autorewrite with nfs_len in Hr. rewrite zdrop_app_le by plia.
    destruct (Z.ltb_spec len (PAGE_SIZE - pgbase)).
    + rewrite (proj2 (Z.eqb_eq _ _)) by lia. rewrite ztake_app_le by plia. done.
    + destruct (Z.eqb_spec (len - (PAGE_SIZE - pgbase)) 0).
      * rewrite ztake_app_le by plia. f_equal. lia.
      * rewrite IH by plia. rewrite (ztake_app_ge len) by plia.
        rewrite (zdrop_le0 0) by lia. rewrite (ztake_all (PAGE_SIZE - _)) by plia.
        f_equal. f_equal. plia.
Qed.

(** [_copy_from_pages] reads one contiguous range of the page array. *)
Lemma _copy_from_pages_spec pgs pgbase len :
  Forall (fun p : list byte => zlen p = PAGE_SIZE) pgs ->
  0 <= pgbase -> 0 <= len -> pgbase + len <= zlen pgs * PAGE_SIZE ->
  _copy_from_pages pgs pgbase len = ztake len (zdrop pgbase (concat pgs)).
Proof.
  intros H Hb Hl Hr. unfold _copy_from_pages.
  destruct (Z.eqb_spec len 0) as [->|]; [by rewrite ztake_le0|].
  rewrite page_idx_div, page_off_mod.
  rewrite copy_from_pages_loop_spec; eauto with nfs.
  - rewrite <- zdrop_concat_pages by (done || unfold PAGE_SIZE in *; zlia).
    rewrite zdrop_zdrop by (unfold PAGE_SIZE in *; zlia). f_equal. f_equal.
    unfold PAGE_SIZE in *; zlia.
  - unfold PAGE_SIZE. zlia.
  - lia.
  - unfold PAGE_SIZE in *. autorewrite with nfs_len. zlia.
Qed.

Lemma zwrite_app_l {A} off (src l k : list A) :
  0 <= off -> off + zlen src <= zlen l -> zwrite off src (l ++ k) = zwrite off src l ++ k.
Proof.
  intros. pose proof (zlen_nonneg src). unfold zwrite.
  rewrite ztake_app_le by lia. rewrite zdrop_app_le by lia. by rewrite !app_assoc.
Qed.

Lemma zwrite_app_r {A} off (src l k : list A) :
  zlen l <= off -> zwrite off src (l ++ k) = l ++ zwrite (off - zlen l) src k.
Proof.
  intros. pose proof (zlen_nonneg src). unfold zwrite.
  rewrite ztake_app_ge by lia. rewrite zdrop_app_ge by lia.
  rewrite <- app_assoc. do 4 f_equal. lia.
Qed.

(** A store that straddles two areas is a store at the end of the first and
    one at the start of the second. *)
Lemma zwrite_straddle {A} off n (src l k : list A) :
  0 <= off <= zlen l -> n = zlen l - off -> n <= zlen src ->
  zwrite off src (l ++ k) = zwrite off (ztake n src) l ++ zwrite 0 (zdrop n src) k.
Proof.
  intros Ho -> Hs. unfold zwrite. autorewrite with nfs_len.
  rewrite ztake_app_le by lia. rewrite (ztake_le0 0) by lia.
  rewrite (zdrop_all (off + _) l) by llia. rewrite app_nil_r.
  rewrite zdrop_app_ge by lia. rewrite <- !app_assoc. f_equal.
  rewrite <- (ztake_zdrop (zlen l - off) src) at 1. rewrite <- app_assoc. simpl. do 3 f_equal. lia.
Qed.

Lemma copy_to_pages_loop_spec pgs pgbase p len :
  Forall (fun p : list byte => zlen p = PAGE_SIZE) pgs ->
  0 <= pgbase < PAGE_SIZE -> 0 < len -> zlen p = len -> pgbase + len <= zlen pgs * PAGE_SIZE ->
  Forall (fun p : list byte => zlen p = PAGE_SIZE) (copy_to_pages_loop pgs pgbase p len) /\
  zlen (copy_to_pages_loop pgs pgbase p len) = zlen pgs /\
  concat (copy_to_pages_loop pgs pgbase p len) = zwrite pgbase p (concat pgs).
Proof.
  intros H. revert pgbase p len.
  induction H as [|pg pgs Hp Hps IH]; intros pgbase p len Hb Hl Hz Hr; [plia|].
  simpl. autorewrite with nfs_len in Hr.
  assert (Hd : forall copy, copy = len -> copy <= PAGE_SIZE - pgbase ->
    Forall (fun p : list byte => zlen p = PAGE_SIZE) (zwrite pgbase (ztake copy p) pg :: pgs) /\
    zlen (zwrite pgbase (ztake copy p) pg :: pgs) = zlen (pg :: pgs) /\
    concat (zwrite pgbase (ztake copy p) pg :: pgs) = zwrite pgbase p (pg ++ concat pgs)).
  { intros copy -> Hc. rewrite (ztake_all len p) by lia. simpl. split_and!.
    - constructor; [|done]. rewrite zlen_zwrite; plia.
    - plia.
    - rewrite zwrite_app_l by plia. done. }
  destruct (Z.ltb_spec len (PAGE_SIZE - pgbase)).
  { rewrite (proj2 (Z.eqb_eq _ _)) by lia. apply Hd; lia. }
  destruct (Z.eqb_spec (len - (PAGE_SIZE - pgbase)) 0); [apply Hd; lia|].
  destruct (IH 0 (zdrop (PAGE_SIZE - pgbase) p) (len - (PAGE_SIZE - pgbase)))
    as (F & L & C); [plia..|]. simpl. split_and!.
  - constructor; [|done]. rewrite zlen_zwrite; plia.
  - plia.
  - rewrite C. symmetry. apply zwrite_straddle; plia.
Qed.

(** [_copy_to_pages] stores one contiguous range of the page array and keeps
    its shape. *)
Lemma _copy_to_pages_spec pgs pgbase p len :
  Forall (fun p : list byte => zlen p = PAGE_SIZE) pgs ->
  0 <= pgbase -> zlen p = len -> pgbase + len <= zlen pgs * PAGE_SIZE ->
  Forall (fun p : list byte => zlen p = PAGE_SIZE) (_copy_to_pages pgs pgbase p len) /\
  zlen (_copy_to_pages pgs pgbase p len) = zlen pgs /\
  concat (_copy_to_pages pgs pgbase p len) = zwrite pgbase p (concat pgs).
Proof.
  intros H Hb Hz Hr. pose proof (zlen_nonneg p). unfold _copy_to_pages.
  destruct (Z.eqb_spec len 0) as [->|].
  { assert (p = []) as -> by (destruct p; [done|unfold zlen in *; simpl in *; lia]).
    split_and!; try done. unfold zwrite. simpl. rewrite zlen_nil, Z.add_0_r.
    by rewrite ztake_zdrop. }
  rewrite page_idx_div, page_off_mod.
  set (i := pgbase / PAGE_SIZE). set (o := pgbase mod PAGE_SIZE).
  assert (Hi : 0 <= i /\ 0 <= o < PAGE_SIZE /\ pgbase = i * PAGE_SIZE + o)
    by (unfold i, o, PAGE_SIZE; zlia).
  assert (i < zlen pgs) by plia.
  destruct (copy_to_pages_loop_spec (zdrop i pgs) o p len) as (F & L & C);
    [eauto with nfs|lia|lia|done|plia|].
  split_and!.
  - apply Forall_app; eauto with nfs.
  - autorewrite with nfs_len. rewrite L. llia.
  - rewrite concat_app, C. rewrite <- (ztake_zdrop i pgs) at 3. rewrite concat_app.
    assert (zlen (concat (ztake i pgs)) = i * PAGE_SIZE).
    { rewrite zlen_concat_pages by eauto with nfs. plia. }
    rewrite zwrite_app_r by lia. f_equal. f_equal. lia.
Qed.

(** ** Sub-segments *)

(** The [n] bytes of [l] from offset [base] on. *)
Definition cut {A} (l : list A) (base n : Z) : list A := ztake n (zdrop base l).

Lemma zlen_cut {A} (l : list A) base n :
  zlen (cut l base n) = Z.max 0 (Z.min n (zlen l - Z.max 0 base)).
Proof. unfold cut. llia. Qed.

#[export] Hint Rewrite @zlen_cut : nfs_len.

Lemma cut_nil {A} (l : list A) base n : n <= 0 \/ zlen l <= Z.max 0 base -> cut l base n = [].
Proof.
  intros ?. pose proof (zlen_cut l base n) as E. destruct (cut l base n); [done|].
  rewrite zlen_cons in E. pose proof (zlen_nonneg l0). lia.
Qed.

Lemma cut_eq {A} (l : list A) a a' n n' :
  Z.max 0 a = Z.max 0 a' -> n = n' -> cut l a n = cut l a' n'.
Proof. intros E ->. unfold cut, zdrop. f_equal. f_equal. lia. Qed.

Lemma cut_app {A} (l k : list A) base n :
  0 <= base -> cut (l ++ k) base n =
  cut l base n ++ cut k (base - zlen l) (n - zlen (cut l base n)).
Proof.
  intros Hb. unfold cut. destruct (Z_le_gt_dec base (zlen l)).
  - rewrite zdrop_app_le by done. rewrite (zdrop_le0 (base - _)) by lia.
    destruct (Z_le_gt_dec n (zlen (zdrop base l))).
    + rewrite ztake_app_le by done. rewrite (ztake_le0 (n - _)) by llia. by rewrite app_nil_r.
    + rewrite ztake_app_ge by lia. rewrite (ztake_all n) by lia. done.
  - rewrite zdrop_app_ge, (zdrop_all base l) by lia.
    assert (ztake n (@nil A) = []) as -> by apply take_nil.
    cbn [app]. rewrite zlen_nil, Z.sub_0_r. done.
Qed.

Lemma cut_cut {A} (l : list A) a m b n :
  0 <= a -> 0 <= b -> b + n <= m -> cut (cut l a m) b n = cut l (a + b) n.
Proof.
  intros. unfold cut. rewrite zdrop_ztake by done. rewrite ztake_ztake, zdrop_zdrop by done.
  f_equal. lia.
Qed.

Lemma zlen_kvec m k : kvec_ok m k -> zlen (kvec_bytes m k) = iov_len k.
Proof. intros (? & ? & ?). unfold kvec_bytes. llia. Qed.

Lemma zlen_pages m b : buf_ok m b -> zlen (pages_bytes m b) = page_len b.
Proof.
  intros [_ _ Hm ? ?]. unfold pages_bytes. autorewrite with nfs_len.
  rewrite zlen_concat_pages by done. plia.
Qed.

Lemma zlen_buf m b :
  buf_ok m b -> zlen (buf_bytes m b) = iov_len (head b) + page_len b + iov_len (tail b).
Proof.
  intros H. unfold buf_bytes. autorewrite with nfs_len.
  rewrite (zlen_kvec m (head b)), (zlen_kvec m (tail b)), zlen_pages by (done || apply H). lia.
Qed.

(** A kvec narrowed the way [xdr_buf_subsegment] narrows it. *)
Lemma kvec_narrow m k base n :
  kvec_ok m k -> 0 <= base < iov_len k -> 0 <= n ->
  let k' := mk_kvec (iov_base k + base) (Z.min n (iov_len k - base)) in
  kvec_ok m k' /\ kvec_bytes m k' = cut (kvec_bytes m k) base n.
Proof.
  intros (? & ? & ?) ? ?. simpl. split; [unfold kvec_ok; simpl; lia|].
  unfold kvec_bytes, cut. simpl. rewrite zdrop_ztake by lia.
  rewrite ztake_ztake, zdrop_zdrop by lia. done.
Qed.

Lemma kvec_empty m k : kvec_ok m k ->
  kvec_ok m (mk_kvec (iov_base k) 0) /\ kvec_bytes m (mk_kvec (iov_base k) 0) = [].
Proof. intros (? & ? & ?). split; [unfold kvec_ok; simpl; lia|done]. Qed.

Lemma pages_narrow m b base n :
  buf_ok m b -> 0 <= base < page_len b -> 0 <= n ->
  let a := base + page_base b in
  let i := pages b + page_idx a in
  let l := Z.min (page_len b - base) n in
  0 <= i /\ 0 <= page_off a /\ i * PAGE_SIZE + page_off a + l <= zlen (m_pages m) * PAGE_SIZE /\
  ztake l (zdrop (i * PAGE_SIZE + page_off a) (concat (m_pages m))) = cut (pages_bytes m b) base n.
Proof.
  intros [_ _ Hm (? & ? & ?) ?] ? ?. simpl. rewrite page_idx_div, page_off_mod.
  assert (E : (pages b + (base + page_base b) / PAGE_SIZE) * PAGE_SIZE +
    (base + page_base b) mod PAGE_SIZE = pages b * PAGE_SIZE + page_base b + base)
    by (unfold PAGE_SIZE in *; zlia).
  rewrite !E. split_and!; try (unfold PAGE_SIZE in *; zlia).
  unfold cut, pages_bytes. rewrite zdrop_ztake by lia.
  rewrite ztake_ztake, zdrop_zdrop by plia. f_equal. lia.
Qed.

(** The range [xdr_buf_subsegment] describes: for an in-bounds range it
    succeeds and the new descriptor denotes exactly those bytes of the same
    memory; any other range is refused with -1. *)
Lemma xdr_buf_subsegment_ok m b old base n :
  buf_ok m b -> 0 <= base -> 0 <= n ->
  base + n <= iov_len (head b) + page_len b + iov_len (tail b) ->
  exists sub, xdr_buf_subsegment b old base n = (0, sub) /\ buf_ok m sub /\
    xlen sub = n /\ buflen sub = n /\
    iov_len (head sub) + page_len sub + iov_len (tail sub) = n /\
    kvec_bytes m (head sub) = cut (kvec_bytes m (head b)) base n /\
    pages_bytes m sub = cut (pages_bytes m b) (base - iov_len (head b)) (n - iov_len (head sub)) /\
    kvec_bytes m (tail sub) =
      cut (kvec_bytes m (tail b)) (base - iov_len (head b) - page_len b)
        (n - iov_len (head sub) - page_len sub).
Proof.
  intros H Hb Hn Ht. pose proof (zlen_kvec m _ (ok_head _ _ H)) as Lh.
  pose proof (zlen_kvec m _ (ok_tail _ _ H)) as Lt. pose proof (zlen_pages m b H) as Lp.
  pose proof (ok_pages _ _ H) as (? & ? & ?).
  pose proof (ok_head _ _ H) as (? & ? & ?). pose proof (ok_tail _ _ H) as (? & ? & ?).
  assert (Hz : forall b0 n0, b0 = 0 -> n0 = 0 -> negb (b0 =? 0) || negb (n0 =? 0) = false)
    by (intros ?? -> ->; done).
  assert (HE := kvec_empty m (head b) (ok_head _ _ H)).
  assert (TE := kvec_empty m (tail b) (ok_tail _ _ H)).
  assert (HN := fun x y => kvec_narrow m (head b) x y (ok_head _ _ H)).
  assert (TN := fun x y => kvec_narrow m (tail b) x y (ok_tail _ _ H)).
  assert (PN := fun x y => pages_narrow m b x y H).
  unfold xdr_buf_subsegment.
  destruct (Z.ltb_spec base (iov_len (head b))) as [Hlt1|Hge1]; lazy beta iota zeta;
  match goal with |- context [?x <? page_len b] =>
    destruct (Z.ltb_spec x (page_len b)) as [Hlt2|Hge2] end; lazy beta iota zeta;
  match goal with |- context [?x <? iov_len (tail b)] =>
    destruct (Z.ltb_spec x (iov_len (tail b))) as [Hlt3|Hge3] end; lazy beta iota zeta;
  rewrite Hz by lia; eexists; (split; [reflexivity|]); simpl;
  try (destruct (HN base n) as [KH1 KH2]; [lia..|]);
  try match goal with |- context [mk_kvec (iov_base (tail b) + ?x) (Z.min ?y _)] =>
     destruct (TN x y) as [KT1 KT2]; [lia..|] end;
  try match goal with |- context [Z.min (page_len b - ?x) ?y] =>
     destruct (PN x y) as (P1 & P2 & P3 & P4); [lia..|] end;
  destruct HE as [HE1 HE2], TE as [TE1 TE2]; clear HN TN PN;
  (split_and!; [constructor; simpl; [done|done|apply H|lia|pose proof (ok_prange _ _ H); plia]
    |lia|lia|lia|..]);
  try (unfold pages_bytes at 1; simpl);
  rewrite ?KH2, ?KT2, ?HE2, ?TE2, ?P4; try done;
  try (symmetry; apply cut_nil; lia); try (symmetry; rewrite ztake_le0 by lia; apply cut_nil; lia);
  try (apply cut_eq; lia).
Qed.

Lemma xdr_buf_subsegment_bytes m b old base n sub :
  buf_ok m b -> 0 <= base -> 0 <= n ->
  base + n <= iov_len (head b) + page_len b + iov_len (tail b) ->
  xdr_buf_subsegment b old base n = (0, sub) ->
  buf_ok m sub /\ xlen sub = n /\ buf_bytes m sub = cut (buf_bytes m b) base n.
Proof.
  intros H Hb Hn Ht E.
  destruct (xdr_buf_subsegment_ok m b old base n H Hb Hn Ht)
    as (s & E' & Hs & Hl & _ & _ & Bh & Bp & Bt).
  rewrite E in E'. simplify_eq. split_and!; try done.
  unfold buf_bytes. rewrite cut_app by lia.
  assert (zlen (kvec_bytes m (head s)) = iov_len (head s)) as Lh by apply zlen_kvec, Hs.
  assert (zlen (kvec_bytes m (head b)) = iov_len (head b)) as Lh' by apply zlen_kvec, H.
  rewrite <- Bh, Lh, Lh'. f_equal. rewrite (cut_eq _ _ (Z.max 0 (base - iov_len (head b))) _
    (xlen s - iov_len (head s))) by lia.
  rewrite cut_app by lia. rewrite (zlen_pages m b H).
  assert (Bp' : cut (pages_bytes m b) (Z.max 0 (base - iov_len (head b)))
    (xlen s - iov_len (head s)) = pages_bytes m s) by (rewrite Bp; apply cut_eq; lia).
  rewrite Bp', (zlen_pages m s Hs). f_equal. rewrite Bt. apply cut_eq; [|lia].
  pose proof (ok_pages _ _ H). lia.
Qed.

Lemma xdr_buf_subsegment_refused m b old base n :
  buf_ok m b -> 0 <= base -> 0 <= n ->
  iov_len (head b) + page_len b + iov_len (tail b) < base + n ->
  fst (xdr_buf_subsegment b old base n) = -1.
Proof.
  intros H Hb Hn Ht. pose proof (ok_head _ _ H) as (? & ? & ?).
  pose proof (ok_tail _ _ H) as (? & ? & ?). pose proof (ok_pages _ _ H) as (? & ? & ?).
  assert (Hz : forall b0 n0, b0 <> 0 \/ n0 <> 0 -> negb (b0 =? 0) || negb (n0 =? 0) = true).
  { intros b0 n0 [?|?]; [rewrite (proj2 (Z.eqb_neq b0 0))|rewrite (proj2 (Z.eqb_neq n0 0)), orb_true_r];
      done. }
  unfold xdr_buf_subsegment.
  destruct (Z.ltb_spec base (iov_len (head b))); lazy beta iota zeta;
  match goal with |- context [?x <? page_len b] =>
    destruct (Z.ltb_spec x (page_len b)) end; lazy beta iota zeta;
  match goal with |- context [?x <? iov_len (tail b)] =>
    destruct (Z.ltb_spec x (iov_len (tail b))) end; lazy beta iota zeta;
  rewrite Hz by lia; done.
Qed.

(** ** Reading and writing through a sub-segment *)

Lemma __read_bytes_spec m b n :
  buf_ok m b -> n = iov_len (head b) + page_len b + iov_len (tail b) ->
  __read_bytes_from_xdr_buf m b n = buf_bytes m b.
Proof.
  intros H ->. pose proof (ok_head _ _ H) as (? & ? & ?).
  pose proof (ok_tail _ _ H) as (? & ? & ?). pose proof (ok_pages _ _ H) as (? & ? & ?).
  unfold __read_bytes_from_xdr_buf, buf_bytes, kvec_bytes.
  rewrite !Z.min_r by lia. rewrite <- app_assoc. f_equal. f_equal.
  rewrite _copy_from_pages_spec; [|apply Forall_zdrop, H|lia..|].
  - unfold pages_bytes. rewrite <- zdrop_concat_pages by (apply H || lia).
    rewrite zdrop_zdrop by plia. done.
  - pose proof (ok_prange _ _ H). plia.
Qed.

Lemma read_bytes_from_xdr_buf_ok m b base n :
  buf_ok m b -> 0 <= base -> 0 <= n ->
  base + n <= iov_len (head b) + page_len b + iov_len (tail b) ->
  read_bytes_from_xdr_buf m b base n = Ok (cut (buf_bytes m b) base n).
Proof.
  intros H Hb Hn Ht. unfold read_bytes_from_xdr_buf.
  destruct (xdr_buf_subsegment_ok m b b base n H Hb Hn Ht) as (s & E & Hs & ? & ? & Hsum & _).
  rewrite E. simpl. rewrite __read_bytes_spec by (done || lia).
  by destruct (xdr_buf_subsegment_bytes m b b base n s H Hb Hn Ht E) as (_ & _ & ->).
Qed.

Lemma zwrite_nil {A} off (l : list A) : zwrite off [] l = l.
Proof. unfold zwrite. simpl. rewrite zlen_nil, Z.add_0_r. apply ztake_zdrop. Qed.

Lemma zwrite_app {A} base (src l k : list A) :
  0 <= base ->
  zwrite base src (l ++ k) =
  zwrite base (ztake (zlen l - base) src) l ++
  zwrite (Z.max 0 (base - zlen l)) (zdrop (zlen l - base) src) k.
Proof.
  intros Hb. destruct (Z_le_gt_dec base (zlen l)).
  - destruct (Z_le_gt_dec (base + zlen src) (zlen l)).
    + rewrite zwrite_app_l by lia. rewrite ztake_all by lia. rewrite zdrop_all by lia.
      by rewrite zwrite_nil.
    + rewrite (zwrite_straddle base (zlen l - base)) by lia. do 2 f_equal. lia.
  - rewrite zwrite_app_r by lia. rewrite ztake_le0, zdrop_le0 by lia. rewrite zwrite_nil.
    do 2 f_equal. lia.
Qed.

(** A window of an area after a store: inside the window, and beside it. *)
Lemma cut_zwrite_inside {A} (l src : list A) a o n :
  0 <= a -> 0 <= o -> o + zlen src <= n -> a + n <= zlen l ->
  cut (zwrite (a + o) src l) a n = zwrite o src (cut l a n).
Proof.
  intros. pose proof (zlen_nonneg src). unfold cut, zwrite.
  rewrite zdrop_app_le by llia. rewrite zdrop_ztake by lia.
  replace (a + o - a) with o by lia.
  rewrite ztake_app_ge by llia. autorewrite with nfs_len.
  rewrite ztake_ztake. f_equal; [f_equal; lia|].
  rewrite ztake_app_ge by llia. f_equal.
  rewrite zdrop_ztake by lia. rewrite zdrop_zdrop by lia. f_equal; [llia|]. f_equal. lia.
Qed.

Lemma cut_zwrite_outside {A} (l src : list A) a n o :
  0 <= a -> 0 <= n -> 0 <= o -> o + zlen src <= zlen l -> a + n <= o \/ o + zlen src <= a ->
  cut (zwrite o src l) a n = cut l a n.
Proof.
  intros ? ? ? ? [?|?]; pose proof (zlen_nonneg src); unfold cut, zwrite.
  - rewrite zdrop_app_le by llia. rewrite ztake_app_le by llia. rewrite zdrop_ztake by lia.
    rewrite ztake_ztake. f_equal. lia.
  - rewrite zdrop_app_ge by llia. rewrite zdrop_app_ge by llia. autorewrite with nfs_len.
    rewrite zdrop_zdrop by llia. f_equal. f_equal. llia.
Qed.

(** The head and tail regions of a buffer do not overlap. *)
Definition buf_sep (b : xdr_buf) : Prop :=
  iov_base (head b) + iov_len (head b) <= iov_base (tail b) \/
  iov_base (tail b) + iov_len (tail b) <= iov_base (head b).

(** Where the three parts of a sub-segment lie. *)
Lemma xdr_buf_subsegment_addr m b old base n sub :
  buf_ok m b -> 0 <= base -> 0 <= n -> xdr_buf_subsegment b old base n = (0, sub) ->
  let hl := iov_len (head b) in let pl := page_len b in
  iov_len (head sub) = Z.max 0 (Z.min n (hl - base)) /\
  (0 < iov_len (head sub) -> iov_base (head sub) = iov_base (head b) + base) /\
  page_len sub = Z.max 0 (Z.min (n - iov_len (head sub)) (pl - Z.max 0 (base - hl))) /\
  0 <= pages sub /\ 0 <= page_base sub /\
  (0 < page_len sub ->
   pages sub * PAGE_SIZE + page_base sub =
   pages b * PAGE_SIZE + page_base b + Z.max 0 (base - hl)) /\
  iov_len (tail sub) = n - iov_len (head sub) - page_len sub /\
  (0 < iov_len (tail sub) ->
   iov_base (tail sub) = iov_base (tail b) + Z.max 0 (base - hl - pl)).
Proof.
  intros H Hb Hn E hl pl. pose proof (ok_head _ _ H) as (? & ? & ?).
  pose proof (ok_tail _ _ H) as (? & ? & ?). pose proof (ok_pages _ _ H) as (? & ? & ?).
  assert (A : forall x, (pages b + page_idx x) * PAGE_SIZE + page_off x = pages b * PAGE_SIZE + x)
    by (intros; rewrite page_idx_div, page_off_mod; unfold PAGE_SIZE; zlia).
  assert (B : forall x, 0 <= x -> 0 <= page_idx x /\ 0 <= page_off x)
    by (intros; rewrite page_idx_div, page_off_mod; unfold PAGE_SIZE; zlia).
  revert E. unfold xdr_buf_subsegment.
  destruct (Z.ltb_spec base (iov_len (head b))); lazy beta iota zeta;
  match goal with |- context [?x <? page_len b] =>
    destruct (Z.ltb_spec x (page_len b)) end; lazy beta iota zeta;
  match goal with |- context [?x <? iov_len (tail b)] =>
    destruct (Z.ltb_spec x (iov_len (tail b))) end; lazy beta iota zeta;
  match goal with |- context [negb (?x =? 0) || negb (?y =? 0)] =>
    destruct (Z.eqb_spec x 0), (Z.eqb_spec y 0) end; try done; intros [= <-]; simpl;
  try match goal with |- context [page_idx ?x] =>
    pose proof (A x); destruct (B x); [lia|] end;
  unfold hl, pl; split_and!; lia.
Qed.

Lemma kvec_bytes_cut m k : kvec_bytes m k = cut (m_lin m) (iov_base k) (iov_len k).
Proof. done. Qed.

(** Storing into a region of the kvec memory: seen through the kvec the region
    lies in, and through one it does not touch. *)
Lemma lin_write_inside m k a o src :
  kvec_ok m k ->
  (src <> [] -> 0 <= o /\ a = iov_base k + o /\ o + zlen src <= iov_len k) ->
  kvec_bytes (m <| m_lin := zwrite a src (m_lin m) |>) k = zwrite o src (kvec_bytes m k).
Proof.
  intros (? & ? & ?) Ha. rewrite !kvec_bytes_cut. simpl.
  destruct src as [|x src]; [by rewrite !zwrite_nil|]. destruct Ha as (? & -> & ?); [done|].
  apply cut_zwrite_inside; lia.
Qed.

Lemma lin_write_outside m k a src :
  kvec_ok m k -> (src <> [] -> 0 <= a /\ a + zlen src <= zlen (m_lin m) /\
    (iov_base k + iov_len k <= a \/ a + zlen src <= iov_base k)) ->
  kvec_bytes (m <| m_lin := zwrite a src (m_lin m) |>) k = kvec_bytes m k.
Proof.
  intros (? & ? & ?) Ha. rewrite !kvec_bytes_cut. simpl.
  destruct src as [|x src]; [by rewrite !zwrite_nil|]. destruct Ha as (? & ? & ?); [done|].
  apply cut_zwrite_outside; lia.
Qed.

Lemma zlen_lin_write m a src :
  (src <> [] -> 0 <= a /\ a + zlen src <= zlen (m_lin m)) ->
  zlen (zwrite a src (m_lin m)) = zlen (m_lin m).
Proof.
  intros Ha. destruct src as [|x src]; [by rewrite zwrite_nil|].
  destruct Ha as (? & ?); [done|]. by apply zlen_zwrite.
Qed.

Lemma zlen_pos {A} (l : list A) : l <> [] -> 0 < zlen l.
Proof. destruct l; [done|]. intros _. rewrite zlen_cons. pose proof (zlen_nonneg l). lia. Qed.

(** The page array after a copy through a descriptor's page range. *)
Lemma pages_write m b o src n :
  pages_ok m -> 0 <= pages b -> 0 <= page_base b -> zlen src = n ->
  (src <> [] -> pages b * PAGE_SIZE + page_base b = o /\
                o + n <= zlen (m_pages m) * PAGE_SIZE) ->
  let pgs := ztake (pages b) (m_pages m) ++
     _copy_to_pages (zdrop (pages b) (m_pages m)) (page_base b) src n in
  Forall (fun p : list byte => zlen p = PAGE_SIZE) pgs /\ zlen pgs = zlen (m_pages m) /\
  concat pgs = zwrite o src (concat (m_pages m)).
Proof.
  intros Hm Hp Hpb Hs Ha. simpl.
  destruct (decide (src = [])) as [->|Hne].
  { rewrite zlen_nil in Hs. subst n. unfold _copy_to_pages. simpl.
    rewrite ztake_zdrop, zwrite_nil. done. }
  pose proof (zlen_pos _ Hne). destruct (Ha Hne) as [Ha' Hr].
  assert (pages b <= zlen (m_pages m)) by plia.
  destruct (_copy_to_pages_spec (zdrop (pages b) (m_pages m)) (page_base b) src n)
    as (F & L & C); [by apply Forall_zdrop|done|done|plia|].
  split_and!.
  - apply Forall_app. split; [by apply Forall_ztake|done].
  - autorewrite with nfs_len. rewrite L. llia.
  - rewrite concat_app, C. rewrite <- (ztake_zdrop (pages b) (m_pages m)) at 3.
    rewrite concat_app.
    assert (zlen (concat (ztake (pages b) (m_pages m))) = pages b * PAGE_SIZE).
    { rewrite zlen_concat_pages by (by apply Forall_ztake). plia. }
    rewrite zwrite_app_r by lia. do 2 f_equal. lia.
Qed.

(** [_copy_to_pages] reads no more than [len] bytes of its source. *)
Lemma copy_to_pages_loop_prefix pgs pgbase p len :
  0 <= pgbase <= PAGE_SIZE -> 0 <= len ->
  copy_to_pages_loop pgs pgbase p len = copy_to_pages_loop pgs pgbase (ztake len p) len.
Proof.
  revert pgbase p len. induction pgs as [|pg pgs IH]; intros pgbase p len Hb Hl; [done|]. simpl.
  set (copy := if len <? PAGE_SIZE - pgbase then len else PAGE_SIZE - pgbase).
  assert (0 <= copy <= len)
    by (unfold copy; destruct (Z.ltb_spec len (PAGE_SIZE - pgbase)); lia).
  rewrite ztake_ztake, Z.min_l by lia. destruct (len - copy =? 0); [done|]. f_equal.
  rewrite IH by plia. f_equal. rewrite zdrop_ztake by lia. done.
Qed.

Lemma copy_to_pages_prefix pgs pgbase p len :
  0 <= len -> _copy_to_pages pgs pgbase p len = _copy_to_pages pgs pgbase (ztake len p) len.
Proof.
  intros. unfold _copy_to_pages. destruct (len =? 0); [done|]. f_equal.
  apply copy_to_pages_loop_prefix; [|done]. rewrite page_off_mod. unfold PAGE_SIZE. zlia.
Qed.

Lemma ztake_clip {A} (l : list A) n k : k = Z.max 0 (Z.min (zlen l) n) -> ztake n l = ztake k l.
Proof.
  intros ->. destruct (Z_le_gt_dec n 0); [by rewrite !ztake_le0 by lia|].
  destruct (Z_le_gt_dec n (zlen l)); [f_equal; lia|]. by rewrite !ztake_all by lia.
Qed.

Lemma zdrop_clip {A} (l : list A) n k : k = Z.max 0 (Z.min (zlen l) n) -> zdrop n l = zdrop k l.
Proof.
  intros ->. destruct (Z_le_gt_dec n 0); [by rewrite !zdrop_le0 by lia|].
  destruct (Z_le_gt_dec n (zlen l)); [f_equal; lia|]. by rewrite !zdrop_all by lia.
Qed.

(** A store into a message of three parts, split along the parts. *)
Lemma zwrite_three {A} base (src h p t : list A) hn pn :
  0 <= base -> base + zlen src <= zlen h + zlen p + zlen t ->
  hn = Z.max 0 (Z.min (zlen src) (zlen h - base)) ->
  pn = Z.max 0 (Z.min (zlen src - hn) (zlen p - Z.max 0 (base - zlen h))) ->
  zwrite base src (h ++ p ++ t) =
  zwrite base (ztake hn src) h ++
  zwrite (Z.max 0 (base - zlen h)) (ztake pn (zdrop hn src)) p ++
  zwrite (Z.max 0 (base - zlen h - zlen p)) (zdrop pn (zdrop hn src)) t.
Proof.
  intros Hb Ht -> ->. pose proof (zlen_nonneg p). rewrite zwrite_app by lia.
  rewrite (ztake_clip src _ _ eq_refl), (zdrop_clip src _ _ eq_refl). f_equal.
  rewrite zwrite_app by lia. f_equal; [f_equal; apply ztake_clip; llia|].
  f_equal; [lia|apply zdrop_clip; llia].
Qed.

(** Stores through a sub-segment are stores in the message, and nowhere else in
    it: the buffer's bytes become the old ones with [obj] written at [base]. *)
Lemma write_bytes_to_xdr_buf_ok m b base obj :
  buf_ok m b -> buf_sep b -> 0 <= base ->
  base + zlen obj <= iov_len (head b) + page_len b + iov_len (tail b) ->
  exists m', write_bytes_to_xdr_buf m b base obj (zlen obj) = (0, m') /\ buf_ok m' b /\
    buf_bytes m' b = zwrite base obj (buf_bytes m b).
Proof.
  intros H Hsep Hb Ht. pose proof (zlen_nonneg obj).
  pose proof (ok_head _ _ H) as (? & ? & ?). pose proof (ok_tail _ _ H) as (? & ? & ?).
  pose proof (ok_pages _ _ H) as (? & ? & ?). pose proof (ok_prange _ _ H).
  destruct (xdr_buf_subsegment_ok m b b base (zlen obj) H Hb) as (s & E & Hs & _); [lia..|].
  destruct (xdr_buf_subsegment_addr m b b base _ s H Hb (zlen_nonneg obj) E)
    as (Lh & Ah & Lp & P1 & P2 & Ap & Lt & At).
  assert (B : 0 <= iov_len (head s) /\ 0 <= page_len s /\ 0 <= iov_len (tail s) /\
    iov_len (head s) + page_len s + iov_len (tail s) = zlen obj) by (clear -Lh Lp Lt H0; lia).
  unfold write_bytes_to_xdr_buf. rewrite E. cbn [negb Z.eqb]. eexists. split; [reflexivity|].
  unfold __write_bytes_to_xdr_buf.
  rewrite (Z.min_r (zlen obj)), (Z.min_r (zlen obj - iov_len (head s))),
    (Z.min_l (zlen obj - iov_len (head s) - page_len s)) by (clear -B; lia).
  rewrite copy_to_pages_prefix by lia.
  set (oh := ztake (iov_len (head s)) obj).
  remember (zdrop (iov_len (head s)) obj) as op eqn:Eop.
  set (ot := ztake _ (zdrop (page_len s) op)).
  assert (Loh : zlen oh = iov_len (head s)) by (unfold oh; clear -B; llia).
  assert (Lop : zlen op = zlen obj - iov_len (head s)) by (rewrite Eop; clear -B; llia).
  assert (Lot : zlen ot = iov_len (tail s)) by (unfold ot; clear -B Lop; llia).
  assert (Eot : ot = zdrop (page_len s) op) by (apply ztake_all; clear -B Lop; llia).
  assert (Hoh : oh <> [] -> iov_base (head s) = iov_base (head b) + base)
    by (intros ?%zlen_pos; apply Ah; lia).
  assert (Hot : ot <> [] -> iov_base (tail s) =
    iov_base (tail b) + Z.max 0 (base - iov_len (head b) - page_len b))
    by (intros ?%zlen_pos; apply At; lia).
  destruct (pages_write m s (pages b * PAGE_SIZE + page_base b + Z.max 0 (base - iov_len (head b)))
    (ztake (page_len s) op) (page_len s)) as (F & L & C);
    [apply H|done|done|clear -B Lop; llia
    |intros Hn%zlen_pos; rewrite zlen_ztake in Hn; split; [apply Ap; lia|plia]|].
  assert (Ll : zlen (zwrite (iov_base (head s)) oh (m_lin m)) = zlen (m_lin m)).
  { apply zlen_lin_write. intros Hn. rewrite (Hoh Hn). pose proof (zlen_pos _ Hn). lia. }
  cbn -[zwrite ztake zdrop _copy_to_pages] in *.
  set (lin1 := zwrite (iov_base (head s)) oh (m_lin m)) in *.
  assert (Ll2 : zlen (zwrite (iov_base (tail s)) ot lin1) = zlen (m_lin m)).
  { rewrite <- Ll. destruct (decide (ot = [])) as [->|Hn]; [by rewrite zwrite_nil|].
    apply zlen_zwrite; rewrite (Hot Hn); pose proof (zlen_pos _ Hn); lia. }
  split.
  { constructor; simpl; [unfold kvec_ok; simpl; lia..|done|done|lia]. }
  unfold buf_bytes. rewrite (zwrite_three base obj _ _ _ (iov_len (head s)) (page_len s)).
  all: rewrite ?(zlen_kvec m (head b)), ?(zlen_kvec m (tail b)), ?(zlen_pages m b)
         by (done || apply H); try lia.
  fold oh. rewrite <- Eop, <- Eot. f_equal; [|f_equal].
  - transitivity (kvec_bytes (mk_mem lin1 (m_pages m)) (head b)).
    + apply (lin_write_outside (mk_mem lin1 (m_pages m))); [unfold kvec_ok; simpl; lia|].
      intros Hn. rewrite (Hot Hn). pose proof (zlen_pos _ Hn). simpl. unfold buf_sep in Hsep. lia.
    + apply (lin_write_inside m); [apply H|]. intros Hn. rewrite (Hoh Hn).
      pose proof (zlen_pos _ Hn). lia.
  - unfold pages_bytes at 1. cbn [field_upd m_pages]. rewrite C.
    destruct (decide (ztake (page_len s) op = [])) as [->|Hn]; [by rewrite !zwrite_nil|].
    apply zlen_pos in Hn. rewrite zlen_ztake in Hn. apply cut_zwrite_inside; [plia..|].
    rewrite zlen_concat_pages by apply H. plia.
  - transitivity (zwrite (Z.max 0 (base - iov_len (head b) - page_len b)) ot
      (kvec_bytes (mk_mem lin1 (m_pages m)) (tail b))).
    + apply (lin_write_inside (mk_mem lin1 (m_pages m))); [unfold kvec_ok; simpl; lia|].
      intros Hn. rewrite (Hot Hn). pose proof (zlen_pos _ Hn). lia.
    + f_equal. apply (lin_write_outside m); [apply H|].
      intros Hn. rewrite (Hoh Hn). pose proof (zlen_pos _ Hn). unfold buf_sep in Hsep. lia.
Qed.

(** Dropping bytes off the end of one part of a message. *)
Lemma kvec_shrink m k n :
  kvec_ok m k -> 0 <= n <= iov_len k ->
  kvec_ok m (k <| iov_len := n |>) /\ kvec_bytes m (k <| iov_len := n |>) = ztake n (kvec_bytes m k).
Proof.
  intros (? & ? & ?) ?. split; [unfold kvec_ok; simpl; lia|].
  unfold kvec_bytes. simpl. rewrite ztake_ztake. f_equal. lia.
Qed.

(** The three stages of [xdr_buf_trim] in closed form. *)
Lemma xdr_buf_trim_eq b n :
  0 <= n -> 0 <= iov_len (head b) -> 0 <= page_len b -> 0 <= iov_len (tail b) ->
  let dt := Z.min (iov_len (tail b)) n in
  let dp := Z.min (page_len b) (n - dt) in
  let dh := Z.min (iov_len (head b)) (n - dt - dp) in
  xdr_buf_trim b n =
    b <| tail := (tail b) <| iov_len := iov_len (tail b) - dt |> |>
      <| page_len := page_len b - dp |>
      <| head := (head b) <| iov_len := iov_len (head b) - dh |> |>
      <| xlen := xlen b - (dt + dp + dh) |>.
Proof.
  intros ? ? ? ?. destruct b as [[hb hl] [tb tl] pg pb pl fl bl xl].
  unfold xdr_buf_trim. simpl in *. unfold field_upd; simpl.
  repeat match goal with |- context [?x =? 0] => destruct (Z.eqb_spec x 0); simpl end;
  f_equal; try lia; f_equal; lia.
Qed.

(** [xdr_buf_trim] lops exactly [min len total] bytes off the end. *)
Lemma xdr_buf_trim_ok m b n :
  buf_ok m b -> 0 <= n ->
  let total := iov_len (head b) + page_len b + iov_len (tail b) in
  let b' := xdr_buf_trim b n in
  buf_ok m b' /\ buf_bytes m b' = ztake (total - n) (buf_bytes m b) /\
  xlen b' = xlen b - Z.min n total.
Proof.
  intros H Hn total b'. pose proof (ok_head _ _ H) as (? & ? & ?).
  pose proof (ok_tail _ _ H) as (? & ? & ?). pose proof (ok_pages _ _ H) as (? & ? & ?).
  pose proof (ok_prange _ _ H). unfold b'. rewrite xdr_buf_trim_eq by done. clear b'.
  set (dt := Z.min (iov_len (tail b)) n). set (dp := Z.min (page_len b) (n - dt)).
  set (dh := Z.min (iov_len (head b)) (n - dt - dp)).
  destruct (kvec_shrink m (head b) (iov_len (head b) - dh) (ok_head _ _ H)) as [OH BH]; [lia|].
  destruct (kvec_shrink m (tail b) (iov_len (tail b) - dt) (ok_tail _ _ H)) as [OT BT]; [lia|].
  pose proof (zlen_kvec m _ (ok_head _ _ H)) as Lh. pose proof (zlen_pages m b H) as Lp.
  pose proof (zlen_kvec m _ (ok_tail _ _ H)) as Lt.
  split_and!; [constructor; simpl; [done|done|apply H|lia|lia]| |simpl; lia].
  unfold buf_bytes. simpl in *. rewrite BH, BT.
  replace (pages_bytes m _) with (ztake (page_len b - dp) (pages_bytes m b)).
  2: { unfold pages_bytes. simpl. rewrite ztake_ztake. f_equal. lia. }
  destruct (Z_le_gt_dec (total - n) (iov_len (head b))).
  { rewrite (ztake_le0 (page_len b - dp)), (ztake_le0 (_ - dt)), app_nil_r by lia.
    rewrite ztake_app_le by lia. destruct (Z_le_gt_dec (total - n) 0).
    - rewrite !ztake_le0 by lia. done.
    - f_equal. lia. }
  rewrite (ztake_all (_ - dh)) by lia. rewrite ztake_app_ge by lia. f_equal.
  destruct (Z_le_gt_dec (total - n) (iov_len (head b) + page_len b)).
  { rewrite (ztake_le0 (_ - dt)), app_nil_r by lia. rewrite ztake_app_le by lia. f_equal. lia. }
  rewrite (ztake_all (_ - dp)) by lia. rewrite ztake_app_ge by lia. do 2 f_equal. lia.
Qed.
