(* ===== verification/XdrDecode.v ===== *)
(** * Decoding from a struct xdr_stream

    The decode half of [net/sunrpc/xdr.c]: a stream walks the head kvec, the
    pages and the tail kvec of an [xdr_buf]; a request that would straddle two
    of those fragments is assembled in the scratch buffer.  The file ends with
    the refinement: over a word-aligned buffer the stream behaves like a cursor
    in the linear message ([XdrInLaws] holds of it). *)

From S2P Require Import Prelude Xdr XdrSpec XdrBuf.

(** [xdr->iov]: which kvec of the buffer, or NULL. *)
Inductive iov_ptr := IovHead | IovTail.

Record xdr_stream := mk_stream {
  xs_mem : xdr_mem;            (* the memory behind the buffer *)
  xs_p : Z;                    (* address in the kvec memory, or offset in the page *)
  xs_buf : xdr_buf;
  xs_end : Z;
  xs_iov : option iov_ptr;
  xs_scratch : Z;              (* scratch.iov_len *)
  xs_page_ptr : option Z;      (* index in the memory's page array *)
  xs_nwords : Z;
}.

#[export] Instance upd_stream : Updatable xdr_stream := fun x =>
  mk_stream (xs_mem x) (xs_p x) (xs_buf x) (xs_end x) (xs_iov x) (xs_scratch x)
    (xs_page_ptr x) (xs_nwords x).

Definition iov_of (b : xdr_buf) (i : iov_ptr) : kvec :=
  match i with IovHead => head b | IovTail => tail b end.

Definition the_page (m : xdr_mem) (i : Z) : list byte := default [] (m_pages m !! Z.to_nat i).

(** The bytes readable at [xdr->p]. *)
Definition area_at (x : xdr_stream) : list byte :=
  match xs_page_ptr x with
  | Some i => zdrop (xs_p x) (the_page (xs_mem x) i)
  | None => zdrop (xs_p x) (m_lin (xs_mem x))
  end.

Definition xdr_stream_remaining (x : xdr_stream) : Z := Z.shiftl (xs_nwords x) 2.

Definition xdr_stream_pos (x : xdr_stream) : Z :=
  u32 (Z.shiftl (u32 (XDR_QUADLEN (xlen (xs_buf x)) - xs_nwords x)) 2).

Definition xdr_stream_set_pos (x : xdr_stream) (pos : Z) : xdr_stream :=
  let blen := xlen (xs_buf x) in
  x <| xs_nwords := if pos <? blen then XDR_QUADLEN blen - XDR_QUADLEN pos else 0 |>.

Definition xdr_stream_page_set_pos (x : xdr_stream) (pos : Z) : xdr_stream :=
  xdr_stream_set_pos x (u32 (pos + iov_len (head (xs_buf x)))).

Definition xdr_page_pos (x : xdr_stream) : Z :=
  u32 (xdr_stream_pos x - iov_len (head (xs_buf x))).

Definition xdr_set_iov (x : xdr_stream) (i : iov_ptr) (base len : Z) : Z * xdr_stream :=
  let iov := iov_of (xs_buf x) i in
  let len := if iov_len iov <? len then iov_len iov else len in
  let base := if len <? base then len else base in
  (len - base,
   x <| xs_p := iov_base iov + base |> <| xs_end := iov_base iov + len |>
     <| xs_iov := Some i |> <| xs_page_ptr := None |>).

Definition xdr_set_tail_base (x : xdr_stream) (base len : Z) : Z * xdr_stream :=
  let b := xs_buf x in
  let x := xdr_stream_set_pos x (u32 (base + page_len b + iov_len (head b))) in
  xdr_set_iov x IovTail base len.

Definition xdr_set_page_base (x : xdr_stream) (base len : Z) : Z * xdr_stream :=
  let maxlen := page_len (xs_buf x) in
  if maxlen <=? base then (0, x)
  else
    let maxlen := maxlen - base in
    let len := if maxlen <? len then maxlen else len in
    let x := xdr_stream_page_set_pos x base in
    let base := base + page_base (xs_buf x) in
    let pgnr := page_idx base in
    let pgoff := page_off base in
    let pgend := pgoff + len in
    let pgend := if PAGE_SIZE <? pgend then PAGE_SIZE else pgend in
    (len,
     x <| xs_page_ptr := Some (pages (xs_buf x) + pgnr) |> <| xs_p := pgoff |>
       <| xs_end := pgend |> <| xs_iov := None |>).

Definition xdr_set_page (x : xdr_stream) (base len : Z) : xdr_stream :=
  let '(r, x) := xdr_set_page_base x base len in
  if r =? 0 then
    let base := u32 (base - page_len (xs_buf x)) in
    snd (xdr_set_tail_base x base len)
  else x.

(** [page_ptr] is the current page; called only when it is not NULL. *)
Definition xdr_set_next_page (x : xdr_stream) (page_ptr : Z) : xdr_stream :=
  let newbase := Z.shiftl (1 + page_ptr - pages (xs_buf x)) PAGE_SHIFT in
  let newbase := newbase - page_base (xs_buf x) in
  if newbase <? page_len (xs_buf x)
  then snd (xdr_set_page_base x newbase (xdr_stream_remaining x))
  else snd (xdr_set_tail_base x 0 (xdr_stream_remaining x)).

Definition xdr_set_next_buffer (x : xdr_stream) : bool * xdr_stream :=
  let x :=
    match xs_page_ptr x, xs_iov x with
    | Some pp, _ => xdr_set_next_page x pp
    | None, Some IovHead => xdr_set_page x 0 (xdr_stream_remaining x)
    | None, _ => x
    end in
  (negb (xs_p x =? xs_end x), x).

(** [p]: [None] for NULL, otherwise an address like [xs_p]. *)
Definition xdr_init_decode (x : xdr_stream) (buf : xdr_buf) (p : option Z) : xdr_stream :=
  let x := x <| xs_buf := buf |> <| xs_scratch := 0 |>
             <| xs_nwords := XDR_QUADLEN (xlen buf) |> in
  let '(r, x) := xdr_set_iov x IovHead 0 (xlen buf) in
  let x :=
    if r =? 0 then
      let '(r, x) := xdr_set_page_base x 0 (xlen buf) in
      if r =? 0 then snd (xdr_set_iov x IovTail 0 (xlen buf)) else x
    else x in
  match p with
  | Some p =>
      if (xs_p x <? p) && (p <=? xs_end x)
      then x <| xs_nwords := xs_nwords x - (p - xs_p x) / 4 |> <| xs_p := p |>
      else x
  | None => x
  end.

Definition xdr_set_scratch_buffer (x : xdr_stream) (buflen : Z) : xdr_stream :=
  x <| xs_scratch := buflen |>.

(** The pointer returned is read as the bytes it addresses. *)
Definition __xdr_inline_decode (x : xdr_stream) (nbytes : Z) : option (list byte) * xdr_stream :=
  let nwords := u32 (XDR_QUADLEN_sz nbytes) in
  let q := xs_p x + 4 * nwords in
  if (xs_nwords x <? nwords) || (xs_end x <? q) || (q <? xs_p x)
  then (None, x)
  else (Some (ztake nbytes (area_at x)),
        x <| xs_p := q |> <| xs_nwords := xs_nwords x - nwords |>).

Definition xdr_copy_to_scratch (x : xdr_stream) (nbytes : Z) : option (list byte) * xdr_stream :=
  let cplen := xs_end x - xs_p x in
  if xs_scratch x <? nbytes then (None, x)
  else
    match __xdr_inline_decode x cplen with
    | (None, x) => (None, x)
    | (Some p1, x) =>
        let '(more, x) := xdr_set_next_buffer x in
        if negb more then (None, x)
        else
          let nbytes := nbytes - cplen in
          match __xdr_inline_decode x nbytes with
          | (None, x) => (None, x)
          | (Some p2, x) => (Some (p1 ++ p2), x)
          end
    end.

Definition stream_inline_decode (nbytes : Z) (x : xdr_stream) : option (list byte) * xdr_stream :=
  if nbytes =? 0 then (Some [], x)
  else
    let '(overflow, x) :=
      if xs_p x =? xs_end x
      then let '(more, x) := xdr_set_next_buffer x in (negb more, x)
      else (false, x) in
    if overflow then (None, x)
    else
      match __xdr_inline_decode x nbytes with
      | (Some p, x) => (Some p, x)
      | (None, x) => xdr_copy_to_scratch x nbytes
      end.

#[export] Instance xdr_stream_in : XdrIn xdr_stream := stream_inline_decode.

(** ** A stream as a cursor in the linear message *)

(** The buffers the refinement is about: the fragments start and end on word
    boundaries, and the message fits in them. *)
Record dec_buf_ok (m : xdr_mem) (b : xdr_buf) : Prop := {
  db_ok : buf_ok m b;
  db_len : 0 <= xlen b <= iov_len (head b) + page_len b + iov_len (tail b);
  db_small : iov_len (head b) + page_base b + page_len b + iov_len (tail b) < 2 ^ 31;
  db_h4 : iov_len (head b) mod 4 = 0;
  db_b4 : page_base b mod 4 = 0;
  db_p4 : page_len b mod 4 = 0;
  db_l4 : xlen b mod 4 = 0;
}.

(** Linear position of [xdr->p]. *)
Definition lpos (x : xdr_stream) : Z :=
  let b := xs_buf x in
  match xs_page_ptr x, xs_iov x with
  | Some i, _ => iov_len (head b) + (i - pages b) * PAGE_SIZE - page_base b + xs_p x
  | None, Some IovHead => xs_p x - iov_base (head b)
  | None, _ => iov_len (head b) + page_len b + (xs_p x - iov_base (tail b))
  end.

(** Where the fragment the stream points into ends, in the message. *)
Definition frag_end (x : xdr_stream) : Z :=
  let b := xs_buf x in
  match xs_page_ptr x, xs_iov x with
  | Some i, _ =>
      Z.min (xlen b) (iov_len (head b) +
        Z.min (page_len b) ((i - pages b + 1) * PAGE_SIZE - page_base b))
  | None, Some IovHead => Z.min (xlen b) (iov_len (head b))
  | None, _ => xlen b
  end.

Definition frag_ok (x : xdr_stream) : Prop :=
  let b := xs_buf x in
  match xs_page_ptr x, xs_iov x with
  | Some i, None => 0 < page_len b /\ pages b <= i /\ 0 <= xs_p x /\ xs_end x <= PAGE_SIZE /\
      (i - pages b) * PAGE_SIZE - page_base b < page_len b /\ xs_p x mod 4 = 0 /\
      0 <= (i - pages b) * PAGE_SIZE - page_base b + xs_p x
  | None, Some IovHead => iov_base (head b) <= xs_p x
  | None, Some IovTail => iov_base (tail b) <= xs_p x
  | _, _ => False
  end.

(** Either the stream is at a place of the message, or the message is used up
    and the pointers are parked at or past its end. *)
Record stream_ok (x : xdr_stream) : Prop := {
  so_buf : dec_buf_ok (xs_mem x) (xs_buf x);
  so_nw : 0 <= 4 * xs_nwords x <= xlen (xs_buf x);
  so_frag : frag_ok x;
  so_at : (lpos x = xlen (xs_buf x) - 4 * xs_nwords x /\
           xs_end x - xs_p x = frag_end x - lpos x /\ xs_p x <= xs_end x) \/
          (xs_nwords x = 0 /\ xs_p x = xs_end x /\ xs_iov x <> Some IovHead /\
           xlen (xs_buf x) <= lpos x /\
           (xs_page_ptr x <> None ->
            xlen (xs_buf x) <= iov_len (head (xs_buf x)) + page_len (xs_buf x)));
}.

Definition msg (x : xdr_stream) : list byte :=
  ztake (xlen (xs_buf x)) (buf_bytes (xs_mem x) (xs_buf x)).
Definition stream_rest (x : xdr_stream) : list byte :=
  zdrop (xlen (xs_buf x) - 4 * xs_nwords x) (msg x).
Definition stream_contig (x : xdr_stream) : Z := xs_end x - xs_p x.

(** The message bytes the stream's area holds. *)
Lemma cut_head m b o n :
  buf_ok m b -> 0 <= o -> o + n <= iov_len (head b) ->
  cut (buf_bytes m b) o n = cut (m_lin m) (iov_base (head b) + o) n.
Proof.
  intros [(? & ? & ?) _ _ _ _] Ho Hn. unfold buf_bytes. rewrite cut_app by done.
  rewrite (kvec_bytes_cut m (head b)).
  rewrite cut_cut by lia. rewrite (cut_nil (pages_bytes m b ++ _)); [apply app_nil_r|].
  left. autorewrite with nfs_len. lia.
Qed.

Lemma cut_tail m b o n :
  buf_ok m b -> 0 <= o -> o + n <= iov_len (tail b) ->
  cut (buf_bytes m b) (iov_len (head b) + page_len b + o) n = cut (m_lin m) (iov_base (tail b) + o) n.
Proof.
  intros H Ho Hn. destruct (ok_head _ _ H) as (? & ? & ?). destruct (ok_pages _ _ H) as (? & ? & ?).
  unfold buf_bytes. rewrite app_assoc, cut_app by lia.
  rewrite (cut_nil (kvec_bytes m (head b) ++ _)).
  2:{ autorewrite with nfs_len. rewrite zlen_kvec, zlen_pages by (done || apply H). lia. }
  autorewrite with nfs_len. rewrite zlen_kvec, zlen_pages by (done || apply H).
  simpl. destruct (ok_tail _ _ H) as (? & ? & ?). rewrite kvec_bytes_cut, cut_cut by lia.
  apply cut_eq; lia.
Qed.

Lemma cut_page m b i o n :
  buf_ok m b -> pages b <= i -> 0 <= o -> o + n <= PAGE_SIZE -> 0 <= n ->
  let a := (i - pages b) * PAGE_SIZE - page_base b + o in
  0 <= a -> a + n <= page_len b ->
  cut (buf_bytes m b) (iov_len (head b) + a) n = cut (the_page m i) o n.
Proof.
  intros H Hi Ho Hp Hn a Ha Hl. destruct (ok_head _ _ H) as (? & ? & ?).
  destruct (ok_pages _ _ H) as (? & ? & ?). pose proof (ok_prange _ _ H).
  destruct (decide (n = 0)) as [->|]; [by rewrite !cut_nil by lia|].
  unfold buf_bytes. rewrite cut_app by lia.
  rewrite (cut_nil (kvec_bytes m (head b))) by (rewrite zlen_kvec by apply H; lia).
  rewrite zlen_kvec by apply H. rewrite zlen_nil. simpl.
  rewrite cut_app by lia. rewrite (cut_nil (kvec_bytes m (tail b))).
  2:{ left. autorewrite with nfs_len. rewrite zlen_pages by done. lia. }
  rewrite app_nil_r. unfold pages_bytes. fold (cut (concat (m_pages m)) (pages b * PAGE_SIZE + page_base b) (page_len b)).
  rewrite cut_cut by (unfold PAGE_SIZE in *; lia).
  transitivity (cut (concat (m_pages m)) (i * PAGE_SIZE + o) n); [apply cut_eq; lia|].
  unfold cut at 1. rewrite <- zdrop_zdrop by (unfold PAGE_SIZE in *; lia).
  rewrite zdrop_concat_pages by (apply H || lia).
  unfold the_page. destruct (m_pages m !! Z.to_nat i) as [pg|] eqn:E.
  - rewrite (drop_S _ _ _ E : zdrop i (m_pages m) = _). simpl.
    assert (zlen pg = PAGE_SIZE) by (eapply (Forall_lookup_1 _ _ _ _ (ok_mem _ _ H)); exact E).
    rewrite zdrop_app_le by lia. rewrite ztake_app_le by llia. done.
  - apply lookup_ge_None in E. unfold zlen, PAGE_SIZE in *. lia.
Qed.

(** Expose the numeric content of the invariant. *)
Ltac stream_facts H :=
  let Hb := fresh "Hb" in
  pose proof (so_buf _ H) as Hb;
  pose proof (so_nw _ H); pose proof (db_len _ _ Hb); pose proof (db_small _ _ Hb);
  pose proof (ok_head _ _ (db_ok _ _ Hb)); pose proof (ok_tail _ _ (db_ok _ _ Hb));
  pose proof (ok_pages _ _ (db_ok _ _ Hb));
  pose proof (db_h4 _ _ Hb); pose proof (db_b4 _ _ Hb);
  pose proof (db_p4 _ _ Hb); pose proof (db_l4 _ _ Hb);
  unfold kvec_ok in *; destruct_and?.

Lemma zlen_msg x : stream_ok x -> zlen (msg x) = xlen (xs_buf x).
Proof.
  intros H. stream_facts H. unfold msg. autorewrite with nfs_len.
  rewrite zlen_buf by apply Hb. lia.
Qed.

Lemma zlen_stream_rest x : stream_ok x -> zlen (stream_rest x) = 4 * xs_nwords x.
Proof.
  intros H. stream_facts H. unfold stream_rest. autorewrite with nfs_len.
  rewrite zlen_msg by done. lia.
Qed.

(** [stream_contig] is a prefix of what is left, word aligned. *)
Lemma stream_contig_range x :
  stream_ok x -> 0 <= stream_contig x <= 4 * xs_nwords x.
Proof.
  intros H. stream_facts H. unfold stream_contig.
  destruct (so_at _ H) as [(E & D & L)|(E & D & _ & _)]; [|lia].
  split; [lia|]. rewrite D. cut (frag_end x <= xlen (xs_buf x)); [lia|].
  unfold frag_end. destruct (xs_page_ptr x), (xs_iov x) as [[]|]; lia.
Qed.

(** Within the fragment, the area holds the next bytes of the message. *)
Lemma area_rest x n :
  stream_ok x -> 0 <= n <= stream_contig x -> ztake n (area_at x) = ztake n (stream_rest x).
Proof.
  intros H Hn. destruct (decide (n = 0)) as [->|]; [by rewrite !ztake_le0|].
  unfold stream_contig in Hn.
  destruct (so_at _ H) as [(E & D & L)|(E & D & _ & _)]; [|lia].
  rewrite D in Hn. stream_facts H. assert (S : frag_end x <= xlen (xs_buf x)).
  { unfold frag_end. destruct (xs_page_ptr x), (xs_iov x) as [[]|]; lia. }
  unfold stream_rest, msg. rewrite zdrop_ztake, ztake_ztake by lia.
  replace (Z.min n _) with n by lia.
  change (ztake n (area_at x) = cut (buf_bytes (xs_mem x) (xs_buf x)) (xlen (xs_buf x) - 4 * xs_nwords x) n).
  rewrite <- E. pose proof (so_frag _ H) as F. unfold frag_ok in F. unfold area_at, lpos, frag_end in *.
  destruct (xs_page_ptr x) as [i|], (xs_iov x) as [[]|]; try done; destruct_and?.
  - etransitivity; [symmetry; apply (cut_page _ (xs_buf x))|apply cut_eq; [|reflexivity]].
    1: apply Hb.
    all: unfold PAGE_SIZE in *; lia.
  - rewrite cut_head by (apply Hb || lia). apply cut_eq; lia.
  - rewrite cut_tail by (apply Hb || lia). apply cut_eq; lia.
Qed.

(** ** Moving to the next fragment *)

Lemma quad_aligned n : 0 <= n < 2 ^ 32 - 3 -> n mod 4 = 0 -> 4 * XDR_QUADLEN n = n.
Proof. intros. rewrite XDR_QUADLEN_div by lia. zlia. Qed.

Lemma set_pos_aligned b nw pos :
  0 <= xlen b < 2 ^ 31 -> xlen b mod 4 = 0 -> 0 <= pos < 2 ^ 32 - 3 -> pos mod 4 = 0 ->
  nw = (if pos <? xlen b then XDR_QUADLEN (xlen b) - XDR_QUADLEN pos else 0) ->
  4 * nw = Z.max 0 (xlen b - pos).
Proof.
  intros. subst nw. pose proof (quad_aligned (xlen b)). pose proof (quad_aligned pos).
  destruct (Z.ltb_spec pos (xlen b)); lia.
Qed.

Lemma u32_small z : 0 <= z < 2 ^ 32 -> u32 z = z.
Proof. apply u32_id. Qed.

(** Entering the pages at offset [base] (of [page_len]), with everything before
    that offset decoded. *)
Lemma xdr_set_page_base_ok x base r x' :
  dec_buf_ok (xs_mem x) (xs_buf x) ->
  0 <= base < page_len (xs_buf x) -> base mod 4 = 0 ->
  4 * xs_nwords x = Z.max 0 (xlen (xs_buf x) - (iov_len (head (xs_buf x)) + base)) ->
  xdr_set_page_base x base (xdr_stream_remaining x) = (r, x') ->
  stream_ok x' /\ xs_buf x' = xs_buf x /\ xs_mem x' = xs_mem x /\
  xs_nwords x' = xs_nwords x /\ r = Z.min (page_len (xs_buf x) - base) (4 * xs_nwords x).
Proof.
  intros Hb Hbase H4 Hn E.
  pose proof (db_len _ _ Hb); pose proof (db_small _ _ Hb).
  pose proof (ok_head _ _ (db_ok _ _ Hb)) as (? & ? & ?).
  pose proof (ok_tail _ _ (db_ok _ _ Hb)) as (? & ? & ?).
  pose proof (ok_pages _ _ (db_ok _ _ Hb)) as (? & ? & ?).
  pose proof (db_h4 _ _ Hb); pose proof (db_b4 _ _ Hb);
  pose proof (db_p4 _ _ Hb); pose proof (db_l4 _ _ Hb).
  unfold xdr_set_page_base in E. rewrite (proj2 (Z.leb_gt _ _)) in E by lia.
  unfold xdr_stream_page_set_pos, xdr_stream_set_pos, xdr_stream_remaining in E.
  rewrite Z.shiftl_mul_pow2 in E by lia. unfold field_upd in E. simpl in E.
  rewrite page_idx_div, page_off_mod in E. apply pair_equal_spec in E as [E1 E2].
  assert (N : 4 * xs_nwords x' = 4 * xs_nwords x).
  { rewrite <- E2. simpl. rewrite u32_small by lia.
    rewrite Hn, (Z.add_comm (iov_len _)). eapply set_pos_aligned; [lia|lia|lia|zlia|reflexivity]. }
  assert (R : r = Z.min (page_len (xs_buf x) - base) (4 * xs_nwords x)).
  { rewrite <- E1. destruct (Z.ltb_spec (page_len (xs_buf x) - base) (xs_nwords x * 2 ^ 2)); lia. }
  rewrite E1, R in E2. rewrite <- E2 in N |- *. clear E1 E2.
  split_and!; try done; [|simpl in *; lia]. simpl in N.
  assert (Hq : base + page_base (xs_buf x) = PAGE_SIZE * ((base + page_base (xs_buf x)) / PAGE_SIZE)
    + (base + page_base (xs_buf x)) mod PAGE_SIZE) by (apply Z.div_mod; done).
  assert (Ho : 0 <= (base + page_base (xs_buf x)) mod PAGE_SIZE < PAGE_SIZE)
    by (apply Z.mod_pos_bound; done).
  assert (0 <= (base + page_base (xs_buf x)) / PAGE_SIZE) by (apply Z.div_pos; [lia|done]).
  set (q := (base + page_base (xs_buf x)) / PAGE_SIZE) in *.
  set (o := (base + page_base (xs_buf x)) mod PAGE_SIZE) in *.
  clearbody q o. unfold PAGE_SIZE in *. split.
  - done.
  - simpl. lia.
  - unfold frag_ok, PAGE_SIZE. simpl. split_and!; try lia; [|zlia]. repeat case_match; zbool; lia.
  - unfold lpos, frag_end, PAGE_SIZE. simpl. destruct (decide (0 < xs_nwords x)) as [P|P].
    + left. repeat case_match; zbool; lia.
    + right. split_and!; [lia| |done| |intros _]; repeat case_match; zbool; lia.
Qed.

(** Entering the tail, with everything before it decoded. *)
Lemma xdr_set_tail_base_ok x base r x' :
  dec_buf_ok (xs_mem x) (xs_buf x) ->
  (base = 0 /\ 4 * xs_nwords x =
    Z.max 0 (xlen (xs_buf x) - (iov_len (head (xs_buf x)) + page_len (xs_buf x)))) \/
  (base = u32 (- page_len (xs_buf x)) /\ xs_nwords x = 0 /\
    xlen (xs_buf x) <= iov_len (head (xs_buf x))) ->
  xdr_set_tail_base x base (xdr_stream_remaining x) = (r, x') ->
  stream_ok x' /\ xs_buf x' = xs_buf x /\ xs_mem x' = xs_mem x /\ xs_nwords x' = xs_nwords x.
Proof.
  intros Hb Hbase E.
  pose proof (db_len _ _ Hb); pose proof (db_small _ _ Hb).
  pose proof (ok_head _ _ (db_ok _ _ Hb)) as (? & ? & ?).
  pose proof (ok_tail _ _ (db_ok _ _ Hb)) as (? & ? & ?).
  pose proof (ok_pages _ _ (db_ok _ _ Hb)) as (? & ? & ?).
  pose proof (db_h4 _ _ Hb); pose proof (db_p4 _ _ Hb); pose proof (db_l4 _ _ Hb).
  unfold xdr_set_tail_base, xdr_set_iov, xdr_stream_set_pos, xdr_stream_remaining in E.
  rewrite Z.shiftl_mul_pow2 in E by lia. unfold field_upd in E. simpl in E.
  apply pair_equal_spec in E as [_ E].
  assert (N : 4 * xs_nwords x' = 4 * xs_nwords x /\ (0 < xs_nwords x -> base = 0) /\ 0 <= base).
  { rewrite <- E. simpl. destruct Hbase as [(-> & Hn)|(-> & Hn & Hh)].
    - split; [|lia]. rewrite u32_small by lia. rewrite Hn.
      replace (iov_len (head (xs_buf x)) + page_len (xs_buf x)) with
        (0 + page_len (xs_buf x) + iov_len (head (xs_buf x))) by lia.
      eapply set_pos_aligned; [lia|lia|lia|zlia|reflexivity].
    - split; [|split; [lia|apply u32_range]].
      replace (u32 (u32 (- page_len (xs_buf x)) + page_len (xs_buf x) + iov_len (head (xs_buf x))))
        with (iov_len (head (xs_buf x))) by (unfold u32; zlia).
      rewrite (proj2 (Z.ltb_ge _ _)) by lia. lia. }
  destruct N as (N & Nb & B0). rewrite <- E in N |- *. simpl in N. clear E.
  split_and!; try done; [|simpl; lia].
  assert (W : 4 * xs_nwords x = Z.max 0 (xlen (xs_buf x) - (iov_len (head (xs_buf x)) + page_len (xs_buf x))))
    by lia.
  split; [done|simpl; lia|unfold frag_ok; simpl; repeat case_match; zbool; lia|].
  unfold lpos, frag_end. simpl. destruct (decide (0 < xs_nwords x)) as [P|P].
  - left. specialize (Nb P). repeat case_match; zbool; lia.
  - right. split_and!; [lia| |done| |done]; repeat case_match; zbool; lia.
Qed.

(** [xdr_set_next_buffer], called at the end of a fragment, moves to the next
    place of the same message without consuming anything. *)
Lemma xdr_set_next_buffer_ok x more x' :
  stream_ok x -> xs_p x = xs_end x -> xdr_set_next_buffer x = (more, x') ->
  stream_ok x' /\ xs_buf x' = xs_buf x /\ xs_mem x' = xs_mem x /\
  xs_nwords x' = xs_nwords x /\ more = negb (xs_p x' =? xs_end x').
Proof.
  intros H Hp E. stream_facts H. unfold xdr_set_next_buffer in E.
  pose proof (so_frag _ H) as F. pose proof (so_at _ H) as A.
  unfold frag_ok in F. unfold lpos, frag_end in A.
  destruct (xs_page_ptr x) as [i|] eqn:Ep; destruct (xs_iov x) as [[]|] eqn:Ei; try done;
    apply pair_equal_spec in E as [<- E].
  - rewrite E. cut (stream_ok x' /\ xs_buf x' = xs_buf x /\ xs_mem x' = xs_mem x /\
      xs_nwords x' = xs_nwords x); [tauto|].
    unfold xdr_set_next_page in E. rewrite Z.shiftl_mul_pow2 in E by done.
    change (2 ^ PAGE_SHIFT) with PAGE_SIZE in E. unfold PAGE_SIZE in *.
    destruct (Z.ltb_spec ((1 + i - pages (xs_buf x)) * 4096 - page_base (xs_buf x)) (page_len (xs_buf x))).
    + destruct (xdr_set_page_base _ _ _) as [r y] eqn:Es. simpl in E. subst y.
      apply xdr_set_page_base_ok in Es; [tauto|done|lia|zlia|].
      destruct A as [A|A]; [lia|]. destruct A as (A1 & A2 & _ & A3 & A4). lia.
    + destruct (xdr_set_tail_base _ _ _) as [r y] eqn:Es. simpl in E. subst y.
      apply xdr_set_tail_base_ok in Es; [tauto|done|]. left. split; [done|].
      destruct A as [A|A]; [lia|]. destruct A as (A1 & A2 & _ & A3 & A4).
      specialize (A4 ltac:(done)). lia.
  - rewrite E. cut (stream_ok x' /\ xs_buf x' = xs_buf x /\ xs_mem x' = xs_mem x /\
      xs_nwords x' = xs_nwords x); [tauto|].
    destruct A as [A|(_ & _ & A & _)]; [|by destruct A]. destruct A as (A1 & A2 & A3).
    unfold xdr_set_page in E. destruct (xdr_set_page_base _ _ _) as [r y] eqn:Es.
    destruct (Z.eqb_spec (page_len (xs_buf x)) 0) as [P0|P0].
    + unfold xdr_set_page_base in Es. rewrite (proj2 (Z.leb_le _ _)) in Es by lia.
      apply pair_equal_spec in Es as [<- <-]. change (0 =? 0) with true in E. cbv iota in E. rewrite P0 in E.
      destruct (xdr_set_tail_base _ _ _) as [r z] eqn:Et. simpl in E. subst z.
      apply xdr_set_tail_base_ok in Et; [tauto|done|]. left. split; [done|lia].
    + apply xdr_set_page_base_ok in Es as (Y & Yb & Ym & Yn & Yr); [|done|lia|done|lia].
      destruct (Z.eqb_spec r 0) as [->|]; [|subst; tauto].
      replace (xdr_stream_remaining x) with (xdr_stream_remaining y) in E
        by (unfold xdr_stream_remaining; by rewrite Yn).
      destruct (xdr_set_tail_base _ _ _) as [r z] eqn:Et. simpl in E. subst z.
      apply xdr_set_tail_base_ok in Et as (? & ? & ? & ?).
      * split_and!; congruence.
      * by rewrite Yb, Ym.
      * right. rewrite Yb, Yn. rewrite Z.sub_0_l. split_and!; [done|lia|lia].
  - subst x'. done.
Qed.

(** ** The stream as an instance of the interface *)

Lemma contig_mod4 x : stream_ok x -> stream_contig x mod 4 = 0.
Proof.
  intros H. stream_facts H. pose proof (so_frag _ H) as F. unfold frag_ok in F. unfold stream_contig.
  destruct (so_at _ H) as [(E & D & L)|(E & D & _ & _)]; [|rewrite D, Z.sub_diag; done].
  rewrite D. unfold frag_end in *. rewrite E. unfold lpos, PAGE_SIZE in E.
  destruct (xs_page_ptr x), (xs_iov x) as [[]|]; try done; unfold PAGE_SIZE in *; zlia.
Qed.

(** Consuming [4 * k] bytes of the fragment. *)
Lemma stream_advance x k :
  stream_ok x -> 0 <= 4 * k <= stream_contig x ->
  let x' := x <| xs_p := xs_p x + 4 * k |> <| xs_nwords := xs_nwords x - k |> in
  stream_ok x' /\ stream_rest x' = zdrop (4 * k) (stream_rest x) /\
  stream_contig x' = stream_contig x - 4 * k.
Proof.
  intros H Hk x'. pose proof (stream_contig_range x H) as Hc. unfold stream_contig in *.
  pose proof (so_at _ H) as A. pose proof (so_frag _ H) as F. pose proof (so_nw _ H) as N.
  split_and!; [|unfold stream_rest, x', msg; simpl; rewrite zdrop_zdrop by lia; f_equal; lia|simpl; lia].
  split; [apply H|simpl; lia| |].
  - unfold frag_ok in *. simpl. destruct (xs_page_ptr x), (xs_iov x) as [[]|]; try done; [|lia..].
    split_and!; try lia. destruct F as (_ & _ & _ & _ & _ & F & _). zlia.
  - unfold lpos, frag_end in *. simpl in *. destruct (decide (k = 0)) as [->|].
    + rewrite !Z.add_0_r, Z.sub_0_r. exact A.
    + left. destruct A as [A|A]; [|lia]. destruct (xs_page_ptr x), (xs_iov x) as [[]|]; lia.
Qed.

Lemma __xdr_inline_decode_some x n :
  stream_ok x -> 0 <= n -> align4 n <= stream_contig x ->
  exists x', __xdr_inline_decode x n = (Some (ztake n (stream_rest x)), x') /\ stream_ok x' /\
    stream_rest x' = zdrop (align4 n) (stream_rest x) /\
    stream_contig x' = stream_contig x - align4 n.
Proof.
  intros H Hn Hc. pose proof (stream_contig_range x H). pose proof (align4_range n).
  stream_facts H. pose proof (stream_advance x ((n + 3) / 4) H ltac:(unfold align4 in *; lia)) as A.
  eexists. split; [|exact A].
  unfold __xdr_inline_decode. rewrite XDR_QUADLEN_sz_div by lia.
  rewrite u32_small by (unfold align4 in *; lia). unfold stream_contig, align4 in *.
  rewrite (proj2 (Z.ltb_ge _ _)), (proj2 (Z.ltb_ge _ _)), (proj2 (Z.ltb_ge _ _)) by lia. simpl.
  rewrite (area_rest x n) by (done || unfold stream_contig; lia). done.
Qed.

Lemma __xdr_inline_decode_none x n :
  stream_ok x -> 0 <= n < 2 ^ 32 -> stream_contig x < align4 n ->
  __xdr_inline_decode x n = (None, x).
Proof.
  intros H Hn Hc. unfold __xdr_inline_decode. rewrite XDR_QUADLEN_sz_div by lia.
  rewrite u32_small by zlia. unfold stream_contig, align4 in *.
  rewrite (proj2 (Z.ltb_lt (xs_end x) _)) by lia. by rewrite orb_true_r.
Qed.

(** What any decode step guarantees, whether it returns bytes or NULL. *)
Definition took (x : xdr_stream) (n : Z) (r : option (list byte)) (x' : xdr_stream) : Prop :=
  stream_ok x' /\
  match r with
  | Some bs => bs = ztake n (stream_rest x) /\ zlen bs = n /\
               stream_rest x' = zdrop (align4 n) (stream_rest x)
  | None => exists w, stream_rest x = w ++ stream_rest x'
  end.

Lemma __xdr_inline_decode_took x n r x' :
  stream_ok x -> 0 <= n < 2 ^ 32 -> __xdr_inline_decode x n = (r, x') ->
  took x n r x' /\ (r = None -> x' = x).
Proof.
  intros H Hn E. pose proof (align4_range n). destruct (decide (align4 n <= stream_contig x)).
  - destruct (__xdr_inline_decode_some x n) as (y & Ey & Y & R & C); [done|lia|done|].
    rewrite Ey in E. simplify_eq. split; [|done]. split_and!; try done.
    autorewrite with nfs_len. rewrite zlen_stream_rest by done.
    pose proof (stream_contig_range x H). lia.
  - rewrite __xdr_inline_decode_none in E by (done || lia). simplify_eq.
    split; [|done]. split; [done|]. by exists [].
Qed.

Lemma next_buffer_rest x more x' :
  stream_ok x -> xs_p x = xs_end x -> xdr_set_next_buffer x = (more, x') ->
  stream_ok x' /\ stream_rest x' = stream_rest x.
Proof.
  intros H Hp E. destruct (xdr_set_next_buffer_ok x more x' H Hp E) as (? & Eb & Em & En & _).
  split; [done|]. unfold stream_rest, msg. by rewrite Eb, Em, En.
Qed.

(** The scratch path joins the end of one fragment and the start of the next
    into the bytes the message has there. *)
Lemma xdr_copy_to_scratch_took x n r x' :
  stream_ok x -> 0 <= n < 2 ^ 32 -> stream_contig x < align4 n ->
  xdr_copy_to_scratch x n = (r, x') -> took x n r x'.
Proof.
  intros H Hn Hc E. pose proof (contig_mod4 x H) as M. pose proof (stream_contig_range x H) as C.
  pose proof (align4_mod n). pose proof (align4_range n). unfold xdr_copy_to_scratch in E.
  change (xs_end x - xs_p x) with (stream_contig x) in E. set (c := stream_contig x) in *.
  assert (L : c < n) by zlia.
  destruct (Z.ltb_spec (xs_scratch x) n); [simplify_eq; split; [done|by exists []]|].
  destruct (__xdr_inline_decode_some x c) as (y & Ey & Y & R & Cy); [done|lia|by rewrite align4_id|].
  rewrite Ey in E. rewrite (align4_id c) in * by done.
  destruct (xdr_set_next_buffer y) as [more z] eqn:En.
  assert (P0 : stream_contig y = 0) by (rewrite Cy; apply Z.sub_diag).
  apply next_buffer_rest in En as [Hz Rz]; [|done|unfold stream_contig in P0; lia].
  destruct more; simpl in E.
  2:{ simplify_eq. split; [done|]. exists (ztake c (stream_rest x)). by rewrite Rz, R, ztake_zdrop. }
  destruct (__xdr_inline_decode z (n - c)) as [r' v] eqn:Ev.
  apply __xdr_inline_decode_took in Ev as [[Hv T] Nv]; [|done|lia].
  destruct r' as [p2|]; simplify_eq.
  - split; [done|]. destruct T as (T1 & T2 & T3). rewrite Rz, R in T1, T3. split_and!.
    + rewrite (ztake_split c n) by lia. by rewrite T1.
    + autorewrite with nfs_len. rewrite zlen_stream_rest by done. lia.
    + rewrite T3, zdrop_zdrop by (unfold align4; zlia). f_equal. unfold align4. zlia.
  - split; [done|]. rewrite Nv, Rz, R by done. exists (ztake c (stream_rest x)).
    by rewrite ztake_zdrop.
Qed.

Lemma stream_inline_decode_took n x r x' :
  stream_ok x -> 0 <= n < 2 ^ 32 -> stream_inline_decode n x = (r, x') -> took x n r x'.
Proof.
  intros H Hn E. unfold stream_inline_decode in E. destruct (Z.eqb_spec n 0) as [->|].
  { simplify_eq. split; [done|]. rewrite zdrop_le0 by done. done. }
  assert (K : forall y, stream_ok y -> stream_rest y = stream_rest x ->
    match __xdr_inline_decode y n with
    | (Some p, z) => (Some p, z) | (None, z) => xdr_copy_to_scratch z n
    end = (r, x') -> took x n r x').
  { intros y Y R E'. unfold took. rewrite <- R. change (took y n r x').
    destruct (__xdr_inline_decode y n) as [[p|] z] eqn:Ey.
    - simplify_eq. by eapply (__xdr_inline_decode_took y).
    - destruct (decide (align4 n <= stream_contig y)).
      + destruct (__xdr_inline_decode_some y n) as (? & ? & _); [done|lia|done|congruence].
      + rewrite __xdr_inline_decode_none in Ey by (done || lia). simplify_eq.
        apply xdr_copy_to_scratch_took; [done|done|lia|done]. }
  destruct (Z.eqb_spec (xs_p x) (xs_end x)) as [Hp|]; [|by apply (K x)].
  destruct (xdr_set_next_buffer x) as [more y] eqn:En.
  apply next_buffer_rest in En as [Hy Ry]; [|done..].
  destruct more; simpl in E; [by apply (K y)|].
  simplify_eq. split; [done|]. exists []. by rewrite Ry.
Qed.

Lemma stream_inline_decode_contig n x :
  stream_ok x -> 0 <= n -> align4 n <= stream_contig x ->
  exists x', stream_inline_decode n x = (Some (ztake n (stream_rest x)), x') /\ stream_ok x' /\
    stream_rest x' = zdrop (align4 n) (stream_rest x) /\
    stream_contig x' = stream_contig x - align4 n.
Proof.
  intros H Hn Hc. unfold stream_inline_decode. destruct (Z.eqb_spec n 0) as [->|].
  { exists x. rewrite zdrop_le0, ztake_le0 by done. split_and!; try done.
    change (align4 0) with 0. lia. }
  destruct (__xdr_inline_decode_some x n H Hn Hc) as (y & Ey & Y).
  exists y. pose proof (align4_range n). unfold stream_contig in Hc.
  rewrite (proj2 (Z.eqb_neq _ _)) by lia. by rewrite Ey.
Qed.

#[export, refine] Instance xdr_stream_laws : XdrInLaws xdr_stream := {|
  xi_wf := stream_ok; xi_rest := stream_rest; xi_contig := stream_contig;
|}.
Proof.
  - intros s H. rewrite zlen_stream_rest by done. by apply stream_contig_range.
  - intros s n. apply stream_inline_decode_contig.
  - intros s n r s' H Hn E. by apply stream_inline_decode_took.
Defined.

(** ** Starting to decode *)

(** After [xdr_init_decode] the whole message is ahead of the stream. *)
Lemma xdr_init_decode_ok x b :
  dec_buf_ok (xs_mem x) b ->
  let x' := xdr_init_decode x b None in
  stream_ok x' /\ stream_rest x' = ztake (xlen b) (buf_bytes (xs_mem x) b) /\
  xs_mem x' = xs_mem x /\ xs_buf x' = b.
Proof.
  intros Hb x'.
  pose proof (db_len _ _ Hb); pose proof (db_small _ _ Hb).
  pose proof (ok_head _ _ (db_ok _ _ Hb)) as (? & ? & ?).
  pose proof (ok_tail _ _ (db_ok _ _ Hb)) as (? & ? & ?).
  pose proof (ok_pages _ _ (db_ok _ _ Hb)) as (? & ? & ?).
  pose proof (quad_aligned (xlen b) ltac:(lia) (db_l4 _ _ Hb)) as Q.
  cut (stream_ok x' /\ xs_mem x' = xs_mem x /\ xs_buf x' = b /\ 4 * xs_nwords x' = xlen b).
  { intros (A & B & C & D). split_and!; try done. unfold stream_rest, msg.
    rewrite D, B, C, Z.sub_diag. by apply zdrop_le0. }
  subst x'. unfold xdr_init_decode.
  set (x0 := x <| xs_buf := b |> <| xs_scratch := 0 |> <| xs_nwords := XDR_QUADLEN (xlen b) |>).
  destruct (xdr_set_iov x0 IovHead 0 (xlen b)) as [r x1] eqn:E1.
  unfold xdr_set_iov in E1. unfold field_upd in E1; simpl in E1. apply pair_equal_spec in E1 as [R1 E1].
  destruct (Z.eqb_spec r 0) as [R0|R0].
  2:{ subst x1. split_and!; try done. split; [done|simpl; lia|unfold frag_ok; simpl|].
      - repeat case_match; zbool; lia.
      - left. unfold lpos, frag_end. simpl. repeat case_match; zbool; lia. }
  assert (Hz : iov_len (head b) = 0 \/ xlen b = 0)
    by (rewrite R0 in R1; repeat case_match; zbool; lia).
  assert (X1 : xs_mem x1 = xs_mem x /\ xs_buf x1 = b /\ xs_nwords x1 = XDR_QUADLEN (xlen b))
    by (by subst x1). clear E1 R1. destruct X1 as (M1 & B1 & N1).
  destruct (xdr_set_page_base x1 0 (xlen b)) as [r2 x2] eqn:E2.
  assert (X2 : (r2 = 0 -> xlen b = 0 \/ iov_len (head b) + page_len b = 0) /\
     xs_mem x2 = xs_mem x /\ xs_buf x2 = b /\ 4 * xs_nwords x2 = xlen b /\ (r2 <> 0 -> stream_ok x2)).
  { destruct (Z.leb_spec (page_len b) 0).
    - unfold xdr_set_page_base in E2. rewrite B1, (proj2 (Z.leb_le _ _)) in E2 by lia.
      apply pair_equal_spec in E2 as [<- <-]. rewrite N1. split_and!; (done || lia).
    - replace (xlen b) with (xdr_stream_remaining x1) in E2
        by (unfold xdr_stream_remaining; rewrite N1, Z.shiftl_mul_pow2 by done; lia).
      apply xdr_set_page_base_ok in E2 as (? & ? & ? & ? & ->);
        rewrite ?M1, ?B1, ?N1 in *; [|done|lia|done|lia].
      split_and!; try congruence; lia. }
  clear E2. destruct X2 as (Z2 & M2 & B2 & N2 & O2).
  destruct (Z.eqb_spec r2 0) as [R2|]; [|auto]. specialize (Z2 R2).
  unfold xdr_set_iov, field_upd. simpl. split_and!; try done. split; simpl.
  - by rewrite M2, B2.
  - rewrite B2. lia.
  - unfold frag_ok; simpl. rewrite B2. repeat case_match; zbool; lia.
  - unfold lpos, frag_end. simpl. rewrite B2.
    destruct (decide (xlen b = 0)) as [Ez|]; [right|left].
    + split_and!; [lia| |done| |done]; repeat case_match; zbool; lia.
    + repeat case_match; zbool; lia.
Qed.
