(* ===== verification/XdrEncode.v ===== *)
(** * Encoding into a struct xdr_stream

    The encode half of [net/sunrpc/xdr.c].  Space is reserved in the head kvec
    first and then page by page; a reservation that straddles two fragments is
    handed out at the start of the next page and moved back into place by the
    next call ([xdr_commit_encode], which is why the end of the previous
    fragment is remembered in [scratch]).  The refinement at the end shows that
    what the callers see is one growing message. *)

From S2P Require Import Prelude Xdr XdrSpec XdrBuf XdrDecode.

(** A byte address: in the kvec memory or in a page. *)
Inductive loc :=
| LLin (a : Z)
| LPage (i off : Z).

Definition mem_write (m : xdr_mem) (l : loc) (bs : list byte) : xdr_mem :=
  match l with
  | LLin a => m <| m_lin := zwrite a bs (m_lin m) |>
  | LPage i off => m <| m_pages := <[Z.to_nat i := zwrite off bs (the_page m i)]> (m_pages m) |>
  end.

(** The fields of [struct xdr_stream] the encoder uses.  [es_p] and [es_end]
    are addresses in the kvec memory while [es_iov] is a kvec, and offsets in
    the page [es_page_ptr] once it is NULL. *)
Record xdr_estream := mk_estream {
  es_mem : xdr_mem;
  es_p : Z;
  es_buf : xdr_buf;
  es_end : Z;
  es_iov : option iov_ptr;
  es_scratch_base : loc;
  es_scratch_len : Z;
  es_page_ptr : Z;
}.

#[export] Instance upd_estream : Updatable xdr_estream := fun x =>
  mk_estream (es_mem x) (es_p x) (es_buf x) (es_end x) (es_iov x) (es_scratch_base x)
    (es_scratch_len x) (es_page_ptr x).

Definition es_loc (x : xdr_estream) : loc :=
  match es_iov x with Some _ => LLin (es_p x) | None => LPage (es_page_ptr x) (es_p x) end.

Definition iov_grow (b : xdr_buf) (i : iov_ptr) (n : Z) : xdr_buf :=
  match i with
  | IovHead => b <| head := (head b) <| iov_len := iov_len (head b) + n |> |>
  | IovTail => b <| tail := (tail b) <| iov_len := iov_len (tail b) + n |> |>
  end.

(** [if (xdr->iov) xdr->iov->iov_len += n; else xdr->buf->page_len += n;] *)
Definition grow_cur (x : xdr_estream) (n : Z) : xdr_buf :=
  match es_iov x with
  | Some i => iov_grow (es_buf x) i n
  | None => (es_buf x) <| page_len := page_len (es_buf x) + n |>
  end.

(** [None] is a BUG_ON.  [p]: [None] for NULL. *)
Definition xdr_init_encode (x : xdr_estream) (buf : xdr_buf) (p : option Z) : option xdr_estream :=
  let scratch_len := buflen buf - page_len buf - iov_len (tail buf) in
  let x := x <| es_scratch_len := 0 |> in
  if scratch_len <? 0 then None else
  let x := x <| es_buf := buf |> <| es_iov := Some IovHead |>
             <| es_p := iov_base (head buf) + iov_len (head buf) |>
             <| es_end := iov_base (head buf) + scratch_len |> in
  if scratch_len <? iov_len (head buf) then None else
  match p with
  | Some p =>
      if p =? es_p x then Some x
      else if (p <? es_p x) || (es_end x <? p) then None
      else
        let len := p - es_p x in
        Some (x <| es_p := p |>
                <| es_buf := (iov_grow buf IovHead len) <| xlen := xlen buf + len |> |>)
  | None => Some x
  end.

(** [svcxdr_init_encode]: the stream over [rq_res]; [rq_page_end] as an index
    like [pages]. *)
Definition svcxdr_init_encode (x : xdr_estream) (buf : xdr_buf) (rq_auth_slack rq_page_end : Z)
    : xdr_estream :=
  let resv := head buf in
  let buf := buf <| xlen := iov_len resv |>
                 <| buflen := PAGE_SIZE * (rq_page_end - pages buf) - rq_auth_slack |> in
  x <| es_scratch_len := 0 |> <| es_buf := buf |> <| es_iov := Some IovHead |>
    <| es_p := iov_base resv + iov_len resv |>
    <| es_end := iov_base resv + PAGE_SIZE - rq_auth_slack |>
    <| es_page_ptr := pages buf - 1 |>.

Definition xdr_commit_encode (x : xdr_estream) : xdr_estream :=
  let shift := es_scratch_len x in
  if shift =? 0 then x
  else
    let page := es_page_ptr x in
    let m := mem_write (es_mem x) (es_scratch_base x) (ztake shift (the_page (es_mem x) page)) in
    let m := mem_write m (LPage page 0) (cut (the_page m page) shift (es_p x)) in
    x <| es_mem := m |> <| es_scratch_len := 0 |>.

Definition xdr_get_next_encode_buffer (x : xdr_estream) (nbytes : Z) : option loc * xdr_estream :=
  let b := es_buf x in
  if PAGE_SIZE <? nbytes then (None, x)
  else if buflen b <? xlen b + nbytes then (None, x)
  else
    let frag1bytes := Z.shiftl ((es_end x - es_p x) / 4) 2 in
    let frag2bytes := nbytes - frag1bytes in
    let b := grow_cur x frag1bytes in
    let page_ptr := es_page_ptr x + 1 in
    let space_left := buflen b - xlen b in
    let e := if PAGE_SIZE <=? space_left - frag1bytes then PAGE_SIZE else space_left - frag1bytes in
    (Some (LPage page_ptr 0),
     {| es_mem := es_mem x; es_p := frag2bytes; es_end := e; es_iov := None;
        es_buf := b <| page_len := page_len b + frag2bytes |> <| xlen := xlen b + nbytes |>;
        es_scratch_base := es_loc x; es_scratch_len := frag1bytes; es_page_ptr := page_ptr |}).

Definition xdr_reserve_space (x : xdr_estream) (nbytes : Z) : option loc * xdr_estream :=
  let x := xdr_commit_encode x in
  let nbytes := xdr_align_size nbytes in
  let q := es_p x + 4 * Z.shiftr nbytes 2 in
  if (es_end x <? q) || (q <? es_p x) then xdr_get_next_encode_buffer x nbytes
  else
    let b := grow_cur x nbytes in
    (Some (es_loc x),
     x <| es_p := q |> <| es_buf := b <| xlen := xlen b + nbytes |> |>).

(** A reservation followed by the stores at the pointer it returned. *)
Definition stream_put (n : Z) (bs : list byte) (x : xdr_estream) : option xdr_estream :=
  match xdr_reserve_space x n with
  | (Some p, x) => Some (x <| es_mem := mem_write (es_mem x) p bs |>)
  | (None, _) => None
  end.

(** [xdr_write_pages]; [None] is its BUG_ON. *)
Definition stream_write_pages (newpages base len : Z) (x : xdr_estream) : option xdr_estream :=
  let b := (es_buf x) <| pages := newpages |> <| page_base := base |> <| page_len := len |>
                      <| tail := mk_kvec (es_p x) 0 |> in
  let x := x <| es_iov := Some IovTail |> in
  let rem := Z.land len 3 in
  if negb (rem =? 0) then
    let pad := 4 - rem in
    if es_end x <=? es_p x then None
    else
      Some (x <| es_mem := mem_write (es_mem x) (LLin (es_p x)) (be32 0) |>
              <| es_p := es_p x + 4 |>
              <| es_buf := b <| tail := mk_kvec (es_p x + rem) pad |>
                             <| buflen := buflen b + (len + pad) |>
                             <| xlen := xlen b + (len + pad) |> |>)
  else
    Some (x <| es_buf := b <| buflen := buflen b + len |> <| xlen := xlen b + len |> |>).

Definition stream_or_flags (f : Z) (x : xdr_estream) : xdr_estream :=
  x <| es_buf := (es_buf x) <| flags := Z.lor (flags (es_buf x)) f |> |>.

#[export] Instance xdr_estream_out : XdrOut xdr_estream :=
  {| xdr_put := stream_put; xdr_write_pages := stream_write_pages; xdr_or_flags := stream_or_flags |}.

(** [xdr_restrict_buflen] *)
Definition xdr_restrict_buflen (x : xdr_estream) (newbuflen : Z) : Z * xdr_estream :=
  let buf := es_buf x in
  let left_in_this_buf := es_end x - es_p x in
  let end_offset := xlen buf + left_in_this_buf in
  if (newbuflen <? 0) || (newbuflen <? xlen buf) then (- 1, x)
  else if buflen buf <? newbuflen then (0, x)
  else
    let x := if newbuflen <? end_offset then x <| es_end := es_end x + newbuflen - end_offset |>
             else x in
    (0, x <| es_buf := buf <| buflen := newbuflen |> |>).

(** [xdr_truncate_encode] *)
Definition xdr_truncate_encode (x : xdr_estream) (len : Z) : xdr_estream :=
  if xlen (es_buf x) <? len then x
  else
    let x := xdr_commit_encode x in
    let buf := es_buf x in
    let fraglen := Z.min (xlen buf - len) (iov_len (tail buf)) in
    let buf := buf <| tail := (tail buf) <| iov_len := iov_len (tail buf) - fraglen |> |>
                   <| xlen := xlen buf - fraglen |> in
    if negb (iov_len (tail buf) =? 0) then
      x <| es_buf := buf |> <| es_p := iov_base (tail buf) + iov_len (tail buf) |>
    else
      let fraglen := Z.min (xlen buf - len) (page_len buf) in
      let buf := buf <| page_len := page_len buf - fraglen |> <| xlen := xlen buf - fraglen |> in
      let new := page_base buf + page_len buf in
      let page_ptr := pages buf + page_idx new in
      if negb (page_len buf =? 0) then
        x <| es_buf := buf |> <| es_page_ptr := page_ptr |> <| es_end := PAGE_SIZE |>
          <| es_p := page_off new |>
      else
        let e := if negb (fraglen =? 0) then iov_base (head buf) + iov_len (head buf)
                 else es_end x in
        x <| es_buf := buf <| head := (head buf) <| iov_len := len |> |> <| xlen := len |> |>
          <| es_end := e |> <| es_page_ptr := page_ptr - 1 |>
          <| es_p := iov_base (head buf) + len |> <| es_iov := Some IovHead |>.

(** ** The stream as one growing message *)

Definition head_phase (x : xdr_estream) : Prop :=
  let b := es_buf x in
  es_scratch_len x = 0 /\ page_len b = 0 /\ iov_len (tail b) = 0 /\ page_base b = 0 /\
  xlen b = iov_len (head b) /\ es_p x = iov_base (head b) + iov_len (head b) /\
  es_p x <= es_end x <= zlen (m_lin (es_mem x)) /\ (es_end x - es_p x) mod 4 = 0 /\
  es_page_ptr x = pages b - 1 /\
  buflen b - xlen b <= es_end x - es_p x + (zlen (m_pages (es_mem x)) - pages b) * PAGE_SIZE.

Definition page_phase (x : xdr_estream) : Prop :=
  let b := es_buf x in let i := es_page_ptr x in
  iov_len (tail b) = 0 /\ page_base b = 0 /\ xlen b = iov_len (head b) + page_len b /\
  pages b <= i < zlen (m_pages (es_mem x)) /\
  es_p x = page_len b - (i - pages b) * PAGE_SIZE /\ es_p x mod 4 = 0 /\
  0 <= es_p x <= es_end x /\ es_end x <= PAGE_SIZE /\
  (es_end x = PAGE_SIZE \/ es_end x - es_p x = buflen b - xlen b) /\
  es_end x - es_p x <= buflen b - xlen b /\
  buflen b - xlen b <= PAGE_SIZE - es_p x + (zlen (m_pages (es_mem x)) - (i + 1)) * PAGE_SIZE /\
  0 <= es_scratch_len x /\ es_scratch_len x + es_p x <= PAGE_SIZE /\
  (es_scratch_len x <> 0 ->
    (i = pages b /\ es_scratch_len x <= iov_len (head b) /\
     es_scratch_base x = LLin (iov_base (head b) + iov_len (head b) - es_scratch_len x)) \/
    (pages b < i /\ es_scratch_base x = LPage (i - 1) (PAGE_SIZE - es_scratch_len x))).

Definition tail_phase (x : xdr_estream) : Prop :=
  let b := es_buf x in
  es_scratch_len x = 0 /\ xlen b = iov_len (head b) + page_len b + iov_len (tail b) /\
  es_p x = iov_base (tail b) + iov_len (tail b) /\
  es_p x <= es_end x <= zlen (m_lin (es_mem x)) /\
  iov_base (head b) + iov_len (head b) <= iov_base (tail b).

Record enc_ok (x : xdr_estream) : Prop := {
  eo_buf : buf_ok (es_mem x) (es_buf x);
  eo_phase : match es_iov x with
             | Some IovHead => head_phase x
             | None => page_phase x
             | Some IovTail => tail_phase x
             end;
}.

(** The message so far: the bytes of the buffer once the pending move is made. *)
Definition enc_out (x : xdr_estream) : list byte :=
  buf_bytes (es_mem (xdr_commit_encode x)) (es_buf x).

Definition enc_room (x : xdr_estream) : Z :=
  match es_iov x with
  | Some IovTail => es_end x - es_p x
  | _ => buflen (es_buf x) - xlen (es_buf x)
  end.

Definition enc_inl (x : xdr_estream) : Prop :=
  es_iov x = Some IovHead /\ buflen (es_buf x) - xlen (es_buf x) <= es_end x - es_p x.

Definition enc_pdata (x : xdr_estream) (p b l : Z) : option (list byte) :=
  if (0 <=? p) && (0 <=? b) && (0 <=? l) &&
     (p * PAGE_SIZE + b + l <=? zlen (m_pages (es_mem x)) * PAGE_SIZE)
  then Some (cut (concat (m_pages (es_mem x))) (p * PAGE_SIZE + b) l)
  else None.

(** The page array as one area. *)
Lemma the_page_flat m i :
  pages_ok m -> 0 <= i < zlen (m_pages m) ->
  the_page m i = cut (concat (m_pages m)) (i * PAGE_SIZE) PAGE_SIZE /\ zlen (the_page m i) = PAGE_SIZE.
Proof.
  intros H Hi. unfold the_page. destruct (m_pages m !! Z.to_nat i) as [pg|] eqn:E.
  - pose proof (Forall_lookup_1 _ _ _ _ H E) as Hp. simpl in Hp. split; [|done]. simpl.
    unfold cut. rewrite zdrop_concat_pages by (done || lia).
    unfold zdrop. rewrite (drop_S _ _ _ E). simpl. by rewrite ztake_app_exact.
  - apply lookup_ge_None in E. unfold zlen in *. lia.
Qed.

Lemma mem_write_page m i off bs :
  pages_ok m -> 0 <= i < zlen (m_pages m) -> 0 <= off -> off + zlen bs <= PAGE_SIZE ->
  let m' := mem_write m (LPage i off) bs in
  pages_ok m' /\ zlen (m_pages m') = zlen (m_pages m) /\ m_lin m' = m_lin m /\
  concat (m_pages m') = zwrite (i * PAGE_SIZE + off) bs (concat (m_pages m)).
Proof.
  intros H Hi Ho Hb. destruct (the_page_flat m i H Hi) as [_ Lp]. simpl.
  split_and!; [|unfold zlen; by rewrite length_insert|done|].
  - unfold pages_ok. simpl. apply Forall_insert; [done|]. by rewrite zlen_zwrite by lia.
  - unfold the_page in *. destruct (m_pages m !! Z.to_nat i) as [pg|] eqn:E;
      [|simpl in Lp; by rewrite zlen_nil in Lp]. simpl in *.
    rewrite insert_take_drop by (apply lookup_lt_Some in E; done).
    rewrite <- (take_drop_middle _ _ _ E) at 3. rewrite !concat_app. simpl.
    assert (L : zlen (concat (take (Z.to_nat i) (m_pages m))) = i * PAGE_SIZE).
    { rewrite zlen_concat_pages by (apply Forall_take; exact H).
      unfold zlen. rewrite length_take. unfold zlen in Hi. f_equal. lia. }
    rewrite zwrite_app_r by (unfold PAGE_SIZE in *; lia). f_equal.
    rewrite L, zwrite_app_l by lia. do 2 f_equal. lia.
Qed.

Lemma cut_zwrite_at {A} (l src : list A) a n :
  0 <= a -> zlen src = n -> a + n <= zlen l -> cut (zwrite a src l) a n = src.
Proof.
  intros Ha Hn Hl. pose proof (zlen_nonneg src). unfold cut, zwrite.
  rewrite zdrop_app_ge by llia. rewrite zdrop_le0 by llia. apply ztake_app_exact. lia.
Qed.

Lemma cut_split {A} (l : list A) a m n :
  0 <= a -> 0 <= m <= n -> cut l a n = cut l a m ++ cut l (a + m) (n - m).
Proof. intros. unfold cut. rewrite (ztake_split m n) by lia. by rewrite zdrop_zdrop by lia. Qed.

(** What the commit does to the memory: the first [f] bytes of the new page go
    to the end of the previous fragment and the rest of them to its start. *)
Lemma commit_mem x :
  enc_ok x -> es_iov x = None -> es_scratch_len x <> 0 ->
  let m := es_mem x in let m' := es_mem (xdr_commit_encode x) in
  let G := concat (m_pages m) in let i := es_page_ptr x in let f := es_scratch_len x in
  let hd := head (es_buf x) in
  pages_ok m' /\ zlen (m_pages m') = zlen (m_pages m) /\
  ((i = pages (es_buf x) /\ f <= iov_len hd /\
    m_lin m' = zwrite (iov_base hd + iov_len hd - f) (cut G (i * PAGE_SIZE) f) (m_lin m) /\
    concat (m_pages m') = zwrite (i * PAGE_SIZE) (cut G (i * PAGE_SIZE + f) (es_p x)) G) \/
   (pages (es_buf x) < i /\ m_lin m' = m_lin m /\
    concat (m_pages m') = zwrite (i * PAGE_SIZE) (cut G (i * PAGE_SIZE + f) (es_p x))
      (zwrite (i * PAGE_SIZE - f) (cut G (i * PAGE_SIZE) f) G))).
Proof.
  intros [Hb Hp] Hi Hf m m' G i f hd. rewrite Hi in Hp. unfold page_phase in Hp.
  fold m in Hb, Hp. fold i f in Hp. fold f in Hf.
  destruct Hp as (_ & _ & _ & Hr & _ & _ & P0 & P1 & _ & _ & _ & F0 & F1 & S).
  pose proof (ok_mem _ _ Hb) as Hm. pose proof (ok_pages _ _ Hb) as (Hp0 & _).
  destruct (the_page_flat m i Hm ltac:(lia)) as [Ep Lp].
  assert (LG : zlen G = zlen (m_pages m) * PAGE_SIZE) by (by apply zlen_concat_pages).
  assert (Et : ztake f (the_page m i) = cut G (i * PAGE_SIZE) f).
  { rewrite Ep. unfold cut. rewrite ztake_ztake. f_equal. lia. }
  assert (Lt : zlen (cut G (i * PAGE_SIZE) f) = f) by (unfold PAGE_SIZE in *; llia).
  unfold m', xdr_commit_encode. rewrite (proj2 (Z.eqb_neq _ _)) by done. cbn [field_upd es_mem].
  fold m i f. rewrite Et.
  destruct (S Hf) as [(E & F2 & ->)|(L & ->)].
  - assert (Em : the_page (mem_write m (LLin (iov_base hd + iov_len hd - f))
      (cut G (i * PAGE_SIZE) f)) i = the_page m i) by done.
    unfold field_upd; simpl es_mem. fold hd. rewrite Em.
    assert (Ec : cut (the_page m i) f (es_p x) = cut G (i * PAGE_SIZE + f) (es_p x)).
    { rewrite Ep, cut_cut by (unfold PAGE_SIZE in *; lia). done. }
    rewrite Ec. set (m1 := mem_write m (LLin _) _).
    destruct (mem_write_page m1 i 0 (cut G (i * PAGE_SIZE + f) (es_p x))) as (A & B & C & D);
      [done|simpl; lia|lia|unfold PAGE_SIZE in *; llia|].
    split_and!; [done|rewrite B; done|left]. split_and!; [done|done|rewrite C; done|].
    rewrite D, Z.add_0_r. done.
  - destruct (mem_write_page m (i - 1) (PAGE_SIZE - f) (cut G (i * PAGE_SIZE) f))
      as (A & B & C & D); [done|lia|lia|lia|].
    unfold field_upd; simpl es_mem. set (m1 := mem_write m (LPage (i - 1) _) _) in *.
    destruct (the_page_flat m1 i A ltac:(lia)) as [E1 _].
    replace ((i - 1) * PAGE_SIZE + (PAGE_SIZE - f)) with (i * PAGE_SIZE - f) in D by lia.
    assert (Ec : cut (the_page m1 i) f (es_p x) = cut G (i * PAGE_SIZE + f) (es_p x)).
    { rewrite E1, cut_cut by (unfold PAGE_SIZE in *; lia). rewrite D.
      apply cut_zwrite_outside; fold G; unfold PAGE_SIZE in *; lia. }
    rewrite Ec.
    destruct (mem_write_page m1 i 0 (cut G (i * PAGE_SIZE + f) (es_p x))) as (A' & B' & C' & D');
      [done|lia|lia|unfold PAGE_SIZE in *; llia|].
    split_and!; [done|lia|right]. split_and!; [done|by rewrite C', C|].
    rewrite D', Z.add_0_r, D. done.
Qed.

Lemma commit_fields x :
  let x' := xdr_commit_encode x in
  es_p x' = es_p x /\ es_buf x' = es_buf x /\ es_end x' = es_end x /\ es_iov x' = es_iov x /\
  es_page_ptr x' = es_page_ptr x /\ es_scratch_len x' = 0.
Proof.
  unfold xdr_commit_encode. destruct (Z.eqb_spec (es_scratch_len x) 0); done.
Qed.

Lemma xdr_commit_encode_idem x : xdr_commit_encode (xdr_commit_encode x) = xdr_commit_encode x.
Proof.
  pose proof (commit_fields x) as (_ & _ & _ & _ & _ & E). simpl in E.
  unfold xdr_commit_encode at 1. rewrite E. done.
Qed.

Lemma buf_ok_mem m m' b :
  buf_ok m b -> pages_ok m' -> zlen (m_pages m') = zlen (m_pages m) ->
  zlen (m_lin m') = zlen (m_lin m) -> buf_ok m' b.
Proof.
  intros [(? & ? & ?) (? & ? & ?) ? ? ?] A B C.
  split; unfold kvec_ok; rewrite ?B, ?C; done.
Qed.

Lemma xdr_commit_encode_ok x :
  enc_ok x -> enc_ok (xdr_commit_encode x) /\ enc_out (xdr_commit_encode x) = enc_out x.
Proof.
  intros H. destruct (commit_fields x) as (Ep & Eb & Ee & Ei & Eg & Es).
  split; [|unfold enc_out; by rewrite xdr_commit_encode_idem, Eb].
  destruct (decide (es_scratch_len x = 0)) as [E0|E0].
  { unfold xdr_commit_encode. rewrite E0. done. }
  assert (Hi : es_iov x = None).
  { destruct H as [_ Hp]. destruct (es_iov x) as [[]|]; [| |done];
      [unfold head_phase in Hp|unfold tail_phase in Hp]; destruct_and?; done. }
  pose proof (commit_mem x H Hi E0) as (Pm & Lm & Cm). destruct H as [Hb Hp]. rewrite Hi in Hp.
  assert (Ll : zlen (m_lin (es_mem (xdr_commit_encode x))) = zlen (m_lin (es_mem x))).
  { destruct Cm as [(_ & F & -> & _)|(_ & -> & _)]; [|done].
    destruct (ok_head _ _ Hb) as (? & ? & ?).
    unfold page_phase in Hp. destruct_and?.
    pose proof (zlen_concat_pages _ (ok_mem _ _ Hb)). pose proof (ok_pages _ _ Hb).
    apply zlen_zwrite; unfold PAGE_SIZE in *; llia. }
  split; [rewrite Eb; by eapply buf_ok_mem|].
  rewrite Ei, Hi. unfold page_phase in *. rewrite Eb, Eg, Ep, Ee, Es, Lm.
  destruct_and?. split_and!; (done || lia).
Qed.

(** A window that is extended by what is stored right after it. *)
Lemma cut_append {A} (l bs : list A) a off len :
  0 <= off -> 0 <= len -> a = off + len -> a + zlen bs <= zlen l ->
  cut (zwrite a bs l) off (len + zlen bs) = cut l off len ++ bs.
Proof.
  intros Ho Hl -> Hr. pose proof (zlen_nonneg bs). rewrite (cut_split _ _ len) by lia. f_equal.
  - apply cut_zwrite_outside; lia.
  - rewrite cut_zwrite_at by lia. done.
Qed.

Lemma align4_shift n : align4 n mod 4 = 0 -> 4 * Z.shiftr (align4 n) 2 = align4 n.
Proof. intros. rewrite Z.shiftr_div_pow2 by done. zlia. Qed.

Definition put_spec (x : xdr_estream) (k : Z) (bs : list byte) (x' : xdr_estream) : Prop :=
  enc_ok x' /\ enc_out x' = enc_out x ++ bs /\ enc_room x' = enc_room x - k /\
  (enc_inl x -> enc_inl x' /\ forall p b l, enc_pdata x' p b l = enc_pdata x p b l).

Lemma put_spec_intro x k bs x' :
  enc_ok x -> es_scratch_len x = 0 -> es_scratch_len x' = 0 -> enc_ok x' ->
  buf_bytes (es_mem x') (es_buf x') = buf_bytes (es_mem x) (es_buf x) ++ bs ->
  enc_room x' = enc_room x - k ->
  (enc_inl x -> enc_inl x' /\ m_pages (es_mem x') = m_pages (es_mem x)) ->
  put_spec x k bs x'.
Proof.
  intros H S S' H' B R I. unfold put_spec. split_and!; try done.
  - unfold enc_out, xdr_commit_encode. by rewrite S, S'.
  - intros J. destruct (I J) as [J' E]. split; [done|]. intros. unfold enc_pdata. by rewrite E.
Qed.

(** The stream after a reservation of [k] bytes in the current fragment. *)
Definition put_here (x : xdr_estream) (k : Z) (bs : list byte) : xdr_estream :=
  x <| es_p := es_p x + k |>
    <| es_buf := (grow_cur x k) <| xlen := xlen (grow_cur x k) + k |> |>
    <| es_mem := mem_write (es_mem x) (es_loc x) bs |>.

Lemma put_inside_head x k bs :
  enc_ok x -> es_iov x = Some IovHead -> 0 <= k -> k mod 4 = 0 -> zlen bs = k ->
  es_p x + k <= es_end x -> put_spec x k bs (put_here x k bs).
Proof.
  intros Hx Hi Hk H4 Hl Hf. pose proof Hx as [Hb Hp]. rewrite Hi in Hp.
  destruct (ok_head _ _ Hb) as (? & ? & ?). destruct (ok_tail _ _ Hb) as (? & ? & ?).
  unfold head_phase in Hp. destruct Hp as (S0 & ? & ? & ? & ? & ? & ? & ? & ? & ?).
  assert (L : zlen (zwrite (es_p x) bs (m_lin (es_mem x))) = zlen (m_lin (es_mem x)))
    by (apply zlen_zwrite; lia).
  apply put_spec_intro; [done|done|done| | |unfold enc_room|unfold enc_inl];
  unfold put_here, grow_cur, es_loc; destruct x as [m p b e iov sb sl pp]; unfold field_upd;
    simpl in *; subst iov; simpl; [| |lia|intros []; split; [split; [done|lia]|done]].
  - split; simpl; [|unfold head_phase; simpl; rewrite L; split_and!; try (done || lia); zlia].
    split; try apply Hb; unfold kvec_ok; simpl; rewrite L; lia.
  - unfold buf_bytes, pages_bytes, kvec_bytes, kvec_ok in *. simpl.
    replace (page_len b) with 0 by lia. replace (iov_len (tail b)) with 0 by lia.
    rewrite !(ztake_le0 0), !app_nil_r by done. rewrite <- Hl. apply cut_append; lia.
Qed.

Lemma put_inside_tail x k bs :
  enc_ok x -> es_iov x = Some IovTail -> 0 <= k -> zlen bs = k ->
  es_p x + k <= es_end x -> put_spec x k bs (put_here x k bs).
Proof.
  intros Hx Hi Hk Hl Hf. pose proof Hx as [Hb Hp]. rewrite Hi in Hp.
  destruct (ok_head _ _ Hb) as (? & ? & ?). destruct (ok_tail _ _ Hb) as (? & ? & ?).
  unfold tail_phase in Hp. destruct Hp as (S0 & ? & ? & ? & ?).
  assert (L : zlen (zwrite (es_p x) bs (m_lin (es_mem x))) = zlen (m_lin (es_mem x)))
    by (apply zlen_zwrite; lia).
  apply put_spec_intro; [done|done|done| | |unfold enc_room|unfold enc_inl; rewrite Hi; by intros []];
  unfold put_here, grow_cur, es_loc; destruct x as [m p b e iov sb sl pp]; unfold field_upd;
    simpl in *; subst iov; simpl; [| |lia].
  - split; simpl; [|unfold tail_phase; simpl; rewrite L; split_and!; (done || lia)].
    split; try apply Hb; unfold kvec_ok; simpl; rewrite L; lia.
  - unfold buf_bytes, pages_bytes. simpl. rewrite <- !app_assoc. f_equal; [|f_equal].
    + rewrite !kvec_bytes_cut. simpl. apply cut_zwrite_outside; lia.
    + rewrite !kvec_bytes_cut. simpl. rewrite <- Hl. apply cut_append; lia.
Qed.

Lemma put_inside_page x k bs :
  enc_ok x -> es_iov x = None -> es_scratch_len x = 0 -> 0 <= k -> k mod 4 = 0 -> zlen bs = k ->
  es_p x + k <= es_end x -> put_spec x k bs (put_here x k bs).
Proof.
  intros Hx Hi S0 Hk H4 Hl Hf. pose proof Hx as [Hb Hp]. rewrite Hi in Hp.
  destruct (ok_tail _ _ Hb) as (? & ? & ?). destruct (ok_pages _ _ Hb) as (? & ? & ?).
  pose proof (ok_mem _ _ Hb) as Hm. pose proof (zlen_concat_pages _ Hm) as LG.
  unfold page_phase in Hp. destruct_and?.
  destruct (mem_write_page (es_mem x) (es_page_ptr x) (es_p x) bs) as (A & B & C & D);
    [done|lia|lia|lia|].
  apply put_spec_intro; [done|done|done| | |unfold enc_room|unfold enc_inl; rewrite Hi; by intros []];
  unfold put_here, grow_cur, es_loc; destruct x as [m p b e iov sb sl pp];
    cbn [es_mem es_p es_buf es_end es_iov es_scratch_base es_scratch_len es_page_ptr] in *;
    subst iov; set (m' := mem_write m (LPage pp p) bs) in *; clearbody m';
    unfold field_upd; simpl in *; [| |lia].
  - assert (buf_ok m' b) as [] by (eapply buf_ok_mem; try done; by rewrite C).
    split; simpl; [split; simpl; try done; unfold PAGE_SIZE in *; lia|].
    unfold page_phase. simpl. rewrite B. split_and!; try (done || lia). zlia.
  - unfold buf_bytes, pages_bytes, kvec_bytes. simpl. rewrite C.
    replace (iov_len (tail b)) with 0 by lia.
    rewrite !(ztake_le0 0), !app_nil_r, <- app_assoc by done. f_equal.
    rewrite D, <- Hl. apply cut_append; unfold PAGE_SIZE in *; lia.
Qed.

Lemma zwrite_self {A} (l : list A) a n :
  0 <= a -> 0 <= n -> a + n <= zlen l -> zwrite a (cut l a n) l = l.
Proof.
  intros. unfold zwrite. rewrite zlen_cut. replace (Z.max 0 _) with n by lia.
  unfold cut. rewrite <- (ztake_zdrop a l) at 4. f_equal.
  rewrite <- (ztake_zdrop n (zdrop a l)) at 2. f_equal. by rewrite zdrop_zdrop.
Qed.

(** [commit_mem] also when nothing is pending. *)
Lemma commit_mem_any x :
  enc_ok x -> es_iov x = None ->
  let m := es_mem x in let m' := es_mem (xdr_commit_encode x) in
  let G := concat (m_pages m) in let i := es_page_ptr x in let f := es_scratch_len x in
  let hd := head (es_buf x) in
  (i = pages (es_buf x) -> f <= iov_len hd /\
    m_lin m' = zwrite (iov_base hd + iov_len hd - f) (cut G (i * PAGE_SIZE) f) (m_lin m) /\
    concat (m_pages m') = zwrite (i * PAGE_SIZE) (cut G (i * PAGE_SIZE + f) (es_p x)) G) /\
  (pages (es_buf x) < i -> m_lin m' = m_lin m /\
    concat (m_pages m') = zwrite (i * PAGE_SIZE) (cut G (i * PAGE_SIZE + f) (es_p x))
      (zwrite (i * PAGE_SIZE - f) (cut G (i * PAGE_SIZE) f) G)).
Proof.
  intros H Hi m m' G i f hd. destruct (decide (f = 0)) as [E|E].
  - pose proof H as [Hb Hp]. rewrite Hi in Hp. unfold page_phase in Hp.
    pose proof (zlen_concat_pages _ (ok_mem _ _ Hb)) as LG. destruct (ok_head _ _ Hb) as (? & ? & ?).
    destruct (ok_pages _ _ Hb) as (? & _). destruct_and?.
    assert (m' = m) as -> by (unfold m', xdr_commit_encode; fold f; by rewrite E).
    assert (W : zwrite (i * PAGE_SIZE) (cut G (i * PAGE_SIZE) (es_p x)) G = G)
      by (apply zwrite_self; unfold G, m, i, PAGE_SIZE in *; lia).
    rewrite E, !(cut_nil _ _ 0), !zwrite_nil, Z.add_0_r, W by lia.
    split; intros; split_and!; (done || lia).
  - pose proof (commit_mem x H Hi E) as (_ & _ & [?|?]); split; intros; (tauto || lia).
Qed.

(** The stream after a reservation of [k] bytes that straddles two fragments. *)
Definition put_next (x : xdr_estream) (k : Z) (bs : list byte) : xdr_estream :=
  let x' := snd (xdr_get_next_encode_buffer x k) in
  x' <| es_mem := mem_write (es_mem x') (LPage (es_page_ptr x + 1) 0) bs |>.

Lemma quad_floor a : 0 <= a -> a mod 4 = 0 -> Z.shiftl (a / 4) 2 = a.
Proof. intros. rewrite Z.shiftl_mul_pow2 by done. zlia. Qed.

Lemma put_next_eq x k bs :
  k <= PAGE_SIZE -> k <= buflen (es_buf x) - xlen (es_buf x) ->
  es_p x <= es_end x -> (es_end x - es_p x) mod 4 = 0 ->
  let f := es_end x - es_p x in let b := grow_cur x f in
  let left := buflen (es_buf x) - xlen (es_buf x) - f in
  put_next x k bs =
  mk_estream (mem_write (es_mem x) (LPage (es_page_ptr x + 1) 0) bs) (k - f)
    (b <| page_len := page_len b + (k - f) |> <| xlen := xlen b + k |>)
    (Z.min PAGE_SIZE left) None (es_loc x) f (es_page_ptr x + 1).
Proof.
  intros H1 H2 H3 H4 f b left. unfold put_next, xdr_get_next_encode_buffer.
  rewrite (proj2 (Z.ltb_ge _ _)), (proj2 (Z.ltb_ge _ _)) by lia. fold f.
  rewrite (quad_floor f) by (unfold f; lia || done). fold b.
  assert (Eb : buflen b - xlen b = buflen (es_buf x) - xlen (es_buf x))
    by (unfold b, grow_cur; destruct (es_iov x) as [[]|]; done).
  cbn [snd field_upd es_mem es_p es_buf es_end es_iov es_scratch_base es_scratch_len es_page_ptr].
  unfold field_upd at 1. simpl. f_equal. rewrite Eb. fold left. case_match; zbool; lia.
Qed.

(** The two halves of a straddling item, as the commit finds them. *)
Lemma straddle_halves (G bs : list byte) a f k :
  0 <= a -> 0 <= f <= k -> zlen bs = k -> a + k <= zlen G ->
  cut (zwrite a bs G) a f = ztake f bs /\ cut (zwrite a bs G) (a + f) (k - f) = zdrop f bs.
Proof.
  intros. assert (E : cut (zwrite a bs G) a k = bs) by (apply cut_zwrite_at; lia).
  rewrite (cut_split _ _ f) in E by lia. apply (f_equal (fun l => (ztake f l, zdrop f l))) in E.
  assert (zlen (cut (zwrite a bs G) a f) = f).
  { autorewrite with nfs_len. rewrite zlen_zwrite by lia. lia. }
  rewrite ztake_app_exact, zdrop_app_exact in E by lia. by simplify_eq.
Qed.

Lemma put_next_head x k bs :
  enc_ok x -> es_iov x = Some IovHead -> 0 <= k <= PAGE_SIZE -> k mod 4 = 0 -> zlen bs = k ->
  es_end x < es_p x + k -> k <= buflen (es_buf x) - xlen (es_buf x) ->
  enc_ok (put_next x k bs) /\ enc_out (put_next x k bs) = enc_out x ++ bs /\
  enc_room (put_next x k bs) = enc_room x - k.
Proof.
  intros Hx Hi Hk H4 Hl Hf Hr. pose proof Hx as [Hb Hp]. rewrite Hi in Hp.
  destruct (ok_head _ _ Hb) as (? & ? & ?). destruct (ok_tail _ _ Hb) as (? & ? & ?).
  destruct (ok_pages _ _ Hb) as (? & ? & ?). pose proof (ok_mem _ _ Hb) as Hm.
  unfold head_phase in Hp. destruct Hp as (S0 & ? & ? & ? & ? & Ep & ? & ? & Epp & ?).
  assert (Hpp : pages (es_buf x) < zlen (m_pages (es_mem x))) by (unfold PAGE_SIZE in *; lia).
  destruct (mem_write_page (es_mem x) (es_page_ptr x + 1) 0 bs) as (A & B & C & D);
    [done|lia|lia|unfold PAGE_SIZE in *; lia|].
  pose proof (zlen_concat_pages _ Hm) as LG. rewrite Z.add_0_r in D.
  rewrite put_next_eq by (lia || done). unfold grow_cur, es_loc. rewrite Hi.
  assert (Eo : enc_out x = cut (m_lin (es_mem x)) (iov_base (head (es_buf x))) (iov_len (head (es_buf x)))).
  { unfold enc_out, xdr_commit_encode. rewrite S0. unfold buf_bytes, pages_bytes, kvec_bytes. simpl.
    replace (page_len (es_buf x)) with 0 by lia. replace (iov_len (tail (es_buf x))) with 0 by lia.
    rewrite !(ztake_le0 0), !app_nil_r by done. done. }
  rewrite Eo. set (m' := mem_write _ _ _) in *. clearbody m'.
  destruct x as [m p b e iov sb sl pp]. simpl in *.
  set (y := mk_estream _ _ _ _ _ _ _ _).
  assert (Ok : enc_ok y).
  { assert (buf_ok m' b) as [] by (eapply buf_ok_mem; try done; by rewrite C).
    split; simpl.
    - split; unfold kvec_ok in *; simpl; rewrite ?C, ?B; try done; unfold PAGE_SIZE in *; lia.
    - unfold page_phase. simpl. rewrite B. unfold PAGE_SIZE in *. split_and!; try lia; [zlia|].
      intros _. left. split_and!; [lia|lia|]. f_equal. lia. }
  split_and!; [done| |unfold enc_room; subst iov; simpl; lia].
  destruct (commit_mem_any y Ok eq_refl) as [Cm _]. simpl in Cm. destruct Cm as (F1 & Cl & Cp); [lia|].
  rewrite D in Cl, Cp. rewrite C in Cl.
  destruct (straddle_halves (concat (m_pages m)) bs ((pp + 1) * PAGE_SIZE) (e - p) k)
    as [T1 T2]; [unfold PAGE_SIZE in *; lia..|]. rewrite T1 in Cl. rewrite T2 in Cp.
  unfold enc_out, buf_bytes, pages_bytes. rewrite !kvec_bytes_cut, Cl, Cp.
  unfold y. simpl. replace (iov_len (tail b)) with 0 by lia. rewrite (cut_nil _ (iov_base (tail b))), app_nil_r by lia.
  assert (Lt : zlen (ztake (e - p) bs) = e - p) by llia.
  replace (iov_len (head b) + (e - p)) with (iov_len (head b) + zlen (ztake (e - p) bs)) by lia.
  rewrite cut_append by lia. rewrite <- app_assoc. f_equal.
  rewrite <- (ztake_zdrop (e - p) bs) at 4. f_equal.
  replace (pages b * PAGE_SIZE + page_base b) with ((pp + 1) * PAGE_SIZE) by lia.
  apply cut_zwrite_at; [unfold PAGE_SIZE in *; lia|llia|].
  rewrite zlen_zwrite by (unfold PAGE_SIZE in *; lia). unfold PAGE_SIZE in *; lia.
Qed.

(** The window of the page array once both halves are in place. *)
Lemma straddle_window (G bs : list byte) a f k o n :
  0 <= o -> 0 <= n -> 0 <= f <= k -> zlen bs = k -> a - f = o + n -> a + k <= zlen G ->
  cut (zwrite a (zdrop f bs) (zwrite (a - f) (ztake f bs) (zwrite a bs G))) o (n + f + (k - f)) =
  cut G o n ++ bs.
Proof.
  intros. assert (Lt : zlen (ztake f bs) = f) by llia.
  assert (Ld : zlen (zdrop f bs) = k - f) by llia.
  assert (L1 : zlen (zwrite a bs G) = zlen G) by (apply zlen_zwrite; lia).
  assert (L2 : zlen (zwrite (a - f) (ztake f bs) (zwrite a bs G)) = zlen G)
    by (rewrite zlen_zwrite by lia; done).
  rewrite <- (ztake_zdrop f bs) at 4. rewrite app_assoc. rewrite <- Ld.
  rewrite cut_append by lia. f_equal.
  replace (n + f) with (n + zlen (ztake f bs)) by lia.
  rewrite cut_append by lia. f_equal. apply cut_zwrite_outside; lia.
Qed.

Lemma put_next_page x k bs :
  enc_ok x -> es_iov x = None -> es_scratch_len x = 0 -> 0 <= k <= PAGE_SIZE -> k mod 4 = 0 ->
  zlen bs = k -> es_end x < es_p x + k -> k <= buflen (es_buf x) - xlen (es_buf x) ->
  enc_ok (put_next x k bs) /\ enc_out (put_next x k bs) = enc_out x ++ bs /\
  enc_room (put_next x k bs) = enc_room x - k.
Proof.
  intros Hx Hi S0 Hk H4 Hl Hf Hr. pose proof Hx as [Hb Hp]. rewrite Hi in Hp.
  destruct (ok_head _ _ Hb) as (? & ? & ?). destruct (ok_tail _ _ Hb) as (? & ? & ?).
  destruct (ok_pages _ _ Hb) as (? & ? & ?). pose proof (ok_mem _ _ Hb) as Hm.
  unfold page_phase in Hp. destruct Hp as (? & ? & ? & ? & Ep & ? & ? & ? & Ee & ? & ? & _).
  assert (E : es_end x = PAGE_SIZE) by lia. clear Ee.
  assert (Hpp : es_page_ptr x + 1 < zlen (m_pages (es_mem x))) by (unfold PAGE_SIZE in *; lia).
  destruct (mem_write_page (es_mem x) (es_page_ptr x + 1) 0 bs) as (A & B & C & D);
    [done|lia|lia|unfold PAGE_SIZE in *; lia|].
  pose proof (zlen_concat_pages _ Hm) as LG. rewrite Z.add_0_r in D.
  assert (M4 : (es_end x - es_p x) mod 4 = 0) by (rewrite E; unfold PAGE_SIZE in *; zlia).
  rewrite put_next_eq by (lia || done). unfold grow_cur, es_loc. rewrite Hi.
  assert (Eo : enc_out x = buf_bytes (es_mem x) (es_buf x))
    by (unfold enc_out, xdr_commit_encode; by rewrite S0).
  rewrite Eo. set (m' := mem_write _ _ _) in *. clearbody m'.
  destruct x as [m p b e iov sb sl pp]. simpl in *.
  set (y := mk_estream _ _ _ _ _ _ _ _).
  assert (Ok : enc_ok y).
  { assert (buf_ok m' b) as [] by (eapply buf_ok_mem; try done; by rewrite C).
    split; simpl.
    - split; unfold kvec_ok in *; simpl; rewrite ?C, ?B; try done; unfold PAGE_SIZE in *; lia.
    - unfold page_phase. simpl. rewrite B. unfold PAGE_SIZE in *. split_and!; try lia; [zlia|].
      intros _. right. split; [lia|]. f_equal; lia. }
  split_and!; [done| |unfold enc_room; subst iov; simpl; lia].
  destruct (commit_mem_any y Ok eq_refl) as [_ Cm]. simpl in Cm. destruct Cm as (Cl & Cp); [lia|].
  rewrite D in Cp. rewrite C in Cl.
  destruct (straddle_halves (concat (m_pages m)) bs ((pp + 1) * PAGE_SIZE) (e - p) k)
    as [T1 T2]; [unfold PAGE_SIZE in *; lia..|]. rewrite T1, T2 in Cp.
  unfold enc_out, buf_bytes, pages_bytes. rewrite !kvec_bytes_cut, Cl, Cp. unfold y. simpl.
  replace (iov_len (tail b)) with 0 by lia.
  rewrite !(cut_nil _ (iov_base (tail b))), !app_nil_r, <- app_assoc by lia. f_equal.
  apply straddle_window; unfold PAGE_SIZE in *; lia.
Qed.

(** ** The stream as an instance of the interface *)

Lemma get_next_some x k :
  k <= PAGE_SIZE -> k <= buflen (es_buf x) - xlen (es_buf x) ->
  xdr_get_next_encode_buffer x k =
  (Some (LPage (es_page_ptr x + 1) 0), snd (xdr_get_next_encode_buffer x k)).
Proof.
  intros. unfold xdr_get_next_encode_buffer.
  rewrite (proj2 (Z.ltb_ge _ _)), (proj2 (Z.ltb_ge _ _)) by lia. done.
Qed.

(** A reservation of an already committed stream. *)
Lemma put_committed x k bs :
  enc_ok x -> es_scratch_len x = 0 -> 0 <= k <= PAGE_SIZE -> k mod 4 = 0 -> zlen bs = k ->
  k <= enc_room x ->
  put_spec x k bs (if es_end x <? es_p x + k then put_next x k bs else put_here x k bs).
Proof.
  intros Hx Hs Hk H4 Hl Hr. unfold enc_room in Hr.
  destruct (es_iov x) as [[]|] eqn:Ei; destruct (Z.ltb_spec (es_end x) (es_p x + k)).
  - destruct (put_next_head x k bs) as (A & B & C); try done.
    unfold put_spec. split_and!; try done. intros [_ ?]. lia.
  - apply put_inside_head; (done || lia).
  - lia.
  - apply put_inside_tail; (done || lia).
  - destruct (put_next_page x k bs) as (A & B & C); try done.
    unfold put_spec. split_and!; try done. intros [? _]. congruence.
  - apply put_inside_page; (done || lia).
Qed.

Lemma put_spec_commit x k bs x' :
  enc_ok x -> put_spec (xdr_commit_encode x) k bs x' -> put_spec x k bs x'.
Proof.
  intros Hx (A & B & C & D). destruct (xdr_commit_encode_ok x Hx) as [_ Oy].
  destruct (commit_fields x) as (Ep & Eb & Ee & Ei & Eg & Es).
  unfold put_spec. rewrite <- Oy, B, C. split_and!; try done.
  - unfold enc_room. by rewrite Ei, Ep, Eb, Ee.
  - intros I. assert (E : xdr_commit_encode x = x); [|by rewrite E in D; apply D].
    destruct I as [I _]. destruct Hx as [_ Hp]. rewrite I in Hp. destruct Hp as (S0 & _).
    unfold xdr_commit_encode. by rewrite S0.
Qed.

Lemma stream_put_ok x n bs :
  enc_ok x -> 0 <= n <= 4096 -> zlen bs = align4 n -> align4 n <= enc_room x ->
  exists x', stream_put n bs x = Some x' /\ put_spec x (align4 n) bs x'.
Proof.
  intros Hx Hn Hl Hr. destruct (xdr_commit_encode_ok x Hx) as [Hy _].
  destruct (commit_fields x) as (Ep & Eb & Ee & Ei & Eg & Es).
  pose proof (align4_range n). pose proof (align4_mod n) as M4.
  assert (Hk : 0 <= align4 n <= PAGE_SIZE) by (unfold PAGE_SIZE, align4 in *; zlia).
  unfold stream_put, xdr_reserve_space. set (y := xdr_commit_encode x) in *.
  assert (Ry : enc_room y = enc_room x) by (unfold enc_room; by rewrite Ei, Ep, Eb, Ee).
  pose proof (put_committed y (align4 n) bs Hy Es Hk M4 Hl ltac:(lia)) as P.
  apply put_spec_commit in P; [|done].
  rewrite xdr_align_size_align4, align4_shift by (lia || done).
  rewrite (proj2 (Z.ltb_ge (es_p y + align4 n) _)), orb_false_r by lia.
  destruct (Z.ltb_spec (es_end y) (es_p y + align4 n)) as [L|L]; [|by eexists].
  rewrite get_next_some; [by eexists|lia|].
  rewrite <- Ry in Hr. unfold enc_room in Hr. destruct (es_iov y) as [[]|]; lia.
Qed.

Lemma land3_mod n : Z.land n 3 = n mod 4.
Proof. change 3 with (Z.ones 2). by rewrite Z.land_ones. Qed.

Lemma stream_write_pages_ok x p b l bs :
  enc_ok x -> enc_inl x -> enc_pdata x p b l = Some bs -> 4 <= enc_room x ->
  exists x', stream_write_pages p b l x = Some x' /\ enc_ok x' /\
    enc_out x' = enc_out x ++ w_fixed bs.
Proof.
  intros Hx [Hi Hin] Hd Hr. pose proof Hx as [Hb Hp]. rewrite Hi in Hp.
  unfold enc_pdata in Hd. destruct (_ && _) eqn:Er; [|done]. zbool. injection Hd as <-.
  destruct (ok_head _ _ Hb) as (? & ? & ?). pose proof (ok_mem _ _ Hb) as Hm.
  pose proof (zlen_concat_pages _ Hm) as LG.
  unfold enc_room in Hr. rewrite Hi in Hr.
  unfold head_phase in Hp. destruct Hp as (S0 & ? & ? & ? & ? & ? & ? & ? & ? & ?).
  assert (Eo : enc_out x = kvec_bytes (es_mem x) (head (es_buf x))).
  { unfold enc_out, xdr_commit_encode. rewrite S0. unfold buf_bytes, pages_bytes, kvec_bytes. simpl.
    replace (page_len (es_buf x)) with 0 by lia. replace (iov_len (tail (es_buf x))) with 0 by lia.
    rewrite !(ztake_le0 0), !app_nil_r by done. done. }
  rewrite Eo. unfold stream_write_pages. rewrite land3_mod. unfold field_upd. simpl.
  set (d := cut (concat (m_pages (es_mem x))) (p * PAGE_SIZE + b) l).
  assert (Ld : zlen d = l) by (unfold d, PAGE_SIZE in *; llia).
  destruct (Z.eqb_spec (l mod 4) 0) as [E|E]; simpl.
  - eexists. split; [reflexivity|]. split.
    + split; simpl; [split; unfold kvec_ok; simpl; try done; lia|]. unfold tail_phase. simpl.
      split_and!; lia.
    + unfold enc_out, xdr_commit_encode. simpl. rewrite S0. unfold buf_bytes, pages_bytes. simpl.
      rewrite (kvec_bytes_cut _ (mk_kvec _ _)). simpl. rewrite cut_nil, app_nil_r by lia.
      f_equal. unfold w_fixed. rewrite Ld. replace ((- l) mod 4) with 0 by zlia. by rewrite app_nil_r.
  - rewrite (proj2 (Z.leb_gt _ _)) by lia. eexists. split; [reflexivity|].
    assert (L : zlen (zwrite (es_p x) (be32 0) (m_lin (es_mem x))) = zlen (m_lin (es_mem x)))
      by (apply zlen_zwrite; llia).
    split.
    + split; simpl; [split; unfold kvec_ok; simpl; rewrite ?L; try done; zlia|]. unfold tail_phase. simpl.
      rewrite L. split_and!; zlia.
    + unfold enc_out, xdr_commit_encode. simpl. rewrite S0. unfold buf_bytes, pages_bytes. simpl.
      rewrite !kvec_bytes_cut. simpl. fold (cut (concat (m_pages (es_mem x))) (p * PAGE_SIZE + b) l).
      fold d. f_equal; [apply cut_zwrite_outside; llia|]. unfold w_fixed. f_equal. rewrite Ld.
      replace (- l mod 4) with (4 - l mod 4) by zlia.
      rewrite <- (cut_cut _ (es_p x) 4) by zlia. rewrite cut_zwrite_at by llia.
      unfold cut. rewrite zrep_be32_0, zdrop_zrep by zlia. apply ztake_all. autorewrite with nfs_len. zlia.
Qed.

#[export, refine] Instance xdr_estream_laws : XdrOutLaws xdr_estream := {|
  xo_wf := enc_ok; xo_out := enc_out; xo_room := enc_room; xo_inl := enc_inl; xo_pdata := enc_pdata;
|}.
Proof.
  - intros s n bs H Hn Hl Hr. destruct (stream_put_ok s n bs H Hn Hl Hr) as (s' & E & P).
    exists s'. split; [exact E|exact P].
  - intros s p b l bs. apply stream_write_pages_ok.
  - intros [m p b e i sb sl pp] f [Hb Hp]. split.
    + split; [destruct Hb; by split|]. by destruct i as [[]|].
    + unfold enc_out, xdr_commit_encode. simpl. by destruct (sl =? 0).
Defined.

(** ** Starting, restricting and truncating *)

Lemma xdr_init_encode_ok x b :
  buf_ok (es_mem x) b -> iov_len (tail b) = 0 -> page_len b = 0 -> page_base b = 0 ->
  xlen b = iov_len (head b) -> iov_len (head b) <= buflen b ->
  iov_base (head b) + buflen b <= zlen (m_lin (es_mem x)) ->
  (buflen b - iov_len (head b)) mod 4 = 0 -> es_page_ptr x = pages b - 1 ->
  pages b <= zlen (m_pages (es_mem x)) ->
  exists x', xdr_init_encode x b None = Some x' /\ enc_ok x' /\ enc_inl x' /\
    enc_out x' = kvec_bytes (es_mem x) (head b) /\ enc_room x' = buflen b - iov_len (head b).
Proof.
  intros Hb Ht Hp Hpb Hx Hl Hm H4 Hpp Hpg. unfold xdr_init_encode. rewrite Ht, Hp, !Z.sub_0_r.
  destruct (ok_head _ _ Hb) as (? & ? & ?).
  rewrite (proj2 (Z.ltb_ge _ _)), (proj2 (Z.ltb_ge _ _)) by lia. eexists. split; [reflexivity|].
  unfold field_upd. simpl. split_and!.
  - split; simpl; [done|]. unfold head_phase. simpl. unfold PAGE_SIZE.
    replace (iov_base (head b) + buflen b - (iov_base (head b) + iov_len (head b)))
      with (buflen b - iov_len (head b)) by lia. split_and!; (done || lia).
  - split; simpl; [done|lia].
  - unfold enc_out, xdr_commit_encode. simpl. unfold buf_bytes, pages_bytes, kvec_bytes at 2.
    rewrite Ht, Hp, !(ztake_le0 0), !app_nil_r by done. done.
  - unfold enc_room. simpl. lia.
Qed.

Lemma ztake_app {A} n (l k : list A) : ztake n (l ++ k) = ztake n l ++ ztake (n - zlen l) k.
Proof.
  destruct (Z_le_gt_dec n (zlen l)).
  - rewrite ztake_app_le, (ztake_le0 (n - _)), app_nil_r by lia. done.
  - rewrite ztake_app_ge, (ztake_all n) by lia. done.
Qed.

Lemma ztake_max {A} a b (l : list A) : Z.max 0 a = Z.max 0 b -> ztake a l = ztake b l.
Proof. intros. unfold ztake. f_equal. lia. Qed.

(** The first [n] bytes of a buffer, as a buffer with shortened parts. *)
Lemma buf_bytes_shorten m b b' n :
  buf_ok m b ->
  iov_base (head b') = iov_base (head b) -> iov_base (tail b') = iov_base (tail b) ->
  pages b' = pages b -> page_base b' = page_base b ->
  Z.max 0 (iov_len (head b')) = Z.max 0 (Z.min n (iov_len (head b))) ->
  Z.max 0 (page_len b') = Z.max 0 (Z.min (n - iov_len (head b)) (page_len b)) ->
  Z.max 0 (iov_len (tail b')) =
    Z.max 0 (Z.min (n - iov_len (head b) - page_len b) (iov_len (tail b))) ->
  buf_bytes m b' = ztake n (buf_bytes m b).
Proof.
  intros Hb B1 B2 B3 B4 E1 E2 E3. unfold buf_bytes. rewrite !ztake_app.
  rewrite (zlen_kvec m (head b)), zlen_pages by (done || apply Hb).
  unfold kvec_bytes, pages_bytes. rewrite !ztake_ztake, B1, B2, B3, B4.
  f_equal; [by apply ztake_max|]. f_equal; by apply ztake_max.
Qed.

(** [xdr_truncate_encode] forgets exactly the bytes past [len]. *)
Lemma xdr_truncate_encode_bytes x len :
  enc_ok x -> 0 <= len <= xlen (es_buf x) ->
  let x' := xdr_truncate_encode x len in
  xlen (es_buf x') = len /\ es_scratch_len x' = 0 /\
  buf_bytes (es_mem x') (es_buf x') = ztake len (enc_out x).
Proof.
  intros Hx Hl x'. destruct (xdr_commit_encode_ok x Hx) as [Hy _]. unfold enc_out.
  destruct (commit_fields x) as (_ & Eb & _ & _ & _ & Es).
  subst x'. unfold xdr_truncate_encode. rewrite (proj2 (Z.ltb_ge _ _)) by lia.
  rewrite <- Eb in *. set (y := xdr_commit_encode x) in *. clearbody y.
  destruct Hy as [Hb Hp].
  assert (Hx' : xlen (es_buf y) = iov_len (head (es_buf y)) + page_len (es_buf y) + iov_len (tail (es_buf y))).
  { destruct (es_iov y) as [[]|]; [unfold head_phase in Hp|unfold tail_phase in Hp|unfold page_phase in Hp];
      destruct_and?; lia. }
  destruct (ok_head _ _ Hb) as (? & ? & ?). destruct (ok_tail _ _ Hb) as (? & ? & ?).
  destruct (ok_pages _ _ Hb) as (? & ? & ?).
  destruct y as [m p [[hb hl] [tb tl] pg pb pl fl bl xl] e iov sb sl pp]. simpl in *.
  cbv -[Z.add Z.sub Z.min Z.eqb negb buf_bytes ztake page_idx page_off PAGE_SIZE].
  destruct (Z.eqb_spec (tl - Z.min (xl - len) tl) 0); cbn [negb];
  [destruct (Z.eqb_spec (pl - (xl - (xl - len) `min` tl - len) `min` pl) 0); cbn [negb]|];
  (split; [lia|split; [done|]]; apply buf_bytes_shorten; simpl; (done || lia)).
Qed.

(** [xdr_restrict_buflen] only ever lowers the limit, never below what is
    already encoded, and the message is untouched. *)
Lemma xdr_restrict_buflen_ok x n r x' :
  enc_ok x -> es_iov x <> Some IovTail -> es_scratch_len x = 0 ->
  (n - xlen (es_buf x)) mod 4 = 0 ->
  xdr_restrict_buflen x n = (r, x') ->
  (r = - 1 /\ x' = x /\ (n < 0 \/ n < xlen (es_buf x))) \/
  (r = 0 /\ enc_ok x' /\ enc_out x' = enc_out x /\
   buflen (es_buf x') = Z.min n (buflen (es_buf x)) /\
   enc_room x' = Z.min n (buflen (es_buf x)) - xlen (es_buf x)).
Proof.
  intros Hx Ht Hs H4 E. unfold xdr_restrict_buflen in E.
  destruct (Z.ltb_spec n 0); [simpl in E; simplify_eq; left; auto|].
  destruct (Z.ltb_spec n (xlen (es_buf x))); [simpl in E; simplify_eq; left; auto|]. simpl in E.
  right. destruct (Z.ltb_spec (buflen (es_buf x)) n).
  { simplify_eq. split_and!; try done; [lia|]. unfold enc_room.
    destruct (es_iov x') as [[]|]; try done; lia. }
  destruct x as [m p b e iov sb sl pp]. simpl in *. subst sl.
  destruct (Z.ltb_spec n (xlen b + (e - p))); injection E as <- <-; unfold field_upd; simpl;
    (split_and!; [done| |done|lia|unfold enc_room; destruct iov as [[]|]; simpl; done || lia]);
    destruct Hx as [[] Hp]; (split; [by split|]); simpl in *; destruct iov as [[]|]; try done;
    [unfold head_phase in *|unfold page_phase in *|unfold head_phase in *|unfold page_phase in *];
    simpl in *; destruct_and?; split_and!; try (done || lia).
  replace (e + n - (xlen b + (e - p)) - p) with (n - xlen b) by lia. done.
Qed.
