(* ===== verification/XdrTheorems.v ===== *)
(** * The XDR layer: main theorems

    What [net/sunrpc/xdr.c] promises its callers, collected from the lemmas of
    XdrBuf, XdrDecode and XdrEncode, with the sample buffers that show each
    statement at work: a head of 8 bytes, page data that starts inside one page
    and ends in the next, and a tail. *)

From S2P Require Import Prelude Xdr XdrSpec XdrBuf XdrDecode XdrEncode.

(** ** Samples *)

(** 64 bytes of linear memory and three pages. *)
Definition sample_mem : xdr_mem := mk_mem (replicate 64 x07) [replicate 4096 x01; replicate 4096 x02; replicate 4096 x03].

(** Head [0..8), pages [4088..4104) of pages 0 and 1, tail [16..24). *)
Definition sample_buf : xdr_buf := mk_buf (mk_kvec 0 8) (mk_kvec 16 8) 0 4088 16 0 0 32.

Definition sample_stream0 : xdr_stream := mk_stream sample_mem 0 sample_buf 0 None 0 None 0.
Definition sample_stream : xdr_stream := xdr_init_decode sample_stream0 sample_buf None.

(** An empty call buffer: the head has 16 of its 64 bytes, the rest may go to
    pages 0 to 2. *)
Definition sample_call : xdr_buf := mk_buf (mk_kvec 0 8) (mk_kvec 0 0) 0 0 0 0 32 8.
Definition sample_estream : xdr_estream :=
  mk_estream sample_mem 8 sample_call 32 (Some IovHead) (LLin 0) 0 (-1).
(** The same head, but the limit allows the encoder to go on into the pages. *)
Definition sample_estream_pages : xdr_estream :=
  mk_estream sample_mem 8 (sample_call <| buflen := 4128 |>) 16 (Some IovHead) (LLin 0) 0 (-1).

Lemma sample_pages_ok : pages_ok sample_mem.
Proof. repeat constructor. Qed.

Lemma sample_buf_ok : buf_ok sample_mem sample_buf.
Proof. split; [..|apply sample_pages_ok| |]; vm_compute; repeat split; discriminate. Qed.

Lemma sample_dec_buf_ok : dec_buf_ok sample_mem sample_buf.
Proof. split; [apply sample_buf_ok|..]; vm_compute; repeat split; discriminate. Qed.

Lemma sample_stream_ok : stream_ok sample_stream.
Proof. apply (xdr_init_decode_ok sample_stream0 sample_buf), sample_dec_buf_ok. Qed.

Lemma sample_call_ok : buf_ok sample_mem sample_call.
Proof. split; [..|apply sample_pages_ok| |]; vm_compute; repeat split; discriminate. Qed.

Lemma sample_estream_ok : enc_ok sample_estream.
Proof. split; [apply sample_call_ok|]. vm_compute. repeat split; discriminate. Qed.

Lemma sample_estream_pages_ok : enc_ok sample_estream_pages.
Proof.
  split; [|vm_compute; repeat split; discriminate].
  split; [..|apply sample_pages_ok| |]; vm_compute; repeat split; discriminate.
Qed.

(** ** Decoding *)

(** C4: [xdr_inline_decode] on any well-formed stream, whatever the fragments
    and the scratch buffer: a returned item is exactly the next [n] bytes of the
    message, the stream then stands after the item and its padding, a refusal
    only ever loses bytes that were passed over, an item longer than what is
    left of the message is always refused, and one that lies inside the current
    fragment never is. *)
Theorem xdr_inline_decode_contract x n r x' :
  stream_ok x -> 0 <= n < 2 ^ 32 -> stream_inline_decode n x = (r, x') ->
  stream_ok x' /\
  match r with
  | Some bs => bs = ztake n (stream_rest x) /\ zlen bs = n /\
               stream_rest x' = zdrop (align4 n) (stream_rest x)
  | None => exists w, stream_rest x = w ++ stream_rest x'
  end /\
  (zlen (stream_rest x) < n -> r = None) /\
  (align4 n <= stream_contig x -> r = Some (ztake n (stream_rest x))).
Proof.
  intros H Hn E. pose proof (stream_inline_decode_took n x r x' H Hn E) as [O T].
  split_and!; [done|done| |].
  - intros L. destruct r; [|done]. destruct T as (-> & T & _). rewrite zlen_ztake in T.
    pose proof (zlen_nonneg (stream_rest x)). lia.
  - intros L. destruct (stream_inline_decode_contig n x H ltac:(lia) L) as (y & E' & _). congruence.
Qed.

(** Twelve bytes that lie across a page boundary, read through the scratch buffer. *)
Definition sample_pages_stream : xdr_stream :=
  (snd (stream_inline_decode 8 sample_stream)) <| xs_scratch := 16 |>.

Lemma sample_pages_stream_ok : stream_ok sample_pages_stream.
Proof.
  destruct (stream_inline_decode 8 sample_stream) as [r y] eqn:E.
  destruct (stream_inline_decode_took 8 sample_stream r y sample_stream_ok ltac:(lia) E) as [[] _].
  unfold sample_pages_stream. rewrite E. destruct y. by split.
Qed.

Lemma xdr_inline_decode_contract_witness :
  exists x', stream_inline_decode 12 sample_pages_stream =
    (Some (replicate 8 x01 ++ replicate 4 x02), x') /\ stream_ok x'.
Proof.
  eexists. split; [vm_compute; reflexivity|].
  refine (proj1 (xdr_inline_decode_contract sample_pages_stream 12 _ _ sample_pages_stream_ok _ _));
    [lia|vm_compute; reflexivity].
Defined.

(** After [xdr_init_decode] the stream is well formed and the whole message,
    the first [len] bytes of head, pages and tail, is ahead of it. *)
Theorem xdr_init_decode_contract x b :
  dec_buf_ok (xs_mem x) b ->
  let x' := xdr_init_decode x b None in
  stream_ok x' /\ stream_rest x' = ztake (xlen b) (buf_bytes (xs_mem x) b) /\
  xdr_stream_remaining x' = xlen b /\ xs_mem x' = xs_mem x /\ xs_buf x' = b.
Proof.
  intros H x'. destruct (xdr_init_decode_ok x b H) as (O & R & M & B). split_and!; try done.
  pose proof (zlen_stream_rest _ O) as L. fold x' in R, L. rewrite R, zlen_ztake, zlen_buf in L by apply H.
  pose proof (db_len _ _ H). unfold xdr_stream_remaining. rewrite Z.shiftl_mul_pow2 by done. lia.
Qed.

Lemma xdr_init_decode_contract_witness :
  stream_rest sample_stream =
    replicate 8 x07 ++ replicate 8 x01 ++ replicate 8 x02 ++ replicate 8 x07.
Proof.
  refine (eq_trans (proj1 (proj2 (xdr_init_decode_contract sample_stream0 sample_buf sample_dec_buf_ok))) _).
  vm_compute. reflexivity.
Defined.

(** ** Encoding *)

(** C3: reserving space for an item and storing it appends exactly the item to
    the message, also when the item does not fit in the current fragment and is
    assembled in the next page and moved in two parts by the next commit; the
    room shrinks by the item's size.  When the item fits neither the fragment
    nor the limit of the buffer, the reservation is refused. *)
Theorem xdr_reserve_space_contract x n bs :
  enc_ok x -> 0 <= n <= PAGE_SIZE -> zlen bs = align4 n ->
  (align4 n <= enc_room x ->
   exists x', stream_put n bs x = Some x' /\ enc_ok x' /\ enc_out x' = enc_out x ++ bs /\
     enc_room x' = enc_room x - align4 n) /\
  (es_end x - es_p x < align4 n -> buflen (es_buf x) - xlen (es_buf x) < align4 n ->
   stream_put n bs x = None).
Proof.
  intros H Hn Hl. split.
  - intros Hr. destruct (stream_put_ok x n bs H Hn Hl Hr) as (x' & E & O & Ho & R & _). eauto 6.
  - intros He Hr. pose proof (align4_range n). unfold stream_put, xdr_reserve_space, xdr_get_next_encode_buffer.
    destruct (commit_fields x) as (-> & -> & -> & _). rewrite xdr_align_size_align4 by (unfold PAGE_SIZE in *; lia).
    rewrite align4_shift by (unfold align4; zlia).
    rewrite (proj2 (Z.ltb_lt (es_end x) _)) by lia. simpl.
    destruct (PAGE_SIZE <? align4 n); [done|]. by rewrite (proj2 (Z.ltb_lt _ _)) by lia.
Qed.

(** A 20-byte item of which 8 bytes go to the head and 12 to the first page. *)
Lemma xdr_reserve_space_contract_witness :
  exists x', stream_put 20 (replicate 20 x05) sample_estream_pages = Some x' /\
    enc_out x' = replicate 8 x07 ++ replicate 20 x05 /\ es_page_ptr x' = 0 /\ es_scratch_len x' = 8.
Proof.
  destruct (proj1 (xdr_reserve_space_contract sample_estream_pages 20 (replicate 20 x05)
    sample_estream_pages_ok ltac:(vm_compute; split; discriminate) eq_refl) ltac:(vm_compute; discriminate))
    as (x' & E & _ & O & _).
  exists x'. split; [exact E|]. split; [exact O|].
  vm_compute in E. apply (f_equal (option_map (fun y => (es_page_ptr y, es_scratch_len y)))) in E.
  simpl in E. inversion E. split; reflexivity.
Defined.

(** [xdr_write_pages] appends the page data, followed by the zero bytes that
    pad it to a word, and leaves the stream ready to go on in the tail. *)
Theorem xdr_write_pages_contract x p b l bs :
  enc_ok x -> enc_inl x -> enc_pdata x p b l = Some bs -> 4 <= enc_room x ->
  exists x', stream_write_pages p b l x = Some x' /\ enc_ok x' /\
    enc_out x' = enc_out x ++ bs ++ zrep (align4 l - l).
Proof.
  intros H I P R. destruct (stream_write_pages_ok x p b l bs H I P R) as (x' & E & O & B).
  exists x'. split_and!; try done. rewrite B. unfold w_fixed. do 3 f_equal.
  unfold enc_pdata in P. case_match eqn:C; [|done]. zbool. injection P as <-. rewrite zlen_cut.
  rewrite zlen_concat_pages by apply (ok_mem _ _ (eo_buf _ H)). unfold PAGE_SIZE in *.
  rewrite Z.max_r, Z.min_l by lia. unfold align4. zlia.
Qed.

(** Six bytes across the boundary of pages 1 and 2, padded with two zeros. *)
Lemma xdr_write_pages_contract_witness :
  exists x', stream_write_pages 1 4092 6 sample_estream = Some x' /\
    enc_out x' = replicate 8 x07 ++ (replicate 4 x02 ++ replicate 2 x03) ++ [x00; x00].
Proof.
  destruct (xdr_write_pages_contract sample_estream 1 4092 6 (replicate 4 x02 ++ replicate 2 x03)
    sample_estream_ok) as (x' & E & _ & O).
  - split; [reflexivity|vm_compute; discriminate].
  - vm_compute. reflexivity.
  - vm_compute. discriminate.
  - exists x'. split; [exact E|exact O].
Defined.

(** [xdr_truncate_encode] keeps exactly the first [len] bytes of what has
    been encoded, completing a pending move first. *)
Theorem xdr_truncate_encode_contract x len :
  enc_ok x -> 0 <= len <= xlen (es_buf x) ->
  let x' := xdr_truncate_encode x len in
  xlen (es_buf x') = len /\ es_scratch_len x' = 0 /\
  buf_bytes (es_mem x') (es_buf x') = ztake len (enc_out x).
Proof. apply xdr_truncate_encode_bytes. Qed.

(** Cutting the item of the straddling witness back to 14 bytes of message. *)
Definition sample_straddled : xdr_estream :=
  default sample_estream_pages (stream_put 20 (replicate 20 x05) sample_estream_pages).

Lemma sample_straddled_ok : enc_ok sample_straddled.
Proof.
  destruct (stream_put_ok sample_estream_pages 20 (replicate 20 x05) sample_estream_pages_ok)
    as (x' & E & O & _); [lia|done|vm_compute; discriminate|].
  unfold sample_straddled. by rewrite E.
Qed.

Lemma xdr_truncate_encode_contract_witness :
  let x' := xdr_truncate_encode sample_straddled 20 in
  buf_bytes (es_mem x') (es_buf x') = replicate 8 x07 ++ replicate 12 x05.
Proof.
  refine (eq_trans (proj2 (proj2 (xdr_truncate_encode_contract sample_straddled 20 sample_straddled_ok _))) _).
  - vm_compute. split; discriminate.
  - vm_compute. reflexivity.
Defined.

(** [xdr_restrict_buflen] refuses a limit below what is already encoded and
    otherwise lowers the limit (it never raises it), leaving the message as it
    is and the stream well formed with exactly the room the new limit leaves. *)
Theorem xdr_restrict_buflen_contract x n r x' :
  enc_ok x -> es_iov x <> Some IovTail -> es_scratch_len x = 0 ->
  (n - xlen (es_buf x)) mod 4 = 0 -> xdr_restrict_buflen x n = (r, x') ->
  (r = - 1 /\ x' = x /\ (n < 0 \/ n < xlen (es_buf x))) \/
  (r = 0 /\ enc_ok x' /\ enc_out x' = enc_out x /\
   buflen (es_buf x') = Z.min n (buflen (es_buf x)) /\
   enc_room x' = Z.min n (buflen (es_buf x)) - xlen (es_buf x)).
Proof. apply xdr_restrict_buflen_ok. Qed.

Lemma xdr_restrict_buflen_contract_witness :
  let '(r, x') := xdr_restrict_buflen sample_estream_pages 12 in r = 0 /\ enc_room x' = 4.
Proof.
  destruct (xdr_restrict_buflen sample_estream_pages 12) as [r x'] eqn:E.
  destruct (xdr_restrict_buflen_contract sample_estream_pages 12 r x' sample_estream_pages_ok
    ltac:(vm_compute; discriminate) eq_refl eq_refl E) as [(_ & _ & [C|C])|(R & _ & _ & _ & M)].
  - vm_compute in C. discriminate C.
  - vm_compute in C. discriminate C.
  - split; [exact R|exact M].
Defined.

(** ** Sections of a buffer *)

(** [xdr_buf_subsegment] describes exactly the bytes [base .. base+n) of the
    buffer, across head, pages and tail, when the buffer has them, and fails
    otherwise. *)
Theorem xdr_buf_subsegment_contract m b old base n :
  buf_ok m b -> 0 <= base -> 0 <= n ->
  if base + n <=? iov_len (head b) + page_len b + iov_len (tail b)
  then exists sub, xdr_buf_subsegment b old base n = (0, sub) /\ buf_ok m sub /\
         xlen sub = n /\ buflen sub = n /\ buf_bytes m sub = ztake n (zdrop base (buf_bytes m b))
  else fst (xdr_buf_subsegment b old base n) = - 1.
Proof.
  intros H Hb Hn. destruct (Z.leb_spec (base + n) (iov_len (head b) + page_len b + iov_len (tail b))).
  - destruct (xdr_buf_subsegment_ok m b old base n) as (sub & E & O & Lx & Lb & _); [done..|].
    exists sub. split_and!; try done. by eapply xdr_buf_subsegment_bytes.
  - by eapply xdr_buf_subsegment_refused.
Qed.

Lemma xdr_buf_subsegment_contract_witness :
  exists sub, xdr_buf_subsegment sample_buf sample_buf 4 22 = (0, sub) /\
    buf_bytes sample_mem sub = replicate 4 x07 ++ replicate 8 x01 ++ replicate 8 x02 ++ replicate 2 x07.
Proof.
  destruct (xdr_buf_subsegment_contract sample_mem sample_buf sample_buf 4 22 sample_buf_ok
    ltac:(lia) ltac:(lia)) as (sub & E & _ & _ & _ & B).
  exists sub. split; [exact E|]. rewrite B. vm_compute. reflexivity.
Defined.

(** [write_bytes_to_xdr_buf] changes exactly the addressed bytes of the
    buffer and [read_bytes_from_xdr_buf] then reads them back; both refuse a
    range that reaches past the end, and the refused write stores nothing. *)
Theorem xdr_buf_bytes_roundtrip m b base obj :
  buf_ok m b -> buf_sep b -> 0 <= base ->
  if base + zlen obj <=? iov_len (head b) + page_len b + iov_len (tail b)
  then exists m', write_bytes_to_xdr_buf m b base obj (zlen obj) = (0, m') /\ buf_ok m' b /\
         buf_bytes m' b = zwrite base obj (buf_bytes m b) /\
         read_bytes_from_xdr_buf m' b base (zlen obj) = Ok obj
  else write_bytes_to_xdr_buf m b base obj (zlen obj) = (- 1, m) /\
       read_bytes_from_xdr_buf m b base (zlen obj) = Err (- 1).
Proof.
  intros H S Hb. pose proof (zlen_nonneg obj).
  destruct (Z.leb_spec (base + zlen obj) (iov_len (head b) + page_len b + iov_len (tail b))).
  - destruct (write_bytes_to_xdr_buf_ok m b base obj) as (m' & E & O & B); [done..|].
    exists m'. split_and!; try done. rewrite read_bytes_from_xdr_buf_ok by done. f_equal.
    rewrite B. apply cut_zwrite_at; [done..|]. by rewrite zlen_buf.
  - pose proof (xdr_buf_subsegment_refused m b b base (zlen obj)) as R.
    unfold write_bytes_to_xdr_buf, read_bytes_from_xdr_buf.
    destruct (xdr_buf_subsegment b b base (zlen obj)) as [st sub]. simpl in R. by rewrite R.
Qed.

Lemma sample_buf_sep : buf_sep sample_buf.
Proof. vm_compute. left. discriminate. Qed.

Lemma xdr_buf_bytes_roundtrip_witness :
  exists m', write_bytes_to_xdr_buf sample_mem sample_buf 6 (replicate 12 x09) 12 = (0, m') /\
    read_bytes_from_xdr_buf m' sample_buf 6 12 = Ok (replicate 12 x09).
Proof.
  destruct (xdr_buf_bytes_roundtrip sample_mem sample_buf 6 (replicate 12 x09) sample_buf_ok
    sample_buf_sep ltac:(lia)) as (m' & E & _ & _ & R).
  exists m'. split; [exact E|exact R].
Defined.

(** A word stored with [xdr_encode_word] anywhere in a buffer, aligned or
    not and also across its parts, is the word [xdr_decode_word] returns. *)
Theorem xdr_word_roundtrip m b base v :
  buf_ok m b -> buf_sep b -> 0 <= base -> is_u32 v ->
  base + 4 <= iov_len (head b) + page_len b + iov_len (tail b) ->
  exists m', xdr_encode_word m b base v = (0, m') /\ xdr_decode_word m' b base = Ok v.
Proof.
  intros H S Hb Hv Hl. unfold xdr_encode_word, xdr_decode_word.
  destruct (write_bytes_to_xdr_buf_ok m b base (be32 v)) as (m' & E & O & B); [done..|].
  change (zlen (be32 v)) with 4 in E. exists m'. split; [done|].
  rewrite read_bytes_from_xdr_buf_ok by (done || lia). f_equal.
  rewrite B, cut_zwrite_at by (done || by rewrite zlen_buf).
  rewrite <- (app_nil_r (be32 v)), be32_to_cpu_app. by apply u32_id.
Qed.

Lemma xdr_word_roundtrip_witness :
  exists m', xdr_encode_word sample_mem sample_buf 22 0xdeadbeef = (0, m') /\
    xdr_decode_word m' sample_buf 22 = Ok 0xdeadbeef.
Proof.
  apply (xdr_word_roundtrip sample_mem sample_buf 22 0xdeadbeef sample_buf_ok sample_buf_sep);
    vm_compute; repeat split; discriminate.
Defined.

(** [xdr_buf_trim] drops exactly [n] bytes from the end of the buffer, tail
    first, then pages, then head (everything when it has fewer). *)
Theorem xdr_buf_trim_contract m b n :
  buf_ok m b -> 0 <= n ->
  let total := iov_len (head b) + page_len b + iov_len (tail b) in
  let b' := xdr_buf_trim b n in
  buf_ok m b' /\ buf_bytes m b' = ztake (total - n) (buf_bytes m b) /\
  xlen b' = xlen b - Z.min n total.
Proof. apply xdr_buf_trim_ok. Qed.

Lemma xdr_buf_trim_contract_witness :
  buf_bytes sample_mem (xdr_buf_trim sample_buf 20) = replicate 8 x07 ++ replicate 4 x01.
Proof.
  refine (eq_trans (proj1 (proj2 (xdr_buf_trim_contract sample_mem sample_buf 20 sample_buf_ok _))) _).
  - lia.
  - vm_compute. reflexivity.
Defined.
