(* ===== verification/Nfs3Types.v ===== *)
(** * NFSv3: protocol constants, structs and what the kernel supplies

    The constants of [include/uapi/linux/nfs3.h], [nfs.h] and
    [include/linux/nfs_xdr.h], the argument and result structs the client
    ([include/linux/nfs_xdr.h]) and the server ([fs/nfsd/xdr3.h],
    [fs/nfsd/nfsfh.h]) fill in or read, and, as the class [KEnv], the kernel
    functions the codecs call and whose code is not part of the repository:
    the id mappings of a user namespace, the device-number macros, and the
    file attributes the server asks the file system for. *)

From S2P Require Import Prelude Xdr.

(** ** Constants *)

Definition NFS3_MAXPATHLEN := 4096.
Definition NFS3_MAXNAMLEN := 255.
Definition NFS3_FHSIZE := 64.
Definition NFS3_CREATEVERFSIZE := 8.
Definition NFS3_COOKIEVERFSIZE := 8.
Definition NFS3_WRITEVERFSIZE := 8.

Definition NFS3_CREATE_UNCHECKED := 0.
Definition NFS3_CREATE_GUARDED := 1.
Definition NFS3_CREATE_EXCLUSIVE := 2.

Definition NF3NON := 0.
Definition NF3REG := 1.
Definition NF3DIR := 2.
Definition NF3BLK := 3.
Definition NF3CHR := 4.
Definition NF3LNK := 5.
Definition NF3SOCK := 6.
Definition NF3FIFO := 7.
Definition NF3BAD := 8.

Definition DONT_CHANGE := 0.
Definition SET_TO_SERVER_TIME := 1.
Definition SET_TO_CLIENT_TIME := 2.

Definition NFS_UNSTABLE := 0.
Definition NFS_DATA_SYNC := 1.
Definition NFS_FILE_SYNC := 2.

(** [enum nfs_stat], the values NFSv3 uses *)
Definition NFS_OK := 0.
Definition NFSERR_PERM := 1.
Definition NFSERR_NOENT := 2.
Definition NFSERR_IO := 5.
Definition NFSERR_NXIO := 6.
Definition NFSERR_ACCES := 13.
Definition NFSERR_EXIST := 17.
Definition NFSERR_XDEV := 18.
Definition NFSERR_NODEV := 19.
Definition NFSERR_NOTDIR := 20.
Definition NFSERR_ISDIR := 21.
Definition NFSERR_INVAL := 22.
Definition NFSERR_FBIG := 27.
Definition NFSERR_NOSPC := 28.
Definition NFSERR_ROFS := 30.
Definition NFSERR_MLINK := 31.
Definition NFSERR_NAMETOOLONG := 63.
Definition NFSERR_NOTEMPTY := 66.
Definition NFSERR_DQUOT := 69.
Definition NFSERR_STALE := 70.
Definition NFSERR_REMOTE := 71.
Definition NFSERR_BADHANDLE := 10001.
Definition NFSERR_NOT_SYNC := 10002.
Definition NFSERR_BAD_COOKIE := 10003.
Definition NFSERR_NOTSUPP := 10004.
Definition NFSERR_TOOSMALL := 10005.
Definition NFSERR_SERVERFAULT := 10006.
Definition NFSERR_BADTYPE := 10007.
Definition NFSERR_JUKEBOX := 10008.

(** File modes *)
Definition S_IFMT := 0xF000.
Definition S_IFSOCK := 0xC000.
Definition S_IFLNK := 0xA000.
Definition S_IFREG := 0x8000.
Definition S_IFBLK := 0x6000.
Definition S_IFDIR := 0x4000.
Definition S_IFCHR := 0x2000.
Definition S_IFIFO := 0x1000.
Definition S_IALLUGO := 0xFFF.
Definition S_ISLNK (m : Z) : bool := Z.land m S_IFMT =? S_IFLNK.

(** [struct iattr] validity bits *)
Definition ATTR_MODE := 1.
Definition ATTR_UID := 2.
Definition ATTR_GID := 4.
Definition ATTR_SIZE := 8.
Definition ATTR_ATIME := 16.
Definition ATTR_MTIME := 32.
Definition ATTR_ATIME_SET := 128.
Definition ATTR_MTIME_SET := 256.

(** [struct nfs_fattr] validity bits *)
Definition NFS_ATTR_FATTR_PRESIZE := 2 ^ 7.
Definition NFS_ATTR_FATTR_SPACE_USED := 2 ^ 9.
Definition NFS_ATTR_FATTR_PREMTIME := 2 ^ 15.
Definition NFS_ATTR_FATTR_PRECTIME := 2 ^ 16.
Definition NFS_ATTR_FATTR_PRECHANGE := 2 ^ 18.
Definition NFS_ATTR_FATTR_MOUNTED_ON_FILEID := 2 ^ 22.
Definition NFS_ATTR_FATTR : Z :=
  fold_right Z.lor 0
    [2 ^ 0; 2 ^ 1; 2 ^ 2; 2 ^ 3; 2 ^ 4; 2 ^ 5; 2 ^ 6; 2 ^ 10; 2 ^ 11; 2 ^ 12; 2 ^ 13; 2 ^ 14; 2 ^ 17].
Definition NFS_ATTR_FATTR_V3 : Z := Z.lor NFS_ATTR_FATTR NFS_ATTR_FATTR_SPACE_USED.

Definition has (flags bit : Z) : bool := negb (Z.land flags bit =? 0).

(** ** Attributes *)

Record timespec64 := mk_time { tv_sec : Z; tv_nsec : Z }.

Record iattr := mk_iattr {
  ia_valid : Z; ia_mode : Z; ia_uid : Z; ia_gid : Z; ia_size : Z;
  ia_atime : timespec64; ia_mtime : timespec64;
}.

Record kstat := mk_kstat {
  ks_mode : Z; ks_nlink : Z; ks_uid : Z; ks_gid : Z; ks_size : Z; ks_blocks : Z; ks_rdev : Z;
  ks_ino : Z; ks_atime : timespec64; ks_mtime : timespec64; ks_ctime : timespec64;
}.

Record nfs_fattr := mk_fattr {
  fa_valid : Z; fa_mode : Z; fa_nlink : Z; fa_uid : Z; fa_gid : Z; fa_rdev : Z;
  fa_size : Z; fa_used : Z; fa_fsid_major : Z; fa_fsid_minor : Z; fa_fileid : Z;
  fa_mounted_on_fileid : Z;
  fa_atime : timespec64; fa_mtime : timespec64; fa_ctime : timespec64;
  fa_change_attr : Z; fa_pre_change_attr : Z; fa_pre_size : Z;
  fa_pre_mtime : timespec64; fa_pre_ctime : timespec64;
}.

#[export] Instance upd_iattr : Updatable iattr := fun x =>
  mk_iattr (ia_valid x) (ia_mode x) (ia_uid x) (ia_gid x) (ia_size x) (ia_atime x) (ia_mtime x).
#[export] Instance upd_kstat : Updatable kstat := fun x =>
  mk_kstat (ks_mode x) (ks_nlink x) (ks_uid x) (ks_gid x) (ks_size x) (ks_blocks x) (ks_rdev x)
    (ks_ino x) (ks_atime x) (ks_mtime x) (ks_ctime x).
#[export] Instance upd_fattr : Updatable nfs_fattr := fun x =>
  mk_fattr (fa_valid x) (fa_mode x) (fa_nlink x) (fa_uid x) (fa_gid x) (fa_rdev x) (fa_size x)
    (fa_used x) (fa_fsid_major x) (fa_fsid_minor x) (fa_fileid x) (fa_mounted_on_fileid x)
    (fa_atime x) (fa_mtime x) (fa_ctime x) (fa_change_attr x) (fa_pre_change_attr x)
    (fa_pre_size x) (fa_pre_mtime x) (fa_pre_ctime x).

(** [struct nfs_fh]: the [size] bytes of [data]. *)
Definition nfs_fh := list byte.

(** ** Server-side file handles *)

Record svc_export := mk_export {
  ex_flags : Z; ex_fsid : Z; ex_uuid : option (list byte);
  ex_requires_dev : bool;    (* the file system type has FS_REQUIRES_DEV *)
}.

Record svc_fh := mk_svc_fh {
  fh_handle : list byte;            (* knfsd_fh: [fh_size] bytes of [fh_base] *)
  fh_maxsize : Z;
  fh_dentry : option Z;             (* an identity for the dentry, or NULL *)
  fh_export : svc_export;
  fh_s_dev : Z;                     (* [fh_dentry->d_sb->s_dev] *)
  fh_no_wcc : bool; fh_post_saved : bool; fh_pre_saved : bool;
  fh_pre_size : Z; fh_pre_mtime : timespec64; fh_pre_ctime : timespec64;
  fh_post_attr : kstat;
}.

Definition zero_time : timespec64 := mk_time 0 0.
Definition zero_kstat : kstat := mk_kstat 0 0 0 0 0 0 0 0 zero_time zero_time zero_time.
Definition zero_iattr : iattr := mk_iattr 0 0 0 0 0 zero_time zero_time.
Definition zero_export : svc_export := mk_export 0 0 None false.

(** [fh_init]: a cleared handle. *)
Definition fh_init (maxsize : Z) : svc_fh :=
  mk_svc_fh [] maxsize None zero_export 0 false false false 0 zero_time zero_time zero_kstat.

#[export] Instance upd_svc_fh : Updatable svc_fh := fun x =>
  mk_svc_fh (fh_handle x) (fh_maxsize x) (fh_dentry x) (fh_export x) (fh_s_dev x) (fh_no_wcc x)
    (fh_post_saved x) (fh_pre_saved x) (fh_pre_size x) (fh_pre_mtime x) (fh_pre_ctime x)
    (fh_post_attr x).

(** ** The kernel functions the codecs call *)

Record user_namespace := mk_userns {
  make_kuid : Z -> Z; make_kgid : Z -> Z;
  from_kuid_munged : Z -> Z; from_kgid_munged : Z -> Z;
}.

Class KEnv := {
  uid_valid : Z -> bool;
  gid_valid : Z -> bool;
  MAJOR : Z -> Z;
  MINOR : Z -> Z;
  MKDEV : Z -> Z -> Z;
  huge_encode_dev : Z -> Z;
  d_really_is_positive : Z -> bool;
  fh_getattr : svc_fh -> option kstat;            (* None: a status other than nfs_ok *)
  lease_get_mtime : Z -> timespec64 -> timespec64; (* the time it leaves in [*time] *)
}.

(** An instance with Linux's 12/20-bit device numbers and plain attributes. *)
Definition kenv_sample : KEnv := {|
  uid_valid u := negb (u =? 2 ^ 32 - 1);
  gid_valid g := negb (g =? 2 ^ 32 - 1);
  MAJOR d := Z.shiftr d 20;
  MINOR d := Z.land d (2 ^ 20 - 1);
  MKDEV ma mi := u32 (Z.lor (Z.shiftl ma 20) mi);
  huge_encode_dev d := d;
  d_really_is_positive _ := true;
  fh_getattr f := Some (fh_post_attr f);
  lease_get_mtime _ t := t;
|}.

Definition init_user_ns : user_namespace := mk_userns id id id id.

(** ** Client argument and result structs *)

Record nfs3_sattrargs := { sa_fh : nfs_fh; sa_sattr : iattr; sa_guard : Z; sa_guardtime : timespec64 }.
Record nfs3_diropargs := { da_fh : nfs_fh; da_name : list byte }.
Record nfs3_accessargs := { aa_fh : nfs_fh; aa_access : Z }.
Record nfs3_createargs := {
  ca_fh : nfs_fh; ca_name : list byte; ca_sattr : iattr; ca_createmode : Z; ca_verifier : list byte }.
Record nfs3_mkdirargs := { mk_fh : nfs_fh; mk_name : list byte; mk_sattr : iattr }.
Record nfs3_symlinkargs := {
  sy_fromfh : nfs_fh; sy_fromname : list byte; sy_pages : Z; sy_pathlen : Z; sy_sattr : iattr }.
Record nfs3_mknodargs := {
  mn_fh : nfs_fh; mn_name : list byte; mn_type : Z; mn_sattr : iattr; mn_rdev : Z }.
Record nfs3_linkargs := { la_fromfh : nfs_fh; la_tofh : nfs_fh; la_toname : list byte }.
Record nfs_renameargs := {
  ra_old_dir : nfs_fh; ra_old_name : list byte; ra_new_dir : nfs_fh; ra_new_name : list byte }.
Record nfs3_readdirargs := { rd_fh : nfs_fh; rd_cookie : Z; rd_verf : list byte; rd_count : Z; rd_pages : Z }.
Record nfs_pgio_args := {
  pg_fh : nfs_fh; pg_offset : Z; pg_count : Z; pg_pgbase : Z; pg_pages : Z; pg_replen : Z; pg_stable : Z }.
Record nfs3_readlinkargs := { rl_fh : nfs_fh; rl_pgbase : Z; rl_pglen : Z; rl_pages : Z }.
Record nfs_commitargs := { cm_fh : nfs_fh; cm_offset : Z; cm_count : Z }.

Record nfs3_diropres := mk_diropres { dr_dir_attr : nfs_fattr; dr_fh : nfs_fh; dr_fattr : nfs_fattr }.
Record nfs_fsstat := mk_fsstat {
  ft_fattr : nfs_fattr; ft_tbytes : Z; ft_fbytes : Z; ft_abytes : Z; ft_tfiles : Z; ft_ffiles : Z; ft_afiles : Z }.
Record nfs_fsinfo := mk_fsinfo {
  fi_fattr : nfs_fattr; fi_rtmax : Z; fi_rtpref : Z; fi_rtmult : Z; fi_wtmax : Z; fi_wtpref : Z;
  fi_wtmult : Z; fi_dtpref : Z; fi_maxfilesize : Z; fi_time_delta : timespec64; fi_lease_time : Z;
  fi_change_attr_type : Z; fi_xattr_support : Z }.
Record nfs_pathconf := mk_pathconf { pc_fattr : nfs_fattr; pc_max_link : Z; pc_max_namelen : Z }.
Record nfs_writeres := mk_writeres {
  wr_fattr : nfs_fattr; wr_count : Z; wr_op_status : Z; wr_verifier : list byte; wr_committed : Z }.
Record nfs_entry := mk_entry {
  en_ino : Z; en_cookie : Z; en_prev_cookie : Z; en_name : list byte; en_eof : Z;
  en_fh : nfs_fh; en_fattr : nfs_fattr; en_d_type : Z }.

#[export] Instance upd_writeres : Updatable nfs_writeres := fun x =>
  mk_writeres (wr_fattr x) (wr_count x) (wr_op_status x) (wr_verifier x) (wr_committed x).
#[export] Instance upd_entry : Updatable nfs_entry := fun x =>
  mk_entry (en_ino x) (en_cookie x) (en_prev_cookie x) (en_name x) (en_eof x) (en_fh x)
    (en_fattr x) (en_d_type x).

(** ** Server argument and result structs *)

Record nfsd3_sattrargs := { vsa_fh : svc_fh; vsa_attrs : iattr; vsa_check_guard : Z; vsa_guardtime : Z }.
Record nfsd3_diropargs := { vda_fh : svc_fh; vda_name : list byte }.
Record nfsd3_accessargs := { vaa_fh : svc_fh; vaa_access : Z }.
Record nfsd3_readargs := { vra_fh : svc_fh; vra_offset : Z; vra_count : Z }.
Record nfsd3_createargs := {
  vca_fh : svc_fh; vca_name : list byte; vca_createmode : Z; vca_attrs : iattr; vca_verf : list byte }.
Record nfsd3_mknodargs := {
  vmn_fh : svc_fh; vmn_name : list byte; vmn_ftype : Z; vmn_major : Z; vmn_minor : Z; vmn_attrs : iattr }.
Record nfsd3_renameargs := { vrn_ffh : svc_fh; vrn_fname : list byte; vrn_tfh : svc_fh; vrn_tname : list byte }.
Record nfsd3_linkargs := { vla_ffh : svc_fh; vla_tfh : svc_fh; vla_tname : list byte }.
Record nfsd3_readdirargs := { vrd_fh : svc_fh; vrd_cookie : Z; vrd_count : Z; vrd_verf : list byte }.
Record nfsd3_commitargs := { vcm_fh : svc_fh; vcm_offset : Z; vcm_count : Z }.

Record nfsd3_attrstat := { vas_status : Z; vas_fh : svc_fh; vas_stat : kstat }.
Record nfsd3_diropres := { vdr_status : Z; vdr_dirfh : svc_fh; vdr_fh : svc_fh }.
Record nfsd3_accessres := { var_status : Z; var_fh : svc_fh; var_access : Z }.
Record nfsd3_writeres := {
  vwr_status : Z; vwr_fh : svc_fh; vwr_count : Z; vwr_committed : Z; vwr_verf : list byte }.
Record nfsd3_renameres := { vrr_status : Z; vrr_ffh : svc_fh; vrr_tfh : svc_fh }.
Record nfsd3_linkres := { vlr_status : Z; vlr_tfh : svc_fh; vlr_fh : svc_fh }.
Record kstatfs := { f_bsize : Z; f_blocks : Z; f_bfree : Z; f_bavail : Z; f_files : Z; f_ffree : Z }.
Record nfsd3_fsstatres := { vfs_status : Z; vfs_stats : kstatfs; vfs_invarsec : Z }.
Record nfsd3_fsinfores := {
  vfi_status : Z; f_rtmax : Z; f_rtpref : Z; f_rtmult : Z; f_wtmax : Z; f_wtpref : Z; f_wtmult : Z;
  f_dtpref : Z; f_maxfilesize : Z; f_properties : Z }.
Record nfsd3_pathconfres := {
  vpc_status : Z; p_link_max : Z; p_name_max : Z; p_no_trunc : Z; p_chown_restricted : Z;
  p_case_insensitive : Z; p_case_preserving : Z }.
Record nfsd3_commitres := { vcr_status : Z; vcr_fh : svc_fh; vcr_verf : list byte }.
