(* ===== verification/Nfs3Client.v ===== *)
(** * NFSv3 client codec

    [fs/nfs/nfs3xdr.c]: the encoders of the call arguments and the decoders of
    the results, each as the C function writes it, over the stream interfaces
    of Xdr.  A decoder that fills a caller's struct takes the struct's old
    contents and returns the new ones; a result decoder returns the value the C
    function returns together with the struct ([Err] is a return before the
    whole reply was parsed). *)

From S2P Require Import Prelude Xdr XdrBuf Nfs3Types.

(** ** Sizes in words (the space requirements the file declares) *)

Definition NFS3_pagepad_sz := 1.
Definition NFS3_fh_sz := 1 + 16.
Definition NFS3_sattr_sz := 15.
Definition NFS3_filename_sz := 1 + Z.shiftr NFS3_MAXNAMLEN 2.
Definition NFS3_fattr_sz := 21.
Definition NFS3_wcc_attr_sz := 6.
Definition NFS3_post_op_attr_sz := 1 + NFS3_fattr_sz.
Definition NFS3_diropargs_sz := NFS3_fh_sz + NFS3_filename_sz.
Definition NFS3_setattrargs_sz := NFS3_fh_sz + NFS3_sattr_sz + 3.
Definition NFS3_createargs_sz := NFS3_diropargs_sz + NFS3_sattr_sz.
Definition NFS3_mknodargs_sz := NFS3_diropargs_sz + 2 + NFS3_sattr_sz.
Definition NFS3_renameargs_sz := NFS3_diropargs_sz + NFS3_diropargs_sz.
Definition NFS3_readlinkres_sz := 1 + NFS3_post_op_attr_sz + 1 + NFS3_pagepad_sz.
Definition NFS3_readres_sz := 1 + NFS3_post_op_attr_sz + 3 + NFS3_pagepad_sz.
Definition NFS3_readdirres_sz := 1 + NFS3_post_op_attr_sz + 2 + NFS3_pagepad_sz.

Definition XDRBUF_READ := 1.
Definition XDRBUF_WRITE := 2.

(** ** What the encoders keep of the request *)

Record rpc_rqst := mk_rqst { rq_rcv_buf : xdr_buf; rq_ralign : Z (* cr_auth->au_ralign *) }.
#[export] Instance upd_rqst : Updatable rpc_rqst := fun r => mk_rqst (rq_rcv_buf r) (rq_ralign r).

Definition RPC_REPHDRSIZE := 4.

(** [rpc_prepare_reply_pages] (net/sunrpc/clnt.c) *)
Definition rpc_prepare_reply_pages (req : rpc_rqst) (pages base len hdrsize : Z) : rpc_rqst :=
  let hdrsize := hdrsize + RPC_REPHDRSIZE + rq_ralign req in
  req <| rq_rcv_buf := xdr_inline_pages (rq_rcv_buf req) (u32 (Z.shiftl hdrsize 2)) pages base len |>.

(** ** Encoding *)

Section Encode.
  Context {S : Type} `{XO : XdrOut S} `{KE : KEnv}.

Definition encode_uint32 (value : Z) : enc S := xdr_put 4 (be32 value).

Definition encode_filename3 (name : list byte) : enc S :=
  xdr_put (4 + zlen name) (xdr_encode_opaque name (zlen name)).

Definition encode_nfspath3 (pages length : Z) : enc S :=
  encode_uint32 length >> xdr_write_pages pages 0 length.

Definition encode_createverf3 (verifier : list byte) : enc S :=
  xdr_put NFS3_CREATEVERFSIZE (ztake NFS3_CREATEVERFSIZE verifier).

Definition encode_ftype3 (type : Z) : enc S := encode_uint32 type.

Definition encode_specdata3 (rdev : Z) : enc S :=
  xdr_put 8 (be32 (MAJOR rdev) ++ be32 (MINOR rdev)).

Definition encode_nfs_fh3 (fh : nfs_fh) : enc S :=
  xdr_put (4 + zlen fh) (xdr_encode_opaque fh (zlen fh)).

Definition xdr_encode_nfstime3 (timep : timespec64) : list byte :=
  be32 (u32 (tv_sec timep)) ++ be32 (tv_nsec timep).

Definition encode_sattr3 (attr : iattr) (userns : user_namespace) : enc S :=
  let valid := has (ia_valid attr) in
  let nbytes := 6 * 4 in
  let nbytes := if valid ATTR_MODE then nbytes + 4 else nbytes in
  let nbytes := if valid ATTR_UID then nbytes + 4 else nbytes in
  let nbytes := if valid ATTR_GID then nbytes + 4 else nbytes in
  let nbytes := if valid ATTR_SIZE then nbytes + 8 else nbytes in
  let nbytes := if valid ATTR_ATIME_SET then nbytes + 8 else nbytes in
  let nbytes := if valid ATTR_MTIME_SET then nbytes + 8 else nbytes in
  xdr_put nbytes
    ((if valid ATTR_MODE then be32 1 ++ be32 (Z.land (ia_mode attr) S_IALLUGO) else be32 0) ++
     (if valid ATTR_UID then be32 1 ++ be32 (from_kuid_munged userns (ia_uid attr)) else be32 0) ++
     (if valid ATTR_GID then be32 1 ++ be32 (from_kgid_munged userns (ia_gid attr)) else be32 0) ++
     (if valid ATTR_SIZE then be32 1 ++ be64 (ia_size attr) else be32 0) ++
     (if valid ATTR_ATIME_SET then be32 2 ++ xdr_encode_nfstime3 (ia_atime attr)
      else if valid ATTR_ATIME then be32 1 else be32 0) ++
     (if valid ATTR_MTIME_SET then be32 2 ++ xdr_encode_nfstime3 (ia_mtime attr)
      else if valid ATTR_MTIME then be32 1 else be32 0)).

Definition encode_diropargs3 (fh : nfs_fh) (name : list byte) : enc S :=
  encode_nfs_fh3 fh >> encode_filename3 name.

Definition nfs3_xdr_enc_getattr3args (fh : nfs_fh) : enc S := encode_nfs_fh3 fh.

Definition encode_sattrguard3 (args : nfs3_sattrargs) : enc S :=
  if negb (sa_guard args =? 0) then xdr_put (4 + 8) (be32 1 ++ xdr_encode_nfstime3 (sa_guardtime args))
  else xdr_put 4 (be32 0).

Definition nfs3_xdr_enc_setattr3args (userns : user_namespace) (args : nfs3_sattrargs) : enc S :=
  encode_nfs_fh3 (sa_fh args) >> encode_sattr3 (sa_sattr args) userns >> encode_sattrguard3 args.

Definition nfs3_xdr_enc_lookup3args (args : nfs3_diropargs) : enc S :=
  encode_diropargs3 (da_fh args) (da_name args).

Definition encode_access3args (args : nfs3_accessargs) : enc S :=
  encode_nfs_fh3 (aa_fh args) >> encode_uint32 (aa_access args).

Definition nfs3_xdr_enc_access3args (args : nfs3_accessargs) : enc S := encode_access3args args.

Definition nfs3_xdr_enc_readlink3args (args : nfs3_readlinkargs) (req : rpc_rqst) (s : S)
    : option S * rpc_rqst :=
  (encode_nfs_fh3 (rl_fh args) s,
   rpc_prepare_reply_pages req (rl_pages args) (rl_pgbase args) (rl_pglen args)
     (NFS3_readlinkres_sz - NFS3_pagepad_sz)).

Definition encode_read3args (args : nfs_pgio_args) : enc S :=
  encode_nfs_fh3 (pg_fh args) >>
  xdr_put (8 + 4) (be64 (pg_offset args) ++ be32 (pg_count args)).

Definition nfs3_xdr_enc_read3args (args : nfs_pgio_args) (req : rpc_rqst) (s : S)
    : option S * rpc_rqst :=
  let replen := if negb (pg_replen args =? 0) then pg_replen args
                else NFS3_readres_sz - NFS3_pagepad_sz in
  let req' := rpc_prepare_reply_pages req (pg_pages args) (pg_pgbase args) (pg_count args) replen in
  (encode_read3args args s,
   req' <| rq_rcv_buf := (rq_rcv_buf req') <| flags := Z.lor (flags (rq_rcv_buf req')) XDRBUF_READ |> |>).

Definition encode_write3args (args : nfs_pgio_args) : enc S :=
  encode_nfs_fh3 (pg_fh args) >>
  xdr_put (8 + 4 + 4 + 4)
    (be64 (pg_offset args) ++ be32 (pg_count args) ++ be32 (pg_stable args) ++ be32 (pg_count args)) >>
  xdr_write_pages (pg_pages args) (pg_pgbase args) (pg_count args).

Definition nfs3_xdr_enc_write3args (args : nfs_pgio_args) : enc S :=
  encode_write3args args >> (fun s => Some (xdr_or_flags XDRBUF_WRITE s)).

(** [BUG()] on a createmode outside the enumeration is [efail]. *)
Definition encode_createhow3 (args : nfs3_createargs) (userns : user_namespace) : enc S :=
  encode_uint32 (ca_createmode args) >>
  (if (ca_createmode args =? NFS3_CREATE_UNCHECKED) || (ca_createmode args =? NFS3_CREATE_GUARDED)
   then encode_sattr3 (ca_sattr args) userns
   else if ca_createmode args =? NFS3_CREATE_EXCLUSIVE then encode_createverf3 (ca_verifier args)
   else efail).

Definition nfs3_xdr_enc_create3args (userns : user_namespace) (args : nfs3_createargs) : enc S :=
  encode_diropargs3 (ca_fh args) (ca_name args) >> encode_createhow3 args userns.

Definition nfs3_xdr_enc_mkdir3args (userns : user_namespace) (args : nfs3_mkdirargs) : enc S :=
  encode_diropargs3 (mk_fh args) (mk_name args) >> encode_sattr3 (mk_sattr args) userns.

Definition encode_symlinkdata3 (args : nfs3_symlinkargs) (userns : user_namespace) : enc S :=
  encode_sattr3 (sy_sattr args) userns >> encode_nfspath3 (sy_pages args) (sy_pathlen args).

Definition nfs3_xdr_enc_symlink3args (userns : user_namespace) (args : nfs3_symlinkargs) : enc S :=
  encode_diropargs3 (sy_fromfh args) (sy_fromname args) >> encode_symlinkdata3 args userns >>
  (fun s => Some (xdr_or_flags XDRBUF_WRITE s)).

Definition encode_devicedata3 (args : nfs3_mknodargs) (userns : user_namespace) : enc S :=
  encode_sattr3 (mn_sattr args) userns >> encode_specdata3 (mn_rdev args).

Definition encode_mknoddata3 (args : nfs3_mknodargs) (userns : user_namespace) : enc S :=
  encode_ftype3 (mn_type args) >>
  (if (mn_type args =? NF3CHR) || (mn_type args =? NF3BLK) then encode_devicedata3 args userns
   else if (mn_type args =? NF3SOCK) || (mn_type args =? NF3FIFO)
   then encode_sattr3 (mn_sattr args) userns
   else if (mn_type args =? NF3REG) || (mn_type args =? NF3DIR) then enop
   else efail).

Definition nfs3_xdr_enc_mknod3args (userns : user_namespace) (args : nfs3_mknodargs) : enc S :=
  encode_diropargs3 (mn_fh args) (mn_name args) >> encode_mknoddata3 args userns.

Definition nfs3_xdr_enc_remove3args (args : nfs3_diropargs) : enc S :=
  encode_diropargs3 (da_fh args) (da_name args).

Definition nfs3_xdr_enc_rename3args (args : nfs_renameargs) : enc S :=
  encode_diropargs3 (ra_old_dir args) (ra_old_name args) >>
  encode_diropargs3 (ra_new_dir args) (ra_new_name args).

Definition nfs3_xdr_enc_link3args (args : nfs3_linkargs) : enc S :=
  encode_nfs_fh3 (la_fromfh args) >> encode_diropargs3 (la_tofh args) (la_toname args).

Definition encode_readdir3args (args : nfs3_readdirargs) : enc S :=
  encode_nfs_fh3 (rd_fh args) >>
  xdr_put (8 + NFS3_COOKIEVERFSIZE + 4)
    (be64 (rd_cookie args) ++ ztake NFS3_COOKIEVERFSIZE (rd_verf args) ++ be32 (rd_count args)).

Definition nfs3_xdr_enc_readdir3args (args : nfs3_readdirargs) (req : rpc_rqst) (s : S)
    : option S * rpc_rqst :=
  (encode_readdir3args args s,
   rpc_prepare_reply_pages req (rd_pages args) 0 (rd_count args) (NFS3_readdirres_sz - NFS3_pagepad_sz)).

Definition encode_readdirplus3args (args : nfs3_readdirargs) : enc S :=
  encode_nfs_fh3 (rd_fh args) >>
  xdr_put (8 + NFS3_COOKIEVERFSIZE + 4 + 4)
    (be64 (rd_cookie args) ++ ztake NFS3_COOKIEVERFSIZE (rd_verf args) ++
     be32 (Z.shiftr (rd_count args) 3) ++ be32 (rd_count args)).

Definition nfs3_xdr_enc_readdirplus3args (args : nfs3_readdirargs) (req : rpc_rqst) (s : S)
    : option S * rpc_rqst :=
  (encode_readdirplus3args args s,
   rpc_prepare_reply_pages req (rd_pages args) 0 (rd_count args) (NFS3_readdirres_sz - NFS3_pagepad_sz)).

Definition encode_commit3args (args : nfs_commitargs) : enc S :=
  encode_nfs_fh3 (cm_fh args) >>
  xdr_put (8 + 4) (be64 (cm_offset args) ++ be32 (cm_count args)).

Definition nfs3_xdr_enc_commit3args (args : nfs_commitargs) : enc S := encode_commit3args args.

End Encode.

(** ** nfs3_stat_to_errno *)

Definition nfs_errtbl : list (Z * Z) := [
  (NFS_OK, 0);
  (NFSERR_PERM, - EPERM);
  (NFSERR_NOENT, - ENOENT);
  (NFSERR_IO, - EIO);
  (NFSERR_NXIO, - ENXIO);
  (NFSERR_ACCES, - EACCES);
  (NFSERR_EXIST, - EEXIST);
  (NFSERR_XDEV, - EXDEV);
  (NFSERR_NODEV, - ENODEV);
  (NFSERR_NOTDIR, - ENOTDIR);
  (NFSERR_ISDIR, - EISDIR);
  (NFSERR_INVAL, - EINVAL);
  (NFSERR_FBIG, - EFBIG);
  (NFSERR_NOSPC, - ENOSPC);
  (NFSERR_ROFS, - EROFS);
  (NFSERR_MLINK, - EMLINK);
  (NFSERR_NAMETOOLONG, - ENAMETOOLONG);
  (NFSERR_NOTEMPTY, - ENOTEMPTY);
  (NFSERR_DQUOT, - EDQUOT);
  (NFSERR_STALE, - ESTALE);
  (NFSERR_REMOTE, - EREMOTE);
  (NFSERR_BADHANDLE, - EBADHANDLE);
  (NFSERR_NOT_SYNC, - ENOTSYNC);
  (NFSERR_BAD_COOKIE, - EBADCOOKIE);
  (NFSERR_NOTSUPP, - ENOTSUPP);
  (NFSERR_TOOSMALL, - ETOOSMALL);
  (NFSERR_SERVERFAULT, - EREMOTEIO);
  (NFSERR_BADTYPE, - EBADTYPE);
  (NFSERR_JUKEBOX, - EJUKEBOX);
  (- 1, - EIO)
].

(** The loop over the table; the entry with [stat = -1] ends it.  [status] is
    compared as an [int]. *)
Fixpoint errtbl_scan (tbl : list (Z * Z)) (status : Z) : Z :=
  match tbl with
  | [] => - EIO
  | (st, er) :: tbl' =>
      if st =? - 1 then er
      else if st =? s32 status then er
      else errtbl_scan tbl' status
  end.

Definition nfs3_stat_to_errno (status : Z) : Z := errtbl_scan nfs_errtbl status.

(** ** Decoding *)

(** [nfs_type2fmt], indexed by [enum nfs3_ftype] *)
Definition nfs_type2fmt (type : Z) : Z :=
  if type =? NF3REG then S_IFREG
  else if type =? NF3DIR then S_IFDIR
  else if type =? NF3BLK then S_IFBLK
  else if type =? NF3CHR then S_IFCHR
  else if type =? NF3LNK then S_IFLNK
  else if type =? NF3SOCK then S_IFSOCK
  else if type =? NF3FIFO then S_IFIFO
  else 0.

(** Functions of the form [p = f(p, &v)]: the value and the advanced pointer. *)
Definition xdr_decode_ftype3 (p : list byte) : Z * list byte :=
  let type := be32_to_cpu p in
  let type := if NF3FIFO <? type then NF3NON else type in
  (nfs_type2fmt type, drop 4 p).

Definition be32_next (p : list byte) : Z * list byte := (be32_to_cpu p, drop 4 p).
Definition xdr_decode_hyper (p : list byte) : Z * list byte := (be64_to_cpu p, drop 8 p).
Definition xdr_decode_size3 (p : list byte) : Z * list byte := xdr_decode_hyper p.
Definition xdr_decode_fileid3 (p : list byte) : Z * list byte := xdr_decode_hyper p.

Definition xdr_decode_nfstime3 (p : list byte) : timespec64 * list byte :=
  let '(sec, p) := be32_next p in
  let '(nsec, p) := be32_next p in
  (mk_time sec nsec, p).

(** fs/nfs/internal.h *)
Definition nfs_timespec_to_change_attr (ts : timespec64) : Z :=
  u64 (Z.shiftl (u64 (tv_sec ts)) 30 + tv_nsec ts).

Definition nfs_umode_to_dtype (mode : Z) : Z := Z.land (Z.shiftr mode 12) 15.

Section Decode.
  Context {S : Type} `{XI : XdrIn S} `{KE : KEnv}.

Definition xdr_decode_specdata3 (p : list byte) : Z * list byte :=
  let '(major, p) := be32_next p in
  let '(minor, p) := be32_next p in
  let rdev := MKDEV major minor in
  (if negb (MAJOR rdev =? major) || negb (MINOR rdev =? minor) then 0 else rdev, p).

Definition decode_uint32 : dec S Z := p <- inline_or 4 (- EIO);; dret (be32_to_cpu p).
Definition decode_uint64 : dec S Z := p <- inline_or 8 (- EIO);; dret (be64_to_cpu p).
Definition decode_fileid3 : dec S Z := decode_uint64.
Definition decode_cookie3 : dec S Z := decode_uint64.

Definition decode_inline_filename3 : dec S (list byte) :=
  p <- inline_or 4 (- EIO);;
  let count := be32_to_cpu p in
  if NFS3_MAXNAMLEN <? count then dfail (- ENAMETOOLONG) else
  p <- inline_or count (- EIO);;
  dret (ztake count p).

Definition decode_writeverf3 : dec S (list byte) := inline_or NFS3_WRITEVERFSIZE (- EIO).

Definition decode_nfsstat3 : dec S Z :=
  p <- inline_or 4 (- EIO);;
  if be32_to_cpu p =? NFS_OK then dret 0 else dret (be32_to_cpu p).

Definition decode_nfs_fh3 : dec S nfs_fh :=
  p <- inline_or 4 (- EIO);;
  let length := be32_to_cpu p in
  if (NFS3_FHSIZE <? length) || (length =? 0) then dfail (- E2BIG) else
  p <- inline_or length (- EIO);;
  dret (ztake length p).

Definition zero_nfs_fh3 : nfs_fh := [].

Definition decode_fattr3 (fattr : nfs_fattr) (userns : user_namespace) : dec S nfs_fattr :=
  p <- inline_or (Z.shiftl NFS3_fattr_sz 2) (- EIO);;
  let '(fmode, p) := xdr_decode_ftype3 p in
  let '(m, p) := be32_next p in
  let mode := u16 (Z.lor (Z.land m (Z.lnot S_IFMT)) fmode) in
  let '(nlink, p) := be32_next p in
  let '(u, p) := be32_next p in
  let uid := make_kuid userns u in
  if negb (uid_valid uid) then dfail (- EINVAL) else
  let '(g, p) := be32_next p in
  let gid := make_kgid userns g in
  if negb (gid_valid gid) then dfail (- EINVAL) else
  let '(size, p) := xdr_decode_size3 p in
  let '(used, p) := xdr_decode_size3 p in
  let '(rdev, p) := xdr_decode_specdata3 p in
  let '(fsid, p) := xdr_decode_hyper p in
  let '(fileid, p) := xdr_decode_fileid3 p in
  let '(atime, p) := xdr_decode_nfstime3 p in
  let '(mtime, p) := xdr_decode_nfstime3 p in
  let '(ctime, p) := xdr_decode_nfstime3 p in
  dret {| fa_valid := Z.lor (fa_valid fattr) NFS_ATTR_FATTR_V3;
          fa_mode := mode; fa_nlink := nlink; fa_uid := uid; fa_gid := gid; fa_rdev := rdev;
          fa_size := size; fa_used := used; fa_fsid_major := fsid; fa_fsid_minor := 0;
          fa_fileid := fileid; fa_mounted_on_fileid := fa_mounted_on_fileid fattr;
          fa_atime := atime; fa_mtime := mtime; fa_ctime := ctime;
          fa_change_attr := nfs_timespec_to_change_attr ctime;
          fa_pre_change_attr := fa_pre_change_attr fattr; fa_pre_size := fa_pre_size fattr;
          fa_pre_mtime := fa_pre_mtime fattr; fa_pre_ctime := fa_pre_ctime fattr |}.

Definition decode_post_op_attr (fattr : nfs_fattr) (userns : user_namespace) : dec S nfs_fattr :=
  p <- inline_or 4 (- EIO);;
  if negb (be32_to_cpu p =? 0) then decode_fattr3 fattr userns else dret fattr.

Definition decode_wcc_attr (fattr : nfs_fattr) : dec S nfs_fattr :=
  p <- inline_or (Z.shiftl NFS3_wcc_attr_sz 2) (- EIO);;
  let '(size, p) := xdr_decode_size3 p in
  let '(mtime, p) := xdr_decode_nfstime3 p in
  let '(ctime, p) := xdr_decode_nfstime3 p in
  dret (fattr
    <| fa_valid := Z.lor (fa_valid fattr)
         (Z.lor (Z.lor (Z.lor NFS_ATTR_FATTR_PRESIZE NFS_ATTR_FATTR_PRECHANGE)
            NFS_ATTR_FATTR_PREMTIME) NFS_ATTR_FATTR_PRECTIME) |>
    <| fa_pre_size := size |> <| fa_pre_mtime := mtime |> <| fa_pre_ctime := ctime |>
    <| fa_pre_change_attr := nfs_timespec_to_change_attr ctime |>).

Definition decode_pre_op_attr (fattr : nfs_fattr) : dec S nfs_fattr :=
  p <- inline_or 4 (- EIO);;
  if negb (be32_to_cpu p =? 0) then decode_wcc_attr fattr else dret fattr.

Definition decode_wcc_data (fattr : nfs_fattr) (userns : user_namespace) : dec S nfs_fattr :=
  fattr <- decode_pre_op_attr fattr;; decode_post_op_attr fattr userns.

Definition decode_post_op_fh3 : dec S nfs_fh :=
  p <- inline_or 4 (- EIO);;
  if negb (be32_to_cpu p =? 0) then decode_nfs_fh3 else dret zero_nfs_fh3.

Definition nfs3_xdr_dec_getattr3res (userns : user_namespace) (result : nfs_fattr)
    : dec S (Z * nfs_fattr) :=
  status <- decode_nfsstat3;;
  if negb (status =? NFS_OK) then dret (nfs3_stat_to_errno status, result) else
  result <- decode_fattr3 result userns;;
  dret (0, result).

Definition nfs3_xdr_dec_setattr3res (userns : user_namespace) (result : nfs_fattr)
    : dec S (Z * nfs_fattr) :=
  status <- decode_nfsstat3;;
  result <- decode_wcc_data result userns;;
  if negb (status =? NFS_OK) then dret (nfs3_stat_to_errno status, result) else dret (0, result).

Definition nfs3_xdr_dec_lookup3res (userns : user_namespace) (result : nfs3_diropres)
    : dec S (Z * nfs3_diropres) :=
  status <- decode_nfsstat3;;
  if negb (status =? NFS_OK) then
    da <- decode_post_op_attr (dr_dir_attr result) userns;;
    dret (nfs3_stat_to_errno status, mk_diropres da (dr_fh result) (dr_fattr result))
  else
    fh <- decode_nfs_fh3;;
    fa <- decode_post_op_attr (dr_fattr result) userns;;
    da <- decode_post_op_attr (dr_dir_attr result) userns;;
    dret (0, mk_diropres da fh fa).

(** [result]: the attributes and the access mask. *)
Definition nfs3_xdr_dec_access3res (userns : user_namespace) (result : nfs_fattr * Z)
    : dec S (Z * (nfs_fattr * Z)) :=
  status <- decode_nfsstat3;;
  fa <- decode_post_op_attr (fst result) userns;;
  if negb (status =? NFS_OK) then dret (nfs3_stat_to_errno status, (fa, snd result)) else
  access <- decode_uint32;;
  dret (0, (fa, access)).

(** Returns the count, or -EIO on a stable_how outside the enumeration. *)
Definition decode_write3resok (result : nfs_writeres) : dec S (Z * nfs_writeres) :=
  p <- inline_or (4 + 4) (- EIO);;
  let '(count, p) := be32_next p in
  let '(committed, p) := be32_next p in
  let result := result <| wr_count := count |> <| wr_committed := committed |> in
  if NFS_FILE_SYNC <? committed then dfail (- EIO) else
  v <- or_return (- EIO) decode_writeverf3;;
  dret (s32 count, result <| wr_verifier := v |>).

Definition nfs3_xdr_dec_write3res (userns : user_namespace) (result : nfs_writeres)
    : dec S (Z * nfs_writeres) :=
  status <- decode_nfsstat3;;
  fa <- decode_wcc_data (wr_fattr result) userns;;
  let result := result <| wr_fattr := fa |> <| wr_op_status := status |> in
  if negb (status =? NFS_OK) then dret (nfs3_stat_to_errno status, result) else
  decode_write3resok result.

Definition decode_create3resok (result : nfs3_diropres) (userns : user_namespace)
    : dec S (Z * nfs3_diropres) :=
  fh <- decode_post_op_fh3;;
  fa <- decode_post_op_attr (dr_fattr result) userns;;
  let fa := if zlen fh =? 0 then fa <| fa_valid := 0 |> else fa in
  da <- decode_wcc_data (dr_dir_attr result) userns;;
  dret (0, mk_diropres da fh fa).

Definition nfs3_xdr_dec_create3res (userns : user_namespace) (result : nfs3_diropres)
    : dec S (Z * nfs3_diropres) :=
  status <- decode_nfsstat3;;
  if negb (status =? NFS_OK) then
    da <- decode_wcc_data (dr_dir_attr result) userns;;
    dret (nfs3_stat_to_errno status, mk_diropres da (dr_fh result) (dr_fattr result))
  else decode_create3resok result userns.

Definition nfs3_xdr_dec_remove3res (userns : user_namespace) (dir_attr : nfs_fattr)
    : dec S (Z * nfs_fattr) :=
  status <- decode_nfsstat3;;
  da <- decode_wcc_data dir_attr userns;;
  if negb (status =? NFS_OK) then dret (nfs3_stat_to_errno status, da) else dret (0, da).

Definition nfs3_xdr_dec_rename3res (userns : user_namespace) (result : nfs_fattr * nfs_fattr)
    : dec S (Z * (nfs_fattr * nfs_fattr)) :=
  status <- decode_nfsstat3;;
  old <- decode_wcc_data (fst result) userns;;
  new <- decode_wcc_data (snd result) userns;;
  if negb (status =? NFS_OK) then dret (nfs3_stat_to_errno status, (old, new))
  else dret (0, (old, new)).

(** [result]: the attributes of the file and of the directory. *)
Definition nfs3_xdr_dec_link3res (userns : user_namespace) (result : nfs_fattr * nfs_fattr)
    : dec S (Z * (nfs_fattr * nfs_fattr)) :=
  status <- decode_nfsstat3;;
  fa <- decode_post_op_attr (fst result) userns;;
  da <- decode_wcc_data (snd result) userns;;
  if negb (status =? NFS_OK) then dret (nfs3_stat_to_errno status, (fa, da))
  else dret (0, (fa, da)).

Definition decode_fsstat3resok (result : nfs_fsstat) : dec S (Z * nfs_fsstat) :=
  p <- inline_or (8 * 6 + 4) (- EIO);;
  let '(tbytes, p) := xdr_decode_size3 p in
  let '(fbytes, p) := xdr_decode_size3 p in
  let '(abytes, p) := xdr_decode_size3 p in
  let '(tfiles, p) := xdr_decode_size3 p in
  let '(ffiles, p) := xdr_decode_size3 p in
  let '(afiles, p) := xdr_decode_size3 p in
  dret (0, mk_fsstat (ft_fattr result) tbytes fbytes abytes tfiles ffiles afiles).

Definition nfs3_xdr_dec_fsstat3res (userns : user_namespace) (result : nfs_fsstat)
    : dec S (Z * nfs_fsstat) :=
  status <- decode_nfsstat3;;
  fa <- decode_post_op_attr (ft_fattr result) userns;;
  let result := mk_fsstat fa (ft_tbytes result) (ft_fbytes result) (ft_abytes result)
    (ft_tfiles result) (ft_ffiles result) (ft_afiles result) in
  if negb (status =? NFS_OK) then dret (nfs3_stat_to_errno status, result) else
  decode_fsstat3resok result.

Definition NFS4_CHANGE_TYPE_IS_UNDEFINED := 4.

Definition decode_fsinfo3resok (result : nfs_fsinfo) : dec S (Z * nfs_fsinfo) :=
  p <- inline_or (4 * 7 + 8 + 8 + 4) (- EIO);;
  let '(rtmax, p) := be32_next p in
  let '(rtpref, p) := be32_next p in
  let '(rtmult, p) := be32_next p in
  let '(wtmax, p) := be32_next p in
  let '(wtpref, p) := be32_next p in
  let '(wtmult, p) := be32_next p in
  let '(dtpref, p) := be32_next p in
  let '(maxfilesize, p) := xdr_decode_size3 p in
  let '(time_delta, p) := xdr_decode_nfstime3 p in
  dret (0, mk_fsinfo (fi_fattr result) rtmax rtpref rtmult wtmax wtpref wtmult dtpref maxfilesize
    time_delta 0 NFS4_CHANGE_TYPE_IS_UNDEFINED 0).

Definition nfs3_xdr_dec_fsinfo3res (userns : user_namespace) (result : nfs_fsinfo)
    : dec S (Z * nfs_fsinfo) :=
  status <- decode_nfsstat3;;
  fa <- decode_post_op_attr (fi_fattr result) userns;;
  let result := mk_fsinfo fa (fi_rtmax result) (fi_rtpref result) (fi_rtmult result)
    (fi_wtmax result) (fi_wtpref result) (fi_wtmult result) (fi_dtpref result)
    (fi_maxfilesize result) (fi_time_delta result) (fi_lease_time result)
    (fi_change_attr_type result) (fi_xattr_support result) in
  if negb (status =? NFS_OK) then dret (nfs3_stat_to_errno status, result) else
  decode_fsinfo3resok result.

Definition decode_pathconf3resok (result : nfs_pathconf) : dec S (Z * nfs_pathconf) :=
  p <- inline_or (4 * 6) (- EIO);;
  let '(max_link, p) := be32_next p in
  dret (0, mk_pathconf (pc_fattr result) max_link (be32_to_cpu p)).

Definition nfs3_xdr_dec_pathconf3res (userns : user_namespace) (result : nfs_pathconf)
    : dec S (Z * nfs_pathconf) :=
  status <- decode_nfsstat3;;
  fa <- decode_post_op_attr (pc_fattr result) userns;;
  let result := mk_pathconf fa (pc_max_link result) (pc_max_namelen result) in
  if negb (status =? NFS_OK) then dret (nfs3_stat_to_errno status, result) else
  decode_pathconf3resok result.

(** [nfs_commitres] has the fields of [nfs_writeres] but the count. *)
Definition nfs3_xdr_dec_commit3res (userns : user_namespace) (result : nfs_writeres)
    : dec S (Z * nfs_writeres) :=
  status <- decode_nfsstat3;;
  fa <- decode_wcc_data (wr_fattr result) userns;;
  let result := result <| wr_fattr := fa |> <| wr_op_status := status |> in
  if negb (status =? NFS_OK) then dret (nfs3_stat_to_errno status, result) else
  v <- decode_writeverf3;;
  dret (0, result <| wr_verifier := v |> <| wr_committed := NFS_FILE_SYNC |>).

Definition DT_UNKNOWN := 0.

(** [nfs3_decode_dirent].  The end-of-directory mark is reported as -EBADCOOKIE
    with [eof] set, so it is an [Ok] of that return value. *)
Definition nfs3_decode_dirent (userns : user_namespace) (entry : nfs_entry) (plus : bool)
    : dec S (Z * nfs_entry) :=
  p <- inline_or 4 (- EAGAIN);;
  if be32_to_cpu p =? 0 then
    p <- inline_or 4 (- EAGAIN);;
    if be32_to_cpu p =? 0 then dfail (- EAGAIN)
    else dret (- EBADCOOKIE, entry <| en_eof := 1 |>)
  else
  ino <- or_return (- EAGAIN) decode_fileid3;;
  name <- (fun s => match decode_inline_filename3 s with
           | (Err e, s) => (Err (if e =? - ENAMETOOLONG then - ENAMETOOLONG else - EAGAIN), s)
           | r => r
           end);;
  new_cookie <- or_return (- EAGAIN) decode_cookie3;;
  let entry := entry <| en_ino := ino |> <| en_name := name |> <| en_d_type := DT_UNKNOWN |> in
  entry <-
    (if plus then
       fa <- or_return (- EAGAIN) (decode_post_op_attr ((en_fattr entry) <| fa_valid := 0 |>) userns);;
       let d_type := if has (fa_valid fa) NFS_ATTR_FATTR_V3 then nfs_umode_to_dtype (fa_mode fa)
                     else en_d_type entry in
       let fa := if negb (fa_fileid fa =? ino) then
                   fa <| fa_mounted_on_fileid := ino |>
                      <| fa_valid := Z.lor (fa_valid fa) NFS_ATTR_FATTR_MOUNTED_ON_FILEID |>
                 else fa in
       p <- inline_or 4 (- EAGAIN);;
       fh <- (if negb (be32_to_cpu p =? 0) then or_return (- EAGAIN) decode_nfs_fh3
              else dret zero_nfs_fh3);;
       dret (entry <| en_fattr := fa |> <| en_d_type := d_type |> <| en_fh := fh |>)
     else dret entry);;
  dret (0, entry <| en_prev_cookie := en_cookie entry |> <| en_cookie := new_cookie |>).

End Decode.
