(* ===== verification/Nfs3Server.v ===== *)
(** * NFSv3 server codec

    [fs/nfsd/nfs3xdr.c]: the decoders of the call arguments (into argument
    structs that start out zeroed) and the encoders of the results, with the
    attribute sources they consult.  A decoder's [Err 0] is its [return false];
    an encoder's [None] is its [return false]: no buffer space. *)

From S2P Require Import Prelude Xdr XdrBuf Nfs3Types.

(** ** Argument decoding *)

Section Decode.
  Context {S : Type} `{XI : XdrIn S} `{KE : KEnv}.

(** [if (m < 0) return false;] *)
Definition or_false {A} (m : dec S A) : dec S A := or_return 0 m.

Definition svcxdr_decode_nfstime3 : dec S timespec64 :=
  p <- inline_or (XDR_UNIT * 2) 0;;
  dret (mk_time (be32_to_cpu p) (be32_to_cpu (drop 4 p))).

Definition svcxdr_decode_nfs_fh3 : dec S svc_fh :=
  size <- or_false xdr_stream_decode_u32;;
  if (size =? 0) || (NFS3_FHSIZE <? size) then dfail 0 else
  p <- inline_or size 0;;
  dret ((fh_init NFS3_FHSIZE) <| fh_handle := ztake size p |>).

(** The scan for NUL and '/'. *)
Definition name_ok (name : list byte) : bool :=
  forallb (fun c => negb (bool_decide (c = x00) || bool_decide (c = x2f))) name.

Definition svcxdr_decode_filename3 : dec S (list byte) :=
  size <- or_false xdr_stream_decode_u32;;
  if (size =? 0) || (NFS3_MAXNAMLEN <? size) then dfail 0 else
  p <- inline_or size 0;;
  let name := ztake size p in
  if name_ok name then dret name else dfail 0.

Definition svcxdr_decode_diropargs3 : dec S (svc_fh * list byte) :=
  fh <- svcxdr_decode_nfs_fh3;; name <- svcxdr_decode_filename3;; dret (fh, name).

(** The two [switch (set_it)] statements: the validity bits they add and the
    time they store ([old] when none). *)
Definition decode_set_time (attr attr_set : Z) (old : timespec64) : dec S (Z * timespec64) :=
  set_it <- or_false xdr_stream_decode_u32;;
  if set_it =? DONT_CHANGE then dret (0, old)
  else if set_it =? SET_TO_SERVER_TIME then dret (attr, old)
  else if set_it =? SET_TO_CLIENT_TIME then
    t <- svcxdr_decode_nfstime3;; dret (Z.lor attr attr_set, t)
  else dfail 0.

Definition svcxdr_decode_sattr3 (userns : user_namespace) (iap : iattr) : dec S iattr :=
  let iap := iap <| ia_valid := 0 |> in
  set_it <- or_false xdr_stream_decode_bool;;
  iap <- (if negb (set_it =? 0) then
            mode <- or_false xdr_stream_decode_u32;;
            dret (iap <| ia_valid := Z.lor (ia_valid iap) ATTR_MODE |> <| ia_mode := u16 mode |>)
          else dret iap);;
  set_it <- or_false xdr_stream_decode_bool;;
  iap <- (if negb (set_it =? 0) then
            uid <- or_false xdr_stream_decode_u32;;
            let iap := iap <| ia_uid := make_kuid userns uid |> in
            dret (if uid_valid (ia_uid iap)
                  then iap <| ia_valid := Z.lor (ia_valid iap) ATTR_UID |> else iap)
          else dret iap);;
  set_it <- or_false xdr_stream_decode_bool;;
  iap <- (if negb (set_it =? 0) then
            gid <- or_false xdr_stream_decode_u32;;
            let iap := iap <| ia_gid := make_kgid userns gid |> in
            dret (if gid_valid (ia_gid iap)
                  then iap <| ia_valid := Z.lor (ia_valid iap) ATTR_GID |> else iap)
          else dret iap);;
  set_it <- or_false xdr_stream_decode_bool;;
  iap <- (if negb (set_it =? 0) then
            newsize <- or_false xdr_stream_decode_u64;;
            dret (iap <| ia_valid := Z.lor (ia_valid iap) ATTR_SIZE |> <| ia_size := newsize |>)
          else dret iap);;
  ' (bits, atime) <- decode_set_time ATTR_ATIME ATTR_ATIME_SET (ia_atime iap);;
  let iap := iap <| ia_valid := Z.lor (ia_valid iap) bits |> <| ia_atime := atime |> in
  ' (bits, mtime) <- decode_set_time ATTR_MTIME ATTR_MTIME_SET (ia_mtime iap);;
  dret (iap <| ia_valid := Z.lor (ia_valid iap) bits |> <| ia_mtime := mtime |>).

(** [check_guard] and [guardtime]; only the seconds of the guard are kept. *)
Definition svcxdr_decode_sattrguard3 : dec S (Z * Z) :=
  check <- or_false xdr_stream_decode_bool;;
  if negb (check =? 0) then
    p <- inline_or (XDR_UNIT * 2) 0;; dret (1, be32_to_cpu p)
  else dret (0, 0).

Definition svcxdr_decode_specdata3 : dec S (Z * Z) :=
  p <- inline_or (XDR_UNIT * 2) 0;;
  dret (be32_to_cpu p, be32_to_cpu (drop 4 p)).

(** The attributes, then [major] and [minor]. *)
Definition svcxdr_decode_devicedata3 (userns : user_namespace) : dec S (iattr * (Z * Z)) :=
  attrs <- svcxdr_decode_sattr3 userns zero_iattr;;
  spec <- svcxdr_decode_specdata3;;
  dret (attrs, spec).

Definition nfs3svc_decode_fhandleargs : dec S svc_fh := svcxdr_decode_nfs_fh3.

Definition nfs3svc_decode_sattrargs (userns : user_namespace) : dec S nfsd3_sattrargs :=
  fh <- svcxdr_decode_nfs_fh3;;
  attrs <- svcxdr_decode_sattr3 userns zero_iattr;;
  ' (check_guard, guardtime) <- svcxdr_decode_sattrguard3;;
  dret {| vsa_fh := fh; vsa_attrs := attrs; vsa_check_guard := check_guard; vsa_guardtime := guardtime |}.

Definition nfs3svc_decode_diropargs : dec S nfsd3_diropargs :=
  ' (fh, name) <- svcxdr_decode_diropargs3;; dret {| vda_fh := fh; vda_name := name |}.

Definition nfs3svc_decode_accessargs : dec S nfsd3_accessargs :=
  fh <- svcxdr_decode_nfs_fh3;;
  access <- or_false xdr_stream_decode_u32;;
  dret {| vaa_fh := fh; vaa_access := access |}.

Definition nfs3svc_decode_readargs : dec S nfsd3_readargs :=
  fh <- svcxdr_decode_nfs_fh3;;
  offset <- or_false xdr_stream_decode_u64;;
  count <- or_false xdr_stream_decode_u32;;
  dret {| vra_fh := fh; vra_offset := offset; vra_count := count |}.

Definition nfs3svc_decode_createargs (userns : user_namespace) : dec S nfsd3_createargs :=
  ' (fh, name) <- svcxdr_decode_diropargs3;;
  createmode <- or_false xdr_stream_decode_u32;;
  if (createmode =? NFS3_CREATE_UNCHECKED) || (createmode =? NFS3_CREATE_GUARDED) then
    attrs <- svcxdr_decode_sattr3 userns zero_iattr;;
    dret {| vca_fh := fh; vca_name := name; vca_createmode := createmode; vca_attrs := attrs; vca_verf := [] |}
  else if createmode =? NFS3_CREATE_EXCLUSIVE then
    verf <- inline_or NFS3_CREATEVERFSIZE 0;;
    dret {| vca_fh := fh; vca_name := name; vca_createmode := createmode; vca_attrs := zero_iattr;
            vca_verf := verf |}
  else dfail 0.

Definition nfs3svc_decode_mkdirargs (userns : user_namespace) : dec S nfsd3_createargs :=
  ' (fh, name) <- svcxdr_decode_diropargs3;;
  attrs <- svcxdr_decode_sattr3 userns zero_iattr;;
  dret {| vca_fh := fh; vca_name := name; vca_createmode := 0; vca_attrs := attrs; vca_verf := [] |}.

Definition nfs3svc_decode_mknodargs (userns : user_namespace) : dec S nfsd3_mknodargs :=
  ' (fh, name) <- svcxdr_decode_diropargs3;;
  ftype <- or_false xdr_stream_decode_u32;;
  if (ftype =? NF3CHR) || (ftype =? NF3BLK) then
    ' (attrs, (major, minor)) <- svcxdr_decode_devicedata3 userns;;
    dret {| vmn_fh := fh; vmn_name := name; vmn_ftype := ftype; vmn_major := major; vmn_minor := minor;
            vmn_attrs := attrs |}
  else if (ftype =? NF3SOCK) || (ftype =? NF3FIFO) then
    attrs <- svcxdr_decode_sattr3 userns zero_iattr;;
    dret {| vmn_fh := fh; vmn_name := name; vmn_ftype := ftype; vmn_major := 0; vmn_minor := 0;
            vmn_attrs := attrs |}
  else if (ftype =? NF3REG) || (ftype =? NF3DIR) || (ftype =? NF3LNK) then
    dret {| vmn_fh := fh; vmn_name := name; vmn_ftype := ftype; vmn_major := 0; vmn_minor := 0;
            vmn_attrs := zero_iattr |}
  else dfail 0.

Definition nfs3svc_decode_renameargs : dec S nfsd3_renameargs :=
  ' (ffh, fname) <- svcxdr_decode_diropargs3;;
  ' (tfh, tname) <- svcxdr_decode_diropargs3;;
  dret {| vrn_ffh := ffh; vrn_fname := fname; vrn_tfh := tfh; vrn_tname := tname |}.

Definition nfs3svc_decode_linkargs : dec S nfsd3_linkargs :=
  ffh <- svcxdr_decode_nfs_fh3;;
  ' (tfh, tname) <- svcxdr_decode_diropargs3;;
  dret {| vla_ffh := ffh; vla_tfh := tfh; vla_tname := tname |}.

Definition nfs3svc_decode_readdirargs : dec S nfsd3_readdirargs :=
  fh <- svcxdr_decode_nfs_fh3;;
  cookie <- or_false xdr_stream_decode_u64;;
  verf <- inline_or NFS3_COOKIEVERFSIZE 0;;
  count <- or_false xdr_stream_decode_u32;;
  dret {| vrd_fh := fh; vrd_cookie := cookie; vrd_count := count; vrd_verf := verf |}.

Definition nfs3svc_decode_readdirplusargs : dec S nfsd3_readdirargs :=
  fh <- svcxdr_decode_nfs_fh3;;
  cookie <- or_false xdr_stream_decode_u64;;
  verf <- inline_or NFS3_COOKIEVERFSIZE 0;;
  _dircount <- or_false xdr_stream_decode_u32;;
  count <- or_false xdr_stream_decode_u32;;
  dret {| vrd_fh := fh; vrd_cookie := cookie; vrd_count := count; vrd_verf := verf |}.

Definition nfs3svc_decode_commitargs : dec S nfsd3_commitargs :=
  fh <- svcxdr_decode_nfs_fh3;;
  offset <- or_false xdr_stream_decode_u64;;
  count <- or_false xdr_stream_decode_u32;;
  dret {| vcm_fh := fh; vcm_offset := offset; vcm_count := count |}.

End Decode.

(** ** fsid_source (fs/nfsd/nfsfh.c) *)

Inductive fsid_src := FSIDSOURCE_DEV | FSIDSOURCE_FSID | FSIDSOURCE_UUID.

Definition NFSEXP_FSID := 0x2000.
Definition FSID_DEV := 0.
Definition FSID_NUM := 1.
Definition FSID_MAJOR_MINOR := 2.
Definition FSID_ENCODE_DEV := 3.

(** [fh_version] and [fh_fsid_type] are bytes 0 and 2 of a new-style handle. *)
Definition fh_version (fhp : svc_fh) : Z := Z_of_byte (nth 0 (fh_handle fhp) x00).
Definition fh_fsid_type (fhp : svc_fh) : Z := Z_of_byte (nth 2 (fh_handle fhp) x00).

Definition fsid_source (fhp : svc_fh) : fsid_src :=
  let exp := fh_export fhp in
  let fallback :=
    if has (ex_flags exp) NFSEXP_FSID then FSIDSOURCE_FSID
    else match ex_uuid exp with Some _ => FSIDSOURCE_UUID | None => FSIDSOURCE_DEV end in
  if negb (fh_version fhp =? 1) then FSIDSOURCE_DEV
  else if (fh_fsid_type fhp =? FSID_DEV) || (fh_fsid_type fhp =? FSID_ENCODE_DEV) ||
          (fh_fsid_type fhp =? FSID_MAJOR_MINOR) then
    (if ex_requires_dev exp then FSIDSOURCE_DEV else fallback)
  else if fh_fsid_type fhp =? FSID_NUM then
    (if has (ex_flags exp) NFSEXP_FSID then FSIDSOURCE_FSID else fallback)
  else fallback.

(** The two [u64] halves of the uuid, in host (little-endian) order. *)
Definition le64_to_cpu (p : list byte) : Z := be64_to_cpu (reverse (take 8 p)).

(** ** Result encoding *)

(** [nfs3_ftypes], indexed by [(mode & S_IFMT) >> 12] *)
Definition nfs3_ftypes : list Z :=
  [NF3NON; NF3FIFO; NF3CHR; NF3BAD; NF3DIR; NF3BAD; NF3BLK; NF3BAD;
   NF3REG; NF3BAD; NF3LNK; NF3BAD; NF3SOCK; NF3BAD; NF3LNK; NF3BAD].

Definition nfs3_ftype_of (mode : Z) : Z :=
  nth (Z.to_nat (Z.shiftr (Z.land mode S_IFMT) 12)) nfs3_ftypes 0.

Definition nfs3svc_null_fh : svc_fh := (fh_init 0) <| fh_no_wcc := true |>.
Definition nfs3svc_time_delta : timespec64 := mk_time 1 0.

Definition encode_nfstime3 (time : timespec64) : list byte :=
  be32 (u32 (tv_sec time)) ++ be32 (tv_nsec time).

Section Encode.
  Context {S : Type} `{XO : XdrOut S} `{KE : KEnv}.

Definition svcxdr_encode_nfsstat3 (status : Z) : enc S := xdr_put 4 (be32 status).

(** The last word is zeroed before the handle is copied over it. *)
Definition svcxdr_encode_nfs_fh3 (fhp : svc_fh) : enc S :=
  let size := zlen (fh_handle fhp) in
  let area := zrep (4 * XDR_QUADLEN size) in
  xdr_put (XDR_UNIT + size) (be32 size ++ zwrite 0 (fh_handle fhp) area).

Definition svcxdr_encode_post_op_fh3 (fhp : svc_fh) : enc S :=
  xdr_stream_encode_item_present >> svcxdr_encode_nfs_fh3 fhp.

Definition svcxdr_encode_cookieverf3 (verf : list byte) : enc S :=
  xdr_put NFS3_COOKIEVERFSIZE (ztake NFS3_COOKIEVERFSIZE verf).

Definition svcxdr_encode_writeverf3 (verf : list byte) : enc S :=
  xdr_put NFS3_WRITEVERFSIZE (ztake NFS3_WRITEVERFSIZE verf).

Definition fattr3_fsid (fhp : svc_fh) : Z :=
  match fsid_source fhp with
  | FSIDSOURCE_FSID => ex_fsid (fh_export fhp)
  | FSIDSOURCE_UUID =>
      let uuid := default [] (ex_uuid (fh_export fhp)) in
      Z.lxor (le64_to_cpu uuid) (le64_to_cpu (drop 8 uuid))
  | FSIDSOURCE_DEV => huge_encode_dev (fh_s_dev fhp)
  end.

Definition svcxdr_encode_fattr3 (userns : user_namespace) (fhp : svc_fh) (stat : kstat) : enc S :=
  xdr_put (XDR_UNIT * 21)
    (be32 (nfs3_ftype_of (ks_mode stat)) ++
     be32 (Z.land (ks_mode stat) S_IALLUGO) ++
     be32 (ks_nlink stat) ++
     be32 (from_kuid_munged userns (ks_uid stat)) ++
     be32 (from_kgid_munged userns (ks_gid stat)) ++
     (if S_ISLNK (ks_mode stat) && (NFS3_MAXPATHLEN <? ks_size stat)
      then be64 NFS3_MAXPATHLEN else be64 (ks_size stat)) ++
     be64 (u64 (Z.shiftl (ks_blocks stat) 9)) ++
     be32 (MAJOR (ks_rdev stat)) ++ be32 (MINOR (ks_rdev stat)) ++
     be64 (fattr3_fsid fhp) ++
     be64 (ks_ino stat) ++
     encode_nfstime3 (ks_atime stat) ++ encode_nfstime3 (ks_mtime stat) ++
     encode_nfstime3 (ks_ctime stat)).

Definition svcxdr_encode_wcc_attr (fhp : svc_fh) : enc S :=
  xdr_put (XDR_UNIT * 6)
    (be64 (fh_pre_size fhp) ++ encode_nfstime3 (fh_pre_mtime fhp) ++ encode_nfstime3 (fh_pre_ctime fhp)).

Definition svcxdr_encode_pre_op_attr (fhp : svc_fh) : enc S :=
  if negb (fh_pre_saved fhp) then xdr_stream_encode_item_absent
  else xdr_stream_encode_item_present >> svcxdr_encode_wcc_attr fhp.

(** [!dentry || !d_really_is_positive(dentry)] *)
Definition no_inode (fhp : svc_fh) : bool :=
  match fh_dentry fhp with Some d => negb (d_really_is_positive d) | None => true end.

(** The [mtime] of a write-delegated file comes from its lease. *)
Definition leased (fhp : svc_fh) (stat : kstat) : kstat :=
  match fh_dentry fhp with
  | Some d => stat <| ks_mtime := lease_get_mtime d (ks_mtime stat) |>
  | None => stat
  end.

Definition svcxdr_encode_post_op_attr (userns : user_namespace) (fhp : svc_fh) : enc S :=
  if fh_no_wcc fhp || no_inode fhp then xdr_stream_encode_item_absent
  else match fh_getattr fhp with
       | None => xdr_stream_encode_item_absent
       | Some stat => xdr_stream_encode_item_present >> svcxdr_encode_fattr3 userns fhp (leased fhp stat)
       end.

Definition svcxdr_encode_wcc_data (userns : user_namespace) (fhp : svc_fh) : enc S :=
  if no_inode fhp || negb (fh_post_saved fhp)
  then xdr_stream_encode_item_absent >> svcxdr_encode_post_op_attr userns fhp
  else svcxdr_encode_pre_op_attr fhp >> xdr_stream_encode_item_present >>
       svcxdr_encode_fattr3 userns fhp (fh_post_attr fhp).

Definition nfs3svc_encode_getattrres (userns : user_namespace) (resp : nfsd3_attrstat) : enc S :=
  svcxdr_encode_nfsstat3 (vas_status resp) >>
  (if vas_status resp =? NFS_OK
   then svcxdr_encode_fattr3 userns (vas_fh resp) (leased (vas_fh resp) (vas_stat resp)) else enop).

Definition nfs3svc_encode_wccstat (userns : user_namespace) (resp : nfsd3_attrstat) : enc S :=
  svcxdr_encode_nfsstat3 (vas_status resp) >> svcxdr_encode_wcc_data userns (vas_fh resp).

Definition nfs3svc_encode_lookupres (userns : user_namespace) (resp : nfsd3_diropres) : enc S :=
  svcxdr_encode_nfsstat3 (vdr_status resp) >>
  (if vdr_status resp =? NFS_OK
   then svcxdr_encode_nfs_fh3 (vdr_fh resp) >> svcxdr_encode_post_op_attr userns (vdr_fh resp) >>
        svcxdr_encode_post_op_attr userns (vdr_dirfh resp)
   else svcxdr_encode_post_op_attr userns (vdr_dirfh resp)).

Definition nfs3svc_encode_accessres (userns : user_namespace) (resp : nfsd3_accessres) : enc S :=
  svcxdr_encode_nfsstat3 (var_status resp) >>
  (if var_status resp =? NFS_OK
   then svcxdr_encode_post_op_attr userns (var_fh resp) >> xdr_stream_encode_u32 (var_access resp)
   else svcxdr_encode_post_op_attr userns (var_fh resp)).

Definition nfs3svc_encode_writeres (userns : user_namespace) (resp : nfsd3_writeres) : enc S :=
  svcxdr_encode_nfsstat3 (vwr_status resp) >>
  (if vwr_status resp =? NFS_OK
   then svcxdr_encode_wcc_data userns (vwr_fh resp) >> xdr_stream_encode_u32 (vwr_count resp) >>
        xdr_stream_encode_u32 (vwr_committed resp) >> svcxdr_encode_writeverf3 (vwr_verf resp)
   else svcxdr_encode_wcc_data userns (vwr_fh resp)).

Definition nfs3svc_encode_createres (userns : user_namespace) (resp : nfsd3_diropres) : enc S :=
  svcxdr_encode_nfsstat3 (vdr_status resp) >>
  (if vdr_status resp =? NFS_OK
   then svcxdr_encode_post_op_fh3 (vdr_fh resp) >> svcxdr_encode_post_op_attr userns (vdr_fh resp) >>
        svcxdr_encode_wcc_data userns (vdr_dirfh resp)
   else svcxdr_encode_wcc_data userns (vdr_dirfh resp)).

Definition nfs3svc_encode_renameres (userns : user_namespace) (resp : nfsd3_renameres) : enc S :=
  svcxdr_encode_nfsstat3 (vrr_status resp) >> svcxdr_encode_wcc_data userns (vrr_ffh resp) >>
  svcxdr_encode_wcc_data userns (vrr_tfh resp).

Definition nfs3svc_encode_linkres (userns : user_namespace) (resp : nfsd3_linkres) : enc S :=
  svcxdr_encode_nfsstat3 (vlr_status resp) >> svcxdr_encode_post_op_attr userns (vlr_fh resp) >>
  svcxdr_encode_wcc_data userns (vlr_tfh resp).

Definition svcxdr_encode_fsstat3resok (resp : nfsd3_fsstatres) : enc S :=
  let s := vfs_stats resp in
  let bs := u64 (f_bsize s) in
  xdr_put (XDR_UNIT * 13)
    (be64 (bs * f_blocks s) ++ be64 (bs * f_bfree s) ++ be64 (bs * f_bavail s) ++
     be64 (f_files s) ++ be64 (f_ffree s) ++ be64 (f_ffree s) ++ be32 (vfs_invarsec resp)).

Definition nfs3svc_encode_fsstatres (userns : user_namespace) (resp : nfsd3_fsstatres) : enc S :=
  svcxdr_encode_nfsstat3 (vfs_status resp) >>
  (if vfs_status resp =? NFS_OK
   then svcxdr_encode_post_op_attr userns nfs3svc_null_fh >> svcxdr_encode_fsstat3resok resp
   else svcxdr_encode_post_op_attr userns nfs3svc_null_fh).

Definition svcxdr_encode_fsinfo3resok (resp : nfsd3_fsinfores) : enc S :=
  xdr_put (XDR_UNIT * 12)
    (be32 (f_rtmax resp) ++ be32 (f_rtpref resp) ++ be32 (f_rtmult resp) ++ be32 (f_wtmax resp) ++
     be32 (f_wtpref resp) ++ be32 (f_wtmult resp) ++ be32 (f_dtpref resp) ++
     be64 (f_maxfilesize resp) ++ encode_nfstime3 nfs3svc_time_delta ++ be32 (f_properties resp)).

Definition nfs3svc_encode_fsinfores (userns : user_namespace) (resp : nfsd3_fsinfores) : enc S :=
  svcxdr_encode_nfsstat3 (vfi_status resp) >>
  (if vfi_status resp =? NFS_OK
   then svcxdr_encode_post_op_attr userns nfs3svc_null_fh >> svcxdr_encode_fsinfo3resok resp
   else svcxdr_encode_post_op_attr userns nfs3svc_null_fh).

Definition svcxdr_encode_pathconf3resok (resp : nfsd3_pathconfres) : enc S :=
  xdr_put (XDR_UNIT * 6)
    (be32 (p_link_max resp) ++ be32 (p_name_max resp) ++ xdr_encode_bool (p_no_trunc resp) ++
     xdr_encode_bool (p_chown_restricted resp) ++ xdr_encode_bool (p_case_insensitive resp) ++
     xdr_encode_bool (p_case_preserving resp)).

Definition nfs3svc_encode_pathconfres (userns : user_namespace) (resp : nfsd3_pathconfres) : enc S :=
  svcxdr_encode_nfsstat3 (vpc_status resp) >>
  (if vpc_status resp =? NFS_OK
   then svcxdr_encode_post_op_attr userns nfs3svc_null_fh >> svcxdr_encode_pathconf3resok resp
   else svcxdr_encode_post_op_attr userns nfs3svc_null_fh).

Definition nfs3svc_encode_commitres (userns : user_namespace) (resp : nfsd3_commitres) : enc S :=
  svcxdr_encode_nfsstat3 (vcr_status resp) >>
  (if vcr_status resp =? NFS_OK
   then svcxdr_encode_wcc_data userns (vcr_fh resp) >> svcxdr_encode_writeverf3 (vcr_verf resp)
   else svcxdr_encode_wcc_data userns (vcr_fh resp)).

End Encode.
