(* ===== verification/Nfs3Wire.v ===== *)
(** * NFSv3 on the wire: the two codecs agree

    The XDR types of RFC 1813 as an abstract specification ([sattr3],
    [fattr3], ... with their byte form), and the proofs that the client and
    the server implement it: what one side's encoder writes is what the
    specification says, and the other side's decoder reads it back.  The end
    of the file states, per procedure, that a call (a reply) encoded by one
    side is decoded by the other to the values it was made from. *)

From S2P Require Import Prelude Xdr XdrSpec XdrBuf XdrDecode XdrEncode Nfs3Types Nfs3Client Nfs3Server.

(** ** The XDR types of RFC 1813 *)

(** [union switch (bool) { case TRUE: A; case FALSE: void; }] *)
Definition w_opt {A} (w : A -> list byte) (o : option A) : list byte :=
  match o with Some a => be32 1 ++ w a | None => be32 0 end.

Definition w_nfstime3 (t : timespec64) : list byte := be32 (tv_sec t) ++ be32 (tv_nsec t).

Inductive set_time := DontChange | SetToServerTime | SetToClientTime (t : timespec64).
Definition w_set_time (s : set_time) : list byte :=
  match s with
  | DontChange => be32 DONT_CHANGE
  | SetToServerTime => be32 SET_TO_SERVER_TIME
  | SetToClientTime t => be32 SET_TO_CLIENT_TIME ++ w_nfstime3 t
  end.

Record sattr3 := {
  s3_mode : option Z; s3_uid : option Z; s3_gid : option Z; s3_size : option Z;
  s3_atime : set_time; s3_mtime : set_time;
}.

Definition w_sattr3 (s : sattr3) : list byte :=
  w_opt be32 (s3_mode s) ++ w_opt be32 (s3_uid s) ++ w_opt be32 (s3_gid s) ++
  w_opt be64 (s3_size s) ++ w_set_time (s3_atime s) ++ w_set_time (s3_mtime s).

Record fattr3 := {
  f3_type : Z; f3_mode : Z; f3_nlink : Z; f3_uid : Z; f3_gid : Z; f3_size : Z; f3_used : Z;
  f3_rdev1 : Z; f3_rdev2 : Z; f3_fsid : Z; f3_fileid : Z;
  f3_atime : timespec64; f3_mtime : timespec64; f3_ctime : timespec64;
}.

Definition w_fattr3 (a : fattr3) : list byte :=
  be32 (f3_type a) ++ be32 (f3_mode a) ++ be32 (f3_nlink a) ++ be32 (f3_uid a) ++ be32 (f3_gid a) ++
  be64 (f3_size a) ++ be64 (f3_used a) ++ be32 (f3_rdev1 a) ++ be32 (f3_rdev2 a) ++
  be64 (f3_fsid a) ++ be64 (f3_fileid a) ++
  w_nfstime3 (f3_atime a) ++ w_nfstime3 (f3_mtime a) ++ w_nfstime3 (f3_ctime a).

Record wcc_attr := { wa_size : Z; wa_mtime : timespec64; wa_ctime : timespec64 }.
Definition w_wcc_attr (a : wcc_attr) : list byte :=
  be64 (wa_size a) ++ w_nfstime3 (wa_mtime a) ++ w_nfstime3 (wa_ctime a).

Definition w_wcc_data (d : option wcc_attr * option fattr3) : list byte :=
  w_opt w_wcc_attr (fst d) ++ w_opt w_fattr3 (snd d).

(** ** Calls: what the client writes *)

(** The [sattr3] an [iattr] stands for. *)
Definition time_of (attr : iattr) (set any : Z) (t : timespec64) : set_time :=
  if has (ia_valid attr) set then SetToClientTime (mk_time (u32 (tv_sec t)) (tv_nsec t))
  else if has (ia_valid attr) any then SetToServerTime else DontChange.

Definition when {A} (b : bool) (a : A) : option A := if b then Some a else None.

Definition client_sattr (attr : iattr) (ns : user_namespace) : sattr3 := {|
  s3_mode := when (has (ia_valid attr) ATTR_MODE) (Z.land (ia_mode attr) S_IALLUGO);
  s3_uid := when (has (ia_valid attr) ATTR_UID) (from_kuid_munged ns (ia_uid attr));
  s3_gid := when (has (ia_valid attr) ATTR_GID) (from_kgid_munged ns (ia_gid attr));
  s3_size := when (has (ia_valid attr) ATTR_SIZE) (ia_size attr);
  s3_atime := time_of attr ATTR_ATIME_SET ATTR_ATIME (ia_atime attr);
  s3_mtime := time_of attr ATTR_MTIME_SET ATTR_MTIME (ia_mtime attr);
|}.

Section ClientCalls.
  Context {S : Type} `{XO : XdrOut S} {XL : @XdrOutLaws S XO} `{KE : KEnv}.

Lemma encodes_nfs_fh3 fh : zlen fh <= NFS3_FHSIZE -> encodes (encode_nfs_fh3 fh) (w_opaque fh).
Proof. unfold NFS3_FHSIZE. intros. apply encodes_put_opaque. lia. Qed.

Lemma encodes_filename3 name :
  zlen name <= NFS3_MAXNAMLEN -> encodes (encode_filename3 name) (w_opaque name).
Proof. unfold NFS3_MAXNAMLEN. intros. apply encodes_put_opaque. lia. Qed.

Lemma encodes_diropargs3 fh name :
  zlen fh <= NFS3_FHSIZE -> zlen name <= NFS3_MAXNAMLEN ->
  encodes (encode_diropargs3 fh name) (w_opaque fh ++ w_opaque name).
Proof. intros. apply encodes_seq; [by apply encodes_nfs_fh3|by apply encodes_filename3]. Qed.

(** The single reservation of [encode_sattr3] is exactly what the pieces take. *)
Lemma encodes_sattr3 attr ns : encodes (encode_sattr3 attr ns) (w_sattr3 (client_sattr attr ns)).
Proof.
  unfold encode_sattr3, w_sattr3, client_sattr, time_of, w_opt, when. simpl.
  destruct (has (ia_valid attr) ATTR_MODE), (has (ia_valid attr) ATTR_UID),
    (has (ia_valid attr) ATTR_GID), (has (ia_valid attr) ATTR_SIZE),
    (has (ia_valid attr) ATTR_ATIME_SET), (has (ia_valid attr) ATTR_MTIME_SET);
  try destruct (has (ia_valid attr) ATTR_ATIME); try destruct (has (ia_valid attr) ATTR_MTIME);
  (apply encodes_put; [lia|reflexivity]).
Qed.

Lemma encodes_uint32 v : encodes (encode_uint32 v) (be32 v).
Proof. by apply encodes_put. Qed.

Lemma encodes_verf8 v : zlen v = 8 -> encodes (xdr_put 8 (ztake 8 v)) v.
Proof. intros. rewrite ztake_all by lia. by apply encodes_put. Qed.

End ClientCalls.

#[export] Hint Resolve encodes_nfs_fh3 encodes_filename3 encodes_diropargs3 encodes_sattr3
  encodes_uint32 encodes_verf8 : xdr.

(** ** Calls: what the server reads *)

(** The [iattr] the server builds from a [sattr3]. *)
Definition set_time_bits (s : set_time) (any set : Z) : Z :=
  match s with DontChange => 0 | SetToServerTime => any | SetToClientTime _ => Z.lor any set end.
Definition set_time_val (s : set_time) (old : timespec64) : timespec64 :=
  match s with SetToClientTime t => mk_time (u32 (tv_sec t)) (u32 (tv_nsec t)) | _ => old end.

Section ServerCalls.
  Context {S : Type} `{XI : XdrIn S} {XL : @XdrInLaws S XI} `{KE : KEnv}.

Definition server_iattr (ns : user_namespace) (s : sattr3) : iattr :=
  let uid := match s3_uid s with Some u => make_kuid ns (u32 u) | None => 0 end in
  let gid := match s3_gid s with Some g => make_kgid ns (u32 g) | None => 0 end in
  {| ia_valid :=
       Z.lor (Z.lor (Z.lor (Z.lor (Z.lor (match s3_mode s with Some _ => ATTR_MODE | None => 0 end)
         (match s3_uid s with Some _ => if uid_valid uid then ATTR_UID else 0 | None => 0 end))
         (match s3_gid s with Some _ => if gid_valid gid then ATTR_GID else 0 | None => 0 end))
         (match s3_size s with Some _ => ATTR_SIZE | None => 0 end))
         (set_time_bits (s3_atime s) ATTR_ATIME ATTR_ATIME_SET))
         (set_time_bits (s3_mtime s) ATTR_MTIME ATTR_MTIME_SET);
     ia_mode := match s3_mode s with Some m => u16 (u32 m) | None => 0 end;
     ia_uid := uid; ia_gid := gid;
     ia_size := match s3_size s with Some z => u64 z | None => 0 end;
     ia_atime := set_time_val (s3_atime s) zero_time;
     ia_mtime := set_time_val (s3_mtime s) zero_time |}.

Definition server_fh (h : list byte) : svc_fh := (fh_init NFS3_FHSIZE) <| fh_handle := h |>.

Lemma decodes_word v : decodes (or_false xdr_stream_decode_u32) (be32 v) (u32 v).
Proof.
  unfold or_false, xdr_stream_decode_u32. apply decodes_or_return, decodes_block; [done..|].
  rewrite <- (app_nil_r (be32 v)), be32_to_cpu_app. apply decodes_ret.
Qed.

Lemma decodes_word64 v : decodes (or_false xdr_stream_decode_u64) (be64 v) (u64 v).
Proof.
  unfold or_false, xdr_stream_decode_u64. apply decodes_or_return, decodes_block; [done..|].
  rewrite <- (app_nil_r (be64 v)), be64_to_cpu_app. apply decodes_ret.
Qed.

Lemma decodes_flag (b : bool) :
  decodes (or_false xdr_stream_decode_bool) (if b then be32 1 else be32 0) (if b then 1 else 0).
Proof. apply decodes_or_return. destruct b; [apply (decodes_bool 1)|apply (decodes_bool 0)]. Qed.

(** An optional item read into a struct, followed by the rest. *)
Lemma decodes_opt {A B C} (w : A -> list byte) (o : option A) (some : dec S B) (d : B)
    (k : B -> dec S C) (f : A -> B) rest (v : C) :
  (forall a, decodes some (w a) (f a)) -> decodes (k (from_option f d o)) rest v ->
  decodes (dbind (or_false xdr_stream_decode_bool)
    (fun set_it => dbind (if negb (set_it =? 0) then some else dret d) k)) (w_opt w o ++ rest) v.
Proof.
  intros Hs Hk. destruct o as [a|]; unfold w_opt.
  - rewrite <- app_assoc. eapply decodes_bind; [apply (decodes_flag true)|]. simpl.
    eapply decodes_bind; [apply Hs|done].
  - eapply decodes_bind; [apply (decodes_flag false)|]. simpl.
    rewrite <- (app_nil_l rest). eapply decodes_bind; [apply decodes_ret|done].
Qed.

Lemma decodes_svc_nfstime3 t :
  decodes svcxdr_decode_nfstime3 (w_nfstime3 t) (mk_time (u32 (tv_sec t)) (u32 (tv_nsec t))).
Proof.
  unfold svcxdr_decode_nfstime3, w_nfstime3. apply decodes_block; [done..|].
  rewrite be32_to_cpu_app, (drop_app_length' (be32 _)) by done.
  rewrite <- (app_nil_r (be32 (tv_nsec t))), be32_to_cpu_app. apply decodes_ret.
Qed.

Lemma decodes_set_time any set s old :
  decodes (decode_set_time any set old) (w_set_time s) (set_time_bits s any set, set_time_val s old).
Proof.
  unfold decode_set_time. destruct s; unfold w_set_time.
  - rewrite <- (app_nil_r (be32 _)). eapply decodes_bind; [apply decodes_word|]. apply decodes_ret.
  - rewrite <- (app_nil_r (be32 _)). eapply decodes_bind; [apply decodes_word|]. apply decodes_ret.
  - eapply decodes_bind; [apply decodes_word|]. simpl.
    rewrite <- (app_nil_r (w_nfstime3 t)). eapply decodes_bind; [apply decodes_svc_nfstime3|].
    apply decodes_ret.
Qed.

Lemma decodes_svc_sattr3 ns s :
  decodes (svcxdr_decode_sattr3 ns zero_iattr) (w_sattr3 s) (server_iattr ns s).
Proof.
  unfold svcxdr_decode_sattr3, w_sattr3.
  eapply decodes_opt.
  { intros m. rewrite <- (app_nil_r (be32 m)).
    eapply decodes_bind; [apply decodes_word|]. apply decodes_ret. }
  eapply decodes_opt.
  { intros u. rewrite <- (app_nil_r (be32 u)).
    eapply decodes_bind; [apply decodes_word|]. apply decodes_ret. }
  eapply decodes_opt.
  { intros g. rewrite <- (app_nil_r (be32 g)).
    eapply decodes_bind; [apply decodes_word|]. apply decodes_ret. }
  eapply decodes_opt.
  { intros z. rewrite <- (app_nil_r (be64 z)).
    eapply decodes_bind; [apply decodes_word64|]. apply decodes_ret. }
  eapply decodes_bind; [apply decodes_set_time|].
  rewrite <- (app_nil_r (w_set_time _)). eapply decodes_bind; [apply decodes_set_time|].
  cbv beta iota.
  match goal with |- decodes (dret ?x) [] ?y => assert (x = y) as ->; [|apply decodes_ret] end.
  unfold server_iattr. destruct s as [[m|] [u|] [g|] [z|] sa sm]; simpl;
    try case_match; try case_match; reflexivity.
Qed.

Lemma decodes_svc_fh3 h :
  0 < zlen h <= NFS3_FHSIZE -> decodes svcxdr_decode_nfs_fh3 (w_opaque h) (server_fh h).
Proof.
  unfold NFS3_FHSIZE. intros Hh. unfold svcxdr_decode_nfs_fh3, w_opaque, NFS3_FHSIZE.
  eapply decodes_bind; [apply decodes_word|]. rewrite u32_id by (unfold is_u32; lia). ztest. simpl.
  rewrite <- (app_nil_r (w_fixed h)). eapply decodes_bind; [by apply decodes_inline_fixed|].
  rewrite ztake_all by lia. apply decodes_ret.
Qed.

Lemma decodes_svc_filename3 name :
  0 < zlen name <= NFS3_MAXNAMLEN -> name_ok name = true ->
  decodes svcxdr_decode_filename3 (w_opaque name) name.
Proof.
  unfold NFS3_MAXNAMLEN. intros Hh Hn. unfold svcxdr_decode_filename3, w_opaque, NFS3_MAXNAMLEN.
  eapply decodes_bind; [apply decodes_word|]. rewrite u32_id by (unfold is_u32; lia). ztest. simpl.
  rewrite <- (app_nil_r (w_fixed name)). eapply decodes_bind; [by apply decodes_inline_fixed|].
  rewrite ztake_all, Hn by lia. apply decodes_ret.
Qed.

(** A name with a NUL or a slash, an empty one or one over 255 bytes, and a
    handle of 0 or more than 64 bytes, are refused whatever follows. *)
Lemma rejects_svc_filename3 name :
  zlen name < 2 ^ 32 - 3 ->
  zlen name = 0 \/ NFS3_MAXNAMLEN < zlen name \/ name_ok name = false ->
  rejects svcxdr_decode_filename3 (w_opaque name) 0.
Proof.
  intros Hl Hbad. pose proof (zlen_nonneg name).
  unfold svcxdr_decode_filename3, w_opaque, NFS3_MAXNAMLEN in *.
  destruct (Z.eqb_spec (zlen name) 0) as [E|E]; [|destruct (Z.ltb_spec 255 (zlen name)) as [L|L]].
  - eapply rejects_bind_r; [apply decodes_word|]. rewrite u32_id by (unfold is_u32; lia). ztest.
    simpl. assert (name = []) as -> by (destruct name; [done|unfold zlen in E; simpl in E; lia]).
    apply rejects_fail.
  - intros s r W R C. rewrite <- app_assoc in R. autorewrite with nfs_len in C.
    pose proof (align4_range (zlen name)).
    destruct (decodes_word (zlen name) s _ W R) as (s1 & E1 & W1 & _ & _); [llia|].
    exists s1. unfold dbind at 1. rewrite E1. rewrite u32_id by (unfold is_u32; lia). ztest. done.
  - eapply rejects_bind_r; [apply decodes_word|]. rewrite u32_id by (unfold is_u32; lia). ztest. simpl.
    rewrite <- (app_nil_r (w_fixed name)).
    eapply rejects_bind_r; [by apply decodes_inline_fixed|].
    rewrite ztake_all by lia. destruct (name_ok name) eqn:En; [|apply rejects_fail].
    destruct Hbad as [?|[?|?]]; lia || done.
Qed.

Lemma decodes_svc_diropargs3 h name :
  0 < zlen h <= NFS3_FHSIZE -> 0 < zlen name <= NFS3_MAXNAMLEN -> name_ok name = true ->
  decodes svcxdr_decode_diropargs3 (w_opaque h ++ w_opaque name) (server_fh h, name).
Proof.
  intros. eapply decodes_bind; [by apply decodes_svc_fh3|].
  rewrite <- (app_nil_r (w_opaque name)). eapply decodes_bind; [by apply decodes_svc_filename3|].
  apply decodes_ret.
Qed.

End ServerCalls.

(** ** Replies: what the server writes *)

Section ServerReplies.
  Context {S : Type} `{XO : XdrOut S} {XL : @XdrOutLaws S XO} `{KE : KEnv}.

Definition server_time (t : timespec64) : timespec64 := mk_time (u32 (tv_sec t)) (tv_nsec t).

Definition server_fattr (ns : user_namespace) (fhp : svc_fh) (stat : kstat) : fattr3 := {|
  f3_type := nfs3_ftype_of (ks_mode stat);
  f3_mode := Z.land (ks_mode stat) S_IALLUGO;
  f3_nlink := ks_nlink stat;
  f3_uid := from_kuid_munged ns (ks_uid stat);
  f3_gid := from_kgid_munged ns (ks_gid stat);
  f3_size := if S_ISLNK (ks_mode stat) && (NFS3_MAXPATHLEN <? ks_size stat)
             then NFS3_MAXPATHLEN else ks_size stat;
  f3_used := u64 (Z.shiftl (ks_blocks stat) 9);
  f3_rdev1 := MAJOR (ks_rdev stat); f3_rdev2 := MINOR (ks_rdev stat);
  f3_fsid := fattr3_fsid fhp; f3_fileid := ks_ino stat;
  f3_atime := server_time (ks_atime stat); f3_mtime := server_time (ks_mtime stat);
  f3_ctime := server_time (ks_ctime stat);
|}.

(** Which attributes go out after an operation. *)
Definition server_post_op (ns : user_namespace) (fhp : svc_fh) : option fattr3 :=
  if fh_no_wcc fhp || no_inode fhp then None
  else match fh_getattr fhp with
       | Some stat => Some (server_fattr ns fhp (leased fhp stat))
       | None => None
       end.

Definition server_wcc (ns : user_namespace) (fhp : svc_fh) : option wcc_attr * option fattr3 :=
  if no_inode fhp || negb (fh_post_saved fhp) then (None, server_post_op ns fhp)
  else (when (fh_pre_saved fhp)
          {| wa_size := fh_pre_size fhp; wa_mtime := server_time (fh_pre_mtime fhp);
             wa_ctime := server_time (fh_pre_ctime fhp) |},
        Some (server_fattr ns fhp (fh_post_attr fhp))).

Lemma encodes_fattr3 ns fhp stat :
  encodes (svcxdr_encode_fattr3 ns fhp stat) (w_fattr3 (server_fattr ns fhp stat)).
Proof.
  unfold svcxdr_encode_fattr3, w_fattr3, server_fattr. simpl.
  destruct (_ && _); (apply encodes_put; [done|reflexivity]).
Qed.

Lemma encodes_post_op_attr ns fhp :
  encodes (svcxdr_encode_post_op_attr ns fhp) (w_opt w_fattr3 (server_post_op ns fhp)).
Proof.
  unfold svcxdr_encode_post_op_attr, server_post_op.
  destruct (_ || _); [by apply encodes_put|]. destruct (fh_getattr fhp) as [stat|]; unfold w_opt.
  - apply encodes_seq; [apply encodes_present|apply encodes_fattr3].
  - apply encodes_absent.
Qed.

Lemma encodes_wcc_data ns fhp :
  encodes (svcxdr_encode_wcc_data ns fhp) (w_wcc_data (server_wcc ns fhp)).
Proof.
  unfold svcxdr_encode_wcc_data, server_wcc. destruct (_ || _).
  - apply encodes_seq; [apply encodes_absent|apply encodes_post_op_attr].
  - unfold w_wcc_data, svcxdr_encode_pre_op_attr. simpl fst. simpl snd.
    apply encodes_seq; [|apply encodes_seq; [apply encodes_present|apply encodes_fattr3]].
    destruct (fh_pre_saved fhp); unfold when, w_opt, negb; [|apply encodes_absent].
    apply encodes_seq; [apply encodes_present|]. by apply encodes_put.
Qed.

Lemma encodes_svc_fh3 fhp :
  zlen (fh_handle fhp) <= NFS3_FHSIZE ->
  encodes (svcxdr_encode_nfs_fh3 fhp) (w_opaque (fh_handle fhp)).
Proof.
  unfold NFS3_FHSIZE. intros Hh. unfold svcxdr_encode_nfs_fh3, XDR_UNIT.
  pose proof (zlen_nonneg (fh_handle fhp)). rewrite XDR_QUADLEN_div by lia.
  change (4 * ((zlen (fh_handle fhp) + 3) / 4)) with (align4 (zlen (fh_handle fhp))).
  assert (E : zwrite 0 (fh_handle fhp) (zrep (align4 (zlen (fh_handle fhp)))) = w_fixed (fh_handle fhp)).
  { rewrite zwrite_0, zdrop_zrep by lia. unfold w_fixed. f_equal. f_equal. unfold align4. zlia. }
  rewrite E. apply encodes_put; [lia|]. rewrite zlen_opaque_reserved. llia.
Qed.

Lemma encodes_post_op_fh3 fhp :
  zlen (fh_handle fhp) <= NFS3_FHSIZE ->
  encodes (svcxdr_encode_post_op_fh3 fhp) (w_opt w_opaque (Some (fh_handle fhp))).
Proof. intros. apply encodes_seq; [apply encodes_present|by apply encodes_svc_fh3]. Qed.

Lemma encodes_nfsstat3 st : encodes (svcxdr_encode_nfsstat3 st) (be32 st).
Proof. by apply encodes_put. Qed.

End ServerReplies.

#[export] Hint Resolve encodes_fattr3 encodes_post_op_attr encodes_wcc_data encodes_svc_fh3
  encodes_post_op_fh3 encodes_nfsstat3 : xdr.

(** ** Replies: what the client reads *)

Lemma be32_next_app v r : be32_next (be32 v ++ r) = (u32 v, r).
Proof. unfold be32_next. rewrite be32_to_cpu_app. by rewrite (drop_app_length' (be32 v)). Qed.

Lemma hyper_next_app v r : xdr_decode_hyper (be64 v ++ r) = (u64 v, r).
Proof. unfold xdr_decode_hyper. rewrite be64_to_cpu_app. by rewrite (drop_app_length' (be64 v)). Qed.

Definition client_time (t : timespec64) : timespec64 := mk_time (u32 (tv_sec t)) (u32 (tv_nsec t)).

Lemma nfstime_next_app t r : xdr_decode_nfstime3 (w_nfstime3 t ++ r) = (client_time t, r).
Proof.
  unfold xdr_decode_nfstime3, w_nfstime3. rewrite <- app_assoc, be32_next_app.
  cbv beta iota. by rewrite be32_next_app.
Qed.

Definition client_fmt (type : Z) : Z :=
  nfs_type2fmt (if NF3FIFO <? u32 type then NF3NON else u32 type).

Lemma ftype_next_app v r : xdr_decode_ftype3 (be32 v ++ r) = (client_fmt v, r).
Proof.
  unfold xdr_decode_ftype3. rewrite be32_to_cpu_app. by rewrite (drop_app_length' (be32 v)).
Qed.

Section ClientReplies.
  Context {S : Type} `{XI : XdrIn S} {XL : @XdrInLaws S XI} `{KE : KEnv}.

Definition client_rdev (major minor : Z) : Z :=
  let d := MKDEV major minor in
  if negb (MAJOR d =? major) || negb (MINOR d =? minor) then 0 else d.

Lemma specdata_next_app a b r :
  xdr_decode_specdata3 (be32 a ++ be32 b ++ r) = (client_rdev (u32 a) (u32 b), r).
Proof.
  unfold xdr_decode_specdata3. rewrite be32_next_app. cbv beta iota. by rewrite be32_next_app.
Qed.

(** The attributes the client keeps from a [fattr3]. *)
Definition client_fattr (old : nfs_fattr) (ns : user_namespace) (a : fattr3) : nfs_fattr := {|
  fa_valid := Z.lor (fa_valid old) NFS_ATTR_FATTR_V3;
  fa_mode := u16 (Z.lor (Z.land (u32 (f3_mode a)) (Z.lnot S_IFMT)) (client_fmt (f3_type a)));
  fa_nlink := u32 (f3_nlink a);
  fa_uid := make_kuid ns (u32 (f3_uid a)); fa_gid := make_kgid ns (u32 (f3_gid a));
  fa_rdev := client_rdev (u32 (f3_rdev1 a)) (u32 (f3_rdev2 a));
  fa_size := u64 (f3_size a); fa_used := u64 (f3_used a);
  fa_fsid_major := u64 (f3_fsid a); fa_fsid_minor := 0; fa_fileid := u64 (f3_fileid a);
  fa_mounted_on_fileid := fa_mounted_on_fileid old;
  fa_atime := client_time (f3_atime a); fa_mtime := client_time (f3_mtime a);
  fa_ctime := client_time (f3_ctime a);
  fa_change_attr := nfs_timespec_to_change_attr (client_time (f3_ctime a));
  fa_pre_change_attr := fa_pre_change_attr old; fa_pre_size := fa_pre_size old;
  fa_pre_mtime := fa_pre_mtime old; fa_pre_ctime := fa_pre_ctime old;
|}.

(** The ids of the attributes exist in the client's namespace. *)
Definition ids_ok (ns : user_namespace) (a : fattr3) : Prop :=
  uid_valid (make_kuid ns (u32 (f3_uid a))) = true /\ gid_valid (make_kgid ns (u32 (f3_gid a))) = true.

Definition ids_ok_opt (ns : user_namespace) (o : option fattr3) : Prop :=
  match o with Some a => ids_ok ns a | None => True end.

Lemma decodes_fattr3 old ns a :
  ids_ok ns a -> decodes (decode_fattr3 old ns) (w_fattr3 a) (client_fattr old ns a).
Proof.
  intros [Hu Hg]. unfold decode_fattr3, w_fattr3. apply decodes_block; [done..|].
  rewrite ftype_next_app. cbv beta iota.
  rewrite be32_next_app. cbv beta iota. rewrite be32_next_app. cbv beta iota.
  rewrite be32_next_app. cbv beta iota. rewrite Hu. simpl negb. cbv iota.
  rewrite be32_next_app. cbv beta iota. rewrite Hg. simpl negb. cbv iota.
  unfold xdr_decode_size3, xdr_decode_fileid3.
  rewrite hyper_next_app. cbv beta iota. rewrite hyper_next_app. cbv beta iota.
  rewrite specdata_next_app. cbv beta iota.
  rewrite hyper_next_app. cbv beta iota. rewrite hyper_next_app. cbv beta iota.
  rewrite nfstime_next_app. cbv beta iota. rewrite nfstime_next_app. cbv beta iota.
  rewrite <- (app_nil_r (w_nfstime3 (f3_ctime a))), nfstime_next_app. cbv beta iota.
  apply decodes_ret.
Qed.

(** Attributes with an id the client cannot map are refused. *)
Lemma rejects_fattr3 old ns a :
  ~ ids_ok ns a -> rejects (decode_fattr3 old ns) (w_fattr3 a) (- EINVAL).
Proof.
  intros Hbad. unfold decode_fattr3, w_fattr3.
  rewrite <- (app_nil_r (be32 (f3_type a) ++ _)).
  eapply rejects_bind_r; [by apply decodes_inline_aligned|].
  rewrite ftype_next_app. cbv beta iota.
  rewrite be32_next_app. cbv beta iota. rewrite be32_next_app. cbv beta iota.
  rewrite be32_next_app. cbv beta iota.
  destruct (uid_valid _) eqn:Hu; simpl negb; cbv iota; [|apply rejects_fail].
  rewrite be32_next_app. cbv beta iota.
  destruct (gid_valid _) eqn:Hg; simpl negb; cbv iota; [|apply rejects_fail].
  by destruct Hbad.
Qed.

Definition client_post (old : nfs_fattr) (ns : user_namespace) (o : option fattr3) : nfs_fattr :=
  match o with Some a => client_fattr old ns a | None => old end.

Lemma decodes_tag_opt {A B} (w : A -> list byte) (o : option A) (m : dec S B) (d : B) (f : A -> B) :
  (forall a, o = Some a -> decodes m (w a) (f a)) ->
  decodes (dbind (inline_or 4 (- EIO)) (fun p => if negb (be32_to_cpu p =? 0) then m else dret d))
    (w_opt w o) (match o with Some a => f a | None => d end).
Proof.
  intros H. destruct o as [a|]; unfold w_opt.
  - eapply decodes_bind; [by apply decodes_inline_aligned|]. by apply H.
  - rewrite <- (app_nil_r (be32 0)). eapply decodes_bind; [by apply decodes_inline_aligned|].
    apply decodes_ret.
Qed.

Lemma decodes_post_op_attr old ns o :
  ids_ok_opt ns o -> decodes (decode_post_op_attr old ns) (w_opt w_fattr3 o) (client_post old ns o).
Proof. intros H. apply decodes_tag_opt. intros a ->. by apply decodes_fattr3. Qed.

Definition client_wcc_attr (old : nfs_fattr) (a : wcc_attr) : nfs_fattr :=
  old <| fa_valid := Z.lor (fa_valid old)
           (Z.lor (Z.lor (Z.lor NFS_ATTR_FATTR_PRESIZE NFS_ATTR_FATTR_PRECHANGE)
              NFS_ATTR_FATTR_PREMTIME) NFS_ATTR_FATTR_PRECTIME) |>
      <| fa_pre_size := u64 (wa_size a) |> <| fa_pre_mtime := client_time (wa_mtime a) |>
      <| fa_pre_ctime := client_time (wa_ctime a) |>
      <| fa_pre_change_attr := nfs_timespec_to_change_attr (client_time (wa_ctime a)) |>.

Definition client_pre (old : nfs_fattr) (o : option wcc_attr) : nfs_fattr :=
  match o with Some a => client_wcc_attr old a | None => old end.

Definition client_wcc (old : nfs_fattr) (ns : user_namespace) (d : option wcc_attr * option fattr3)
    : nfs_fattr := client_post (client_pre old (fst d)) ns (snd d).

Lemma decodes_wcc_attr old a : decodes (decode_wcc_attr old) (w_wcc_attr a) (client_wcc_attr old a).
Proof.
  unfold decode_wcc_attr, w_wcc_attr. apply decodes_block; [done..|].
  unfold xdr_decode_size3. rewrite hyper_next_app. cbv beta iota.
  rewrite nfstime_next_app. cbv beta iota.
  rewrite <- (app_nil_r (w_nfstime3 (wa_ctime a))), nfstime_next_app. cbv beta iota.
  apply decodes_ret.
Qed.

Lemma decodes_wcc_data old ns d :
  ids_ok_opt ns (snd d) -> decodes (decode_wcc_data old ns) (w_wcc_data d) (client_wcc old ns d).
Proof.
  intros H. unfold decode_wcc_data, w_wcc_data. eapply decodes_bind.
  - apply decodes_tag_opt. intros. apply decodes_wcc_attr.
  - by apply decodes_post_op_attr.
Qed.

Lemma decodes_nfsstat3 st : decodes decode_nfsstat3 (be32 st) (u32 st).
Proof.
  unfold decode_nfsstat3. apply decodes_block; [done..|].
  rewrite <- (app_nil_r (be32 st)), be32_to_cpu_app.
  destruct (Z.eqb_spec (u32 st) NFS_OK) as [E|E]; [rewrite E|]; apply decodes_ret.
Qed.

Lemma decodes_nfs_fh3 h :
  0 < zlen h <= NFS3_FHSIZE -> decodes decode_nfs_fh3 (w_opaque h) h.
Proof.
  unfold NFS3_FHSIZE. intros Hh. unfold decode_nfs_fh3, w_opaque, NFS3_FHSIZE.
  eapply decodes_bind; [by apply decodes_inline_aligned|].
  rewrite <- (app_nil_r (be32 (zlen h))), be32_to_cpu_app, u32_id by (unfold is_u32; lia).
  ztest. simpl. rewrite <- (app_nil_r (w_fixed h)).
  eapply decodes_bind; [by apply decodes_inline_fixed|].
  rewrite ztake_all by lia. apply decodes_ret.
Qed.

Lemma decodes_post_op_fh3 o :
  match o with Some h => 0 < zlen h <= NFS3_FHSIZE | None => True end ->
  decodes decode_post_op_fh3 (w_opt w_opaque o) (default zero_nfs_fh3 o).
Proof.
  intros H. pose proof (decodes_tag_opt w_opaque o decode_nfs_fh3 zero_nfs_fh3 id) as D.
  replace (default zero_nfs_fh3 o) with (match o with Some a => id a | None => zero_nfs_fh3 end)
    by by destruct o.
  apply D. intros a ->. by apply decodes_nfs_fh3.
Qed.

Lemma decodes_u32_eio v : decodes decode_uint32 (be32 v) (u32 v).
Proof.
  unfold decode_uint32. apply decodes_block; [done..|].
  rewrite <- (app_nil_r (be32 v)), be32_to_cpu_app. apply decodes_ret.
Qed.

Lemma decodes_writeverf3 v : zlen v = NFS3_WRITEVERFSIZE -> decodes decode_writeverf3 v v.
Proof. intros. by apply decodes_inline_aligned. Qed.

End ClientReplies.

(** ** Calls and replies across the wire *)

(** What [e] writes into any encode stream with room for it, [d] reads from any
    decode stream that holds it, and the value [d] returns is [v]. *)
Definition conveys {A} (e : enc xdr_estream) (d : dec xdr_stream A) (v : A) : Prop :=
  exists w, encodes e w /\ decodes d w v.

(** Decode one item and go on: the wire form is a right-nested append. *)
Ltac dnext lem := eapply decodes_bind; [lem|cbv beta iota].
Ltac dlast lem := eapply decodes_last; [lem|cbv beta iota; try apply decodes_ret].

Definition valid_fh (h : list byte) : Prop := 0 < zlen h <= NFS3_FHSIZE.
Definition valid_name (n : list byte) : Prop := 0 < zlen n <= NFS3_MAXNAMLEN /\ name_ok n = true.

Section Calls.
  Context `{KE : KEnv}.

Lemma dirop_enc h n :
  valid_fh h -> valid_name n ->
  encodes (S:=xdr_estream) (encode_diropargs3 h n) (w_opaque h ++ w_opaque n).
Proof. intros [_ ?] [[_ ?] _]. by apply encodes_diropargs3. Qed.

Lemma dirop_dec h n :
  valid_fh h -> valid_name n ->
  decodes (S:=xdr_stream) svcxdr_decode_diropargs3 (w_opaque h ++ w_opaque n) (server_fh h, n).
Proof. intros ? [? ?]. by apply decodes_svc_diropargs3. Qed.

Lemma fh_enc h : valid_fh h -> encodes (S:=xdr_estream) (encode_nfs_fh3 h) (w_opaque h).
Proof. intros [_ ?]. by apply encodes_nfs_fh3. Qed.

Lemma fh_dec h : valid_fh h -> decodes (S:=xdr_stream) svcxdr_decode_nfs_fh3 (w_opaque h) (server_fh h).
Proof. apply decodes_svc_fh3. Qed.

Lemma guard_dec (args : nfs3_sattrargs) :
  exists w, encodes (S:=xdr_estream) (encode_sattrguard3 args) w /\
    decodes (S:=xdr_stream) svcxdr_decode_sattrguard3 w
      (if sa_guard args =? 0 then (0, 0) else (1, u32 (tv_sec (sa_guardtime args)))).
Proof.
  unfold encode_sattrguard3, svcxdr_decode_sattrguard3. destruct (sa_guard args =? 0); simpl negb; cbv iota.
  - exists (be32 0). split; [by apply encodes_put|].
    dlast ltac:(apply (decodes_flag false)).
  - exists (be32 1 ++ xdr_encode_nfstime3 (sa_guardtime args)). split; [by apply encodes_put|].
    dnext ltac:(apply (decodes_flag true)). simpl negb. cbv iota.
    apply decodes_block; [done..|]. unfold xdr_encode_nfstime3. rewrite be32_to_cpu_app.
    rewrite (u32_id (u32 _)) by apply u32_range. apply decodes_ret.
Qed.

Lemma setattr_call ns ns' args :
  valid_fh (sa_fh args) ->
  conveys (nfs3_xdr_enc_setattr3args ns args) (nfs3svc_decode_sattrargs ns')
    {| vsa_fh := server_fh (sa_fh args);
       vsa_attrs := server_iattr ns' (client_sattr (sa_sattr args) ns);
       vsa_check_guard := if sa_guard args =? 0 then 0 else 1;
       vsa_guardtime := if sa_guard args =? 0 then 0 else u32 (tv_sec (sa_guardtime args)) |}.
Proof.
  intros H. destruct (guard_dec args) as (wg & Eg & Dg).
  exists (w_opaque (sa_fh args) ++ w_sattr3 (client_sattr (sa_sattr args) ns) ++ wg). split.
  - apply encodes_seq; [by apply fh_enc|]. apply encodes_seq; [apply encodes_sattr3|done].
  - dnext ltac:(by apply fh_dec). dnext ltac:(apply decodes_svc_sattr3).
    dlast ltac:(exact Dg). destruct (sa_guard args =? 0); apply decodes_ret.
Qed.

Lemma create_call ns ns' args :
  valid_fh (ca_fh args) -> valid_name (ca_name args) -> zlen (ca_verifier args) = 8 ->
  0 <= ca_createmode args <= 2 ->
  conveys (nfs3_xdr_enc_create3args ns args) (nfs3svc_decode_createargs ns')
    {| vca_fh := server_fh (ca_fh args); vca_name := ca_name args; vca_createmode := ca_createmode args;
       vca_attrs := if ca_createmode args =? NFS3_CREATE_EXCLUSIVE then zero_iattr
                    else server_iattr ns' (client_sattr (ca_sattr args) ns);
       vca_verf := if ca_createmode args =? NFS3_CREATE_EXCLUSIVE then ca_verifier args else [] |}.
Proof.
  intros Hf Hn Hv Hm. unfold nfs3_xdr_enc_create3args, encode_createhow3, nfs3svc_decode_createargs,
    NFS3_CREATE_UNCHECKED, NFS3_CREATE_GUARDED, NFS3_CREATE_EXCLUSIVE.
  destruct (Z.eqb_spec (ca_createmode args) 2) as [E2|E2].
  - rewrite E2.
    exists ((w_opaque (ca_fh args) ++ w_opaque (ca_name args)) ++ be32 2 ++ ca_verifier args). split.
    + apply encodes_seq; [by apply dirop_enc|]. apply encodes_seq; [apply encodes_uint32|].
      cbn [orb Z.eqb Pos.eqb]. by apply encodes_verf8.
    + dnext ltac:(by apply dirop_dec). dnext ltac:(apply decodes_word).
      change (u32 2) with 2. simpl. dlast ltac:(by apply decodes_inline_aligned).
  - exists ((w_opaque (ca_fh args) ++ w_opaque (ca_name args)) ++ be32 (ca_createmode args) ++
      w_sattr3 (client_sattr (ca_sattr args) ns)).
    assert (Em : (ca_createmode args =? 0) || (ca_createmode args =? 1) = true)
      by (destruct (Z.eqb_spec (ca_createmode args) 0), (Z.eqb_spec (ca_createmode args) 1); try done; lia).
    rewrite Em. split.
    + apply encodes_seq; [by apply dirop_enc|]. apply encodes_seq; [apply encodes_uint32|].
      apply encodes_sattr3.
    + dnext ltac:(by apply dirop_dec). dnext ltac:(apply decodes_word).
      rewrite u32_id by (unfold is_u32; lia). rewrite Em.
      dlast ltac:(apply decodes_svc_sattr3).
Qed.

Lemma specdata_dec a b :
  decodes (S:=xdr_stream) svcxdr_decode_specdata3 (be32 a ++ be32 b) (u32 a, u32 b).
Proof.
  apply decodes_block; [done..|]. rewrite be32_to_cpu_app, (drop_app_length' (be32 _)) by done.
  rewrite <- (app_nil_r (be32 b)), be32_to_cpu_app. apply decodes_ret.
Qed.

Lemma devicedata_dec ns sa a b :
  decodes (S:=xdr_stream) (svcxdr_decode_devicedata3 ns) (w_sattr3 sa ++ be32 a ++ be32 b)
    (server_iattr ns sa, (u32 a, u32 b)).
Proof. dnext ltac:(apply decodes_svc_sattr3). dlast ltac:(apply specdata_dec). Qed.

Lemma mknod_call ns ns' args :
  valid_fh (mn_fh args) -> valid_name (mn_name args) ->
  mn_type args ∈ [NF3CHR; NF3BLK; NF3SOCK; NF3FIFO] ->
  let dev := (mn_type args =? NF3CHR) || (mn_type args =? NF3BLK) in
  conveys (nfs3_xdr_enc_mknod3args ns args) (nfs3svc_decode_mknodargs ns')
    {| vmn_fh := server_fh (mn_fh args); vmn_name := mn_name args; vmn_ftype := mn_type args;
       vmn_major := if dev then u32 (MAJOR (mn_rdev args)) else 0;
       vmn_minor := if dev then u32 (MINOR (mn_rdev args)) else 0;
       vmn_attrs := server_iattr ns' (client_sattr (mn_sattr args) ns) |}.
Proof.
  intros Hf Hn Ht dev. unfold nfs3_xdr_enc_mknod3args, encode_mknoddata3, nfs3svc_decode_mknodargs.
  fold dev. set (sa := client_sattr (mn_sattr args) ns).
  assert (Hd : dev = true \/ dev = false /\ (mn_type args =? NF3SOCK) || (mn_type args =? NF3FIFO) = true).
  { unfold dev. rewrite !elem_of_cons in Ht. destruct Ht as [->|[->|[->|[->|Ht]]]]; auto.
    by apply elem_of_nil in Ht. }
  assert (Hu : u32 (mn_type args) = mn_type args).
  { rewrite !elem_of_cons in Ht. destruct Ht as [->|[->|[->|[->|Ht]]]]; try done. by apply elem_of_nil in Ht. }
  destruct Hd as [Hd|[Hd Hs]]; rewrite Hd.
  - exists ((w_opaque (mn_fh args) ++ w_opaque (mn_name args)) ++ be32 (mn_type args) ++ w_sattr3 sa ++
      be32 (MAJOR (mn_rdev args)) ++ be32 (MINOR (mn_rdev args))). split.
    + apply encodes_seq; [by apply dirop_enc|]. apply encodes_seq; [apply encodes_uint32|].
      apply encodes_seq; [apply encodes_sattr3|by apply encodes_put].
    + dnext ltac:(by apply dirop_dec). dnext ltac:(apply decodes_word). rewrite Hu. fold dev. rewrite Hd.
      dlast ltac:(apply devicedata_dec).
  - rewrite Hs. exists ((w_opaque (mn_fh args) ++ w_opaque (mn_name args)) ++ be32 (mn_type args) ++ w_sattr3 sa).
    split.
    + apply encodes_seq; [by apply dirop_enc|]. apply encodes_seq; [apply encodes_uint32|].
      apply encodes_sattr3.
    + dnext ltac:(by apply dirop_dec). dnext ltac:(apply decodes_word). rewrite Hu. fold dev. rewrite Hd, Hs.
      dlast ltac:(apply decodes_svc_sattr3).
Qed.

Lemma mkdir_call ns ns' args :
  valid_fh (mk_fh args) -> valid_name (mk_name args) ->
  conveys (nfs3_xdr_enc_mkdir3args ns args) (nfs3svc_decode_mkdirargs ns')
    {| vca_fh := server_fh (mk_fh args); vca_name := mk_name args; vca_createmode := 0;
       vca_attrs := server_iattr ns' (client_sattr (mk_sattr args) ns); vca_verf := [] |}.
Proof.
  intros Hf Hn.
  exists ((w_opaque (mk_fh args) ++ w_opaque (mk_name args)) ++ w_sattr3 (client_sattr (mk_sattr args) ns)).
  split; [apply encodes_seq; [by apply dirop_enc|apply encodes_sattr3]|].
  dnext ltac:(by apply dirop_dec). dlast ltac:(apply decodes_svc_sattr3).
Qed.

Lemma lookup_call args :
  valid_fh (da_fh args) -> valid_name (da_name args) ->
  conveys (nfs3_xdr_enc_lookup3args args) nfs3svc_decode_diropargs
    {| vda_fh := server_fh (da_fh args); vda_name := da_name args |}.
Proof.
  intros Hf Hn. exists (w_opaque (da_fh args) ++ w_opaque (da_name args)).
  split; [by apply dirop_enc|]. dlast ltac:(by apply dirop_dec).
Qed.

Lemma rename_call args :
  valid_fh (ra_old_dir args) -> valid_name (ra_old_name args) ->
  valid_fh (ra_new_dir args) -> valid_name (ra_new_name args) ->
  conveys (nfs3_xdr_enc_rename3args args) nfs3svc_decode_renameargs
    {| vrn_ffh := server_fh (ra_old_dir args); vrn_fname := ra_old_name args;
       vrn_tfh := server_fh (ra_new_dir args); vrn_tname := ra_new_name args |}.
Proof.
  intros. exists ((w_opaque (ra_old_dir args) ++ w_opaque (ra_old_name args)) ++
    w_opaque (ra_new_dir args) ++ w_opaque (ra_new_name args)).
  split; [apply encodes_seq; by apply dirop_enc|].
  dnext ltac:(by apply dirop_dec). dlast ltac:(by apply dirop_dec).
Qed.

Lemma link_call args :
  valid_fh (la_fromfh args) -> valid_fh (la_tofh args) -> valid_name (la_toname args) ->
  conveys (nfs3_xdr_enc_link3args args) nfs3svc_decode_linkargs
    {| vla_ffh := server_fh (la_fromfh args); vla_tfh := server_fh (la_tofh args);
       vla_tname := la_toname args |}.
Proof.
  intros. exists (w_opaque (la_fromfh args) ++ w_opaque (la_tofh args) ++ w_opaque (la_toname args)).
  split; [apply encodes_seq; [by apply fh_enc|by apply dirop_enc]|].
  dnext ltac:(by apply fh_dec). dlast ltac:(by apply dirop_dec).
Qed.

Lemma access_call args :
  valid_fh (aa_fh args) ->
  conveys (nfs3_xdr_enc_access3args args) nfs3svc_decode_accessargs
    {| vaa_fh := server_fh (aa_fh args); vaa_access := u32 (aa_access args) |}.
Proof.
  intros. exists (w_opaque (aa_fh args) ++ be32 (aa_access args)).
  split; [apply encodes_seq; [by apply fh_enc|apply encodes_uint32]|].
  dnext ltac:(by apply fh_dec). dlast ltac:(apply decodes_word).
Qed.

Lemma read_call args :
  valid_fh (pg_fh args) ->
  conveys (encode_read3args args) nfs3svc_decode_readargs
    {| vra_fh := server_fh (pg_fh args); vra_offset := u64 (pg_offset args);
       vra_count := u32 (pg_count args) |}.
Proof.
  intros. exists (w_opaque (pg_fh args) ++ be64 (pg_offset args) ++ be32 (pg_count args)).
  split; [apply encodes_seq; [by apply fh_enc|by apply encodes_put]|].
  dnext ltac:(by apply fh_dec). dnext ltac:(apply decodes_word64). dlast ltac:(apply decodes_word).
Qed.

Lemma readdir_call args :
  valid_fh (rd_fh args) -> zlen (rd_verf args) = 8 ->
  conveys (encode_readdir3args args) nfs3svc_decode_readdirargs
    {| vrd_fh := server_fh (rd_fh args); vrd_cookie := u64 (rd_cookie args);
       vrd_count := u32 (rd_count args); vrd_verf := rd_verf args |}.
Proof.
  intros Hf Hv. exists (w_opaque (rd_fh args) ++ be64 (rd_cookie args) ++ rd_verf args ++ be32 (rd_count args)).
  split; [apply encodes_seq; [by apply fh_enc|]|].
  - unfold NFS3_COOKIEVERFSIZE. rewrite ztake_all by lia. apply encodes_put; [lia|].
    autorewrite with nfs_len. rewrite Hv. done.
  - dnext ltac:(by apply fh_dec). dnext ltac:(apply decodes_word64).
    dnext ltac:(by apply decodes_inline_aligned). dlast ltac:(apply decodes_word).
Qed.

Lemma readdirplus_call args :
  valid_fh (rd_fh args) -> zlen (rd_verf args) = 8 ->
  conveys (encode_readdirplus3args args) nfs3svc_decode_readdirplusargs
    {| vrd_fh := server_fh (rd_fh args); vrd_cookie := u64 (rd_cookie args);
       vrd_count := u32 (rd_count args); vrd_verf := rd_verf args |}.
Proof.
  intros Hf Hv. exists (w_opaque (rd_fh args) ++ be64 (rd_cookie args) ++ rd_verf args ++
    be32 (Z.shiftr (rd_count args) 3) ++ be32 (rd_count args)).
  split; [apply encodes_seq; [by apply fh_enc|]|].
  - unfold NFS3_COOKIEVERFSIZE. rewrite ztake_all by lia. apply encodes_put; [lia|].
    autorewrite with nfs_len. rewrite Hv. done.
  - dnext ltac:(by apply fh_dec). dnext ltac:(apply decodes_word64).
    dnext ltac:(by apply decodes_inline_aligned). dnext ltac:(apply decodes_word).
    dlast ltac:(apply decodes_word).
Qed.

Lemma commit_call args :
  valid_fh (cm_fh args) ->
  conveys (nfs3_xdr_enc_commit3args args) nfs3svc_decode_commitargs
    {| vcm_fh := server_fh (cm_fh args); vcm_offset := u64 (cm_offset args);
       vcm_count := u32 (cm_count args) |}.
Proof.
  intros. exists (w_opaque (cm_fh args) ++ be64 (cm_offset args) ++ be32 (cm_count args)).
  split; [apply encodes_seq; [by apply fh_enc|by apply encodes_put]|].
  dnext ltac:(by apply fh_dec). dnext ltac:(apply decodes_word64). dlast ltac:(apply decodes_word).
Qed.

End Calls.

(** ** Replies *)

Section Replies.
  Context `{KE : KEnv}.

Lemma status_dec st : is_u32 st -> decodes (S:=xdr_stream) decode_nfsstat3 (be32 st) st.
Proof. intros. rewrite <- (u32_id st) at 2 by done. apply decodes_nfsstat3. Qed.

(** The value a result decoder returns for a status. *)
Definition ret_of (st : Z) : Z := if st =? NFS_OK then 0 else nfs3_stat_to_errno st.

Lemma ret_of_if {A} st (v : A) :
  (if negb (st =? NFS_OK) then dret (nfs3_stat_to_errno st, v) else dret (0, v) : dec xdr_stream (Z * A))
  = dret (ret_of st, v).
Proof. unfold ret_of. by destruct (st =? NFS_OK). Qed.

Lemma getattr_reply ns ns' resp old :
  let a := server_fattr ns (vas_fh resp) (leased (vas_fh resp) (vas_stat resp)) in
  is_u32 (vas_status resp) -> ids_ok ns' a ->
  conveys (nfs3svc_encode_getattrres ns resp) (nfs3_xdr_dec_getattr3res ns' old)
    (ret_of (vas_status resp), if vas_status resp =? NFS_OK then client_fattr old ns' a else old).
Proof.
  intros a Hs Ha. unfold nfs3svc_encode_getattrres, nfs3_xdr_dec_getattr3res, ret_of.
  destruct (vas_status resp =? NFS_OK) eqn:E.
  - exists (be32 (vas_status resp) ++ w_fattr3 a). split.
    + apply encodes_seq; [apply encodes_nfsstat3|apply encodes_fattr3].
    + dnext ltac:(by apply status_dec). rewrite E. simpl negb. cbv iota.
      dlast ltac:(by apply decodes_fattr3).
  - exists (be32 (vas_status resp) ++ []). split.
    + apply encodes_seq; [apply encodes_nfsstat3|apply encodes_nop].
    + dnext ltac:(by apply status_dec). rewrite E. apply decodes_ret.
Qed.

Lemma wccstat_reply ns ns' resp old :
  let d := server_wcc ns (vas_fh resp) in
  is_u32 (vas_status resp) -> ids_ok_opt ns' (snd d) ->
  conveys (nfs3svc_encode_wccstat ns resp) (nfs3_xdr_dec_setattr3res ns' old)
    (ret_of (vas_status resp), client_wcc old ns' d).
Proof.
  intros d Hs Hd. exists (be32 (vas_status resp) ++ w_wcc_data d). split.
  - apply encodes_seq; [apply encodes_nfsstat3|apply encodes_wcc_data].
  - dnext ltac:(by apply status_dec). dlast ltac:(by apply decodes_wcc_data).
    rewrite ret_of_if. apply decodes_ret.
Qed.

Lemma remove_reply ns ns' resp old :
  let d := server_wcc ns (vas_fh resp) in
  is_u32 (vas_status resp) -> ids_ok_opt ns' (snd d) ->
  conveys (nfs3svc_encode_wccstat ns resp) (nfs3_xdr_dec_remove3res ns' old)
    (ret_of (vas_status resp), client_wcc old ns' d).
Proof. apply wccstat_reply. Qed.

Lemma lookup_reply ns ns' resp old :
  let ok := vdr_status resp =? NFS_OK in
  let da := server_post_op ns (vdr_dirfh resp) in let fa := server_post_op ns (vdr_fh resp) in
  is_u32 (vdr_status resp) -> valid_fh (fh_handle (vdr_fh resp)) ->
  ids_ok_opt ns' da -> ids_ok_opt ns' fa ->
  conveys (nfs3svc_encode_lookupres ns resp) (nfs3_xdr_dec_lookup3res ns' old)
    (ret_of (vdr_status resp),
     {| dr_dir_attr := client_post (dr_dir_attr old) ns' da;
        dr_fh := if ok then fh_handle (vdr_fh resp) else dr_fh old;
        dr_fattr := if ok then client_post (dr_fattr old) ns' fa else dr_fattr old |}).
Proof.
  intros ok da fa Hs Hh Hda Hfa. unfold nfs3svc_encode_lookupres, nfs3_xdr_dec_lookup3res, ret_of. fold ok.
  destruct ok eqn:E; unfold ok in E.
  - exists (be32 (vdr_status resp) ++ w_opaque (fh_handle (vdr_fh resp)) ++ w_opt w_fattr3 fa ++ w_opt w_fattr3 da).
    split.
    + apply encodes_seq; [apply encodes_nfsstat3|]. apply encodes_seq; [apply encodes_svc_fh3, Hh|].
      apply encodes_seq; apply encodes_post_op_attr.
    + dnext ltac:(by apply status_dec). rewrite E. simpl negb. cbv iota.
      dnext ltac:(by apply decodes_nfs_fh3). dnext ltac:(by apply decodes_post_op_attr).
      dlast ltac:(by apply decodes_post_op_attr).
  - exists (be32 (vdr_status resp) ++ w_opt w_fattr3 da). split.
    + apply encodes_seq; [apply encodes_nfsstat3|apply encodes_post_op_attr].
    + dnext ltac:(by apply status_dec). rewrite E. simpl negb. cbv iota.
      dlast ltac:(by apply decodes_post_op_attr).
Qed.

Lemma access_reply ns ns' resp old :
  let fa := server_post_op ns (var_fh resp) in
  is_u32 (var_status resp) -> ids_ok_opt ns' fa ->
  conveys (nfs3svc_encode_accessres ns resp) (nfs3_xdr_dec_access3res ns' old)
    (ret_of (var_status resp),
     (client_post (fst old) ns' fa,
      if var_status resp =? NFS_OK then u32 (var_access resp) else snd old)).
Proof.
  intros fa Hs Hfa. unfold nfs3svc_encode_accessres, nfs3_xdr_dec_access3res, ret_of.
  destruct (var_status resp =? NFS_OK) eqn:E.
  - exists (be32 (var_status resp) ++ w_opt w_fattr3 fa ++ be32 (var_access resp)). split.
    + apply encodes_seq; [apply encodes_nfsstat3|].
      apply encodes_seq; [apply encodes_post_op_attr|apply encodes_u32].
    + dnext ltac:(by apply status_dec). dnext ltac:(by apply decodes_post_op_attr). rewrite E.
      simpl negb. cbv iota. dlast ltac:(apply decodes_u32_eio).
  - exists (be32 (var_status resp) ++ w_opt w_fattr3 fa). split.
    + apply encodes_seq; [apply encodes_nfsstat3|apply encodes_post_op_attr].
    + dnext ltac:(by apply status_dec). dlast ltac:(by apply decodes_post_op_attr). rewrite E.
      apply decodes_ret.
Qed.

Lemma write_reply ns ns' resp old :
  let d := server_wcc ns (vwr_fh resp) in
  let res := old <| wr_fattr := client_wcc (wr_fattr old) ns' d |> <| wr_op_status := vwr_status resp |> in
  is_u32 (vwr_status resp) -> ids_ok_opt ns' (snd d) ->
  0 <= vwr_committed resp <= NFS_FILE_SYNC -> zlen (vwr_verf resp) = 8 ->
  conveys (nfs3svc_encode_writeres ns resp) (nfs3_xdr_dec_write3res ns' old)
    (if vwr_status resp =? NFS_OK
     then (s32 (u32 (vwr_count resp)),
           res <| wr_count := u32 (vwr_count resp) |> <| wr_committed := vwr_committed resp |>
               <| wr_verifier := vwr_verf resp |>)
     else (nfs3_stat_to_errno (vwr_status resp), res)).
Proof.
  intros d res Hs Hd Hc Hv. unfold nfs3svc_encode_writeres, nfs3_xdr_dec_write3res.
  destruct (vwr_status resp =? NFS_OK) eqn:E.
  - exists (be32 (vwr_status resp) ++ w_wcc_data d ++ (be32 (vwr_count resp) ++ be32 (vwr_committed resp)) ++
      vwr_verf resp). split.
    + rewrite <- app_assoc. apply encodes_seq; [apply encodes_nfsstat3|].
      apply encodes_seq; [apply encodes_wcc_data|].
      apply encodes_seq; [apply encodes_u32|]. apply encodes_seq; [apply encodes_u32|].
      by apply encodes_verf8.
    + dnext ltac:(by apply status_dec). dnext ltac:(by apply decodes_wcc_data). rewrite E.
      simpl negb. cbv iota. unfold decode_write3resok.
      dnext ltac:(by apply decodes_inline_aligned). rewrite be32_next_app. cbv beta iota.
      rewrite <- (app_nil_r (be32 (vwr_committed resp))), be32_next_app. cbv beta iota.
      unfold NFS_FILE_SYNC in *. rewrite (u32_id (vwr_committed resp)) by (unfold is_u32; lia).
      rewrite (proj2 (Z.ltb_ge _ _)) by lia.
      dlast ltac:(apply decodes_or_return; by apply decodes_writeverf3).
  - exists (be32 (vwr_status resp) ++ w_wcc_data d). split.
    + apply encodes_seq; [apply encodes_nfsstat3|apply encodes_wcc_data].
    + dnext ltac:(by apply status_dec). dlast ltac:(by apply decodes_wcc_data). rewrite E.
      apply decodes_ret.
Qed.

Lemma create_reply ns ns' resp old :
  let ok := vdr_status resp =? NFS_OK in
  let d := server_wcc ns (vdr_dirfh resp) in let fa := server_post_op ns (vdr_fh resp) in
  is_u32 (vdr_status resp) -> valid_fh (fh_handle (vdr_fh resp)) ->
  ids_ok_opt ns' (snd d) -> ids_ok_opt ns' fa ->
  conveys (nfs3svc_encode_createres ns resp) (nfs3_xdr_dec_create3res ns' old)
    (ret_of (vdr_status resp),
     {| dr_dir_attr := client_wcc (dr_dir_attr old) ns' d;
        dr_fh := if ok then fh_handle (vdr_fh resp) else dr_fh old;
        dr_fattr := if ok then client_post (dr_fattr old) ns' fa else dr_fattr old |}).
Proof.
  intros ok d fa Hs Hh Hd Hfa. unfold nfs3svc_encode_createres, nfs3_xdr_dec_create3res, ret_of. fold ok.
  destruct ok eqn:E; unfold ok in E.
  - exists (be32 (vdr_status resp) ++ w_opt w_opaque (Some (fh_handle (vdr_fh resp))) ++
      w_opt w_fattr3 fa ++ w_wcc_data d). split.
    + apply encodes_seq; [apply encodes_nfsstat3|]. apply encodes_seq; [apply encodes_post_op_fh3, Hh|].
      apply encodes_seq; [apply encodes_post_op_attr|apply encodes_wcc_data].
    + dnext ltac:(by apply status_dec). rewrite E. simpl negb. cbv iota. unfold decode_create3resok.
      dnext ltac:(by apply decodes_post_op_fh3). dnext ltac:(by apply decodes_post_op_attr).
      simpl default. destruct Hh as [Hh _]. rewrite (proj2 (Z.eqb_neq (zlen _) 0)) by lia.
      dlast ltac:(by apply decodes_wcc_data).
  - exists (be32 (vdr_status resp) ++ w_wcc_data d). split.
    + apply encodes_seq; [apply encodes_nfsstat3|apply encodes_wcc_data].
    + dnext ltac:(by apply status_dec). rewrite E. simpl negb. cbv iota.
      dlast ltac:(by apply decodes_wcc_data).
Qed.

Lemma rename_reply ns ns' resp old :
  let d1 := server_wcc ns (vrr_ffh resp) in let d2 := server_wcc ns (vrr_tfh resp) in
  is_u32 (vrr_status resp) -> ids_ok_opt ns' (snd d1) -> ids_ok_opt ns' (snd d2) ->
  conveys (nfs3svc_encode_renameres ns resp) (nfs3_xdr_dec_rename3res ns' old)
    (ret_of (vrr_status resp), (client_wcc (fst old) ns' d1, client_wcc (snd old) ns' d2)).
Proof.
  intros d1 d2 Hs H1 H2. exists (be32 (vrr_status resp) ++ w_wcc_data d1 ++ w_wcc_data d2). split.
  - apply encodes_seq; [apply encodes_nfsstat3|]. apply encodes_seq; apply encodes_wcc_data.
  - dnext ltac:(by apply status_dec). dnext ltac:(by apply decodes_wcc_data).
    dlast ltac:(by apply decodes_wcc_data). rewrite ret_of_if. apply decodes_ret.
Qed.

Lemma link_reply ns ns' resp old :
  let fa := server_post_op ns (vlr_fh resp) in let d := server_wcc ns (vlr_tfh resp) in
  is_u32 (vlr_status resp) -> ids_ok_opt ns' fa -> ids_ok_opt ns' (snd d) ->
  conveys (nfs3svc_encode_linkres ns resp) (nfs3_xdr_dec_link3res ns' old)
    (ret_of (vlr_status resp), (client_post (fst old) ns' fa, client_wcc (snd old) ns' d)).
Proof.
  intros fa d Hs H1 H2. exists (be32 (vlr_status resp) ++ w_opt w_fattr3 fa ++ w_wcc_data d). split.
  - apply encodes_seq; [apply encodes_nfsstat3|].
    apply encodes_seq; [apply encodes_post_op_attr|apply encodes_wcc_data].
  - dnext ltac:(by apply status_dec). dnext ltac:(by apply decodes_post_op_attr).
    dlast ltac:(by apply decodes_wcc_data). rewrite ret_of_if. apply decodes_ret.
Qed.

Lemma commit_reply ns ns' resp old :
  let d := server_wcc ns (vcr_fh resp) in
  let res := old <| wr_fattr := client_wcc (wr_fattr old) ns' d |> <| wr_op_status := vcr_status resp |> in
  is_u32 (vcr_status resp) -> ids_ok_opt ns' (snd d) -> zlen (vcr_verf resp) = 8 ->
  conveys (nfs3svc_encode_commitres ns resp) (nfs3_xdr_dec_commit3res ns' old)
    (ret_of (vcr_status resp),
     if vcr_status resp =? NFS_OK
     then res <| wr_verifier := vcr_verf resp |> <| wr_committed := NFS_FILE_SYNC |> else res).
Proof.
  intros d res Hs Hd Hv. unfold nfs3svc_encode_commitres, nfs3_xdr_dec_commit3res, ret_of.
  destruct (vcr_status resp =? NFS_OK) eqn:E.
  - exists (be32 (vcr_status resp) ++ w_wcc_data d ++ vcr_verf resp). split.
    + apply encodes_seq; [apply encodes_nfsstat3|].
      apply encodes_seq; [apply encodes_wcc_data|by apply encodes_verf8].
    + dnext ltac:(by apply status_dec). dnext ltac:(by apply decodes_wcc_data). rewrite E.
      simpl negb. cbv iota. dlast ltac:(by apply decodes_writeverf3).
  - exists (be32 (vcr_status resp) ++ w_wcc_data d). split.
    + apply encodes_seq; [apply encodes_nfsstat3|apply encodes_wcc_data].
    + dnext ltac:(by apply status_dec). dlast ltac:(by apply decodes_wcc_data). rewrite E.
      apply decodes_ret.
Qed.

Lemma null_fh_post ns : server_post_op ns nfs3svc_null_fh = None.
Proof. done. Qed.

Lemma fsstat_reply ns ns' resp old :
  let s := vfs_stats resp in
  is_u32 (vfs_status resp) ->
  conveys (nfs3svc_encode_fsstatres ns resp) (nfs3_xdr_dec_fsstat3res ns' old)
    (ret_of (vfs_status resp),
     if vfs_status resp =? NFS_OK
     then mk_fsstat (ft_fattr old) (u64 (u64 (f_bsize s) * f_blocks s)) (u64 (u64 (f_bsize s) * f_bfree s))
            (u64 (u64 (f_bsize s) * f_bavail s)) (u64 (f_files s)) (u64 (f_ffree s)) (u64 (f_ffree s))
     else old).
Proof.
  intros s Hs. unfold nfs3svc_encode_fsstatres, nfs3_xdr_dec_fsstat3res, ret_of.
  pose proof (encodes_post_op_attr (S:=xdr_estream) ns nfs3svc_null_fh) as En. rewrite null_fh_post in En.
  pose proof (fun o => decodes_post_op_attr (S:=xdr_stream) o ns' None I) as Dn.
  destruct (vfs_status resp =? NFS_OK) eqn:E.
  - eexists. split.
    + apply encodes_seq; [apply encodes_nfsstat3|]. apply encodes_seq; [exact En|].
      by apply encodes_put.
    + dnext ltac:(by apply status_dec). dnext ltac:(apply Dn). rewrite E. simpl negb. cbv iota.
      unfold decode_fsstat3resok, xdr_decode_size3. apply decodes_block; [done..|].
      do 6 (rewrite hyper_next_app; cbv beta iota). apply decodes_ret.
  - eexists. split.
    + apply encodes_seq; [apply encodes_nfsstat3|exact En].
    + dnext ltac:(by apply status_dec). dlast ltac:(apply Dn). rewrite E. destruct old. apply decodes_ret.
Qed.

Lemma fsinfo_reply ns ns' resp old :
  is_u32 (vfi_status resp) ->
  conveys (nfs3svc_encode_fsinfores ns resp) (nfs3_xdr_dec_fsinfo3res ns' old)
    (ret_of (vfi_status resp),
     if vfi_status resp =? NFS_OK
     then mk_fsinfo (fi_fattr old) (u32 (f_rtmax resp)) (u32 (f_rtpref resp)) (u32 (f_rtmult resp))
            (u32 (f_wtmax resp)) (u32 (f_wtpref resp)) (u32 (f_wtmult resp)) (u32 (f_dtpref resp))
            (u64 (f_maxfilesize resp)) nfs3svc_time_delta 0 NFS4_CHANGE_TYPE_IS_UNDEFINED 0
     else old).
Proof.
  intros Hs. unfold nfs3svc_encode_fsinfores, nfs3_xdr_dec_fsinfo3res, ret_of.
  pose proof (encodes_post_op_attr (S:=xdr_estream) ns nfs3svc_null_fh) as En. rewrite null_fh_post in En.
  pose proof (fun o => decodes_post_op_attr (S:=xdr_stream) o ns' None I) as Dn.
  destruct (vfi_status resp =? NFS_OK) eqn:E.
  - eexists. split.
    + apply encodes_seq; [apply encodes_nfsstat3|]. apply encodes_seq; [exact En|].
      by apply encodes_put.
    + dnext ltac:(by apply status_dec). dnext ltac:(apply Dn). rewrite E. simpl negb. cbv iota.
      unfold decode_fsinfo3resok, xdr_decode_size3. apply decodes_block; [done..|].
      do 7 (rewrite be32_next_app; cbv beta iota). rewrite hyper_next_app. cbv beta iota.
      change (encode_nfstime3 nfs3svc_time_delta) with (w_nfstime3 nfs3svc_time_delta).
      rewrite nfstime_next_app. cbv beta iota. apply decodes_ret.
  - eexists. split.
    + apply encodes_seq; [apply encodes_nfsstat3|exact En].
    + dnext ltac:(by apply status_dec). dlast ltac:(apply Dn). rewrite E. destruct old. apply decodes_ret.
Qed.

Lemma pathconf_reply ns ns' resp old :
  is_u32 (vpc_status resp) ->
  conveys (nfs3svc_encode_pathconfres ns resp) (nfs3_xdr_dec_pathconf3res ns' old)
    (ret_of (vpc_status resp),
     if vpc_status resp =? NFS_OK
     then mk_pathconf (pc_fattr old) (u32 (p_link_max resp)) (u32 (p_name_max resp)) else old).
Proof.
  intros Hs. unfold nfs3svc_encode_pathconfres, nfs3_xdr_dec_pathconf3res, ret_of.
  pose proof (encodes_post_op_attr (S:=xdr_estream) ns nfs3svc_null_fh) as En. rewrite null_fh_post in En.
  pose proof (fun o => decodes_post_op_attr (S:=xdr_stream) o ns' None I) as Dn.
  assert (Lb : forall v, zlen (xdr_encode_bool v) = 4) by (intros v; unfold xdr_encode_bool; by destruct (v =? 0)).
  destruct (vpc_status resp =? NFS_OK) eqn:E.
  - eexists. split.
    + apply encodes_seq; [apply encodes_nfsstat3|]. apply encodes_seq; [exact En|].
      apply encodes_put; [done|]. autorewrite with nfs_len. rewrite !Lb. done.
    + dnext ltac:(by apply status_dec). dnext ltac:(apply Dn). rewrite E. simpl negb. cbv iota.
      unfold decode_pathconf3resok. apply decodes_block; [autorewrite with nfs_len; by rewrite !Lb|done|].
      rewrite be32_next_app. cbv beta iota. rewrite be32_to_cpu_app. apply decodes_ret.
  - eexists. split.
    + apply encodes_seq; [apply encodes_nfsstat3|exact En].
    + dnext ltac:(by apply status_dec). dlast ltac:(apply Dn). rewrite E. destruct old. apply decodes_ret.
Qed.

End Replies.

(** ** File types, modes and ids *)

(** The types the wire can carry. *)
Definition wire_types : list Z := [S_IFIFO; S_IFCHR; S_IFDIR; S_IFBLK; S_IFREG; S_IFLNK; S_IFSOCK].

Lemma ftype_roundtrip mode :
  Z.land mode S_IFMT ∈ wire_types -> client_fmt (nfs3_ftype_of mode) = Z.land mode S_IFMT.
Proof.
  intros H. unfold nfs3_ftype_of. set (t := Z.land mode S_IFMT) in *. clearbody t.
  unfold wire_types in H. rewrite !elem_of_cons, elem_of_nil in H.
  destruct H as [->|[->|[->|[->|[->|[->|[->|[]]]]]]]]; reflexivity.
Qed.

Lemma mode_roundtrip `{KEnv} old ns ns' fhp stat :
  0 <= ks_mode stat < 2 ^ 16 -> Z.land (ks_mode stat) S_IFMT ∈ wire_types ->
  fa_mode (client_fattr old ns' (server_fattr ns fhp stat)) = ks_mode stat.
Proof.
  intros Hr Ht. unfold client_fattr, server_fattr. cbn [fa_mode f3_mode f3_type].
  rewrite ftype_roundtrip by done. set (m := ks_mode stat) in *. clearbody m.
  assert (E : u32 (Z.land m S_IALLUGO) = m mod 2 ^ 12).
  { unfold S_IALLUGO. change 0xFFF with (Z.ones 12). rewrite Z.land_ones by done.
    apply u32_id. unfold is_u32. zlia. }
  rewrite E. unfold u16.
  replace (Z.lor (Z.land (m mod 2 ^ 12) (Z.lnot S_IFMT)) (Z.land m S_IFMT)) with m;
    [apply Z.mod_small; lia|].
  apply Z.bits_inj'. intros i Hi. rewrite Z.lor_spec, !Z.land_spec, Z.lnot_spec by done.
  assert (F : Z.testbit S_IFMT i = (12 <=? i) && (i <? 16)).
  { change S_IFMT with (Z.shiftl (Z.ones 4) 12). destruct (Z.leb_spec 12 i).
    - rewrite Z.shiftl_spec by done. destruct (Z.ltb_spec i 16); simpl.
      + rewrite Z.ones_spec_low by lia. done.
      + rewrite Z.ones_spec_high by lia. done.
    - rewrite Z.shiftl_spec_low by lia. done. }
  rewrite F. destruct (Z.leb_spec 12 i); simpl.
  - rewrite Z.mod_pow2_bits_high by lia. simpl. destruct (Z.ltb_spec i 16); simpl.
    + by rewrite andb_true_r.
    + rewrite andb_false_r. apply (Z.bits_above_log2); [lia|].
      destruct (decide (m = 0)) as [->|]; [simpl; lia|].
      apply Z.log2_lt_pow2; [lia|]. apply Z.lt_le_trans with (2 ^ 16); [lia|].
      apply Z.pow_le_mono_r; lia.
  - rewrite Z.mod_pow2_bits_low by lia. by rewrite andb_true_r, andb_false_r, orb_false_r.
Qed.
