(* ===== verification/Nfs3Attr.v ===== *)
(** * NFSv3 attributes across the wire

    When the two hosts map ids the same way and the values fit the wire, the
    attributes a SETATTR or CREATE asks for are the ones the server acts on
    ([asks_same]), and the attributes the server reports are the ones the client
    keeps ([describes_same]). *)

From S2P Require Import Prelude Xdr XdrSpec XdrBuf XdrDecode XdrEncode.
From S2P Require Import Nfs3Types Nfs3Client Nfs3Server Nfs3Wire.

(** A time the wire can carry. *)
Definition time_u32 (t : timespec64) : Prop := is_u32 (tv_sec t) /\ is_u32 (tv_nsec t).

Lemma client_server_time t : time_u32 t -> client_time (server_time t) = t.
Proof.
  destruct t as [s n]. intros [Hs Hn]. unfold client_time, server_time. simpl in *.
  by rewrite (u32_id (u32 s)), !u32_id by (done || apply u32_range).
Qed.

(** The server's ids, written in [ns], are the client's ids read in [ns']. *)
Definition uid_maps (ns ns' : user_namespace) (u : Z) : Prop :=
  make_kuid ns' (u32 (from_kuid_munged ns u)) = u.
Definition gid_maps (ns ns' : user_namespace) (g : Z) : Prop :=
  make_kgid ns' (u32 (from_kgid_munged ns g)) = g.

(** What it means for received attributes [r] to ask for the changes of [a]. *)
Record asks_same (a r : iattr) : Prop := {
  as_bits : forall bit, bit ∈ [ATTR_MODE; ATTR_UID; ATTR_GID; ATTR_SIZE; ATTR_ATIME_SET; ATTR_MTIME_SET] ->
    has (ia_valid r) bit = has (ia_valid a) bit;
  as_atime : has (ia_valid r) ATTR_ATIME = has (ia_valid a) ATTR_ATIME || has (ia_valid a) ATTR_ATIME_SET;
  as_mtime : has (ia_valid r) ATTR_MTIME = has (ia_valid a) ATTR_MTIME || has (ia_valid a) ATTR_MTIME_SET;
  as_mode : has (ia_valid a) ATTR_MODE = true -> ia_mode r = Z.land (ia_mode a) S_IALLUGO;
  as_uid : has (ia_valid a) ATTR_UID = true -> ia_uid r = ia_uid a;
  as_gid : has (ia_valid a) ATTR_GID = true -> ia_gid r = ia_gid a;
  as_size : has (ia_valid a) ATTR_SIZE = true -> ia_size r = ia_size a;
  as_atime_set : has (ia_valid a) ATTR_ATIME_SET = true -> ia_atime r = ia_atime a;
  as_mtime_set : has (ia_valid a) ATTR_MTIME_SET = true -> ia_mtime r = ia_mtime a;
}.

(** What the wire can carry of an [iattr]. *)
Record sendable `{KEnv} (ns ns' : user_namespace) (a : iattr) : Prop := {
  sd_uid : uid_maps ns ns' (ia_uid a); sd_uidv : uid_valid (ia_uid a) = true;
  sd_gid : gid_maps ns ns' (ia_gid a); sd_gidv : gid_valid (ia_gid a) = true;
  sd_size : is_u64 (ia_size a);
  sd_atime : time_u32 (ia_atime a); sd_mtime : time_u32 (ia_mtime a);
}.

Lemma mode_bits_small m : u16 (u32 (Z.land m S_IALLUGO)) = Z.land m S_IALLUGO.
Proof.
  assert (0 <= Z.land m S_IALLUGO < 4096).
  { change S_IALLUGO with (Z.ones 12). rewrite Z.land_ones by done. zlia. }
  rewrite u32_id by (unfold is_u32; lia). unfold u16. rewrite Z.mod_small; lia.
Qed.

Lemma server_iattr_asks_same `{KEnv} ns ns' a :
  sendable ns ns' a -> asks_same a (server_iattr ns' (client_sattr a ns)).
Proof.
  intros [Hu Huv Hg Hgv Hz Ha Hm].
  pose proof (client_server_time _ Ha) as Ea. pose proof (client_server_time _ Hm) as Em.
  unfold client_time, server_time in Ea, Em. simpl in Ea, Em.
  unfold server_iattr, client_sattr, time_of, uid_maps, gid_maps in *.
  destruct a as [v md u g sz at_ mt]. simpl in *.
  destruct (has v ATTR_MODE) eqn:B1, (has v ATTR_UID) eqn:B2, (has v ATTR_GID) eqn:B3,
    (has v ATTR_SIZE) eqn:B4, (has v ATTR_ATIME_SET) eqn:B5, (has v ATTR_MTIME_SET) eqn:B6,
    (has v ATTR_ATIME) eqn:B7, (has v ATTR_MTIME) eqn:B8;
  (split; cbn [when s3_mode s3_uid s3_gid s3_size s3_atime s3_mtime set_time_bits set_time_val
     ia_valid ia_mode ia_uid ia_gid ia_size ia_atime ia_mtime tv_sec tv_nsec]; rewrite ?Hu, ?Hg, ?Huv, ?Hgv;
   [ intros bit Hb; rewrite !elem_of_cons, elem_of_nil in Hb;
     destruct Hb as [->|[->|[->|[->|[->|[->|[]]]]]]]; rewrite ?B1, ?B2, ?B3, ?B4, ?B5, ?B6; reflexivity
   | rewrite B7, B5; reflexivity | rewrite B8, B6; reflexivity
   | intros ?; (congruence || apply mode_bits_small) | congruence | congruence
   | intros ?; (congruence || by apply u64_id) | congruence | congruence ]).
Qed.

(** The attributes [r] the client keeps describe the file as [stat] does. *)
Record describes_same (stat : kstat) (r : nfs_fattr) : Prop := {
  ds_mode : fa_mode r = ks_mode stat;
  ds_nlink : fa_nlink r = ks_nlink stat;
  ds_uid : fa_uid r = ks_uid stat;
  ds_gid : fa_gid r = ks_gid stat;
  ds_size : S_ISLNK (ks_mode stat) = false -> fa_size r = ks_size stat;
  ds_fileid : fa_fileid r = ks_ino stat;
  ds_atime : fa_atime r = ks_atime stat;
  ds_mtime : fa_mtime r = ks_mtime stat;
  ds_ctime : fa_ctime r = ks_ctime stat;
}.

(** What the wire can carry of a [kstat]. *)
Record reportable `{KEnv} (ns ns' : user_namespace) (stat : kstat) : Prop := {
  rp_mode : 0 <= ks_mode stat < 2 ^ 16; rp_type : Z.land (ks_mode stat) S_IFMT ∈ wire_types;
  rp_nlink : is_u32 (ks_nlink stat);
  rp_uid : uid_maps ns ns' (ks_uid stat); rp_uidv : uid_valid (ks_uid stat) = true;
  rp_gid : gid_maps ns ns' (ks_gid stat); rp_gidv : gid_valid (ks_gid stat) = true;
  rp_size : is_u64 (ks_size stat); rp_ino : is_u64 (ks_ino stat);
  rp_atime : time_u32 (ks_atime stat); rp_mtime : time_u32 (ks_mtime stat); rp_ctime : time_u32 (ks_ctime stat);
}.

Lemma fattr_describes_same `{KEnv} old ns ns' fhp stat :
  reportable ns ns' stat ->
  ids_ok ns' (server_fattr ns fhp stat) /\
  describes_same stat (client_fattr old ns' (server_fattr ns fhp stat)).
Proof.
  intros [Hm Ht Hn Hu Huv Hg Hgv Hs Hi Ha Hmt Hc]. unfold uid_maps, gid_maps in *. split.
  { split; simpl; by rewrite ?Hu, ?Hg. }
  split; try (simpl; by (assumption || apply u32_id || apply u64_id || apply client_server_time)).
  - by apply mode_roundtrip.
  - intros E. simpl. rewrite E. by apply u64_id.
Qed.
