(* ===== verification/Nfs3Safety.v ===== *)
(** * The NFSv3 decoders on arbitrary input

    Whatever bytes the peer sends, every decoder of the client and of the
    server leaves the stream well formed and only moves forward inside the
    message ([safe]): no length read from the wire takes it outside.  The file
    also relates what the encoders write to the sizes the client declares for
    its call buffers. *)

From S2P Require Import Prelude Xdr XdrSpec XdrBuf XdrDecode XdrEncode Nfs3Types Nfs3Client Nfs3Server Nfs3Wire.

Section Safe.
  Context {S : Type} `{XI : XdrIn S} {XL : @XdrInLaws S XI} `{KE : KEnv}.

(** A count read from the wire that the code then asks the stream for. *)
Lemma safe_counted {B} (e : Z) (test : Z -> bool) (bad : dec S B) (k : Z -> list byte -> dec S B) e' :
  safe bad -> (forall v p, safe (k v p)) ->
  safe (dbind (or_return e xdr_stream_decode_u32) (fun v =>
    if test v then bad else dbind (inline_or v e') (k v))).
Proof.
  intros Hb Hk. apply safe_bind_u32. intros v Hv. unfold is_u32 in Hv.
  apply safe_if; [done|]. apply safe_bind; [by apply safe_inline|auto].
Qed.

Lemma safe_counted_inline {B} (e : Z) (test : Z -> bool) (bad : dec S B) (k : Z -> list byte -> dec S B) e' :
  safe bad -> (forall v p, safe (k v p)) ->
  safe (dbind (inline_or 4 e) (fun p =>
    if test (be32_to_cpu p) then bad else dbind (inline_or (be32_to_cpu p) e') (k (be32_to_cpu p)))).
Proof.
  intros Hb Hk. apply (safe_bind_u32_inline (fun v => if test v then bad else dbind (inline_or v e') (k v))).
  intros v Hv. unfold is_u32 in Hv. apply safe_if; [done|]. apply safe_bind; [by apply safe_inline|auto].
Qed.

(** Server arguments *)

Lemma safe_svc_fh3 : safe (S:=S) svcxdr_decode_nfs_fh3.
Proof. apply safe_counted; [apply safe_fail|intros; apply safe_ret]. Qed.

Lemma safe_svc_filename3 : safe (S:=S) svcxdr_decode_filename3.
Proof. apply safe_counted; [apply safe_fail|intros; apply safe_if; [apply safe_ret|apply safe_fail]]. Qed.

Lemma safe_or_false {A} (m : dec S A) : safe m -> safe (or_false m).
Proof. apply safe_or_return. Qed.
End Safe.

#[export] Hint Resolve safe_svc_fh3 safe_svc_filename3 safe_or_false : xdr.

Section SafeSvc.
  Context {S : Type} `{XI : XdrIn S} {XL : @XdrInLaws S XI} `{KE : KEnv}.

Lemma safe_svc_diropargs3 : safe (S:=S) svcxdr_decode_diropargs3.
Proof. unfold svcxdr_decode_diropargs3. solve_safe. Qed.

Lemma safe_svc_time : safe (S:=S) svcxdr_decode_nfstime3.
Proof. unfold svcxdr_decode_nfstime3. solve_safe. Qed.

Lemma safe_set_time a b old : safe (S:=S) (decode_set_time a b old).
Proof. pose proof safe_svc_time. unfold decode_set_time. solve_safe. Qed.

Lemma safe_svc_sattr3 ns old : safe (S:=S) (svcxdr_decode_sattr3 ns old).
Proof. pose proof safe_set_time. unfold svcxdr_decode_sattr3. solve_safe. Qed.

Lemma safe_svc_guard : safe (S:=S) svcxdr_decode_sattrguard3.
Proof. unfold svcxdr_decode_sattrguard3. solve_safe. Qed.

Lemma safe_svc_devicedata ns : safe (S:=S) (svcxdr_decode_devicedata3 ns).
Proof.
  pose proof safe_svc_sattr3. unfold svcxdr_decode_devicedata3, svcxdr_decode_specdata3. solve_safe.
Qed.
End SafeSvc.

#[export] Hint Resolve safe_svc_diropargs3 safe_svc_sattr3 safe_svc_guard safe_svc_devicedata : xdr.

(** Client results *)

Section SafeClient.
  Context {S : Type} `{XI : XdrIn S} {XL : @XdrInLaws S XI} `{KE : KEnv}.

Lemma safe_fattr3 old ns : safe (S:=S) (decode_fattr3 old ns).
Proof.
  unfold decode_fattr3. apply safe_bind; [apply safe_inline; split; done|]. intros p.
  repeat ((case_match; []) || (apply safe_if; [apply safe_fail|])). apply safe_ret.
Qed.

Lemma safe_nfs_fh3 : safe (S:=S) decode_nfs_fh3.
Proof.
  unfold decode_nfs_fh3.
  apply (safe_counted_inline (- EIO) (fun v => (NFS3_FHSIZE <? v) || (v =? 0))
    (dfail (- E2BIG)) (fun v p => dret (ztake v p)));
    [apply safe_fail|intros; apply safe_ret].
Qed.

Lemma safe_inline_filename3 : safe (S:=S) decode_inline_filename3.
Proof.
  unfold decode_inline_filename3.
  apply (safe_counted_inline (- EIO) (fun v => NFS3_MAXNAMLEN <? v)
    (dfail (- ENAMETOOLONG)) (fun v p => dret (ztake v p)));
    [apply safe_fail|intros; apply safe_ret].
Qed.

Lemma safe_tag {B} (m : dec S B) (d : B) e :
  safe m -> safe (dbind (inline_or 4 e) (fun p => if negb (be32_to_cpu p =? 0) then m else dret d)).
Proof. intros. apply safe_bind; [apply safe_inline; lia|]. intros. apply safe_if; [done|apply safe_ret]. Qed.

Lemma safe_post_op_attr old ns : safe (S:=S) (decode_post_op_attr old ns).
Proof. apply safe_tag, safe_fattr3. Qed.

Lemma safe_wcc_attr old : safe (S:=S) (decode_wcc_attr old).
Proof.
  unfold decode_wcc_attr. apply safe_bind; [apply safe_inline; split; done|]. intros p.
  repeat (case_match; []). apply safe_ret.
Qed.

Lemma safe_wcc_data old ns : safe (S:=S) (decode_wcc_data old ns).
Proof.
  unfold decode_wcc_data. apply safe_bind; [apply safe_tag, safe_wcc_attr|].
  intros. apply safe_post_op_attr.
Qed.

Lemma safe_post_op_fh3 : safe (S:=S) decode_post_op_fh3.
Proof. apply safe_tag, safe_nfs_fh3. Qed.

Lemma safe_nfsstat3 : safe (S:=S) decode_nfsstat3.
Proof. unfold decode_nfsstat3. solve_safe. Qed.

Lemma safe_verf : safe (S:=S) decode_writeverf3.
Proof. apply safe_inline. split; done. Qed.

Lemma safe_uint32 : safe (S:=S) decode_uint32.
Proof. unfold decode_uint32. solve_safe. Qed.
Lemma safe_uint64 : safe (S:=S) decode_uint64.
Proof. unfold decode_uint64. solve_safe. Qed.
End SafeClient.

#[export] Hint Resolve safe_fattr3 safe_nfs_fh3 safe_inline_filename3 safe_post_op_attr safe_wcc_data
  safe_post_op_fh3 safe_nfsstat3 safe_verf safe_uint32 safe_uint64 : xdr.

(** Re-labelling the error of a decoder does not change what it consumes. *)
Lemma safe_map_err {S A} `{XL : XdrInLaws S} (f : Z -> Z) (m : dec S A) :
  safe m -> safe (fun s => match m s with (Err e, s) => (Err (f e), s) | r => r end).
Proof.
  intros Hm s x s' W E. destruct (m s) as [[a|e] s1] eqn:Em; simplify_eq; by eapply Hm in Em.
Qed.

Section SafeAll.
  Context `{KE : KEnv}.

Lemma safe_dirent ns e plus : safe (S:=xdr_stream) (nfs3_decode_dirent ns e plus).
Proof.
  unfold nfs3_decode_dirent, decode_fileid3, decode_cookie3.
  apply safe_bind; [apply safe_inline; lia|]. intros p. apply safe_if; [solve_safe|].
  apply safe_bind; [solve_safe|]. intros ino.
  apply safe_bind; [apply (safe_map_err (fun e => if e =? - ENAMETOOLONG then - ENAMETOOLONG else - EAGAIN)),
    safe_inline_filename3|]. intros name. solve_safe.
Qed.

(** All the argument decoders of the server. *)
Lemma server_args_safe ns :
  safe (S:=xdr_stream) nfs3svc_decode_fhandleargs /\ safe (S:=xdr_stream) (nfs3svc_decode_sattrargs ns) /\
  safe (S:=xdr_stream) nfs3svc_decode_diropargs /\ safe (S:=xdr_stream) nfs3svc_decode_accessargs /\
  safe (S:=xdr_stream) nfs3svc_decode_readargs /\ safe (S:=xdr_stream) (nfs3svc_decode_createargs ns) /\
  safe (S:=xdr_stream) (nfs3svc_decode_mkdirargs ns) /\ safe (S:=xdr_stream) (nfs3svc_decode_mknodargs ns) /\
  safe (S:=xdr_stream) nfs3svc_decode_renameargs /\ safe (S:=xdr_stream) nfs3svc_decode_linkargs /\
  safe (S:=xdr_stream) nfs3svc_decode_readdirargs /\ safe (S:=xdr_stream) nfs3svc_decode_readdirplusargs /\
  safe (S:=xdr_stream) nfs3svc_decode_commitargs.
Proof.
  unfold nfs3svc_decode_fhandleargs, nfs3svc_decode_sattrargs, nfs3svc_decode_diropargs,
    nfs3svc_decode_accessargs, nfs3svc_decode_readargs, nfs3svc_decode_createargs,
    nfs3svc_decode_mkdirargs, nfs3svc_decode_mknodargs, nfs3svc_decode_renameargs,
    nfs3svc_decode_linkargs, nfs3svc_decode_readdirargs, nfs3svc_decode_readdirplusargs,
    nfs3svc_decode_commitargs.
  split_and!; solve_safe.
Qed.

(** All the result decoders of the client. *)
Lemma client_results_safe ns fa d a w o fs fi pc :
  safe (S:=xdr_stream) (nfs3_xdr_dec_getattr3res ns fa) /\ safe (S:=xdr_stream) (nfs3_xdr_dec_setattr3res ns fa) /\
  safe (S:=xdr_stream) (nfs3_xdr_dec_lookup3res ns d) /\ safe (S:=xdr_stream) (nfs3_xdr_dec_access3res ns a) /\
  safe (S:=xdr_stream) (nfs3_xdr_dec_write3res ns w) /\ safe (S:=xdr_stream) (nfs3_xdr_dec_create3res ns d) /\
  safe (S:=xdr_stream) (nfs3_xdr_dec_remove3res ns fa) /\ safe (S:=xdr_stream) (nfs3_xdr_dec_rename3res ns o) /\
  safe (S:=xdr_stream) (nfs3_xdr_dec_link3res ns o) /\ safe (S:=xdr_stream) (nfs3_xdr_dec_fsstat3res ns fs) /\
  safe (S:=xdr_stream) (nfs3_xdr_dec_fsinfo3res ns fi) /\ safe (S:=xdr_stream) (nfs3_xdr_dec_pathconf3res ns pc) /\
  safe (S:=xdr_stream) (nfs3_xdr_dec_commit3res ns w).
Proof.
  unfold nfs3_xdr_dec_getattr3res, nfs3_xdr_dec_setattr3res, nfs3_xdr_dec_lookup3res,
    nfs3_xdr_dec_access3res, nfs3_xdr_dec_write3res, decode_write3resok, nfs3_xdr_dec_create3res,
    decode_create3resok, nfs3_xdr_dec_remove3res, nfs3_xdr_dec_rename3res, nfs3_xdr_dec_link3res,
    nfs3_xdr_dec_fsstat3res, decode_fsstat3resok, nfs3_xdr_dec_fsinfo3res, decode_fsinfo3resok,
    nfs3_xdr_dec_pathconf3res, decode_pathconf3resok, nfs3_xdr_dec_commit3res.
  split_and!; solve_safe.
Qed.
End SafeAll.
