(* ===== verification/Nfs3Theorems.v ===== *)
(** * The NFSv3 codecs: main theorems

    What the client's call encoders write, the server's argument decoders read
    back, and what the server's result encoders write, the client's result
    decoders read back ([conveys]); what both do with hostile input; and how the
    encoded calls relate to the sizes the client declares for them. *)

From S2P Require Import Prelude Xdr XdrSpec XdrBuf XdrDecode XdrEncode.
From S2P Require Import Nfs3Types Nfs3Client Nfs3Server Nfs3Wire Nfs3Attr Nfs3Safety.

(** ** From the sender's buffer to the receiver's *)

(** A message that lies in the head is one fragment of the decode stream. *)
Lemma xdr_init_decode_contig x b :
  dec_buf_ok (xs_mem x) b -> xlen b <= iov_len (head b) ->
  stream_contig (xdr_init_decode x b None) = xlen b.
Proof.
  intros H Hl. destruct (xdr_init_decode_ok x b H) as (O & R & _).
  pose proof (stream_contig_range _ O) as C. pose proof (zlen_stream_rest _ O) as L.
  rewrite R, zlen_ztake, zlen_buf in L by apply H. pose proof (db_len _ _ H).
  pose proof (ok_head _ _ (db_ok _ _ H)) as (? & ? & ?).
  destruct (decide (xlen b = 0)); [lia|]. clear R C L O.
  unfold xdr_init_decode.
  set (x0 := x <| xs_buf := b |> <| xs_scratch := 0 |> <| xs_nwords := XDR_QUADLEN (xlen b) |>).
  assert (I : forall r x1, xdr_set_iov x0 IovHead 0 (xlen b) = (r, x1) -> r <> 0 /\ stream_contig x1 = xlen b).
  { intros r x1. unfold xdr_set_iov. change (iov_of (xs_buf x0) IovHead) with (head b).
    intros E. apply pair_equal_spec in E as [<- <-]. unfold stream_contig, field_upd. simpl.
    repeat case_match; zbool; split; simpl; lia. }
  destruct (xdr_set_iov x0 IovHead 0 (xlen b)) as [r x1]. destruct (I r x1 eq_refl) as [Hr Hc].
  by rewrite (proj2 (Z.eqb_neq r 0)).
Qed.

(** A message encoded into an empty call buffer and received, byte for
    byte, in the head of some other buffer is decoded to the value it was made
    from, with nothing left over.  The theorems on single messages establish
    the two hypotheses ([conveys]) for every call and reply. *)
Theorem message_transfer {A} (e : enc xdr_estream) (d : dec xdr_stream A) w v x b y rcv :
  encodes e w -> decodes d w v ->
  (* the sender's buffer *)
  buf_ok (es_mem x) b -> iov_len (head b) = 0 -> iov_len (tail b) = 0 -> page_len b = 0 ->
  page_base b = 0 -> xlen b = 0 -> iov_base (head b) + buflen b <= zlen (m_lin (es_mem x)) ->
  buflen b mod 4 = 0 -> es_page_ptr x = pages b - 1 -> pages b <= zlen (m_pages (es_mem x)) ->
  zlen w <= buflen b ->
  exists x0 x1, xdr_init_encode x b None = Some x0 /\ e x0 = Some x1 /\
    let sent := buf_bytes (es_mem (xdr_commit_encode x1)) (es_buf x1) in
    sent = w /\
    (* the receiver's buffer *)
    (dec_buf_ok (xs_mem y) rcv -> xlen rcv <= iov_len (head rcv) ->
     ztake (xlen rcv) (buf_bytes (xs_mem y) rcv) = sent ->
     exists y1, d (xdr_init_decode y rcv None) = (Ok v, y1) /\ stream_ok y1 /\ stream_rest y1 = []).
Proof.
  intros He Hd Hb Hh Ht Hp Hpb Hx Hm H4 Hpp Hpg Hw.
  pose proof (zlen_nonneg w).
  destruct (xdr_init_encode_ok x b) as (x0 & E0 & O0 & _ & B0 & R0); rewrite ?Hh, ?Z.sub_0_r; try (done || lia).
  destruct (He x0 O0) as (x1 & E1 & O1 & B1 & _); [simpl; lia|].
  assert (B : buf_bytes (es_mem (xdr_commit_encode x1)) (es_buf x1) = w).
  { change (xo_out x1 = w). rewrite B1. simpl xo_out. rewrite B0. unfold kvec_bytes. rewrite Hh.
    by rewrite ztake_le0. }
  exists x0, x1. split; [done|]. split; [done|]. cbv zeta. rewrite B. split; [done|].
  intros Hr Hl Hs. destruct (xdr_init_decode_ok y rcv Hr) as (Oy & Ry & _).
  pose proof (xdr_init_decode_contig y rcv Hr Hl) as Cy. rewrite Hs in Ry.
  destruct (Hd (xdr_init_decode y rcv None) []) as (y1 & D1 & W1 & L1 & _).
  - exact Oy.
  - by rewrite app_nil_r.
  - simpl. rewrite Cy, <- Hs, zlen_ztake. pose proof (db_len _ _ Hr). lia.
  - by exists y1.
Qed.

(** A GETATTR call for the handle [01 02]. *)
Definition sample_fh : nfs_fh := [x01; x02].
Definition sample_sender : xdr_estream :=
  mk_estream (mk_mem (replicate 64 x00) []) 0 (mk_buf (mk_kvec 0 0) (mk_kvec 0 0) 0 0 0 0 64 0) 0
    (Some IovHead) (LLin 0) 0 (-1).
Definition sample_snd : xdr_buf := mk_buf (mk_kvec 0 0) (mk_kvec 0 0) 0 0 0 0 64 0.
Definition sample_rcv : xdr_buf := mk_buf (mk_kvec 0 8) (mk_kvec 0 0) 0 0 0 0 0 8.
Definition sample_receiver : xdr_stream :=
  mk_stream (mk_mem (be32 2 ++ [x01; x02; x00; x00]) []) 0 sample_rcv 0 None 0 None 0.

Lemma sample_rcv_ok : dec_buf_ok (xs_mem sample_receiver) sample_rcv.
Proof. split; [split; [..|constructor| |]|..]; vm_compute; repeat split; discriminate. Qed.
Lemma sample_snd_ok : buf_ok (es_mem sample_sender) sample_snd.
Proof. split; [..|constructor| |]; vm_compute; repeat split; discriminate. Qed.
Lemma sample_fh_valid : valid_fh sample_fh.
Proof. vm_compute. split; [reflexivity|discriminate]. Qed.

Lemma message_transfer_witness :
  exists y1, nfs3svc_decode_fhandleargs (xdr_init_decode sample_receiver sample_rcv None) =
    (Ok (server_fh sample_fh), y1) /\ stream_rest y1 = [].
Proof.
  destruct (message_transfer (nfs3_xdr_enc_getattr3args sample_fh) nfs3svc_decode_fhandleargs
    (w_opaque sample_fh) (server_fh sample_fh) sample_sender sample_snd sample_receiver sample_rcv
    (fh_enc _ sample_fh_valid) (fh_dec _ sample_fh_valid) sample_snd_ok)
    as (x0 & x1 & _ & _ & S & R); try (vm_compute; (reflexivity || discriminate)).
  destruct R as (y1 & D & _ & N).
  - exact sample_rcv_ok.
  - vm_compute. discriminate.
  - rewrite S. vm_compute. reflexivity.
  - exists y1. split; [exact D|exact N].
Defined.

(** ** Calls *)

(** Sample arguments: the handle [01 02], the name "ab", and attributes that set
    the mode, the owner, the size and the modification time. *)
Definition sample_name : list byte := [x61; x62].
Definition sample_time : timespec64 := mk_time 1700000000 5.
Definition sample_iattr : iattr := mk_iattr (1 + 2 + 8 + 32 + 256) 0x81A4 1000 100 4096 zero_time sample_time.

Lemma sample_name_valid : valid_name sample_name.
Proof. vm_compute. repeat split; discriminate. Qed.

Lemma sample_sendable : sendable (H:=kenv_sample) init_user_ns init_user_ns sample_iattr.
Proof. split; vm_compute; repeat split; discriminate. Qed.

Section CallTheorems.
  Context `{KE : KEnv}.

(** C2: SETATTR.  The server decodes the client's call to the same handle and to
    attributes that ask for the same changes; a time guard arrives with its
    seconds (the server keeps no more of it). *)
Theorem setattr_call_roundtrip ns ns' args :
  valid_fh (sa_fh args) -> sendable ns ns' (sa_sattr args) -> time_u32 (sa_guardtime args) ->
  exists attrs, asks_same (sa_sattr args) attrs /\
  conveys (nfs3_xdr_enc_setattr3args ns args) (nfs3svc_decode_sattrargs ns')
    {| vsa_fh := server_fh (sa_fh args); vsa_attrs := attrs;
       vsa_check_guard := if sa_guard args =? 0 then 0 else 1;
       vsa_guardtime := if sa_guard args =? 0 then 0 else tv_sec (sa_guardtime args) |}.
Proof.
  intros Hf Hs [Ht _]. exists (server_iattr ns' (client_sattr (sa_sattr args) ns)).
  split; [by apply server_iattr_asks_same|].
  rewrite <- (u32_id (tv_sec (sa_guardtime args))) by done. by apply setattr_call.
Qed.

(** CREATE, in each of its modes: handle, name and mode arrive; UNCHECKED and
    GUARDED carry attributes that ask for the same, EXCLUSIVE the verifier. *)
Theorem create_call_roundtrip ns ns' args :
  valid_fh (ca_fh args) -> valid_name (ca_name args) -> zlen (ca_verifier args) = 8 ->
  0 <= ca_createmode args <= 2 -> sendable ns ns' (ca_sattr args) ->
  exists attrs, asks_same (ca_sattr args) attrs /\
  conveys (nfs3_xdr_enc_create3args ns args) (nfs3svc_decode_createargs ns')
    {| vca_fh := server_fh (ca_fh args); vca_name := ca_name args; vca_createmode := ca_createmode args;
       vca_attrs := if ca_createmode args =? NFS3_CREATE_EXCLUSIVE then zero_iattr else attrs;
       vca_verf := if ca_createmode args =? NFS3_CREATE_EXCLUSIVE then ca_verifier args else [] |}.
Proof.
  intros Hf Hn Hv Hm Hs. exists (server_iattr ns' (client_sattr (ca_sattr args) ns)).
  split; [by apply server_iattr_asks_same|]. by apply create_call.
Qed.

(** MKNOD and MKDIR.  The type and, for device nodes only, the device numbers
    arrive, with attributes that ask for the same. *)
Theorem mknod_mkdir_call_roundtrip ns ns' args dargs :
  valid_fh (mn_fh args) -> valid_name (mn_name args) -> sendable ns ns' (mn_sattr args) ->
  mn_type args ∈ [NF3CHR; NF3BLK; NF3SOCK; NF3FIFO] ->
  valid_fh (mk_fh dargs) -> valid_name (mk_name dargs) -> sendable ns ns' (mk_sattr dargs) ->
  let dev := (mn_type args =? NF3CHR) || (mn_type args =? NF3BLK) in
  (exists attrs, asks_same (mn_sattr args) attrs /\
   conveys (nfs3_xdr_enc_mknod3args ns args) (nfs3svc_decode_mknodargs ns')
     {| vmn_fh := server_fh (mn_fh args); vmn_name := mn_name args; vmn_ftype := mn_type args;
        vmn_major := if dev then u32 (MAJOR (mn_rdev args)) else 0;
        vmn_minor := if dev then u32 (MINOR (mn_rdev args)) else 0; vmn_attrs := attrs |}) /\
  (exists attrs, asks_same (mk_sattr dargs) attrs /\
   conveys (nfs3_xdr_enc_mkdir3args ns dargs) (nfs3svc_decode_mkdirargs ns')
     {| vca_fh := server_fh (mk_fh dargs); vca_name := mk_name dargs; vca_createmode := 0;
        vca_attrs := attrs; vca_verf := [] |}).
Proof.
  intros ? ? ? ? ? ? ? dev. split; eexists; split;
    [by apply server_iattr_asks_same|by apply mknod_call|by apply server_iattr_asks_same|by apply mkdir_call].
Qed.

(** The calls that name directory entries, LOOKUP (REMOVE and RMDIR send the
    same arguments), RENAME and LINK: every handle and name arrives unchanged
    and in its place. *)
Theorem name_calls_roundtrip dargs rargs largs :
  valid_fh (da_fh dargs) -> valid_name (da_name dargs) ->
  valid_fh (ra_old_dir rargs) -> valid_name (ra_old_name rargs) ->
  valid_fh (ra_new_dir rargs) -> valid_name (ra_new_name rargs) ->
  valid_fh (la_fromfh largs) -> valid_fh (la_tofh largs) -> valid_name (la_toname largs) ->
  conveys (nfs3_xdr_enc_lookup3args dargs) nfs3svc_decode_diropargs
    {| vda_fh := server_fh (da_fh dargs); vda_name := da_name dargs |} /\
  conveys (nfs3_xdr_enc_remove3args dargs) nfs3svc_decode_diropargs
    {| vda_fh := server_fh (da_fh dargs); vda_name := da_name dargs |} /\
  conveys (nfs3_xdr_enc_rename3args rargs) nfs3svc_decode_renameargs
    {| vrn_ffh := server_fh (ra_old_dir rargs); vrn_fname := ra_old_name rargs;
       vrn_tfh := server_fh (ra_new_dir rargs); vrn_tname := ra_new_name rargs |} /\
  conveys (nfs3_xdr_enc_link3args largs) nfs3svc_decode_linkargs
    {| vla_ffh := server_fh (la_fromfh largs); vla_tfh := server_fh (la_tofh largs);
       vla_tname := la_toname largs |}.
Proof.
  intros. split_and!; [by apply lookup_call|by apply lookup_call|by apply rename_call|by apply link_call].
Qed.

(** GETATTR, ACCESS, READ, COMMIT, READDIR and READDIRPLUS: handles, 64-bit
    offsets and cookies, 32-bit counts and verifiers arrive unchanged. *)
Theorem io_calls_roundtrip fh aargs pargs cargs rargs :
  valid_fh fh -> valid_fh (aa_fh aargs) -> is_u32 (aa_access aargs) ->
  valid_fh (pg_fh pargs) -> is_u64 (pg_offset pargs) -> is_u32 (pg_count pargs) ->
  valid_fh (cm_fh cargs) -> is_u64 (cm_offset cargs) -> is_u32 (cm_count cargs) ->
  valid_fh (rd_fh rargs) -> is_u64 (rd_cookie rargs) -> is_u32 (rd_count rargs) -> zlen (rd_verf rargs) = 8 ->
  conveys (nfs3_xdr_enc_getattr3args fh) nfs3svc_decode_fhandleargs (server_fh fh) /\
  conveys (nfs3_xdr_enc_access3args aargs) nfs3svc_decode_accessargs
    {| vaa_fh := server_fh (aa_fh aargs); vaa_access := aa_access aargs |} /\
  conveys (encode_read3args pargs) nfs3svc_decode_readargs
    {| vra_fh := server_fh (pg_fh pargs); vra_offset := pg_offset pargs; vra_count := pg_count pargs |} /\
  conveys (nfs3_xdr_enc_commit3args cargs) nfs3svc_decode_commitargs
    {| vcm_fh := server_fh (cm_fh cargs); vcm_offset := cm_offset cargs; vcm_count := cm_count cargs |} /\
  conveys (encode_readdir3args rargs) nfs3svc_decode_readdirargs
    {| vrd_fh := server_fh (rd_fh rargs); vrd_cookie := rd_cookie rargs;
       vrd_count := rd_count rargs; vrd_verf := rd_verf rargs |} /\
  conveys (encode_readdirplus3args rargs) nfs3svc_decode_readdirplusargs
    {| vrd_fh := server_fh (rd_fh rargs); vrd_cookie := rd_cookie rargs;
       vrd_count := rd_count rargs; vrd_verf := rd_verf rargs |}.
Proof.
  intros Hf Ha Ua Hp Op Cp Hc Oc Cc Hr Or Cr Hv.
  pose proof (access_call aargs Ha) as Ka. pose proof (read_call pargs Hp) as Kp.
  pose proof (commit_call cargs Hc) as Kc. pose proof (readdir_call rargs Hr Hv) as Kr.
  pose proof (readdirplus_call rargs Hr Hv) as Kq.
  rewrite ?u64_id, ?u32_id in * by done. split_and!; try done.
  exists (w_opaque fh). split; [by apply fh_enc|by apply fh_dec].
Qed.
End CallTheorems.

Definition sample_sattrargs : nfs3_sattrargs :=
  {| sa_fh := sample_fh; sa_sattr := sample_iattr; sa_guard := 1; sa_guardtime := sample_time |}.

Lemma setattr_call_roundtrip_witness :
  exists attrs, ia_size attrs = 4096 /\ ia_uid attrs = 1000 /\ has (ia_valid attrs) ATTR_GID = false /\
  conveys (nfs3_xdr_enc_setattr3args init_user_ns sample_sattrargs)
    (nfs3svc_decode_sattrargs (KE:=kenv_sample) init_user_ns)
    {| vsa_fh := server_fh sample_fh; vsa_attrs := attrs; vsa_check_guard := 1; vsa_guardtime := 1700000000 |}.
Proof.
  destruct (setattr_call_roundtrip (KE:=kenv_sample) init_user_ns init_user_ns sample_sattrargs
    sample_fh_valid sample_sendable) as (attrs & AS & C); [vm_compute; repeat split; discriminate|].
  exists attrs. split; [exact (as_size _ _ AS eq_refl)|]. split; [exact (as_uid _ _ AS eq_refl)|].
  split; [|exact C]. rewrite (as_bits _ _ AS); [reflexivity|rewrite !elem_of_cons; auto 10].
Defined.

Definition sample_createargs : nfs3_createargs :=
  {| ca_fh := sample_fh; ca_name := sample_name; ca_sattr := sample_iattr; ca_createmode := 1;
     ca_verifier := replicate 8 x11 |}.

Lemma create_call_roundtrip_witness :
  exists attrs, ia_mode attrs = 0x1A4 /\
  conveys (nfs3_xdr_enc_create3args init_user_ns sample_createargs)
    (nfs3svc_decode_createargs (KE:=kenv_sample) init_user_ns)
    {| vca_fh := server_fh sample_fh; vca_name := sample_name; vca_createmode := 1;
       vca_attrs := attrs; vca_verf := [] |}.
Proof.
  destruct (create_call_roundtrip (KE:=kenv_sample) init_user_ns init_user_ns sample_createargs
    sample_fh_valid sample_name_valid eq_refl ltac:(vm_compute; split; discriminate) sample_sendable)
    as (attrs & AS & C).
  exists attrs. split; [|exact C]. rewrite (as_mode _ _ AS); reflexivity.
Defined.

Definition sample_mknodargs : nfs3_mknodargs :=
  {| mn_fh := sample_fh; mn_name := sample_name; mn_type := NF3CHR; mn_sattr := sample_iattr; mn_rdev := 0x500003 |}.
Definition sample_mkdirargs : nfs3_mkdirargs :=
  {| mk_fh := sample_fh; mk_name := sample_name; mk_sattr := sample_iattr |}.

Lemma mknod_mkdir_call_roundtrip_witness :
  exists attrs, asks_same sample_iattr attrs /\
  conveys (nfs3_xdr_enc_mknod3args (KE:=kenv_sample) init_user_ns sample_mknodargs)
    (nfs3svc_decode_mknodargs (KE:=kenv_sample) init_user_ns)
    {| vmn_fh := server_fh sample_fh; vmn_name := sample_name; vmn_ftype := NF3CHR;
       vmn_major := 5; vmn_minor := 3; vmn_attrs := attrs |}.
Proof.
  refine (proj1 (mknod_mkdir_call_roundtrip (KE:=kenv_sample) init_user_ns init_user_ns
    sample_mknodargs sample_mkdirargs sample_fh_valid sample_name_valid sample_sendable _
    sample_fh_valid sample_name_valid sample_sendable)).
  rewrite !elem_of_cons; auto 10.
Defined.

Lemma name_calls_roundtrip_witness :
  conveys (nfs3_xdr_enc_rename3args {| ra_old_dir := sample_fh; ra_old_name := [x61];
             ra_new_dir := sample_fh; ra_new_name := sample_name |}) nfs3svc_decode_renameargs
    {| vrn_ffh := server_fh sample_fh; vrn_fname := [x61]; vrn_tfh := server_fh sample_fh;
       vrn_tname := sample_name |}.
Proof.
  refine (proj1 (proj2 (proj2 (name_calls_roundtrip {| da_fh := sample_fh; da_name := sample_name |}
    {| ra_old_dir := sample_fh; ra_old_name := [x61]; ra_new_dir := sample_fh; ra_new_name := sample_name |}
    {| la_fromfh := sample_fh; la_tofh := sample_fh; la_toname := sample_name |}
    sample_fh_valid sample_name_valid sample_fh_valid _ sample_fh_valid sample_name_valid
    sample_fh_valid sample_fh_valid sample_name_valid)))).
  vm_compute. repeat split; discriminate.
Defined.

Lemma io_calls_roundtrip_witness :
  conveys (encode_read3args {| pg_fh := sample_fh; pg_offset := 2 ^ 40; pg_count := 4096; pg_pgbase := 0;
             pg_pages := 0; pg_replen := 0; pg_stable := 0 |}) nfs3svc_decode_readargs
    {| vra_fh := server_fh sample_fh; vra_offset := 2 ^ 40; vra_count := 4096 |}.
Proof.
  refine (proj1 (proj2 (proj2 (io_calls_roundtrip sample_fh {| aa_fh := sample_fh; aa_access := 31 |}
    {| pg_fh := sample_fh; pg_offset := 2 ^ 40; pg_count := 4096; pg_pgbase := 0; pg_pages := 0;
       pg_replen := 0; pg_stable := 0 |}
    {| cm_fh := sample_fh; cm_offset := 0; cm_count := 0 |}
    {| rd_fh := sample_fh; rd_cookie := 7; rd_verf := replicate 8 x11; rd_count := 512; rd_pages := 0 |}
    sample_fh_valid sample_fh_valid _ sample_fh_valid _ _ sample_fh_valid _ _ sample_fh_valid _ _ eq_refl))));
  vm_compute; repeat split; discriminate.
Defined.

(** ** Replies *)

Section ReplyTheorems.
  Context `{KE : KEnv}.

(** C5: GETATTR.  On success the client returns 0 and keeps attributes that
    describe the file as the server's do: mode with file type, link count, owner
    and group, size, file id and times; on an error status it returns the error
    number of that status and its attributes stay as they were. *)
Theorem getattr_reply_roundtrip ns ns' resp old :
  let stat := leased (vas_fh resp) (vas_stat resp) in
  is_u32 (vas_status resp) -> reportable ns ns' stat ->
  exists fattr, describes_same stat fattr /\
  conveys (nfs3svc_encode_getattrres ns resp) (nfs3_xdr_dec_getattr3res ns' old)
    (if vas_status resp =? NFS_OK then (0, fattr) else (nfs3_stat_to_errno (vas_status resp), old)).
Proof.
  intros stat Hs Hr. destruct (fattr_describes_same old ns ns' (vas_fh resp) stat Hr) as [I D].
  eexists. split; [exact D|]. pose proof (getattr_reply ns ns' resp old Hs I) as C. unfold ret_of in C.
  by destruct (vas_status resp =? NFS_OK).
Qed.

(** LOOKUP and CREATE.  The client keeps the new handle and the attributes of
    object and directory that the server could report (each may be absent); on
    an error it keeps the directory's only.  Its return value is 0 or the error
    number of the status. *)
Theorem dirop_replies_roundtrip ns ns' resp old :
  let ok := vdr_status resp =? NFS_OK in
  let da := server_post_op ns (vdr_dirfh resp) in let fa := server_post_op ns (vdr_fh resp) in
  let d := server_wcc ns (vdr_dirfh resp) in
  is_u32 (vdr_status resp) -> valid_fh (fh_handle (vdr_fh resp)) ->
  ids_ok_opt ns' da -> ids_ok_opt ns' fa -> ids_ok_opt ns' (snd d) ->
  let res dir :=
    (ret_of (vdr_status resp),
     {| dr_dir_attr := dir; dr_fh := if ok then fh_handle (vdr_fh resp) else dr_fh old;
        dr_fattr := if ok then client_post (dr_fattr old) ns' fa else dr_fattr old |}) in
  conveys (nfs3svc_encode_lookupres ns resp) (nfs3_xdr_dec_lookup3res ns' old)
    (res (client_post (dr_dir_attr old) ns' da)) /\
  conveys (nfs3svc_encode_createres ns resp) (nfs3_xdr_dec_create3res ns' old)
    (res (client_wcc (dr_dir_attr old) ns' d)).
Proof. intros. split; [by apply lookup_reply|by apply create_reply]. Qed.

(** WRITE and COMMIT.  The count, the commitment level and the 8-byte verifier
    arrive, WRITE returns the count as its value, and the weak cache consistency
    data is applied whatever the status. *)
Theorem write_commit_replies_roundtrip ns ns' resp cresp old :
  let d := server_wcc ns (vwr_fh resp) in let dc := server_wcc ns (vcr_fh cresp) in
  is_u32 (vwr_status resp) -> ids_ok_opt ns' (snd d) -> 0 <= vwr_count resp < 2 ^ 31 ->
  0 <= vwr_committed resp <= NFS_FILE_SYNC -> zlen (vwr_verf resp) = 8 ->
  is_u32 (vcr_status cresp) -> ids_ok_opt ns' (snd dc) -> zlen (vcr_verf cresp) = 8 ->
  let res := old <| wr_fattr := client_wcc (wr_fattr old) ns' d |> <| wr_op_status := vwr_status resp |> in
  let resc := old <| wr_fattr := client_wcc (wr_fattr old) ns' dc |> <| wr_op_status := vcr_status cresp |> in
  conveys (nfs3svc_encode_writeres ns resp) (nfs3_xdr_dec_write3res ns' old)
    (if vwr_status resp =? NFS_OK
     then (vwr_count resp, res <| wr_count := vwr_count resp |> <| wr_committed := vwr_committed resp |>
                               <| wr_verifier := vwr_verf resp |>)
     else (nfs3_stat_to_errno (vwr_status resp), res)) /\
  conveys (nfs3svc_encode_commitres ns cresp) (nfs3_xdr_dec_commit3res ns' old)
    (ret_of (vcr_status cresp),
     if vcr_status cresp =? NFS_OK
     then resc <| wr_verifier := vcr_verf cresp |> <| wr_committed := NFS_FILE_SYNC |> else resc).
Proof.
  intros d dc Hs Hd Hn Hc Hv Hs' Hd' Hv' res resc. split; [|by apply commit_reply].
  pose proof (write_reply ns ns' resp old Hs Hd Hc Hv) as K.
  rewrite u32_id in K by (unfold is_u32; lia).
  rewrite (s32_small (vwr_count resp)) in K by lia. exact K.
Qed.

(** The replies that carry only attributes of the objects involved: SETATTR,
    REMOVE (and RMDIR), RENAME, LINK and ACCESS.  Before and after attributes
    arrive for each object in its place, whatever the status. *)
Theorem wcc_replies_roundtrip ns ns' resp old rresp rold lresp lold aresp aold :
  let d := server_wcc ns (vas_fh resp) in
  let d1 := server_wcc ns (vrr_ffh rresp) in let d2 := server_wcc ns (vrr_tfh rresp) in
  let lf := server_post_op ns (vlr_fh lresp) in let ld := server_wcc ns (vlr_tfh lresp) in
  let fa := server_post_op ns (var_fh aresp) in
  is_u32 (vas_status resp) -> ids_ok_opt ns' (snd d) ->
  is_u32 (vrr_status rresp) -> ids_ok_opt ns' (snd d1) -> ids_ok_opt ns' (snd d2) ->
  is_u32 (vlr_status lresp) -> ids_ok_opt ns' lf -> ids_ok_opt ns' (snd ld) ->
  is_u32 (var_status aresp) -> ids_ok_opt ns' fa -> is_u32 (var_access aresp) ->
  conveys (nfs3svc_encode_wccstat ns resp) (nfs3_xdr_dec_setattr3res ns' old)
    (ret_of (vas_status resp), client_wcc old ns' d) /\
  conveys (nfs3svc_encode_wccstat ns resp) (nfs3_xdr_dec_remove3res ns' old)
    (ret_of (vas_status resp), client_wcc old ns' d) /\
  conveys (nfs3svc_encode_renameres ns rresp) (nfs3_xdr_dec_rename3res ns' rold)
    (ret_of (vrr_status rresp), (client_wcc (fst rold) ns' d1, client_wcc (snd rold) ns' d2)) /\
  conveys (nfs3svc_encode_linkres ns lresp) (nfs3_xdr_dec_link3res ns' lold)
    (ret_of (vlr_status lresp), (client_post (fst lold) ns' lf, client_wcc (snd lold) ns' ld)) /\
  conveys (nfs3svc_encode_accessres ns aresp) (nfs3_xdr_dec_access3res ns' aold)
    (ret_of (var_status aresp),
     (client_post (fst aold) ns' fa,
      if var_status aresp =? NFS_OK then var_access aresp else snd aold)).
Proof.
  intros d d1 d2 lf ld fa ? ? ? ? ? ? ? ? Hs Hf Ha. pose proof (access_reply ns ns' aresp aold Hs Hf) as K.
  rewrite u32_id in K by done.
  split_and!; [by apply wccstat_reply|by apply remove_reply|by apply rename_reply|by apply link_reply|exact K].
Qed.

(** FSSTAT, FSINFO and PATHCONF.  Byte counts are block counts times the block
    size; transfer limits, file counts and name limits arrive unchanged, and the
    lease time, change type and xattr support are what NFSv3 implies. *)
Theorem fs_replies_roundtrip ns ns' sresp sold iresp iold presp pold :
  let s := vfs_stats sresp in
  is_u32 (vfs_status sresp) -> is_u32 (vfi_status iresp) -> is_u32 (vpc_status presp) ->
  conveys (nfs3svc_encode_fsstatres ns sresp) (nfs3_xdr_dec_fsstat3res ns' sold)
    (ret_of (vfs_status sresp),
     if vfs_status sresp =? NFS_OK
     then mk_fsstat (ft_fattr sold) (u64 (u64 (f_bsize s) * f_blocks s)) (u64 (u64 (f_bsize s) * f_bfree s))
            (u64 (u64 (f_bsize s) * f_bavail s)) (u64 (f_files s)) (u64 (f_ffree s)) (u64 (f_ffree s))
     else sold) /\
  conveys (nfs3svc_encode_fsinfores ns iresp) (nfs3_xdr_dec_fsinfo3res ns' iold)
    (ret_of (vfi_status iresp),
     if vfi_status iresp =? NFS_OK
     then mk_fsinfo (fi_fattr iold) (u32 (f_rtmax iresp)) (u32 (f_rtpref iresp)) (u32 (f_rtmult iresp))
            (u32 (f_wtmax iresp)) (u32 (f_wtpref iresp)) (u32 (f_wtmult iresp)) (u32 (f_dtpref iresp))
            (u64 (f_maxfilesize iresp)) nfs3svc_time_delta 0 NFS4_CHANGE_TYPE_IS_UNDEFINED 0
     else iold) /\
  conveys (nfs3svc_encode_pathconfres ns presp) (nfs3_xdr_dec_pathconf3res ns' pold)
    (ret_of (vpc_status presp),
     if vpc_status presp =? NFS_OK
     then mk_pathconf (pc_fattr pold) (u32 (p_link_max presp)) (u32 (p_name_max presp)) else pold).
Proof. intros. split_and!; [by apply fsstat_reply|by apply fsinfo_reply|by apply pathconf_reply]. Qed.
End ReplyTheorems.

(** A handle whose dentry has an inode, with attributes before and after. *)
Definition sample_stat : kstat :=
  mk_kstat 0x81A4 1 1000 100 4096 8 0 77 sample_time sample_time sample_time.
Definition sample_svc_fh : svc_fh :=
  mk_svc_fh sample_fh NFS3_FHSIZE (Some 1) zero_export 0 false true true 100 sample_time sample_time sample_stat.
Definition sample_fattr : nfs_fattr :=
  mk_fattr 0 0 0 0 0 0 0 0 0 0 0 0 zero_time zero_time zero_time 0 0 0 zero_time zero_time.

Lemma sample_reportable : reportable (H:=kenv_sample) init_user_ns init_user_ns sample_stat.
Proof.
  split; try (vm_compute; repeat split; discriminate).
  unfold wire_types. rewrite !elem_of_cons. auto 10.
Qed.

Lemma getattr_reply_roundtrip_witness :
  exists fattr, fa_size fattr = 4096 /\ fa_mode fattr = 0x81A4 /\
  conveys (nfs3svc_encode_getattrres (KE:=kenv_sample) init_user_ns
             {| vas_status := 0; vas_fh := sample_svc_fh; vas_stat := sample_stat |})
    (nfs3_xdr_dec_getattr3res (KE:=kenv_sample) init_user_ns sample_fattr) (0, fattr).
Proof.
  destruct (getattr_reply_roundtrip (KE:=kenv_sample) init_user_ns init_user_ns
    {| vas_status := 0; vas_fh := sample_svc_fh; vas_stat := sample_stat |} sample_fattr) as (f & D & C).
  - vm_compute. split; [discriminate|reflexivity].
  - exact sample_reportable.
  - exists f. split; [exact (ds_size _ _ D eq_refl)|]. split; [exact (ds_mode _ _ D)|exact C].
Defined.

Lemma dirop_replies_roundtrip_witness :
  conveys (nfs3svc_encode_lookupres (KE:=kenv_sample) init_user_ns
             {| vdr_status := 0; vdr_dirfh := sample_svc_fh; vdr_fh := sample_svc_fh |})
    (nfs3_xdr_dec_lookup3res (KE:=kenv_sample) init_user_ns (mk_diropres sample_fattr [] sample_fattr))
    (0, {| dr_dir_attr := client_post (KE:=kenv_sample) sample_fattr init_user_ns
             (server_post_op (KE:=kenv_sample) init_user_ns sample_svc_fh);
           dr_fh := sample_fh;
           dr_fattr := client_post (KE:=kenv_sample) sample_fattr init_user_ns
             (server_post_op (KE:=kenv_sample) init_user_ns sample_svc_fh) |}).
Proof.
  refine (proj1 (dirop_replies_roundtrip (KE:=kenv_sample) init_user_ns init_user_ns
    {| vdr_status := 0; vdr_dirfh := sample_svc_fh; vdr_fh := sample_svc_fh |}
    (mk_diropres sample_fattr [] sample_fattr) _ sample_fh_valid _ _ _));
  vm_compute; repeat split; discriminate.
Defined.

Lemma write_commit_replies_roundtrip_witness :
  let old := mk_writeres sample_fattr 0 0 [] 0 in
  let res := old <| wr_fattr := client_wcc (KE:=kenv_sample) sample_fattr init_user_ns
                       (server_wcc (KE:=kenv_sample) init_user_ns sample_svc_fh) |> <| wr_op_status := 0 |> in
  conveys (nfs3svc_encode_writeres (KE:=kenv_sample) init_user_ns
             {| vwr_status := 0; vwr_fh := sample_svc_fh; vwr_count := 4096; vwr_committed := 2;
                vwr_verf := replicate 8 x11 |})
    (nfs3_xdr_dec_write3res (KE:=kenv_sample) init_user_ns old)
    (4096, res <| wr_count := 4096 |> <| wr_committed := 2 |> <| wr_verifier := replicate 8 x11 |>).
Proof.
  refine (proj1 (write_commit_replies_roundtrip (KE:=kenv_sample) init_user_ns init_user_ns
    {| vwr_status := 0; vwr_fh := sample_svc_fh; vwr_count := 4096; vwr_committed := 2;
       vwr_verf := replicate 8 x11 |}
    {| vcr_status := 5; vcr_fh := sample_svc_fh; vcr_verf := replicate 8 x11 |}
    (mk_writeres sample_fattr 0 0 [] 0) _ _ _ _ eq_refl _ _ eq_refl));
  vm_compute; repeat split; discriminate.
Defined.

Lemma wcc_replies_roundtrip_witness :
  conveys (nfs3svc_encode_wccstat (KE:=kenv_sample) init_user_ns
             {| vas_status := 70; vas_fh := sample_svc_fh; vas_stat := sample_stat |})
    (nfs3_xdr_dec_setattr3res (KE:=kenv_sample) init_user_ns sample_fattr)
    (- ESTALE, client_wcc (KE:=kenv_sample) sample_fattr init_user_ns
       (server_wcc (KE:=kenv_sample) init_user_ns sample_svc_fh)).
Proof.
  refine (proj1 (wcc_replies_roundtrip (KE:=kenv_sample) init_user_ns init_user_ns
    {| vas_status := 70; vas_fh := sample_svc_fh; vas_stat := sample_stat |} sample_fattr
    {| vrr_status := 0; vrr_ffh := sample_svc_fh; vrr_tfh := sample_svc_fh |} (sample_fattr, sample_fattr)
    {| vlr_status := 0; vlr_tfh := sample_svc_fh; vlr_fh := sample_svc_fh |} (sample_fattr, sample_fattr)
    {| var_status := 0; var_fh := sample_svc_fh; var_access := 31 |} (sample_fattr, 0)
    _ _ _ _ _ _ _ _ _ _ _));
  vm_compute; repeat split; discriminate.
Defined.

Lemma fs_replies_roundtrip_witness :
  conveys (nfs3svc_encode_pathconfres (KE:=kenv_sample) init_user_ns
             {| vpc_status := 0; p_link_max := 255; p_name_max := 255; p_no_trunc := 0;
                p_chown_restricted := 1; p_case_insensitive := 0; p_case_preserving := 1 |})
    (nfs3_xdr_dec_pathconf3res (KE:=kenv_sample) init_user_ns (mk_pathconf sample_fattr 0 0))
    (0, mk_pathconf sample_fattr 255 255).
Proof.
  refine (proj2 (proj2 (fs_replies_roundtrip (KE:=kenv_sample) init_user_ns init_user_ns
    {| vfs_status := 0; vfs_stats := {| f_bsize := 4096; f_blocks := 10; f_bfree := 5; f_bavail := 4;
         f_files := 3; f_ffree := 2 |}; vfs_invarsec := 0 |} (mk_fsstat sample_fattr 0 0 0 0 0 0)
    {| vfi_status := 5; f_rtmax := 0; f_rtpref := 0; f_rtmult := 0; f_wtmax := 0; f_wtpref := 0;
       f_wtmult := 0; f_dtpref := 0; f_maxfilesize := 0; f_properties := 0 |}
    (mk_fsinfo sample_fattr 0 0 0 0 0 0 0 0 zero_time 0 0 0)
    {| vpc_status := 0; p_link_max := 255; p_name_max := 255; p_no_trunc := 0;
       p_chown_restricted := 1; p_case_insensitive := 0; p_case_preserving := 1 |}
    (mk_pathconf sample_fattr 0 0) _ _ _)));
  vm_compute; repeat split; discriminate.
Defined.

(** ** Hostile input *)

Section Hostile.
  Context `{KE : KEnv}.



(** The server accepts a handle of 1 to 64 bytes followed by a name of 1 to
    255 bytes without NUL and slash, and refuses the arguments otherwise. *)
Theorem server_checks_diropargs h name :
  zlen h < 2 ^ 32 - 3 -> zlen name < 2 ^ 32 - 3 ->
  let good := (0 <? zlen h) && (zlen h <=? NFS3_FHSIZE) &&
              (0 <? zlen name) && (zlen name <=? NFS3_MAXNAMLEN) && name_ok name in
  if good
  then decodes (S:=xdr_stream) nfs3svc_decode_diropargs (w_opaque h ++ w_opaque name)
         {| vda_fh := server_fh h; vda_name := name |}
  else rejects (S:=xdr_stream) nfs3svc_decode_diropargs (w_opaque h ++ w_opaque name) 0.
Proof.
  intros Lh Ln good. pose proof (zlen_nonneg h). pose proof (zlen_nonneg name).
  destruct good eqn:G; unfold good in G.
  - rewrite !andb_true_iff, !Z.ltb_lt, !Z.leb_le in G. destruct G as ((((? & ?) & ?) & ?) & ?).
    dlast ltac:(by apply dirop_dec).
  - apply rejects_bind_l. destruct (decide (0 < zlen h <= NFS3_FHSIZE)).
    + eapply rejects_bind_r; [by apply decodes_svc_fh3|]. apply rejects_bind_l, rejects_svc_filename3; [done|].
      unfold NFS3_MAXNAMLEN, NFS3_FHSIZE in *.
      rewrite !andb_false_iff, !Z.ltb_ge, !Z.leb_gt in G. destruct G as [[[[?|?]|?]|?]|?]; [lia|lia|..].
      * left. lia.
      * right. left. lia.
      * auto.
    + apply rejects_bind_l. intros s r W R C. rewrite <- !app_assoc in R. autorewrite with nfs_len in C.
      pose proof (align4_range (zlen name)). pose proof (align4_range (zlen h)).
      destruct (decodes_word (zlen h) s (w_fixed h ++ w_opaque name ++ r) W) as (s1 & E1 & W1 & _).
      { unfold w_opaque at 1 in R. rewrite <- app_assoc in R. exact R. }
      { autorewrite with nfs_len. lia. }
      exists s1. unfold svcxdr_decode_nfs_fh3, dbind at 1. rewrite E1, u32_id by (unfold is_u32; lia).
      unfold NFS3_FHSIZE in *. destruct (Z.eqb_spec (zlen h) 0); [done|].
      by rewrite (proj2 (Z.ltb_lt 64 (zlen h))) by lia.
Qed.

(** Attributes whose owner or group has no valid mapping in the client's
    namespace are refused with [-EINVAL], and the client's attributes are not
    changed. *)
Theorem client_refuses_unmapped_ids ns old a :
  ~ ids_ok ns a ->
  rejects (S:=xdr_stream) (nfs3_xdr_dec_getattr3res ns old) (be32 NFS_OK ++ w_fattr3 a) (- EINVAL).
Proof.
  intros H. eapply rejects_bind_r; [by apply (status_dec 0)|]. cbn. apply rejects_bind_l.
  by apply rejects_fattr3.
Qed.
End Hostile.

Lemma server_checks_diropargs_witness :
  rejects (S:=xdr_stream) nfs3svc_decode_diropargs (w_opaque sample_fh ++ w_opaque [x2e; x2e; x2f]) 0 /\
  decodes (S:=xdr_stream) nfs3svc_decode_diropargs (w_opaque sample_fh ++ w_opaque sample_name)
    {| vda_fh := server_fh sample_fh; vda_name := sample_name |}.
Proof.
  split.
  - exact (server_checks_diropargs sample_fh [x2e; x2e; x2f] eq_refl eq_refl).
  - exact (server_checks_diropargs sample_fh sample_name eq_refl eq_refl).
Defined.

(** Attributes owned by uid 2^32 - 1, which is no valid uid. *)
Definition sample_nobody : fattr3 :=
  {| f3_type := NF3REG; f3_mode := 0; f3_nlink := 1; f3_uid := 2 ^ 32 - 1; f3_gid := 0; f3_size := 0;
     f3_used := 0; f3_rdev1 := 0; f3_rdev2 := 0; f3_fsid := 0; f3_fileid := 1;
     f3_atime := zero_time; f3_mtime := zero_time; f3_ctime := zero_time |}.

Lemma client_refuses_unmapped_ids_witness :
  rejects (S:=xdr_stream) (nfs3_xdr_dec_getattr3res (KE:=kenv_sample) init_user_ns sample_fattr)
    (be32 0 ++ w_fattr3 sample_nobody) (- EINVAL).
Proof.
  apply (client_refuses_unmapped_ids (KE:=kenv_sample) init_user_ns sample_fattr sample_nobody).
  vm_compute. intros [H _]. discriminate H.
Defined.

(** ** Calls that end in page data *)

(** Setting flags of the buffer after the page data changes no byte. *)
Lemma encodes_last_flags {S} `{XL : XdrOutLaws S} (m : enc S) w pages base d f :
  encodes_last m w pages base d ->
  encodes_last (m >> (fun s => Some (xdr_or_flags f s))) w pages base d.
Proof.
  intros Hm s W I P L. destruct (Hm s W I P L) as (s1 & E & W1 & O).
  destruct (xo_or_flags_ok s1 f W1) as [W2 O2]. exists (xdr_or_flags f s1).
  unfold eseq. rewrite E. split_and!; try done. by rewrite O2.
Qed.

(** WRITE and SYMLINK.  The message is the fixed part followed by the bytes of
    the page array, padded with zeros to a word: for WRITE the handle, offset,
    count, stability and the count again, then the data; for SYMLINK the
    handle, name, attributes and path length, then the path. *)
Theorem page_calls_encoded ns (args : nfs_pgio_args) (sargs : nfs3_symlinkargs) data path :
  valid_fh (pg_fh args) -> zlen data = pg_count args ->
  valid_fh (sy_fromfh sargs) -> valid_name (sy_fromname sargs) -> zlen path = sy_pathlen sargs ->
  encodes_last (S:=xdr_estream) (nfs3_xdr_enc_write3args args)
    (w_opaque (pg_fh args) ++ be64 (pg_offset args) ++ be32 (pg_count args) ++ be32 (pg_stable args) ++
     be32 (pg_count args)) (pg_pages args) (pg_pgbase args) data /\
  encodes_last (S:=xdr_estream) (nfs3_xdr_enc_symlink3args ns sargs)
    ((w_opaque (sy_fromfh sargs) ++ w_opaque (sy_fromname sargs)) ++
     w_sattr3 (client_sattr (sy_sattr sargs) ns) ++ be32 (sy_pathlen sargs)) (sy_pages sargs) 0 path.
Proof.
  intros Hf Hd Hsf Hsn Hp. split.
  - apply encodes_last_flags. unfold encode_write3args. rewrite <- Hd.
    rewrite <- (app_nil_r (be64 _ ++ _)). apply encodes_seq_last; [by apply fh_enc|].
    apply encodes_seq_last; [by apply encodes_put|apply encodes_write_pages].
  - unfold nfs3_xdr_enc_symlink3args.
    apply (encodes_seq_last (encode_diropargs3 _ _) (encode_symlinkdata3 sargs ns >> _)); [by apply dirop_enc|].
    apply encodes_last_flags. unfold encode_symlinkdata3, encode_nfspath3. rewrite <- Hp.
    apply encodes_seq_last; [apply encodes_sattr3|]. rewrite <- (app_nil_r (be32 _)).
    apply encodes_seq_last; [apply encodes_uint32|apply encodes_write_pages].
Qed.

Lemma page_calls_encoded_witness :
  encodes_last (S:=xdr_estream)
    (nfs3_xdr_enc_write3args {| pg_fh := sample_fh; pg_offset := 10; pg_count := 3; pg_pgbase := 4094;
       pg_pages := 0; pg_replen := 0; pg_stable := 2 |})
    (w_opaque sample_fh ++ be64 10 ++ be32 3 ++ be32 2 ++ be32 3) 0 4094 [x01; x01; x02].
Proof.
  refine (proj1 (page_calls_encoded init_user_ns
    {| pg_fh := sample_fh; pg_offset := 10; pg_count := 3; pg_pgbase := 4094; pg_pages := 0;
       pg_replen := 0; pg_stable := 2 |}
    {| sy_fromfh := sample_fh; sy_fromname := sample_name; sy_pages := 0; sy_pathlen := 1; sy_sattr := sample_iattr |}
    [x01; x01; x02] [x2f] sample_fh_valid eq_refl sample_fh_valid sample_name_valid eq_refl)).
Defined.

(** ** Error numbers *)

Lemma errtbl_scan_miss tbl st :
  Forall (fun p => fst p <> s32 st) tbl -> errtbl_scan (tbl ++ [(- 1, - EIO)]) st = - EIO \/
  exists e, (- 1, e) ∈ tbl.
Proof.
  induction 1 as [|[s e] tbl Hs _ IH]; [by left|]. cbn [errtbl_scan app]. simpl in Hs.
  destruct (Z.eqb_spec s (- 1)) as [->|]; [right; exists e; by left|].
  rewrite (proj2 (Z.eqb_neq _ _)) by done. destruct IH as [|[e' ?]]; [by left|]. right. exists e'. by right.
Qed.

(** A status outside the table, read as an [int], meets none of its entries. *)
Lemma nfs3_stat_to_errno_miss st :
  is_u32 st -> st ∉ nfs_errtbl.*1 -> nfs3_stat_to_errno st = - EIO.
Proof.
  intros Hu Hn. unfold nfs3_stat_to_errno.
  assert (E : nfs_errtbl = take 29 nfs_errtbl ++ [(- 1, - EIO)]) by reflexivity.
  rewrite E. destruct (errtbl_scan_miss (take 29 nfs_errtbl) st) as [|[e He]]; [|done|].
  - apply Forall_forall. intros [s e] Hs. simpl. intros ->.
    assert (R : Forall (fun p : Z * Z => 0 <= fst p) (take 29 nfs_errtbl)) by (repeat constructor; simpl; done).
    rewrite Forall_forall in R. specialize (R _ Hs). simpl in R. unfold s32 in *. rewrite u32_id in * by done.
    destruct (Z.ltb_spec st (2 ^ 31)); [|unfold is_u32 in Hu; lia].
    apply Hn. rewrite E, fmap_app. apply elem_of_app. left. apply list_elem_of_fmap. apply list_elem_of_In in Hs. by exists (st, e).
  - exfalso. revert He. unfold nfs_errtbl. simpl. rewrite !elem_of_cons, elem_of_nil. intros H.
    repeat (destruct H as [H|H]; [discriminate H|]). exact H.
Qed.

(** [nfs3_stat_to_errno] gives every status of the table its entry, every
    other status [-EIO], and 0 for [NFS_OK] only. *)
Theorem nfs3_stat_to_errno_total st :
  is_u32 st ->
  (forall er, (st, er) ∈ nfs_errtbl -> nfs3_stat_to_errno st = er) /\
  (st ∉ nfs_errtbl.*1 -> nfs3_stat_to_errno st = - EIO) /\
  (nfs3_stat_to_errno st = 0 <-> st = NFS_OK) /\ nfs3_stat_to_errno st <= 0.
Proof.
  intros Hu.
  assert (Hit : forall er, (st, er) ∈ nfs_errtbl ->
    nfs3_stat_to_errno st = er /\ (er = 0 <-> st = NFS_OK) /\ er <= 0).
  { intros er. unfold nfs_errtbl. rewrite !elem_of_cons, elem_of_nil. unfold is_u32 in Hu.
    intros H. repeat (destruct H as [H|H]; [injection H as -> ->; try lia;
      (split; [reflexivity|]; split; [vm_compute; split; (done || discriminate)|vm_compute; discriminate])|]).
    done. }
  split; [intros er H; apply (Hit er H)|]. split; [by apply nfs3_stat_to_errno_miss|].
  destruct (decide (st ∈ nfs_errtbl.*1)) as [H|H].
  - apply list_elem_of_fmap in H as ([s er] & E & H). simpl in E. subst s.
    destruct (Hit er H) as (-> & ? & ?). done.
  - rewrite (nfs3_stat_to_errno_miss st Hu H). split; [|done]. split; [done|]. intros ->. destruct H.
    by left.
Qed.

Lemma nfs3_stat_to_errno_total_witness :
  nfs3_stat_to_errno 70 = - ESTALE /\ nfs3_stat_to_errno (2 ^ 32 - 1) = - EIO.
Proof.
  split.
  - refine (proj1 (nfs3_stat_to_errno_total 70 _) (- ESTALE) _); [vm_compute; split; [discriminate|reflexivity]|].
    unfold nfs_errtbl. rewrite !elem_of_cons. auto 30.
  - refine (proj1 (proj2 (nfs3_stat_to_errno_total (2 ^ 32 - 1) _)) _);
      [vm_compute; split; [discriminate|reflexivity]|].
    unfold nfs_errtbl. simpl. rewrite !elem_of_cons, elem_of_nil. intros H.
    repeat (destruct H as [H|H]; [discriminate H|]). exact H.
Defined.

(** ** Sizes of the calls *)

Lemma zlen_sattr3 sa : zlen (w_sattr3 sa) <= 60.
Proof.
  assert (A : forall o, zlen (w_opt be32 o) <= 8) by (by intros []).
  assert (B : forall o, zlen (w_opt be64 o) <= 12) by (by intros []).
  assert (C : forall t, zlen (w_set_time t) <= 12) by (by intros []).
  unfold w_sattr3. rewrite !zlen_app.
  pose proof (A (s3_mode sa)). pose proof (A (s3_uid sa)). pose proof (A (s3_gid sa)).
  pose proof (B (s3_size sa)). pose proof (C (s3_atime sa)). pose proof (C (s3_mtime sa)). lia.
Qed.

(** SETATTR never exceeds the argument size declared for it
    ([NFS3_setattrargs_sz] words), whatever attributes and guard it carries. *)
Theorem setattr_call_fits ns args :
  valid_fh (sa_fh args) ->
  exists w, encodes (S:=xdr_estream) (nfs3_xdr_enc_setattr3args ns args) w /\
    zlen w <= 4 * NFS3_setattrargs_sz.
Proof.
  intros H.
  exists (w_opaque (sa_fh args) ++ w_sattr3 (client_sattr (sa_sattr args) ns) ++
    (if sa_guard args =? 0 then be32 0 else be32 1 ++ xdr_encode_nfstime3 (sa_guardtime args))). split.
  - apply encodes_seq; [by apply fh_enc|]. apply encodes_seq; [apply encodes_sattr3|].
    unfold encode_sattrguard3. destruct (sa_guard args =? 0); by apply encodes_put.
  - autorewrite with nfs_len. destruct H as [_ H]. unfold NFS3_FHSIZE in H.
    pose proof (zlen_nonneg (sa_fh args)).
    assert (align4 (zlen (sa_fh args)) <= 64) by (unfold align4; zlia).
    pose proof (zlen_sattr3 (client_sattr (sa_sattr args) ns)).
    assert (zlen (if sa_guard args =? 0 then be32 0 else be32 1 ++ xdr_encode_nfstime3 (sa_guardtime args)) <= 12)
      by (by destruct (sa_guard args =? 0)).
    unfold NFS3_setattrargs_sz, NFS3_fh_sz, NFS3_sattr_sz. lia.
Qed.

Lemma setattr_call_fits_witness :
  exists w, encodes (S:=xdr_estream) (nfs3_xdr_enc_setattr3args init_user_ns sample_sattrargs) w /\ zlen w <= 140.
Proof. exact (setattr_call_fits init_user_ns sample_sattrargs sample_fh_valid). Defined.

(** The size declared for a handle and a name ([NFS3_diropargs_sz] words) is
    enough unless a handle of more than 60 bytes meets a name of more than 252:
    [NFS3_filename_sz] counts 64 words for a name of up to 255 bytes, which
    needs its length word and 64 more.  The longest call exceeds the declared
    size by one word. *)
Theorem diropargs_call_size h name :
  valid_fh h -> valid_name name ->
  exists w, encodes (S:=xdr_estream) (encode_diropargs3 h name) w /\
    (zlen w <= 4 * NFS3_diropargs_sz <-> zlen h <= 60 \/ zlen name <= 252) /\
    zlen w <= 4 * NFS3_diropargs_sz + 4.
Proof.
  intros Hh Hn. exists (w_opaque h ++ w_opaque name). split; [by apply dirop_enc|].
  destruct Hh as [? ?], Hn as [[? ?] _]. autorewrite with nfs_len.
  unfold NFS3_diropargs_sz, NFS3_fh_sz, NFS3_filename_sz, NFS3_FHSIZE, NFS3_MAXNAMLEN in *.
  change (Z.shiftr 255 2) with 63. unfold align4. split; [split|]; zlia.
Qed.

(** A 64-byte handle and a 255-byte name. *)
Lemma diropargs_call_size_witness :
  exists w, encodes (S:=xdr_estream) (encode_diropargs3 (replicate 64 x01) (replicate 255 x61)) w /\
    ~ zlen w <= 4 * NFS3_diropargs_sz.
Proof.
  destruct (diropargs_call_size (replicate 64 x01) (replicate 255 x61)) as (w & E & B & _).
  - vm_compute. split; [reflexivity|discriminate].
  - vm_compute. repeat split; discriminate.
  - exists w. split; [exact E|]. intros L. apply B in L as [L|L]; vm_compute in L; apply L; reflexivity.
Defined.
