(* ===== verification/WaitQueue.v ===== *)
(** * RPC wait queues

    The priority wait queues of [net/sunrpc/sched.c]: tasks sleep on a queue in
    one of its priority lists, grouped by owner, and are woken one at a time in
    an order that serves privileged tasks first, batches a priority level and
    rotates between the owners of a level; tasks may sleep with a timeout.

    The list heads threaded through the tasks ([u.tk_wait.list], [links] and
    [timer_list]) are modelled by what they link: [tasks] holds, per priority,
    the list of owner groups, a group being its head task followed by the tasks
    on its [links] ring.  Tasks are identified by their address. *)

From S2P Require Import Prelude Xdr.
From stdpp Require Import list gmap.
#[local] Open Scope Z_scope.

Definition ETIMEDOUT := 110.
Definition ERESTARTSYS := 512.

Definition u8 (z : Z) : Z := z mod 2 ^ 8.
(** The signed reading of a 64-bit number, as the [time_after] family uses it. *)
Definition s64 (z : Z) : Z := let r := u64 z in if r <? 2 ^ 63 then r else r - 2 ^ 64.

Definition time_after (a b : Z) : bool := s64 (b - a) <? 0.
Definition time_before (a b : Z) : bool := time_after b a.
Definition time_after_eq (a b : Z) : bool := 0 <=? s64 (a - b).
Definition time_before_eq (a b : Z) : bool := time_after_eq b a.
Definition time_is_after_jiffies (jiffies a : Z) : bool := time_before jiffies a.

Definition RPC_PRIORITY_LOW := -1.
Definition RPC_PRIORITY_NORMAL := 0.
Definition RPC_PRIORITY_HIGH := 1.
Definition RPC_PRIORITY_PRIVILEGED := 2.
Definition RPC_NR_PRIORITY := 1 + RPC_PRIORITY_PRIVILEGED - RPC_PRIORITY_LOW.

(** ** State *)

(** [M] is the task's message: the arguments and results of its call. *)
Record rpc_task {M : Type} := mk_task {
  tk_owner : Z;
  tk_priority : Z;
  tk_status : Z;
  tk_timeout : Z;
  tk_callback : option Z;          (* a function, or NULL *)
  tk_active : bool;                (* RPC_TASK_ACTIVE of tk_runstate *)
  tk_queued : bool;                (* RPC_TASK_QUEUED *)
  tk_running : bool;               (* RPC_TASK_RUNNING *)
  tk_waitqueue : option Z;
  tk_msg : M;
}.
Arguments rpc_task : clear implicits.
#[export] Instance upd_task M : Updatable (rpc_task M) := fun t =>
  mk_task M (tk_owner t) (tk_priority t) (tk_status t) (tk_timeout t) (tk_callback t) (tk_active t)
    (tk_queued t) (tk_running t) (tk_waitqueue t) (tk_msg t).

Record rpc_wait_queue := mk_queue {
  wq_addr : Z;
  tasks : list (list (list Z));    (* per priority: groups of one owner's tasks *)
  maxpriority : Z;
  priority : Z;
  nr : Z;
  qlen : Z;
  timer_list : list Z;             (* timer_list.list *)
  expires : Z;                     (* timer_list.expires *)
  dwork : option Z;                (* the delay timer_list.dwork is armed with *)
}.
#[export] Instance upd_queue : Updatable rpc_wait_queue := fun q =>
  mk_queue (wq_addr q) (tasks q) (maxpriority q) (priority q) (nr q) (qlen q) (timer_list q)
    (expires q) (dwork q).

(** The tasks and one queue; [sc_run] lists the tasks handed to the work queue
    or woken, in order, [sc_put] the tasks whose reference was dropped. *)
Record sched {M : Type} := mk_sched {
  sc_tasks : gmap Z (rpc_task M);
  sc_queue : rpc_wait_queue;
  sc_run : list Z;
  sc_put : list Z;
}.
Arguments sched : clear implicits.
#[export] Instance upd_sched M : Updatable (sched M) := fun s =>
  mk_sched M (sc_tasks s) (sc_queue s) (sc_run s) (sc_put s).

Definition RPC_IS_PRIORITY (q : rpc_wait_queue) : bool := 0 <? maxpriority q.
Definition q_list (q : rpc_wait_queue) (i : Z) : list (list Z) := nth (Z.to_nat i) (tasks q) [].
(** [list_first_entry]: the head of the first group. *)
Definition first_task (l : list (list Z)) : option Z :=
  match l with (t :: _) :: _ => Some t | _ => None end.

(** ** Priority of the queue *)

Definition rpc_set_waitqueue_priority (q : rpc_wait_queue) (p : Z) : rpc_wait_queue :=
  if negb (priority q =? p) then q <| priority := p |> <| nr := Z.shiftl 1 p |> else q.

Definition rpc_reset_waitqueue_priority (q : rpc_wait_queue) : rpc_wait_queue :=
  rpc_set_waitqueue_priority q (maxpriority q).

Definition __rpc_init_priority_wait_queue (q : rpc_wait_queue) (nr_queues : Z) : rpc_wait_queue :=
  let q := q <| tasks := replicate (Z.to_nat RPC_NR_PRIORITY) [] |> in
  let q := rpc_reset_waitqueue_priority (q <| maxpriority := nr_queues - 1 |>) in
  q <| qlen := 0 |> <| expires := 0 |> <| dwork := None |> <| timer_list := [] |>.

Definition rpc_init_priority_wait_queue (q : rpc_wait_queue) : rpc_wait_queue :=
  __rpc_init_priority_wait_queue q RPC_NR_PRIORITY.
Definition rpc_init_wait_queue (q : rpc_wait_queue) : rpc_wait_queue :=
  __rpc_init_priority_wait_queue q 1.

(** ** The task lists *)

(** Join the group of the first task with the same owner, or start a group. *)
Fixpoint __rpc_list_enqueue_task (owner : Z -> Z) (q : list (list Z)) (task : Z) : list (list Z) :=
  match q with
  | [] => [[task]]
  | [] :: q' => [] :: __rpc_list_enqueue_task owner q' task
  | (t :: links) :: q' =>
      if owner t =? owner task then (t :: links ++ [task]) :: q'
      else (t :: links) :: __rpc_list_enqueue_task owner q' task
  end.

(** Unlink [task]: a member leaves its group; when a group loses its head the
    rest of the group moves to the tail of the list.  The second component is
    what is appended at the tail. *)
Fixpoint list_unlink (q : list (list Z)) (task : Z) : list (list Z) * list (list Z) :=
  match q with
  | [] => ([], [])
  | [] :: q' => let '(a, b) := list_unlink q' task in ([] :: a, b)
  | (t :: links) :: q' =>
      if t =? task then (q', match links with [] => [] | _ => [links] end)
      else if bool_decide (task ∈ links)
      then ((t :: filter (fun x => x <> task) links) :: q', [])
      else let '(a, b) := list_unlink q' task in ((t :: links) :: a, b)
  end.

Definition __rpc_list_dequeue_task (q : list (list Z)) (task : Z) : list (list Z) :=
  let '(a, b) := list_unlink q task in a ++ b.

(** [list_del] on a queue that is not a priority queue: every task is alone. *)
Definition list_del_task (q : list (list Z)) (task : Z) : list (list Z) :=
  filter (fun g => g <> [task]) q.

Section Sched.
  Context {M : Type}.

Definition on_queue (f : rpc_wait_queue -> rpc_wait_queue) (s : sched M) : sched M :=
  s <| sc_queue := f (sc_queue s) |>.
Definition on_task (t : Z) (f : rpc_task M -> rpc_task M) (s : sched M) : sched M :=
  s <| sc_tasks := alter f t (sc_tasks s) |>.
(** A flag or field of a task; a task that does not exist reads as [d]. *)
Definition task_get {A} (s : sched M) (t : Z) (f : rpc_task M -> A) (d : A) : A :=
  match sc_tasks s !! t with Some k => f k | None => d end.
Definition RPC_IS_QUEUED (s : sched M) (t : Z) : bool := task_get s t tk_queued false.
Definition RPC_IS_ACTIVATED (s : sched M) (t : Z) : bool := task_get s t tk_active false.
Definition owner_of (s : sched M) (t : Z) : Z := task_get s t tk_owner 0.

(** ** Timers *)

Definition rpc_set_queue_timer (jiffies exp : Z) (q : rpc_wait_queue) : rpc_wait_queue :=
  q <| expires := exp |>
    <| dwork := Some (if time_before_eq exp jiffies then 0 else u64 (exp - jiffies)) |>.

Definition __rpc_add_timer (jiffies : Z) (task timeout : Z) (s : sched M) : sched M :=
  let s := on_task task (fun t => t <| tk_timeout := timeout |>) s in
  let q := sc_queue s in
  let q := match timer_list q with
           | [] => rpc_set_queue_timer jiffies timeout q
           | _ => if time_before timeout (expires q) then rpc_set_queue_timer jiffies timeout q else q
           end in
  s <| sc_queue := q <| timer_list := task :: timer_list q |> |>.

Definition __rpc_disable_timer (task : Z) (s : sched M) : sched M :=
  if negb (bool_decide (task ∈ timer_list (sc_queue s))) then s
  else
    let s := on_task task (fun t => t <| tk_timeout := 0 |>) s in
    let l := filter (fun x => x <> task) (timer_list (sc_queue s)) in
    on_queue (fun q =>
      let q := q <| timer_list := l |> in
      match l with [] => q <| dwork := None |> | _ => q end) s.

Definition rpc_task_timeout (jiffies : Z) (t : rpc_task M) : Z :=
  let timeout := tk_timeout t in
  if negb (timeout =? 0) && time_before jiffies timeout then u64 (timeout - jiffies) else 0.

(** ** Sleeping *)

Definition __rpc_add_wait_queue_priority (task queue_priority : Z) (s : sched M) : sched M :=
  let q := sc_queue s in
  let p := if maxpriority q <? queue_priority then maxpriority q else queue_priority in
  on_queue (fun q =>
    q <| tasks := <[Z.to_nat p := __rpc_list_enqueue_task (owner_of s) (q_list q p) task]> (tasks q) |>) s.

Definition __rpc_add_wait_queue (task queue_priority : Z) (s : sched M) : sched M :=
  let q := sc_queue s in
  let s := if RPC_IS_PRIORITY q then __rpc_add_wait_queue_priority task queue_priority s
           else on_queue (fun q => q <| tasks := <[0%nat := q_list q 0 ++ [[task]]]> (tasks q) |>) s in
  let s := on_task task (fun t => t <| tk_waitqueue := Some (wq_addr q) |>) s in
  let s := on_queue (fun q => q <| qlen := u16 (qlen q + 1) |>) s in
  on_task task (fun t => t <| tk_queued := true |>) s.

Definition __rpc_do_sleep_on_priority (task queue_priority : Z) (s : sched M) : sched M :=
  __rpc_add_wait_queue task queue_priority s.

Definition __rpc_sleep_on_priority (task queue_priority : Z) (s : sched M) : sched M :=
  if RPC_IS_QUEUED s task then s else __rpc_do_sleep_on_priority task queue_priority s.

Definition __rpc_sleep_on_priority_timeout (jiffies task timeout queue_priority : Z) (s : sched M)
    : sched M :=
  if RPC_IS_QUEUED s task then s
  else if time_is_after_jiffies jiffies timeout then
    __rpc_add_timer jiffies task timeout (__rpc_do_sleep_on_priority task queue_priority s)
  else on_task task (fun t => t <| tk_status := - ETIMEDOUT |>) s.

Definition rpc_set_tk_callback (task : Z) (action : option Z) (s : sched M) : sched M :=
  match action, task_get s task tk_callback None with
  | Some _, None => on_task task (fun t => t <| tk_callback := action |>) s
  | _, _ => s
  end.

(** The value returned, and the state. *)
Definition rpc_sleep_check_activated (task : Z) (s : sched M) : bool * sched M :=
  if negb (RPC_IS_ACTIVATED s task) then
    let s := on_task task (fun t => t <| tk_status := - EIO |>) s in
    (false, s <| sc_put := sc_put s ++ [task] |>)
  else (true, s).

Definition rpc_sleep_on_timeout (jiffies task : Z) (action : option Z) (timeout : Z) (s : sched M)
    : sched M :=
  let '(ok, s) := rpc_sleep_check_activated task s in
  if negb ok then s else
  let s := rpc_set_tk_callback task action s in
  __rpc_sleep_on_priority_timeout jiffies task timeout (task_get s task tk_priority 0) s.

Definition rpc_sleep_on (task : Z) (action : option Z) (s : sched M) : sched M :=
  let '(ok, s) := rpc_sleep_check_activated task s in
  if negb ok then s else
  let s := rpc_set_tk_callback task action s in
  __rpc_sleep_on_priority task (task_get s task tk_priority 0) s.

Definition rpc_sleep_on_priority_timeout (jiffies task timeout prio : Z) (s : sched M) : sched M :=
  let '(ok, s) := rpc_sleep_check_activated task s in
  if negb ok then s else
  __rpc_sleep_on_priority_timeout jiffies task timeout (u8 (prio - RPC_PRIORITY_LOW)) s.

Definition rpc_sleep_on_priority (task prio : Z) (s : sched M) : sched M :=
  let '(ok, s) := rpc_sleep_check_activated task s in
  if negb ok then s else
  __rpc_sleep_on_priority task (u8 (prio - RPC_PRIORITY_LOW)) s.

(** ** Waking *)

Definition __rpc_remove_wait_queue (task : Z) (s : sched M) : sched M :=
  let s := __rpc_disable_timer task s in
  on_queue (fun q =>
    let l := if RPC_IS_PRIORITY q then map (fun l => __rpc_list_dequeue_task l task) (tasks q)
             else map (fun l => list_del_task l task) (tasks q) in
    q <| tasks := l |> <| qlen := u16 (qlen q - 1) |>) s.

Definition rpc_make_runnable (task : Z) (s : sched M) : sched M :=
  let need_wakeup := negb (task_get s task tk_running false) in
  let s := on_task task (fun t => t <| tk_running := true |> <| tk_queued := false |>) s in
  if negb need_wakeup then s else s <| sc_run := sc_run s ++ [task] |>.

Definition __rpc_do_wake_up_task_on_wq (task : Z) (s : sched M) : sched M :=
  if negb (RPC_IS_ACTIVATED s task) then s
  else rpc_make_runnable task (__rpc_remove_wait_queue task s).

(** [action] sees the task and the caller's data; [None] is a NULL action. *)
Definition rpc_wake_up_task_on_wq_queue_action_locked {D} (task : Z)
    (action : option (rpc_task M -> D -> bool * (rpc_task M * D))) (data : D) (s : sched M)
    : option Z * (D * sched M) :=
  match sc_tasks s !! task with
  | Some t =>
      if tk_queued t && bool_decide (tk_waitqueue t = Some (wq_addr (sc_queue s))) then
        match action with
        | None => (Some task, (data, __rpc_do_wake_up_task_on_wq task s))
        | Some f =>
            let '(ok, (t', data')) := f t data in
            let s := on_task task (fun _ => t') s in
            if ok then (Some task, (data', __rpc_do_wake_up_task_on_wq task s))
            else (None, (data', s))
        end
      else (None, (data, s))
  | None => (None, (data, s))
  end.

Definition rpc_wake_up_task_queue_locked (task : Z) (s : sched M) : sched M :=
  snd (snd (rpc_wake_up_task_on_wq_queue_action_locked task None tt s)).

Definition rpc_wake_up_queued_task (task : Z) (s : sched M) : sched M :=
  if negb (RPC_IS_QUEUED s task) then s else rpc_wake_up_task_queue_locked task s.

Definition rpc_task_action_set_status (task : rpc_task M) (status : Z) : bool * (rpc_task M * Z) :=
  (true, (task <| tk_status := status |>, status)).

Definition rpc_wake_up_task_queue_set_status_locked (task status : Z) (s : sched M) : sched M :=
  snd (snd (rpc_wake_up_task_on_wq_queue_action_locked task (Some rpc_task_action_set_status) status s)).

Definition rpc_wake_up_queued_task_set_status (task status : Z) (s : sched M) : sched M :=
  if negb (RPC_IS_QUEUED s task) then s else rpc_wake_up_task_queue_set_status_locked task status s.

End Sched.

(** The [do ... while] over the other priorities: the first non-empty list met
    going down from [p], wrapping at 0, and stopping after [stop]. *)
Fixpoint next_queue (fuel : nat) (q : rpc_wait_queue) (p stop : Z) : option (Z * Z) :=
  match fuel with
  | O => None
  | S fuel =>
      let p := if p =? 0 then maxpriority q else p - 1 in
      match first_task (q_list q p) with
      | Some t => Some (p, t)
      | None => if p =? stop then None else next_queue fuel q p stop
      end
  end.

Definition __rpc_find_next_queued_priority (q : rpc_wait_queue) : option Z * rpc_wait_queue :=
  match (if RPC_PRIORITY_PRIVILEGED <? maxpriority q
         then first_task (q_list q (RPC_NR_PRIORITY - 1)) else None) with
  | Some t => (Some t, q)
  | None =>
      match (if negb (nr q =? 0) then first_task (q_list q (priority q)) else None) with
      | Some t => (Some t, q <| nr := nr q - 1 |>)
      | None =>
          match next_queue (Z.to_nat (maxpriority q + 1)) q (priority q) (priority q) with
          | Some (p, t) => (Some t, rpc_set_waitqueue_priority q p)
          | None => (None, rpc_reset_waitqueue_priority q)
          end
      end
  end.

Definition __rpc_find_next_queued (q : rpc_wait_queue) : option Z * rpc_wait_queue :=
  if RPC_IS_PRIORITY q then __rpc_find_next_queued_priority q
  else (first_task (q_list q 0), q).

Section Wake.
  Context {M : Type}.

Definition rpc_wake_up_first_on_wq {D}
    (func : rpc_task M -> D -> bool * (rpc_task M * D)) (data : D) (s : sched M)
    : option Z * (D * sched M) :=
  let '(task, q) := __rpc_find_next_queued (sc_queue s) in
  let s := s <| sc_queue := q |> in
  match task with
  | Some t => rpc_wake_up_task_on_wq_queue_action_locked t (Some func) data s
  | None => (None, (data, s))
  end.

Definition rpc_wake_up_first {D}
    (func : rpc_task M -> D -> bool * (rpc_task M * D)) (data : D) (s : sched M)
    : option Z * (D * sched M) :=
  rpc_wake_up_first_on_wq func data s.

Definition rpc_wake_up_next_func (t : rpc_task M) (_ : unit) : bool * (rpc_task M * unit) :=
  (true, (t, tt)).

Definition rpc_wake_up_next (s : sched M) : option Z * sched M :=
  let '(t, (_, s)) := rpc_wake_up_first rpc_wake_up_next_func tt s in (t, s).

(** The [for (;;)] loops that wake the whole queue; [None] is out of fuel. *)
Fixpoint rpc_wake_up_locked (fuel : nat) (wake : Z -> sched M -> sched M) (s : sched M)
    : option (sched M) :=
  match fuel with
  | O => None
  | S fuel =>
      let '(task, q) := __rpc_find_next_queued (sc_queue s) in
      let s := s <| sc_queue := q |> in
      match task with
      | None => Some s
      | Some t => rpc_wake_up_locked fuel wake (wake t s)
      end
  end.

(** All the tasks on the queue, in list order. *)
Definition queued (q : rpc_wait_queue) : list Z := concat (concat (tasks q)).

Definition rpc_wake_up (s : sched M) : option (sched M) :=
  rpc_wake_up_locked (S (length (queued (sc_queue s)))) rpc_wake_up_task_queue_locked s.

Definition rpc_wake_up_status (status : Z) (s : sched M) : option (sched M) :=
  rpc_wake_up_locked (S (length (queued (sc_queue s))))
    (fun t => rpc_wake_up_task_queue_set_status_locked t status) s.

(** The timer: wake the tasks whose time has come and re-arm for the others. *)
Fixpoint queue_timer_loop (now : Z) (l : list Z) (exp : Z) (s : sched M) : Z * sched M :=
  match l with
  | [] => (exp, s)
  | task :: l =>
      let timeo := task_get s task tk_timeout 0 in
      if time_after_eq now timeo then
        let s := on_task task (fun t => t <| tk_status := - ETIMEDOUT |>) s in
        queue_timer_loop now l exp (rpc_wake_up_task_queue_locked task s)
      else
        let exp := if (exp =? now) || time_after exp timeo then timeo else exp in
        queue_timer_loop now l exp s
  end.

Definition __rpc_queue_timer_fn (now : Z) (s : sched M) : sched M :=
  let '(exp, s) := queue_timer_loop now (timer_list (sc_queue s)) now s in
  match timer_list (sc_queue s) with
  | [] => s
  | _ => on_queue (rpc_set_queue_timer now exp) s
  end.

Definition __rpc_atrun (t : rpc_task M) : rpc_task M :=
  if tk_status t =? - ETIMEDOUT then t <| tk_status := 0 |> else t.

End Wake.

(** ** The lists of one priority *)

Section Lists.
  Context (own : Z -> Z).

(** The owner of a group. *)
Definition g_owner (g : list Z) : Z := match g with t :: _ => own t | [] => 0 end.

(** Groups are not empty, belong to one owner, and no owner has two. *)
Record groups_ok (l : list (list Z)) : Prop := {
  go_group : Forall (fun g => g <> [] /\ Forall (fun t => own t = g_owner g) g) l;
  go_owners : NoDup (g_owner <$> l);
}.

(** What the lists promise: one first-come first-served queue per owner. *)
Definition fifo (o : Z) (l : list (list Z)) : list Z := filter (fun t => own t = o) (concat l).

Lemma groups_ok_nil : groups_ok [].
Proof. split; constructor. Qed.

Lemma groups_ok_cons g l :
  groups_ok (g :: l) <->
  (g <> [] /\ Forall (fun t => own t = g_owner g) g) /\ (g_owner g ∉ (g_owner <$> l)) /\ groups_ok l.
Proof.
  split.
  - intros [H1 H2]. inversion H1; subst. simpl in H2. apply NoDup_cons in H2 as [? ?].
    split; [done|]. split; [done|]. by split.
  - intros (? & ? & []). split; [by constructor|]. simpl. by apply NoDup_cons.
Qed.

Lemma filter_owner_all o g : Forall (fun t => own t = o) g -> filter (fun t => own t = o) g = g.
Proof. induction 1; [done|]. rewrite filter_cons_True by done. by f_equal. Qed.

Lemma filter_owner_none o o' g :
  Forall (fun t => own t = o') g -> o <> o' -> filter (fun t => own t = o) g = [].
Proof. induction 1; intros; [done|]. rewrite filter_cons_False by congruence. auto. Qed.

Lemma fifo_cons o g l :
  Forall (fun t => own t = g_owner g) g ->
  fifo o (g :: l) = (if bool_decide (g_owner g = o) then g else []) ++ fifo o l.
Proof.
  intros H. unfold fifo. simpl. rewrite filter_app. f_equal. case_bool_decide as E.
  - subst o. by apply filter_owner_all.
  - eapply filter_owner_none; [done|congruence].
Qed.

Lemma fifo_absent o l : groups_ok l -> o ∉ (g_owner <$> l) -> fifo o l = [].
Proof.
  induction l as [|g l IH]; intros G H; [done|]. apply groups_ok_cons in G as ([_ ?] & _ & ?).
  rewrite fmap_cons, not_elem_of_cons in H. destruct H. rewrite fifo_cons by done.
  rewrite bool_decide_eq_false_2 by congruence. by apply IH.
Qed.

(** *** Enqueueing *)

Lemma enqueue_owners l t :
  Forall (fun g : list Z => g <> []) l ->
  g_owner <$> __rpc_list_enqueue_task own l t =
  (g_owner <$> l) ++ (if bool_decide (own t ∈ (g_owner <$> l)) then [] else [own t]).
Proof.
  induction 1 as [|g l Hg _ IH]; [done|]. destruct g as [|h links]; [done|]. simpl.
  destruct (Z.eqb_spec (own h) (own t)) as [E|E].
  - simpl. rewrite bool_decide_eq_true_2 by (rewrite E; left). by rewrite app_nil_r.
  - rewrite !fmap_cons, IH. cbn [app g_owner]. f_equal. f_equal.
    case_bool_decide as D1; case_bool_decide as D2; try done.
    + destruct D2. by right.
    + apply elem_of_cons in D2 as [?|?]; done.
Qed.

Lemma enqueue_perm l t : concat (__rpc_list_enqueue_task own l t) ≡ₚ t :: concat l.
Proof.
  induction l as [|g l IH]; [done|]. destruct g as [|h links]; simpl; [done|].
  destruct (own h =? own t); simpl.
  - rewrite <- app_assoc. simpl. by rewrite <- Permutation_middle, Permutation_swap.
  - rewrite IH. rewrite Permutation_swap. f_equiv. symmetry. apply Permutation_middle.
Qed.

Lemma enqueue_groups_ok l t : groups_ok l -> groups_ok (__rpc_list_enqueue_task own l t).
Proof.
  intros G. assert (N : Forall (fun g : list Z => g <> []) l)
    by (destruct G as [H _]; eapply Forall_impl; [exact H|]; simpl; tauto).
  split.
  - destruct G as [H _]. induction l as [|g l IH]; [repeat constructor; discriminate|].
    inversion H as [|? ? [_ Hg] Hl]; subst. inversion N; subst. destruct g as [|h links]; [done|]. simpl in *.
    destruct (Z.eqb_spec (own h) (own t)) as [E|E].
    + constructor; [|done]. split; [done|]. inversion Hg; subst. constructor; [done|].
      apply Forall_app. split; [done|]. by constructor.
    + constructor; [done|]. by apply IH.
  - rewrite enqueue_owners by done. apply NoDup_app. split; [apply G|].
    case_bool_decide as E; [split; [by intros ? ? ?%elem_of_nil|constructor]|].
    split; [|apply NoDup_singleton]. intros x Hx ->%list_elem_of_singleton. done.
Qed.

(** An arriving task goes to the end of its owner's queue and no other changes. *)
Lemma enqueue_fifo o l t :
  groups_ok l -> fifo o (__rpc_list_enqueue_task own l t) =
  fifo o l ++ (if bool_decide (own t = o) then [t] else []).
Proof.
  induction l as [|g l IH]; intros G.
  - unfold fifo. simpl. rewrite filter_cons, filter_nil. repeat case_decide; by repeat case_bool_decide.
  - apply groups_ok_cons in G as ([Hn Hg] & Hno & Gl). destruct g as [|h links]; [done|].
    cbn [__rpc_list_enqueue_task]. destruct (Z.eqb_spec (own h) (own t)) as [E|E].
    + rewrite !fifo_cons; [|done|].
      2:{ inversion Hg; subst. constructor; [done|]. apply Forall_app. split; [done|]. by constructor. }
      simpl. rewrite E. case_bool_decide as Eo; [|by rewrite app_nil_r].
      assert (F : fifo o l = []) by (apply fifo_absent; [done|]; subst o; simpl in Hno; by rewrite E in Hno).
      by rewrite F, !app_nil_r.
    + rewrite !fifo_cons by done. rewrite IH by done. by rewrite app_assoc.
Qed.

(** *** Dequeueing *)

Lemma unlink_absent l t : t ∉ concat l -> list_unlink l t = (l, []).
Proof.
  induction l as [|g l IH]; intros H; [done|]. simpl in H. rewrite elem_of_app in H.
  destruct g as [|h links]; simpl.
  - by rewrite IH by tauto.
  - rewrite (proj2 (Z.eqb_neq h t)) by (intros ->; apply H; left; left).
    rewrite bool_decide_eq_false_2 by (intros ?; apply H; left; by right).
    by rewrite IH by tauto.
Qed.

Lemma dequeue_absent l t : t ∉ concat l -> __rpc_list_dequeue_task l t = l.
Proof. intros. unfold __rpc_list_dequeue_task. rewrite unlink_absent by done. apply app_nil_r. Qed.

Lemma filter_absent (t : Z) (l : list Z) : t ∉ l -> filter (fun x => x <> t) l = l.
Proof.
  induction l as [|x l IH]; intros H; [done|]. rewrite not_elem_of_cons in H. destruct H.
  rewrite filter_cons_True by congruence. f_equal. auto.
Qed.

Lemma Forall_filter_keep {A} (P Q : A -> Prop) `{!forall x, Decision (Q x)} (l : list A) :
  Forall P l -> Forall P (filter Q l).
Proof. rewrite !Forall_forall. intros F x [_ Hx]%list_elem_of_filter. auto. Qed.

Lemma filter_remove_perm (t : Z) (l : list Z) :
  NoDup l -> t ∈ l -> l ≡ₚ t :: filter (fun x => x <> t) l.
Proof.
  induction l as [|x l IH]; intros N H; [by apply elem_of_nil in H|].
  apply NoDup_cons in N as [N1 N2]. destruct (decide (x = t)) as [->|Ne].
  - rewrite filter_cons_False, filter_absent by tauto. done.
  - rewrite filter_cons_True by done. rewrite Permutation_swap. f_equiv. apply IH; [done|].
    apply elem_of_cons in H as [?|?]; congruence.
Qed.

Lemma unlink_perm l t a b :
  NoDup (concat l) -> t ∈ concat l -> list_unlink l t = (a, b) -> concat l ≡ₚ t :: concat (a ++ b).
Proof.
  revert a b. induction l as [|g l IH]; intros a b N H E; [by apply elem_of_nil in H|].
  simpl in N, H. apply NoDup_app in N as (Ng & Nd & Nl). apply elem_of_app in H.
  destruct g as [|h links]; simpl in E.
  { destruct H as [H|H]; [by apply elem_of_nil in H|]. destruct (list_unlink l t) as [a' b'].
    injection E as <- <-. simpl. by apply IH. }
  destruct (Z.eqb_spec h t) as [->|Eh].
  { injection E as <- <-. rewrite concat_app. simpl. f_equiv.
    destruct links; simpl; [by rewrite app_nil_r|]. rewrite app_nil_r. apply (Permutation_app_comm (_ :: _)). }
  apply NoDup_cons in Ng as [Nh Ng]. case_bool_decide as Em.
  { injection E as <- <-. rewrite app_nil_r. simpl. rewrite (filter_remove_perm t links) at 1 by done.
    by rewrite Permutation_swap. }
  destruct (list_unlink l t) as [a' b']. injection E as <- <-.
  assert (Hl : t ∈ concat l).
  { destruct H as [H|H]; [|done]. apply elem_of_cons in H as [?|?]; congruence. }
  simpl. rewrite (IH a' b') by done. rewrite Permutation_swap. f_equiv. symmetry. apply Permutation_middle.
Qed.

Lemma dequeue_perm l t :
  NoDup (concat l) -> t ∈ concat l -> concat l ≡ₚ t :: concat (__rpc_list_dequeue_task l t).
Proof.
  intros. unfold __rpc_list_dequeue_task. destruct (list_unlink l t) as [a b] eqn:E.
  by apply unlink_perm.
Qed.

Lemma groups_ok_perm l l' : l ≡ₚ l' -> groups_ok l -> groups_ok l'.
Proof. intros P []. split; by rewrite <- P. Qed.

(** A group that loses tasks other than its last one keeps its owner. *)
Lemma group_shrink h links links' :
  Forall (fun t => own t = own h) (h :: links) -> links' ⊆ links -> links' <> [] ->
  Forall (fun t => own t = g_owner links') links' /\ g_owner links' = own h.
Proof.
  intros F S N. destruct links' as [|x r]; [done|]. rewrite Forall_forall in F.
  assert (A : forall y, y ∈ x :: r -> own y = own h) by (intros y Hy; apply F; right; by apply S).
  assert (Ex : own x = own h) by (apply A; left). split; [|done].
  apply Forall_forall. intros y Hy. simpl. rewrite Ex. by apply A.
Qed.

Lemma unlink_groups_ok l t a b :
  groups_ok l -> list_unlink l t = (a, b) ->
  groups_ok (a ++ b) /\ (g_owner <$> (a ++ b)) ⊆ (g_owner <$> l).
Proof.
  revert a b. induction l as [|g l IH]; intros a b G E; [injection E as <- <-; done|].
  apply groups_ok_cons in G as ([Hn Hg] & Hno & Gl). destruct g as [|h links]; [done|]. simpl in E.
  destruct (Z.eqb_spec h t) as [->|Eh].
  { injection E as <- <-. destruct links as [|x r]; simpl.
    - rewrite app_nil_r. split; [done|]. intros y. set_unfold. tauto.
    - destruct (group_shrink t (x :: r) (x :: r)) as [F O]; [done..|]. split.
      + apply (groups_ok_perm ((x :: r) :: l)); [by rewrite Permutation_app_comm|].
        apply groups_ok_cons. split; [done|]. split; [|done]. by rewrite O.
      + rewrite fmap_app. simpl in *. rewrite O. intros y. set_unfold. tauto. }
  case_bool_decide as Em.
  { injection E as <- <-. rewrite app_nil_r.
    assert (F : Forall (fun t0 => own t0 = own h) (h :: filter (fun x => x <> t) links)).
    { inversion Hg; subst. constructor; [done|]. by apply Forall_filter_keep. }
    split; [|done]. apply groups_ok_cons. split; [done|]. by split. }
  destruct (list_unlink l t) as [a' b']. injection E as <- <-. destruct (IH a' b' Gl eq_refl) as [G' S].
  split.
  - apply groups_ok_cons. split; [done|]. split; [|done]. intros C. by apply Hno, S.
  - intros y. simpl. rewrite !elem_of_cons. intros [?|?]; [by left|right; by apply S].
Qed.

Lemma dequeue_groups_ok l t : groups_ok l -> groups_ok (__rpc_list_dequeue_task l t).
Proof.
  intros G. unfold __rpc_list_dequeue_task. destruct (list_unlink l t) as [a b] eqn:E.
  by apply (unlink_groups_ok l t).
Qed.

Lemma fifo_app o a b : fifo o (a ++ b) = fifo o a ++ fifo o b.
Proof. unfold fifo. by rewrite concat_app, filter_app. Qed.

Lemma filter_fifo_absent o t l : t ∉ concat l -> filter (fun x => x <> t) (fifo o l) = fifo o l.
Proof. intros H. apply filter_absent. unfold fifo. intros C. apply list_elem_of_filter in C as [_ C]. done. Qed.

(** Taking a task out removes it from its owner's queue and changes no order,
    whatever happens to the groups. *)
Lemma unlink_fifo o l t a b :
  groups_ok l -> NoDup (concat l) -> list_unlink l t = (a, b) ->
  fifo o (a ++ b) = filter (fun x => x <> t) (fifo o l).
Proof.
  revert a b. induction l as [|g l IH]; intros a b G N E; [injection E as <- <-; done|].
  apply groups_ok_cons in G as ([Hn Hg] & Hno & Gl). destruct g as [|h links]; [done|].
  simpl in N. rewrite app_comm_cons in N. apply NoDup_app in N as (Ng & Nd & Nl). simpl in E.
  rewrite fifo_cons by done. rewrite filter_app.
  destruct (Z.eqb_spec h t) as [->|Eh].
  { injection E as <- <-. rewrite (filter_fifo_absent o t l) by (apply Nd; left).
    apply NoDup_cons in Ng as [Nt _]. rewrite fifo_app. simpl.
    assert (L : fifo o (match links with [] => [] | _ => [links] end) =
                if bool_decide (own t = o) then links else []).
    { destruct links as [|x r]; [by case_bool_decide|].
      destruct (group_shrink t (x :: r) (x :: r)) as [F O]; [done..|].
      rewrite fifo_cons by done. unfold fifo. simpl concat. rewrite app_nil_r. simpl g_owner in *. by rewrite O. }
    rewrite L. case_bool_decide as Eo; [|by rewrite app_nil_r].
    rewrite filter_cons_False, filter_absent by tauto.
    assert (F : fifo o l = []) by (apply fifo_absent; [done|]; by subst o). by rewrite F, app_nil_r. }
  apply NoDup_cons in Ng as [Nh Ng]. case_bool_decide as Em.
  { injection E as <- <-. rewrite app_nil_r.
    rewrite (filter_fifo_absent o t l) by (apply Nd; by right).
    rewrite fifo_cons.
    2:{ inversion Hg; subst. constructor; [done|]. by apply Forall_filter_keep. }
    simpl. f_equal. case_bool_decide; [|done]. by rewrite filter_cons_True by done. }
  destruct (list_unlink l t) as [a' b'] eqn:E'. injection E as <- <-. simpl app.
  rewrite fifo_cons by done. rewrite (IH a' b') by done. simpl g_owner. f_equal. case_bool_decide; [|done].
  symmetry. apply filter_absent. rewrite not_elem_of_cons. split; [congruence|done].
Qed.

Lemma dequeue_fifo o l t :
  groups_ok l -> NoDup (concat l) ->
  fifo o (__rpc_list_dequeue_task l t) = filter (fun x => x <> t) (fifo o l).
Proof.
  intros G N. unfold __rpc_list_dequeue_task. destruct (list_unlink l t) as [a b] eqn:E.
  by apply unlink_fifo.
Qed.

(** The task taken first is the first of its owner's queue. *)
Lemma first_task_fifo l t :
  groups_ok l -> first_task l = Some t -> exists r, fifo (own t) l = t :: r.
Proof.
  intros G E. destruct l as [|[|x links] l]; simplify_eq/=.
  apply groups_ok_cons in G as ([_ Hg] & _). rewrite fifo_cons by done. simpl.
  rewrite bool_decide_eq_true_2 by done. by exists (links ++ fifo (own t) l).
Qed.

Lemma first_task_none l : groups_ok l -> first_task l = None -> l = [].
Proof. intros [H _] E. destruct l as [|[|x g] l]; [done| |done]. inversion H as [|? ? [? _]]. done. Qed.

Lemma first_task_in l t : first_task l = Some t -> t ∈ concat l.
Proof. destruct l as [|[|x g] l]; intros; simplify_eq/=. left. Qed.

(** The owners take turns: after its first task is taken, an owner's group goes
    behind all the others. *)
Lemma dequeue_first_rotates t rest l :
  __rpc_list_dequeue_task ((t :: rest) :: l) t = l ++ match rest with [] => [] | _ => [rest] end.
Proof. unfold __rpc_list_dequeue_task. simpl. by rewrite Z.eqb_refl. Qed.

End Lists.
