(* ===== verification/WaitQueueInv.v ===== *)
(** * RPC wait queues: the invariant and what waking does

    [sched_ok]: the lists hold exactly the tasks that are flagged as queued here,
    each once, grouped by owner; the length, the timers and the batch state
    agree with them.  Every operation keeps it; the tasks of one owner and
    priority are woken in the order they came. *)

From S2P Require Import Prelude Xdr WaitQueue.
From stdpp Require Import list gmap.
#[local] Open Scope Z_scope.

(** ** Lists of either kind of queue *)

Definition list_ok (own : Z -> Z) (prio : bool) (l : list (list Z)) : Prop :=
  if prio then groups_ok own l else Forall (fun g => exists t : Z, g = [t]) l.
Definition list_remove (prio : bool) (l : list (list Z)) (t : Z) : list (list Z) :=
  if prio then __rpc_list_dequeue_task l t else list_del_task l t.

Lemma list_del_absent l t : t ∉ concat l -> list_del_task l t = l.
Proof.
  unfold list_del_task. induction l as [|g l IH]; intros H; [done|]. simpl in H. rewrite elem_of_app in H.
  rewrite filter_cons_True; [rewrite IH by tauto; done|]. intros ->. apply H. left. left.
Qed.

Lemma list_remove_absent prio l t : t ∉ concat l -> list_remove prio l t = l.
Proof. intros H. destruct prio; [by apply dequeue_absent|by apply list_del_absent]. Qed.

Lemma list_remove_perm own prio l t :
  list_ok own prio l -> NoDup (concat l) -> t ∈ concat l -> concat l ≡ₚ t :: concat (list_remove prio l t).
Proof.
  destruct prio; simpl; [by intros; apply dequeue_perm|]. unfold list_del_task.
  induction 1 as [|g l [x ->] _ IH]; intros N H; [by apply elem_of_nil in H|].
  simpl in N, H. apply NoDup_cons in N as [Nx Nl]. destruct (decide (x = t)) as [->|Ne].
  - rewrite filter_cons_False by tauto. fold (list_del_task l t). by rewrite list_del_absent.
  - rewrite filter_cons_True by congruence. simpl. rewrite Permutation_swap. f_equiv. apply IH; [done|].
    apply elem_of_cons in H as [?|?]; congruence.
Qed.

Lemma list_remove_ok own prio l t : list_ok own prio l -> list_ok own prio (list_remove prio l t).
Proof.
  destruct prio; simpl; [by apply dequeue_groups_ok|]. unfold list_del_task. apply Forall_filter_keep.
Qed.

Lemma list_ok_ext own own' prio l :
  (forall t, t ∈ concat l -> own t = own' t) -> list_ok own prio l -> list_ok own' prio l.
Proof.
  destruct prio; simpl; [|done]. induction l as [|g l IH]; intros E G; [apply groups_ok_nil|].
  apply groups_ok_cons in G as ([Hn Hg] & Hno & Gl). simpl in E.
  assert (Eg : g_owner own g = g_owner own' g) by (destruct g; [done|]; simpl; apply E; left).
  assert (Eo : (g_owner own <$> l) = (g_owner own' <$> l)).
  { apply list_fmap_ext. intros i x Hx. apply list_elem_of_lookup_2 in Hx.
    destruct x as [|y r]; [done|]. simpl. apply E. apply elem_of_app. right.
    apply list_elem_of_In, in_concat. exists (y :: r). split; [by apply list_elem_of_In|by left]. }
  apply groups_ok_cons. rewrite <- Eg, <- Eo. split; [split; [done|]|split; [done|]].
  - rewrite Forall_forall in *. intros t Ht. rewrite <- E by (apply elem_of_app; by left). by apply Hg.
  - apply IH; [|done]. intros t Ht. apply E. apply elem_of_app. by right.
Qed.

Lemma first_task_none_ok own prio l : list_ok own prio l -> first_task l = None -> l = [].
Proof.
  destruct prio; simpl; [by apply first_task_none|]. intros H E. destruct l as [|[|x g] l]; [done| |done].
  inversion H as [|? ? [? ?]]. done.
Qed.

(** ** All the lists of a queue *)

Lemma concat_concat (ls : list (list (list Z))) i l :
  ls !! i = Some l -> forall t, t ∈ concat l -> t ∈ concat (concat ls).
Proof.
  intros H t Ht. apply list_elem_of_lookup_2, list_elem_of_In in H. rewrite list_elem_of_In in *.
  apply in_concat in Ht as (g & Hg & Ht). apply in_concat. exists g. split; [|done].
  apply in_concat. by exists l.
Qed.

(** Changing one of the lists. *)
Lemma concat_insert_perm (ls : list (list (list Z))) i l l' (xs : list Z) :
  ls !! i = Some l -> concat l' ≡ₚ xs ++ concat l ->
  concat (concat (<[i := l']> ls)) ≡ₚ xs ++ concat (concat ls).
Proof.
  intros H P. rewrite <- (take_drop_middle ls i l H) at 2. rewrite insert_take_drop by (by eapply lookup_lt_Some).
  rewrite !concat_app. simpl. rewrite !concat_app, P. rewrite <- !app_assoc.
  apply Permutation_app_swap_app.
Qed.

(** Removing a task everywhere removes it once. *)
Lemma concat_remove_perm own prio (ls : list (list (list Z))) t :
  Forall (list_ok own prio) ls -> NoDup (concat (concat ls)) -> t ∈ concat (concat ls) ->
  concat (concat ls) ≡ₚ t :: concat (concat (map (fun l => list_remove prio l t) ls)).
Proof.
  induction 1 as [|l ls Hl Hls IH]; intros N H; [by apply elem_of_nil in H|]. simpl in *.
  rewrite concat_app in *. apply NoDup_app in N as (Nl & Nd & Nls). apply elem_of_app in H.
  destruct (decide (t ∈ concat l)) as [D|D].
  - assert (E : map (fun l => list_remove prio l t) ls = ls).
    { rewrite <- (map_id ls) at 2. apply map_ext_in. intros x Hx. apply list_remove_absent. intros C.
      apply (Nd t D). apply list_elem_of_In in Hx. apply list_elem_of_lookup in Hx as [i Hx].
      by apply (concat_concat ls i x). }
    rewrite E, concat_app. rewrite (list_remove_perm own prio l t) at 1 by done. done.
  - rewrite (list_remove_absent prio l t) by done. rewrite concat_app, IH by (done || tauto).
    by rewrite Permutation_middle.
Qed.

(** ** The invariant *)

Record queue_ok (own : Z -> Z) (q : rpc_wait_queue) : Prop := {
  qo_len : length (tasks q) = 4%nat;
  qo_max : 0 <= maxpriority q <= 3;
  qo_prio : 0 <= priority q <= maxpriority q;
  qo_nr : 0 <= nr q <= 8;
  qo_lists : Forall (list_ok own (RPC_IS_PRIORITY q)) (tasks q);
  qo_above : forall i, maxpriority q < i -> q_list q i = [];
  qo_nodup : NoDup (queued q);
  qo_qlen : qlen q = u16 (zlen (queued q));
  qo_timers : NoDup (timer_list q);
  qo_timed : forall t, t ∈ timer_list q -> t ∈ queued q;
  qo_dwork : timer_list q = [] <-> dwork q = None;
}.

(** The task is asleep on the queue at [addr]. *)
Definition asleep {M} (addr : Z) (k : rpc_task M) : Prop :=
  tk_queued k = true /\ tk_waitqueue k = Some addr.

Record sched_ok {M} (s : sched M) : Prop := {
  so_queue : queue_ok (owner_of s) (sc_queue s);
  so_queued : forall t, t ∈ queued (sc_queue s) <->
    exists k, sc_tasks s !! t = Some k /\ asleep (wq_addr (sc_queue s)) k;
  so_active : forall t k, t ∈ queued (sc_queue s) -> sc_tasks s !! t = Some k -> tk_active k = true;
}.

Lemma q_list_lookup q i :
  0 <= i < 4 -> length (tasks q) = 4%nat -> tasks q !! Z.to_nat i = Some (q_list q i).
Proof.
  intros Hi L. unfold q_list. destruct (nth_lookup_or_length (tasks q) (Z.to_nat i) []); [done|lia].
Qed.

(** Two views of a task that agree on everything the queues look at. *)
Definition same_sched {M} (k k' : rpc_task M) : Prop :=
  tk_owner k' = tk_owner k /\ tk_queued k' = tk_queued k /\ tk_waitqueue k' = tk_waitqueue k /\
  tk_active k' = tk_active k.

Section Keep.
  Context {M : Type}.

Lemma task_get_alter {A} (s : sched M) t f u (g : rpc_task M -> A) d :
  (forall k, sc_tasks s !! t = Some k -> g (f k) = g k) -> task_get (on_task t f s) u g d = task_get s u g d.
Proof.
  intros H. unfold task_get, on_task, field_upd. simpl. destruct (decide (t = u)) as [->|Ne].
  - rewrite lookup_alter_eq. destruct (sc_tasks s !! u) eqn:K; simpl; [by apply H|done].
  - by rewrite lookup_alter_ne.
Qed.

Lemma queue_ok_ext own own' q :
  (forall t, own t = own' t) -> queue_ok own q -> queue_ok own' q.
Proof.
  intros E []. split; try done. eapply Forall_impl; [done|]. intros l. apply list_ok_ext. intros; apply E.
Qed.

(** Changing a field of a task that the queues do not look at. *)
Lemma on_task_ok (s : sched M) t f :
  (forall k, sc_tasks s !! t = Some k -> same_sched k (f k)) -> sched_ok s -> sched_ok (on_task t f s).
Proof.
  intros H [Q E A].
  assert (L : forall u k', sc_tasks (on_task t f s) !! u = Some k' ->
    exists k, sc_tasks s !! u = Some k /\ same_sched k k').
  { intros u k'. unfold on_task, field_upd. simpl. destruct (decide (t = u)) as [->|Ne].
    - rewrite lookup_alter_eq. destruct (sc_tasks s !! u) as [k|] eqn:K; simpl; intros; simplify_eq. eauto.
    - rewrite lookup_alter_ne by done. intros. exists k'. split; [done|]. by repeat split. }
  assert (L' : forall u k, sc_tasks s !! u = Some k ->
    exists k', sc_tasks (on_task t f s) !! u = Some k' /\ same_sched k k').
  { intros u k Hk. unfold on_task, field_upd. simpl. destruct (decide (t = u)) as [->|Ne].
    - rewrite lookup_alter_eq, Hk. simpl. eauto.
    - rewrite lookup_alter_ne by done. exists k. split; [done|]. by repeat split. }
  split; simpl.
  - eapply queue_ok_ext; [|exact Q]. intros u. symmetry. apply task_get_alter. intros k K. by apply H.
  - intros u. rewrite E. unfold asleep. split.
    + intros (k & Hk & Hq & Hw). destruct (L' u k Hk) as (k' & ? & _ & E1 & E2 & _).
      exists k'. split; [done|]. by rewrite E1, E2.
    + intros (k' & Hk' & Hq & Hw). destruct (L u k' Hk') as (k & ? & _ & E1 & E2 & _).
      exists k. split; [done|]. by rewrite <- E1, <- E2.
  - intros u k' Hu Hk'. destruct (L u k' Hk') as (k & Hk & _ & _ & _ & E3). rewrite E3. by eapply A.
Qed.

(** Moving to another priority or batch. *)
Lemma set_batch_ok (s : sched M) p n :
  sched_ok s -> 0 <= p <= maxpriority (sc_queue s) -> 0 <= n <= 8 ->
  sched_ok (s <| sc_queue := (sc_queue s) <| priority := p |> <| nr := n |> |>).
Proof. intros [[] E A] Hp Hn. split; [by split|exact E|exact A]. Qed.

(** ** Finding the next task *)

Lemma next_queue_spec fuel q p stop :
  0 <= p <= maxpriority q ->
  match next_queue fuel q p stop with
  | Some (p', t) => 0 <= p' <= maxpriority q /\ first_task (q_list q p') = Some t
  | None => True
  end.
Proof.
  revert p. induction fuel as [|fuel IH]; intros p Hp; simpl; [done|].
  set (p1 := if p =? 0 then maxpriority q else p - 1).
  assert (0 <= p1 <= maxpriority q) by (unfold p1; destruct (Z.eqb_spec p 0); lia).
  destruct (first_task (q_list q p1)) eqn:F; [done|]. destruct (p1 =? stop); [done|]. by apply IH.
Qed.

(** How many lists the scan that starts below [p] passes before it is at [i]. *)
Definition scan_dist (q : rpc_wait_queue) (p i : Z) : Z := (p - 1 - i) mod (maxpriority q + 1).

(** The scan goes down from [p], wraps, and ends with [p] itself: it stops at
    the nearest list with a task, and gives up only when all are empty. *)
Lemma next_queue_nearest q p :
  0 <= maxpriority q <= 3 -> 0 <= p <= maxpriority q ->
  match next_queue (Z.to_nat (maxpriority q + 1)) q p p with
  | Some (p', _) => forall i, 0 <= i <= maxpriority q -> scan_dist q p i < scan_dist q p p' ->
                    first_task (q_list q i) = None
  | None => forall i, 0 <= i <= maxpriority q -> first_task (q_list q i) = None
  end.
Proof.
  intros Hm Hp. unfold scan_dist.
  assert (Em : maxpriority q = 0 \/ maxpriority q = 1 \/ maxpriority q = 2 \/ maxpriority q = 3) by lia.
  assert (Ep : p = 0 \/ p = 1 \/ p = 2 \/ p = 3) by lia.
  assert (Ei : forall i, 0 <= i <= maxpriority q -> i = 0 \/ i = 1 \/ i = 2 \/ i = 3) by lia.
  destruct Em as [Em|[Em|[Em|Em]]], Ep as [->|[->|[->| ->]]]; try lia;
    rewrite Em in *; change (Z.to_nat (0 + 1)) with 1%nat; change (Z.to_nat (1 + 1)) with 2%nat;
    change (Z.to_nat (2 + 1)) with 3%nat; change (Z.to_nat (3 + 1)) with 4%nat;
    cbn [next_queue]; rewrite ?Em; cbn [Z.eqb Pos.eqb Z.sub Z.add Z.opp Z.pos_sub Pos.pred_double Pos.add];
    repeat (match goal with |- context [first_task (q_list q ?x)] =>
      destruct (first_task (q_list q x)) eqn:? end; rewrite ?Em; cbn);
    intros i Hi; try intros Hd; destruct (Ei i Hi) as [->|[->|[->| ->]]]; try done; try lia;
    try (exfalso; revert Hd; vm_compute; discriminate).
Qed.

Lemma all_lists_empty own q :
  queue_ok own q -> (forall i, 0 <= i <= maxpriority q -> first_task (q_list q i) = None) -> queued q = [].
Proof.
  intros Q H. assert (E : forall l, l ∈ tasks q -> l = []).
  { intros l Hl. apply list_elem_of_lookup in Hl as [i Hi].
    pose proof (lookup_lt_Some _ _ _ Hi) as Li. rewrite (qo_len _ _ Q) in Li.
    pose proof (q_list_lookup q (Z.of_nat i) ltac:(lia) (qo_len _ _ Q)) as Eq.
    rewrite Nat2Z.id, Hi in Eq. injection Eq as ->.
    destruct (Z_le_gt_dec (Z.of_nat i) (maxpriority q)).
    - eapply first_task_none_ok; [|apply H; lia]. pose proof (qo_lists _ _ Q) as F.
      rewrite Forall_forall in F. apply F. by apply list_elem_of_lookup_2 with i.
    - apply (qo_above _ _ Q). lia. }
  unfold queued. induction (tasks q) as [|l ls IH]; [done|]. simpl. rewrite (E l) by left. simpl.
  apply IH. intros; apply E; by right.
Qed.

(** What [__rpc_find_next_queued] does: it changes the batch state only, returns
    the first task of some list, and [NULL] only for an empty queue. *)
Lemma find_next_spec own q r q' :
  queue_ok own q -> __rpc_find_next_queued q = (r, q') ->
  (exists p n, q' = q <| priority := p |> <| nr := n |> /\ 0 <= p <= maxpriority q /\ 0 <= n <= 8) /\
  match r with
  | Some t => exists i, 0 <= i <= maxpriority q /\ first_task (q_list q i) = Some t
  | None => queued q = []
  end.
Proof.
  intros Q E. pose proof (qo_max _ _ Q) as Hm. pose proof (qo_prio _ _ Q) as Hp. pose proof (qo_nr _ _ Q) as Hn.
  assert (Same : exists p n, q = q <| priority := p |> <| nr := n |> /\ 0 <= p <= maxpriority q /\ 0 <= n <= 8)
    by (exists (priority q), (nr q); by destruct q).
  assert (Set_ : forall p, 0 <= p <= maxpriority q -> exists p' n,
    rpc_set_waitqueue_priority q p = q <| priority := p' |> <| nr := n |> /\ 0 <= p' <= maxpriority q /\ 0 <= n <= 8).
  { intros p Hpr. unfold rpc_set_waitqueue_priority. destruct (negb _); [|done].
    exists p, (Z.shiftl 1 p). split; [by destruct q|]. split; [done|].
    assert (p = 0 \/ p = 1 \/ p = 2 \/ p = 3) as [->|[->|[->| ->]]] by lia; vm_compute; split; discriminate. }
  unfold __rpc_find_next_queued, RPC_IS_PRIORITY in E.
  destruct (Z.ltb_spec 0 (maxpriority q)).
  2:{ injection E as <- <-. split; [done|]. destruct (first_task (q_list q 0)) eqn:F.
      - exists 0. split; [lia|done].
      - eapply all_lists_empty; [done|]. intros i Hi. by replace i with 0 by lia. }
  unfold __rpc_find_next_queued_priority in E.
  destruct (if RPC_PRIORITY_PRIVILEGED <? maxpriority q then _ else None) eqn:F1.
  { injection E as <- <-. split; [done|]. destruct (Z.ltb_spec RPC_PRIORITY_PRIVILEGED (maxpriority q)); [|done].
    exists (RPC_NR_PRIORITY - 1). unfold RPC_NR_PRIORITY, RPC_PRIORITY_PRIVILEGED, RPC_PRIORITY_LOW in *.
    split; [lia|done]. }
  destruct (if negb (nr q =? 0) then _ else None) eqn:F2.
  { injection E as <- <-. destruct (Z.eqb_spec (nr q) 0); [done|]. split.
    - exists (priority q), (nr q - 1). split; [by destruct q|lia].
    - exists (priority q). done. }
  pose proof (next_queue_nearest q (priority q) Hm Hp) as N.
  pose proof (next_queue_spec (Z.to_nat (maxpriority q + 1)) q (priority q) (priority q) Hp) as N'.
  destruct (next_queue _ _ _ _) as [[p' t]|]; injection E as <- <-.
  - destruct N' as [? ?]. split; [by apply Set_|]. by exists p'.
  - split; [apply Set_; lia|]. by eapply all_lists_empty.
Qed.

Lemma find_next_ok (s : sched M) r q' :
  sched_ok s -> __rpc_find_next_queued (sc_queue s) = (r, q') -> sched_ok (s <| sc_queue := q' |>).
Proof.
  intros S E. destruct (find_next_spec _ _ _ _ (so_queue _ S) E) as [(p & n & -> & Hp & Hn) _].
  by apply set_batch_ok.
Qed.

(** ** Sleeping *)

Lemma queue_ok_add own q i l' t :
  queue_ok own q -> 0 <= i <= maxpriority q -> t ∉ queued q ->
  list_ok own (RPC_IS_PRIORITY q) l' -> concat l' ≡ₚ t :: concat (q_list q i) ->
  let q' := q <| tasks := <[Z.to_nat i := l']> (tasks q) |> <| qlen := u16 (qlen q + 1) |> in
  queue_ok own q' /\ queued q' ≡ₚ t :: queued q.
Proof.
  intros Q Hi Ht Hl P q'. pose proof (qo_max _ _ Q).
  pose proof (q_list_lookup q i ltac:(lia) (qo_len _ _ Q)) as L.
  assert (P' : queued q' ≡ₚ t :: queued q) by (apply (concat_insert_perm _ _ _ _ [t] L P)).
  split; [|done]. destruct Q. split; try done.
  - unfold q'. simpl. by rewrite length_insert.
  - by apply Forall_insert.
  - intros j Hj. unfold q_list, q'. simpl in *. rewrite nth_lookup, list_lookup_insert_ne by lia.
    rewrite <- nth_lookup. by apply qo_above0.
  - rewrite P'. by constructor.
  - unfold q'. simpl. rewrite qo_qlen0. unfold zlen. change (queued (field_upd _ _ _)) with (queued q').
    rewrite P'. simpl. unfold u16. rewrite Zplus_mod_idemp_l. f_equal. lia.
  - intros u Hu. rewrite P'. right. by apply qo_timed0.
Qed.

(** The state after [__rpc_add_wait_queue]: the task goes into the list of its
    priority (the highest one when it asks for more). *)
Definition eff_priority (q : rpc_wait_queue) (p : Z) : Z :=
  if RPC_IS_PRIORITY q then (if maxpriority q <? p then maxpriority q else p) else 0.
Definition list_add (own : Z -> Z) (q : rpc_wait_queue) (i t : Z) : list (list Z) :=
  if RPC_IS_PRIORITY q then __rpc_list_enqueue_task own (q_list q i) t else q_list q i ++ [[t]].

Lemma add_wait_queue_eq t p (s : sched M) :
  __rpc_add_wait_queue t p s =
  let q := sc_queue s in let i := eff_priority q p in
  s <| sc_queue := q <| tasks := <[Z.to_nat i := list_add (owner_of s) q i t]> (tasks q) |>
                     <| qlen := u16 (qlen q + 1) |> |>
    <| sc_tasks := alter (fun k => k <| tk_waitqueue := Some (wq_addr q) |> <| tk_queued := true |>) t (sc_tasks s) |>.
Proof.
  unfold __rpc_add_wait_queue, __rpc_add_wait_queue_priority, eff_priority, list_add. cbv zeta.
  destruct s as [T [ad tk mx pr n ql tl ex dw] run put]. unfold RPC_IS_PRIORITY. simpl.
  destruct (0 <? mx); unfold on_queue, on_task, field_upd; simpl; by rewrite alter_alter_eq.
Qed.

Lemma list_add_ok own q i t :
  queue_ok own q -> 0 <= i <= maxpriority q ->
  list_ok own (RPC_IS_PRIORITY q) (list_add own q i t) /\ concat (list_add own q i t) ≡ₚ t :: concat (q_list q i).
Proof.
  intros Q Hi. pose proof (qo_max _ _ Q). pose proof (qo_lists _ _ Q) as F. rewrite Forall_forall in F.
  assert (L : list_ok own (RPC_IS_PRIORITY q) (q_list q i)).
  { apply F. apply list_elem_of_lookup_2 with (Z.to_nat i). apply q_list_lookup; [lia|apply Q]. }
  unfold list_add, list_ok in *. destruct (RPC_IS_PRIORITY q).
  - split; [by apply enqueue_groups_ok|apply enqueue_perm].
  - split; [apply Forall_app; split; [done|]; constructor; [by exists t|constructor]|].
    rewrite concat_app. simpl. by rewrite <- Permutation_cons_append.
Qed.

Lemma add_wait_queue_ok (s : sched M) t p :
  sched_ok s -> RPC_IS_QUEUED s t = false -> RPC_IS_ACTIVATED s t = true -> 0 <= p ->
  let s' := __rpc_add_wait_queue t p s in
  sched_ok s' /\ queued (sc_queue s') ≡ₚ t :: queued (sc_queue s).
Proof.
  intros S Hq Ha Hp s'. destruct (S) as [Q E A].
  unfold RPC_IS_QUEUED, RPC_IS_ACTIVATED, task_get in Hq, Ha.
  destruct (sc_tasks s !! t) as [k|] eqn:K; [|done].
  assert (Ht : t ∉ queued (sc_queue s)).
  { rewrite E. intros (k' & K' & C & _). congruence. }
  pose proof (qo_max _ _ Q). set (i := eff_priority (sc_queue s) p).
  assert (Hi : 0 <= i <= maxpriority (sc_queue s)).
  { unfold i, eff_priority. destruct (RPC_IS_PRIORITY _); [|lia].
    destruct (Z.ltb_spec (maxpriority (sc_queue s)) p); lia. }
  destruct (list_add_ok _ _ i t Q Hi) as [Lo Lp].
  destruct (queue_ok_add _ _ i _ t Q Hi Ht Lo Lp) as [Q' P'].
  unfold s'. rewrite add_wait_queue_eq. cbv zeta. fold i.
  set (q' := (sc_queue s) <| tasks := _ |> <| qlen := _ |>) in *.
  unfold field_upd at 1 3. simpl. split; [|exact P'].
  set (f := fun k0 : rpc_task M => _) in |- *. split; simpl.
  - eapply queue_ok_ext; [|exact Q']. intros u. symmetry. apply (task_get_alter s t f). done.
  - intros u. change (wq_addr q') with (wq_addr (sc_queue s)). rewrite P', elem_of_cons, E.
    destruct (decide (u = t)) as [->|Ne].
    + rewrite lookup_alter_eq, K. simpl. split; [|by left]. intros _. eexists. split; [done|]. done.
    + rewrite lookup_alter_ne by done. split; [intros [?|?]; done|by right].
  - intros u k' Hu. destruct (decide (u = t)) as [->|Ne].
    + rewrite lookup_alter_eq, K. intros [= <-]. done.
    + rewrite lookup_alter_ne by done. rewrite P', elem_of_cons in Hu. destruct Hu; [done|]. by apply A.
Qed.

Lemma set_tk_callback_ok (s : sched M) t a : sched_ok s -> sched_ok (rpc_set_tk_callback t a s).
Proof.
  intros. unfold rpc_set_tk_callback. destruct a, (task_get s t tk_callback None); try done.
  apply on_task_ok; [by repeat split|done].
Qed.

Lemma sleep_check_ok (s : sched M) t ok s' :
  sched_ok s -> rpc_sleep_check_activated t s = (ok, s') ->
  sched_ok s' /\ (ok = true -> s' = s /\ RPC_IS_ACTIVATED s t = true).
Proof.
  intros S. unfold rpc_sleep_check_activated. destruct (RPC_IS_ACTIVATED s t) eqn:A; simpl; intros [= <- <-].
  - done.
  - split; [|done]. destruct (on_task_ok s t (fun t => t <| tk_status := - EIO |>)) as [Q E A']; [by repeat split|done|].
    by split.
Qed.

(** Arming the queue's timer for a sleeping task. *)
Lemma add_timer_ok (s : sched M) now t timeout :
  sched_ok s -> t ∈ queued (sc_queue s) -> t ∉ timer_list (sc_queue s) ->
  sched_ok (__rpc_add_timer now t timeout s).
Proof.
  intros S Ht Hn. unfold __rpc_add_timer.
  destruct (on_task_ok s t (fun t => t <| tk_timeout := timeout |>)) as [Q E A]; [by repeat split|done|].
  set (s1 := on_task t _ s) in *. change (sc_queue s1) with (sc_queue s) in *.
  set (q := sc_queue s) in *.
  set (q1 := match timer_list q with [] => _ | _ => _ end).
  assert (F : exists e d, q1 = q <| expires := e |> <| dwork := d |> /\ (timer_list q = [] -> d <> None) /\
     (timer_list q <> [] -> d <> None)).
  { unfold q1. pose proof (qo_dwork _ _ Q) as D. destruct (timer_list q) as [|u l] eqn:El.
    - eexists _, _. split; [reflexivity|]. done.
    - destruct (time_before _ _); [eexists _, _; split; [reflexivity|done]|].
      exists (expires q), (dwork q). split; [by destruct q|]. split; [done|]. intros _ C.
      apply D in C. done. }
  destruct F as (e & d & -> & F1 & F2). split; [|exact E|exact A].
  destruct Q. split; try done.
  - simpl. by constructor.
  - intros u. simpl. rewrite elem_of_cons. intros [->|Hu]; [done|by apply qo_timed0].
  - simpl. split; [done|]. intros ->. destruct (timer_list q); [by destruct (F1 eq_refl)|by destruct F2].
Qed.

Lemma add_wait_queue_timers t p (s : sched M) :
  timer_list (sc_queue (__rpc_add_wait_queue t p s)) = timer_list (sc_queue s).
Proof. by rewrite add_wait_queue_eq. Qed.

Lemma sleep_on_priority_ok (s : sched M) t p :
  sched_ok s -> RPC_IS_ACTIVATED s t = true -> 0 <= p -> sched_ok (__rpc_sleep_on_priority t p s).
Proof.
  intros S A Hp. unfold __rpc_sleep_on_priority. destruct (RPC_IS_QUEUED s t) eqn:Q; [done|].
  by apply add_wait_queue_ok.
Qed.

Lemma sleep_on_priority_timeout_ok (s : sched M) now t timeout p :
  sched_ok s -> RPC_IS_ACTIVATED s t = true -> 0 <= p ->
  sched_ok (__rpc_sleep_on_priority_timeout now t timeout p s).
Proof.
  intros S A Hp. unfold __rpc_sleep_on_priority_timeout. destruct (RPC_IS_QUEUED s t) eqn:Q; [done|].
  destruct (time_is_after_jiffies now timeout); [|apply on_task_ok; [by repeat split|done]].
  destruct (add_wait_queue_ok s t p S Q A Hp) as [S' P]. unfold __rpc_do_sleep_on_priority.
  apply add_timer_ok; [done|rewrite P; left|].
  rewrite add_wait_queue_timers. intros C. apply (qo_timed _ _ (so_queue _ S)) in C.
  apply (so_queued _ S) in C as (k & K & [Kq _]). unfold RPC_IS_QUEUED, task_get in Q. by rewrite K, Kq in Q.
Qed.

(** ** Waking *)

(** What waking the sleeping task [t] leaves behind. *)
Definition woken (s : sched M) (t : Z) : sched M :=
  let q := sc_queue s in
  let timed := bool_decide (t ∈ timer_list q) in
  let l := filter (fun x => x <> t) (timer_list q) in
  {| sc_tasks := alter (fun k => (if timed then k <| tk_timeout := 0 |> else k)
                                   <| tk_running := true |> <| tk_queued := false |>) t (sc_tasks s);
     sc_queue := q <| timer_list := l |>
                   <| dwork := if timed && bool_decide (l = []) then None else dwork q |>
                   <| tasks := map (fun ls => list_remove (RPC_IS_PRIORITY q) ls t) (tasks q) |>
                   <| qlen := u16 (qlen q - 1) |>;
     sc_run := sc_run s ++ (if task_get s t tk_running false then [] else [t]);
     sc_put := sc_put s |}.

Lemma disable_timer_eq (s : sched M) t :
  __rpc_disable_timer t s =
  let q := sc_queue s in
  let timed := bool_decide (t ∈ timer_list q) in
  let l := filter (fun x => x <> t) (timer_list q) in
  mk_sched M (if timed then alter (fun k => k <| tk_timeout := 0 |>) t (sc_tasks s) else sc_tasks s)
    (mk_queue (wq_addr q) (tasks q) (maxpriority q) (priority q) (nr q) (qlen q) l (expires q)
       (if timed && bool_decide (l = []) then None else dwork q))
    (sc_run s) (sc_put s).
Proof.
  destruct s as [T [ad tk mx pr n ql tl ex dw] run put]. unfold __rpc_disable_timer. simpl.
  case_bool_decide as D; simpl.
  - unfold on_queue, on_task, field_upd. simpl. by destruct (filter (fun x => x <> t) tl).
  - by rewrite (filter_absent t tl).
Qed.

Lemma remove_wait_queue_eq (s : sched M) t :
  __rpc_remove_wait_queue t s =
  let s1 := __rpc_disable_timer t s in let q := sc_queue s1 in
  mk_sched M (sc_tasks s1)
    (mk_queue (wq_addr q) (map (fun ls => list_remove (RPC_IS_PRIORITY q) ls t) (tasks q)) (maxpriority q)
       (priority q) (nr q) (u16 (qlen q - 1)) (timer_list q) (expires q) (dwork q)) (sc_run s1) (sc_put s1).
Proof.
  unfold __rpc_remove_wait_queue, list_remove. destruct (__rpc_disable_timer t s) as [T [] run put].
  unfold on_queue, field_upd, RPC_IS_PRIORITY. simpl. by destruct (0 <? _).
Qed.

Lemma make_runnable_eq (s : sched M) t :
  rpc_make_runnable t s =
  mk_sched M (alter (fun k => k <| tk_running := true |> <| tk_queued := false |>) t (sc_tasks s)) (sc_queue s)
    (sc_run s ++ (if task_get s t tk_running false then [] else [t])) (sc_put s).
Proof.
  unfold rpc_make_runnable. destruct s as [T q run put]. simpl.
  destruct (task_get _ t tk_running false); unfold on_task, field_upd; simpl; by rewrite ?app_nil_r.
Qed.

Lemma do_wake_eq (s : sched M) t :
  RPC_IS_ACTIVATED s t = true -> __rpc_do_wake_up_task_on_wq t s = woken s t.
Proof.
  intros A. unfold __rpc_do_wake_up_task_on_wq. rewrite A. simpl negb. cbv iota.
  rewrite make_runnable_eq, remove_wait_queue_eq, disable_timer_eq.
  unfold woken. destruct s as [T [ad tk mx pr n ql tl ex dw] run put].
  unfold task_get. simpl. case_bool_decide as D; simpl.
  - rewrite lookup_alter_eq, alter_alter_eq. unfold compose. by destruct (T !! t).
  - reflexivity.
Qed.

Lemma owner_of_woken (s : sched M) t u : owner_of (woken s t) u = owner_of s u.
Proof.
  unfold owner_of, task_get, woken. simpl. destruct (decide (t = u)) as [->|Ne].
  - rewrite lookup_alter_eq. destruct (sc_tasks s !! u) as [k|]; [|done]. simpl. by case_bool_decide.
  - by rewrite lookup_alter_ne.
Qed.

Lemma list_remove_nil prio t : list_remove prio [] t = [].
Proof. by destruct prio. Qed.

Lemma woken_queue_ok own q t prio q' :
  queue_ok own q -> t ∈ queued q -> prio = RPC_IS_PRIORITY q ->
  let timed := bool_decide (t ∈ timer_list q) in
  let l := filter (fun x => x <> t) (timer_list q) in
  q' = q <| timer_list := l |> <| dwork := if timed && bool_decide (l = []) then None else dwork q |>
         <| tasks := map (fun ls => list_remove prio ls t) (tasks q) |> <| qlen := u16 (qlen q - 1) |> ->
  queue_ok own q' /\ queued q ≡ₚ t :: queued q'.
Proof.
  intros Q Ht -> timed l ->. set (q' := q <| timer_list := _ |> <| dwork := _ |> <| tasks := _ |> <| qlen := _ |>).
  assert (P : queued q ≡ₚ t :: queued q')
    by (apply (concat_remove_perm own); [apply Q|apply Q|exact Ht]).
  split; [|done]. pose proof (qo_nodup _ _ Q) as N. rewrite P in N. apply NoDup_cons in N as [Nt N'].
  pose proof (qo_qlen _ _ Q) as L. pose proof (qo_dwork _ _ Q) as D.
  split; try apply Q; try done.
  - unfold q'. simpl. rewrite length_map. apply Q.
  - unfold q'. simpl. apply Forall_fmap. eapply Forall_impl; [apply Q|]. intros ls. apply list_remove_ok.
  - intros i Hi. pose proof (qo_above _ _ Q i Hi) as Ei. unfold q_list, q' in *. simpl in *.
    rewrite nth_lookup in *. rewrite list_lookup_fmap.
    destruct (tasks q !! Z.to_nat i); simpl in *; [|done]. subst. apply list_remove_nil.
  - unfold q'. simpl. rewrite L. unfold zlen. rewrite P. cbn [length].
    change (queued (field_upd _ _ _)) with (queued q').
    unfold u16. rewrite Zminus_mod_idemp_l. f_equal. lia.
  - unfold q'. simpl. apply NoDup_filter, Q.
  - intros u Hu. unfold q' in Hu. simpl in Hu. apply list_elem_of_filter in Hu as [Ne Hu].
    apply (qo_timed _ _ Q) in Hu. rewrite P, elem_of_cons in Hu. by destruct Hu.
  - unfold q'. cbn -[bool_decide]. fold l. unfold timed. case_bool_decide as B; cbn -[bool_decide].
    + case_bool_decide as B'; [done|]. split; [done|]. intros C. apply D in C. rewrite C in B.
      by apply elem_of_nil in B.
    + unfold l. rewrite filter_absent by done. done.
Qed.

Lemma woken_ok (s : sched M) t :
  sched_ok s -> t ∈ queued (sc_queue s) ->
  sched_ok (woken s t) /\ queued (sc_queue s) ≡ₚ t :: queued (sc_queue (woken s t)).
Proof.
  intros [Q E A] Ht.
  destruct (woken_queue_ok _ _ t _ (sc_queue (woken s t)) Q Ht eq_refl eq_refl) as [Q' P].
  split; [|done]. assert (N := qo_nodup _ _ Q). rewrite P in N. apply NoDup_cons in N as [Nt _].
  split.
  - eapply queue_ok_ext; [|exact Q']. intros u. by rewrite owner_of_woken.
  - intros u. change (wq_addr (sc_queue (woken s t))) with (wq_addr (sc_queue s)).
    destruct (decide (u = t)) as [->|Ne].
    + split; [done|]. intros (k & K & [C _]). unfold woken in K. simpl in K. rewrite lookup_alter_eq in K.
      destruct (sc_tasks s !! t); simplify_eq/=.
    + transitivity (u ∈ queued (sc_queue s)); [rewrite P, elem_of_cons; tauto|]. rewrite E.
      unfold woken. simpl. by rewrite lookup_alter_ne.
  - intros u k Hu K. assert (Hu' : u ∈ queued (sc_queue s)) by (rewrite P; by right).
    unfold woken in K. simpl in K. rewrite lookup_alter_ne in K by congruence. by eapply A.
Qed.

(** [rpc_wake_up_task_on_wq_queue_action_locked] on a sleeping task. *)
Lemma wake_action_eq {D} (s : sched M) t k (f : rpc_task M -> D -> bool * (rpc_task M * D)) d ok k' d' :
  sched_ok s -> t ∈ queued (sc_queue s) -> sc_tasks s !! t = Some k ->
  f k d = (ok, (k', d')) -> same_sched k k' ->
  let s1 := on_task t (fun _ => k') s in
  rpc_wake_up_task_on_wq_queue_action_locked t (Some f) d s =
    (if ok then Some t else None, (d', if ok then woken s1 t else s1)) /\
  sched_ok s1 /\ sc_queue s1 = sc_queue s.
Proof.
  intros S Ht K F Sk s1. destruct (proj1 (so_queued _ S t) Ht) as (k0 & K0 & [Hq Hw]).
  assert (k0 = k) as -> by congruence. unfold rpc_wake_up_task_on_wq_queue_action_locked.
  rewrite K, Hq, bool_decide_eq_true_2 by done. cbn [andb]. rewrite F. fold s1.
  assert (S1 : sched_ok s1) by (apply on_task_ok; [intros x Hx; congruence|done]).
  split; [|done]. destruct ok; [|done]. rewrite do_wake_eq; [done|].
  unfold RPC_IS_ACTIVATED, task_get. unfold s1, on_task, field_upd. simpl.
  rewrite lookup_alter_eq, K. simpl. destruct Sk as (_ & _ & _ & ->). by apply (so_active _ S t).
Qed.

Lemma wake_plain_eq (s : sched M) t :
  sched_ok s -> t ∈ queued (sc_queue s) -> rpc_wake_up_task_queue_locked t s = woken s t.
Proof.
  intros S Ht. destruct (proj1 (so_queued _ S t) Ht) as (k & K & [Hq Hw]).
  unfold rpc_wake_up_task_queue_locked, rpc_wake_up_task_on_wq_queue_action_locked.
  rewrite K, Hq, bool_decide_eq_true_2 by done. simpl. apply do_wake_eq.
  unfold RPC_IS_ACTIVATED, task_get. rewrite K. by apply (so_active _ S t).
Qed.

Lemma not_queued_wake (s : sched M) t {D} f (d : D) :
  sched_ok s -> t ∉ queued (sc_queue s) ->
  rpc_wake_up_task_on_wq_queue_action_locked t f d s = (None, (d, s)).
Proof.
  intros S Ht. unfold rpc_wake_up_task_on_wq_queue_action_locked.
  destruct (sc_tasks s !! t) as [k|] eqn:K; [|done]. destruct (tk_queued k) eqn:Hq; [|done]. simpl.
  rewrite bool_decide_eq_false_2; [done|]. intros Hw. apply Ht. apply (so_queued _ S). exists k. done.
Qed.

(** ** Waking everyone *)

(** One wake: [t] leaves the queue as [post] says, no other task changes. *)
Definition wakes (post : rpc_task M -> rpc_task M -> Prop) (w : Z -> sched M -> sched M) : Prop :=
  forall s t k, sched_ok s -> t ∈ queued (sc_queue s) -> sc_tasks s !! t = Some k ->
  sched_ok (w t s) /\ queued (sc_queue s) ≡ₚ t :: queued (sc_queue (w t s)) /\
  (exists k', sc_tasks (w t s) !! t = Some k' /\ post k k') /\
  forall u, u <> t -> sc_tasks (w t s) !! u = sc_tasks s !! u.

(** The task is runnable and on no queue; its status is [st]. *)
Definition runnable (st : Z -> Z) (k k' : rpc_task M) : Prop :=
  tk_queued k' = false /\ tk_running k' = true /\ tk_status k' = st (tk_status k) /\
  tk_owner k' = tk_owner k /\ tk_active k' = tk_active k /\ tk_msg k' = tk_msg k /\ tk_priority k' = tk_priority k.

Lemma woken_task (s : sched M) t k :
  sc_tasks s !! t = Some k ->
  exists k', sc_tasks (woken s t) !! t = Some k' /\ runnable id k k'.
Proof.
  intros K. unfold woken. simpl. rewrite lookup_alter_eq, K. simpl. eexists. split; [reflexivity|].
  by case_bool_decide.
Qed.

Lemma wakes_plain : wakes (runnable id) rpc_wake_up_task_queue_locked.
Proof.
  intros s t k S Ht K. rewrite wake_plain_eq by done. destruct (woken_ok s t S Ht) as [S' P].
  split_and!; [done|done|by apply woken_task|].
  intros u Hu. unfold woken. simpl. by rewrite lookup_alter_ne.
Qed.

Lemma wakes_status st : wakes (runnable (fun _ => st)) (fun t => rpc_wake_up_task_queue_set_status_locked t st).
Proof.
  intros s t k S Ht K. unfold rpc_wake_up_task_queue_set_status_locked.
  destruct (wake_action_eq s t k rpc_task_action_set_status st true (k <| tk_status := st |>) st S Ht K)
    as (E & S1 & Q1); [done|by repeat split|]. rewrite E. simpl.
  set (s1 := on_task t _ s) in *. destruct (woken_ok s1 t S1) as [S' P]; [by rewrite Q1|].
  assert (K1 : sc_tasks s1 !! t = Some (k <| tk_status := st |>))
    by (unfold s1, on_task, field_upd; simpl; by rewrite lookup_alter_eq, K).
  destruct (woken_task s1 t _ K1) as (k' & K' & R).
  rewrite <- Q1. split_and!; [done|done|by exists k'|].
  intros u Hu. unfold woken, s1, on_task, field_upd. simpl. by rewrite !lookup_alter_ne.
Qed.

Lemma wake_up_locked_all post w fuel (s : sched M) :
  wakes post w -> sched_ok s -> (length (queued (sc_queue s)) < fuel)%nat ->
  exists s', rpc_wake_up_locked fuel w s = Some s' /\ sched_ok s' /\ queued (sc_queue s') = [] /\
    forall t k, sc_tasks s !! t = Some k -> exists k', sc_tasks s' !! t = Some k' /\
      if bool_decide (t ∈ queued (sc_queue s)) then post k k' else k' = k.
Proof.
  intros W. revert s. induction fuel as [|fuel IH]; intros s S L; [lia|]. simpl.
  destruct (__rpc_find_next_queued (sc_queue s)) as [r q'] eqn:E.
  pose proof (find_next_ok s r q' S E) as S1.
  destruct (find_next_spec _ _ _ _ (so_queue _ S) E) as [(p & n & Eq & _) R].
  set (s1 := s <| sc_queue := q' |>) in *.
  assert (Q1 : queued (sc_queue s1) = queued (sc_queue s)) by (unfold s1; simpl; by rewrite Eq).
  destruct r as [t|].
  - destruct R as (i & Hi & Ft).
    assert (Ht : t ∈ queued (sc_queue s1)).
    { rewrite Q1. apply (concat_concat (tasks (sc_queue s)) (Z.to_nat i) (q_list (sc_queue s) i)).
      - pose proof (qo_max _ _ (so_queue _ S)). apply q_list_lookup; [lia|apply (so_queue _ S)].
      - by apply first_task_in. }
    destruct (proj1 (so_queued _ S1 t) Ht) as (k & K & _).
    destruct (W s1 t k S1 Ht K) as (S2 & P & (k2 & K2 & Po) & Fr).
    destruct (IH (w t s1) S2) as (s' & E' & S' & Q' & T').
    { rewrite <- Q1 in L. rewrite P in L. simpl in L. lia. }
    exists s'. split_and!; [done..|]. intros u ku Ku. rewrite Q1 in P.
    assert (N := qo_nodup _ _ (so_queue _ S)). rewrite P in N. apply NoDup_cons in N as [Nt _].
    destruct (decide (u = t)) as [->|Ne].
    + assert (ku = k) as -> by (change (sc_tasks s1) with (sc_tasks s) in K; congruence).
      destruct (T' t k2 K2) as (k' & K' & H). exists k'. split; [done|].
      rewrite bool_decide_eq_false_2 in H by done. subst k'. by rewrite bool_decide_eq_true_2 by (rewrite P; left).
    + destruct (T' u ku) as (k' & K' & H); [by rewrite Fr|]. exists k'. split; [done|].
      rewrite (bool_decide_ext (u ∈ queued (sc_queue s)) (u ∈ queued (sc_queue (w t s1)))); [done|].
      rewrite P, elem_of_cons. tauto.
  - exists s1. split_and!; [done|done|by rewrite Q1|]. intros t k K. exists k. split; [done|].
    rewrite bool_decide_eq_false_2; [done|]. rewrite R. by intros ?%elem_of_nil.
Qed.

(** What [rpc_wake_up_first] does: the next task in turn is offered to [f]; when
    [f] agrees it leaves the queue runnable, otherwise it stays. *)
Lemma wake_first_cases {D} (s : sched M) (f : rpc_task M -> D -> bool * (rpc_task M * D)) d r d' s' :
  sched_ok s -> (forall k, same_sched k (fst (snd (f k d)))) -> rpc_wake_up_first f d s = (r, (d', s')) ->
  sched_ok s' /\
  match fst (__rpc_find_next_queued (sc_queue s)) with
  | None => queued (sc_queue s) = [] /\ queued (sc_queue s') = [] /\ r = None /\ d' = d /\ sc_tasks s' = sc_tasks s
  | Some t => t ∈ queued (sc_queue s) /\ exists k k', sc_tasks s !! t = Some k /\
      f k d = (match r with Some _ => true | None => false end, (k', d')) /\
      (forall u, u <> t -> sc_tasks s' !! u = sc_tasks s !! u) /\
      match r with
      | Some t' => t' = t /\ queued (sc_queue s) ≡ₚ t :: queued (sc_queue s') /\
          exists k2, sc_tasks s' !! t = Some k2 /\ runnable id k' k2
      | None => queued (sc_queue s') = queued (sc_queue s) /\ sc_tasks s' !! t = Some k'
      end
  end.
Proof.
  intros S Hf E. unfold rpc_wake_up_first, rpc_wake_up_first_on_wq in E.
  destruct (__rpc_find_next_queued (sc_queue s)) as [o q'] eqn:F.
  pose proof (find_next_ok s o q' S F) as S1.
  destruct (find_next_spec _ _ _ _ (so_queue _ S) F) as [(p & n & Eq & _) R].
  set (s1 := s <| sc_queue := q' |>) in *.
  assert (Q1 : queued (sc_queue s1) = queued (sc_queue s)) by (unfold s1; simpl; by rewrite Eq).
  simpl. destruct o as [t|]; [|simplify_eq; split; [done|]; by rewrite Q1, R].
  destruct R as (i & Hi & Ft).
  assert (Ht : t ∈ queued (sc_queue s1)).
  { rewrite Q1. apply (concat_concat (tasks (sc_queue s)) (Z.to_nat i) (q_list (sc_queue s) i)).
    - pose proof (qo_max _ _ (so_queue _ S)). apply q_list_lookup; [lia|apply (so_queue _ S)].
    - by apply first_task_in. }
  destruct (proj1 (so_queued _ S1 t) Ht) as (k & K & _).
  destruct (f k d) as [ok [k' d1]] eqn:Fk. pose proof (Hf k) as Hk. rewrite Fk in Hk. simpl in Hk.
  destruct (wake_action_eq s1 t k f d ok k' d1 S1 Ht K Fk Hk) as (E' & S2 & Q2).
  change (sc_tasks s1) with (sc_tasks s) in K. rewrite E in E'. set (s2 := on_task t (fun _ => k') s1) in *.
  assert (K2 : sc_tasks s2 !! t = Some k') by (unfold s2, on_task, field_upd; simpl; by rewrite lookup_alter_eq, K).
  assert (Fr : forall u, u <> t -> sc_tasks s2 !! u = sc_tasks s !! u).
  { intros u Hu. unfold s2, on_task, field_upd. simpl. by rewrite lookup_alter_ne. }
  rewrite <- Q1, <- Q2. rewrite <- Q2 in Ht. destruct ok; simplify_eq.
  - destruct (woken_ok s2 t S2 Ht) as [S3 P]. split; [done|]. split; [done|]. exists k, k'.
    split_and!; try done; [|by apply woken_task].
    intros u Hu. rewrite <- Fr by done. unfold woken. simpl. by rewrite lookup_alter_ne.
  - split; [done|]. split; [done|]. exists k, k'. by split_and!.
Qed.

(** ** The timer *)

(** The sleeping tasks whose time has come. *)
Definition expired (now : Z) (s : sched M) (t : Z) : Prop :=
  t ∈ timer_list (sc_queue s) /\ time_after_eq now (task_get s t tk_timeout 0) = true.

Lemma timer_woken (s : sched M) t :
  timer_list (sc_queue (woken s t)) = filter (fun x => x <> t) (timer_list (sc_queue s)).
Proof. done. Qed.

Lemma queue_timer_loop_ok now l exp (s : sched M) exp' s' :
  sched_ok s -> NoDup l -> (forall t, t ∈ l -> t ∈ timer_list (sc_queue s)) ->
  queue_timer_loop now l exp s = (exp', s') ->
  sched_ok s' /\
  (forall t, t ∈ timer_list (sc_queue s') <->
     t ∈ timer_list (sc_queue s) /\ ~ (t ∈ l /\ time_after_eq now (task_get s t tk_timeout 0) = true)) /\
  forall t k, sc_tasks s !! t = Some k -> exists k', sc_tasks s' !! t = Some k' /\
    if bool_decide (t ∈ l) && time_after_eq now (tk_timeout k) then runnable (fun _ => - ETIMEDOUT) k k' else k' = k.
Proof.
  revert exp s. induction l as [|t l IH]; intros exp s S N Hl E.
  - injection E as <- <-. split_and!; [done| |].
    + intros t. split; [|tauto]. intros. split; [done|]. by intros [?%elem_of_nil _].
    + intros t k K. exists k. by split.
  - apply NoDup_cons in N as [Nt Nl]. cbn [queue_timer_loop] in E.
    assert (Ht : t ∈ timer_list (sc_queue s)) by (apply Hl; left).
    assert (Hq : t ∈ queued (sc_queue s)) by (by apply (qo_timed _ _ (so_queue _ S))).
    destruct (proj1 (so_queued _ S t) Hq) as (k & K & _).
    assert (Eto : task_get s t tk_timeout 0 = tk_timeout k) by (unfold task_get; by rewrite K).
    destruct (time_after_eq now (task_get s t tk_timeout 0)) eqn:Te.
    2:{ destruct (IH _ s S Nl ltac:(intros; apply Hl; by right) E) as (S' & T' & R'). split_and!; [done| |].
        - intros u. rewrite T', elem_of_cons. split; [|tauto]. intros [? H]. split; [done|].
          intros [[->|?] ?]; [congruence|tauto].
        - intros u ku Ku. destruct (R' u ku Ku) as (k' & K' & H). exists k'. split; [done|].
          destruct (decide (u = t)) as [->|Ne].
          + rewrite bool_decide_eq_false_2 in H by done. assert (ku = k) as -> by congruence.
            rewrite <- Eto, Te, andb_false_r. exact H.
          + rewrite (bool_decide_ext (u ∈ t :: l) (u ∈ l)); [done|]. rewrite elem_of_cons. tauto. }
    set (s1 := on_task t (fun t => t <| tk_status := - ETIMEDOUT |>) s) in *.
    assert (S1 : sched_ok s1) by (apply on_task_ok; [by repeat split|done]).
    rewrite (wake_plain_eq s1 t S1 Hq) in E.
    destruct (woken_ok s1 t S1 Hq) as [S2 P]. set (s2 := woken s1 t) in *.
    assert (T2 : timer_list (sc_queue s2) = filter (fun x => x <> t) (timer_list (sc_queue s))) by done.
    destruct (IH exp s2 S2 Nl) as (S' & T' & R'); [|done|].
    { intros u Hu. rewrite T2. apply list_elem_of_filter. split; [congruence|]. apply Hl. by right. }
    assert (L2 : forall u, u <> t -> sc_tasks s2 !! u = sc_tasks s !! u).
    { intros u Hu. unfold s2, woken, s1, on_task, field_upd. simpl. by rewrite !lookup_alter_ne. }
    split_and!; [done| |].
    + intros u. rewrite T', T2, list_elem_of_filter, elem_of_cons. destruct (decide (u = t)) as [->|Ne]; [tauto|].
      assert (G : task_get s2 u tk_timeout 0 = task_get s u tk_timeout 0) by (unfold task_get; by rewrite L2).
      rewrite G. tauto.
    + intros u ku Ku. destruct (decide (u = t)) as [->|Ne].
      * assert (ku = k) as -> by congruence.
        assert (K1 : sc_tasks s1 !! t = Some (k <| tk_status := - ETIMEDOUT |>))
          by (unfold s1, on_task, field_upd; simpl; by rewrite lookup_alter_eq, K).
        destruct (woken_task s1 t _ K1) as (k2 & K2 & H2). destruct (R' t k2 K2) as (k' & K' & H).
        rewrite bool_decide_eq_false_2 in H by done. simpl in H. subst k'. exists k2. split; [done|].
        rewrite bool_decide_eq_true_2 by left. rewrite <- Eto, Te. simpl. done.
      * rewrite <- L2 in Ku by done. destruct (R' u ku Ku) as (k' & K' & H). exists k'. split; [done|].
        rewrite (bool_decide_ext (u ∈ t :: l) (u ∈ l)); [done|]. rewrite elem_of_cons. tauto.
Qed.
End Keep.
