(* ===== verification/WaitQueueTheorems.v ===== *)
(** * RPC wait queues: main theorems

    The invariant over every sequence of operations, first-come first-served
    order per owner and priority, turns between owners and priorities, no
    starvation of a priority, and waking the whole queue. *)

From S2P Require Import Prelude Xdr WaitQueue WaitQueueInv.
From stdpp Require Import list gmap.
#[local] Open Scope Z_scope.

(** ** Operations as steps *)

Section Steps.
  Context {M : Type}.

(** One operation on the queue, or a change elsewhere to a task that neither is
    nor ends up asleep on it. *)
Inductive wq_step : sched M -> sched M -> Prop :=
| step_sleep s t action :
    0 <= task_get s t tk_priority 0 -> wq_step s (rpc_sleep_on t action s)
| step_sleep_timeout s now t action timeout :
    0 <= task_get s t tk_priority 0 -> wq_step s (rpc_sleep_on_timeout now t action timeout s)
| step_sleep_prio s t prio : wq_step s (rpc_sleep_on_priority t prio s)
| step_sleep_prio_timeout s now t timeout prio :
    wq_step s (rpc_sleep_on_priority_timeout now t timeout prio s)
| step_wake s t : wq_step s (rpc_wake_up_queued_task t s)
| step_wake_status s t status : wq_step s (rpc_wake_up_queued_task_set_status t status s)
| step_wake_first s {D} (f : rpc_task M -> D -> bool * (rpc_task M * D)) d r d' s' :
    (forall k, same_sched k (fst (snd (f k d)))) ->
    rpc_wake_up_first f d s = (r, (d', s')) -> wq_step s s'
| step_wake_all s s' : rpc_wake_up s = Some s' -> wq_step s s'
| step_wake_all_status s status s' : rpc_wake_up_status status s = Some s' -> wq_step s s'
| step_timer s now : wq_step s (__rpc_queue_timer_fn now s)
| step_task s t k :
    t ∉ queued (sc_queue s) -> ~ asleep (wq_addr (sc_queue s)) k ->
    wq_step s (s <| sc_tasks := <[t := k]> (sc_tasks s) |>).

(** The states a queue can be in: started empty, then used. *)
Inductive wq_reachable : sched M -> Prop :=
| reach_init q n tasks run put :
    1 <= n <= RPC_NR_PRIORITY -> 0 <= nr q <= 8 ->
    (forall t k, tasks !! t = Some k -> ~ asleep (wq_addr q) k) ->
    wq_reachable (mk_sched M tasks (__rpc_init_priority_wait_queue q n) run put)
| reach_step s s' : wq_reachable s -> wq_step s s' -> wq_reachable s'.

Lemma init_ok q n (T : gmap Z (rpc_task M)) run put :
  1 <= n <= RPC_NR_PRIORITY -> 0 <= nr q <= 8 ->
  (forall t k, T !! t = Some k -> ~ asleep (wq_addr q) k) ->
  sched_ok (mk_sched M T (__rpc_init_priority_wait_queue q n) run put).
Proof.
  change RPC_NR_PRIORITY with 4. intros Hn Hr HT. set (q' := __rpc_init_priority_wait_queue q n).
  assert (Ea : wq_addr q' = wq_addr q /\ tasks q' = [[]; []; []; []] /\ maxpriority q' = n - 1 /\
    priority q' = n - 1 /\ 0 <= nr q' <= 8 /\ qlen q' = 0 /\ timer_list q' = [] /\ dwork q' = None).
  { assert (E : q' = mk_queue (wq_addr q) [[]; []; []; []] (n - 1) (n - 1)
       (if priority q =? n - 1 then nr q else Z.shiftl 1 (n - 1)) 0 [] 0 None).
    { unfold q', __rpc_init_priority_wait_queue, rpc_reset_waitqueue_priority, rpc_set_waitqueue_priority.
      destruct q as [ad tk mx pr m ql tl ex dw]. change (priority (mk_queue ad tk mx pr m ql tl ex dw)) with pr.
      lazymatch goal with |- context [negb ?b] => change b with (pr =? n - 1) end.
      destruct (Z.eqb_spec pr (n - 1)) as [->|]; reflexivity. }
    rewrite E. cbn [wq_addr tasks maxpriority priority nr qlen timer_list dwork]. split_and!; try done.
    - destruct (priority q =? n - 1); [lia|]. apply Z.shiftl_nonneg. lia.
    - destruct (priority q =? n - 1); [lia|].
      assert (n = 1 \/ n = 2 \/ n = 3 \/ n = 4) as [->|[->|[->| ->]]] by lia; vm_compute; discriminate. }
  clearbody q'. destruct Ea as (Ea & Et & Em & Ep & En & El & Etl & Ed).
  assert (Eq : queued q' = []) by (unfold queued; by rewrite Et).
  split; simpl.
  - split; rewrite ?Eq, ?Et, ?Em, ?Ep, ?El, ?Etl, ?Ed; try done; try lia.
    + repeat constructor; unfold list_ok; destruct (RPC_IS_PRIORITY q'); by (apply groups_ok_nil || constructor).
    + intros i Hi. unfold q_list. rewrite Et. by destruct (Z.to_nat i) as [|[|[|[|[]]]]].
    + constructor.
    + constructor.
  - intros t. rewrite Eq, Ea. split; [by intros ?%elem_of_nil|]. intros (k & K & As). by apply HT in K.
  - intros t k. rewrite Eq. by intros ?%elem_of_nil.
Qed.

Lemma sleep_entry_ok (s : sched M) t (body : sched M -> sched M) :
  sched_ok s -> (forall s1, sched_ok s1 -> RPC_IS_ACTIVATED s1 t = true -> s1 = s -> sched_ok (body s1)) ->
  sched_ok (let '(ok, s1) := rpc_sleep_check_activated t s in if negb ok then s1 else body s1).
Proof.
  intros S B. destruct (rpc_sleep_check_activated t s) as [ok s1] eqn:E.
  destruct (sleep_check_ok s t ok s1 S E) as [S1 H]. destruct ok; simpl; [|done].
  destruct (H eq_refl) as [-> A]. by apply B.
Qed.

Lemma callback_keeps {A} (s : sched M) t a u (g : rpc_task M -> A) d :
  (forall k c, g (k <| tk_callback := c |>) = g k) ->
  task_get (rpc_set_tk_callback t a s) u g d = task_get s u g d.
Proof.
  intros H. unfold rpc_set_tk_callback. destruct a, (task_get s t tk_callback None); try done.
  apply task_get_alter. intros; apply H.
Qed.

Lemma wake_first_ok {D} (s : sched M) (f : rpc_task M -> D -> bool * (rpc_task M * D)) d r d' s' :
  (forall k, same_sched k (fst (snd (f k d)))) -> sched_ok s ->
  rpc_wake_up_first f d s = (r, (d', s')) -> sched_ok s'.
Proof.
  intros Hf S E. unfold rpc_wake_up_first, rpc_wake_up_first_on_wq in E.
  destruct (__rpc_find_next_queued (sc_queue s)) as [o q'] eqn:F.
  pose proof (find_next_ok s o q' S F) as S1. set (s1 := s <| sc_queue := q' |>) in *.
  destruct o as [t|]; [|by simplify_eq].
  destruct (decide (t ∈ queued (sc_queue s1))) as [Ht|Ht].
  - destruct (proj1 (so_queued _ S1 t) Ht) as (k & K & _).
    destruct (f k d) as [ok [k' d1]] eqn:Fk. pose proof (Hf k) as Hk. rewrite Fk in Hk. simpl in Hk.
    destruct (wake_action_eq s1 t k f d ok k' d1 S1 Ht K Fk Hk) as (E' & S2 & Q2).
    rewrite E in E'. destruct ok; simplify_eq; [|done]. apply woken_ok; [done|by rewrite Q2].
  - rewrite (not_queued_wake s1 t _ d S1 Ht) in E. by simplify_eq.
Qed.

Lemma wake_queued_ok (s : sched M) t : sched_ok s -> sched_ok (rpc_wake_up_queued_task t s).
Proof.
  intros S. unfold rpc_wake_up_queued_task. destruct (negb _); [done|].
  destruct (decide (t ∈ queued (sc_queue s))) as [Ht|Ht].
  - rewrite wake_plain_eq by done. by apply woken_ok.
  - unfold rpc_wake_up_task_queue_locked. by rewrite not_queued_wake.
Qed.

Lemma wake_queued_status_ok (s : sched M) t st : sched_ok s -> sched_ok (rpc_wake_up_queued_task_set_status t st s).
Proof.
  intros S. unfold rpc_wake_up_queued_task_set_status. destruct (negb _); [done|].
  destruct (decide (t ∈ queued (sc_queue s))) as [Ht|Ht].
  - destruct (proj1 (so_queued _ S t) Ht) as (k & K & _). by apply (wakes_status st s t k).
  - unfold rpc_wake_up_task_queue_set_status_locked. by rewrite not_queued_wake.
Qed.

Lemma timer_fn_ok (s : sched M) now : sched_ok s -> sched_ok (__rpc_queue_timer_fn now s).
Proof.
  intros S. unfold __rpc_queue_timer_fn.
  destruct (queue_timer_loop now (timer_list (sc_queue s)) now s) as [e s1] eqn:E.
  destruct (queue_timer_loop_ok _ _ _ _ _ _ S (qo_timers _ _ (so_queue _ S)) ltac:(done) E) as [[Q E1 A] _].
  destruct (timer_list (sc_queue s1)) eqn:T; [by split|].
  split; [|exact E1|exact A]. destruct Q. split; try done. simpl. by rewrite T.
Qed.

Lemma other_task_ok (s : sched M) t k :
  sched_ok s -> t ∉ queued (sc_queue s) -> ~ asleep (wq_addr (sc_queue s)) k ->
  sched_ok (s <| sc_tasks := <[t := k]> (sc_tasks s) |>).
Proof.
  intros [Q E A] Ht Hk. split; simpl.
  - destruct Q. split; try done. apply Forall_forall. intros l Hl. rewrite Forall_forall in qo_lists.
    eapply list_ok_ext; [|by apply qo_lists]. intros u Hu. unfold owner_of, task_get. simpl.
    rewrite lookup_insert_ne; [done|]. intros ->. apply Ht. apply list_elem_of_lookup in Hl as [i Hi].
    by apply (concat_concat _ i l).
  - intros u. destruct (decide (u = t)) as [->|Ne].
    + split; [done|]. rewrite lookup_insert_eq. intros (k' & [= <-] & As). done.
    + rewrite lookup_insert_ne by done. apply E.
  - intros u k' Hu. rewrite lookup_insert_ne by (intros ->; done). by apply A.
Qed.

Lemma step_ok s s' : sched_ok s -> wq_step s s' -> sched_ok s'.
Proof.
  intros S H. destruct H.
  - apply (sleep_entry_ok s t (fun s => let s := rpc_set_tk_callback t action s in
      __rpc_sleep_on_priority t (task_get s t tk_priority 0) s)); [done|].
    intros s1 S1 A ->. apply sleep_on_priority_ok; [by apply set_tk_callback_ok|..];
      unfold RPC_IS_ACTIVATED in *; by rewrite callback_keeps.
  - apply (sleep_entry_ok s t (fun s => let s := rpc_set_tk_callback t action s in
      __rpc_sleep_on_priority_timeout now t timeout (task_get s t tk_priority 0) s)); [done|].
    intros s1 S1 A ->. apply sleep_on_priority_timeout_ok; [by apply set_tk_callback_ok|..];
      unfold RPC_IS_ACTIVATED in *; by rewrite callback_keeps.
  - apply (sleep_entry_ok s t (__rpc_sleep_on_priority t (u8 (prio - RPC_PRIORITY_LOW)))); [done|].
    intros s1 S1 A _. apply sleep_on_priority_ok; [done..|]. apply Z.mod_pos_bound. done.
  - apply (sleep_entry_ok s t (__rpc_sleep_on_priority_timeout now t timeout (u8 (prio - RPC_PRIORITY_LOW)))); [done|].
    intros s1 S1 A _. apply sleep_on_priority_timeout_ok; [done..|]. apply Z.mod_pos_bound. done.
  - by apply wake_queued_ok.
  - by apply wake_queued_status_ok.
  - by eapply wake_first_ok.
  - destruct (wake_up_locked_all _ _ _ s wakes_plain S (Nat.lt_succ_diag_r _)) as (s2 & E & ? & _).
    unfold rpc_wake_up in H. congruence.
  - destruct (wake_up_locked_all _ _ _ s (wakes_status status) S (Nat.lt_succ_diag_r _)) as (s2 & E & ? & _).
    unfold rpc_wake_up_status in H. congruence.
  - by apply timer_fn_ok.
  - by apply other_task_ok.
Qed.

Lemma reachable_ok (s : sched M) : wq_reachable s -> sched_ok s.
Proof. induction 1; [by apply init_ok|by eapply step_ok]. Qed.
End Steps.

(** C7: in every state a queue can reach, by any sequence of sleeps, wakes and
    timer runs interleaved with other changes to the tasks, the lists hold
    exactly the tasks flagged as asleep there, each once and grouped by owner,
    the length and the timers agree with them, and every sleeping task is
    active. *)
Theorem wait_queue_invariant {M} (s : sched M) : wq_reachable s -> sched_ok s.
Proof. apply reachable_ok. Qed.

(** Three tasks of owners 7, 7 and 8 that go to sleep one after the other. *)
Definition sample_task (owner : Z) : rpc_task unit :=
  mk_task unit owner 1 0 0 None true false false None tt.
Definition sample_wq : rpc_wait_queue := mk_queue 0 [] 0 0 0 0 [] 0 None.
Definition sample_sched0 : sched unit :=
  mk_sched unit (<[1 := sample_task 7]> (<[2 := sample_task 7]> (<[3 := sample_task 8]> ∅)))
    (rpc_init_priority_wait_queue sample_wq) [] [].
Definition sample_sched : sched unit :=
  rpc_sleep_on 3 None (rpc_sleep_on_timeout 100 2 None 500 (rpc_sleep_on 1 None sample_sched0)).

Lemma sample_reachable : wq_reachable sample_sched.
Proof.
  apply (reach_step (rpc_sleep_on_timeout 100 2 None 500 (rpc_sleep_on 1 None sample_sched0)));
    [|apply step_sleep; vm_compute; discriminate].
  apply (reach_step (rpc_sleep_on 1 None sample_sched0)); [|apply step_sleep_timeout; vm_compute; discriminate].
  apply (reach_step sample_sched0); [|apply step_sleep; vm_compute; discriminate].
  apply reach_init; [vm_compute; split; discriminate|vm_compute; split; discriminate|].
  intros t k H [C _]. apply lookup_insert_Some in H as [[_ <-]|[_ H]]; [done|].
  apply lookup_insert_Some in H as [[_ <-]|[_ H]]; [done|].
  apply lookup_insert_Some in H as [[_ <-]|[_ H]]; [done|]. by rewrite lookup_empty in H.
Qed.

Lemma wait_queue_invariant_witness :
  sched_ok sample_sched /\ queued (sc_queue sample_sched) = [1; 2; 3] /\ qlen (sc_queue sample_sched) = 3 /\
  timer_list (sc_queue sample_sched) = [2].
Proof.
  split; [exact (wait_queue_invariant sample_sched sample_reachable)|].
  vm_compute. repeat split.
Defined.

(** ** Order *)

Lemma q_list_insert q i j l :
  length (tasks q) = 4%nat -> 0 <= i < 4 -> 0 <= j < 4 ->
  nth (Z.to_nat j) (<[Z.to_nat i := l]> (tasks q)) [] = if j =? i then l else q_list q j.
Proof.
  intros L Hi Hj. rewrite nth_lookup. destruct (Z.eqb_spec j i) as [->|Ne].
  - rewrite list_lookup_insert_eq by lia. done.
  - rewrite list_lookup_insert_ne by lia. unfold q_list. by rewrite nth_lookup.
Qed.

Lemma q_list_map q (f : list (list Z) -> list (list Z)) j :
  f [] = [] -> nth (Z.to_nat j) (map f (tasks q)) [] = f (q_list q j).
Proof.
  intros E. unfold q_list. rewrite !nth_lookup, list_lookup_fmap.
  destruct (tasks q !! Z.to_nat j); simpl; [done|by rewrite E].
Qed.

Lemma q_list_in_queued {M} (s : sched M) i t :
  sched_ok s -> 0 <= i <= maxpriority (sc_queue s) -> t ∈ concat (q_list (sc_queue s) i) ->
  t ∈ queued (sc_queue s).
Proof.
  intros S Hi H. pose proof (qo_max _ _ (so_queue _ S)).
  apply (concat_concat _ (Z.to_nat i) (q_list (sc_queue s) i)); [|done].
  apply q_list_lookup; [lia|apply (so_queue _ S)].
Qed.

(** Queued once means in one list, once. *)
Lemma nodup_at (ls : list (list (list Z))) i l :
  NoDup (concat (concat ls)) -> ls !! i = Some l -> NoDup (concat l).
Proof.
  intros N L. rewrite <- (take_drop_middle _ _ _ L) in N. rewrite !concat_app in N. simpl in N.
  rewrite concat_app in N. apply NoDup_app in N as (_ & _ & N). by apply NoDup_app in N as (N & _ & _).
Qed.

Lemma nodup_disjoint (ls : list (list (list Z))) a b la lb t :
  NoDup (concat (concat ls)) -> ls !! a = Some la -> ls !! b = Some lb ->
  t ∈ concat la -> t ∈ concat lb -> a <> b -> False.
Proof.
  revert a b. induction ls as [|l ls IH]; intros a b N La Lb Ca Cb Hab; [done|].
  simpl in N. rewrite concat_app in N. apply NoDup_app in N as (_ & Nd & N).
  destruct a as [|a], b as [|b]; simplify_eq/=; [| |by apply (IH a b); auto].
  - apply (Nd t Ca). by apply (concat_concat ls b lb).
  - apply (Nd t Cb). by apply (concat_concat ls a la).
Qed.

(** What [rpc_wake_up_next] does. *)
Lemma wake_next_spec {M} (s : sched M) r s' :
  sched_ok s -> rpc_wake_up_next s = (r, s') ->
  match r with
  | Some t => exists i q1, 0 <= i <= maxpriority (sc_queue s) /\
      first_task (q_list (sc_queue s) i) = Some t /\ t ∈ queued (sc_queue s) /\
      __rpc_find_next_queued (sc_queue s) = (Some t, q1) /\ tasks q1 = tasks (sc_queue s) /\
      maxpriority q1 = maxpriority (sc_queue s) /\
      s' = woken (on_task t (fun k => k) (s <| sc_queue := q1 |>)) t
  | None => queued (sc_queue s) = []
  end.
Proof.
  intros S E. unfold rpc_wake_up_next, rpc_wake_up_first, rpc_wake_up_first_on_wq in E.
  destruct (__rpc_find_next_queued (sc_queue s)) as [o q'] eqn:F.
  pose proof (find_next_ok s o q' S F) as S1.
  destruct (find_next_spec _ _ _ _ (so_queue _ S) F) as [(p & n & Eq & _) R].
  set (s1 := s <| sc_queue := q' |>) in *. destruct o as [t|]; [|by simplify_eq].
  destruct R as (i & Hi & Ft).
  assert (Hq : t ∈ queued (sc_queue s)) by (eapply q_list_in_queued; [done..|by apply first_task_in]).
  assert (Ht : t ∈ queued (sc_queue s1)) by (unfold s1; simpl; by rewrite Eq).
  destruct (proj1 (so_queued _ S1 t) Ht) as (k & K & _).
  destruct (wake_action_eq s1 t k rpc_wake_up_next_func tt true k tt S1 Ht K eq_refl) as (E' & _); [by repeat split|].
  rewrite E' in E. simplify_eq. exists i. eexists. split; [done|]. split_and!; try done.
  f_equal. unfold on_task, field_upd. simpl. f_equal. apply alter_ext. intros x Hx.
  change (sc_tasks s1) with (sc_tasks s) in K. simpl in Hx. congruence.
Qed.

(** Tasks are served first come, first served per owner and priority: a task
    that goes to sleep is appended to its owner's queue at its priority, and
    the task woken next is the first of its owner's queue; no other queue
    changes. *)
Theorem wait_queue_fifo {M} (s : sched M) :
  sched_ok s -> RPC_IS_PRIORITY (sc_queue s) = true ->
  let own := owner_of s in let q := sc_queue s in
  (forall t p i o, RPC_IS_QUEUED s t = false -> RPC_IS_ACTIVATED s t = true -> 0 <= p -> 0 <= i < 4 ->
     fifo own o (q_list (sc_queue (__rpc_sleep_on_priority t p s)) i) =
     fifo own o (q_list q i) ++ if (i =? eff_priority q p) && (own t =? o) then [t] else []) /\
  (forall t s', rpc_wake_up_next s = (Some t, s') ->
     exists i r, 0 <= i <= maxpriority q /\ fifo own (own t) (q_list q i) = t :: r /\
     forall j o, 0 <= j < 4 ->
       fifo own o (q_list (sc_queue s') j) =
       if (j =? i) && (o =? own t) then r else fifo own o (q_list q j)).
Proof.
  intros S Hp own q. pose proof (so_queue _ S) as Q. fold own q in Q. pose proof (qo_max _ _ Q) as Hm.
  assert (G : forall i, groups_ok own (q_list q i)).
  { intros i. unfold q_list. rewrite nth_lookup. destruct (tasks q !! Z.to_nat i) as [l|] eqn:E; [|apply groups_ok_nil].
    pose proof (qo_lists _ _ Q) as F. rewrite Forall_forall in F. fold q in Hp. rewrite Hp in F.
    apply F. by apply list_elem_of_lookup_2 in E. }
  split.
  - intros t p i o Hq Ha Hp0 Hi. unfold __rpc_sleep_on_priority, __rpc_do_sleep_on_priority.
    rewrite Hq, add_wait_queue_eq. cbv zeta. fold q. set (e := eff_priority q p).
    assert (He : 0 <= e <= maxpriority q).
    { unfold e, eff_priority. fold q in Hp. rewrite Hp. destruct (Z.ltb_spec (maxpriority q) p); lia. }
    unfold q_list at 1. simpl. rewrite q_list_insert by (lia || apply Q). unfold list_add. fold q in Hp. rewrite Hp.
    fold own. destruct (Z.eqb_spec i e) as [->|Ne]; simpl; [|by rewrite app_nil_r].
    rewrite enqueue_fifo by done. f_equal. by destruct (Z.eqb_spec (own t) o), (bool_decide_reflect (own t = o)).
  - intros t s' E. pose proof (wake_next_spec s _ s' S E) as (i & q1 & Hi & Ft & Ht & _ & Et & Em & ->).
    fold q in Hi, Ft, Ht, Et, Em. destruct (first_task_fifo own _ t (G i) Ft) as [r Er].
    exists i, r. split_and!; [lia|lia|done|]. intros j o Hj. unfold q_list at 1, woken. simpl.
    rewrite Et. rewrite q_list_map by apply list_remove_nil.
    assert (Ep : RPC_IS_PRIORITY q1 = true) by (unfold RPC_IS_PRIORITY; by rewrite Em).
    change (sc_queue (on_task t _ _)) with q1. rewrite Ep. simpl list_remove.
    assert (Nd : forall x, 0 <= x < 4 -> NoDup (concat (q_list q x))).
    { intros x Hx. eapply nodup_at; [apply Q|]. apply q_list_lookup; [done|apply Q]. }
    rewrite dequeue_fifo by auto. destruct (Z.eqb_spec j i) as [->|Ne]; simpl.
    + destruct (Z.eqb_spec o (own t)) as [->|No].
      * rewrite Er. rewrite filter_cons_False by tauto. apply filter_absent. intros C.
        pose proof (Nd i ltac:(lia)) as N. apply (NoDup_filter (fun x => own x = own t)) in N.
        fold (fifo own (own t) (q_list q i)) in N. rewrite Er in N. by apply NoDup_cons in N as [? _].
      * apply filter_absent. unfold fifo. rewrite list_elem_of_filter. intros [? _]. congruence.
    + apply filter_fifo_absent. intros C. apply first_task_in in Ft.
      eapply (nodup_disjoint (tasks q) (Z.to_nat j) (Z.to_nat i)); [apply Q|..|exact C|exact Ft|lia];
        apply q_list_lookup; (lia || apply Q).
Qed.

(** Tasks 1 and 2 of owner 7 wait before task 3 of owner 8; 1 is woken next. *)
Lemma wait_queue_fifo_witness :
  exists r, fifo (owner_of sample_sched) 7 (q_list (sc_queue sample_sched) 1) = 1 :: r.
Proof.
  pose proof (reachable_ok sample_sched sample_reachable) as S.
  destruct (rpc_wake_up_next sample_sched) as [o s'] eqn:E.
  assert (o = Some 1) as -> by (change o with (fst (o, s')); rewrite <- E; vm_compute; reflexivity).
  destruct (proj2 (wait_queue_fifo sample_sched S eq_refl) 1 s' E) as (i & r & Hi & F & _).
  exists r. change (owner_of sample_sched 1) with 7 in F.
  assert (i = 0 \/ i = 1 \/ i = 2 \/ i = 3) as D
    by (change (maxpriority (sc_queue sample_sched)) with 3 in Hi; lia).
  destruct D as [->|[->|[->| ->]]]; [discriminate F|exact F|discriminate F|discriminate F].
Defined.

(** Taking turns.  A privileged task is served before any other; the owners
    of one priority take turns, since an owner whose task is woken goes behind
    the others with the rest of its tasks. *)
Theorem wait_queue_turns {M} (s : sched M) :
  sched_ok s -> RPC_IS_PRIORITY (sc_queue s) = true ->
  (forall t, maxpriority (sc_queue s) = RPC_NR_PRIORITY - 1 ->
     first_task (q_list (sc_queue s) (RPC_NR_PRIORITY - 1)) = Some t ->
     fst (rpc_wake_up_next s) = Some t) /\
  (forall t s', rpc_wake_up_next s = (Some t, s') ->
     exists i rest others, 0 <= i <= maxpriority (sc_queue s) /\
     q_list (sc_queue s) i = (t :: rest) :: others /\
     q_list (sc_queue s') i = others ++ match rest with [] => [] | _ => [rest] end).
Proof.
  intros S Hp. split.
  - intros t Hm Ft. destruct (rpc_wake_up_next s) as [o s'] eqn:E. simpl.
    assert (F : fst (__rpc_find_next_queued (sc_queue s)) = Some t).
    { unfold __rpc_find_next_queued, __rpc_find_next_queued_priority. rewrite Hp, Hm.
      change (RPC_PRIORITY_PRIVILEGED <? RPC_NR_PRIORITY - 1) with true. cbv iota. by rewrite Ft. }
    pose proof (wake_next_spec s _ s' S E) as W. destruct o as [u|].
    + destruct W as (i & q1 & _ & _ & _ & Fn & _). rewrite Fn in F. by simplify_eq/=.
    + exfalso. apply first_task_in in Ft. pose proof (qo_max _ _ (so_queue _ S)).
      apply (q_list_in_queued s (RPC_NR_PRIORITY - 1)) in Ft; [|done|rewrite Hm; vm_compute; split; discriminate].
      rewrite W in Ft. by apply elem_of_nil in Ft.
  - intros t s' E. destruct (wake_next_spec s _ s' S E) as (i & q1 & Hi & Ft & Ht & _ & Et & Em & ->).
    assert (exists rest others, q_list (sc_queue s) i = (t :: rest) :: others) as (rest & others & L)
      by (destruct (q_list (sc_queue s) i) as [|[|x r] o]; simplify_eq/=; eauto).
    exists i, rest, others. split; [done|]. split; [done|]. unfold q_list at 1, woken. simpl. rewrite Et.
    rewrite q_list_map by apply list_remove_nil. change (sc_queue (on_task t _ _)) with q1.
    assert (Ep : RPC_IS_PRIORITY q1 = true) by (unfold RPC_IS_PRIORITY; by rewrite Em). rewrite Ep, L.
    apply dequeue_first_rotates.
Qed.

(** Owner 7's remaining task 2 goes behind owner 8's task 3. *)
Lemma wait_queue_turns_witness :
  exists i rest others, q_list (sc_queue sample_sched) i = (1 :: rest) :: others /\
  q_list (sc_queue (snd (rpc_wake_up_next sample_sched))) i = others ++ match rest with [] => [] | _ => [rest] end.
Proof.
  pose proof (reachable_ok sample_sched sample_reachable) as S.
  destruct (rpc_wake_up_next sample_sched) as [o s'] eqn:E.
  assert (o = Some 1) as -> by (change o with (fst (o, s')); rewrite <- E; vm_compute; reflexivity).
  destruct (proj2 (wait_queue_turns sample_sched S eq_refl) 1 s' E) as (i & rest & others & _ & L & L').
  exists i, rest, others. split; [exact L|exact L'].
Defined.

(** ** No starvation *)

(** How many more calls may pass before list [p] is served, with the queue at
    priority [c] and [n] left of its batch: the batch, and a turn of at most
    [2^j + 1] tasks for each list [j] the scan meets before [p]. *)
Definition scan_dist4 (c i : Z) : Z := (c - 1 - i) mod 4.
Definition turn_cost (c p j : Z) : Z := if scan_dist4 c j <? scan_dist4 c p then 2 ^ j + 1 else 0.
Definition wait_cost (c n p : Z) : Z := n + turn_cost c p 0 + turn_cost c p 1 + turn_cost c p 2.

Lemma wait_cost_jump c p c' n :
  0 <= c <= 3 -> 0 <= p <= 2 -> 0 <= c' <= 2 -> 0 <= n -> scan_dist4 c c' < scan_dist4 c p ->
  c' <> c /\ wait_cost c' (Z.shiftl 1 c') p < wait_cost c n p.
Proof.
  intros Hc Hp Hc' Hn Hd. unfold wait_cost.
  assert (Ec : c = 0 \/ c = 1 \/ c = 2 \/ c = 3) by lia. assert (Ep : p = 0 \/ p = 1 \/ p = 2) by lia.
  assert (Ec' : c' = 0 \/ c' = 1 \/ c' = 2) by lia.
  destruct Ec as [->|[->|[->| ->]]], Ep as [->|[->| ->]], Ec' as [->|[->| ->]];
    try (exfalso; revert Hd; vm_compute; discriminate);
    (split; [lia|]);
    repeat match goal with |- context [turn_cost ?a ?b ?c] =>
      let v := eval vm_compute in (turn_cost a b c) in change (turn_cost a b c) with v end;
    match goal with |- context [Z.shiftl 1 ?a] =>
      let v := eval vm_compute in (Z.shiftl 1 a) in change (Z.shiftl 1 a) with v end; lia.
Qed.

Lemma scan_dist4_inj c a b :
  0 <= a <= 3 -> 0 <= b <= 3 -> scan_dist4 c a = scan_dist4 c b -> a = b.
Proof. unfold scan_dist4. intros. zlia. Qed.

(** A call that does not serve list [p] brings its turn nearer. *)
Lemma wait_cost_decreases own q p r q' :
  queue_ok own q -> maxpriority q = 3 -> q_list q 3 = [] -> 0 <= p <= 2 -> q_list q p <> [] ->
  __rpc_find_next_queued q = (r, q') -> r <> first_task (q_list q p) ->
  wait_cost (priority q') (nr q') p < wait_cost (priority q) (nr q) p.
Proof.
  intros Q Hm H3 Hp Hne E Hr. pose proof (qo_nr _ _ Q) as Hn. pose proof (qo_prio _ _ Q) as Hc.
  assert (Fp : first_task (q_list q p) <> None).
  { intros F. apply Hne. eapply first_task_none_ok; [|exact F]. pose proof (qo_lists _ _ Q) as L.
    rewrite Forall_forall in L. apply L. apply list_elem_of_lookup_2 with (Z.to_nat p).
    apply q_list_lookup; [lia|apply Q]. }
  unfold __rpc_find_next_queued, RPC_IS_PRIORITY, __rpc_find_next_queued_priority in E. rewrite Hm in E.
  change (RPC_NR_PRIORITY - 1) with 3 in E. rewrite H3 in E. cbn [Z.ltb Z.compare first_task] in E.
  change (RPC_PRIORITY_PRIVILEGED <? 3) with true in E. cbv iota in E.
  destruct (if negb (nr q =? 0) then _ else None) as [t|] eqn:F2.
  { injection E as <- <-. destruct (Z.eqb_spec (nr q) 0); [done|]. simpl. unfold wait_cost. lia. }
  pose proof (next_queue_nearest q (priority q) ltac:(lia) Hc) as N.
  pose proof (next_queue_spec (Z.to_nat (maxpriority q + 1)) q (priority q) (priority q) Hc) as N'.
  rewrite Hm in N, N'. destruct (next_queue _ _ _ _) as [[p' t]|].
  2:{ destruct Fp. apply N. lia. }
  destruct N' as [Hp' Ft]. injection E as <- <-.
  assert (p' <> 3) by (intros ->; by rewrite H3 in Ft). assert (p' <> p) by (intros ->; by rewrite Ft in Hr).
  assert (Hd : scan_dist4 (priority q) p' < scan_dist4 (priority q) p).
  { unfold scan_dist in N. rewrite Hm in N. change (3 + 1) with 4 in N.
    destruct (Z.lt_trichotomy (scan_dist4 (priority q) p') (scan_dist4 (priority q) p)) as [?|[E|L]]; [done|..].
    - apply scan_dist4_inj in E; lia.
    - destruct Fp. apply N; [lia|exact L]. }
  destruct (wait_cost_jump (priority q) p p' (nr q)) as [Ne L]; [lia..|done|].
  unfold rpc_set_waitqueue_priority. rewrite (proj2 (Z.eqb_neq (priority q) p')) by done. exact L.
Qed.

(** C29: no starvation.  On a priority queue without privileged tasks, a priority
    that keeps having tasks is served within 19 calls, whatever sleeps and
    wakes happen on the lists in between. *)
Theorem wait_queue_no_starvation (qs : nat -> rpc_wait_queue) (own : nat -> Z -> Z) p :
  0 <= p <= 2 ->
  (forall n, queue_ok (own n) (qs n) /\ maxpriority (qs n) = 3 /\ q_list (qs n) 3 = [] /\ q_list (qs n) p <> []) ->
  (forall n, let q' := snd (__rpc_find_next_queued (qs n)) in
     priority (qs (S n)) = priority q' /\ nr (qs (S n)) = nr q') ->
  exists n, (n <= 18)%nat /\ fst (__rpc_find_next_queued (qs n)) = first_task (q_list (qs n) p).
Proof.
  intros Hp Hq Hs.
  assert (B : forall n, 0 <= wait_cost (priority (qs n)) (nr (qs n)) p).
  { intros n. pose proof (qo_nr _ _ (proj1 (Hq n))). unfold wait_cost, turn_cost.
    repeat (destruct (_ <? _)); change (2 ^ 0) with 1; change (2 ^ 1) with 2; change (2 ^ 2) with 4; lia. }
  assert (I : forall k, wait_cost (priority (qs k)) (nr (qs k)) p + Z.of_nat k <= 18 \/
    exists n, (n < k)%nat /\ fst (__rpc_find_next_queued (qs n)) = first_task (q_list (qs n) p)).
  { induction k as [|k [IH|(n & Hn & En)]]; [left|..|right; exists n; split; [lia|done]].
    - pose proof (qo_nr _ _ (proj1 (Hq 0%nat))). unfold wait_cost, turn_cost.
      repeat (destruct (_ <? _)); change (2 ^ 0) with 1; change (2 ^ 1) with 2; change (2 ^ 2) with 4; lia.
    - destruct (decide (fst (__rpc_find_next_queued (qs k)) = first_task (q_list (qs k) p))) as [E|E].
      + right. exists k. split; [lia|done].
      + left. destruct (Hq k) as (Q & Hm & H3 & Hne). destruct (Hs k) as [-> ->].
        destruct (__rpc_find_next_queued (qs k)) as [r q'] eqn:F. simpl in *.
        pose proof (wait_cost_decreases _ _ p r q' Q Hm H3 Hp Hne F E). lia. }
  destruct (I 19%nat) as [C|(n & Hn & En)].
  - specialize (B 19%nat). lia.
  - exists n. split; [lia|done].
Qed.

(** A low-priority task (list 0) that waits behind an endless supply of normal
    ones (list 1): the queue goes through the same states for ever. *)
Definition busy (pr n : Z) : rpc_wait_queue :=
  mk_queue 0 [[[1]]; [[2]]; []; []] 3 pr n 2 [] 0 None.
Definition busy_run (i : nat) : rpc_wait_queue :=
  Nat.iter i (fun q => let q' := snd (__rpc_find_next_queued q) in busy (priority q') (nr q')) (busy 1 2).

Lemma busy_ok pr n : 0 <= pr <= 3 -> 0 <= n <= 8 -> queue_ok (fun t => t) (busy pr n).
Proof.
  intros Hp Hn. assert (G : forall t, groups_ok (fun t => t) [[t]]).
  { intros t. apply groups_ok_cons. split; [split; [done|by repeat constructor]|]. split; [by intros ?%elem_of_nil|].
    apply groups_ok_nil. }
  split; try done; try (simpl; lia).
  - constructor; [apply G|]. constructor; [apply G|]. constructor; [apply groups_ok_nil|].
    constructor; [apply groups_ok_nil|constructor].
  - intros i Hi. unfold q_list. simpl in *. destruct (Z.to_nat i) as [|[|[|[|[]]]]] eqn:E; try done; lia.
  - change (queued (busy pr n)) with [1; 2]. rewrite !NoDup_cons, elem_of_cons, !elem_of_nil.
    split; [lia|]. split; [tauto|constructor].
  - constructor.
  - intros t Ht. by apply elem_of_nil in Ht.
Qed.

Lemma busy_run_shape i : exists pr n, busy_run i = busy pr n /\ 0 <= pr <= 3 /\ 0 <= n <= 8.
Proof.
  induction i as [|i (pr & n & E & Hp & Hn)]; [by exists 1, 2|]. simpl. rewrite E.
  destruct (__rpc_find_next_queued (busy pr n)) as [r q'] eqn:F.
  destruct (find_next_spec _ _ _ _ (busy_ok pr n Hp Hn) F) as [(p' & n' & -> & Hp' & Hn') _].
  by exists p', n'.
Qed.

Lemma wait_queue_no_starvation_witness :
  exists n, (n <= 18)%nat /\ fst (__rpc_find_next_queued (busy_run n)) = Some 1.
Proof.
  destruct (wait_queue_no_starvation busy_run (fun _ t => t) 0) as (n & Hn & E).
  - lia.
  - intros n. destruct (busy_run_shape n) as (pr & m & -> & Hp & Hm). split; [exact (busy_ok pr m Hp Hm)|].
    split; [reflexivity|]. split; [reflexivity|discriminate].
  - intros n. split; reflexivity.
  - exists n. split; [exact Hn|]. rewrite E. destruct (busy_run_shape n) as (pr & m & -> & _). reflexivity.
Defined.

(** ** Waking the whole queue *)

(** [rpc_wake_up] and [rpc_wake_up_status] come to an end with an empty queue:
    every task that slept on it is runnable and on no queue, the second with the
    given status; no other task changes.  The timer function wakes exactly the
    tasks whose time has come, with [-ETIMEDOUT], and the others keep sleeping
    unchanged. *)
Theorem wait_queue_wakes {M} (s : sched M) status now :
  sched_ok s ->
  let slept := fun t => bool_decide (t ∈ queued (sc_queue s)) in
  let due := fun t k => bool_decide (t ∈ timer_list (sc_queue s)) && time_after_eq now (tk_timeout k) in
  (exists s', rpc_wake_up s = Some s' /\ sched_ok s' /\ queued (sc_queue s') = [] /\
     forall t k, sc_tasks s !! t = Some k -> exists k', sc_tasks s' !! t = Some k' /\
       if slept t then runnable id k k' else k' = k) /\
  (exists s', rpc_wake_up_status status s = Some s' /\ sched_ok s' /\ queued (sc_queue s') = [] /\
     forall t k, sc_tasks s !! t = Some k -> exists k', sc_tasks s' !! t = Some k' /\
       if slept t then runnable (fun _ => status) k k' else k' = k) /\
  (forall t k, sc_tasks s !! t = Some k -> exists k', sc_tasks (__rpc_queue_timer_fn now s) !! t = Some k' /\
     if due t k then runnable (fun _ => - ETIMEDOUT) k k' else k' = k).
Proof.
  intros S slept due. split; [|split].
  - apply (wake_up_locked_all _ _ _ s wakes_plain S). lia.
  - apply (wake_up_locked_all _ _ _ s (wakes_status status) S). lia.
  - unfold __rpc_queue_timer_fn.
    destruct (queue_timer_loop now (timer_list (sc_queue s)) now s) as [e s1] eqn:E.
    destruct (queue_timer_loop_ok _ _ _ _ _ _ S (qo_timers _ _ (so_queue _ S)) ltac:(done) E) as (_ & _ & R).
    intros t k K. destruct (R t k K) as (k' & K' & H). exists k'. split; [|exact H].
    by destruct (timer_list (sc_queue s1)).
Qed.

(** At time 600 task 2 is due, tasks 1 and 3 are not; [rpc_wake_up] empties the queue. *)
Lemma wait_queue_wakes_witness :
  (exists s', rpc_wake_up sample_sched = Some s' /\ queued (sc_queue s') = []) /\
  exists k', sc_tasks (__rpc_queue_timer_fn 600 sample_sched) !! 2 = Some k' /\
    tk_queued k' = false /\ tk_status k' = - ETIMEDOUT.
Proof.
  destruct (wait_queue_wakes sample_sched 0 600 (reachable_ok sample_sched sample_reachable))
    as ((s' & E & _ & Q & _) & _ & T). split; [exists s'; split; [exact E|exact Q]|].
  destruct (sc_tasks sample_sched !! 2) as [k|] eqn:K; [|vm_compute in K; discriminate K].
  destruct (T 2 k K) as (k' & K' & H). exists k'. split; [exact K'|].
  vm_compute in K. injection K as <-. destruct H as (A & _ & B & _). split; [exact A|exact B].
Defined.
