(* ===== verification/WaitQueueFrame.v ===== *)
(** * Several wait queues

    A task sleeps on one queue at a time.  The operations of [WaitQueue] on one queue leave the
    tasks that sleep on others alone, so that each queue keeps its invariant whatever is done to
    the others: [acts] says what an operation on the queue at [a] may do to the tasks, [queue_op]
    that it keeps its own queue in order as well. *)

From S2P Require Import Prelude Xdr WaitQueue WaitQueueInv WaitQueueTheorems.
From stdpp Require Import list gmap.
#[local] Open Scope Z_scope.

Section Frame.
Context {M : Type}.
Implicit Types (T : gmap Z (rpc_task M)) (s : sched M) (k : rpc_task M).

(** What no scheduler operation changes. *)
Definition tinfo k : Z * Z * bool * M := (tk_owner k, tk_priority k, tk_active k, tk_msg k).

Definition kept (a : Z) k k' : Prop := tinfo k' = tinfo k /\ forall a', a' <> a -> asleep a' k' <-> asleep a' k.

Definition acts (a : Z) T T' : Prop := forall t, option_Forall2 (kept a) (T !! t) (T' !! t).

Lemma kept_refl a k : kept a k k.
Proof. done. Qed.

Lemma acts_refl a T : acts a T T.
Proof. intros t. destruct (T !! t); constructor. apply kept_refl. Qed.

Lemma acts_trans a T1 T2 T3 : acts a T1 T2 -> acts a T2 T3 -> acts a T1 T3.
Proof.
  intros H1 H2 t. specialize (H1 t). specialize (H2 t). destruct H1 as [k1 k2 [E1 A1]|]; inversion H2 as [x k3 [E2 A2]|]; subst; constructor.
  split; [congruence|]. intros a' Ha. rewrite A2, A1; done.
Qed.

Lemma acts_info a T T' : acts a T T' -> tinfo <$> T' = tinfo <$> T.
Proof. intros H. apply map_eq. intros t. rewrite !lookup_fmap. destruct (H t) as [k k' [E _]|]; simpl; congruence. Qed.

Lemma acts_alter a T t f : (forall k, T !! t = Some k -> kept a k (f k)) -> acts a T (alter f t T).
Proof.
  intros H u. destruct (decide (u = t)) as [->|Ne]; [rewrite lookup_alter_eq|rewrite lookup_alter_ne by done; by destruct (T !! u); constructor].
  destruct (T !! t) eqn:K; constructor. by apply H.
Qed.

(** The other queues stay in order. *)
Lemma acts_other a T T' q run put run' put' :
  acts a T T' -> wq_addr q <> a -> sched_ok (mk_sched M T q run put) -> sched_ok (mk_sched M T' q run' put').
Proof.
  intros A Ha [Q E Ac]. simpl in *. split; simpl.
  - destruct Q. split; try done. eapply Forall_impl; [exact qo_lists|]. intros l Hl. eapply list_ok_ext; [|exact Hl]. intros t _.
    unfold owner_of, task_get. simpl. destruct (A t) as [k k' [[= ->] _]|]; done.
  - intros t. rewrite E. destruct (A t) as [k k' [_ K]|]; [|done]. split; intros (k0 & [= <-] & K0); eexists; (split; [done|]); by apply K.
  - intros t k' Ht K'. specialize (Ac t). destruct (A t) as [k k2 [[= _ _ Ek _] _]|]; [|done]. injection K' as ->. rewrite Ek. by apply Ac.
Qed.

(** Priorities are what [rpc_init_task] made of them. *)
Definition prios_ok T : Prop := forall t k, T !! t = Some k -> 0 <= tk_priority k.

Lemma acts_prios a T T' : acts a T T' -> prios_ok T -> prios_ok T'.
Proof. intros A P t k' K'. specialize (A t). rewrite K' in A. inversion A as [k ? [[= _ E _ _] _] K|]; subst. rewrite E. symmetry in K. by apply (P t k). Qed.

(** ** Operations on one queue *)

Record queue_op s s' : Prop := {
  qo_ok : sched_ok s';
  qo_acts : acts (wq_addr (sc_queue s)) (sc_tasks s) (sc_tasks s');
  qo_addr : wq_addr (sc_queue s') = wq_addr (sc_queue s);
}.

Lemma queue_op_refl s : sched_ok s -> queue_op s s.
Proof. intros S. split; [done|apply acts_refl|done]. Qed.

Lemma queue_op_trans s1 s2 s3 : queue_op s1 s2 -> queue_op s2 s3 -> queue_op s1 s3.
Proof. intros [A1 B1 C1] [A2 B2 C2]. split; [done| |congruence]. eapply acts_trans; [done|]. by rewrite <- C1. Qed.

(** Only fields the queues do not look at. *)
Lemma quiet_alter s t f : (forall k, tinfo (f k) = tinfo k /\ tk_queued (f k) = tk_queued k /\ tk_waitqueue (f k) = tk_waitqueue k) ->
  sched_ok s -> queue_op s (on_task t f s).
Proof.
  intros F S. split; [|apply acts_alter|done].
  - apply on_task_ok; [|done]. intros k _. destruct (F k) as ([= E1 _ E3 _] & Q & W). by split_and!.
  - intros k _. destruct (F k) as (E & Q & W). split; [done|]. intros a' _. unfold asleep. by rewrite Q, W.
Qed.

Lemma asleep_frame a k k' : tinfo k' = tinfo k -> (asleep a k \/ tk_queued k = false) -> (tk_queued k' = false \/ tk_waitqueue k' = Some a) -> kept a k k'.
Proof.
  intros E H1 H2. split; [done|]. intros a' Ha. unfold asleep in *. destruct H1 as [[_ ?]|?], H2 as [?|?]; split; intros [? ?]; congruence.
Qed.

Lemma wake_keeps st k k' a : asleep a k -> runnable st k k' -> kept a k k'.
Proof. intros A (Q & _ & _ & O & Ac & Ms & P). apply asleep_frame; [unfold tinfo; congruence|by left|by left]. Qed.

(** *** Sleeping *)

Lemma add_wait_queue_op s t p : sched_ok s -> RPC_IS_QUEUED s t = false -> RPC_IS_ACTIVATED s t = true -> 0 <= p ->
  queue_op s (__rpc_add_wait_queue t p s) /\ queued (sc_queue (__rpc_add_wait_queue t p s)) ≡ₚ t :: queued (sc_queue s).
Proof.
  intros S Q A Hp. destruct (add_wait_queue_ok s t p S Q A Hp) as [S' P]. split; [|done]. split; [done| |by rewrite add_wait_queue_eq].
  rewrite add_wait_queue_eq. cbn. apply acts_alter. intros k K. unfold RPC_IS_QUEUED, task_get in Q. rewrite K in Q.
  apply asleep_frame; [done|by right|by right].
Qed.

Lemma add_timer_op s now t timeout : sched_ok s -> t ∈ queued (sc_queue s) -> t ∉ timer_list (sc_queue s) ->
  queue_op s (__rpc_add_timer now t timeout s) /\ queued (sc_queue (__rpc_add_timer now t timeout s)) = queued (sc_queue s).
Proof.
  intros S H1 H2. pose proof (add_timer_ok s now t timeout S H1 H2) as S'. split; [split; [done| |]|].
  - unfold __rpc_add_timer. cbn. apply acts_alter. by intros.
  - unfold __rpc_add_timer. cbn. destruct (timer_list _); [done|]. by destruct (time_before _ _).
  - unfold __rpc_add_timer, queued. cbn. destruct (timer_list _); [done|]. by destruct (time_before _ _).
Qed.

Lemma callback_op s t a : sched_ok s -> queue_op s (rpc_set_tk_callback t a s) /\ sc_queue (rpc_set_tk_callback t a s) = sc_queue s.
Proof.
  intros S. unfold rpc_set_tk_callback. destruct a, (task_get s t tk_callback None); try (split; [by apply queue_op_refl|done]).
  split; [|done]. by apply quiet_alter.
Qed.

(** A task that goes to sleep: it joins the queue or the queue stays as it is. *)
Definition joins s s' (t : Z) : Prop :=
  queue_op s s' /\ (queued (sc_queue s') = queued (sc_queue s) \/ queued (sc_queue s') ≡ₚ t :: queued (sc_queue s) /\ RPC_IS_QUEUED s t = false).

Lemma check_activated_op s t ok s' : sched_ok s -> rpc_sleep_check_activated t s = (ok, s') ->
  queue_op s s' /\ sc_queue s' = sc_queue s /\ (ok = true -> s' = s /\ RPC_IS_ACTIVATED s t = true).
Proof.
  intros S E. destruct (sleep_check_ok s t ok s' S E) as [S' H]. unfold rpc_sleep_check_activated in E.
  destruct (negb (RPC_IS_ACTIVATED s t)) eqn:A; injection E as <- <-; [|split; [by apply queue_op_refl|]; split; [done|]; intros _; split; [done|by apply negb_false_iff]].
  split; [|done]. split; [done| |done]. by destruct (quiet_alter s t (fun t => t <| tk_status := - EIO |>) ltac:(done) S).
Qed.

Lemma queued_callback s t a u : RPC_IS_QUEUED (rpc_set_tk_callback t a s) u = RPC_IS_QUEUED s u.
Proof. by apply callback_keeps. Qed.

Lemma sleep_prio_joins s t p : sched_ok s -> RPC_IS_ACTIVATED s t = true -> 0 <= p -> joins s (__rpc_sleep_on_priority t p s) t.
Proof.
  intros S A Hp. unfold __rpc_sleep_on_priority. destruct (RPC_IS_QUEUED s t) eqn:Q; [split; [by apply queue_op_refl|by left]|].
  destruct (add_wait_queue_op s t p S Q A Hp) as [O P]. split; [done|]. by right.
Qed.

Lemma sleep_prio_timeout_joins s now t timeout p :
  sched_ok s -> RPC_IS_ACTIVATED s t = true -> 0 <= p -> joins s (__rpc_sleep_on_priority_timeout now t timeout p s) t.
Proof.
  intros S A Hp. unfold __rpc_sleep_on_priority_timeout. destruct (RPC_IS_QUEUED s t) eqn:Q; [split; [by apply queue_op_refl|by left]|].
  destruct (time_is_after_jiffies now timeout); [|split; [by apply quiet_alter|by left]].
  destruct (add_wait_queue_op s t p S Q A Hp) as [O P]. unfold __rpc_do_sleep_on_priority.
  destruct (add_timer_op _ now t timeout (qo_ok _ _ O)) as [O2 P2]; [rewrite P; left| |split; [by eapply queue_op_trans|right; by rewrite P2]].
  rewrite add_wait_queue_timers. intros C. apply (qo_timed _ _ (so_queue _ S)) in C. apply (so_queued _ S) in C as (k & K & [Kq _]).
  unfold RPC_IS_QUEUED, task_get in Q. by rewrite K, Kq in Q.
Qed.

Lemma joins_from s s1 s2 t : queue_op s s1 -> sc_queue s1 = sc_queue s -> RPC_IS_QUEUED s1 t = RPC_IS_QUEUED s t -> joins s1 s2 t -> joins s s2 t.
Proof. intros O E Q [O2 J]. split; [by eapply queue_op_trans|]. by rewrite <- E, <- Q. Qed.

Lemma task_prio s t : prios_ok (sc_tasks s) -> 0 <= task_get s t tk_priority 0.
Proof. intros P. unfold task_get. destruct (sc_tasks s !! t) eqn:K; [by apply (P t)|done]. Qed.

Lemma sleep_on_joins s t a : sched_ok s -> prios_ok (sc_tasks s) -> joins s (rpc_sleep_on t a s) t.
Proof.
  intros S P. unfold rpc_sleep_on. destruct (rpc_sleep_check_activated t s) as [ok s1] eqn:E.
  destruct (check_activated_op s t ok s1 S E) as (O & Q & H). destruct ok; cbn [negb]; [|split; [done|left; by rewrite Q]].
  destruct (H eq_refl) as [-> A]. destruct (callback_op s t a S) as [O2 Q2]. eapply joins_from; [done|done|apply queued_callback|].
  apply sleep_prio_joins; [apply O2| |apply task_prio; by eapply acts_prios; [apply O2|]].
  rewrite <- A. by apply (callback_keeps s t a t tk_active false).
Qed.

Lemma sleep_on_timeout_joins s now t a timeout : sched_ok s -> prios_ok (sc_tasks s) -> joins s (rpc_sleep_on_timeout now t a timeout s) t.
Proof.
  intros S P. unfold rpc_sleep_on_timeout. destruct (rpc_sleep_check_activated t s) as [ok s1] eqn:E.
  destruct (check_activated_op s t ok s1 S E) as (O & Q & H). destruct ok; cbn [negb]; [|split; [done|left; by rewrite Q]].
  destruct (H eq_refl) as [-> A]. destruct (callback_op s t a S) as [O2 Q2]. eapply joins_from; [done|done|apply queued_callback|].
  apply sleep_prio_timeout_joins; [apply O2| |apply task_prio; by eapply acts_prios; [apply O2|]].
  rewrite <- A. by apply (callback_keeps s t a t tk_active false).
Qed.

(** *** Waking *)

(** A task may leave the queue. *)
Definition leaves s s' (t : Z) : Prop :=
  queue_op s s' /\ (queued (sc_queue s') = queued (sc_queue s) /\ t ∉ queued (sc_queue s) \/ queued (sc_queue s) ≡ₚ t :: queued (sc_queue s')).

Lemma wakes_op st w s t : wakes (runnable st) w -> (forall s, wq_addr (sc_queue (w t s)) = wq_addr (sc_queue s)) ->
  sched_ok s -> t ∈ queued (sc_queue s) -> leaves s (w t s) t.
Proof.
  intros W Ad S Ht. destruct (proj1 (so_queued _ S t) Ht) as (k & K & As). destruct (W s t k S Ht K) as (S' & P & (k' & K' & R) & Fr).
  split; [|by right]. split; [done| |apply Ad]. intros u. destruct (decide (u = t)) as [->|Ne].
  - rewrite K, K'. constructor. by eapply wake_keeps.
  - rewrite Fr by done. destruct (sc_tasks s !! u); constructor. apply kept_refl.
Qed.

Lemma action_addr {D} f (d : D) t s : wq_addr (sc_queue (snd (snd (rpc_wake_up_task_on_wq_queue_action_locked t f d s)))) = wq_addr (sc_queue s).
Proof.
  assert (forall s, wq_addr (sc_queue (__rpc_do_wake_up_task_on_wq t s)) = wq_addr (sc_queue s)) as W.
  { intros s0. unfold __rpc_do_wake_up_task_on_wq. destruct (negb _); [done|]. unfold rpc_make_runnable, __rpc_remove_wait_queue, __rpc_disable_timer.
    destruct (negb _), (negb _); cbn; try done; by destruct (filter _ _). }
  unfold rpc_wake_up_task_on_wq_queue_action_locked. destruct (sc_tasks s !! t) as [k|]; [|done]. destruct (_ && _); [|done].
  destruct f as [f|]; [|apply W]. destruct (f k d) as [ok [k' d']]. destruct ok; [|done]. cbn [snd]. by rewrite W.
Qed.

Lemma wake_queued_leaves s t : sched_ok s -> leaves s (rpc_wake_up_queued_task t s) t.
Proof.
  intros S. unfold rpc_wake_up_queued_task. destruct (decide (t ∈ queued (sc_queue s))) as [Ht|Ht].
  - destruct (proj1 (so_queued _ S t) Ht) as (k & K & [Q _]). unfold RPC_IS_QUEUED, task_get. rewrite K, Q. cbn [negb].
    eapply wakes_op; [apply wakes_plain|intros; apply action_addr|done|done].
  - assert (rpc_wake_up_task_queue_locked t s = s) as E by (unfold rpc_wake_up_task_queue_locked; by rewrite not_queued_wake).
    rewrite E. destruct (negb _); (split; [by apply queue_op_refl|by left]).
Qed.

Lemma wake_status_leaves s t st : sched_ok s -> leaves s (rpc_wake_up_queued_task_set_status t st s) t.
Proof.
  intros S. unfold rpc_wake_up_queued_task_set_status. destruct (decide (t ∈ queued (sc_queue s))) as [Ht|Ht].
  - destruct (proj1 (so_queued _ S t) Ht) as (k & K & [Q _]). unfold RPC_IS_QUEUED, task_get. rewrite K, Q. cbn [negb].
    apply (wakes_op (fun _ => st) (fun t => rpc_wake_up_task_queue_set_status_locked t st)); [apply wakes_status|intros; apply action_addr|done|done].
  - assert (rpc_wake_up_task_queue_set_status_locked t st s = s) as E by (unfold rpc_wake_up_task_queue_set_status_locked; by rewrite not_queued_wake).
    rewrite E. destruct (negb _); (split; [by apply queue_op_refl|by left]).
Qed.

(** Everyone leaves. *)
Lemma find_next_op s r q : sched_ok s -> __rpc_find_next_queued (sc_queue s) = (r, q) ->
  queue_op s (s <| sc_queue := q |>) /\ queued q = queued (sc_queue s) /\ match r with Some t => t ∈ queued q | None => queued q = [] end.
Proof.
  intros S F. pose proof (find_next_ok s r q S F) as S1. destruct (find_next_spec _ _ _ _ (so_queue _ S) F) as [(p & n & Eq & _) R].
  assert (queued q = queued (sc_queue s)) as Q by by rewrite Eq.
  split_and!; [split; [done|apply acts_refl|by rewrite Eq]|done|]. destruct r as [t|]; [|by rewrite Q].
  destruct R as (i & Hi & Ft). rewrite Q. apply (concat_concat (tasks (sc_queue s)) (Z.to_nat i) (q_list (sc_queue s) i)).
  - pose proof (qo_max _ _ (so_queue _ S)). apply q_list_lookup; [lia|apply (so_queue _ S)].
  - by apply first_task_in.
Qed.

Lemma wake_loop_op st w fuel s s' : wakes (runnable st) w -> (forall t s, wq_addr (sc_queue (w t s)) = wq_addr (sc_queue s)) ->
  sched_ok s -> rpc_wake_up_locked fuel w s = Some s' -> queue_op s s'.
Proof.
  intros W Ad. revert s. induction fuel as [|fuel IH]; intros s S E; [done|]. cbn [rpc_wake_up_locked] in E.
  destruct (__rpc_find_next_queued (sc_queue s)) as [r q] eqn:F. destruct (find_next_op s r q S F) as (O & Q & R).
  destruct r as [t|]; [|by injection E as <-]. destruct (wakes_op st w _ t W (Ad t) (qo_ok _ _ O) R) as [O2 _].
  eapply queue_op_trans; [exact O|]. eapply queue_op_trans; [exact O2|]. apply IH; [apply O2|done].
Qed.

Lemma wake_all_op s : sched_ok s -> let s' := default s (rpc_wake_up s) in queue_op s s' /\ queued (sc_queue s') = [].
Proof.
  intros S. destruct (wake_up_locked_all _ _ (Datatypes.S (length (queued (sc_queue s)))) s wakes_plain S ltac:(lia)) as (s' & E & _ & Q & _).
  unfold rpc_wake_up. rewrite E. split; [|done]. eapply wake_loop_op; [apply wakes_plain|intros; apply action_addr|done|done].
Qed.

Lemma wake_all_status_op st s : sched_ok s -> let s' := default s (rpc_wake_up_status st s) in queue_op s s' /\ queued (sc_queue s') = [].
Proof.
  intros S. destruct (wake_up_locked_all _ _ (Datatypes.S (length (queued (sc_queue s)))) s (wakes_status st) S ltac:(lia)) as (s' & E & _ & Q & _).
  unfold rpc_wake_up_status. rewrite E. split; [|done]. eapply wake_loop_op; [apply wakes_status|intros; apply action_addr|done|done].
Qed.

(** The timer. *)
Lemma leaves_sub s s' t : leaves s s' t -> queued (sc_queue s') ⊆ queued (sc_queue s).
Proof. intros [_ [[-> _]|P]]; [done|]. intros u Hu. rewrite P. by right. Qed.

Lemma wake_plain_leaves s t : sched_ok s -> leaves s (rpc_wake_up_task_queue_locked t s) t.
Proof.
  intros S. destruct (decide (t ∈ queued (sc_queue s))) as [Ht|Ht].
  - eapply wakes_op; [apply wakes_plain|intros; apply action_addr|done|done].
  - unfold rpc_wake_up_task_queue_locked. rewrite not_queued_wake by done. split; [by apply queue_op_refl|by left].
Qed.

Lemma timer_loop_op now l exp s e s' : sched_ok s -> queue_timer_loop now l exp s = (e, s') -> queue_op s s' /\ queued (sc_queue s') ⊆ queued (sc_queue s).
Proof.
  revert exp s. induction l as [|t l IH]; intros exp s S E; cbn [queue_timer_loop] in E; [injection E as <- <-; split; [by apply queue_op_refl|done]|].
  destruct (time_after_eq _ _); [|by eapply IH].
  pose proof (quiet_alter s t (fun t => t <| tk_status := - ETIMEDOUT |>) ltac:(done) S) as O1.
  pose proof (wake_plain_leaves _ t (qo_ok _ _ O1)) as L. destruct (IH _ _ (qo_ok _ _ (proj1 L)) E) as [O3 Q3].
  split; [eapply queue_op_trans; [exact O1|eapply queue_op_trans; [apply L|exact O3]]|]. etransitivity; [exact Q3|]. by apply leaves_sub in L.
Qed.

Lemma timer_fn_op now s : sched_ok s -> queue_op s (__rpc_queue_timer_fn now s) /\ queued (sc_queue (__rpc_queue_timer_fn now s)) ⊆ queued (sc_queue s).
Proof.
  intros S. pose proof (timer_fn_ok s now S) as S'. unfold __rpc_queue_timer_fn in *.
  destruct (queue_timer_loop now (timer_list (sc_queue s)) now s) as [e s1] eqn:E. destruct (timer_loop_op _ _ _ _ _ _ S E) as [[A B C] Q].
  destruct (timer_list (sc_queue s1)); [by split; [split|]|]. split; [split; [done|exact B|exact C]|exact Q].
Qed.

(** The next in turn. *)
Lemma wake_first_addr {D} f (d : D) s : sched_ok s -> wq_addr (sc_queue (snd (snd (rpc_wake_up_first f d s)))) = wq_addr (sc_queue s).
Proof.
  intros S. unfold rpc_wake_up_first, rpc_wake_up_first_on_wq. destruct (__rpc_find_next_queued (sc_queue s)) as [r q] eqn:F.
  destruct (find_next_op s r q S F) as (O & _). destruct r; [rewrite action_addr|]; apply O.
Qed.

(** What [f] does to the message of the task that is woken. *)
Definition offers {D} (f : rpc_task M -> D -> bool * (rpc_task M * D)) (d : D) (g : M -> M) : Prop :=
  forall k, f k d = (true, (k <| tk_msg := g (tk_msg k) |>, d)) \/ f k d = (false, (k, d)).

Lemma wake_first_spec {D} f (d : D) g s r d' s' : offers f d g -> sched_ok s -> rpc_wake_up_first f d s = (r, (d', s')) ->
  sched_ok s' /\ wq_addr (sc_queue s') = wq_addr (sc_queue s) /\
  match r with
  | Some t => queued (sc_queue s) ≡ₚ t :: queued (sc_queue s') /\ exists k k', sc_tasks s !! t = Some k /\ sc_tasks s' !! t = Some k' /\
      tk_queued k' = false /\ tk_owner k' = tk_owner k /\ tk_priority k' = tk_priority k /\ tk_active k' = tk_active k /\ tk_msg k' = g (tk_msg k) /\
      fst (f k d) = true /\ forall u, u <> t -> sc_tasks s' !! u = sc_tasks s !! u
  | None => sc_tasks s' = sc_tasks s /\ queued (sc_queue s') = queued (sc_queue s) /\
      (queued (sc_queue s) = [] \/ exists t k, t ∈ queued (sc_queue s) /\ sc_tasks s !! t = Some k /\ fst (f k d) = false)
  end.
Proof.
  intros O S E. assert (forall k, same_sched k (fst (snd (f k d)))) as F by (intros k; by destruct (O k) as [->| ->]).
  destruct (wake_first_cases s f d r d' s' S F E) as [S' C]. split; [done|]. split; [pose proof (wake_first_addr f d s S) as A; by rewrite E in A|].
  destruct (fst (__rpc_find_next_queued (sc_queue s))) as [t|].
  - destruct C as (Ht & k & k' & K & Ef & Fr & C). destruct r as [t'|].
    + destruct C as (-> & P & k2 & K2 & (R1 & _ & _ & R4 & R5 & R6 & R7)). split; [done|]. exists k, k2. destruct (O k) as [X|X]; rewrite X in Ef; [|done].
      injection Ef as <- <-. rewrite R4, R5, R6, R7, X. by split_and!.
    + destruct C as [Q K2]. destruct (O k) as [X|X]; rewrite X in Ef; [done|]. injection Ef as <- <-.
      split_and!; [apply map_eq; intros u; destruct (decide (u = t)) as [->|]; [congruence|by apply Fr]|done|].
      right. exists t, k. by rewrite X.
  - destruct C as (Q & Q' & -> & -> & T). split; [done|]. split; [congruence|by left].
Qed.

(** [f] always agrees and leaves the task alone. *)
Lemma wake_first_agree s r u s' : sched_ok s -> rpc_wake_up_first_on_wq (fun k (_ : unit) => (true, (k, tt))) tt s = (r, (u, s')) ->
  queue_op s s' /\ match r with Some t => queued (sc_queue s) ≡ₚ t :: queued (sc_queue s') | None => queued (sc_queue s) = [] /\ queued (sc_queue s') = [] end.
Proof.
  intros S E. destruct (wake_first_spec (fun k (_ : unit) => (true, (k, tt))) tt id s r u s') as (S' & A & C); [|done|exact E|].
  { intros k. left. by destruct k. }
  destruct r as [t|].
  - destruct C as (P & k & k' & K & K' & Q & E1 & E2 & E3 & E4 & _ & Fr). split; [|done]. split; [done| |done]. intros v.
    destruct (decide (v = t)) as [->|Ne]; [|rewrite Fr by done; destruct (sc_tasks s !! v); constructor; apply kept_refl].
    rewrite K, K'. constructor. apply asleep_frame; [unfold tinfo; rewrite E1, E2, E3, E4; done| |by left].
    left. assert (t ∈ queued (sc_queue s)) as Ht by (rewrite P; left). apply (so_queued _ S) in Ht as (k0 & K0 & A0). congruence.
  - destruct C as (T & Q & [C|(t & k & _ & _ & C)]); [|done]. split; [split; [done|rewrite T; apply acts_refl|done]|]. by rewrite Q.
Qed.
End Frame.
