(* ===== verification/Session.v ===== *)
(** * NFSv4.1 session slot tables

    [fs/nfs/nfs4session.c]: the client's slot tables.  Slots are handed out in
    order from a bitmap, a reply may move the limits the server has set, and
    tasks that find no free slot wait on the table's priority queue
    ([WaitQueue]) until one is assigned to them.

    A slot is named by its number, which is also its place in the table's list.
    Every function runs under [slot_tbl_lock], so each is one atomic step.
    [kmem] holds the outcomes of the memory allocations to come (none left:
    they succeed). *)

From S2P Require Import Prelude Xdr WaitQueue.
From stdpp Require Import list gmap.
#[local] Open Scope Z_scope.

Definition NFS4_MAX_SLOT_TABLE := 1024.
Definition NFS4_NO_SLOT := 2 ^ 32 - 1.

(** ** State *)

Record nfs4_slot := mk_slot {
  generation : Z;
  slot_nr : Z;
  seq_nr : Z;
  seq_nr_last_acked : Z;
  seq_nr_highest_sent : Z;
  slot_privileged : bool;
  seq_done : bool;
}.
#[export] Instance upd_slot : Updatable nfs4_slot := fun s =>
  mk_slot (generation s) (slot_nr s) (seq_nr s) (seq_nr_last_acked s) (seq_nr_highest_sent s)
    (slot_privileged s) (seq_done s).

Record nfs4_slot_table := mk_tbl {
  slots : list nfs4_slot;
  used_slots : Z;                   (* bitmap *)
  max_slots : Z;
  max_slotid : Z;
  highest_used_slotid : Z;
  target_highest_slotid : Z;
  server_highest_slotid : Z;
  d_target_highest_slotid : Z;
  d2_target_highest_slotid : Z;
  tbl_generation : Z;
  complete : Z;                     (* times the completion was signalled *)
  draining : bool;                  (* NFS4_SLOT_TBL_DRAINING of slot_tbl_state *)
  kmem : list bool;
}.
#[export] Instance upd_tbl : Updatable nfs4_slot_table := fun t =>
  mk_tbl (slots t) (used_slots t) (max_slots t) (max_slotid t) (highest_used_slotid t)
    (target_highest_slotid t) (server_highest_slotid t) (d_target_highest_slotid t)
    (d2_target_highest_slotid t) (tbl_generation t) (complete t) (draining t) (kmem t).

(** The SEQUENCE arguments and results a task carries. *)
Record nfs4_seq := mk_seq {
  sa_cache_this : bool;
  sa_privileged : bool;
  sa_slot : option Z;
  sr_slot : option Z;
  sr_timestamp : Z;
  sr_status_flags : Z;
  sr_status : Z;
}.
#[export] Instance upd_seq : Updatable nfs4_seq := fun s =>
  mk_seq (sa_cache_this s) (sa_privileged s) (sa_slot s) (sr_slot s) (sr_timestamp s) (sr_status_flags s) (sr_status s).

(** A table with its wait queue. *)
Record table_state := mk_ts { ts_tbl : nfs4_slot_table; ts_wq : sched nfs4_seq }.

(** ** Bitmaps *)

Definition test_bit (i bm : Z) : bool := Z.testbit bm i.
Definition __set_bit (i bm : Z) : Z := Z.setbit bm i.
Definition __clear_bit (i bm : Z) : Z := Z.clearbit bm i.

(** The first clear bit from [i] on; [i + n] if the next [n] are set. *)
Fixpoint first_zero (n : nat) (bm i : Z) : Z :=
  match n with
  | O => i
  | S n => if test_bit i bm then first_zero n bm (i + 1) else i
  end.
Definition find_first_zero_bit (bm size : Z) : Z := first_zero (Z.to_nat size) bm 0.

(** The last set bit below [n]. *)
Fixpoint last_one (n : nat) (bm : Z) : option Z :=
  match n with
  | O => None
  | S n => if test_bit (Z.of_nat n) bm then Some (Z.of_nat n) else last_one n bm
  end.
Definition find_last_bit (bm size : Z) : Z := default size (last_one (Z.to_nat size) bm).

(** ** Slots *)

Definition nfs4_slot_tbl_draining (t : nfs4_slot_table) : bool := draining t.
Definition nfs4_test_locked_slot (t : nfs4_slot_table) (slotid : Z) : bool := test_bit slotid (used_slots t).

Definition on_slot (nr : Z) (f : nfs4_slot -> nfs4_slot) (t : nfs4_slot_table) : nfs4_slot_table :=
  t <| slots := map (fun s => if slot_nr s =? nr then f s else s) (slots t) |>.
Definition slot_get (t : nfs4_slot_table) (nr : Z) : option nfs4_slot :=
  List.find (fun s => slot_nr s =? nr) (slots t).

Definition nfs4_shrink_slot_table (t : nfs4_slot_table) (newsize : Z) : nfs4_slot_table :=
  if max_slots t <=? newsize then t
  else
    let kept := take (Z.to_nat newsize) (slots t) in
    let freed := drop (Z.to_nat newsize) (slots t) in
    t <| slots := kept |> <| max_slots := u32 (max_slots t - zlen freed) |>.

Definition nfs4_slot_tbl_drain_complete (t : nfs4_slot_table) : nfs4_slot_table :=
  if nfs4_slot_tbl_draining t then t <| complete := complete t + 1 |> else t.

Definition nfs4_free_slot (t : nfs4_slot_table) (slotid : Z) : nfs4_slot_table :=
  let t := t <| used_slots := __clear_bit slotid (used_slots t) |> in
  if slotid =? highest_used_slotid t then
    let new_max := find_last_bit (used_slots t) slotid in
    if new_max <? slotid then t <| highest_used_slotid := new_max |>
    else nfs4_slot_tbl_drain_complete (t <| highest_used_slotid := NFS4_NO_SLOT |>)
  else t.

(** [kzalloc] and the slot it is turned into. *)
Definition nfs4_new_slot (t : nfs4_slot_table) (slotid seq_init : Z)
    : option nfs4_slot * nfs4_slot_table :=
  let ok := match kmem t with b :: _ => b | [] => true end in
  let t := t <| kmem := tail (kmem t) |> in
  (if ok then Some {| generation := 0; slot_nr := slotid; seq_nr := seq_init;
                      seq_nr_highest_sent := seq_init; seq_nr_last_acked := u32 (seq_init - 1);
                      slot_privileged := false; seq_done := false |}
   else None, t).

(** The part of the loop that is at the end of the list: slots are created,
    numbered [max_slots] on, until one has the wanted number.  The numbers are
    32 bits wide, so [fuel] is enough when it is [u32 (slotid - max_slots) + 1]. *)
Fixpoint create_slots (fuel : nat) (t : nfs4_slot_table) (slotid seq_init : Z)
    : res Z * nfs4_slot_table :=
  match fuel with
  | O => (Err (- ENOMEM), t)
  | S fuel =>
      match nfs4_new_slot t (max_slots t) seq_init with
      | (None, t) => (Err (- ENOMEM), t)
      | (Some s, t) =>
          let t := t <| slots := slots t ++ [s] |> <| max_slots := u32 (max_slots t + 1) |> in
          if slot_nr s =? slotid then (Ok slotid, t) else create_slots fuel t slotid seq_init
      end
  end.

Definition nfs4_find_or_create_slot (t : nfs4_slot_table) (slotid seq_init : Z)
    : res Z * nfs4_slot_table :=
  match slot_get t slotid with
  | Some _ => (Ok slotid, t)
  | None => create_slots (S (Z.to_nat (u32 (slotid - max_slots t)))) t slotid seq_init
  end.

Definition nfs4_lock_slot (t : nfs4_slot_table) (slotid : Z) : nfs4_slot_table :=
  let t := t <| used_slots := __set_bit slotid (used_slots t) |> in
  let t := if (highest_used_slotid t <? slotid) || (highest_used_slotid t =? NFS4_NO_SLOT)
           then t <| highest_used_slotid := slotid |> else t in
  on_slot slotid (fun s => s <| generation := tbl_generation t |>) t.

Definition nfs4_try_to_lock_slot (t : nfs4_slot_table) (slotid : Z) : bool * nfs4_slot_table :=
  if nfs4_test_locked_slot t slotid then (false, t) else (true, nfs4_lock_slot t slotid).

Definition nfs4_lookup_slot (t : nfs4_slot_table) (slotid : Z) : res Z * nfs4_slot_table :=
  if slotid <=? max_slotid t then nfs4_find_or_create_slot t slotid 0 else (Err (- E2BIG), t).

(** The value left in [*seq_nr] ([old] when the lookup failed) and the status. *)
Definition nfs4_slot_get_seqid (t : nfs4_slot_table) (slotid old : Z) : Z * Z * nfs4_slot_table :=
  match nfs4_lookup_slot t slotid with
  | (Ok nr, t) => (0, match slot_get t nr with Some s => seq_nr s | None => old end, t)
  | (Err e, t) => (e, old, t)
  end.

Definition nfs4_slot_seqid_in_use (t : nfs4_slot_table) (slotid seq : Z) : bool * nfs4_slot_table :=
  let '(ret, cur_seq, t) := nfs4_slot_get_seqid t slotid 0 in
  ((ret =? 0) && (cur_seq =? seq) && test_bit slotid (used_slots t), t).

Definition nfs4_alloc_slot (t : nfs4_slot_table) : res Z * nfs4_slot_table :=
  let slotid := find_first_zero_bit (used_slots t) (u32 (max_slotid t + 1)) in
  if slotid <=? max_slotid t then
    match nfs4_find_or_create_slot t slotid 1 with
    | (Ok nr, t) => (Ok nr, nfs4_lock_slot t nr)
    | (Err e, t) => (Err e, t)
    end
  else (Err (- EBUSY), t).

(** ** Setting up *)

Definition nfs4_grow_slot_table (t : nfs4_slot_table) (max_reqs ivalue : Z) : Z * nfs4_slot_table :=
  if max_reqs <=? max_slots t then (0, t)
  else match nfs4_find_or_create_slot t (u32 (max_reqs - 1)) ivalue with
       | (Ok _, t) => (0, t)
       | (Err _, t) => (- ENOMEM, t)
       end.

Definition nfs4_reset_slot_table (t : nfs4_slot_table) (server_highest ivalue : Z) : nfs4_slot_table :=
  let t := nfs4_shrink_slot_table t (u32 (server_highest + 1)) in
  {| slots := map (fun s => s <| seq_nr := ivalue |> <| seq_nr_highest_sent := ivalue |>
                              <| seq_nr_last_acked := u32 (ivalue - 1) |>) (slots t);
     used_slots := used_slots t; max_slots := max_slots t; max_slotid := server_highest;
     highest_used_slotid := NFS4_NO_SLOT; target_highest_slotid := server_highest;
     server_highest_slotid := server_highest; d_target_highest_slotid := 0;
     d2_target_highest_slotid := 0; tbl_generation := tbl_generation t; complete := complete t;
     draining := draining t; kmem := kmem t |}.

Definition nfs4_realloc_slot_table (t : nfs4_slot_table) (max_reqs ivalue : Z) : Z * nfs4_slot_table :=
  let max_reqs := if NFS4_MAX_SLOT_TABLE <? max_reqs then NFS4_MAX_SLOT_TABLE else max_reqs in
  let '(ret, t) := nfs4_grow_slot_table t max_reqs ivalue in
  if negb (ret =? 0) then (ret, t)
  else (ret, nfs4_reset_slot_table t (u32 (max_reqs - 1)) ivalue).

Definition nfs4_release_slot_table (t : nfs4_slot_table) : nfs4_slot_table := nfs4_shrink_slot_table t 0.

(** A zeroed table after [nfs4_init_slot_table]; the queue is set up with it. *)
Definition nfs4_init_slot_table (t : nfs4_slot_table) : nfs4_slot_table :=
  t <| highest_used_slotid := NFS4_NO_SLOT |>.

Definition nfs4_setup_slot_table (t : nfs4_slot_table) (max_reqs : Z) : Z * nfs4_slot_table :=
  nfs4_realloc_slot_table (nfs4_init_slot_table t) max_reqs 0.

(** ** Handing slots to waiting tasks *)

(** The action [nfs41_assign_slot]: the data is the table and the slot. *)
Definition nfs41_assign_slot (jiffies : Z) (task : rpc_task nfs4_seq) (data : nfs4_slot_table * Z)
    : bool * (rpc_task nfs4_seq * (nfs4_slot_table * Z)) :=
  let '(t, slot) := data in
  if nfs4_slot_tbl_draining t && negb (sa_privileged (tk_msg task)) then (false, (task, data))
  else
    let t := on_slot slot (fun s => s <| generation := tbl_generation t |>) t in
    let m := tk_msg task in
    let m := {| sa_cache_this := sa_cache_this m; sa_privileged := sa_privileged m; sa_slot := Some slot; sr_timestamp := jiffies;
                sr_slot := Some slot; sr_status_flags := 0; sr_status := 1 |} in
    (true, (task <| tk_msg := m |>, (t, slot))).

Definition __nfs41_wake_and_assign_slot (jiffies : Z) (st : table_state) (slot : Z) : bool * table_state :=
  let '(r, (d, w)) := rpc_wake_up_first (nfs41_assign_slot jiffies) (ts_tbl st, slot) (ts_wq st) in
  (match r with Some _ => true | None => false end, mk_ts (fst d) w).

Definition nfs41_wake_and_assign_slot (jiffies : Z) (st : table_state) (slot : Z) : bool * table_state :=
  if max_slotid (ts_tbl st) <? slot then (false, st) else __nfs41_wake_and_assign_slot jiffies st slot.

Definition nfs41_try_wake_next_slot_table_entry (jiffies : Z) (st : table_state) : bool * table_state :=
  match nfs4_alloc_slot (ts_tbl st) with
  | (Ok slot, t) =>
      let '(ret, st) := __nfs41_wake_and_assign_slot jiffies (mk_ts t (ts_wq st)) slot in
      if ret then (true, st)
      else (false, mk_ts (nfs4_free_slot (ts_tbl st) slot) (ts_wq st))
  | (Err _, t) => (false, mk_ts t (ts_wq st))
  end.

(** The [for (;;)] of [nfs41_wake_slot_table]; [None] is out of fuel. *)
Fixpoint wake_slot_loop (fuel : nat) (jiffies : Z) (st : table_state) : option table_state :=
  match fuel with
  | O => None
  | S fuel =>
      let '(more, st) := nfs41_try_wake_next_slot_table_entry jiffies st in
      if more then wake_slot_loop fuel jiffies st else Some st
  end.

Definition nfs41_wake_slot_table (jiffies : Z) (st : table_state) : option table_state :=
  wake_slot_loop (S (length (queued (sc_queue (ts_wq st))))) jiffies st.

(** ** The limits the server sets *)

Definition nfs41_set_max_slotid_locked (jiffies : Z) (st : table_state) (target : Z) : option table_state :=
  let t := ts_tbl st in
  let m := Z.min (NFS4_MAX_SLOT_TABLE - 1) target in
  let m := if server_highest_slotid t <? m then server_highest_slotid t else m in
  let m := if target_highest_slotid t <? m then target_highest_slotid t else m in
  nfs41_wake_slot_table jiffies (mk_ts (t <| max_slotid := m |>) (ts_wq st)).

Definition nfs41_set_target_slotid_locked (t : nfs4_slot_table) (target : Z) : nfs4_slot_table :=
  if target_highest_slotid t =? target then t
  else t <| target_highest_slotid := target |> <| tbl_generation := u64 (tbl_generation t + 1) |>.

Definition nfs41_set_target_slotid (jiffies : Z) (st : table_state) (target : Z) : option table_state :=
  let t := nfs41_set_target_slotid_locked (ts_tbl st) target in
  let t := t <| d_target_highest_slotid := 0 |> <| d2_target_highest_slotid := 0 |> in
  nfs41_set_max_slotid_locked jiffies (mk_ts t (ts_wq st)) target.

Definition nfs41_set_server_slotid_locked (t : nfs4_slot_table) (highest : Z) : nfs4_slot_table :=
  if server_highest_slotid t =? highest then t
  else if highest <? highest_used_slotid t then t
  else (nfs4_shrink_slot_table t (u32 (highest + 1))) <| server_highest_slotid := highest |>.

Definition nfs41_derivative_target_slotid (s1 s2 : Z) : Z :=
  let s1 := s32 (s1 - s2) in
  if s1 =? 0 then 0
  else if s1 <? 0 then Z.shiftr (s32 (s1 - 1)) 1
  else Z.shiftr (s32 (s1 + 1)) 1.

Definition nfs41_sign_s32 (s1 : Z) : Z := if 0 <? s1 then 1 else if s1 <? 0 then -1 else 0.

Definition nfs41_same_sign_or_zero_s32 (s1 s2 : Z) : bool :=
  if (s1 =? 0) || (s2 =? 0) then true else nfs41_sign_s32 s1 =? nfs41_sign_s32 s2.

Definition nfs41_is_outlier_target_slotid (t : nfs4_slot_table) (new_target : Z) : bool * nfs4_slot_table :=
  let d_target := nfs41_derivative_target_slotid (s32 new_target) (s32 (target_highest_slotid t)) in
  let d2_target := nfs41_derivative_target_slotid d_target (d_target_highest_slotid t) in
  let ret := negb (nfs41_same_sign_or_zero_s32 d_target (d_target_highest_slotid t)) &&
             negb (nfs41_same_sign_or_zero_s32 d2_target (d2_target_highest_slotid t)) in
  (ret, t <| d_target_highest_slotid := d_target |> <| d2_target_highest_slotid := d2_target |>).

(** [res] is the reply's [sr_target_highest_slotid] and [sr_highest_slotid]. *)
Definition nfs41_update_target_slotid (jiffies : Z) (st : table_state) (slot sr_target sr_highest : Z)
    : option table_state :=
  let '(outlier, t) := nfs41_is_outlier_target_slotid (ts_tbl st) sr_target in
  let t := if negb outlier then nfs41_set_target_slotid_locked t sr_target else t in
  let gen := match slot_get t slot with Some s => generation s | None => 0 end in
  let t := if tbl_generation t =? gen then nfs41_set_server_slotid_locked t sr_highest else t in
  nfs41_set_max_slotid_locked jiffies (mk_ts t (ts_wq st)) sr_target.

(** ** Sessions *)

Definition SESSION4_BACK_CHAN := 2.

Record nfs4_session := mk_session {
  ses_flags : Z; fc_max_reqs : Z; fc_slot_table : nfs4_slot_table;
  bc_max_reqs : Z; bc_slot_table : nfs4_slot_table }.
#[export] Instance upd_session : Updatable nfs4_session := fun s =>
  mk_session (ses_flags s) (fc_max_reqs s) (fc_slot_table s) (bc_max_reqs s) (bc_slot_table s).

Definition nfs4_release_session_slot_tables (s : nfs4_session) : nfs4_session :=
  s <| fc_slot_table := nfs4_release_slot_table (fc_slot_table s) |>
    <| bc_slot_table := nfs4_release_slot_table (bc_slot_table s) |>.

Definition nfs4_setup_session_slot_tables (s : nfs4_session) : Z * nfs4_session :=
  let '(status, t) := nfs4_realloc_slot_table (fc_slot_table s) (fc_max_reqs s) 1 in
  let s := s <| fc_slot_table := t |> in
  if negb (status =? 0) || (Z.land (ses_flags s) SESSION4_BACK_CHAN =? 0) then (status, s)
  else
    let '(status, t) := nfs4_realloc_slot_table (bc_slot_table s) (bc_max_reqs s) 0 in
    let s := s <| bc_slot_table := t |> in
    if negb (status =? 0) && match slots t with [] => true | _ => false end
    then (status, nfs4_release_session_slot_tables s) else (status, s).
