(* ===== verification/SessionInv.v ===== *)
(** * NFSv4.1 session slot tables: well-formedness

    Numbering of the slots, the used bitmap and [highest_used_slotid], and how
    the operations of [Session] keep them. *)

From S2P Require Import Prelude Xdr WaitQueue WaitQueueInv WaitQueueTheorems Session.
From stdpp Require Import list gmap.
#[local] Open Scope Z_scope.

(** ** Invariant *)

(** Slot [i] is the [i]-th of the list, and there are [max_slots] of them. *)
Definition numbered (t : nfs4_slot_table) : Prop :=
  map slot_nr (slots t) = seqZ 0 (zlen (slots t)) /\
  max_slots t = zlen (slots t) /\ zlen (slots t) <= NFS4_MAX_SLOT_TABLE.

(** The slots in use exist, and the highest of them is recorded. *)
Definition bitmap_ok (bm highest n : Z) : Prop :=
  0 <= bm /\ (forall i, Z.testbit bm i = true -> 0 <= i < n) /\
  ((bm = 0 /\ highest = NFS4_NO_SLOT) \/
   (Z.testbit bm highest = true /\ forall i, Z.testbit bm i = true -> i <= highest)).

Record tbl_ok (t : nfs4_slot_table) : Prop := {
  to_nrs : numbered t;
  to_bits : bitmap_ok (used_slots t) (highest_used_slotid t) (zlen (slots t));
  to_limit : 0 <= max_slotid t < NFS4_MAX_SLOT_TABLE;
  to_target : is_u32 (target_highest_slotid t);
  to_server : is_u32 (server_highest_slotid t);
}.

(** Everything in a table but its slots and the allocator. *)
Definition rest (t : nfs4_slot_table) :=
  (used_slots t, (max_slotid t, highest_used_slotid t), (target_highest_slotid t, server_highest_slotid t),
   (d_target_highest_slotid t, d2_target_highest_slotid t), tbl_generation t, (complete t, draining t)).

(** ** Looking slots up *)

Lemma seqZ_find (l : list nfs4_slot) m n i :
  map slot_nr l = seqZ m n -> m <= i < m + n ->
  exists s, List.find (fun s => slot_nr s =? i) l = Some s /\ slot_nr s = i.
Proof.
  revert m n. induction l as [|s l IH]; intros m n E Hi; simpl in *.
  - rewrite seqZ_cons in E by lia. done.
  - rewrite seqZ_cons in E by lia. injection E as E1 E2.
    destruct (Z.eqb_spec (slot_nr s) i); [eauto|]. apply (IH _ _ E2). lia.
Qed.

Lemma slot_get_nr t i s : slot_get t i = Some s -> slot_nr s = i.
Proof. intros [_ H%Z.eqb_eq]%find_some. done. Qed.

Lemma slot_get_in t i : numbered t -> is_Some (slot_get t i) <-> 0 <= i < zlen (slots t).
Proof.
  intros (E & _ & _). split.
  - intros [s H]. unfold slot_get in H. apply find_some in H as [H Hi%Z.eqb_eq].
    assert (In (slot_nr s) (map slot_nr (slots t))) as K by by apply in_map.
    rewrite E in K. apply list_elem_of_In, elem_of_seqZ in K. lia.
  - intros Hi. destruct (seqZ_find (slots t) 0 (zlen (slots t)) i E ltac:(lia)) as (s & F & _). by exists s.
Qed.

Lemma find_app_none {A} (f : A -> bool) l k :
  List.find f (l ++ k) = match List.find f l with Some x => Some x | None => List.find f k end.
Proof. induction l; simpl; [done|]. by destruct (f a). Qed.

Lemma suffix_tail' {A} (l : list A) : tail l `suffix_of` l.
Proof. destruct l as [|x l]; [done|]. by exists [x]. Qed.

(** ** Creating slots *)

(** The slots a table gains keep the old ones and are fresh. *)
Definition grown (seq_init : Z) (t t' : nfs4_slot_table) : Prop :=
  rest t' = rest t /\ numbered t' /\ kmem t' `suffix_of` kmem t /\
  exists new, slots t' = slots t ++ new /\
    Forall (fun s => seq_nr s = seq_init /\ seq_nr_last_acked s = u32 (seq_init - 1) /\
                     seq_nr_highest_sent s = seq_init) new.

Lemma grown_refl q t : numbered t -> grown q t t.
Proof. intros. split_and!; [done..|]. exists []. by rewrite app_nil_r. Qed.

Lemma grown_trans q t1 t2 t3 : grown q t1 t2 -> grown q t2 t3 -> grown q t1 t3.
Proof.
  intros (R1 & _ & K1 & n1 & E1 & F1) (R2 & N2 & K2 & n2 & E2 & F2). split_and!; [congruence|done|by etrans|].
  exists (n1 ++ n2). rewrite E2, E1, app_assoc. split; [done|]. by apply Forall_app.
Qed.

Lemma new_slot_eq t nr q :
  nfs4_new_slot t nr q =
  (if match kmem t with b :: _ => b | [] => true end
   then Some (mk_slot 0 nr q (u32 (q - 1)) q false false) else None, t <| kmem := tail (kmem t) |>).
Proof. done. Qed.

(** Appending the next slot. *)
Lemma append_slot_grown t q k :
  k `suffix_of` kmem t -> numbered t -> max_slots t < NFS4_MAX_SLOT_TABLE ->
  let s := mk_slot 0 (max_slots t) q (u32 (q - 1)) q false false in
  let t0 := t <| kmem := k |> in
  let t1 := t0 <| slots := slots t0 ++ [s] |> <| max_slots := u32 (max_slots t0 + 1) |> in
  grown q t t1 /\ max_slots t1 = max_slots t + 1.
Proof.
  intros Hk (E & L & M) H s t0 t1. change NFS4_MAX_SLOT_TABLE with 1024 in *.
  assert (E1 : max_slots t1 = max_slots t + 1).
  { change (max_slots t1) with (u32 (max_slots t + 1)). apply u32_id. unfold is_u32. pose proof (zlen_nonneg (slots t)). lia. }
  split; [|done]. split; [done|]. split; [|split; [done|]].
  - unfold numbered. rewrite E1. change (slots t1) with (slots t ++ [s]). split_and!; [|llia|unfold NFS4_MAX_SLOT_TABLE; llia].
    rewrite map_app, E, zlen_app. change (zlen [s]) with 1. rewrite seqZ_app by (pose proof (zlen_nonneg (slots t)); lia).
    f_equal. simpl. by rewrite L, Z.add_0_l.
  - exists [s]. split; [done|]. by repeat constructor.
Qed.

Lemma create_slots_spec fuel t i q :
  numbered t -> max_slots t <= i < NFS4_MAX_SLOT_TABLE -> i - max_slots t < Z.of_nat fuel ->
  let '(r, t') := create_slots fuel t i q in
  grown q t t' /\
  match r with
  | Ok nr => nr = i /\ zlen (slots t') = i + 1
  | Err e => e = - ENOMEM /\ false ∈ kmem t
  end.
Proof.
  revert t. induction fuel as [|fuel IH]; intros t N Hi Hf; [lia|].
  cbn [create_slots]. rewrite new_slot_eq. set (k := tail (kmem t)).
  destruct (match kmem t with b :: _ => b | [] => true end) eqn:B.
  2: { split; [|split; [done|]; destruct (kmem t) as [|[] ?]; [done..|left]].
       split; [done|]. split; [done|]. split; [apply suffix_tail'|]. exists []. by rewrite app_nil_r. }
  destruct (append_slot_grown t q k (suffix_tail' _) N ltac:(lia)) as [G E1]. cbv zeta in G, E1. cbn [slot_nr].
  destruct (Z.eqb_spec (max_slots t) i) as [Ei|Ei].
  - split; [exact G|]. split; [done|]. destruct G as (_ & (_ & G & _) & _). rewrite <- G.
    etransitivity; [exact E1|lia].
  - set (t1 := field_upd max_slots _ _) in *.
    specialize (IH t1 (proj1 (proj2 G)) ltac:(rewrite E1; lia) ltac:(rewrite E1; lia)).
    destruct (create_slots fuel t1 i q) as [r t']. destruct IH as [G2 IH].
    split; [by eapply grown_trans|]. destruct r; [done|]. destruct IH as [-> IH]. split; [done|].
    change (kmem t1) with k in IH. unfold k in IH. destruct (kmem t); [done|by right].
Qed.

Lemma find_or_create_spec t i q :
  numbered t -> 0 <= i < NFS4_MAX_SLOT_TABLE ->
  let '(r, t') := nfs4_find_or_create_slot t i q in
  grown q t t' /\
  match r with
  | Ok nr => nr = i /\ zlen (slots t') = Z.max (zlen (slots t)) (i + 1)
  | Err e => e = - ENOMEM /\ false ∈ kmem t
  end.
Proof.
  intros N Hi. unfold nfs4_find_or_create_slot. pose proof (slot_get_in t i N) as G.
  destruct (slot_get t i) as [s|].
  - split; [by apply grown_refl|]. split; [done|]. destruct (proj1 G ltac:(done)). lia.
  - assert (zlen (slots t) <= i) as L.
    { destruct (Z_le_gt_dec (zlen (slots t)) i); [done|]. destruct (proj2 G ltac:(lia)). done. }
    pose proof N as (_ & M & _).
    pose proof (zlen_nonneg (slots t)).
    pose proof (create_slots_spec (S (Z.to_nat (u32 (i - max_slots t)))) t i q N) as C.
    change NFS4_MAX_SLOT_TABLE with 1024 in *.
    rewrite u32_id in C |- * by (unfold is_u32; lia). specialize (C ltac:(lia) ltac:(lia)).
    destruct (create_slots _ t i q) as [r t']. destruct C as [C1 C2]. split; [done|].
    destruct r; [|done]. destruct C2 as [-> ->]. split; [done|lia].
Qed.

(** ** The bitmap *)

Lemma first_zero_spec n bm i :
  let j := first_zero n bm i in
  i <= j <= i + Z.of_nat n /\ (forall k, i <= k < j -> Z.testbit bm k = true) /\
  (j < i + Z.of_nat n -> Z.testbit bm j = false).
Proof.
  revert i. induction n as [|n IH]; intros i; simpl; unfold test_bit.
  - split; [lia|]. split; lia.
  - destruct (Z.testbit bm i) eqn:E.
    + destruct (IH (i + 1)) as (A & B & C). split; [lia|]. split; [|intros; apply C; lia].
      intros k Hk. destruct (decide (k = i)) as [->|]; [done|apply B; lia].
    + split; [lia|]. split; [lia|done].
Qed.

Lemma last_one_spec n bm :
  match last_one n bm with
  | Some j => 0 <= j < Z.of_nat n /\ Z.testbit bm j = true /\
              forall k, j < k < Z.of_nat n -> Z.testbit bm k = false
  | None => forall k, 0 <= k < Z.of_nat n -> Z.testbit bm k = false
  end.
Proof.
  induction n as [|n IH]; simpl; unfold test_bit; [lia|].
  destruct (Z.testbit bm (Z.of_nat n)) eqn:E.
  - split; [lia|]. split; [done|lia].
  - destruct (last_one n bm) as [j|].
    + destruct IH as (A & B & C). split; [lia|]. split; [done|]. intros k Hk.
      destruct (decide (k = Z.of_nat n)) as [->|]; [done|apply C; lia].
    + intros k Hk. destruct (decide (k = Z.of_nat n)) as [->|]; [done|apply IH; lia].
Qed.

Lemma bitmap_empty bm n : 0 <= bm -> (forall i, Z.testbit bm i = true -> 0 <= i < n) ->
  (forall i, 0 <= i < n -> Z.testbit bm i = false) -> bm = 0.
Proof.
  intros _ H E. apply Z.bits_inj_0. intros i. destruct (Z.testbit bm i) eqn:B; [|done].
  by rewrite <- B; apply E, H.
Qed.

(** Marking a slot used. *)
Lemma bitmap_set bm h n n' i :
  bitmap_ok bm h n -> n <= n' -> 0 <= i < n' -> n' <= NFS4_MAX_SLOT_TABLE ->
  bitmap_ok (Z.setbit bm i) (if (h <? i) || (h =? NFS4_NO_SLOT) then i else h) n'.
Proof.
  change NFS4_MAX_SLOT_TABLE with 1024. change NFS4_NO_SLOT with 4294967295.
  intros (P & I & H) Hn Hi Hm. split; [|split].
  - unfold Z.setbit. apply Z.lor_nonneg. split; [done|]. apply Z.shiftl_nonneg. done.
  - intros j. rewrite Z.setbit_eqb by lia. destruct (Z.eqb_spec i j) as [<-|]; [done|]. intros B%I. lia.
  - right. destruct H as [[-> ->]|[B M]].
    + change NFS4_NO_SLOT with 4294967295. rewrite Z.eqb_refl, orb_true_r. rewrite Z.setbit_eqb, Z.eqb_refl by lia. split; [done|].
      intros j. rewrite Z.setbit_eqb by lia. destruct (Z.eqb_spec i j) as [<-|]; [done|]. by rewrite Z.bits_0.
    + pose proof (I _ B). replace (h =? 4294967295) with false by (symmetry; apply Z.eqb_neq; lia).
      rewrite orb_false_r. destruct (Z.ltb_spec h i); split.
      * by rewrite Z.setbit_eqb, Z.eqb_refl by lia.
      * intros j. rewrite Z.setbit_eqb by lia. destruct (Z.eqb_spec i j) as [<-|]; [done|]. intros K%M. lia.
      * rewrite Z.setbit_eqb by lia. rewrite B. by rewrite orb_true_r.
      * intros j. rewrite Z.setbit_eqb by lia. destruct (Z.eqb_spec i j) as [<-|]; [lia|]. apply M.
Qed.

(** Marking it free: either the highest stays, or the next one below is found,
    or none is left. *)
Lemma bitmap_clear bm h n i :
  bitmap_ok bm h n -> Z.testbit bm i = true ->
  let bm' := Z.clearbit bm i in
  let j := find_last_bit bm' i in
  if i =? h then
    if j <? i then bitmap_ok bm' j n /\ bm' <> 0 else bm' = 0
  else bitmap_ok bm' h n /\ bm' <> 0.
Proof.
  intros (P & I & H) B bm' j. pose proof (I _ B) as Hi.
  assert (P' : 0 <= bm').
  { unfold bm', Z.clearbit. apply Z.ldiff_nonneg. by left. }
  assert (T : forall k, Z.testbit bm' k = Z.testbit bm k && negb (i =? k)).
  { intros k. unfold bm'. by rewrite Z.clearbit_eqb. }
  assert (I' : forall k, Z.testbit bm' k = true -> 0 <= k < n).
  { intros k. rewrite T. intros [K _]%andb_true_iff. by apply I. }
  destruct H as [[-> _]|[Bh M]]; [by rewrite Z.bits_0 in B|].
  destruct (Z.eqb_spec i h) as [->|Ne].
  - unfold j, find_last_bit. pose proof (last_one_spec (Z.to_nat h) bm') as L.
    rewrite Z2Nat.id in L by lia. destruct (last_one (Z.to_nat h) bm') as [k|]; simpl.
    + destruct L as (L1 & L2 & L3). rewrite (proj2 (Z.ltb_lt k h)) by lia. split.
      * split; [done|]. split; [done|]. right. split; [done|]. intros x Kx. pose proof Kx as Kx'.
        rewrite T in Kx. apply andb_true_iff in Kx as [Kx Nx%negb_true_iff%Z.eqb_neq]. apply M in Kx.
        destruct (Z_le_gt_dec x k); [done|]. rewrite L3 in Kx' by lia. done.
      * intros E. by rewrite E, Z.bits_0 in L2.
    + rewrite Z.ltb_irrefl. apply (bitmap_empty bm' n); [done..|]. intros x Hx.
      destruct (Z_lt_le_dec x h); [apply L; lia|]. rewrite T. destruct (Z.eqb_spec h x); [by rewrite andb_false_r|].
      destruct (Z.testbit bm x) eqn:Bx; [apply M in Bx; lia|done].
  - assert (Z.testbit bm' h = true) as Th.
    { rewrite T, Bh. by rewrite (proj2 (Z.eqb_neq i h)). }
    split; [|intros E; by rewrite E, Z.bits_0 in Th]. split; [done|]. split; [done|]. right. split; [done|].
    intros x Kx. rewrite T in Kx. apply andb_true_iff in Kx as [Kx _]. by apply M.
Qed.

Lemma bitmap_mono bm h n n' : bitmap_ok bm h n -> n <= n' -> bitmap_ok bm h n'.
Proof. intros (P & I & H) L. split; [done|]. split; [|done]. intros i B%I. lia. Qed.

(** ** Operations *)

Lemma rest_inv t t' :
  rest t' = rest t ->
  used_slots t' = used_slots t /\ max_slotid t' = max_slotid t /\
  highest_used_slotid t' = highest_used_slotid t /\ target_highest_slotid t' = target_highest_slotid t /\
  server_highest_slotid t' = server_highest_slotid t /\ tbl_generation t' = tbl_generation t /\
  complete t' = complete t /\ draining t' = draining t.
Proof. unfold rest. intros [=]. by split_and!. Qed.

Lemma grown_len q t t' : grown q t t' -> zlen (slots t) <= zlen (slots t').
Proof. intros (_ & _ & _ & new & -> & _). rewrite zlen_app. pose proof (zlen_nonneg new). lia. Qed.

Lemma grown_ok q t t' : tbl_ok t -> grown q t t' -> tbl_ok t'.
Proof.
  intros [N B L T S] G. pose proof (grown_len _ _ _ G). destruct G as (R & N' & _).
  destruct (rest_inv t t' R) as (Eu & Em & Eh & Et & Es & _).
  split; rewrite ?Eu, ?Em, ?Eh, ?Et, ?Es; try done. by eapply bitmap_mono.
Qed.

(** The numbers of a slot that go on the wire. *)
Definition same_seq (s s' : nfs4_slot) : Prop :=
  seq_nr s' = seq_nr s /\ seq_nr_last_acked s' = seq_nr_last_acked s /\
  seq_nr_highest_sent s' = seq_nr_highest_sent s /\ seq_done s' = seq_done s.
(** Every slot keeps its sequence numbers, and the ones a table gains start at [q]. *)
Definition keeps_seq (q : Z) (t t' : nfs4_slot_table) : Prop :=
  forall nr s', slot_get t' nr = Some s' ->
    match slot_get t nr with
    | Some s => same_seq s s'
    | None => seq_nr s' = q /\ seq_nr_last_acked s' = u32 (q - 1) /\ seq_nr_highest_sent s' = q
    end.

Lemma grown_keeps q t t' : grown q t t' -> keeps_seq q t t'.
Proof.
  intros (_ & _ & _ & new & E & F) nr s'. unfold slot_get. rewrite E, find_app_none.
  destruct (List.find _ (slots t)) as [s|]; [by intros [= ->]|]. intros [H _]%find_some.
  rewrite Forall_forall in F. by apply F, list_elem_of_In.
Qed.

Lemma on_slot_get i f t nr :
  (forall s, slot_nr (f s) = slot_nr s) ->
  slot_get (on_slot i f t) nr = (fun s => if slot_nr s =? i then f s else s) <$> slot_get t nr.
Proof.
  intros Hf. unfold slot_get, on_slot. simpl. induction (slots t) as [|s l IH]; [done|]. simpl.
  replace (slot_nr (if slot_nr s =? i then f s else s)) with (slot_nr s) by (destruct (_ =? i); by rewrite ?Hf).
  by destruct (slot_nr s =? nr).
Qed.

Lemma on_slot_numbered i f t :
  (forall s, slot_nr (f s) = slot_nr s) -> numbered t -> numbered (on_slot i f t).
Proof.
  intros Hf (E & L & M). unfold numbered, on_slot. simpl.
  assert (map slot_nr (map (fun s => if slot_nr s =? i then f s else s) (slots t)) = map slot_nr (slots t)) as K.
  { rewrite map_map. apply map_ext. intros s. destruct (_ =? i); by rewrite ?Hf. }
  rewrite K. unfold zlen in *. by rewrite length_map.
Qed.

Definition set_gen (g : Z) (s : nfs4_slot) : nfs4_slot := s <| generation := g |>.

Lemma lock_slot_spec t i :
  numbered t -> bitmap_ok (used_slots t) (highest_used_slotid t) (zlen (slots t)) ->
  0 <= max_slotid t < NFS4_MAX_SLOT_TABLE -> is_u32 (target_highest_slotid t) ->
  is_u32 (server_highest_slotid t) -> 0 <= i < zlen (slots t) ->
  let t' := nfs4_lock_slot t i in
  tbl_ok t' /\ used_slots t' = Z.setbit (used_slots t) i /\ keeps_seq 0 t t' /\
  zlen (slots t') = zlen (slots t) /\ max_slotid t' = max_slotid t /\ draining t' = draining t /\
  complete t' = complete t /\ kmem t' = kmem t /\ (generation <$> slot_get t' i = Some (tbl_generation t)).
Proof.
  intros N B L T S Hi t'.
  assert (E : t' = on_slot i (set_gen (tbl_generation t))
    (t <| used_slots := Z.setbit (used_slots t) i |> <| highest_used_slotid :=
       if (highest_used_slotid t <? i) || (highest_used_slotid t =? NFS4_NO_SLOT) then i
       else highest_used_slotid t |>)).
  { unfold t', nfs4_lock_slot.
    change (highest_used_slotid t <| used_slots := _ |>) with (highest_used_slotid t). destruct (_ || _); done. }
  pose proof (on_slot_numbered i (set_gen (tbl_generation t)) t ltac:(done) N) as N'.
  assert (G : forall nr, slot_get t' nr =
    (fun s => if slot_nr s =? i then set_gen (tbl_generation t) s else s) <$> slot_get t nr).
  { intros nr. rewrite E, on_slot_get by done. done. }
  assert (Ln : zlen (slots t') = zlen (slots t)) by (rewrite E; unfold zlen; simpl; by rewrite length_map).
  split_and!; try done; try by rewrite E.
  - split; try by rewrite E. rewrite Ln. rewrite E. simpl. eapply bitmap_set; [done|done|lia|apply N].
  - intros nr s'. rewrite G. destruct (slot_get t nr) as [s|]; simpl; [|done]. intros [= <-].
    by destruct (_ =? i).
  - rewrite G. destruct (proj2 (slot_get_in t i N) Hi) as [s Hs]. rewrite Hs. simpl.
    by rewrite (slot_get_nr t i s Hs), Z.eqb_refl.
Qed.

(** What allocating a slot gives. *)
Definition alloc_post (t : nfs4_slot_table) (r : res Z) (t' : nfs4_slot_table) : Prop :=
  tbl_ok t' /\ keeps_seq 1 t t' /\ draining t' = draining t /\ complete t' = complete t /\
  max_slotid t' = max_slotid t /\ kmem t' `suffix_of` kmem t /\
  match r with
  | Ok i =>
      0 <= i <= max_slotid t /\ Z.testbit (used_slots t) i = false /\
      (forall j, 0 <= j < i -> Z.testbit (used_slots t) j = true) /\
      used_slots t' = Z.setbit (used_slots t) i /\ i < zlen (slots t') /\
      generation <$> slot_get t' i = Some (tbl_generation t')
  | Err e =>
      used_slots t' = used_slots t /\
      ((e = - EBUSY /\ t' = t /\ forall j, 0 <= j <= max_slotid t -> Z.testbit (used_slots t) j = true) \/
       (e = - ENOMEM /\ false ∈ kmem t))
  end.

Lemma keeps_seq_refl q t : keeps_seq q t t.
Proof. intros nr s' ->. done. Qed.

Lemma keeps_seq_lock q t t1 t' : keeps_seq q t t1 -> keeps_seq 0 t1 t' -> numbered t1 -> numbered t' ->
  zlen (slots t') = zlen (slots t1) -> keeps_seq q t t'.
Proof.
  intros K1 K2 N1 N' L nr s' H. specialize (K2 nr s' H).
  destruct (proj2 (slot_get_in t1 nr N1)) as [s1 H1].
  { rewrite <- L. apply (slot_get_in t' nr N'). by eexists. }
  rewrite H1 in K2. specialize (K1 nr s1 H1). destruct K2 as (E1 & E2 & E3 & E4).
  destruct (slot_get t nr); unfold same_seq in *; intuition congruence.
Qed.

Lemma alloc_slot_spec t r t' : tbl_ok t -> nfs4_alloc_slot t = (r, t') -> alloc_post t r t'.
Proof.
  intros [N B L T S]. unfold nfs4_alloc_slot, find_first_zero_bit.
  rewrite u32_id by (unfold is_u32; change NFS4_MAX_SLOT_TABLE with 1024 in L; lia).
  pose proof (first_zero_spec (Z.to_nat (max_slotid t + 1)) (used_slots t) 0) as (A1 & A2 & A3).
  rewrite Z2Nat.id in A1, A3 by lia. set (i := first_zero _ _ 0) in *.
  destruct (Z.leb_spec i (max_slotid t)).
  2: { intros [= <- <-]. split; [done|]. split; [apply keeps_seq_refl|]. split_and!; try done. left.
       split_and!; try done. intros; apply A2; lia. }
  pose proof (find_or_create_spec t i 1 N ltac:(lia)) as F.
  destruct (nfs4_find_or_create_slot t i 1) as [[nr|e] t1]; destruct F as [G F].
  2: { intros [= <- <-]. destruct (rest_inv t t1 (proj1 G)) as (Eu & Em & _ & _ & _ & _ & Ec & Ed).
       split; [by eapply grown_ok|]. split; [by apply grown_keeps|]. split_and!; try done; [apply G|by right]. }
  destruct F as [-> F]. intros [= <- <-].
  destruct (grown_ok 1 t t1 ltac:(done) G) as [N1 B1 L1 T1 S1].
  destruct (lock_slot_spec t1 i N1 B1 L1 T1 S1 ltac:(lia)) as (O' & U & K & Ln & M & D & C & Km & Ge).
  destruct (rest_inv t t1 (proj1 G)) as (Eu & Em & _ & _ & _ & Eg & Ec & Ed).
  split; [done|]. split; [eapply keeps_seq_lock; [by apply grown_keeps|done|done|apply O'|done]|].
  split_and!; try congruence; try lia.
  - rewrite Km. apply G.
  - apply A3. lia.
  - intros; apply A2; lia.
  - rewrite Ge. f_equal. unfold nfs4_lock_slot. by destruct (_ || _).
Qed.

Lemma free_slot_eq t i :
  nfs4_free_slot t i =
  let bm := Z.clearbit (used_slots t) i in
  let j := find_last_bit bm i in
  if i =? highest_used_slotid t then
    if j <? i then t <| used_slots := bm |> <| highest_used_slotid := j |>
    else if draining t
         then t <| used_slots := bm |> <| highest_used_slotid := NFS4_NO_SLOT |> <| complete := complete t + 1 |>
         else t <| used_slots := bm |> <| highest_used_slotid := NFS4_NO_SLOT |>
  else t <| used_slots := bm |>.
Proof. reflexivity. Qed.

(** What freeing slot [i] gives: the drain completes when it was the last. *)
Lemma free_slot_spec t i :
  tbl_ok t -> Z.testbit (used_slots t) i = true ->
  let t' := nfs4_free_slot t i in
  tbl_ok t' /\ used_slots t' = Z.clearbit (used_slots t) i /\ slots t' = slots t /\
  draining t' = draining t /\ max_slotid t' = max_slotid t /\ kmem t' = kmem t /\
  complete t' = complete t + (if draining t && (used_slots t' =? 0) then 1 else 0).
Proof.
  intros [N B L T S] Hi t'. pose proof (bitmap_clear _ _ _ i B Hi) as C. cbv zeta in C.
  assert (E : t' = nfs4_free_slot t i) by done. rewrite free_slot_eq in E. cbv zeta in E.
  destruct (i =? highest_used_slotid t) eqn:Eh; [destruct (_ <? i) eqn:Ef|].
  - destruct C as [C1 C2]. rewrite E. split; [by split|]. split_and!; try done. simpl.
    rewrite (proj2 (Z.eqb_neq _ 0) C2), andb_false_r. lia.
  - rewrite C in *.
    assert (bitmap_ok 0 NFS4_NO_SLOT (zlen (slots t))) as B0.
    { split; [done|]. split; [|by left]. intros k. by rewrite Z.bits_0. }
    destruct (draining t) eqn:D; rewrite E; (split; [by split|]); split_and!; try done. simpl. lia.
  - destruct C as [C1 C2]. rewrite E. split; [by split|]. split_and!; try done. simpl.
    rewrite (proj2 (Z.eqb_neq _ 0) C2), andb_false_r. lia.
Qed.

(** ** The server's limits and the size of the table *)

Lemma seqZ_take m n k : 0 <= k -> take (Z.to_nat k) (seqZ m n) = seqZ m (Z.min k n).
Proof.
  intros Hk. destruct (Z_le_gt_dec n 0).
  - rewrite (seqZ_nil m n), (seqZ_nil m (Z.min k n)) by lia. by destruct (Z.to_nat k).
  - destruct (Z_le_gt_dec k n).
    + rewrite Z.min_l by lia. replace n with (k + (n - k)) at 1 by lia. rewrite seqZ_app by lia.
      rewrite take_app_length'; [done|]. by rewrite length_seqZ.
    + rewrite Z.min_r by lia. apply take_ge. rewrite length_seqZ. lia.
Qed.

Lemma shrink_spec t n :
  numbered t -> 0 <= n ->
  let t' := nfs4_shrink_slot_table t n in
  numbered t' /\ slots t' = ztake n (slots t) /\ rest t' = rest t /\ kmem t' = kmem t.
Proof.
  intros N Hn t'. pose proof N as (E & L & M). unfold t', nfs4_shrink_slot_table.
  destruct (Z.leb_spec (max_slots t) n).
  - split_and!; try done. rewrite ztake_all by lia. done.
  - split_and!; try done. unfold numbered. simpl. fold (ztake n (slots t)). fold (zdrop n (slots t)).
    assert (zlen (ztake n (slots t)) = n) as Ln by (rewrite zlen_ztake; lia).
    split_and!; [| |lia].
    + unfold ztake at 1. rewrite <- firstn_map, E, seqZ_take by done. f_equal. rewrite Ln. lia.
    + rewrite Ln, zlen_zdrop, L. change NFS4_MAX_SLOT_TABLE with 1024 in M. rewrite u32_id; unfold is_u32; lia.
Qed.

Lemma set_server_spec t highest :
  tbl_ok t -> 0 <= highest < NFS4_NO_SLOT ->
  let t' := nfs41_set_server_slotid_locked t highest in
  tbl_ok t' /\ used_slots t' = used_slots t /\ draining t' = draining t /\
  tbl_generation t' = tbl_generation t /\
  (forall i, Z.testbit (used_slots t) i = true -> slot_get t' i = slot_get t i).
Proof.
  intros O Hh t'. pose proof O as [N B L T S]. unfold t', nfs41_set_server_slotid_locked.
  destruct (_ =? highest); [done|]. destruct (Z.ltb_spec highest (highest_used_slotid t)); [done|].
  change NFS4_NO_SLOT with (2 ^ 32 - 1) in Hh. rewrite u32_id by (unfold is_u32; lia).
  destruct (shrink_spec t (highest + 1) N ltac:(lia)) as (N' & E' & R' & _).
  set (t1 := nfs4_shrink_slot_table t (highest + 1)) in *.
  destruct (rest_inv t t1 R') as (Eu & Em & Eh & Et & Es & Eg & Ec & Ed).
  assert (I : forall i, Z.testbit (used_slots t) i = true -> 0 <= i < Z.min (highest + 1) (zlen (slots t))).
  { destruct B as (_ & I & [[Z0 _]|[_ Mx]]); intros i Hi.
    - by rewrite Z0, Z.bits_0 in Hi.
    - pose proof (I i Hi). pose proof (Mx i Hi). lia. }
  assert (Ln : zlen (slots t1) = Z.min (highest + 1) (zlen (slots t))).
  { rewrite E', zlen_ztake. pose proof (zlen_nonneg (slots t)). lia. }
  split_and!; try done.
  - split; simpl; rewrite ?Eu, ?Em, ?Eh, ?Et, ?Es; try done; [|unfold is_u32; lia].
    rewrite Ln. destruct B as (P & _ & H'). by split.
  - intros i Hi. pose proof (I i Hi) as Hr.
    destruct (proj2 (slot_get_in t1 i N') ltac:(lia)) as [s Hs].
    change (slot_get (t1 <| server_highest_slotid := highest |>) i) with (slot_get t1 i). rewrite Hs.
    unfold slot_get in *. rewrite <- (ztake_zdrop (highest + 1) (slots t)), find_app_none, <- E'. by rewrite Hs.
Qed.

(** A server that reports the highest slot id [0xffffffff] has every slot freed. *)
Lemma set_server_wraps t :
  tbl_ok t -> server_highest_slotid t <> NFS4_NO_SLOT ->
  slots (nfs41_set_server_slotid_locked t NFS4_NO_SLOT) = [] /\
  used_slots (nfs41_set_server_slotid_locked t NFS4_NO_SLOT) = used_slots t.
Proof.
  intros [N B _ _ _] Hs. unfold nfs41_set_server_slotid_locked.
  rewrite (proj2 (Z.eqb_neq _ _) Hs).
  assert (highest_used_slotid t <= NFS4_NO_SLOT) as Hh.
  { destruct N as (_ & _ & M). change NFS4_NO_SLOT with 4294967295 in *. change NFS4_MAX_SLOT_TABLE with 1024 in M.
    destruct B as (_ & I & [[_ ->]|[Hb _]]); [done|]. apply I in Hb. lia. }
  rewrite (proj2 (Z.ltb_ge _ _) Hh). change (u32 (NFS4_NO_SLOT + 1)) with 0.
  destruct (shrink_spec t 0 N ltac:(lia)) as (_ & E & R & _). simpl. rewrite E. by destruct (rest_inv t _ R) as (-> & _).
Qed.

Lemma set_target_spec t target :
  tbl_ok t -> is_u32 target ->
  let t' := nfs41_set_target_slotid_locked t target in
  tbl_ok t' /\ used_slots t' = used_slots t /\ slots t' = slots t /\ draining t' = draining t.
Proof.
  intros [N B L T S] Ht t'. unfold t', nfs41_set_target_slotid_locked. destruct (_ =? target); [done|].
  by split; [split|].
Qed.

Lemma lookup_slot_spec t i r t' :
  tbl_ok t -> 0 <= i -> nfs4_lookup_slot t i = (r, t') ->
  tbl_ok t' /\ used_slots t' = used_slots t /\ keeps_seq 0 t t' /\
  match r with
  | Ok nr => nr = i /\ i <= max_slotid t /\ i < zlen (slots t')
  | Err e => (e = - E2BIG /\ max_slotid t < i /\ t' = t) \/ (e = - ENOMEM /\ false ∈ kmem t)
  end.
Proof.
  intros O Hi. pose proof O as [N B L T S]. unfold nfs4_lookup_slot. destruct (Z.leb_spec i (max_slotid t)).
  - pose proof (find_or_create_spec t i 0 N ltac:(lia)) as F.
    destruct (nfs4_find_or_create_slot t i 0) as [r1 t1]. intros [= <- <-]. destruct F as [G F].
    split; [by eapply grown_ok|]. split; [by apply rest_inv, G|]. split; [by apply grown_keeps|].
    destruct r1; [|by right]. destruct F as [-> F]. split_and!; [done|lia|lia].
  - intros [= <- <-]. split_and!; try done; [apply keeps_seq_refl|by left].
Qed.

Lemma reset_ok t n q :
  numbered t -> used_slots t = 0 -> 0 <= n < NFS4_MAX_SLOT_TABLE -> n < zlen (slots t) ->
  let t' := nfs4_reset_slot_table t n q in
  tbl_ok t' /\ used_slots t' = 0 /\ zlen (slots t') = n + 1 /\ max_slotid t' = n /\
  Forall (fun s => seq_nr s = q /\ seq_nr_last_acked s = u32 (q - 1) /\ seq_nr_highest_sent s = q) (slots t').
Proof.
  intros N U Hn Hl t'. change NFS4_MAX_SLOT_TABLE with 1024 in Hn.
  destruct (shrink_spec t (n + 1) N ltac:(lia)) as ((N1 & N2 & N3) & E1 & R & _).
  unfold t', nfs4_reset_slot_table. rewrite (u32_id (n + 1)) by (unfold is_u32; lia).
  set (t1 := nfs4_shrink_slot_table t (n + 1)) in *. destruct (rest_inv t t1 R) as (Eu & _).
  assert (Ln : zlen (slots t1) = n + 1) by (rewrite E1, zlen_ztake; lia).
  cbn [used_slots max_slotid slots] in *.
  split_and!; try done; [|by rewrite Eu, U|unfold zlen in *; by rewrite length_map|].
  - split; cbn [used_slots max_slotid highest_used_slotid target_highest_slotid server_highest_slotid slots];
      try (unfold is_u32, NFS4_MAX_SLOT_TABLE; lia).
    + unfold numbered. cbn [slots max_slots]. rewrite map_map. unfold zlen in *. rewrite length_map.
      split_and!; [|done|done]. rewrite <- N1. apply map_ext. done.
    + rewrite Eu, U. split; [done|]. split; [|by left]. intros k. by rewrite Z.bits_0.
  - apply Forall_forall. intros s Hs. apply list_elem_of_In, in_map_iff in Hs as (s0 & <- & _). done.
Qed.

Lemma grow_spec t n q ret t' :
  numbered t -> 1 <= n <= NFS4_MAX_SLOT_TABLE -> nfs4_grow_slot_table t n q = (ret, t') ->
  grown q t t' /\ ((ret = 0 /\ n <= zlen (slots t')) \/ (ret = - ENOMEM /\ false ∈ kmem t)).
Proof.
  intros N Hn. unfold nfs4_grow_slot_table. pose proof N as (_ & L & M). change NFS4_MAX_SLOT_TABLE with 1024 in *.
  destruct (Z.leb_spec n (max_slots t)).
  - intros [= <- <-]. split; [by apply grown_refl|left; lia].
  - rewrite u32_id by (unfold is_u32; lia).
    pose proof (find_or_create_spec t (n - 1) q N ltac:(unfold NFS4_MAX_SLOT_TABLE; lia)) as F.
    destruct (nfs4_find_or_create_slot t (n - 1) q) as [[nr|e] t1]; intros [= <- <-]; destruct F as [G F].
    + split; [done|left]. destruct F as [_ ->]. lia.
    + split; [done|right]. by destruct F.
Qed.

(** [(re)Initialise a slot table]: with no slot in use. *)
Lemma realloc_spec t n q ret t' :
  numbered t -> used_slots t = 0 -> 1 <= n -> nfs4_realloc_slot_table t n q = (ret, t') ->
  used_slots t' = 0 /\
  ((ret = 0 /\ tbl_ok t' /\ zlen (slots t') = Z.min n NFS4_MAX_SLOT_TABLE /\
    max_slotid t' = Z.min n NFS4_MAX_SLOT_TABLE - 1 /\
    Forall (fun s => seq_nr s = q /\ seq_nr_last_acked s = u32 (q - 1) /\ seq_nr_highest_sent s = q) (slots t')) \/
   (ret = - ENOMEM /\ false ∈ kmem t /\ grown q t t')).
Proof.
  intros N U Hn. unfold nfs4_realloc_slot_table. set (m := if _ <? n then _ else n).
  assert (m = Z.min n NFS4_MAX_SLOT_TABLE) as Em by (unfold m; destruct (Z.ltb_spec NFS4_MAX_SLOT_TABLE n); lia).
  destruct (nfs4_grow_slot_table t m q) as [r1 t1] eqn:G.
  assert (Hm : 1 <= m <= NFS4_MAX_SLOT_TABLE) by (rewrite Em; change NFS4_MAX_SLOT_TABLE with 1024; lia).
  destruct (grow_spec t m q r1 t1 N Hm G) as [Gr C].
  destruct (rest_inv t t1 (proj1 Gr)) as (Eu & _). rewrite <- Em.
  destruct C as [[-> C]|[-> C]]; simpl; intros [= <- <-]; [|by rewrite Eu; split; [|right]].
  rewrite u32_id by (unfold is_u32; change NFS4_MAX_SLOT_TABLE with 1024 in Hm; lia).
  destruct (reset_ok t1 (m - 1) q (proj1 (proj2 Gr)) ltac:(congruence) ltac:(lia) ltac:(lia)) as (O & U' & Ln & Mx & F).
  split; [done|]. left. split_and!; try done. lia.
Qed.

(** The slots in use stay so, exist, and keep their sequence numbers. *)
Definition holds_at (i : Z) (t t' : nfs4_slot_table) : Prop :=
  Z.testbit (used_slots t) i = true ->
  Z.testbit (used_slots t') i = true /\
  exists s s', slot_get t i = Some s /\ slot_get t' i = Some s' /\ same_seq s s'.
Definition holds (t t' : nfs4_slot_table) : Prop := forall i, holds_at i t t'.

Lemma used_exists t i : tbl_ok t -> Z.testbit (used_slots t) i = true -> is_Some (slot_get t i).
Proof. intros [N (_ & I & _) _ _ _] H. by apply slot_get_in, I. Qed.

Lemma holds_refl t : tbl_ok t -> holds t t.
Proof. intros O i H. split; [done|]. destruct (used_exists t i O H) as [s Hs]. by exists s, s. Qed.

Lemma holds_at_trans i t1 t2 t3 : holds_at i t1 t2 -> holds_at i t2 t3 -> holds_at i t1 t3.
Proof.
  intros H1 H2 B. destruct (H1 B) as (B2 & s1 & s2 & E1 & E2 & (A1 & A2 & A3 & A4)).
  destruct (H2 B2) as (B3 & s2' & s3 & E2' & E3 & (C1 & C2 & C3 & C4)).
  split; [done|]. exists s1, s3. simplify_eq. unfold same_seq. intuition congruence.
Qed.

Lemma holds_trans t1 t2 t3 : holds t1 t2 -> holds t2 t3 -> holds t1 t3.
Proof. intros H1 H2 i. by eapply holds_at_trans. Qed.

Lemma keeps_holds q t t' :
  tbl_ok t -> tbl_ok t' -> keeps_seq q t t' ->
  (forall i, Z.testbit (used_slots t) i = true -> Z.testbit (used_slots t') i = true) -> holds t t'.
Proof.
  intros O O' K U i B. split; [by apply U|]. destruct (used_exists t i O B) as [s Hs].
  destruct (used_exists t' i O' (U i B)) as [s' Hs']. exists s, s'. split_and!; [done..|].
  specialize (K i s' Hs'). by rewrite Hs in K.
Qed.

Lemma setbit_mono bm i j : Z.testbit bm j = true -> 0 <= i -> Z.testbit (Z.setbit bm i) j = true.
Proof. intros H Hi. rewrite Z.setbit_eqb by done. by rewrite H, orb_true_r. Qed.

Lemma alloc_holds t r t' : tbl_ok t -> nfs4_alloc_slot t = (r, t') -> holds t t'.
Proof.
  intros O E. destruct (alloc_slot_spec t r t' O E) as (O' & K & _ & _ & _ & _ & P).
  eapply keeps_holds; [done|done|done|]. intros j B. destruct r as [i|e].
  - destruct P as (Hi & _ & _ & -> & _). apply setbit_mono; [done|lia].
  - by destruct P as [-> _].
Qed.

Lemma free_holds t i j : tbl_ok t -> Z.testbit (used_slots t) i = true -> j <> i -> holds_at j t (nfs4_free_slot t i).
Proof.
  intros O Hi Ne B. destruct (free_slot_spec t i O Hi) as (_ & U & E & _). rewrite U, Z.clearbit_eqb, B.
  rewrite (proj2 (Z.eqb_neq i j)) by done. split; [done|]. destruct (used_exists t j O B) as [s Hs].
  exists s, s. unfold slot_get in *. by rewrite E.
Qed.

Lemma gen_holds t i g : tbl_ok t -> holds t (on_slot i (set_gen g) t).
Proof.
  intros O j B. split; [done|]. destruct (used_exists t j O B) as [s Hs]. rewrite on_slot_get, Hs by done.
  eexists s, _. split_and!; [done..|]. by destruct (_ =? i).
Qed.

(** ** Waking tasks with slots *)

Definition ts_ok (st : table_state) : Prop := tbl_ok (ts_tbl st) /\ sched_ok (ts_wq st).

Abbreviation ts_queued st := (queued (sc_queue (ts_wq st))).
Abbreviation ts_tasks st := (sc_tasks (ts_wq st)).
Abbreviation ts_used st := (used_slots (ts_tbl st)).

(** Task [t] went from asleep to runnable with slot [i]. *)
Definition got_slot (st st' : table_state) (t i : Z) : Prop :=
  exists k k', ts_tasks st !! t = Some k /\ ts_tasks st' !! t = Some k' /\
    tk_queued k' = false /\ tk_running k' = true /\
    sa_slot (tk_msg k') = Some i /\ sr_slot (tk_msg k') = Some i /\ sr_status (tk_msg k') = 1 /\
    sr_status_flags (tk_msg k') = 0 /\ sa_privileged (tk_msg k') = sa_privileged (tk_msg k) /\
    (draining (ts_tbl st) = true -> sa_privileged (tk_msg k) = true).

(** A waiting task may not have a slot while the table drains. *)
Definition next_refuses (st : table_state) : Prop :=
  draining (ts_tbl st) = true /\
  exists t k, t ∈ ts_queued st /\ ts_tasks st !! t = Some k /\ sa_privileged (tk_msg k) = false.

Lemma assign_same_sched j k (d : nfs4_slot_table * Z) : same_sched k (fst (snd (nfs41_assign_slot j k d))).
Proof. destruct d as [t i]. unfold nfs41_assign_slot. by destruct (_ && _). Qed.

Lemma gen_slot_ok t i g : tbl_ok t -> tbl_ok (on_slot i (set_gen g) t).
Proof.
  intros [N B L T S]. pose proof (on_slot_numbered i (set_gen g) t ltac:(done) N) as N'. split; try done.
  simpl. unfold zlen in *. by rewrite length_map.
Qed.

Lemma wake_and_assign_spec j st i b st' :
  ts_ok st -> __nfs41_wake_and_assign_slot j st i = (b, st') ->
  ts_ok st' /\ rest (ts_tbl st') = rest (ts_tbl st) /\ kmem (ts_tbl st') = kmem (ts_tbl st) /\
  holds (ts_tbl st) (ts_tbl st') /\
  if b then exists t, t ∈ ts_queued st /\ got_slot st st' t i /\ ts_queued st ≡ₚ t :: ts_queued st' /\
    (forall u, u <> t -> ts_tasks st' !! u = ts_tasks st !! u)
  else ts_queued st' = ts_queued st /\ ts_tasks st' = ts_tasks st /\ ts_tbl st' = ts_tbl st /\
    (ts_queued st = [] \/ next_refuses st).
Proof.
  intros [O S]. unfold __nfs41_wake_and_assign_slot.
  destruct (rpc_wake_up_first _ _ _) as [r [d w]] eqn:E.
  destruct (wake_first_cases _ _ _ _ _ _ S (fun k => assign_same_sched j k (ts_tbl st, i)) E) as [S' C].
  intros [= <- <-]. unfold ts_ok. cbn [ts_tbl ts_wq].
  destruct (fst (__rpc_find_next_queued _)) as [t|] eqn:F.
  2: { destruct C as (Q & Q' & -> & -> & T'). simpl. split_and!; try done; [by apply holds_refl|by rewrite Q, Q'|by left]. }
  destruct C as (Ht & k & k' & K & A & Fr & C). unfold nfs41_assign_slot, nfs4_slot_tbl_draining in A.
  destruct (draining (ts_tbl st) && negb (sa_privileged (tk_msg k))) eqn:D.
  - destruct r; [done|]. injection A as <- <-. destruct C as [Q C]. simpl. split_and!; try done.
    + by apply holds_refl.
    + apply map_eq. intros u. destruct (decide (u = t)) as [->|]; [by rewrite C, K|by apply Fr].
    + right. apply andb_true_iff in D as [D1 D2%negb_true_iff]. split; [done|]. exists t, k. done.
  - destruct r as [t'|]; [|done]. injection A as <- <-. destruct C as (-> & P & k2 & K2 & R). cbn [fst snd].
    change (on_slot i _ (ts_tbl st)) with (on_slot i (set_gen (tbl_generation (ts_tbl st))) (ts_tbl st)).
    split_and!; try done; [by apply gen_slot_ok|by apply gen_holds|]. exists t. split_and!; try done. exists k, k2.
    destruct R as (R1 & R2 & _ & _ & _ & Rm & _). cbn [ts_wq]. rewrite Rm. split_and!; try done.
    intros Dr. rewrite Dr in D. by apply negb_false_iff in D.
Qed.

(** Why no more slots are handed out. *)
Definition stops (st : table_state) : Prop :=
  ts_queued st = [] \/ next_refuses st \/
  (forall i, 0 <= i <= max_slotid (ts_tbl st) -> Z.testbit (ts_used st) i = true) \/
  false ∈ kmem (ts_tbl st).

Lemma clear_set_bit bm i : 0 <= i -> Z.testbit bm i = false -> Z.clearbit (Z.setbit bm i) i = bm.
Proof.
  intros Hi H. apply Z.bits_inj. intros j. rewrite Z.clearbit_eqb, Z.setbit_eqb by lia.
  destruct (Z.eqb_spec i j) as [<-|]; simpl; [by rewrite H|by rewrite andb_true_r].
Qed.

Lemma try_wake_spec j st b st' :
  ts_ok st -> nfs41_try_wake_next_slot_table_entry j st = (b, st') ->
  ts_ok st' /\ draining (ts_tbl st') = draining (ts_tbl st) /\ max_slotid (ts_tbl st') = max_slotid (ts_tbl st) /\
  kmem (ts_tbl st') `suffix_of` kmem (ts_tbl st) /\ holds (ts_tbl st) (ts_tbl st') /\
  if b then exists t i, Z.testbit (ts_used st) i = false /\ 0 <= i <= max_slotid (ts_tbl st) /\
    ts_used st' = Z.setbit (ts_used st) i /\ t ∈ ts_queued st /\ got_slot st st' t i /\
    ts_queued st ≡ₚ t :: ts_queued st' /\ (forall u, u <> t -> ts_tasks st' !! u = ts_tasks st !! u)
  else ts_queued st' = ts_queued st /\ ts_tasks st' = ts_tasks st /\ ts_used st' = ts_used st /\ stops st.
Proof.
  intros [O S]. unfold nfs41_try_wake_next_slot_table_entry.
  destruct (nfs4_alloc_slot (ts_tbl st)) as [r t1] eqn:A.
  destruct (alloc_slot_spec _ _ _ O A) as (O1 & _ & D1 & _ & M1 & K1 & P).
  pose proof (alloc_holds _ _ _ O A) as Ho. destruct r as [i|e].
  2: { intros [= <- <-]. destruct P as [U P]. cbn [ts_tbl ts_wq]. split; [by split|]. split_and!; try done.
       unfold stops. destruct P as [(_ & -> & P)|[_ P]]; auto. }
  destruct P as (Hi & Bi & _ & U & _).
  destruct (__nfs41_wake_and_assign_slot j (mk_ts t1 (ts_wq st)) i) as [ret st1] eqn:W.
  destruct (wake_and_assign_spec j (mk_ts t1 (ts_wq st)) i ret st1 (conj O1 S) W) as (O2 & R & K2 & Ho2 & P2).
  cbn [ts_tbl ts_wq] in *.
  destruct (rest_inv _ _ R) as (Eu & Em & _ & _ & _ & _ & _ & Ed).
  destruct ret; intros [= <- <-].
  - destruct P2 as (t & Ht & G & Pm & Fr). split; [done|].
    split_and!; [congruence|congruence|by rewrite K2|by eapply holds_trans|]. exists t, i. split_and!; try done; try congruence; try lia.
    destruct G as (k & k' & G). exists k, k'. cbn [ts_tbl ts_wq] in G. by rewrite D1 in G.
  - destruct P2 as (Q & T & Et & St). destruct O2 as [O2 S2].
    assert (Bi' : Z.testbit (ts_used st1) i = true) by (rewrite Eu, U, Z.setbit_eqb, Z.eqb_refl by lia; done).
    destruct (free_slot_spec (ts_tbl st1) i O2 Bi') as (O3 & U3 & _ & D3 & M3 & K3 & _). cbn [ts_tbl ts_wq].
    split; [done|]. split_and!; try congruence.
    + intros x B. eapply holds_at_trans; [apply Ho| |done]. eapply holds_at_trans; [apply Ho2|].
      apply free_holds; [done..|]. intros ->. congruence.
    + rewrite U3, Eu, U. apply clear_set_bit; [lia|done].
    + unfold stops. destruct St as [St|St]; [by left|]. right. left.
      destruct St as (Dr & St). cbn [ts_tbl ts_wq] in *. split; [congruence|done].
Qed.

(** A run of wake-ups: [given] lists the tasks served with their slots. *)
Record served (st st' : table_state) (given : list (Z * Z)) : Prop := {
  sv_tasks : NoDup given.*1;
  sv_slots : NoDup given.*2;
  sv_queue : ts_queued st ≡ₚ given.*1 ++ ts_queued st';
  sv_got : forall t i, (t, i) ∈ given -> got_slot st st' t i /\
             Z.testbit (ts_used st) i = false /\ 0 <= i <= max_slotid (ts_tbl st);
  sv_used : forall i, Z.testbit (ts_used st') i = Z.testbit (ts_used st) i || bool_decide (i ∈ given.*2);
  sv_frame : forall u, u ∉ given.*1 -> ts_tasks st' !! u = ts_tasks st !! u;
}.

Lemma got_slot_frame st st1 st' t i :
  draining (ts_tbl st1) = draining (ts_tbl st) -> ts_tasks st1 !! t = ts_tasks st !! t ->
  got_slot st1 st' t i -> got_slot st st' t i.
Proof. intros D E (k & k' & K & G). exists k, k'. rewrite <- E, <- D. by split. Qed.

Lemma got_slot_later st st1 st' t i :
  ts_tasks st' !! t = ts_tasks st1 !! t -> got_slot st st1 t i -> got_slot st st' t i.
Proof. intros E (k & k' & K & K' & G). exists k, k'. rewrite E. exact (conj K (conj K' G)). Qed.

Lemma served_step st st1 st' t i given :
  ts_ok st -> draining (ts_tbl st1) = draining (ts_tbl st) -> max_slotid (ts_tbl st1) = max_slotid (ts_tbl st) ->
  Z.testbit (ts_used st) i = false -> 0 <= i <= max_slotid (ts_tbl st) ->
  ts_used st1 = Z.setbit (ts_used st) i -> got_slot st st1 t i ->
  ts_queued st ≡ₚ t :: ts_queued st1 -> (forall u, u <> t -> ts_tasks st1 !! u = ts_tasks st !! u) ->
  served st1 st' given -> served st st' ((t, i) :: given).
Proof.
  intros [_ S] D M Bi Hi U G P Fr [V1 V2 V3 V4 V5 V6].
  pose proof (qo_nodup _ _ (so_queue _ S)) as N. rewrite P in N. apply NoDup_cons in N as [Nt N].
  assert (Nt' : t ∉ given.*1).
  { intros C. apply Nt. rewrite V3. by apply elem_of_app; left. }
  assert (Bits : forall x, Z.testbit (ts_used st1) x = Z.testbit (ts_used st) x || (i =? x)).
  { intros x. rewrite U, Z.setbit_eqb by lia. apply orb_comm. }
  split; simpl.
  - by constructor.
  - constructor; [|done]. intros C. apply list_elem_of_fmap in C as ([t0 i0] & Ei & C). simpl in Ei. subst i0.
    apply V4 in C as (_ & C & _). by rewrite Bits, Z.eqb_refl, orb_true_r in C.
  - rewrite P. by constructor.
  - intros t0 i0 [[= -> ->]|C]%elem_of_cons.
    + split; [|done]. eapply got_slot_later; [by apply V6|done].
    + destruct (V4 _ _ C) as (G0 & B0 & H0). rewrite M in H0. rewrite Bits in B0. apply orb_false_iff in B0 as [B0 _].
      split; [|done]. eapply got_slot_frame; [done| |done]. apply Fr. intros ->. apply Nt'.
      by apply list_elem_of_fmap; exists (t, i0).
  - intros x. rewrite V5, Bits. rewrite <- orb_assoc. f_equal.
    destruct (Z.eqb_spec i x) as [<-|Ne]; simpl.
    + symmetry. apply bool_decide_eq_true_2. left.
    + apply bool_decide_ext. rewrite elem_of_cons. split; [by right|]. by intros [->|].
  - intros u Hu. rewrite not_elem_of_cons in Hu. destruct Hu as [Ne Hu]. rewrite V6, Fr by done. done.
Qed.

Lemma wake_loop_spec fuel j st :
  ts_ok st -> (length (ts_queued st) < fuel)%nat ->
  exists st' given, wake_slot_loop fuel j st = Some st' /\ ts_ok st' /\ served st st' given /\
    draining (ts_tbl st') = draining (ts_tbl st) /\ max_slotid (ts_tbl st') = max_slotid (ts_tbl st) /\
    kmem (ts_tbl st') `suffix_of` kmem (ts_tbl st) /\ holds (ts_tbl st) (ts_tbl st') /\
    (ts_queued st' = [] \/ next_refuses st' \/
     (forall i, 0 <= i <= max_slotid (ts_tbl st) -> Z.testbit (ts_used st') i = true) \/
     false ∈ kmem (ts_tbl st)).
Proof.
  revert st. induction fuel as [|fuel IH]; intros st O L; [lia|]. cbn [wake_slot_loop].
  destruct (nfs41_try_wake_next_slot_table_entry j st) as [b st1] eqn:W.
  destruct (try_wake_spec j st b st1 O W) as (O1 & D1 & M1 & K1 & Ho & P). destruct b.
  - destruct P as (t & i & Bi & Hi & U & Ht & G & Pm & Fr).
    destruct (IH st1 O1) as (st' & given & E & O' & V & D' & M' & K' & Ho' & C).
    { rewrite Pm in L. simpl in L. lia. }
    exists st', ((t, i) :: given). split_and!; try congruence; [|by etrans|by eapply holds_trans|].
    + by eapply served_step.
    + rewrite M1 in C. destruct C as [C|[C|[C|C]]]; auto. right. right. right.
      destruct K1 as [l ->]. apply elem_of_app. by right.
  - destruct P as (Q & T & U & C). exists st1, []. split_and!; try done.
    + split; simpl; try done; [by constructor|by constructor|by rewrite Q|by intros ? ? ?%elem_of_nil| |by rewrite T].
      intros x. by rewrite U, orb_false_r.
    + destruct C as [C|[(Dr & t & k & F & K & Pr)|[C|C]]]; [left; congruence| |right; right; left; by rewrite U|auto].
      right. left. split; [congruence|]. exists t, k. by rewrite T, Q.
Qed.
