(* ===== verification/SessionTheorems.v ===== *)
(** * NFSv4.1 session slot tables: main theorems

    Allocation and release of slots, the invariant over every sequence of
    operations, slots staying with their holders until freed, and the
    distribution of slots to waiting tasks. *)

From S2P Require Import Prelude Xdr WaitQueue WaitQueueInv WaitQueueTheorems Session SessionInv.
From stdpp Require Import list gmap.
#[local] Open Scope Z_scope.

(** ** Operations as steps *)

(** One operation on a table; the label is the slot it frees.  The server's
    numbers are 32 bits wide; its highest slot id is not [0xffffffff]. *)
Inductive ts_step : option Z -> table_state -> table_state -> Prop :=
| ts_alloc st r t : nfs4_alloc_slot (ts_tbl st) = (r, t) -> ts_step None st (mk_ts t (ts_wq st))
| ts_free st i : Z.testbit (ts_used st) i = true ->
    ts_step (Some i) st (mk_ts (nfs4_free_slot (ts_tbl st) i) (ts_wq st))
| ts_lock st i b t : is_Some (slot_get (ts_tbl st) i) -> nfs4_try_to_lock_slot (ts_tbl st) i = (b, t) ->
    ts_step None st (mk_ts t (ts_wq st))
| ts_lookup st i r t : 0 <= i -> nfs4_lookup_slot (ts_tbl st) i = (r, t) -> ts_step None st (mk_ts t (ts_wq st))
| ts_in_use st i q b t : 0 <= i -> nfs4_slot_seqid_in_use (ts_tbl st) i q = (b, t) ->
    ts_step None st (mk_ts t (ts_wq st))
| ts_hand_over st j i b st' : Z.testbit (ts_used st) i = true -> nfs41_wake_and_assign_slot j st i = (b, st') ->
    ts_step None st st'
| ts_wake st j st' : nfs41_wake_slot_table j st = Some st' -> ts_step None st st'
| ts_target st j target st' : is_u32 target -> nfs41_set_target_slotid j st target = Some st' ->
    ts_step None st st'
| ts_update st j slot target highest st' : is_u32 target -> 0 <= highest < NFS4_NO_SLOT ->
    nfs41_update_target_slotid j st slot target highest = Some st' -> ts_step None st st'
| ts_realloc st n q ret t : ts_used st = 0 -> 1 <= n -> nfs4_realloc_slot_table (ts_tbl st) n q = (ret, t) ->
    ts_step None st (mk_ts t (ts_wq st))
| ts_drain st b : ts_step None st (mk_ts ((ts_tbl st) <| draining := b |>) (ts_wq st))
| ts_queue st w : wq_step (ts_wq st) w -> ts_step None st (mk_ts (ts_tbl st) w).

(** A zeroed table. *)
Definition zero_table (k : list bool) : nfs4_slot_table := mk_tbl [] 0 0 0 0 0 0 0 0 0 0 false k.

Inductive ts_reachable : table_state -> Prop :=
| tr_init n k t w : 1 <= n -> nfs4_setup_slot_table (zero_table k) n = (0, t) -> wq_reachable w ->
    ts_reachable (mk_ts t w)
| tr_step l st st' : ts_reachable st -> ts_step l st st' -> ts_reachable st'.

Lemma init_tbl_ok n k t : 1 <= n -> nfs4_setup_slot_table (zero_table k) n = (0, t) -> tbl_ok t.
Proof.
  intros Hn E. unfold nfs4_setup_slot_table in E. set (z := nfs4_init_slot_table _) in E.
  assert (numbered z) as N by (split; [done|]; split; [done|]; done).
  destruct (realloc_spec z n 0 0 t N eq_refl Hn E) as [_ [(_ & O & _)|(C & _)]]; done.
Qed.

Lemma ltb_min a b : (if a <? b then a else b) = Z.min a b.
Proof. destruct (Z.ltb_spec a b); lia. Qed.

(** Setting [max_slotid] and handing out the slots this makes available. *)
Lemma set_max_spec j st target :
  ts_ok st -> is_u32 target ->
  exists st', nfs41_set_max_slotid_locked j st target = Some st' /\ ts_ok st' /\ holds (ts_tbl st) (ts_tbl st').
Proof.
  intros [[N B L T S] W] Ht. unfold nfs41_set_max_slotid_locked.
  set (m := if target_highest_slotid _ <? _ then _ else _). unfold nfs41_wake_slot_table.
  set (st1 := mk_ts _ _). assert (O1 : ts_ok st1).
  { split; [|done]. split; try done. change (0 <= m < 1024). unfold m. rewrite !ltb_min.
    unfold is_u32, NFS4_MAX_SLOT_TABLE in *. lia. }
  destruct (wake_loop_spec (Datatypes.S (length (ts_queued st1))) j st1 O1 ltac:(lia))
    as (st' & given & E & O' & _ & _ & _ & _ & H & _).
  by exists st'.
Qed.

Lemma set_d_ok t d d2 :
  tbl_ok t -> tbl_ok (t <| d_target_highest_slotid := d |> <| d2_target_highest_slotid := d2 |>).
Proof. intros []. by split. Qed.

Lemma same_slots_holds t t' : tbl_ok t -> slots t' = slots t -> used_slots t' = used_slots t -> holds t t'.
Proof.
  intros O E U i B. destruct (used_exists t i O B) as [s Hs]. rewrite U. split; [done|]. exists s, s.
  unfold slot_get in *. by rewrite E.
Qed.

Lemma update_spec j st slot target highest :
  ts_ok st -> is_u32 target -> 0 <= highest < NFS4_NO_SLOT ->
  exists st', nfs41_update_target_slotid j st slot target highest = Some st' /\ ts_ok st' /\
    holds (ts_tbl st) (ts_tbl st').
Proof.
  intros [O W] Ht Hh. unfold nfs41_update_target_slotid, nfs41_is_outlier_target_slotid.
  set (t0 := _ <| d_target_highest_slotid := _ |> <| d2_target_highest_slotid := _ |>).
  assert (O0 : tbl_ok t0) by by apply set_d_ok.
  set (t1 := if negb _ then _ else t0).
  assert (O1 : tbl_ok t1 /\ used_slots t1 = used_slots t0 /\ slots t1 = slots t0).
  { unfold t1. destruct (negb _); [|done]. by destruct (set_target_spec t0 target O0 Ht) as (? & ? & ? & _). }
  destruct O1 as (O1 & U1 & E1). set (t2 := if tbl_generation t1 =? _ then _ else t1).
  assert (O2 : tbl_ok t2 /\ holds t1 t2).
  { unfold t2. destruct (_ =? _); [|by split; [|apply holds_refl]].
    destruct (set_server_spec t1 highest O1 Hh) as (O2 & U2 & _ & _ & G). split; [done|].
    intros i B. rewrite U2. split; [done|]. destruct (used_exists t1 i O1 B) as [s Hs].
    exists s, s. by rewrite (G i B). }
  destruct O2 as [O2 H2].
  destruct (set_max_spec j (mk_ts t2 (ts_wq st)) target (conj O2 W) Ht) as (st' & E & O' & H').
  exists st'. split_and!; [done|done|].
  eapply holds_trans; [|exact H']. eapply holds_trans; [|exact H2]. apply same_slots_holds; [exact O|exact E1|exact U1].
Qed.

Lemma set_target_slotid_spec j st target :
  ts_ok st -> is_u32 target ->
  exists st', nfs41_set_target_slotid j st target = Some st' /\ ts_ok st' /\ holds (ts_tbl st) (ts_tbl st').
Proof.
  intros [O W] Ht. unfold nfs41_set_target_slotid.
  destruct (set_target_spec (ts_tbl st) target O Ht) as (O1 & U1 & E1 & _).
  set (t1 := nfs41_set_target_slotid_locked _ _) in *.
  set (t2 := _ <| d_target_highest_slotid := _ |> <| d2_target_highest_slotid := _ |>).
  destruct (set_max_spec j (mk_ts t2 (ts_wq st)) target) as (st' & E & O' & H');
    [split; [by apply set_d_ok|done]|done|].
  exists st'. split_and!; [done|done|]. eapply holds_trans; [|exact H'].
  apply same_slots_holds; [done|exact E1|exact U1].
Qed.

Lemma wake_table_spec j st :
  ts_ok st -> exists st', nfs41_wake_slot_table j st = Some st' /\ ts_ok st' /\ holds (ts_tbl st) (ts_tbl st').
Proof.
  intros O. destruct (wake_loop_spec _ j st O (Nat.lt_succ_diag_r _)) as (st' & g & E & O' & _ & _ & _ & _ & H & _).
  exists st'. split_and!; [done|done|done].
Qed.

Lemma lock_step_spec t i b t' :
  tbl_ok t -> is_Some (slot_get t i) -> nfs4_try_to_lock_slot t i = (b, t') -> tbl_ok t' /\ holds t t'.
Proof.
  intros O Hs E. unfold nfs4_try_to_lock_slot in E. destruct (nfs4_test_locked_slot t i).
  - injection E as <- <-. by split; [|apply holds_refl].
  - injection E as <- <-. pose proof O as [N B L T S]. apply slot_get_in in Hs; [|done].
    destruct (lock_slot_spec t i N B L T S Hs) as (O' & U & K & _). split; [done|].
    eapply keeps_holds; [done|done|done|]. intros j Bj. rewrite U. apply setbit_mono; [done|lia].
Qed.

Lemma lookup_step_spec t i r t' :
  tbl_ok t -> 0 <= i -> nfs4_lookup_slot t i = (r, t') -> tbl_ok t' /\ holds t t'.
Proof.
  intros O Hi E. destruct (lookup_slot_spec t i r t' O Hi E) as (O' & U & K & _). split; [done|].
  eapply keeps_holds; [done|done|done|]. by rewrite U.
Qed.

Lemma in_use_step_spec t i q b t' :
  tbl_ok t -> 0 <= i -> nfs4_slot_seqid_in_use t i q = (b, t') -> tbl_ok t' /\ holds t t'.
Proof.
  intros O Hi E. unfold nfs4_slot_seqid_in_use, nfs4_slot_get_seqid in E.
  destruct (nfs4_lookup_slot t i) as [[nr|e] t1] eqn:F; injection E as <- <-;
    exact (lookup_step_spec t i _ t1 O Hi F).
Qed.

Lemma realloc_step_spec t n q ret t' :
  tbl_ok t -> used_slots t = 0 -> 1 <= n -> nfs4_realloc_slot_table t n q = (ret, t') -> tbl_ok t' /\ holds t t'.
Proof.
  intros O U Hn E. destruct (realloc_spec t n q ret t' (to_nrs _ O) U Hn E) as [_ C]. split.
  - destruct C as [(_ & O' & _)|(_ & _ & G)]; [done|by eapply grown_ok].
  - intros i B. by rewrite U, Z.bits_0 in B.
Qed.

(** Every operation keeps the table and its queue well-formed, and every slot in
    use but the one it frees. *)
Lemma ts_step_spec l st st' :
  ts_ok st -> ts_step l st st' ->
  ts_ok st' /\ forall i, l <> Some i -> holds_at i (ts_tbl st) (ts_tbl st').
Proof.
  intros O H. pose proof O as [T W]. destruct H as
    [st r t E|st i B|st i b t Hs E|st i r t Hi E|st i q b t Hi E|st j i b st' B E|st j st' E|st j tg st' Ht E
    |st j sl tg hi st' Ht Hh E|st n q ret t U Hn E|st b|st w E]; unfold ts_ok; cbn [ts_tbl ts_wq].
  - destruct (alloc_slot_spec _ _ _ T E) as (O' & _). split; [done|]. intros i _. by apply (alloc_holds _ _ _ T E).
  - destruct (free_slot_spec _ i T B) as (O' & _). split; [done|]. intros k Hk. apply free_holds; [done..|congruence].
  - destruct (lock_step_spec _ _ _ _ T Hs E) as [O' H]. by split; [|intros k _; apply H].
  - destruct (lookup_step_spec _ _ _ _ T Hi E) as [O' H]. by split; [|intros k _; apply H].
  - destruct (in_use_step_spec _ _ _ _ _ T Hi E) as [O' H]. by split; [|intros k _; apply H].
  - unfold nfs41_wake_and_assign_slot in E. destruct (_ <? i).
    + injection E as <- <-. split; [done|]. intros k _. by apply holds_refl.
    + destruct (wake_and_assign_spec _ _ _ _ _ O E) as (O' & _ & _ & H & _). by split; [|intros k _; apply H].
  - destruct (wake_table_spec j st O) as (st2 & E2 & O' & H). replace st' with st2 by congruence.
    by split; [|intros k _; apply H].
  - destruct (set_target_slotid_spec j st tg O Ht) as (st2 & E2 & O' & H). replace st' with st2 by congruence.
    by split; [|intros k _; apply H].
  - destruct (update_spec j st sl tg hi O Ht Hh) as (st2 & E2 & O' & H). replace st' with st2 by congruence.
    by split; [|intros k _; apply H].
  - destruct (realloc_step_spec _ _ _ _ _ T U Hn E) as [O' H]. by split; [|intros k _; apply H].
  - split; [split; [|done]; destruct T; by split|]. intros k _. by apply same_slots_holds.
  - split; [split; [done|by eapply step_ok]|]. intros k _. by apply holds_refl.
Qed.

Lemma ts_reachable_ok st : ts_reachable st -> ts_ok st.
Proof.
  induction 1 as [n k t w Hn E W|l st st' R IH H].
  - split; [by eapply init_tbl_ok|by apply reachable_ok].
  - by apply (ts_step_spec l st st').
Qed.

(** ** Samples *)

(** A table of two slots, both in use, then one of them freed; tasks 1 and 2 wait
    for slots, task 2 being privileged. *)
Definition sample_table : nfs4_slot_table := snd (nfs4_setup_slot_table (zero_table []) 2).
Definition sample_busy : nfs4_slot_table := snd (nfs4_alloc_slot (snd (nfs4_alloc_slot sample_table))).
Definition sample_freed : nfs4_slot_table := nfs4_free_slot sample_busy 0.

Definition sample_waiter (privileged : bool) : rpc_task nfs4_seq :=
  mk_task nfs4_seq 7 1 0 0 None true false false None (mk_seq true privileged None None 0 0 0).
Definition sample_waiters0 : sched nfs4_seq :=
  mk_sched nfs4_seq (<[1 := sample_waiter false]> (<[2 := sample_waiter true]> ∅))
    (rpc_init_priority_wait_queue sample_wq) [] [].
Definition sample_waiters : sched nfs4_seq := rpc_sleep_on 2 None (rpc_sleep_on 1 None sample_waiters0).

Lemma sample_waiters_reachable : wq_reachable sample_waiters.
Proof.
  apply (reach_step (rpc_sleep_on 1 None sample_waiters0)); [|apply step_sleep; vm_compute; discriminate].
  apply (reach_step sample_waiters0); [|apply step_sleep; vm_compute; discriminate].
  apply reach_init; [vm_compute; split; discriminate|vm_compute; split; discriminate|].
  intros t k H [C _]. apply lookup_insert_Some in H as [[_ <-]|[_ H]]; [done|].
  apply lookup_insert_Some in H as [[_ <-]|[_ H]]; [done|]. by rewrite lookup_empty in H.
Qed.

Lemma sample_allocs :
  nfs4_setup_slot_table (zero_table []) 2 = (0, sample_table) /\
  nfs4_alloc_slot sample_table = (Ok 0, snd (nfs4_alloc_slot sample_table)) /\
  nfs4_alloc_slot (snd (nfs4_alloc_slot sample_table)) = (Ok 1, sample_busy) /\
  used_slots sample_busy = 3.
Proof. vm_compute. repeat split. Qed.

Lemma sample_busy_reachable : ts_reachable (mk_ts sample_busy sample_waiters).
Proof.
  destruct sample_allocs as (E0 & E1 & E2 & _).
  apply (tr_step None (mk_ts (snd (nfs4_alloc_slot sample_table)) sample_waiters)).
  2: exact (ts_alloc (mk_ts (snd (nfs4_alloc_slot sample_table)) sample_waiters) (Ok 1) sample_busy E2).
  apply (tr_step None (mk_ts sample_table sample_waiters)).
  2: exact (ts_alloc (mk_ts sample_table sample_waiters) (Ok 0) _ E1).
  exact (tr_init 2 [] sample_table sample_waiters ltac:(done) E0 sample_waiters_reachable).
Qed.

Lemma free_step t w i :
  Z.testbit (used_slots t) i = true -> ts_step (Some i) (mk_ts t w) (mk_ts (nfs4_free_slot t i) w).
Proof. exact (ts_free (mk_ts t w) i). Qed.

Lemma reachable_tbl_ok t w : ts_reachable (mk_ts t w) -> tbl_ok t.
Proof. intros H. exact (proj1 (ts_reachable_ok _ H)). Qed.

Lemma sample_free_step :
  ts_step (Some 0) (mk_ts sample_busy sample_waiters) (mk_ts sample_freed sample_waiters).
Proof.
  apply free_step.
  destruct sample_allocs as (_ & _ & _ & ->). reflexivity.
Qed.

Lemma sample_freed_reachable : ts_reachable (mk_ts sample_freed sample_waiters).
Proof. exact (tr_step _ _ _ sample_busy_reachable sample_free_step). Qed.

Lemma sample_busy_ok : tbl_ok sample_busy.
Proof. exact (reachable_tbl_ok _ _ sample_busy_reachable). Qed.

Lemma sample_freed_ok : tbl_ok sample_freed.
Proof. exact (reachable_tbl_ok _ _ sample_freed_reachable). Qed.

(** ** The table over time *)



(** A slot in use keeps existing, in use and with its sequence numbers,
    through every operation but the one that frees it, a change of the server's
    limits and a re-sizing of the table included. *)
Theorem slot_held_until_freed l st st' i :
  ts_reachable st -> ts_step l st st' -> l <> Some i -> Z.testbit (ts_used st) i = true ->
  Z.testbit (ts_used st') i = true /\
  exists s s', slot_get (ts_tbl st) i = Some s /\ slot_get (ts_tbl st') i = Some s' /\ same_seq s s'.
Proof.
  intros R H Hl B. destruct (ts_step_spec l st st' (ts_reachable_ok st R) H) as [_ K]. exact (K i Hl B).
Qed.

Lemma slot_held_until_freed_witness :
  let st := mk_ts sample_busy sample_waiters in
  let st' := mk_ts sample_freed sample_waiters in
  Z.testbit (ts_used st') 1 = true /\
  exists s s', slot_get (ts_tbl st) 1 = Some s /\ slot_get (ts_tbl st') 1 = Some s' /\ same_seq s s'.
Proof.
  exact (slot_held_until_freed (Some 0) (mk_ts sample_busy sample_waiters) (mk_ts sample_freed sample_waiters) 1
    sample_busy_reachable sample_free_step ltac:(discriminate) ltac:(vm_compute; reflexivity)).
Defined.

(** ** Single operations *)

(** [nfs4_alloc_slot] gives the lowest slot that is not in use, within the
    server's limit, and marks exactly that one; a new slot starts at sequence
    number 1 and an old one keeps its numbers.  It fails with [-EBUSY] exactly
    when every slot up to the limit is in use, and otherwise only, with
    [-ENOMEM], when memory runs out. *)
Theorem alloc_slot_contract t r t' :
  tbl_ok t -> nfs4_alloc_slot t = (r, t') ->
  tbl_ok t' /\ keeps_seq 1 t t' /\
  match r with
  | Ok i =>
      0 <= i <= max_slotid t /\ Z.testbit (used_slots t) i = false /\
      (forall j, 0 <= j < i -> Z.testbit (used_slots t) j = true) /\
      used_slots t' = Z.setbit (used_slots t) i /\ is_Some (slot_get t' i)
  | Err e =>
      used_slots t' = used_slots t /\
      (e = - EBUSY <-> forall j, 0 <= j <= max_slotid t -> Z.testbit (used_slots t) j = true) /\
      (e <> - EBUSY -> e = - ENOMEM /\ false ∈ kmem t)
  end.
Proof.
  intros O E. destruct (alloc_slot_spec t r t' O E) as (O' & K & _ & _ & _ & _ & P).
  split; [done|]. split; [done|]. destruct r as [i|e].
  - destruct P as (Hi & Bi & Lo & U & L & _). split_and!; try done; try lia.
    apply slot_get_in; [apply O'|lia].
  - destruct P as [U [(-> & _ & P)|[-> P]]]; split_and!; try done. split; [done|]. intros All.
    pose proof O as [N B L T S]. unfold nfs4_alloc_slot, find_first_zero_bit in E.
    rewrite u32_id in E by (unfold is_u32; change NFS4_MAX_SLOT_TABLE with 1024 in L; lia).
    pose proof (first_zero_spec (Z.to_nat (max_slotid t + 1)) (used_slots t) 0) as (A1 & _ & A3).
    rewrite Z2Nat.id in A1, A3 by lia. set (i := first_zero _ _ 0) in *.
    destruct (Z.leb_spec i (max_slotid t)); [|simplify_eq]. rewrite All in A3 by lia. discriminate A3. lia.
Qed.

Lemma alloc_slot_contract_witness :
  tbl_ok (snd (nfs4_alloc_slot sample_freed)) /\ Z.testbit (used_slots sample_freed) 0 = false /\
  nfs4_alloc_slot sample_busy = (Err (- EBUSY), sample_busy).
Proof.
  assert (E : nfs4_alloc_slot sample_freed = (Ok 0, snd (nfs4_alloc_slot sample_freed))) by (vm_compute; reflexivity).
  destruct (alloc_slot_contract _ _ _ sample_freed_ok E) as (O & _ & _ & B & _).
  split; [exact O|]. split; [exact B|]. vm_compute. reflexivity.
Defined.

(** [nfs4_free_slot] frees exactly that slot, leaves the slots themselves
    alone, records the highest one still in use, and signals the completion of a
    drain exactly when the table drains and the last slot in use was freed. *)
Theorem free_slot_contract t i :
  tbl_ok t -> Z.testbit (used_slots t) i = true ->
  let t' := nfs4_free_slot t i in
  tbl_ok t' /\ (forall j, Z.testbit (used_slots t') j = Z.testbit (used_slots t) j && negb (i =? j)) /\
  slots t' = slots t /\ max_slotid t' = max_slotid t /\
  complete t' = complete t + (if draining t && (used_slots t' =? 0) then 1 else 0).
Proof.
  intros O B t'. destruct (free_slot_spec t i O B) as (O' & U & E & _ & M & _ & C). split_and!; try done.
  intros j. unfold t'. by rewrite U, Z.clearbit_eqb.
Qed.

Lemma free_slot_contract_witness :
  let t := sample_freed <| draining := true |> in
  tbl_ok (nfs4_free_slot t 1) /\ complete (nfs4_free_slot t 1) = 1.
Proof.
  intros t. assert (O : tbl_ok t) by (destruct sample_freed_ok; split; assumption).
  assert (B : Z.testbit (used_slots t) 1 = true) by (vm_compute; reflexivity).
  destruct (free_slot_contract t 1 O B) as (O' & _). split; [exact O'|]. vm_compute. reflexivity.
Defined.

(** ** Handing out slots *)

(** C28: [nfs41_wake_slot_table] comes to an end.  The tasks it wakes leave the
    queue runnable, each with a slot of its own that was free before and is in
    use afterwards, and only privileged ones while the table drains; nothing else
    changes.  It stops only when no task waits, when every slot up to the limit
    is in use, when memory runs out, or when the table drains and a task waits
    that is not privileged. *)
Theorem wake_slot_table_serves j st :
  ts_ok st ->
  exists st' given, nfs41_wake_slot_table j st = Some st' /\ ts_ok st' /\ served st st' given /\
    (ts_queued st' = [] \/ next_refuses st' \/
     (forall i, 0 <= i <= max_slotid (ts_tbl st) -> Z.testbit (ts_used st') i = true) \/
     false ∈ kmem (ts_tbl st)).
Proof.
  intros O. destruct (wake_loop_spec _ j st O (Nat.lt_succ_diag_r _)) as (st' & g & E & O' & V & _ & _ & _ & _ & C).
  exists st', g. split_and!; done.
Qed.

(** With one slot free, one of the two waiting tasks is served. *)
Lemma wake_slot_table_serves_witness :
  exists st', nfs41_wake_slot_table 0 (mk_ts sample_freed sample_waiters) = Some st' /\ ts_ok st' /\
    used_slots (ts_tbl st') = 3 /\ ts_queued st' = [2].
Proof.
  destruct (wake_slot_table_serves 0 _ (ts_reachable_ok _ sample_freed_reachable)) as (st' & g & E & O & _).
  exists st'. split; [exact E|]. split; [exact O|]. vm_compute in E. injection E as <-. vm_compute. split; reflexivity.
Defined.

(** When a reply reports the highest slot id [0xffffffff],
    [nfs41_set_server_slotid_locked] frees every slot of the table, those in use
    included: the bound it passes on, [highest_slotid + 1], has wrapped to 0. *)
Theorem server_highest_slotid_wraps t :
  tbl_ok t -> server_highest_slotid t <> NFS4_NO_SLOT ->
  let t' := nfs41_set_server_slotid_locked t NFS4_NO_SLOT in
  slots t' = [] /\ used_slots t' = used_slots t.
Proof. intros O H. exact (set_server_wraps t O H). Qed.

Lemma server_highest_slotid_wraps_witness :
  used_slots sample_busy = 3 /\ length (slots sample_busy) = 2%nat /\
  slots (nfs41_set_server_slotid_locked sample_busy NFS4_NO_SLOT) = [].
Proof.
  split; [apply sample_allocs|]. split; [vm_compute; reflexivity|].
  apply (server_highest_slotid_wraps sample_busy sample_busy_ok). vm_compute. discriminate.
Defined.
