(* ===== verification/SeqServer.v ===== *)
(** * NFSv4.1 sessions: the server's SEQUENCE and reply cache

    [fs/nfsd/nfs4state.c]: a request names a session, a slot and a sequence
    number.  The server runs it when the number follows the last one of the
    slot, answers a retransmission from the slot's reply cache, and refuses
    everything else; [nfsd4_sequence_done] stores the reply.  The encoding of
    the SEQUENCE result and of operations in general is from
    [fs/nfsd/nfs4xdr.c].

    The reply is the list of bytes encoded so far with the limit on its length:
    what [xdr_reserve_space], [xdr_restrict_buflen] and [xdr_truncate_encode]
    do to it is what [XdrTheorems] proves of them. *)

From S2P Require Import Prelude Xdr.
From stdpp Require Import list gmap.
#[local] Open Scope Z_scope.

(** ** Constants *)

Definition nfs_ok := 0.
Definition nfserr_toosmall := 10005.
Definition nfserr_serverfault := 10006.
Definition nfserr_jukebox := 10008.
Definition nfserr_expired := 10011.
Definition nfserr_resource := 10018.
Definition nfserr_badsession := 10052.
Definition nfserr_badslot := 10053.
Definition nfserr_conn_not_bound_to_session := 10055.
Definition nfserr_seq_misordered := 10063.
Definition nfserr_sequence_pos := 10064.
Definition nfserr_req_too_big := 10065.
Definition nfserr_rep_too_big := 10066.
Definition nfserr_rep_too_big_to_cache := 10067.
Definition nfserr_retry_uncached_rep := 10068.
Definition nfserr_too_many_ops := 10070.
Definition nfserr_seq_false_retry := 10076.
Definition nfserr_replay_cache := 11002.

Definition OP_SEQUENCE := 53.
Definition OP_ILLEGAL := 10044.
Definition RPC_AUTH_MAXFLAVOR := 8.
Definition NFS4_MAX_SESSIONID_LEN := 16.
Definition NFSD_MIN_HDR_SEQ_SZ := 24 + 12 + 44.
Definition NFSD_MIN_REQ_HDR_SEQ_SZ := (2 * 2 + 1 + 3 + 4 + 4) * 4.
Definition NFSD_MIN_RESP_HDR_SEQ_SZ := (2 + 1 + 1 + 3 + 4 + 5) * 4.
Definition NFSD_MAX_SLOTS_PER_SESSION := 160.
Definition NFSD_MAX_OPS_PER_COMPOUND := 16.
Definition NFSD_SLOT_CACHE_SIZE := 2048.
Definition NFSD_CACHE_SIZE_SLOTS_PER_SESSION := 32.
Definition NFSD_MAX_MEM_PER_SESSION := NFSD_CACHE_SIZE_SLOTS_PER_SESSION * NFSD_SLOT_CACHE_SIZE.
Definition COMPOUND_ERR_SLACK_SPACE := 16.
Definition SEQ4_STATUS_CB_PATH_DOWN := 1.
Definition SEQ4_STATUS_RECALLABLE_STATE_REVOKED := 64.
Definition SEQ4_STATUS_BACKCHANNEL_FAULT := 1024.
Definition NFSD4_CB_DOWN := 2.
Definition NFSD4_CB_FAULT := 3.

(** ** State *)

Record svc_cred := mk_cred {
  cr_uid : Z;
  cr_gid : Z;
  cr_group_info : list Z;
  cr_flavor : Z;
  cr_raw_principal : option (list byte);
  cr_principal : option (list byte);
  cr_targ_princ : option (list byte);
}.

(** [sl_flags] is kept as its four bits; [sl_size] is the room for [sl_data]. *)
Record nfsd4_slot := mk_sslot {
  sl_seqid : Z;
  sl_status : Z;
  sl_cred : svc_cred;
  sl_datalen : Z;
  sl_opcnt : Z;
  sl_inuse : bool;                  (* NFSD4_SLOT_INUSE *)
  sl_cachethis : bool;              (* NFSD4_SLOT_CACHETHIS *)
  sl_initialized : bool;            (* NFSD4_SLOT_INITIALIZED *)
  sl_cached : bool;                 (* NFSD4_SLOT_CACHED *)
  sl_data : list byte;
  sl_size : Z;
}.
#[export] Instance upd_sslot : Updatable nfsd4_slot := fun s =>
  mk_sslot (sl_seqid s) (sl_status s) (sl_cred s) (sl_datalen s) (sl_opcnt s) (sl_inuse s)
    (sl_cachethis s) (sl_initialized s) (sl_cached s) (sl_data s) (sl_size s).

Record nfsd4_channel_attrs := mk_chan {
  maxreq_sz : Z; maxresp_sz : Z; maxresp_cached : Z; maxops : Z; maxreqs : Z }.

Record nfsd4_session := mk_ssession {
  se_ref : Z;
  se_dead : bool;                   (* NFS4_SESSION_DEAD of se_flags *)
  se_client : Z;
  se_sessionid : list byte;
  se_fchannel : nfsd4_channel_attrs;
  se_conns : list Z;                (* transports bound to the session *)
  se_slots : list nfsd4_slot;
}.
#[export] Instance upd_ssession : Updatable nfsd4_session := fun s =>
  mk_ssession (se_ref s) (se_dead s) (se_client s) (se_sessionid s) (se_fchannel s) (se_conns s)
    (se_slots s).

Record nfs4_client := mk_client {
  cl_time : Z;                      (* 0: expired *)
  cl_rpc_users : Z;
  cl_mach_cred : bool;
  cl_cb_state : Z;
  cl_revoked : bool;                (* the list is not empty *)
}.
#[export] Instance upd_client : Updatable nfs4_client := fun c =>
  mk_client (cl_time c) (cl_rpc_users c) (cl_mach_cred c) (cl_cb_state c) (cl_revoked c).

(** Sessions and clients by address; [sessionid_hashtbl] in search order. *)
Record nfsd_net := mk_nn {
  sessionid_hashtbl : list Z;
  nn_sessions : gmap Z nfsd4_session;
  nn_clients : gmap Z nfs4_client;
}.
#[export] Instance upd_nn : Updatable nfsd_net := fun n =>
  mk_nn (sessionid_hashtbl n) (nn_sessions n) (nn_clients n).

Record nfsd4_op := mk_op { opnum : Z; op_status : Z }.

(** The request: its compound, sender and size. *)
Record svc_rqst := mk_rqst {
  rq_cred : svc_cred;
  rq_arg_len : Z;
  rq_xprt : Z;
  rq_auth_slack : Z;
  rq_ops : list nfsd4_op;
}.
Definition opcnt (r : svc_rqst) : Z := zlen (rq_ops r).

Record nfsd4_sequence_u := mk_sequ {
  sq_sessionid : list byte;
  sq_seqid : Z;
  sq_slotid : Z;
  sq_maxslots : Z;
  sq_cachethis : bool;
  sq_status_flags : Z;
}.
#[export] Instance upd_sequ : Updatable nfsd4_sequence_u := fun s =>
  mk_sequ (sq_sessionid s) (sq_seqid s) (sq_slotid s) (sq_maxslots s) (sq_cachethis s) (sq_status_flags s).

(** The reply; [cs_slot] is the session and the slot of [cstate]. *)
Record nfsd4_compoundres := mk_res {
  rs_out : list byte;
  rs_buflen : Z;
  rs_opcnt : Z;
  cs_status : Z;
  cs_slot : option (Z * Z);
  cs_data_offset : Z;
}.
#[export] Instance upd_res : Updatable nfsd4_compoundres := fun r =>
  mk_res (rs_out r) (rs_buflen r) (rs_opcnt r) (cs_status r) (cs_slot r) (cs_data_offset r).

Definition nfsd4_has_session (r : nfsd4_compoundres) : bool :=
  match cs_slot r with Some _ => true | None => false end.

(** ** The reply buffer *)

(** Reserve room for [bytes] and store them; [None] when they do not fit. *)
Definition reply_put (bytes : list byte) (r : nfsd4_compoundres) : option nfsd4_compoundres :=
  if rs_buflen r <? zlen (rs_out r) + zlen bytes then None
  else Some (r <| rs_out := rs_out r ++ bytes |>).

(** [xdr_restrict_buflen]; [None] is its error. *)
Definition reply_restrict (newbuflen : Z) (r : nfsd4_compoundres) : option nfsd4_compoundres :=
  if (newbuflen <? 0) || (newbuflen <? zlen (rs_out r)) then None
  else if rs_buflen r <? newbuflen then Some r
  else Some (r <| rs_buflen := newbuflen |>).

(** ** Sessions and clients *)

Definition is_client_expired (c : nfs4_client) : bool := cl_time c =? 0.

Definition nfsd4_get_session_locked (nn : nfsd_net) (a : Z) : Z * nfsd_net :=
  match nn_sessions nn !! a with
  | None => (nfserr_badsession, nn)
  | Some ses =>
      if se_dead ses then (nfserr_badsession, nn)
      else match nn_clients nn !! se_client ses with
           | None => (nfserr_badsession, nn)
           | Some clp =>
               if is_client_expired clp then (nfserr_expired, nn)
               else (nfs_ok,
                     nn <| nn_clients := <[se_client ses := clp <| cl_rpc_users := cl_rpc_users clp + 1 |>]> (nn_clients nn) |>
                        <| nn_sessions := <[a := ses <| se_ref := se_ref ses + 1 |>]> (nn_sessions nn) |>)
           end
  end.

Fixpoint find_session (l : list Z) (ss : gmap Z nfsd4_session) (sid : list byte) : option Z :=
  match l with
  | [] => None
  | a :: l =>
      match ss !! a with
      | Some ses => if bool_decide (se_sessionid ses = sid) then Some a else find_session l ss sid
      | None => find_session l ss sid
      end
  end.
Definition __find_in_sessionid_hashtbl (nn : nfsd_net) (sid : list byte) : option Z :=
  find_session (sessionid_hashtbl nn) (nn_sessions nn) sid.

Definition find_in_sessionid_hashtbl (nn : nfsd_net) (sid : list byte) : res Z * nfsd_net :=
  match __find_in_sessionid_hashtbl nn sid with
  | None => (Err nfserr_badsession, nn)
  | Some a =>
      let '(status, nn) := nfsd4_get_session_locked nn a in
      (if status =? nfs_ok then Ok a else Err status, nn)
  end.

Definition put_client_renew_locked (now : Z) (nn : nfsd_net) (c : Z) : nfsd_net :=
  match nn_clients nn !! c with
  | None => nn
  | Some clp =>
      let clp := clp <| cl_rpc_users := cl_rpc_users clp - 1 |> in
      let clp := if (cl_rpc_users clp =? 0) && negb (is_client_expired clp)
                 then clp <| cl_time := now |> else clp in
      nn <| nn_clients := <[c := clp]> (nn_clients nn) |>
  end.

Definition nfsd4_put_session_locked (now : Z) (nn : nfsd_net) (a : Z) : nfsd_net :=
  match nn_sessions nn !! a with
  | None => nn
  | Some ses =>
      let ses := ses <| se_ref := se_ref ses - 1 |> in
      let nn := if (se_ref ses =? 0) && se_dead ses
                then nn <| nn_sessions := delete a (nn_sessions nn) |>
                else nn <| nn_sessions := <[a := ses]> (nn_sessions nn) |> in
      put_client_renew_locked now nn (se_client ses)
  end.

(** ** Credentials *)

Definition is_gss_cred (c : svc_cred) : bool := RPC_AUTH_MAXFLAVOR <? cr_flavor c.
Definition groups_equal (g1 g2 : list Z) : bool := bool_decide (g1 = g2).

Definition same_creds (c1 c2 : svc_cred) : bool :=
  if negb (eqb (is_gss_cred c1) (is_gss_cred c2)) || negb (cr_uid c1 =? cr_uid c2)
     || negb (cr_gid c1 =? cr_gid c2) || negb (groups_equal (cr_group_info c1) (cr_group_info c2))
  then false
  else match cr_principal c1, cr_principal c2 with
       | None, None => true
       | Some p1, Some p2 => bool_decide (p1 = p2)
       | _, _ => false
       end.

Definition init_svc_cred : svc_cred := mk_cred 0 0 [] 0 None None None.
Definition kstrdup (ok : bool) (s : option (list byte)) : option (list byte) := if ok then s else None.
Definition missing (s d : option (list byte)) : bool :=
  match s, d with Some _, None => true | _, _ => false end.

(** [copy_cred] into a cleared target; [oks] are the outcomes of the allocations. *)
Definition copy_cred (oks : bool * bool * bool) (s : svc_cred) : svc_cred :=
  let '(ok1, ok2, ok3) := oks in
  let p := kstrdup ok1 (cr_principal s) in
  let r := kstrdup ok2 (cr_raw_principal s) in
  let t := kstrdup ok3 (cr_targ_princ s) in
  if missing (cr_principal s) p || missing (cr_raw_principal s) r || missing (cr_targ_princ s) t
  then mk_cred (cr_uid init_svc_cred) (cr_gid init_svc_cred) (cr_group_info init_svc_cred)
         (cr_flavor init_svc_cred) r p t
  else mk_cred (cr_uid s) (cr_gid s) (cr_group_info s) (cr_flavor s) r p t.

(** ** Encoding operations *)

Definition nfsd4_last_compound_op (rq : svc_rqst) (r : nfsd4_compoundres) : bool := opcnt rq =? rs_opcnt r.

(** [cachethis]: the flag of the slot in [cs_slot]. *)
Definition nfsd4_check_resp_size (cachethis : bool) (r : nfsd4_compoundres) (respsize : Z) : Z :=
  if zlen (rs_out r) + respsize <=? rs_buflen r then nfs_ok
  else if negb (nfsd4_has_session r) then nfserr_resource
  else if cachethis then nfserr_rep_too_big_to_cache else nfserr_rep_too_big.

(** [nfsd4_encode_operation] for an operation whose body [encoder] writes; the
    operation has no replay owner (those are NFSv4.0 only), and [plain_err] says
    that an error is encoded without a body.  The status word is written last. *)
Definition nfsd4_encode_operation (rq : svc_rqst) (cachethis : bool)
    (encoder : nfsd4_compoundres -> Z -> Z * nfsd4_compoundres) (plain_err : bool)
    (op : nfsd4_op) (r : nfsd4_compoundres) : nfsd4_op * nfsd4_compoundres :=
  match reply_put (be32 (opnum op) ++ be32 0) r with
  | None => (op, r)
  | Some r =>
      let post_err_offset := zlen (rs_out r) in
      let '(st, r) :=
        if (opnum op =? OP_ILLEGAL) || (negb (op_status op =? 0) && plain_err) then (op_status op, r)
        else
          let '(st, r) := encoder r (op_status op) in
          let st := if st =? 0
                    then nfsd4_check_resp_size cachethis r
                           (if nfsd4_last_compound_op rq r then 0 else COMPOUND_ERR_SLACK_SPACE)
                    else st in
          let st := if (st =? nfserr_resource) && nfsd4_has_session r
                    then if cachethis then nfserr_rep_too_big_to_cache else nfserr_rep_too_big
                    else st in
          if (st =? nfserr_resource) || (st =? nfserr_rep_too_big) || (st =? nfserr_rep_too_big_to_cache)
          then (st, r <| rs_out := ztake post_err_offset (rs_out r) |>) else (st, r) in
      (mk_op (opnum op) st, r <| rs_out := zwrite (post_err_offset - 4) (be32 st) (rs_out r) |>)
  end.

Definition nfsd4_encode_sequence (seq : nfsd4_sequence_u) (r : nfsd4_compoundres) (nfserr : Z)
    : Z * nfsd4_compoundres :=
  match reply_put (sq_sessionid seq ++ be32 (sq_seqid seq) ++ be32 (sq_slotid seq) ++
                   be32 (u32 (sq_maxslots seq - 1)) ++ be32 (u32 (sq_maxslots seq - 1)) ++
                   be32 (sq_status_flags seq)) r with
  | None => (nfserr_resource, r)
  | Some r => (0, r <| cs_data_offset := zlen (rs_out r) |>)
  end.

(** ** Slots *)

Definition check_slot_seqid (seqid slot_seqid : Z) (slot_inuse : bool) : Z :=
  if slot_inuse then if seqid =? slot_seqid then nfserr_jukebox else nfserr_seq_misordered
  else if seqid =? u32 (slot_seqid + 1) then nfs_ok
  else if seqid =? slot_seqid then nfserr_replay_cache
  else nfserr_seq_misordered.

Definition slot_bytes (ca : nfsd4_channel_attrs) : Z :=
  if maxresp_cached ca <? NFSD_MIN_HDR_SEQ_SZ then 0 else maxresp_cached ca - NFSD_MIN_HDR_SEQ_SZ.

(** The memory for reply caches: [nfsd_drc_max_mem] and [nfsd_drc_mem_used]; the
    size of [struct nfsd4_slot] itself, and the number of server threads. *)
Record drc := mk_drc { drc_max_mem : Z; drc_mem_used : Z }.
Record drc_env := mk_drcenv { sizeof_slot : Z; sv_nrthreads : Z; sv_max_mesg : Z }.

Definition nfsd4_get_drc_mem (e : drc_env) (d : drc) (ca : nfsd4_channel_attrs) : Z * drc :=
  let slotsize := slot_bytes ca + sizeof_slot e in
  let total_avail := if drc_mem_used d <? drc_max_mem d then drc_max_mem d - drc_mem_used d else 0 in
  let avail := Z.min NFSD_MAX_MEM_PER_SESSION total_avail in
  let scale_factor := Z.max 8 (sv_nrthreads e) in
  let avail := Z.min (Z.max avail slotsize) (total_avail / scale_factor) in
  let num := Z.max (Z.min (maxreqs ca) (avail / slotsize)) 1 in
  (num, mk_drc (drc_max_mem d) (drc_mem_used d + num * slotsize)).

Definition nfsd4_put_drc_mem (e : drc_env) (d : drc) (ca : nfsd4_channel_attrs) : drc :=
  mk_drc (drc_max_mem d) (drc_mem_used d - (slot_bytes ca + sizeof_slot e) * maxreqs ca).

Definition check_forechannel_attrs (e : drc_env) (d : drc) (ca : nfsd4_channel_attrs)
    : Z * (nfsd4_channel_attrs * drc) :=
  if maxreq_sz ca <? NFSD_MIN_REQ_HDR_SEQ_SZ then (nfserr_toosmall, (ca, d))
  else if maxresp_sz ca <? NFSD_MIN_RESP_HDR_SEQ_SZ then (nfserr_toosmall, (ca, d))
  else
    let ca := mk_chan (Z.min (maxreq_sz ca) (sv_max_mesg e)) (Z.min (maxresp_sz ca) (sv_max_mesg e))
                (Z.min (maxresp_cached ca) (NFSD_SLOT_CACHE_SIZE + NFSD_MIN_HDR_SEQ_SZ))
                (Z.min (maxops ca) NFSD_MAX_OPS_PER_COMPOUND)
                (Z.min (maxreqs ca) NFSD_MAX_SLOTS_PER_SESSION) in
    let '(num, d) := nfsd4_get_drc_mem e d ca in
    (nfs_ok, (mk_chan (maxreq_sz ca) (maxresp_sz ca) (maxresp_cached ca) (maxops ca) num, d)).

(** A zeroed slot with [size] bytes for its data. *)
Definition zero_slot (size : Z) : nfsd4_slot :=
  mk_sslot 0 0 init_svc_cred 0 0 false false false false [] size.

(** [alloc_session]: [maxreqs] zeroed slots; [None] when memory runs out. *)
Definition alloc_session (ok : bool) (fattrs : nfsd4_channel_attrs) : option nfsd4_session :=
  if ok then
    Some (mk_ssession 0 false 0 [] fattrs [] (replicate (Z.to_nat (maxreqs fattrs)) (zero_slot (slot_bytes fattrs))))
  else None.

Definition nfsd4_is_solo_sequence (rq : svc_rqst) (r : nfsd4_compoundres) : bool :=
  (rs_opcnt r =? 1) && match rq_ops rq with op :: _ => opnum op =? OP_SEQUENCE | [] => false end.

Definition nfsd4_cache_this (rq : svc_rqst) (r : nfsd4_compoundres) (slot : nfsd4_slot) : bool :=
  sl_cachethis slot || nfsd4_is_solo_sequence rq r.

(** [read_bytes_from_xdr_buf]: nothing is copied when the range is not inside. *)
Definition read_reply (out : list byte) (base len : Z) : option (list byte) :=
  if (0 <=? base) && (base + len <=? zlen out) then Some (ztake len (zdrop base out)) else None.

Definition nfsd4_store_cache_entry (oks : bool * bool * bool) (rq : svc_rqst) (r : nfsd4_compoundres)
    (slot : nfsd4_slot) : nfsd4_slot :=
  let slot := slot <| sl_initialized := true |> <| sl_opcnt := u16 (rs_opcnt r) |>
                   <| sl_status := cs_status r |> <| sl_cred := copy_cred oks (rq_cred rq) |> in
  if negb (nfsd4_cache_this rq r slot) then slot <| sl_cached := false |>
  else
    let base := cs_data_offset r in
    let len := u32 (zlen (rs_out r) - base) in
    let slot := slot <| sl_cached := true |> <| sl_datalen := len |> in
    match read_reply (rs_out r) base len with
    | Some d => slot <| sl_data := d |>
    | None => slot
    end.

Definition replay_matches_cache (rq : svc_rqst) (seq : nfsd4_sequence_u) (slot : nfsd4_slot) : bool :=
  if negb (eqb (sl_cachethis slot) (sq_cachethis seq)) then false
  else if (sl_opcnt slot <? opcnt rq) && (sl_status slot =? 0) then false
  else if opcnt rq <? sl_opcnt slot then false
  else same_creds (rq_cred rq) (sl_cred slot).

Definition encode_seq_op (rq : svc_rqst) (cachethis : bool) (seq : nfsd4_sequence_u)
    (op : nfsd4_op) (r : nfsd4_compoundres) : nfsd4_op * nfsd4_compoundres :=
  nfsd4_encode_operation rq cachethis (nfsd4_encode_sequence seq) true op r.

(** The operation table: how the body of an operation is encoded
    ([nfsd4_enc_ops]) and whether an error is encoded without it (no
    [OP_NONTRIVIAL_ERROR_ENCODE]). *)
Record op_table := mk_optab {
  op_encoder : Z -> nfsd4_compoundres -> Z -> Z * nfsd4_compoundres;
  op_plain_err : Z -> bool;
}.

(** The SEQUENCE result of a replay, and, when the reply was not cached, the
    error that says so on the next operation. *)
Definition nfsd4_enc_sequence_replay (ot : op_table) (rq : svc_rqst) (slot : nfsd4_slot) (seq : nfsd4_sequence_u)
    (r : nfsd4_compoundres) : Z * nfsd4_compoundres :=
  match rq_ops rq !! Z.to_nat (rs_opcnt r - 1) with
  | None => (nfserr_serverfault, r)
  | Some op =>
      let '(op, r) := encode_seq_op rq (sl_cachethis slot) seq op r in
      if sl_cached slot then (op_status op, r)
      else if opcnt rq =? 1 then (nfserr_seq_false_retry, r)
      else
        match rq_ops rq !! Z.to_nat (rs_opcnt r) with
        | None => (nfserr_serverfault, r)
        | Some op2 =>
            let r := r <| rs_opcnt := rs_opcnt r + 1 |> in
            let '(op2, r) := nfsd4_encode_operation rq (sl_cachethis slot) (op_encoder ot (opnum op2))
                               (op_plain_err ot (opnum op2)) (mk_op (opnum op2) nfserr_retry_uncached_rep) r in
            (op_status op2, r)
        end
  end.

Definition nfsd4_replay_cache_entry (ot : op_table) (rq : svc_rqst) (slot : nfsd4_slot) (seq : nfsd4_sequence_u)
    (r : nfsd4_compoundres) : Z * nfsd4_compoundres :=
  let '(status, r) := nfsd4_enc_sequence_replay ot rq slot seq r in
  if negb (status =? 0) then (status, r)
  else if rs_buflen r <? zlen (rs_out r) + sl_datalen slot then (nfserr_serverfault, r)
  else (sl_status slot, r <| rs_out := rs_out r ++ ztake (sl_datalen slot) (sl_data slot) |>
                          <| rs_opcnt := sl_opcnt slot |>).

Definition set_slot (nn : nfsd_net) (a i : Z) (f : nfsd4_slot -> nfsd4_slot) : nfsd_net :=
  nn <| nn_sessions := alter (fun s => s <| se_slots := alter f (Z.to_nat i) (se_slots s) |>) a (nn_sessions nn) |>.

(** [reg_ok]: whether the transport is still up when the connection is registered. *)
Definition nfsd4_sequence_check_conn (reg_ok : bool) (nn : nfsd_net) (xprt a : Z) : Z * nfsd_net :=
  match nn_sessions nn !! a with
  | None => (nfs_ok, nn)
  | Some ses =>
      if bool_decide (xprt ∈ se_conns ses) then (nfs_ok, nn)
      else if match nn_clients nn !! se_client ses with Some c => cl_mach_cred c | None => false end
      then (nfserr_conn_not_bound_to_session, nn)
      else if reg_ok
      then (nfs_ok, nn <| nn_sessions := <[a := ses <| se_conns := xprt :: se_conns ses |>]> (nn_sessions nn) |>)
      else (nfs_ok, nn)
  end.

(** [sv_now], [sv_conn], [sv_reg]: the time, and the outcomes of allocating and
    of registering the connection; [sv_ops]: the operation table. *)
Record seq_env := mk_senv { sv_now : Z; sv_conn : bool; sv_reg : bool; sv_ops : op_table }.

Definition status_flags (nn : nfsd_net) (c : Z) : Z :=
  match nn_clients nn !! c with
  | None => 0
  | Some clp =>
      let f := if cl_cb_state clp =? NFSD4_CB_DOWN then SEQ4_STATUS_CB_PATH_DOWN
               else if cl_cb_state clp =? NFSD4_CB_FAULT then SEQ4_STATUS_BACKCHANNEL_FAULT else 0 in
      if cl_revoked clp then Z.lor f SEQ4_STATUS_RECALLABLE_STATE_REVOKED else f
  end.

Definition nfsd4_sequence (e : seq_env) (nn : nfsd_net) (rq : svc_rqst) (seq : nfsd4_sequence_u)
    (r : nfsd4_compoundres) : Z * (nfsd_net * nfsd4_sequence_u * nfsd4_compoundres) :=
  if negb (rs_opcnt r =? 1) then (nfserr_sequence_pos, (nn, seq, r))
  else if negb (sv_conn e) then (nfserr_jukebox, (nn, seq, r))
  else
    match find_in_sessionid_hashtbl nn (sq_sessionid seq) with
    | (Err status, nn) => (status, (nn, seq, r))
    | (Ok a, nn) =>
        match nn_sessions nn !! a with
        | None => (nfserr_badsession, (nn, seq, r))
        | Some session =>
            let fc := se_fchannel session in
            let out_put_session st nn seq r := (st, (nfsd4_put_session_locked (sv_now e) nn a, seq, r)) in
            let out st nn seq r :=
              (st, (nn, seq <| sq_status_flags := status_flags nn (se_client session) |>, r)) in
            if maxops fc <? opcnt rq then out_put_session nfserr_too_many_ops nn seq r
            else if maxreq_sz fc <? rq_arg_len rq then out_put_session nfserr_req_too_big nn seq r
            else if maxreqs fc <=? sq_slotid seq then out_put_session nfserr_badslot nn seq r
            else
              match se_slots session !! Z.to_nat (sq_slotid seq) with
              | None => out_put_session nfserr_badslot nn seq r
              | Some slot =>
                  let seq := seq <| sq_maxslots := maxreqs fc |> in
                  let status := check_slot_seqid (sq_seqid seq) (sl_seqid slot) (sl_inuse slot) in
                  if status =? nfserr_replay_cache then
                    if negb (sl_initialized slot) then out_put_session nfserr_seq_misordered nn seq r
                    else if negb (replay_matches_cache rq seq slot)
                    then out_put_session nfserr_seq_false_retry nn seq r
                    else
                      let r := r <| cs_slot := Some (a, sq_slotid seq) |> in
                      let '(status, r) := nfsd4_replay_cache_entry (sv_ops e) rq slot seq r in
                      out status nn seq (r <| cs_status := nfserr_replay_cache |>)
                  else if negb (status =? nfs_ok) then out_put_session status nn seq r
                  else
                    let '(status, nn) := nfsd4_sequence_check_conn (sv_reg e) nn (rq_xprt rq) a in
                    if negb (status =? nfs_ok) then out_put_session status nn seq r
                    else
                      let buflen := if sq_cachethis seq then maxresp_cached fc else maxresp_sz fc in
                      match reply_restrict (buflen - rq_auth_slack rq) r with
                      | None =>
                          out_put_session (if sq_cachethis seq then nfserr_rep_too_big_to_cache
                                           else nfserr_rep_too_big) nn seq r
                      | Some r =>
                          let nn := set_slot nn a (sq_slotid seq) (fun s =>
                            s <| sl_seqid := sq_seqid seq |> <| sl_inuse := true |>
                              <| sl_cachethis := sq_cachethis seq |>) in
                          out nfs_ok nn seq (r <| cs_slot := Some (a, sq_slotid seq) |>)
                      end
              end
        end
    end.

Definition nfsd4_sequence_done (now : Z) (oks : bool * bool * bool) (nn : nfsd_net) (rq : svc_rqst)
    (r : nfsd4_compoundres) : nfsd_net :=
  match cs_slot r with
  | None => nn
  | Some (a, i) =>
      let nn := if negb (cs_status r =? nfserr_replay_cache)
                then set_slot nn a i (fun s => (nfsd4_store_cache_entry oks rq r s) <| sl_inuse := false |>)
                else nn in
      nfsd4_put_session_locked now nn a
  end.
