(* ===== verification/SeqServerTheorems.v ===== *)
(** * NFSv4.1 sessions: the server's slots and reply cache

    What a request does to its slot, on every branch of [nfsd4_sequence]; that a
    retransmission is answered with the stored reply; and how much room the
    stored reply takes. *)

From S2P Require Import Prelude Xdr SeqServer.
From stdpp Require Import list gmap.
#[local] Open Scope Z_scope.

(** ** A live session *)

(** Session [a] can be found under [sid] and used over the transport [x]. *)
Record live (nn : nfsd_net) (sid : list byte) (a : Z) (fc : nfsd4_channel_attrs) (x : Z) : Prop := {
  lv_find : __find_in_sessionid_hashtbl nn sid = Some a;
  lv_session : exists ses, nn_sessions nn !! a = Some ses /\ se_dead ses = false /\ se_fchannel ses = fc /\
    x ∈ se_conns ses /\ se_sessionid ses = sid /\
    exists clp, nn_clients nn !! se_client ses = Some clp /\ cl_time clp <> 0;
}.

Definition slot_at (nn : nfsd_net) (a i : Z) : option nfsd4_slot :=
  nn_sessions nn !! a ≫= fun s => se_slots s !! Z.to_nat i.

Lemma find_session_insert l ss a ses ses' sid :
  ss !! a = Some ses -> se_sessionid ses' = se_sessionid ses ->
  find_session l (<[a := ses']> ss) sid = find_session l ss sid.
Proof.
  intros H E. induction l as [|b l IH]; [done|]. simpl. destruct (decide (b = a)) as [->|Ne].
  - rewrite lookup_insert_eq, H, E, IH. done.
  - rewrite lookup_insert_ne by done. by rewrite IH.
Qed.

(** Updating the session and its client without touching what makes it live. *)
Lemma live_update nn sid a fc x ses ses' clients :
  live nn sid a fc x -> nn_sessions nn !! a = Some ses ->
  se_sessionid ses' = se_sessionid ses -> se_dead ses' = se_dead ses -> se_fchannel ses' = se_fchannel ses ->
  se_client ses' = se_client ses -> (x ∈ se_conns ses -> x ∈ se_conns ses') ->
  (forall clp, nn_clients nn !! se_client ses = Some clp -> cl_time clp <> 0 ->
     exists clp', clients !! se_client ses = Some clp' /\ cl_time clp' <> 0) ->
  live (mk_nn (sessionid_hashtbl nn) (<[a := ses']> (nn_sessions nn)) clients) sid a fc x.
Proof.
  intros [F (s0 & H0 & D & C & X & I & clp & K & T)] H E1 E2 E3 E4 E5 E6. assert (s0 = ses) as -> by congruence.
  split.
  - unfold __find_in_sessionid_hashtbl in *. simpl. by rewrite (find_session_insert _ _ a ses).
  - exists ses'. simpl. rewrite lookup_insert_eq. split_and!; try congruence; [by apply E5|].
    rewrite E4. by destruct (E6 clp K T) as (clp' & ? & ?); exists clp'.
Qed.

Lemma get_live nn sid a fc x i :
  live nn sid a fc x ->
  exists nn', find_in_sessionid_hashtbl nn sid = (Ok a, nn') /\ live nn' sid a fc x /\ slot_at nn' a i = slot_at nn a i.
Proof.
  intros L. pose proof L as [F (ses & H & D & C & X & I & clp & K & T)].
  unfold find_in_sessionid_hashtbl. rewrite F. unfold nfsd4_get_session_locked. rewrite H, D, K.
  unfold is_client_expired. rewrite (proj2 (Z.eqb_neq _ _) T).
  eexists. split; [reflexivity|]. split.
  - apply (live_update nn sid a fc x ses); try done. intros c' Hc' Tc'. assert (c' = clp) as -> by congruence.
    simpl. rewrite lookup_insert_eq. eexists. split; [reflexivity|done].
  - unfold slot_at. simpl. by rewrite lookup_insert_eq, H.
Qed.

Lemma put_live now nn sid a fc x i :
  now <> 0 -> live nn sid a fc x ->
  live (nfsd4_put_session_locked now nn a) sid a fc x /\
  slot_at (nfsd4_put_session_locked now nn a) a i = slot_at nn a i.
Proof.
  intros Hn L. pose proof L as [F (ses & H & D & C & X & I & clp & K & T)].
  unfold nfsd4_put_session_locked. rewrite H. simpl. rewrite D, andb_false_r.
  unfold put_client_renew_locked. simpl. rewrite K. split.
  - apply (live_update nn sid a fc x ses); try done. intros c' Hc' Tc'.
    rewrite lookup_insert_eq. eexists. split; [reflexivity|]. destruct (_ && _); [exact Hn|].
    by assert (c' = clp) as -> by congruence.
  - unfold slot_at. simpl. by rewrite lookup_insert_eq, H.
Qed.

Lemma set_slot_live nn sid a fc x i f :
  live nn sid a fc x ->
  live (set_slot nn a i f) sid a fc x /\ slot_at (set_slot nn a i f) a i = f <$> slot_at nn a i.
Proof.
  intros L. pose proof L as [F (ses & H & D & C & X & I & clp & K & T)].
  unfold set_slot, field_upd. simpl. split.
  - replace (alter _ a (nn_sessions nn)) with
      (<[a := ses <| se_slots := alter f (Z.to_nat i) (se_slots ses) |>]> (nn_sessions nn)).
    + apply (live_update nn sid a fc x ses); try done. eauto.
    + apply map_eq. intros b. destruct (decide (b = a)) as [->|].
      * by rewrite lookup_insert_eq, lookup_alter_eq, H.
      * by rewrite lookup_insert_ne, lookup_alter_ne.
  - unfold slot_at. simpl. rewrite lookup_alter_eq, H. simpl. by rewrite list_lookup_alter_eq.
Qed.

(** ** One request on a live session *)

(** The request is within the session's limits. *)
Record in_limits (fc : nfsd4_channel_attrs) (rq : svc_rqst) (seq : nfsd4_sequence_u) : Prop := {
  il_ops : opcnt rq <= maxops fc;
  il_size : rq_arg_len rq <= maxreq_sz fc;
  il_slot : 0 <= sq_slotid seq < maxreqs fc;
}.

(** The slot once the server runs the request. *)
Definition taken (seq : nfsd4_sequence_u) (s : nfsd4_slot) : nfsd4_slot :=
  s <| sl_seqid := sq_seqid seq |> <| sl_inuse := true |> <| sl_cachethis := sq_cachethis seq |>.

Definition reply_limit (fc : nfsd4_channel_attrs) (rq : svc_rqst) (seq : nfsd4_sequence_u) : Z :=
  (if sq_cachethis seq then maxresp_cached fc else maxresp_sz fc) - rq_auth_slack rq.

Section Request.
  Context (nn : nfsd_net) (sid : list byte) (a : Z) (fc : nfsd4_channel_attrs) (slot : nfsd4_slot).
  Context (e : seq_env) (rq : svc_rqst) (seq : nfsd4_sequence_u) (r : nfsd4_compoundres).
  Context (L : live nn sid a fc (rq_xprt rq)) (Hs : slot_at nn a (sq_slotid seq) = Some slot).
  Context (Hid : sq_sessionid seq = sid) (Hl : in_limits fc rq seq).
  Context (Hc : sv_conn e = true) (Hn : sv_now e <> 0) (Ho : rs_opcnt r = 1).

Abbreviation i := (sq_slotid seq).
Abbreviation check := (check_slot_seqid (sq_seqid seq) (sl_seqid slot) (sl_inuse slot)).

(** Where every request gets to. *)
Lemma sequence_slot :
  exists nn1, live nn1 sid a fc (rq_xprt rq) /\ slot_at nn1 a i = Some slot /\
  let seq1 := seq <| sq_maxslots := maxreqs fc |> in
  exists c, nfsd4_sequence e nn rq seq r =
    (let out st nn seq r := (st, (nn, seq <| sq_status_flags := status_flags nn c |>, r)) in
     let out_put_session st nn seq r := (st, (nfsd4_put_session_locked (sv_now e) nn a, seq, r)) in
     if check =? nfserr_replay_cache then
       if negb (sl_initialized slot) then out_put_session nfserr_seq_misordered nn1 seq1 r
       else if negb (replay_matches_cache rq seq1 slot) then out_put_session nfserr_seq_false_retry nn1 seq1 r
       else
         let '(status, r) := nfsd4_replay_cache_entry (sv_ops e) rq slot seq1 (r <| cs_slot := Some (a, i) |>) in
         out status nn1 seq1 (r <| cs_status := nfserr_replay_cache |>)
     else if negb (check =? nfs_ok) then out_put_session check nn1 seq1 r
     else
       match reply_restrict (reply_limit fc rq seq) r with
       | None => out_put_session (if sq_cachethis seq then nfserr_rep_too_big_to_cache else nfserr_rep_too_big)
                   nn1 seq1 r
       | Some r => out nfs_ok (set_slot nn1 a i (taken seq)) seq1 (r <| cs_slot := Some (a, i) |>)
       end).
Proof.
  destruct (get_live nn sid a fc _ i L) as (nn1 & E & L1 & S1). exists nn1. rewrite S1. split_and!; [done..|].
  pose proof L1 as [_ (ses & H & D & C & X & I & clp & K & T)]. exists (se_client ses).
  unfold nfsd4_sequence. rewrite Ho, Hc, Hid, E, H, C. destruct Hl as [B1 B2 B3].
  rewrite (proj2 (Z.ltb_ge _ _) B1), (proj2 (Z.ltb_ge _ _) B2), (proj2 (Z.leb_gt _ _)) by lia.
  rewrite <- S1 in Hs. unfold slot_at in Hs. rewrite H in Hs. simpl in Hs. rewrite Hs. cbv zeta.
  change (sq_seqid (seq <| sq_maxslots := _ |>)) with (sq_seqid seq).
  change (sq_cachethis (seq <| sq_maxslots := _ |>)) with (sq_cachethis seq).
  change (sq_slotid (seq <| sq_maxslots := _ |>)) with (sq_slotid seq).
  destruct (check =? nfserr_replay_cache); [done|]. destruct (negb (check =? nfs_ok)); [done|].
  unfold nfsd4_sequence_check_conn. rewrite H, bool_decide_eq_true_2 by done.
  change (negb (nfs_ok =? nfs_ok)) with false. cbv iota. done.
Qed.

(** A request that is neither next nor last is refused. *)
Lemma sequence_refused :
  check <> nfs_ok -> check <> nfserr_replay_cache ->
  exists nn' seq', nfsd4_sequence e nn rq seq r = (check, (nn', seq', r)) /\
    live nn' sid a fc (rq_xprt rq) /\ slot_at nn' a i = Some slot.
Proof.
  intros H1 H2. destruct sequence_slot as (nn1 & L1 & S1 & c & E). rewrite E. cbv zeta.
  rewrite (proj2 (Z.eqb_neq _ _) H2), (proj2 (Z.eqb_neq _ _) H1). simpl.
  destruct (put_live (sv_now e) nn1 sid a fc _ i Hn L1) as [L2 S2]. rewrite S1 in S2.
  eexists _, _. done.
Qed.

(** The next request takes the slot. *)
Lemma sequence_fresh r1 :
  check = nfs_ok -> reply_restrict (reply_limit fc rq seq) r = Some r1 ->
  exists nn' seq', nfsd4_sequence e nn rq seq r = (nfs_ok, (nn', seq', r1 <| cs_slot := Some (a, i) |>)) /\
    live nn' sid a fc (rq_xprt rq) /\ slot_at nn' a i = Some (taken seq slot) /\
    sq_sessionid seq' = sq_sessionid seq /\ sq_seqid seq' = sq_seqid seq /\ sq_slotid seq' = sq_slotid seq.
Proof.
  intros H1 Hr. destruct sequence_slot as (nn1 & L1 & S1 & c & E). rewrite E. cbv zeta. rewrite H1, Hr.
  change (nfs_ok =? nfserr_replay_cache) with false. change (nfs_ok =? nfs_ok) with true. simpl.
  destruct (set_slot_live nn1 sid a fc _ i (taken seq) L1) as [L2 S2]. rewrite S1 in S2.
  eexists _, _. split_and!; done.
Qed.

(** A retransmission that matches the stored reply. *)
Lemma sequence_replayed :
  check = nfserr_replay_cache -> sl_initialized slot = true ->
  replay_matches_cache rq seq slot = true ->
  exists nn' seq' seq1, let '(status, r') := nfsd4_replay_cache_entry (sv_ops e) rq slot seq1 (r <| cs_slot := Some (a, i) |>) in
    nfsd4_sequence e nn rq seq r = (status, (nn', seq', r' <| cs_status := nfserr_replay_cache |>)) /\
    live nn' sid a fc (rq_xprt rq) /\ slot_at nn' a i = Some slot /\
    sq_sessionid seq1 = sq_sessionid seq /\ sq_seqid seq1 = sq_seqid seq /\ sq_slotid seq1 = sq_slotid seq.
Proof.
  intros H1 Hi Hm. destruct sequence_slot as (nn1 & L1 & S1 & c & E). rewrite E. cbv zeta. rewrite H1, Hi.
  change (nfserr_replay_cache =? nfserr_replay_cache) with true.
  change (replay_matches_cache rq (seq <| sq_maxslots := _ |>) slot) with (replay_matches_cache rq seq slot). rewrite Hm.
  simpl. exists nn1. destruct (nfsd4_replay_cache_entry _ _ _ (seq <| sq_maxslots := _ |>) _) as [st r'] eqn:F.
  eexists _, (seq <| sq_maxslots := maxreqs fc |>). rewrite F. split_and!; done.
Qed.
End Request.

(** ** The stored reply *)

Lemma zwrite_middle {A} (a b b' c : list A) : zlen b = zlen b' -> zwrite (zlen a) b (a ++ b' ++ c) = a ++ b ++ c.
Proof.
  intros H. unfold zwrite. rewrite ztake_app_exact by done. do 2 f_equal.
  rewrite zdrop_app_ge by (rewrite H; pose proof (zlen_nonneg b'); lia). rewrite H.
  apply zdrop_app_exact. lia.
Qed.

(** The bytes of a successful SEQUENCE result. *)
Definition seq_result (seq : nfsd4_sequence_u) : list byte :=
  sq_sessionid seq ++ be32 (sq_seqid seq) ++ be32 (sq_slotid seq) ++
  be32 (u32 (sq_maxslots seq - 1)) ++ be32 (u32 (sq_maxslots seq - 1)) ++ be32 (sq_status_flags seq).
Definition seq_op_bytes (seq : nfsd4_sequence_u) : list byte :=
  be32 OP_SEQUENCE ++ be32 0 ++ seq_result seq.

Lemma zlen_seq_result seq : zlen (sq_sessionid seq) = NFS4_MAX_SESSIONID_LEN -> zlen (seq_result seq) = 36.
Proof. intros H. unfold seq_result. rewrite !zlen_app, !zlen_be32, H. done. Qed.

Definition seq_slack (rq : svc_rqst) (r : nfsd4_compoundres) : Z :=
  if nfsd4_last_compound_op rq r then 0 else COMPOUND_ERR_SLACK_SPACE.

Lemma encode_seq_op_eq rq ct seq r :
  zlen (sq_sessionid seq) = NFS4_MAX_SESSIONID_LEN ->
  zlen (rs_out r) + 44 + seq_slack rq r <= rs_buflen r ->
  encode_seq_op rq ct seq (mk_op OP_SEQUENCE 0) r =
  (mk_op OP_SEQUENCE 0, r <| rs_out := rs_out r ++ seq_op_bytes seq |> <| cs_data_offset := zlen (rs_out r) + 44 |>).
Proof.
  intros Hs Hb. pose proof (zlen_seq_result seq Hs) as Hl. set (out := rs_out r) in *.
  assert (0 <= seq_slack rq r) as Hp.
  { unfold seq_slack, COMPOUND_ERR_SLACK_SPACE. destruct (nfsd4_last_compound_op rq r); lia. }
  unfold encode_seq_op, nfsd4_encode_operation, reply_put. cbn [opnum op_status].
  remember (be32 OP_SEQUENCE ++ be32 0) as hd eqn:Eh.
  assert (zlen hd = 8) as H8 by (rewrite Eh, zlen_app, !zlen_be32; done). fold out.
  rewrite (proj2 (Z.ltb_ge _ _)) by lia.
  change (OP_SEQUENCE =? OP_ILLEGAL) with false. cbn [orb andb negb Z.eqb].
  unfold nfsd4_encode_sequence, reply_put. fold (seq_result seq). simpl rs_out. simpl rs_buflen. fold out.
  rewrite !zlen_app, Hl, H8, (proj2 (Z.ltb_ge _ _)) by lia. cbn [Z.eqb].
  unfold nfsd4_check_resp_size, nfsd4_last_compound_op. simpl rs_out. simpl rs_buflen. simpl rs_opcnt. fold out.
  rewrite !zlen_app, Hl, H8. unfold seq_slack, nfsd4_last_compound_op in Hb.
  rewrite (proj2 (Z.leb_le _ _)) by (destruct (opcnt rq =? rs_opcnt r); unfold COMPOUND_ERR_SLACK_SPACE in *; lia).
  change (nfs_ok =? nfserr_resource) with false. cbn [andb orb].
  change (nfs_ok =? nfserr_rep_too_big) with false. change (nfs_ok =? nfserr_rep_too_big_to_cache) with false.
  cbn [orb]. unfold field_upd. simpl. fold out. f_equal. f_equal; [|lia]. subst hd.
  unfold seq_op_bytes. replace (zlen out + 8 - 4) with (zlen (out ++ be32 OP_SEQUENCE)) by (rewrite zlen_app, zlen_be32; lia).
  rewrite <- !app_assoc, (app_assoc out). by rewrite zwrite_middle.
Qed.

(** Storing a reply whose SEQUENCE result ends at [cs_data_offset]. *)
Lemma store_cached oks rq r slot pre body :
  rs_out r = pre ++ body -> cs_data_offset r = zlen pre -> zlen body < 2 ^ 32 ->
  nfsd4_cache_this rq r slot = true ->
  let s := nfsd4_store_cache_entry oks rq r slot in
  sl_cached s = true /\ sl_initialized s = true /\ sl_data s = body /\ sl_datalen s = zlen body /\
  sl_status s = cs_status r /\ sl_opcnt s = u16 (rs_opcnt r) /\ sl_seqid s = sl_seqid slot /\
  sl_cachethis s = sl_cachethis slot /\ sl_cred s = copy_cred oks (rq_cred rq) /\ sl_size s = sl_size slot.
Proof.
  intros E Eo Hb Hc s. unfold s, nfsd4_store_cache_entry.
  change (nfsd4_cache_this rq r (slot <| sl_initialized := _ |> <| sl_opcnt := _ |> <| sl_status := _ |> <| sl_cred := _ |>))
    with (nfsd4_cache_this rq r slot). rewrite Hc. cbn [negb].
  rewrite E, Eo, zlen_app. replace (zlen pre + zlen body - zlen pre) with (zlen body) by lia.
  pose proof (zlen_nonneg body). pose proof (zlen_nonneg pre). rewrite u32_id by (unfold is_u32; lia).
  unfold read_reply. rewrite zlen_app, (proj2 (Z.leb_le 0 _)), (proj2 (Z.leb_le _ _)) by lia. cbn [andb].
  rewrite zdrop_app_exact by done. rewrite ztake_all by lia. by split_and!.
Qed.

(** A retransmission is answered with the stored operations, whatever the header
    of the new reply is. *)
Lemma replay_entry ot rq slot seq r ops :
  rq_ops rq = mk_op OP_SEQUENCE 0 :: ops -> rs_opcnt r = 1 ->
  zlen (sq_sessionid seq) = NFS4_MAX_SESSIONID_LEN -> sl_cached slot = true ->
  sl_datalen slot = zlen (sl_data slot) ->
  zlen (rs_out r) + 44 + Z.max (seq_slack rq r) (zlen (sl_data slot)) <= rs_buflen r ->
  exists r', nfsd4_replay_cache_entry ot rq slot seq r = (sl_status slot, r') /\
    rs_out r' = rs_out r ++ seq_op_bytes seq ++ sl_data slot /\ rs_opcnt r' = sl_opcnt slot /\
    cs_slot r' = cs_slot r.
Proof.
  intros Hops Ho Hs Hc Hd Hb. unfold nfsd4_replay_cache_entry, nfsd4_enc_sequence_replay. rewrite Ho.
  replace (rq_ops rq !! Z.to_nat (1 - 1)) with (Some (mk_op OP_SEQUENCE 0)) by (by rewrite Hops).
  rewrite encode_seq_op_eq by (done || lia). rewrite Hc. cbn [op_status]. change (negb (0 =? 0)) with false. cbv iota.
  simpl rs_out. simpl rs_buflen. rewrite zlen_app.
  assert (zlen (seq_op_bytes seq) = 44) as Hq.
  { unfold seq_op_bytes. rewrite !zlen_app, !zlen_be32, zlen_seq_result by done. done. }
  rewrite (proj2 (Z.ltb_ge _ _)) by lia. eexists. split; [reflexivity|]. simpl.
  rewrite Hd, ztake_all by lia. by rewrite <- app_assoc.
Qed.

(** ** Storing a reply whose SEQUENCE result did not fit *)

(** The reply limit leaves no room for the SEQUENCE result: its operation fails
    and the reply ends after the status, with no data offset. *)
Lemma encode_seq_op_full rq seq r :
  zlen (sq_sessionid seq) = NFS4_MAX_SESSIONID_LEN -> nfsd4_has_session r = true ->
  zlen (rs_out r) + 8 <= rs_buflen r < zlen (rs_out r) + 44 ->
  exists r', encode_seq_op rq true seq (mk_op OP_SEQUENCE 0) r = (mk_op OP_SEQUENCE nfserr_rep_too_big_to_cache, r') /\
    zlen (rs_out r') = zlen (rs_out r) + 8 /\ cs_data_offset r' = cs_data_offset r /\ rs_opcnt r' = rs_opcnt r.
Proof.
  intros Hs Hh Hb. pose proof (zlen_seq_result seq Hs) as Hl. pose proof (zlen_nonneg (rs_out r)) as Hn.
  set (out := rs_out r) in *. unfold encode_seq_op, nfsd4_encode_operation, reply_put. cbn [opnum op_status].
  remember (be32 OP_SEQUENCE ++ be32 0) as hd eqn:Eh.
  assert (zlen hd = 8) as H8 by (rewrite Eh, zlen_app, !zlen_be32; done). fold out.
  rewrite (proj2 (Z.ltb_ge _ _)) by lia. change (OP_SEQUENCE =? OP_ILLEGAL) with false. cbn [orb andb negb Z.eqb].
  unfold nfsd4_encode_sequence, reply_put. fold (seq_result seq). simpl rs_out. simpl rs_buflen. fold out.
  rewrite !zlen_app, Hl, H8, (proj2 (Z.ltb_lt _ _)) by lia.
  change (nfserr_resource =? 0) with false. change (nfserr_resource =? nfserr_resource) with true. cbn [andb].
  change (nfsd4_has_session (r <| rs_out := _ |>)) with (nfsd4_has_session r). rewrite Hh.
  change (nfserr_rep_too_big_to_cache =? nfserr_resource) with false.
  change (nfserr_rep_too_big_to_cache =? nfserr_rep_too_big) with false.
  change (nfserr_rep_too_big_to_cache =? nfserr_rep_too_big_to_cache) with true. cbn [orb].
  eexists. split; [reflexivity|]. split_and!; try done. simpl rs_out. fold out.
  unfold zwrite. rewrite !zlen_app, !zlen_be32. rewrite zlen_ztake, zlen_zdrop, !zlen_ztake, !zlen_app, H8. lia.
Qed.

(** ** The memory of a session *)

Lemma slot_bytes_cached ca ca' : maxresp_cached ca = maxresp_cached ca' -> slot_bytes ca = slot_bytes ca'.
Proof. intros H. unfold slot_bytes. by rewrite H. Qed.

Lemma slot_bytes_nonneg ca : 0 <= slot_bytes ca.
Proof. unfold slot_bytes. destruct (Z.ltb_spec (maxresp_cached ca) NFSD_MIN_HDR_SEQ_SZ); lia. Qed.

Lemma get_drc_spec e d ca num d' :
  0 < sizeof_slot e -> nfsd4_get_drc_mem e d ca = (num, d') ->
  let size := slot_bytes ca + sizeof_slot e in
  d' = mk_drc (drc_max_mem d) (drc_mem_used d + num * size) /\ 1 <= num /\ num <= Z.max 1 (maxreqs ca) /\
  (1 < num -> num * size <= (drc_max_mem d - drc_mem_used d) / 8).
Proof.
  intros Hz. unfold nfsd4_get_drc_mem. pose proof (slot_bytes_nonneg ca).
  set (size := slot_bytes ca + sizeof_slot e). set (total := if _ <? _ then _ else _).
  set (avail := Z.min (Z.max _ size) _). intros [= <- <-]. assert (0 < size) by (unfold size; lia).
  split_and!; [done|lia|lia|]. intros Hn.
  assert (size * (avail / size) <= avail) by (apply Z.mul_div_le; lia).
  assert (avail <= total / Z.max 8 (sv_nrthreads e)) by lia.
  assert (total / Z.max 8 (sv_nrthreads e) <= total / 8).
  { apply Z.div_le_compat_l; [|lia]. unfold total. destruct (Z.ltb_spec (drc_mem_used d) (drc_max_mem d)); lia. }
  unfold total in *. destruct (drc_mem_used d <? drc_max_mem d); [nia|]. exfalso.
  change (0 / 8) with 0 in *. assert (avail / size <= 0) by (apply Z.div_le_upper_bound; lia). lia.
Qed.

(** ** The properties *)


(** The room for a stored reply.  What follows an encoded SEQUENCE result
    within the limit fits the slot, whose room is what [slot_bytes] gives, provided
    the headers take their minimum of 80 bytes.  A session may however be created
    with a smaller [maxresp_cached]: then SEQUENCE itself does not fit, no data
    offset is set, and the whole reply is copied into a slot that has no room. *)
Theorem store_cache_room oks rq r slot fc :
  sl_size slot = slot_bytes fc -> sl_cachethis slot = true ->
  (forall pre body, rs_out r = pre ++ body -> cs_data_offset r = zlen pre -> NFSD_MIN_HDR_SEQ_SZ <= zlen pre ->
     zlen (rs_out r) <= maxresp_cached fc < 2 ^ 32 ->
     let s := nfsd4_store_cache_entry oks rq r slot in
     sl_data s = body /\ sl_datalen s = zlen body /\ sl_datalen s <= sl_size s) /\
  (forall seq r', zlen (sq_sessionid seq) = NFS4_MAX_SESSIONID_LEN -> nfsd4_has_session r = true ->
     cs_data_offset r = 0 -> maxresp_cached fc < NFSD_MIN_HDR_SEQ_SZ -> rs_buflen r = maxresp_cached fc ->
     zlen (rs_out r) + 8 <= maxresp_cached fc < zlen (rs_out r) + 44 ->
     encode_seq_op rq true seq (mk_op OP_SEQUENCE 0) r = (mk_op OP_SEQUENCE nfserr_rep_too_big_to_cache, r') ->
     let s := nfsd4_store_cache_entry oks rq r' slot in
     sl_size s = 0 /\ zlen (sl_data s) = zlen (rs_out r) + 8).
Proof.
  intros Hs Hc. split.
  - intros pre body E Eo Hp Hm s. pose proof (zlen_nonneg body) as Hb. rewrite E, zlen_app in Hm.
    unfold NFSD_MIN_HDR_SEQ_SZ in *.
    destruct (store_cached oks rq r slot pre body E Eo) as (_ & _ & D & Dl & _ & _ & _ & _ & _ & Sz); [lia|by unfold nfsd4_cache_this; rewrite Hc|].
    fold s in D, Dl, Sz. split_and!; try done. rewrite Dl, Sz, Hs. unfold slot_bytes, NFSD_MIN_HDR_SEQ_SZ.
    destruct (Z.ltb_spec (maxresp_cached fc) (24 + 12 + 44)); lia.
  - intros seq r' Hq Hh Ho Hm Hb Hl E s.
    destruct (encode_seq_op_full rq seq r Hq Hh ltac:(lia)) as (r2 & E2 & L2 & O2 & P2).
    rewrite E in E2. injection E2 as ->. unfold NFSD_MIN_HDR_SEQ_SZ in *.
    destruct (store_cached oks rq r2 slot [] (rs_out r2)) as (_ & _ & D & _ & _ & _ & _ & _ & _ & Sz);
      [done|by rewrite O2, Ho|lia|by unfold nfsd4_cache_this; rewrite Hc|].
    fold s in D, Sz. split; [|by rewrite D].
    rewrite Sz, Hs. unfold slot_bytes, NFSD_MIN_HDR_SEQ_SZ. by rewrite (proj2 (Z.ltb_lt _ _)) by lia.
Qed.

(** What creating a session grants.  An accepted fore channel has between one
    and 160 slots, at most 16 operations and 2128 cached bytes, never more than was
    asked for except for the one slot; the memory it takes is accounted for exactly
    and given back by [nfsd4_put_drc_mem]; and more than one slot are granted only
    within an eighth of the memory that was left. *)
Theorem forechannel_attrs_granted e d ca ca' d' :
  0 < sizeof_slot e -> 0 <= maxreqs ca -> 0 <= maxresp_cached ca ->
  check_forechannel_attrs e d ca = (nfs_ok, (ca', d')) ->
  1 <= maxreqs ca' <= NFSD_MAX_SLOTS_PER_SESSION /\ maxreqs ca' <= Z.max 1 (maxreqs ca) /\
  maxops ca' <= NFSD_MAX_OPS_PER_COMPOUND /\ maxops ca' <= maxops ca /\
  maxreq_sz ca' <= maxreq_sz ca /\ maxresp_sz ca' <= maxresp_sz ca /\
  maxresp_cached ca' = Z.min (maxresp_cached ca) (NFSD_SLOT_CACHE_SIZE + NFSD_MIN_HDR_SEQ_SZ) /\
  nfsd4_put_drc_mem e d' ca' = d /\
  (1 < maxreqs ca' -> maxreqs ca' * (slot_bytes ca' + sizeof_slot e) <= (drc_max_mem d - drc_mem_used d) / 8).
Proof.
  intros Hz Hr Hm. unfold check_forechannel_attrs.
  destruct (_ <? _); [done|]. destruct (_ <? _); [done|]. cbv zeta. set (c1 := mk_chan _ _ _ _ _).
  destruct (nfsd4_get_drc_mem e d c1) as [num d1] eqn:E. intros [= <- <-].
  destruct (get_drc_spec e d c1 num d1 Hz E) as (-> & N1 & N2 & N3). simpl in N2.
  unfold nfsd4_put_drc_mem. cbn [maxreqs maxresp_cached maxops maxreq_sz maxresp_sz].
  rewrite !(slot_bytes_cached (mk_chan _ _ _ _ num) c1) by done. simpl.
  unfold NFSD_MAX_SLOTS_PER_SESSION, NFSD_MAX_OPS_PER_COMPOUND in *. split_and!; try done; try lia.
  destruct d as [mx us]. simpl. f_equal. ring.
Qed.

(** ** A session *)

(** One client, one session with one slot, and a request of two operations. *)
Definition sample_sid : list byte := replicate 16 x00.
Definition sample_fc : nfsd4_channel_attrs := mk_chan 4096 4096 2128 8 1.
Definition sample_rq : svc_rqst := mk_rqst init_svc_cred 100 7 0 [mk_op OP_SEQUENCE 0; mk_op 9 0].
Definition sample_nn : nfsd_net :=
  mk_nn [5] {[5 := mk_ssession 1 false 3 sample_sid sample_fc [7] [zero_slot 2048]]}
    {[3 := mk_client 1 0 false 0 false]}.
Definition sample_env : seq_env := mk_senv 10 true true (mk_optab (fun _ r st => (st, r)) (fun _ => true)).
Definition sample_reply : nfsd4_compoundres := mk_res (replicate 36 x00) 100000 1 0 None 0.

Lemma sample_live : live sample_nn sample_sid 5 sample_fc 7.
Proof.
  split; [by vm_compute|]. eexists. split_and!; try (by vm_compute); [by left|].
  eexists. split; [by vm_compute|done].
Qed.

Definition sample_sequ : nfsd4_sequence_u := mk_sequ sample_sid 1 0 0 true 0.

Lemma sample_in_limits : in_limits sample_fc sample_rq sample_sequ.
Proof. constructor; vm_compute; try split; congruence. Qed.


(** A session created with room for 60 bytes of reply. *)
Definition small_ca : nfsd4_channel_attrs := mk_chan 4096 4096 60 8 1.
Definition sample_drc : drc := mk_drc 1000000 0.
Definition sample_drcenv : drc_env := mk_drcenv 128 8 1048576.
Definition small_fc : nfsd4_channel_attrs := fst (snd (check_forechannel_attrs sample_drcenv sample_drc small_ca)).
Definition small_slot : nfsd4_slot := (zero_slot (slot_bytes small_fc)) <| sl_cachethis := true |>.
Definition small_reply : nfsd4_compoundres := mk_res (replicate 36 x00) 60 1 0 (Some (5, 0)) 0.

Lemma store_cache_room_witness :
  fst (check_forechannel_attrs sample_drcenv sample_drc small_ca) = nfs_ok /\
  exists r', encode_seq_op sample_rq true sample_sequ (mk_op OP_SEQUENCE 0) small_reply =
      (mk_op OP_SEQUENCE nfserr_rep_too_big_to_cache, r') /\
    let s := nfsd4_store_cache_entry (true, true, true) sample_rq r' small_slot in
    sl_size s = 0 /\ zlen (sl_data s) = 44.
Proof.
  split; [reflexivity|].
  destruct (encode_seq_op_full sample_rq sample_sequ small_reply eq_refl eq_refl) as (r' & E & _).
  { split; vm_compute; congruence. }
  exists r'. split; [exact E|].
  refine (proj2 (store_cache_room (true, true, true) sample_rq small_reply small_slot small_fc eq_refl eq_refl)
    sample_sequ r' eq_refl eq_refl eq_refl _ eq_refl _ E); vm_compute; try split; congruence.
Defined.

Lemma forechannel_attrs_granted_witness :
  exists ca' d', check_forechannel_attrs sample_drcenv sample_drc sample_fc = (nfs_ok, (ca', d')) /\
    1 <= maxreqs ca' <= NFSD_MAX_SLOTS_PER_SESSION /\ nfsd4_put_drc_mem sample_drcenv d' ca' = sample_drc.
Proof.
  destruct (check_forechannel_attrs sample_drcenv sample_drc sample_fc) as [st [ca' d']] eqn:E.
  assert (st = nfs_ok) as -> by (apply (f_equal fst) in E; symmetry; exact E). exists ca', d'. split; [reflexivity|].
  destruct (forechannel_attrs_granted sample_drcenv sample_drc sample_fc ca' d' eq_refl
    ltac:(vm_compute; discriminate) ltac:(vm_compute; discriminate) E) as (A & _ & _ & _ & _ & _ & _ & B & _).
  split; [exact A|exact B].
Defined.
