(* ===== verification/SeqClient.v ===== *)
(** * NFSv4.1 sessions: the client's use of slots

    [fs/nfs/nfs4proc.c]: a call takes a slot of the table ([Session]) or waits
    for one, carries the slot's sequence number, and, when its reply arrives,
    the SEQUENCE status decides what becomes of the number and of the slot:
    freed or handed on, kept for a retry, or left to session recovery. *)

From S2P Require Import Prelude Xdr WaitQueue Session.
From stdpp Require Import list gmap.
#[local] Open Scope Z_scope.

Definition NFS4ERR_DELAY := 10008.
Definition NFS4ERR_BADSESSION := 10052.
Definition NFS4ERR_BADSLOT := 10053.
Definition NFS4ERR_CONN_NOT_BOUND_TO_SESSION := 10055.
Definition NFS4ERR_SEQ_MISORDERED := 10063.
Definition NFS4ERR_RETRY_UNCACHED_REP := 10068.
Definition NFS4ERR_SEQ_FALSE_RETRY := 10076.
Definition NFS4ERR_DEADSESSION := 10078.
(** Ticks per second ([CONFIG_HZ]). *)
Definition HZ := 1000.
Definition NFS4_POLL_RETRY_MAX := 15 * HZ.

(** ** State *)

(** What the handlers ask of other parts of the client. *)
Inductive nfs_event :=
| Ev_flag_errors (flags : Z) (recovery : bool)    (* nfs41_handle_sequence_flag_errors *)
| Ev_session_recovery (status : Z)                (* nfs4_schedule_session_recovery *)
| Ev_probe_sequence (slot : Z)                    (* nfs4_probe_sequence *)
| Ev_notify_server                                (* nfs41_notify_server *)
| Ev_wake_waiters.                                (* wake_up_all of slot_waitq *)

(** The client: its slot table with the wait queue, the time of the last lease
    renewal, and the events raised, newest last. *)
Record nfs_client := mk_clp {
  clp_table : table_state;
  cl_last_renewal : Z;
  clp_events : list nfs_event;
}.
#[export] Instance upd_clp : Updatable nfs_client := fun c =>
  mk_clp (clp_table c) (cl_last_renewal c) (clp_events c).

(** How a task goes on: [rpc_restart_call_prepare] or [rpc_restart_call]. *)
Inductive restart := Restart_prepare | Restart_call.

(** A call: its SEQUENCE arguments and results, the limits in the reply, and
    the task's status, flags and next action. *)
Record nfs4_call := mk_call {
  c_seq : nfs4_seq;
  c_sr_highest_slotid : Z;
  c_sr_target_highest_slotid : Z;
  c_tk_status : Z;
  c_was_sent : bool;                (* RPC_TASK_SENT *)
  c_lone_sequence : bool;           (* rpc_proc is NFSPROC4_CLNT_SEQUENCE *)
  c_restart : option restart;
  c_delay : option Z;               (* rpc_delay *)
}.
#[export] Instance upd_call : Updatable nfs4_call := fun c =>
  mk_call (c_seq c) (c_sr_highest_slotid c) (c_sr_target_highest_slotid c) (c_tk_status c) (c_was_sent c)
    (c_lone_sequence c) (c_restart c) (c_delay c).

Definition raise (ev : nfs_event) (clp : nfs_client) : nfs_client :=
  clp <| clp_events := clp_events clp ++ [ev] |>.
Definition on_table (f : nfs4_slot_table -> nfs4_slot_table) (clp : nfs_client) : nfs_client :=
  clp <| clp_table := mk_ts (f (ts_tbl (clp_table clp))) (ts_wq (clp_table clp)) |>.
Definition clear_sr_slot (c : nfs4_call) : nfs4_call := c <| c_seq := (c_seq c) <| sr_slot := None |> |>.

(** ** One slot *)

Definition nfs4_slot_sequence_record_sent (seqnr : Z) (slot : nfs4_slot) : nfs4_slot :=
  if 0 <? s32 (seqnr - seq_nr_highest_sent slot) then slot <| seq_nr_highest_sent := seqnr |> else slot.

Definition nfs4_slot_sequence_acked (seqnr : Z) (slot : nfs4_slot) : nfs4_slot :=
  (nfs4_slot_sequence_record_sent seqnr slot) <| seq_nr_last_acked := seqnr |>.

(** The slot's part of [nfs41_release_slot]. *)
Definition bump_seq_nr (slot : nfs4_slot) : nfs4_slot :=
  let slot := if seq_done slot then slot <| seq_nr := u32 (seq_nr slot + 1) |> else slot in
  slot <| seq_done := false |>.

(** ** Releasing slots *)

Definition nfs41_release_slot (jiffies : Z) (slot : option Z) (clp : nfs_client) : nfs_client :=
  match slot with
  | None => clp
  | Some nr =>
      let clp := on_table (on_slot nr bump_seq_nr) clp in
      let t := ts_tbl (clp_table clp) in
      let send := target_highest_slotid t <? highest_used_slotid t in
      let '(handed, ts) := nfs41_wake_and_assign_slot jiffies (clp_table clp) nr in
      let clp := clp <| clp_table := ts |> in
      let '(send, clp) :=
        if handed then (false, clp)
        else
          let clp := on_table (fun t => nfs4_free_slot t nr) clp in
          (if highest_used_slotid (ts_tbl (clp_table clp)) =? NFS4_NO_SLOT then send else false, clp) in
      let clp := if send then raise Ev_notify_server clp else clp in
      raise Ev_wake_waiters clp
  end.

Definition nfs41_sequence_free_slot (jiffies : Z) (clp : nfs_client) (c : nfs4_call) : nfs_client * nfs4_call :=
  (nfs41_release_slot jiffies (sr_slot (c_seq c)) clp, clear_sr_slot c).

(** NFSv4.0 uses the same table without sequence numbers. *)
Definition nfs40_sequence_free_slot (jiffies : Z) (clp : nfs_client) (c : nfs4_call) : nfs_client * nfs4_call :=
  match sr_slot (c_seq c) with
  | None => (clp, c)
  | Some nr =>
      let '(handed, ts) := nfs41_wake_and_assign_slot jiffies (clp_table clp) nr in
      let clp := clp <| clp_table := ts |> in
      let clp := if handed then clp else on_table (fun t => nfs4_free_slot t nr) clp in
      (clp, clear_sr_slot c)
  end.

Definition nfs40_sequence_done (jiffies : Z) (clp : nfs_client) (c : nfs4_call) : Z * (nfs_client * nfs4_call) :=
  match sr_slot (c_seq c) with
  | Some _ => (1, nfs40_sequence_free_slot jiffies clp c)
  | None => (1, (clp, c))
  end.

(** ** Processing the SEQUENCE result *)

Definition do_renew_lease (timestamp : Z) (clp : nfs_client) : nfs_client :=
  if time_before (cl_last_renewal clp) timestamp then clp <| cl_last_renewal := timestamp |> else clp.

Definition __rpc_restart_call (action : restart) (c : nfs4_call) : nfs4_call :=
  c <| c_tk_status := 0 |> <| c_restart := Some action |>.
(** The calls that use slots have an [rpc_call_prepare]. *)
Definition rpc_restart_call_prepare (c : nfs4_call) : nfs4_call := __rpc_restart_call Restart_prepare c.
Definition rpc_restart_call (c : nfs4_call) : nfs4_call := __rpc_restart_call Restart_call c.

(** The tails the status codes lead to. *)
Definition out (r : nfs_client * nfs4_call) : option (Z * (nfs_client * nfs4_call)) := Some (1, r).

Definition session_recover (jiffies status : Z) (clp : nfs_client) (c : nfs4_call)
    : option (Z * (nfs_client * nfs4_call)) :=
  let clp := on_table (fun t => t <| draining := true |>) clp in
  out (nfs41_sequence_free_slot jiffies (raise (Ev_session_recovery status) clp) c).

Definition retry_nowait (jiffies : Z) (clp : nfs_client) (c : nfs4_call)
    : option (Z * (nfs_client * nfs4_call)) :=
  let c := rpc_restart_call_prepare c in
  let '(clp, c) := nfs41_sequence_free_slot jiffies clp c in
  Some (0, (clp, c <| c_tk_status := 0 |>)).

Definition out_retry (clp : nfs_client) (c : nfs4_call) : option (Z * (nfs_client * nfs4_call)) :=
  Some (0, (clp, (rpc_restart_call c) <| c_delay := Some NFS4_POLL_RETRY_MAX |>)).

(** [None] is out of fuel in the hand-out of slots. *)
Definition nfs41_sequence_process (jiffies : Z) (clp : nfs_client) (c : nfs4_call)
    : option (Z * (nfs_client * nfs4_call)) :=
  match sr_slot (c_seq c) with
  | None => out (clp, c)
  | Some nr =>
      match slot_get (ts_tbl (clp_table clp)) nr with
      | None => out (clp, c)
      | Some slot =>
          if negb (c_was_sent c) || seq_done slot then out (clp, c)
          else
            let upd f := on_table (on_slot nr f) in
            let set_done s := s <| seq_done := true |> in
            let status := if c_tk_status c =? - NFS4ERR_DEADSESSION then - NFS4ERR_DEADSESSION
                          else sr_status (c_seq c) in
            if status =? 0 then
              let clp := upd (fun s => set_done (nfs4_slot_sequence_acked (seq_nr s) s)) clp in
              let clp := do_renew_lease (sr_timestamp (c_seq c)) clp in
              let clp := raise (Ev_flag_errors (sr_status_flags (c_seq c)) (slot_privileged slot)) clp in
              match nfs41_update_target_slotid jiffies (clp_table clp) nr
                      (c_sr_target_highest_slotid c) (c_sr_highest_slotid c) with
              | None => None
              | Some ts => out (clp <| clp_table := ts |>, c)
              end
            else if status =? 1 then
              out (upd (fun s => set_done (nfs4_slot_sequence_record_sent (seq_nr s) s)) clp, c)
            else if status =? - NFS4ERR_DELAY then out_retry clp c
            else if (status =? - NFS4ERR_RETRY_UNCACHED_REP) || (status =? - NFS4ERR_SEQ_FALSE_RETRY) then
              let clp := upd (fun s => let s := nfs4_slot_sequence_acked (seq_nr s) s in
                                       s <| seq_nr := u32 (seq_nr s + 1) |>) clp in
              retry_nowait jiffies clp c
            else if status =? - NFS4ERR_BADSLOT then
              if slot_nr slot <? target_highest_slotid (ts_tbl (clp_table clp))
              then session_recover jiffies status clp c
              else retry_nowait jiffies clp c
            else if status =? - NFS4ERR_SEQ_MISORDERED then
              let clp := upd (fun s => nfs4_slot_sequence_record_sent (seq_nr s) s) clp in
              if 1 <? s32 (seq_nr slot - seq_nr_last_acked slot) then
                let clp := upd (fun s => s <| seq_nr := u32 (seq_nr s - 1) |>) clp in
                let '(clp, c) := if c_lone_sequence c then (clp, c)
                                 else (raise (Ev_probe_sequence nr) clp, clear_sr_slot c) in
                retry_nowait jiffies clp c
              else
                out_retry (upd (fun s => s <| seq_nr := seq_nr_highest_sent s |>) clp) c
            else if (status =? - NFS4ERR_BADSESSION) || (status =? - NFS4ERR_DEADSESSION)
                    || (status =? - NFS4ERR_CONN_NOT_BOUND_TO_SESSION)
            then session_recover jiffies status clp c
            else out (upd set_done clp, c)
      end
  end.

Definition nfs41_sequence_done (jiffies : Z) (clp : nfs_client) (c : nfs4_call)
    : option (Z * (nfs_client * nfs4_call)) :=
  match nfs41_sequence_process jiffies clp c with
  | None => None
  | Some (0, r) => Some (0, r)
  | Some (_, (clp, c)) =>
      match sr_slot (c_seq c) with
      | Some _ => Some (1, nfs41_sequence_free_slot jiffies clp c)
      | None => Some (1, (clp, c))
      end
  end.

(** ** Starting a call *)

Definition nfs4_init_sequence (cache_reply privileged : bool) (s : nfs4_seq) : nfs4_seq :=
  s <| sa_slot := None |> <| sa_cache_this := cache_reply |> <| sa_privileged := privileged |>
    <| sr_slot := None |>.

Definition nfs41_sequence_res_init (jiffies : Z) (s : nfs4_seq) : nfs4_seq :=
  s <| sr_timestamp := jiffies |> <| sr_status_flags := 0 |> <| sr_status := 1 |>.

Definition nfs4_sequence_attach_slot (nr : Z) (t : nfs4_slot_table) (s : nfs4_seq) : nfs4_slot_table * nfs4_seq :=
  (on_slot nr (fun sl => sl <| slot_privileged := sa_privileged s |>) t,
   s <| sa_slot := Some nr |> <| sr_slot := Some nr |>).

Definition EAGAIN := 11.

(** [nfs4_setup_sequence] for the task [task] of the wait queue's tasks: the
    call starts (0), or the task sleeps on the table's queue (-EAGAIN). *)
Definition nfs4_setup_sequence (jiffies task : Z) (s : nfs4_seq) (st : table_state) : Z * (nfs4_seq * table_state) :=
  let tbl := ts_tbl st in
  let sleep t w := (- EAGAIN, (s, mk_ts t w)) in
  match sr_slot s with
  | Some _ => (0, (nfs41_sequence_res_init jiffies s, st))
  | None =>
      let out_sleep t :=
        sleep t (if sa_privileged s then rpc_sleep_on_priority task RPC_PRIORITY_PRIVILEGED (ts_wq st)
                 else rpc_sleep_on task None (ts_wq st)) in
      let out_sleep_timeout t :=
        sleep t (if sa_privileged s
                 then rpc_sleep_on_priority_timeout jiffies task (u64 (jiffies + Z.shiftr HZ 2)) RPC_PRIORITY_PRIVILEGED (ts_wq st)
                 else rpc_sleep_on_timeout jiffies task None (u64 (jiffies + Z.shiftr HZ 2)) (ts_wq st)) in
      if nfs4_slot_tbl_draining tbl && negb (sa_privileged s) then out_sleep tbl
      else
        match nfs4_alloc_slot tbl with
        | (Err e, t) => if e =? - ENOMEM then out_sleep_timeout t else out_sleep t
        | (Ok nr, t) =>
            let '(t, s) := nfs4_sequence_attach_slot nr t s in
            (0, (nfs41_sequence_res_init jiffies s, mk_ts t (ts_wq st)))
        end
  end.
