(* ===== verification/SeqClientTheorems.v ===== *)
(** * NFSv4.1 sessions: what becomes of a slot after a reply

    [nfs41_sequence_done] refines a small specification of one slot: the new
    sequence number and the fate of the slot for every SEQUENCE status. *)

From S2P Require Import Prelude Xdr WaitQueue WaitQueueInv WaitQueueTheorems Session SessionInv SessionTheorems SeqClient.
From stdpp Require Import list gmap.
#[local] Open Scope Z_scope.

(** ** Specification of one slot *)

(** The numbers of a slot that matter to the protocol. *)
Record seq_state := mk_ss { ss_seq : Z; ss_acked : Z; ss_sent : Z }.
Definition seq_of (s : nfs4_slot) : seq_state :=
  mk_ss (seq_nr s) (seq_nr_last_acked s) (seq_nr_highest_sent s).

(** [Released]: free or handed to a waiting task; [Kept] for the same call to be
    sent again; [Probed]: kept by a probe on the same slot. *)
Inductive fate := Released | Kept | Probed.

Definition record_sent (s : seq_state) : seq_state :=
  mk_ss (ss_seq s) (ss_acked s) (if 0 <? s32 (ss_seq s - ss_sent s) then ss_seq s else ss_sent s).
Definition acked (s : seq_state) : seq_state :=
  mk_ss (ss_seq s) (ss_seq s) (ss_sent (record_sent s)).
Definition with_seq (n : Z) (s : seq_state) : seq_state := mk_ss (u32 n) (ss_acked s) (ss_sent s).

Definition slot_spec (status : Z) (lone : bool) (s : seq_state) : seq_state * fate :=
  if status =? 0 then (with_seq (ss_seq s + 1) (acked s), Released)
  else if status =? 1 then (with_seq (ss_seq s + 1) (record_sent s), Released)
  else if status =? - NFS4ERR_DELAY then (s, Kept)
  else if (status =? - NFS4ERR_RETRY_UNCACHED_REP) || (status =? - NFS4ERR_SEQ_FALSE_RETRY)
  then (with_seq (ss_seq s + 1) (acked s), Released)
  else if status =? - NFS4ERR_SEQ_MISORDERED then
    if 1 <? s32 (ss_seq s - ss_acked s)
    then (with_seq (ss_seq s - 1) (record_sent s), if lone then Released else Probed)
    else (mk_ss (ss_sent (record_sent s)) (ss_acked s) (ss_sent (record_sent s)), Kept)
  else if (status =? - NFS4ERR_BADSLOT) || (status =? - NFS4ERR_BADSESSION)
          || (status =? - NFS4ERR_DEADSESSION) || (status =? - NFS4ERR_CONN_NOT_BOUND_TO_SESSION)
  then (s, Released)
  else (with_seq (ss_seq s + 1) s, Released).

(** ** Changing one slot *)

Definition keeps_nr (f : nfs4_slot -> nfs4_slot) : Prop := forall s, slot_nr (f s) = slot_nr s.

Lemma on_slot_ok nr f t : keeps_nr f -> tbl_ok t -> tbl_ok (on_slot nr f t).
Proof.
  intros Hf [N B L T S]. pose proof (on_slot_numbered nr f t Hf N) as N'. split; try done.
  simpl. unfold zlen in *. by rewrite length_map.
Qed.

Lemma on_slot_at nr f t s : keeps_nr f -> slot_get t nr = Some s -> slot_get (on_slot nr f t) nr = Some (f s).
Proof. intros Hf H. rewrite on_slot_get, H by done. simpl. by rewrite (slot_get_nr t nr s H), Z.eqb_refl. Qed.

Lemma on_slot_other nr f t i : keeps_nr f -> i <> nr -> slot_get (on_slot nr f t) i = slot_get t i.
Proof.
  intros Hf H. rewrite on_slot_get by done. destruct (slot_get t i) as [s|] eqn:E; [|done]. simpl.
  rewrite (slot_get_nr t i s E). by rewrite (proj2 (Z.eqb_neq _ _)).
Qed.

Lemma on_slot_holds nr f t i : keeps_nr f -> tbl_ok t -> i <> nr -> holds_at i t (on_slot nr f t).
Proof.
  intros Hf O Hi B. split; [done|]. destruct (used_exists t i O B) as [s Hs]. exists s, s.
  by rewrite on_slot_other.
Qed.

Lemma on_slot_comp nr f g t : keeps_nr f -> on_slot nr g (on_slot nr f t) = on_slot nr (fun s => g (f s)) t.
Proof.
  intros Hf. unfold on_slot, field_upd. simpl. f_equal. rewrite map_map. apply map_ext. intros s.
  destruct (slot_nr s =? nr) eqn:E; [by rewrite Hf, E|by rewrite E].
Qed.

Lemma on_table_comp nr f g clp : keeps_nr f ->
  on_table (on_slot nr g) (on_table (on_slot nr f) clp) = on_table (on_slot nr (fun s => g (f s))) clp.
Proof. intros Hf. unfold on_table, field_upd. simpl. by rewrite on_slot_comp. Qed.

Lemma same_seq_of s s' : same_seq s s' -> seq_of s' = seq_of s.
Proof. intros (A & B & C & _). unfold seq_of. by rewrite A, B, C. Qed.

Lemma keeps_bump : keeps_nr bump_seq_nr.
Proof. intros s. unfold bump_seq_nr. by destruct (seq_done s). Qed.

Lemma keeps_record n : keeps_nr (nfs4_slot_sequence_record_sent n).
Proof. intros s. unfold nfs4_slot_sequence_record_sent. by destruct (_ <? _). Qed.

Lemma seq_bump s : seq_of (bump_seq_nr s) = if seq_done s then with_seq (seq_nr s + 1) (seq_of s) else seq_of s.
Proof. unfold bump_seq_nr. by destruct (seq_done s). Qed.

Lemma seq_record s : seq_of (nfs4_slot_sequence_record_sent (seq_nr s) s) = record_sent (seq_of s).
Proof. unfold nfs4_slot_sequence_record_sent, record_sent, seq_of. simpl. by destruct (_ <? _). Qed.

(** ** Releasing a slot *)

Lemma wake_assign_slot j st nr b st' s :
  ts_ok st -> Z.testbit (ts_used st) nr = true -> slot_get (ts_tbl st) nr = Some s ->
  nfs41_wake_and_assign_slot j st nr = (b, st') ->
  ts_ok st' /\ holds (ts_tbl st) (ts_tbl st') /\ ts_used st' = ts_used st /\
  (b = true -> exists task, got_slot st st' task nr).
Proof.
  intros O B G E. unfold nfs41_wake_and_assign_slot in E. destruct (_ <? nr).
  - injection E as <- <-. split_and!; try done. by apply holds_refl, O.
  - destruct (wake_and_assign_spec _ _ _ _ _ O E) as (O' & R & _ & H & P).
    destruct (rest_inv _ _ R) as (U & _). split_and!; try done. intros ->. destruct P as (t & _ & Gt & _). by exists t.
Qed.

Lemma hold_slot t t' nr s :
  holds_at nr t t' -> Z.testbit (used_slots t) nr = true -> slot_get t nr = Some s ->
  Z.testbit (used_slots t') nr = true /\ exists s', slot_get t' nr = Some s' /\ same_seq s s'.
Proof. intros H B G. destruct (H B) as (B' & s0 & s' & E & E' & S). simplify_eq. eauto. Qed.

Record released (j nr : Z) (clp clp' : nfs_client) (s : nfs4_slot) : Prop := {
  rl_ok : ts_ok (clp_table clp');
  rl_slot : exists s', slot_get (ts_tbl (clp_table clp')) nr = Some s' /\
              seq_of s' = seq_of (bump_seq_nr s) /\ seq_done s' = false;
  rl_others : forall i, i <> nr -> holds_at i (ts_tbl (clp_table clp)) (ts_tbl (clp_table clp'));
  rl_handed : Z.testbit (ts_used (clp_table clp')) nr = true ->
              exists task, got_slot (clp_table clp) (clp_table clp') task nr;
}.

Lemma raise_table ev clp : clp_table (raise ev clp) = clp_table clp.
Proof. done. Qed.

Lemma release_spec j nr clp s :
  ts_ok (clp_table clp) -> Z.testbit (ts_used (clp_table clp)) nr = true ->
  slot_get (ts_tbl (clp_table clp)) nr = Some s ->
  released j nr clp (nfs41_release_slot j (Some nr) clp) s.
Proof.
  intros [O W] B G. unfold nfs41_release_slot.
  set (t1 := on_slot nr bump_seq_nr (ts_tbl (clp_table clp))).
  change (clp_table (on_table _ clp)) with (mk_ts t1 (ts_wq (clp_table clp))). cbn [ts_tbl].
  pose proof (on_slot_ok nr _ _ keeps_bump O) as O1. fold t1 in O1.
  pose proof (on_slot_at nr _ _ s keeps_bump G) as G1. fold t1 in G1.
  destruct (nfs41_wake_and_assign_slot j _ nr) as [handed ts] eqn:E.
  destruct (wake_assign_slot j (mk_ts t1 (ts_wq (clp_table clp))) nr handed ts _ (conj O1 W) B G1 E)
    as (O2 & H2 & U2 & Gt). cbn [ts_tbl] in H2, U2.
  destruct (hold_slot _ _ nr _ (H2 nr) B G1) as (B2 & s2 & G2 & S2).
  assert (D2 : seq_done s2 = false).
  { destruct S2 as (_ & _ & _ & ->). unfold bump_seq_nr. by destruct (seq_done s). }
  assert (Ho : forall i, i <> nr -> holds_at i (ts_tbl (clp_table clp)) (ts_tbl ts)).
  { intros i Hi. eapply holds_at_trans; [apply (on_slot_holds nr bump_seq_nr); [apply keeps_bump|done|done]|apply H2]. }
  destruct handed.
  - destruct (Gt eq_refl) as [task Gk]. split; simpl; [done| |done|].
    + exists s2. by rewrite (same_seq_of _ _ S2).
    + intros _. exists task. exact Gk.
  - destruct (free_slot_spec (ts_tbl ts) nr (proj1 O2) B2) as (O3 & U3 & Sl & _).
    assert (R : released j nr clp (on_table (fun t => nfs4_free_slot t nr) (clp <| clp_table := ts |>)) s).
    { split; simpl.
      - split; [done|apply O2].
      - exists s2. unfold slot_get in *. rewrite Sl. by rewrite (same_seq_of _ _ S2).
      - intros i Hi. eapply holds_at_trans; [by apply Ho|]. apply free_holds; [apply O2|done|done].
      - rewrite U3, Z.clearbit_eqb, Z.eqb_refl, andb_false_r. done. }
    destruct (if highest_used_slotid _ =? _ then _ else _); [destruct R; by split|destruct R; by split].
Qed.

(** ** After a reply *)

(** The slot [nr] ends with the numbers [q] and the fate [f]; every other slot in
    use is untouched. *)
Record seq_post (nr : Z) (clp clp' : nfs_client) (c' : nfs4_call) (q : seq_state) (f : fate) : Prop := {
  sp_ok : ts_ok (clp_table clp');
  sp_slot : exists s', slot_get (ts_tbl (clp_table clp')) nr = Some s' /\ seq_of s' = q /\ seq_done s' = false;
  sp_others : forall i, i <> nr -> holds_at i (ts_tbl (clp_table clp)) (ts_tbl (clp_table clp'));
  sp_fate : match f with
    | Released => sr_slot (c_seq c') = None /\
        (Z.testbit (ts_used (clp_table clp')) nr = true ->
         exists task k, ts_tasks (clp_table clp') !! task = Some k /\ tk_queued k = false /\
           sa_slot (tk_msg k) = Some nr)
    | Kept => sr_slot (c_seq c') = Some nr /\ Z.testbit (ts_used (clp_table clp')) nr = true /\
        c_restart c' = Some Restart_call
    | Probed => sr_slot (c_seq c') = None /\ Z.testbit (ts_used (clp_table clp')) nr = true /\
        Ev_probe_sequence nr ∈ clp_events clp'
    end;
}.

Lemma release_post j nr clp0 clp s q c :
  ts_ok (clp_table clp) -> Z.testbit (ts_used (clp_table clp)) nr = true ->
  slot_get (ts_tbl (clp_table clp)) nr = Some s ->
  (forall i, i <> nr -> holds_at i (ts_tbl (clp_table clp0)) (ts_tbl (clp_table clp))) ->
  seq_of (bump_seq_nr s) = q -> sr_slot (c_seq c) = None ->
  seq_post nr clp0 (nfs41_release_slot j (Some nr) clp) c q Released.
Proof.
  intros O B G Ho Eq Hc. destruct (release_spec j nr clp s O B G) as [O' (s' & G' & Q' & D') H' T'].
  split; [done|exists s'; by rewrite Q'|intros i Hi; eapply holds_at_trans; [by apply Ho|by apply H']|].
  split; [done|]. intros B'. destruct (T' B') as (task & k & k' & _ & K' & Qd & _ & Sl & _). exists task, k'. done.
Qed.

(** Changing the slot's numbers before it is released. *)
Lemma upd_release_post j nr f clp s q c :
  ts_ok (clp_table clp) -> Z.testbit (ts_used (clp_table clp)) nr = true ->
  slot_get (ts_tbl (clp_table clp)) nr = Some s -> keeps_nr f ->
  seq_of (bump_seq_nr (f s)) = q -> sr_slot (c_seq c) = None ->
  seq_post nr clp (nfs41_release_slot j (Some nr) (on_table (on_slot nr f) clp)) c q Released.
Proof.
  intros [O W] B G Hf Eq Hc.
  apply (release_post j nr clp (on_table (on_slot nr f) clp) (f s)); try done; simpl.
  - split; [by apply on_slot_ok|done].
  - by apply on_slot_at.
  - intros i Hi. by apply on_slot_holds.
Qed.

Lemma seq_acked s : seq_of (nfs4_slot_sequence_acked (seq_nr s) s) = acked (seq_of s).
Proof.
  unfold nfs4_slot_sequence_acked, nfs4_slot_sequence_record_sent, acked, record_sent, seq_of. simpl.
  by destruct (_ <? _).
Qed.

Lemma keeps_acked n : keeps_nr (nfs4_slot_sequence_acked n).
Proof. intros s. unfold nfs4_slot_sequence_acked. simpl. apply keeps_record. Qed.

Lemma record_done n s : seq_done (nfs4_slot_sequence_record_sent n s) = seq_done s.
Proof. unfold nfs4_slot_sequence_record_sent. by destruct (_ <? _). Qed.

Lemma record_seq n s : seq_nr (nfs4_slot_sequence_record_sent n s) = seq_nr s.
Proof. unfold nfs4_slot_sequence_record_sent. by destruct (_ <? _). Qed.

Lemma seq_of_done x b : seq_of (x <| seq_done := b |>) = seq_of x.
Proof. done. Qed.
Lemma seq_nr_done x b : seq_nr (x <| seq_done := b |>) = seq_nr x.
Proof. done. Qed.
Lemma bump_done x : seq_of (bump_seq_nr (x <| seq_done := true |>)) = with_seq (seq_nr x + 1) (seq_of x).
Proof. done. Qed.
Lemma bump_not_done x : seq_done x = false -> seq_of (bump_seq_nr x) = seq_of x.
Proof. intros H. rewrite seq_bump. by rewrite H. Qed.

Section Done.
  Context (j : Z) (clp : nfs_client) (c : nfs4_call) (nr : Z) (s : nfs4_slot).
  Context (O : ts_ok (clp_table clp)) (Hc : sr_slot (c_seq c) = Some nr)
    (B : Z.testbit (ts_used (clp_table clp)) nr = true)
    (G : slot_get (ts_tbl (clp_table clp)) nr = Some s) (D : seq_done s = false).

(** [status = 0]: the reply's limits are taken over before the slot goes. *)
Lemma done_ok clp1 ts :
  is_u32 (c_sr_target_highest_slotid c) -> 0 <= c_sr_highest_slotid c < NFS4_NO_SLOT ->
  clp_table clp1 = mk_ts (on_slot nr (fun s => (nfs4_slot_sequence_acked (seq_nr s) s) <| seq_done := true |>)
                            (ts_tbl (clp_table clp))) (ts_wq (clp_table clp)) ->
  nfs41_update_target_slotid j (clp_table clp1) nr (c_sr_target_highest_slotid c) (c_sr_highest_slotid c) = Some ts ->
  seq_post nr clp (nfs41_release_slot j (Some nr) (clp1 <| clp_table := ts |>)) (clear_sr_slot c)
    (with_seq (ss_seq (seq_of s) + 1) (acked (seq_of s))) Released.
Proof.
  intros Ht Hh E1 E. set (f := fun s => _) in E1. assert (Hf : keeps_nr f) by (intros x; apply keeps_acked).
  assert (O1 : ts_ok (clp_table clp1)) by (rewrite E1; split; [apply on_slot_ok; [done|apply O]|apply O]).
  destruct (update_spec j (clp_table clp1) nr _ _ O1 Ht Hh) as (ts' & E' & O' & H').
  assert (ts' = ts) as -> by congruence.
  assert (G1 : slot_get (ts_tbl (clp_table clp1)) nr = Some (f s)) by (rewrite E1; by apply on_slot_at).
  assert (B1 : Z.testbit (ts_used (clp_table clp1)) nr = true) by by rewrite E1.
  destruct (hold_slot _ _ nr _ (H' nr) B1 G1) as (B2 & s2 & G2 & S2).
  apply (release_post j nr clp (clp1 <| clp_table := ts |>) s2); try done.
  - intros i Hi. cbn [clp_table]. eapply holds_at_trans; [|apply H']. rewrite E1. apply on_slot_holds; [done|apply O|done].
  - assert (F1 : seq_of (f s) = acked (seq_of s))
      by (transitivity (seq_of (nfs4_slot_sequence_acked (seq_nr s) s)); [reflexivity|apply seq_acked]).
    assert (F2 : seq_nr (f s) = seq_nr s)
      by (transitivity (seq_nr (nfs4_slot_sequence_record_sent (seq_nr s) s)); [reflexivity|apply record_seq]).
    rewrite seq_bump, (same_seq_of _ _ S2), F1. destruct S2 as (-> & _ & _ & ->). rewrite F2.
    by change (seq_done (f s)) with true.
Qed.

(** The other outcomes of [nfs41_sequence_process] that end with the slot's
    release, with the numbers changed by [f] first. *)
Lemma done_upd f q :
  keeps_nr f -> seq_of (bump_seq_nr (f s)) = q ->
  seq_post nr clp (nfs41_release_slot j (Some nr) (on_table (on_slot nr f) clp)) (clear_sr_slot c) q Released.
Proof. intros Hf Eq. by apply (upd_release_post j nr f clp s). Qed.

Lemma done_recover ev :
  seq_post nr clp (nfs41_release_slot j (Some nr) (raise ev (on_table (fun t => t <| draining := true |>) clp)))
    (clear_sr_slot c) (seq_of s) Released.
Proof.
  apply (release_post j nr clp _ s); try done.
  - destruct O as [[] W]. split; [by split|done].
  - intros i Hi. apply same_slots_holds; [apply O|done|done].
  - rewrite seq_bump. by rewrite D.
Qed.

Lemma done_plain c' : sr_slot (c_seq c') = None ->
  seq_post nr clp (nfs41_release_slot j (Some nr) clp) c' (seq_of s) Released.
Proof.
  intros Hc'. apply (release_post j nr clp clp s); try done.
  - intros i Hi. apply holds_refl, O.
  - rewrite seq_bump. by rewrite D.
Qed.

(** The outcomes that keep the slot in use. *)
Lemma done_keep f clp' c' q ft :
  keeps_nr f -> (forall x, seq_done (f x) = seq_done x) -> seq_of (f s) = q ->
  clp_table clp' = mk_ts (on_slot nr f (ts_tbl (clp_table clp))) (ts_wq (clp_table clp)) ->
  match ft with
  | Released => False
  | Kept => sr_slot (c_seq c') = Some nr /\ c_restart c' = Some Restart_call
  | Probed => sr_slot (c_seq c') = None /\ Ev_probe_sequence nr ∈ clp_events clp'
  end ->
  seq_post nr clp clp' c' q ft.
Proof.
  intros Hf Hd Eq Et Hft. destruct O as [T W]. split; rewrite ?Et; simpl.
  - split; [by apply on_slot_ok|done].
  - exists (f s). rewrite (on_slot_at nr f _ s Hf G), Hd. done.
  - intros i Hi. by apply on_slot_holds.
  - destruct ft; [done|..]; by destruct Hft.
Qed.
End Done.

(** The SEQUENCE status the client acts on. *)
Definition seq_status (c : nfs4_call) : Z :=
  if c_tk_status c =? - NFS4ERR_DEADSESSION then - NFS4ERR_DEADSESSION else sr_status (c_seq c).

Lemma sequence_done_post j clp c nr s :
  ts_ok (clp_table clp) -> sr_slot (c_seq c) = Some nr -> Z.testbit (ts_used (clp_table clp)) nr = true ->
  slot_get (ts_tbl (clp_table clp)) nr = Some s -> c_was_sent c = true -> seq_done s = false ->
  is_u32 (c_sr_target_highest_slotid c) -> 0 <= c_sr_highest_slotid c < NFS4_NO_SLOT ->
  exists ret clp' c', nfs41_sequence_done j clp c = Some (ret, (clp', c')) /\
    seq_post nr clp clp' c' (fst (slot_spec (seq_status c) (c_lone_sequence c) (seq_of s)))
      (snd (slot_spec (seq_status c) (c_lone_sequence c) (seq_of s))).
Proof.
  intros O Hc B G Hs D Ht Hh.
  unfold nfs41_sequence_done, nfs41_sequence_process, slot_spec, seq_status. rewrite Hc, G, Hs, D. simpl negb. cbv iota.
  cbn [orb]. cbv zeta. set (status := if c_tk_status c =? _ then _ else _).
  destruct (status =? 0).
  { set (clp1 := raise _ _). assert (T1 : clp_table clp1 = mk_ts (on_slot nr (fun s => (nfs4_slot_sequence_acked (seq_nr s) s)
      <| seq_done := true |>) (ts_tbl (clp_table clp))) (ts_wq (clp_table clp))).
    { unfold clp1, do_renew_lease. by destruct (time_before _ _). }
    destruct (update_spec j (clp_table clp1) nr (c_sr_target_highest_slotid c) (c_sr_highest_slotid c))
      as (ts & E & _); [|exact Ht|exact Hh|].
    { rewrite T1. split; [apply on_slot_ok; [intros x; apply keeps_acked|apply O]|apply O]. }
    rewrite E. unfold out. rewrite Hc. unfold nfs41_sequence_free_slot. rewrite Hc. eexists _, _, _. split; [reflexivity|].
    by apply done_ok. }
  destruct (status =? 1).
  { unfold out, nfs41_sequence_free_slot. rewrite !Hc. eexists _, _, _. split; [reflexivity|].
    apply (done_upd j clp c nr s O B G (fun s => (nfs4_slot_sequence_record_sent (seq_nr s) s) <| seq_done := true |>)).
    - intros x. apply keeps_record.
    - rewrite bump_done, record_seq, seq_record. done. }
  destruct (status =? - NFS4ERR_DELAY).
  { unfold out_retry. eexists _, _, _. split; [reflexivity|].
    split; [done|exists s; done|intros i _; apply holds_refl, O|]. done. }
  destruct ((status =? - NFS4ERR_RETRY_UNCACHED_REP) || _).
  { unfold retry_nowait, nfs41_sequence_free_slot. change (sr_slot (c_seq (rpc_restart_call_prepare c))) with (sr_slot (c_seq c)).
    rewrite Hc. eexists _, _, _. split; [reflexivity|].
    apply (upd_release_post j nr (fun s => (nfs4_slot_sequence_acked (seq_nr s) s) <| seq_nr :=
      u32 (seq_nr (nfs4_slot_sequence_acked (seq_nr s) s) + 1) |>) clp s); try done.
    - intros x. apply keeps_acked.
    - rewrite bump_not_done.
      + transitivity (with_seq (seq_nr (nfs4_slot_sequence_record_sent (seq_nr s) s) + 1)
          (seq_of (nfs4_slot_sequence_acked (seq_nr s) s))); [done|]. by rewrite seq_acked, record_seq.
      + transitivity (seq_done (nfs4_slot_sequence_record_sent (seq_nr s) s)); [done|]. by rewrite record_done. }
  destruct (status =? - NFS4ERR_BADSLOT) eqn:Eb.
  { apply Z.eqb_eq in Eb. rewrite Eb. cbn [fst snd orb].
    change (- NFS4ERR_BADSLOT =? - NFS4ERR_SEQ_MISORDERED) with false. cbn [fst snd orb].
    destruct (slot_nr s <? _).
    - unfold session_recover, out, nfs41_sequence_free_slot. rewrite Hc. eexists _, _, _. split; [reflexivity|].
      by apply done_recover.
    - unfold retry_nowait, nfs41_sequence_free_slot. change (sr_slot (c_seq (rpc_restart_call_prepare c))) with (sr_slot (c_seq c)).
      rewrite Hc. eexists _, _, _. split; [reflexivity|]. by apply done_plain. }
  destruct (status =? - NFS4ERR_SEQ_MISORDERED).
  { cbn [ss_seq ss_acked seq_of]. rewrite !on_table_comp by (intros x; apply keeps_record).
    destruct (1 <? s32 (seq_nr s - seq_nr_last_acked s)).
    - set (f := fun s : nfs4_slot => (nfs4_slot_sequence_record_sent (seq_nr s) s) <| seq_nr :=
        u32 (seq_nr (nfs4_slot_sequence_record_sent (seq_nr s) s) - 1) |>).
      assert (Hf : keeps_nr f) by (intros x; apply keeps_record).
      assert (Df : forall x, seq_done (f x) = seq_done x) by (intros x; apply (record_done (seq_nr x))).
      assert (Qf : seq_of (f s) = with_seq (seq_nr s - 1) (record_sent (seq_of s))).
      { transitivity (with_seq (seq_nr (nfs4_slot_sequence_record_sent (seq_nr s) s) - 1)
          (seq_of (nfs4_slot_sequence_record_sent (seq_nr s) s))); [done|]. by rewrite seq_record, record_seq. }
      destruct (c_lone_sequence c); unfold retry_nowait, nfs41_sequence_free_slot.
      + change (sr_slot (c_seq (rpc_restart_call_prepare c))) with (sr_slot (c_seq c)). rewrite Hc.
        eexists _, _, _. split; [reflexivity|].
        apply (upd_release_post j nr f clp s); try done. by rewrite bump_not_done by (by rewrite Df).
      + eexists _, _, _. split; [reflexivity|]. apply done_keep with (s := s) (f := f); try done.
        split; [done|]. simpl. apply elem_of_app. right. by left.
    - unfold out_retry. eexists _, _, _. split; [reflexivity|].
      apply done_keep with (s := s) (f := (fun x => (nfs4_slot_sequence_record_sent (seq_nr x) x)
        <| seq_nr := seq_nr_highest_sent (nfs4_slot_sequence_record_sent (seq_nr x) x) |>)); try done.
      + intros x. apply keeps_record.
      + intros x. apply (record_done (seq_nr x)).
      + pose proof (seq_record s) as Q. unfold seq_of in *. cbn [fst]. simpl in *. injection Q as _ Qa Qs.
        by rewrite Qa, Qs. }
  cbn [orb]. destruct (_ || _ || _).
  { unfold session_recover, out, nfs41_sequence_free_slot. rewrite Hc. eexists _, _, _. split; [reflexivity|].
    by apply done_recover. }
  unfold out, nfs41_sequence_free_slot. rewrite !Hc. eexists _, _, _. split; [reflexivity|].
  by apply (done_upd j clp c nr s O B G (fun s => s <| seq_done := true |>)).
Qed.

(** ** Starting a call *)

(** A task that may sleep and goes to sleep is on the queue afterwards. *)
Lemma sleeps_queued (s : sched nfs4_seq) t p :
  sched_ok s -> RPC_IS_QUEUED s t = false -> RPC_IS_ACTIVATED s t = true -> 0 <= p ->
  t ∈ queued (sc_queue (__rpc_sleep_on_priority t p s)).
Proof.
  intros S Q A Hp. unfold __rpc_sleep_on_priority. rewrite Q.
  destruct (add_wait_queue_ok s t p S Q A Hp) as [_ P]. unfold __rpc_do_sleep_on_priority. rewrite P. left.
Qed.

Lemma sleeps_timeout_queued (s : sched nfs4_seq) now t timeout p :
  sched_ok s -> RPC_IS_QUEUED s t = false -> RPC_IS_ACTIVATED s t = true -> 0 <= p ->
  time_is_after_jiffies now timeout = true ->
  t ∈ queued (sc_queue (__rpc_sleep_on_priority_timeout now t timeout p s)).
Proof.
  intros S Q A Hp T. unfold __rpc_sleep_on_priority_timeout. rewrite Q, T.
  destruct (add_wait_queue_ok s t p S Q A Hp) as [_ P]. unfold __rpc_do_sleep_on_priority, __rpc_add_timer. cbv zeta.
  change (sc_queue (on_task _ _ ?w)) with (sc_queue w).
  set (q := sc_queue (__rpc_add_wait_queue t p s)) in *.
  assert (t ∈ queued q) as H by (rewrite P; left).
  destruct (timer_list q); [exact H|]. destruct (time_before _ _); exact H.
Qed.

(** A task that is active, not asleep, and has a priority. *)
Definition may_sleep (s : sched nfs4_seq) (t : Z) : Prop :=
  RPC_IS_QUEUED s t = false /\ RPC_IS_ACTIVATED s t = true /\ 0 <= task_get s t tk_priority 0.

Lemma quarter_second now : time_is_after_jiffies now (u64 (now + Z.shiftr HZ 2)) = true.
Proof.
  unfold time_is_after_jiffies, time_before, time_after, s64, u64. change (Z.shiftr HZ 2) with 250.
  rewrite Zminus_mod_idemp_r. replace (now - (now + 250)) with (-250) by lia. by vm_compute.
Qed.

Lemma no_callback (s : sched nfs4_seq) t : rpc_set_tk_callback t None s = s.
Proof. done. Qed.

Lemma check_active (s : sched nfs4_seq) t : RPC_IS_ACTIVATED s t = true -> rpc_sleep_check_activated t s = (true, s).
Proof. intros A. unfold rpc_sleep_check_activated. by rewrite A. Qed.

(** However the call goes to sleep. *)
Lemma setup_sleeps j task (priv timed : bool) (w : sched nfs4_seq) :
  sched_ok w -> may_sleep w task ->
  let w' := if timed
            then (if priv then rpc_sleep_on_priority_timeout j task (u64 (j + Z.shiftr HZ 2)) RPC_PRIORITY_PRIVILEGED w
                  else rpc_sleep_on_timeout j task None (u64 (j + Z.shiftr HZ 2)) w)
            else (if priv then rpc_sleep_on_priority task RPC_PRIORITY_PRIVILEGED w else rpc_sleep_on task None w) in
  sched_ok w' /\ task ∈ queued (sc_queue w').
Proof.
  intros S (Q & A & P) w'. split.
  - eapply step_ok; [exact S|]. unfold w'. destruct timed, priv; by constructor.
  - unfold w'. destruct timed, priv; [unfold rpc_sleep_on_priority_timeout|unfold rpc_sleep_on_timeout|
      unfold rpc_sleep_on_priority|unfold rpc_sleep_on]; rewrite check_active by done; simpl negb; cbv iota;
      rewrite ?no_callback; [apply sleeps_timeout_queued|apply sleeps_timeout_queued|apply sleeps_queued|apply sleeps_queued];
      try done; apply quarter_second.
Qed.

(** ** The properties *)

(** C9: [nfs41_sequence_done] refines the specification of one slot.  Whatever the
    SEQUENCE status of a call that was sent: it returns, the slot ends with the
    sequence numbers and in the fate [slot_spec] gives (released or handed to a
    waiting task, kept for the same call to be sent again, or kept by a probe), the
    table stays well-formed, and every other slot in use keeps its numbers. *)
Theorem sequence_done_refines j clp c nr s :
  ts_ok (clp_table clp) -> sr_slot (c_seq c) = Some nr -> Z.testbit (ts_used (clp_table clp)) nr = true ->
  slot_get (ts_tbl (clp_table clp)) nr = Some s -> c_was_sent c = true -> seq_done s = false ->
  is_u32 (c_sr_target_highest_slotid c) -> 0 <= c_sr_highest_slotid c < NFS4_NO_SLOT ->
  exists ret clp' c', nfs41_sequence_done j clp c = Some (ret, (clp', c')) /\
    seq_post nr clp clp' c' (fst (slot_spec (seq_status c) (c_lone_sequence c) (seq_of s)))
      (snd (slot_spec (seq_status c) (c_lone_sequence c) (seq_of s))).
Proof. apply sequence_done_post. Qed.

(** [nfs4_setup_sequence] for a call without a slot.  It starts the call with a
    slot nobody else had, which is now marked, and with SEQUENCE results that say
    nothing was received yet; while the table drains only for a privileged call.
    Or it returns [-EAGAIN] with the task on the table's wait queue and no slot
    taken, and then the table drains, or all slots are in use, or memory is short.
    The slots in use keep their numbers. *)
Theorem setup_sequence_contract j task s st ret s' st' :
  ts_ok st -> may_sleep (ts_wq st) task -> sr_slot s = None ->
  nfs4_setup_sequence j task s st = (ret, (s', st')) ->
  ts_ok st' /\ holds (ts_tbl st) (ts_tbl st') /\
  ((ret = 0 /\ exists nr, sa_slot s' = Some nr /\ sr_slot s' = Some nr /\ sr_status s' = 1 /\ sr_timestamp s' = j /\
      Z.testbit (ts_used st) nr = false /\ ts_used st' = Z.setbit (ts_used st) nr /\
      0 <= nr <= max_slotid (ts_tbl st) /\ ts_wq st' = ts_wq st /\
      (draining (ts_tbl st) = true -> sa_privileged s = true)) \/
   (ret = - EAGAIN /\ s' = s /\ ts_used st' = ts_used st /\ task ∈ queued (sc_queue (ts_wq st')) /\
      (draining (ts_tbl st) = true /\ sa_privileged s = false \/
       (forall i, 0 <= i <= max_slotid (ts_tbl st) -> Z.testbit (ts_used st) i = true) \/
       false ∈ kmem (ts_tbl st)))).
Proof.
  intros [O W] Hs Hn. unfold nfs4_setup_sequence. rewrite Hn.
  destruct (setup_sleeps j task (sa_privileged s) false (ts_wq st) W Hs) as [W1 Q1].
  destruct (setup_sleeps j task (sa_privileged s) true (ts_wq st) W Hs) as [W2 Q2].
  unfold nfs4_slot_tbl_draining. destruct (draining (ts_tbl st) && negb (sa_privileged s)) eqn:Ed.
  { intros [= <- <- <-]. apply andb_true_iff in Ed as [Ed Ep]. apply negb_true_iff in Ep.
    split; [by split|]. split; [by apply holds_refl|]. right. split_and!; try done. by left. }
  destruct (nfs4_alloc_slot (ts_tbl st)) as [r t] eqn:Ea.
  pose proof (alloc_holds _ _ _ O Ea) as Ha.
  destruct (alloc_slot_spec _ _ _ O Ea) as (O' & K & _ & _ & _ & _ & P). destruct r as [nr|e].
  - destruct P as (Hi & Bi & Lo & U & L & _). unfold nfs4_sequence_attach_slot. intros [= <- <- <-].
    set (f := fun sl : nfs4_slot => sl <| slot_privileged := sa_privileged s |>).
    assert (Hf : keeps_nr f) by done.
    split; [by split; [apply on_slot_ok|]|]. split.
    { eapply holds_trans; [exact Ha|]. intros i. destruct (decide (i = nr)) as [->|]; [|by apply on_slot_holds].
      intros B. split; [done|]. destruct (used_exists t nr O' B) as [s0 G]. exists s0, (f s0).
      split_and!; [done|by apply on_slot_at|done]. }
    left. split; [done|]. exists nr. split_and!; try done; try lia.
    intros D. rewrite D in Ed. by destruct (sa_privileged s).
  - destruct P as [U Pe]. assert (Re : (forall i, 0 <= i <= max_slotid (ts_tbl st) -> Z.testbit (ts_used st) i = true) \/
       false ∈ kmem (ts_tbl st)) by (destruct Pe as [(_ & _ & Pe)|[_ Pe]]; [by left|by right]).
    destruct (e =? - ENOMEM); intros [= <- <- <-]; (split; [by split|]); (split; [done|]); right; split_and!; try done; by right.
Qed.

(** ** A call *)

(** A call on slot 0 of a table with two slots in use and two tasks waiting: its
    reply acknowledges the number and the slot goes to the first waiting task. *)
Definition sample_clp : nfs_client := mk_clp (mk_ts sample_busy sample_waiters) 0 [].
Definition sample_call : nfs4_call := mk_call (mk_seq true false (Some 0) (Some 0) 5 0 0) 1 1 0 true false None None.

Lemma sequence_done_refines_witness :
  exists ret clp' c' s, slot_get sample_busy 0 = Some s /\
    nfs41_sequence_done 9 sample_clp sample_call = Some (ret, (clp', c')) /\
    seq_post 0 sample_clp clp' c' (with_seq (ss_seq (seq_of s) + 1) (acked (seq_of s))) Released.
Proof.
  destruct (slot_get sample_busy 0) as [s|] eqn:G; [|vm_compute in G; discriminate G].
  destruct (sequence_done_refines 9 sample_clp sample_call 0 s (ts_reachable_ok _ sample_busy_reachable) eq_refl eq_refl G
    eq_refl) as (ret & clp' & c' & E & P).
  - assert (option_map seq_done (slot_get sample_busy 0) = Some false) as H by (vm_compute; reflexivity).
    rewrite G in H. injection H as H. exact H.
  - unfold is_u32. simpl. lia.
  - vm_compute. split; [discriminate|reflexivity].
  - exists ret, clp', c', s. split; [reflexivity|]. split; [exact E|exact P].
Defined.

(** A call of task 3 when slot 0 is free. *)
Definition sample_caller : sched nfs4_seq :=
  sample_waiters <| sc_tasks := <[3 := sample_waiter false]> (sc_tasks sample_waiters) |>.

Lemma sample_caller_ok : sched_ok sample_caller.
Proof.
  apply (other_task_ok sample_waiters); [apply (ts_reachable_ok _ sample_freed_reachable)|..].
  - intros H. assert (bool_decide (3 ∈ queued (sc_queue sample_waiters)) = false) as E by (vm_compute; reflexivity).
    by apply bool_decide_eq_false in E.
  - intros [H _]. vm_compute in H. discriminate H.
Qed.

Lemma setup_sequence_contract_witness :
  exists s' st', nfs4_setup_sequence 9 3 (mk_seq true false None None 0 0 0) (mk_ts sample_freed sample_caller) = (0, (s', st')) /\
    sr_slot s' = Some 0 /\ ts_ok st'.
Proof.
  destruct (nfs4_setup_sequence 9 3 (mk_seq true false None None 0 0 0) (mk_ts sample_freed sample_caller))
    as [ret [s' st']] eqn:E.
  assert (H : (fun r => (fst r, sr_slot (fst (snd r)))) (nfs4_setup_sequence 9 3 (mk_seq true false None None 0 0 0)
    (mk_ts sample_freed sample_caller)) = (0, Some 0)) by (vm_compute; reflexivity).
  rewrite E in H. simpl in H. injection H as -> H.
  destruct (setup_sequence_contract 9 3 (mk_seq true false None None 0 0 0) (mk_ts sample_freed sample_caller) _ _ _ (conj sample_freed_ok sample_caller_ok)
    ltac:(vm_compute; repeat split; congruence) eq_refl E)
    as [O _].
  exists s', st'. split; [reflexivity|]. split; [exact H|exact O].
Defined.
