(* ===== verification/SeqProtocol.v ===== *)
(** * NFSv4.1 sessions: client and server together

    One slot of a session between the client's slot ([SeqClient]) and the
    server's reply cache ([SeqServer]), over a network that may lose, delay,
    reorder and repeat every request and reply.  The client asks for its replies
    to be cached ([sa_cache_this]).  Every call is run exactly once before the
    client sees it answered, and the answer is the one that run produced. *)

From S2P Require Import Prelude Xdr SeqServer SeqServerTheorems SeqClient SeqClientTheorems.
From stdpp Require Import list gmap.
#[local] Open Scope Z_scope.

(** ** The system *)

(** The result of running a call: status, number of operations and the reply's
    bytes after the SEQUENCE result. *)
Record answer := mk_ans { an_status : Z; an_opcnt : Z; an_body : list byte }.
Inductive reply := Answer (a : answer) | Refused (e : Z).

(** The SEQUENCE status the client reads from a reply. *)
Definition reply_status (rep : reply) : Z := match rep with Answer _ => 0 | Refused e => - e end.

(** The client's slot, the number of calls it has started and whether the last
    one is open; the server; the requests (call, sequence number) and replies
    that may arrive, any number of times; the calls the server has started, in
    order, newest first, the one it is running, and the results; and the replies
    the client has accepted. *)
Record sys := mk_sys {
  y_slot : seq_state;
  y_calls : nat;
  y_open : bool;
  y_nn : nfsd_net;
  y_net : list (nat * Z);
  y_replies : list (nat * reply);
  y_started : list nat;
  y_running : option (nat * nfsd4_sequence_u * nfsd4_compoundres);
  y_results : list (nat * answer);
  y_accepted : list (nat * reply);
}.

Section Protocol.
  (** The session [a] with channel [fc] and transport [x], the slot [i], and what
      the client asks for in its n-th call. *)
  Context (sid : list byte) (a : Z) (fc : nfsd4_channel_attrs) (x i : Z) (req : nat -> svc_rqst).

(** The SEQUENCE arguments of a request. *)
Definition seq_args (q : Z) : nfsd4_sequence_u := mk_sequ sid q i 0 true 0.

(** A reply buffer as a request finds it, with room for SEQUENCE, for an error
    and for a stored reply. *)
Record fresh_reply (rq : svc_rqst) (r : nfsd4_compoundres) : Prop := {
  fr_opcnt : rs_opcnt r = 1;
  fr_slot : cs_slot r = None;
  fr_status : cs_status r = 0;
  fr_limit : zlen (rs_out r) + 44 + COMPOUND_ERR_SLACK_SPACE <= reply_limit fc rq (seq_args 0);
  fr_room : zlen (rs_out r) + 44 + COMPOUND_ERR_SLACK_SPACE + maxresp_cached fc <= rs_buflen r;
}.

(** A reply the server can have produced for the request: every operation ran,
    or the last one that ran failed. *)
Record finished (rq : svc_rqst) (n : answer) : Prop := {
  fi_opcnt : 1 <= an_opcnt n <= opcnt rq;
  fi_status : an_opcnt n < opcnt rq -> an_status n <> 0;
  fi_status2 : an_status n <> nfserr_replay_cache;
  fi_body : zlen (an_body n) <= maxresp_cached fc;
}.

Inductive sys_step : sys -> sys -> Prop :=
(** the client starts a call *)
| y_start y :
    y_open y = false ->
    sys_step y (mk_sys (y_slot y) (S (y_calls y)) true (y_nn y) ((y_calls y, ss_seq (y_slot y)) :: y_net y)
      (y_replies y) (y_started y) (y_running y) (y_results y) (y_accepted y))
(** a request arrives and is run *)
| y_run y n q e r nn' seq' r' :
    (n, q) ∈ y_net y -> fresh_reply (req n) r -> sv_conn e = true -> sv_now e <> 0 ->
    nfsd4_sequence e (y_nn y) (req n) (seq_args q) r = (nfs_ok, (nn', seq', r')) ->
    cs_status r' <> nfserr_replay_cache ->
    sys_step y (mk_sys (y_slot y) (y_calls y) (y_open y) nn' (y_net y) (y_replies y)
      (n :: y_started y) (Some (n, seq', r')) (y_results y) (y_accepted y))
(** a request arrives and is answered from the cache *)
| y_replay y n q e r st nn' seq' r' oks now :
    (n, q) ∈ y_net y -> fresh_reply (req n) r -> sv_conn e = true -> sv_now e <> 0 -> now <> 0 ->
    nfsd4_sequence e (y_nn y) (req n) (seq_args q) r = (st, (nn', seq', r')) ->
    cs_status r' = nfserr_replay_cache ->
    sys_step y (mk_sys (y_slot y) (y_calls y) (y_open y) (nfsd4_sequence_done now oks nn' (req n) r') (y_net y)
      ((n, Answer (mk_ans st (rs_opcnt r') (zdrop (zlen (rs_out r) + 44) (rs_out r')))) :: y_replies y)
      (y_started y) (y_running y) (y_results y) (y_accepted y))
(** a request arrives and is refused *)
| y_refuse y n q e r st nn' seq' r' oks now :
    (n, q) ∈ y_net y -> fresh_reply (req n) r -> sv_conn e = true -> sv_now e <> 0 -> now <> 0 ->
    nfsd4_sequence e (y_nn y) (req n) (seq_args q) r = (st, (nn', seq', r')) ->
    st <> nfs_ok -> cs_status r' <> nfserr_replay_cache ->
    sys_step y (mk_sys (y_slot y) (y_calls y) (y_open y) (nfsd4_sequence_done now oks nn' (req n) r') (y_net y)
      ((n, Refused st) :: y_replies y) (y_started y) (y_running y) (y_results y) (y_accepted y))
(** the server finishes the request it runs: SEQUENCE and the other operations
    have been encoded *)
| y_finish y n seq' r' op r1 res now :
    y_running y = Some (n, seq', r') -> finished (req n) res -> now <> 0 ->
    encode_seq_op (req n) true seq' (mk_op OP_SEQUENCE 0) r' = (op, r1) ->
    let r2 := mk_res (rs_out r1 ++ an_body res) (rs_buflen r1) (an_opcnt res) (an_status res) (cs_slot r1)
                (cs_data_offset r1) in
    sys_step y (mk_sys (y_slot y) (y_calls y) (y_open y)
      (nfsd4_sequence_done now (true, true, true) (y_nn y) (req n) r2) (y_net y)
      ((n, Answer res) :: y_replies y) (y_started y) None ((n, res) :: y_results y) (y_accepted y))
(** a reply to the open call reaches the client *)
| y_reply y n rep q f :
    y_open y = true -> y_calls y = S n -> (n, rep) ∈ y_replies y ->
    slot_spec (reply_status rep) false (y_slot y) = (q, f) ->
    sys_step y (mk_sys q (y_calls y) (match f with Kept => true | _ => false end) (y_nn y) (y_net y) (y_replies y)
      (y_started y) (y_running y) (y_results y)
      (match f with Kept => y_accepted y | _ => (n, rep) :: y_accepted y end))
(** anything else on the server that leaves the session and this slot alone *)
| y_other y nn' :
    live nn' sid a fc x -> slot_at nn' a i = slot_at (y_nn y) a i ->
    sys_step y (mk_sys (y_slot y) (y_calls y) (y_open y) nn' (y_net y) (y_replies y) (y_started y) (y_running y)
      (y_results y) (y_accepted y)).

Inductive sys_reachable : sys -> Prop :=
| y_init nn size :
    live nn sid a fc x -> slot_at nn a i = Some (zero_slot size) ->
    sys_reachable (mk_sys (mk_ss 1 0 1) 0 false nn [] [] [] None [] [])
| y_step y y' : sys_reachable y -> sys_step y y' -> sys_reachable y'.

(** ** What is assumed of the calls *)

(** Requests fit the session, start with SEQUENCE, and their credentials have a
    copy that compares equal. *)
Record requests_ok : Prop := {
  rq_lim : forall n q, in_limits fc (req n) (seq_args q);
  rq_via : forall n, rq_xprt (req n) = x;
  rq_first : forall n, exists ops, rq_ops (req n) = mk_op OP_SEQUENCE 0 :: ops;
  rq_count : forall n, opcnt (req n) < 2 ^ 16;
  rq_sid : zlen sid = NFS4_MAX_SESSIONID_LEN;
  rq_resp : 0 <= maxresp_cached fc < 2 ^ 31;
}.

(** ** Invariant *)

(** Calls [0 .. k-1], newest first. *)
Definition upto (k : nat) : list nat := rev (List.seq 0 k).

Lemma upto_S k : upto (S k) = k :: upto k.
Proof. unfold upto. rewrite seq_S, rev_app_distr. done. Qed.

Lemma elem_upto n k : n ∈ upto k <-> (n < k)%nat.
Proof.
  unfold upto. rewrite list_elem_of_In, <- in_rev, in_seq. lia.
Qed.

(** The stored reply answers a retransmission of call [n] with [res]. *)
Record stores (sl : nfsd4_slot) (n : nat) (res : answer) : Prop := {
  st_init : sl_initialized sl = true;
  st_cached : sl_cached sl = true;
  st_cachethis : sl_cachethis sl = true;
  st_status : sl_status sl = an_status res;
  st_opcnt : sl_opcnt sl = an_opcnt res;
  st_data : sl_data sl = an_body res;
  st_len : sl_datalen sl = zlen (an_body res);
  st_cred : same_creds (rq_cred (req n)) (sl_cred sl) = true;
  st_fin : finished (req n) res;
}.

(** [k] calls have been started by the server, of which the last may be running. *)
Record sys_inv (y : sys) (k : nat) (sl : nfsd4_slot) : Prop := {
  iv_live : live (y_nn y) sid a fc x;
  iv_slot : slot_at (y_nn y) a i = Some sl;
  iv_seqid : sl_seqid sl = Z.of_nat k;
  iv_started : y_started y = upto k;
  iv_calls : if y_open y then (y_calls y = k \/ y_calls y = S k) /\ (0 < y_calls y)%nat else y_calls y = k;
  iv_client : ss_seq (y_slot y) = Z.of_nat (if y_open y then y_calls y else S (y_calls y));
  iv_net : forall n q, (n, q) ∈ y_net y -> (n < y_calls y)%nat /\ q = Z.of_nat (S n);
  iv_run : match y_running y with
    | Some (n, seq', r) => sl_inuse sl = true /\ sl_cachethis sl = true /\ k = S n /\ y_open y = true /\
        y_calls y = k /\ (y_results y).*1 = upto n /\ rs_opcnt r = 1 /\
        cs_slot r = Some (a, i) /\ sq_sessionid seq' = sid /\
        zlen (rs_out r) + 44 + COMPOUND_ERR_SLACK_SPACE <= rs_buflen r
    | None => sl_inuse sl = false /\ (y_results y).*1 = upto k /\
        forall n, k = S n -> exists res, (n, res) ∈ y_results y /\ stores sl n res
    end;
  iv_replies : forall n rep, (n, rep) ∈ y_replies y -> (n < k)%nat /\
    match rep with
    | Answer res => (n, res) ∈ y_results y
    | Refused e => e = nfserr_jukebox \/ (S n < k)%nat
    end;
  iv_accepted : forall n rep, (n, rep) ∈ y_accepted y ->
    exists res, rep = Answer res /\ (n, res) ∈ y_results y;
  iv_closed : forall n, (n < (if y_open y then Nat.pred (y_calls y) else y_calls y))%nat ->
    exists rep, (n, rep) ∈ y_accepted y;
}.

Lemma copy_same c : same_creds c (copy_cred (true, true, true) c) = true.
Proof.
  unfold copy_cred, kstrdup, missing. destruct c as [u g gi fl rp p tp]. simpl.
  assert (forall s : option (list byte), match s with Some _ => match s with Some _ => false | None => true end
    | None => false end = false) as E by (by intros []).
  unfold same_creds, is_gss_cred, groups_equal. rewrite !E. simpl.
  rewrite Bool.eqb_reflx, !Z.eqb_refl, bool_decide_eq_true_2 by done. simpl.
  destruct p; [by rewrite bool_decide_eq_true_2|done].
Qed.

Lemma limit_restrict rq r q :
  0 <= maxresp_cached fc -> fresh_reply rq r ->
  exists r1, reply_restrict (reply_limit fc rq (seq_args q)) r = Some r1 /\ rs_out r1 = rs_out r /\
    rs_opcnt r1 = rs_opcnt r /\ cs_status r1 = cs_status r /\
    zlen (rs_out r) + 44 + COMPOUND_ERR_SLACK_SPACE <= rs_buflen r1.
Proof.
  intros Hm [_ _ _ Hl Hr]. change (reply_limit fc rq (seq_args 0)) with (reply_limit fc rq (seq_args q)) in Hl.
  set (lim := reply_limit fc rq (seq_args q)) in *. unfold reply_restrict.
  pose proof (zlen_nonneg (rs_out r)). unfold COMPOUND_ERR_SLACK_SPACE in *.
  rewrite (proj2 (Z.ltb_ge lim 0)), (proj2 (Z.ltb_ge lim (zlen _))) by lia. simpl.
  destruct (Z.ltb_spec (rs_buflen r) lim); eexists; (split; [reflexivity|]); split_and!; try done; simpl; lia.
Qed.

Lemma matches_stored sl n res q :
  stores sl n res -> replay_matches_cache (req n) (seq_args q) sl = true.
Proof.
  intros [_ _ C S N _ _ Cr [F1 F2 _ _]]. unfold replay_matches_cache. rewrite C, S, N. simpl.
  rewrite (proj2 (Z.ltb_ge (opcnt (req n)) (an_opcnt res))) by lia. rewrite Cr.
  destruct (Z.ltb_spec (an_opcnt res) (opcnt (req n))) as [Lt|]; simpl; [|done].
  by rewrite (proj2 (Z.eqb_neq _ _) (F2 Lt)).
Qed.

(** What an arriving request meets. *)
Inductive arrival (y : sys) (k : nat) (sl : nfsd4_slot) (n : nat) (q : Z) (r : nfsd4_compoundres)
    : Z -> nfsd_net -> nfsd4_sequence_u -> nfsd4_compoundres -> Prop :=
| arr_run nn' seq' r' :
    n = k -> sl_inuse sl = false -> slot_at nn' a i = Some (taken (seq_args q) sl) ->
    rs_out r' = rs_out r -> rs_opcnt r' = 1 -> cs_slot r' = Some (a, i) -> cs_status r' = 0 ->
    sq_sessionid seq' = sid -> zlen (rs_out r) + 44 + COMPOUND_ERR_SLACK_SPACE <= rs_buflen r' ->
    arrival y k sl n q r nfs_ok nn' seq' r'
| arr_replay nn' seq' r' res :
    S n = k -> sl_inuse sl = false -> slot_at nn' a i = Some sl -> (n, res) ∈ y_results y ->
    rs_opcnt r' = an_opcnt res -> zdrop (zlen (rs_out r) + 44) (rs_out r') = an_body res ->
    cs_slot r' = Some (a, i) -> cs_status r' = nfserr_replay_cache ->
    arrival y k sl n q r (an_status res) nn' seq' r'
| arr_refuse nn' seq' st :
    slot_at nn' a i = Some sl -> (n < k)%nat -> st <> nfs_ok -> (st = nfserr_jukebox \/ (S n < k)%nat) ->
    arrival y k sl n q r st nn' seq' r.

Lemma arrive y k sl n q e r st nn' seq' r' :
  requests_ok -> sys_inv y k sl -> Z.of_nat (y_calls y) < 2 ^ 32 - 1 ->
  (n, q) ∈ y_net y -> fresh_reply (req n) r -> sv_conn e = true -> sv_now e <> 0 ->
  nfsd4_sequence e (y_nn y) (req n) (seq_args q) r = (st, (nn', seq', r')) ->
  live nn' sid a fc x /\ arrival y k sl n q r st nn' seq' r'.
Proof.
  intros [RL RV RF RC RS RM] V Hb Hn Fr Hc Hw E. destruct (iv_net y k sl V n q Hn) as [Ln ->].
  pose proof (iv_live _ _ _ V) as Lv. rewrite <- (RV n) in Lv |- *.
  pose proof (iv_slot _ _ _ V) as Sl. pose proof (iv_seqid _ _ _ V) as Sq.
  assert (Nk : (n <= k)%nat) by (pose proof (iv_calls _ _ _ V) as C; destruct (y_open y); lia).
  assert (Ck : (k <= y_calls y)%nat) by (pose proof (iv_calls _ _ _ V) as C; destruct (y_open y); lia).
  pose proof (sequence_refused (y_nn y) sid a fc sl e (req n) (seq_args (Z.of_nat (S n))) r Lv Sl eq_refl (RL n _) Hc Hw (fr_opcnt _ _ Fr)) as Ref.
  pose proof (fun r1 => sequence_fresh (y_nn y) sid a fc sl e (req n) (seq_args (Z.of_nat (S n))) r Lv Sl eq_refl (RL n _) Hc (fr_opcnt _ _ Fr) r1) as Fsh.
  pose proof (sequence_replayed (y_nn y) sid a fc sl e (req n) (seq_args (Z.of_nat (S n))) r Lv Sl eq_refl (RL n _) Hc (fr_opcnt _ _ Fr)) as Rep.
  unfold check_slot_seqid in Ref, Fsh, Rep. cbn [sq_seqid seq_args sq_slotid] in Ref, Fsh, Rep.
  rewrite Sq, u32_id in Ref, Fsh, Rep by (unfold is_u32; lia). rewrite E in Ref, Fsh, Rep.
  pose proof (iv_run _ _ _ V) as Run. destruct (y_running y) as [[[m sm] rm]|].
  - destruct Run as (U & _ & Km & Ho & Kc & _). rewrite U in Ref. clear Fsh Rep.
    destruct (Z.eqb_spec (Z.of_nat (S n)) (Z.of_nat k)) as [Ek|Ek].
    + destruct Ref as (nn2 & s2 & Eq & L2 & S2); [done|done|]. injection Eq as -> -> -> ->. split; [done|].
      apply arr_refuse; [done|lia|done|by left].
    + destruct Ref as (nn2 & s2 & Eq & L2 & S2); [done|done|]. injection Eq as -> -> -> ->. split; [done|].
      apply arr_refuse; [done|lia|done|right; lia].
  - destruct Run as (U & Rs & St). rewrite U in Ref, Fsh, Rep.
    destruct (Z.eqb_spec (Z.of_nat (S n)) (Z.of_nat k + 1)) as [Ek|Ek].
    + destruct (limit_restrict (req n) r (Z.of_nat (S n)) ltac:(lia) Fr) as (r1 & Er & Eo & Ep & Es & Eb).
      destruct (Fsh r1 eq_refl Er) as (nn2 & s2 & Eq & L2 & S2 & I2 & _). injection Eq as -> -> -> ->. split; [done|].
      apply arr_run; try done; [lia|simpl; rewrite Ep; apply Fr|simpl; rewrite Es; apply Fr].
    + destruct (Z.eqb_spec (Z.of_nat (S n)) (Z.of_nat k)) as [Ek2|Ek2].
      * destruct (St n ltac:(lia)) as (res & Hres & Sto).
        destruct (Rep eq_refl (st_init _ _ _ Sto) (matches_stored _ _ _ _ Sto)) as (nn2 & s2 & s1 & R).
        destruct (RF n) as [ops Hops].
        destruct (nfsd4_replay_cache_entry (sv_ops e) (req n) sl s1 (r <| cs_slot := Some (a, i) |>)) as [st3 r3] eqn:E3.
        destruct R as (Eq & L2 & S2 & I1 & _). injection Eq as -> -> -> ->. split; [done|].
        destruct (replay_entry (sv_ops e) (req n) sl s1 (r <| cs_slot := Some (a, i) |>) ops Hops) as (r4 & E4 & O4 & P4 & C4).
        -- apply Fr.
        -- by rewrite I1.
        -- apply Sto.
        -- by rewrite (st_len _ _ _ Sto), (st_data _ _ _ Sto).
        -- simpl. rewrite (st_data _ _ _ Sto). pose proof (fr_room _ _ Fr). pose proof (fi_body _ _ (st_fin _ _ _ Sto)).
           unfold seq_slack, COMPOUND_ERR_SLACK_SPACE in *. destruct (nfsd4_last_compound_op _ _); lia.
        -- rewrite E3 in E4. injection E4 as -> ->. rewrite (st_status _ _ _ Sto).
           eapply arr_replay; try done; [lia|simpl; rewrite P4; apply Sto|].
           change (rs_out (r4 <| cs_status := _ |>)) with (rs_out r4). rewrite O4.
           change (rs_out (r <| cs_slot := _ |>)) with (rs_out r). rewrite app_assoc, zdrop_app_exact; [apply Sto|].
           rewrite zlen_app. unfold seq_op_bytes. rewrite !zlen_app, !zlen_be32, zlen_seq_result by (by rewrite I1). done.
      * destruct Ref as (nn2 & s2 & Eq & L2 & S2); [done|done|]. injection Eq as -> -> -> ->. split; [done|].
        apply arr_refuse; [done|lia|done|right; lia].
Qed.

(** Ending a request puts the session back and stores the reply. *)
Lemma done_live now oks nn rq r :
  now <> 0 -> live nn sid a fc x -> cs_slot r = None \/ cs_slot r = Some (a, i) ->
  let nn' := nfsd4_sequence_done now oks nn rq r in
  live nn' sid a fc x /\
  slot_at nn' a i = match cs_slot r with
                    | Some _ => if cs_status r =? nfserr_replay_cache then slot_at nn a i
                                else (fun s => (nfsd4_store_cache_entry oks rq r s) <| sl_inuse := false |>) <$> slot_at nn a i
                    | None => slot_at nn a i
                    end.
Proof.
  intros Hw L [E|E]; unfold nfsd4_sequence_done; rewrite E; [done|].
  destruct (cs_status r =? nfserr_replay_cache); simpl.
  - by apply put_live.
  - destruct (set_slot_live nn sid a fc x i (fun s => (nfsd4_store_cache_entry oks rq r s) <| sl_inuse := false |>) L) as [L2 S2].
    rewrite <- S2. by apply put_live.
Qed.

Lemma inv_started_twice (l : list nat) n k : l = upto k -> n = k -> n :: l = upto (S k).
Proof. intros -> ->. by rewrite upto_S. Qed.

Section Step.
  Context (R : requests_ok) (y : sys) (k : nat) (sl : nfsd4_slot).
  Context (V : sys_inv y k sl) (Hb : Z.of_nat (y_calls y) < 2 ^ 32 - 1).

Lemma inv_start :
  y_open y = false ->
  sys_inv (mk_sys (y_slot y) (S (y_calls y)) true (y_nn y) ((y_calls y, ss_seq (y_slot y)) :: y_net y)
      (y_replies y) (y_started y) (y_running y) (y_results y) (y_accepted y)) k sl.
Proof.
  intros Ho. destruct V as [L S Q St C Cl N Ru Re A Cs]. rewrite Ho in *.
  split; simpl; try done; try lia.
  - intros n q [[= -> ->]|H]%elem_of_cons; [lia|]. destruct (N n q H). lia.
  - destruct (y_running y) as [[[n s] r]|]; [|done]. by destruct Ru as (_ & _ & _ & ? & _).
Qed.

Lemma inv_run n q e r nn' seq' r' :
  (n, q) ∈ y_net y -> fresh_reply (req n) r -> sv_conn e = true -> sv_now e <> 0 ->
  nfsd4_sequence e (y_nn y) (req n) (seq_args q) r = (nfs_ok, (nn', seq', r')) ->
  cs_status r' <> nfserr_replay_cache ->
  exists sl', sys_inv (mk_sys (y_slot y) (y_calls y) (y_open y) nn' (y_net y) (y_replies y)
      (n :: y_started y) (Some (n, seq', r')) (y_results y) (y_accepted y)) (S k) sl'.
Proof.
  intros Hn Fr Hc Hw E Hs. destruct (arrive y k sl n q e r _ nn' seq' r' R V Hb Hn Fr Hc Hw E) as [L' A].
  inversion A as [nn2 s2 r2 Ek U S2 O2 P2 C2 T2 I2 B2| |]; subst; [|done|done].
  destruct (iv_net _ _ _ V _ _ Hn) as [Lt ->]. destruct V as [L S Q St C Cl N Ru Re Ac Cs].
  destruct (y_running y) as [[[m sm] rm]|]; [destruct Ru as (Ru & _); congruence|]. destruct Ru as (_ & Rs & _).
  assert (y_open y = true /\ y_calls y = Datatypes.S k) as [Oy Cy] by (destruct (y_open y); lia).
  exists (taken (seq_args (Z.of_nat (Datatypes.S k))) sl). rewrite Oy, Cy in *.
  split; simpl; try done; try lia.
  - by rewrite St, upto_S.
  - split_and!; try done. by rewrite O2.
  - intros m rep H. destruct (Re m rep H) as [Hm Hr]. split; [lia|]. destruct rep; [done|]. destruct Hr; [by left|right; lia].
Qed.

Lemma inv_replay n q e r st nn' seq' r' oks now :
  (n, q) ∈ y_net y -> fresh_reply (req n) r -> sv_conn e = true -> sv_now e <> 0 -> now <> 0 ->
  nfsd4_sequence e (y_nn y) (req n) (seq_args q) r = (st, (nn', seq', r')) ->
  cs_status r' = nfserr_replay_cache ->
  sys_inv (mk_sys (y_slot y) (y_calls y) (y_open y) (nfsd4_sequence_done now oks nn' (req n) r') (y_net y)
      ((n, Answer (mk_ans st (rs_opcnt r') (zdrop (zlen (rs_out r) + 44) (rs_out r')))) :: y_replies y)
      (y_started y) (y_running y) (y_results y) (y_accepted y)) k sl.
Proof.
  intros Hn Fr Hc Hw Hnow E Hs. destruct (arrive y k sl n q e r _ nn' seq' r' R V Hb Hn Fr Hc Hw E) as [L' A].
  inversion A as [nn2 s2 r2 Ek U S2 O2 P2 C2 T2 I2 B2|nn2 s2 r2 res Ek U S2 Hr P2 D2 C2 T2|nn2 s2 st2 S2 Lt Ne Ca]; subst.
  - by rewrite T2 in Hs.
  - destruct (done_live now oks nn' (req n) r' Hnow L' (or_intror C2)) as [L3 S3]. rewrite C2, Hs in S3. simpl in S3.
    rewrite S2 in S3. destruct V as [L S Q St C Cl N Ru Re Ac Cs]. split; simpl; try done.
    intros m rep [[= -> ->]|H]%elem_of_cons; [|by apply Re]. split; [lia|]. rewrite P2, D2. by destruct res.
  - by rewrite (fr_status _ _ Fr) in Hs.
Qed.

Lemma inv_refuse n q e r st nn' seq' r' oks now :
  (n, q) ∈ y_net y -> fresh_reply (req n) r -> sv_conn e = true -> sv_now e <> 0 -> now <> 0 ->
  nfsd4_sequence e (y_nn y) (req n) (seq_args q) r = (st, (nn', seq', r')) ->
  st <> nfs_ok -> cs_status r' <> nfserr_replay_cache ->
  sys_inv (mk_sys (y_slot y) (y_calls y) (y_open y) (nfsd4_sequence_done now oks nn' (req n) r') (y_net y)
      ((n, Refused st) :: y_replies y) (y_started y) (y_running y) (y_results y) (y_accepted y)) k sl.
Proof.
  intros Hn Fr Hc Hw Hnow E Hst Hs. destruct (arrive y k sl n q e r _ nn' seq' r' R V Hb Hn Fr Hc Hw E) as [L' A].
  inversion A as [nn2 s2 r2 Ek U S2 O2 P2 C2 T2 I2 B2|nn2 s2 r2 res Ek U S2 Hr P2 D2 C2 T2|nn2 s2 st2 S2 Lt Ne Ca]; subst.
  - done.
  - done.
  - destruct (done_live now oks nn' (req n) r' Hnow L' (or_introl (fr_slot _ _ Fr))) as [L3 S3].
    rewrite (fr_slot _ _ Fr), S2 in S3. destruct V as [L S Q St C Cl N Ru Re Ac Cs]. split; simpl; try done.
    intros m rep [[= -> ->]|H]%elem_of_cons; [done|by apply Re].
Qed.

Lemma inv_finish n seq' r' op r1 res now :
  y_running y = Some (n, seq', r') -> finished (req n) res -> now <> 0 ->
  encode_seq_op (req n) true seq' (mk_op OP_SEQUENCE 0) r' = (op, r1) ->
  let r2 := mk_res (rs_out r1 ++ an_body res) (rs_buflen r1) (an_opcnt res) (an_status res) (cs_slot r1)
              (cs_data_offset r1) in
  exists sl', sys_inv (mk_sys (y_slot y) (y_calls y) (y_open y)
      (nfsd4_sequence_done now (true, true, true) (y_nn y) (req n) r2) (y_net y)
      ((n, Answer res) :: y_replies y) (y_started y) None ((n, res) :: y_results y) (y_accepted y)) k sl'.
Proof.
  intros Er Fi Hnow E r2. destruct V as [L S Q St C Cl N Ru Re Ac Cs]. rewrite Er in Ru.
  destruct Ru as (U & Ct & Kn & Oy & Cy & Rs & P1 & C1 & I1 & B1).
  pose proof R as [RL RV RF RC RS RM].
  rewrite encode_seq_op_eq in E; [|by rewrite I1|].
  2: { unfold seq_slack, COMPOUND_ERR_SLACK_SPACE in *. destruct (nfsd4_last_compound_op _ _); lia. }
  injection E as <- <-. destruct (done_live now (true, true, true) (y_nn y) (req n) r2 Hnow L (or_intror C1)) as [L3 S3].
  change (cs_slot r2) with (cs_slot r') in S3. change (cs_status r2) with (an_status res) in S3.
  rewrite C1, S, (proj2 (Z.eqb_neq _ _) (fi_status2 _ _ Fi)) in S3. simpl in S3.
  destruct (store_cached (true, true, true) (req n) r2 sl (rs_out r' ++ seq_op_bytes seq') (an_body res))
    as (A1 & A2 & A3 & A4 & A5 & A6 & A7 & A8 & A9 & _).
  { done. }
  { change (cs_data_offset r2) with (zlen (rs_out r') + 44). rewrite zlen_app. unfold seq_op_bytes.
    rewrite !zlen_app, !zlen_be32, zlen_seq_result by (by rewrite I1). done. }
  { pose proof (fi_body _ _ Fi). lia. }
  { unfold nfsd4_cache_this. by rewrite Ct. }
  set (s' := nfsd4_store_cache_entry (true, true, true) (req n) r2 sl) in *.
  exists (s' <| sl_inuse := false |>). rewrite Oy in *.
  split; simpl; try done.
  - by rewrite A7.
  - split; [done|]. split; [rewrite Kn, upto_S; f_equal; exact Rs|]. intros m Hm. assert (m = n) as -> by lia.
    exists res. split; [by left|]. split; simpl; try done; try congruence.
    + rewrite A6. change (rs_opcnt r2) with (an_opcnt res). unfold u16. apply Z.mod_small.
      pose proof (fi_opcnt _ _ Fi). pose proof (RC n). lia.
    + rewrite A9. apply copy_same.
  - intros m rep [[= -> ->]|H]%elem_of_cons; [split; [lia|by left]|]. destruct (Re m rep H) as [Hm Hr].
    split; [done|]. destruct rep; [by right|done].
  - intros m rep H. destruct (Ac m rep H) as (r0 & -> & Hr). exists r0. split; [done|by right].
Qed.

Lemma inv_reply n rep q f :
  y_open y = true -> y_calls y = S n -> (n, rep) ∈ y_replies y ->
  slot_spec (reply_status rep) false (y_slot y) = (q, f) ->
  sys_inv (mk_sys q (y_calls y) (match f with Kept => true | _ => false end) (y_nn y) (y_net y) (y_replies y)
      (y_started y) (y_running y) (y_results y)
      (match f with Kept => y_accepted y | _ => (n, rep) :: y_accepted y end)) k sl.
Proof.
  intros Oy Cy Hr E. destruct V as [L S Q St C Cl N Ru Re Ac Cs]. rewrite Oy in *.
  destruct (Re n rep Hr) as [Hn Hrep]. assert (k = Datatypes.S n) as -> by lia.
  destruct rep as [res|er]; simpl in E.
  - injection E as <- <-. rewrite Cy in *. simpl in Cl.
    split; simpl; try done; try lia.
    + rewrite Cl, u32_id by (unfold is_u32; lia). lia.
    + destruct (y_running y) as [[[m sm] rm]|]; [|done]. exfalso.
      destruct Ru as (_ & _ & Km & _ & _ & Rs & _). assert (m = n) as -> by lia.
      assert (n ∈ (y_results y).*1) as Hin by (apply list_elem_of_fmap; by exists (n, res)).
      rewrite Rs in Hin. apply elem_upto in Hin. lia.
    + intros m rep [[= -> ->]|H]%elem_of_cons; [by exists res|by apply Ac].
    + intros m Hm. destruct (decide (m = n)) as [->|]; [exists (Answer res); left|].
      destruct (Cs m) as [rep H]; [simpl; lia|]. exists rep. by right.
  - destruct Hrep as [->|Hl]; [|lia]. change (slot_spec (- nfserr_jukebox) false (y_slot y)) with (y_slot y, Kept) in E.
    injection E as <- <-. rewrite Cy in *. by split.
Qed.

Lemma inv_other nn' :
  live nn' sid a fc x -> slot_at nn' a i = slot_at (y_nn y) a i ->
  sys_inv (mk_sys (y_slot y) (y_calls y) (y_open y) nn' (y_net y) (y_replies y) (y_started y) (y_running y)
      (y_results y) (y_accepted y)) k sl.
Proof. intros L' S'. destruct V as [L S Q St C Cl N Ru Re Ac Cs]. split; simpl; try done. by rewrite S'. Qed.
End Step.

Lemma calls_mono y y' : sys_step y y' -> (y_calls y <= y_calls y')%nat.
Proof. intros H. destruct H; simpl; lia. Qed.

Lemma sys_invariant y :
  requests_ok -> sys_reachable y -> Z.of_nat (y_calls y) < 2 ^ 32 - 1 -> exists k sl, sys_inv y k sl.
Proof.
  intros R. induction 1 as [nn size L S|y y' Hy IH H].
  - intros _. exists O, (zero_slot size). split; simpl; try done; try lia.
    all: by intros ? ? ?%elem_of_nil.
  - intros Hb. pose proof (calls_mono y y' H). destruct IH as (k & sl & V); [lia|].
    assert (Hb' : Z.of_nat (y_calls y) < 2 ^ 32 - 1) by lia. destruct H.
    + exists k, sl. by apply inv_start.
    + exists (S k). by eapply inv_run.
    + exists k, sl. by eapply inv_replay.
    + exists k, sl. by eapply inv_refuse.
    + exists k. by eapply inv_finish.
    + exists k, sl. by eapply inv_reply.
    + exists k, sl. by apply inv_other.
Qed.
End Protocol.

Arguments sys_reachable : clear implicits.
Arguments requests_ok : clear implicits.


(** ** A run *)

(** One call, delivered twice and answered from the cache the second time. *)
Abbreviation sample_reachable_sys := (sys_reachable sample_sid 5 sample_fc 7 0 (fun _ => sample_rq)).

Lemma sample_requests_ok : requests_ok sample_sid sample_fc 7 0 (fun _ => sample_rq).
Proof.
  constructor; try (intros; vm_compute; (reflexivity || (split; congruence) || congruence)).
  - intros n q. constructor; vm_compute; try split; congruence.
  - intros n. exists [mk_op 9 0]. reflexivity.
Qed.

Lemma sample_fresh : fresh_reply sample_sid sample_fc 0 sample_rq sample_reply.
Proof. constructor; vm_compute; congruence. Qed.

(** The states of the run: the request is sent; the server starts it; it ends
    with an 8-byte result; the reply is lost, the retransmission is answered
    from the cache, and the client accepts that answer. *)
Definition sample_y1 : sys := mk_sys (mk_ss 1 0 1) 1 true sample_nn [(0%nat, 1)] [] [] None [] [].
Definition sample_sequence (nn : nfsd_net) := nfsd4_sequence sample_env nn sample_rq (seq_args sample_sid 0 1) sample_reply.
Definition sample_run := snd (sample_sequence sample_nn).
Definition sample_y2 : sys :=
  mk_sys (mk_ss 1 0 1) 1 true (fst (fst sample_run)) [(0%nat, 1)] [] [0%nat]
    (Some (0%nat, snd (fst sample_run), snd sample_run)) [] [].
Definition sample_res : answer := mk_ans 0 2 (replicate 8 x00).
Definition sample_end : nfsd_net :=
  let r1 := snd (encode_seq_op sample_rq true (snd (fst sample_run)) (mk_op OP_SEQUENCE 0) (snd sample_run)) in
  nfsd4_sequence_done 11 (true, true, true) (fst (fst sample_run)) sample_rq
    (mk_res (rs_out r1 ++ an_body sample_res) (rs_buflen r1) 2 0 (cs_slot r1) (cs_data_offset r1)).
Definition sample_y3 : sys :=
  mk_sys (mk_ss 1 0 1) 1 true sample_end [(0%nat, 1)] [(0%nat, Answer sample_res)] [0%nat] None
    [(0%nat, sample_res)] [].
Definition sample_again := snd (sample_sequence sample_end).
Definition sample_y4 : sys :=
  mk_sys (mk_ss 1 0 1) 1 true
    (nfsd4_sequence_done 12 (true, true, true) (fst (fst sample_again)) sample_rq (snd sample_again))
    [(0%nat, 1)] [(0%nat, Answer sample_res); (0%nat, Answer sample_res)] [0%nat] None [(0%nat, sample_res)] [].
Definition sample_y5 : sys :=
  mk_sys (mk_ss 2 1 1) 1 false (y_nn sample_y4) (y_net sample_y4) (y_replies sample_y4) [0%nat] None
    [(0%nat, sample_res)] [(0%nat, Answer sample_res)].

Lemma sample_finished : finished sample_fc sample_rq sample_res.
Proof. constructor; vm_compute; try split; congruence. Qed.

Lemma sample_again_eq :
  sample_sequence sample_end = (0, (fst (fst sample_again), snd (fst sample_again), snd sample_again)).
Proof. vm_compute. reflexivity. Qed.
Lemma sample_again_status : cs_status (snd sample_again) = nfserr_replay_cache.
Proof. vm_compute. reflexivity. Qed.

Lemma sample_reach5 : sample_reachable_sys sample_y5.
Proof.
  pose proof sample_fresh as Fr.
  assert (R1 : sample_reachable_sys sample_y1).
  { eapply y_step; [eapply (y_init _ _ _ _ _ _ sample_nn 2048 sample_live); by vm_compute|].
    by apply (y_start _ _ _ _ _ _ (mk_sys (mk_ss 1 0 1) 0 false sample_nn [] [] [] None [] [])). }
  assert (R2 : sample_reachable_sys sample_y2).
  { eapply y_step; [exact R1|]. eapply (y_run _ _ _ _ _ _ sample_y1 0 1 sample_env sample_reply);
      first [done | by left | by vm_compute]. }
  assert (R3 : sample_reachable_sys sample_y3).
  { eapply y_step; [exact R2|]. unfold sample_y3, sample_end.
    apply (y_finish _ _ _ _ _ (fun _ => sample_rq) sample_y2 0 (snd (fst sample_run)) (snd sample_run) _ _ sample_res 11
      eq_refl sample_finished ltac:(done) (surjective_pairing _)). }
  assert (R4 : sample_reachable_sys sample_y4).
  { eapply y_step; [exact R3|].
    assert (rs_opcnt (snd sample_again) = 2 /\ zdrop (zlen (rs_out sample_reply) + 44) (rs_out (snd sample_again)) = replicate 8 x00)
      as [E1 E2] by by vm_compute.
    pose proof (y_replay sample_sid 5 sample_fc 7 0 (fun _ => sample_rq) sample_y3 0 1 sample_env sample_reply 0 (fst (fst sample_again)) (snd (fst sample_again))
      (snd sample_again) (true, true, true) 12) as H.
    rewrite E1, E2 in H. unfold sample_y4.
    apply (H ltac:(by left) Fr eq_refl ltac:(done) ltac:(done) sample_again_eq sample_again_status). }
  eapply y_step; [exact R4|].
  apply (y_reply _ _ _ _ _ _ sample_y4 0 (Answer sample_res) (mk_ss 2 1 1) Released eq_refl eq_refl ltac:(by left) eq_refl).
Qed.

