(* ===== verification/SeqCallback.v ===== *)
(** * NFSv4.1 sessions: the client's callback channel

    [fs/nfs/callback_proc.c] and [fs/nfs/callback_xdr.c]: the server sends
    CB_COMPOUND requests over the session's back channel.  CB_SEQUENCE checks the
    sequence number against the back channel's slot table ([Session]), takes the
    slot for the time of the compound and, when it succeeds, records the number;
    CB_RECALL_SLOT lowers the limit of the fore channel.

    While a callback waits for the calls it refers to, other tasks change the
    fore channel: their changes are an argument of the wait.  The slot the
    callback has taken is its own, so the back channel is left alone. *)

From S2P Require Import Prelude Xdr WaitQueue Session SeqClient.
From stdpp Require Import list gmap.
#[local] Open Scope Z_scope.

Definition NFS4ERR_RESOURCE := 10018.
Definition NFS4ERR_MINOR_VERS_MISMATCH := 10021.
Definition NFS4ERR_NOTSUPP := 10004.
Definition NFS4ERR_OP_ILLEGAL := 10044.
Definition NFS4ERR_SEQUENCE_POS := 10064.
Definition NFS4ERR_REP_TOO_BIG_TO_CACHE := 10067.
Definition NFS4ERR_OP_NOT_IN_SESSION := 10071.
Definition NFS4ERR_RESOURCE_HDR := 11050.
Definition ETIMEDOUT := 110.

Definition OP_CB_GETATTR := 3.
Definition OP_CB_RECALL := 4.
Definition OP_CB_LAYOUTRECALL := 5.
Definition OP_CB_NOTIFY := 6.
Definition OP_CB_PUSH_DELEG := 7.
Definition OP_CB_RECALL_ANY := 8.
Definition OP_CB_RECALLABLE_OBJ_AVAIL := 9.
Definition OP_CB_RECALL_SLOT := 10.
Definition OP_CB_SEQUENCE := 11.
Definition OP_CB_WANTS_CANCELLED := 12.
Definition OP_CB_NOTIFY_LOCK := 13.
Definition OP_CB_NOTIFY_DEVICEID := 14.
Definition OP_CB_OFFLOAD := 15.
Definition OP_CB_ILLEGAL := 10044.

(** ** Data *)

Record referring_call := mk_ref { rc_sequenceid : Z; rc_slotid : Z }.
Record referring_call_list := mk_rcl { rcl_sessionid : list byte; rcl_refcalls : list referring_call }.

Record cb_sequenceargs := mk_csa {
  csa_sessionid : list byte;
  csa_sequenceid : Z;
  csa_slotid : Z;
  csa_highestslotid : Z;
  csa_cachethis : Z;
  csa_rclists : list referring_call_list;
}.

Record cb_sequenceres := mk_csr {
  csr_status : Z;
  csr_sessionid : list byte;
  csr_sequenceid : Z;
  csr_slotid : Z;
  csr_highestslotid : Z;
  csr_target_highestslotid : Z;
}.
#[export] Instance upd_csr : Updatable cb_sequenceres := fun r =>
  mk_csr (csr_status r) (csr_sessionid r) (csr_sequenceid r) (csr_slotid r) (csr_highestslotid r)
    (csr_target_highestslotid r).

(** The client of a callback: its session (the fore channel's table is in
    [cb_fc], with its wait queue) and whether the session is being reset. *)
Record cb_client := mk_cbc {
  cb_sess_id : list byte;
  cb_back_chan : bool;              (* SESSION4_BACK_CHAN *)
  cb_fc : table_state;
  cb_bc : nfs4_slot_table;
  cb_reset : bool;                  (* NFS4CLNT_SESSION_RESET *)
  cb_notified : Z;                  (* calls of nfs41_notify_server *)
}.
#[export] Instance upd_cbc : Updatable cb_client := fun c =>
  mk_cbc (cb_sess_id c) (cb_back_chan c) (cb_fc c) (cb_bc c) (cb_reset c) (cb_notified c).

(** [cps_clp]: whether the compound has found the client. *)
Record cb_process_state := mk_cps {
  drc_status : Z;
  cps_clp : bool;
  cps_slot : option Z;
  minorversion : Z;
}.
#[export] Instance upd_cps : Updatable cb_process_state := fun c =>
  mk_cps (drc_status c) (cps_clp c) (cps_slot c) (minorversion c).

(** ** Waiting for the calls a callback refers to *)

(** What the other tasks do to the fore channel between two wake-ups. *)
Abbreviation fc_change := (nfs4_slot_table -> nfs4_slot_table).

(** [wait_event_timeout]: the condition is tested first and after every wake-up;
    no wake-up left is the timeout. *)
Fixpoint nfs4_slot_wait_on_seqid (env : list fc_change) (t : nfs4_slot_table) (slotid seq : Z)
    : Z * nfs4_slot_table :=
  let '(in_use, t) := nfs4_slot_seqid_in_use t slotid seq in
  if negb in_use then (0, t)
  else match env with
       | [] => (- ETIMEDOUT, t)
       | f :: env => nfs4_slot_wait_on_seqid env (f t) slotid seq
       end.

(** One list of referring calls; each wait takes its environment from [envs]. *)
Fixpoint referring_calls (envs : list (list fc_change)) (t : nfs4_slot_table) (refs : list referring_call)
    : Z * (list (list fc_change) * nfs4_slot_table) :=
  match refs with
  | [] => (0, (envs, t))
  | ref :: refs =>
      let '(ret, t) := nfs4_slot_wait_on_seqid (default [] (head envs)) t (rc_slotid ref) (rc_sequenceid ref) in
      let status := if ret <? 0 then 1 else 0 in
      if negb (status =? 0) then (status, (tail envs, t)) else referring_calls (tail envs) t refs
  end.

Fixpoint referring_call_exists (envs : list (list fc_change)) (sess_id : list byte) (t : nfs4_slot_table)
    (rclists : list referring_call_list) : Z * nfs4_slot_table :=
  match rclists with
  | [] => (0, t)
  | rclist :: rclists =>
      if negb (bool_decide (sess_id = rcl_sessionid rclist)) then referring_call_exists envs sess_id t rclists
      else
        let '(status, (envs, t)) := referring_calls envs t (rcl_refcalls rclist) in
        if negb (status =? 0) then (status, t) else referring_call_exists envs sess_id t rclists
  end.

(** ** CB_SEQUENCE *)

Definition validate_seqid (tbl : nfs4_slot_table) (slot : nfs4_slot) (args : cb_sequenceargs) : Z :=
  if server_highest_slotid tbl <? csa_slotid args then NFS4ERR_BADSLOT
  else if csa_sequenceid args =? seq_nr slot then
    if nfs4_test_locked_slot tbl (slot_nr slot) then NFS4ERR_DELAY
    else if csa_cachethis args =? 0 then NFS4ERR_RETRY_UNCACHED_REP
    else NFS4ERR_SEQ_FALSE_RETRY
  else if negb (csa_sequenceid args =? u32 (seq_nr slot + 1)) then NFS4ERR_SEQ_MISORDERED
  else 0.

(** The end of [nfs4_callback_sequence]: a retransmission is reported on the
    next operation. *)
Definition callback_sequence_out (found : bool) (status : Z) (res : cb_sequenceres) (cps : cb_process_state)
    (clp : cb_client) : Z * (cb_sequenceres * cb_process_state * cb_client) :=
  let cps := cps <| cps_clp := found |> in
  if status =? NFS4ERR_RETRY_UNCACHED_REP then (0, (res, cps <| drc_status := status |>, clp))
  else (status, (res <| csr_status := status |>, cps, clp)).

(** [found]: whether [nfs4_find_client_sessionid] finds this client. *)
Definition nfs4_callback_sequence (found : bool) (envs : list (list fc_change)) (args : cb_sequenceargs)
    (res : cb_sequenceres) (cps : cb_process_state) (clp : cb_client)
    : Z * (cb_sequenceres * cb_process_state * cb_client) :=
  let out := callback_sequence_out found in
  if negb found then out NFS4ERR_BADSESSION res cps clp
  else if negb (cb_back_chan clp) then out NFS4ERR_BADSESSION res cps clp
  else
    let res := res <| csr_sessionid := csa_sessionid args |> <| csr_sequenceid := csa_sequenceid args |>
                   <| csr_slotid := csa_slotid args |> in
    if draining (cb_bc clp)
    then out (if cb_reset clp then NFS4ERR_BADSESSION else NFS4ERR_DELAY) res cps clp
    else
      match nfs4_lookup_slot (cb_bc clp) (csa_slotid args) with
      | (Err _, t) => out NFS4ERR_BADSLOT res cps (clp <| cb_bc := t |>)
      | (Ok nr, t) =>
          let clp := clp <| cb_bc := t |> in
          let res := res <| csr_highestslotid := server_highest_slotid t |>
                         <| csr_target_highestslotid := target_highest_slotid t |> in
          match slot_get t nr with
          | None => out NFS4ERR_BADSLOT res cps clp
          | Some slot =>
              let status := validate_seqid t slot args in
              if negb (status =? 0) then out status res cps clp
              else
                match nfs4_try_to_lock_slot t nr with
                | (false, t) => out NFS4ERR_DELAY res cps (clp <| cb_bc := t |>)
                | (true, t) =>
                    let cps := cps <| cps_slot := Some nr |> in
                    let clp := clp <| cb_bc := t |> in
                    if negb (csa_cachethis args =? 0) then out NFS4ERR_REP_TOO_BIG_TO_CACHE res cps clp
                    else
                      let '(ref, fc) := referring_call_exists envs (cb_sess_id clp) (ts_tbl (cb_fc clp)) (csa_rclists args) in
                      let clp := clp <| cb_fc := mk_ts fc (ts_wq (cb_fc clp)) |> in
                      if ref <? 0 then out NFS4ERR_DELAY res cps clp
                      else
                        out 0 res cps
                          (clp <| cb_bc := on_slot nr (fun s => s <| seq_nr := csa_sequenceid args |>) t |>)
                end
          end
      end.

(** CB_RECALL_SLOT.  [None] is out of fuel in handing out slots. *)
Definition nfs4_callback_recallslot (jiffies target : Z) (cps : cb_process_state) (clp : cb_client)
    : option (Z * cb_client) :=
  if negb (cps_clp cps) then Some (NFS4ERR_OP_NOT_IN_SESSION, clp)
  else match nfs41_set_target_slotid jiffies (cb_fc clp) target with
       | None => None
       | Some fc => Some (0, clp <| cb_fc := fc |> <| cb_notified := cb_notified clp + 1 |>)
       end.

(** ** The compound *)

Definition preprocess_nfs41_op (nop op_nr : Z) : Z :=
  if (op_nr =? OP_CB_SEQUENCE) && negb (nop =? 0) then NFS4ERR_SEQUENCE_POS
  else if negb (op_nr =? OP_CB_SEQUENCE) && (nop =? 0) then NFS4ERR_OP_NOT_IN_SESSION
  else if bool_decide (op_nr ∈ [OP_CB_GETATTR; OP_CB_RECALL; OP_CB_SEQUENCE; OP_CB_RECALL_ANY; OP_CB_RECALL_SLOT;
                                OP_CB_LAYOUTRECALL; OP_CB_NOTIFY_DEVICEID; OP_CB_NOTIFY_LOCK]) then 0
  else if bool_decide (op_nr ∈ [OP_CB_NOTIFY; OP_CB_PUSH_DELEG; OP_CB_RECALLABLE_OBJ_AVAIL; OP_CB_WANTS_CANCELLED])
  then NFS4ERR_NOTSUPP
  else NFS4ERR_OP_ILLEGAL.

Definition preprocess_nfs42_op (nop op_nr : Z) : Z :=
  let status := preprocess_nfs41_op nop op_nr in
  if negb (status =? NFS4ERR_OP_ILLEGAL) then status
  else if op_nr =? OP_CB_OFFLOAD then 0 else NFS4ERR_NOTSUPP.

Definition preprocess_nfs4_op (op_nr : Z) : Z :=
  if (op_nr =? OP_CB_GETATTR) || (op_nr =? OP_CB_RECALL) then 0 else NFS4ERR_OP_ILLEGAL.

(** The arguments of an operation; of those that are not about the session only
    the result of their processing is kept. *)
Inductive cb_args :=
| Cb_sequence (found : bool) (envs : list (list fc_change)) (args : cb_sequenceargs)
| Cb_recallslot (target : Z)
| Cb_other (status : Z).

(** An operation in the request, with what decoding it and encoding its result
    come to: the header, the room for a result, the arguments, the header of the
    result, the result. *)
Record cb_op := mk_cbop {
  o_hdr : Z;
  o_nr : Z;
  o_room : bool;
  o_decode : Z;
  o_args : cb_args;
  o_enc_hdr : Z;
  o_encode : Z;
}.

Record cb_run := mk_cbrun { run_res : cb_sequenceres; run_cps : cb_process_state; run_clp : cb_client }.
#[export] Instance upd_cbrun : Updatable cb_run := fun r => mk_cbrun (run_res r) (run_cps r) (run_clp r).

(** The operation [op_nr] selects: the handler of CB_SEQUENCE or CB_RECALL_SLOT
    is run only on its own arguments. *)
Definition cb_process (jiffies op_nr : Z) (a : cb_args) (s : cb_run) : option (Z * cb_run) :=
  match a with
  | Cb_sequence found envs args =>
      if op_nr =? OP_CB_SEQUENCE then
        let '(status, (res, cps, clp)) := nfs4_callback_sequence found envs args (run_res s) (run_cps s) (run_clp s) in
        Some (status, mk_cbrun res cps clp)
      else Some (NFS4ERR_RESOURCE, s)
  | Cb_recallslot target =>
      if op_nr =? OP_CB_RECALL_SLOT then
        match nfs4_callback_recallslot jiffies target (run_cps s) (run_clp s) with
        | None => None
        | Some (status, clp) => Some (status, s <| run_clp := clp |>)
        end
      else Some (NFS4ERR_RESOURCE, s)
  | Cb_other status => Some (status, s)
  end.

(** The header of the result with its status, and the result. *)
Definition op_encode_hdr (op : cb_op) (status : Z) (s : cb_run) : option (Z * cb_run) :=
  if negb (o_enc_hdr op =? 0) then Some (o_enc_hdr op, s)
  else if status =? 0 then Some (o_encode op, s) else Some (status, s).

Definition process_op (jiffies nop : Z) (op : cb_op) (s : cb_run) : option (Z * cb_run) :=
  if negb (o_hdr op =? 0) then Some (o_hdr op, s)
  else
    let v := minorversion (run_cps s) in
    let status := if v =? 0 then preprocess_nfs4_op (o_nr op)
                  else if v =? 1 then preprocess_nfs41_op nop (o_nr op)
                  else if v =? 2 then preprocess_nfs42_op nop (o_nr op)
                  else NFS4ERR_MINOR_VERS_MISMATCH in
    let encode_hdr := op_encode_hdr op in
    if negb (status =? 0) then encode_hdr status s
    else if negb (drc_status (run_cps s) =? 0) then encode_hdr (drc_status (run_cps s)) s
    else if negb (o_room op) then encode_hdr NFS4ERR_RESOURCE s
    else if negb (o_decode op =? 0) then encode_hdr (o_decode op) s
    else match cb_process jiffies (o_nr op) (o_args op) s with
         | None => None
         | Some (status, s) => encode_hdr status s
         end.

Definition nfs4_callback_free_slot (slot : Z) (clp : cb_client) : cb_client :=
  clp <| cb_bc := nfs4_free_slot (cb_bc clp) slot |>.

Definition nfs4_cb_free_slot (s : cb_run) : cb_run :=
  match cps_slot (run_cps s) with
  | Some slot => s <| run_clp := nfs4_callback_free_slot slot (run_clp s) |>
                   <| run_cps := (run_cps s) <| cps_slot := None |> |>
  | None => s
  end.

(** The loop over the operations: the status and the number processed. *)
Fixpoint compound_ops (jiffies status nops : Z) (ops : list cb_op) (s : cb_run) : option (Z * Z * cb_run) :=
  match ops with
  | [] => Some (status, nops, s)
  | op :: ops =>
      if negb (status =? 0) then Some (status, nops, s)
      else match process_op jiffies nops op s with
           | None => None
           | Some (status, s) => compound_ops jiffies status (nops + 1) ops s
           end
  end.

(** The compound of a minor version above 0, after its header has been decoded
    with [hdr]: its status, the number of results and the client. *)
Definition nfs4_callback_compound (jiffies hdr version : Z) (ops : list cb_op) (clp : cb_client)
    : option (Z * Z * cb_client) :=
  let cps := mk_cps 0 false None version in
  match compound_ops jiffies hdr 0 ops (mk_cbrun (mk_csr 0 [] 0 0 0 0) cps clp) with
  | None => None
  | Some (status, nops, s) =>
      let '(status, nops) := if status =? NFS4ERR_RESOURCE_HDR then (NFS4ERR_RESOURCE, nops - 1) else (status, nops) in
      Some (status, nops, run_clp (nfs4_cb_free_slot s))
  end.
