(* ===== verification/SeqCallbackTheorems.v ===== *)
(** * NFSv4.1 sessions: the callback channel

    CB_SEQUENCE accepts a callback exactly when its number follows the slot's
    last one, an error leaves the slot as it was, and a compound gives back the
    slot it has taken.  The wait for referring calls has no effect on the result:
    a callback that overtakes the reply it refers to is never put off. *)

From S2P Require Import Prelude Xdr WaitQueue WaitQueueInv Session SessionInv SessionTheorems SeqClient SeqClientTheorems SeqCallback.
From stdpp Require Import list gmap.
#[local] Open Scope Z_scope.

(** ** Sequence numbers of a table *)

(** The last number of a slot; a back channel slot that does not exist yet will
    start at 0. *)
Definition seq_at (t : nfs4_slot_table) (i : Z) : Z := match slot_get t i with Some s => seq_nr s | None => 0 end.

Lemma grown_seq_at t t' i : grown 0 t t' -> seq_at t' i = seq_at t i.
Proof.
  intros G. pose proof (grown_keeps 0 t t' G i) as K. unfold seq_at in *.
  destruct G as (_ & _ & _ & new & E & _). unfold slot_get in *. rewrite E, find_app_none in *.
  destruct (List.find _ (slots t)); [done|]. destruct (List.find _ new) as [s'|]; [|done].
  by destruct (K s' eq_refl).
Qed.

Lemma lookup_slot_seq t i r t' :
  tbl_ok t -> 0 <= i -> nfs4_lookup_slot t i = (r, t') ->
  draining t' = draining t /\ server_highest_slotid t' = server_highest_slotid t /\
  forall j, seq_at t' j = seq_at t j.
Proof.
  intros [N B L T S] Hi. unfold nfs4_lookup_slot. destruct (Z.leb_spec i (max_slotid t)); [|by intros [= <- <-]].
  pose proof (find_or_create_spec t i 0 N ltac:(lia)) as F. destruct (nfs4_find_or_create_slot t i 0) as [r1 t1].
  intros [= <- <-]. destruct F as [G _]. destruct (rest_inv _ _ (proj1 G)) as (_ & _ & _ & _ & ? & _ & _ & ?).
  split_and!; try done. intros j. by apply grown_seq_at.
Qed.

Lemma keeps_seq_at t t' i :
  keeps_seq 0 t t' -> numbered t -> numbered t' -> zlen (slots t') = zlen (slots t) -> seq_at t' i = seq_at t i.
Proof.
  intros K N N' L. unfold seq_at. pose proof (slot_get_in t i N) as I. pose proof (slot_get_in t' i N') as I'.
  rewrite L in I'. specialize (K i). destruct (slot_get t' i) as [s'|].
  - specialize (K s' eq_refl). destruct (slot_get t i); by destruct K.
  - destruct (slot_get t i) as [s|]; [|done]. exfalso. destruct (proj2 I'); [|done]. by apply I.
Qed.

Lemma on_slot_seq_at t i n j :
  is_Some (slot_get t i) -> seq_at (on_slot i (fun s => s <| seq_nr := n |>) t) j = if j =? i then n else seq_at t j.
Proof.
  intros [s0 H0]. unfold seq_at. rewrite on_slot_get by done. destruct (Z.eqb_spec j i) as [->|Ne].
  - rewrite H0. simpl. by rewrite (slot_get_nr t i s0 H0), Z.eqb_refl.
  - destruct (slot_get t j) as [s|] eqn:E; [|done]. simpl.
    by rewrite (slot_get_nr t j s E), (proj2 (Z.eqb_neq _ _) Ne).
Qed.

(** ** The wait *)

(** What other tasks do to the fore channel keeps its table well-formed. *)
Definition envs_ok : list (list fc_change) -> Prop := Forall (Forall (fun f => forall t, tbl_ok t -> tbl_ok (f t))).

Lemma wait_ok env t i q :
  Forall (fun f : fc_change => forall t, tbl_ok t -> tbl_ok (f t)) env -> tbl_ok t -> 0 <= i ->
  tbl_ok (snd (nfs4_slot_wait_on_seqid env t i q)).
Proof.
  intros He. revert t. induction He as [|f env Hf He IH]; intros t O Hi; simpl;
    destruct (nfs4_slot_seqid_in_use t i q) as [b t1] eqn:E;
    destruct (in_use_step_spec t i q b t1 O Hi E) as [O1 _]; destruct b; simpl; auto.
Qed.

Lemma referring_calls_ok envs t refs :
  envs_ok envs -> tbl_ok t -> Forall (fun ref => 0 <= rc_slotid ref) refs ->
  let '(st, (envs', t')) := referring_calls envs t refs in 0 <= st /\ envs_ok envs' /\ tbl_ok t'.
Proof.
  intros He O Hr. revert envs t He O. induction Hr as [|ref refs Hi Hr IH]; intros envs t He O; simpl; [done|].
  assert (He1 : Forall (fun f : fc_change => forall t, tbl_ok t -> tbl_ok (f t)) (default [] (head envs)))
    by (destruct He; simpl; by try constructor).
  assert (Ht : envs_ok (tail envs)) by (destruct He; simpl; by try constructor).
  pose proof (wait_ok _ t (rc_slotid ref) (rc_sequenceid ref) He1 O Hi) as O1.
  destruct (nfs4_slot_wait_on_seqid _ t _ _) as [ret t1]. simpl in O1. destruct (ret <? 0); simpl; [done|]. by apply IH.
Qed.

Definition refs_ok (l : list referring_call_list) : Prop :=
  Forall (fun r => Forall (fun ref => 0 <= rc_slotid ref) (rcl_refcalls r)) l.

(** The answer is never negative. *)
Lemma referring_exists_ok envs id t l :
  envs_ok envs -> tbl_ok t -> refs_ok l ->
  let '(st, t') := referring_call_exists envs id t l in 0 <= st /\ tbl_ok t'.
Proof.
  intros He O Hl. revert envs t He O. induction Hl as [|r l Hr Hl IH]; intros envs t He O; simpl; [done|].
  destruct (bool_decide _); simpl; [|by apply IH].
  pose proof (referring_calls_ok envs t (rcl_refcalls r) He O Hr) as R.
  destruct (referring_calls envs t (rcl_refcalls r)) as [st [envs' t']]. destruct R as (R1 & R2 & R3).
  destruct (st =? 0); simpl; [by apply IH|done].
Qed.

(** ** CB_SEQUENCE *)

(** The callback may be run: its number follows the last one of a free slot. *)
Definition cb_acceptable (found : bool) (args : cb_sequenceargs) (clp : cb_client) : Prop :=
  let t := cb_bc clp in let i := csa_slotid args in
  found = true /\ cb_back_chan clp = true /\ draining t = false /\ i <= max_slotid t /\
  i <= server_highest_slotid t /\ csa_sequenceid args = u32 (seq_at t i + 1) /\
  csa_sequenceid args <> seq_at t i /\
  Z.testbit (used_slots t) i = false /\ csa_cachethis args = 0.

(** What CB_SEQUENCE leaves behind. *)
Inductive cb_outcome (found : bool) (args : cb_sequenceargs) (clp : cb_client) (cps : cb_process_state)
    : Z -> cb_process_state -> nfs4_slot_table -> Prop :=
| cbo_accepted cps' t' :
    cb_acceptable found args clp -> drc_status cps' = drc_status cps -> cps_slot cps' = Some (csa_slotid args) ->
    used_slots t' = Z.setbit (used_slots (cb_bc clp)) (csa_slotid args) ->
    (forall j, seq_at t' j = if j =? csa_slotid args then csa_sequenceid args else seq_at (cb_bc clp) j) ->
    cb_outcome found args clp cps 0 cps' t'
| cbo_refused st cps' t' :
    (st <> 0 /\ drc_status cps' = drc_status cps \/ st = 0 /\ drc_status cps' = NFS4ERR_RETRY_UNCACHED_REP) ->
    cps_slot cps' = cps_slot cps -> used_slots t' = used_slots (cb_bc clp) ->
    (forall j, seq_at t' j = seq_at (cb_bc clp) j) ->
    cb_outcome found args clp cps st cps' t'
| cbo_not_cached cps' t' :
    csa_cachethis args <> 0 -> drc_status cps' = drc_status cps -> cps_slot cps' = Some (csa_slotid args) ->
    Z.testbit (used_slots (cb_bc clp)) (csa_slotid args) = false ->
    used_slots t' = Z.setbit (used_slots (cb_bc clp)) (csa_slotid args) ->
    (forall j, seq_at t' j = seq_at (cb_bc clp) j) ->
    cb_outcome found args clp cps NFS4ERR_REP_TOO_BIG_TO_CACHE cps' t'.

Lemma validate_seqid_cases t s args :
  let st := validate_seqid t s args in
  (st = 0 /\ csa_slotid args <= server_highest_slotid t /\ csa_sequenceid args = u32 (seq_nr s + 1) /\
   csa_sequenceid args <> seq_nr s) \/
  st <> 0.
Proof.
  unfold validate_seqid. destruct (Z.ltb_spec (server_highest_slotid t) (csa_slotid args)); [by right|].
  destruct (Z.eqb_spec (csa_sequenceid args) (seq_nr s)).
  { right. destruct (nfs4_test_locked_slot _ _); [done|]. by destruct (csa_cachethis args =? 0). }
  destruct (Z.eqb_spec (csa_sequenceid args) (u32 (seq_nr s + 1))); [by left|by right].
Qed.

(** ... and what it keeps. *)
Definition cb_post (found : bool) (args : cb_sequenceargs) (clp : cb_client) (cps : cb_process_state)
    (r : Z * (cb_sequenceres * cb_process_state * cb_client)) : Prop :=
  let '(st, (_, cps', clp')) := r in
  cb_outcome found args clp cps st cps' (cb_bc clp') /\ tbl_ok (cb_bc clp') /\ tbl_ok (ts_tbl (cb_fc clp')) /\
  ts_wq (cb_fc clp') = ts_wq (cb_fc clp) /\ minorversion cps' = minorversion cps.

Lemma cb_refuse found args clp cps st res clp' :
  st <> 0 -> tbl_ok (cb_bc clp') -> tbl_ok (ts_tbl (cb_fc clp)) -> cb_fc clp' = cb_fc clp ->
  used_slots (cb_bc clp') = used_slots (cb_bc clp) -> (forall j, seq_at (cb_bc clp') j = seq_at (cb_bc clp) j) ->
  cb_post found args clp cps (callback_sequence_out found st res cps clp').
Proof.
  intros Hst Ot Of Hf Hu Hq. unfold callback_sequence_out, cb_post.
  destruct (Z.eqb_spec st NFS4ERR_RETRY_UNCACHED_REP) as [->|]; rewrite Hf; split_and!; try done.
  - by apply cbo_refused; [right|..].
  - by apply cbo_refused; [left|..].
Qed.

Lemma callback_sequence_spec found envs args res cps clp :
  tbl_ok (cb_bc clp) -> tbl_ok (ts_tbl (cb_fc clp)) -> envs_ok envs -> refs_ok (csa_rclists args) ->
  0 <= csa_slotid args -> cb_post found args clp cps (nfs4_callback_sequence found envs args res cps clp).
Proof.
  intros O Of He Hr Hi. unfold nfs4_callback_sequence.
  destruct found eqn:Ef; [|by apply cb_refuse]. destruct (cb_back_chan clp) eqn:Eb; [|by apply cb_refuse].
  simpl negb. cbv iota zeta.
  destruct (draining (cb_bc clp)) eqn:Ed; [by destruct (cb_reset clp); apply cb_refuse|].
  destruct (nfs4_lookup_slot (cb_bc clp) (csa_slotid args)) as [r t] eqn:El.
  destruct (lookup_slot_spec _ _ _ _ O Hi El) as (Ot & Hu & _ & Hl). destruct (lookup_slot_seq _ _ _ _ O Hi El) as (_ & Hs & Hq).
  destruct r as [nr|e]; [|by apply cb_refuse]. destruct Hl as (-> & Hm & Hz). set (i := csa_slotid args) in *.
  destruct (slot_get t i) as [s|] eqn:Es; [|by apply cb_refuse].
  destruct (validate_seqid_cases t s args) as [(-> & V2 & V3 & V4)|V].
  2: { rewrite (proj2 (Z.eqb_neq _ _) V). by apply cb_refuse. }
  change (negb (0 =? 0)) with false. cbv iota. unfold nfs4_try_to_lock_slot, nfs4_test_locked_slot, test_bit.
  destruct (Z.testbit (used_slots t) i) eqn:Et; [by apply cb_refuse|].
  pose proof Ot as [N B L T S]. destruct (lock_slot_spec t i N B L T S ltac:(lia)) as (O2 & U2 & K2 & L2 & _).
  set (t2 := nfs4_lock_slot t i) in *.
  assert (Q2 : forall j, seq_at t2 j = seq_at (cb_bc clp) j).
  { intros j. rewrite <- Hq. apply keeps_seq_at; try done. apply O2. }
  assert (Eq : seq_at (cb_bc clp) i = seq_nr s) by (rewrite <- Hq; unfold seq_at; by rewrite Es).
  rewrite Hu in U2, Et. destruct (Z.eqb_spec (csa_cachethis args) 0) as [Ec|Ec]; simpl negb; cbv iota.
  2: { unfold callback_sequence_out, cb_post. split_and!; try done. by apply cbo_not_cached. }
  simpl ts_tbl. simpl cb_sess_id.
  pose proof (referring_exists_ok envs (cb_sess_id clp) (ts_tbl (cb_fc clp)) (csa_rclists args) He Of Hr) as R.
  destruct (referring_call_exists _ _ _ _) as [ref fc]. destruct R as [R1 R2].
  rewrite (proj2 (Z.ltb_ge _ _) R1). unfold callback_sequence_out, cb_post.
  assert (is_Some (slot_get t2 i)) as G2 by (apply slot_get_in; [apply O2|lia]).
  split_and!; try done; [|by apply on_slot_ok].
  apply cbo_accepted; try done.
  - unfold cb_acceptable. fold i. rewrite Eq, <- Hs. by split_and!.
  - intros j. change (cb_bc (_ <| cb_bc := ?x |>)) with x.
    rewrite on_slot_seq_at by done. fold i. destruct (j =? i); [done|apply Q2].
Qed.

(** ** The compound *)

(** The state of a compound on the table [t0]: the slot it holds is the only one
    it has taken, and only its number may have moved, by one. *)
Record run_ok (t0 : nfs4_slot_table) (moved : option Z) (s : cb_run) : Prop := {
  ro_bc : tbl_ok (cb_bc (run_clp s));
  ro_fc : ts_ok (cb_fc (run_clp s));
  ro_used : match cps_slot (run_cps s) with
    | Some i => Z.testbit (used_slots t0) i = false /\ 0 <= i /\ used_slots (cb_bc (run_clp s)) = Z.setbit (used_slots t0) i
    | None => used_slots (cb_bc (run_clp s)) = used_slots t0
    end;
  ro_seq : forall j, seq_at (cb_bc (run_clp s)) j = if bool_decide (moved = Some j) then u32 (seq_at t0 j + 1) else seq_at t0 j;
}.

(** What is asked of the arguments: 32-bit numbers, and well-behaved neighbours. *)
Definition cb_args_ok (a : cb_args) : Prop :=
  match a with
  | Cb_sequence _ envs args => envs_ok envs /\ refs_ok (csa_rclists args) /\ 0 <= csa_slotid args
  | Cb_recallslot target => is_u32 target
  | Cb_other _ => True
  end.

Lemma recallslot_ok j target cps clp :
  is_u32 target -> ts_ok (cb_fc clp) ->
  exists st clp', nfs4_callback_recallslot j target cps clp = Some (st, clp') /\ ts_ok (cb_fc clp') /\ cb_bc clp' = cb_bc clp.
Proof.
  intros Ht O. unfold nfs4_callback_recallslot. destruct (cps_clp cps); simpl; [|by eexists _, _].
  destruct (set_target_slotid_spec j (cb_fc clp) target O Ht) as (fc & -> & O' & _). by eexists _, _.
Qed.

(** An operation whose handler keeps [P] keeps it, whatever happens around the
    handler; CB_SEQUENCE is handled in the first place only. *)
Lemma process_op_keeps (P : cb_run -> Prop) j nop op s :
  P s -> minorversion (run_cps s) = 1 \/ minorversion (run_cps s) = 2 ->
  ((o_nr op = OP_CB_SEQUENCE -> nop = 0) -> exists st s', cb_process j (o_nr op) (o_args op) s = Some (st, s') /\ P s') ->
  exists st s', process_op j nop op s = Some (st, s') /\ P s'.
Proof.
  intros HP Hv Hc. unfold process_op.
  assert (Enc : forall st s1, P s1 -> exists st' s', op_encode_hdr op st s1 = Some (st', s') /\ P s').
  { intros st s1 Hs. unfold op_encode_hdr. destruct (negb _); [|destruct (st =? 0)]; eexists _, s1; (split; [reflexivity|done]). }
  destruct (o_hdr op =? 0); simpl; [|by eexists _, s]. set (pre := if _ =? 0 then _ else _).
  destruct (pre =? 0) eqn:Ep; simpl; [|by apply Enc]. destruct (drc_status _ =? 0); simpl; [|by apply Enc].
  destruct (o_room op); simpl; [|by apply Enc]. destruct (o_decode op =? 0); simpl; [|by apply Enc].
  destruct Hc as (st & s' & -> & Hs'); [|by apply Enc].
  intros En. destruct (Z.eqb_spec nop 0) as [|Ne]; [done|]. exfalso. apply Z.eqb_eq in Ep.
  revert Ep. unfold pre, preprocess_nfs42_op, preprocess_nfs41_op. rewrite En, (proj2 (Z.eqb_neq _ _) Ne).
  by destruct Hv as [->| ->].
Qed.

Definition versioned (v : Z) (s : cb_run) : Prop := minorversion (run_cps s) = v.

(** Later operations move no slot of the back channel. *)
Lemma process_later j nop op s t0 moved v :
  0 < nop -> v = 1 \/ v = 2 -> run_ok t0 moved s /\ versioned v s -> cb_args_ok (o_args op) ->
  exists st s', process_op j nop op s = Some (st, s') /\ run_ok t0 moved s' /\ versioned v s'.
Proof.
  intros Hn Hv [R V] Ha. apply (process_op_keeps (fun s => run_ok t0 moved s /\ versioned v s)); [done|by rewrite V|].
  intros Hs. unfold cb_process. destruct (o_args op) as [found envs args|target|st]; [..|by eexists _, s].
  - destruct (Z.eqb_spec (o_nr op) OP_CB_SEQUENCE) as [E|]; [|by eexists _, s]. specialize (Hs E). lia.
  - destruct (_ =? _); [|by eexists _, s]. destruct R as [Ob Of U Q].
    destruct (recallslot_ok j target (run_cps s) (run_clp s) Ha Of) as (st & clp' & -> & O' & B').
    eexists _, _. split; [reflexivity|]. split; [|done]. by split; simpl; rewrite ?B'.
Qed.

(** The first operation moves at most the slot its CB_SEQUENCE names. *)
Definition first_moves (op : cb_op) (i : Z) (t0 : nfs4_slot_table) : Prop :=
  exists found envs args, o_args op = Cb_sequence found envs args /\ csa_slotid args = i /\
    csa_sequenceid args = u32 (seq_at t0 i + 1).

Lemma process_first j op s t0 v :
  v = 1 \/ v = 2 -> run_ok t0 None s -> versioned v s -> cps_slot (run_cps s) = None -> cb_args_ok (o_args op) ->
  exists st s', process_op j 0 op s = Some (st, s') /\ versioned v s' /\
    exists moved, run_ok t0 moved s' /\ (forall i, moved = Some i -> first_moves op i t0).
Proof.
  intros Hv R V Hc Ha. apply (process_op_keeps (fun s => versioned v s /\
    exists moved, run_ok t0 moved s /\ (forall i, moved = Some i -> first_moves op i t0))); [|by rewrite V|].
  { split; [done|]. by exists None. }
  intros _. unfold cb_process. assert (Same : versioned v s /\
    exists moved, run_ok t0 moved s /\ (forall i, moved = Some i -> first_moves op i t0)) by (split; [done|by exists None]).
  destruct R as [Ob Of U Q]. rewrite Hc in U.
  destruct (o_args op) as [found envs args|target|st] eqn:Ea; [..|by eexists _, s].
  - destruct (_ =? _); [|by eexists _, s]. destruct Ha as (He & Hr & Hi). destruct Of as [Of Ow].
    pose proof (callback_sequence_spec found envs args (run_res s) (run_cps s) (run_clp s) Ob Of He Hr Hi) as P.
    destruct (nfs4_callback_sequence _ _ _ _ _ _) as [st [[res' cps'] clp']]. destruct P as (P & Ob' & Of' & Wf & Mv).
    eexists _, _. split; [reflexivity|]. split; [by unfold versioned; simpl; rewrite Mv|].
    assert (Of2 : ts_ok (cb_fc clp')) by (split; [done|by rewrite Wf]).
    remember (cb_bc clp') as tb eqn:Etb.
    destruct P as [? ? (_ & _ & _ & _ & _ & A1 & _ & A2 & _) D C U' Q'|? ? ? D C U' Q'|? ? D1 D C A2 U' Q'].
    + exists (Some (csa_slotid args)). split; [split; simpl; rewrite <- ?Etb; try done|].
      * rewrite C, <- U; done.
      * intros k. rewrite Q', Q. simpl. destruct (Z.eqb_spec k (csa_slotid args)) as [->|].
        -- rewrite bool_decide_eq_true_2 by done. by rewrite A1, Q.
        -- by rewrite bool_decide_eq_false_2 by congruence.
      * intros i [= <-]. exists found, envs, args. split_and!; try done. by rewrite A1, Q.
    + exists None. split; [|done]. split; simpl; rewrite <- ?Etb; [done|done|by rewrite C, Hc, U', U|intros k; by rewrite Q', Q].
    + exists None. split; [|done]. split; simpl; rewrite <- ?Etb; [done|done| |intros k; by rewrite Q', Q].
      by rewrite C, <- U.
  - destruct (_ =? _); [|by eexists _, s].
    destruct (recallslot_ok j target (run_cps s) (run_clp s) Ha Of) as (st & clp' & -> & O' & B').
    eexists _, _. split; [reflexivity|]. split; [done|]. exists None. split; [|done].
    split; simpl; rewrite ?B', ?Hc; done.
Qed.

Lemma compound_later j st nops ops s t0 moved v :
  0 < nops -> v = 1 \/ v = 2 -> run_ok t0 moved s -> versioned v s -> Forall (fun op => cb_args_ok (o_args op)) ops ->
  exists st' n s', compound_ops j st nops ops s = Some (st', n, s') /\ run_ok t0 moved s' /\
    nops <= n <= nops + zlen ops.
Proof.
  intros Hn Hv R V H. revert st nops s Hn R V. induction H as [|op ops Ha H IH]; intros st nops s Hn R V; simpl.
  { eexists _, _, s. split_and!; try done; unfold zlen in *; simpl length; lia. }
  destruct (st =? 0); simpl; [|eexists _, _, s; split_and!; try done; unfold zlen in *; simpl length; lia].
  destruct (process_later j nops op s t0 moved v Hn Hv ltac:(done) Ha) as (st1 & s1 & -> & R1 & V1).
  destruct (IH st1 (nops + 1) s1 ltac:(lia) R1 V1) as (st' & n & s' & E & R' & L).
  exists st', n, s'. rewrite E. split_and!; try done; unfold zlen in *; simpl length; lia.
Qed.

Lemma compound_ok j hdr ops s t0 v :
  v = 1 \/ v = 2 -> run_ok t0 None s -> versioned v s -> cps_slot (run_cps s) = None ->
  Forall (fun op => cb_args_ok (o_args op)) ops ->
  exists st n s' moved, compound_ops j hdr 0 ops s = Some (st, n, s') /\ run_ok t0 moved s' /\ 0 <= n <= zlen ops /\
    forall i, moved = Some i -> exists op, head ops = Some op /\ first_moves op i t0.
Proof.
  intros Hv R V Hc H. destruct H as [|op ops Ha H]; simpl.
  { by exists hdr, 0, s, None. }
  destruct (hdr =? 0); simpl.
  2: { exists hdr, 0, s, None. by split_and!. }
  destruct (process_first j op s t0 v Hv R V Hc Ha) as (st & s1 & -> & V1 & moved & R1 & M1).
  destruct (compound_later j st (0 + 1) ops s1 t0 moved v ltac:(lia) Hv R1 V1 H) as (st' & n & s' & E & R' & L).
  exists st', n, s', moved. rewrite E. split_and!; try done; [lia|unfold zlen in *; simpl length; lia|].
  intros i Hi. exists op. split; [done|by apply M1].
Qed.

(** Giving the slot back. *)
Lemma cb_free_ok t0 moved s :
  run_ok t0 moved s ->
  let clp := run_clp (nfs4_cb_free_slot s) in
  tbl_ok (cb_bc clp) /\ ts_ok (cb_fc clp) /\ used_slots (cb_bc clp) = used_slots t0 /\
  (forall j, seq_at (cb_bc clp) j = if bool_decide (moved = Some j) then u32 (seq_at t0 j + 1) else seq_at t0 j).
Proof.
  intros [O Of U Q]. unfold nfs4_cb_free_slot. destruct (cps_slot (run_cps s)) as [i|]; simpl; [|done].
  destruct U as (B & Hi & U).
  destruct (free_slot_spec (cb_bc (run_clp s)) i O) as (O' & U' & E & _).
  { rewrite U. by apply Z.setbit_eq. }
  split_and!; try done.
  - rewrite U', U. by apply clear_set_bit.
  - intros j. rewrite <- Q. unfold seq_at, slot_get. by rewrite E.
Qed.

(** ** The properties *)


(** A callback that refers to calls of the session ("check for pending
    referring calls") is run whatever these calls do: [referring_call_exists]
    answers 0 or 1, and the caller looks for a negative answer, so the reply
    NFS4ERR_DELAY is never sent although a referring call is still pending. *)
Theorem referring_calls_never_delay found envs args res cps clp :
  tbl_ok (cb_bc clp) -> tbl_ok (ts_tbl (cb_fc clp)) -> envs_ok envs -> refs_ok (csa_rclists args) ->
  0 <= csa_slotid args -> cb_acceptable found args clp -> is_Some (slot_get (cb_bc clp) (csa_slotid args)) ->
  fst (nfs4_callback_sequence found envs args res cps clp) = 0 /\
  cps_slot (snd (fst (snd (nfs4_callback_sequence found envs args res cps clp)))) = Some (csa_slotid args).
Proof.
  intros O Of He Hr Hi (-> & A2 & A3 & A4 & A5 & A6 & A6' & A7 & A8) [s Hs].
  unfold nfs4_callback_sequence, nfs4_lookup_slot, nfs4_find_or_create_slot. rewrite A2, A3. simpl negb. cbv iota zeta.
  rewrite (proj2 (Z.leb_le _ _) A4), Hs, Hs.
  assert (validate_seqid (cb_bc clp) s args = 0) as ->.
  { unfold seq_at in A6, A6'. rewrite Hs in A6, A6'. unfold validate_seqid.
    rewrite (proj2 (Z.ltb_ge _ _) A5), (proj2 (Z.eqb_neq _ _) A6'), (proj2 (Z.eqb_eq _ _) A6). done. }
  unfold nfs4_try_to_lock_slot, nfs4_test_locked_slot, test_bit. rewrite A7, A8. simpl negb. cbv iota.
  simpl ts_tbl. simpl cb_sess_id.
  pose proof (referring_exists_ok envs (cb_sess_id clp) (ts_tbl (cb_fc clp)) (csa_rclists args) He Of Hr) as R.
  destruct (referring_call_exists _ _ _ _) as [ref fc]. destruct R as [R1 _].
  rewrite (proj2 (Z.ltb_ge _ _) R1). done.
Qed.

(** C11: a callback compound comes to an end and gives back the slot it has taken,
    whatever its operations, their order and their results; both slot tables stay
    well-formed; at most one back channel slot has moved, by one, and only because
    the compound's first operation was a CB_SEQUENCE with that number. *)
Theorem callback_compound_contract j hdr v ops clp :
  v = 1 \/ v = 2 -> tbl_ok (cb_bc clp) -> ts_ok (cb_fc clp) -> Forall (fun op => cb_args_ok (o_args op)) ops ->
  exists st n clp', nfs4_callback_compound j hdr v ops clp = Some (st, n, clp') /\
    tbl_ok (cb_bc clp') /\ ts_ok (cb_fc clp') /\ used_slots (cb_bc clp') = used_slots (cb_bc clp) /\
    n <= zlen ops /\
    exists moved, (forall i, moved = Some i -> exists op, head ops = Some op /\ first_moves op i (cb_bc clp)) /\
      forall i, seq_at (cb_bc clp') i =
        if bool_decide (moved = Some i) then u32 (seq_at (cb_bc clp) i + 1) else seq_at (cb_bc clp) i.
Proof.
  intros Hv O Of H. unfold nfs4_callback_compound. set (s0 := mk_cbrun _ _ clp).
  assert (run_ok (cb_bc clp) None s0) as R by (by split).
  destruct (compound_ok j hdr ops s0 (cb_bc clp) v Hv R ltac:(done) ltac:(done) H) as (st & n & s' & moved & -> & R' & L & M).
  destruct (cb_free_ok _ _ _ R') as (O' & Of' & U' & Q').
  destruct (st =? NFS4ERR_RESOURCE_HDR); eexists _, _, _; (split; [reflexivity|]); split_and!; try done; try lia; by exists moved.
Qed.

(** ** A callback *)

(** A session with an idle back channel and two calls in flight on the fore
    channel; a callback that refers to the first of them. *)
Definition sample_bc : nfs4_slot_table := snd (nfs4_setup_slot_table (zero_table []) 1).
Definition sample_cb : cb_client :=
  mk_cbc (replicate 16 x00) true (mk_ts sample_busy sample_waiters) sample_bc false 0.
Definition sample_csa : cb_sequenceargs :=
  mk_csa (replicate 16 x00) 1 0 0 0 [mk_rcl (replicate 16 x00) [mk_ref (seq_at sample_busy 0) 0]].
Definition sample_cps : cb_process_state := mk_cps 0 false None 1.
Definition sample_csr : cb_sequenceres := mk_csr 0 [] 0 0 0 0.

Lemma sample_bc_ok : tbl_ok sample_bc.
Proof. apply (init_tbl_ok 1 []); [lia|]. by vm_compute. Qed.

Lemma sample_refs_ok : refs_ok (csa_rclists sample_csa).
Proof. unfold refs_ok. simpl. by repeat constructor. Qed.

Lemma sample_pending : fst (nfs4_slot_seqid_in_use sample_busy 0 (seq_at sample_busy 0)) = true.
Proof. by vm_compute. Qed.

Lemma sample_acceptable : cb_acceptable true sample_csa sample_cb.
Proof. unfold cb_acceptable. split_and!; vm_compute; congruence. Qed.


Lemma referring_calls_never_delay_witness :
  fst (nfs4_slot_seqid_in_use sample_busy 0 (seq_at sample_busy 0)) = true /\
  fst (nfs4_callback_sequence true [] sample_csa sample_csr sample_cps sample_cb) = 0.
Proof.
  split; [exact sample_pending|].
  apply (referring_calls_never_delay true [] sample_csa sample_csr sample_cps sample_cb sample_bc_ok sample_busy_ok
    ltac:(constructor) sample_refs_ok ltac:(vm_compute; congruence) sample_acceptable).
  eexists. vm_compute. reflexivity.
Defined.

(** CB_SEQUENCE, CB_RECALL_SLOT and a second CB_SEQUENCE, which is refused. *)
Definition sample_ops : list cb_op :=
  let op nr a := mk_cbop 0 nr true 0 a 0 0 in
  [op OP_CB_SEQUENCE (Cb_sequence true [] sample_csa); op OP_CB_RECALL_SLOT (Cb_recallslot 0);
   op OP_CB_SEQUENCE (Cb_sequence true [] sample_csa)].

Lemma sample_ops_ok : Forall (fun op => cb_args_ok (o_args op)) sample_ops.
Proof.
  assert (cb_args_ok (Cb_sequence true [] sample_csa)) as H.
  { split; [constructor|]. split; [exact sample_refs_ok|]. by vm_compute. }
  repeat constructor; done.
Qed.

Lemma sample_compound :
  option_map fst (nfs4_callback_compound 7 0 1 sample_ops sample_cb) = Some (NFS4ERR_SEQUENCE_POS, 3).
Proof. vm_compute. reflexivity. Qed.

Lemma callback_compound_contract_witness :
  exists clp', nfs4_callback_compound 7 0 1 sample_ops sample_cb = Some (NFS4ERR_SEQUENCE_POS, 3, clp') /\
    used_slots (cb_bc clp') = used_slots (cb_bc sample_cb) /\ tbl_ok (cb_bc clp').
Proof.
  destruct (callback_compound_contract 7 0 1 sample_ops sample_cb (or_introl eq_refl) sample_bc_ok
    (ts_reachable_ok _ sample_busy_reachable) sample_ops_ok) as (st & n & clp' & E & O & _ & U & _).
  exists clp'. pose proof sample_compound as S. rewrite E in S. injection S as -> ->.
  split; [exact E|]. split; [exact U|exact O].
Defined.
