(* ===== verification/Mesh.v ===== *)
(** * Connections of a client over several ports

    [net/sunrpc/clnt.c], [net/sunrpc/xprt.c] and [fs/nfs/nfs4client.c]: a client
    may connect from several local ports to several remote ports.  [rpc_create]
    places its [nconnect] regular transports and [mdconnect] transports for
    metadata over this mesh; NFSv4 makes one client per remote port instead.
    A table of the ports counts the connections of each; an RDMA transport whose
    port fails is diverted to the least used of the others.

    An address is a number: two are equal when [rpc_cmp_addr_port] says so. *)

From S2P Require Import Prelude Xdr.
From stdpp Require Import list.
#[local] Open Scope Z_scope.

(** ** Port usage *)

Definition XPRT_MAX_PORTS := 64.

Record xprt_port := mk_port { p_addr : Z; xprt_diversions : Z; xprt_connections : Z }.
#[export] Instance upd_port : Updatable xprt_port := fun p =>
  mk_port (p_addr p) (xprt_diversions p) (xprt_connections p).

(** [usage->nr] is the length of the list. *)
Record xprt_portusage := mk_usage { ports : list xprt_port; diversion_enabled : bool }.
#[export] Instance upd_usage : Updatable xprt_portusage := fun u => mk_usage (ports u) (diversion_enabled u).

Definition xprt_portusage_new : xprt_portusage := mk_usage [] false.

Definition on_port (i : Z) (f : xprt_port -> xprt_port) (u : xprt_portusage) : xprt_portusage :=
  u <| ports := alter f (Z.to_nat i) (ports u) |>.

(** The table and the caller's [diversion_idx]. *)
Definition _xprt_portusage_undivert (u : xprt_portusage) (idx : Z) : xprt_portusage * Z :=
  if (0 <=? idx) && (idx <? zlen (ports u))
  then (on_port idx (fun p => p <| xprt_diversions := u32 (xprt_diversions p - 1) |>) u, -1)
  else (u, idx).
Definition xprt_portusage_undivert := _xprt_portusage_undivert.

(** The first port with the address. *)
Fixpoint find_port (l : list xprt_port) (addr i : Z) : option Z :=
  match l with
  | [] => None
  | p :: l => if p_addr p =? addr then Some i else find_port l addr (i + 1)
  end.

Definition xprt_portusage_connect (u : xprt_portusage) (addr idx : Z) : xprt_portusage * Z :=
  let '(u, idx) := _xprt_portusage_undivert u idx in
  match find_port (ports u) addr 0 with
  | Some i => (on_port i (fun p => p <| xprt_connections := u32 (xprt_connections p + 1) |>) u, idx)
  | None => (u, idx)
  end.

Definition xprt_portusage_disconnect (u : xprt_portusage) (addr : Z) : xprt_portusage :=
  match find_port (ports u) addr 0 with
  | Some i => on_port i (fun p => p <| xprt_connections := u32 (xprt_connections p - 1) |>) u
  | None => u
  end.

(** The scan of [xprt_portusage_divert]: [total_usage] is compared unsigned. *)
Fixpoint least_used (l : list xprt_port) (addr i lowest minimum_idx : Z) : Z :=
  match l with
  | [] => minimum_idx
  | p :: l =>
      let total_usage := u32 (xprt_connections p + xprt_diversions p) in
      if (p_addr p =? addr) || (xprt_connections p =? 0) then least_used l addr (i + 1) lowest minimum_idx
      else if total_usage <? lowest then least_used l addr (i + 1) total_usage i
      else least_used l addr (i + 1) lowest minimum_idx
  end.

(** The index, the address to use instead ([None]: left alone) and the table. *)
Definition xprt_portusage_divert (u : xprt_portusage) (addr : Z) : Z * option Z * xprt_portusage :=
  let i := least_used (ports u) addr 0 (2 ^ 32 - 1) (-1) in
  if negb (i =? -1) then
    (i, p_addr <$> ports u !! Z.to_nat i,
     on_port i (fun p => p <| xprt_diversions := u32 (xprt_diversions p + 1) |>) u)
  else (-1, None, u).

Definition xprt_portusage_push_address (u : xprt_portusage) (addr : Z) : Z * xprt_portusage :=
  if XPRT_MAX_PORTS <=? zlen (ports u) then (-1, u)
  else match find_port (ports u) addr 0 with
       | Some j => (j, u)
       | None => (zlen (ports u), u <| ports := ports u ++ [mk_port addr 0 0] |>)
       end.

(** ** The mesh of [rpc_create] *)

(** [hash]: the sum of the hashes of the local address and of the node name. *)
Definition rpc_calc_portgroup_offset (hash : Z) (provided : bool) (offset nr : Z) : Z :=
  if 0 <? nr then (if provided then offset else u32 hash) mod nr else 0.

Inductive xprt_role := RPC_XPRT_ROLE_REG | RPC_XPRT_ROLE_MD.
#[export] Instance xprt_role_eq_dec : EqDecision xprt_role.
Proof. solve_decision. Defined.

(** What [rpc_create] is asked for: [localports] and [remoteports] are the
    addresses of the port groups. *)
Record rpc_create_args := mk_rca {
  a_nconnect : Z;
  a_mdconnect : Z;
  localports : option (list Z);
  remoteports : option (list Z);
  offset_provided : bool;
  remoteports_offset : Z;
  a_hash : Z;
}.

(** A transport: its role, the local port in use, the address it connects to and
    [remote_port_idx]. *)
Record xprt_create := mk_xc { xc_role : xprt_role; xc_local : option Z; xc_remote : option Z; remote_port_idx : Z }.
#[export] Instance upd_xc : Updatable xprt_create := fun x =>
  mk_xc (xc_role x) (xc_local x) (xc_remote x) (remote_port_idx x).

(** The variables of [rpc_create], with [xprtargs] and the remote port table. *)
Record mesh := mk_mesh {
  localport_idx : Z;
  remoteport_idx : Z;
  spread : Z;
  reminder : Z;
  counter : Z;
  mdconnect_use : Z;
  xprtargs : xprt_create;
  remoteport_usage : xprt_portusage;
}.
#[export] Instance upd_mesh : Updatable mesh := fun m =>
  mk_mesh (localport_idx m) (remoteport_idx m) (spread m) (reminder m) (counter m) (mdconnect_use m) (xprtargs m)
    (remoteport_usage m).

Definition ENOSPC := 28.

(** Connect to the remote port [idx] of the group.  [- EINVAL] stands for an index
    outside of it, which only an empty group has. *)
Definition use_remote (l : list Z) (idx : Z) (m : mesh) : res mesh :=
  match l !! Z.to_nat idx with
  | None => Err (- EINVAL)
  | Some addr =>
      let '(j, u) := xprt_portusage_push_address (remoteport_usage m) addr in
      if j <? 0 then Err (- ENOSPC)
      else Ok (m <| xprtargs := (xprtargs m) <| xc_remote := Some addr |> <| remote_port_idx := j |> |>
                 <| remoteport_usage := u |>)
  end.

(** The local part for a regular transport. *)
Definition next_local (l : list Z) (m : mesh) : mesh :=
  let m := match l !! Z.to_nat (localport_idx m) with
           | Some addr => m <| xprtargs := (xprtargs m) <| xc_local := Some addr |> |>
           | None => m
           end in
  let i := localport_idx m + 1 in
  m <| localport_idx := if zlen l <=? i then 0 else i |>.

(** The remote part. *)
Definition next_remote (l : list Z) (m : mesh) : res mesh :=
  let m := m <| counter := counter m + 1 |> in
  if ((reminder m =? 0) && (spread m <=? counter m)) || (spread m + 1 <=? counter m) then
    let i := remoteport_idx m + 1 in
    let i := if zlen l <=? i then 0 else i in
    use_remote l i (m <| remoteport_idx := i |>
                      <| reminder := if 0 <? reminder m then reminder m - 1 else reminder m |>
                      <| counter := 0 |>)
  else Ok m.

(** One pass of the loop: the transport added, and the variables. *)
Definition mesh_step (args : rpc_create_args) (mult i : Z) (m : mesh) : res (xprt_create * mesh) :=
  let md_xprt := (0 <? mdconnect_use m) && (1 <? mult) && (i mod mult <? mult - 1) in
  if md_xprt then
    let m := m <| mdconnect_use := mdconnect_use m - 1 |> in
    let m := m <| xprtargs := (xprtargs m) <| xc_role := RPC_XPRT_ROLE_MD |> |> in
    Ok (xprtargs m, m)
  else
    let m := match localports args with Some l => next_local l m | None => m end in
    match (match remoteports args with Some l => next_remote l m | None => Ok m end) with
    | Err e => Err e
    | Ok m =>
        let m := m <| xprtargs := (xprtargs m) <| xc_role := RPC_XPRT_ROLE_REG |> |> in
        Ok (xprtargs m, m)
    end.

(** The loop: [n] passes from [i] on. *)
Fixpoint mesh_loop (args : rpc_create_args) (mult : Z) (n : nat) (i : Z) (m : mesh) : res (list xprt_create) :=
  match n with
  | O => Ok []
  | S n =>
      match mesh_step args mult i m with
      | Err e => Err e
      | Ok (x, m) =>
          match mesh_loop args mult n (i + 1) m with
          | Err e => Err e
          | Ok l => Ok (x :: l)
          end
      end
  end.

(** The first transport. *)
Definition mesh_first (args : rpc_create_args) : res mesh :=
  let x := mk_xc RPC_XPRT_ROLE_REG None None 0 in
  let '(idx, x) := match localports args with
                   | Some l => (1, match l !! 0%nat with Some a => x <| xc_local := Some a |> | None => x end)
                   | None => (0, x)
                   end in
  let m := mk_mesh idx 0 0 0 0 0 x xprt_portusage_new in
  match remoteports args with
  | Some l =>
      let r := rpc_calc_portgroup_offset (a_hash args) (offset_provided args) (remoteports_offset args) (zlen l) in
      use_remote l r (m <| remoteport_idx := r |>)
  | None => Ok m
  end.

(** The transports [rpc_create] makes, when each can be created and added;
    [None] is the division by zero. *)
Definition rpc_create_mesh (args : rpc_create_args) : option (res (list xprt_create)) :=
  match mesh_first args with
  | Err e => Some (Err e)
  | Ok m =>
      let x0 := xprtargs m in
      if (a_nconnect args <=? 1) && (a_mdconnect args =? 0) then Some (Ok [x0])
      else
        let nconnect := a_nconnect args in
        let m := match remoteports args with
                 | Some l => let s := nconnect / zlen l in
                             m <| spread := s |> <| reminder := nconnect - s * zlen l |>
                 | None => m
                 end in
        if nconnect =? 0 then None
        else
          let m := m <| mdconnect_use := a_mdconnect args |> in
          let mult := 1 + (nconnect - 1 + a_mdconnect args) / nconnect in
          match mesh_loop args mult (Z.to_nat (a_mdconnect args + nconnect - 1)) 0 m with
          | Err e => Some (Err e)
          | Ok l => Some (Ok (x0 :: l))
          end
  end.

(** ** One client per remote port *)

(** The loop of [nfs4_create_multi_server]: the remote port and the number of
    connections of each client.  [None]: out of fuel or [BUG_ON]. *)
Fixpoint spray_loop (fuel : nat) (nr divised_per_client reminder spray_nconnect remoteport_offset idx : Z)
    : option (list (Z * Z)) :=
  if spray_nconnect =? 0 then Some []
  else match fuel with
  | O => None
  | S fuel =>
      let client_nconnect := divised_per_client + (if idx <? reminder then 1 else 0) in
      let next := if nr <=? remoteport_offset + 1 then 0 else remoteport_offset + 1 in
      if spray_nconnect <? client_nconnect then None
      else match spray_loop fuel nr divised_per_client reminder (spray_nconnect - client_nconnect) next (idx + 1) with
           | None => None
           | Some l => Some ((remoteport_offset, client_nconnect) :: l)
           end
  end.

(** [None]: a single client without a port of the group.  The first client, whose
    failure ends the loop, is taken to be made. *)
Definition nfs4_create_multi_server (nconnect nr hash : Z) (provided : bool) (offset : Z) : option (list (Z * Z)) :=
  if (nr =? 0) || (nconnect =? 0) then None
  else
    let remoteport_offset := rpc_calc_portgroup_offset hash provided offset nr in
    spray_loop (Z.to_nat nr) nr (nconnect / nr) (nconnect mod nr) nconnect remoteport_offset 0.
