(* ===== verification/MeshTheorems.v ===== *)
(** * Connections of a client over several ports: spread and diversion

    The loop of [rpc_create] agrees with a closed form: the regular transports are
    spread evenly over the remote ports and in turn over the local ones. *)

From S2P Require Import Prelude Xdr Mesh.
From stdpp Require Import list.
#[local] Open Scope Z_scope.

(** ** Port tables *)

Definition addrs (u : xprt_portusage) : list Z := map p_addr (ports u).

Lemma find_port_spec l a i :
  match find_port l a i with
  | Some j => i <= j < i + zlen l /\ p_addr <$> l !! Z.to_nat (j - i) = Some a
  | None => a ∉ map p_addr l
  end.
Proof.
  revert i. induction l as [|p l IH]; intros i; simpl; [by intros ?%elem_of_nil|].
  destruct (Z.eqb_spec (p_addr p) a) as [<-|Ne].
  - rewrite Z.sub_diag. split; [|done]. pose proof (zlen_nonneg l). rewrite zlen_cons. lia.
  - specialize (IH (i + 1)). destruct (find_port l a (i + 1)) as [j|].
    + destruct IH as [H1 H2]. rewrite zlen_cons. split; [lia|].
      replace (Z.to_nat (j - i)) with (S (Z.to_nat (j - (i + 1)))) by lia. done.
    + rewrite elem_of_cons. intros [->|H]; [done|by apply IH].
Qed.

Lemma push_new u a :
  zlen (ports u) < XPRT_MAX_PORTS -> a ∉ addrs u ->
  xprt_portusage_push_address u a = (zlen (ports u), u <| ports := ports u ++ [mk_port a 0 0] |>).
Proof.
  intros H Ha. unfold xprt_portusage_push_address. rewrite (proj2 (Z.leb_gt _ _) H).
  pose proof (find_port_spec (ports u) a 0) as F. destruct (find_port (ports u) a 0) as [j|]; [|done].
  exfalso. apply Ha. destruct F as [_ F]. unfold addrs. apply list_elem_of_lookup. exists (Z.to_nat (j - 0)).
  rewrite <- list_lookup_fmap in F. exact F.
Qed.

Lemma zlen_pos_of {A} (l : list A) : l <> [] -> 0 < zlen l.
Proof. intros H. destruct l; [done|]. rewrite zlen_cons. pose proof (zlen_nonneg l). lia. Qed.

(** ** The closed form *)

Section Mesh.
  Context (args : rpc_create_args) (ll rl : list Z).
  Context (El : localports args = Some ll) (Er : remoteports args = Some rl).
  Context (Hll : ll <> []) (Hrl : rl <> []) (Hnd : NoDup rl) (Hmax : zlen rl <= XPRT_MAX_PORTS).
  Context (Hn : 1 <= a_nconnect args) (Hm : 0 <= a_mdconnect args).

Abbreviation n := (a_nconnect args).
Abbreviation md := (a_mdconnect args).
Abbreviation nl := (zlen ll).
Abbreviation nr := (zlen rl).
Definition r0 : Z := rpc_calc_portgroup_offset (a_hash args) (offset_provided args) (remoteports_offset args) nr.
Definition per_port : Z := n / nr.
Definition extra : Z := n - n / nr * nr.

(** The index of the first transport on the [k]-th remote port used. *)
Definition first_on (k : Z) : Z := k * per_port + Z.min k extra.

(** The [j]-th regular transport. *)
Definition regular_at (j : Z) (x : xprt_create) : Prop :=
  xc_role x = RPC_XPRT_ROLE_REG /\ xc_local x = ll !! Z.to_nat (j mod nl) /\
  exists k, 0 <= k < nr /\ first_on k <= j < first_on (k + 1) /\ remote_port_idx x = k /\
    xc_remote x = rl !! Z.to_nat ((r0 + k) mod nr).

Lemma nr_pos : 0 < nr.
Proof. exact (zlen_pos_of rl Hrl). Qed.
Lemma nl_pos : 0 < nl.
Proof. exact (zlen_pos_of ll Hll). Qed.

Lemma extra_bounds : 0 <= extra < nr /\ 0 <= per_port /\ n = per_port * nr + extra.
Proof.
  pose proof nr_pos. unfold extra, per_port. pose proof (Z.mod_pos_bound n nr). pose proof (Z.div_mod n nr).
  pose proof (Z.div_pos n nr). lia.
Qed.

Lemma first_on_end : first_on nr = n.
Proof. pose proof extra_bounds. unfold first_on. lia. Qed.

Lemma r0_bounds : 0 <= r0 < nr.
Proof.
  unfold r0, rpc_calc_portgroup_offset. pose proof nr_pos. rewrite (proj2 (Z.ltb_lt _ _)) by lia.
  apply Z.mod_pos_bound. lia.
Qed.

(** The remote ports used up to the [k]-th, in order. *)
Definition used_ports (k : Z) : list Z := map (fun i => nth (Z.to_nat ((r0 + i) mod nr)) rl 0) (seqZ 0 (k + 1)).

(** The variables when [j] regular transports have been made, the last one on the
    [k]-th port. *)
Record local_at (j : Z) (m : mesh) : Prop := {
  ma_local : xc_local (xprtargs m) = ll !! Z.to_nat ((j - 1) mod nl);
  ma_lidx : localport_idx m = j mod nl \/ (nl = 1 /\ localport_idx m = 1);
}.
Record remote_at (j k : Z) (m : mesh) : Prop := {
  ma_k : 0 <= k < nr /\ first_on k <= j - 1 < first_on (k + 1);
  ma_ridx : remoteport_idx m = (r0 + k) mod nr;
  ma_remote : xc_remote (xprtargs m) = rl !! Z.to_nat ((r0 + k) mod nr);
  ma_sub : remote_port_idx (xprtargs m) = k;
  ma_spread : spread m = per_port;
  ma_rem : reminder m = Z.max 0 (extra - k);
  ma_counter : counter m = j - 1 - first_on k;
  ma_usage : addrs (remoteport_usage m) = used_ports k;
}.

Lemma zlen_used k : 0 <= k -> zlen (used_ports k) = k + 1.
Proof. intros. unfold used_ports, zlen. rewrite length_map, length_seqZ. lia. Qed.

Lemma rl_lookup i : 0 <= i < nr -> rl !! Z.to_nat i = Some (nth (Z.to_nat i) rl 0).
Proof.
  intros. destruct (lookup_lt_is_Some_2 rl (Z.to_nat i)) as [x Hx]; [unfold zlen in *; lia|].
  by rewrite nth_lookup, Hx.
Qed.

Lemma used_fresh k : 0 <= k -> k + 1 < nr -> nth (Z.to_nat ((r0 + (k + 1)) mod nr)) rl 0 ∉ used_ports k.
Proof.
  intros Hk Hk1. pose proof nr_pos. unfold used_ports. rewrite list_elem_of_In, in_map_iff.
  intros (i & E & Hi). apply list_elem_of_In, elem_of_seqZ in Hi.
  pose proof (Z.mod_pos_bound (r0 + i) nr ltac:(lia)). pose proof (Z.mod_pos_bound (r0 + (k + 1)) nr ltac:(lia)).
  assert (Z.to_nat ((r0 + i) mod nr) = Z.to_nat ((r0 + (k + 1)) mod nr)) as E2.
  { eapply NoDup_lookup; [exact Hnd|apply rl_lookup; lia|]. rewrite rl_lookup by lia. by rewrite E. }
  apply Z2Nat.inj in E2; [|lia|lia]. pose proof r0_bounds.
  rewrite <- (Z.mod_add (r0 + i) 0 nr), <- (Z.mod_add (r0 + (k + 1)) 0 nr) in E2 by lia.
  assert (((r0 + (k + 1)) - (r0 + i)) mod nr = 0) as E3.
  { rewrite Zminus_mod. rewrite !Z.mul_0_l, !Z.add_0_r in E2. rewrite E2, Z.sub_diag. apply Z.mod_0_l. lia. }
  rewrite Z.mod_small in E3 by lia. lia.
Qed.

Lemma used_ports_S k : 0 <= k -> used_ports (k + 1) = used_ports k ++ [nth (Z.to_nat ((r0 + (k + 1)) mod nr)) rl 0].
Proof.
  intros. unfold used_ports. replace (k + 1 + 1) with ((k + 1) + 1) by lia. rewrite seqZ_app by lia. rewrite map_app.
  simpl. done.
Qed.

Lemma next_local_at j m :
  1 <= j -> local_at j m ->
  let m' := next_local ll m in
  local_at (j + 1) m' /\ mdconnect_use m' = mdconnect_use m /\ forall i k, remote_at i k m -> remote_at i k m'.
Proof.
  intros Hj [E H]. pose proof nl_pos. pose proof (Z.mod_pos_bound j nl ltac:(lia)).
  assert (Next : (if nl <=? j mod nl + 1 then 0 else j mod nl + 1) = (j + 1) mod nl).
  { destruct (Z.leb_spec nl (j mod nl + 1)).
    - assert (j mod nl = nl - 1) as E1 by lia. rewrite Z.add_mod, E1 by lia.
      destruct (decide (nl = 1)) as [->|]; [done|]. rewrite (Z.mod_small 1 nl) by lia.
      replace (nl - 1 + 1) with nl by lia. symmetry. apply Z.mod_same. lia.
    - rewrite Z.add_mod by lia. destruct (decide (nl = 1)); [lia|]. rewrite (Z.mod_small 1 nl) by lia.
      symmetry. apply Z.mod_small. lia. }
  unfold next_local. destruct H as [H|[Hn1 H2]].
  - rewrite H. assert (is_Some (ll !! Z.to_nat (j mod nl))) as [a Ha].
    { apply lookup_lt_is_Some_2. unfold zlen in *. lia. }
    rewrite Ha. simpl. rewrite H, Next. split; [|split; [done|by intros i k []]].
    split; simpl; [|by left]. by replace (j + 1 - 1) with j by lia.
  - rewrite H2. rewrite (lookup_ge_None_2 ll (Z.to_nat 1)) by (unfold zlen in *; lia).
    rewrite H2, Hn1. split; [|split; [done|by intros i k []]].
    split; simpl; [|left; by rewrite Hn1, Z.mod_1_r]. by rewrite E, Hn1, !Z.mod_1_r.
Qed.

Lemma use_remote_at i m k :
  0 <= i < nr -> 0 <= k -> addrs (remoteport_usage m) = used_ports k -> k + 1 < nr ->
  nth (Z.to_nat i) rl 0 = nth (Z.to_nat ((r0 + (k + 1)) mod nr)) rl 0 ->
  exists u, use_remote rl i m = Ok (m <| xprtargs := (xprtargs m) <| xc_remote := rl !! Z.to_nat i |>
                                         <| remote_port_idx := k + 1 |> |> <| remoteport_usage := u |>) /\
    addrs u = used_ports (k + 1).
Proof.
  intros Hi Hk Ha Hk1 Ei. unfold use_remote. rewrite rl_lookup by done. rewrite Ei.
  assert (zlen (ports (remoteport_usage m)) = k + 1) as Lp.
  { rewrite <- (zlen_used k Hk), <- Ha. unfold addrs, zlen. by rewrite length_map. }
  rewrite push_new; [|lia|rewrite Ha; by apply used_fresh]. rewrite Lp, (proj2 (Z.ltb_ge _ _)) by lia.
  eexists. split; [reflexivity|]. unfold addrs. simpl. rewrite map_app. change (map p_addr (ports (remoteport_usage m)))
    with (addrs (remoteport_usage m)). rewrite Ha, used_ports_S by done. done.
Qed.

Lemma next_remote_at j k m :
  1 <= j < n -> remote_at j k m ->
  exists m' k', next_remote rl m = Ok m' /\ remote_at (j + 1) k' m' /\ mdconnect_use m' = mdconnect_use m /\
    forall i, local_at i m -> local_at i m'.
Proof.
  intros Hj [[Hk Hf] Ei Er' Es Esp Ere Ec Eu]. pose proof nr_pos. pose proof extra_bounds. pose proof first_on_end as Fe.
  unfold next_remote. simpl. rewrite Esp, Ere, Ec.
  assert (Adv : (((Z.max 0 (extra - k) =? 0) && (per_port <=? j - 1 - first_on k + 1)) ||
     (per_port + 1 <=? j - 1 - first_on k + 1) = true <-> first_on (k + 1) <= j)).
  { unfold first_on in *. rewrite orb_true_iff, andb_true_iff, Z.eqb_eq, !Z.leb_le. lia. }
  destruct (_ || _) eqn:Ea.
  - apply proj1 in Adv. specialize (Adv eq_refl).
    assert (k + 1 < nr).
    { destruct (Z.lt_ge_cases (k + 1) nr); [done|]. assert (k + 1 = nr) as E1 by lia. rewrite E1, Fe in Adv. lia. }
    assert (Ni : (if nr <=? remoteport_idx m + 1 then 0 else remoteport_idx m + 1) = (r0 + (k + 1)) mod nr).
    { rewrite Ei. pose proof (Z.mod_pos_bound (r0 + k) nr ltac:(lia)). replace (r0 + (k + 1)) with ((r0 + k) + 1) by lia.
      destruct (decide (nr = 1)) as [E1|Ne]; [lia|].
      rewrite (Z.add_mod (r0 + k) 1), (Z.mod_small 1) by lia. destruct (Z.leb_spec nr ((r0 + k) mod nr + 1)).
      - replace ((r0 + k) mod nr + 1) with nr by lia. symmetry. apply Z.mod_same. lia.
      - symmetry. apply Z.mod_small. lia. }
    rewrite Ni. set (i := (r0 + (k + 1)) mod nr) in *. assert (0 <= i < nr) by (apply Z.mod_pos_bound; lia).
    lazymatch goal with |- context [use_remote rl i ?m1] =>
      destruct (use_remote_at i m1 k) as (u & Eu' & Au); [done|lia|exact Eu|done|done|] end.
    rewrite Eu'. eexists _, (k + 1). split; [reflexivity|]. simpl.
    assert (first_on (k + 1) <= j < first_on (k + 1 + 1)).
    { unfold first_on in *. destruct (Z.eq_dec per_port 0) as [E0|]; [rewrite E0 in *|]; lia. }
    split; [|split; [done|by intros ? []]]. split; simpl; try done; try lia.
    destruct (Z.ltb_spec 0 (Z.max 0 (extra - k))); lia.
  - assert (j < first_on (k + 1)).
    { destruct (Z.lt_ge_cases j (first_on (k + 1))) as [|C]; [done|]. by apply Adv in C. }
    eexists _, k. split; [reflexivity|]. simpl.
    split; [|split; [done|by intros ? []]]. split; simpl; try done; lia.
Qed.

Lemma mesh_step_regular j k i mult m :
  1 <= j < n -> local_at j m -> remote_at j k m ->
  (0 <? mdconnect_use m) && (1 <? mult) && (i mod mult <? mult - 1) = false ->
  exists x m' k', mesh_step args mult i m = Ok (x, m') /\ regular_at j x /\ local_at (j + 1) m' /\
    remote_at (j + 1) k' m' /\ mdconnect_use m' = mdconnect_use m.
Proof.
  intros Hj Ml Mr Hmd. unfold mesh_step. rewrite Hmd, El, Er.
  destruct (next_local_at j m ltac:(lia) Ml) as (L1 & D1 & K1). set (m1 := next_local ll m) in *.
  destruct (next_remote_at j k m1 Hj (K1 _ _ Mr)) as (m2 & k' & E2 & R2 & D2 & K2). rewrite E2.
  specialize (K2 _ L1). eexists _, _, k'. split; [reflexivity|]. rewrite <- D1, <- D2.
  destruct K2 as [A1 A2], R2 as [B1 B2 B3 B4 B5 B6 B7 B8]. replace (j + 1 - 1) with j in * by lia.
  split; [|split; [by split; simpl; replace (j + 1 - 1) with j by lia|split; [|done]]].
  - split; [done|]. split; [done|]. exists k'. by destruct B1.
  - split; simpl; try done; by replace (j + 1 - 1) with j by lia.
Qed.

Lemma mesh_step_md j k i mult m :
  local_at j m -> remote_at j k m ->
  (0 <? mdconnect_use m) && (1 <? mult) && (i mod mult <? mult - 1) = true ->
  exists x m', mesh_step args mult i m = Ok (x, m') /\ xc_role x = RPC_XPRT_ROLE_MD /\ local_at j m' /\
    remote_at j k m' /\ mdconnect_use m' = mdconnect_use m - 1.
Proof.
  intros [] [] Hmd. unfold mesh_step. rewrite Hmd. eexists _, _. split; [reflexivity|]. split; [done|].
  split; [by split|]. split; [by split|done].
Qed.

(** ** The loop *)

Abbreviation mult := (1 + (n - 1 + md) / n).
Definition total : Z := md + n - 1.
(** The metadata transports made in the first [i] passes. *)
Definition md_made (i : Z) : Z := Z.min md (i - i / mult).

Lemma mult_bounds : 1 <= mult /\ md <= (mult - 1) * n.
Proof.
  pose proof (Z.div_pos (n - 1 + md) n ltac:(lia) ltac:(lia)).
  pose proof (Z.div_mod (n - 1 + md) n ltac:(lia)). pose proof (Z.mod_pos_bound (n - 1 + md) n ltac:(lia)). lia.
Qed.

Lemma div_succ i q : 1 <= q -> 0 <= i -> (i + 1) / q = i / q + (if i mod q <? q - 1 then 0 else 1).
Proof.
  intros Hq Hi. pose proof (Z.div_mod i q ltac:(lia)). pose proof (Z.mod_pos_bound i q ltac:(lia)).
  destruct (Z.ltb_spec (i mod q) (q - 1)); symmetry.
  - apply (Z.div_unique_pos _ _ _ (i mod q + 1)); lia.
  - apply (Z.div_unique_pos _ _ _ 0); lia.
Qed.

Lemma md_made_step i :
  0 <= i -> let d := (0 <? md - md_made i) && (1 <? mult) && (i mod mult <? mult - 1) in
  md_made (i + 1) = md_made i + (if d then 1 else 0).
Proof.
  intros Hi d. pose proof mult_bounds. pose proof (Z.mod_pos_bound i mult ltac:(lia)).
  assert (i / mult <= i) by (apply Z.div_le_upper_bound; nia). unfold d, md_made. rewrite div_succ by lia.
  destruct (Z.ltb_spec 0 (md - Z.min md (i - i / mult))), (Z.ltb_spec 1 mult), (Z.ltb_spec (i mod mult) (mult - 1)); simpl; lia.
Qed.

Lemma regular_room i :
  0 <= i < total -> let d := (0 <? md - md_made i) && (1 <? mult) && (i mod mult <? mult - 1) in
  d = false -> 1 + i - md_made i < n.
Proof.
  intros Hi d Hd. pose proof mult_bounds. pose proof (Z.div_mod i mult ltac:(lia)).
  pose proof (Z.mod_pos_bound i mult ltac:(lia)). unfold total in *. unfold d, md_made in *.
  destruct (Z.ltb_spec 0 (md - Z.min md (i - i / mult))) as [B1|B1]; [|lia].
  destruct (Z.ltb_spec 1 mult) as [B2|B2]; [|nia].
  destruct (Z.ltb_spec (i mod mult) (mult - 1)) as [B3|B3]; [done|]. nia.
Qed.

Lemma md_made_total : md_made total = md.
Proof.
  pose proof mult_bounds. unfold md_made, total. pose proof (Z.div_mod (md + n - 1) mult ltac:(lia)).
  pose proof (Z.mod_pos_bound (md + n - 1) mult ltac:(lia)).
  assert ((md + n - 1) / mult <= n - 1); [|lia]. apply Z.lt_succ_r. apply Z.div_lt_upper_bound; nia.
Qed.

Definition regulars (l : list xprt_create) : list xprt_create := filter (fun x => xc_role x = RPC_XPRT_ROLE_REG) l.

Lemma mesh_loop_at cnt i k m :
  let j := 1 + i - md_made i in
  0 <= i -> i + Z.of_nat cnt = total -> 1 <= j -> local_at j m -> remote_at j k m -> mdconnect_use m = md - md_made i ->
  exists l, mesh_loop args mult cnt i m = Ok l /\ length l = cnt /\ zlen (regulars l) = n - j /\
    forall q x, regulars l !! q = Some x -> regular_at (j + Z.of_nat q) x.
Proof.
  revert i k m. induction cnt as [|cnt IH]; intros i k m j Hi Hc Hj Ml Mr Md.
  { exists []. split_and!; try done. unfold j. replace i with total by lia. rewrite md_made_total. unfold total.
    unfold regulars, zlen. simpl. lia. }
  cbn [mesh_loop]. pose proof (md_made_step i Hi) as St. pose proof (regular_room i ltac:(lia)) as Ro. cbv zeta in St, Ro.
  rewrite <- Md in St, Ro. destruct ((0 <? mdconnect_use m) && (1 <? mult) && (i mod mult <? mult - 1)) eqn:D.
  - destruct (mesh_step_md j k i mult m Ml Mr D) as (x & m' & -> & Rx & Ml' & Mr' & Md').
    destruct (IH (i + 1) k m') as (l & -> & Ll & Lr & Lq); [lia|lia|..].
    + rewrite St. lia.
    + by replace (1 + (i + 1) - md_made (i + 1)) with j by lia.
    + by replace (1 + (i + 1) - md_made (i + 1)) with j by lia.
    + lia.
    + exists (x :: l). replace (1 + (i + 1) - md_made (i + 1)) with j in * by lia.
      unfold regulars in *. rewrite filter_cons_False by (by rewrite Rx). split_and!; try done. simpl. lia.
  - destruct (mesh_step_regular j k i mult m ltac:(specialize (Ro eq_refl); lia) Ml Mr D) as (x & m' & k' & -> & Rx & Ml' & Mr' & Md').
    destruct (IH (i + 1) k' m') as (l & -> & Ll & Lr & Lq); [lia|lia|..].
    + lia.
    + by replace (1 + (i + 1) - md_made (i + 1)) with (j + 1) by lia.
    + by replace (1 + (i + 1) - md_made (i + 1)) with (j + 1) by lia.
    + lia.
    + exists (x :: l). replace (1 + (i + 1) - md_made (i + 1)) with (j + 1) in * by lia.
      unfold regulars in *. rewrite filter_cons_True by (by destruct Rx). split_and!; try done; [simpl; lia|rewrite zlen_cons; lia|].
      intros [|q] y; simpl.
      * intros [= <-]. by rewrite Z.add_0_r.
      * intros Hq. specialize (Lq q y Hq). by replace (j + Z.of_nat (S q)) with (j + 1 + Z.of_nat q) by lia.
Qed.

Lemma mesh_first_at :
  exists m, mesh_first args = Ok m /\ xc_role (xprtargs m) = RPC_XPRT_ROLE_REG /\ local_at 1 m /\
    remoteport_idx m = r0 /\ xc_remote (xprtargs m) = rl !! Z.to_nat r0 /\ remote_port_idx (xprtargs m) = 0 /\
    addrs (remoteport_usage m) = used_ports 0 /\ counter m = 0.
Proof.
  unfold mesh_first. rewrite El, Er. fold r0. pose proof r0_bounds. pose proof nr_pos. pose proof nl_pos.
  assert (is_Some (ll !! 0%nat)) as [a Ha] by (apply lookup_lt_is_Some_2; unfold zlen in *; lia). rewrite Ha.
  unfold use_remote. rewrite rl_lookup by done.
  rewrite push_new; [|done|by intros ?%elem_of_nil]. simpl. eexists. split; [reflexivity|]. simpl.
  split_and!; try done.
  - split; simpl.
    + by rewrite Z.mod_0_l by lia.
    + destruct (decide (nl = 1)); [by right|left]. rewrite Z.mod_small; lia.
  - unfold addrs, used_ports. simpl. by rewrite Z.add_0_r, Z.mod_small by lia.
Qed.

(** The transports of a mesh. *)
Lemma mesh_spec :
  exists l, rpc_create_mesh args = Some (Ok l) /\ zlen l = n + md /\ zlen (regulars l) = n /\
    forall q x, regulars l !! q = Some x -> regular_at (Z.of_nat q) x.
Proof.
  destruct mesh_first_at as (m & E & Ro & Ml & A1 & A2 & A3 & A4 & A5). pose proof r0_bounds. pose proof nr_pos.
  pose proof extra_bounds. unfold rpc_create_mesh. rewrite E, Er.
  assert (F0 : first_on 0 = 0) by (unfold first_on; lia).
  assert (F1 : 0 < first_on 1).
  { unfold first_on. destruct (Z.eq_dec per_port 0) as [E0|]; [rewrite E0 in *|]; lia. }
  assert (R0 : regular_at 0 (xprtargs m)).
  { split; [done|]. split; [apply Ml|]. exists 0. rewrite A2, A3, Z.add_0_r, Z.mod_small by lia. split_and!; try done; lia. }
  destruct ((n <=? 1) && (md =? 0)) eqn:Es.
  - exists [xprtargs m]. apply andb_true_iff in Es as [E1%Z.leb_le E2%Z.eqb_eq]. unfold regulars.
    rewrite filter_cons_True by done. split_and!; try done; [unfold zlen; simpl; lia|unfold zlen; simpl; lia|].
    intros [|q] x; simpl; [by intros [= <-]|done].
  - rewrite (proj2 (Z.eqb_neq n 0)) by lia.
    set (m1 := (m <| spread := _ |> <| reminder := _ |>) <| mdconnect_use := md |>).
    destruct (mesh_loop_at (Z.to_nat (md + n - 1)) 0 0 m1) as (l & El' & Ll & Lr & Lq).
    + done.
    + unfold total. lia.
    + unfold md_made. rewrite Z.div_0_l; pose proof mult_bounds; lia.
    + replace (1 + 0 - md_made 0) with 1; [by destruct Ml|]. unfold md_made. rewrite Z.div_0_l; pose proof mult_bounds; lia.
    + replace (1 + 0 - md_made 0) with 1; [|unfold md_made; rewrite Z.div_0_l; pose proof mult_bounds; lia].
      split; simpl; rewrite ?A1, ?A2, ?Z.add_0_r, ?Z.mod_small by lia; try done; try lia.
      * change (0 + 1) with 1. lia.
      * unfold extra, per_port in *. lia.
    + unfold md_made. rewrite Z.div_0_l; pose proof mult_bounds; simpl; lia.
    + rewrite El'. exists (xprtargs m :: l). unfold regulars in *. rewrite filter_cons_True by done. rewrite !zlen_cons.
      replace (1 + 0 - md_made 0) with 1 in * by (unfold md_made; rewrite Z.div_0_l; pose proof mult_bounds; lia).
      split_and!; try done; [unfold zlen; lia|lia|]. intros [|q] x; simpl; [by intros [= <-]|].
      intros Hq. specialize (Lq q x Hq). by replace (Z.of_nat (S q)) with (1 + Z.of_nat q) by lia.
Qed.
End Mesh.

(** ** Counting *)

Lemma count_interval {A} (P : A -> Prop) `{forall x, Decision (P x)} (l : list A) a b o :
  (forall q x, l !! q = Some x -> P x <-> a <= o + Z.of_nat q < b) ->
  zlen (filter P l) = Z.max 0 (Z.min b (o + zlen l) - Z.max a o).
Proof.
  revert o. induction l as [|x l IH]; intros o Hl; [unfold zlen; simpl; lia|].
  rewrite zlen_cons. pose proof (Hl 0%nat x eq_refl) as H0. rewrite Z.add_0_r in H0.
  assert (IHo : zlen (filter P l) = Z.max 0 (Z.min b (o + 1 + zlen l) - Z.max a (o + 1))).
  { apply IH. intros q y Hy. rewrite (Hl (S q) y Hy). lia. }
  pose proof (zlen_nonneg l). destruct (decide (P x)) as [Px|Px].
  - rewrite filter_cons_True, zlen_cons, IHo by done. apply H0 in Px. lia.
  - rewrite filter_cons_False, IHo by done. assert (~ (a <= o < b)) by (by rewrite <- H0). lia.
Qed.

Lemma first_on_mono args rl k k' :
  rl <> [] -> 1 <= a_nconnect args -> k <= k' -> first_on args rl k <= first_on args rl k'.
Proof.
  intros Hrl Hn Hk. pose proof (extra_bounds args rl Hrl Hn). unfold first_on. nia.
Qed.

(** ** Choosing a port to divert to *)

Definition candidate (addr : Z) (p : xprt_port) : Prop := p_addr p <> addr /\ xprt_connections p <> 0.
Definition total_usage (p : xprt_port) : Z := u32 (xprt_connections p + xprt_diversions p).

Lemma least_used_spec l addr i lowest m :
  (least_used l addr i lowest m = m /\ forall q p, l !! q = Some p -> candidate addr p -> lowest <= total_usage p) \/
  (exists q p, least_used l addr i lowest m = i + Z.of_nat q /\ l !! q = Some p /\ candidate addr p /\
     total_usage p < lowest /\
     forall q' p', l !! q' = Some p' -> candidate addr p' -> total_usage p <= total_usage p').
Proof.
  revert i lowest m. induction l as [|p l IH]; intros i lowest m; simpl; [by left|].
  fold (total_usage p).
  assert (Skip : forall lo mi, (candidate addr p -> lo <= total_usage p) ->
    (least_used l addr (i + 1) lo mi = mi /\
       forall q p0, (p :: l) !! q = Some p0 -> candidate addr p0 -> lo <= total_usage p0) \/
    (exists q p0, least_used l addr (i + 1) lo mi = i + Z.of_nat q /\ (p :: l) !! q = Some p0 /\
       candidate addr p0 /\ total_usage p0 < lo /\
       forall q' p', (p :: l) !! q' = Some p' -> candidate addr p' -> total_usage p0 <= total_usage p')).
  { intros lo mi Hp. destruct (IH (i + 1) lo mi) as [[E H]|(q & p0 & E & H1 & H2 & H3 & H4)].
    - left. split; [done|]. intros [|q] p0; simpl; [intros [= <-]; apply Hp|apply H].
    - right. exists (S q), p0. rewrite E. split_and!; try done; [lia|].
      intros [|q'] p'; simpl; [|apply H4]. intros [= <-] Hc. specialize (Hp Hc). lia. }
  destruct ((p_addr p =? addr) || (xprt_connections p =? 0)) eqn:Ec.
  - apply Skip. intros [C1 C2]. apply orb_true_iff in Ec as [Ec%Z.eqb_eq|Ec%Z.eqb_eq]; done.
  - apply orb_false_iff in Ec as [C1%Z.eqb_neq C2%Z.eqb_neq].
    destruct (Z.ltb_spec (total_usage p) lowest) as [Lt|Ge]; [|apply Skip; done].
    right. destruct (Skip (total_usage p) i ltac:(done)) as [[E H]|(q & p0 & E & H1 & H2 & H3 & H4)].
    + exists 0%nat, p. rewrite E. split_and!; try done. lia.
    + exists q, p0. rewrite E. split_and!; try done. lia.
Qed.

Lemma on_port_back u i p f g :
  ports u !! Z.to_nat i = Some p -> g (f p) = p -> on_port i g (on_port i f u) = u.
Proof.
  intros H E. unfold on_port. destruct u as [l d]. unfold field_upd. simpl in *. f_equal.
  apply list_eq. intros q. destruct (decide (q = Z.to_nat i)) as [->|Ne].
  - by rewrite !list_lookup_alter_eq, H; simpl; rewrite E.
  - by rewrite !list_lookup_alter_ne by done.
Qed.

Lemma u32_sub_add z : is_u32 z -> u32 (u32 (z + 1) - 1) = z.
Proof.
  intros H. unfold u32. rewrite Zminus_mod_idemp_l. replace (z + 1 - 1) with z by lia. by apply u32_id.
Qed.

(** ** One client per port *)

Section Spray.
  Context (n nr r : Z) (Hn : 1 <= n) (Hnr : 1 <= nr) (Hr : 0 <= r < nr).

Definition share (i : Z) : Z := n / nr + (if i <? n mod nr then 1 else 0).
Definition given (i : Z) : Z := i * (n / nr) + Z.min i (n mod nr).

Lemma given_end : given nr = n.
Proof. unfold given. pose proof (Z.div_mod n nr). pose proof (Z.mod_pos_bound n nr). lia. Qed.

Lemma given_S i : given (i + 1) = given i + share i.
Proof. unfold given, share. destruct (Z.ltb_spec i (n mod nr)); lia. Qed.

Lemma spray_spec fuel i :
  0 <= i <= nr -> nr - i <= Z.of_nat fuel -> given i <= n ->
  exists l, spray_loop fuel nr (n / nr) (n mod nr) (n - given i) ((r + i) mod nr) i = Some l /\
    (forall q x, l !! q = Some x -> x = ((r + (i + Z.of_nat q)) mod nr, share (i + Z.of_nat q)) /\ i + Z.of_nat q < nr) /\
    foldr (fun x s => snd x + s) 0 l = n - given i /\ zlen l <= nr - i.
Proof.
  revert i. induction fuel as [|fuel IH]; intros i Hi Hf Hg.
  - assert (i = nr) as -> by lia. rewrite given_end, Z.sub_diag. exists []. split_and!; try done. unfold zlen; simpl; lia.
  - cbn [spray_loop]. destruct (Z.eqb_spec (n - given i) 0) as [E|E].
    { exists []. split_and!; try done; unfold zlen; simpl; lia. }
    assert (i < nr). { destruct (Z.eq_dec i nr) as [->|]; [|lia]. rewrite given_end in E. lia. }
    fold (share i). pose proof (given_S i) as GS.
    assert (given (i + 1) <= n).
    { pose proof given_end as Ge. unfold given in *. pose proof (Z.div_pos n nr). pose proof (Z.mod_pos_bound n nr). nia. }
    rewrite (proj2 (Z.ltb_ge _ _)) by lia.
    assert ((if nr <=? (r + i) mod nr + 1 then 0 else (r + i) mod nr + 1) = (r + (i + 1)) mod nr) as ->.
    { pose proof (Z.mod_pos_bound (r + i) nr ltac:(lia)). replace (r + (i + 1)) with ((r + i) + 1) by lia.
      destruct (Z.eq_dec nr 1) as [E1|Ne]; [rewrite E1, !Z.mod_1_r in *; done|].
      rewrite (Z.add_mod (r + i) 1), (Z.mod_small 1) by lia. destruct (Z.leb_spec nr ((r + i) mod nr + 1)).
      - replace ((r + i) mod nr + 1) with nr by lia. symmetry. apply Z.mod_same. lia.
      - symmetry. apply Z.mod_small. lia. }
    destruct (IH (i + 1) ltac:(lia) ltac:(lia) ltac:(done)) as (l & El & Hl & Hs & Hz).
    replace (n - given i - share i) with (n - given (i + 1)) by lia. rewrite El. eexists. split; [reflexivity|]. split_and!.
    + intros [|q] x; simpl; [intros [= <-]; rewrite Z.add_0_r; split; [done|lia]|].
      intros Hq. destruct (Hl q x Hq) as [-> ?]. replace (i + Z.of_nat (S q)) with (i + 1 + Z.of_nat q) by lia. done.
    + simpl. lia.
    + rewrite zlen_cons. lia.
Qed.
End Spray.

(** ** The properties *)


(** A mount with metadata transports but without [nconnect] divides by zero:
    the early return is taken only without metadata transports, and [mult] is
    computed with [nconnect = 0]. *)
Theorem mesh_divides_by_zero args m :
  mesh_first args = Ok m ->
  rpc_create_mesh args = None <-> a_nconnect args = 0 /\ a_mdconnect args <> 0.
Proof.
  intros E. unfold rpc_create_mesh. rewrite E.
  destruct ((a_nconnect args <=? 1) && (a_mdconnect args =? 0)) eqn:Es.
  - split; [done|]. intros [_ H2]. apply andb_true_iff in Es as [_ Es%Z.eqb_eq]. done.
  - destruct (Z.eqb_spec (a_nconnect args) 0) as [E0|N0].
    + split; [|done]. intros _. split; [done|]. intros H2. rewrite E0, H2 in Es. done.
    + split; [|by intros [? _]]. by destruct (mesh_loop _ _ _ _ _).
Qed.

(** The clients of an NFSv4 mount over several remote ports.  The loop ends
    without hitting its [BUG_ON], gives each remote port at most one client, in
    order from the offset, and shares out all [nconnect] connections so that no two
    clients differ by more than one. *)
Theorem multi_server_shares nconnect nr hash provided offset :
  1 <= nconnect -> 1 <= nr ->
  let r := rpc_calc_portgroup_offset hash provided offset nr in
  exists l, nfs4_create_multi_server nconnect nr hash provided offset = Some l /\
    foldr (fun x s => snd x + s) 0 l = nconnect /\ zlen l <= nr /\
    forall q x, l !! q = Some x ->
      x = ((r + Z.of_nat q) mod nr, nconnect / nr + (if Z.of_nat q <? nconnect mod nr then 1 else 0)).
Proof.
  intros Hn Hr r. unfold nfs4_create_multi_server.
  rewrite (proj2 (Z.eqb_neq nr 0)), (proj2 (Z.eqb_neq nconnect 0)) by lia. cbn [orb]. fold r.
  assert (0 <= r < nr).
  { unfold r, rpc_calc_portgroup_offset. rewrite (proj2 (Z.ltb_lt _ _)) by lia. apply Z.mod_pos_bound. lia. }
  destruct (spray_spec nconnect nr r Hn Hr H (Z.to_nat nr) 0 ltac:(lia) ltac:(lia)) as (l & E & Hl & Hs & Hz).
  { unfold given. pose proof (Z.mod_pos_bound nconnect nr). lia. }
  assert (given nconnect nr 0 = 0) as G0.
  { unfold given. pose proof (Z.mod_pos_bound nconnect nr). lia. }
  rewrite G0, Z.sub_0_r, Z.add_0_r, (Z.mod_small r nr) in E by done. exists l. split_and!; try done; try lia.
  intros q x Hq. destruct (Hl q x Hq) as [-> _]. unfold share. rewrite !Z.add_0_l. reflexivity.
Qed.

(** Diverting a transport.  The port chosen is connected, is not the
    transport's own and is used least by connections and diversions together; it is
    charged with the diversion, and undoing the diversion restores the table.
    Nothing is chosen only when no other port is connected. *)
Theorem portusage_divert_contract u addr i a u' :
  Forall (fun p => is_u32 (xprt_diversions p) /\ total_usage p < 2 ^ 32 - 1) (ports u) ->
  xprt_portusage_divert u addr = (i, a, u') ->
  (i = -1 /\ a = None /\ u' = u /\ forall p, p ∈ ports u -> p_addr p <> addr -> xprt_connections p = 0) \/
  (exists p, 0 <= i < zlen (ports u) /\ ports u !! Z.to_nat i = Some p /\ a = Some (p_addr p) /\ candidate addr p /\
     (forall p', p' ∈ ports u -> candidate addr p' -> total_usage p <= total_usage p') /\
     xprt_portusage_undivert u' i = (u, -1)).
Proof.
  intros F. unfold xprt_portusage_divert.
  destruct (least_used_spec (ports u) addr 0 (2 ^ 32 - 1) (-1)) as [[-> H]|(q & p & -> & Hp & Hc & Hlt & Hmin)].
  - intros [= <- <- <-]. left. split_and!; try done. intros p Hin Ha.
    destruct (Z.eq_dec (xprt_connections p) 0) as [|Nz]; [done|]. exfalso.
    apply list_elem_of_lookup in Hin as [q Hq]. specialize (H q p Hq (conj Ha Nz)).
    rewrite Forall_forall in F. destruct (F p) as [_ ?]; [by apply list_elem_of_lookup_2 with q|]. lia.
  - rewrite (proj2 (Z.eqb_neq (0 + Z.of_nat q) (-1))) by lia. simpl negb. cbv iota.
    replace (Z.to_nat (0 + Z.of_nat q)) with q by lia. rewrite Hp. intros [= <- <- <-]. right. exists p.
    pose proof (lookup_lt_Some _ _ _ Hp) as Lq.
    assert (0 <= 0 + Z.of_nat q < zlen (ports u)) as Hq by (unfold zlen; lia).
    replace (Z.to_nat (0 + Z.of_nat q)) with q by lia. split_and!; try done; try lia.
    + intros p' Hin. apply list_elem_of_lookup in Hin as [q' Hq']. by apply (Hmin q').
    + unfold xprt_portusage_undivert, _xprt_portusage_undivert. simpl ports. 
      unfold zlen in *. rewrite length_alter. rewrite (proj2 (Z.leb_le _ _)), (proj2 (Z.ltb_lt _ _)) by lia. cbn [andb].
      f_equal. apply (on_port_back u (0 + Z.of_nat q) p); [by replace (Z.to_nat (0 + Z.of_nat q)) with q by lia|].
      destruct p as [pa pd pc]. unfold field_upd. simpl. f_equal. apply u32_sub_add.
      rewrite Forall_forall in F. apply (F (mk_port pa pd pc)). by apply list_elem_of_lookup_2 with q.
Qed.


(** ** Witnesses *)

Definition sample_mesh : rpc_create_args := mk_rca 7 3 (Some [1; 2]) (Some [10; 20; 30]) true 1 0.
Definition sample_no_nconnect : rpc_create_args := mk_rca 0 3 (Some [1; 2]) (Some [10; 20; 30]) true 1 0.
Definition sample_usage : xprt_portusage := mk_usage [mk_port 10 0 2; mk_port 20 1 1; mk_port 30 0 1] true.


Lemma mesh_divides_by_zero_witness : rpc_create_mesh sample_no_nconnect = None.
Proof.
  destruct (mesh_first sample_no_nconnect) as [m|e] eqn:E; [|vm_compute in E; discriminate E].
  apply (mesh_divides_by_zero sample_no_nconnect m E). split; [reflexivity|discriminate].
Defined.

Lemma multi_server_shares_witness :
  exists l, nfs4_create_multi_server 8 3 0 true 2 = Some l /\
    foldr (fun x s => snd x + s) 0 l = 8 /\ zlen l <= 3 /\
    forall q x, l !! q = Some x ->
      x = ((rpc_calc_portgroup_offset 0 true 2 3 + Z.of_nat q) mod 3, 8 / 3 + (if Z.of_nat q <? 8 mod 3 then 1 else 0)).
Proof. apply (multi_server_shares 8 3 0 true 2); lia. Defined.

Lemma portusage_divert_contract_witness :
  exists u', xprt_portusage_divert sample_usage 10 = (2, Some 30, u') /\ xprt_portusage_undivert u' 2 = (sample_usage, -1).
Proof.
  eexists. split; [reflexivity|].
  destruct (portusage_divert_contract sample_usage 10 2 (Some 30) _
    ltac:(repeat constructor; vm_compute; try discriminate; reflexivity) eq_refl)
    as [(H & _)|(p & _ & _ & _ & _ & _ & H)]; [discriminate H|exact H].
Defined.
