(* ===== verification/Multipath.v ===== *)
(** * Multipath: the transports of a client and the choice between them

    [net/sunrpc/xprtmultipath.c], and of [net/sunrpc/clnt.c] the choice of a
    transport for a task.  A switch holds the transports of a client; an iterator
    with a policy (always the first, round robin, once through all) goes over them.
    Round robin passes over transports that are busier than the average.

    Transports are numbered; [xprts] is the memory that holds them, so that a
    transport which has left the switch but is still referenced keeps its state.  A
    destroyed transport has reference count 0.  The bits of [xprt->state] are
    booleans.  The identifier spaces ([xid_space]), sysfs objects and trace points
    are left out, and there is one switch. *)

From S2P Require Import Prelude Xdr Mesh.
From stdpp Require Import gmap.
#[local] Open Scope Z_scope.

(** ** Transports and the switch *)

Record rpc_xprt := mk_xprt {
  xp_kref : Z;
  xprt_net : Z;
  xp_addr : Z;
  xp_port_idx : Z;
  xp_role : xprt_role;
  gpu_priority : list Z;
  queuelen : Z;
  waiting : Z;
  xp_main : bool;
  XPRT_OFFLINE : bool;
  XPRT_REMOVE : bool;
  XPRT_CONNECTED : bool;
  XPRT_N_DIVERSION : bool;
  XPRT_N_RECOVERY : bool;
}.
#[export] Instance upd_xprt : Updatable rpc_xprt := fun x =>
  mk_xprt (xp_kref x) (xprt_net x) (xp_addr x) (xp_port_idx x) (xp_role x) (gpu_priority x) (queuelen x) (waiting x)
    (xp_main x) (XPRT_OFFLINE x) (XPRT_REMOVE x) (XPRT_CONNECTED x) (XPRT_N_DIVERSION x) (XPRT_N_RECOVERY x).

Inductive rpc_xprt_iter_ops := rpc_xprt_iter_singular | rpc_xprt_iter_roundrobin | rpc_xprt_iter_listall.

Record rpc_xprt_switch := mk_xps {
  xps_kref : Z;
  xps_nxprts : Z;
  xps_nactive : Z;
  xps_queuelen : Z;
  xps_xprt_list : list Z;
  xps_remoteport_xprt_list : list (list Z);
  xps_net : option Z;
  xps_iter_ops : rpc_xprt_iter_ops;
}.
#[export] Instance upd_xps : Updatable rpc_xprt_switch := fun s =>
  mk_xps (xps_kref s) (xps_nxprts s) (xps_nactive s) (xps_queuelen s) (xps_xprt_list s) (xps_remoteport_xprt_list s)
    (xps_net s) (xps_iter_ops s).

(** [xpi_xpswitch]: whether the iterator refers to the switch or to none. *)
Record rpc_xprt_iter := mk_xpi { xpi_xpswitch : bool; xpi_cursor : option Z; xpi_ops : option rpc_xprt_iter_ops }.
#[export] Instance upd_xpi : Updatable rpc_xprt_iter := fun i => mk_xpi (xpi_xpswitch i) (xpi_cursor i) (xpi_ops i).

Record mp := mk_mp { xprts : gmap Z rpc_xprt; xps : rpc_xprt_switch }.
#[export] Instance upd_mp : Updatable mp := fun st => mk_mp (xprts st) (xps st).

Definition on_xprt (i : Z) (f : rpc_xprt -> rpc_xprt) (st : mp) : mp := st <| xprts := alter f i (xprts st) |>.
Definition on_xps (f : rpc_xprt_switch -> rpc_xprt_switch) (st : mp) : mp := st <| xps := f (xps st) |>.

(** ** References *)

Definition xprt_get (i : Z) (st : mp) : option mp :=
  match xprts st !! i with
  | Some x => if xp_kref x =? 0 then None else Some (on_xprt i (fun x => x <| xp_kref := xp_kref x + 1 |>) st)
  | None => None
  end.
Definition xprt_put (i : Z) (st : mp) : mp := on_xprt i (fun x => x <| xp_kref := xp_kref x - 1 |>) st.

(** ** Members of the switch *)

Definition xprt_switch_add_xprt_locked (i : Z) (st : mp) : mp :=
  match xprt_get i st with
  | None => st
  | Some st =>
      match xprts st !! i with
      | None => st
      | Some x =>
          on_xps (fun s =>
            s <| xps_xprt_list := xps_xprt_list s ++ [i] |>
              <| xps_remoteport_xprt_list :=
                   alter (fun l => l ++ [i]) (Z.to_nat (xp_port_idx x)) (xps_remoteport_xprt_list s) |>
              <| xps_net := if xps_nxprts s =? 0 then Some (xprt_net x) else xps_net s |>
              <| xps_nxprts := u32 (xps_nxprts s + 1) |>
              <| xps_nactive := u32 (xps_nactive s + 1) |>) st
      end
  end.

Definition rpc_xprt_switch_add_xprt (i : Z) (st : mp) : mp :=
  match xprts st !! i with
  | None => st
  | Some x =>
      if match xps_net (xps st) with Some n => n =? xprt_net x | None => true end
      then xprt_switch_add_xprt_locked i st
      else st
  end.

(** [list_del_rcu] takes the transport out of both lists. *)
Definition list_del (i : Z) (l : list Z) : list Z := List.filter (fun j => negb (j =? i)) l.

Definition xprt_switch_remove_xprt_locked (i : Z) (st : mp) : mp :=
  let offline := match xprts st !! i with Some x => XPRT_OFFLINE x | None => false end in
  on_xps (fun s =>
    let s := if negb offline then s <| xps_nactive := u32 (xps_nactive s - 1) |> else s in
    let s := s <| xps_nxprts := u32 (xps_nxprts s - 1) |> in
    let s := if xps_nxprts s =? 0 then s <| xps_net := None |> else s in
    s <| xps_xprt_list := list_del i (xps_xprt_list s) |>
      <| xps_remoteport_xprt_list := map (list_del i) (xps_remoteport_xprt_list s) |>) st.

Definition rpc_xprt_switch_remove_xprt (i : Z) (st : mp) : mp := xprt_put i (xprt_switch_remove_xprt_locked i st).

(** [None]: no memory. *)
Definition xprt_switch_alloc (no_mem : bool) (i : Z) (x : gmap Z rpc_xprt) : option mp :=
  if no_mem then None
  else
    let s := mk_xps 1 0 0 0 [] (replicate (Z.to_nat XPRT_MAX_PORTS) []) None rpc_xprt_iter_singular in
    Some (xprt_switch_add_xprt_locked i (mk_mp x s)).

(** The loop over the list; out of fuel the list is left as it is. *)
Fixpoint xprt_switch_free_entries (fuel : nat) (st : mp) : mp :=
  match fuel, xps_xprt_list (xps st) with
  | S fuel, i :: _ => xprt_switch_free_entries fuel (xprt_put i (xprt_switch_remove_xprt_locked i st))
  | _, _ => st
  end.
Definition xprt_switch_free (st : mp) : mp := xprt_switch_free_entries (length (xps_xprt_list (xps st))) st.

Definition xprt_switch_get (st : mp) : option mp :=
  if xps_kref (xps st) =? 0 then None else Some (on_xps (fun s => s <| xps_kref := xps_kref s + 1 |>) st).
Definition xprt_switch_put (st : mp) : mp :=
  let st := on_xps (fun s => s <| xps_kref := xps_kref s - 1 |>) st in
  if xps_kref (xps st) =? 0 then xprt_switch_free st else st.

Definition rpc_xprt_switch_set_roundrobin (st : mp) : mp :=
  on_xps (fun s => s <| xps_iter_ops := rpc_xprt_iter_roundrobin |>) st.

Definition rpc_xprt_switch_has_addr (st : mp) (sap : Z) : bool :=
  existsb (fun i => match xprts st !! i with Some x => sap =? xp_addr x | None => false end) (xps_xprt_list (xps st)).

(** ** Which transports a request may use *)

Definition RPC_XPRT_FLAGS_SKIP_UNCONNECTED := 1.
Definition RPC_XPRT_FLAGS_LOCAL_GPU := 2.
Definition RPC_XPRT_FLAGS_REMOTE_PORT_IDX := 4.
Definition RPC_XPRT_FLAGS_IGNORE_CONGESTION := 8.
Definition RPC_XPRT_FLAGS_SPLIT := 16.
Definition RPC_XPRT_FLAGS_MARKED := 32.
Definition UINT_MAX := 2 ^ 32 - 1.

Record rpc_xprt_iter_conf := mk_conf { cf_flags : Z; best_priority : Z; gpu_idx : Z; cf_port_idx : Z }.
#[export] Instance upd_conf : Updatable rpc_xprt_iter_conf := fun c =>
  mk_conf (cf_flags c) (best_priority c) (gpu_idx c) (cf_port_idx c).
Definition conf_default : rpc_xprt_iter_conf := mk_conf 0 0 0 0.

Definition has (flag : Z) (conf : rpc_xprt_iter_conf) : bool := negb (Z.land (cf_flags conf) flag =? 0).
Definition with_flag (flag : Z) (conf : rpc_xprt_iter_conf) : rpc_xprt_iter_conf :=
  conf <| cf_flags := Z.lor (cf_flags conf) flag |>.

Definition priority_of (x : rpc_xprt) (gpu_idx : Z) : Z := default 0 (gpu_priority x !! Z.to_nat gpu_idx).
Definition is_reg (x : rpc_xprt) : bool := match xp_role x with RPC_XPRT_ROLE_REG => true | RPC_XPRT_ROLE_MD => false end.

Definition xprt_is_active (x : rpc_xprt) (conf : rpc_xprt_iter_conf) : bool :=
  if has RPC_XPRT_FLAGS_SKIP_UNCONNECTED conf && (XPRT_N_DIVERSION x || XPRT_N_RECOVERY x) then false
  else if has RPC_XPRT_FLAGS_LOCAL_GPU conf &&
          (let priority := priority_of x (gpu_idx conf) in
           negb (priority =? 0) && negb (priority =? UINT_MAX) && (best_priority conf <? priority)) then false
  else if has RPC_XPRT_FLAGS_REMOTE_PORT_IDX conf && negb (xp_port_idx x =? cf_port_idx conf) then false
  else if has RPC_XPRT_FLAGS_SPLIT conf && Bool.eqb (is_reg x) (has RPC_XPRT_FLAGS_MARKED conf) then false
  else negb (xp_kref x =? 0) && negb (XPRT_OFFLINE x).

Definition active (st : mp) (conf : rpc_xprt_iter_conf) (i : Z) : bool :=
  match xprts st !! i with Some x => xprt_is_active x conf | None => false end.

(** The list [list_for_each_xprt] goes over. *)
Definition conf_list (st : mp) (conf : rpc_xprt_iter_conf) : list Z :=
  if has RPC_XPRT_FLAGS_REMOTE_PORT_IDX conf
  then default [] (xps_remoteport_xprt_list (xps st) !! Z.to_nat (cf_port_idx conf))
  else xps_xprt_list (xps st).

(** ** Finding an entry *)

Fixpoint first_entry (p : Z -> bool) (l : list Z) : option Z :=
  match l with
  | [] => None
  | pos :: l => if p pos then Some pos else first_entry p l
  end.
Definition xprt_switch_find_first_entry (st : mp) (conf : rpc_xprt_iter_conf) : option Z :=
  first_entry (active st conf) (conf_list st conf).

Fixpoint current_entry (p : Z -> bool) (cur : option Z) (found : bool) (l : list Z) : option Z :=
  match l with
  | [] => None
  | pos :: l =>
      let found := found || bool_decide (cur = Some pos) in
      if found && p pos then Some pos else current_entry p cur found l
  end.
Definition xprt_switch_find_current_entry (st : mp) (cur : option Z) (conf : rpc_xprt_iter_conf) : option Z :=
  current_entry (active st conf) cur false (conf_list st conf).

Fixpoint next_entry (p : Z -> bool) (cur prev : option Z) (found : bool) (l : list Z) : option Z :=
  match l with
  | [] => None
  | pos :: l =>
      let found := found || bool_decide (cur = prev) in
      if found && p pos then Some pos else next_entry p cur (Some pos) found l
  end.
Definition xprt_switch_find_next_entry (st : mp) (cur : option Z) (conf : rpc_xprt_iter_conf) : option Z :=
  next_entry (active st conf) cur None false (conf_list st conf).

Definition __xprt_switch_find_next_entry_roundrobin (st : mp) (cur : option Z) (conf : rpc_xprt_iter_conf) : option Z :=
  match xprt_switch_find_next_entry st cur conf with
  | Some ret => Some ret
  | None => xprt_switch_find_first_entry st conf
  end.

(** [queuelen * nactive <= xps_queuelen], in [unsigned long]. *)
Definition uncongested (st : mp) (i : Z) : bool :=
  let q := match xprts st !! i with Some x => u64 (queuelen x) | None => 0 end in
  u64 (q * xps_nactive (xps st)) <=? u64 (xps_queuelen (xps st)).

(** The loop; [None]: out of fuel. *)
Fixpoint roundrobin_loop (fuel : nat) (st : mp) (conf : rpc_xprt_iter_conf) (cur : option Z) (count : Z)
    : option (option Z) :=
  match fuel with
  | O => None
  | S fuel =>
      match __xprt_switch_find_next_entry_roundrobin st cur conf with
      | None => Some None
      | Some xprt =>
          if negb (has RPC_XPRT_FLAGS_IGNORE_CONGESTION conf) && uncongested st xprt then Some (Some xprt)
          else
            let count := u32 (count + 1) in
            if negb (cf_flags conf =? 0) && (xps_nactive (xps st) <? count) then Some (Some xprt)
            else roundrobin_loop fuel st conf (Some xprt) count
      end
  end.
Definition rr_fuel (st : mp) : nat := S (S (Z.to_nat (xps_nactive (xps st)) + length (xps_xprt_list (xps st)))).
Definition xprt_switch_find_next_entry_roundrobin (st : mp) (cur : option Z) (conf : rpc_xprt_iter_conf)
    : option (option Z) :=
  roundrobin_loop (rr_fuel st) st conf cur 0.

Definition xprt_switch_find_next_entry_all (st : mp) (cur : option Z) (conf : rpc_xprt_iter_conf) : option (option Z) :=
  Some (xprt_switch_find_next_entry st cur conf).

(** ** Iterators *)

Definition xprt_iter_ops (st : mp) (xpi : rpc_xprt_iter) : rpc_xprt_iter_ops :=
  match xpi_ops xpi with Some ops => ops | None => xps_iter_ops (xps st) end.

Definition xprt_iter_first_entry (st : mp) (xpi : rpc_xprt_iter) (conf : rpc_xprt_iter_conf) : option Z :=
  if xpi_xpswitch xpi then xprt_switch_find_first_entry st conf else None.

Definition xprt_iter_current_entry (st : mp) (xpi : rpc_xprt_iter) (conf : rpc_xprt_iter_conf) : option Z :=
  if negb (xpi_xpswitch xpi) then None
  else match xpi_cursor xpi with
       | None => xprt_switch_find_first_entry st conf
       | Some cur =>
           if xps_nxprts (xps st) <? 2 then xprt_switch_find_first_entry st conf
           else match xprt_switch_find_current_entry st (Some cur) conf with
                | Some xprt => Some xprt
                | None => if negb (cf_flags conf =? 0) then xprt_switch_find_first_entry st conf else None
                end
       end.

(** The entry, and the iterator with its cursor there. *)
Definition xprt_iter_next_entry_multiple (st : mp) (xpi : rpc_xprt_iter)
    (find_next : mp -> option Z -> rpc_xprt_iter_conf -> option (option Z)) (conf : rpc_xprt_iter_conf)
    : option (option Z * rpc_xprt_iter) :=
  if negb (xpi_xpswitch xpi) then Some (None, xpi)
  else match find_next st (xpi_cursor xpi) conf with
       | None => None
       | Some pos => Some (pos, xpi <| xpi_cursor := pos |>)
       end.

Definition xpi_xprt (ops : rpc_xprt_iter_ops) : mp -> rpc_xprt_iter -> rpc_xprt_iter_conf -> option Z :=
  match ops with
  | rpc_xprt_iter_singular => xprt_iter_first_entry
  | rpc_xprt_iter_roundrobin | rpc_xprt_iter_listall => xprt_iter_current_entry
  end.

Definition xpi_next (ops : rpc_xprt_iter_ops) (st : mp) (xpi : rpc_xprt_iter) (conf : rpc_xprt_iter_conf)
    : option (option Z * rpc_xprt_iter) :=
  match ops with
  | rpc_xprt_iter_singular => Some (xprt_iter_first_entry st xpi conf, xpi)
  | rpc_xprt_iter_roundrobin => xprt_iter_next_entry_multiple st xpi xprt_switch_find_next_entry_roundrobin conf
  | rpc_xprt_iter_listall => xprt_iter_next_entry_multiple st xpi xprt_switch_find_next_entry_all conf
  end.

Definition __xprt_iter_init (ops : option rpc_xprt_iter_ops) (st : mp) : rpc_xprt_iter * mp :=
  match xprt_switch_get st with
  | Some st => (mk_xpi true None ops, st)
  | None => (mk_xpi false None ops, st)
  end.
Definition xprt_iter_init := __xprt_iter_init None.
Definition xprt_iter_init_listall := __xprt_iter_init (Some rpc_xprt_iter_listall).

Definition xprt_iter_destroy (xpi : rpc_xprt_iter) (st : mp) : mp :=
  if xpi_xpswitch xpi then xprt_switch_put st else st.

Definition xprt_iter_xprt (st : mp) (xpi : rpc_xprt_iter) (conf : rpc_xprt_iter_conf) : option Z :=
  xpi_xprt (xprt_iter_ops st xpi) st xpi conf.

(** Again while the entry found is being destroyed. *)
Fixpoint xprt_iter_get_helper (fuel : nat)
    (fn : mp -> rpc_xprt_iter -> rpc_xprt_iter_conf -> option (option Z * rpc_xprt_iter))
    (st : mp) (xpi : rpc_xprt_iter) (conf : rpc_xprt_iter_conf) : option (option Z * rpc_xprt_iter * mp) :=
  match fuel with
  | O => None
  | S fuel =>
      match fn st xpi conf with
      | None => None
      | Some (None, xpi) => Some (None, xpi, st)
      | Some (Some ret, xpi) =>
          match xprt_get ret st with
          | Some st => Some (Some ret, xpi, st)
          | None => xprt_iter_get_helper fuel fn st xpi conf
          end
      end
  end.
Definition xprt_iter_get_next (st : mp) (xpi : rpc_xprt_iter) (conf : rpc_xprt_iter_conf)
    : option (option Z * rpc_xprt_iter * mp) :=
  xprt_iter_get_helper 1 (xpi_next (xprt_iter_ops st xpi)) st xpi conf.
Definition xprt_iter_get_xprt (st : mp) (xpi : rpc_xprt_iter) (conf : rpc_xprt_iter_conf)
    : option (option Z * rpc_xprt_iter * mp) :=
  xprt_iter_get_helper 1 (fun st xpi conf => Some (xpi_xprt (xprt_iter_ops st xpi) st xpi conf, xpi)) st xpi conf.

(** The lowest priority for a GPU, or [None]. *)
Definition xprt_find_best_priority (st : mp) (gpu_idx : Z) : option Z :=
  let conf := conf_default
    <| cf_flags := Z.lor RPC_XPRT_FLAGS_SKIP_UNCONNECTED RPC_XPRT_FLAGS_IGNORE_CONGESTION |> in
  let step (acc : bool * Z) (pos : Z) :=
    match xprts st !! pos with
    | None => acc
    | Some x =>
        if negb (xprt_is_active x conf) then acc
        else
          let pos_priority := priority_of x gpu_idx in
          if (pos_priority =? 0) || (pos_priority =? UINT_MAX) then acc
          else if pos_priority <? snd acc then (true, pos_priority) else acc
    end in
  let '(ret, priority) := foldl step (false, UINT_MAX) (xps_xprt_list (xps st)) in
  if ret then Some priority else None.

(** ** Iteration over all transports *)

(** The transports [fn] was applied to, the last result and the state; [fn] leaves
    the switch alone. *)
Fixpoint iterate_loop (fuel : nat) (fn : Z -> Z) (ret : Z) (st : mp) (xpi : rpc_xprt_iter)
    : option (list Z * Z * rpc_xprt_iter * mp) :=
  match fuel with
  | O => None
  | S fuel =>
      match xprt_iter_get_next st xpi conf_default with
      | None => None
      | Some (None, xpi, st) => Some ([], ret, xpi, st)
      | Some (Some xprt, xpi, st) =>
          let ret := fn xprt in
          let st := xprt_put xprt st in
          if ret <? 0 then Some ([xprt], ret, xpi, st)
          else match iterate_loop fuel fn ret st xpi with
               | None => None
               | Some (l, ret, xpi, st) => Some (xprt :: l, ret, xpi, st)
               end
      end
  end.

Definition EAGAIN := 11.

Definition rpc_clnt_xprt_iter_init (st : mp) : res (rpc_xprt_iter * mp) :=
  match xprt_switch_get st with
  | None => Err (- EAGAIN)
  | Some st => let '(xpi, st) := xprt_iter_init_listall st in Ok (xpi, xprt_switch_put st)
  end.

Definition rpc_clnt_iterate_for_each_xprt (fn : Z -> Z) (st : mp) : option (list Z * Z * mp) :=
  match rpc_clnt_xprt_iter_init st with
  | Err e => Some ([], e, st)
  | Ok (xpi, st) =>
      match iterate_loop (S (length (xps_xprt_list (xps st)))) fn 0 st xpi with
      | None => None
      | Some (l, ret, xpi, st) => Some (l, ret, xprt_iter_destroy xpi st)
      end
  end.

(** ** The transport of a task *)

(** [cl_remoteports_nr]: [cl_remoteports_usage->nr], when there is a table. *)
Record rpc_clnt := mk_clnt { cl_xprt : Z; cl_xpi : rpc_xprt_iter; cl_remoteports_nr : option Z; cl_mdconnect : Z }.
#[export] Instance upd_clnt : Updatable rpc_clnt := fun c =>
  mk_clnt (cl_xprt c) (cl_xpi c) (cl_remoteports_nr c) (cl_mdconnect c).

(** [tk_gpu]: [tk_gpu_idx], when advised. *)
Record mp_task := mk_task {
  tk_xprt : option Z;
  tk_multipath_hash : Z;
  tk_gpu : option Z;
  RPC_TASK_NO_ROUND_ROBIN : bool;
  RPC_TASK_MOVEABLE : bool;
}.
#[export] Instance upd_task : Updatable mp_task := fun t =>
  mk_task (tk_xprt t) (tk_multipath_hash t) (tk_gpu t) (RPC_TASK_NO_ROUND_ROBIN t) (RPC_TASK_MOVEABLE t).

Definition SUNRPC_MULTIPATH_DATA_HASH_MARK := 0x8000.

Definition rpc_task_get_xprt (xprt : option Z) (st : mp) : mp :=
  match xprt with
  | None => st
  | Some i =>
      on_xprt i (fun x => x <| queuelen := queuelen x + 1 |>)
        (on_xps (fun s => s <| xps_queuelen := xps_queuelen s + 1 |>) st)
  end.

Definition rpc_task_release_xprt (i : Z) (st : mp) : mp :=
  let st := on_xprt i (fun x => x <| queuelen := queuelen x - 1 |>) st in
  let st := on_xps (fun s => s <| xps_queuelen := xps_queuelen s - 1 |>) st in
  xprt_put i st.

Definition rpc_task_release_transport (task : mp_task) (st : mp) : mp_task * mp :=
  match tk_xprt task with
  | Some i => (task <| tk_xprt := None |>, rpc_task_release_xprt i st)
  | None => (task, st)
  end.

Definition rpc_task_get_first_xprt (cl : rpc_clnt) (st : mp) : option Z * mp :=
  match xprt_get (cl_xprt cl) st with
  | Some st => (Some (cl_xprt cl), rpc_task_get_xprt (Some (cl_xprt cl)) st)
  | None => (None, st)
  end.

(** [rpc_task_get_xprt] of the next transport of the client. *)
Definition get_next_xprt (cl : rpc_clnt) (st : mp) (conf : rpc_xprt_iter_conf) : option (option Z * rpc_clnt * mp) :=
  match xprt_iter_get_next st (cl_xpi cl) conf with
  | None => None
  | Some (xprt, xpi, st) => Some (xprt, cl <| cl_xpi := xpi |>, rpc_task_get_xprt xprt st)
  end.

(** What [rpc_task_try_xprt_selections] adds to the request: the GPU, and the
    remote port that goes with the hash of the task. *)
Definition gpu_conf (st : mp) (task : mp_task) (conf : rpc_xprt_iter_conf) : rpc_xprt_iter_conf :=
  match tk_gpu task with
  | Some idx =>
      match xprt_find_best_priority st idx with
      | Some p => with_flag RPC_XPRT_FLAGS_LOCAL_GPU conf <| gpu_idx := idx mod 2 ^ 22 |> <| best_priority := p mod 2 ^ 28 |>
      | None => conf
      end
  | None => conf
  end.
Definition port_conf (cl : rpc_clnt) (task : mp_task) (conf : rpc_xprt_iter_conf) : rpc_xprt_iter_conf :=
  match cl_remoteports_nr cl with
  | Some nr =>
      if negb (tk_multipath_hash task =? 0) && (0 <? nr) then
        let conf := with_flag RPC_XPRT_FLAGS_REMOTE_PORT_IDX conf in
        let conf := if negb (cl_mdconnect cl =? 0) then
                      let conf := with_flag RPC_XPRT_FLAGS_SPLIT conf in
                      if negb (Z.land (tk_multipath_hash task) SUNRPC_MULTIPATH_DATA_HASH_MARK =? 0)
                      then with_flag RPC_XPRT_FLAGS_MARKED conf else conf
                    else conf in
        conf <| cf_port_idx := ((tk_multipath_hash task - 1) mod nr) mod 2 ^ 8 |>
      else conf
  | None => conf
  end.

Definition rpc_task_try_xprt_selections (task : mp_task) (cl : rpc_clnt) (st : mp) (conf : rpc_xprt_iter_conf)
    : option (option Z * rpc_clnt * mp) :=
  let conf := port_conf cl task (gpu_conf st task conf) in
  match get_next_xprt cl st conf with
  | None => None
  | Some (Some xprt, cl, st) => Some (Some xprt, cl, st)
  | Some (None, cl, st) =>
      if has RPC_XPRT_FLAGS_REMOTE_PORT_IDX conf then
        get_next_xprt cl st (conf <| cf_flags := Z.ldiff (cf_flags conf) RPC_XPRT_FLAGS_REMOTE_PORT_IDX |>)
      else Some (None, cl, st)
  end.

Definition is_offline (st : mp) (i : Z) : bool :=
  match xprts st !! i with Some x => XPRT_OFFLINE x | None => false end.

(** The choice, for a task without a transport. *)
Definition choose_transport (task : mp_task) (cl : rpc_clnt) (st : mp) : option (mp_task * rpc_clnt * mp) :=
  if RPC_TASK_NO_ROUND_ROBIN task then
    let '(xprt, st) := rpc_task_get_first_xprt cl st in Some (task <| tk_xprt := xprt |>, cl, st)
  else
    let conf := conf_default <| cf_flags := RPC_XPRT_FLAGS_SKIP_UNCONNECTED |> in
    match rpc_task_try_xprt_selections task cl st conf with
    | None => None
    | Some (Some xprt, cl, st) => Some (task <| tk_xprt := Some xprt |>, cl, st)
    | Some (None, cl, st) =>
        match rpc_task_try_xprt_selections task cl st (with_flag RPC_XPRT_FLAGS_IGNORE_CONGESTION conf) with
        | None => None
        | Some (Some xprt, cl, st) => Some (task <| tk_xprt := Some xprt |>, cl, st)
        | Some (None, cl, st) =>
            match get_next_xprt cl st conf_default with
            | None => None
            | Some (xprt, cl, st) => Some (task <| tk_xprt := xprt |>, cl, st)
            end
        end
    end.

(** [xprt_release] gives back the request slot of the task, which is not modelled. *)
Definition rpc_task_set_transport (task : mp_task) (cl : rpc_clnt) (st : mp) : option (mp_task * rpc_clnt * mp) :=
  match tk_xprt task with
  | Some i =>
      if negb (is_offline st i && RPC_TASK_MOVEABLE task) then Some (task, cl, st)
      else choose_transport task cl (xprt_put i st)
  | None => choose_transport task cl st
  end.

(** The part of [call_connect_status] for a task whose connection failed on a
    transport that is being removed. *)
Definition connect_failed (task : mp_task) (st : mp) : mp_task * mp :=
  match tk_xprt task with
  | None => (task, st)
  | Some i =>
      let removing := match xprts st !! i with Some x => XPRT_REMOVE x | None => false end in
      if negb (RPC_TASK_NO_ROUND_ROBIN task) && RPC_TASK_MOVEABLE task && removing && (1 <? xps_nxprts (xps st)) then
        let st := on_xprt i (fun x => x <| queuelen := queuelen x - 1 |>) st in
        let value := match xprts st !! i with Some x => queuelen x | None => 0 end in
        let st := if value =? 0 then rpc_xprt_switch_remove_xprt i st else st in
        (task <| tk_xprt := None |>, xprt_put i st)
      else (task, st)
  end.

(** A new transport of a client: [created] is what [xprt_create_transport] returns,
    [setup] what the caller's function does, which may add the transport later. *)
Definition rpc_clnt_add_xprt (i : Z) (created : res rpc_xprt) (setup : Z) (cl : rpc_clnt) (st : mp) : Z * mp :=
  match xprt_switch_get st, xprt_iter_xprt st (cl_xpi cl) conf_default with
  | Some st, Some _ =>
      match created with
      | Err e => (e, xprt_switch_put st)
      | Ok x =>
          let st := st <| xprts := <[i := x]> (xprts st) |> in
          let st := rpc_xprt_switch_set_roundrobin st in
          let st := if setup =? 0 then rpc_xprt_switch_add_xprt i st else st in
          (setup, xprt_switch_put (xprt_put i st))
      end
  | Some st, None => (- EAGAIN, xprt_switch_put st)
  | None, _ => (- EAGAIN, st)
  end.

(** ** Administration *)

Definition EINTR := 4.

Inductive state_cmd := Cmd_offline | Cmd_online | Cmd_remove | Cmd_other.

(** [count] for success; [interrupted]: a signal while waiting for the transport.
    [xprt_force_disconnect] only schedules the disconnection. *)
Definition rpc_sysfs_xprt_state_change (i count : Z) (cmd : state_cmd) (interrupted : bool) (st : mp) : Z * mp :=
  match xprt_get i st, xprt_switch_get st with
  | None, None => (0, st)
  | Some st, None => (0, xprt_put i st)
  | None, Some st => (0, xprt_switch_put st)
  | Some st, Some _ =>
      let st := on_xps (fun s => s <| xps_kref := xps_kref s + 1 |>) st in
      let out_put (r : Z * mp) := (fst r, xprt_switch_put (xprt_put i (snd r))) in
      match cmd with
      | Cmd_other => out_put (- EINVAL, st)
      | _ =>
          if interrupted then out_put (- EINTR, st)
          else match xprts st !! i with
          | None => out_put (count, st)
          | Some x =>
              if xp_main x then out_put (- EINVAL, st)
              else out_put (
                match cmd with
                | Cmd_offline =>
                    if negb (XPRT_OFFLINE x) then
                      (count, on_xps (fun s => s <| xps_nactive := u32 (xps_nactive s - 1) |>)
                                (on_xprt i (fun x => x <| XPRT_OFFLINE := true |>) st))
                    else (count, st)
                | Cmd_online =>
                    if XPRT_OFFLINE x then
                      (count, on_xps (fun s => s <| xps_nactive := u32 (xps_nactive s + 1) |>)
                                (on_xprt i (fun x => x <| XPRT_OFFLINE := false |>) st))
                    else (count, st)
                | _ =>
                    if XPRT_OFFLINE x then
                      if negb (XPRT_REMOVE x) then
                        let st := on_xprt i (fun x => x <| XPRT_REMOVE := true |>) st in
                        if XPRT_CONNECTED x && (waiting x =? 0) && (queuelen x =? 0)
                        then (count, rpc_xprt_switch_remove_xprt i st)
                        else (count, st)
                      else (count, st)
                    else (- EINVAL, st)
                end)
          end
      end
  end.

(** ** The hash of a request *)

(** [fs/nfs/internal.h]: [h] is the hash of the file handle. *)
Definition NFS_MULTIPATH_HASH (expr : Z) : Z := Z.land (u16 expr) 0x3fff + 1.

(** [nfs_initiate_pgio]: the hash of a READ or WRITE; [spread]: [spread_reads] or
    [spread_writes] asks to use all connections. *)
Definition pgio_multipath_hash (spread : bool) (h : Z) : Z :=
  u16 (Z.lor (if spread then 0 else NFS_MULTIPATH_HASH h) SUNRPC_MULTIPATH_DATA_HASH_MARK).
