(* ===== verification/MultipathInv.v ===== *)
(** * Invariants of the switch, and how round robin moves

    The entries a request may use, taken in list order, form a ring; the round-robin
    loop steps along it.  Then the well-formedness of a switch with its client and
    tasks, and that every operation keeps it. *)

From S2P Require Import Prelude Xdr Mesh Multipath.
From stdpp Require Import gmap.
#[local] Open Scope Z_scope.

(** ** Entries of a list *)

Section Ring.
Context (p : Z -> bool).

Lemma first_entry_head l : first_entry p l = head (List.filter p l).
Proof. induction l as [|x l IH]; simpl; [done|]. by destruct (p x). Qed.

(** What comes after an entry. *)
Fixpoint after (c : Z) (l : list Z) : list Z :=
  match l with
  | [] => []
  | x :: l => if decide (x = c) then l else after c l
  end.

Lemma next_entry_found cur prev l : next_entry p cur prev true l = first_entry p l.
Proof. revert prev. induction l as [|x l IH]; intros prev; simpl; [done|]. by destruct (p x). Qed.

Lemma next_entry_none l : next_entry p None None false l = first_entry p l.
Proof.
  destruct l as [|x l]; [done|]. cbn [next_entry first_entry]. rewrite (bool_decide_eq_true_2 (_ = _)) by done. simpl.
  by rewrite next_entry_found.
Qed.

Lemma next_entry_after c prev l : prev <> Some c -> next_entry p (Some c) prev false l = first_entry p (after c l).
Proof.
  revert prev. induction l as [|x l IH]; intros prev Hp; simpl; [done|].
  rewrite bool_decide_eq_false_2 by congruence. simpl. destruct (decide (x = c)) as [->|Ne].
  - destruct l as [|y l]; [done|]. cbn [next_entry first_entry]. rewrite (bool_decide_eq_true_2 (_ = _)) by done. simpl.
    by rewrite next_entry_found.
  - apply IH. congruence.
Qed.

Lemma filter_elem x l : x ∈ List.filter p l <-> p x = true /\ x ∈ l.
Proof. rewrite !list_elem_of_In, filter_In. tauto. Qed.

Lemma filter_after l k c :
  NoDup l -> List.filter p l !! k = Some c -> List.filter p (after c l) = drop (S k) (List.filter p l).
Proof.
  intros Nd. revert k. induction l as [|x l IH]; intros k; simpl; [done|].
  apply NoDup_cons in Nd as [Hx Nd]. destruct (p x) eqn:Px.
  - destruct k as [|k]; simpl.
    + intros [= ->]. by rewrite decide_True.
    + intros Hk. destruct (decide (x = c)) as [->|_]; [|by apply IH].
      exfalso. apply list_elem_of_lookup_2, filter_elem in Hk as [_ Hk]. done.
  - intros Hk. destruct (decide (x = c)) as [->|_]; [|by apply IH].
    apply list_elem_of_lookup_2, filter_elem in Hk as [Hk _]. congruence.
Qed.

Lemma filter_NoDup l : NoDup l -> NoDup (List.filter p l).
Proof.
  induction 1 as [|x l Hx Nd IH]; simpl; [constructor|]. destruct (p x); [|done].
  constructor; [|done]. rewrite filter_elem. tauto.
Qed.

End Ring.

(** ** Steps along the ring *)

Definition ring (st : mp) (conf : rpc_xprt_iter_conf) : list Z := List.filter (active st conf) (conf_list st conf).

Section Steps.
Context (st : mp) (conf : rpc_xprt_iter_conf) (Nd : NoDup (conf_list st conf)).
Local Abbreviation A := (ring st conf).
Local Abbreviation rr := (fun cur => __xprt_switch_find_next_entry_roundrobin st cur conf).

Lemma find_first_ring : xprt_switch_find_first_entry st conf = head A.
Proof. apply first_entry_head. Qed.

Lemma find_next_none : xprt_switch_find_next_entry st None conf = head A.
Proof. unfold xprt_switch_find_next_entry. by rewrite next_entry_none, first_entry_head. Qed.

Lemma find_next_ring k c : A !! k = Some c -> xprt_switch_find_next_entry st (Some c) conf = A !! S k.
Proof.
  intros Hk. unfold xprt_switch_find_next_entry. rewrite next_entry_after by done. rewrite first_entry_head.
  unfold ring in *. rewrite (filter_after _ _ k) by done. by rewrite head_lookup, lookup_drop, Nat.add_0_r.
Qed.

Lemma find_next_elem cur c : xprt_switch_find_next_entry st cur conf = Some c -> c ∈ A.
Proof.
  unfold xprt_switch_find_next_entry, ring. destruct cur as [d|].
  - rewrite next_entry_after, first_entry_head by done. intros H%head_Some_elem_of.
    apply filter_elem in H as [Hp Hin]. apply filter_elem. split; [done|]. revert Hin. clear.
    induction (conf_list st conf) as [|x l IH]; simpl; [done|]. case_decide; intros Hin; right; auto.
  - rewrite next_entry_none, first_entry_head. apply head_Some_elem_of.
Qed.

Lemma rr_elem cur c : rr cur = Some c -> c ∈ A.
Proof.
  unfold __xprt_switch_find_next_entry_roundrobin. destruct (xprt_switch_find_next_entry st cur conf) eqn:E.
  - intros [= <-]. by apply (find_next_elem cur).
  - rewrite find_first_ring. apply head_Some_elem_of.
Qed.

Lemma rr_none cur : rr cur = None <-> A = [].
Proof.
  split.
  - unfold __xprt_switch_find_next_entry_roundrobin. destruct (xprt_switch_find_next_entry st cur conf); [done|].
    rewrite find_first_ring. by destruct A.
  - intros E. destruct (rr cur) as [c|] eqn:R; [|done]. apply rr_elem in R. rewrite E in R. by apply elem_of_nil in R.
Qed.

Lemma rr_some cur : A <> [] -> exists s, (s < length A)%nat /\ rr cur = A !! s.
Proof.
  intros Ne. destruct (rr cur) as [c|] eqn:R; [|by apply rr_none in R].
  apply rr_elem in R. apply list_elem_of_lookup in R as [s Hs]. exists s. split; [|by rewrite Hs].
  by eapply lookup_lt_Some.
Qed.

Lemma rr_first cur : xprt_switch_find_next_entry st cur conf = None -> rr cur = head A.
Proof. intros E. unfold __xprt_switch_find_next_entry_roundrobin. by rewrite E, find_first_ring. Qed.

Lemma rr_step k c : A !! k = Some c -> rr (Some c) = A !! (S k mod length A)%nat.
Proof.
  intros Hk. pose proof (lookup_lt_Some _ _ _ Hk) as Lk.
  unfold __xprt_switch_find_next_entry_roundrobin. rewrite (find_next_ring k c Hk).
  destruct (decide (S k < length A)%nat) as [L|G].
  - rewrite Nat.mod_small by done. by destruct (lookup_lt_is_Some_2 A (S k) L) as [x ->].
  - rewrite lookup_ge_None_2 by lia. replace (S k) with (length A) by lia.
    rewrite Nat.Div0.mod_same. by rewrite find_first_ring, head_lookup.
Qed.

(** ** The loop *)

Definition good (i : Z) : bool := negb (has RPC_XPRT_FLAGS_IGNORE_CONGESTION conf) && uncongested st i.
Definition gives_up (count : Z) : bool := negb (cf_flags conf =? 0) && (xps_nactive (xps st) <? count).
Definition at_ (s j : nat) : nat := ((s + j) mod length A)%nat.
Definition stops (s : nat) (count : Z) (j : nat) : Prop :=
  (exists i, A !! at_ s j = Some i /\ good i = true) \/ gives_up (count + Z.of_nat j + 1) = true.

Lemma at_lt s j : A <> [] -> (at_ s j < length A)%nat.
Proof. intros Ne. apply Nat.mod_upper_bound. by destruct A. Qed.

Lemma at_S s j : at_ ((S s) mod length A) j = at_ s (S j).
Proof. unfold at_. rewrite Nat.Div0.add_mod_idemp_l. f_equal. lia. Qed.

Lemma at_0 s : (s < length A)%nat -> at_ s 0 = s.
Proof. intros L. unfold at_. rewrite Nat.add_0_r. by apply Nat.mod_small. Qed.

Lemma roundrobin_loop_spec j fuel count cur s :
  (s < length A)%nat -> rr cur = A !! s -> (j < fuel)%nat ->
  0 <= count -> count + Z.of_nat j + 1 < 2 ^ 32 ->
  stops s count j -> (forall j', (j' < j)%nat -> ~ stops s count j') ->
  roundrobin_loop fuel st conf cur count = Some (A !! at_ s j).
Proof.
  revert fuel count cur s. induction j as [|j IH]; intros fuel count cur s Ls R Lf C0 C1 St Ns;
    (destruct fuel as [|fuel]; [lia|]); cbn [roundrobin_loop];
    destruct (lookup_lt_is_Some_2 A s Ls) as [x Hx]; rewrite R, Hx; fold (good x);
    rewrite (u32_id (count + 1)) by (unfold is_u32; lia); fold (gives_up (count + 1)).
  - destruct St as [(i & Hi & Gi)|G].
    + rewrite at_0 in Hi by done. rewrite at_0 by done. replace i with x in Gi by congruence. by rewrite Gi, Hx.
    + replace (count + Z.of_nat 0 + 1) with (count + 1) in G by lia. rewrite G. rewrite at_0 by done. rewrite Hx.
      by destruct (good x).
  - assert (~ stops s count 0) as N0 by (apply Ns; lia).
    destruct (good x) eqn:Gx; [exfalso; apply N0; left; exists x; by rewrite at_0|].
    destruct (gives_up (count + 1)) eqn:Gu; [exfalso; apply N0; right; by replace (count + Z.of_nat 0 + 1) with (count + 1) by lia|].
    assert (forall j', stops (S s mod length A) (count + 1) j' <-> stops s count (S j')) as Sh.
    { intros j'. unfold stops. rewrite at_S. by replace (count + 1 + Z.of_nat j' + 1) with (count + Z.of_nat (S j') + 1) by lia. }
    rewrite <- at_S. apply IH; try lia.
    + apply Nat.mod_upper_bound. lia.
    + by rewrite (rr_step s x Hx).
    + by apply Sh.
    + intros j' Hj Hs. apply (Ns (S j')); [lia|]. by apply Sh.
Qed.

Lemma stops_dec s count j : {stops s count j} + {~ stops s count j}.
Proof.
  unfold stops. destruct (gives_up (count + Z.of_nat j + 1)); [by left; right|].
  destruct (A !! at_ s j) as [i|] eqn:E; [destruct (good i) eqn:G|].
  - left. left. by exists i.
  - right. intros [(i' & [= <-] & G')|?]; congruence.
  - right. intros [(i' & ? & _)|?]; congruence.
Qed.

Lemma least_stop s count b : stops s count b ->
  exists j, (j <= b)%nat /\ stops s count j /\ forall j', (j' < j)%nat -> ~ stops s count j'.
Proof.
  induction b as [b IH] using lt_wf_ind. intros Sb.
  assert ((exists j, (j < b)%nat /\ stops s count j) \/ forall j, (j < b)%nat -> ~ stops s count j) as [(j & Lj & Sj)|N].
  { clear IH Sb. induction b as [|b IHb]; [right; lia|].
    destruct IHb as [(j & ? & ?)|N]; [left; exists j; split; [lia|done]|].
    destruct (stops_dec s count b) as [Y|Y]; [left; exists b; split; [lia|done]|].
    right. intros j Lj. destruct (decide (j = b)) as [->|]; [done|]. apply N. lia. }
  - destruct (IH j Lj Sj) as (j' & ? & ? & ?). exists j'. split_and!; try done. lia.
  - exists b. split_and!; try done.
Qed.
End Steps.

(** ** Well-formedness *)

Definition delta (i j : Z) : Z := if decide (i = j) then 1 else 0.
Definition in_list (st : mp) (i : Z) : Z := if decide (i ∈ xps_xprt_list (xps st)) then 1 else 0.
Definition qlen (st : mp) (i : Z) : Z := match xprts st !! i with Some x => queuelen x | None => 0 end.
Definition sumq (st : mp) (l : list Z) : Z := foldr (fun i s => qlen st i + s) 0 l.
Definition on_port_idx (st : mp) (p i : Z) : bool :=
  match xprts st !! i with Some x => xp_port_idx x =? p | None => false end.

(** The switch whose main transport is [main], with [r i] references to transport
    [i] besides the switch's own and [q i] tasks that use it. *)
Record ok (main : Z) (r q : Z -> Z) (st : mp) : Prop := mk_ok {
  ok_nodup : NoDup (xps_xprt_list (xps st));
  ok_bound : zlen (xps_xprt_list (xps st)) < 2 ^ 32 - 1;
  ok_nxprts : xps_nxprts (xps st) = zlen (xps_xprt_list (xps st));
  ok_nactive : xps_nactive (xps st) = zlen (List.filter (fun i => negb (is_offline st i)) (xps_xprt_list (xps st)));
  ok_member : forall i, i ∈ xps_xprt_list (xps st) -> exists x, xprts st !! i = Some x /\
    0 <= xp_port_idx x < XPRT_MAX_PORTS /\ xps_net (xps st) = Some (xprt_net x);
  ok_ports_len : zlen (xps_remoteport_xprt_list (xps st)) = XPRT_MAX_PORTS;
  ok_ports : forall p l, xps_remoteport_xprt_list (xps st) !! p = Some l ->
    l = List.filter (on_port_idx st (Z.of_nat p)) (xps_xprt_list (xps st));
  ok_sum : sumq st (xps_xprt_list (xps st)) <= xps_queuelen (xps st);
  ok_xprt : forall i x, xprts st !! i = Some x ->
    xp_kref x = in_list st i + r i /\ q i <= queuelen x /\ (XPRT_REMOVE x = true -> xp_main x = false);
  ok_counts : forall i, 0 <= r i /\ 0 <= q i;
  ok_main : main ∈ xps_xprt_list (xps st) /\ exists x, xprts st !! main = Some x /\ xp_main x = true /\ XPRT_OFFLINE x = false;
}.

Lemma ok_ext main r q r' q' st : (forall i, r' i = r i /\ q' i = q i) -> ok main r q st -> ok main r' q' st.
Proof.
  intros E [h1 h2 h3 h4 h5 h6 h7 h8 h9 h10 h11]. split; try done.
  - intros i x Hx. destruct (E i) as [-> ->]. by apply h9.
  - intros i. destruct (E i) as [-> ->]. apply h10.
Qed.

Lemma sumq_cons st i l : sumq st (i :: l) = qlen st i + sumq st l.
Proof. done. Qed.

Lemma sumq_ext st st' l : (forall i, qlen st' i = qlen st i) -> sumq st' l = sumq st l.
Proof. intros H. induction l as [|i l IH]; [done|]. by rewrite !sumq_cons, H, IH. Qed.

Lemma sumq_alter st st' i d l :
  NoDup l -> (forall j, j <> i -> qlen st' j = qlen st j) -> qlen st' i = qlen st i + d ->
  sumq st' l = sumq st l + (if decide (i ∈ l) then d else 0).
Proof.
  intros Nd Ho Hi. induction Nd as [|j l Hj Nd IH].
  - rewrite decide_False; [done|apply not_elem_of_nil].
  - rewrite !sumq_cons, IH. destruct (decide (j = i)) as [->|Ne].
    + rewrite Hi, (decide_False (P:=i ∈ l)), (decide_True (P:=i ∈ i :: l)); [lia|by left|done].
    + rewrite (Ho j Ne). destruct (decide (i ∈ l)) as [Y|N].
      * rewrite decide_True; [lia|by right].
      * rewrite decide_False; [lia|]. intros [->|?]%elem_of_cons; done.
Qed.

Lemma sumq_nonneg st l : (forall i, 0 <= qlen st i) -> 0 <= sumq st l.
Proof. intros H. induction l as [|i l IH]; simpl; [lia|]. pose proof (H i). lia. Qed.

Lemma bfilter_ext (f g : Z -> bool) l : (forall i, i ∈ l -> f i = g i) -> List.filter f l = List.filter g l.
Proof. intros H. apply List.filter_ext_in. intros i Hi. apply H. by apply list_elem_of_In. Qed.

(** What of a transport the lists depend on. *)
Definition same_place (x x' : rpc_xprt) : Prop :=
  xp_port_idx x' = xp_port_idx x /\ xprt_net x' = xprt_net x /\ xp_main x' = xp_main x /\
  (XPRT_REMOVE x' = true -> xp_main x = false).

Section Change.
Context (main : Z) (r q : Z -> Z) (st : mp) (Ok : ok main r q st).

Lemma ok_qlen_nonneg i : 0 <= qlen st i.
Proof.
  unfold qlen. destruct (xprts st !! i) as [x|] eqn:E; [|lia]. destruct Ok. destruct (ok_xprt0 i x E) as (_ & ? & _).
  destruct (ok_counts0 i). lia.
Qed.

(** Changing references, queue length and flags of one transport. *)
Lemma ok_change i f d e r' q' x :
  xprts st !! i = Some x ->
  same_place x (f x) -> XPRT_OFFLINE (f x) = XPRT_OFFLINE x -> queuelen (f x) = queuelen x + d ->
  xp_kref (f x) = xp_kref x + r' i - r i -> q' i <= q i + d ->
  (forall j, j <> i -> r' j = r j /\ q' j = q j) -> 0 <= r' i -> 0 <= q' i ->
  (if decide (i ∈ xps_xprt_list (xps st)) then d else 0) <= e ->
  ok main r' q' (on_xprt i f (on_xps (fun s => s <| xps_queuelen := xps_queuelen s + e |>) st)).
Proof.
  intros Hx (Sp & Sn & Sm & Sr) So Sq Sk Qi Oth R0 Q0 He. destruct Ok as [o1 o2 o3 o4 o5 o6 o7 o8 o9 o10 [o11 o12]].
  set (st' := on_xprt _ _ _).
  assert (forall j, j <> i -> xprts st' !! j = xprts st !! j) as Lo.
  { intros j Hj. unfold st', on_xprt, field_upd; simpl. by rewrite lookup_alter_ne. }
  assert (xprts st' !! i = Some (f x)) as Li.
  { unfold st', on_xprt, field_upd; simpl. by rewrite lookup_alter_eq, Hx. }
  assert (forall j, is_offline st' j = is_offline st j) as Eo.
  { intros j. unfold is_offline. destruct (decide (j = i)) as [->|]; [by rewrite Li, Hx|by rewrite Lo]. }
  assert (forall p j, on_port_idx st' p j = on_port_idx st p j) as Ep.
  { intros p j. unfold on_port_idx. destruct (decide (j = i)) as [->|]; [by rewrite Li, Hx, Sp|by rewrite Lo]. }
  split; try exact o1; try exact o2; try exact o3; try exact o6.
  - change (xps_nactive (xps st')) with (xps_nactive (xps st)). rewrite o4. f_equal. apply bfilter_ext. intros j _. by rewrite Eo.
  - intros j Hj. destruct (decide (j = i)) as [->|Ne]; [|rewrite Lo by done; by apply o5].
    destruct (o5 i Hj) as (x' & Hx' & ? & ?). replace x' with x in * by congruence.
    rewrite Li. exists (f x). rewrite Sp, Sn. done.
  - intros p l Hp. rewrite (o7 p l Hp). apply bfilter_ext. intros j _. by rewrite Ep.
  - rewrite (sumq_alter st st' i d) by (try done; unfold qlen; intros; rewrite ?Li, ?Hx, ?Lo; done).
    change (xps_queuelen (xps st')) with (xps_queuelen (xps st) + e). change (xps_xprt_list (xps st')) with (xps_xprt_list (xps st)).
    destruct (decide _); lia.
  - intros j x' Hj. destruct (decide (j = i)) as [->|Ne].
    + rewrite Li in Hj. injection Hj as <-. destruct (o9 i x Hx) as (Hk & Hq & Hr).
      change (in_list st' i) with (in_list st i). split_and!; [lia|lia|]. intros ?. rewrite Sm. by apply Sr.
    + rewrite Lo in Hj by done. destruct (Oth j Ne) as [-> ->]. by apply o9.
  - intros j. destruct (decide (j = i)) as [->|Ne]; [done|]. destruct (Oth j Ne) as [-> ->]. apply o10.
  - split; [done|]. destruct o12 as (x' & Hx' & Hm & Hof). destruct (decide (main = i)) as [E|Ne].
    + subst i. rewrite Li. exists (f x). split_and!; [done|congruence..].
    + rewrite Lo by done. by exists x'.
Qed.
End Change.

Lemma on_xps_0 st : on_xps (fun s => s <| xps_queuelen := xps_queuelen s + 0 |>) st = st.
Proof. destruct st as [x [k n a q l p m o]]. unfold on_xps, field_upd. simpl. by rewrite Z.add_0_r. Qed.

(** ** References and queues *)

Section Refs.
Context (main : Z) (r q : Z -> Z) (st : mp) (Ok : ok main r q st).
Local Abbreviation L := (xps_xprt_list (xps st)).

Lemma ok_flags i f x :
  xprts st !! i = Some x -> same_place x (f x) -> XPRT_OFFLINE (f x) = XPRT_OFFLINE x ->
  queuelen (f x) = queuelen x -> xp_kref (f x) = xp_kref x -> ok main r q (on_xprt i f st).
Proof.
  intros Hx Sp So Sq Sk. rewrite <- (on_xps_0 st). destruct Ok. destruct (ok_counts0 i).
  apply (ok_change main r q st Ok i f 0 0 r q x); try done; try lia. by destruct (decide _).
Qed.

Lemma delta_eq i : delta i i = 1.
Proof. unfold delta. by rewrite decide_True. Qed.
Lemma delta_ne i j : j <> i -> delta i j = 0.
Proof. intros Ne. unfold delta. rewrite decide_False; congruence. Qed.

Lemma ok_ref i k :
  (exists x, xprts st !! i = Some x) -> 0 <= r i + k ->
  ok main (fun j => r j + k * delta i j) q (on_xprt i (fun x => x <| xp_kref := xp_kref x + k |>) st).
Proof.
  intros [x Hx] Hk. rewrite <- (on_xps_0 st). destruct Ok. destruct (ok_counts0 i), (ok_xprt0 i x Hx) as (_ & _ & ?).
  apply (ok_change main r q st Ok i _ 0 0 _ q x); try done; unfold field_upd; simpl; rewrite ?delta_eq; try lia.
  - intros j Hj. rewrite delta_ne by done. lia.
  - by destruct (decide _).
Qed.

Lemma ok_put i : (exists x, xprts st !! i = Some x) -> 1 <= r i -> ok main (fun j => r j - delta i j) q (xprt_put i st).
Proof.
  intros Hx Hr. pose proof (ok_ref i (-1) Hx ltac:(lia)) as H. unfold xprt_put.
  destruct H. by constructor.
Qed.

Lemma ok_get i st' : xprt_get i st = Some st' ->
  st' = on_xprt i (fun x => x <| xp_kref := xp_kref x + 1 |>) st /\ ok main (fun j => r j + delta i j) q st'.
Proof.
  unfold xprt_get. destruct (xprts st !! i) as [x|] eqn:Hx; [|done]. destruct (xp_kref x =? 0); [done|]. intros [= <-].
  split; [done|]. pose proof (ok_counts _ _ _ _ Ok i). pose proof (ok_ref i 1 ltac:(by exists x) ltac:(lia)) as H'.
  destruct H'. constructor; try done.
  - intros j x' Hj. destruct (ok_xprt0 j x' Hj) as (? & ? & ?). split_and!; try done. lia.
  - intros j. destruct (ok_counts0 j). lia.
Qed.

Lemma ok_queue i d :
  (exists x, xprts st !! i = Some x) -> 0 <= q i + d -> (-1 <= d <= 1) ->
  ok main r (fun j => q j + d * delta i j)
    (on_xprt i (fun x => x <| queuelen := queuelen x + d |>) (on_xps (fun s => s <| xps_queuelen := xps_queuelen s + d |>) st))
  \/ i ∉ L.
Proof.
  intros [x Hx] Hk Hd. destruct (decide (i ∈ L)) as [Y|N]; [left|by right].
  destruct Ok. destruct (ok_counts0 i), (ok_xprt0 i x Hx) as (_ & _ & ?).
  apply (ok_change main r q st Ok i _ d d r _ x); try done; unfold field_upd; simpl; rewrite ?delta_eq; try lia.
  - intros j Hj. rewrite delta_ne by done. lia.
  - by rewrite decide_True.
Qed.
End Refs.

(** ** Membership *)

Lemma filter_del_length (f : Z -> bool) i l : NoDup l -> i ∈ l ->
  zlen (List.filter f (list_del i l)) = zlen (List.filter f l) - (if f i then 1 else 0).
Proof.
  intros Nd. unfold list_del. induction Nd as [|j l Hj Nd IH]; intros Hi; [by apply elem_of_nil in Hi|]. simpl.
  destruct (Z.eqb_spec j i) as [->|Ne]; simpl.
  - assert (List.filter (fun j => negb (j =? i)) l = l) as ->.
    { clear -Hj. induction l as [|k l IH]; simpl; [done|]. rewrite not_elem_of_cons in Hj. destruct Hj as [? ?].
      rewrite (proj2 (Z.eqb_neq k i)) by done. simpl. by rewrite IH. }
    destruct (f i); [rewrite zlen_cons|]; lia.
  - assert (i ∈ l) as Hi' by (apply elem_of_cons in Hi as [?|?]; [congruence|done]).
    specialize (IH Hi'). destruct (f j); rewrite ?zlen_cons; lia.
Qed.

Lemma list_del_elem i j l : j ∈ list_del i l <-> j <> i /\ j ∈ l.
Proof. unfold list_del. rewrite filter_elem, negb_true_iff, Z.eqb_neq. done. Qed.

Lemma filter_true (l : list Z) : List.filter (fun _ => true) l = l.
Proof. induction l as [|x l IH]; simpl; [done|]. by rewrite IH. Qed.

Lemma filter_comm (f g : Z -> bool) l : List.filter f (List.filter g l) = List.filter g (List.filter f l).
Proof.
  induction l as [|x l IH]; simpl; [done|]. destruct (f x) eqn:F, (g x) eqn:G; simpl; rewrite ?F, ?G, ?IH; done.
Qed.

Lemma elem_zlen (i : Z) l : i ∈ l -> 1 <= zlen l.
Proof. destruct l as [|j l]; [by intros H%elem_of_nil|]. unfold zlen. simpl. lia. Qed.

Section Members.
Context (main : Z) (r q : Z -> Z) (st : mp) (Ok : ok main r q st).
Local Abbreviation L := (xps_xprt_list (xps st)).

Lemma ok_L_pos : 1 <= zlen L.
Proof. destruct Ok as [_ _ _ _ _ _ _ _ _ _ [H _]]. by apply (elem_zlen main). Qed.

Lemma nactive_range : 1 <= xps_nactive (xps st) <= zlen L.
Proof.
  destruct Ok as [_ _ _ -> _ _ _ _ _ _ (H & x & Hx & _ & Hof)]. split.
  - assert (main ∈ List.filter (fun i => negb (is_offline st i)) L) as Hin.
    { apply filter_elem. split; [|done]. unfold is_offline. by rewrite Hx, Hof. }
    by apply (elem_zlen main).
  - unfold zlen. pose proof (filter_length_le (fun i => negb (is_offline st i)) L). lia.
Qed.

Lemma sumq_del i : sumq st (list_del i L) <= sumq st L.
Proof.
  pose proof (ok_qlen_nonneg main r q st Ok) as Nn. unfold list_del. induction L as [|j l IH]; [done|].
  cbn [List.filter]. pose proof (Nn j). destruct (negb (j =? i)); rewrite ?sumq_cons; lia.
Qed.

Lemma remove_locked_nf i x : i ∈ L -> i <> main -> xprts st !! i = Some x ->
  xprt_switch_remove_xprt_locked i st =
  mk_mp (xprts st) (mk_xps (xps_kref (xps st)) (zlen (list_del i L))
    (zlen (List.filter (fun j => negb (is_offline st j)) (list_del i L)))
    (xps_queuelen (xps st)) (list_del i L) (map (list_del i) (xps_remoteport_xprt_list (xps st)))
    (xps_net (xps st)) (xps_iter_ops (xps st))).
Proof.
  intros Hi Nm Hx. pose proof nactive_range as Na. pose proof (ok_bound _ _ _ _ Ok) as Lb.
  pose proof Ok as [o1 _ o3 o4 _ _ _ _ _ _ [o11 _]].
  assert (main ∈ list_del i L) as Hm%elem_zlen by by apply list_del_elem.
  pose proof (filter_del_length (fun _ => true) i L o1 Hi) as Dl. rewrite !filter_true in Dl.
  pose proof (filter_del_length (fun j => negb (is_offline st j)) i L o1 Hi) as Da. rewrite <- o4 in Da. rewrite Da, Dl in *.
  assert (is_offline st i = XPRT_OFFLINE x) as -> by (unfold is_offline; by rewrite Hx).
  unfold xprt_switch_remove_xprt_locked, on_xps. rewrite Hx. unfold field_upd; cbn -[Z.sub]. f_equal.
  destruct (XPRT_OFFLINE x); cbn -[Z.sub]; rewrite o3, (u32_id (zlen L - 1)) by (unfold is_u32; lia);
    rewrite (proj2 (Z.eqb_neq _ 0)) by lia; cbn -[Z.sub]; f_equal; [lia|]. apply u32_id. unfold is_u32. lia.
Qed.

Lemma ok_remove i : i ∈ L -> i <> main -> ok main r q (rpc_xprt_switch_remove_xprt i st).
Proof.
  intros Hi Nm. pose proof Ok as [o1 o2 o3 o4 o5 o6 o7 o8 o9 o10 [o11 o12]].
  destruct (o5 i Hi) as (x & Hx & Hpi & Hnet).
  pose proof (filter_del_length (fun _ => true) i L o1 Hi) as Dl. rewrite !filter_true in Dl.
  unfold rpc_xprt_switch_remove_xprt, xprt_put. rewrite (remove_locked_nf i x Hi Nm Hx). set (st' := on_xprt _ _ _).
  assert (forall j, j <> i -> xprts st' !! j = xprts st !! j) as Lo.
  { intros j Hj. unfold st', on_xprt, field_upd. simpl. by rewrite lookup_alter_ne. }
  assert (xprts st' !! i = Some (x <| xp_kref := xp_kref x - 1 |>)) as Li.
  { unfold st', on_xprt, field_upd. simpl. by rewrite lookup_alter_eq, Hx. }
  assert (forall j, is_offline st' j = is_offline st j) as Eo.
  { intros j. unfold is_offline. destruct (decide (j = i)) as [->|]; [by rewrite Li, Hx|by rewrite Lo]. }
  assert (xps_xprt_list (xps st') = list_del i L) as EL by done.
  split; try done.
  - unfold list_del. by apply filter_NoDup.
  - rewrite EL. lia.
  - rewrite EL. rewrite (bfilter_ext _ (fun j => negb (is_offline st j))) by (intros; by rewrite Eo). done.
  - rewrite EL. intros j [Hj HL]%list_del_elem. rewrite Lo by done. destruct (o5 j HL) as (y & Hy & ? & Hn). by exists y.
  - change (zlen (map (list_del i) (xps_remoteport_xprt_list (xps st))) = XPRT_MAX_PORTS). unfold zlen in *. by rewrite length_map.
  - intros p l Hp. change (map (list_del i) (xps_remoteport_xprt_list (xps st)) !! p = Some l) in Hp.
    rewrite list_lookup_fmap in Hp. destruct (_ !! p) as [l0|] eqn:E0; [|done]. injection Hp as <-.
    rewrite (o7 p l0 E0), EL. unfold list_del. rewrite filter_comm. apply bfilter_ext. intros j Hj.
    apply filter_elem in Hj as [Hj _]. apply negb_true_iff, Z.eqb_neq in Hj. unfold on_port_idx. by rewrite Lo.
  - rewrite EL. assert (sumq st' (list_del i L) = sumq st (list_del i L)) as ->.
    { apply sumq_ext. intros j. unfold qlen. destruct (decide (j = i)) as [->|]; [by rewrite Li, Hx|by rewrite Lo]. }
    pose proof (sumq_del i). change (xps_queuelen (xps st')) with (xps_queuelen (xps st)). lia.
  - intros j y Hj. unfold in_list. rewrite EL. destruct (decide (j = i)) as [->|Ne].
    + rewrite Li in Hj. injection Hj as <-. destruct (o9 i x Hx) as (Hk & ? & ?). unfold in_list in Hk. rewrite decide_True in Hk by done.
      rewrite decide_False by by intros [? _]%list_del_elem. split_and!; try done. unfold field_upd. simpl. lia.
    + rewrite Lo in Hj by done. destruct (o9 j y Hj) as (Hk & ? & ?). split_and!; try done. rewrite Hk. unfold in_list. f_equal.
      apply decide_ext. rewrite list_del_elem. tauto.
  - split; [by apply list_del_elem|]. rewrite Lo by done. done.
Qed.

Lemma filter_snoc (f : Z -> bool) l i : List.filter f (l ++ [i]) = List.filter f l ++ (if f i then [i] else []).
Proof. rewrite List.filter_app. simpl. by destruct (f i). Qed.

Lemma sumq_snoc st' l i : sumq st' (l ++ [i]) = sumq st' l + qlen st' i.
Proof. induction l as [|j l IH]; [unfold sumq; simpl; lia|]. cbn [app]. rewrite !sumq_cons, IH. lia. Qed.

Lemma ok_add i x :
  xprts st !! i = Some x -> i ∉ L -> xp_kref x <> 0 -> 0 <= xp_port_idx x < XPRT_MAX_PORTS ->
  XPRT_OFFLINE x = false -> queuelen x = 0 -> zlen L + 1 < 2 ^ 32 - 1 ->
  ok main r q (rpc_xprt_switch_add_xprt i st).
Proof.
  intros Hx Hi Kz Hp Hof Hq Hb. pose proof nactive_range as Na. pose proof Ok as [o1 o2 o3 o4 o5 o6 o7 o8 o9 o10 [o11 o12]].
  unfold rpc_xprt_switch_add_xprt. rewrite Hx. destruct (o5 main o11) as (y & _ & _ & Hn). rewrite Hn.
  destruct (Z.eqb_spec (xprt_net y) (xprt_net x)) as [En|_]; [|done].
  unfold xprt_switch_add_xprt_locked, xprt_get. rewrite Hx, (proj2 (Z.eqb_neq _ _)) by done.
  set (x' := x <| xp_kref := xp_kref x + 1 |>).
  assert (xprts (on_xprt i (fun x => x <| xp_kref := xp_kref x + 1 |>) st) !! i = Some x') as Li.
  { unfold on_xprt, field_upd. simpl. by rewrite lookup_alter_eq, Hx. }
  rewrite Li.   set (st' := on_xps _ _).
  assert (forall j, j <> i -> xprts st' !! j = xprts st !! j) as Lo.
  { intros j Hj. unfold st', on_xprt, on_xps, field_upd. simpl. by rewrite lookup_alter_ne. }
  change (xprts st' !! i = Some x') in Li.
  assert (xps_net (xps st') = xps_net (xps st)) as EN.
  { change ((if xps_nxprts (xps st) =? 0 then Some (xprt_net x) else xps_net (xps st)) = xps_net (xps st)).
    rewrite (proj2 (Z.eqb_neq _ 0)); [done|]. pose proof ok_L_pos. lia. }
  assert (forall j, is_offline st' j = is_offline st j) as Eo.
  { intros j. unfold is_offline. destruct (decide (j = i)) as [->|]; [by rewrite Li, Hx|by rewrite Lo]. }
  assert (forall p j, on_port_idx st' p j = on_port_idx st p j) as Ep.
  { intros p j. unfold on_port_idx. destruct (decide (j = i)) as [->|]; [by rewrite Li, Hx|by rewrite Lo]. }
  assert (xps_xprt_list (xps st') = L ++ [i]) as EL by done.
  assert (zlen (L ++ [i]) = zlen L + 1) as El by (by rewrite zlen_app).
  assert (is_offline st i = false) as Hoi by (unfold is_offline; by rewrite Hx).
  split.
  - rewrite EL. apply NoDup_app. split_and!; [done| |apply NoDup_singleton]. by intros j Hj ->%list_elem_of_singleton.
  - rewrite EL. lia.
  - rewrite EL, El, <- o3. change (u32 (xps_nxprts (xps st) + 1) = xps_nxprts (xps st) + 1). apply u32_id. unfold is_u32. pose proof ok_L_pos. lia.
  - rewrite EL. rewrite (bfilter_ext _ (fun j => negb (is_offline st j))) by (intros; by rewrite Eo).
    rewrite filter_snoc, Hoi, zlen_app. simpl. rewrite <- o4.
    change (u32 (xps_nactive (xps st) + 1) = xps_nactive (xps st) + 1). apply u32_id. unfold is_u32. lia.
  - rewrite EL. intros j [Hj| ->%list_elem_of_singleton]%elem_of_app.
    + destruct (o5 j Hj) as (z & ? & ? & ?). assert (j <> i) by congruence. rewrite Lo, EN by done. by exists z.
    + exists x'. split_and!; try done; try apply Hp. by rewrite EN, Hn, En.
  - change (zlen (alter (fun l => l ++ [i]) (Z.to_nat (xp_port_idx x)) (xps_remoteport_xprt_list (xps st))) = XPRT_MAX_PORTS).
    unfold zlen in *. by rewrite length_alter.
  - intros p l Hl. change (alter (fun l => l ++ [i]) (Z.to_nat (xp_port_idx x)) (xps_remoteport_xprt_list (xps st)) !! p = Some l) in Hl.
    rewrite EL, (bfilter_ext _ (on_port_idx st (Z.of_nat p))), filter_snoc by (intros; by rewrite Ep).
    unfold on_port_idx at 2. rewrite Hx. destruct (Z.eqb_spec (xp_port_idx x) (Z.of_nat p)) as [E|Ne].
    + rewrite E, Nat2Z.id, list_lookup_alter_eq in Hl. destruct (_ !! p) as [l0|] eqn:E0; [|done]. injection Hl as <-.
      by rewrite (o7 p l0 E0).
    + rewrite list_lookup_alter_ne in Hl by lia. rewrite app_nil_r. by apply o7.
  - rewrite EL, sumq_snoc. change (xps_queuelen (xps st')) with (xps_queuelen (xps st)).
    rewrite (sumq_ext st) by (intros j; unfold qlen; destruct (decide (j = i)) as [->|]; [by rewrite Li, Hx|by rewrite Lo]).
    unfold qlen. rewrite Li. change (queuelen x') with (queuelen x). lia.
  - intros j z Hj. unfold in_list. rewrite EL. destruct (decide (j = i)) as [->|Ne].
    + rewrite Li in Hj. injection Hj as <-. destruct (o9 i x Hx) as (Hk & ? & ?). unfold in_list in Hk. rewrite decide_False in Hk by done.
      rewrite decide_True by (apply elem_of_app; right; by apply list_elem_of_singleton). split_and!; try done.
      change (xp_kref x') with (xp_kref x + 1). lia.
    + rewrite Lo in Hj by done. destruct (o9 j z Hj) as (Hk & ? & ?). split_and!; try done. rewrite Hk. unfold in_list. f_equal.
      apply decide_ext. rewrite elem_of_app, list_elem_of_singleton. tauto.
  - done.
  - split; [rewrite EL; apply elem_of_app; by left|]. assert (main <> i) by congruence. by rewrite Lo.
Qed.

(** Taking a transport offline or back. *)
Lemma ok_set_offline i x b :
  xprts st !! i = Some x -> i ∈ L -> xp_main x = false -> XPRT_OFFLINE x = negb b ->
  ok main r q (on_xps (fun s => s <| xps_nactive := u32 (xps_nactive s + (if b then -1 else 1)) |>)
                (on_xprt i (fun x => x <| XPRT_OFFLINE := b |>) st)).
Proof.
  intros Hx Hi Hm Hof. pose proof nactive_range as Na. pose proof Ok as [o1 o2 o3 o4 o5 o6 o7 o8 o9 o10 [o11 o12]].
  set (st' := on_xps _ _). set (x' := x <| XPRT_OFFLINE := b |>).
  assert (xprts st' !! i = Some x') as Li.
  { unfold st', on_xps, on_xprt, field_upd. simpl. by rewrite lookup_alter_eq, Hx. }
  assert (forall j, j <> i -> xprts st' !! j = xprts st !! j) as Lo.
  { intros j Hj. unfold st', on_xprt, on_xps, field_upd. simpl. by rewrite lookup_alter_ne. }
  assert (forall p j, on_port_idx st' p j = on_port_idx st p j) as Ep.
  { intros p j. unfold on_port_idx. destruct (decide (j = i)) as [->|]; [by rewrite Li, Hx|by rewrite Lo]. }
  pose proof (filter_del_length (fun j => negb (is_offline st j)) i L o1 Hi) as Da. rewrite <- o4 in Da.
  pose proof (filter_del_length (fun j => negb (is_offline st' j)) i L o1 Hi) as Db.
  rewrite (bfilter_ext (fun j => negb (is_offline st' j)) (fun j => negb (is_offline st j)) (list_del i L)) in Db.
  2:{ intros j [Hj _]%list_del_elem. unfold is_offline. by rewrite Lo. }
  assert (is_offline st i = negb b) as E1 by (unfold is_offline; by rewrite Hx).
  assert (is_offline st' i = b) as E2 by (unfold is_offline; by rewrite Li).
  rewrite E1, negb_involutive in Da. rewrite E2 in Db.
  split; try done.
  - change (u32 (xps_nactive (xps st) + (if b then -1 else 1)) = zlen (List.filter (fun j => negb (is_offline st' j)) L)).
    pose proof (zlen_nonneg (List.filter (fun j => negb (is_offline st' j)) L)).
    rewrite u32_id by (unfold is_u32; destruct b; simpl in *; lia). destruct b; simpl in *; lia.
  - intros j Hj. destruct (o5 j Hj) as (z & Hz & ? & ?). destruct (decide (j = i)) as [->|].
    + exists x'. replace z with x in * by congruence. done.
    + rewrite Lo by done. by exists z.
  - intros p l Hl. rewrite (o7 p l Hl). apply bfilter_ext. intros j _. by rewrite Ep.
  - rewrite (sumq_ext st); [done|]. intros j. unfold qlen. destruct (decide (j = i)) as [->|]; [by rewrite Li, Hx|by rewrite Lo].
  - intros j z Hj. destruct (decide (j = i)) as [->|Ne].
    + rewrite Li in Hj. injection Hj as <-. exact (o9 i x Hx).
    + rewrite Lo in Hj by done. exact (o9 j z Hj).
  - split; [done|]. destruct o12 as (z & Hz & Hmz & ?). assert (main <> i) by congruence. rewrite Lo by done. by exists z.
Qed.
End Members.
