(* ===== verification/MultipathChoice.v ===== *)
(** * Which transport the policies choose

    For a well-formed switch: the ring of a request is the part of the transport
    list it may use, the round-robin loop ends, and what it ends with. *)

From S2P Require Import Prelude Xdr Mesh Multipath MultipathInv.
From stdpp Require Import gmap.
#[local] Open Scope Z_scope.

(** The remote port asked for is one of the table. *)
Definition conf_ok (conf : rpc_xprt_iter_conf) : Prop :=
  has RPC_XPRT_FLAGS_REMOTE_PORT_IDX conf = true -> 0 <= cf_port_idx conf < XPRT_MAX_PORTS.

Lemma conf_default_ok : conf_ok conf_default.
Proof. done. Qed.

Lemma active_online st conf i : active st conf i = true -> is_offline st i = false /\ exists x, xprts st !! i = Some x /\ xp_kref x <> 0.
Proof.
  unfold active, is_offline. destruct (xprts st !! i) as [x|]; [|done]. unfold xprt_is_active.
  repeat (case_match; [done|]). intros [Hk%negb_true_iff%Z.eqb_neq Ho%negb_true_iff]%andb_true_iff.
  split; [done|]. by exists x.
Qed.

Lemma active_port st conf i : has RPC_XPRT_FLAGS_REMOTE_PORT_IDX conf = true -> active st conf i = true ->
  on_port_idx st (cf_port_idx conf) i = true.
Proof.
  intros Hp. unfold active, on_port_idx. destruct (xprts st !! i) as [x|]; [|done]. unfold xprt_is_active.
  case_match; [done|]. case_match; [done|]. rewrite Hp. simpl. by destruct (xp_port_idx x =? cf_port_idx conf).
Qed.

Lemma filter_filter_imp (f g : Z -> bool) l : (forall i, f i = true -> g i = true) -> List.filter f (List.filter g l) = List.filter f l.
Proof.
  intros H. induction l as [|i l IH]; simpl; [done|]. destruct (g i) eqn:G; simpl; [by rewrite IH|].
  destruct (f i) eqn:F; [|done]. rewrite (H i F) in G. done.
Qed.

Section Choice.
Context (main : Z) (r q : Z -> Z) (st : mp) (Ok : ok main r q st).
Local Abbreviation L := (xps_xprt_list (xps st)).

Lemma member_kref i x : i ∈ L -> xprts st !! i = Some x -> 1 <= xp_kref x.
Proof.
  intros Hi Hx. destruct Ok as [_ _ _ _ _ _ _ _ o9 o10 _]. destruct (o9 i x Hx) as [-> _]. unfold in_list.
  rewrite decide_True by done. destruct (o10 i). lia.
Qed.

Section Conf.
Context (conf : rpc_xprt_iter_conf) (Cok : conf_ok conf).

Lemma conf_list_nf : conf_list st conf =
  if has RPC_XPRT_FLAGS_REMOTE_PORT_IDX conf then List.filter (on_port_idx st (cf_port_idx conf)) L else L.
Proof.
  unfold conf_list. destruct (has _ conf) eqn:H; [|done]. specialize (Cok H).
  destruct (xps_remoteport_xprt_list (xps st) !! Z.to_nat (cf_port_idx conf)) as [l|] eqn:E.
  - simpl. rewrite (ok_ports _ _ _ _ Ok _ _ E), Z2Nat.id by lia. done.
  - exfalso. apply lookup_ge_None in E. pose proof (ok_ports_len _ _ _ _ Ok) as Hl. unfold zlen in Hl. lia.
Qed.

Lemma conf_list_nodup : NoDup (conf_list st conf).
Proof. rewrite conf_list_nf. pose proof (ok_nodup _ _ _ _ Ok). destruct (has _ conf); [by apply filter_NoDup|done]. Qed.

(** The ring is the active part of the list of all transports. *)
Lemma ring_nf : ring st conf = List.filter (active st conf) L.
Proof.
  unfold ring. rewrite conf_list_nf. destruct (has _ conf) eqn:H; [|done].
  apply filter_filter_imp. intros i. by apply active_port.
Qed.

Lemma ring_elem i : i ∈ ring st conf <-> i ∈ L /\ active st conf i = true.
Proof. rewrite ring_nf, filter_elem. tauto. Qed.

Lemma ring_length : zlen (ring st conf) <= xps_nactive (xps st).
Proof.
  rewrite ring_nf, (ok_nactive _ _ _ _ Ok).
  rewrite <- (filter_filter_imp (active st conf) (fun i => negb (is_offline st i)) L).
  - unfold zlen. pose proof (filter_length_le (active st conf) (List.filter (fun i => negb (is_offline st i)) L)). lia.
  - intros i [-> _]%active_online. done.
Qed.
End Conf.

(** ** The average queue *)

Context (Qb : xps_queuelen (xps st) < 2 ^ 32).

Lemma qlen_le_sumq i l : i ∈ l -> qlen st i <= sumq st l.
Proof.
  pose proof (ok_qlen_nonneg _ _ _ _ Ok) as Nn. induction l as [|j l IH]; [by intros H%elem_of_nil|].
  rewrite sumq_cons. intros [->|Hi]%elem_of_cons.
  - pose proof (sumq_nonneg st l Nn). lia.
  - pose proof (Nn j). specialize (IH Hi). lia.
Qed.

Lemma uncongested_nf i : i ∈ L -> uncongested st i = (qlen st i * xps_nactive (xps st) <=? xps_queuelen (xps st)).
Proof.
  intros Hi. pose proof (qlen_le_sumq i L Hi) as H1. pose proof (ok_sum _ _ _ _ Ok) as H2.
  pose proof (ok_qlen_nonneg _ _ _ _ Ok i) as H3. pose proof (nactive_range _ _ _ _ Ok) as H4.
  pose proof (ok_bound _ _ _ _ Ok) as H5. unfold uncongested, qlen in *.
  destruct (xprts st !! i) as [x|] eqn:Hx.
  - rewrite (u64_id (queuelen x)) by (unfold is_u64; lia). rewrite !u64_id; [done|unfold is_u64; lia|]. unfold is_u64. nia.
  - rewrite !u64_id; [done|unfold is_u64; lia..].
Qed.

Lemma sumq_filter_le f l : sumq st (List.filter f l) <= sumq st l.
Proof.
  pose proof (ok_qlen_nonneg _ _ _ _ Ok) as Nn. induction l as [|j l IH]; [done|]. simpl. pose proof (Nn j).
  destruct (f j); rewrite ?sumq_cons; lia.
Qed.

Lemma sumq_average n X l : (forall i, i ∈ l -> X < qlen st i * n) -> (X + 1) * zlen l <= sumq st l * n.
Proof.
  induction l as [|i l IH]; intros H; [unfold zlen, sumq; simpl; lia|].
  rewrite zlen_cons, sumq_cons. specialize (IH (fun j Hj => H j ltac:(by right))). specialize (H i ltac:(by left)). nia.
Qed.

(** Some transport of the whole ring is no busier than the average. *)
Lemma some_uncongested : exists i, i ∈ ring st conf_default /\ uncongested st i = true.
Proof.
  pose proof (nactive_range _ _ _ _ Ok) as Na.
  assert (ring st conf_default = List.filter (fun i => negb (is_offline st i)) L) as ER.
  { rewrite ring_nf by done. apply bfilter_ext. intros i Hi. destruct (ok_member _ _ _ _ Ok i Hi) as (x & Hx & _).
    pose proof (member_kref i x Hi Hx). unfold active, is_offline. rewrite Hx. unfold xprt_is_active. simpl.
    by rewrite (proj2 (Z.eqb_neq (xp_kref x) 0)) by lia. }
  assert (zlen (ring st conf_default) = xps_nactive (xps st)) as EL by (rewrite ER; symmetry; apply (ok_nactive _ _ _ _ Ok)).
  assert ((exists i, i ∈ ring st conf_default /\ uncongested st i = true) \/
          forall i, i ∈ ring st conf_default -> uncongested st i = false) as [?|N]; [|done|].
  { clear. induction (ring st conf_default) as [|i l IH]; [right; by intros i H%elem_of_nil|].
    destruct (uncongested st i) eqn:E; [left; exists i; split; [by left|done]|].
    destruct IH as [(j & ? & ?)|N]; [left; exists j; split; [by right|done]|].
    right. intros j [->|Hj]%elem_of_cons; [done|by apply N]. }
  exfalso. pose proof (sumq_average (xps_nactive (xps st)) (xps_queuelen (xps st)) (ring st conf_default)) as Av.
  pose proof (sumq_filter_le (active st conf_default) L) as Le. rewrite <- ring_nf in Le by done.
  pose proof (ok_sum _ _ _ _ Ok). rewrite EL in Av.
  specialize (Av (fun i Hi => ltac:(pose proof (N i Hi) as C; rewrite uncongested_nf in C by (by apply ring_elem in Hi as [? _]); zbool; lia))).
  nia.
Qed.
End Choice.

(** ** Round robin comes to an end *)

(** The loop, for a request with flags or a bounded number of tasks, steps along the
    ring from the entry after the cursor to the first where it stops. *)
Lemma roundrobin_ends main r q st conf cur :
  ok main r q st -> conf_ok conf -> ring st conf <> [] ->
  cf_flags conf <> 0 \/ (conf = conf_default /\ xps_queuelen (xps st) < 2 ^ 32) ->
  exists s j, (s < length (ring st conf))%nat /\ __xprt_switch_find_next_entry_roundrobin st cur conf = ring st conf !! s /\
    xprt_switch_find_next_entry_roundrobin st cur conf = Some (ring st conf !! at_ st conf s j) /\
    stops st conf s 0 j /\ forall j', (j' < j)%nat -> ~ stops st conf s 0 j'.
Proof.
  intros Ok Cok Ne Hb. pose proof (conf_list_nodup _ _ _ _ Ok conf Cok) as Nd.
  destruct (rr_some st conf cur Ne) as (s & Ls & Hs).
  pose proof (nactive_range _ _ _ _ Ok) as Na. pose proof (ok_bound _ _ _ _ Ok) as Lb.
  pose proof (ring_length _ _ _ _ Ok conf Cok) as Rl.
  assert (exists b, (b < rr_fuel st)%nat /\ Z.of_nat b + 1 < 2 ^ 32 /\ stops st conf s 0 b) as (b & Hbf & Hbc & Sb).
  { destruct Hb as [Hf|[-> Qb]].
    - exists (Z.to_nat (xps_nactive (xps st))). unfold rr_fuel. split_and!; [lia|lia|]. right. unfold gives_up.
      rewrite (proj2 (Z.eqb_neq _ 0)) by done. simpl. apply Z.ltb_lt. lia.
    - destruct (some_uncongested _ _ _ _ Ok Qb) as (i & Hi & Ui). apply list_elem_of_lookup in Hi as [u Hu].
      pose proof (lookup_lt_Some _ _ _ Hu) as Lu. set (m := length (ring st conf_default)) in *.
      exists ((u + m - s) mod m)%nat. assert ((u + m - s) mod m < m)%nat as Lm by (apply Nat.mod_upper_bound; lia).
      unfold rr_fuel, zlen in *. fold m in Rl. split_and!; [lia|lia|]. left. exists i. split; [|unfold good; by rewrite Ui].
      unfold at_. fold m. rewrite Nat.Div0.add_mod_idemp_r. replace (s + (u + m - s))%nat with (u + 1 * m)%nat by lia.
      rewrite Nat.Div0.mod_add, Nat.mod_small by done. done. }
  destruct (least_stop st conf s 0 b Sb) as (j & Lj & Sj & Nj).
  exists s, j. split_and!; try done. unfold xprt_switch_find_next_entry_roundrobin.
  apply roundrobin_loop_spec; try done; lia.
Qed.

(** Whatever it ends with is on the ring. *)
Lemma roundrobin_loop_in st conf fuel cur count o :
  roundrobin_loop fuel st conf cur count = Some o ->
  (o = None /\ ring st conf = []) \/ exists i, o = Some i /\ i ∈ ring st conf.
Proof.
  revert cur count. induction fuel as [|fuel IH]; intros cur count; [done|]. cbn [roundrobin_loop].
  destruct (__xprt_switch_find_next_entry_roundrobin st cur conf) as [x|] eqn:E.
  - pose proof (rr_elem st conf cur x E). case_match; [intros [= <-]; right; by exists x|].
    case_match; [intros [= <-]; right; by exists x|]. apply IH.
  - intros [= <-]. left. split; [done|]. by apply (rr_none st conf cur).
Qed.

(** ** The next transport of a client *)

Definition client_policy (st : mp) (xpi : rpc_xprt_iter) : Prop :=
  xpi_xpswitch xpi = true /\ xpi_ops xpi = None /\ xps_iter_ops (xps st) <> rpc_xprt_iter_listall.

Lemma head_ring_none {A} (l : list A) : head l = None -> l = [].
Proof. by destruct l. Qed.

Section Next.
Context (main : Z) (r q : Z -> Z) (st : mp) (Ok : ok main r q st) (xpi : rpc_xprt_iter) (Pol : client_policy st xpi).

Lemma xpi_next_in conf o xpi' :
  xpi_next (xprt_iter_ops st xpi) st xpi conf = Some (o, xpi') ->
  xpi_xpswitch xpi' = true /\ xpi_ops xpi' = None /\
  ((o = None /\ ring st conf = []) \/ exists i, o = Some i /\ i ∈ ring st conf).
Proof.
  destruct Pol as (Ps & Po & Pl). unfold xprt_iter_ops. rewrite Po. destruct (xps_iter_ops (xps st)); simpl.
  - unfold xprt_iter_first_entry. rewrite Ps. intros [= <- <-]. split_and!; try done. rewrite find_first_ring.
    destruct (head _) as [i|] eqn:E; [right; exists i; split; [done|by apply head_Some_elem_of]|].
    left. split; [done|]. by apply head_ring_none.
  - unfold xprt_iter_next_entry_multiple. rewrite Ps. cbn [negb].
    destruct (xprt_switch_find_next_entry_roundrobin _ _ _) as [o'|] eqn:E; [|done]. intros [= <- <-]. split_and!; try done.
    by apply roundrobin_loop_in in E.
  - done.
Qed.

Lemma ring_get conf i : i ∈ ring st conf -> exists st', xprt_get i st = Some st'.
Proof.
  unfold ring. intros [Ha _]%filter_elem. apply active_online in Ha as (_ & x & Hx & Hk). unfold xprt_get.
  rewrite Hx, (proj2 (Z.eqb_neq _ _)) by done. by eexists.
Qed.

Lemma get_next_in conf o xpi' st' :
  xprt_iter_get_next st xpi conf = Some (o, xpi', st') ->
  xpi_xpswitch xpi' = true /\ xpi_ops xpi' = None /\
  ((o = None /\ st' = st /\ ring st conf = []) \/ exists i, o = Some i /\ i ∈ ring st conf /\ xprt_get i st = Some st').
Proof.
  unfold xprt_iter_get_next. cbn [xprt_iter_get_helper].
  destruct (xpi_next _ st xpi conf) as [[o' xpi1]|] eqn:E; [|done]. apply xpi_next_in in E as (E1 & E2 & [[-> Er]|(i & -> & Hi)]).
  - intros [= <- <- <-]. split_and!; try done. by left.
  - destruct (xprt_get i st) as [st1|] eqn:Eg; [|done]. intros [= <- <- <-]. split_and!; try done. right. by exists i.
Qed.

Lemma get_next_total conf : conf_ok conf ->
  cf_flags conf <> 0 \/ (conf = conf_default /\ xps_queuelen (xps st) < 2 ^ 32) ->
  exists x, xprt_iter_get_next st xpi conf = Some x.
Proof.
  intros Cok Hb. unfold xprt_iter_get_next. cbn [xprt_iter_get_helper].
  assert (exists y, xpi_next (xprt_iter_ops st xpi) st xpi conf = Some y) as [[o xpi'] E].
  { destruct Pol as (Ps & Po & Pl). unfold xprt_iter_ops. rewrite Po. destruct (xps_iter_ops (xps st)); simpl; [by eexists| |done].
    unfold xprt_iter_next_entry_multiple. rewrite Ps. cbn [negb]. destruct (decide (ring st conf = [])) as [En|Ne].
    - unfold xprt_switch_find_next_entry_roundrobin, rr_fuel. cbn [roundrobin_loop].
      rewrite (proj2 (rr_none st conf (xpi_cursor xpi)) En). by eexists.
    - destruct (roundrobin_ends _ _ _ _ conf (xpi_cursor xpi) Ok Cok Ne Hb) as (s & j & _ & _ & -> & _). by eexists. }
  rewrite E. destruct (xpi_next_in _ _ _ E) as (_ & _ & [[-> _]|(i & -> & Hi)]); [by eexists|].
  destruct (ring_get conf i Hi) as [st' ->]. by eexists.
Qed.
End Next.

(** Taking the transport for a task. *)
Lemma get_next_xprt_in main r q st cl conf o cl' st' :
  ok main r q st -> conf_ok conf -> client_policy st (cl_xpi cl) ->
  get_next_xprt cl st conf = Some (o, cl', st') ->
  client_policy st' (cl_xpi cl') /\ cl_xprt cl' = cl_xprt cl /\ cl_remoteports_nr cl' = cl_remoteports_nr cl /\
  cl_mdconnect cl' = cl_mdconnect cl /\
  ((o = None /\ st' = st /\ ring st conf = []) \/
   exists i, o = Some i /\ i ∈ ring st conf /\ i ∈ xps_xprt_list (xps st) /\
     xps_xprt_list (xps st') = xps_xprt_list (xps st) /\ xps_kref (xps st') = xps_kref (xps st) /\
     ok main (fun j => r j + delta i j) (fun j => q j + delta i j) st').
Proof.
  intros Ok Cok Pol. unfold get_next_xprt.
  destruct (xprt_iter_get_next st (cl_xpi cl) conf) as [[[o' xpi'] st1]|] eqn:E; [|done].
  apply (get_next_in st _ Pol) in E as (E1 & E2 & H). intros [= <- <- <-]. destruct Pol as (_ & _ & Pl).
  destruct H as [(-> & -> & Er)|(i & -> & Hi & Hg)]; split_and!; try done; try (by left).
  - destruct (ok_get _ _ _ _ Ok i st1 Hg) as [-> _]. done.
  - right. exists i. destruct (proj1 (ring_elem _ _ _ _ Ok conf Cok i) Hi) as [HL _].
    destruct (ok_get _ _ _ _ Ok i st1 Hg) as [-> Ok1]. split_and!; try done. simpl.
    destruct (ok_member _ _ _ _ Ok i HL) as (x & Hx & _).
    destruct (ok_queue _ _ _ _ Ok1 i 1) as [H|H]; [|destruct (ok_counts _ _ _ _ Ok i); lia|lia| |done].
    + exists (x <| xp_kref := xp_kref x + 1 |>). unfold on_xprt, field_upd. simpl. by rewrite lookup_alter_eq, Hx.
    + revert H. apply ok_ext. intros j. lia.
Qed.

(** ** The transport of a task *)

Definition base_conf : rpc_xprt_iter_conf := conf_default <| cf_flags := RPC_XPRT_FLAGS_SKIP_UNCONNECTED |>.
Definition task_conf (cl : rpc_clnt) (st : mp) (task : mp_task) (base : rpc_xprt_iter_conf) : rpc_xprt_iter_conf :=
  port_conf cl task (gpu_conf st task base).
Definition any_port (conf : rpc_xprt_iter_conf) : rpc_xprt_iter_conf :=
  conf <| cf_flags := Z.ldiff (cf_flags conf) RPC_XPRT_FLAGS_REMOTE_PORT_IDX |>.

(** The order of preference: connected, with the role and on the remote port that go
    with the task; connected and with the role, on any port; any that is not
    offline. *)
Definition preferred (cl : rpc_clnt) (st : mp) (task : mp_task) (i : Z) : Prop :=
  let c := task_conf cl st task base_conf in
  if RPC_TASK_NO_ROUND_ROBIN task then i = cl_xprt cl
  else i ∈ ring st c \/ (ring st c = [] /\ i ∈ ring st (any_port c)) \/
       (ring st c = [] /\ ring st (any_port c) = [] /\ i ∈ ring st conf_default).

Definition ports_nr_ok (cl : rpc_clnt) : Prop := forall nr, cl_remoteports_nr cl = Some nr -> nr <= XPRT_MAX_PORTS.

Lemma any_port_has conf : has RPC_XPRT_FLAGS_REMOTE_PORT_IDX (any_port conf) = false.
Proof.
  unfold has, any_port, field_upd. simpl. rewrite (proj2 (Z.eqb_eq _ 0)); [done|].
  apply Z.bits_inj'. intros n _. rewrite Z.land_spec, Z.ldiff_spec, Z.bits_0. by destruct (Z.testbit _ n), (Z.testbit _ n).
Qed.

Lemma any_port_same conf : has RPC_XPRT_FLAGS_REMOTE_PORT_IDX conf = false -> any_port conf = conf.
Proof.
  destruct conf as [f p g c]. unfold has, any_port, field_upd. simpl. intros H%negb_false_iff%Z.eqb_eq. f_equal.
  apply Z.bits_inj'. intros n _. assert (Z.testbit (Z.land f RPC_XPRT_FLAGS_REMOTE_PORT_IDX) n = false) as B by (rewrite H; apply Z.bits_0).
  rewrite Z.land_spec in B. rewrite Z.ldiff_spec. by destruct (Z.testbit f n), (Z.testbit _ n).
Qed.

Lemma any_port_ok conf : conf_ok (any_port conf).
Proof. intros H. rewrite any_port_has in H. done. Qed.

(** The flags of a request of a task, one by one. *)
Lemma task_conf_cases cl st task base :
  ports_nr_ok cl -> base = base_conf \/ base = with_flag RPC_XPRT_FLAGS_IGNORE_CONGESTION base_conf ->
  conf_ok (task_conf cl st task base) /\ cf_flags (task_conf cl st task base) <> 0 /\
  cf_flags (any_port (task_conf cl st task base)) <> 0.
Proof.
  intros Hn Hb. unfold task_conf, port_conf, gpu_conf.
  assert (forall c h nr, 0 < nr -> nr <= XPRT_MAX_PORTS -> conf_ok (c <| cf_port_idx := ((h - 1) mod nr) mod 2 ^ 8 |>)) as Pk.
  { intros c h nr P1 P2 _. unfold field_upd. simpl. pose proof (Z.mod_pos_bound (h - 1) nr P1). unfold XPRT_MAX_PORTS in *.
    rewrite (Z.mod_small _ (2 ^ 8)) by lia. lia. }
  destruct (tk_gpu task) as [g|]; [destruct (xprt_find_best_priority st g)|];
    (destruct (cl_remoteports_nr cl) as [nr|] eqn:En; [destruct (_ && (0 <? nr)) eqn:Eh|]);
    try (apply andb_true_iff in Eh as [_ Eh%Z.ltb_lt]; specialize (Hn nr En));
    try destruct (negb (cl_mdconnect cl =? 0)); try destruct (negb (Z.land _ _ =? 0));
    destruct Hb as [-> | ->]; (split; [first [by apply Pk|done]|split; done]).
Qed.

(** The second attempt asks for the same transports as the first. *)
Lemma ignore_congestion_ring cl st task :
  ring st (task_conf cl st task (with_flag RPC_XPRT_FLAGS_IGNORE_CONGESTION base_conf)) = ring st (task_conf cl st task base_conf) /\
  ring st (any_port (task_conf cl st task (with_flag RPC_XPRT_FLAGS_IGNORE_CONGESTION base_conf))) =
  ring st (any_port (task_conf cl st task base_conf)).
Proof.
  assert (forall c c', Forall (fun f => has f c' = has f c)
      [RPC_XPRT_FLAGS_SKIP_UNCONNECTED; RPC_XPRT_FLAGS_LOCAL_GPU; RPC_XPRT_FLAGS_REMOTE_PORT_IDX; RPC_XPRT_FLAGS_SPLIT;
       RPC_XPRT_FLAGS_MARKED] -> gpu_idx c' = gpu_idx c ->
    best_priority c' = best_priority c -> cf_port_idx c' = cf_port_idx c -> ring st c' = ring st c) as RE.
  { intros c c' Hf Eg Eb Ep. rewrite !Forall_cons in Hf. destruct Hf as (H1 & H2 & H3 & H4 & H5 & _).
    unfold ring, conf_list. rewrite H3, Ep. apply bfilter_ext. intros i _.
    unfold active. destruct (xprts st !! i) as [x|]; [|done]. unfold xprt_is_active. by rewrite H1, H2, H3, H4, H5, Eg, Eb, Ep. }
  unfold task_conf, port_conf, gpu_conf.
  destruct (tk_gpu task) as [g|]; [destruct (xprt_find_best_priority st g)|];
    (destruct (cl_remoteports_nr cl) as [nr|] eqn:En; [destruct (_ && (0 <? nr)) eqn:Eh|]);
    try destruct (negb (cl_mdconnect cl =? 0)); try destruct (negb (Z.land _ _ =? 0));
    split; (apply RE; [repeat constructor|done..]).
Qed.

Section Task.
Context (main : Z) (r q : Z -> Z) (st : mp) (Ok : ok main r q st) (cl : rpc_clnt) (Nr : ports_nr_ok cl)
  (Pol : client_policy st (cl_xpi cl)).

(** A client that has chosen [o]. *)
Definition chose (cl' : rpc_clnt) (st' : mp) (i : Z) : Prop :=
  client_policy st' (cl_xpi cl') /\ cl_xprt cl' = cl_xprt cl /\ ports_nr_ok cl' /\ i ∈ xps_xprt_list (xps st) /\
  xps_xprt_list (xps st') = xps_xprt_list (xps st) /\ xps_kref (xps st') = xps_kref (xps st) /\
  ok main (fun j => r j + delta i j) (fun j => q j + delta i j) st'.

Lemma try_selections_in task base o cl' st' :
  base = base_conf \/ base = with_flag RPC_XPRT_FLAGS_IGNORE_CONGESTION base_conf ->
  rpc_task_try_xprt_selections task cl st base = Some (o, cl', st') ->
  let c := task_conf cl st task base in
  (o = None /\ st' = st /\ ring st c = [] /\ ring st (any_port c) = [] /\ client_policy st (cl_xpi cl') /\
     cl_xprt cl' = cl_xprt cl /\ cl_remoteports_nr cl' = cl_remoteports_nr cl /\ cl_mdconnect cl' = cl_mdconnect cl) \/
  exists i, o = Some i /\ chose cl' st' i /\ (i ∈ ring st c \/ ring st c = [] /\ i ∈ ring st (any_port c)).
Proof.
  intros Hb E c. destruct (task_conf_cases cl st task base Nr Hb) as (Ck & _ & _). fold c in Ck.
  unfold rpc_task_try_xprt_selections in E. fold (task_conf cl st task base) in E. cbv zeta in E. fold c in E.
  destruct (get_next_xprt cl st c) as [[[o1 cl1] st1]|] eqn:E1; [|done].
  destruct (get_next_xprt_in _ _ _ _ _ _ _ _ _ Ok Ck Pol E1) as (P1 & X1 & N1 & M1 & [(-> & -> & R1)|(i & -> & Hi & HL & EL & EK & Ok1)]).
  - destruct (has RPC_XPRT_FLAGS_REMOTE_PORT_IDX c) eqn:Hp.
    + fold (any_port c) in E.
      destruct (get_next_xprt_in _ _ _ _ _ _ _ _ _ Ok (any_port_ok c) P1 E)
        as (P2 & X2 & N2 & M2 & [(-> & -> & R2)|(i & -> & Hi & HL & EL & EK & Ok2)]).
      * left. split_and!; try done; congruence.
      * right. exists i. split; [done|]. split; [|by right]. unfold chose, ports_nr_ok. rewrite N2, N1. split_and!; try done. congruence.
    + injection E as <- <- <-. left. by rewrite (any_port_same c Hp).
  - injection E as <- <- <-. right. exists i. split; [done|]. split; [|by left]. unfold chose, ports_nr_ok. by rewrite N1.
Qed.

Lemma get_first_in o st' : main = cl_xprt cl ->
  rpc_task_get_first_xprt cl st = (o, st') -> o = Some main /\ chose cl st' main.
Proof.
  intros Em. unfold rpc_task_get_first_xprt. rewrite <- Em.
  destruct (ok_main _ _ _ _ Ok) as (HL & x & Hx & _ & _). pose proof (member_kref _ _ _ _ Ok main x HL Hx) as Hk.
  assert (exists st1, xprt_get main st = Some st1) as [st1 Eg].
  { unfold xprt_get. rewrite Hx, (proj2 (Z.eqb_neq _ _)) by lia. by eexists. }
  rewrite Eg. intros [= <- <-]. split; [done|]. destruct (ok_get _ _ _ _ Ok main st1 Eg) as [-> Ok1].
  split_and!; try done. destruct (ok_queue _ _ _ _ Ok1 main 1) as [H|H]; [|destruct (ok_counts _ _ _ _ Ok main); lia|lia| |done].
  - exists (x <| xp_kref := xp_kref x + 1 |>). unfold on_xprt, field_upd. simpl. by rewrite lookup_alter_eq, Hx.
  - revert H. apply ok_ext. intros j. lia.
Qed.
End Task.

Lemma main_in_ring main r q st : ok main r q st -> main ∈ ring st conf_default.
Proof.
  intros Ok. destruct (ok_main _ _ _ _ Ok) as (HL & x & Hx & _ & Ho). apply (ring_elem _ _ _ _ Ok); [done|]. split; [done|].
  pose proof (member_kref _ _ _ _ Ok main x HL Hx). unfold active, xprt_is_active. rewrite Hx, Ho. simpl.
  by rewrite (proj2 (Z.eqb_neq _ _)) by lia.
Qed.

(** A task is given a transport, the best there is. *)
Lemma choose_transport_in main r q st cl task task' cl' st' :
  ok main r q st -> ports_nr_ok cl -> client_policy st (cl_xpi cl) -> main = cl_xprt cl ->
  choose_transport task cl st = Some (task', cl', st') ->
  exists i, task' = task <| tk_xprt := Some i |> /\ chose main r q st cl cl' st' i /\ preferred cl st task i.
Proof.
  intros Ok Nr Pol Em. unfold choose_transport, preferred. destruct (RPC_TASK_NO_ROUND_ROBIN task).
  { destruct (rpc_task_get_first_xprt cl st) as [o st1] eqn:E. apply (get_first_in _ _ _ _ Ok) in E as [-> C]; [|done..].
    intros [= <- <- <-]. by exists main. }
  fold base_conf. destruct (rpc_task_try_xprt_selections task cl st base_conf) as [[[o1 cl1] st1]|] eqn:E1; [|done].
  destruct (try_selections_in _ _ _ _ Ok _ Nr Pol _ _ _ _ _ (or_introl eq_refl) E1)
    as [(-> & -> & R1 & A1 & P1 & X1 & N1 & M1)|(i & -> & C & Hi)].
  2:{ intros [= <- <- <-]. exists i. split_and!; [done..|]. tauto. }
  assert (ports_nr_ok cl1) as Nr1 by (unfold ports_nr_ok; by rewrite N1).
  assert (task_conf cl1 st task = task_conf cl st task) as Et by (unfold task_conf, port_conf; by rewrite N1, M1).
  destruct (rpc_task_try_xprt_selections task cl1 st _) as [[[o2 cl2] st2]|] eqn:E2; [|done].
  destruct (try_selections_in _ _ _ _ Ok _ Nr1 P1 _ _ _ _ _ (or_intror eq_refl) E2)
    as [(-> & -> & _ & _ & P2 & X2 & N2 & M2)|(i & -> & C & Hi)].
  2:{ exfalso. rewrite Et in Hi. destruct (ignore_congestion_ring cl st task) as [Q1 Q2]. rewrite Q1, Q2, R1, A1 in Hi.
      destruct Hi as [Hi|[_ Hi]]; by apply elem_of_nil in Hi. }
  destruct (get_next_xprt cl2 st conf_default) as [[[o3 cl3] st3]|] eqn:E3; [|done].
  destruct (get_next_xprt_in _ _ _ _ _ _ _ _ _ Ok conf_default_ok P2 E3)
    as (P3 & X3 & N3 & M3 & [(_ & _ & R3)|(i & -> & Hi & HL & EL & EK & Ok3)]).
  { pose proof (main_in_ring _ _ _ _ Ok) as C. rewrite R3 in C. by apply elem_of_nil in C. }
  intros [= <- <- <-]. exists i. split; [done|]. split; [|tauto].
  unfold chose, ports_nr_ok. rewrite N3, N2, N1. split_and!; try done. congruence.
Qed.

Lemma get_next_xprt_total main r q st cl conf :
  ok main r q st -> client_policy st (cl_xpi cl) -> conf_ok conf ->
  cf_flags conf <> 0 \/ (conf = conf_default /\ xps_queuelen (xps st) < 2 ^ 32) -> exists x, get_next_xprt cl st conf = Some x.
Proof.
  intros Ok Pol Ck Hb. unfold get_next_xprt. destruct (get_next_total _ _ _ _ Ok _ Pol conf Ck Hb) as [[[o xpi] st'] ->]. by eexists.
Qed.

Lemma try_selections_total main r q st cl task base :
  ok main r q st -> ports_nr_ok cl -> client_policy st (cl_xpi cl) ->
  base = base_conf \/ base = with_flag RPC_XPRT_FLAGS_IGNORE_CONGESTION base_conf ->
  exists x, rpc_task_try_xprt_selections task cl st base = Some x.
Proof.
  intros Ok Nr Pol Hb. destruct (task_conf_cases cl st task base Nr Hb) as (Ck & F1 & F2).
  unfold rpc_task_try_xprt_selections. fold (task_conf cl st task base). cbv zeta. set (c := task_conf cl st task base) in *.
  destruct (get_next_xprt_total _ _ _ _ cl c Ok Pol Ck (or_introl F1)) as [[[o1 cl1] st1] E1]. rewrite E1.
  destruct o1 as [i|]; [by eexists|]. destruct (has _ c); [|by eexists]. fold (any_port c).
  destruct (get_next_xprt_in _ _ _ _ _ _ _ _ _ Ok Ck Pol E1) as (P1 & _ & _ & _ & [(_ & -> & _)|(i & [=] & _)]).
  apply (get_next_xprt_total _ _ _ _ cl1 _ Ok P1 (any_port_ok c)). by left.
Qed.

(** The choice always comes to an end. *)
Lemma choose_transport_total main r q st cl task :
  ok main r q st -> ports_nr_ok cl -> client_policy st (cl_xpi cl) -> xps_queuelen (xps st) < 2 ^ 32 ->
  exists x, choose_transport task cl st = Some x.
Proof.
  intros Ok Nr Pol Qb. unfold choose_transport. destruct (RPC_TASK_NO_ROUND_ROBIN task).
  { destruct (rpc_task_get_first_xprt cl st). by eexists. }
  fold base_conf. destruct (try_selections_total _ _ _ _ cl task base_conf Ok Nr Pol (or_introl eq_refl)) as [[[o1 cl1] st1] E1].
  rewrite E1. destruct o1 as [i|]; [by eexists|].
  destruct (try_selections_in _ _ _ _ Ok _ Nr Pol _ _ _ _ _ (or_introl eq_refl) E1)
    as [(_ & -> & _ & _ & P1 & _ & N1 & _)|(i & [=] & _)].
  assert (ports_nr_ok cl1) as Nr1 by (unfold ports_nr_ok; by rewrite N1).
  destruct (try_selections_total _ _ _ _ cl1 task _ Ok Nr1 P1 (or_intror eq_refl)) as [[[o2 cl2] st2] E2]. rewrite E2.
  destruct o2 as [i|]; [by eexists|].
  destruct (try_selections_in _ _ _ _ Ok _ Nr1 P1 _ _ _ _ _ (or_intror eq_refl) E2)
    as [(_ & -> & _ & _ & P2 & _)|(i & [=] & _)].
  destruct (get_next_xprt_total _ _ _ _ cl2 conf_default Ok P2 conf_default_ok ltac:(by right)) as [[[o3 cl3] st3] ->]. by eexists.
Qed.
