(* ===== verification/MultipathTheorems.v ===== *)
(** * Multipath: a client at work

    The switch of a client with its tasks as a transition system, its invariant, and
    the properties of the choice of a transport. *)

From S2P Require Import Prelude Xdr Mesh Multipath MultipathInv MultipathChoice.
From stdpp Require Import gmap.
#[local] Open Scope Z_scope.

(** ** A client and its tasks *)

Record world := mk_world { w_st : mp; w_cl : rpc_clnt; w_tasks : gmap Z mp_task }.

Definition users (ts : gmap Z mp_task) (i : Z) : Z :=
  Z.of_nat (size (filter (fun kt => tk_xprt (snd kt) = Some i) ts)).

(** A transport as [xprt_create_transport] returns it. *)
Definition fresh_xprt (x : rpc_xprt) : Prop :=
  xp_kref x = 1 /\ queuelen x = 0 /\ xp_main x = false /\ XPRT_OFFLINE x = false /\ XPRT_REMOVE x = false /\
  0 <= xp_port_idx x < XPRT_MAX_PORTS.

(** What connecting, failing over and queueing change. *)
Definition set_state (div rec con : bool) (w : Z) (prio : list Z) (x : rpc_xprt) : rpc_xprt :=
  x <| XPRT_N_DIVERSION := div |> <| XPRT_N_RECOVERY := rec |> <| XPRT_CONNECTED := con |> <| waiting := w |>
    <| gpu_priority := prio |>.

Inductive step : world -> world -> Prop :=
| step_add st cl ts i x setup ret st' :
    xprts st !! i = None -> fresh_xprt x -> zlen (xps_xprt_list (xps st)) + 1 < 2 ^ 32 - 1 ->
    rpc_clnt_add_xprt i (Ok x) setup cl st = (ret, st') -> step (mk_world st cl ts) (mk_world st' cl ts)
| step_start st cl ts t task task' cl' st' :
    ts !! t = None -> tk_xprt task = None ->
    rpc_task_set_transport task cl st = Some (task', cl', st') ->
    step (mk_world st cl ts) (mk_world st' cl' (<[t := task']> ts))
| step_again st cl ts t task task' cl' st' :
    ts !! t = Some task -> rpc_task_set_transport task cl st = Some (task', cl', st') ->
    step (mk_world st cl ts) (mk_world st' cl' (<[t := task']> ts))
| step_end st cl ts t task task' st' :
    ts !! t = Some task -> rpc_task_release_transport task st = (task', st') ->
    step (mk_world st cl ts) (mk_world st' cl (delete t ts))
| step_connect_failed st cl ts t task task' st' :
    ts !! t = Some task -> connect_failed task st = (task', st') ->
    step (mk_world st cl ts) (mk_world st' cl (<[t := task']> ts))
| step_sysfs st cl ts i count cmd intr ret st' :
    rpc_sysfs_xprt_state_change i count cmd intr st = (ret, st') -> step (mk_world st cl ts) (mk_world st' cl ts)
| step_state st cl ts i div rec con w prio :
    step (mk_world st cl ts) (mk_world (on_xprt i (set_state div rec con w prio) st) cl ts)
| step_roundrobin st cl ts :
    step (mk_world st cl ts) (mk_world (rpc_xprt_switch_set_roundrobin st) cl ts).

(** The invariant: besides the switch, the tasks and the client hold references, and
    each task is counted in the queue of its transport. *)
Record wf (w : world) : Prop := mk_wf {
  wf_ok : ok (cl_xprt (w_cl w)) (fun i => users (w_tasks w) i + delta (cl_xprt (w_cl w)) i) (users (w_tasks w)) (w_st w);
  wf_nr : ports_nr_ok (w_cl w);
  wf_policy : client_policy (w_st w) (cl_xpi (w_cl w));
  wf_users : forall i, i ∉ xps_xprt_list (xps (w_st w)) -> users (w_tasks w) i = 0;
  wf_kref : 1 <= xps_kref (xps (w_st w));
}.

Lemma users_delete ts t task i : ts !! t = Some task ->
  users ts i = users (delete t ts) i + (if decide (tk_xprt task = Some i) then 1 else 0).
Proof.
  intros Ht. unfold users. rewrite <- (insert_delete_id ts t task) at 1 by done.
  destruct (decide (tk_xprt task = Some i)) as [Y|N].
  - rewrite map_filter_insert_True by done. rewrite map_size_insert_None; [lia|].
    apply map_lookup_filter_None. left. apply lookup_delete_eq.
  - rewrite map_filter_insert_False by done. rewrite delete_delete_eq. lia.
Qed.

Lemma users_insert_new ts t task i : ts !! t = None ->
  users (<[t := task]> ts) i = users ts i + (if decide (tk_xprt task = Some i) then 1 else 0).
Proof.
  intros Ht. rewrite (users_delete _ t task i) by apply lookup_insert_eq. by rewrite delete_insert_id.
Qed.

Lemma users_insert ts t old task i : ts !! t = Some old ->
  users (<[t := task]> ts) i = users ts i - (if decide (tk_xprt old = Some i) then 1 else 0) + (if decide (tk_xprt task = Some i) then 1 else 0).
Proof.
  intros Ht. rewrite (users_delete _ t task i) by apply lookup_insert_eq. rewrite delete_insert_eq.
  rewrite (users_delete ts t old i Ht). lia.
Qed.

Lemma users_nonneg ts i : 0 <= users ts i.
Proof. unfold users. lia. Qed.

Lemma some_delta i j : (if decide (Some i = Some j) then 1 else 0) = delta i j.
Proof. unfold delta. destruct (decide (i = j)) as [->|N]; [by rewrite decide_True|]. rewrite decide_False; congruence. Qed.

(** ** Each step keeps the invariant *)

Lemma ok_less_users main r q q' st : (forall i, 0 <= q' i <= q i) -> ok main r q st -> ok main r q' st.
Proof.
  intros E [h1 h2 h3 h4 h5 h6 h7 h8 h9 h10 h11]. split; try done.
  - intros i x Hx. destruct (h9 i x Hx) as (? & ? & ?). pose proof (E i). split_and!; try done. lia.
  - intros i. destruct (h10 i), (E i). lia.
Qed.

Lemma ok_switch main r q st f :
  (forall s, xps_xprt_list (f s) = xps_xprt_list s /\ xps_nxprts (f s) = xps_nxprts s /\ xps_nactive (f s) = xps_nactive s /\
     xps_queuelen (f s) = xps_queuelen s /\ xps_net (f s) = xps_net s /\
     xps_remoteport_xprt_list (f s) = xps_remoteport_xprt_list s) ->
  ok main r q st -> ok main r q (on_xps f st).
Proof.
  intros E [h1 h2 h3 h4 h5 h6 h7 h8 h9 h10 h11]. destruct (E (xps st)) as (E1 & E2 & E3 & E4 & E5 & E6).
  split; cbn; rewrite ?E1, ?E2, ?E3, ?E4, ?E5, ?E6; try done.
  intros i x Hx. unfold in_list. cbn. rewrite E1. by apply h9.
Qed.

Lemma ok_ref_switch main r q st k : ok main r q st -> ok main r q (on_xps (fun s => s <| xps_kref := xps_kref s + k |>) st).
Proof. apply ok_switch. done. Qed.

(** Putting the reference that [xprt_switch_get] took. *)
Lemma put_switch st : 1 <= xps_kref (xps st) ->
  xprt_switch_put (on_xps (fun s => s <| xps_kref := xps_kref s + 1 |>) st) = st.
Proof.
  intros H. unfold xprt_switch_put. cbn. rewrite (proj2 (Z.eqb_neq _ 0)) by lia.
  destruct st as [x [k n a q l p m o]]. unfold on_xps, field_upd. cbn. do 2 f_equal. lia.
Qed.

Lemma add_cases i x st : xprts st !! i = Some x -> xp_kref x <> 0 ->
  rpc_xprt_switch_add_xprt i st = st \/
  (xps_xprt_list (xps (rpc_xprt_switch_add_xprt i st)) = xps_xprt_list (xps st) ++ [i] /\
   xps_kref (xps (rpc_xprt_switch_add_xprt i st)) = xps_kref (xps st) /\
   xps_iter_ops (xps (rpc_xprt_switch_add_xprt i st)) = xps_iter_ops (xps st) /\
   exists y, xprts (rpc_xprt_switch_add_xprt i st) !! i = Some y).
Proof.
  intros Hx Hk. unfold rpc_xprt_switch_add_xprt. rewrite Hx. destruct (match xps_net (xps st) with Some _ => _ | None => _ end); [right|by left].
  unfold xprt_switch_add_xprt_locked, xprt_get. rewrite Hx, (proj2 (Z.eqb_neq _ 0)) by done. cbn. rewrite lookup_alter_eq, Hx. cbn.
  rewrite lookup_alter_eq, Hx. split_and!; try done. by eexists.
Qed.

Section Preserve.
Context (st : mp) (cl : rpc_clnt) (ts : gmap Z mp_task) (W : wf (mk_world st cl ts)).
Local Abbreviation main := (cl_xprt cl).
Local Abbreviation refs := (fun i => users ts i + delta main i).

Lemma user_member t task i : ts !! t = Some task -> tk_xprt task = Some i -> 1 <= users ts i /\ i ∈ xps_xprt_list (xps st).
Proof.
  intros Ht Hi. destruct W as [_ _ _ Wu _]. simpl in *.
  assert (1 <= users ts i) as Hu.
  { rewrite (users_delete ts t task i Ht), decide_True by done. pose proof (users_nonneg (delete t ts) i). lia. }
  split; [done|]. destruct (decide (i ∈ xps_xprt_list (xps st))) as [|N]; [done|]. specialize (Wu i N). lia.
Qed.

Lemma wf_start t task task' cl' st' :
  ts !! t = None -> tk_xprt task = None -> rpc_task_set_transport task cl st = Some (task', cl', st') ->
  wf (mk_world st' cl' (<[t := task']> ts)).
Proof.
  intros Ht Hx. unfold rpc_task_set_transport. rewrite Hx. intros E. destruct W as [Wo Wn Wp Wu Wk]. simpl in *.
  destruct (choose_transport_in _ _ _ _ _ _ _ _ _ Wo Wn Wp eq_refl E) as (i & -> & (C1 & C2 & C3 & C4 & C5 & C6 & C7) & _).
  split; simpl; rewrite ?C2, ?C5, ?C6; try done.
  - revert C7. apply ok_ext. intros j. rewrite !users_insert_new by done. cbn. rewrite some_delta. lia.
  - intros j Hj. rewrite users_insert_new by done. cbn. rewrite some_delta, Wu, delta_ne by congruence. done.
Qed.

Lemma wf_again t task task' cl' st' :
  ts !! t = Some task -> rpc_task_set_transport task cl st = Some (task', cl', st') ->
  wf (mk_world st' cl' (<[t := task']> ts)).
Proof.
  intros Ht. unfold rpc_task_set_transport. destruct W as [Wo Wn Wp Wu Wk]. simpl in *. destruct (tk_xprt task) as [i0|] eqn:Hx.
  - destruct (negb (is_offline st i0 && RPC_TASK_MOVEABLE task)).
    { intros [= <- <- <-]. rewrite insert_id by done. done. }
    intros E. destruct (user_member t task i0 Ht Hx) as [U1 HL0].
    destruct (ok_member _ _ _ _ Wo i0 HL0) as (x & Hx0 & _).
    pose proof (delta_eq i0) as D1. assert (0 <= delta main i0) by (unfold delta; destruct (decide _); lia).
    pose proof (ok_put _ _ _ _ Wo i0 ltac:(by exists x) ltac:(simpl; lia)) as Op.
    apply (ok_less_users _ _ _ (fun j => users ts j - delta i0 j)) in Op.
    2:{ intros j. unfold delta. destruct (decide (i0 = j)) as [<-|]; [lia|]. pose proof (users_nonneg ts j). lia. }
    destruct (choose_transport_in _ _ _ _ _ _ _ _ _ Op Wn Wp eq_refl E) as (i & -> & (C1 & C2 & C3 & C4 & C5 & C6 & C7) & _).
    split; simpl; rewrite ?C2, ?C5, ?C6; try done.
    + revert C7. apply ok_ext. intros j. rewrite !(users_insert _ _ task) by done. cbn. rewrite Hx, !some_delta. lia.
    + intros j Hj. change (j ∉ xps_xprt_list (xps st)) in Hj. change (i ∈ xps_xprt_list (xps st)) in C4.
      rewrite (users_insert _ _ task) by done. cbn. rewrite Hx, !some_delta, Wu, !delta_ne by congruence. done.
  - intros E. destruct (choose_transport_in _ _ _ _ _ _ _ _ _ Wo Wn Wp eq_refl E) as (i & -> & (C1 & C2 & C3 & C4 & C5 & C6 & C7) & _).
    split; simpl; rewrite ?C2, ?C5, ?C6; try done.
    + revert C7. apply ok_ext. intros j. rewrite !(users_insert _ _ task) by done. cbn. rewrite Hx, some_delta, decide_False by done. lia.
    + intros j Hj. rewrite (users_insert _ _ task) by done. cbn. rewrite Hx, some_delta, decide_False, Wu, delta_ne by congruence. done.
Qed.

Lemma wf_end t task task' st' :
  ts !! t = Some task -> rpc_task_release_transport task st = (task', st') -> wf (mk_world st' cl (delete t ts)).
Proof.
  intros Ht. unfold rpc_task_release_transport. pose proof W as [Wo Wn Wp Wu Wk]. simpl in *.
  assert (forall j, users (delete t ts) j = users ts j - (if decide (tk_xprt task = Some j) then 1 else 0)) as Eu.
  { intros j. rewrite (users_delete ts t task j Ht). lia. }
  destruct (tk_xprt task) as [i|] eqn:Hx; intros [= <- <-].
  - destruct (user_member t task i Ht Hx) as [U1 HL]. destruct (ok_member _ _ _ _ Wo i HL) as (x & Hxi & _).
    assert (0 <= delta main i) by (unfold delta; destruct (decide _); lia). pose proof (delta_eq i) as D1.
    destruct (ok_queue _ _ _ _ Wo i (-1)) as [Oq|N]; [by exists x|simpl; lia|lia| |done].
    assert (1 <= users ts i + delta main i) as R1 by lia.
    apply (ok_put _ _ _ _ Oq i) in R1 as Op; [|cbn; rewrite lookup_alter_eq, Hxi; by eexists].
    split; simpl; try done.
    + revert Op. apply ok_ext. intros j. rewrite Eu, some_delta. lia.
    + intros j Hj. rewrite Eu, some_delta, Wu, delta_ne by congruence. done.
  - split; simpl; try done.
    + revert Wo. apply ok_ext. intros j. rewrite Eu, decide_False by done. lia.
    + intros j Hj. rewrite Eu, decide_False, Wu by done. done.
Qed.

(** The transport of a task is not the client's main one when it is being removed. *)
Lemma removing_not_main i x : xprts st !! i = Some x -> XPRT_REMOVE x = true -> i <> main.
Proof.
  intros Hx Hr ->. destruct W as [Wo _ _ _ _]. simpl in *.
  destruct (ok_xprt _ _ _ _ Wo _ _ Hx) as (_ & _ & Hm). destruct (ok_main _ _ _ _ Wo) as (_ & y & Hy & Hmy & _).
  rewrite Hx in Hy. injection Hy as <-. rewrite Hm in Hmy; done.
Qed.

Lemma wf_connect_failed t task task' st' :
  ts !! t = Some task -> connect_failed task st = (task', st') -> wf (mk_world st' cl (<[t := task']> ts)).
Proof.
  intros Ht. unfold connect_failed. destruct (tk_xprt task) as [i|] eqn:Hx.
  2:{ intros [= <- <-]. rewrite insert_id by done. done. }
  destruct (_ && _ && _ && _) eqn:Ec; [|intros [= <- <-]; rewrite insert_id by done; done].
  destruct (user_member t task i Ht Hx) as [U1 HL]. pose proof W as [Wo Wn Wp Wu Wk]. simpl in *.
  destruct (ok_member _ _ _ _ Wo i HL) as (x & Hxi & _). rewrite Hxi in Ec.
  apply andb_true_iff in Ec as [[_ Hr]%andb_true_iff _]. pose proof (removing_not_main i x Hxi Hr) as Nm.
  assert (0 <= delta main i) by (unfold delta; destruct (decide _); lia). pose proof (delta_eq i) as D1.
  assert (ok main refs (fun j => users ts j - delta i j) (on_xprt i (fun x => x <| queuelen := queuelen x - 1 |>) st)) as Oq.
  { rewrite <- (on_xps_0 st). pose proof (ok_xprt _ _ _ _ Wo i x Hxi) as (Hk & Hq & Hm).
    apply (ok_change _ _ _ _ Wo i _ (-1) 0 _ _ x); try done; cbn; rewrite ?D1; try lia.
    - intros j Hj. rewrite (delta_ne i) by done. lia.
    - by rewrite decide_True. }
  cbv zeta. set (st1 := on_xprt i _ st) in *.
  assert (xprts st1 !! i = Some (x <| queuelen := queuelen x - 1 |>)) as L1.
  { unfold st1, on_xprt, field_upd. cbn. by rewrite lookup_alter_eq, Hxi. }
  rewrite lookup_alter_eq, Hxi. cbn -[xprt_put rpc_xprt_switch_remove_xprt].
  assert (forall j, users (<[t := task <| tk_xprt := None |>]> ts) j = users ts j - delta i j) as Eu.
  { intros j. rewrite (users_insert _ _ task) by done. cbn. rewrite Hx, some_delta, (decide_False (P := None = Some j)) by done. lia. }
  pose proof (ok_xprt _ _ _ _ Oq i _ L1) as (_ & Hq1 & _). cbn in Hq1. rewrite D1 in Hq1.
  intros [= <- <-]. case_match eqn:Ez; zbool.
  - pose proof (ok_remove _ _ _ _ Oq i HL Nm) as Or.
    assert (xps_xprt_list (xps (rpc_xprt_switch_remove_xprt i st1)) = list_del i (xps_xprt_list (xps st))) as EL.
    { unfold rpc_xprt_switch_remove_xprt. rewrite (remove_locked_nf _ _ _ _ Oq i _ HL Nm L1). done. }
    assert (xps_kref (xps (rpc_xprt_switch_remove_xprt i st1)) = xps_kref (xps st) /\
            xps_iter_ops (xps (rpc_xprt_switch_remove_xprt i st1)) = xps_iter_ops (xps st)) as [EK EI].
    { unfold rpc_xprt_switch_remove_xprt. rewrite (remove_locked_nf _ _ _ _ Oq i _ HL Nm L1). done. }
    pose proof (ok_put _ _ _ _ Or i) as Op. specialize (Op ltac:(unfold rpc_xprt_switch_remove_xprt, xprt_put;
      rewrite (remove_locked_nf _ _ _ _ Oq i _ HL Nm L1); cbn; rewrite !lookup_alter_eq, Hxi; by eexists) ltac:(simpl; lia)).
    split; cbn [w_st w_cl w_tasks]; try done.
    + revert Op. apply ok_ext. intros j. rewrite Eu. lia.
    + destruct Wp as (? & ? & ?). split_and!; try done. change (xps_iter_ops (xps (rpc_xprt_switch_remove_xprt i st1)) <> rpc_xprt_iter_listall). by rewrite EI.
    + intros j Hj. change (j ∉ xps_xprt_list (xps (rpc_xprt_switch_remove_xprt i st1))) in Hj. rewrite EL, list_del_elem in Hj. rewrite Eu.
      destruct (decide (j = i)) as [->|Ne]; [lia|]. rewrite delta_ne by done. rewrite Wu; [done|]. tauto.
    + change (1 <= xps_kref (xps (rpc_xprt_switch_remove_xprt i st1))). lia.
  - pose proof (ok_put _ _ _ _ Oq i ltac:(by eexists) ltac:(simpl; lia)) as Op.
    split; cbn [w_st w_cl w_tasks]; try done.
    + revert Op. apply ok_ext. intros j. rewrite Eu. lia.
    + intros j Hj. change (j ∉ xps_xprt_list (xps st)) in Hj. rewrite Eu, Wu, delta_ne by congruence. done.
Qed.

(** The way out of the sysfs handler. *)
Lemma wf_out_put i st2 :
  ok main (fun j => refs j + delta i j) (users ts) st2 -> (exists x, xprts st2 !! i = Some x) ->
  xps_kref (xps st2) = xps_kref (xps st) + 1 -> xps_iter_ops (xps st2) <> rpc_xprt_iter_listall ->
  (forall j, j ∉ xps_xprt_list (xps st2) -> users ts j = 0) ->
  wf (mk_world (xprt_switch_put (xprt_put i st2)) cl ts).
Proof.
  intros O Hx Hk Hi Hu. destruct W as [Wo Wn Wp Wu Wk]. simpl in *.
  pose proof (ok_counts _ _ _ _ Wo i) as [R0 _]. pose proof (delta_eq i) as D1.
  pose proof (ok_put _ _ _ _ O i Hx ltac:(simpl; lia)) as Op.
  assert (ok main refs (users ts) (xprt_put i st2)) as Op' by (revert Op; apply ok_ext; intros j; lia).
  assert (xprt_switch_put (xprt_put i st2) = on_xps (fun s => s <| xps_kref := xps_kref s + -1 |>) (xprt_put i st2)) as ->.
  { unfold xprt_switch_put. cbn. rewrite (proj2 (Z.eqb_neq _ 0)) by lia. done. }
  split; simpl; try done.
  - by apply ok_ref_switch.
  - by destruct Wp as (? & ? & ?).
  - lia.
Qed.

Lemma wf_sysfs i count cmd intr ret st' :
  rpc_sysfs_xprt_state_change i count cmd intr st = (ret, st') -> wf (mk_world st' cl ts).
Proof.
  pose proof W as [Wo Wn Wp Wu Wk]. simpl in *. unfold rpc_sysfs_xprt_state_change.
  assert (xprt_switch_get st = Some (on_xps (fun s => s <| xps_kref := xps_kref s + 1 |>) st)) as Eg.
  { unfold xprt_switch_get. rewrite (proj2 (Z.eqb_neq _ 0)); [done|lia]. }
  rewrite Eg. destruct (xprt_get i st) as [st1|] eqn:E1.
  2:{ intros [= <- <-]. by rewrite put_switch. }
  pose proof (ok_get _ _ _ _ Wo i st1 E1) as [Es O1].
  unfold xprt_get in E1. destruct (xprts st !! i) as [x|] eqn:Hx; [|done]. destruct (Z.eqb_spec (xp_kref x) 0) as [|Kz]; [done|]. clear E1.
  pose proof (ok_xprt _ _ _ _ Wo i x Hx) as (Hk & Hq & Hrm). pose proof (ok_main _ _ _ _ Wo) as (Mm & y & Hy & My & _).
  assert (i ∈ xps_xprt_list (xps st)) as HL.
  { destruct (decide (i ∈ xps_xprt_list (xps st))) as [|N]; [done|]. exfalso. apply Kz. rewrite Hk. unfold in_list.
    rewrite decide_False, (Wu i N), delta_ne by congruence. done. }
  cbv zeta. set (st2 := on_xps _ st1).
  assert (ok main (fun j => refs j + delta i j) (users ts) st2) as O2 by by apply ok_ref_switch.
  set (x2 := x <| xp_kref := xp_kref x + 1 |>).
  assert (xprts st2 !! i = Some x2) as H2 by (unfold st2; rewrite Es; cbn; by rewrite lookup_alter_eq, Hx).
  assert (xps_xprt_list (xps st2) = xps_xprt_list (xps st)) as L2 by (unfold st2; by rewrite Es).
  assert (xps_kref (xps st2) = xps_kref (xps st) + 1 /\ xps_iter_ops (xps st2) <> rpc_xprt_iter_listall) as [K2 I2].
  { unfold st2. rewrite Es. by destruct Wp as (_ & _ & ?). }
  rewrite H2. clearbody st2. clear Es O1 Eg st1.
  assert (wf (mk_world (xprt_switch_put (xprt_put i st2)) cl ts)) as W2.
  { apply wf_out_put; try done; [by exists x2|]. by rewrite L2. }
  destruct cmd; [..|intros [= <- <-]; exact W2]; (destruct intr; [intros [= <- <-]; exact W2|]);
    cbn [fst snd]; (destruct (xp_main x2) eqn:Em; [intros [= <- <-]; exact W2|]); change (xp_main x = false) in Em.
  - destruct (negb (XPRT_OFFLINE x2)) eqn:Eo; intros [= <- <-]; [|exact W2]. apply negb_true_iff in Eo.
    apply wf_out_put; cbn; try done.
    + apply (ok_set_offline _ _ _ _ O2 i x2 true); try done. by rewrite L2.
    + rewrite lookup_alter_eq, H2. by eexists.
    + by rewrite L2.
  - destruct (XPRT_OFFLINE x2) eqn:Eo; intros [= <- <-]; [|exact W2].
    apply wf_out_put; cbn; try done.
    + apply (ok_set_offline _ _ _ _ O2 i x2 false); try done. by rewrite L2.
    + rewrite lookup_alter_eq, H2. by eexists.
    + by rewrite L2.
  - destruct (XPRT_OFFLINE x2) eqn:Eo; [|intros [= <- <-]; exact W2].
    destruct (negb (XPRT_REMOVE x2)) eqn:Er; [|intros [= <- <-]; exact W2].
    assert (ok main (fun j => refs j + delta i j) (users ts) (on_xprt i (fun x => x <| XPRT_REMOVE := true |>) st2)) as O3.
    { by apply (ok_flags _ _ _ _ O2 i _ x2). }
    set (st3 := on_xprt i _ st2) in *. assert (xprts st3 !! i = Some (x2 <| XPRT_REMOVE := true |>)) as H3 by (unfold st3; cbn; by rewrite lookup_alter_eq, H2).
    assert (i ∈ xps_xprt_list (xps st3)) as HL3 by (change (i ∈ xps_xprt_list (xps st2)); by rewrite L2).
    assert (i <> main) as Nm by congruence.
    destruct (_ && _ && _) eqn:Ez; intros [= <- <-].
    + apply andb_true_iff in Ez as [_ Ez%Z.eqb_eq]. change (queuelen x = 0) in Ez.
      pose proof (ok_remove _ _ _ _ O3 i HL3 Nm) as O4.
      unfold rpc_xprt_switch_remove_xprt in *. rewrite (remove_locked_nf _ _ _ _ O3 i _ HL3 Nm H3) in *.
      apply wf_out_put; try done.
      * cbn. rewrite !lookup_alter_eq, H2. by eexists.
      * intros j Hj. change (j ∉ list_del i (xps_xprt_list (xps st2))) in Hj. rewrite L2, list_del_elem in Hj.
        destruct (decide (j = i)) as [->|]; [pose proof (users_nonneg ts i); lia|]. apply Wu. tauto.
    + apply wf_out_put; try done; [by eexists|]. change (xps_xprt_list (xps st3)) with (xps_xprt_list (xps st2)). by rewrite L2.
Qed.

Lemma wf_state i div rec con w prio : wf (mk_world (on_xprt i (set_state div rec con w prio) st) cl ts).
Proof.
  destruct W as [Wo Wn Wp Wu Wk]. simpl in *. split; try done.
  destruct (xprts st !! i) as [x|] eqn:Hx.
  - apply (ok_flags _ _ _ _ Wo i _ x); try done. destruct (ok_xprt _ _ _ _ Wo i x Hx) as (_ & _ & ?). done.
  - simpl. assert (on_xprt i (set_state div rec con w prio) st = st) as ->; [|done].
    destruct st as [m s]. unfold on_xprt, field_upd. cbn in *. f_equal. apply map_eq. intros j.
    destruct (decide (i = j)) as [<-|]; [by rewrite lookup_alter_eq, Hx|by rewrite lookup_alter_ne].
Qed.

Lemma wf_roundrobin : wf (mk_world (rpc_xprt_switch_set_roundrobin st) cl ts).
Proof.
  destruct W as [Wo Wn Wp Wu Wk]. simpl in *. split; try done.
  - simpl. by apply ok_switch.
  - destruct Wp as (? & ? & ?). done.
Qed.

(** A transport nobody knows of yet. *)
Lemma ok_fresh i x : xprts st !! i = None -> fresh_xprt x ->
  ok main (fun j => refs j + delta i j) (users ts) (st <| xprts := <[i := x]> (xprts st) |>).
Proof.
  intros Hi (F1 & F2 & F3 & F4 & F5 & F6). pose proof W as [Wo Wn Wp Wu Wk]. simpl in *.
  pose proof Wo as [o1 o2 o3 o4 o5 o6 o7 o8 o9 o10 [o11 o12]].
  assert (i ∉ xps_xprt_list (xps st)) as Ni. { intros C. destruct (o5 i C) as (y & Hy & _). congruence. }
  set (st' := st <| xprts := _ |>).
  assert (xprts st' !! i = Some x) as Li by (unfold st', field_upd; cbn; apply lookup_insert_eq).
  assert (forall j, j <> i -> xprts st' !! j = xprts st !! j) as Lo.
  { intros j Hj. unfold st', field_upd. cbn. by rewrite lookup_insert_ne. }
  assert (forall j, j ∈ xps_xprt_list (xps st) -> xprts st' !! j = xprts st !! j) as LL by (intros j Hj; apply Lo; congruence).
  split; try done.
  - change (xps_nactive (xps st')) with (xps_nactive (xps st)). rewrite o4. f_equal. apply bfilter_ext. intros j Hj.
    unfold is_offline. by rewrite (LL j Hj).
  - intros j Hj. rewrite (LL j Hj). by apply o5.
  - intros p l Hp. rewrite (o7 p l Hp). apply bfilter_ext. intros j Hj. unfold on_port_idx. by rewrite (LL j Hj).
  - rewrite (sumq_ext st); [done|]. intros j. unfold qlen. destruct (decide (j = i)) as [->|]; [by rewrite Li, Hi|by rewrite Lo].
  - intros j y Hj. destruct (decide (j = i)) as [->|Ne].
    + rewrite Li in Hj. injection Hj as <-. rewrite (Wu i Ni), F1, F2, F5, (delta_eq i), delta_ne by congruence. unfold in_list.
      rewrite decide_False by done. done.
    + rewrite Lo in Hj by done. rewrite (delta_ne i) by done. rewrite Z.add_0_r. by apply o9.
  - intros j. destruct (o10 j). unfold delta at 2. destruct (decide _); lia.
  - split; [done|]. rewrite (LL _ o11). done.
Qed.

Lemma wf_add i x setup ret st' :
  xprts st !! i = None -> fresh_xprt x -> zlen (xps_xprt_list (xps st)) + 1 < 2 ^ 32 - 1 ->
  rpc_clnt_add_xprt i (Ok x) setup cl st = (ret, st') -> wf (mk_world st' cl ts).
Proof.
  intros Hi Fx Hb. pose proof W as [Wo Wn Wp Wu Wk]. simpl in *. unfold rpc_clnt_add_xprt.
  assert (xprt_switch_get st = Some (on_xps (fun s => s <| xps_kref := xps_kref s + 1 |>) st)) as ->.
  { unfold xprt_switch_get. rewrite (proj2 (Z.eqb_neq _ 0)); [done|lia]. }
  destruct (xprt_iter_xprt st (cl_xpi cl) conf_default); [|intros [= <- <-]; by rewrite put_switch].
  cbv zeta. pose proof (ok_fresh i x Hi Fx) as Of.
  set (st2 := rpc_xprt_switch_set_roundrobin _).
  assert (ok main (fun j => refs j + delta i j) (users ts) st2) as O2.
  { change st2 with (on_xps (fun s => s <| xps_kref := xps_kref s + 1 |> <| xps_iter_ops := rpc_xprt_iter_roundrobin |>)
                       (st <| xprts := <[i := x]> (xprts st) |>)). by apply ok_switch. }
  assert (xprts st2 !! i = Some x) as H2 by (cbn; apply lookup_insert_eq).
  assert (i ∉ xps_xprt_list (xps st)) as Ni. { intros C. destruct (ok_member _ _ _ _ Wo i C) as (y & Hy & _). congruence. }
  intros [= <- <-]. destruct Fx as (F1 & F2 & F3 & F4 & F5 & F6).
  destruct (setup =? 0); [|apply wf_out_put; try done; by eexists].
  assert (ok main (fun j => refs j + delta i j) (users ts) (rpc_xprt_switch_add_xprt i st2)) as O3.
  { apply (ok_add _ _ _ _ O2 i x); try done. lia. }
  destruct (add_cases i x st2 H2 ltac:(lia)) as [E|(EL & EK & EI & EX)]; [rewrite E; apply wf_out_put; try done; by eexists|].
  apply wf_out_put; [done|done|by rewrite EK|by rewrite EI|]. rewrite EL. intros j Hj. apply Wu. rewrite elem_of_app in Hj. tauto.
Qed.
End Preserve.

(** ** The life of a client *)

(** A client whose switch was made for its first transport. *)
Definition start_world (i : Z) (x : rpc_xprt) (nr : option Z) (mdconnect : Z) : option world :=
  match xprt_switch_alloc false i {[ i := x ]} with
  | None => None
  | Some st => Some (mk_world st (mk_clnt i (mk_xpi true None None) nr mdconnect) ∅)
  end.

Inductive reachable (nr : option Z) (md : Z) : world -> Prop :=
| reach_start i x w :
    fresh_xprt (x <| xp_main := false |>) -> xp_main x = true -> start_world i x nr md = Some w -> reachable nr md w
| reach_step w w' : reachable nr md w -> step w w' -> reachable nr md w'.

Lemma wf_start_world i x nr md w :
  fresh_xprt (x <| xp_main := false |>) -> xp_main x = true -> (forall n, nr = Some n -> n <= XPRT_MAX_PORTS) ->
  start_world i x nr md = Some w -> wf w.
Proof.
  intros (F1 & F2 & _ & F4 & F5 & F6) Hm Hn. cbn in F1, F2, F4, F5, F6.
  unfold start_world, xprt_switch_alloc, xprt_switch_add_xprt_locked, xprt_get. set (ps := replicate _ _).
  assert (forall p l, ps !! p = Some l -> l = []) as Hps by by intros p l [-> _]%lookup_replicate.
  assert (zlen ps = XPRT_MAX_PORTS) as Hpl by done. clearbody ps. cbn [xprts].
  rewrite lookup_singleton_eq, F1. cbn [Z.eqb]. unfold on_xprt, on_xps. cbn [xprts xps field_upd].
  set (m := alter _ i _). assert (m !! i = Some (x <| xp_kref := xp_kref x + 1 |>)) as Li.
  { unfold m. cbn. by rewrite lookup_alter_eq, lookup_singleton_eq. }
  assert (forall j, j <> i -> m !! j = None) as Lo.
  { intros j Hj. unfold m. cbn. by rewrite lookup_alter_ne, lookup_singleton_ne by done. }
  rewrite Li. intros [= <-]. clearbody m. set (x' := x <| xp_kref := xp_kref x + 1 |>) in *. unfold field_upd. cbn.
  assert (forall j y, m !! j = Some y -> j = i /\ y = x') as Lm.
  { intros j y Hj. destruct (decide (j = i)) as [->|N]; [split; congruence|]. by rewrite Lo in Hj. }
  split; cbn; try done.
  - split; cbn -[zlen]; try done.
    + apply NoDup_singleton.
    + unfold is_offline. cbn. rewrite Li. cbn. by rewrite F4.
    + intros j ->%list_elem_of_singleton. by exists x'.
    + unfold zlen in *. by rewrite length_alter.
    + intros p l Hp. unfold on_port_idx. cbn. rewrite Li. cbn. destruct (Z.eqb_spec (xp_port_idx x) (Z.of_nat p)) as [E|Ne].
      * rewrite E, Nat2Z.id, list_lookup_alter_eq in Hp. destruct (_ !! p) as [l0|] eqn:E0; [|done]. cbn in Hp.
        rewrite (Hps p l0 E0) in Hp. by injection Hp as <-.
      * rewrite list_lookup_alter_ne in Hp by lia. by apply (Hps p).
    + unfold sumq, qlen. cbn. rewrite Li. cbn. lia.
    + intros j y [-> ->]%Lm. unfold in_list. cbn. rewrite decide_True by by apply list_elem_of_singleton.
      rewrite delta_eq. unfold users. rewrite map_filter_empty, map_size_empty. cbn. rewrite F1, F2, F5. done.
    + intros j. unfold users, delta. rewrite map_filter_empty, map_size_empty. destruct (decide _); done.
    + split; [by apply list_elem_of_singleton|]. by exists x'.
Qed.

Lemma step_wf w w' : wf w -> step w w' -> wf w'.
Proof.
  intros W S. destruct S.
  - by eapply wf_add.
  - by eapply wf_start.
  - by eapply wf_again.
  - by eapply wf_end.
  - by eapply wf_connect_failed.
  - by eapply wf_sysfs.
  - by apply wf_state.
  - by apply wf_roundrobin.
Qed.

Lemma reachable_wf nr md w : (forall n, nr = Some n -> n <= XPRT_MAX_PORTS) -> reachable nr md w -> wf w.
Proof.
  intros Hn. induction 1 as [i x w Fx Hm E|w w' _ IH S]; [by eapply wf_start_world|by eapply step_wf].
Qed.

(** ** Repeated selection *)

Lemma get_put i st st' : xprt_get i st = Some st' -> xprt_put i st' = st.
Proof.
  unfold xprt_get. destruct (xprts st !! i) as [x|] eqn:Hx; [|done]. destruct (xp_kref x =? 0); [done|]. intros [= <-].
  destruct st as [m s]. unfold xprt_put, on_xprt, field_upd. cbn in *. f_equal. apply map_eq. intros j.
  destruct (decide (i = j)) as [<-|Ne]; [|by rewrite !lookup_alter_ne]. rewrite !lookup_alter_eq, Hx. cbn. f_equal.
  destruct x. cbn. f_equal. lia.
Qed.

(** [n] requests one after the other, each finished before the next. *)
Fixpoint selections (n : nat) (st : mp) (xpi : rpc_xprt_iter) (conf : rpc_xprt_iter_conf) : option (list Z) :=
  match n with
  | O => Some []
  | S n =>
      match xprt_iter_get_next st xpi conf with
      | Some (Some i, xpi, st) =>
          match selections n (xprt_put i st) xpi conf with Some l => Some (i :: l) | None => None end
      | _ => None
      end
  end.

Section Fair.
Context (main : Z) (r q : Z -> Z) (st : mp) (Ok : ok main r q st) (conf : rpc_xprt_iter_conf) (Cok : conf_ok conf).
Context (Good : forall i, i ∈ ring st conf -> good st conf i = true).
Local Abbreviation A := (ring st conf).

Lemma get_next_good xpi s :
  xpi_xpswitch xpi = true -> xprt_iter_ops st xpi = rpc_xprt_iter_roundrobin -> (s < length A)%nat ->
  __xprt_switch_find_next_entry_roundrobin st (xpi_cursor xpi) conf = A !! s ->
  exists i st', A !! s = Some i /\ xprt_iter_get_next st xpi conf = Some (Some i, xpi <| xpi_cursor := Some i |>, st') /\ xprt_put i st' = st.
Proof.
  intros Hs Hops Ls R. destruct (lookup_lt_is_Some_2 A s Ls) as [i Hi]. exists i.
  assert (i ∈ A) as Hin by by apply list_elem_of_lookup_2 with s.
  destruct (ring_get st conf i Hin) as [st' Hg]. exists st'. split_and!; [done| |by apply get_put in Hg].
  unfold xprt_iter_get_next. cbn [xprt_iter_get_helper]. rewrite Hops. unfold xpi_next, xprt_iter_next_entry_multiple. rewrite Hs. cbn [negb].
  unfold xprt_switch_find_next_entry_roundrobin, rr_fuel. cbn [roundrobin_loop]. rewrite R, Hi.
  pose proof (Good i Hin) as Gi. unfold good in Gi. rewrite Gi. by rewrite Hg.
Qed.

Lemma selections_ring n xpi s :
  xpi_xpswitch xpi = true -> xprt_iter_ops st xpi = rpc_xprt_iter_roundrobin -> (s < length A)%nat ->
  __xprt_switch_find_next_entry_roundrobin st (xpi_cursor xpi) conf = A !! s ->
  exists l, selections n st xpi conf = Some l /\ length l = n /\ forall k, (k < n)%nat -> l !! k = A !! at_ st conf s k.
Proof.
  revert xpi s. induction n as [|n IH]; intros xpi s Hs Hops Ls R; [exists []; split_and!; try done; lia|]. cbn [selections].
  destruct (get_next_good xpi s Hs Hops Ls R) as (i & st' & Hi & -> & ->).
  destruct (IH (xpi <| xpi_cursor := Some i |>) (S s mod length A)%nat) as (l & El & Ll & Hl); try done.
  - apply Nat.mod_upper_bound. lia.
  - apply (rr_step st conf (conf_list_nodup _ _ _ _ Ok conf Cok) s i Hi).
  - rewrite El. exists (i :: l). split_and!; [done|cbn; lia|]. intros [|k] Lk; cbn.
    + by rewrite at_0.
    + rewrite Hl by lia. by rewrite at_S.
Qed.
End Fair.

Lemma rotation {B} (l l' : list B) s :
  (s < length l)%nat -> length l' = length l ->
  (forall k, (k < length l)%nat -> l' !! k = l !! ((s + k) mod length l)%nat) -> l' = drop s l ++ take s l.
Proof.
  intros Ls Hl H. apply list_eq. intros k. destruct (decide (k < length l)%nat) as [L|G].
  - rewrite H by done. destruct (decide (s + k < length l)%nat) as [L2|G2].
    + rewrite Nat.mod_small by done. rewrite lookup_app_l by (rewrite length_drop; lia). by rewrite lookup_drop.
    + replace (s + k)%nat with (s + k - length l + 1 * length l)%nat by lia. rewrite Nat.Div0.mod_add, Nat.mod_small by lia.
      rewrite lookup_app_r by (rewrite length_drop; lia). rewrite length_drop. rewrite lookup_take_lt by lia. f_equal. lia.
  - rewrite !lookup_ge_None_2; [done| |lia]. rewrite length_app, length_drop, length_take. lia.
Qed.

(** ** Visiting all *)

Fixpoint upto (fn : Z -> Z) (l : list Z) : list Z :=
  match l with
  | [] => []
  | i :: l => i :: (if fn i <? 0 then [] else upto fn l)
  end.

Section All.
Context (main : Z) (r q : Z -> Z) (st : mp) (Ok : ok main r q st) (fn : Z -> Z).
Local Abbreviation A := (ring st conf_default).

Lemma iterate_loop_upto rest fuel ret xpi k :
  xpi_xpswitch xpi = true -> xpi_ops xpi = Some rpc_xprt_iter_listall -> drop k A = rest ->
  xprt_switch_find_next_entry st (xpi_cursor xpi) conf_default = head rest -> (length rest < fuel)%nat ->
  exists xpi', iterate_loop fuel fn ret st xpi = Some (upto fn rest, default ret (fn <$> last (upto fn rest)), xpi', st) /\
    xpi_xpswitch xpi' = true.
Proof.
  revert fuel ret xpi k. induction rest as [|i rest IH]; intros [|fuel] ret xpi k Hs Hops Hd Hn Lf; try (cbn in Lf; lia);
    cbn [iterate_loop]; unfold xprt_iter_get_next; cbn [xprt_iter_get_helper]; unfold xprt_iter_ops; rewrite Hops;
    unfold xpi_next, xprt_iter_next_entry_multiple; rewrite Hs; cbn [negb]; unfold xprt_switch_find_next_entry_all; rewrite Hn; cbn [head].
  - by eexists.
  - assert (A !! k = Some i) as Hk. { rewrite <- (Nat.add_0_r k), <- lookup_drop, Hd. done. }
    assert (i ∈ A) as Hin by by apply list_elem_of_lookup_2 with k.
    destruct (ring_get st conf_default i Hin) as [st' Hg]. rewrite Hg. rewrite (get_put i st st' Hg). cbn [upto].
    destruct (fn i <? 0) eqn:Ef; [by eexists|].
    destruct (IH fuel (fn i) (xpi <| xpi_cursor := Some i |>) (S k)) as (xpi' & E & Hs'); try done.
    + change (S k) with (1 + k)%nat. rewrite Nat.add_comm, <- drop_drop, Hd. done.
    + cbn. rewrite (find_next_ring st conf_default (conf_list_nodup _ _ _ _ Ok conf_default conf_default_ok) k i Hk).
      rewrite head_lookup. replace rest with (drop (S k) A); [by rewrite lookup_drop, Nat.add_0_r|].
      change (S k) with (1 + k)%nat. rewrite Nat.add_comm, <- drop_drop, Hd. done.
    + cbn in Lf. lia.
    + rewrite E. exists xpi'. split; [|done]. do 3 f_equal. destruct (upto fn rest) as [|j l'] eqn:El; [done|].
      rewrite <- El. rewrite last_cons. destruct (last (upto fn rest)) eqn:E2; [done|]. rewrite El in E2. by apply last_None in E2.
Qed.
End All.

(** ** The properties *)

(** C30: the invariant of a client's transports.  Whatever tasks, failed connections
    and administration do, the switch counts its transports and those that are not
    offline, the list of each remote port holds exactly its transports in order, a
    transport has one reference from the switch, one from each task that uses it and
    one from the client, each task is counted in its queue, the queues of the
    transports sum up to no more than the switch's, and the client's main transport
    stays and is never offline. *)
Theorem multipath_invariant nr md w :
  (forall n, nr = Some n -> n <= XPRT_MAX_PORTS) -> reachable nr md w ->
  let st := w_st w in let s := xps st in let l := xps_xprt_list s in
  NoDup l /\ xps_nxprts s = zlen l /\ xps_nactive s = zlen (List.filter (fun i => negb (is_offline st i)) l) /\
  (forall p k, xps_remoteport_xprt_list s !! p = Some k -> k = List.filter (on_port_idx st (Z.of_nat p)) l) /\
  (forall i x, xprts st !! i = Some x ->
     xp_kref x = in_list st i + users (w_tasks w) i + delta (cl_xprt (w_cl w)) i /\ users (w_tasks w) i <= queuelen x) /\
  sumq st l <= xps_queuelen s /\ cl_xprt (w_cl w) ∈ l /\ is_offline st (cl_xprt (w_cl w)) = false.
Proof.
  intros Hn R st s l. destruct (reachable_wf nr md w Hn R) as [[o1 _ o3 o4 _ _ o7 o8 o9 _ (o11 & x & Hx & _ & Ho)] _ _ _ _].
  split_and!; try done.
  - intros i y Hi. destruct (o9 i y Hi) as (? & ? & _). split; [|done]. unfold st. lia.
  - unfold is_offline, st. by rewrite Hx.
Qed.

(** C31: a task gets a transport.  While fewer than [2 ^ 32] tasks are counted, the choice
    for a task without transport comes to an end with one of the switch that is not
    offline (or the main one, for a task that asks for it): connected and with the
    role and remote port that go with the task, if there is such a one; else
    connected and with the role; else any. *)
Theorem task_gets_transport w task :
  wf w -> xps_queuelen (xps (w_st w)) < 2 ^ 32 -> tk_xprt task = None ->
  exists i cl' st', rpc_task_set_transport task (w_cl w) (w_st w) = Some (task <| tk_xprt := Some i |>, cl', st') /\
    i ∈ xps_xprt_list (xps (w_st w)) /\ is_offline (w_st w) i = false /\ preferred (w_cl w) (w_st w) task i.
Proof.
  intros [Wo Wn Wp Wu Wk] Qb Ht. unfold rpc_task_set_transport. rewrite Ht.
  destruct (choose_transport_total _ _ _ _ _ task Wo Wn Wp Qb) as [[[task' cl'] st'] E].
  destruct (choose_transport_in _ _ _ _ _ _ _ _ _ Wo Wn Wp eq_refl E) as (i & -> & (_ & _ & _ & HL & _) & Hp).
  exists i, cl', st'. split_and!; try done. revert Hp. unfold preferred.
  assert (forall c, i ∈ ring (w_st w) c -> is_offline (w_st w) i = false) as Off.
  { intros c [Ha _]%filter_elem. by apply active_online in Ha as [? _]. }
  destruct (RPC_TASK_NO_ROUND_ROBIN task).
  - intros ->. destruct (ok_main _ _ _ _ Wo) as (_ & x & Hx & _ & Ho). unfold is_offline. by rewrite Hx.
  - intros [Hi|[[_ Hi]|(_ & _ & Hi)]]; by apply Off in Hi.
Qed.

(** Round robin.  The loop ends, also for a request without flags, for which its
    own counter does not stop it.  It finds nothing only when no transport is
    suitable; it takes the next suitable one after the cursor when that is no busier
    than the average, and otherwise, unless congestion is to be ignored, one that is
    when there is one. *)
Theorem roundrobin_contract w conf cur :
  wf w -> conf_ok conf -> cf_flags conf <> 0 \/ (conf = conf_default /\ xps_queuelen (xps (w_st w)) < 2 ^ 32) ->
  let st := w_st w in
  exists o, xprt_switch_find_next_entry_roundrobin st cur conf = Some o /\
    (o = None <-> ring st conf = []) /\ (forall i, o = Some i -> i ∈ xps_xprt_list (xps st) /\ active st conf i = true) /\
    (forall i, __xprt_switch_find_next_entry_roundrobin st cur conf = Some i -> good st conf i = true -> o = Some i) /\
    ((exists i, i ∈ ring st conf /\ good st conf i = true) -> exists i, o = Some i /\ good st conf i = true).
Proof.
  intros [Wo _ _ _ _] Ck Hb st. fold st in Wo, Hb. clearbody st. destruct (decide (ring st conf = [])) as [E|Ne].
  - exists None. rewrite E. split_and!; try done.
    + unfold xprt_switch_find_next_entry_roundrobin, rr_fuel. cbn [roundrobin_loop]. by rewrite (proj2 (rr_none st conf cur) E).
    + intros i Hi _. apply rr_elem in Hi. rewrite E in Hi. by apply elem_of_nil in Hi.
    + intros (i & Hi & _). by apply elem_of_nil in Hi.
  - destruct (roundrobin_ends _ _ _ _ conf cur Wo Ck Ne Hb) as (s & j & Ls & Hs & -> & Sj & Nj).
    pose proof (at_lt st conf s j Ne) as La. destruct (lookup_lt_is_Some_2 _ _ La) as [i Hi]. rewrite Hi.
    exists (Some i). split_and!; try done.
    + intros k [= <-]. apply (ring_elem _ _ _ _ Wo conf Ck). by apply list_elem_of_lookup_2 with (at_ st conf s j).
    + intros k Hk Gk. rewrite Hs in Hk. destruct j as [|j]; [rewrite at_0 in Hi by done; congruence|].
      exfalso. apply (Nj 0%nat); [lia|]. left. exists k. by rewrite at_0.
    + intros (u & Hu & Gu). exists i. split; [done|]. apply list_elem_of_lookup in Hu as [k Hk].
      pose proof (lookup_lt_Some _ _ _ Hk) as Lk. set (m := length (ring st conf)) in *.
      destruct Sj as [(i' & Hi' & Gi)|Gu']; [congruence|]. exfalso.
      pose proof (ring_length _ _ _ _ Wo conf Ck) as Rl. unfold zlen in Rl. fold m in Rl.
      unfold gives_up in Gu'. apply andb_true_iff in Gu' as [_ Gu'%Z.ltb_lt].
      apply (Nj ((k + m - s) mod m)%nat); [assert ((k + m - s) mod m < m)%nat by (apply Nat.mod_upper_bound; lia); lia|].
      left. exists u. split; [|done]. unfold at_. fold m. rewrite Nat.Div0.add_mod_idemp_r.
      replace (s + (k + m - s))%nat with (k + 1 * m)%nat by lia. by rewrite Nat.Div0.mod_add, Nat.mod_small.
Qed.

(** Round robin is fair.  While no suitable transport is busier than the average,
    as many requests as there are suitable transports use each of them once, in
    the order of the list from the cursor on. *)
Theorem roundrobin_fair w xpi conf :
  wf w -> conf_ok conf -> xpi_xpswitch xpi = true -> xprt_iter_ops (w_st w) xpi = rpc_xprt_iter_roundrobin ->
  (forall i, i ∈ ring (w_st w) conf -> good (w_st w) conf i = true) ->
  exists l1 l2, ring (w_st w) conf = l1 ++ l2 /\
    selections (length (ring (w_st w) conf)) (w_st w) xpi conf = Some (l2 ++ l1).
Proof.
  intros [Wo _ _ _ _] Ck Hs Ho Hg. set (A := ring (w_st w) conf) in *.
  destruct (decide (A = [])) as [E|Ne]; [exists [], []; by rewrite E|].
  destruct (rr_some (w_st w) conf (xpi_cursor xpi) Ne) as (s & Ls & R).
  destruct (selections_ring _ _ _ _ Wo conf Ck Hg (length A) xpi s Hs Ho Ls R) as (l & El & Ll & Hl).
  exists (take s A), (drop s A). rewrite take_drop. split; [done|]. rewrite El. f_equal. by apply rotation.
Qed.

(** Visiting all transports applies the function to each transport that is not
    offline, once and in order, up to the first error, returns the last result, and
    leaves the switch and all references as they were. *)
Theorem iterate_visits_each w fn :
  wf w -> let st := w_st w in
  let online := List.filter (fun i => negb (is_offline st i)) (xps_xprt_list (xps st)) in
  rpc_clnt_iterate_for_each_xprt fn st = Some (upto fn online, default 0 (fn <$> last (upto fn online)), st).
Proof.
  intros [Wo _ _ _ Wk] st online. fold st in Wo, Wk.
  assert (ring st conf_default = online) as ER.
  { rewrite (ring_nf _ _ _ _ Wo) by done. apply bfilter_ext. intros i Hi. destruct (ok_member _ _ _ _ Wo i Hi) as (x & Hx & _).
    pose proof (member_kref _ _ _ _ Wo i x Hi Hx). unfold active, is_offline. rewrite Hx. unfold xprt_is_active. simpl.
    by rewrite (proj2 (Z.eqb_neq (xp_kref x) 0)) by lia. }
  assert (forall s, 1 <= xps_kref (xps s) -> xprt_switch_get s = Some (on_xps (fun s => s <| xps_kref := xps_kref s + 1 |>) s)) as Eg.
  { intros s Hs. unfold xprt_switch_get. rewrite (proj2 (Z.eqb_neq _ 0)); [done|lia]. }
  unfold rpc_clnt_iterate_for_each_xprt, rpc_clnt_xprt_iter_init, xprt_iter_init_listall, __xprt_iter_init. rewrite Eg by done.
  set (st1 := on_xps _ st). assert (1 <= xps_kref (xps st1)) as K1 by (cbn; lia). rewrite Eg by done. rewrite put_switch by done.
  assert (ok (cl_xprt (w_cl w)) (fun i => users (w_tasks w) i + delta (cl_xprt (w_cl w)) i) (users (w_tasks w)) st1) as O1 by by apply ok_ref_switch.
  assert (ring st1 conf_default = online) as ER1 by (rewrite <- ER; done).
  destruct (iterate_loop_upto _ _ _ _ O1 fn online (S (length (xps_xprt_list (xps st1)))) 0 (mk_xpi true None (Some rpc_xprt_iter_listall)) 0) as (xpi' & -> & Hs'); try done.
  - cbn. by rewrite find_next_none, ER1.
  - unfold online. pose proof (filter_length_le (fun i => negb (is_offline st i)) (xps_xprt_list (xps st))). cbn. lia.
  - unfold xprt_iter_destroy. rewrite Hs'. unfold st1. by rewrite put_switch.
Qed.

(** *** What the flags of a request ask for *)

Definition connected (st : mp) (i : Z) (x : rpc_xprt) : Prop :=
  i ∈ xps_xprt_list (xps st) /\ xprts st !! i = Some x /\ XPRT_OFFLINE x = false /\ XPRT_N_DIVERSION x = false /\ XPRT_N_RECOVERY x = false.

Lemma active_facts st conf i : active st conf i = true -> exists x, xprts st !! i = Some x /\
  (has RPC_XPRT_FLAGS_REMOTE_PORT_IDX conf = true -> xp_port_idx x = cf_port_idx conf) /\
  (has RPC_XPRT_FLAGS_SPLIT conf = true -> is_reg x = negb (has RPC_XPRT_FLAGS_MARKED conf)).
Proof.
  unfold active. destruct (xprts st !! i) as [x|]; [|done]. intros H. exists x. split; [done|]. revert H. unfold xprt_is_active.
  case_match; [done|]. case_match; [done|].
  destruct (has RPC_XPRT_FLAGS_REMOTE_PORT_IDX conf), (Z.eqb_spec (xp_port_idx x) (cf_port_idx conf)), (has RPC_XPRT_FLAGS_SPLIT conf);
    simpl; try done; destruct (is_reg x), (has RPC_XPRT_FLAGS_MARKED conf); done.
Qed.

Lemma connected_active main r q st conf i x :
  ok main r q st -> connected st i x -> has RPC_XPRT_FLAGS_LOCAL_GPU conf = false ->
  (has RPC_XPRT_FLAGS_REMOTE_PORT_IDX conf = true -> xp_port_idx x = cf_port_idx conf) ->
  (has RPC_XPRT_FLAGS_SPLIT conf = true -> is_reg x = negb (has RPC_XPRT_FLAGS_MARKED conf)) -> conf_ok conf ->
  i ∈ ring st conf.
Proof.
  intros Ok (HL & Hx & Ho & Hd & Hr) Hg Hp Hs Ck. apply (ring_elem _ _ _ _ Ok conf Ck). split; [done|].
  pose proof (member_kref _ _ _ _ Ok i x HL Hx) as Hk. unfold active. rewrite Hx. unfold xprt_is_active. rewrite Hd, Hr, Hg, Ho, andb_false_r. simpl.
  rewrite (proj2 (Z.eqb_neq (xp_kref x) 0)) by lia.
  destruct (has RPC_XPRT_FLAGS_REMOTE_PORT_IDX conf); [rewrite (Hp eq_refl), Z.eqb_refl|]; simpl;
    (destruct (has RPC_XPRT_FLAGS_SPLIT conf); [rewrite (Hs eq_refl); by destruct (has RPC_XPRT_FLAGS_MARKED conf)|done]).
Qed.


(** [spread_reads] and [spread_writes] do not spread: the hash 0 that asks for any
    connection is marked as data and stands for one remote port, the same for all
    files, which every such request uses while one of its transports is
    connected. *)
Theorem spread_requests_use_one_port w nr h task task' cl' st' j y :
  wf w -> cl_mdconnect (w_cl w) = 0 -> cl_remoteports_nr (w_cl w) = Some nr -> 0 < nr ->
  tk_xprt task = None -> RPC_TASK_NO_ROUND_ROBIN task = false -> tk_gpu task = None ->
  tk_multipath_hash task = pgio_multipath_hash true h ->
  connected (w_st w) j y -> xp_port_idx y = 0x7fff mod nr ->
  rpc_task_set_transport task (w_cl w) (w_st w) = Some (task', cl', st') ->
  exists i x, tk_xprt task' = Some i /\ xprts (w_st w) !! i = Some x /\ xp_port_idx x = 0x7fff mod nr.
Proof.
  intros [Wo Wn Wp _ _] Hm Hnr Pn Ht Hrr Hg Hh Cj Ry. unfold rpc_task_set_transport. rewrite Ht. intros E.
  destruct (choose_transport_in _ _ _ _ _ _ _ _ _ Wo Wn Wp eq_refl E) as (i & -> & _ & Hp).
  assert (tk_multipath_hash task = 0x8000) as Hh' by (rewrite Hh; reflexivity).
  pose proof (Wn nr Hnr) as Nm. pose proof (Z.mod_pos_bound 0x7fff nr Pn) as Mb. unfold XPRT_MAX_PORTS in Nm.
  assert (task_conf (w_cl w) (w_st w) task base_conf = mk_conf 5 0 0 (0x7fff mod nr)) as Ec.
  { unfold task_conf, port_conf, gpu_conf. rewrite Hg, Hnr, Hm, Hh', (proj2 (Z.ltb_lt 0 nr)) by done. cbn [Z.eqb negb andb].
    unfold with_flag, base_conf, conf_default, field_upd. cbn -[Z.modulo]. change (0x8000 - 1) with 0x7fff. rewrite (Z.mod_small _ 256) by lia. done. }
  unfold preferred in Hp. rewrite Hrr, Ec in Hp. set (c := mk_conf 5 0 0 (0x7fff mod nr)) in *.
  assert (j ∈ ring (w_st w) c) as Hj.
  { apply (connected_active _ _ _ _ _ j y Wo); try done. intros _. unfold c, XPRT_MAX_PORTS. cbn [cf_port_idx]. lia. }
  exists i. destruct Hp as [[Hi _]%filter_elem|[[Hn _]|(Hn & _)]].
  - apply active_facts in Hi as (x & Hx & Hpx & _). exists x. split_and!; try done. by rewrite Hpx.
  - rewrite Hn in Hj. by apply elem_of_nil in Hj.
  - rewrite Hn in Hj. by apply elem_of_nil in Hj.
Qed.

(** *** Queues *)

(** One more task on [k], or none. *)
Definition queued (st st' : mp) (o : option Z) : Prop :=
  match o with
  | None => st' = st
  | Some k => (forall i, qlen st' i = qlen st i + delta k i) /\ xps_queuelen (xps st') = xps_queuelen (xps st) + 1
  end.

Lemma get_queued k st st1 : xprt_get k st = Some st1 -> queued st (rpc_task_get_xprt (Some k) st1) (Some k).
Proof.
  unfold xprt_get. destruct (xprts st !! k) as [x|] eqn:Hx; [|done]. destruct (xp_kref x =? 0); [done|]. intros [= <-]. split; [|done].
  intros i. unfold qlen. cbn. destruct (decide (k = i)) as [<-|Ne].
  - rewrite !lookup_alter_eq, Hx, delta_eq. done.
  - rewrite !lookup_alter_ne, delta_ne by congruence. by rewrite Z.add_0_r.
Qed.

Lemma get_next_queued cl st conf o cl' st' : get_next_xprt cl st conf = Some (o, cl', st') -> queued st st' o.
Proof.
  unfold get_next_xprt, xprt_iter_get_next. cbn [xprt_iter_get_helper].
  destruct (xpi_next _ st (cl_xpi cl) conf) as [[[k|] xpi]|]; [|by intros [= <- <- <-]|done].
  destruct (xprt_get k st) as [st1|] eqn:E; [|done]. intros [= <- <- <-]. by apply get_queued.
Qed.

Lemma try_selections_queued task cl st conf o cl' st' :
  rpc_task_try_xprt_selections task cl st conf = Some (o, cl', st') -> queued st st' o.
Proof.
  unfold rpc_task_try_xprt_selections. cbv zeta. destruct (get_next_xprt cl st _) as [[[[k|] cl1] st1]|] eqn:E1; [|..|done].
  - intros [= <- <- <-]. by apply get_next_queued in E1.
  - apply get_next_queued in E1. cbn in E1. subst st1. destruct (has _ _); [apply get_next_queued|by intros [= <- <- <-]].
Qed.

Lemma choose_queued task cl st task' cl' st' :
  choose_transport task cl st = Some (task', cl', st') -> queued st st' (tk_xprt task').
Proof.
  unfold choose_transport. destruct (RPC_TASK_NO_ROUND_ROBIN task).
  - unfold rpc_task_get_first_xprt. destruct (xprt_get (cl_xprt cl) st) as [st1|] eqn:E; intros [= <- <- <-]; [by apply get_queued|done].
  - destruct (rpc_task_try_xprt_selections task cl st _) as [[[[k|] cl1] st1]|] eqn:E1; [|..|done]; apply try_selections_queued in E1.
    { intros [= <- <- <-]. done. }
    cbn in E1. subst st1. destruct (rpc_task_try_xprt_selections task cl1 st _) as [[[[k|] cl2] st2]|] eqn:E2; [|..|done]; apply try_selections_queued in E2.
    { intros [= <- <- <-]. done. }
    cbn in E2. subst st2. destruct (get_next_xprt cl2 st conf_default) as [[[o cl3] st3]|] eqn:E3; [|done]. apply get_next_queued in E3.
    intros [= <- <- <-]. done.
Qed.

(** A task that leaves an offline transport for another stays counted in the
    queue of the one it left, and is counted twice in the switch's: afterwards
    fewer tasks use the transport than its queue says, so that it does not become
    idle and is not removed. *)
Theorem moved_task_stays_counted w t task i task' cl' st' :
  wf w -> w_tasks w !! t = Some task -> tk_xprt task = Some i -> is_offline (w_st w) i = true -> RPC_TASK_MOVEABLE task = true ->
  rpc_task_set_transport task (w_cl w) (w_st w) = Some (task', cl', st') ->
  exists k, tk_xprt task' = Some k /\ k <> i /\ qlen st' i = qlen (w_st w) i /\
    xps_queuelen (xps st') = xps_queuelen (xps (w_st w)) + 1 /\ users (<[t := task']> (w_tasks w)) i < qlen st' i.
Proof.
  destruct w as [st cl ts]. cbn [w_st w_cl w_tasks]. intros W Ht Hx Ho Hm. pose proof W as [Wo Wn Wp Wu Wk]. simpl in Wo, Wn, Wp, Wu, Wk.
  unfold rpc_task_set_transport. rewrite Hx, Ho, Hm. cbn [andb negb]. intros E.
  destruct (user_member _ _ _ W t task i Ht Hx) as [U1 HL]. destruct (ok_member _ _ _ _ Wo i HL) as (x & Hxi & _).
  assert (0 <= delta (cl_xprt cl) i) by (unfold delta; destruct (decide _); lia).
  pose proof (ok_put _ _ _ _ Wo i ltac:(by exists x) ltac:(simpl; lia)) as Op.
  destruct (choose_transport_in _ _ _ _ _ _ _ _ _ Op Wn Wp eq_refl E) as (k & -> & _ & Hp). cbn [tk_xprt].
  assert (forall c, k ∈ ring (xprt_put i st) c -> is_offline (xprt_put i st) k = false) as Off.
  { intros c [Ha _]%filter_elem. by apply active_online in Ha as [? _]. }
  assert (is_offline (xprt_put i st) k = false) as Hk.
  { revert Hp. unfold preferred. destruct (RPC_TASK_NO_ROUND_ROBIN task).
    - intros ->. destruct (ok_main _ _ _ _ Op) as (_ & y & Hy & _ & Hoy). unfold is_offline. by rewrite Hy.
    - intros [Hi|[[_ Hi]|(_ & _ & Hi)]]; by apply Off in Hi. }
  assert (k <> i) as Ne.
  { intros ->. unfold is_offline in *. cbn in Hk. rewrite lookup_alter_eq, Hxi in Hk. rewrite Hxi in Ho. cbn in Hk. congruence. }
  apply choose_queued in E as [Eq Es]. exists k. split_and!; try done.
  - rewrite Eq, delta_ne by congruence. unfold qlen. cbn. rewrite lookup_alter_eq, Hxi. cbn. lia.
  - rewrite Eq, delta_ne by congruence. rewrite (users_insert _ _ task) by done. cbn. rewrite Hx, !some_delta, delta_eq, delta_ne by congruence.
    destruct (ok_xprt _ _ _ _ Wo i x Hxi) as (_ & Hq & _). unfold qlen. cbn. rewrite lookup_alter_eq, Hxi. cbn. lia.
Qed.

(** ** Witnesses *)

Definition sample_x (main : bool) (role : xprt_role) (port : Z) : rpc_xprt :=
  mk_xprt 1 7 100 port role [] 0 0 main false false true false false.
Definition sample_w0 (md : Z) : world :=
  mk_world
    (xprt_switch_add_xprt_locked 1
       (mk_mp {[ 1 := sample_x true RPC_XPRT_ROLE_REG 0 ]}
          (mk_xps 1 0 0 0 [] (replicate (Z.to_nat XPRT_MAX_PORTS) []) None rpc_xprt_iter_singular)))
    (mk_clnt 1 (mk_xpi true None None) (Some 2) md) ∅.
Definition add_to (i : Z) (x : rpc_xprt) (w : world) : world :=
  mk_world (snd (rpc_clnt_add_xprt i (Ok x) 0 (w_cl w) (w_st w))) (w_cl w) (w_tasks w).

(** Transports 1 and 2 on two remote ports, and a metadata transport 3. *)
Definition sample_w (md : Z) : world :=
  add_to 3 (sample_x false RPC_XPRT_ROLE_MD 0) (add_to 2 (sample_x false RPC_XPRT_ROLE_REG 1) (sample_w0 md)).

Lemma add_to_step i x w : xprts (w_st w) !! i = None -> fresh_xprt x ->
  zlen (xps_xprt_list (xps (w_st w))) + 1 < 2 ^ 32 - 1 -> step w (add_to i x w).
Proof.
  destruct w as [st cl ts]. unfold add_to. cbn [w_st w_cl w_tasks]. intros H1 H2 H3.
  destruct (rpc_clnt_add_xprt i (Ok x) 0 cl st) as [ret st'] eqn:E. by apply (step_add _ _ _ i x 0 ret).
Qed.

Lemma sample_mp_reachable md : reachable (Some 2) md (sample_w md).
Proof.
  assert (forall p role, 0 <= p < XPRT_MAX_PORTS -> fresh_xprt (sample_x false role p)) as F by by intros p role Hp.
  unfold sample_w. apply (reach_step _ _ (add_to 2 (sample_x false RPC_XPRT_ROLE_REG 1) (sample_w0 md))); [apply (reach_step _ _ (sample_w0 md))|].
  - apply (reach_start _ _ 1 (sample_x true RPC_XPRT_ROLE_REG 0)); [by apply (F 0)|reflexivity|reflexivity].
  - apply add_to_step; [vm_compute; reflexivity|by apply F|vm_compute; reflexivity].
  - apply add_to_step; [vm_compute; reflexivity|by apply F|vm_compute; reflexivity].
Qed.

Lemma sample_nr n : Some 2 = Some n -> n <= XPRT_MAX_PORTS.
Proof. by intros [= <-]. Qed.

Lemma sample_wf md : wf (sample_w md).
Proof. apply (reachable_wf (Some 2) md); [apply sample_nr|apply sample_mp_reachable]. Qed.

Definition sample_task (hash : Z) : mp_task := mk_task None hash None false true.

(** A task uses transport 2, which is then taken offline. *)
Definition sample_moved : world :=
  match rpc_task_set_transport (sample_task 2) (w_cl (sample_w 0)) (w_st (sample_w 0)) with
  | Some (task, cl, st) => mk_world (snd (rpc_sysfs_xprt_state_change 2 8 Cmd_offline false st)) cl (<[ 0 := task ]> (w_tasks (sample_w 0)))
  | None => sample_w 0
  end.

Lemma sample_moved_wf : wf sample_moved.
Proof.
  unfold sample_moved. destruct (rpc_task_set_transport _ _ _) as [[[task cl] st]|] eqn:E; [|apply sample_wf].
  assert (wf (mk_world (w_st (sample_w 0)) (w_cl (sample_w 0)) (w_tasks (sample_w 0)))) as W0.
  { pose proof (sample_wf 0) as W0. by destruct (sample_w 0). }
  pose proof (wf_start _ _ _ W0 0 (sample_task 2) task cl st eq_refl eq_refl E) as W. 
  destruct (rpc_sysfs_xprt_state_change 2 8 Cmd_offline false st) as [ret st'] eqn:Es. by apply (wf_sysfs _ _ _ W _ _ _ _ _ _ Es).
Qed.

Lemma multipath_invariant_witness :
  let st := w_st (sample_w 1) in NoDup (xps_xprt_list (xps st)) /\ xps_nxprts (xps st) = 3.
Proof.
  destruct (multipath_invariant (Some 2) 1 (sample_w 1) sample_nr (sample_mp_reachable 1)) as (H1 & H2 & _).
  split; [exact H1|exact H2].
Defined.

Lemma task_gets_transport_witness :
  exists i cl' st', rpc_task_set_transport (sample_task 2) (w_cl (sample_w 0)) (w_st (sample_w 0)) =
    Some ((sample_task 2) <| tk_xprt := Some i |>, cl', st').
Proof.
  destruct (task_gets_transport (sample_w 0) (sample_task 2) (sample_wf 0) ltac:(vm_compute; reflexivity) eq_refl) as (i & cl' & st' & H & _).
  exists i, cl', st'. exact H.
Defined.

Lemma roundrobin_contract_witness :
  exists o, xprt_switch_find_next_entry_roundrobin (w_st (sample_w 0)) (Some 1) base_conf = Some o.
Proof.
  destruct (roundrobin_contract (sample_w 0) base_conf (Some 1) (sample_wf 0) ltac:(discriminate) ltac:(left; discriminate)) as (o & H & _).
  exists o. exact H.
Defined.

Lemma roundrobin_fair_witness :
  exists l1 l2, ring (w_st (sample_w 0)) base_conf = l1 ++ l2 /\
    selections (length (ring (w_st (sample_w 0)) base_conf)) (w_st (sample_w 0)) (mk_xpi true (Some 1) None) base_conf = Some (l2 ++ l1).
Proof.
  apply (roundrobin_fair (sample_w 0) (mk_xpi true (Some 1) None) base_conf (sample_wf 0)); [discriminate|reflexivity|reflexivity|].
  intros i Hi. assert (i ∈ [1; 2; 3]) as Hi' by exact Hi. rewrite !elem_of_cons in Hi'.
  destruct Hi' as [->|[->|[->|H]]]; [reflexivity..|]. by apply elem_of_nil in H.
Defined.

Lemma iterate_visits_each_witness :
  rpc_clnt_iterate_for_each_xprt (fun i => if i =? 2 then -5 else 0) (w_st (sample_w 0)) = Some ([1; 2], -5, w_st (sample_w 0)).
Proof.
  refine (eq_trans (iterate_visits_each (sample_w 0) (fun i => if i =? 2 then -5 else 0) (sample_wf 0)) _).
  vm_compute. reflexivity.
Defined.


Lemma spread_requests_use_one_port_witness :
  exists task' cl' st' i x,
    rpc_task_set_transport (sample_task (pgio_multipath_hash true 5)) (w_cl (sample_w 0)) (w_st (sample_w 0)) = Some (task', cl', st') /\
    tk_xprt task' = Some i /\ xprts (w_st (sample_w 0)) !! i = Some x /\ xp_port_idx x = 1.
Proof.
  destruct (rpc_task_set_transport (sample_task (pgio_multipath_hash true 5)) (w_cl (sample_w 0)) (w_st (sample_w 0))) as [[[a b] c]|] eqn:E; [|discriminate E].
  destruct (spread_requests_use_one_port (sample_w 0) 2 5 (sample_task (pgio_multipath_hash true 5)) a b c 2 (sample_x false RPC_XPRT_ROLE_REG 1)
    (sample_wf 0) eq_refl eq_refl ltac:(lia) eq_refl eq_refl eq_refl eq_refl) as (i & x & H1 & H2 & H3);
    [|reflexivity|exact E|].
  - repeat split. apply (bool_decide_unpack (2 ∈ [1; 2; 3])). exact I.
  - exists a, b, c, i, x. split; [reflexivity|]. split; [exact H1|]. split; [exact H2|exact H3].
Defined.

Lemma moved_task_stays_counted_witness :
  exists task task' cl' st' k, w_tasks sample_moved !! 0 = Some task /\
    rpc_task_set_transport task (w_cl sample_moved) (w_st sample_moved) = Some (task', cl', st') /\
    tk_xprt task' = Some k /\ users (<[0 := task']> (w_tasks sample_moved)) 2 < qlen st' 2.
Proof.
  destruct (w_tasks sample_moved !! 0) as [task|] eqn:Et; [|discriminate Et].
  destruct (rpc_task_set_transport task (w_cl sample_moved) (w_st sample_moved)) as [[[a b] c]|] eqn:E.
  - assert (tk_xprt task = Some 2 /\ RPC_TASK_MOVEABLE task = true) as [T1 T2] by (vm_compute in Et; injection Et as <-; split; reflexivity).
    destruct (moved_task_stays_counted sample_moved 0 task 2 a b c sample_moved_wf Et T1 ltac:(vm_compute; reflexivity) T2 E)
      as (k & H1 & _ & _ & _ & H2).
    exists task, a, b, c, k. split; [reflexivity|]. split; [exact E|]. split; [exact H1|exact H2].
  - exfalso. vm_compute in Et. injection Et as <-. vm_compute in E. discriminate E.
Defined.
