(* ===== verification/RbTree.v ===== *)
(** * Red-black trees of the kernel

    The trees of [linux/rbtree.h] as the code here uses them: it walks down from the
    root with its own comparison, links a node where the walk ends, and visits nodes in
    order.  Rebalancing is not in the repository: [rb_shape t l] is the tree that comes
    of [t] when its nodes become [l], and all that is known of it is that it holds [l]
    in this order. *)

From S2P Require Import Prelude.
From stdpp Require Import list.

Inductive rb_tree (A : Type) := Leaf | Node (l : rb_tree A) (x : A) (r : rb_tree A).
Arguments Leaf {A}.
Arguments Node {A} _ _ _.

Fixpoint in_order {A} (t : rb_tree A) : list A :=
  match t with
  | Leaf => []
  | Node l x r => in_order l ++ x :: in_order r
  end.

Class RbShape (A : Type) := {
  rb_shape : rb_tree A -> list A -> rb_tree A;
  rb_shape_in_order : forall t l, in_order (rb_shape t l) = l;
}.

(** A tree without left children. *)
Definition spine {A} (l : list A) : rb_tree A := foldr (fun x t => Node Leaf x t) Leaf l.

Lemma spine_in_order {A} (l : list A) : in_order (spine l) = l.
Proof. induction l as [|x l IH]; [done|]. simpl. by rewrite IH. Qed.

Definition spine_shape {A} : RbShape A := {| rb_shape := fun _ l => spine l; rb_shape_in_order := fun _ l => spine_in_order l |}.

(** A walk down the tree by [go] (left, right, or stop): the node where it stops, or the
    place where a new node would be linked, in the order, and the nodes visited. *)
Fixpoint rb_walk {A} (go : A -> comparison) (t : rb_tree A) (base : nat) : nat * option A * list A :=
  match t with
  | Leaf => (base, None, [])
  | Node l x r =>
      let i := (base + length (in_order l))%nat in
      match go x with
      | Eq => (i, Some x, [x])
      | Lt => let '(n, o, seen) := rb_walk go l base in (n, o, x :: seen)
      | Gt => let '(n, o, seen) := rb_walk go r (S i) in (n, o, x :: seen)
      end
  end.

Lemma app_cons_left {A} (p q xs ys : list A) x : xs ++ x :: ys = p ++ q -> x ∉ p -> exists k, xs = p ++ k /\ q = k ++ x :: ys.
Proof.
  revert p. induction xs as [|a xs IH]; intros [|b p] E N; simpl in *.
  - by exists [].
  - injection E as <- E. destruct N. by left.
  - by exists (a :: xs).
  - injection E as -> E. destruct (IH p E) as (k & -> & ->); [|by exists k]. intros Hx. apply N. by right.
Qed.

Lemma app_cons_right {A} (p q xs ys : list A) x : xs ++ x :: ys = p ++ q -> x ∉ q -> exists k, p = xs ++ x :: k /\ ys = k ++ q.
Proof.
  revert p. induction xs as [|a xs IH]; intros [|b p] E N; simpl in *.
  - subst q. destruct N. by left.
  - injection E as -> ->. by exists p.
  - subst q. destruct N. right. apply elem_of_app. right. by left.
  - injection E as -> E. destruct (IH p E N) as (k & -> & ->). by exists k.
Qed.

Lemma Forall_not_in {A} (P : A -> Prop) x l : Forall P l -> ~ P x -> x ∉ l.
Proof. intros F N Hx. rewrite Forall_forall in F. by apply N, F. Qed.

(** When [go] is to the right of a prefix and to the left of the rest, the walk finds
    the node in between, or the place for it. *)
Lemma rb_walk_split {A} (go : A -> comparison) t base l1 o l2 :
  in_order t = l1 ++ option_list o ++ l2 ->
  Forall (fun x => go x = Gt) l1 -> Forall (fun x => go x = Lt) l2 -> (forall x, o = Some x -> go x = Eq) ->
  fst (rb_walk go t base) = ((base + length l1)%nat, o).
Proof.
  revert base l1 l2. induction t as [|l IHl x r IHr]; intros base l1 l2 E F1 F2 Fo; simpl in *.
  { destruct l1, o, l2; try done. simpl. by rewrite Nat.add_0_r. }
  assert (forall c, c <> Eq -> go x = c -> x ∉ option_list o) as No.
  { intros c N G Hx. destruct o as [y|]; [|by apply elem_of_nil in Hx]. apply list_elem_of_singleton in Hx as ->. rewrite Fo in G; congruence. }
  destruct (go x) eqn:G.
  - destruct (app_cons_left _ _ _ _ _ E) as (k & Ek & E2); [eapply Forall_not_in; [exact F1|congruence]|].
    destruct o as [y|]; simpl in *.
    + destruct k as [|a k]; simpl in *; injection E2 as -> E2; [by rewrite Ek, app_nil_r|].
      exfalso. apply (Forall_not_in (fun x => go x = Lt) x l2 F2); [congruence|]. rewrite E2. apply elem_of_app. right. by left.
    + exfalso. apply (Forall_not_in (fun x => go x = Lt) x l2 F2); [congruence|]. rewrite E2. apply elem_of_app. right. by left.
  - rewrite app_assoc in E. destruct (app_cons_left _ _ _ _ _ E) as (k & Ek & ->).
    { intros [Hx|Hx]%elem_of_app; [revert Hx; eapply Forall_not_in; [exact F1|congruence]|by apply (No Lt)]. }
    apply Forall_app in F2 as [F2 _]. rewrite <- app_assoc in Ek. pose proof (IHl base l1 k Ek F1 F2 Fo) as E1.
    by destruct (rb_walk go l base) as [[n w] seen].
  - destruct (app_cons_right _ _ _ _ _ E) as (k & -> & Er).
    { intros [Hx|Hx]%elem_of_app; [by apply (No Gt)|revert Hx; eapply Forall_not_in; [exact F2|congruence]]. }
    apply Forall_app in F1 as [_ F1]. apply Forall_cons in F1 as [_ F1].
    pose proof (IHr (S (base + length (in_order l)))%nat k l2 Er F1 F2 Fo) as E1. destruct (rb_walk go r _) as [[n w] seen]. simpl in *.
    injection E1 as -> ->. rewrite length_app. simpl. f_equal. lia.
Qed.
