(* ===== verification/ExtentTree.v ===== *)
(** * pNFS block layouts: the extent trees

    [fs/nfs/blocklayout/extent_tree.c]: a client that writes directly to the disks
    of a pNFS block layout keeps the extents the server has given it in two
    red-black trees ordered by file offset, one for extents it may write and one for
    extents it may only read.  Written parts of an extent without data are marked,
    sent to the server with LAYOUTCOMMIT and marked as valid when it has answered.

    A tree is its shape with the extents at the nodes ([RbTree]); a node is named by its
    place in the order.  Offsets and lengths are sectors of 512 bytes, below [2 ^ 55], so
    that sums do not wrap.
    References to devices are not counted. *)

From S2P Require Import Prelude RbTree Xdr.
From stdpp Require Import list.
#[local] Open Scope Z_scope.

Definition PNFS_BLOCK_READWRITE_DATA := 0.
Definition PNFS_BLOCK_READ_DATA := 1.
Definition PNFS_BLOCK_INVALID_DATA := 2.
Definition PNFS_BLOCK_NONE_DATA := 3.
Definition EXTENT_WRITTEN := 1.
Definition EXTENT_COMMITTING := 2.

(** [be_device]: the address of the device's node. *)
Record pnfs_block_extent := mk_be {
  be_device : Z;
  be_f_offset : Z;
  be_length : Z;
  be_v_offset : Z;
  be_state : Z;
  be_tag : Z;
}.
#[export] Instance upd_be : Updatable pnfs_block_extent := fun b =>
  mk_be (be_device b) (be_f_offset b) (be_length b) (be_v_offset b) (be_state b) (be_tag b).

Notation ext_tree := (rb_tree pnfs_block_extent).
Notation extents := (@in_order pnfs_block_extent).

Definition ext_f_end (be : pnfs_block_extent) : Z := be_f_offset be + be_length be.

(** ** Searching *)

(** The descent: the place of the extent that holds [start], or the last node
    visited.  [base] extents come before the subtree. *)
Fixpoint search_descent (t : ext_tree) (start : Z) (base : nat) (last : option (nat * pnfs_block_extent))
    : nat + option (nat * pnfs_block_extent) :=
  match t with
  | Leaf => inr last
  | Node l be r =>
      let i := (base + length (extents l))%nat in
      if start <? be_f_offset be then search_descent l start base (Some (i, be))
      else if ext_f_end be <=? start then search_descent r start (S i) (Some (i, be))
      else inl i
  end.

Definition __ext_tree_search (t : ext_tree) (start : Z) : option nat :=
  match search_descent t start 0 None with
  | inl i => Some i
  | inr None => None
  | inr (Some (i, be)) =>
      if start <? be_f_offset be then Some i
      else if ext_f_end be <=? start then
        if (S i <? length (extents t))%nat then Some (S i) else None
      else None
  end.

Fixpoint __ext_tree_lookup (t : ext_tree) (isect : Z) : option pnfs_block_extent :=
  match t with
  | Leaf => None
  | Node l be r =>
      if isect <? be_f_offset be then __ext_tree_lookup l isect
      else if ext_f_end be <=? isect then __ext_tree_lookup r isect
      else Some be
  end.

(** ** Merging *)

Definition ext_can_merge (be1 be2 : pnfs_block_extent) : bool :=
  if negb (be_state be1 =? be_state be2) then false
  else if negb (be_device be1 =? be_device be2) then false
  else if negb (be_f_offset be1 + be_length be1 =? be_f_offset be2) then false
  else if negb (be_state be1 =? PNFS_BLOCK_NONE_DATA) && negb (be_v_offset be1 + be_length be1 =? be_v_offset be2) then false
  else if (be_state be1 =? PNFS_BLOCK_INVALID_DATA) && negb (be_tag be1 =? be_tag be2) then false
  else true.

(** The list and the place of the extent that is left. *)
Definition ext_try_to_merge_left (l : list pnfs_block_extent) (i : nat) : list pnfs_block_extent * nat :=
  match i with
  | O => (l, i)
  | S j =>
      match l !! j, l !! i with
      | Some prev, Some be =>
          if ext_can_merge prev be
          then (delete i (<[j := prev <| be_length := be_length prev + be_length be |>]> l), j)
          else (l, i)
      | _, _ => (l, i)
      end
  end.

Definition ext_try_to_merge_right (l : list pnfs_block_extent) (i : nat) : list pnfs_block_extent * nat :=
  match l !! i, l !! S i with
  | Some be, Some next =>
      if ext_can_merge be next
      then (delete (S i) (<[i := be <| be_length := be_length be + be_length next |>]> l), i)
      else (l, i)
  | _, _ => (l, i)
  end.

(** ** Inserting *)

(** Where the descent ends: an extent that takes the new one in on its left or on
    its right, or the place of the new node; [At_bug]: an overlap. *)
Inductive insert_at := At_left (i : nat) | At_right (i : nat) | At_link (i : nat) | At_bug.

Fixpoint insert_descent (t : ext_tree) (new : pnfs_block_extent) (merge_ok : bool) (base : nat) : insert_at :=
  match t with
  | Leaf => At_link base
  | Node l be r =>
      let i := (base + length (extents l))%nat in
      if be_f_offset new <? be_f_offset be then
        if merge_ok && ext_can_merge new be then At_left i
        else insert_descent l new merge_ok base
      else if ext_f_end be <=? be_f_offset new then
        if merge_ok && ext_can_merge be new then At_right i
        else insert_descent r new merge_ok (S i)
      else At_bug
  end.

(** The extents after the insertion; [None]: [BUG]. *)
Definition insert_elements (t : ext_tree) (new : pnfs_block_extent) (merge_ok : bool) : option (list pnfs_block_extent) :=
  let l := extents t in
  match insert_descent t new merge_ok 0 with
  | At_bug => None
  | At_link i => Some (take i l ++ new :: drop i l)
  | At_left i =>
      match l !! i with
      | None => None
      | Some be =>
          let be := be <| be_f_offset := be_f_offset new |>
                       <| be_v_offset := if negb (be_state be =? PNFS_BLOCK_NONE_DATA) then be_v_offset new else be_v_offset be |>
                       <| be_length := be_length be + be_length new |> in
          Some (fst (ext_try_to_merge_left (<[i := be]> l) i))
      end
  | At_right i =>
      match l !! i with
      | None => None
      | Some be =>
          Some (fst (ext_try_to_merge_right (<[i := be <| be_length := be_length be + be_length new |>]> l) i))
      end
  end.

Section Trees.
Context `{RbShape pnfs_block_extent}.

Definition __ext_tree_insert (t : ext_tree) (new : pnfs_block_extent) (merge_ok : bool) : option ext_tree :=
  match insert_elements t new merge_ok with
  | None => None
  | Some l => Some (rb_shape t l)
  end.

(** ** Removing *)

Definition ENOMEM := 12.

(** The extents from a place on: those that end within the range go to [tmp], the
    next is cut. *)
Fixpoint remove_rest (l : list pnfs_block_extent) (end_ : Z) : list pnfs_block_extent * list pnfs_block_extent :=
  match l with
  | [] => ([], [])
  | be :: l' =>
      if ext_f_end be <=? end_ then let '(tmp, l') := remove_rest l' end_ in (be :: tmp, l')
      else if be_f_offset be <? end_ then
        let len1 := ext_f_end be - end_ in
        ([], be <| be_f_offset := end_ |>
                <| be_v_offset := if negb (be_state be =? PNFS_BLOCK_NONE_DATA) then be_v_offset be + (be_length be - len1)
                                  else be_v_offset be |>
                <| be_length := len1 |> :: l')
      else ([], l)
  end.

(** The tree and [tmp]; the outer [None] is [BUG]. *)
Definition __ext_tree_remove (no_mem : bool) (t : ext_tree) (start end_ : Z)
    : option (res (ext_tree * list pnfs_block_extent)) :=
  let l := extents t in
  match __ext_tree_search t start with
  | None => Some (Ok (t, []))
  | Some i =>
      match l !! i with
      | None => Some (Ok (t, []))
      | Some be =>
          if end_ <=? be_f_offset be then Some (Ok (t, []))
          else
            let orig_v_offset := be_v_offset be in
            let orig_len := be_length be in
            let len1 := if be_f_offset be <? start then start - be_f_offset be else 0 in
            let len2 := if end_ <? ext_f_end be then ext_f_end be - end_ else 0 in
            let v := if negb (be_state be =? PNFS_BLOCK_NONE_DATA) then Some (orig_v_offset + orig_len - len2) else None in
            if 0 <? len2 then
              if 0 <? len1 then
                if no_mem then Some (Err (- ENOMEM))
                else
                  let t := rb_shape t (<[i := be <| be_length := len1 |>]> l) in
                  let new := mk_be (be_device be) end_ len2 (default 0 v) (be_state be) (be_tag be) in
                  match __ext_tree_insert t new true with
                  | None => None
                  | Some t => Some (Ok (t, []))
                  end
              else
                let be := be <| be_f_offset := end_ |> <| be_v_offset := default (be_v_offset be) v |> <| be_length := len2 |> in
                Some (Ok (rb_shape t (<[i := be]> l), []))
            else
              let '(i, l) := if 0 <? len1 then (S i, <[i := be <| be_length := len1 |>]> l) else (i, l) in
              let '(tmp, rest) := remove_rest (drop i l) end_ in
              Some (Ok (rb_shape t (take i l ++ rest), tmp))
      end
  end.

(** ** Operations on a layout *)

Record pnfs_block_layout := mk_bl { bl_ext_rw : ext_tree; bl_ext_ro : ext_tree; bl_scsi_layout : bool; bl_lwb : Z }.
#[export] Instance upd_bl : Updatable pnfs_block_layout := fun b =>
  mk_bl (bl_ext_rw b) (bl_ext_ro b) (bl_scsi_layout b) (bl_lwb b).

(** The loop of [ext_tree_insert].  [no_mem]: the copy for a split cannot be
    allocated.  [None]: out of fuel or [BUG]. *)
Fixpoint insert_loop (fuel : nat) (no_mem : bool) (t : ext_tree) (new : pnfs_block_extent) : option (Z * ext_tree) :=
  match fuel with
  | O => None
  | S fuel =>
      let link new := match __ext_tree_insert t new true with Some t => Some (0, t) | None => None end in
      match (match __ext_tree_search t (be_f_offset new) with Some i => extents t !! i | None => None end) with
      | None => link new
      | Some be =>
          if ext_f_end new <=? be_f_offset be then link new
          else if be_f_offset be <=? be_f_offset new then
            if ext_f_end new <=? ext_f_end be then Some (0, t)
            else
              let new_len := ext_f_end new - ext_f_end be in
              let diff := be_length new - new_len in
              insert_loop fuel no_mem t
                (new <| be_f_offset := be_f_offset new + diff |> <| be_v_offset := be_v_offset new + diff |> <| be_length := new_len |>)
          else if ext_f_end new <=? ext_f_end be then
            link (new <| be_length := be_f_offset be - be_f_offset new |>)
          else
            let new_len := ext_f_end new - ext_f_end be in
            let diff := be_length new - new_len in
            if no_mem then Some (- EINVAL, t)
            else
              let split := new <| be_length := be_f_offset be - be_f_offset new |> in
              match __ext_tree_insert t split true with
              | None => None
              | Some t =>
                  insert_loop fuel no_mem t
                    (new <| be_f_offset := be_f_offset new + diff |> <| be_v_offset := be_v_offset new + diff |> <| be_length := new_len |>)
              end
      end
  end.

Definition ext_tree_insert (no_mem : bool) (bl : pnfs_block_layout) (new : pnfs_block_extent)
    : option (Z * pnfs_block_layout) :=
  let fuel t := S (length (extents t)) in
  if (be_state new =? PNFS_BLOCK_READWRITE_DATA) || (be_state new =? PNFS_BLOCK_INVALID_DATA) then
    match insert_loop (fuel (bl_ext_rw bl)) no_mem (bl_ext_rw bl) new with
    | Some (err, t) => Some (err, bl <| bl_ext_rw := t |>)
    | None => None
    end
  else if (be_state new =? PNFS_BLOCK_READ_DATA) || (be_state new =? PNFS_BLOCK_NONE_DATA) then
    match insert_loop (fuel (bl_ext_ro bl)) no_mem (bl_ext_ro bl) new with
    | Some (err, t) => Some (err, bl <| bl_ext_ro := t |>)
    | None => None
    end
  else Some (- EINVAL, bl).

Definition ext_tree_lookup (bl : pnfs_block_layout) (isect : Z) (rw : bool) : option pnfs_block_extent :=
  match (if negb rw then __ext_tree_lookup (bl_ext_ro bl) isect else None) with
  | Some be => Some be
  | None => __ext_tree_lookup (bl_ext_rw bl) isect
  end.

(** [no_mem], [no_mem2]: the allocations in the two trees.  An error leaves its tree
    as it was. *)
Definition ext_tree_remove (no_mem no_mem2 : bool) (bl : pnfs_block_layout) (rw : bool) (start end_ : Z)
    : option (Z * pnfs_block_layout) :=
  match __ext_tree_remove no_mem (bl_ext_ro bl) start end_ with
  | None => None
  | Some r =>
      let '(err, bl) := match r with Ok (t, _) => (0, bl <| bl_ext_ro := t |>) | Err e => (e, bl) end in
      if rw then
        match __ext_tree_remove no_mem2 (bl_ext_rw bl) start end_ with
        | None => None
        | Some r =>
            let '(err2, bl) := match r with Ok (t, _) => (0, bl <| bl_ext_rw := t |>) | Err e => (e, bl) end in
            Some (if err =? 0 then err2 else err, bl)
        end
      else Some (err, bl)
  end.

(** ** Marking written extents *)

Definition ext_tree_split (no_mem : bool) (t : ext_tree) (i : nat) (be : pnfs_block_extent) (split : Z) : option (res ext_tree) :=
  if no_mem then Some (Err (- ENOMEM))
  else
    let orig_len := be_length be in
    let be' := be <| be_length := split - be_f_offset be |> in
    let new := mk_be (be_device be) split (orig_len - be_length be')
                 (if negb (be_state be =? PNFS_BLOCK_NONE_DATA) then be_v_offset be + be_length be' else 0)
                 (be_state be) (be_tag be) in
    match __ext_tree_insert (rb_shape t (<[i := be']> (extents t))) new false with
    | None => None
    | Some t => Some (Ok t)
    end.

(** The outcomes of the allocations to come: [true] fails, none left: they
    succeed. *)
Definition next_alloc (mem : list bool) : bool * list bool :=
  match mem with [] => (false, []) | b :: mem => (b, mem) end.

(** The part of the extent before the range goes to its left neighbour or becomes an
    extent of its own. *)
Definition mark_left (mem : list bool) (t : ext_tree) (i : nat) (be : pnfs_block_extent) (start : Z) : option (res (ext_tree * list bool)) :=
  let l := extents t in
  if be_f_offset be <? start then
    match (match i with O => None | S j => l !! j end) with
    | Some prev =>
        if ext_can_merge prev be then
          let diff := start - be_f_offset be in
          let l := <[(i - 1)%nat := prev <| be_length := be_length prev + diff |>]> l in
          let l := <[i := be <| be_f_offset := be_f_offset be + diff |> <| be_v_offset := be_v_offset be + diff |>
                             <| be_length := be_length be - diff |>]> l in
          Some (Ok (rb_shape t l, mem))
        else
          let '(no_mem, mem) := next_alloc mem in
          match ext_tree_split no_mem t i be start with
          | None => None | Some (Err e) => Some (Err e) | Some (Ok t) => Some (Ok (t, mem)) end
    | None =>
        let '(no_mem, mem) := next_alloc mem in
        match ext_tree_split no_mem t i be start with
        | None => None | Some (Err e) => Some (Err e) | Some (Ok t) => Some (Ok (t, mem)) end
    end
  else Some (Ok (t, mem)).

(** The part after the range goes to the right neighbour or becomes an extent of its
    own. *)
Definition mark_right (mem : list bool) (t : ext_tree) (i : nat) (be : pnfs_block_extent) (end_ : Z) : option (res (ext_tree * list bool)) :=
  let l := extents t in
  if end_ <? ext_f_end be then
    match l !! S i with
    | Some next =>
        if ext_can_merge be next then
          let diff := end_ - be_f_offset be in
          let l := <[i := be <| be_length := be_length be - diff |>]> l in
          let l := <[S i := next <| be_f_offset := be_f_offset next - diff |> <| be_v_offset := be_v_offset next - diff |>
                                 <| be_length := be_length next + diff |>]> l in
          Some (Ok (rb_shape t l, mem))
        else
          let '(no_mem, mem) := next_alloc mem in
          match ext_tree_split no_mem t i be end_ with
          | None => None | Some (Err e) => Some (Err e) | Some (Ok t) => Some (Ok (t, mem)) end
    | None =>
        let '(no_mem, mem) := next_alloc mem in
        match ext_tree_split no_mem t i be end_ with
        | None => None | Some (Err e) => Some (Err e) | Some (Ok t) => Some (Ok (t, mem)) end
    end
  else Some (Ok (t, mem)).

(** The error and the tree as the loop leaves it; [None]: out of fuel or [BUG]. *)
Fixpoint mark_loop (fuel : nat) (mem : list bool) (t : ext_tree) (i : nat) (start end_ : Z) : option (Z * ext_tree) :=
  match fuel with
  | O => None
  | S fuel =>
      match extents t !! i with
      | None => Some (0, t)
      | Some be =>
          if end_ <=? be_f_offset be then Some (0, t)
          else if negb (be_state be =? PNFS_BLOCK_INVALID_DATA) || negb (be_tag be =? 0) then mark_loop fuel mem t (S i) start end_
          else
            match mark_left mem t i be start with
            | None => None
            | Some (Err e) => Some (e, t)
            | Some (Ok (t, mem)) =>
                match extents t !! i with
                | None => None
                | Some be =>
                    match mark_right mem t i be end_ with
                    | None => None
                    | Some (Err e) => Some (e, t)
                    | Some (Ok (t, mem)) =>
                        match extents t !! i with
                        | None => None
                        | Some be =>
                            if (start <=? be_f_offset be) && (ext_f_end be <=? end_) then
                              let '(l, i) := ext_try_to_merge_left (<[i := be <| be_tag := EXTENT_WRITTEN |>]> (extents t)) i in
                              let '(l, i) := ext_try_to_merge_right l i in
                              mark_loop fuel mem (rb_shape t l) (S i) start end_
                            else mark_loop fuel mem t (S i) start end_
                        end
                    end
                end
            end
      end
  end.

(** The loop starts at the extent found; without one there is nothing to do. *)
Definition ext_tree_mark_written (no_mem : bool) (mem : list bool) (bl : pnfs_block_layout) (start len lwb : Z)
    : option (Z * pnfs_block_layout) :=
  let end_ := start + len in
  let out bl := bl <| bl_lwb := if bl_lwb bl <? lwb then lwb else bl_lwb bl |> in
  match __ext_tree_remove no_mem (bl_ext_ro bl) start end_ with
  | None => None
  | Some (Err e) => Some (e, out bl)
  | Some (Ok (ro, _)) =>
      let bl := bl <| bl_ext_ro := ro |> in
      let t := bl_ext_rw bl in
      match __ext_tree_search t start with
      | None => Some (0, out bl)
      | Some i =>
          match mark_loop (length (extents t) + 3) mem t i start end_ with
          | None => None
          | Some (err, t) => Some (err, out (bl <| bl_ext_rw := t |>))
          end
      end
  end.

(** ** LAYOUTCOMMIT *)

Definition NFS4_DEVICEID4_SIZE := 16.
Definition PNFS_BLOCK_EXTENT_SIZE := 7 * 4 + NFS4_DEVICEID4_SIZE.
Definition PNFS_SCSI_RANGE_SIZE := 4 * 4.
Definition BL_PAGE_SIZE := 4096.

Definition ext_tree_layoutupdate_size (bl : pnfs_block_layout) (count : Z) : Z :=
  if bl_scsi_layout bl then 4 + PNFS_SCSI_RANGE_SIZE * count else 4 + PNFS_BLOCK_EXTENT_SIZE * count.

(** [deviceid d]: the 16 bytes that name the device to the server. *)
Definition encode_block_extent (deviceid : Z -> list byte) (be : pnfs_block_extent) : list byte :=
  deviceid (be_device be) ++ be64 (u64 (Z.shiftl (be_f_offset be) 9)) ++ be64 (u64 (Z.shiftl (be_length be) 9)) ++
  be64 0 ++ be32 PNFS_BLOCK_READWRITE_DATA.
Definition encode_scsi_range (be : pnfs_block_extent) : list byte :=
  be64 (u64 (Z.shiftl (be_f_offset be) 9)) ++ be64 (u64 (Z.shiftl (be_length be) 9)).
Definition encode_extent (deviceid : Z -> list byte) (bl : pnfs_block_layout) (be : pnfs_block_extent) : list byte :=
  if bl_scsi_layout bl then encode_scsi_range be else encode_block_extent deviceid be.

Definition to_commit (be : pnfs_block_extent) : bool :=
  (be_state be =? PNFS_BLOCK_INVALID_DATA) && (be_tag be =? EXTENT_WRITTEN).

(** The extents, what was encoded, the count and the error. *)
Fixpoint encode_commit_loop (deviceid : Z -> list byte) (bl : pnfs_block_layout) (buffer_size count ret : Z)
    (l : list pnfs_block_extent) : list pnfs_block_extent * list byte * Z * Z :=
  match l with
  | [] => ([], [], count, ret)
  | be :: l =>
      if negb (to_commit be) then
        let '(l, p, count, ret) := encode_commit_loop deviceid bl buffer_size count ret l in (be :: l, p, count, ret)
      else
        let count := count + 1 in
        if buffer_size <? ext_tree_layoutupdate_size bl count then
          let '(l, p, count, ret) := encode_commit_loop deviceid bl buffer_size count (- 28) l in (be :: l, p, count, ret)
        else
          let '(l, p, count, ret) := encode_commit_loop deviceid bl buffer_size count ret l in
          (be <| be_tag := EXTENT_COMMITTING |> :: l, encode_extent deviceid bl be ++ p, count, ret)
  end.

(** The layout, what was encoded, the count, [lastbyte] and the error. *)
Definition ext_tree_encode_commit (deviceid : Z -> list byte) (bl : pnfs_block_layout) (buffer_size : Z)
    : pnfs_block_layout * list byte * Z * Z * Z :=
  let '(l, p, count, ret) := encode_commit_loop deviceid bl buffer_size 0 0 (extents (bl_ext_rw bl)) in
  (bl <| bl_ext_rw := rb_shape (bl_ext_rw bl) l |> <| bl_lwb := 0 |>, p, count, u64 (bl_lwb bl - 1), ret).

(** What goes to the server: the update and [lastbytewritten]. *)
Fixpoint prepare_loop (fuel : nat) (mem : list bool) (deviceid : Z -> list byte) (bl : pnfs_block_layout) (buffer_size : Z)
    : option (res (list byte * Z) * pnfs_block_layout) :=
  match fuel with
  | O => None
  | S fuel =>
      let '(bl, p, count, lastbyte, ret) := ext_tree_encode_commit deviceid bl buffer_size in
      if negb (ret =? 0) then
        let buffer_size := ext_tree_layoutupdate_size bl count in
        let '(no_mem, mem) := next_alloc mem in
        if no_mem then Some (Err (- ENOMEM), bl)
        else
          let '(no_mem, mem) := next_alloc mem in
          if no_mem then Some (Err (- ENOMEM), bl)
          else prepare_loop fuel mem deviceid bl buffer_size
      else Some (Ok (be32 count ++ p, lastbyte), bl)
  end.
Definition ext_tree_prepare_commit (mem : list bool) (deviceid : Z -> list byte) (bl : pnfs_block_layout)
    : option (res (list byte * Z) * pnfs_block_layout) :=
  let '(no_mem, mem) := next_alloc mem in
  if no_mem then Some (Err (- ENOMEM), bl)
  else prepare_loop 2 mem deviceid bl BL_PAGE_SIZE.

Fixpoint committed_loop (fuel : nat) (status : Z) (l : list pnfs_block_extent) (i : nat) : option (list pnfs_block_extent) :=
  match fuel with
  | O => None
  | S fuel =>
      match l !! i with
      | None => Some l
      | Some be =>
          if negb (be_state be =? PNFS_BLOCK_INVALID_DATA) || negb (be_tag be =? EXTENT_COMMITTING)
          then committed_loop fuel status l (S i)
          else
            let be := if negb (status =? 0) then be <| be_tag := EXTENT_WRITTEN |>
                      else be <| be_state := PNFS_BLOCK_READWRITE_DATA |> <| be_tag := 0 |> in
            let '(l, i) := ext_try_to_merge_left (<[i := be]> l) i in
            let '(l, i) := ext_try_to_merge_right l i in
            committed_loop fuel status l (S i)
      end
  end.
Definition ext_tree_mark_committed (status : Z) (bl : pnfs_block_layout) : option pnfs_block_layout :=
  let l := extents (bl_ext_rw bl) in
  match committed_loop (S (length l)) status l 0 with
  | None => None
  | Some l => Some (bl <| bl_ext_rw := rb_shape (bl_ext_rw bl) l |>)
  end.
End Trees.
