(* ===== verification/ExtentMap.v ===== *)
(** * Extents as a map from sectors

    What a list of extents says about each sector of the file: state, device, sector of
    the device and, for extents without data, the tag.  Cutting and merging extents
    leave this map as it is; searching the tree finds the extent of a sector whatever
    the shape of the tree; inserting fills, and removing clears, exactly a range. *)

From S2P Require Import Prelude RbTree Xdr ExtentTree.
From stdpp Require Import list.
#[local] Open Scope Z_scope.

Ltac ext_lia := unfold ext_f_end, field_upd in *; cbn in *; lia.

Definition holds (be : pnfs_block_extent) (s : Z) : bool := (be_f_offset be <=? s) && (s <? ext_f_end be).

(** State, device, sector of the device, tag. *)
Definition image (be : pnfs_block_extent) (s : Z) : Z * Z * Z * Z :=
  (be_state be, be_device be,
   if be_state be =? PNFS_BLOCK_NONE_DATA then 0 else be_v_offset be + (s - be_f_offset be),
   if be_state be =? PNFS_BLOCK_INVALID_DATA then be_tag be else 0).

Fixpoint lay (l : list pnfs_block_extent) (s : Z) : option (Z * Z * Z * Z) :=
  match l with
  | [] => None
  | be :: l => if holds be s then Some (image be s) else lay l s
  end.

(** Extents in order from [lo] on, none of them empty and no two overlapping. *)
Fixpoint chain (lo : Z) (l : list pnfs_block_extent) : Prop :=
  match l with
  | [] => True
  | be :: l => lo <= be_f_offset be /\ 0 < be_length be /\ chain (ext_f_end be) l
  end.

(** Where a list ends. *)
Definition end_of (lo : Z) (l : list pnfs_block_extent) : Z := match last l with Some be => ext_f_end be | None => lo end.

Lemma holds_iff be s : holds be s = true <-> be_f_offset be <= s < ext_f_end be.
Proof. unfold holds. rewrite andb_true_iff, Z.leb_le, Z.ltb_lt. lia. Qed.

Lemma holds_false be s : holds be s = false <-> ~ (be_f_offset be <= s < ext_f_end be).
Proof. rewrite <- holds_iff. destruct (holds be s); split; congruence. Qed.

Lemma lay_app l1 l2 s : lay (l1 ++ l2) s = match lay l1 s with Some x => Some x | None => lay l2 s end.
Proof. induction l1 as [|be l1 IH]; simpl; [done|]. by destruct (holds be s). Qed.

Lemma end_of_cons lo be l : end_of lo (be :: l) = end_of (ext_f_end be) l.
Proof. unfold end_of. rewrite last_cons. by destruct (last l). Qed.

Lemma end_of_snoc lo be l : end_of lo (l ++ [be]) = ext_f_end be.
Proof. unfold end_of. by rewrite last_snoc. Qed.

Lemma chain_app lo l1 l2 : chain lo (l1 ++ l2) <-> chain lo l1 /\ chain (end_of lo l1) l2.
Proof.
  revert lo. induction l1 as [|be l1 IH]; intros lo; simpl; [unfold end_of; simpl; tauto|].
  rewrite IH, end_of_cons. tauto.
Qed.

Lemma chain_le lo lo' l : lo' <= lo -> chain lo l -> chain lo' l.
Proof. destruct l as [|be l]; simpl; [done|]. intros ? (? & ? & ?). split_and!; try done. lia. Qed.

Lemma chain_end lo l : chain lo l -> lo <= end_of lo l.
Proof.
  revert lo. induction l as [|be l IH]; intros lo; [unfold end_of; simpl; lia|]. rewrite end_of_cons. simpl. intros (? & ? & C).
  specialize (IH _ C). unfold ext_f_end in *. lia.
Qed.

Lemma chain_start lo be l : chain lo l -> be ∈ l -> lo <= be_f_offset be /\ 0 < be_length be /\ ext_f_end be <= end_of lo l.
Proof.
  revert lo. induction l as [|b l IH]; intros lo; [by intros _ H%elem_of_nil|]. rewrite end_of_cons. simpl. intros (H1 & H2 & C) [->|Hin]%elem_of_cons.
  - pose proof (chain_end _ _ C). lia.
  - destruct (IH _ C Hin) as (? & ? & ?). unfold ext_f_end in *. split_and!; lia.
Qed.

Lemma lay_below lo l s : chain lo l -> s < lo -> lay l s = None.
Proof.
  revert lo. induction l as [|be l IH]; intros lo; simpl; [done|]. intros (H1 & H2 & C) Hs.
  rewrite (proj2 (holds_false be s)) by lia. apply (IH _ C). unfold ext_f_end in *. lia.
Qed.

Lemma lay_above lo l s : chain lo l -> end_of lo l <= s -> lay l s = None.
Proof.
  revert lo. induction l as [|be l IH]; intros lo; simpl; [done|]. rewrite end_of_cons. intros (H1 & H2 & C) Hs.
  pose proof (chain_end _ _ C). rewrite (proj2 (holds_false be s)) by lia. by apply (IH _ C).
Qed.

(** ** Merging *)

Lemma can_merge_iff a b : ext_can_merge a b = true <->
  be_state a = be_state b /\ be_device a = be_device b /\ ext_f_end a = be_f_offset b /\
  (be_state a <> PNFS_BLOCK_NONE_DATA -> be_v_offset a + be_length a = be_v_offset b) /\
  (be_state a = PNFS_BLOCK_INVALID_DATA -> be_tag a = be_tag b).
Proof.
  unfold ext_can_merge, ext_f_end.
  destruct (Z.eqb_spec (be_state a) (be_state b)), (Z.eqb_spec (be_device a) (be_device b)),
    (Z.eqb_spec (be_f_offset a + be_length a) (be_f_offset b)), (Z.eqb_spec (be_state a) PNFS_BLOCK_NONE_DATA),
    (Z.eqb_spec (be_v_offset a + be_length a) (be_v_offset b)), (Z.eqb_spec (be_state a) PNFS_BLOCK_INVALID_DATA),
    (Z.eqb_spec (be_tag a) (be_tag b)); simpl; split; try done; try tauto; intros (? & ? & ? & ? & ?); tauto.
Qed.

(** [m] covers [a] and [b], which meet, with what both say. *)
Definition joins (a b m : pnfs_block_extent) : Prop :=
  be_f_offset m = be_f_offset a /\ ext_f_end m = ext_f_end b /\ ext_f_end a = be_f_offset b /\
  forall s, (holds a s = true -> image m s = image a s) /\ (holds b s = true -> image m s = image b s).

Lemma merge_joins a b : ext_can_merge a b = true -> joins a b (a <| be_length := be_length a + be_length b |>).
Proof.
  intros (Es & Ed & Ee & Ev & Et)%can_merge_iff. unfold joins, ext_f_end in *. split_and!; try done; [unfold field_upd; cbn; lia|].
  intros s. split; [done|]. intros _. unfold image, field_upd. cbn. rewrite <- Es, <- Ed.
  assert (be_state a <> PNFS_BLOCK_NONE_DATA -> be_v_offset a + (s - be_f_offset a) = be_v_offset b + (s - be_f_offset b)) as Ev'.
  { intros N. specialize (Ev N). lia. }
  destruct (Z.eqb_spec (be_state a) PNFS_BLOCK_NONE_DATA), (Z.eqb_spec (be_state a) PNFS_BLOCK_INVALID_DATA);
    rewrite ?Et, ?Ev' by done; done.
Qed.

(** The new extent in front of [be], as [__ext_tree_insert] extends [be]. *)
Lemma extend_joins new be v : ext_can_merge new be = true ->
  v = (if negb (be_state be =? PNFS_BLOCK_NONE_DATA) then be_v_offset new else be_v_offset be) ->
  joins new be (be <| be_f_offset := be_f_offset new |> <| be_v_offset := v |> <| be_length := be_length be + be_length new |>).
Proof.
  intros (Es & Ed & Ee & Ev & Et)%can_merge_iff ->. unfold joins, ext_f_end in *. split_and!; try done; [unfold field_upd; cbn; lia|].
  intros s. unfold image, field_upd. cbn. rewrite <- Es, <- Ed.
  assert (be_state new <> PNFS_BLOCK_NONE_DATA -> be_v_offset be + (s - be_f_offset be) = be_v_offset new + (s - be_f_offset new)) as Ev'.
  { intros N. specialize (Ev N). lia. }
  destruct (Z.eqb_spec (be_state new) PNFS_BLOCK_NONE_DATA), (Z.eqb_spec (be_state new) PNFS_BLOCK_INVALID_DATA);
    rewrite ?Et by done; simpl; rewrite ?Ev' by done; done.
Qed.

Lemma joins_chain lo l1 a b m l2 : joins a b m -> chain lo (l1 ++ a :: b :: l2) ->
  chain lo (l1 ++ m :: l2) /\ forall s, lay (l1 ++ m :: l2) s = lay (l1 ++ a :: b :: l2) s.
Proof.
  intros (J1 & J2 & J3 & J4) C. rewrite chain_app in C |- *. simpl in *. destruct C as (C1 & H1 & H2 & H3 & H4 & C2).
  unfold ext_f_end in *. split.
  - split_and!; try done; [lia|lia|]. by rewrite J2.
  - intros s. rewrite !lay_app. destruct (lay l1 s); [done|]. simpl. destruct (J4 s) as [Ja Jb].
    destruct (holds a s) eqn:Ha; [apply holds_iff in Ha as Ha'; rewrite (proj2 (holds_iff m s)) by (unfold ext_f_end in *; lia); by rewrite Ja|].
    destruct (holds b s) eqn:Hb; [apply holds_iff in Hb as Hb'; rewrite (proj2 (holds_iff m s)) by (unfold ext_f_end in *; lia); by rewrite Jb|].
    rewrite holds_false in Ha, Hb. rewrite (proj2 (holds_false m s)); [done|]. unfold ext_f_end in *. lia.
Qed.

(** ** Searching *)

Lemma lookup_lay lo t s : chain lo (extents t) -> lay (extents t) s = (fun be => image be s) <$> __ext_tree_lookup t s.
Proof.
  revert lo. induction t as [|l IHl be r IHr]; intros lo; simpl; [done|]. rewrite chain_app. simpl. intros (C1 & H1 & H2 & C2).
  rewrite lay_app. simpl. destruct (Z.ltb_spec s (be_f_offset be)).
  - rewrite <- (IHl lo C1). rewrite (proj2 (holds_false be s)) by lia. rewrite (lay_below (ext_f_end be) (extents r)) by (try done; unfold ext_f_end in *; lia).
    by destruct (lay (extents l) s).
  - rewrite (lay_above lo (extents l)) by (try done; lia). destruct (Z.leb_spec (ext_f_end be) s).
    + rewrite (proj2 (holds_false be s)) by lia. by apply (IHr _ C2).
    + by rewrite (proj2 (holds_iff be s)) by lia.
Qed.

Definition ends_by (s : Z) (l : list pnfs_block_extent) : Prop := Forall (fun be => ext_f_end be <= s) l.
Definition starts_from (s : Z) (l : list pnfs_block_extent) : Prop := Forall (fun be => s <= be_f_offset be) l.

Lemma chain_ends lo l s : chain lo l -> end_of lo l <= s -> ends_by s l.
Proof. intros C H. apply Forall_forall. intros be Hin. destruct (chain_start lo be l C Hin) as (? & ? & ?). lia. Qed.

Lemma chain_starts lo l s : chain lo l -> s <= lo -> starts_from s l.
Proof. intros C H. apply Forall_forall. intros be Hin. destruct (chain_start lo be l C Hin) as (? & ? & ?). lia. Qed.

Lemma end_of_ends lo l x : lo <= x -> ends_by x l -> end_of lo l <= x.
Proof.
  intros Hlo E. unfold end_of. destruct (last l) as [be|] eqn:El; [|done]. apply last_Some in El as [k ->].
  apply Forall_app in E as [_ E]. by apply Forall_cons in E as [? _].
Qed.

Lemma search_descent_spec lo t start base prev :
  chain lo (extents t) ->
  match search_descent t start base prev with
  | inl i => exists l1 be l2, extents t = l1 ++ be :: l2 /\ i = (base + length l1)%nat /\ ends_by start l1 /\ be_f_offset be <= start < ext_f_end be
  | inr o => exists l1 l2, extents t = l1 ++ l2 /\ ends_by start l1 /\ starts_from (start + 1) l2 /\
      ((extents t = [] /\ o = prev) \/ (exists be l2', l2 = be :: l2' /\ o = Some ((base + length l1)%nat, be)) \/
       (exists be l1', l1 = l1' ++ [be] /\ o = Some ((base + length l1')%nat, be)))
  end.
Proof.
  revert lo base prev. induction t as [|l IHl be r IHr]; intros lo base prev; simpl.
  { intros _. exists [], []. split_and!; [done|constructor..|]. by left. }
  rewrite chain_app. simpl. intros (C1 & H1 & H2 & C2). destruct (Z.ltb_spec start (be_f_offset be)) as [Lt|Ge].
  - specialize (IHl lo base (Some ((base + length (extents l))%nat, be)) C1).
    assert (starts_from (start + 1) (be :: extents r)) as Sr.
    { constructor; [lia|]. apply (chain_starts (ext_f_end be)); [done|]. unfold ext_f_end. lia. }
    destruct (search_descent l _ _ _) as [i|o].
    + destruct IHl as (l1 & b & l2 & E & -> & Hb & Hs). exists l1, b, (l2 ++ be :: extents r). rewrite E, <- app_assoc. done.
    + destruct IHl as (l1 & l2 & E & Hb & Hs & D). exists l1, (l2 ++ be :: extents r). rewrite E, <- app_assoc. split; [done|]. split; [done|]. split; [by apply Forall_app|].
      right. destruct D as [[E0 ->]|[(b & l2' & -> & ->)|(b & l1' & -> & ->)]].
        -- left. destruct l1, l2; rewrite ?E0 in E; try done. exists be, (extents r). split; [done|]. by rewrite E0.
        -- left. by exists b, (l2' ++ be :: extents r).
        -- right. by exists b, l1'.
  - assert (ends_by start (extents l)) as El by (apply (chain_ends lo); [done|lia]).
    destruct (Z.leb_spec (ext_f_end be) start) as [Le|Gt].
    + specialize (IHr _ (S (base + length (extents l))) (Some ((base + length (extents l))%nat, be)) C2).
      assert (ends_by start (extents l ++ [be])) as Elb by (apply Forall_app; split; [done|by constructor]).
      destruct (search_descent r _ _ _) as [i|o].
      * destruct IHr as (l1 & b & l2 & E & -> & Hb & Hs). exists (extents l ++ be :: l1), b, l2. rewrite E, <- app_assoc, length_app. simpl. split; [done|]. split; [lia|]. split; [|done].
        change (be :: l1) with ([be] ++ l1). rewrite app_assoc. by apply Forall_app.
      * destruct IHr as (l1 & l2 & E & Hb & Hs & D). exists (extents l ++ be :: l1), l2. rewrite E, <- app_assoc. split; [done|]. split; [|split; [done|]].
        { change (be :: l1) with ([be] ++ l1). rewrite app_assoc. by apply Forall_app. }
        right. destruct D as [[E0 ->]|[(b & l2' & -> & ->)|(b & l1' & -> & ->)]].
        -- right. destruct l1, l2; rewrite ?E0 in E; try done. by exists be, (extents l).
        -- left. exists b, l2'. split; [done|]. rewrite length_app. simpl. do 2 f_equal. lia.
        -- right. exists b, (extents l ++ be :: l1'). rewrite <- app_assoc, length_app. simpl. split; [done|]. do 2 f_equal. lia.
    + exists (extents l), be, (extents r). done.
Qed.

(** The search finds the first extent that ends after [start], in any tree. *)
Lemma search_spec lo t start : chain lo (extents t) ->
  match __ext_tree_search t start with
  | Some i => exists l1 be l2, extents t = l1 ++ be :: l2 /\ i = length l1 /\ ends_by start l1 /\ start < ext_f_end be
  | None => ends_by start (extents t)
  end.
Proof.
  intros C. unfold __ext_tree_search. pose proof (search_descent_spec lo t start 0 None C) as S.
  destruct (search_descent t start 0 None) as [i|o].
  - destruct S as (l1 & be & l2 & E & -> & Hb & Hs). exists l1, be, l2. split_and!; try done. lia.
  - destruct S as (l1 & l2 & E & Hb & Hs & [[E0 ->]|[(be & l2' & -> & ->)|(be & l1' & -> & ->)]]).
    + rewrite E0. constructor.
    + apply Forall_cons in Hs as [Hs _]. rewrite (proj2 (Z.ltb_lt _ _)) by lia. exists l1, be, l2'. split_and!; try done.
      rewrite E, chain_app in C. simpl in C. unfold ext_f_end. lia.
    + apply Forall_app in Hb as Hb'. destruct Hb' as [_ Hb']. apply Forall_cons in Hb' as [Hbe _].
      rewrite E, chain_app, chain_app in C. simpl in C. destruct C as ((_ & _ & Pl & _) & C2). unfold ext_f_end in Hbe.
      rewrite (proj2 (Z.ltb_ge _ _)) by lia. rewrite (proj2 (Z.leb_le _ _)) by (unfold ext_f_end; lia).
      destruct (Nat.ltb_spec (S (0 + length l1')) (length (extents t))) as [L|G]; rewrite E, !length_app in *; simpl in *.
      * destruct l2 as [|b l2]; [simpl in *; lia|]. exists (l1' ++ [be]), b, l2. split_and!; [done|rewrite length_app; simpl; lia|done|].
        apply Forall_cons in Hs as [Hs _]. simpl in C2. unfold ext_f_end. lia.
      * destruct l2; [|simpl in *; lia]. by rewrite app_nil_r.
Qed.

(** ** Extents without data that could be one *)

Definition unwritten (be : pnfs_block_extent) : Prop := be_state be = PNFS_BLOCK_INVALID_DATA /\ be_tag be = 0.
Definition apart (a b : pnfs_block_extent) : Prop := unwritten a -> unwritten b -> ext_can_merge a b = false.

(** No two neighbours without data and not written are one extent cut in two. *)
Fixpoint settled (l : list pnfs_block_extent) : Prop :=
  match l with
  | [] => True
  | a :: l => (match l with [] => True | b :: _ => apart a b end) /\ settled l
  end.

Lemma settled_app l1 l2 : settled (l1 ++ l2) <->
  settled l1 /\ settled l2 /\ forall a b, last l1 = Some a -> head l2 = Some b -> apart a b.
Proof.
  induction l1 as [|a l1 IH]; simpl; [naive_solver|]. rewrite IH. destruct l1 as [|a' l1]; simpl.
  - destruct l2 as [|b l2]; simpl; naive_solver.
  - naive_solver.
Qed.

Lemma settled_mid l1 a l2 : settled (l1 ++ a :: l2) <->
  settled l1 /\ settled l2 /\ (forall b, last l1 = Some b -> apart b a) /\ (forall b, head l2 = Some b -> apart a b).
Proof.
  rewrite settled_app. destruct l2 as [|c l2]; simpl.
  - split; [intros (H1 & _ & H2)|intros (H1 & _ & H2 & _)]; split_and!; try done.
    + intros b Hb. by apply H2.
    + intros b c Hb [= <-]. by apply H2.
  - split; [intros (H1 & (H2 & H3) & H4)|intros (H1 & H3 & H2 & H4)]; split_and!; try tauto.
    + intros b Hb. by apply H4.
    + intros b [= <-]. done.
    + by apply H4.
    + intros b d Hb [= <-]. by apply H2.
Qed.

Lemma settled_mid2 l1 a b l2 : settled (l1 ++ a :: b :: l2) <->
  settled l1 /\ settled l2 /\ (forall c, last l1 = Some c -> apart c a) /\ apart a b /\ (forall c, head l2 = Some c -> apart b c).
Proof.
  rewrite settled_mid. pose proof (settled_mid [] b l2) as E. cbn [app] in E. rewrite E. simpl.
  split; [intros (? & (_ & ? & _ & ?) & ? & Hb)|intros (? & ? & ? & Hb & ?)]; split_and!; try done; [by apply Hb|by intros c [= <-]].
Qed.

(** Extents that end after [x]. *)
Definition nafter (x : Z) (l : list pnfs_block_extent) : nat := length (List.filter (fun be => x <? ext_f_end be) l).

Lemma nafter_app x l1 l2 : nafter x (l1 ++ l2) = (nafter x l1 + nafter x l2)%nat.
Proof. unfold nafter. by rewrite List.filter_app, length_app. Qed.

Lemma nafter_cons x be l : nafter x (be :: l) = ((if (x <? ext_f_end be)%Z then 1 else 0) + nafter x l)%nat.
Proof. unfold nafter. simpl. by destruct (x <? ext_f_end be). Qed.

Lemma nafter_le x l : (nafter x l <= length l)%nat.
Proof. unfold nafter. apply filter_length_le. Qed.

Lemma nafter_none x l : ends_by x l -> nafter x l = 0%nat.
Proof. induction 1 as [|be l H _ IH]; [done|]. rewrite nafter_cons, IH, (proj2 (Z.ltb_ge _ _)) by done. done. Qed.

(** ** Inserting *)

(** The extents of [l] leave room for [new]. *)
Definition room (new : pnfs_block_extent) (l : list pnfs_block_extent) : Prop :=
  Forall (fun be => ext_f_end be <= be_f_offset new \/ ext_f_end new <= be_f_offset be) l.

Lemma insert_descent_spec lo t new merge_ok base :
  chain lo (extents t) -> 0 < be_length new -> room new (extents t) ->
  match insert_descent t new merge_ok base with
  | At_bug => False
  | At_link i => exists l1 l2, extents t = l1 ++ l2 /\ i = (base + length l1)%nat /\
      ends_by (be_f_offset new) l1 /\ starts_from (ext_f_end new) l2 /\
      (merge_ok = true -> (forall be, last l1 = Some be -> ext_can_merge be new = false) /\
                          (forall be, head l2 = Some be -> ext_can_merge new be = false))
  | At_left i => exists l1 be l2, extents t = l1 ++ be :: l2 /\ i = (base + length l1)%nat /\ ends_by (be_f_offset new) l1 /\
      ext_can_merge new be = true
  | At_right i => exists l1 be l2, extents t = l1 ++ be :: l2 /\ i = (base + length l1)%nat /\ starts_from (ext_f_end new) l2 /\
      ext_can_merge be new = true
  end.
Proof.
  intros C Pn. revert lo base C. induction t as [|l IHl be r IHr]; intros lo base; simpl.
  { intros _ _. exists [], []. split_and!; try done; constructor. }
  rewrite chain_app. simpl. intros (C1 & H1 & H2 & C2) R. apply Forall_app in R as [R1 [R2 R3]%Forall_cons].
  destruct (Z.ltb_spec (be_f_offset new) (be_f_offset be)) as [Lt|Ge].
  - assert (ext_f_end new <= be_f_offset be) as Hn by (unfold ext_f_end in *; lia).
    assert (starts_from (ext_f_end new) (be :: extents r)) as Sr.
    { constructor; [done|]. apply (chain_starts (ext_f_end be)); [done|]. unfold ext_f_end in *. lia. }
    destruct (merge_ok && ext_can_merge new be) eqn:Em.
    + apply andb_true_iff in Em as [_ Em]. exists (extents l), be, (extents r). split_and!; try done. apply Forall_forall. intros b Hb.
      rewrite Forall_forall in R1. destruct (chain_start lo b _ C1 Hb) as (? & ? & ?). destruct (R1 b Hb) as [?|?]; [done|].
      apply can_merge_iff in Em as (_ & _ & Ee & _). unfold ext_f_end in *. lia.
    + specialize (IHl lo base C1 R1). destruct (insert_descent l new merge_ok base) as [i|i|i|].
      * destruct IHl as (l1 & b & l2 & E & -> & Hb & Hm). exists l1, b, (l2 ++ be :: extents r). by rewrite E, <- app_assoc.
      * destruct IHl as (l1 & b & l2 & E & -> & Hb & Hm). exists l1, b, (l2 ++ be :: extents r). rewrite E, <- app_assoc. split_and!; try done.
        by apply Forall_app.
      * destruct IHl as (l1 & l2 & E & -> & Hb & Hs & Hm). exists l1, (l2 ++ be :: extents r). rewrite E, <- app_assoc. split_and!; try done.
        { by apply Forall_app. }
        intros Em'. destruct (Hm Em') as [M1 M2]. split; [done|]. intros b. destruct l2 as [|b2 l2]; simpl; [|by apply M2].
        intros [= <-]. by rewrite Em' in Em.
      * done.
  - assert (ext_f_end be <= be_f_offset new) as Hn by (destruct R2; [done|unfold ext_f_end in *; lia]).
    rewrite (proj2 (Z.leb_le _ _)) by done.
    assert (ends_by (be_f_offset new) (extents l ++ [be])) as Sl.
    { apply Forall_app. split; [apply (chain_ends lo); [done|unfold ext_f_end in *; lia]|by constructor]. }
    destruct (merge_ok && ext_can_merge be new) eqn:Em.
    + apply andb_true_iff in Em as [_ Em]. exists (extents l), be, (extents r). split_and!; try done. apply Forall_forall. intros b Hb.
      rewrite Forall_forall in R3. destruct (chain_start _ b _ C2 Hb) as (? & ? & ?). destruct (R3 b Hb) as [?|?]; [|done].
      apply can_merge_iff in Em as (_ & _ & Ee & _). unfold ext_f_end in *. lia.
    + specialize (IHr _ (S (base + length (extents l))) C2 R3). destruct (insert_descent r new merge_ok _) as [i|i|i|].
      * destruct IHr as (l1 & b & l2 & E & -> & Hb & Hm). exists (extents l ++ be :: l1), b, l2. rewrite E, <- app_assoc, length_app. simpl. split_and!; try done; [lia|].
        change (be :: l1) with ([be] ++ l1). rewrite app_assoc. by apply Forall_app.
      * destruct IHr as (l1 & b & l2 & E & -> & Hb & Hm). exists (extents l ++ be :: l1), b, l2. rewrite E, <- app_assoc, length_app. simpl. split_and!; try done. lia.
      * destruct IHr as (l1 & l2 & E & -> & Hb & Hs & Hm). exists (extents l ++ be :: l1), l2. rewrite E, <- app_assoc, length_app. simpl. split_and!; try done; [lia| |].
        { change (be :: l1) with ([be] ++ l1). rewrite app_assoc. by apply Forall_app. }
        intros Em'. destruct (Hm Em') as [M1 M2]. split; [|done]. intros b. rewrite last_app_cons. destruct l1 as [|b1 l1]; [|by rewrite last_cons_cons; apply M1].
        simpl. intros [= <-]. by rewrite Em' in Em.
      * done.
Qed.

Lemma mid_lookup (l1 : list pnfs_block_extent) be l2 : (l1 ++ be :: l2) !! length l1 = Some be.
Proof. by rewrite lookup_app_r, Nat.sub_diag. Qed.

Lemma mid_insert (l1 : list pnfs_block_extent) be be' l2 : <[length l1 := be']> (l1 ++ be :: l2) = l1 ++ be' :: l2.
Proof. by rewrite insert_app_r_alt, Nat.sub_diag. Qed.

Lemma merge_left_first be l : ext_try_to_merge_left (be :: l) 0 = (be :: l, 0%nat).
Proof. done. Qed.

Lemma merge_left_mid l1 prev be l2 :
  ext_try_to_merge_left (l1 ++ prev :: be :: l2) (S (length l1)) =
  if ext_can_merge prev be then (l1 ++ prev <| be_length := be_length prev + be_length be |> :: l2, length l1)
  else (l1 ++ prev :: be :: l2, S (length l1)).
Proof.
  unfold ext_try_to_merge_left. rewrite mid_lookup.
  assert ((l1 ++ prev :: be :: l2) !! S (length l1) = Some be) as ->.
  { rewrite lookup_app_r by lia. by replace (S (length l1) - length l1)%nat with 1%nat by lia. }
  destruct (ext_can_merge prev be); [|done]. f_equal. rewrite mid_insert.
  set (m := prev <| be_length := _ |>). change (l1 ++ m :: be :: l2) with (l1 ++ [m] ++ be :: l2). rewrite app_assoc.
  replace (S (length l1)) with (length (l1 ++ [m])) by (rewrite length_app; simpl; lia). by rewrite delete_middle, <- app_assoc.
Qed.

Lemma merge_right_last l1 be : ext_try_to_merge_right (l1 ++ [be]) (length l1) = (l1 ++ [be], length l1).
Proof.
  unfold ext_try_to_merge_right. rewrite mid_lookup. by rewrite (lookup_ge_None_2 _ (S (length l1))) by (rewrite length_app; simpl; lia).
Qed.

Lemma merge_right_mid l1 be next l2 :
  ext_try_to_merge_right (l1 ++ be :: next :: l2) (length l1) =
  if ext_can_merge be next then (l1 ++ be <| be_length := be_length be + be_length next |> :: l2, length l1)
  else (l1 ++ be :: next :: l2, length l1).
Proof.
  unfold ext_try_to_merge_right. rewrite mid_lookup.
  assert ((l1 ++ be :: next :: l2) !! S (length l1) = Some next) as ->.
  { rewrite lookup_app_r by lia. by replace (S (length l1) - length l1)%nat with 1%nat by lia. }
  destruct (ext_can_merge be next); [|done]. f_equal. rewrite mid_insert.
  set (m := be <| be_length := _ |>). change (l1 ++ m :: next :: l2) with (l1 ++ [m] ++ next :: l2). rewrite app_assoc.
  replace (S (length l1)) with (length (l1 ++ [m])) by (rewrite length_app; simpl; lia). by rewrite delete_middle, <- app_assoc.
Qed.

Lemma apart_same_end m b x :
  be_state m = be_state b -> be_device m = be_device b -> (be_state b = PNFS_BLOCK_INVALID_DATA -> be_tag m = be_tag b) ->
  ext_f_end m = ext_f_end b -> (be_state b <> PNFS_BLOCK_NONE_DATA -> be_v_offset m + be_length m = be_v_offset b + be_length b) ->
  apart b x -> apart m x.
Proof.
  intros Es Ed Et Ee Ev A [Fm1 Fm2] Fx. destruct (ext_can_merge m x) eqn:M; [|done].
  apply can_merge_iff in M as (M1 & M2 & M3 & M4 & M5). rewrite <- A; [|split; [congruence|rewrite <- Et; congruence]|done].
  symmetry. apply can_merge_iff. rewrite <- Ee, <- Es, <- Ed. split_and!; try done.
  - intros N. rewrite <- Ev by congruence. by apply M4.
  - intros E. rewrite <- Et by congruence. by apply M5.
Qed.

Lemma apart_same_start m b x :
  be_state m = be_state b -> be_device m = be_device b -> be_tag m = be_tag b -> be_f_offset m = be_f_offset b ->
  be_v_offset m = be_v_offset b -> apart x b -> apart x m.
Proof.
  intros Es Ed Et Eo Ev A Fx [Fm1 Fm2]. destruct (ext_can_merge x m) eqn:M; [|done].
  apply can_merge_iff in M as (M1 & M2 & M3 & M4 & M5). rewrite <- A; [|done|split; congruence].
  symmetry. apply can_merge_iff. by rewrite <- Eo, <- Es, <- Ed, <- Ev, <- Et.
Qed.

Lemma unmerged_apart a b : ext_can_merge a b = false -> apart a b.
Proof. by intros H _ _. Qed.

(** A new extent between two others. *)
Lemma placed lo l1 l2 new :
  chain lo (l1 ++ l2) -> lo <= be_f_offset new -> 0 < be_length new ->
  ends_by (be_f_offset new) l1 -> starts_from (ext_f_end new) l2 ->
  chain lo (l1 ++ new :: l2) /\
  forall s, lay (l1 ++ new :: l2) s = if holds new s then Some (image new s) else lay (l1 ++ l2) s.
Proof.
  rewrite !chain_app. simpl. intros [C1 C2] Hlo Pn E1 S2.
  assert (end_of lo l1 <= be_f_offset new) as He.
  { by apply end_of_ends. }
  split.
  - split_and!; try done. destruct l2 as [|b l2]; simpl in *; [done|]. apply Forall_cons in S2 as [? _]. tauto.
  - intros s. rewrite !lay_app. simpl. destruct (holds new s) eqn:H; [|done]. apply holds_iff in H.
    rewrite (lay_above lo l1); [done|done|lia].
Qed.

(** What an insertion does to the map. *)
Definition inserted (lo : Z) (new : pnfs_block_extent) (l l' : list pnfs_block_extent) : Prop :=
  chain lo l' /\ (forall s, lay l' s = if holds new s then Some (image new s) else lay l s) /\
  (settled l -> settled l') /\ (forall x, ext_f_end new <= x -> (nafter x l' <= nafter x l)%nat).

Lemma insert_left lo l1 l2 be new v :
  chain lo (l1 ++ be :: l2) -> lo <= be_f_offset new -> 0 < be_length new ->
  ends_by (be_f_offset new) l1 -> ext_can_merge new be = true ->
  v = (if negb (be_state be =? PNFS_BLOCK_NONE_DATA) then be_v_offset new else be_v_offset be) ->
  let be' := be <| be_f_offset := be_f_offset new |> <| be_v_offset := v |> <| be_length := be_length be + be_length new |> in
  inserted lo new (l1 ++ be :: l2) (fst (ext_try_to_merge_left (l1 ++ be' :: l2) (length l1))).
Proof.
  intros C Hlo Pn E1 M Ev be'. pose proof M as (Ms & Md & Me & Mv & Mt)%can_merge_iff.
  pose proof (extend_joins new be v M Ev) as J. fold be' in J.
  assert (starts_from (ext_f_end new) (be :: l2)) as S2.
  { rewrite chain_app in C. simpl in C. constructor; [lia|]. apply (chain_starts (ext_f_end be)); [tauto|]. ext_lia. }
  destruct (placed lo l1 (be :: l2) new C Hlo Pn E1 S2) as [C' La].
  destruct (joins_chain lo l1 new be be' l2 J C') as [C2 Lb].
  assert (ext_f_end be' = ext_f_end be) as Ee by (destruct J as (_ & J2 & _); done).
  assert (forall x, apart be x -> apart be' x) as Ax.
  { intros x. apply apart_same_end; try done. intros N. unfold be', field_upd. cbn. rewrite Ev.
    rewrite (proj2 (Z.eqb_neq _ _)) by done. cbn. specialize (Mv ltac:(congruence)). lia. }
  destruct l1 as [|prev k _] using rev_ind; rewrite <- ?app_assoc in *; cbn [app] in *.
  - cbn [app length]. rewrite merge_left_first. cbn [fst]. split_and!; [done|intros s; by rewrite Lb, La| |].
    + intros (_ & S & _ & A)%(settled_mid [] be l2). apply (settled_mid [] be' l2). split_and!; try done. intros b Hb. by apply Ax, A.
    + intros x _. rewrite !nafter_cons. by rewrite Ee.
  - rewrite length_app, Nat.add_1_r, merge_left_mid. destruct (ext_can_merge prev be') eqn:Mp; cbn [fst].
    + pose proof Mp as (Ps & Pd & Pe & Pv & Pt)%can_merge_iff.
      destruct (joins_chain lo k prev be' _ l2 (merge_joins prev be' Mp) C2) as [C3 Lc]. split_and!; [done|intros s; by rewrite Lc, Lb, La| |].
      * intros (S1 & S & A0 & A1 & A2)%settled_mid2.
        apply settled_mid. split_and!; try done.
        intros b Hb. apply (apart_same_end _ be'); [done|done|intros N; apply Pt; congruence|ext_lia| |by apply Ax, A2].
        intros N. specialize (Pv ltac:(congruence)). ext_lia.
      * intros x Hx. rewrite !nafter_app, !nafter_cons.
        assert (ext_f_end (prev <| be_length := be_length prev + be_length be' |>) = ext_f_end be) as -> by (ext_lia). lia.
    + split_and!; [done|intros s; by rewrite Lb, La| |].
      * intros (S1 & S & A0 & A1 & A2)%settled_mid2. apply settled_mid2. split_and!; try done.
        -- by apply unmerged_apart.
        -- intros b Hb. by apply Ax, A2.
      * intros x Hx. rewrite !nafter_app, !nafter_cons. by rewrite Ee.
Qed.

Lemma insert_right lo l1 l2 be new :
  chain lo (l1 ++ be :: l2) -> lo <= be_f_offset new -> 0 < be_length new ->
  starts_from (ext_f_end new) l2 -> ext_can_merge be new = true ->
  inserted lo new (l1 ++ be :: l2) (fst (ext_try_to_merge_right (l1 ++ be <| be_length := be_length be + be_length new |> :: l2) (length l1))).
Proof.
  intros C Hlo Pn S2 M. set (be' := be <| be_length := _ |>). pose proof M as (Ms & Md & Me & Mv & Mt)%can_merge_iff.
  pose proof (merge_joins be new M) as J. fold be' in J.
  assert (ends_by (be_f_offset new) (l1 ++ [be])) as E1.
  { rewrite <- Me. apply Forall_app. split; [|constructor; [lia|constructor]]. rewrite chain_app in C. simpl in C.
    apply (chain_ends lo); [tauto|]. ext_lia. }
  pose proof C as C0. change (be :: l2) with ([be] ++ l2) in C0. rewrite app_assoc in C0.
  destruct (placed lo (l1 ++ [be]) l2 new C0 Hlo Pn E1 S2) as [C' La]. rewrite <- app_assoc in C'.
  assert (forall s, lay (l1 ++ be :: new :: l2) s = if holds new s then Some (image new s) else lay (l1 ++ be :: l2) s) as La'.
  { intros s. specialize (La s). by rewrite <- !app_assoc in La. }
  clear La. cbn [app] in C'.
  destruct (joins_chain lo l1 be new be' l2 J C') as [C2 Lb].
  destruct l2 as [|next k].
  - rewrite merge_right_last. cbn [fst]. split_and!; [done|intros s; by rewrite Lb, La'| |].
    + intros (S1 & _ & A1 & _)%settled_mid. apply settled_mid. by split_and!.
    + intros x Hx. rewrite !nafter_app, !nafter_cons. rewrite (proj2 (Z.ltb_ge x (ext_f_end be'))); [lia|]. ext_lia.
  - rewrite merge_right_mid. destruct (ext_can_merge be' next) eqn:Mp; cbn [fst].
    + pose proof Mp as (Ps & Pd & Pe & Pv & Pt)%can_merge_iff.
      destruct (joins_chain lo l1 be' next _ k (merge_joins be' next Mp) C2) as [C3 Lc]. split_and!; [done|intros s; by rewrite Lc, Lb, La'| |].
      * intros (S1 & S & A1 & A2)%settled_mid. apply (settled_mid [] next k) in S as (_ & S & _ & A3). apply settled_mid. split_and!; try done.
        intros b Hb. apply (apart_same_end _ next); [done|done|intros N; by rewrite <- Pt; [|rewrite Ps]|ext_lia| |by apply A3].
        intros N. specialize (Pv ltac:(congruence)). ext_lia.
      * intros x Hx. rewrite !nafter_app, !nafter_cons.
        assert (ext_f_end (be' <| be_length := be_length be' + be_length next |>) = ext_f_end next) as -> by (ext_lia). lia.
    + split_and!; [done|intros s; by rewrite Lb, La'| |].
      * intros (S1 & S & A1 & A2)%settled_mid. apply settled_mid. split_and!; try done.
        intros b [= <-]. by apply unmerged_apart.
      * intros x Hx. rewrite !nafter_app, !nafter_cons. rewrite (proj2 (Z.ltb_ge x (ext_f_end be'))); [lia|]. ext_lia.
Qed.
