(* ===== verification/ExtentInsert.v ===== *)
(** * Inserting extents and removing ranges

    What [__ext_tree_insert], [__ext_tree_remove] and [ext_tree_insert] do to the map
    from sectors, in a tree of any shape. *)

From S2P Require Import Prelude RbTree Xdr ExtentTree ExtentMap.
From stdpp Require Import list.
#[local] Open Scope Z_scope.

Lemma insert_elements_sem lo t new :
  chain lo (extents t) -> lo <= be_f_offset new -> 0 < be_length new -> room new (extents t) ->
  exists l', insert_elements t new true = Some l' /\ inserted lo new (extents t) l'.
Proof.
  intros C Hlo Pn R. unfold insert_elements. pose proof (insert_descent_spec lo t new true 0 C Pn R) as D.
  destruct (insert_descent t new true 0) as [i|i|i|].
  - destruct D as (l1 & be & l2 & E & -> & Hb & Hm). rewrite E in *. cbn [Nat.add]. rewrite mid_lookup, mid_insert. eexists. split; [done|].
    by apply insert_left.
  - destruct D as (l1 & be & l2 & E & -> & Hb & Hm). rewrite E in *. cbn [Nat.add]. rewrite mid_lookup, mid_insert. eexists. split; [done|].
    by apply insert_right.
  - destruct D as (l1 & l2 & E & -> & Hb & Hs & Hm). rewrite E in *. cbn [Nat.add]. rewrite take_app_length, drop_app_length. eexists. split; [done|].
    destruct (placed lo l1 l2 new C Hlo Pn Hb Hs) as [C' La]. destruct (Hm eq_refl) as [M1 M2]. split_and!; [done|done| |].
    + intros (S1 & S2 & A)%settled_app. apply settled_mid. split_and!; try done; intros b Hl; apply unmerged_apart; auto.
    + intros x Hx. rewrite !nafter_app, nafter_cons, (proj2 (Z.ltb_ge _ _)) by done. lia.
  - done.
Qed.

(** Only one place is free for the new extent. *)
Lemma place_unique lo x y l1 l2 k1 k2 :
  chain lo (l1 ++ l2) -> x < y -> l1 ++ l2 = k1 ++ k2 -> ends_by x l1 -> starts_from y l2 -> ends_by x k1 -> starts_from y k2 -> l1 = k1 /\ l2 = k2.
Proof.
  intros C Hxy E. revert lo k1 C E. induction l1 as [|a l1 IH]; intros lo [|b k1] C E; simpl in *.
  - done.
  - intros _ S1 E2 _. subst l2. apply Forall_cons in S1 as [? _], E2 as [? _]. ext_lia.
  - intros E1 _ _ S2. subst k2. apply Forall_cons in S2 as [? _], E1 as [? _]. ext_lia.
  - injection E as -> E. intros [_ E1]%Forall_cons S1 [_ E2]%Forall_cons S2. destruct C as (_ & _ & C).
    by destruct (IH _ k1 C E E1 S1 E2 S2) as [-> ->].
Qed.

(** Without merging the new extent comes between its neighbours. *)
Lemma insert_elements_exact lo t new l1 l2 :
  chain lo (extents t) -> 0 < be_length new -> extents t = l1 ++ l2 ->
  ends_by (be_f_offset new) l1 -> starts_from (ext_f_end new) l2 -> insert_elements t new false = Some (l1 ++ new :: l2).
Proof.
  intros C Pn E Hb Hs. unfold insert_elements.
  assert (room new (extents t)) as R.
  { rewrite E. apply Forall_app. split; (eapply Forall_impl; [eassumption|]); simpl; tauto. }
  pose proof (insert_descent_spec lo t new false 0 C Pn R) as D. destruct (insert_descent t new false 0) as [i|i|i|] eqn:Ei.
  1,2: exfalso; clear -Ei; revert Ei; generalize 0%nat; induction t as [|l IHl be r IHr]; intros base; simpl; [done|];
    destruct (be_f_offset new <? be_f_offset be); [apply IHl|]; destruct (ext_f_end be <=? be_f_offset new); [apply IHr|done].
  - destruct D as (k1 & k2 & E' & -> & Hb' & Hs' & _). cbn [Nat.add].
    destruct (place_unique lo (be_f_offset new) (ext_f_end new) l1 l2 k1 k2) as [<- <-]; try done; [by rewrite <- E|ext_lia|congruence|].
    by rewrite E, take_app_length, drop_app_length.
  - done.
Qed.

(** ** Cutting extents *)

Definition cut_head (be : pnfs_block_extent) (x : Z) : pnfs_block_extent := be <| be_length := x - be_f_offset be |>.
Definition cut_tail (be : pnfs_block_extent) (x : Z) : pnfs_block_extent :=
  be <| be_f_offset := x |>
     <| be_v_offset := if negb (be_state be =? PNFS_BLOCK_NONE_DATA) then be_v_offset be + (x - be_f_offset be) else be_v_offset be |>
     <| be_length := ext_f_end be - x |>.

Lemma cut_head_end be x : ext_f_end (cut_head be x) = x.
Proof. unfold cut_head. ext_lia. Qed.

Lemma cut_tail_end be x : ext_f_end (cut_tail be x) = ext_f_end be.
Proof. unfold cut_tail. ext_lia. Qed.

Lemma cut_head_image be x s : image (cut_head be x) s = image be s.
Proof. done. Qed.

Lemma cut_tail_image be x s : image (cut_tail be x) s = image be s.
Proof.
  unfold image, cut_tail, field_upd. cbn. destruct (be_state be =? PNFS_BLOCK_NONE_DATA); [done|].
  cbn [negb]. f_equal. f_equal. lia.
Qed.

Lemma gap_apart a b : ext_f_end a < be_f_offset b -> apart a b.
Proof. intros G _ _. destruct (ext_can_merge a b) eqn:M; [|done]. apply can_merge_iff in M as (_ & _ & M & _). lia. Qed.

Lemma cut_tail_apart be x b : apart be b -> apart (cut_tail be x) b.
Proof.
  apply apart_same_end; [done..|apply cut_tail_end|]. intros N. unfold cut_tail, field_upd. cbn.
  rewrite (proj2 (Z.eqb_neq _ _)) by done. unfold ext_f_end. cbn. lia.
Qed.

Lemma settled_cons a l : settled (a :: l) <-> settled l /\ forall b, head l = Some b -> apart a b.
Proof. simpl. destruct l as [|b l]; simpl; naive_solver. Qed.

(** The part of the map before [start]. *)
Definition left_part (l1 : list pnfs_block_extent) (be : pnfs_block_extent) (start : Z) : list pnfs_block_extent :=
  l1 ++ (if be_f_offset be <? start then [cut_head be start] else []).

Lemma left_part_spec lo l1 be l2 start :
  chain lo (l1 ++ be :: l2) -> lo <= start -> ends_by start l1 -> start < ext_f_end be ->
  chain lo (left_part l1 be start) /\ ends_by start (left_part l1 be start) /\
  (forall s, lay (left_part l1 be start) s = if s <? start then lay (l1 ++ be :: l2) s else None) /\
  (settled (l1 ++ be :: l2) -> settled (left_part l1 be start)).
Proof.
  intros C Hlo E1 Hs. rewrite chain_app in C. simpl in C. destruct C as (C1 & H1 & H2 & C2). unfold left_part.
  pose proof (end_of_ends lo l1 start Hlo E1) as He.
  assert (forall s, start <= s -> lay l1 s = None) as L1 by (intros s ?; apply (lay_above lo); [done|lia]).
  assert (forall s, s < start -> lay l2 s = None) as L2 by (intros s ?; apply (lay_below (ext_f_end be)); [done|lia]).
  destruct (Z.ltb_spec (be_f_offset be) start) as [Lt|Ge].
  - split_and!.
    + rewrite chain_app. simpl. split_and!; try done. unfold cut_head. ext_lia.
    + apply Forall_app. split; [done|]. constructor; [|constructor]. rewrite cut_head_end. lia.
    + intros s. rewrite !lay_app. simpl. unfold holds. rewrite cut_head_end, cut_head_image.
      replace (be_f_offset (cut_head be start)) with (be_f_offset be) by done. destruct (Z.ltb_spec s start) as [Ls|Gs].
      * rewrite (L2 s) by done. rewrite (proj2 (Z.ltb_lt s (ext_f_end be))) by lia. done.
      * rewrite (L1 s) by done. by rewrite andb_false_r.
    + intros (S1 & _ & A & _)%settled_mid. apply settled_mid. by split_and!.
  - rewrite app_nil_r. split_and!; try done.
    + intros s. rewrite lay_app. simpl. destruct (Z.ltb_spec s start) as [Ls|Gs]; [|by apply L1].
      rewrite (proj2 (holds_false be s)), (L2 s) by lia. by destruct (lay l1 s).
    + by intros (S1 & _)%settled_mid.
Qed.

(** The part of the map from [end_] on. *)
Lemma cut_tail_spec lo be l end_ :
  chain lo (be :: l) -> be_f_offset be <= end_ < ext_f_end be ->
  chain end_ (cut_tail be end_ :: l) /\
  (forall s, lay (cut_tail be end_ :: l) s = if s <? end_ then None else lay (be :: l) s) /\
  (settled (be :: l) -> settled (cut_tail be end_ :: l)).
Proof.
  intros (H1 & H2 & C) He. split_and!.
  - simpl. rewrite cut_tail_end. split_and!; [unfold cut_tail; cbn; lia|unfold cut_tail; ext_lia|done].
  - intros s. simpl. unfold holds. rewrite cut_tail_end, cut_tail_image. replace (be_f_offset (cut_tail be end_)) with end_ by done.
    destruct (Z.ltb_spec s end_) as [Ls|Gs].
    + rewrite (proj2 (Z.leb_gt _ _)) by lia. simpl. apply (lay_below (ext_f_end be)); [done|lia].
    + rewrite (proj2 (Z.leb_le end_ s)), (proj2 (Z.leb_le _ s)) by lia. done.
  - intros [S A]%settled_cons. apply settled_cons. split; [done|]. intros b Hb. by apply cut_tail_apart, A.
Qed.

Lemma remove_rest_spec lo l end_ tmp rest :
  chain lo l -> remove_rest l end_ = (tmp, rest) ->
  chain end_ rest /\ (forall s, lay rest s = if s <? end_ then None else lay l s) /\ (settled l -> settled rest).
Proof.
  revert lo tmp. induction l as [|be l IH]; intros lo tmp C; simpl.
  - intros [= <- <-]. split_and!; try done. intros s. by destruct (s <? end_).
  - destruct (Z.leb_spec (ext_f_end be) end_) as [Le|Gt].
    + destruct (remove_rest l end_) as [tmp' l'] eqn:Er. intros [= <- <-]. destruct C as (H1 & H2 & C). destruct (IH _ _ C eq_refl) as (Cr & Lr & Sr).
      split_and!; [done| |by intros [_ S]; apply Sr].
      intros s. rewrite Lr. destruct (Z.ltb_spec s end_) as [Ls|Gs]; [done|]. by rewrite (proj2 (holds_false be s)) by lia.
    + destruct (Z.ltb_spec (be_f_offset be) end_) as [Lt|Ge]; intros [= <- <-].
      * replace (be_length be - (ext_f_end be - end_)) with (end_ - be_f_offset be) by ext_lia.
        apply (cut_tail_spec lo); [done|lia].
      * split_and!; [|intros s|done].
        -- destruct C as (_ & ? & ?). simpl. by split_and!.
        -- destruct (Z.ltb_spec s end_); [|done]. apply (lay_below end_ (be :: l)); [|done]. destruct C as (_ & ? & ?). simpl. by split_and!.
Qed.

(** ** Removing *)

(** [l'] is [l] without the sectors of the range. *)
Definition removed (lo : Z) (start end_ : Z) (l l' : list pnfs_block_extent) : Prop :=
  chain lo l' /\ (forall s, lay l' s = if (start <=? s) && (s <? end_) then None else lay l s) /\ (settled l -> settled l').

Lemma glue lo l ll lr start end_ :
  lo <= start -> start < end_ -> chain lo ll -> ends_by start ll -> chain end_ lr ->
  (forall s, lay ll s = if s <? start then lay l s else None) -> (forall s, lay lr s = if s <? end_ then None else lay l s) ->
  (settled l -> settled ll) -> (settled l -> settled lr) -> removed lo start end_ l (ll ++ lr).
Proof.
  intros Hlo Hse Cl El Cr Ll Lr Sl Sr. split_and!.
  - rewrite chain_app. split; [done|]. apply (chain_le end_); [|done]. pose proof (end_of_ends lo ll start Hlo El). lia.
  - intros s. rewrite lay_app, Ll, Lr. destruct (Z.ltb_spec s start), (Z.leb_spec start s), (Z.ltb_spec s end_); try lia; try done.
    by destruct (lay l s).
  - intros S. apply settled_app. split_and!; [by apply Sl|by apply Sr|]. intros a b Ha Hb. apply gap_apart.
    apply last_Some in Ha as [k ->]. apply Forall_app in El as [_ El]. apply Forall_cons in El as [? _].
    destruct lr as [|b' lr]; [done|]. injection Hb as ->. destruct Cr as (? & _). lia.
Qed.

Lemma removed_nothing lo l start end_ : chain lo l -> (forall s, start <= s < end_ -> lay l s = None) -> removed lo start end_ l l.
Proof.
  intros C L. split_and!; [done| |done]. intros s. destruct (Z.leb_spec start s), (Z.ltb_spec s end_); cbn [andb]; try done. by apply L.
Qed.

Section Removing.
Context `{RbShape pnfs_block_extent}.

Lemma tree_insert_sem lo t new :
  chain lo (extents t) -> lo <= be_f_offset new -> 0 < be_length new -> room new (extents t) ->
  exists t', __ext_tree_insert t new true = Some t' /\ inserted lo new (extents t) (extents t').
Proof.
  intros C Hlo Pn R. destruct (insert_elements_sem lo t new C Hlo Pn R) as (l' & E & I). unfold __ext_tree_insert. rewrite E.
  eexists. split; [done|]. by rewrite rb_shape_in_order.
Qed.

(** An extent that reaches beyond the range on both sides is cut in two. *)
Lemma remove_middle lo t l1 be l2 start end_ t0 :
  chain lo (l1 ++ be :: l2) -> lo <= start -> start < end_ -> ends_by start l1 ->
  be_f_offset be < start -> end_ < ext_f_end be ->
  let new := mk_be (be_device be) end_ (ext_f_end be - end_)
    (default 0 (if negb (be_state be =? PNFS_BLOCK_NONE_DATA) then Some (be_v_offset be + be_length be - (ext_f_end be - end_)) else None))
    (be_state be) (be_tag be) in
  t0 = rb_shape t (l1 ++ cut_head be start :: l2) ->
  exists t', __ext_tree_insert t0 new true = Some t' /\ removed lo start end_ (l1 ++ be :: l2) (extents t').
Proof.
  intros C Hlo Hse E1 H1 H2 new ->. destruct (left_part_spec lo l1 be l2 start C Hlo E1 ltac:(lia)) as (Cl & El & Ll & Sl).
  unfold left_part in *. rewrite (proj2 (Z.ltb_lt _ _)) in * by done. pose proof C as C'. rewrite chain_app in C'. destruct C' as (C1 & H3 & H4 & C2).
  assert (starts_from (ext_f_end be) l2) as S2 by (apply (chain_starts (ext_f_end be)); [done|lia]).
  assert (ext_f_end new = ext_f_end be) as En by (unfold new; ext_lia).
  assert (forall s, image new s = image be s) as Im.
  { intros s. unfold image, new. cbn. destruct (be_state be =? PNFS_BLOCK_NONE_DATA); [done|]. cbn. do 2 f_equal. ext_lia. }
  assert (chain lo (l1 ++ cut_head be start :: l2)) as C0.
  { change (cut_head be start :: l2) with ([cut_head be start] ++ l2). rewrite app_assoc, chain_app. split; [done|].
    rewrite end_of_snoc, cut_head_end. apply (chain_le (ext_f_end be)); [lia|done]. }
  destruct (tree_insert_sem lo (rb_shape t (l1 ++ cut_head be start :: l2)) new) as (t' & Et & Ct & Lt & St & _); rewrite ?rb_shape_in_order; try done.
  - cbn. lia.
  - unfold new. ext_lia.
  - apply Forall_app. split; [eapply Forall_impl; [exact E1|]; cbn; intros ??; left; lia|]. constructor.
    + left. rewrite cut_head_end. cbn. lia.
    + eapply Forall_impl; [exact S2|]. intros b Hb. right. cbv beta in Hb. lia.
  - exists t'. split; [done|]. rewrite rb_shape_in_order in *. split_and!; [done| |].
    + intros s. rewrite Lt, Im. unfold holds. rewrite En. replace (be_f_offset new) with end_ by done.
      specialize (Ll s). change (cut_head be start :: l2) with ([cut_head be start] ++ l2). rewrite app_assoc, lay_app, Ll.
      assert (s < ext_f_end be -> lay l2 s = None) as L2 by (intros ?; by apply (lay_below (ext_f_end be))).
      assert (start <= s -> lay l1 s = None) as L1.
      { intros ?. apply (lay_above lo); [done|]. lia. }
      rewrite lay_app. cbn [lay]. unfold holds.
      destruct (Z.leb_spec end_ s), (Z.ltb_spec s (ext_f_end be)), (Z.ltb_spec s start), (Z.leb_spec start s), (Z.ltb_spec s end_), (Z.leb_spec (be_f_offset be) s);
        try lia; cbn [andb]; rewrite ?L1, ?L2 by lia; try done; by destruct (lay l1 s).
    + intros S. apply St. apply settled_mid in S as (S1 & S2' & A1 & A2). apply settled_mid. split_and!; try done.
      intros b Hb. apply gap_apart. rewrite cut_head_end. destruct l2 as [|b' l2]; [done|]. injection Hb as ->. apply Forall_cons in S2 as [? _]. lia.
Qed.

(** Removing a range clears its sectors and no other; only the cut of one extent in
    two allocates, and its failure leaves the tree as it was. *)
Lemma remove_sem lo no_mem t start end_ :
  chain lo (extents t) -> lo <= start -> start < end_ ->
  exists r, __ext_tree_remove no_mem t start end_ = Some r /\
    match r with
    | Ok (t', _) => removed lo start end_ (extents t) (extents t')
    | Err e => e = - ENOMEM /\ no_mem = true
    end.
Proof.
  intros C Hlo Hse. unfold __ext_tree_remove. pose proof (search_spec lo t start C) as S. destruct (__ext_tree_search t start) as [i|].
  2: { eexists. split; [done|]. apply removed_nothing; [done|]. intros s Hs. apply (lay_above lo); [done|].
       pose proof (end_of_ends lo _ start Hlo S). lia. }
  destruct S as (l1 & be & l2 & E & -> & E1 & Hs). rewrite E in *. rewrite mid_lookup.
  destruct (left_part_spec lo l1 be l2 start C Hlo E1 Hs) as (Cl & El & Ll & Sl).
  pose proof C as C'. rewrite chain_app in C'. destruct C' as (C1 & Cb). pose proof Cb as (H3 & H4 & C2).
  assert (forall s, start <= s -> lay l1 s = None) as L1.
  { intros s Hs'. apply (lay_above lo); [done|]. pose proof (end_of_ends lo l1 start Hlo E1). lia. }
  destruct (Z.leb_spec end_ (be_f_offset be)) as [Le|Gt].
  { eexists. split; [done|]. cbn. rewrite E. apply removed_nothing; [done|]. intros s Hs'. rewrite lay_app, L1 by lia.
    apply (lay_below (be_f_offset be)); [|lia]. simpl. split_and!; done. }
  assert (forall s, end_ <= s -> lay (be :: l2) s = lay (l1 ++ be :: l2) s) as Lb by (intros s ?; by rewrite lay_app, L1 by lia).
  unfold left_part in *. rewrite !mid_insert. destruct (Z.ltb_spec end_ (ext_f_end be)) as [Lt|Ge].
  - rewrite (proj2 (Z.ltb_lt 0 (ext_f_end be - end_))) by lia. destruct (Z.ltb_spec (be_f_offset be) start) as [Lb1|Gb].
    + rewrite (proj2 (Z.ltb_lt 0 (start - be_f_offset be))) by lia. destruct no_mem; [by eexists|].
      destruct (remove_middle lo t l1 be l2 start end_ _ C Hlo Hse E1 Lb1 Lt eq_refl) as (t' & Et & R).
      unfold cut_head in Et. rewrite Et. by eexists.
    + rewrite (Z.ltb_irrefl 0). eexists. split; [done|]. cbn beta iota. rewrite rb_shape_in_order.
      replace (_ <| be_length := _ |>) with (cut_tail be end_).
      2: { unfold cut_tail, field_upd. cbn. f_equal. destruct (be_state be =? PNFS_BLOCK_NONE_DATA); cbn; [done|]. ext_lia. }
      destruct (cut_tail_spec _ be l2 end_ Cb) as (Cr & Lr & Sr); [lia|]. rewrite app_nil_r in *. apply glue; try done.
      * intros s. rewrite Lr. destruct (Z.ltb_spec s end_); [done|]. by apply Lb.
      * intros S. apply Sr. by apply settled_app in S as (_ & S & _).
  - rewrite (Z.ltb_irrefl 0). destruct (remove_rest l2 end_) as [tmp rest] eqn:Er.
    assert (remove_rest (be :: l2) end_ = (be :: tmp, rest)) as Er'.
    { simpl. rewrite (proj2 (Z.leb_le _ _)) by done. by rewrite Er. }
    destruct (remove_rest_spec _ _ _ _ _ Cb Er') as (Cr & Lr & Sr).
    assert (removed lo start end_ (l1 ++ be :: l2) (left_part l1 be start ++ rest)) as R.
    { apply glue; try done.
      - intros s. rewrite Lr. destruct (Z.ltb_spec s end_); [done|]. by apply Lb.
      - intros S. apply Sr. by apply settled_app in S as (_ & S & _). }
    unfold left_part in R. destruct (Z.ltb_spec (be_f_offset be) start) as [Lb1|Gb].
    + rewrite (proj2 (Z.ltb_lt 0 (start - be_f_offset be))) by lia.
      change (be <| be_length := start - be_f_offset be |>) with (cut_head be start).
      change (cut_head be start :: l2) with ([cut_head be start] ++ l2). rewrite (app_assoc l1 [cut_head be start] l2).
      replace (S (length l1)) with (length (l1 ++ [cut_head be start])) by (rewrite length_app; cbn; lia).
      rewrite drop_app_length, take_app_length, Er. eexists. split; [done|]. cbn beta iota. by rewrite rb_shape_in_order.
    + rewrite (Z.ltb_irrefl 0), drop_app_length, take_app_length, Er'. eexists. split; [done|]. cbn beta iota. rewrite rb_shape_in_order. by rewrite app_nil_r in R.
Qed.
End Removing.

(** ** Adding an extent from the server *)

(** [l'] is [l] with the sectors of [new] it had no extent for. *)
Definition filled (lo : Z) (new : pnfs_block_extent) (l l' : list pnfs_block_extent) : Prop :=
  chain lo l' /\
  (forall s, lay l' s = match lay l s with Some x => Some x | None => if holds new s then Some (image new s) else None end) /\
  (settled l -> settled l').

(** The rest of [new] after [be]. *)
Definition rest_of (new be : pnfs_block_extent) : pnfs_block_extent :=
  let new_len := ext_f_end new - ext_f_end be in
  let diff := be_length new - new_len in
  new <| be_f_offset := be_f_offset new + diff |> <| be_v_offset := be_v_offset new + diff |> <| be_length := new_len |>.

Lemma rest_of_range new be : be_f_offset (rest_of new be) = ext_f_end be /\ ext_f_end (rest_of new be) = ext_f_end new.
Proof. unfold rest_of. split; ext_lia. Qed.

Lemma rest_of_image new be s : image (rest_of new be) s = image new s.
Proof. unfold image, rest_of, field_upd. cbn. destruct (be_state new =? PNFS_BLOCK_NONE_DATA); [done|]. do 2 f_equal. lia. Qed.

Lemma nafter_mid x y l1 be l2 : x < ext_f_end be <= y -> (nafter y (l1 ++ be :: l2) < nafter x (l1 ++ be :: l2))%nat.
Proof.
  intros H. assert (forall l, (nafter y l <= nafter x l)%nat) as M.
  { intros l. induction l as [|b l IH]; [done|]. rewrite !nafter_cons. destruct (Z.ltb_spec y (ext_f_end b)), (Z.ltb_spec x (ext_f_end b)); lia. }
  rewrite !nafter_app, !nafter_cons, (proj2 (Z.ltb_ge y _)), (proj2 (Z.ltb_lt x _)) by lia. pose proof (M l1). pose proof (M l2). lia.
Qed.

Lemma lay_mid lo l1 be l2 s : chain lo (l1 ++ be :: l2) -> be_f_offset be <= s < ext_f_end be -> lay (l1 ++ be :: l2) s = Some (image be s).
Proof.
  rewrite chain_app. intros (C1 & H1 & _) Hs. rewrite lay_app, (lay_above lo l1) by (done || lia). simpl. by rewrite (proj2 (holds_iff be s)).
Qed.

(** Nothing lies between the extents before [x] and the next. *)
Lemma lay_gap lo l1 be l2 x s :
  chain lo (l1 ++ be :: l2) -> lo <= x -> ends_by x l1 -> x <= s < be_f_offset be -> lay (l1 ++ be :: l2) s = None.
Proof.
  rewrite chain_app. intros (C1 & C2) Hlo E Hs. pose proof (end_of_ends lo l1 x Hlo E).
  rewrite lay_app, (lay_above lo l1) by (done || lia). apply (lay_below (be_f_offset be)); [|lia]. destruct C2 as (? & ? & ?). by split_and!.
Qed.

(** Skipping the sectors [be] has, what is left to add is the rest of [new]. *)
Lemma filled_rest lo new be l1 l2 l' :
  chain lo (l1 ++ be :: l2) -> be_f_offset be <= be_f_offset new < ext_f_end be ->
  filled lo (rest_of new be) (l1 ++ be :: l2) l' -> filled lo new (l1 ++ be :: l2) l'.
Proof.
  intros C Hb (C' & L & S). split_and!; [done| |done]. intros s. rewrite L. destruct (lay (l1 ++ be :: l2) s) eqn:E; [done|].
  unfold holds. destruct (rest_of_range new be) as [-> ->]. rewrite rest_of_image.
  destruct (Z.leb_spec (ext_f_end be) s), (Z.ltb_spec s (ext_f_end new)), (Z.leb_spec (be_f_offset new) s); try done; try lia.
  by rewrite (lay_mid lo) in E by (done || lia).
Qed.

(** The sectors of [new] before [be], then its rest. *)
Lemma filled_split lo new be l1 l2 l0 l' :
  chain lo (l1 ++ be :: l2) -> lo <= be_f_offset new -> ends_by (be_f_offset new) l1 -> be_f_offset new < be_f_offset be < ext_f_end new ->
  inserted lo (new <| be_length := be_f_offset be - be_f_offset new |>) (l1 ++ be :: l2) l0 ->
  (if ext_f_end new <=? ext_f_end be then l' = l0 else filled lo (rest_of new be) l0 l') ->
  filled lo new (l1 ++ be :: l2) l'.
Proof.
  intros C Hlo E1 Hn (C0 & L0 & S0 & _) F. set (a := new <| be_length := _ |>) in *.
  assert (ext_f_end a = be_f_offset be) as Ea by (unfold a; ext_lia).
  assert (forall s, lay l' s = match lay l0 s with Some x => Some x | None => if holds new s && (ext_f_end be <=? s) then Some (image new s) else None end) as L'.
  { intros s. unfold holds. destruct (Z.leb_spec (ext_f_end new) (ext_f_end be)) as [Le|Gt].
    - subst l'. destruct (lay l0 s); [done|]. destruct (Z.leb_spec (be_f_offset new) s), (Z.ltb_spec s (ext_f_end new)), (Z.leb_spec (ext_f_end be) s); try done. lia.
    - destruct F as (_ & -> & _). destruct (lay l0 s); [done|]. unfold holds. destruct (rest_of_range new be) as [-> ->]. rewrite rest_of_image.
      destruct (Z.leb_spec (be_f_offset new) s), (Z.ltb_spec s (ext_f_end new)), (Z.leb_spec (ext_f_end be) s); try done.
      pose proof C as C'. rewrite chain_app in C'. destruct C' as (_ & _ & ? & _). ext_lia. }
  split_and!.
  - destruct (_ <=? _); [by subst|]. by destruct F as (? & _).
  - intros s. rewrite L', L0. unfold holds at 1. rewrite Ea. replace (be_f_offset a) with (be_f_offset new) by done.
    change (image a s) with (image new s). unfold holds.
    destruct (Z.leb_spec (be_f_offset new) s), (Z.ltb_spec s (be_f_offset be)), (Z.ltb_spec s (ext_f_end new)), (Z.leb_spec (ext_f_end be) s); cbn [andb];
      try lia; rewrite ?(lay_gap lo l1 be l2 (be_f_offset new)), ?(lay_mid lo l1 be l2) by (done || lia); try done; by destruct (lay _ s).
  - intros S. destruct (_ <=? _); [subst; by apply S0|]. destruct F as (_ & _ & F). by apply F, S0.
Qed.

Section Inserting.
Context `{RbShape pnfs_block_extent}.

(** The extent found for [new]: the first that ends after its start. *)
Lemma insert_room new l1 be l2 :
  ends_by (be_f_offset new) l1 -> ext_f_end new <= be_f_offset be -> chain (ext_f_end be) l2 -> 0 < be_length be -> room new (l1 ++ be :: l2).
Proof.
  intros E1 Hb C2 Pb. apply Forall_app. split; [eapply Forall_impl; [exact E1|]; cbn; intros ??; by left|]. constructor; [by right|].
  eapply Forall_impl; [apply (chain_starts (ext_f_end be) l2 (ext_f_end new) C2); ext_lia|]. intros b Hb'. by right.
Qed.

Lemma inserted_filled lo new l l' : inserted lo new l l' -> (forall s, holds new s = true -> lay l s = None) -> filled lo new l l'.
Proof.
  intros (C & L & S & _) N. split_and!; try done. intros s. rewrite L. destruct (holds new s) eqn:Hs; [by rewrite N|]. by destruct (lay l s).
Qed.

(** The loop ends, each round being at an extent that starts later; a failed copy is
    reported and leaves the tree as it was. *)
Lemma insert_loop_sem lo fuel no_mem t new :
  chain lo (extents t) -> lo <= be_f_offset new -> 0 < be_length new -> (nafter (be_f_offset new) (extents t) < fuel)%nat ->
  exists err t', insert_loop fuel no_mem t new = Some (err, t') /\
    (err = 0 /\ filled lo new (extents t) (extents t') \/ no_mem = true /\ err = - EINVAL /\ t' = t).
Proof.
  revert t new. induction fuel as [|fuel IH]; intros t new C Hlo Pn Hf; [lia|]. cbn [insert_loop].
  pose proof (search_spec lo t (be_f_offset new) C) as S. destruct (__ext_tree_search t (be_f_offset new)) as [i|].
  2: { assert (room new (extents t)) as R by (eapply Forall_impl; [exact S|]; cbn; intros ??; by left).
       destruct (tree_insert_sem lo t new C Hlo Pn R) as (t' & -> & I). exists 0, t'. split; [done|]. left. split; [done|].
       apply inserted_filled; [done|]. intros s Hs%holds_iff. apply (lay_above lo); [done|]. pose proof (end_of_ends lo _ _ Hlo S). lia. }
  destruct S as (l1 & be & l2 & E & -> & E1 & Hs). pose proof C as C'. rewrite E, chain_app in C'. destruct C' as (C1 & H1 & H2 & C2).
  rewrite E, mid_lookup. assert (chain lo (l1 ++ be :: l2)) as C0 by (by rewrite <- E).
  destruct (Z.leb_spec (ext_f_end new) (be_f_offset be)) as [Le|Gt].
  { destruct (tree_insert_sem lo t new C Hlo Pn) as (t' & -> & I); [rewrite E; by apply insert_room|]. exists 0, t'. split; [done|]. left. split; [done|].
    rewrite E in I. apply inserted_filled; [done|]. intros s Hs'%holds_iff. apply (lay_gap lo _ _ _ (be_f_offset new)); try done. lia. }
  change (new <| be_f_offset := _ |> <| be_v_offset := _ |> <| be_length := _ |>) with (rest_of new be).
  destruct (rest_of_range new be) as [Ro Re].
  destruct (Z.leb_spec (be_f_offset be) (be_f_offset new)) as [Lb|Gb].
  - destruct (Z.leb_spec (ext_f_end new) (ext_f_end be)) as [Lc|Gc].
    + exists 0, t. split; [done|]. left. split; [done|]. rewrite E. split_and!; try done. intros s. destruct (lay (l1 ++ be :: l2) s) eqn:El; [done|].
      destruct (holds new s) eqn:Hn; [|done]. apply holds_iff in Hn. by rewrite (lay_mid lo) in El by (done || lia).
    + destruct (IH t (rest_of new be)) as (err & t' & -> & D); try done; [rewrite Ro; lia|cbn; ext_lia| |].
      { rewrite Ro, E in *. pose proof (nafter_mid (be_f_offset new) (ext_f_end be) l1 be l2). lia. }
      exists err, t'. split; [done|]. destruct D as [[-> F]|D]; [|by right]. left. split; [done|]. rewrite E in F. apply (filled_rest lo new be); done.
  - set (a := new <| be_length := be_f_offset be - be_f_offset new |>).
    assert (ext_f_end a = be_f_offset be) as Ea by (unfold a; ext_lia).
    destruct (tree_insert_sem lo t a C Hlo) as (t1 & Et & I); [unfold a; ext_lia|rewrite E; apply insert_room; try done; lia|].
    rewrite E in I. destruct (Z.leb_spec (ext_f_end new) (ext_f_end be)) as [Lc|Gc].
    + rewrite Et. exists 0, t1. split; [done|]. left. split; [done|]. apply (filled_split lo new be l1 l2 (extents t1)); try done.
      by rewrite (proj2 (Z.leb_le _ _)).
    + destruct no_mem; [by exists (- EINVAL), t; split; [|right]|]. rewrite Et. pose proof I as (C3 & _ & _ & N).
      destruct (IH t1 (rest_of new be)) as (err & t' & -> & D); try done; [rewrite Ro; lia|cbn; ext_lia| |].
      { rewrite Ro, E in *. pose proof (nafter_mid (be_f_offset new) (ext_f_end be) l1 be l2). specialize (N (ext_f_end be)). ext_lia. }
      exists err, t'. split; [done|]. destruct D as [[-> F]|[? _]]; [|done]. left. split; [done|]. apply (filled_split lo new be l1 l2 (extents t1)); try done.
      by rewrite (proj2 (Z.leb_gt _ _)).
Qed.
End Inserting.
