(* ===== verification/ExtentMark.v ===== *)
(** * Marking extents as written and as committed

    The loops of [ext_tree_mark_written] and [ext_tree_mark_committed] walk the tree
    while they cut, tag and merge its extents.  What they do to the map from
    sectors. *)

From S2P Require Import Prelude RbTree Xdr ExtentTree ExtentMap ExtentInsert.
From stdpp Require Import list.
#[local] Open Scope Z_scope.

(** ** Merging on both sides *)

Definition same_kind (a b : pnfs_block_extent) : Prop :=
  be_state a = be_state b /\ (be_state b = PNFS_BLOCK_INVALID_DATA -> be_tag a = be_tag b).

Definition merge_both (l : list pnfs_block_extent) (i : nat) : list pnfs_block_extent * nat :=
  let '(l, i) := ext_try_to_merge_left l i in ext_try_to_merge_right l i.

Lemma merge_left_step lo l1 b l2 : chain lo (l1 ++ b :: l2) ->
  exists k m pre, ext_try_to_merge_left (l1 ++ b :: l2) (length l1) = (k ++ m :: l2, length k) /\ l1 = k ++ pre /\
    same_kind m b /\ chain lo (k ++ m :: l2) /\ forall s, lay (k ++ [m]) s = lay (l1 ++ [b]) s.
Proof.
  intros C. destruct l1 as [|a k _] using rev_ind.
  { exists [], b, []. split_and!; done. }
  rewrite <- app_assoc in C |- *. cbn [app] in *. rewrite length_app, Nat.add_1_r, merge_left_mid. destruct (ext_can_merge a b) eqn:M.
  - exists k, (a <| be_length := be_length a + be_length b |>), [a]. destruct (joins_chain lo k a b _ l2 (merge_joins a b M) C) as [C' _].
    assert (chain lo (k ++ [a; b])) as C2.
    { change (k ++ a :: b :: l2) with (k ++ [a; b] ++ l2) in C. rewrite app_assoc, chain_app in C. tauto. }
    destruct (joins_chain lo k a b _ [] (merge_joins a b M) C2) as [_ L'].
    apply can_merge_iff in M as (Ms & _ & _ & _ & Mt). split_and!; try done.
    + split; [done|]. intros Hb. apply Mt. congruence.
    + intros s. rewrite L', <- app_assoc. done.
  - exists (k ++ [a]), b, []. rewrite app_nil_r, length_app, Nat.add_1_r, <- app_assoc. split_and!; done.
Qed.

Lemma merge_right_step lo l1 b l2 : chain lo (l1 ++ b :: l2) ->
  exists m post l2', ext_try_to_merge_right (l1 ++ b :: l2) (length l1) = (l1 ++ m :: l2', length l1) /\ l2 = post ++ l2' /\
    Forall (fun x => same_kind x b) post /\
    same_kind m b /\ chain lo (l1 ++ m :: l2') /\ forall s, lay (l1 ++ [m]) s = lay (l1 ++ b :: post) s.
Proof.
  intros C. destruct l2 as [|n l2].
  { rewrite merge_right_last. exists b, [], []. split_and!; done. }
  rewrite merge_right_mid. destruct (ext_can_merge b n) eqn:M.
  - exists (b <| be_length := be_length b + be_length n |>), [n], l2. destruct (joins_chain lo l1 b n _ l2 (merge_joins b n M) C) as [C' _].
    assert (chain lo (l1 ++ [b; n])) as C2.
    { change (l1 ++ b :: n :: l2) with (l1 ++ [b; n] ++ l2) in C. rewrite app_assoc, chain_app in C. tauto. }
    destruct (joins_chain lo l1 b n _ [] (merge_joins b n M) C2) as [_ L'].
    apply can_merge_iff in M as (Ms & _ & _ & _ & Mt). split_and!; try done.
    constructor; [|constructor]. split; [done|]. intros Hb. symmetry. by apply Mt.
  - exists b, [], (n :: l2). split_and!; done.
Qed.

(** After the merges: the extent [m] has what [b] and the neighbours merged into it
    had, all of the same kind. *)
Lemma merge_both_step lo l1 b l2 : chain lo (l1 ++ b :: l2) ->
  exists k m pre post l2', merge_both (l1 ++ b :: l2) (length l1) = (k ++ m :: l2', length k) /\ l1 = k ++ pre /\ l2 = post ++ l2' /\
    Forall (fun x => same_kind x b) post /\ same_kind m b /\ chain lo (k ++ m :: l2') /\ forall s, lay (k ++ [m]) s = lay (l1 ++ b :: post) s.
Proof.
  intros C. unfold merge_both. destruct (merge_left_step lo l1 b l2 C) as (k & m & pre & -> & -> & Km & C1 & L1).
  destruct (merge_right_step lo k m l2 C1) as (m' & post & l2' & -> & -> & Kp & Km' & C2 & L2).
  exists k, m', pre, post, l2'. destruct Km as [Ks Kt], Km' as [Ks' Kt']. split_and!; try done.
  - eapply Forall_impl; [exact Kp|]. intros x [Xs Xt]. split; [congruence|]. intros Hb. rewrite Xt by congruence. by apply Kt.
  - split; [congruence|]. intros Hb. rewrite Kt' by congruence. by apply Kt.
  - intros s. rewrite L2. change (k ++ m :: post) with (k ++ [m] ++ post). change (b :: post) with ([b] ++ post).
    rewrite !app_assoc, !(lay_app _ post), L1. done.
Qed.

(** ** A pass over the extents *)

(** [g s] is what the pass makes of the map at [s]; [l1] has been passed. *)
Definition passed (g : Z -> option (Z * Z * Z * Z) -> option (Z * Z * Z * Z)) (l1 l2 : list pnfs_block_extent) (s : Z) :=
  match lay l1 s with Some x => Some x | None => g s (lay l2 s) end.

Definition fixes (g : Z -> option (Z * Z * Z * Z) -> option (Z * Z * Z * Z)) (b : pnfs_block_extent) : Prop :=
  forall s, holds b s = true -> g s (Some (image b s)) = Some (image b s).

Lemma passed_skip g l1 b l2 s : fixes g b -> passed g (l1 ++ [b]) l2 s = passed g l1 (b :: l2) s.
Proof. intros F. unfold passed. rewrite lay_app. simpl. destruct (lay l1 s), (holds b s) eqn:Hb; try done. symmetry. by apply F. Qed.

(** An extent [be] becomes [b], which merges with its neighbours. *)
Lemma passed_merge g k m l1 b be post l2' s :
  lay (k ++ [m]) s = lay (l1 ++ b :: post) s -> Forall (fixes g) post ->
  be_f_offset b = be_f_offset be -> ext_f_end b = ext_f_end be -> (holds be s = true -> g s (Some (image be s)) = Some (image b s)) ->
  passed g (k ++ [m]) l2' s = passed g l1 (be :: post ++ l2') s.
Proof.
  intros L F Eo Ee G. unfold passed. rewrite L, lay_app. destruct (lay l1 s); [done|]. simpl.
  assert (holds b s = holds be s) as Hb by (unfold holds; by rewrite Eo, Ee). rewrite Hb. destruct (holds be s) eqn:E; [by rewrite G|].
  clear L G Hb E. induction F as [|p post Fp _ IH]; [done|]. simpl. destruct (holds p s) eqn:E; [|done]. by rewrite Fp.
Qed.

(** ** Marking as written *)

(** What the map says of a sector without data once it has been written. *)
Definition written (o : option (Z * Z * Z * Z)) : option (Z * Z * Z * Z) :=
  match o with
  | Some (st, d, v, tag) => if (st =? PNFS_BLOCK_INVALID_DATA) && (tag =? 0) then Some (st, d, v, EXTENT_WRITTEN) else o
  | None => None
  end.

Definition mark (start end_ s : Z) (o : option (Z * Z * Z * Z)) : option (Z * Z * Z * Z) :=
  if (start <=? s) && (s <? end_) then written o else o.

Lemma mark_fixes start end_ b : ~ unwritten b -> fixes (mark start end_) b.
Proof.
  intros N s _. unfold mark. destruct ((start <=? s) && (s <? end_)); [|done]. unfold written, image, unwritten in *.
  destruct (Z.eqb_spec (be_state b) PNFS_BLOCK_INVALID_DATA), (Z.eqb_spec (be_tag b) 0); try done. tauto.
Qed.

Lemma mark_fixes_out start end_ b : ext_f_end b <= start \/ end_ <= be_f_offset b -> fixes (mark start end_) b.
Proof.
  intros Out s Hs%holds_iff. unfold mark. destruct (Z.leb_spec start s), (Z.ltb_spec s end_); try done. cbn [andb]. lia.
Qed.

Lemma mark_in start end_ be s : unwritten be -> start <= be_f_offset be -> ext_f_end be <= end_ -> holds be s = true ->
  mark start end_ s (Some (image be s)) = Some (image (be <| be_tag := EXTENT_WRITTEN |>) s).
Proof.
  intros [F1 F2] Hs He H%holds_iff. unfold mark. rewrite (proj2 (Z.leb_le _ _)), (proj2 (Z.ltb_lt _ _)) by lia.
  unfold written, image, field_upd. cbn. by rewrite F1, F2.
Qed.

Lemma written_apart_l a b : ~ unwritten a -> apart a b.
Proof. by intros N F. Qed.

Lemma written_apart_r a b : ~ unwritten b -> apart a b.
Proof. by intros N _ F. Qed.

#[local] Hint Resolve written_apart_l written_apart_r : core.

Section Marking.
Context `{RbShape pnfs_block_extent}.

Lemma split_step lo t l1 be l2 x :
  chain lo (l1 ++ be :: l2) -> extents t = l1 ++ be :: l2 -> be_state be = PNFS_BLOCK_INVALID_DATA -> be_f_offset be < x < ext_f_end be ->
  exists t', ext_tree_split false t (length l1) be x = Some (Ok t') /\ extents t' = l1 ++ cut_head be x :: cut_tail be x :: l2.
Proof.
  intros C E Es Hx. unfold ext_tree_split. rewrite Es, E, mid_insert. fold (cut_head be x).
  replace (mk_be _ _ _ _ _ _) with (cut_tail be x).
  2: { unfold cut_tail, cut_head, field_upd. cbn. rewrite Es. cbn. f_equal. ext_lia. }
  unfold __ext_tree_insert. pose proof C as C'. rewrite chain_app in C'. destruct C' as (C1 & H1 & H2 & C2).
  rewrite (insert_elements_exact lo _ (cut_tail be x) (l1 ++ [cut_head be x]) l2).
  - eexists. split; [done|]. by rewrite rb_shape_in_order, <- app_assoc.
  - rewrite rb_shape_in_order, chain_app. simpl. rewrite cut_head_end. split_and!; try done; [unfold cut_head; ext_lia|].
    apply (chain_le (ext_f_end be)); [lia|done].
  - unfold cut_tail. ext_lia.
  - by rewrite rb_shape_in_order, <- app_assoc.
  - apply Forall_app. split.
    + apply (chain_ends lo); [done|]. unfold cut_tail. cbn. lia.
    + constructor; [|constructor]. rewrite cut_head_end. unfold cut_tail. cbn. lia.
  - rewrite cut_tail_end. by apply (chain_starts (ext_f_end be)).
Qed.

Lemma split_chain lo l1 be l2 x : chain lo (l1 ++ be :: l2) -> be_f_offset be < x < ext_f_end be ->
  chain lo (l1 ++ cut_head be x :: cut_tail be x :: l2).
Proof.
  rewrite !chain_app. simpl. rewrite cut_head_end, cut_tail_end. intros (C1 & H1 & H2 & C2) Hx.
  split_and!; try done; unfold cut_head, cut_tail; ext_lia.
Qed.

Lemma split_lay be l2 x s : be_f_offset be < x < ext_f_end be -> lay (cut_head be x :: cut_tail be x :: l2) s = lay (be :: l2) s.
Proof.
  intros Hx. simpl. unfold holds. rewrite cut_head_end, cut_tail_end, cut_head_image, cut_tail_image.
  replace (be_f_offset (cut_head be x)) with (be_f_offset be) by done. replace (be_f_offset (cut_tail be x)) with x by done.
  destruct (Z.leb_spec (be_f_offset be) s), (Z.ltb_spec s x), (Z.leb_spec x s), (Z.ltb_spec s (ext_f_end be)); try done; lia.
Qed.

(** Where the walk of [ext_tree_mark_written] stands: [l1] has been passed, [l2] is to
    come. *)
Record marking (lo start : Z) (l1 l2 : list pnfs_block_extent) : Prop := {
  mk_chain : chain lo (l1 ++ l2);
  mk_left : settled l1;
  mk_right : settled l2;
  mk_join : forall a b, last l1 = Some a -> head l2 = Some b -> be_f_offset b = start \/ apart a b;
  mk_after : Forall (fun b => start < ext_f_end b) l2;
}.

Definition to_split (start : Z) (l2 : list pnfs_block_extent) : nat :=
  match l2 with [] => 0 | b :: _ => if be_f_offset b <? start then 1 else 0 end.

Definition marked (lo start end_ : Z) (l1 l2 l' : list pnfs_block_extent) : Prop :=
  chain lo l' /\ settled l' /\ forall s, lay l' s = passed (mark start end_) l1 l2 s.

Lemma marked_stop lo start end_ l1 l2 : start < end_ -> marking lo start l1 l2 ->
  (forall b, head l2 = Some b -> end_ <= be_f_offset b) -> marked lo start end_ l1 l2 (l1 ++ l2).
Proof.
  intros Hse [C Sl Sr J A] St. split_and!; [done| |].
  - apply settled_app. split_and!; try done. intros a b Ha Hb. destruct (J a b Ha Hb) as [E|?]; [|done]. specialize (St b Hb). lia.
  - intros s. rewrite lay_app. unfold passed, mark. destruct (lay l1 s); [done|]. destruct (Z.ltb_spec s end_), (Z.leb_spec start s); cbn [andb]; try done.
    destruct l2 as [|b l2]; [done|]. specialize (St b eq_refl). rewrite (lay_below end_ (b :: l2)); try done.
    rewrite chain_app in C. destruct C as (_ & ? & ? & ?). simpl. by split_and!.
Qed.

Lemma marking_next lo start l1 b l2 : marking lo start l1 (b :: l2) -> (be_f_offset b = start -> ~ unwritten b) ->
  marking lo start (l1 ++ [b]) l2 /\ to_split start l2 = 0%nat.
Proof.
  intros [C Sl Sr J A] N. apply settled_cons in Sr as [Sr Ab]. apply Forall_cons in A as [Hb A]. split.
  - split; try done.
    + by rewrite <- app_assoc.
    + apply settled_mid. split_and!; try done. intros a Ha. destruct (J a b Ha eq_refl) as [E|?]; [|done]. auto.
    + intros a c. rewrite last_snoc. intros [= <-] Hc. right. by apply Ab.
  - destruct l2 as [|c l2]; [done|]. simpl. rewrite chain_app in C. destruct C as (_ & _ & _ & ? & _). by rewrite (proj2 (Z.ltb_ge _ _)) by lia.
Qed.

(** An extent within the range is tagged and merged. *)
Lemma tag_step lo start end_ l1 be l2 :
  chain lo (l1 ++ be :: l2) -> settled l1 -> settled l2 -> Forall (fun b => start < ext_f_end b) l2 ->
  unwritten be -> start <= be_f_offset be -> ext_f_end be <= end_ ->
  exists k m post l2', merge_both (l1 ++ be <| be_tag := EXTENT_WRITTEN |> :: l2) (length l1) = (k ++ m :: l2', length k) /\ l2 = post ++ l2' /\
    Forall (fun x => same_kind x (be <| be_tag := EXTENT_WRITTEN |>)) post /\ marking lo start (k ++ [m]) l2' /\ to_split start l2' = 0%nat /\
    forall s, passed (mark start end_) (k ++ [m]) l2' s = passed (mark start end_) l1 (be :: l2) s.
Proof.
  intros C Sl Sr A F Hs He. set (b := be <| be_tag := EXTENT_WRITTEN |>).
  assert (chain lo (l1 ++ b :: l2)) as C' by (rewrite chain_app in C |- *; exact C).
  destruct (merge_both_step lo l1 b l2 C') as (k & m & pre & post & l2' & E & -> & -> & Kp & Km & Cm & L).
  assert (~ unwritten m) as Nm.
  { intros [M1 M2]. destruct Km as [_ Kt]. rewrite Kt in M2 by apply F. done. }
  assert (Forall (fixes (mark start end_)) post) as Fp.
  { eapply Forall_impl; [exact Kp|]. intros x [_ Xt]. apply mark_fixes. intros [_ N]. rewrite Xt in N by apply F. done. }
  exists k, m, post, l2'. split_and!; try done.
  - split.
    + by rewrite <- app_assoc.
    + apply settled_mid. split_and!; [by apply settled_app in Sl as (? & _)|done|auto|done].
    + by apply settled_app in Sr as (_ & ? & _).
    + intros a c. rewrite last_snoc. intros [= <-] _. auto.
    + by apply Forall_app in A as [_ A].
  - destruct l2' as [|c l2']; [done|]. simpl.
    assert (ext_f_end be <= be_f_offset c).
    { change (be :: post ++ c :: l2') with ((be :: post) ++ c :: l2') in C. rewrite app_assoc, chain_app in C. destruct C as (C1 & Hc & _).
      rewrite chain_app in C1. destruct C1 as (_ & _ & _ & C1). apply chain_end in C1. unfold end_of in *. rewrite last_app_cons in Hc. rewrite last_cons in Hc. destruct (last post); lia. }
    pose proof C as C0. rewrite chain_app in C0. destruct C0 as (_ & _ & ? & _). by rewrite (proj2 (Z.ltb_ge _ _)) by ext_lia.
  - intros s. apply (passed_merge _ k m (k ++ pre) b be post l2'); try done. by apply mark_in.
Qed.

(** The cuts at the two ends of the range: neighbours that are apart are not extended,
    so the extent is cut in two. *)
Lemma mark_left_cut lo start t l1 be l2 :
  marking lo start l1 (be :: l2) -> extents t = l1 ++ be :: l2 -> unwritten be -> be_f_offset be < start ->
  exists t', mark_left [] t (length l1) be start = Some (Ok (t', [])) /\ extents t' = l1 ++ cut_head be start :: cut_tail be start :: l2.
Proof.
  intros [C Sl Sr J A] E F Hs. unfold mark_left. rewrite (proj2 (Z.ltb_lt _ _)) by done. apply Forall_cons in A as [Hb _].
  destruct (split_step lo t l1 be l2 start C E (proj1 F)) as (t' & Es & Et); [lia|]. exists t'. split; [|done].
  destruct l1 as [|prev k _] using rev_ind; [cbn [length next_alloc] in *; by rewrite Es|].
  rewrite length_app, Nat.add_1_r in *. rewrite E, <- app_assoc. cbn [app]. rewrite mid_lookup.
  destruct (ext_can_merge prev be) eqn:M; [|cbn [next_alloc]; by rewrite Es].
  exfalso. destruct (J prev be) as [?|Ap]; [by rewrite last_snoc|done|lia|]. rewrite Ap in M; [done| |done].
  apply can_merge_iff in M as (M1 & _ & _ & _ & M2). destruct F as [F1 F2]. split; [congruence|]. rewrite M2 by congruence. done.
Qed.

Lemma mark_right_cut lo start end_ t l1 be l2 :
  marking lo start l1 (be :: l2) -> extents t = l1 ++ be :: l2 -> unwritten be -> be_f_offset be < end_ < ext_f_end be ->
  exists t', mark_right [] t (length l1) be end_ = Some (Ok (t', [])) /\ extents t' = l1 ++ cut_head be end_ :: cut_tail be end_ :: l2.
Proof.
  intros [C Sl Sr J A] E F Hs. unfold mark_right. rewrite (proj2 (Z.ltb_lt _ _)) by lia.
  destruct (split_step lo t l1 be l2 end_ C E (proj1 F) Hs) as (t' & Es & Et). exists t'. split; [|done].
  rewrite E. destruct l2 as [|next l2].
  - rewrite (lookup_ge_None_2 _ (S (length l1))) by (rewrite length_app; simpl; lia). cbn [next_alloc]. by rewrite Es.
  - assert ((l1 ++ be :: next :: l2) !! S (length l1) = Some next) as ->.
    { rewrite lookup_app_r by lia. by replace (S (length l1) - length l1)%nat with 1%nat by lia. }
    destruct (ext_can_merge be next) eqn:M; [|cbn [next_alloc]; by rewrite Es].
    exfalso. apply settled_cons in Sr as [_ Ap]. rewrite Ap in M; [done|done|done|].
    apply can_merge_iff in M as (M1 & _ & _ & _ & M2). destruct F as [F1 F2]. split; [congruence|]. rewrite <- M2 by congruence. done.
Qed.

(** After the first cut the walk goes on with the second part. *)
Lemma marking_after_left lo start l1 be l2 : marking lo start l1 (be :: l2) -> be_f_offset be < start ->
  marking lo start (l1 ++ [cut_head be start]) (cut_tail be start :: l2).
Proof.
  intros [C Sl Sr J A] Hs. apply Forall_cons in A as [Ab A]. apply settled_cons in Sr as [Sr Ap]. split.
  - rewrite <- app_assoc. apply split_chain; [done|lia].
  - apply settled_mid. split_and!; try done. intros a Ha. destruct (J a be Ha eq_refl) as [?|Hap]; [lia|]. done.
  - apply settled_cons. split; [done|]. intros b Hb. by apply cut_tail_apart, Ap.
  - intros a b _ [= <-]. by left.
  - constructor; [by rewrite cut_tail_end|done].
Qed.

(** An extent that reaches beyond the range is the last one: the part within the range
    is tagged. *)
Lemma mark_last lo fuel start end_ t l1 be l2 :
  start < end_ -> extents t = l1 ++ be :: l2 -> marking lo start l1 (be :: l2) -> unwritten be ->
  start <= be_f_offset be -> be_f_offset be < end_ -> end_ < ext_f_end be ->
  exists t', match mark_right [] t (length l1) be end_ with
             | Some (Ok (t, mem)) =>
                 match extents t !! length l1 with
                 | None => None
                 | Some be =>
                     if (start <=? be_f_offset be) && (ext_f_end be <=? end_) then
                       let '(l, i) := ext_try_to_merge_left (<[length l1 := be <| be_tag := EXTENT_WRITTEN |>]> (extents t)) (length l1) in
                       let '(l, i) := ext_try_to_merge_right l i in
                       mark_loop (S fuel) mem (rb_shape t l) (S i) start end_
                     else mark_loop (S fuel) mem t (S (length l1)) start end_
                 end
             | Some (Err e) => Some (e, t)
             | None => None
             end = Some (0, t') /\ marked lo start end_ l1 (be :: l2) (extents t').
Proof.
  intros Hse E M F Ge Gt Lt. pose proof M as [C Sl Sr J A]. pose proof A as [Ab A']%Forall_cons. pose proof Sr as [Sr' Ap]%settled_cons.
  destruct (mark_right_cut lo start end_ t l1 be l2 M E F) as (t1 & -> & E1); [lia|]. rewrite E1, mid_lookup, mid_insert.
  rewrite cut_head_end, Z.leb_refl. replace (start <=? be_f_offset (cut_head be end_)) with true by (symmetry; by apply Z.leb_le). cbn [andb].
  destruct (tag_step lo start end_ l1 (cut_head be end_) (cut_tail be end_ :: l2)) as (k & m & post & l2' & Em & Ep & Kp & M' & T' & L'); try done.
  - apply split_chain; [done|lia].
  - apply settled_cons. split; [done|]. intros b Hb. by apply cut_tail_apart, Ap.
  - constructor; [by rewrite cut_tail_end|done].
  - by rewrite cut_head_end.
  - unfold merge_both in Em. destruct (ext_try_to_merge_left _ _) as [la j]. rewrite Em.
    destruct post as [|x post]; [|exfalso; apply Forall_cons in Kp as [[_ Kt] _]; injection Ep as <- _; destruct F as [F1 F2]; specialize (Kt F1); cbn in Kt; by rewrite F2 in Kt].
    cbn [app] in Ep. subst l2'. cbn [mark_loop]. rewrite rb_shape_in_order.
    rewrite (lookup_app_r k _ (S (length k))) by lia. replace (S (length k) - length k)%nat with 1%nat by lia. cbn [lookup list_lookup].
    replace (be_f_offset (cut_tail be end_)) with end_ by done. rewrite Z.leb_refl. eexists. split; [done|]. rewrite rb_shape_in_order.
    change (k ++ m :: cut_tail be end_ :: l2) with (k ++ [m] ++ cut_tail be end_ :: l2). rewrite app_assoc.
    destruct (marked_stop lo start end_ _ _ Hse M') as (Cs & Ss & Ls); [by intros b [= <-]|]. split_and!; try done.
    intros s. rewrite Ls, L'. unfold passed. by rewrite split_lay by lia.
Qed.

Lemma mark_loop_sem lo fuel start end_ t l1 l2 :
  start < end_ -> extents t = l1 ++ l2 -> marking lo start l1 l2 -> (length l2 + to_split start l2 + 2 <= fuel)%nat ->
  exists t', mark_loop fuel [] t (length l1) start end_ = Some (0, t') /\ marked lo start end_ l1 l2 (extents t').
Proof.
  intros Hse. revert t l1 l2. induction fuel as [|fuel IH]; intros t l1 l2 E M Hf; [lia|]. cbn [mark_loop]. rewrite E.
  destruct l2 as [|be l2].
  { rewrite app_nil_r, lookup_ge_None_2 by done. exists t. split; [done|]. rewrite E. by apply marked_stop. }
  rewrite mid_lookup. destruct (Z.leb_spec end_ (be_f_offset be)) as [Le|Gt].
  { exists t. split; [done|]. rewrite E. apply marked_stop; try done. by intros b [= <-]. }
  destruct (negb _ || negb _) eqn:Ek.
  { assert (~ unwritten be) as N by (intros [F1 F2]; by rewrite F1, F2 in Ek).
    destruct (marking_next lo start l1 be l2 M) as [M' T']; [done|]. destruct (IH t (l1 ++ [be]) l2) as (t' & Et & C' & S' & L'); try done.
    - by rewrite E, <- app_assoc.
    - cbn [length] in Hf. lia.
    - rewrite length_app, Nat.add_1_r in Et. exists t'. split; [done|]. split_and!; try done. intros s. rewrite L'. by apply passed_skip, mark_fixes. }
  assert (unwritten be) as F.
  { apply orb_false_iff in Ek as [E1%negb_false_iff%Z.eqb_eq E2%negb_false_iff%Z.eqb_eq]. done. }
  pose proof M as [C Sl Sr J A]. pose proof A as [Ab A']%Forall_cons. pose proof Sr as [Sr' Ap]%settled_cons.
  destruct (Z.ltb_spec (be_f_offset be) start) as [Lt|Ge].
  - destruct (mark_left_cut lo start t l1 be l2 M E F Lt) as (t1 & -> & E1). rewrite E1, mid_lookup.
    unfold mark_right. rewrite cut_head_end, (proj2 (Z.ltb_ge end_ start)) by lia. rewrite E1, mid_lookup.
    replace (start <=? be_f_offset (cut_head be start)) with false by (symmetry; by apply Z.leb_gt). cbn [andb].
    destruct (IH t1 (l1 ++ [cut_head be start]) (cut_tail be start :: l2)) as (t' & Et & C' & S' & L').
    + by rewrite E1, <- app_assoc.
    + by apply marking_after_left.
    + cbn [length to_split] in *. rewrite (proj2 (Z.ltb_lt _ _)) in Hf by done. replace (be_f_offset (cut_tail be start)) with start by done.
      rewrite Z.ltb_irrefl. lia.
    + rewrite length_app, Nat.add_1_r in Et. exists t'. split; [done|]. split_and!; try done. intros s. rewrite L'.
      rewrite passed_skip by (apply mark_fixes_out; rewrite cut_head_end; lia). unfold passed. by rewrite split_lay by lia.
  - unfold mark_left. rewrite (proj2 (Z.ltb_ge _ _)) by done. rewrite E, mid_lookup.
    destruct (Z.ltb_spec end_ (ext_f_end be)) as [Lt|Ge'].
    + destruct fuel as [|fuel]; [cbn [length] in Hf; lia|]. by apply mark_last.
    + unfold mark_right. rewrite (proj2 (Z.ltb_ge _ _)) by done. rewrite E, mid_lookup, mid_insert.
      rewrite (proj2 (Z.leb_le start _)), (proj2 (Z.leb_le _ end_)) by done. cbn [andb].
      destruct (tag_step lo start end_ l1 be l2) as (k & m & post & l2' & Em & -> & Kp & M' & T' & L'); try done.
      unfold merge_both in Em. destruct (ext_try_to_merge_left _ _) as [la j]. rewrite Em.
      destruct (IH (rb_shape t (k ++ m :: l2')) (k ++ [m]) l2') as (t' & Et & C' & S' & Ls); try done.
      * by rewrite rb_shape_in_order, <- app_assoc.
      * cbn [length to_split] in Hf. rewrite length_app in Hf. lia.
      * rewrite length_app, Nat.add_1_r in Et. exists t'. split; [done|]. split_and!; try done. intros s. by rewrite Ls.
Qed.
End Marking.

(** ** After the server's answer *)

(** What the map says of a sector whose commit was answered with [status]. *)
Definition answered (status : Z) (o : option (Z * Z * Z * Z)) : option (Z * Z * Z * Z) :=
  match o with
  | Some (st, d, v, tag) =>
      if (st =? PNFS_BLOCK_INVALID_DATA) && (tag =? EXTENT_COMMITTING) then
        if negb (status =? 0) then Some (st, d, v, EXTENT_WRITTEN) else Some (PNFS_BLOCK_READWRITE_DATA, d, v, 0)
      else o
  | None => None
  end.

Definition committing (be : pnfs_block_extent) : Prop := be_state be = PNFS_BLOCK_INVALID_DATA /\ be_tag be = EXTENT_COMMITTING.
Definition after_answer (status : Z) (be : pnfs_block_extent) : pnfs_block_extent :=
  if negb (status =? 0) then be <| be_tag := EXTENT_WRITTEN |> else be <| be_state := PNFS_BLOCK_READWRITE_DATA |> <| be_tag := 0 |>.

Lemma answered_fixes status b : ~ committing b -> fixes (fun _ => answered status) b.
Proof.
  intros N s _. unfold answered, image, committing in *.
  destruct (Z.eqb_spec (be_state b) PNFS_BLOCK_INVALID_DATA), (Z.eqb_spec (be_tag b) EXTENT_COMMITTING); try done. tauto.
Qed.

Lemma answered_image status be s : committing be -> answered status (Some (image be s)) = Some (image (after_answer status be) s).
Proof.
  intros [F1 F2]. unfold answered, image, after_answer. rewrite F1, F2. cbn. destruct (Z.eqb_spec status 0); cbn; [done|]. by rewrite F1.
Qed.

Lemma after_answer_kind status be x : committing be -> same_kind x (after_answer status be) -> ~ committing x /\ ~ unwritten x.
Proof.
  intros [F1 F2] [K1 K2]. unfold after_answer in *. destruct (negb (status =? 0)); cbn in *.
  - rewrite F1 in *. specialize (K2 eq_refl). split; intros [X1 X2]; by rewrite K2 in X2.
  - split; intros [X1 X2]; by rewrite K1 in X1.
Qed.

Lemma committed_loop_sem lo fuel status l1 l2 :
  chain lo (l1 ++ l2) -> (length l2 < fuel)%nat ->
  exists l', committed_loop fuel status (l1 ++ l2) (length l1) = Some l' /\ chain lo l' /\
    (settled (l1 ++ l2) -> settled l') /\ forall s, lay l' s = passed (fun _ => answered status) l1 l2 s.
Proof.
  revert l1 l2. induction fuel as [|fuel IH]; intros l1 l2 C Hf; [lia|]. cbn [committed_loop]. destruct l2 as [|be l2].
  { rewrite app_nil_r in *. rewrite lookup_ge_None_2 by done. exists l1. split_and!; try done. intros s. unfold passed. by destruct (lay l1 s). }
  rewrite mid_lookup. destruct (negb _ || negb _) eqn:Ek.
  { assert (~ committing be) as N by (intros [F1 F2]; by rewrite F1, F2 in Ek). cbn [length] in Hf.
    destruct (IH (l1 ++ [be]) l2) as (l' & El & C' & S' & L'); [by rewrite <- app_assoc|lia|].
    rewrite <- app_assoc, length_app, Nat.add_1_r in *. exists l'. split_and!; try done. intros s. rewrite L'. by apply passed_skip, answered_fixes. }
  assert (committing be) as F.
  { apply orb_false_iff in Ek as [E1%negb_false_iff%Z.eqb_eq E2%negb_false_iff%Z.eqb_eq]. done. }
  fold (after_answer status be). rewrite mid_insert. set (b := after_answer status be).
  assert (be_f_offset b = be_f_offset be /\ ext_f_end b = ext_f_end be) as [Eo Ee].
  { unfold b, after_answer. by destruct (negb (status =? 0)). }
  assert (chain lo (l1 ++ b :: l2)) as Cb.
  { rewrite chain_app in C |- *. simpl in *. rewrite Eo, Ee. split_and!; try apply C. unfold b, after_answer. destruct (negb (status =? 0)); apply C. }
  destruct (merge_both_step lo l1 b l2 Cb) as (k & m & pre & post & l2' & Em & -> & -> & Kp & Km & Cm & L).
  unfold merge_both in Em. destruct (ext_try_to_merge_left _ _) as [la j]. rewrite Em.
  destruct (IH (k ++ [m]) l2') as (l' & El & C' & S' & L'); [by rewrite <- app_assoc|cbn [length] in Hf; rewrite length_app in Hf; lia|].
  rewrite <- app_assoc, length_app, Nat.add_1_r in *. exists l'. split_and!; try done.
  - intros (S1 & S2 & _)%settled_app. apply S'. apply settled_mid in S2 as (_ & S2 & _). apply settled_app in S2 as (_ & S2 & _).
    destruct (after_answer_kind status be m F Km) as [_ Nm]. apply settled_mid. split_and!; auto.
  - intros s. rewrite L'. apply (passed_merge _ k m (k ++ pre) b be post l2'); try done.
    + by rewrite <- app_assoc.
    + eapply Forall_impl; [exact Kp|]. intros x Kx. by apply answered_fixes, (after_answer_kind status be x F Kx).
    + intros _. by apply answered_image.
Qed.
