(* ===== verification/ExtentTheorems.v ===== *)
(** * What the operations on a block layout do

    Looking up, inserting, removing, marking as written and committing, in terms of
    the map from the sectors of a file to the disks, for trees of any shape. *)

From S2P Require Import Prelude RbTree Xdr ExtentTree ExtentMap ExtentInsert ExtentMark.
From stdpp Require Import list.
#[local] Open Scope Z_scope.

(** A layout in order: both trees sorted without overlaps, and in the tree of writable
    extents no two unwritten neighbours that could be one. *)
Definition bl_ok (bl : pnfs_block_layout) : Prop :=
  chain 0 (extents (bl_ext_rw bl)) /\ chain 0 (extents (bl_ext_ro bl)) /\ settled (extents (bl_ext_rw bl)).

Definition rw_map (bl : pnfs_block_layout) : Z -> option (Z * Z * Z * Z) := lay (extents (bl_ext_rw bl)).
Definition ro_map (bl : pnfs_block_layout) : Z -> option (Z * Z * Z * Z) := lay (extents (bl_ext_ro bl)).

(** ** What goes into an update *)

Definition tag_commit (be : pnfs_block_extent) : pnfs_block_extent := if to_commit be then be <| be_tag := EXTENT_COMMITTING |> else be.
Definition in_update (l : list pnfs_block_extent) : list pnfs_block_extent := List.filter to_commit l.

Fixpoint tag_first (n : nat) (l : list pnfs_block_extent) : list pnfs_block_extent :=
  match l with
  | [] => []
  | be :: l =>
      if to_commit be then
        match n with O => be :: tag_first O l | S n => be <| be_tag := EXTENT_COMMITTING |> :: tag_first n l end
      else be :: tag_first n l
  end.

Definition item_size (bl : pnfs_block_layout) : Z := if bl_scsi_layout bl then PNFS_SCSI_RANGE_SIZE else PNFS_BLOCK_EXTENT_SIZE.

(** How many extents fit in a buffer. *)
Definition fits (bl : pnfs_block_layout) (buffer_size : Z) : nat := Z.to_nat ((buffer_size - 4) / item_size bl).

Lemma item_size_pos bl : 0 < item_size bl.
Proof. unfold item_size. by destruct (bl_scsi_layout bl). Qed.

Lemma update_size bl n : ext_tree_layoutupdate_size bl n = 4 + item_size bl * n.
Proof. unfold ext_tree_layoutupdate_size, item_size. by destruct (bl_scsi_layout bl). Qed.

Lemma fits_spec bl size n : 4 <= size -> (size <? ext_tree_layoutupdate_size bl (Z.of_nat n)) = negb (n <=? fits bl size)%nat.
Proof.
  intros H. rewrite update_size. unfold fits. pose proof (item_size_pos bl) as P.
  assert (0 <= (size - 4) / item_size bl) as D by (apply Z.div_pos; lia).
  destruct (Nat.leb_spec n (Z.to_nat ((size - 4) / item_size bl))) as [L|G]; cbn [negb].
  - apply Z.ltb_ge. assert (Z.of_nat n <= (size - 4) / item_size bl) as L' by lia. pose proof (Z.mul_div_le (size - 4) (item_size bl) P). nia.
  - apply Z.ltb_lt. assert ((size - 4) / item_size bl < Z.of_nat n) as G' by lia.
    pose proof (Z.mod_pos_bound (size - 4) (item_size bl) P). pose proof (Z.div_mod (size - 4) (item_size bl) ltac:(lia)). nia.
Qed.

Lemma tag_first_none l : tag_first 0 l = l.
Proof. induction l as [|be l IH]; [done|]. simpl. rewrite IH. by destruct (to_commit be). Qed.

Lemma tag_first_all n l : (length (in_update l) <= n)%nat -> tag_first n l = map tag_commit l.
Proof.
  revert n. induction l as [|be l IH]; intros n; simpl; [done|]. unfold in_update, tag_commit in *. cbn [List.filter]. destruct (to_commit be); simpl.
  - destruct n; [lia|]. intros. rewrite IH by lia. done.
  - intros. by rewrite IH.
Qed.

Lemma tag_first_rest n l : in_update (tag_first n l) = drop n (in_update l).
Proof.
  revert n. induction l as [|be l IH]; intros n; [simpl; by rewrite drop_nil|]. unfold in_update in *. simpl. destruct (to_commit be) eqn:E.
  - destruct n as [|n]; simpl.
    + rewrite E. by rewrite IH.
    + assert (to_commit (be <| be_tag := EXTENT_COMMITTING |>) = false) as ->; [|by rewrite IH].
      unfold to_commit in *. cbn. by rewrite andb_false_r.
  - simpl. rewrite E. apply IH.
Qed.

Lemma tag_first_twice n m l : (length (in_update l) <= n + m)%nat -> tag_first m (tag_first n l) = map tag_commit l.
Proof.
  revert n m. induction l as [|be l IH]; intros n m; simpl; [done|]. unfold in_update, tag_commit in *. cbn [List.filter]. destruct (to_commit be) eqn:E; simpl.
  - intros Hl. destruct n as [|n]; simpl.
    + rewrite E. destruct m as [|m]; [lia|]. rewrite IH by lia. done.
    + assert (to_commit (be <| be_tag := EXTENT_COMMITTING |>) = false) as ->; [unfold to_commit; cbn; by rewrite andb_false_r|].
      rewrite IH by lia. done.
  - intros Hl. rewrite E. by rewrite IH.
Qed.

(** Beyond the buffer extents are only counted. *)
Lemma encode_beyond dev bl size count l :
  4 <= size -> (fits bl size < count)%nat ->
  encode_commit_loop dev bl size (Z.of_nat count) (- 28) l = (l, [], Z.of_nat (count + length (in_update l)), - 28).
Proof.
  intros Hs. revert count. induction l as [|be l IH]; intros count Hc; cbn [encode_commit_loop]; [by rewrite Nat.add_0_r|].
  unfold in_update. cbn [List.filter]. destruct (to_commit be); cbn [negb].
  - replace (Z.of_nat count + 1) with (Z.of_nat (S count)) by lia. rewrite fits_spec, (proj2 (Nat.leb_gt _ _)) by (done || lia). cbn [negb].
    rewrite IH by lia. cbn [length]. by rewrite Nat.add_succ_r.
  - by rewrite IH.
Qed.

(** One pass: as many extents as fit are encoded and tagged, all are counted. *)
Lemma encode_commit_loop_spec dev bl size count ret l :
  4 <= size -> (count <= fits bl size)%nat ->
  encode_commit_loop dev bl size (Z.of_nat count) ret l =
  (tag_first (fits bl size - count) l, concat (map (encode_extent dev bl) (take (fits bl size - count) (in_update l))),
   Z.of_nat (count + length (in_update l)), if (count + length (in_update l) <=? fits bl size)%nat then ret else - 28).
Proof.
  intros Hs. revert count ret. induction l as [|be l IH]; intros count ret Hc; cbn [encode_commit_loop].
  { cbn [in_update List.filter length tag_first]. rewrite take_nil, Nat.add_0_r. by rewrite (proj2 (Nat.leb_le _ _)). }
  unfold in_update. cbn [tag_first List.filter]. destruct (to_commit be) eqn:E; cbn [negb].
  2: { rewrite IH by done. done. }
  replace (Z.of_nat count + 1) with (Z.of_nat (S count)) by lia. rewrite fits_spec by done. destruct (Nat.leb_spec (S count) (fits bl size)) as [L|G]; cbn [negb].
  - rewrite IH by done. replace (fits bl size - count)%nat with (S (fits bl size - S count)) by lia. cbn [take map concat length].
    by replace (S count + length (in_update l))%nat with (count + S (length (List.filter to_commit l)))%nat by (unfold in_update; lia).
  - replace (fits bl size - count)%nat with 0%nat by lia. cbn [take map concat length].
    rewrite (encode_beyond dev bl size (S count) l) by (done || lia). cbn [fst snd]. rewrite tag_first_none. unfold in_update.
    replace (S count + length (List.filter to_commit l))%nat with (count + S (length (List.filter to_commit l)))%nat by lia.
    by rewrite (proj2 (Nat.leb_gt _ _)) by lia.
Qed.

(** The map when an update is under way. *)
Definition sent (o : option (Z * Z * Z * Z)) : option (Z * Z * Z * Z) :=
  match o with
  | Some (st, d, v, tag) => if (st =? PNFS_BLOCK_INVALID_DATA) && (tag =? EXTENT_WRITTEN) then Some (st, d, v, EXTENT_COMMITTING) else o
  | None => None
  end.

Lemma tag_commit_lay l s : lay (map tag_commit l) s = sent (lay l s).
Proof.
  induction l as [|be l IH]; [done|]. simpl. unfold tag_commit at 1 2. destruct (to_commit be) eqn:E.
  - unfold holds, ext_f_end in *. cbn. destruct (_ && _); [|done]. apply andb_true_iff in E as [E1%Z.eqb_eq E2%Z.eqb_eq].
    unfold sent, image, field_upd. cbn. by rewrite E1, E2.
  - destruct (holds be s); [|done]. unfold sent, image. unfold to_commit in E.
    destruct (be_state be =? PNFS_BLOCK_INVALID_DATA); cbn in *; [by rewrite E|done].
Qed.

Lemma tag_commit_chain lo l : chain lo l -> chain lo (map tag_commit l).
Proof.
  revert lo. induction l as [|be l IH]; intros lo; simpl; [done|]. intros (? & ? & C). unfold tag_commit at 1 2 3.
  destruct (to_commit be); unfold ext_f_end in *; cbn; split_and!; try done; by apply IH.
Qed.

Lemma tag_commit_apart a b : apart a b -> apart (tag_commit a) (tag_commit b).
Proof.
  intros A Fa Fb. unfold tag_commit, unwritten in *.
  destruct (to_commit a); [by destruct Fa|]. destruct (to_commit b); [by destruct Fb|]. by apply A.
Qed.

Lemma tag_commit_settled l : settled l -> settled (map tag_commit l).
Proof.
  induction l as [|a l IH]; [done|]. cbn [map]. rewrite !settled_cons. intros [S A]. split; [by apply IH|].
  intros b. destruct l as [|c l]; [done|]. intros [= <-]. by apply tag_commit_apart, A.
Qed.

Lemma lay_elem lo l be s : chain lo l -> be ∈ l -> holds be s = true -> lay l s = Some (image be s).
Proof. intros C (l1 & l2 & ->)%list_elem_of_split Hs%holds_iff. by apply (lay_mid lo). Qed.

Lemma lay_inv l s x : lay l s = Some x -> exists be, be ∈ l /\ holds be s = true /\ x = image be s.
Proof.
  induction l as [|b l IH]; [done|]. simpl. destruct (holds b s) eqn:Hb; [intros [= <-]; exists b; split_and!; [left|..]; done|].
  intros (be & ? & ? & ->)%IH. exists be. split_and!; [by right|done..].
Qed.

Lemma in_update_elem l be : be ∈ in_update l <-> be ∈ l /\ be_state be = PNFS_BLOCK_INVALID_DATA /\ be_tag be = EXTENT_WRITTEN.
Proof.
  unfold in_update. rewrite !list_elem_of_In, List.filter_In. unfold to_commit. rewrite andb_true_iff, !Z.eqb_eq. done.
Qed.

(** The sectors of an update are those the map has as written. *)
Lemma in_update_lay lo l s : chain lo l ->
  (exists d v, lay l s = Some (PNFS_BLOCK_INVALID_DATA, d, v, EXTENT_WRITTEN)) <-> exists be, be ∈ in_update l /\ holds be s = true.
Proof.
  intros C. split.
  - intros (d & v & E). destruct (lay_inv l s _ E) as (be & Hin & Hh & Ei). exists be. split; [|done]. apply in_update_elem. split; [done|].
    unfold image in Ei. destruct (Z.eqb_spec (be_state be) PNFS_BLOCK_INVALID_DATA) as [Es|N]; [|congruence].
    by rewrite Es in Ei; injection Ei.
  - intros (be & (Hin & E1 & E2)%in_update_elem & Hh). eexists _, _. rewrite (lay_elem lo l be s C Hin Hh). unfold image. by rewrite E1, E2.
Qed.

Section Layouts.
Context `{RbShape pnfs_block_extent}.

Lemma encode_commit_spec dev bl size : 4 <= size ->
  let l := extents (bl_ext_rw bl) in
  ext_tree_encode_commit dev bl size =
  (bl <| bl_ext_rw := rb_shape (bl_ext_rw bl) (tag_first (fits bl size) l) |> <| bl_lwb := 0 |>,
   concat (map (encode_extent dev bl) (take (fits bl size) (in_update l))), Z.of_nat (length (in_update l)), u64 (bl_lwb bl - 1),
   if (length (in_update l) <=? fits bl size)%nat then 0 else - 28).
Proof.
  intros Hs l. unfold ext_tree_encode_commit. change 0 with (Z.of_nat 0) at 1. rewrite encode_commit_loop_spec by (done || lia).
  by rewrite Nat.sub_0_r.
Qed.

(** The update and [lastbytewritten], when all written extents fit in a page and when
    they do not. *)
Lemma prepare_commit_spec dev bl :
  let w := in_update (extents (bl_ext_rw bl)) in
  let n := fits bl BL_PAGE_SIZE in
  exists bl', extents (bl_ext_rw bl') = map tag_commit (extents (bl_ext_rw bl)) /\ bl_ext_ro bl' = bl_ext_ro bl /\
    bl_scsi_layout bl' = bl_scsi_layout bl /\ bl_lwb bl' = 0 /\
    ext_tree_prepare_commit [] dev bl =
      let w' := if (length w <=? n)%nat then w else drop n w in
      Some (Ok (be32 (Z.of_nat (length w')) ++ concat (map (encode_extent dev bl) w'), u64 ((if (length w <=? n)%nat then bl_lwb bl else 0) - 1)), bl').
Proof.
  intros w n. unfold ext_tree_prepare_commit. cbn [next_alloc prepare_loop]. rewrite encode_commit_spec by done. fold w n.
  destruct (Nat.leb_spec (length w) n) as [L|G].
  - rewrite Z.eqb_refl. cbn [negb]. eexists. split; [|split; [|split; [|split; [|by rewrite take_ge]]]]; try done.
    cbn. rewrite rb_shape_in_order. by apply tag_first_all.
  - cbn [Z.eqb negb next_alloc]. set (bl1 := bl <| bl_ext_rw := _ |> <| bl_lwb := 0 |>). cbn [prepare_loop].
    assert (ext_tree_layoutupdate_size bl1 (Z.of_nat (length w)) = 4 + item_size bl * Z.of_nat (length w)) as Es by apply (update_size bl).
    pose proof (item_size_pos bl) as P. rewrite encode_commit_spec by lia.
    assert (fits bl1 (ext_tree_layoutupdate_size bl1 (Z.of_nat (length w))) = length w) as Ef.
    { rewrite Es. unfold fits. replace (4 + item_size bl * Z.of_nat (length w) - 4) with (Z.of_nat (length w) * item_size bl) by lia.
      change (item_size bl1) with (item_size bl). rewrite Z.div_mul by lia. lia. }
    assert (extents (bl_ext_rw bl1) = tag_first n (extents (bl_ext_rw bl))) as E1 by apply rb_shape_in_order.
    rewrite Ef, E1, tag_first_rest. fold w. rewrite length_drop, (proj2 (Nat.leb_le _ _)) by lia. rewrite Z.eqb_refl. cbn [negb].
    eexists. split; [|split; [|split; [|split; [|rewrite take_ge by (rewrite length_drop; lia); done]]]]; try done.
    cbn. rewrite rb_shape_in_order. apply tag_first_twice. fold w. lia.
Qed.

(** ** The operations *)

Definition writable (new : pnfs_block_extent) : bool :=
  (be_state new =? PNFS_BLOCK_READWRITE_DATA) || (be_state new =? PNFS_BLOCK_INVALID_DATA).
Definition readable (new : pnfs_block_extent) : bool := (be_state new =? PNFS_BLOCK_READ_DATA) || (be_state new =? PNFS_BLOCK_NONE_DATA).

(** What the map says once [new] has been added: it does not change where there was an
    extent. *)
Definition with_new (new : pnfs_block_extent) (s : Z) (o : option (Z * Z * Z * Z)) : option (Z * Z * Z * Z) :=
  match o with Some x => Some x | None => if holds new s then Some (image new s) else None end.

Definition without (start end_ s : Z) (o : option (Z * Z * Z * Z)) : option (Z * Z * Z * Z) :=
  if (start <=? s) && (s <? end_) then None else o.

Lemma lookup_holds t s be : __ext_tree_lookup t s = Some be -> holds be s = true.
Proof.
  induction t as [|l IHl b r IHr]; [done|]. simpl. destruct (Z.ltb_spec s (be_f_offset b)); [done|]. destruct (Z.leb_spec (ext_f_end b) s); [done|].
  intros [= <-]. by apply holds_iff.
Qed.

(** C39: [ext_tree_lookup] finds the extent of a sector whatever the shape of the trees:
    the read-only tree goes first when the caller only reads, what is found holds the
    sector, and where nothing is found the layout says nothing of the sector. *)
Theorem ext_tree_lookup_map bl isect rw :
  bl_ok bl ->
  (fun be => image be isect) <$> ext_tree_lookup bl isect rw =
    (if rw then rw_map bl isect else match ro_map bl isect with Some x => Some x | None => rw_map bl isect end) /\
  (forall be, ext_tree_lookup bl isect rw = Some be -> be_f_offset be <= isect < be_f_offset be + be_length be).
Proof.
  intros (Cw & Cr & _). unfold rw_map, ro_map, ext_tree_lookup. rewrite (lookup_lay 0 _ _ Cw), (lookup_lay 0 _ _ Cr).
  assert (forall t be, __ext_tree_lookup t isect = Some be -> be_f_offset be <= isect < be_f_offset be + be_length be) as R.
  { intros t be Hl%lookup_holds. by apply holds_iff in Hl. }
  destruct rw; cbn [negb]; [split; [done|apply R]|]. destruct (__ext_tree_lookup (bl_ext_ro bl) isect) as [be|] eqn:E; cbn; split; try done.
  - intros b [= <-]. by apply (R _ _ E).
  - apply R.
Qed.


(** C38: [ext_tree_remove] clears exactly the sectors of the range, in the read-only
    tree and, when asked, in the other, and keeps the layout in order.  A tree in which
    an extent would have to be cut in two without memory is left as it was, and the
    error is reported. *)
Theorem ext_tree_remove_clears no_mem no_mem2 bl rw start end_ :
  bl_ok bl -> 0 <= start -> start < end_ ->
  exists err bl', ext_tree_remove no_mem no_mem2 bl rw start end_ = Some (err, bl') /\ bl_ok bl' /\ (err = 0 \/ err = - ENOMEM) /\
    ((forall s, ro_map bl' s = without start end_ s (ro_map bl s)) \/ no_mem = true /\ err = - ENOMEM /\ bl_ext_ro bl' = bl_ext_ro bl) /\
    ((forall s, rw_map bl' s = if rw then without start end_ s (rw_map bl s) else rw_map bl s) \/
     no_mem2 = true /\ err = - ENOMEM /\ bl_ext_rw bl' = bl_ext_rw bl).
Proof.
  intros (Cw & Cr & Sw) Hs Hse. unfold ext_tree_remove.
  destruct (remove_sem 0 no_mem (bl_ext_ro bl) start end_ Cr Hs Hse) as (r & -> & R).
  destruct (remove_sem 0 no_mem2 (bl_ext_rw bl) start end_ Cw Hs Hse) as (r2 & E2 & R2).
  destruct r as [[t ?]|e], r2 as [[t2 ?]|e2], rw; cbn [bl_ext_rw field_upd] in *; cbn; rewrite ?E2; cbn;
    repeat match goal with Hr : removed _ _ _ _ _ |- _ => destruct Hr as (? & ? & ?) | Hr : _ = - ENOMEM /\ _ = true |- _ => destruct Hr as [-> ->] end;
    (eexists _, _; split; [done|]; split_and!; [by split_and!; auto|..]; eauto).
Qed.


Lemma mark_committed_sem status bl : bl_ok bl ->
  exists bl', ext_tree_mark_committed status bl = Some bl' /\ bl_ok bl' /\ bl_ext_ro bl' = bl_ext_ro bl /\
    forall s, rw_map bl' s = answered status (rw_map bl s).
Proof.
  intros (Cw & Cr & Sw). unfold ext_tree_mark_committed.
  destruct (committed_loop_sem 0 (S (length (extents (bl_ext_rw bl)))) status [] (extents (bl_ext_rw bl))) as (l' & E & C' & S' & L'); [done|lia|].
  cbn [app length] in E. rewrite E. eexists. split; [done|]. split; [|split; [done|]].
  - unfold bl_ok. cbn. rewrite rb_shape_in_order. split_and!; [done|done|by apply S'].
  - intros s. unfold rw_map. cbn. by rewrite rb_shape_in_order, L'.
Qed.

Lemma tagged_ok bl bl' : bl_ok bl -> extents (bl_ext_rw bl') = map tag_commit (extents (bl_ext_rw bl)) -> bl_ext_ro bl' = bl_ext_ro bl ->
  bl_ok bl' /\ forall s, rw_map bl' s = sent (rw_map bl s).
Proof.
  intros (Cw & Cr & Sw) E Er. split.
  - split_and!; rewrite ?E, ?Er; [by apply tag_commit_chain|done|by apply tag_commit_settled].
  - intros s. unfold rw_map. rewrite E. apply tag_commit_lay.
Qed.

(** C37: a LAYOUTCOMMIT whose written extents fit in a page.  The update counts and
    encodes exactly the extents whose sectors the map has as written, and the last
    byte written goes with it.  After the answer 0 these sectors, and those of an
    earlier update, hold valid data at the same place of the disk; after an error they
    are written and will be sent again.  All other sectors stay as they were, and the
    layout stays in order. *)
Theorem layoutcommit_round dev bl status :
  bl_ok bl -> (length (in_update (extents (bl_ext_rw bl))) <= fits bl BL_PAGE_SIZE)%nat ->
  let w := in_update (extents (bl_ext_rw bl)) in
  (forall s, (exists d v, rw_map bl s = Some (PNFS_BLOCK_INVALID_DATA, d, v, EXTENT_WRITTEN)) <-> exists be, be ∈ w /\ holds be s = true) /\
  exists bl1 bl2,
    ext_tree_prepare_commit [] dev bl = Some (Ok (be32 (Z.of_nat (length w)) ++ concat (map (encode_extent dev bl) w), u64 (bl_lwb bl - 1)), bl1) /\
    bl_ok bl1 /\ bl_lwb bl1 = 0 /\
    ext_tree_mark_committed status bl1 = Some bl2 /\ bl_ok bl2 /\
    (forall s, rw_map bl2 s = answered status (sent (rw_map bl s))) /\ (forall s, ro_map bl2 s = ro_map bl s).
Proof.
  intros B Hw w. split; [intros s; apply (in_update_lay 0); apply B|].
  destruct (prepare_commit_spec dev bl) as (bl1 & E1 & E2 & E3 & E4 & Ep). fold w in Ep, Hw. rewrite (proj2 (Nat.leb_le _ _)) in Ep by done.
  destruct (tagged_ok bl bl1 B E1 E2) as [B1 L1]. destruct (mark_committed_sem status bl1 B1) as (bl2 & Em & B2 & Er & L2).
  exists bl1, bl2. split_and!; try done.
  - intros s. by rewrite L2, L1.
  - intros s. unfold ro_map. by rewrite Er, E2.
Qed.

(** A LAYOUTCOMMIT with more written extents than a page holds.  The first pass
    marks the extents that fit as being committed and takes the last byte written;
    the second, with the larger buffer, skips them.  So the update lacks the first
    extents and gives [U64_MAX] for the last byte written, and a good answer makes
    the client take sectors the server has not heard of for valid data. *)
Theorem layoutcommit_overflow_drops dev bl :
  bl_ok bl -> (fits bl BL_PAGE_SIZE < length (in_update (extents (bl_ext_rw bl))))%nat ->
  let w := in_update (extents (bl_ext_rw bl)) in
  let n := fits bl BL_PAGE_SIZE in
  exists bl1 bl2,
    ext_tree_prepare_commit [] dev bl =
      Some (Ok (be32 (Z.of_nat (length (drop n w))) ++ concat (map (encode_extent dev bl) (drop n w)), 2 ^ 64 - 1), bl1) /\
    ext_tree_mark_committed 0 bl1 = Some bl2 /\
    forall be s, be ∈ take n w -> holds be s = true ->
      rw_map bl2 s = Some (PNFS_BLOCK_READWRITE_DATA, be_device be, be_v_offset be + (s - be_f_offset be), 0).
Proof.
  intros B Hw w n. destruct (prepare_commit_spec dev bl) as (bl1 & E1 & E2 & E3 & E4 & Ep). fold w n in Ep, Hw.
  rewrite (proj2 (Nat.leb_gt _ _)) in Ep by done. destruct (tagged_ok bl bl1 B E1 E2) as [B1 L1].
  destruct (mark_committed_sem 0 bl1 B1) as (bl2 & Em & B2 & Er & L2). exists bl1, bl2. split_and!; try done.
  intros be s Hin Hh. assert (be ∈ w) as (Hb & Es & Et)%in_update_elem.
  { rewrite <- (take_drop n w). apply elem_of_app. by left. }
  rewrite L2, L1. unfold rw_map. rewrite (lay_elem 0 _ be s) by (done || apply B). unfold image. by rewrite Es, Et.
Qed.
End Layouts.

(** ** Witnesses *)

#[local] Existing Instance spine_shape.

(** Sectors 0-9 without data, 20-29 with data; sectors 5-24 are also to be had
    read-only. *)
Definition bl_example : pnfs_block_layout :=
  mk_bl (Node (Node Leaf (mk_be 7 0 10 1000 PNFS_BLOCK_INVALID_DATA 0) Leaf) (mk_be 7 20 10 1020 PNFS_BLOCK_READWRITE_DATA 0) Leaf)
    (spine [mk_be 7 5 20 500 PNFS_BLOCK_READ_DATA 0]) false 0.

Lemma bl_example_ok : bl_ok bl_example.
Proof. unfold bl_ok. cbn. unfold apart. cbn. split_and!; try done; ext_lia. Defined.

Lemma ext_tree_lookup_map_witness : bl_ok bl_example /\ (fun be => image be 7) <$> ext_tree_lookup bl_example 7 false = Some (1, 7, 502, 0).
Proof. split; [exact bl_example_ok|]. apply (proj1 (ext_tree_lookup_map bl_example 7 false bl_example_ok)). Defined.


Lemma ext_tree_remove_clears_witness : bl_ok bl_example /\ exists err bl', ext_tree_remove false false bl_example true 3 22 = Some (err, bl') /\ bl_ok bl'.
Proof.
  split; [exact bl_example_ok|].
  destruct (ext_tree_remove_clears false false bl_example true 3 22 bl_example_ok) as (err & bl' & E & B & _); [lia..|]. by exists err, bl'.
Defined.


(** Written extents of one sector each, every second sector. *)
Definition scattered (n : nat) : list pnfs_block_extent :=
  map (fun i => mk_be 7 (2 * Z.of_nat i) 1 (1000 + 2 * Z.of_nat i) PNFS_BLOCK_INVALID_DATA EXTENT_WRITTEN) (seq 0 n).
Definition bl_scattered (n : nat) : pnfs_block_layout := mk_bl (spine (scattered n)) Leaf false (1024 * Z.of_nat n).

Lemma bl_scattered_ok n : bl_ok (bl_scattered n).
Proof.
  unfold bl_ok. cbn. rewrite spine_in_order. unfold scattered. split_and!; [|done|].
  - enough (forall k j, chain (2 * Z.of_nat j) (map (fun i => mk_be 7 (2 * Z.of_nat i) 1 (1000 + 2 * Z.of_nat i) PNFS_BLOCK_INVALID_DATA EXTENT_WRITTEN) (seq j k))) as Hc
      by apply (Hc n 0%nat).
    induction k as [|k IH]; intros j; [done|]. cbn [seq map chain]. split_and!; cbn; [lia..|]. apply (chain_le (2 * Z.of_nat (S j))); [ext_lia|]. apply IH.
  - generalize (seq 0 n). intros l. induction l as [|a l IH]; [done|]. cbn [map]. apply settled_cons. split; [done|]. intros b _. by apply written_apart_l; intros [_ ?].
Defined.

Lemma layoutcommit_round_witness : bl_ok (bl_scattered 3) /\ exists bl1 bl2,
  ext_tree_mark_committed 0 bl1 = Some bl2 /\ rw_map bl2 4 = Some (PNFS_BLOCK_READWRITE_DATA, 7, 1004, 0).
Proof.
  split; [apply bl_scattered_ok|].
  destruct (layoutcommit_round (fun _ => []) (bl_scattered 3) 0 (bl_scattered_ok 3)) as (_ & bl1 & bl2 & _ & _ & _ & E & _ & L & _); [vm_compute; lia|].
  exists bl1, bl2. split; [done|]. by rewrite L.
Defined.

(** 94 extents, one more than a page holds: the first is not sent. *)
Lemma layoutcommit_overflow_drops_witness : bl_ok (bl_scattered 94) /\ exists bl1 bl2,
  ext_tree_mark_committed 0 bl1 = Some bl2 /\ rw_map bl2 0 = Some (PNFS_BLOCK_READWRITE_DATA, 7, 1000, 0).
Proof.
  split; [apply bl_scattered_ok|].
  destruct (layoutcommit_overflow_drops (fun _ => []) (bl_scattered 94) (bl_scattered_ok 94)) as (bl1 & bl2 & _ & E & L); [vm_compute; lia|].
  exists bl1, bl2. split; [done|]. rewrite (L (mk_be 7 0 1 1000 PNFS_BLOCK_INVALID_DATA EXTENT_WRITTEN)); [done| |done].
  apply list_elem_of_lookup. exists 0%nat. by vm_compute.
Defined.

(** After an allocation failure between its two cuts, [ext_tree_mark_written] leaves an
    unwritten extent cut in two.  A later call for a range that ends within the first
    part extends the second by the length of the range instead of the rest: it
    reports success and the written sectors stay unmarked. *)
Example mark_written_misses_after_failure :
  exists bl1 bl2,
    ext_tree_mark_written false [false; true] (mk_bl (spine [mk_be 7 0 30 1000 PNFS_BLOCK_INVALID_DATA 0]) Leaf false 0) 10 3 6656 = Some (- ENOMEM, bl1) /\
    ext_tree_mark_written false [] bl1 5 2 6656 = Some (0, bl2) /\ rw_map bl2 5 = Some (PNFS_BLOCK_INVALID_DATA, 7, 1005, 0).
Proof. eexists _, _. split; [vm_compute; reflexivity|]. split; vm_compute; reflexivity. Qed.
