(* ===== verification/RpcTimer.v ===== *)
(** * Round-trip estimates

    The estimator of [net/sunrpc/timer.c] and [include/linux/sunrpc/timer.h]: for each of five
    kinds of request the smoothed round-trip time (times 8), its mean deviation, and how often the
    last request timed out.  [HZ], the clock ticks of a second, is chosen when a kernel is built. *)

From S2P Require Import Prelude Xdr WaitQueue.
From stdpp Require Import list.
#[local] Open Scope Z_scope.

Class Ticks := HZ : Z.

Section Rtt.
Context `{Ticks}.

Definition RPC_RTO_MAX := 60 * HZ.
Definition RPC_RTO_INIT := HZ / 5.
Definition RPC_RTO_MIN := HZ / 10.

Record rpc_rtt := mk_rtt {
  timeo : Z;
  srtt : list Z;
  sdrtt : list Z;
  ntimeouts : list Z;
}.
#[export] Instance upd_rtt : Updatable rpc_rtt := fun r => mk_rtt (timeo r) (srtt r) (sdrtt r) (ntimeouts r).

(** Entry [i] of one of the arrays. *)
Definition rtt_get (l : list Z) (i : Z) : Z := nth (Z.to_nat i) l 0.
Definition rtt_set (l : list Z) (i v : Z) : list Z := <[Z.to_nat i := v]> l.

Definition rpc_init_rtt (t : Z) : rpc_rtt :=
  let init := if RPC_RTO_INIT <? t then u64 (Z.shiftl (t - RPC_RTO_INIT) 3) else 0 in
  mk_rtt t (replicate 5 init) (replicate 5 RPC_RTO_INIT) (replicate 5 0).

(** The entries are read and written as signed numbers. *)
Definition rpc_update_rtt (rt : rpc_rtt) (timer m : Z) : rpc_rtt :=
  if timer =? 0 then rt
  else
    let timer := timer - 1 in
    if m <? 0 then rt
    else
      let m := if m =? 0 then 1 else m in
      let s := s64 (rtt_get (srtt rt) timer) in
      let m := s64 (m - Z.shiftr s 3) in
      let rt := rt <| srtt := rtt_set (srtt rt) timer (u64 (s + m)) |> in
      let m := if m <? 0 then s64 (- m) else m in
      let d := s64 (rtt_get (sdrtt rt) timer) in
      let m := s64 (m - Z.shiftr d 2) in
      let d := s64 (d + m) in
      let d := if d <? RPC_RTO_MIN then RPC_RTO_MIN else d in
      rt <| sdrtt := rtt_set (sdrtt rt) timer (u64 d) |>.

Definition rpc_calc_rto (rt : rpc_rtt) (timer : Z) : Z :=
  if timer =? 0 then timeo rt
  else
    let timer := timer - 1 in
    let res := u64 (Z.shiftr (u64 (rtt_get (srtt rt) timer + 7)) 3 + rtt_get (sdrtt rt) timer) in
    if RPC_RTO_MAX <? res then RPC_RTO_MAX else res.

Definition rpc_set_timeo (rt : rpc_rtt) (timer ntimeo : Z) : rpc_rtt :=
  if timer =? 0 then rt
  else
    let t := rtt_get (ntimeouts rt) (timer - 1) in
    let t := if ntimeo <? t then (if 0 <? t then t - 1 else t) else if 8 <? ntimeo then 8 else ntimeo in
    rt <| ntimeouts := rtt_set (ntimeouts rt) (timer - 1) t |>.

Definition rpc_ntimeo (rt : rpc_rtt) (timer : Z) : Z :=
  if timer =? 0 then 0 else rtt_get (ntimeouts rt) (timer - 1).

(** ** Bounds

    [B] bounds the round trips measured so far.  The smoothed time stays below [8 * B], the
    deviation below [4 * B], or below what they start with. *)
Record rtt_ok (B : Z) (rt : rpc_rtt) : Prop := {
  ro_srtt : length (srtt rt) = 5%nat /\ Forall (fun s => 0 <= s <= 8 * B) (srtt rt);
  ro_sdrtt : length (sdrtt rt) = 5%nat /\ Forall (fun d => RPC_RTO_MIN <= d <= 4 * B) (sdrtt rt);
  ro_ntimeouts : length (ntimeouts rt) = 5%nat /\ Forall (fun n => 0 <= n <= 8) (ntimeouts rt);
}.

(** One step of the two filters, as in the paper the code cites. *)
Definition smooth (s m : Z) : Z := s - s / 8 + m.
Definition deviate (d s m : Z) : Z := Z.max RPC_RTO_MIN (d - d / 4 + Z.abs (m - s / 8)).

Lemma rtt_get_in (P : Z -> Prop) l i : length l = 5%nat -> Forall P l -> 0 <= i < 5 -> P (rtt_get l i).
Proof.
  intros L F Hi. rewrite Forall_lookup in F. unfold rtt_get. destruct (lookup_lt_is_Some_2 l (Z.to_nat i)) as [x Hx]; [lia|].
  rewrite (nth_lookup_Some _ _ _ _ Hx). by eapply F.
Qed.

Lemma rtt_set_in (P : Z -> Prop) l i v : length l = 5%nat -> Forall P l -> P v -> length (rtt_set l i v) = 5%nat /\ Forall P (rtt_set l i v).
Proof. intros L F Hv. unfold rtt_set. rewrite length_insert. split; [done|by apply Forall_insert]. Qed.

Lemma rtt_get_set l i v : length l = 5%nat -> 0 <= i < 5 -> rtt_get (rtt_set l i v) i = v.
Proof. intros L Hi. unfold rtt_get, rtt_set. erewrite nth_lookup_Some; [done|]. apply list_lookup_insert_eq. lia. Qed.

Lemma rtt_get_set_ne l i j v : 0 <= i -> 0 <= j -> i <> j -> rtt_get (rtt_set l i v) j = rtt_get l j.
Proof. intros Hi Hj N. unfold rtt_get, rtt_set. rewrite !nth_lookup, list_lookup_insert_ne by lia. done. Qed.

Lemma s64_small z : - 2 ^ 63 <= z < 2 ^ 63 -> s64 z = z.
Proof.
  intros Hz. unfold s64, u64. destruct (Z.leb_spec 0 z).
  - rewrite Z.mod_small by lia. destruct (Z.ltb_spec z (2 ^ 63)); lia.
  - replace (z mod 2 ^ 64) with (z + 2 ^ 64); [destruct (Z.ltb_spec (z + 2 ^ 64) (2 ^ 63)); lia|].
    rewrite <- (Z_mod_plus z 1) by lia. rewrite Z.mod_small; lia.
Qed.

(** [u64_id] with the bounds in the open. *)
Lemma u64_exact z : 0 <= z < 2 ^ 64 -> u64 z = z.
Proof. apply u64_id. Qed.

Lemma smooth_bound B s m : 0 <= s <= 8 * B -> 0 <= m <= B -> 0 <= smooth s m <= 8 * B.
Proof. unfold smooth. intros. pose proof (Z.div_mod s 8). pose proof (Z.mod_pos_bound s 8). lia. Qed.

Lemma deviate_bound B d s m :
  RPC_RTO_MIN <= 4 * B -> 0 <= d <= 4 * B -> 0 <= s <= 8 * B -> 0 <= m <= B -> RPC_RTO_MIN <= deviate d s m <= 4 * B.
Proof.
  unfold deviate. intros. pose proof (Z.div_mod d 4). pose proof (Z.mod_pos_bound d 4). pose proof (Z.div_mod s 8).
  pose proof (Z.mod_pos_bound s 8). lia.
Qed.

(** What the times are measured with: round trips, and the clock, far from the end of the
    64-bit numbers. *)
Definition sane (B : Z) : Prop := 0 <= RPC_RTO_MIN <= 4 * B /\ 0 <= B < 2 ^ 59.

(** The machine arithmetic computes the filters. *)
Lemma update_rtt_eq B rt timer m : sane B -> rtt_ok B rt -> 1 <= timer <= 5 -> 0 <= m <= B -> 1 <= B ->
  let s := rtt_get (srtt rt) (timer - 1) in let d := rtt_get (sdrtt rt) (timer - 1) in let m' := Z.max 1 m in
  rpc_update_rtt rt timer m = mk_rtt (timeo rt) (rtt_set (srtt rt) (timer - 1) (smooth s m'))
    (rtt_set (sdrtt rt) (timer - 1) (deviate d s m')) (ntimeouts rt).
Proof.
  intros [Hmin HB] [[Ls Fs] [Ld Fd] _] Ht Hm HB1 s d m'. assert (0 <= s <= 8 * B) as Hs by (apply (rtt_get_in (fun s => 0 <= s <= 8 * B)); [done|done|lia]).
  assert (RPC_RTO_MIN <= d <= 4 * B) as Hd by (apply (rtt_get_in (fun d => RPC_RTO_MIN <= d <= 4 * B)); [done|done|lia]).
  assert (1 <= m' <= B) as Hm' by lia. pose proof (smooth_bound B s m' Hs ltac:(lia)) as Hsm.
  pose proof (deviate_bound B d s m' (proj2 Hmin) ltac:(lia) Hs ltac:(lia)) as Hdv.
  assert (0 <= s / 8 <= B) as Hs8 by (pose proof (Z.div_mod s 8); pose proof (Z.mod_pos_bound s 8); lia).
  assert (0 <= d / 4 <= B) as Hd4 by (pose proof (Z.div_mod d 4); pose proof (Z.mod_pos_bound d 4); lia).
  unfold rpc_update_rtt. rewrite (proj2 (Z.eqb_neq timer 0)), (proj2 (Z.ltb_ge m 0)) by lia. cbv zeta.
  replace (if m =? 0 then 1 else m) with m' by (destruct (Z.eqb_spec m 0); lia). change (rtt_get (srtt rt) (timer - 1)) with s.
  change (rtt_get (sdrtt (rt <| srtt := _ |>)) (timer - 1)) with d.
  rewrite (s64_small s), (s64_small d) by lia. rewrite !Z.shiftr_div_pow2 by lia.
  change (2 ^ 3) with 8. change (2 ^ 2) with 4. rewrite (s64_small (m' - s / 8)) by lia.
  assert ((if m' - s / 8 <? 0 then s64 (- (m' - s / 8)) else m' - s / 8) = Z.abs (m' - s / 8)) as ->.
  { destruct (Z.ltb_spec (m' - s / 8) 0); [rewrite s64_small by lia|]; lia. }
  rewrite (s64_small (Z.abs (m' - s / 8) - d / 4)) by lia. rewrite s64_small by lia.
  replace (s + (m' - s / 8)) with (smooth s m') by (unfold smooth; lia). rewrite (u64_exact (smooth s m')) by lia.
  replace (if d + _ <? RPC_RTO_MIN then _ else _) with (deviate d s m')
    by (unfold deviate; destruct (Z.ltb_spec (d + (Z.abs (m' - s / 8) - d / 4)) RPC_RTO_MIN); lia).
  rewrite u64_exact by lia. done.
Qed.

Lemma init_rtt_ok B t : sane B -> 0 <= t <= B -> RPC_RTO_INIT <= B -> RPC_RTO_MIN <= RPC_RTO_INIT -> 0 <= RPC_RTO_INIT -> rtt_ok B (rpc_init_rtt t).
Proof.
  intros [Hm HB] Ht Hi Hmi H0. unfold rpc_init_rtt. split; (split; [done|]); apply Forall_replicate; try lia.
  destruct (Z.ltb_spec RPC_RTO_INIT t); [|lia]. rewrite Z.shiftl_mul_pow2 by lia. change (2 ^ 3) with 8. rewrite u64_exact by lia. lia.
Qed.

Lemma update_rtt_ok B rt timer m : sane B -> rtt_ok B rt -> 1 <= timer <= 5 -> 0 <= m <= B -> 1 <= B -> rtt_ok B (rpc_update_rtt rt timer m).
Proof.
  intros S R Ht Hm HB. rewrite (update_rtt_eq B) by done. pose proof R as [[Ls Fs] [Ld Fd] N]. destruct S as [S1 S2].
  assert (0 <= rtt_get (srtt rt) (timer - 1) <= 8 * B) by (apply (rtt_get_in (fun s => 0 <= s <= 8 * B)); [done|done|lia]).
  assert (RPC_RTO_MIN <= rtt_get (sdrtt rt) (timer - 1) <= 4 * B) by (apply (rtt_get_in (fun d => RPC_RTO_MIN <= d <= 4 * B)); [done|done|lia]).
  split; [apply rtt_set_in; try done; apply smooth_bound; lia|apply rtt_set_in; try done; apply deviate_bound; lia|done].
Qed.

Lemma set_timeo_ok B rt timer n : rtt_ok B rt -> 1 <= timer <= 5 -> 0 <= n -> rtt_ok B (rpc_set_timeo rt timer n).
Proof.
  intros [S D [Ln Fn]] Ht Hn. unfold rpc_set_timeo. rewrite (proj2 (Z.eqb_neq timer 0)) by lia. split; [done|done|]. apply rtt_set_in; [done|done|].
  assert (0 <= rtt_get (ntimeouts rt) (timer - 1) <= 8) by (apply (rtt_get_in (fun n => 0 <= n <= 8)); [done|done|lia]). repeat case_match; lia.
Qed.

Lemma calc_rto_eq B rt timer : sane B -> rtt_ok B rt -> 1 <= timer <= 5 ->
  rpc_calc_rto rt timer = Z.min RPC_RTO_MAX ((rtt_get (srtt rt) (timer - 1) + 7) / 8 + rtt_get (sdrtt rt) (timer - 1)).
Proof.
  intros [S1 S2] [[Ls Fs] [Ld Fd] _] Ht. unfold rpc_calc_rto. rewrite (proj2 (Z.eqb_neq timer 0)) by lia. cbv zeta.
  assert (0 <= rtt_get (srtt rt) (timer - 1) <= 8 * B) by (apply (rtt_get_in (fun s => 0 <= s <= 8 * B)); [done|done|lia]).
  assert (RPC_RTO_MIN <= rtt_get (sdrtt rt) (timer - 1) <= 4 * B) by (apply (rtt_get_in (fun d => RPC_RTO_MIN <= d <= 4 * B)); [done|done|lia]).
  rewrite (u64_exact (_ + 7)) by lia. rewrite Z.shiftr_div_pow2 by lia. change (2 ^ 3) with 8.
  pose proof (Z.div_mod (rtt_get (srtt rt) (timer - 1) + 7) 8). pose proof (Z.mod_pos_bound (rtt_get (srtt rt) (timer - 1) + 7) 8).
  rewrite u64_exact by lia. destruct (Z.ltb_spec RPC_RTO_MAX ((rtt_get (srtt rt) (timer - 1) + 7) / 8 + rtt_get (sdrtt rt) (timer - 1))); lia.
Qed.

(** A reply as [xprt_update_rtt] records it: its kind, how long it took when it was the answer to
    the first transmission, and the number of transmissions before it. *)
Definition sample : Type := Z * Z * Z.
Definition sample_ok (B : Z) (x : sample) : Prop := let '(timer, m, n) := x in 1 <= timer <= 5 /\ 0 <= m <= B /\ 0 <= n.
Definition record (rt : rpc_rtt) (x : sample) : rpc_rtt :=
  let '(timer, m, n) := x in rpc_set_timeo (if n =? 0 then rpc_update_rtt rt timer m else rt) timer n.

Lemma record_ok B rt x : sane B -> 1 <= B -> rtt_ok B rt -> sample_ok B x -> rtt_ok B (record rt x).
Proof.
  destruct x as [[timer m] n]. intros S HB R (Ht & Hm & Hn). apply set_timeo_ok; [|done|done]. case_match; [by apply update_rtt_ok|done].
Qed.

Lemma records_ok B rt l : sane B -> 1 <= B -> rtt_ok B rt -> Forall (sample_ok B) l -> rtt_ok B (foldl record rt l).
Proof. intros S HB. revert rt. induction l as [|x l IH]; intros rt R F; [done|]. inversion F; subst. simpl. apply IH; [|done]. by apply record_ok. Qed.

(** ** Convergence *)

(** [n] answers in a row that take [m]. *)
Definition steady (rt : rpc_rtt) (timer m : Z) (n : nat) : rpc_rtt := Nat.iter n (fun rt => rpc_update_rtt rt timer m) rt.

Lemma steady_S rt timer m n : steady rt timer m (S n) = steady (rpc_update_rtt rt timer m) timer m n.
Proof. unfold steady. by rewrite Nat.iter_succ_r. Qed.

Lemma steady_ok B rt timer m n : sane B -> 1 <= B -> rtt_ok B rt -> 1 <= timer <= 5 -> 0 <= m <= B -> rtt_ok B (steady rt timer m n).
Proof. intros S HB R Ht Hm. induction n as [|n IH]; [done|]. by apply update_rtt_ok. Qed.

(** The smoothed time nears eight times [m] from either side, and stays within seven above. *)
Lemma smooth_near m s : 0 <= m -> 0 <= s -> let e := s - 8 * m in let e' := smooth s m - 8 * m in
  (0 <= e <= 7 -> e' = e) /\ (7 < e -> 0 <= e' < e) /\ (e < 0 -> e < e' <= 0).
Proof.
  intros Hm Hs e e'. unfold e', smooth. assert (s / 8 = m + e / 8) as -> by (unfold e; rewrite <- Z.div_add_l by lia; f_equal; lia).
  pose proof (Z.div_mod e 8). pose proof (Z.mod_pos_bound e 8). lia.
Qed.

Lemma deviate_near m s d : 0 <= m -> 0 <= s - 8 * m <= 7 -> 4 <= RPC_RTO_MIN -> RPC_RTO_MIN <= d ->
  RPC_RTO_MIN <= deviate d s m /\ (deviate d s m < d \/ deviate d s m = RPC_RTO_MIN).
Proof.
  intros Hm Hs H4 Hd. unfold deviate. assert (s / 8 = m) as ->.
  { symmetry. apply (Z.div_unique s 8 m (s - 8 * m)); lia. }
  pose proof (Z.div_mod d 4). pose proof (Z.mod_pos_bound d 4). lia.
Qed.

(** Seven above at most, and the least deviation: nothing moves any more. *)
Definition near (rt : rpc_rtt) (timer m : Z) : Prop := 0 <= rtt_get (srtt rt) (timer - 1) - 8 * m <= 7.
Definition at_rest (rt : rpc_rtt) (timer m : Z) : Prop := near rt timer m /\ rtt_get (sdrtt rt) (timer - 1) = RPC_RTO_MIN.

Section Steady.
Context (B timer m : Z) (Sane : sane B) (HB : 1 <= B) (Ht : 1 <= timer <= 5) (Hm : 1 <= m <= B).

Lemma update_get rt : rtt_ok B rt -> let s := rtt_get (srtt rt) (timer - 1) in let d := rtt_get (sdrtt rt) (timer - 1) in
  0 <= s /\ RPC_RTO_MIN <= d /\ rtt_get (srtt (rpc_update_rtt rt timer m)) (timer - 1) = smooth s m /\
  rtt_get (sdrtt (rpc_update_rtt rt timer m)) (timer - 1) = deviate d s m.
Proof.
  intros R s d. rewrite (update_rtt_eq B) by (done || lia). pose proof R as [[Ls Fs] [Ld Fd] _].
  assert (0 <= s <= 8 * B) by (apply (rtt_get_in (fun s => 0 <= s <= 8 * B)); [done|done|lia]).
  assert (RPC_RTO_MIN <= d <= 4 * B) by (apply (rtt_get_in (fun d => RPC_RTO_MIN <= d <= 4 * B)); [done|done|lia]).
  split; [lia|]. split; [lia|]. cbn [srtt sdrtt]. rewrite !rtt_get_set by (done || lia). rewrite Z.max_r by lia. done.
Qed.

Lemma near_keeps rt : rtt_ok B rt -> near rt timer m -> near (rpc_update_rtt rt timer m) timer m.
Proof.
  intros R N. destruct (update_get rt R) as (Hs & Hd & Es & Ed). unfold near in *. rewrite Es.
  destruct (smooth_near m (rtt_get (srtt rt) (timer - 1)) ltac:(lia) Hs) as (E & _). lia.
Qed.

Lemma gets_near k rt : rtt_ok B rt -> Z.abs (rtt_get (srtt rt) (timer - 1) - 8 * m) <= Z.of_nat k -> exists n, near (steady rt timer m n) timer m.
Proof.
  revert rt. induction k as [|k IH]; intros rt R Hk; [exists O; unfold near; simpl; lia|].
  destruct (update_get rt R) as (Hs & Hd & Es & Ed). destruct (smooth_near m (rtt_get (srtt rt) (timer - 1)) ltac:(lia) Hs) as (_ & E1 & E2).
  destruct (decide (near rt timer m)) as [N|N]; [by exists O|].
  destruct (IH (rpc_update_rtt rt timer m)) as (n & Hn); [apply update_rtt_ok; (done || lia)|rewrite Es; unfold near in N; lia|].
  exists (S n). by rewrite steady_S.
Qed.

Lemma rest_keeps rt : 4 <= RPC_RTO_MIN -> rtt_ok B rt -> at_rest rt timer m -> at_rest (rpc_update_rtt rt timer m) timer m.
Proof.
  intros H4 R [N D]. split; [by apply near_keeps|]. destruct (update_get rt R) as (Hs & Hd & Es & Ed). rewrite Ed, D.
  destruct (deviate_near m (rtt_get (srtt rt) (timer - 1)) RPC_RTO_MIN ltac:(lia) N H4 ltac:(lia)) as [L [X|X]]; lia.
Qed.

Lemma gets_rest k rt : 4 <= RPC_RTO_MIN -> rtt_ok B rt -> near rt timer m -> rtt_get (sdrtt rt) (timer - 1) - RPC_RTO_MIN <= Z.of_nat k ->
  exists n, at_rest (steady rt timer m n) timer m.
Proof.
  intros H4. revert rt. induction k as [|k IH]; intros rt R N Hk; destruct (update_get rt R) as (Hs & Hd & Es & Ed); [exists O; split; [done|simpl; lia]|].
  destruct (deviate_near m (rtt_get (srtt rt) (timer - 1)) (rtt_get (sdrtt rt) (timer - 1)) ltac:(lia) N H4 Hd) as [L X]. rewrite <- Ed in *.
  assert (rtt_ok B (rpc_update_rtt rt timer m)) as R' by (apply update_rtt_ok; (done || lia)).
  destruct X as [X|X]; [|exists 1%nat; split; [by apply near_keeps|done]].
  destruct (IH (rpc_update_rtt rt timer m) R') as (n & Hn); [by apply near_keeps|lia|]. exists (S n). by rewrite steady_S.
Qed.

Lemma rest_stays rt n k : 4 <= RPC_RTO_MIN -> rtt_ok B rt -> at_rest (steady rt timer m n) timer m -> (n <= k)%nat -> at_rest (steady rt timer m k) timer m.
Proof.
  intros H4 R A. induction 1 as [|k L IH]; [done|]. apply rest_keeps; [done| |done]. apply steady_ok; (done || lia).
Qed.

Lemma steady_app rt n k : steady (steady rt timer m n) timer m k = steady rt timer m (k + n).
Proof. unfold steady. by rewrite Nat.iter_add. Qed.
End Steady.
End Rtt.

(** ** Claims *)

(** C25: Whatever round trips up to [B] ticks are measured, in any order and for any kinds of
    request, the retransmission timeout the estimator gives for a kind of request is the
    smoothed time plus the deviation computed without any overflow, and lies between a tenth of
    a second and a minute; the count of timeouts stays between 0 and 8. *)
Theorem rtt_estimate_bounds `{Ticks} B t l timer :
  100 <= HZ <= 2 ^ 20 -> HZ <= B < 2 ^ 59 -> 0 <= t <= B -> Forall (sample_ok B) l -> 1 <= timer <= 5 ->
  let rt := foldl record (rpc_init_rtt t) l in
  RPC_RTO_MIN <= rpc_calc_rto rt timer <= RPC_RTO_MAX /\ 0 <= rpc_ntimeo rt timer <= 8 /\
  rpc_calc_rto rt timer = Z.min RPC_RTO_MAX ((rtt_get (srtt rt) (timer - 1) + 7) / 8 + rtt_get (sdrtt rt) (timer - 1)).
Proof.
  intros Hz HB Ht F Hi rt. assert (sane B) as S by (split; unfold RPC_RTO_MIN; zlia).
  assert (rtt_ok B rt) as R by (apply records_ok; [done|lia|apply init_rtt_ok; try done; unfold RPC_RTO_INIT, RPC_RTO_MIN; zlia|done]).
  pose proof (calc_rto_eq B rt timer S R Hi) as E. pose proof R as [[Ls Fs] [Ld Fd] [Ln Fn]].
  assert (0 <= rtt_get (srtt rt) (timer - 1) <= 8 * B) by (apply (rtt_get_in (fun s => 0 <= s <= 8 * B)); [done|done|lia]).
  assert (RPC_RTO_MIN <= rtt_get (sdrtt rt) (timer - 1) <= 4 * B) by (apply (rtt_get_in (fun d => RPC_RTO_MIN <= d <= 4 * B)); [done|done|lia]).
  split_and!; [..|done].
  - rewrite E. assert (0 <= (rtt_get (srtt rt) (timer - 1) + 7) / 8) by (apply Z.div_pos; lia). unfold RPC_RTO_MIN, RPC_RTO_MAX in *. zlia.
  - rewrite E. lia.
  - unfold rpc_ntimeo. rewrite (proj2 (Z.eqb_neq timer 0)) by lia. apply (rtt_get_in (fun n => 0 <= n <= 8)); [done|done|lia].
  - unfold rpc_ntimeo. rewrite (proj2 (Z.eqb_neq timer 0)) by lia. apply (rtt_get_in (fun n => 0 <= n <= 8)); [done|done|lia].
Qed.

(** C26: When the network answers at a steady pace, the estimator finds it: after enough answers
    that took [m] ticks, whatever was measured before, the timeout for this kind of request is
    [m], or [m + 1], plus a tenth of a second, and stays there. *)
Theorem rtt_estimate_converges `{Ticks} B t l timer m :
  100 <= HZ <= 2 ^ 20 -> HZ <= B < 2 ^ 59 -> 0 <= t <= B -> Forall (sample_ok B) l -> 1 <= timer <= 5 -> 1 <= m <= B ->
  m + 1 + RPC_RTO_MIN <= RPC_RTO_MAX ->
  exists n, forall k, (n <= k)%nat -> m <= rpc_calc_rto (steady (foldl record (rpc_init_rtt t) l) timer m k) timer - RPC_RTO_MIN <= m + 1.
Proof.
  intros Hz HB Ht F Hi Hm Hmax. assert (sane B) as S by (split; unfold RPC_RTO_MIN; zlia). assert (4 <= RPC_RTO_MIN) as H4 by (unfold RPC_RTO_MIN; zlia).
  set (rt := foldl record (rpc_init_rtt t) l).
  assert (rtt_ok B rt) as R by (apply records_ok; [done|lia|apply init_rtt_ok; try done; unfold RPC_RTO_INIT, RPC_RTO_MIN; zlia|done]).
  destruct (gets_near B timer m S ltac:(lia) Hi Hm (Z.to_nat (Z.abs (rtt_get (srtt rt) (timer - 1) - 8 * m))) rt R ltac:(lia)) as (n1 & N1).
  assert (rtt_ok B (steady rt timer m n1)) as R1 by (apply steady_ok; (done || lia)).
  destruct (gets_rest B timer m S ltac:(lia) Hi Hm (Z.to_nat (rtt_get (sdrtt (steady rt timer m n1)) (timer - 1) - RPC_RTO_MIN)) _ H4 R1 N1 ltac:(lia)) as (n2 & A).
  rewrite (steady_app timer m) in A. exists (n2 + n1)%nat. intros k Hk.
  destruct (rest_stays B timer m S ltac:(lia) Hi Hm rt (n2 + n1) k H4 R A Hk) as [N D].
  rewrite (calc_rto_eq B) by (done || (apply steady_ok; (done || lia))). rewrite D. unfold near in N.
  set (s := rtt_get (srtt (steady rt timer m k)) (timer - 1)) in *. pose proof (Z.div_mod (s + 7) 8). pose proof (Z.mod_pos_bound (s + 7) 8). lia.
Qed.

Lemma rtt_estimate_bounds_witness : 10 <= @rpc_calc_rto 100 (foldl (@record 100) (@rpc_init_rtt 100 110) [(1, 7, 0); (1, 0, 2); (4, 90, 0)]) 1.
Proof. apply (@rtt_estimate_bounds 100 1000 110 [(1, 7, 0); (1, 0, 2); (4, 90, 0)] 1); [done|done|done| |done]. repeat constructor; done. Defined.

Lemma rtt_estimate_converges_witness :
  exists n, forall k, (n <= k)%nat -> 7 <= @rpc_calc_rto 100 (@steady 100 (@rpc_init_rtt 100 110) 1 7 k) 1 - 10 <= 8.
Proof. apply (@rtt_estimate_converges 100 1000 110 [] 1 7); [done|done|done|constructor|done|done|done]. Defined.
