(* ===== verification/Transport.v ===== *)
(** * The transport switch of RPC requests

    [net/sunrpc/xprt.c] (structs in [include/linux/sunrpc/xprt.h]): one transport with the
    requests that use it.  A task reserves a slot (or waits on [backlog]), its request goes to the
    transmit and the receive queue, the task takes the write lock of the transport (or waits on
    [sending]), sends what is on the transmit queue, waits on [pending] for the reply, and gives
    all of it back.  Transports over datagrams count requests in flight against a congestion
    window.

    [struct rpc_xprt] is split by the lock that protects its fields: [xlock] and [xconn]
    (transport_lock and the bits of [state]), [xslots] (reserve_lock), [xqueues] (queue_lock).  Of a
    task, [rpc_task] of [WaitQueue] is what the scheduler uses and [xtask] the rest.  Requests,
    tasks, clients and connect cookies are identified by their addresses; a task that reaches for a request
    it does not have (which would be a NULL pointer) sees a blank one.

    The counts of local ports that [xprt_clear_connected] keeps are in [Mesh]; requests
    preallocated for the back channel, fault injection, tracing and rpcbind are left out.  The
    methods [alloc_slot] and [free_slot] are [xprt_alloc_slot] and [xprt_free_slot], as for every
    transport but RDMA. *)

From S2P Require Import Prelude Xdr WaitQueue RbTree RpcTimer.
From stdpp Require Import list gmap.
#[local] Open Scope Z_scope.

Definition ENOTCONN := 107.
Definition EBADSLT := 57.

(** Conversions of durations to clock ticks (kernel). *)
Class Clock := {
  clock_hz :: Ticks;
  nsecs_to_jiffies : Z -> Z;
  usecs_to_jiffies : Z -> Z;
}.

(** ** State *)

Record rpc_timeout := mk_timeout {
  to_initval : Z;
  to_maxval : Z;
  to_increment : Z;
  to_retries : Z;
  to_exponential : bool;
}.

Record rpc_clnt := mk_clnt {
  cl_timeout : rpc_timeout;
  cl_rtt : rpc_rtt;
  rpcretrans : Z;                  (* cl_stats *)
}.
#[export] Instance upd_clnt : Updatable rpc_clnt := fun c => mk_clnt (cl_timeout c) (cl_rtt c) (rpcretrans c).

Record rpc_rqst := mk_rqst {
  rq_task : option Z;
  rq_xid : Z;
  rq_cong : bool;
  rq_seqno : Z;
  rq_rcv_buf : Z;                  (* its length *)
  rq_private_buf : Z;              (* its length *)
  rq_buffer : bool;
  rq_cred : bool;
  rq_release_snd_buf : bool;
  rq_reply_bytes_recvd : Z;
  rq_majortimeo : Z;
  rq_minortimeo : Z;
  rq_timeout : Z;
  rq_rtt : Z;
  rq_retries : Z;
  rq_connect_cookie : Z;
  rq_pin : Z;
  rq_bytes_sent : Z;
  rq_xtime : Z;
  rq_ntrans : Z;
}.
#[export] Instance upd_rqst : Updatable rpc_rqst := fun r =>
  mk_rqst (rq_task r) (rq_xid r) (rq_cong r) (rq_seqno r) (rq_rcv_buf r) (rq_private_buf r) (rq_buffer r) (rq_cred r)
    (rq_release_snd_buf r) (rq_reply_bytes_recvd r) (rq_majortimeo r) (rq_minortimeo r) (rq_timeout r) (rq_rtt r)
    (rq_retries r) (rq_connect_cookie r) (rq_pin r) (rq_bytes_sent r) (rq_xtime r) (rq_ntrans r).
(** [memset(req, 0, sizeof( *req))]. *)
Definition rq_zero : rpc_rqst := mk_rqst None 0 false 0 0 0 false false false 0 0 0 0 0 0 0 0 0 0 0.

Record xtask := mk_xtask {
  tk_rqstp : option Z;
  need_xmit : bool;                (* RPC_TASK_NEED_XMIT of tk_runstate *)
  need_recv : bool;                (* RPC_TASK_NEED_RECV *)
  pin_wait : bool;                 (* RPC_TASK_MSG_PIN_WAIT *)
  tk_signalled : bool;             (* RPC_TASK_SIGNALLED *)
  tk_soft : bool;                  (* RPC_TASK_SOFT or RPC_TASK_TIMEOUT of tk_flags *)
  tk_sent : bool;                  (* RPC_TASK_SENT *)
  tk_client : Z;
  tk_start : Z;
  p_timer : Z;                     (* tk_msg.rpc_proc->p_timer *)
  crneed_reencode : bool;          (* what the credential answers *)
}.
#[export] Instance upd_xtask : Updatable xtask := fun t =>
  mk_xtask (tk_rqstp t) (need_xmit t) (need_recv t) (pin_wait t) (tk_signalled t) (tk_soft t) (tk_sent t) (tk_client t)
    (tk_start t) (p_timer t) (crneed_reencode t).

Record xlock := mk_lock {
  locked : bool;                   (* XPRT_LOCKED *)
  close_wait : bool;               (* XPRT_CLOSE_WAIT *)
  write_space : bool;              (* XPRT_WRITE_SPACE *)
  cwnd_wait : bool;                (* XPRT_CWND_WAIT *)
  snd_is_cookie : bool;            (* XPRT_SND_IS_COOKIE *)
  snd_task : option Z;
  task_cleanup : bool;             (* the work is queued *)
  cong : Z;
  cwnd : Z;
}.
#[export] Instance upd_lock : Updatable xlock := fun l =>
  mk_lock (locked l) (close_wait l) (write_space l) (cwnd_wait l) (snd_is_cookie l) (snd_task l) (task_cleanup l) (cong l) (cwnd l).

Record xconn := mk_conn {
  connected : bool;                (* XPRT_CONNECTED *)
  connecting : bool;               (* XPRT_CONNECTING *)
  bound : bool;                    (* XPRT_BOUND *)
  closing : bool;                  (* XPRT_CLOSING *)
  connect_cookie : Z;
  connect_start : Z;               (* stat.connect_start *)
  reestablish_timeout : Z;
  max_reconnect_timeout : Z;
  last_used : Z;
  idle_timeout : Z;
  idle_timer : option Z;           (* when [timer] fires, if armed *)
  inet : bool;                     (* there is a socket (struct sock_xprt) *)
}.
#[export] Instance upd_conn : Updatable xconn := fun c =>
  mk_conn (connected c) (connecting c) (bound c) (closing c) (connect_cookie c) (connect_start c) (reestablish_timeout c)
    (max_reconnect_timeout c) (last_used c) (idle_timeout c) (idle_timer c) (inet c).

Record xslots := mk_slots {
  free : list Z;
  max_reqs : Z;
  min_reqs : Z;
  num_reqs : Z;
  congested : bool;                (* XPRT_CONGESTED *)
  max_slots : Z;                   (* stat.max_slots *)
  next_xid : Z;                    (* xid_space->next *)
}.
#[export] Instance upd_slots : Updatable xslots := fun s =>
  mk_slots (free s) (max_reqs s) (min_reqs s) (num_reqs s) (congested s) (max_slots s) (next_xid s).

(** The transmit queue links requests by [rq_xmit]; those with the same owner hang off the first
    one by [rq_xmit2].  It is a list of such groups. *)
Record xqueues := mk_queues {
  xmit_queue : list (list Z);
  xmit_queuelen : Z;
  recv_queue : rb_tree Z;
}.
#[export] Instance upd_queues : Updatable xqueues := fun q => mk_queues (xmit_queue q) (xmit_queuelen q) (recv_queue q).

Record xstat := mk_stat { sends : Z; recvs : Z; bad_xids : Z; req_u : Z; bklog_u : Z; sending_u : Z; pending_u : Z }.
#[export] Instance upd_stat : Updatable xstat := fun s =>
  mk_stat (sends s) (recvs s) (bad_xids s) (req_u s) (bklog_u s) (sending_u s) (pending_u s).

Record rpc_xprt := mk_xprt {
  x_lock : xlock;
  x_conn : xconn;
  x_slots : xslots;
  x_queues : xqueues;
  x_stat : xstat;
  x_reqs : gmap Z rpc_rqst;
  x_tasks : gmap Z (rpc_task xtask);
  x_clnts : gmap Z rpc_clnt;
  sending : rpc_wait_queue;
  pending : rpc_wait_queue;
  backlog : rpc_wait_queue;
  x_run : list Z;                  (* tasks made runnable *)
  x_put : list Z;
}.
#[export] Instance upd_xprt : Updatable rpc_xprt := fun x =>
  mk_xprt (x_lock x) (x_conn x) (x_slots x) (x_queues x) (x_stat x) (x_reqs x) (x_tasks x) (x_clnts x) (sending x) (pending x)
    (backlog x) (x_run x) (x_put x).

(** Changes of one part. *)
Definition on_lock (f : xlock -> xlock) (x : rpc_xprt) : rpc_xprt := x <| x_lock := f (x_lock x) |>.
Definition on_conn (f : xconn -> xconn) (x : rpc_xprt) : rpc_xprt := x <| x_conn := f (x_conn x) |>.
Definition on_slots (f : xslots -> xslots) (x : rpc_xprt) : rpc_xprt := x <| x_slots := f (x_slots x) |>.
Definition on_queues (f : xqueues -> xqueues) (x : rpc_xprt) : rpc_xprt := x <| x_queues := f (x_queues x) |>.
Definition on_stat (f : xstat -> xstat) (x : rpc_xprt) : rpc_xprt := x <| x_stat := f (x_stat x) |>.
Definition on_req (r : Z) (f : rpc_rqst -> rpc_rqst) (x : rpc_xprt) : rpc_xprt := x <| x_reqs := alter f r (x_reqs x) |>.
Definition on_tk (t : Z) (f : rpc_task xtask -> rpc_task xtask) (x : rpc_xprt) : rpc_xprt := x <| x_tasks := alter f t (x_tasks x) |>.
Definition on_xtask (t : Z) (f : xtask -> xtask) (x : rpc_xprt) : rpc_xprt := on_tk t (fun k => k <| tk_msg := f (tk_msg k) |>) x.
Definition set_status (t status : Z) (x : rpc_xprt) : rpc_xprt := on_tk t (fun k => k <| tk_status := status |>) x.

Definition tk_zero : xtask := mk_xtask None false false false false false false 0 0 0 false.
Definition get_tk (x : rpc_xprt) (t : Z) : xtask := from_option tk_msg tk_zero (x_tasks x !! t).
Definition get_req (x : rpc_xprt) (r : Z) : rpc_rqst := default rq_zero (x_reqs x !! r).
(** [task->tk_rqstp], and its contents. *)
Definition rqstp (x : rpc_xprt) (t : Z) : Z := default 0 (tk_rqstp (get_tk x t)).
Definition task_req (x : rpc_xprt) (t : Z) : rpc_rqst := get_req x (rqstp x t).
Definition get_clnt (x : rpc_xprt) (t : Z) : option rpc_clnt := x_clnts x !! tk_client (get_tk x t).
Definition get_timeout (x : rpc_xprt) (t : Z) : rpc_timeout := from_option cl_timeout (mk_timeout 0 0 0 0 false) (get_clnt x t).

(** The scheduler on one of the queues. *)
Definition with_queue (q : rpc_wait_queue) (x : rpc_xprt) : sched xtask := mk_sched xtask (x_tasks x) q (x_run x) (x_put x).
Definition back (s : sched xtask) (x : rpc_xprt) : rpc_xprt := x <| x_tasks := sc_tasks s |> <| x_run := sc_run s |> <| x_put := sc_put s |>.
Definition on_sending (f : sched xtask -> sched xtask) (x : rpc_xprt) : rpc_xprt :=
  let s := f (with_queue (sending x) x) in (back s x) <| sending := sc_queue s |>.
Definition on_pending (f : sched xtask -> sched xtask) (x : rpc_xprt) : rpc_xprt :=
  let s := f (with_queue (pending x) x) in (back s x) <| pending := sc_queue s |>.
Definition on_backlog (f : sched xtask -> sched xtask) (x : rpc_xprt) : rpc_xprt :=
  let s := f (with_queue (backlog x) x) in (back s x) <| backlog := sc_queue s |>.

Definition xprt_connected (x : rpc_xprt) : bool := connected (x_conn x).
Definition RPC_CWNDSHIFT := 8.
Definition RPC_CWNDSCALE := Z.shiftl 1 RPC_CWNDSHIFT.
Definition RPC_INITCWND := RPC_CWNDSCALE.
Definition RPC_MAXCWND (x : rpc_xprt) : Z := u32 (Z.shiftl (max_reqs (x_slots x)) RPC_CWNDSHIFT).
Definition RPCXPRT_CONGESTED (x : rpc_xprt) : bool := cwnd (x_lock x) <=? cong (x_lock x).

Definition xprt_request_timeout (now : Z) (req : rpc_rqst) : Z :=
  let timeout := u64 (now + rq_timeout req) in
  if time_before timeout (rq_majortimeo req) then timeout else rq_majortimeo req.

(** ** The write lock *)

Definition xprt_clear_locked (x : rpc_xprt) : rpc_xprt :=
  on_lock (fun l =>
    let l := l <| snd_task := None |> in
    if negb (close_wait l) then l <| locked := false |> else l <| task_cleanup := true |>) x.

(** [out_sleep] of the two functions below. *)
Definition out_sleep (now task : Z) (x : rpc_xprt) : bool * rpc_xprt :=
  let x := set_status task (- EAGAIN) x in
  (false,
   if tk_soft (get_tk x task)
   then on_sending (rpc_sleep_on_timeout now task None (xprt_request_timeout now (task_req x task))) x
   else on_sending (rpc_sleep_on task None) x).

Definition xprt_reserve_xprt (now task : Z) (x : rpc_xprt) : bool * rpc_xprt :=
  if locked (x_lock x) then
    if bool_decide (snd_task (x_lock x) = Some task) then (true, x) else out_sleep now task x
  else
    let x := on_lock (fun l => l <| locked := true |>) x in
    if write_space (x_lock x) then out_sleep now task (xprt_clear_locked x)
    else (true, on_lock (fun l => l <| snd_task := Some task |>) x).

Definition xprt_need_congestion_window_wait (x : rpc_xprt) : bool := cwnd_wait (x_lock x).

Definition xprt_set_congestion_window_wait (x : rpc_xprt) : rpc_xprt :=
  match first_task (xmit_queue (x_queues x)) with
  | Some r => if rq_cong (get_req x r) then x else on_lock (fun l => l <| cwnd_wait := true |>) x
  | None => on_lock (fun l => l <| cwnd_wait := true |>) x
  end.

Definition xprt_test_and_clear_congestion_window_wait (x : rpc_xprt) : rpc_xprt :=
  if negb (RPCXPRT_CONGESTED x) then on_lock (fun l => l <| cwnd_wait := false |>) x else x.

Definition xprt_reserve_xprt_cong (now task : Z) (x : rpc_xprt) : bool * rpc_xprt :=
  let req := tk_rqstp (get_tk x task) in
  if locked (x_lock x) then
    if bool_decide (snd_task (x_lock x) = Some task) then (true, x) else out_sleep now task x
  else
    let x := on_lock (fun l => l <| locked := true |>) x in
    match req with
    | None => (true, on_lock (fun l => l <| snd_task := Some task |>) x)
    | Some _ =>
        if write_space (x_lock x) then out_sleep now task (xprt_clear_locked x)
        else if negb (xprt_need_congestion_window_wait x) then (true, on_lock (fun l => l <| snd_task := Some task |>) x)
        else out_sleep now task (xprt_clear_locked x)
    end.

(** [rpc_wake_up_first_on_wq] with [__xprt_lock_write_func], which makes the task it is called for
    the owner and agrees. *)
Definition wake_next_sender (x : rpc_xprt) : bool * rpc_xprt :=
  let '(t, (_, s)) := rpc_wake_up_first_on_wq (fun k (_ : unit) => (true, (k, tt))) tt (with_queue (sending x) x) in
  let x := (back s x) <| sending := sc_queue s |> in
  match t with
  | Some t => (true, on_lock (fun l => l <| snd_task := Some t |>) x)
  | None => (false, x)
  end.

Definition __xprt_lock_write_next (x : rpc_xprt) : rpc_xprt :=
  if locked (x_lock x) then x
  else
    let x := on_lock (fun l => l <| locked := true |>) x in
    if write_space (x_lock x) then xprt_clear_locked x
    else let '(woken, x) := wake_next_sender x in if woken then x else xprt_clear_locked x.

Definition __xprt_lock_write_next_cong (x : rpc_xprt) : rpc_xprt :=
  if locked (x_lock x) then x
  else
    let x := on_lock (fun l => l <| locked := true |>) x in
    if write_space (x_lock x) then xprt_clear_locked x
    else if xprt_need_congestion_window_wait x then xprt_clear_locked x
    else let '(woken, x) := wake_next_sender x in if woken then x else xprt_clear_locked x.

Definition xprt_release_xprt (task : option Z) (x : rpc_xprt) : rpc_xprt :=
  if bool_decide (snd_task (x_lock x) = task) then __xprt_lock_write_next (xprt_clear_locked x) else x.

Definition xprt_release_xprt_cong (task : option Z) (x : rpc_xprt) : rpc_xprt :=
  if bool_decide (snd_task (x_lock x) = task) then __xprt_lock_write_next_cong (xprt_clear_locked x) else x.

(** ** Congestion *)

Definition __xprt_get_cong (r : Z) (x : rpc_xprt) : bool * rpc_xprt :=
  if rq_cong (get_req x r) then (true, x)
  else if RPCXPRT_CONGESTED x then (false, xprt_set_congestion_window_wait x)
  else (true, on_lock (fun l => l <| cong := u64 (cong l + RPC_CWNDSCALE) |>) (on_req r (fun q => q <| rq_cong := true |>) x)).

Definition __xprt_put_cong (r : Z) (x : rpc_xprt) : rpc_xprt :=
  if negb (rq_cong (get_req x r)) then x
  else
    let x := on_req r (fun q => q <| rq_cong := false |>) x in
    let x := on_lock (fun l => l <| cong := u64 (cong l - RPC_CWNDSCALE) |>) x in
    __xprt_lock_write_next_cong (xprt_test_and_clear_congestion_window_wait x).

Definition xprt_request_get_cong (r : Z) (x : rpc_xprt) : bool * rpc_xprt :=
  if rq_cong (get_req x r) then (true, x) else __xprt_get_cong r x.

Definition xprt_release_rqst_cong (task : Z) (x : rpc_xprt) : rpc_xprt := __xprt_put_cong (rqstp x task) x.

Definition xprt_clear_congestion_window_wait_locked (x : rpc_xprt) : rpc_xprt :=
  if cwnd_wait (x_lock x) then __xprt_lock_write_next_cong (on_lock (fun l => l <| cwnd_wait := false |>) x) else x.

Definition xprt_clear_congestion_window_wait (x : rpc_xprt) : rpc_xprt :=
  if cwnd_wait (x_lock x) then __xprt_lock_write_next_cong (on_lock (fun l => l <| cwnd_wait := false |>) x) else x.

Definition xprt_adjust_cwnd (task result : Z) (x : rpc_xprt) : rpc_xprt :=
  let c := cwnd (x_lock x) in
  let '(c, x) :=
    if (0 <=? result) && (c <=? cong (x_lock x)) then
      let c := u64 (c + (RPC_CWNDSCALE * RPC_CWNDSCALE + Z.shiftr c 1) / c) in
      let c := if RPC_MAXCWND x <? c then RPC_MAXCWND x else c in
      (c, __xprt_lock_write_next_cong x)
    else if result =? - ETIMEDOUT then
      let c := Z.shiftr c 1 in
      (if c <? RPC_CWNDSCALE then RPC_CWNDSCALE else c, x)
    else (c, x) in
  __xprt_put_cong (rqstp x task) (on_lock (fun l => l <| cwnd := c |>) x).

(** ** Waking *)

(** The loops of [rpc_wake_up] end (see [WaitQueue]). *)
Definition xprt_wake_pending_tasks (status : Z) (x : rpc_xprt) : rpc_xprt :=
  if status <? 0 then on_pending (fun s => default s (rpc_wake_up_status status s)) x
  else on_pending (fun s => default s (rpc_wake_up s)) x.

Definition xprt_wait_for_buffer_space (x : rpc_xprt) : rpc_xprt := on_lock (fun l => l <| write_space := true |>) x.

Definition xprt_clear_write_space_locked (x : rpc_xprt) : bool * rpc_xprt :=
  if write_space (x_lock x) then (true, __xprt_lock_write_next (on_lock (fun l => l <| write_space := false |>) x)) else (false, x).

Definition xprt_write_space (x : rpc_xprt) : bool * rpc_xprt :=
  if negb (write_space (x_lock x)) then (false, x) else xprt_clear_write_space_locked x.

(** ** Timeouts of a request *)

Definition xprt_calc_majortimeo (to : rpc_timeout) (req : rpc_rqst) : Z :=
  let majortimeo := rq_timeout req in
  let majortimeo := if to_exponential to then u64 (Z.shiftl majortimeo (to_retries to))
                    else u64 (majortimeo + u64 (to_increment to * to_retries to)) in
  if (to_maxval to <? majortimeo) || (majortimeo =? 0) then to_maxval to else majortimeo.

Definition xprt_reset_majortimeo (to : rpc_timeout) (req : rpc_rqst) : rpc_rqst :=
  req <| rq_majortimeo := u64 (rq_majortimeo req + xprt_calc_majortimeo to req) |>.
Definition xprt_reset_minortimeo (req : rpc_rqst) : rpc_rqst := req <| rq_minortimeo := u64 (rq_minortimeo req + rq_timeout req) |>.

Section Timeouts.
Context `{Clock}.

Definition xprt_abs_ktime_to_jiffies (now ktime abstime : Z) : Z :=
  let delta := ktime - abstime in
  if 0 <=? delta then u64 (now - nsecs_to_jiffies delta) else u64 (now + nsecs_to_jiffies (- delta)).

Definition xprt_init_majortimeo (now ktime task : Z) (x : rpc_xprt) : rpc_xprt :=
  let time_init := if xprt_connected x then now else xprt_abs_ktime_to_jiffies now ktime (tk_start (get_tk x task)) in
  let to := get_timeout x task in
  on_req (rqstp x task) (fun req =>
    let req := req <| rq_timeout := to_initval to |> in
    req <| rq_majortimeo := u64 (time_init + xprt_calc_majortimeo to req) |>
        <| rq_minortimeo := u64 (time_init + rq_timeout req) |>) x.

(** The request and whether the major timeout has passed. *)
Definition adjust_timeout (now : Z) (to : rpc_timeout) (req : rpc_rqst) : bool * rpc_rqst :=
  let finish req := let req := xprt_reset_minortimeo req in if rq_timeout req =? 0 then req <| rq_timeout := 5 * HZ |> else req in
  if time_before now (rq_majortimeo req) then
    if time_before now (rq_minortimeo req) then (false, req)
    else
      let t := if to_exponential to then u64 (Z.shiftl (rq_timeout req) 1) else u64 (rq_timeout req + to_increment to) in
      let t := if negb (to_maxval to =? 0) && (to_maxval to <=? t) then to_maxval to else t in
      (false, finish (req <| rq_timeout := t |> <| rq_retries := u32 (rq_retries req + 1) |>))
  else (true, finish (xprt_reset_majortimeo to (req <| rq_timeout := to_initval to |> <| rq_retries := 0 |>))).

Definition xprt_adjust_timeout (now task : Z) (x : rpc_xprt) : Z * rpc_xprt :=
  let to := get_timeout x task in
  let '(major, req) := adjust_timeout now to (task_req x task) in
  let x := on_req (rqstp x task) (fun _ => req) x in
  if major
  then (- ETIMEDOUT, x <| x_clnts := alter (fun c => c <| cl_rtt := rpc_init_rtt (to_initval to) |>) (tk_client (get_tk x task)) (x_clnts x) |>)
  else (0, x).
End Timeouts.

(** ** Methods of a transport *)

Record rpc_xprt_ops := mk_ops {
  reserve_xprt : Z -> Z -> rpc_xprt -> bool * rpc_xprt;
  release_xprt : option Z -> rpc_xprt -> rpc_xprt;
  prepare_request : Z -> rpc_xprt -> rpc_xprt;
  send_request : Z -> rpc_xprt -> Z * rpc_xprt;
  wait_for_reply_request : Z -> Z -> rpc_xprt -> rpc_xprt;
  timer : Z -> rpc_xprt -> rpc_xprt;                  (* does nothing where the method is NULL *)
  release_request : Z -> rpc_xprt -> rpc_xprt;        (* likewise *)
  close : rpc_xprt -> rpc_xprt;
  connect : Z -> rpc_xprt -> rpc_xprt;
}.

Section Ops.
Context (ops : rpc_xprt_ops).

Definition xprt_lock_write (now task : Z) (x : rpc_xprt) : bool * rpc_xprt :=
  if locked (x_lock x) && bool_decide (snd_task (x_lock x) = Some task) then (true, x) else reserve_xprt ops now task x.

Definition xprt_release_write (task : option Z) (x : rpc_xprt) : rpc_xprt :=
  if negb (bool_decide (snd_task (x_lock x) = task)) then x else release_xprt ops task x.

(** ** Closing and connecting *)

(** The work [task_cleanup] runs. *)
Definition xprt_autoclose (x : rpc_xprt) : rpc_xprt :=
  let x := on_lock (fun l => l <| task_cleanup := false |> <| close_wait := false |>) x in
  xprt_release_write None (close ops x).
End Ops.

Definition xprt_disconnect_done (x : rpc_xprt) : rpc_xprt :=
  let x := on_conn (fun c => c <| connected := false |>) x in
  let x := snd (xprt_clear_write_space_locked x) in
  let x := xprt_clear_congestion_window_wait_locked x in
  xprt_wake_pending_tasks (- ENOTCONN) x.

Definition xprt_schedule_autoclose_locked (x : rpc_xprt) : rpc_xprt :=
  if close_wait (x_lock x) then x
  else
    let x := on_lock (fun l => l <| close_wait := true |>) x in
    if negb (locked (x_lock x)) then on_lock (fun l => l <| locked := true |> <| task_cleanup := true |>) x
    else
      match snd_task (x_lock x) with
      | Some t => if negb (snd_is_cookie (x_lock x)) then on_pending (rpc_wake_up_queued_task_set_status t (- ENOTCONN)) x else x
      | None => x
      end.

Definition xprt_force_disconnect (x : rpc_xprt) : rpc_xprt := xprt_schedule_autoclose_locked x.

Definition xprt_request_retransmit_after_disconnect (task : Z) (x : rpc_xprt) : bool :=
  negb (rq_connect_cookie (task_req x task) =? connect_cookie (x_conn x)) || negb (xprt_connected x).

Definition xprt_conditional_disconnect (cookie : Z) (x : rpc_xprt) : rpc_xprt :=
  if negb (cookie =? connect_cookie (x_conn x)) then x
  else if closing (x_conn x) then x
  else xprt_schedule_autoclose_locked x.

Definition recv_queue_empty (x : rpc_xprt) : bool := match recv_queue (x_queues x) with Leaf => true | _ => false end.

Definition xprt_schedule_autodisconnect (now : Z) (x : rpc_xprt) : rpc_xprt :=
  let x := on_conn (fun c => c <| last_used := now |>) x in
  if recv_queue_empty x && negb (idle_timeout (x_conn x) =? 0)
  then on_conn (fun c => c <| idle_timer := Some (u64 (last_used c + idle_timeout c)) |>) x else x.

(** The idle timer fires. *)
Definition xprt_init_autodisconnect (now : Z) (x : rpc_xprt) : rpc_xprt :=
  let x := on_conn (fun c => c <| idle_timer := None |>) x in
  if negb (recv_queue_empty x) then x
  else
    let x := on_conn (fun c => c <| last_used := now |>) x in
    if locked (x_lock x) then x else on_lock (fun l => l <| locked := true |> <| task_cleanup := true |>) x.

Definition xprt_lock_connect (task cookie : Z) (x : rpc_xprt) : bool * rpc_xprt :=
  if negb (locked (x_lock x)) then (false, x)
  else if negb (bool_decide (snd_task (x_lock x) = Some task)) then (false, x)
  else (true, on_lock (fun l => l <| snd_is_cookie := true |> <| snd_task := Some cookie |>) x).

Definition xprt_unlock_connect (ops : rpc_xprt_ops) (now cookie : Z) (x : rpc_xprt) : rpc_xprt :=
  if negb (bool_decide (snd_task (x_lock x) = Some cookie)) then x
  else if negb (locked (x_lock x)) then x
  else
    let x := on_lock (fun l => l <| snd_task := None |> <| snd_is_cookie := false |>) x in
    xprt_schedule_autodisconnect now (release_xprt ops None x).

Definition xprt_connect (ops : rpc_xprt_ops) (now task : Z) (x : rpc_xprt) : rpc_xprt :=
  if negb (bound (x_conn x)) then set_status task (- EAGAIN) x
  else
    let '(got, x) := xprt_lock_write ops now task x in
    if negb got then x
    else
      let x := if close_wait (x_lock x) then close ops (on_lock (fun l => l <| close_wait := false |>) x) else x in
      if xprt_connected x then xprt_release_write ops (Some task) x
      else
        let x := on_req (rqstp x task) (fun q => q <| rq_connect_cookie := connect_cookie (x_conn x) |>) x in
        let x := on_pending (rpc_sleep_on_timeout now task None (xprt_request_timeout now (task_req x task))) x in
        if closing (x_conn x) then x
        else if connecting (x_conn x) then x
        else
          let x := on_conn (fun c => c <| connecting := true |>) x in
          let x := if negb (xprt_connected x) then connect ops task (on_conn (fun c => c <| connect_start := now |>) x)
                   else on_pending (rpc_wake_up_queued_task task) (set_status task 0 (on_conn (fun c => c <| connecting := false |>) x)) in
          xprt_release_write ops (Some task) x.

Definition xprt_reconnect_delay (now : Z) (x : rpc_xprt) : Z :=
  let start := u64 (connect_start (x_conn x) + reestablish_timeout (x_conn x)) in
  if time_after start now then u64 (start - now) else 0.

Definition xprt_reconnect_backoff (init_to : Z) (x : rpc_xprt) : rpc_xprt :=
  on_conn (fun c =>
    let t := u64 (Z.shiftl (reestablish_timeout c) 1) in
    let t := if max_reconnect_timeout c <? t then max_reconnect_timeout c else t in
    c <| reestablish_timeout := if t <? init_to then init_to else t |>) x.

(** ** The receive queue *)

Definition xprt_xid_cmp (xid1 xid2 : Z) : comparison := if xid1 =? xid2 then Eq else if xid1 <? xid2 then Lt else Gt.

Definition xprt_request_rb_find (xid : Z) (x : rpc_xprt) : option Z :=
  snd (fst (rb_walk (fun r => xprt_xid_cmp xid (rq_xid (get_req x r))) (recv_queue (x_queues x)) 0)).

Section Queues.
Context `{RbShape Z}.

(** A request with the same number is already there: nothing is linked. *)
Definition xprt_request_rb_insert (r : Z) (x : rpc_xprt) : rpc_xprt :=
  let t := recv_queue (x_queues x) in
  let '(place, found, _) := rb_walk (fun q => xprt_xid_cmp (rq_xid (get_req x r)) (rq_xid (get_req x q))) t 0 in
  match found with
  | Some _ => x
  | None => on_queues (fun q => q <| recv_queue := rb_shape t (take place (in_order t) ++ r :: drop place (in_order t)) |>) x
  end.

Definition xprt_request_rb_remove (r : Z) (x : rpc_xprt) : rpc_xprt :=
  on_queues (fun q => q <| recv_queue := rb_shape (recv_queue q) (filter (fun r' => r' <> r) (in_order (recv_queue q))) |>) x.

Definition xprt_lookup_rqst (ktime xid : Z) (x : rpc_xprt) : option Z * rpc_xprt :=
  match xprt_request_rb_find xid x with
  | Some r => (Some r, on_req r (fun q => q <| rq_rtt := ktime - rq_xtime q |>) x)
  | None => (None, on_stat (fun s => s <| bad_xids := u64 (bad_xids s + 1) |>) x)
  end.

Definition xprt_is_pinned_rqst (x : rpc_xprt) (r : Z) : bool := negb (rq_pin (get_req x r) =? 0).
Definition xprt_pin_rqst (r : Z) (x : rpc_xprt) : rpc_xprt := on_req r (fun q => q <| rq_pin := rq_pin q + 1 |>) x.
(** Both branches decrement; the second also wakes a waiter. *)
Definition xprt_unpin_rqst (r : Z) (x : rpc_xprt) : rpc_xprt := on_req r (fun q => q <| rq_pin := rq_pin q - 1 |>) x.

Definition xprt_request_data_received (task : Z) (x : rpc_xprt) : bool :=
  negb (need_recv (get_tk x task)) && negb (rq_reply_bytes_recvd (task_req x task) =? 0).
Definition xprt_request_need_enqueue_receive (task : Z) (x : rpc_xprt) : bool :=
  negb (need_recv (get_tk x task)) && (rq_reply_bytes_recvd (task_req x task) =? 0).

Definition xprt_request_prepare (ops : rpc_xprt_ops) (r : Z) (x : rpc_xprt) : rpc_xprt := prepare_request ops r x.

Definition xprt_request_enqueue_receive (ops : rpc_xprt_ops) (task : Z) (x : rpc_xprt) : rpc_xprt :=
  if negb (xprt_request_need_enqueue_receive task x) then x
  else
    let r := rqstp x task in
    let x := xprt_request_prepare ops r x in
    let x := on_req r (fun q => q <| rq_private_buf := rq_rcv_buf q |>) x in
    let x := xprt_request_rb_insert r x in
    let x := on_xtask task (fun t => t <| need_recv := true |>) x in
    on_conn (fun c => c <| idle_timer := None |>) x.

Definition xprt_request_dequeue_receive_locked (task : Z) (x : rpc_xprt) : rpc_xprt :=
  if need_recv (get_tk x task)
  then xprt_request_rb_remove (rqstp x task) (on_xtask task (fun t => t <| need_recv := false |>) x) else x.

Definition xprt_update_rtt `{Clock} (task : Z) (x : rpc_xprt) : rpc_xprt :=
  let req := task_req x task in
  let m := usecs_to_jiffies (rq_rtt req / 1000) in
  let tm := p_timer (get_tk x task) in
  if tm =? 0 then x
  else
    x <| x_clnts := alter (fun c =>
      let rt := cl_rtt c in
      let rt := if rq_ntrans req =? 1 then rpc_update_rtt rt tm m else rt in
      c <| cl_rtt := rpc_set_timeo rt tm (rq_ntrans req - 1) |>) (tk_client (get_tk x task)) (x_clnts x) |>.

Definition xprt_complete_rqst (task copied : Z) (x : rpc_xprt) : rpc_xprt :=
  let x := on_stat (fun s => s <| recvs := u64 (recvs s + 1) |>) x in
  let x := on_req (rqstp x task) (fun q => q <| rq_private_buf := copied |> <| rq_reply_bytes_recvd := copied |>) x in
  let x := xprt_request_dequeue_receive_locked task x in
  on_pending (rpc_wake_up_queued_task task) x.

(** The callbacks tasks sleep with. *)
Definition cb_xprt_timer := 1.
Definition cb_xprt_complete_request_init := 2.

Definition xprt_timer (ops : rpc_xprt_ops) (task : Z) (x : rpc_xprt) : rpc_xprt :=
  if negb (from_option tk_status 0 (x_tasks x !! task) =? - ETIMEDOUT) then x
  else if rq_reply_bytes_recvd (task_req x task) =? 0 then timer ops task x
  else set_status task 0 x.

Definition xprt_wait_for_reply_request_def (now task : Z) (x : rpc_xprt) : rpc_xprt :=
  on_pending (rpc_sleep_on_timeout now task (Some cb_xprt_timer) (xprt_request_timeout now (task_req x task))) x.

Definition xprt_wait_for_reply_request_rtt `{Clock} (now task : Z) (x : rpc_xprt) : rpc_xprt :=
  let tm := p_timer (get_tk x task) in
  match get_clnt x task with
  | None => x
  | Some c =>
      let max_timeout := to_maxval (cl_timeout c) in
      let timeout := rpc_calc_rto (cl_rtt c) tm in
      let timeout := u64 (Z.shiftl timeout (rpc_ntimeo (cl_rtt c) tm + rq_retries (task_req x task))) in
      let timeout := if (max_timeout <? timeout) || (timeout =? 0) then max_timeout else timeout in
      on_pending (rpc_sleep_on_timeout now task (Some cb_xprt_timer) (u64 (now + timeout))) x
  end.

Definition xprt_request_wait_receive (ops : rpc_xprt_ops) (now task : Z) (x : rpc_xprt) : rpc_xprt :=
  if negb (need_recv (get_tk x task)) then x
  else
    let x := wait_for_reply_request ops now task x in
    if xprt_request_retransmit_after_disconnect task x then on_pending (rpc_wake_up_queued_task_set_status task (- ENOTCONN)) x else x.

(** ** The transmit queue *)

Definition xprt_request_need_enqueue_transmit (task : Z) (x : rpc_xprt) : bool := negb (need_xmit (get_tk x task)).

(** A request that holds a congestion credit goes before the first one that does not. *)
Fixpoint enqueue_cong (has_cong : Z -> bool) (r : Z) (q : list (list Z)) : list (list Z) :=
  match q with
  | [] => [[r]]
  | [] :: q => [] :: enqueue_cong has_cong r q
  | (pos :: ring) :: q => if has_cong pos then (pos :: ring) :: enqueue_cong has_cong r q else [r] :: (pos :: ring) :: q
  end.

(** Otherwise, without a GSS sequence number, it joins the first request of its owner. *)
Fixpoint enqueue_owner (owner : Z -> Z) (r : Z) (q : list (list Z)) : list (list Z) :=
  match q with
  | [] => [[r]]
  | [] :: q => [] :: enqueue_owner owner r q
  | (pos :: ring) :: q => if owner pos =? owner r then (pos :: ring ++ [r]) :: q else (pos :: ring) :: enqueue_owner owner r q
  end.

(** [pos->rq_task->tk_owner]. *)
Definition rq_owner (x : rpc_xprt) (r : Z) : Z :=
  match rq_task (get_req x r) with Some t => from_option tk_owner 0 (x_tasks x !! t) | None => 0 end.

Definition xprt_request_enqueue_transmit (task : Z) (x : rpc_xprt) : rpc_xprt :=
  let r := rqstp x task in
  if negb (xprt_request_need_enqueue_transmit task x) then x
  else
    let x := on_req r (fun q => q <| rq_bytes_sent := 0 |>) x in
    let x :=
      if rq_cong (get_req x r) then
        let x := xprt_clear_congestion_window_wait x in
        on_queues (fun q => q <| xmit_queue := enqueue_cong (fun p => rq_cong (get_req x p)) r (xmit_queue q) |>) x
      else if rq_seqno (get_req x r) =? 0 then
        on_queues (fun q => q <| xmit_queue := enqueue_owner (rq_owner x) r (xmit_queue q) |>) x
      else on_queues (fun q => q <| xmit_queue := xmit_queue q ++ [[r]] |>) x in
    let x := on_queues (fun q => q <| xmit_queuelen := xmit_queuelen q + 1 |>) x in
    on_xtask task (fun t => t <| need_xmit := true |>) x.

(** When the first of a group leaves, the others go to the end of the queue. *)
Definition xprt_request_dequeue_transmit_locked (task : Z) (x : rpc_xprt) : rpc_xprt :=
  if negb (need_xmit (get_tk x task)) then x
  else
    let x := on_xtask task (fun t => t <| need_xmit := false |>) x in
    let r := rqstp x task in
    on_queues (fun q => q <| xmit_queue := __rpc_list_dequeue_task (xmit_queue q) r |> <| xmit_queuelen := xmit_queuelen q - 1 |>) x.

Definition xprt_request_dequeue_transmit (task : Z) (x : rpc_xprt) : rpc_xprt := xprt_request_dequeue_transmit_locked task x.

(** The result says whether the wait for the pins is over; the wait ends with the request taken
    from the queues again, which changes nothing. *)
Definition xprt_request_dequeue_xprt (task : Z) (x : rpc_xprt) : bool * rpc_xprt :=
  let r := rqstp x task in
  if need_xmit (get_tk x task) || need_recv (get_tk x task) || xprt_is_pinned_rqst x r then
    let x := xprt_request_dequeue_receive_locked task (xprt_request_dequeue_transmit_locked task x) in
    if xprt_is_pinned_rqst x r then (false, on_xtask task (fun t => t <| pin_wait := true |>) x)
    else (true, on_xtask task (fun t => t <| pin_wait := false |>) x)
  else (true, x).

Definition xprt_request_need_retransmit (task : Z) (x : rpc_xprt) : bool := xprt_request_retransmit_after_disconnect task x.

Definition xprt_prepare_transmit (ops : rpc_xprt_ops) (now task : Z) (x : rpc_xprt) : bool * rpc_xprt :=
  let '(got, x) := xprt_lock_write ops now task x in
  if got then (true, x)
  else (false, if negb (need_xmit (get_tk x task)) then on_sending (rpc_wake_up_queued_task_set_status task 0) x else x).

Definition xprt_end_transmit (ops : rpc_xprt_ops) (task : Z) (x : rpc_xprt) : rpc_xprt := xprt_release_write ops (Some task) x.

(** [out_dequeue]. *)
Definition out_dequeue (task status : Z) (x : rpc_xprt) : Z * rpc_xprt :=
  (status, on_sending (rpc_wake_up_queued_task_set_status task status) (xprt_request_dequeue_transmit task x)).

Definition count_send (x : rpc_xprt) : rpc_xprt :=
  let x := on_stat (fun s => s <| sends := u64 (sends s + 1) |>) x in
  on_stat (fun s => s <| req_u := u64 (req_u s + u64 (sends s - recvs s)) |> <| bklog_u := u64 (bklog_u s + qlen (backlog x)) |>
                      <| sending_u := u64 (sending_u s + qlen (sending x)) |> <| pending_u := u64 (pending_u s + qlen (pending x)) |>) x.

Definition xprt_request_transmit (ops : rpc_xprt_ops) (r : Z) (x : rpc_xprt) : Z * rpc_xprt :=
  let task := default 0 (rq_task (get_req x r)) in
  let is_retrans := tk_sent (get_tk x task) in
  let fresh := rq_bytes_sent (get_req x r) =? 0 in
  if fresh && xprt_request_data_received task x then out_dequeue task 0 x
  else if fresh && crneed_reencode (get_tk x task) then out_dequeue task (- EBADMSG) x
  else if fresh && tk_signalled (get_tk x task) then out_dequeue task (- ERESTARTSYS) x
  else
    let x := on_req r (fun q => q <| rq_ntrans := rq_ntrans q + 1 |>) x in
    let cookie := connect_cookie (x_conn x) in
    let '(status, x) := send_request ops r x in
    if negb (status =? 0) then (status, on_req r (fun q => q <| rq_ntrans := rq_ntrans q - 1 |>) x)
    else
      let x := if is_retrans then x <| x_clnts := alter (fun c => c <| rpcretrans := rpcretrans c + 1 |>) (tk_client (get_tk x task)) (x_clnts x) |> else x in
      let x := count_send (on_xtask task (fun t => t <| tk_sent := true |>) x) in
      out_dequeue task 0 (on_req r (fun q => q <| rq_connect_cookie := cookie |>) x).

(** The loop; [None] is out of fuel. *)
Fixpoint xprt_transmit (fuel : nat) (ops : rpc_xprt_ops) (task : Z) (x : rpc_xprt) : option rpc_xprt :=
  match fuel with
  | O => None
  | S fuel =>
      match first_task (xmit_queue (x_queues x)) with
      | None => Some x
      | Some next =>
          let req := rqstp x task in
          let '(status, x) := xprt_request_transmit ops next (xprt_pin_rqst next x) in
          let status := if (status =? - EBADMSG) && negb (next =? req) then 0 else status in
          let x := xprt_unpin_rqst next x in
          if status <? 0 then Some (if need_xmit (get_tk x task) then set_status task status x else x)
          else if xprt_request_data_received task x && negb (need_xmit (get_tk x task)) then Some x
          else xprt_transmit fuel ops task x
      end
  end.

(** ** Slots *)

Definition xprt_add_backlog (task : Z) (x : rpc_xprt) : rpc_xprt :=
  on_backlog (rpc_sleep_on task (Some cb_xprt_complete_request_init)) (on_slots (fun s => s <| congested := true |>) x).

Definition __xprt_set_rq (r : Z) (k : rpc_task xtask) (_ : unit) : bool * (rpc_task xtask * unit) :=
  match tk_rqstp (tk_msg k) with
  | None => (true, (k <| tk_msg := (tk_msg k) <| tk_rqstp := Some r |> |>, tt))
  | Some _ => (false, (k, tt))
  end.

(** [__xprt_set_rq] also wipes the request it hands over. *)
Definition xprt_wake_up_backlog (r : Z) (x : rpc_xprt) : bool * rpc_xprt :=
  let '(t, (_, s)) := rpc_wake_up_first (__xprt_set_rq r) tt (with_queue (backlog x) x) in
  let x := (back s x) <| backlog := sc_queue s |> in
  match t with
  | Some _ => (true, on_req r (fun _ => rq_zero) x)
  | None => (false, on_slots (fun s => s <| congested := false |>) x)
  end.

Definition xprt_throttle_congested (task : Z) (x : rpc_xprt) : bool * rpc_xprt :=
  if negb (congested (x_slots x)) then (false, x) else (true, xprt_add_backlog task x).

(** [mem] is what [kzalloc] answers: the address of a new request, or NULL. *)
Definition xprt_dynamic_alloc_slot (mem : option Z) (x : rpc_xprt) : res Z * rpc_xprt :=
  if max_reqs (x_slots x) <=? num_reqs (x_slots x) then (Err (- EAGAIN), x)
  else
    let x := on_slots (fun s => s <| num_reqs := u32 (num_reqs s + 1) |>) x in
    match mem with
    | Some r => (Ok r, x <| x_reqs := <[r := rq_zero]> (x_reqs x) |>)
    | None => (Err (- ENOMEM), on_slots (fun s => s <| num_reqs := u32 (num_reqs s - 1) |>) x)
    end.

Definition xprt_dynamic_free_slot (r : Z) (x : rpc_xprt) : bool * rpc_xprt :=
  if min_reqs (x_slots x) <? num_reqs (x_slots x)
  then (true, (on_slots (fun s => s <| num_reqs := u32 (num_reqs s - 1) |>) x) <| x_reqs := delete r (x_reqs x) |>)
  else (false, x).

Definition out_init_req (task r : Z) (x : rpc_xprt) : rpc_xprt :=
  let x := on_slots (fun s => s <| max_slots := Z.max (max_slots s) (num_reqs s) |>) x in
  on_xtask task (fun t => t <| tk_rqstp := Some r |>) (set_status task 0 x).

Definition xprt_alloc_slot (mem : option Z) (task : Z) (x : rpc_xprt) : rpc_xprt :=
  match free (x_slots x) with
  | r :: l => out_init_req task r (on_slots (fun s => s <| free := l |>) x)
  | [] =>
      match xprt_dynamic_alloc_slot mem x with
      | (Ok r, x) => out_init_req task r x
      | (Err e, x) =>
          if e =? - ENOMEM then set_status task (- ENOMEM) x
          else set_status task (- EAGAIN) (if e =? - EAGAIN then xprt_add_backlog task x else x)
      end
  end.

Definition xprt_free_slot (r : Z) (x : rpc_xprt) : rpc_xprt :=
  let '(handed, x) := xprt_wake_up_backlog r x in
  if handed then x
  else
    let '(freed, x) := xprt_dynamic_free_slot r x in
    if freed then x
    else on_slots (fun s => s <| free := r :: free s |>) (on_req r (fun _ => rq_zero) x).

(** [kfree] of every free request. *)
Definition xprt_free_all_slots (x : rpc_xprt) : rpc_xprt :=
  foldl (fun x r => x <| x_reqs := delete r (x_reqs x) |>) (on_slots (fun s => s <| free := [] |>) x) (free (x_slots x)).

Definition xid_space_new_xid (x : rpc_xprt) : Z * rpc_xprt :=
  let n := u32 (next_xid (x_slots x) + 1) in (n, on_slots (fun s => s <| next_xid := n |>) x).

Definition xprt_init_connect_cookie (r : Z) (x : rpc_xprt) : rpc_xprt :=
  on_req r (fun q => q <| rq_connect_cookie := u32 (connect_cookie (x_conn x) - 1) |>) x.

Definition xprt_request_init `{Clock} (now ktime task : Z) (x : rpc_xprt) : rpc_xprt :=
  let r := rqstp x task in
  let '(xid, x) := xid_space_new_xid x in
  let x := on_req r (fun q => q <| rq_task := Some task |> <| rq_buffer := false |> <| rq_xid := xid |>) x in
  let x := xprt_init_connect_cookie r x in
  let x := on_req r (fun q => q <| rq_rcv_buf := 0 |> <| rq_release_snd_buf := false |>) x in
  xprt_init_majortimeo now ktime task x.

(** The callback of a task that waited on [backlog]. *)
Definition xprt_complete_request_init `{Clock} (now ktime task : Z) (x : rpc_xprt) : rpc_xprt :=
  match tk_rqstp (get_tk x task) with Some _ => xprt_request_init now ktime task x | None => x end.

Definition xprt_do_reserve `{Clock} (mem : option Z) (now ktime task : Z) (x : rpc_xprt) : rpc_xprt :=
  let x := xprt_alloc_slot mem task x in
  match tk_rqstp (get_tk x task) with Some _ => xprt_request_init now ktime task x | None => x end.

Definition xprt_reserve `{Clock} (mem : option Z) (now ktime task : Z) (x : rpc_xprt) : rpc_xprt :=
  let x := set_status task 0 x in
  match tk_rqstp (get_tk x task) with
  | Some _ => x
  | None =>
      let '(throttled, x) := xprt_throttle_congested task (set_status task (- EAGAIN) x) in
      if throttled then x else xprt_do_reserve mem now ktime task x
  end.

Definition xprt_retry_reserve `{Clock} (mem : option Z) (now ktime task : Z) (x : rpc_xprt) : rpc_xprt :=
  let x := set_status task 0 x in
  match tk_rqstp (get_tk x task) with
  | Some _ => x
  | None => xprt_do_reserve mem now ktime task (set_status task (- EAGAIN) x)
  end.

(** [false] while the request is pinned: the task waits and comes back.  The buffers, the
    credential and the encoding pages are given back with the request. *)
Definition xprt_release (ops : rpc_xprt_ops) (now task : Z) (x : rpc_xprt) : bool * rpc_xprt :=
  match tk_rqstp (get_tk x task) with
  | None => (true, xprt_release_write ops (Some task) x)
  | Some r =>
      let '(ready, x) := xprt_request_dequeue_xprt task x in
      if negb ready then (false, x)
      else
        let x := release_request ops task (release_xprt ops (Some task) x) in
        let x := xprt_schedule_autodisconnect now x in
        let x := on_req r (fun q => q <| rq_buffer := false |> <| rq_cred := false |> <| rq_release_snd_buf := false |>) x in
        let x := on_xtask task (fun t => t <| tk_rqstp := None |>) x in
        (true, xprt_free_slot r x)
  end.
End Queues.

(** ** Creation *)

(** The preallocation loop: the requests put on the free list, [None] when memory runs out. *)
Fixpoint prealloc (mem : list (option Z)) (l : list Z) : option (list Z) :=
  match mem with
  | [] => Some l
  | Some r :: mem => prealloc mem (r :: l)
  | None :: _ => None
  end.

(** [xprt_alloc] with [xprt_init]; [mem] answers the [num_prealloc] allocations, [xid] is random. *)
Definition xprt_alloc (mem : list (option Z)) (max_alloc xid now : Z) : option rpc_xprt :=
  match prealloc mem [] with
  | None => None
  | Some l =>
      let n := zlen l in
      let q := fun addr => rpc_init_wait_queue (mk_queue addr [] 0 0 0 0 [] 0 None) in
      Some (mk_xprt (mk_lock false false false false false None false 0 RPC_INITCWND)
              (mk_conn false false false false 0 0 0 0 now 0 None false)
              (mk_slots l (if n <? max_alloc then max_alloc else n) n n false 0 xid)
              (mk_queues [] 0 Leaf) (mk_stat 0 0 0 0 0 0 0)
              (list_to_map ((fun r => (r, rq_zero)) <$> l)) ∅ ∅
              (q 1) (q 2) (rpc_init_priority_wait_queue (mk_queue 3 [] 0 0 0 0 [] 0 None)) [] [])
  end.
