(* ===== verification/TransportLock.v ===== *)
(** * The write lock of a transport

    What the operations of [Transport] do to the lock [XPRT_LOCKED], the queue of senders and the
    flags that hold senders back: the lock always has an owner (a task, a connect worker or the
    cleanup work), and when it is free nobody waits for it without a reason. *)

From S2P Require Import Prelude Xdr WaitQueue WaitQueueInv WaitQueueFrame RbTree RpcTimer Transport.
From stdpp Require Import list gmap.
#[local] Open Scope Z_scope.

Definition info (x : rpc_xprt) : gmap Z (Z * Z * bool * xtask) := tinfo <$> x_tasks x.

(** ** The three queues of tasks *)

Record scheds_ok (x : rpc_xprt) : Prop := {
  sc_sending : sched_ok (with_queue (sending x) x);
  sc_pending : sched_ok (with_queue (pending x) x);
  sc_backlog : sched_ok (with_queue (backlog x) x);
  sc_addrs : wq_addr (sending x) = 1 /\ wq_addr (pending x) = 2 /\ wq_addr (backlog x) = 3;
  sc_prios : prios_ok (x_tasks x);
}.

(** Tasks change as an operation on the queue at [a] changes them, and two queues stay. *)
Lemma scheds_sending x x' : scheds_ok x -> queue_op (with_queue (sending x) x) (with_queue (sending x') x') ->
  pending x' = pending x -> backlog x' = backlog x -> scheds_ok x' /\ info x' = info x.
Proof.
  intros [S P B (A1 & A2 & A3) Pr] [O Ac Ad] Ep Eb. simpl in *. split; [|by eapply acts_info].
  split; [done| | |rewrite Ep, Eb; split_and!; congruence|by eapply acts_prios].
  - rewrite Ep. eapply acts_other; [done| |exact P]. lia.
  - rewrite Eb. eapply acts_other; [done| |exact B]. lia.
Qed.

Lemma scheds_pending x x' : scheds_ok x -> queue_op (with_queue (pending x) x) (with_queue (pending x') x') ->
  sending x' = sending x -> backlog x' = backlog x -> scheds_ok x' /\ info x' = info x.
Proof.
  intros [S P B (A1 & A2 & A3) Pr] [O Ac Ad] Ep Eb. simpl in *. split; [|by eapply acts_info].
  split; [|done| |rewrite Ep, Eb; split_and!; congruence|by eapply acts_prios].
  - rewrite Ep. eapply acts_other; [done| |exact S]. lia.
  - rewrite Eb. eapply acts_other; [done| |exact B]. lia.
Qed.

Lemma scheds_backlog x x' : scheds_ok x -> queue_op (with_queue (backlog x) x) (with_queue (backlog x') x') ->
  sending x' = sending x -> pending x' = pending x -> scheds_ok x' /\ info x' = info x.
Proof.
  intros [S P B (A1 & A2 & A3) Pr] [O Ac Ad] Ep Eb. simpl in *. split; [|by eapply acts_info].
  split; [| |done|rewrite Ep, Eb; split_and!; congruence|by eapply acts_prios].
  - rewrite Ep. eapply acts_other; [done| |exact S]. lia.
  - rewrite Eb. eapply acts_other; [done| |exact P]. lia.
Qed.

(** The tasks and queues do not change, or only in fields the queues do not look at. *)
Lemma scheds_same x x' : scheds_ok x -> acts 0 (x_tasks x) (x_tasks x') ->
  sending x' = sending x -> pending x' = pending x -> backlog x' = backlog x -> scheds_ok x'.
Proof.
  intros [S P B (A1 & A2 & A3) Pr] Ac Es Ep Eb.
  split; [rewrite Es; eapply acts_other; [done| |exact S]; lia|rewrite Ep; eapply acts_other; [done| |exact P]; lia
         |rewrite Eb; eapply acts_other; [done| |exact B]; lia|by rewrite Es, Ep, Eb|by eapply acts_prios].
Qed.

(** ** What the lock operations leave alone *)

Record quiet (x x' : rpc_xprt) : Prop := {
  qt_slots : x_slots x' = x_slots x;
  qt_queues : x_queues x' = x_queues x;
  qt_reqs : x_reqs x' = x_reqs x;
  qt_info : info x' = info x;
  qt_backlog : backlog x' = backlog x;
  qt_cong : cong (x_lock x') = cong (x_lock x);
}.

Lemma quiet_refl x : quiet x x.
Proof. by split. Qed.
Lemma quiet_trans x y z : quiet x y -> quiet y z -> quiet x z.
Proof. intros [] []. split; congruence. Qed.

(** Changes of the lock that leave the count alone. *)
Lemma quiet_lock f x : cong (f (x_lock x)) = cong (x_lock x) -> quiet x (on_lock f x).
Proof. by split. Qed.
Lemma quiet_conn f x : quiet x (on_conn f x).
Proof. by split. Qed.

(** ** The lock *)

Section Lock.
(** Whether the cleanup work is running (and owns the lock). *)
Implicit Type run : bool.

Record owned (run : bool) (x : rpc_xprt) : Prop := {
  ow_snd : forall t, snd_task (x_lock x) = Some t -> locked (x_lock x) = true;
  ow_cleanup : task_cleanup (x_lock x) = true -> locked (x_lock x) = true /\ snd_task (x_lock x) = None;
  ow_held : locked (x_lock x) = true -> snd_task (x_lock x) <> None \/ task_cleanup (x_lock x) = true \/ run = true;
  ow_run : run = true -> locked (x_lock x) = true /\ snd_task (x_lock x) = None /\ task_cleanup (x_lock x) = false;
  ow_close : close_wait (x_lock x) = true -> locked (x_lock x) = true;
  ow_cookie : snd_is_cookie (x_lock x) = true -> snd_task (x_lock x) <> None;
  ow_who : forall t, snd_task (x_lock x) = Some t -> if snd_is_cookie (x_lock x) then info x !! t = None else is_Some (info x !! t);
  ow_awake : forall t, snd_task (x_lock x) = Some t -> t ∉ queued (sending x);
  ow_cwnd : RPC_CWNDSCALE <= cwnd (x_lock x) <= Z.max RPC_CWNDSCALE (RPC_MAXCWND x);
  ow_cwnd_wait : cwnd_wait (x_lock x) = true -> RPC_CWNDSCALE <= cong (x_lock x);
}.

(** Nobody waits for a lock that could be taken. *)
Definition no_lost_wakeup (x : rpc_xprt) : Prop :=
  locked (x_lock x) = false -> write_space (x_lock x) = false -> cwnd_wait (x_lock x) = false -> queued (sending x) = [].

Record lock_ok (run : bool) (x : rpc_xprt) : Prop := {
  lk_scheds : scheds_ok x;
  lk_owned : owned run x;
  lk_wakeup : no_lost_wakeup x;
}.

(** [owned] looks at the lock, the senders and the names of the tasks only. *)
Lemma owned_ext run x x' : x_lock x' = x_lock x -> x_slots x' = x_slots x -> info x' = info x -> queued (sending x') ⊆ queued (sending x) ->
  owned run x -> owned run x'.
Proof.
  intros El Es Ei Q [H1 H2 H3 H4 H5 H6 H7 H8 H9 H10]. split; rewrite ?El; rewrite ?Ei; try done.
  - intros t Ht Hq. by eapply H8, Q.
  - unfold RPC_MAXCWND. by rewrite Es.
Qed.

(** Giving the lock up: it is free, or the cleanup work is on its way. *)
Lemma clear_locked_owned run x : owned run x -> task_cleanup (x_lock x) = false -> snd_is_cookie (x_lock x) = false ->
  owned false (xprt_clear_locked x) /\ (locked (x_lock (xprt_clear_locked x)) = false \/ task_cleanup (x_lock (xprt_clear_locked x)) = true).
Proof.
  intros O Ht Hc. unfold xprt_clear_locked, on_lock. destruct O as [H1 H2 H3 H4 H5 H6 H7 H8 H9 H10].
  destruct x as [[lk cw ws cwt ck sn cl cg cn] co sl qu st rq tk cs se pe ba ru pu]. cbn in *. subst. destruct cw; cbn; (split; [split|]); cbn; try done; try naive_solver.
Qed.

Lemma clear_locked_scheds x : scheds_ok x -> scheds_ok (xprt_clear_locked x).
Proof. intros S. eapply scheds_same; [exact S|apply acts_refl|done|done|done]. Qed.

Lemma clear_locked_quiet x : quiet x (xprt_clear_locked x).
Proof. apply quiet_lock. by destruct (x_lock x) as [? []]. Qed.

Lemma wake_next_sender_spec x b x' : scheds_ok x -> wake_next_sender x = (b, x') ->
  scheds_ok x' /\ quiet x x' /\
  if b then exists t, queued (sending x) ≡ₚ t :: queued (sending x') /\ x_lock x' = (x_lock x) <| snd_task := Some t |>
  else queued (sending x) = [] /\ queued (sending x') = [] /\ x_lock x' = x_lock x.
Proof.
  intros S E. unfold wake_next_sender in E.
  destruct (rpc_wake_up_first_on_wq _ tt (with_queue (sending x) x)) as [r [u s]] eqn:W.
  destruct (wake_first_agree _ r u s (sc_sending x S) W) as [O C]. set (x1 := (back s x) <| sending := sc_queue s |>) in *.
  assert (with_queue (sending x1) x1 = s) as Ex by by destruct s.
  destruct (scheds_sending x x1 S) as [S1 I1]; [by rewrite Ex|done|done|].
  destruct r as [t|]; injection E as <- <-.
  - split; [eapply scheds_same; [exact S1|apply acts_refl|done|done|done]|]. split; [by split|]. exists t. by split.
  - split; [done|]. split; [by split|]. by destruct C.
Qed.

Lemma queued_sub (l l' : list Z) t : l ≡ₚ t :: l' -> l' ⊆ l.
Proof. intros P u Hu. rewrite P. by right. Qed.

(** A free lock goes to the first sender. *)
Lemma take_lock_owned run x t x' : owned run x -> locked (x_lock x) = false -> NoDup (queued (sending x)) -> t ∈ queued (sending x) ->
  is_Some (info x !! t) -> info x' = info x -> x_slots x' = x_slots x -> queued (sending x) ≡ₚ t :: queued (sending x') ->
  x_lock x' = (x_lock x) <| locked := true |> <| snd_task := Some t |> -> owned run x'.
Proof.
  intros O Hl N Ht Hi Ei Es P El. rewrite P in N. apply NoDup_cons in N as [N _]. destruct O as [H1 H2 H3 H4 H5 H6 H7 H8 H9 H10].
  assert (task_cleanup (x_lock x) = false) as Hc by (destruct (task_cleanup (x_lock x)); [|done]; destruct (H2 eq_refl); congruence).
  assert (run = false) as -> by (destruct run; [|done]; destruct (H4 eq_refl) as [? _]; congruence).
  assert (snd_task (x_lock x) = None) as Hs by (destruct (snd_task (x_lock x)) eqn:E; [|done]; specialize (H1 _ eq_refl); congruence).
  assert (snd_is_cookie (x_lock x) = false) as Hk by (destruct (snd_is_cookie (x_lock x)); [|done]; by destruct H6).
  split; rewrite El; cbn; rewrite ?Ei; try done; try congruence; try tauto.
  - intros _. by left.
  - intros u [= <-]. by rewrite Hk.
  - unfold RPC_MAXCWND. by rewrite Es.
Qed.

Lemma sender_known x t : scheds_ok x -> t ∈ queued (sending x) -> is_Some (info x !! t).
Proof. intros S Ht. apply (so_queued _ (sc_sending x S)) in Ht as (k & K & _). unfold info. rewrite lookup_fmap. simpl in K. rewrite K. by eexists. Qed.

Lemma senders_nodup x : scheds_ok x -> NoDup (queued (sending x)).
Proof. intros S. apply (qo_nodup _ _ (so_queue _ (sc_sending x S))). Qed.

(** The two functions that pass the lock on; [g] is whether the window holds senders back. *)
Definition write_next (g : bool) (x : rpc_xprt) : rpc_xprt :=
  if locked (x_lock x) then x
  else
    let x := on_lock (fun l => l <| locked := true |>) x in
    if write_space (x_lock x) then xprt_clear_locked x
    else if g && xprt_need_congestion_window_wait x then xprt_clear_locked x
    else let '(woken, x) := wake_next_sender x in if woken then x else xprt_clear_locked x.

Lemma write_next_plain x : __xprt_lock_write_next x = write_next false x.
Proof. done. Qed.
Lemma write_next_cong x : __xprt_lock_write_next_cong x = write_next true x.
Proof. done. Qed.

Lemma relock_eq x : close_wait (x_lock x) = false -> locked (x_lock x) = false -> snd_task (x_lock x) = None ->
  xprt_clear_locked (on_lock (fun l => l <| locked := true |>) x) = x.
Proof. destruct x as [[lk cw ws cwt ck sn cl cg cn] co sl qu st rq tk cs se pe ba ru pu]. cbn. by intros -> -> ->. Qed.

Lemma write_next_ok g run x : scheds_ok x -> owned run x -> lock_ok run (write_next g x) /\ quiet x (write_next g x).
Proof.
  intros S O. unfold write_next. destruct (locked (x_lock x)) eqn:L; [split; [|apply quiet_refl]; split; [done|done|]; intros ?; congruence|].
  assert (snd_task (x_lock x) = None) as Hs by (destruct (snd_task (x_lock x)) eqn:E; [|done]; pose proof (ow_snd run x O _ E); congruence).
  assert (close_wait (x_lock x) = false) as Hw by (destruct (close_wait (x_lock x)) eqn:E; [|done]; pose proof (ow_close run x O E); congruence).
  set (x1 := on_lock (fun l => l <| locked := true |>) x). rewrite (relock_eq x Hw L Hs : xprt_clear_locked x1 = x).
  change (write_space (x_lock x1)) with (write_space (x_lock x)). change (xprt_need_congestion_window_wait x1) with (cwnd_wait (x_lock x)).
  destruct (write_space (x_lock x)) eqn:Ws; [split; [split; [done|done|intros ? ?; congruence]|apply quiet_refl]|].
  destruct (g && cwnd_wait (x_lock x)) eqn:G.
  { apply andb_true_iff in G as [_ G]. split; [split; [done|done|intros ? ? ?; congruence]|apply quiet_refl]. }
  assert (scheds_ok x1) as S1 by (eapply scheds_same; [exact S|apply acts_refl|done|done|done]).
  destruct (wake_next_sender x1) as [b x2] eqn:W. destruct (wake_next_sender_spec x1 b x2 S1 W) as (S2 & Q2 & C).
  assert (quiet x x2) as Q by (eapply quiet_trans; [|exact Q2]; by apply quiet_lock).
  destruct b.
  - destruct C as (t & P & El). split; [|done]. split; [done| |].
    + eapply (take_lock_owned run x t); [done|done|by apply senders_nodup|change (sending x) with (sending x1); rewrite P; left| |apply Q|apply Q|exact P|exact El].
      apply sender_known; [done|]. change (sending x) with (sending x1). rewrite P. left.
    + intros C. rewrite El in C. done.
  - destruct C as (Q1 & Q3 & El).
    assert (quiet x2 (xprt_clear_locked x2)) as Q4 by apply clear_locked_quiet.
    assert (x_lock (xprt_clear_locked x2) = x_lock x) as El2.
    { pose proof (relock_eq x Hw L Hs : xprt_clear_locked x1 = x) as R. rewrite <- R. unfold xprt_clear_locked, on_lock. cbn. by rewrite El. }
    split; [|by eapply quiet_trans]. split; [by apply clear_locked_scheds| |].
    + eapply owned_ext; [exact El2|rewrite (qt_slots _ _ Q4); apply Q|rewrite (qt_info _ _ Q4); apply Q| |done].
      change (sending (xprt_clear_locked x2)) with (sending x2). rewrite Q3. by intros ? ?%elem_of_nil.
    + intros _ _ _. exact Q3.
Qed.

(** The two functions that give the lock up. *)
Definition release (g : bool) (task : option Z) (x : rpc_xprt) : rpc_xprt :=
  if bool_decide (snd_task (x_lock x) = task) then write_next g (xprt_clear_locked x) else x.

Lemma release_plain task x : xprt_release_xprt task x = release false task x.
Proof. done. Qed.
Lemma release_cong task x : xprt_release_xprt_cong task x = release true task x.
Proof. done. Qed.

(** An owner that is no cookie and no pending work gives it up. *)
Lemma give_up_ok g run x : scheds_ok x -> owned run x -> task_cleanup (x_lock x) = false -> snd_is_cookie (x_lock x) = false ->
  lock_ok false (write_next g (xprt_clear_locked x)) /\ quiet x (write_next g (xprt_clear_locked x)).
Proof.
  intros S O Hc Hk. destruct (clear_locked_owned run x O Hc Hk) as [O1 _].
  destruct (write_next_ok g false (xprt_clear_locked x)) as [L Q]; [by apply clear_locked_scheds|done|]. split; [done|].
  eapply quiet_trans; [apply clear_locked_quiet|done].
Qed.

Lemma release_task_ok g run x t : lock_ok run x -> is_Some (info x !! t) -> lock_ok run (release g (Some t) x) /\ quiet x (release g (Some t) x).
Proof.
  intros [S O W] Hi. unfold release. case_bool_decide as E; [|split; [by split|apply quiet_refl]].
  assert (run = false) as -> by (destruct run; [|done]; destruct (ow_run _ _ O eq_refl) as (_ & ? & _); congruence).
  apply (give_up_ok g false); [done|done| |].
  - destruct (task_cleanup (x_lock x)) eqn:C; [|done]. destruct (ow_cleanup _ _ O C). congruence.
  - pose proof (ow_who _ _ O t E) as H. destruct (snd_is_cookie (x_lock x)); [|done]. rewrite H in Hi. by destruct Hi.
Qed.

(** The cleanup work ends. *)
Lemma release_run_ok g x : lock_ok true x -> lock_ok false (release g None x) /\ quiet x (release g None x).
Proof.
  intros [S O W]. destruct (ow_run _ _ O eq_refl) as (L & E & C). unfold release. rewrite E, bool_decide_eq_true_2 by done.
  apply (give_up_ok g true); [done|done|done|]. destruct (snd_is_cookie (x_lock x)) eqn:K; [|done]. by destruct (ow_cookie _ _ O K).
Qed.

(** ** Going to sleep *)

Lemma on_tk_quiet t f x : (forall k, tinfo (f k) = tinfo k) -> quiet x (on_tk t f x).
Proof.
  intros F. split; try done. unfold info, on_tk. cbn. apply map_eq. intros u. rewrite !lookup_fmap.
  destruct (decide (u = t)) as [->|]; [rewrite lookup_alter_eq|by rewrite lookup_alter_ne]. destruct (x_tasks x !! t); [|done]. simpl. by rewrite F.
Qed.

Lemma set_status_lock run t st x : lock_ok run x -> lock_ok run (set_status t st x) /\ quiet x (set_status t st x).
Proof.
  intros [S O W]. pose proof (on_tk_quiet t (fun k => k <| tk_status := st |>) x ltac:(done)) as Q. split; [|done]. split; [|by apply (owned_ext run x); try apply Q|done].
  eapply scheds_same; [exact S| |done|done|done]. apply acts_alter. by intros.
Qed.

(** A sender that is held back for a reason. *)
Definition held_back (x : rpc_xprt) : Prop := locked (x_lock x) = true \/ write_space (x_lock x) = true \/ cwnd_wait (x_lock x) = true.

Lemma sleep_sending_ok run x t f : lock_ok run x -> held_back x -> snd_task (x_lock x) <> Some t ->
  joins (with_queue (sending x) x) (f (with_queue (sending x) x)) t -> lock_ok run (on_sending f x) /\ quiet x (on_sending f x).
Proof.
  intros [S O W] H Hs [Op J]. set (s := f (with_queue (sending x) x)) in *. unfold on_sending. fold s. set (x1 := (back s x) <| sending := sc_queue s |>).
  assert (with_queue (sending x1) x1 = s) as Ex by by destruct s.
  destruct (scheds_sending x x1 S) as [S1 I1]; [by rewrite Ex|done|done|]. split; [|by split]. split; [done| |].
  - pose proof O as [H1 H2 H3 H4 H5 H6 H7 H8 H9 H10]. split; try done; [by rewrite I1|]. intros u Hu. change (u ∉ queued (sc_queue s)).
    change (queued (sc_queue (with_queue (sending x) x))) with (queued (sending x)) in J.
    destruct J as [->|[-> _]]; [by apply H8|]. intros [->|Hq]%elem_of_cons; [by apply Hs|by apply (H8 u)].
  - intros L Ws Cw. cbn in L, Ws, Cw. destruct H as [H|[H|H]]; congruence.
Qed.

Lemma out_sleep_ok run now t x : lock_ok run x -> held_back x -> snd_task (x_lock x) <> Some t ->
  lock_ok run (snd (out_sleep now t x)) /\ quiet x (snd (out_sleep now t x)).
Proof.
  intros L H Hs. unfold out_sleep. destruct (set_status_lock run t (- EAGAIN) x L) as [L1 Q1]. set (x1 := set_status t (- EAGAIN) x) in *. cbn [snd].
  assert (lock_ok run (if tk_soft (get_tk x1 t) then on_sending (rpc_sleep_on_timeout now t None (xprt_request_timeout now (task_req x1 t))) x1
    else on_sending (rpc_sleep_on t None) x1) /\ quiet x1 (if tk_soft (get_tk x1 t) then on_sending (rpc_sleep_on_timeout now t None (xprt_request_timeout now (task_req x1 t))) x1
    else on_sending (rpc_sleep_on t None) x1)) as [L2 Q2]; [|split; [done|by eapply quiet_trans]].
  pose proof (lk_scheds _ _ L1) as S. destruct (tk_soft _); apply (sleep_sending_ok run x1 t); try done.
  - apply sleep_on_timeout_joins; apply S.
  - apply sleep_on_joins; apply S.
Qed.

(** ** Taking the lock *)

Definition awake (x : rpc_xprt) (t : Z) : Prop := is_Some (info x !! t) /\ t ∉ queued (sending x).

Definition grant (t : Z) (x : rpc_xprt) : rpc_xprt := on_lock (fun l => l <| snd_task := Some t |>) (on_lock (fun l => l <| locked := true |>) x).

Lemma grant_ok run t x : lock_ok run x -> awake x t -> locked (x_lock x) = false -> lock_ok run (grant t x) /\ quiet x (grant t x).
Proof.
  intros [S O W] [Hi Hq] L. split; [|by split]. split; [eapply scheds_same; [exact S|apply acts_refl|done|done|done]| |intros C; done].
  destruct O as [H1 H2 H3 H4 H5 H6 H7 H8 H9 H10].
  assert (task_cleanup (x_lock x) = false) as Hc by (destruct (task_cleanup (x_lock x)); [|done]; destruct (H2 eq_refl); congruence).
  assert (run = false) as -> by (destruct run; [|done]; destruct (H4 eq_refl) as [? _]; congruence).
  assert (snd_task (x_lock x) = None) as Hs by (destruct (snd_task (x_lock x)) eqn:E; [|done]; specialize (H1 _ eq_refl); congruence).
  assert (snd_is_cookie (x_lock x) = false) as Hk by (destruct (snd_is_cookie (x_lock x)); [|done]; by destruct H6).
  split; cbn; try done; try congruence; try tauto.
  - intros _. by left.
  - intros u [= <-]. by rewrite Hk.
Qed.

Lemma relock_clear run x : lock_ok run x -> locked (x_lock x) = false -> xprt_clear_locked (on_lock (fun l => l <| locked := true |>) x) = x.
Proof.
  intros [S O W] L. apply relock_eq; [|done|].
  - destruct (close_wait (x_lock x)) eqn:E; [|done]. pose proof (ow_close run x O E). congruence.
  - destruct (snd_task (x_lock x)) eqn:E; [|done]. pose proof (ow_snd run x O _ E). congruence.
Qed.

(** What a call that wants to send gets. *)
Definition reserves (run : bool) (t : Z) (x : rpc_xprt) (r : bool * rpc_xprt) : Prop :=
  lock_ok run (snd r) /\ quiet x (snd r) /\ (fst r = true -> snd_task (x_lock (snd r)) = Some t /\ locked (x_lock (snd r)) = true).

Lemma reserve_ok run now t x : lock_ok run x -> awake x t -> reserves run t x (xprt_reserve_xprt now t x).
Proof.
  intros L A. unfold xprt_reserve_xprt. destruct (locked (x_lock x)) eqn:Lk.
  - case_bool_decide as E; [split; [done|]; split; [apply quiet_refl|done]|].
    destruct (out_sleep_ok run now t x L ltac:(by left) E) as [L1 Q1]. by split.
  - rewrite (relock_clear run x L Lk). change (write_space (x_lock (on_lock _ x))) with (write_space (x_lock x)). destruct (write_space (x_lock x)) eqn:Ws.
    + destruct (out_sleep_ok run now t x L) as [L1 Q1]; [by right; left| |by split].
      intros E. pose proof (ow_snd _ _ (lk_owned _ _ L) t E). congruence.
    + destruct (grant_ok run t x L A Lk) as [L1 Q1]. split; [done|]. by split.
Qed.

Lemma reserve_cong_ok run now t x : lock_ok run x -> awake x t -> reserves run t x (xprt_reserve_xprt_cong now t x).
Proof.
  intros L A. unfold xprt_reserve_xprt_cong. destruct (locked (x_lock x)) eqn:Lk.
  - case_bool_decide as E; [split; [done|]; split; [apply quiet_refl|done]|].
    destruct (out_sleep_ok run now t x L ltac:(by left) E) as [L1 Q1]. by split.
  - rewrite (relock_clear run x L Lk). destruct (grant_ok run t x L A Lk) as [L1 Q1].
    assert (snd_task (x_lock x) <> Some t) as Hs by (intros E; pose proof (ow_snd _ _ (lk_owned _ _ L) t E); congruence).
    destruct (tk_rqstp (get_tk x t)); [|split; [done|]; by split].
    change (write_space (x_lock (on_lock _ x))) with (write_space (x_lock x)). destruct (write_space (x_lock x)) eqn:Ws.
    + destruct (out_sleep_ok run now t x L ltac:(by right; left) Hs) as [L2 Q2]. by split.
    + change (xprt_need_congestion_window_wait (on_lock _ x)) with (cwnd_wait (x_lock x)). destruct (cwnd_wait (x_lock x)) eqn:Cw; [|split; [done|]; by split].
      destruct (out_sleep_ok run now t x L ltac:(by right; right) Hs) as [L2 Q2]. by split.
Qed.
End Lock.
