(* ===== verification/TransportCong.v ===== *)
(** * Congestion and connections of a transport

    The requests in flight on a datagram transport are counted against the congestion window:
    [credits].  Together with [TransportLock] the operations on the window, on the socket's
    buffer space and on the connection keep the lock and the count in order. *)

From S2P Require Import Prelude Xdr WaitQueue WaitQueueInv WaitQueueFrame RbTree RpcTimer Transport TransportLock.
From stdpp Require Import list gmap.
#[local] Open Scope Z_scope.

Lemma map_size_alter {A} (f : A -> A) i (m : gmap Z A) : size (alter f i m) = size m.
Proof. by rewrite <- !size_dom, dom_alter_L. Qed.

(** Requests that hold a credit. *)
Definition credits (m : gmap Z rpc_rqst) : Z := Z.of_nat (size (filter (fun p => rq_cong p.2 = true) m)).

Definition cong_ok (x : rpc_xprt) : Prop := cong (x_lock x) = RPC_CWNDSCALE * credits (x_reqs x).

(** The table of requests has less than [2 ^ 32] slots, of which there is one at least. *)
Definition slots_sane (x : rpc_xprt) : Prop := 1 <= max_reqs (x_slots x) < 2 ^ 24 /\ Z.of_nat (size (x_reqs x)) < 2 ^ 32.

Lemma credits_nonneg m : 0 <= credits m.
Proof. unfold credits. lia. Qed.

Lemma credits_le m : credits m <= Z.of_nat (size m).
Proof. unfold credits. apply inj_le. apply map_size_filter. Qed.

Lemma credits_insert m r q : m !! r = None -> credits (<[r := q]> m) = credits m + (if rq_cong q then 1 else 0).
Proof.
  intros N. unfold credits. destruct (rq_cong q) eqn:E.
  - rewrite map_filter_insert_True by done. rewrite map_size_insert_None; [lia|]. apply map_lookup_filter_None. by left.
  - rewrite map_filter_insert_False by (simpl; congruence). rewrite delete_id by done. lia.
Qed.

Lemma credits_split m r q : m !! r = Some q -> credits m = credits (delete r m) + (if rq_cong q then 1 else 0).
Proof. intros K. rewrite <- (credits_insert (delete r m) r q) by apply lookup_delete_eq. by rewrite insert_delete_id. Qed.

Lemma credits_alter m r f q : m !! r = Some q -> credits (alter f r m) = credits m - (if rq_cong q then 1 else 0) + (if rq_cong (f q) then 1 else 0).
Proof.
  intros K. rewrite (credits_split (alter f r m) r (f q)) by (by rewrite lookup_alter_eq, K). rewrite (credits_split m r q K).
  replace (delete r (alter f r m)) with (delete r m) by (apply map_eq; intros i; destruct (decide (i = r)) as [->|]; [by rewrite !lookup_delete_eq|by rewrite !lookup_delete_ne, lookup_alter_ne]).
  lia.
Qed.

Lemma credits_same m r f : (forall q, rq_cong (f q) = rq_cong q) -> credits (alter f r m) = credits m.
Proof.
  intros F. destruct (m !! r) as [q|] eqn:K; [|by rewrite alter_id; [|intros; congruence]]. rewrite (credits_alter m r f q K), F. lia.
Qed.

(** ** The window *)

Section Window.
Implicit Type run : bool.

Definition net_ok (run : bool) (x : rpc_xprt) : Prop := lock_ok run x /\ cong_ok x /\ slots_sane x.

Lemma quiet_cong x x' : quiet x x' -> cong_ok x -> cong_ok x'.
Proof. intros Q C. unfold cong_ok. by rewrite (qt_cong _ _ Q), (qt_reqs _ _ Q). Qed.
Lemma quiet_sane x x' : quiet x x' -> slots_sane x -> slots_sane x'.
Proof. intros Q C. unfold slots_sane. by rewrite (qt_slots _ _ Q), (qt_reqs _ _ Q). Qed.
Lemma quiet_net run run' x x' : quiet x x' -> lock_ok run' x' -> net_ok run x -> net_ok run' x'.
Proof. intros Q L (_ & C & S). split; [done|]. split; [by eapply quiet_cong|by eapply quiet_sane]. Qed.

Lemma maxcwnd x : slots_sane x -> RPC_MAXCWND x = RPC_CWNDSCALE * max_reqs (x_slots x).
Proof.
  intros [[A B] _]. unfold RPC_MAXCWND, RPC_CWNDSHIFT, u32. rewrite Z.shiftl_mul_pow2 by lia. change (2 ^ 8) with 256. change RPC_CWNDSCALE with 256.
  rewrite Z.mod_small; lia.
Qed.

(** A lock operation that only touches the flags [f] changes. *)
Lemma lock_flag run x f : lock_ok run x -> (forall l, locked (f l) = locked l /\ close_wait (f l) = close_wait l /\ snd_is_cookie (f l) = snd_is_cookie l /\
    snd_task (f l) = snd_task l /\ task_cleanup (f l) = task_cleanup l /\ cong (f l) = cong l /\ cwnd (f l) = cwnd l) ->
  (cwnd_wait (f (x_lock x)) = true -> RPC_CWNDSCALE <= cong (x_lock x)) -> owned run (on_lock f x) /\ scheds_ok (on_lock f x) /\ quiet x (on_lock f x).
Proof.
  intros [S O W] F Hc. destruct (F (x_lock x)) as (E1 & E2 & E3 & E4 & E5 & E6 & E7). split; [|split; [|by apply quiet_lock]].
  - destruct O. split; cbn; rewrite ?E1, ?E2, ?E3, ?E4, ?E5, ?E6, ?E7; try done.
  - eapply scheds_same; [exact S|apply acts_refl|done|done|done].
Qed.

(** Setting a flag that holds senders back loses no wake-up. *)
Lemma lock_flag_keep run x f : lock_ok run x -> (forall l, locked (f l) = locked l /\ close_wait (f l) = close_wait l /\ snd_is_cookie (f l) = snd_is_cookie l /\
    snd_task (f l) = snd_task l /\ task_cleanup (f l) = task_cleanup l /\ cong (f l) = cong l /\ cwnd (f l) = cwnd l) ->
  (cwnd_wait (f (x_lock x)) = true -> RPC_CWNDSCALE <= cong (x_lock x)) ->
  (write_space (x_lock x) = true -> write_space (f (x_lock x)) = true) -> (cwnd_wait (x_lock x) = true -> cwnd_wait (f (x_lock x)) = true) ->
  lock_ok run (on_lock f x) /\ quiet x (on_lock f x).
Proof.
  intros L F Hc K1 K2. destruct (lock_flag run x f L F Hc) as (O & S & Q). split; [|done]. split; [done|done|].
  intros H1 H2 H3. cbn in *. destruct (F (x_lock x)) as (E1 & _). rewrite E1 in H1. apply (lk_wakeup _ _ L); [done| |].
  - destruct (write_space (x_lock x)); [|done]. by rewrite K1 in H2.
  - destruct (cwnd_wait (x_lock x)); [|done]. by rewrite K2 in H3.
Qed.

(** Clearing one and passing the lock on. *)
Lemma flag_next run x f g : lock_ok run x -> (forall l, locked (f l) = locked l /\ close_wait (f l) = close_wait l /\ snd_is_cookie (f l) = snd_is_cookie l /\
    snd_task (f l) = snd_task l /\ task_cleanup (f l) = task_cleanup l /\ cong (f l) = cong l /\ cwnd (f l) = cwnd l) ->
  (cwnd_wait (f (x_lock x)) = true -> RPC_CWNDSCALE <= cong (x_lock x)) -> lock_ok run (write_next g (on_lock f x)) /\ quiet x (write_next g (on_lock f x)).
Proof.
  intros L F Hc. destruct (lock_flag run x f L F Hc) as (O & S & Q). destruct (write_next_ok g run (on_lock f x) S O) as [L1 Q1]. split; [done|by eapply quiet_trans].
Qed.

Lemma get_req_alter x r f : get_req (on_req r f x) r = match x_reqs x !! r with Some q => f q | None => rq_zero end.
Proof. unfold get_req, on_req. cbn. rewrite lookup_alter_eq. by destruct (x_reqs x !! r). Qed.

Lemma cong_request x r : rq_cong (get_req x r) = true -> exists q, x_reqs x !! r = Some q /\ rq_cong q = true.
Proof. unfold get_req. destruct (x_reqs x !! r) as [q|]; [by exists q|done]. Qed.

(** Requests change, but no credit. *)
Lemma on_req_net run r f x : (forall q, rq_cong (f q) = rq_cong q) -> net_ok run x -> net_ok run (on_req r f x).
Proof.
  intros F ([S O W] & C & Sz). split; [|split].
  - split; [eapply scheds_same; [exact S|apply acts_refl|done|done|done]|by apply (owned_ext run x)|done].
  - unfold cong_ok. cbn. by rewrite credits_same.
  - split; [apply Sz|]. change (Z.of_nat (size (alter f r (x_reqs x))) < 2 ^ 32). rewrite map_size_alter. apply Sz.
Qed.

Lemma set_cwnd_wait_ok run x : net_ok run x -> RPC_CWNDSCALE <= cong (x_lock x) -> net_ok run (xprt_set_congestion_window_wait x) /\ quiet x (xprt_set_congestion_window_wait x).
Proof.
  intros N C. assert (net_ok run (on_lock (fun l => l <| cwnd_wait := true |>) x) /\ quiet x (on_lock (fun l => l <| cwnd_wait := true |>) x)) as H.
  { destruct (lock_flag_keep run x (fun l => l <| cwnd_wait := true |>)) as [L Q]; [apply N|done|done|done|done|]. split; [by eapply quiet_net|done]. }
  unfold xprt_set_congestion_window_wait. destruct (first_task _); [|done]. destruct (rq_cong _); [|done]. split; [done|apply quiet_refl].
Qed.

(** A credit is taken only while the window is open. *)
Lemma get_cong_ok run r x : net_ok run x -> is_Some (x_reqs x !! r) ->
  let '(ok, x') := __xprt_get_cong r x in net_ok run x' /\ x_slots x' = x_slots x /\ x_queues x' = x_queues x /\ info x' = info x /\ backlog x' = backlog x /\
    (ok = true -> rq_cong (get_req x' r) = true) /\ (ok = false -> x_reqs x' = x_reqs x /\ cwnd (x_lock x) <= cong (x_lock x)) /\
    (forall s, x_reqs x' !! s = (if decide (s = r) then (fun q => if ok then q <| rq_cong := true |> else q) else id) <$> (x_reqs x !! s)).
Proof.
  intros N [q K]. unfold __xprt_get_cong. destruct (rq_cong (get_req x r)) eqn:E.
  { split_and!; try done. intros s. destruct (decide (s = r)) as [->|]; [|by destruct (x_reqs x !! s)].
    unfold get_req in E. rewrite K in E |- *. simpl in *. by destruct q; cbn in *; subst. }
  destruct (RPCXPRT_CONGESTED x) eqn:Cg.
  - unfold RPCXPRT_CONGESTED in Cg. apply Z.leb_le in Cg. pose proof (ow_cwnd _ _ (lk_owned _ _ (proj1 N))) as B.
    destruct (set_cwnd_wait_ok run x N ltac:(lia)) as [N1 Q]. split_and!; try apply Q; try done; [intros _; split; [apply Q|done]|].
    intros s. rewrite (qt_reqs _ _ Q). destruct (decide (s = r)) as [->|]; [by destruct (x_reqs x !! r)|by destruct (x_reqs x !! s)].
  - unfold RPCXPRT_CONGESTED in Cg. apply Z.leb_gt in Cg. destruct N as ([S O W] & C & Sz).
    assert (rq_cong q = false) as Hq by (unfold get_req in E; by rewrite K in E).
    assert (u64 (cong (x_lock x) + RPC_CWNDSCALE) = cong (x_lock x) + RPC_CWNDSCALE) as Eu.
    { apply u64_exact. unfold cong_ok in C. pose proof (credits_nonneg (x_reqs x)). pose proof (credits_le (x_reqs x)). destruct Sz as [_ Sz].
      change RPC_CWNDSCALE with 256 in *. lia. }
    set (x' := on_lock _ _). assert (x_reqs x' = alter (fun q => q <| rq_cong := true |>) r (x_reqs x)) as Er by done.
    split_and!; try done.
    + split; [|split].
      * split; [eapply scheds_same; [exact S|apply acts_refl|done|done|done]| |done]. destruct O as [H1 H2 H3 H4 H5 H6 H7 H8 H9 H10]. split; try done.
        intros H. cbn. rewrite Eu. specialize (H10 H). change RPC_CWNDSCALE with 256 in *. lia.
      * unfold cong_ok. rewrite Er, (credits_alter _ _ _ q K), Hq. cbn. rewrite Eu. unfold cong_ok in C. rewrite C. lia.
      * split; [apply Sz|]. rewrite Er, map_size_alter. apply Sz.
    + intros _. unfold get_req. rewrite Er, lookup_alter_eq, K. done.
    + intros s. rewrite Er. destruct (decide (s = r)) as [->|]; [by rewrite lookup_alter_eq|]. rewrite lookup_alter_ne by done. by destruct (x_reqs x !! s).
Qed.

(** Only requests and the lock change. *)
Definition calm (x x' : rpc_xprt) : Prop := x_slots x' = x_slots x /\ x_queues x' = x_queues x /\ info x' = info x /\ backlog x' = backlog x.

Lemma quiet_calm x x' : quiet x x' -> calm x x'.
Proof. by intros []. Qed.
Lemma calm_trans x y z : calm x y -> calm y z -> calm x z.
Proof. unfold calm. intros (? & ? & ? & ?) (? & ? & ? & ?). split_and!; congruence. Qed.

Definition drop_credit (q : rpc_rqst) : rpc_rqst := q <| rq_cong := false |>.

Lemma drop_credit_id x r : rq_cong (get_req x r) = false -> alter drop_credit r (x_reqs x) = x_reqs x.
Proof. intros E. apply alter_id. intros q K. unfold get_req in E. rewrite K in E. simpl in E. unfold drop_credit. by destruct q; cbn in *; subst. Qed.

Lemma test_and_clear_eq x : xprt_test_and_clear_congestion_window_wait x = on_lock (fun l => l <| cwnd_wait := cwnd_wait l && (cwnd l <=? cong l) |>) x.
Proof.
  unfold xprt_test_and_clear_congestion_window_wait, RPCXPRT_CONGESTED. destruct x as [[lk cw ws cwt ck sn cl cg cn] co sl qu st rq tk cs se pe ba ru pu].
  unfold on_lock. cbn. destruct (cn <=? cg), cwt; reflexivity.
Qed.

(** A credit comes back; the first sender gets the lock if it is free and the window is open. *)
Lemma put_cong_ok run r x : net_ok run x ->
  let x' := __xprt_put_cong r x in net_ok run x' /\ calm x x' /\ x_reqs x' = alter drop_credit r (x_reqs x) /\ cwnd (x_lock x') = cwnd (x_lock x).
Proof.
  intros N. unfold __xprt_put_cong. destruct (rq_cong (get_req x r)) eqn:E; cbn [negb]; [|split; [done|]; split; [apply quiet_calm, quiet_refl|]; split; [by rewrite drop_credit_id|done]].
  destruct (cong_request x r E) as (q & K & Hq). pose proof N as ([S O W] & C & Sz). fold drop_credit.
  set (x1 := on_req r drop_credit x). set (x2 := on_lock (fun l => l <| cong := u64 (cong l - RPC_CWNDSCALE) |>) x1).
  assert (credits (alter drop_credit r (x_reqs x)) = credits (x_reqs x) - 1) as Ec by (rewrite (credits_alter _ _ _ q K), Hq; cbn; lia).
  assert (cong (x_lock x2) = RPC_CWNDSCALE * credits (x_reqs x2)) as C2.
  { change (u64 (cong (x_lock x) - RPC_CWNDSCALE) = RPC_CWNDSCALE * credits (alter drop_credit r (x_reqs x))). rewrite Ec. unfold cong_ok in C. rewrite C.
    pose proof (credits_nonneg (alter drop_credit r (x_reqs x))). pose proof (credits_le (x_reqs x)). destruct Sz as [_ Sz]. change RPC_CWNDSCALE with 256 in *. rewrite u64_exact; lia. }
  set (x3 := xprt_test_and_clear_congestion_window_wait x2). assert (x3 = on_lock (fun l => l <| cwnd_wait := cwnd_wait l && (cwnd l <=? cong l) |>) x2) as E3 by apply test_and_clear_eq.
  assert (scheds_ok x3) as S3 by (rewrite E3; eapply scheds_same; [exact S|apply acts_refl|done|done|done]).
  assert (owned run x3) as O3.
  { rewrite E3. destruct O as [H1 H2 H3 H4 H5 H6 H7 H8 H9 H10]. split; try done. cbn. intros [_ H]%andb_true_iff. apply Z.leb_le in H. lia. }
  rewrite write_next_cong. destruct (write_next_ok true run x3 S3 O3) as [L4 Q4].
  assert (quiet x2 x3) as Q3 by (rewrite E3; by apply quiet_lock).
  pose proof (quiet_trans _ _ _ Q3 Q4) as Q. pose proof Q as [Qs Qq Qr Qi Qb Qc]. split; [split; [done|split]|].
  - unfold cong_ok. by rewrite Qc, Qr.
  - split; [rewrite Qs; apply Sz|]. rewrite Qr. change (Z.of_nat (size (alter drop_credit r (x_reqs x))) < 2 ^ 32). rewrite map_size_alter. apply Sz.
  - split; [by split|]. split; [by rewrite Qr|].
    assert (forall y, cwnd (x_lock (write_next true y)) = cwnd (x_lock y)) as Ew.
    { intros y. unfold write_next. destruct (locked _); [done|]. assert (forall z, cwnd (x_lock (xprt_clear_locked z)) = cwnd (x_lock z)) as Ecl.
      { intros z. unfold xprt_clear_locked. cbn. by destruct (x_lock z) as [? []]. }
      destruct (write_space _); [by rewrite Ecl|]. destruct (_ && _); [by rewrite Ecl|]. unfold wake_next_sender.
      destruct (rpc_wake_up_first_on_wq _ _ _) as [[t|] [u s]]; [done|by rewrite Ecl]. }
    rewrite Ew, E3. done.
Qed.

(** How the window moves. *)
Definition next_cwnd (max c inflight result : Z) : Z :=
  if (0 <=? result) && (c <=? inflight) then Z.min max (c + (RPC_CWNDSCALE * RPC_CWNDSCALE + c / 2) / c)
  else if result =? - ETIMEDOUT then Z.max RPC_CWNDSCALE (c / 2) else c.

Lemma next_cwnd_bounds m c i r : 1 <= m -> RPC_CWNDSCALE <= c <= RPC_CWNDSCALE * m -> RPC_CWNDSCALE <= next_cwnd (RPC_CWNDSCALE * m) c i r <= RPC_CWNDSCALE * m.
Proof.
  intros Hm Hc. unfold next_cwnd. change RPC_CWNDSCALE with 256 in *. assert (0 <= (256 * 256 + c / 2) / c) by (apply Z.div_pos; [|lia]; pose proof (Z.div_pos c 2); lia).
  repeat case_match; try lia. split; [lia|]. pose proof (Z.div_le_upper_bound c 2 c). lia.
Qed.

Lemma window_increment c : RPC_CWNDSCALE <= c -> 0 <= (RPC_CWNDSCALE * RPC_CWNDSCALE + c / 2) / c <= RPC_CWNDSCALE + 1.
Proof.
  intros Hc. change RPC_CWNDSCALE with 256 in *. split; [apply Z.div_pos; [|lia]; pose proof (Z.div_pos c 2); lia|].
  apply Z.div_le_upper_bound; [lia|]. pose proof (Z.div_le_upper_bound c 2 c). nia.
Qed.

Lemma set_cwnd_net run x c : net_ok run x -> RPC_CWNDSCALE <= c <= Z.max RPC_CWNDSCALE (RPC_MAXCWND x) -> net_ok run (on_lock (fun l => l <| cwnd := c |>) x).
Proof.
  intros ([S O W] & C & Sz) B. split; [|done]. split; [eapply scheds_same; [exact S|apply acts_refl|done|done|done]| |done].
  destruct O. by split.
Qed.

Lemma write_next_net g run x : net_ok run x -> net_ok run (write_next g x) /\ quiet x (write_next g x).
Proof. intros N. destruct (write_next_ok g run x) as [L Q]; [apply N|apply N|]. split; [by eapply quiet_net|done]. Qed.

Lemma get_tk_info x x' t : info x' = info x -> get_tk x' t = get_tk x t.
Proof.
  intros E. assert (info x' !! t = info x !! t) as H by by rewrite E. unfold info in H. rewrite !lookup_fmap in H. unfold get_tk.
  destruct (x_tasks x' !! t), (x_tasks x !! t); try done. simpl in *. by injection H.
Qed.

Lemma rqstp_info x x' t : info x' = info x -> rqstp x' t = rqstp x t.
Proof. intros E. unfold rqstp. by rewrite (get_tk_info x x' t E). Qed.

Lemma adjust_cwnd_ok run t result x : net_ok run x ->
  let x' := xprt_adjust_cwnd t result x in
  net_ok run x' /\ calm x x' /\ x_reqs x' = alter drop_credit (rqstp x t) (x_reqs x) /\
  cwnd (x_lock x') = next_cwnd (RPC_MAXCWND x) (cwnd (x_lock x)) (cong (x_lock x)) result.
Proof.
  intros N. unfold xprt_adjust_cwnd. pose proof (ow_cwnd _ _ (lk_owned _ _ (proj1 N))) as B. pose proof (maxcwnd x (proj2 (proj2 N))) as M.
  destruct (proj2 (proj2 N)) as [[Hm1 Hm2] _]. rewrite M in *. set (c := cwnd (x_lock x)) in *.
  assert (RPC_CWNDSCALE <= c <= RPC_CWNDSCALE * max_reqs (x_slots x)) as B' by (change RPC_CWNDSCALE with 256 in *; lia).
  pose proof (next_cwnd_bounds _ c (cong (x_lock x)) result Hm1 B') as Bn. pose proof (window_increment c (proj1 B')) as Bi.
  set (p := if (0 <=? result) && (c <=? cong (x_lock x)) then _ else _).
  assert (exists y, p = (next_cwnd (RPC_CWNDSCALE * max_reqs (x_slots x)) c (cong (x_lock x)) result, y) /\ net_ok run y /\ quiet x y) as (y & -> & Ny & Qy).
  { unfold p, next_cwnd. rewrite !Z.shiftr_div_pow2 by lia. change (2 ^ 1) with 2. destruct ((0 <=? result) && (c <=? cong (x_lock x))).
    - exists (write_next true x). split; [|by apply write_next_net]. rewrite write_next_cong. f_equal. rewrite u64_exact by (change RPC_CWNDSCALE with 256 in *; lia).
      destruct (Z.ltb_spec (RPC_CWNDSCALE * max_reqs (x_slots x)) (c + (RPC_CWNDSCALE * RPC_CWNDSCALE + c / 2) / c)); lia.
    - destruct (result =? - ETIMEDOUT); (eexists; split; [|split; [exact N|apply quiet_refl]]); [|done]. f_equal.
      destruct (Z.ltb_spec (c / 2) RPC_CWNDSCALE); lia. }
  rewrite (rqstp_info x y t (qt_info _ _ Qy)). set (x1 := on_lock (fun l => l <| cwnd := _ |>) y).
  assert (net_ok run x1) as N1.
  { apply set_cwnd_net; [done|]. rewrite (maxcwnd y) by apply Ny. rewrite (qt_slots _ _ Qy). lia. }
  destruct (put_cong_ok run (rqstp x t) x1 N1) as (N2 & C2 & R2 & W2). split; [done|]. split; [|split; [rewrite R2|by rewrite W2]].
  - eapply calm_trans; [apply quiet_calm, Qy|]. exact C2.
  - change (x_reqs x1) with (x_reqs y). by rewrite (qt_reqs _ _ Qy).
Qed.

(** ** Tasks that wait for replies *)

Lemma on_pending_net run f x : net_ok run x -> queue_op (with_queue (pending x) x) (f (with_queue (pending x) x)) ->
  net_ok run (on_pending f x) /\ quiet x (on_pending f x).
Proof.
  intros N Op. pose proof N as ([S O W] & _). set (s := f (with_queue (pending x) x)) in *. unfold on_pending. fold s.
  set (x1 := (back s x) <| pending := sc_queue s |>). assert (with_queue (pending x1) x1 = s) as Ex by by destruct s.
  destruct (scheds_pending x x1 S) as [S1 I1]; [by rewrite Ex|done|done|]. assert (quiet x x1) as Q by by split.
  split; [|done]. eapply quiet_net; [done| |done]. split; [done|by apply (owned_ext run x)|done].
Qed.

Lemma wake_pending_net run st x : net_ok run x -> net_ok run (xprt_wake_pending_tasks st x) /\ quiet x (xprt_wake_pending_tasks st x).
Proof.
  intros N. pose proof (sc_pending x (lk_scheds _ _ (proj1 N))) as S. unfold xprt_wake_pending_tasks.
  destruct (st <? 0); apply on_pending_net; try done; [by apply (wake_all_status_op st)|by apply wake_all_op].
Qed.

Lemma sleep_pending_net run now t a timeout x : net_ok run x ->
  net_ok run (on_pending (rpc_sleep_on_timeout now t a timeout) x) /\ quiet x (on_pending (rpc_sleep_on_timeout now t a timeout) x).
Proof. intros N. pose proof (lk_scheds _ _ (proj1 N)) as S. apply on_pending_net; [done|]. apply sleep_on_timeout_joins; apply S. Qed.

Lemma wake_one_pending_net run t x : net_ok run x -> net_ok run (on_pending (rpc_wake_up_queued_task t) x) /\ quiet x (on_pending (rpc_wake_up_queued_task t) x).
Proof. intros N. apply on_pending_net; [done|]. apply wake_queued_leaves. apply (lk_scheds _ _ (proj1 N)). Qed.

Lemma wake_one_pending_status_net run t st x : net_ok run x ->
  net_ok run (on_pending (rpc_wake_up_queued_task_set_status t st) x) /\ quiet x (on_pending (rpc_wake_up_queued_task_set_status t st) x).
Proof. intros N. apply on_pending_net; [done|]. apply wake_status_leaves. apply (lk_scheds _ _ (proj1 N)). Qed.

(** Waking a sender by name, which gives it no lock. *)
Lemma on_sending_shrink run f x : net_ok run x -> queue_op (with_queue (sending x) x) (f (with_queue (sending x) x)) ->
  queued (sc_queue (f (with_queue (sending x) x))) ⊆ queued (sending x) -> net_ok run (on_sending f x) /\ quiet x (on_sending f x).
Proof.
  intros N Op Sub. pose proof N as ([S O W] & _). set (s := f (with_queue (sending x) x)) in *. unfold on_sending. fold s.
  set (x1 := (back s x) <| sending := sc_queue s |>). assert (with_queue (sending x1) x1 = s) as Ex by by destruct s.
  destruct (scheds_sending x x1 S) as [S1 I1]; [by rewrite Ex|done|done|]. assert (quiet x x1) as Q by by split.
  split; [|done]. eapply quiet_net; [done| |done]. split; [done|by apply (owned_ext run x)|].
  intros H1 H2 H3. specialize (W H1 H2 H3). change (queued (sc_queue s) = []). destruct (queued (sc_queue s)) as [|u l]; [done|].
  specialize (Sub u ltac:(left)). rewrite W in Sub. by apply elem_of_nil in Sub.
Qed.

Lemma wake_sender_net run t st x : net_ok run x ->
  net_ok run (on_sending (rpc_wake_up_queued_task_set_status t st) x) /\ quiet x (on_sending (rpc_wake_up_queued_task_set_status t st) x).
Proof.
  intros N. pose proof (wake_status_leaves _ t st (sc_sending x (lk_scheds _ _ (proj1 N)))) as L. apply on_sending_shrink; [done|apply L|]. by apply leaves_sub in L.
Qed.

(** ** Buffer space and the connection *)

Lemma on_conn_net run f x : net_ok run x -> net_ok run (on_conn f x) /\ quiet x (on_conn f x).
Proof.
  intros N. pose proof N as ([S O W] & _). pose proof (quiet_conn f x) as Q. split; [|done]. eapply quiet_net; [done| |done].
  split; [eapply scheds_same; [exact S|apply acts_refl|done|done|done]|by apply (owned_ext run x)|done].
Qed.

Lemma buffer_space_net run x : net_ok run x -> net_ok run (xprt_wait_for_buffer_space x) /\ quiet x (xprt_wait_for_buffer_space x).
Proof.
  intros N. destruct (lock_flag_keep run x (fun l => l <| write_space := true |>)) as [L Q]; [apply N|done| |done|done|].
  - apply (ow_cwnd_wait _ _ (lk_owned _ _ (proj1 N))).
  - split; [by eapply quiet_net|done].
Qed.

Lemma clear_write_space_net run x : net_ok run x -> net_ok run (snd (xprt_clear_write_space_locked x)) /\ quiet x (snd (xprt_clear_write_space_locked x)).
Proof.
  intros N. unfold xprt_clear_write_space_locked. destruct (write_space (x_lock x)); [|split; [done|apply quiet_refl]]. cbn [snd]. rewrite write_next_plain.
  destruct (flag_next run x (fun l => l <| write_space := false |>) false) as [L Q]; [apply N|done| |].
  - apply (ow_cwnd_wait _ _ (lk_owned _ _ (proj1 N))).
  - split; [by eapply quiet_net|done].
Qed.

Lemma write_space_net run x : net_ok run x -> net_ok run (snd (xprt_write_space x)) /\ quiet x (snd (xprt_write_space x)).
Proof. intros N. unfold xprt_write_space. destruct (negb _); [split; [done|apply quiet_refl]|by apply clear_write_space_net]. Qed.

Lemma clear_cwnd_wait_net run x : net_ok run x -> net_ok run (xprt_clear_congestion_window_wait x) /\ quiet x (xprt_clear_congestion_window_wait x).
Proof.
  intros N. unfold xprt_clear_congestion_window_wait. destruct (cwnd_wait (x_lock x)); [|split; [done|apply quiet_refl]]. rewrite write_next_cong.
  destruct (flag_next run x (fun l => l <| cwnd_wait := false |>) true) as [L Q]; [apply N|done|done|]. split; [by eapply quiet_net|done].
Qed.

Lemma disconnect_done_net run x : net_ok run x -> net_ok run (xprt_disconnect_done x) /\ quiet x (xprt_disconnect_done x).
Proof.
  intros N. unfold xprt_disconnect_done. destruct (on_conn_net run (fun c => c <| connected := false |>) x N) as [N1 Q1].
  destruct (clear_write_space_net run _ N1) as [N2 Q2]. destruct (clear_cwnd_wait_net run _ N2) as [N3 Q3]. destruct (wake_pending_net run (- ENOTCONN) _ N3) as [N4 Q4].
  split; [exact N4|]. eapply quiet_trans; [exact Q1|]. eapply quiet_trans; [exact Q2|]. eapply quiet_trans; [exact Q3|exact Q4].
Qed.

(** The lock goes to the cleanup work, or the owner is told. *)
Lemma take_for_cleanup run x f : net_ok run x -> locked (x_lock x) = false ->
  (forall l, let l' := f l in locked l' = true /\ task_cleanup l' = true /\ snd_is_cookie l' = snd_is_cookie l /\ snd_task l' = snd_task l /\ cong l' = cong l /\ cwnd l' = cwnd l /\
     cwnd_wait l' = cwnd_wait l) -> net_ok run (on_lock f x) /\ quiet x (on_lock f x).
Proof.
  intros N L F. pose proof N as ([S O W] & C & Sz). destruct (F (x_lock x)) as (E1 & E2 & E3 & E4 & E5 & E6 & E7). assert (quiet x (on_lock f x)) as Q by by apply quiet_lock.
  split; [|done]. eapply quiet_net; [done| |done]. split; [eapply scheds_same; [exact S|apply acts_refl|done|done|done]| |intros H; cbn in H; congruence].
  destruct O as [H1 H2 H3 H4 H5 H6 H7 H8 H9 H10].
  assert (snd_task (x_lock x) = None) as Hs by (destruct (snd_task (x_lock x)) eqn:E; [|done]; specialize (H1 _ eq_refl); congruence).
  split; cbn; rewrite ?E1, ?E2, ?E3, ?E4, ?E5, ?E6, ?E7; try done; try tauto.
  intros R. destruct (H4 R) as (? & _). congruence.
Qed.

Lemma schedule_autoclose_net run x : net_ok run x -> net_ok run (xprt_schedule_autoclose_locked x) /\ quiet x (xprt_schedule_autoclose_locked x).
Proof.
  intros N. unfold xprt_schedule_autoclose_locked. destruct (close_wait (x_lock x)) eqn:Cw; [split; [done|apply quiet_refl]|].
  set (x1 := on_lock (fun l => l <| close_wait := true |>) x). change (locked (x_lock x1)) with (locked (x_lock x)). destruct (locked (x_lock x)) eqn:L; cbn [negb].
  - assert (net_ok run x1 /\ quiet x x1) as [N1 Q1].
    { pose proof N as ([S O W] & C & Sz). split; [|by apply quiet_lock]. split; [|done]. split; [eapply scheds_same; [exact S|apply acts_refl|done|done|done]| |done].
      destruct O. by split. }
    destruct (snd_task (x_lock x1)) as [t|]; [|done]. destruct (negb _); [|done]. destruct (wake_one_pending_status_net run t (- ENOTCONN) x1 N1) as [N2 Q2].
    split; [done|]. by eapply quiet_trans.
  - by apply (take_for_cleanup run x (fun l => l <| close_wait := true |> <| locked := true |> <| task_cleanup := true |>)).
Qed.

Lemma conditional_disconnect_net run c x : net_ok run x -> net_ok run (xprt_conditional_disconnect c x) /\ quiet x (xprt_conditional_disconnect c x).
Proof.
  intros N. unfold xprt_conditional_disconnect. destruct (negb _); [split; [done|apply quiet_refl]|]. destruct (closing _); [split; [done|apply quiet_refl]|].
  by apply schedule_autoclose_net.
Qed.

Lemma schedule_autodisconnect_net run now x : net_ok run x -> net_ok run (xprt_schedule_autodisconnect now x) /\ quiet x (xprt_schedule_autodisconnect now x).
Proof.
  intros N. unfold xprt_schedule_autodisconnect. destruct (on_conn_net run (fun c => c <| last_used := now |>) x N) as [N1 Q1].
  destruct (_ && _); [|done]. destruct (on_conn_net run (fun c => c <| idle_timer := Some (u64 (last_used c + idle_timeout c)) |>) _ N1) as [N2 Q2].
  split; [exact N2|]. by eapply quiet_trans.
Qed.

Lemma init_autodisconnect_net run now x : net_ok run x -> net_ok run (xprt_init_autodisconnect now x) /\ quiet x (xprt_init_autodisconnect now x).
Proof.
  intros N. unfold xprt_init_autodisconnect. destruct (on_conn_net run (fun c => c <| idle_timer := None |>) x N) as [N1 Q1].
  set (x1 := on_conn _ x) in *. destruct (negb _); [done|]. destruct (on_conn_net run (fun c => c <| last_used := now |>) x1 N1) as [N2 Q2]. set (x2 := on_conn _ x1) in *.
  destruct (locked (x_lock x2)) eqn:L; [split; [done|by eapply quiet_trans]|].
  destruct (take_for_cleanup run x2 (fun l => l <| locked := true |> <| task_cleanup := true |>) N2 L) as [N3 Q3]; [done|].
  split; [exact N3|]. eapply quiet_trans; [exact Q1|]. by eapply quiet_trans.
Qed.

(** The cleanup work starts; it owns the lock until it gives it up. *)
Lemma cleanup_starts x : net_ok false x -> task_cleanup (x_lock x) = true ->
  net_ok true (on_lock (fun l => l <| task_cleanup := false |> <| close_wait := false |>) x).
Proof.
  intros ([S O W] & C & Sz) H. split; [|done]. split; [eapply scheds_same; [exact S|apply acts_refl|done|done|done]| |].
  - destruct (ow_cleanup _ _ O H) as [L E]. destruct O as [H1 H2 H3 H4 H5 H6 H7 H8 H9 H10]. split; cbn; try done. intros _. by right; right.
  - intros L. cbn in L. destruct (ow_cleanup _ _ O H). congruence.
Qed.

(** A connect worker takes the lock over from the task, and gives it up. *)
Lemma lock_connect_net run t c x : net_ok run x -> info x !! c = None -> c ∉ queued (sending x) ->
  net_ok run (snd (xprt_lock_connect t c x)) /\ quiet x (snd (xprt_lock_connect t c x)).
Proof.
  intros N Hc Hq. pose proof N as ([S O W] & C & Sz). unfold xprt_lock_connect. destruct (locked (x_lock x)) eqn:L; cbn [negb]; [|split; [done|apply quiet_refl]].
  case_bool_decide as E; cbn [negb snd]; [|split; [done|apply quiet_refl]]. split; [|by apply quiet_lock]. split; [|done].
  split; [eapply scheds_same; [exact S|apply acts_refl|done|done|done]| |intros H; cbn in H; congruence].
  destruct O as [H1 H2 H3 H4 H5 H6 H7 H8 H9 H10].
  assert (task_cleanup (x_lock x) = false) as Hcl by (destruct (task_cleanup (x_lock x)); [|done]; destruct (H2 eq_refl); congruence).
  split; cbn; try done; try congruence.
  - intros _. by left.
  - intros R. destruct (H4 R) as (_ & ? & _). congruence.
  - intros u [= <-]. done.
Qed.

Lemma unlock_connect_release g run c x : net_ok run x -> snd_task (x_lock x) = Some c ->
  let x1 := on_lock (fun l => l <| snd_task := None |> <| snd_is_cookie := false |>) x in net_ok false (release g None x1) /\ quiet x (release g None x1).
Proof.
  intros N E x1. pose proof N as ([S O W] & C & Sz). unfold release. change (snd_task (x_lock x1)) with (@None Z). rewrite bool_decide_eq_true_2 by done.
  assert (scheds_ok x1) as S1 by (eapply scheds_same; [exact S|apply acts_refl|done|done|done]).
  assert (owned true x1) as O1.
  { destruct O as [H1 H2 H3 H4 H5 H6 H7 H8 H9 H10]. specialize (H1 c E).
    assert (task_cleanup (x_lock x) = false) as Hcl by (destruct (task_cleanup (x_lock x)); [|done]; destruct (H2 eq_refl); congruence).
    split; cbn; try done. intros _. by right; right. }
  destruct (ow_run _ _ O1 eq_refl) as (_ & _ & Hcl). destruct (give_up_ok g true x1 S1 O1 Hcl) as [L Q]; [done|].
  assert (quiet x (write_next g (xprt_clear_locked x1))) as Q' by (eapply quiet_trans; [|exact Q]; by apply quiet_lock).
  split; [by eapply quiet_net|done].
Qed.
End Window.
