(* ===== verification/TransportQueues.v ===== *)
(** * Slots and queues of requests

    The invariant of the slot table, of the transmit queue and of the receive queue of a
    transport, and how the operations on them keep it: a request belongs to one task or is free;
    the queues hold exactly the requests of the tasks that are marked as queued; what arrives is
    matched by number. *)

From S2P Require Import Prelude Xdr WaitQueue WaitQueueInv WaitQueueFrame RbTree RpcTimer Transport TransportLock TransportCong.
From stdpp Require Import list gmap sorting.
#[local] Open Scope Z_scope.

(** Task [t] has request [r]. *)
Definition holds (x : rpc_xprt) (t r : Z) : Prop := tk_rqstp (get_tk x t) = Some r.

Record slots_ok (x : rpc_xprt) : Prop := {
  sl_free : NoDup (free (x_slots x));
  sl_idle : forall r, r ∈ free (x_slots x) -> exists q, x_reqs x !! r = Some q /\ rq_task q = None /\ rq_pin q = 0 /\ rq_cong q = false;
  sl_holds : forall t r, holds x t r -> is_Some (x_reqs x !! r) /\ r ∉ free (x_slots x);
  sl_unique : forall t1 t2 r, holds x t1 r -> holds x t2 r -> t1 = t2;
  sl_used : forall r, is_Some (x_reqs x !! r) -> r ∈ free (x_slots x) \/ exists t, holds x t r;
  sl_task : forall r q t, x_reqs x !! r = Some q -> rq_task q = Some t -> holds x t r;
  sl_num : num_reqs (x_slots x) = Z.of_nat (size (x_reqs x));
  sl_bounds : min_reqs (x_slots x) <= num_reqs (x_slots x) <= max_reqs (x_slots x) /\ 0 <= min_reqs (x_slots x);
  sl_congested : congested (x_slots x) = true -> free (x_slots x) = [] /\ num_reqs (x_slots x) = max_reqs (x_slots x);
  sl_backlog : forall t, t ∈ queued (backlog x) -> congested (x_slots x) = true /\ tk_rqstp (get_tk x t) = None;
}.

Record xmit_ok (x : rpc_xprt) : Prop := {
  xm_groups : Forall (fun g => g <> []) (xmit_queue (x_queues x));
  xm_nodup : NoDup (concat (xmit_queue (x_queues x)));
  xm_in : forall r, r ∈ concat (xmit_queue (x_queues x)) <-> exists t, holds x t r /\ need_xmit (get_tk x t) = true;
  xm_task : forall t, need_xmit (get_tk x t) = true -> exists r, holds x t r /\ rq_task (get_req x r) = Some t;
  xm_len : xmit_queuelen (x_queues x) = zlen (concat (xmit_queue (x_queues x)));
}.

Definition xid_lt (x : rpc_xprt) (a b : Z) : Prop := rq_xid (get_req x a) < rq_xid (get_req x b).

Record recv_ok (x : rpc_xprt) : Prop := {
  rc_sorted : StronglySorted (xid_lt x) (in_order (recv_queue (x_queues x)));
  rc_in : forall r, r ∈ in_order (recv_queue (x_queues x)) <-> exists t, holds x t r /\ need_recv (get_tk x t) = true;
  rc_task : forall t, need_recv (get_tk x t) = true -> exists r, holds x t r /\ rq_task (get_req x r) = Some t;
}.

(** Requests in use have different numbers. *)
Definition xids_ok (x : rpc_xprt) : Prop := forall r1 r2 q1 q2, x_reqs x !! r1 = Some q1 -> x_reqs x !! r2 = Some q2 ->
  rq_task q1 <> None -> rq_task q2 <> None -> rq_xid q1 = rq_xid q2 -> r1 = r2.

Definition pins_ok (x : rpc_xprt) : Prop := forall r q, x_reqs x !! r = Some q -> 0 <= rq_pin q.

Record reqs_ok (x : rpc_xprt) : Prop := {
  ro_slots : slots_ok x;
  ro_xmit : xmit_ok x;
  ro_recv : recv_ok x;
  ro_xids : xids_ok x;
  ro_pins : pins_ok x;
}.

Record xprt_ok (run : bool) (x : rpc_xprt) : Prop := {
  xo_net : net_ok run x;
  xo_reqs : reqs_ok x;
}.

Lemma StronglySorted_ext {A} (R R' : A -> A -> Prop) l : (forall a b, R a b -> R' a b) -> StronglySorted R l -> StronglySorted R' l.
Proof. intros H. induction 1; constructor; [done|]. eapply Forall_impl; [done|]. intros; by apply H. Qed.

(** The requests are as they were, and so is what the tasks say about them. *)
Lemma reqs_ext x x' : reqs_ok x -> x_slots x' = x_slots x -> x_queues x' = x_queues x -> x_reqs x' = x_reqs x ->
  (forall v, tk_rqstp (get_tk x' v) = tk_rqstp (get_tk x v) /\ need_xmit (get_tk x' v) = need_xmit (get_tk x v) /\ need_recv (get_tk x' v) = need_recv (get_tk x v)) ->
  (forall v, v ∈ queued (backlog x') -> congested (x_slots x) = true /\ tk_rqstp (get_tk x v) = None) -> reqs_ok x'.
Proof.
  intros [Sl Xm Rc Xi Pi] Es Eq Er G B. assert (forall v s, holds x' v s <-> holds x v s) as Hh by (intros v s; unfold holds; by rewrite (proj1 (G v))).
  split; [destruct Sl as [A1 A2 A3 A4 A5 A6 A7 A8 A9 A10]|destruct Xm as [A1 A2 A3 A4 A5]|destruct Rc as [A1 A2 A3]|unfold xids_ok; by rewrite Er|unfold pins_ok; by rewrite Er].
  - split; rewrite ?Es, ?Er; try done.
    + intros v s Hv%Hh. by eapply A3.
    + intros v w s Hv%Hh Hw%Hh. by eapply A4.
    + intros s Hs. destruct (A5 s Hs) as [|[v Hv]]; [by left|right; exists v; by apply Hh].
    + intros s q v K T. apply Hh. by eapply A6.
    + intros v Hv. rewrite (proj1 (G v)). by apply B.
  - split; rewrite ?Eq; try done.
    + intros s. rewrite A3. split; intros (v & Hv & Nv); exists v; (split; [by apply Hh|]); destruct (G v) as (_ & G1 & _); congruence.
    + intros v. destruct (G v) as (_ & -> & _). intros Nv. destruct (A4 v Nv) as (s & Hs & Ts). exists s. split; [by apply Hh|]. unfold get_req. by rewrite Er.
  - split; rewrite ?Eq; try done.
    + eapply StronglySorted_ext; [|exact A1]. intros a b. unfold xid_lt, get_req. by rewrite Er.
    + intros s. rewrite A2. split; intros (v & Hv & Nv); exists v; (split; [by apply Hh|]); destruct (G v) as (_ & _ & G1); congruence.
    + intros v. destruct (G v) as (_ & _ & ->). intros Nv. destruct (A3 v Nv) as (s & Hs & Ts). exists s. split; [by apply Hh|]. unfold get_req. by rewrite Er.
Qed.

(** ** Changes that the queues do not see *)

Definition alike (q q' : rpc_rqst) : Prop :=
  rq_task q' = rq_task q /\ rq_xid q' = rq_xid q /\ rq_pin q' = rq_pin q /\ (rq_cong q' = true -> rq_cong q = true).

Definition soft (x x' : rpc_xprt) : Prop := calm x x' /\ forall r, option_Forall2 alike (x_reqs x !! r) (x_reqs x' !! r).

Lemma alike_refl q : alike q q.
Proof. done. Qed.

Lemma soft_reqs x x' : calm x x' -> x_reqs x' = x_reqs x -> soft x x'.
Proof. intros C E. split; [done|]. intros r. rewrite E. destruct (x_reqs x !! r); constructor. apply alike_refl. Qed.

Lemma quiet_soft x x' : quiet x x' -> soft x x'.
Proof. intros Q. apply soft_reqs; [by apply quiet_calm|apply Q]. Qed.

Lemma soft_alter r f x x' : (forall q, alike q (f q)) -> calm x x' -> x_reqs x' = alter f r (x_reqs x) -> soft x x'.
Proof.
  intros F C E. split; [done|]. intros s. rewrite E. destruct (decide (s = r)) as [->|]; [rewrite lookup_alter_eq|rewrite lookup_alter_ne by done];
    destruct (x_reqs x !! _); constructor; [apply F|apply alike_refl].
Qed.

Lemma soft_on_req r f x : (forall q, alike q (f q)) -> soft x (on_req r f x).
Proof. intros F. by apply (soft_alter r f). Qed.

Lemma soft_refl x : soft x x.
Proof. by apply soft_reqs. Qed.

Lemma soft_trans x y z : soft x y -> soft y z -> soft x z.
Proof.
  intros [C1 A1] [C2 A2]. split; [by eapply calm_trans|]. intros r. specialize (A1 r). specialize (A2 r).
  destruct A1 as [q1 q2 (E1 & E2 & E3 & E4)|]; inversion A2 as [? q3 (F1 & F2 & F3 & F4)|]; subst; constructor. split_and!; try congruence. tauto.
Qed.

Lemma holds_info x x' t r : info x' = info x -> holds x' t r <-> holds x t r.
Proof. intros E. unfold holds. by rewrite (get_tk_info x x' t E). Qed.

(** A request may get a credit, if it is in use. *)
Definition alike_on (idle : Prop) (q q' : rpc_rqst) : Prop :=
  rq_task q' = rq_task q /\ rq_xid q' = rq_xid q /\ rq_pin q' = rq_pin q /\ (idle -> rq_cong q' = true -> rq_cong q = true).

Definition near (x x' : rpc_xprt) : Prop := calm x x' /\ forall r, option_Forall2 (alike_on (r ∈ free (x_slots x))) (x_reqs x !! r) (x_reqs x' !! r).

Lemma soft_near x x' : soft x x' -> near x x'.
Proof. intros [C A]. split; [done|]. intros r. destruct (A r) as [q q' (? & ? & ? & ?)|]; constructor. by split_and!. Qed.

Lemma near_get x x' r : near x x' -> rq_task (get_req x' r) = rq_task (get_req x r) /\ rq_xid (get_req x' r) = rq_xid (get_req x r) /\ rq_pin (get_req x' r) = rq_pin (get_req x r).
Proof. intros [_ A]. unfold get_req. destruct (A r) as [q q' (? & ? & ? & _)|]; done. Qed.

Lemma near_lookup x x' r q' : near x x' -> x_reqs x' !! r = Some q' -> exists q, x_reqs x !! r = Some q /\ alike_on (r ∈ free (x_slots x)) q q'.
Proof. intros [_ A] K. specialize (A r). rewrite K in A. inversion A; subst. by eexists. Qed.

Lemma near_some x x' r : near x x' -> is_Some (x_reqs x' !! r) <-> is_Some (x_reqs x !! r).
Proof. intros [_ A]. destruct (A r); split; intros [? ?]; try done; by eexists. Qed.

Lemma near_size x x' : near x x' -> size (x_reqs x') = size (x_reqs x).
Proof.
  intros S. rewrite <- !size_dom. f_equal. apply set_eq. intros r. rewrite !elem_of_dom. by apply near_some.
Qed.

Lemma near_reqs_ok x x' : near x x' -> reqs_ok x -> reqs_ok x'.
Proof.
  intros S [Sl Xm Rc Xi Pi]. pose proof S as [(Es & Eq & Ei & Eb) A].
  assert (forall t r, holds x' t r <-> holds x t r) as H by (intros; by apply holds_info). assert (forall t, get_tk x' t = get_tk x t) as G by (intros; by apply get_tk_info).
  split.
  - destruct Sl. split; rewrite ?Es, ?Eb; try done.
    + intros r Hr. destruct (sl_idle0 r Hr) as (q & K & T & P & Co). specialize (A r). rewrite K in A. inversion A as [q0 q' (E1 & E2 & E3 & E4) E0 K'|]; subst.
      exists q'. split_and!; try congruence. destruct (rq_cong q'); [|done]. by rewrite E4 in Co by done.
    + intros t r Ht. rewrite (near_some x x' r S). by apply sl_holds0 with t, H.
    + intros t1 t2 r H1%H H2%H. by eapply sl_unique0.
    + intros r. rewrite (near_some x x' r S). intros Hr. destruct (sl_used0 r Hr) as [|[t Ht]]; [by left|right; exists t; by apply H].
    + intros r q' t K' T'. destruct (near_lookup x x' r q' S K') as (q & K & (E1 & _)). apply H. apply (sl_task0 r q); [done|congruence].
    + by rewrite (near_size x x' S).
    + intros t Ht. rewrite G. by apply sl_backlog0.
  - destruct Xm. split; rewrite ?Eq; try done.
    + intros r. rewrite xm_in0. split; intros (t & Ht & N); exists t; (split; [by apply H|]); [by rewrite G|by rewrite <- G].
    + intros t. rewrite G. intros N. destruct (xm_task0 t N) as (r & Hr & T). exists r. split; [by apply H|]. by rewrite (proj1 (near_get x x' r S)).
  - destruct Rc. split; rewrite ?Eq; try done.
    + eapply StronglySorted_ext; [|done]. intros a b. unfold xid_lt. destruct (near_get x x' a S) as (_ & -> & _). by destruct (near_get x x' b S) as (_ & -> & _).
    + intros r. rewrite rc_in0. split; intros (t & Ht & N); exists t; (split; [by apply H|]); [by rewrite G|by rewrite <- G].
    + intros t. rewrite G. intros N. destruct (rc_task0 t N) as (r & Hr & T). exists r. split; [by apply H|]. by rewrite (proj1 (near_get x x' r S)).
  - intros r1 r2 q1 q2 K1 K2 T1 T2 E. destruct (near_lookup x x' r1 q1 S K1) as (p1 & L1 & (A1 & B1 & _)), (near_lookup x x' r2 q2 S K2) as (p2 & L2 & (A2 & B2 & _)).
    apply (Xi r1 r2 p1 p2); congruence.
  - intros r q K. destruct (near_lookup x x' r q S K) as (p & L & (_ & _ & -> & _)). by apply (Pi r).
Qed.

Lemma soft_get x x' r : soft x x' -> rq_task (get_req x' r) = rq_task (get_req x r) /\ rq_xid (get_req x' r) = rq_xid (get_req x r) /\ rq_pin (get_req x' r) = rq_pin (get_req x r).
Proof. intros S. by apply near_get, soft_near. Qed.

Lemma soft_lookup x x' r q' : soft x x' -> x_reqs x' !! r = Some q' -> exists q, x_reqs x !! r = Some q /\ alike q q'.
Proof. intros [_ A] K. specialize (A r). rewrite K in A. inversion A; subst. by eexists. Qed.

Lemma soft_reqs_ok x x' : soft x x' -> reqs_ok x -> reqs_ok x'.
Proof. intros S. by apply near_reqs_ok, soft_near. Qed.

Lemma soft_ok run run' x x' : soft x x' -> net_ok run' x' -> xprt_ok run x -> xprt_ok run' x'.
Proof. intros S N [_ R]. split; [done|by eapply soft_reqs_ok]. Qed.

Lemma quiet_ok run run' x x' : net_ok run' x' /\ quiet x x' -> xprt_ok run x -> xprt_ok run' x'.
Proof. intros [N Q]. by apply soft_ok, N; apply quiet_soft. Qed.

(** ** Tasks *)

(** Only the message of a task changes. *)
Lemma on_xtask_get t f x u : get_tk (on_xtask t f x) u = if decide (u = t /\ is_Some (x_tasks x !! t)) then f (get_tk x u) else get_tk x u.
Proof.
  unfold get_tk, on_xtask, on_tk. cbn. destruct (decide _) as [[-> [k K]]|N].
  - by rewrite lookup_alter_eq, K.
  - destruct (decide (u = t)) as [->|]; [|by rewrite lookup_alter_ne]. rewrite lookup_alter_eq. destruct (x_tasks x !! t) eqn:K; [|done]. destruct N. split; [done|by eexists].
Qed.

Lemma info_some x t : is_Some (info x !! t) <-> is_Some (x_tasks x !! t).
Proof. unfold info. rewrite lookup_fmap, fmap_is_Some. done. Qed.

Lemma on_xtask_scheds t f x : scheds_ok x -> scheds_ok (on_xtask t f x).
Proof.
  intros [S P B A Pr]. assert (forall q, sched_ok (with_queue q x) -> sched_ok (with_queue q (on_xtask t f x))) as H.
  { intros q Hq. apply (on_task_ok (with_queue q x) t (fun k => k <| tk_msg := f (tk_msg k) |>)); [by intros|done]. }
  split; [by apply H..|done|]. intros u k K. unfold on_xtask, on_tk in K. cbn in K. destruct (decide (u = t)) as [->|].
  - rewrite lookup_alter_eq in K. destruct (x_tasks x !! t) as [k0|] eqn:K0; [|done]. injection K as <-. by apply (Pr t k0).
  - rewrite lookup_alter_ne in K by done. by apply (Pr u).
Qed.

Lemma owned_tasks run x x' : x_lock x' = x_lock x -> x_slots x' = x_slots x -> sending x' = sending x ->
  (forall t, is_Some (info x' !! t) <-> is_Some (info x !! t)) -> owned run x -> owned run x'.
Proof.
  intros El Es Eq H [H1 H2 H3 H4 H5 H6 H7 H8 H9 H10]. split; rewrite ?El, ?Eq; try done; [|unfold RPC_MAXCWND; by rewrite Es].
  intros t Ht. specialize (H7 t Ht). destruct (snd_is_cookie (x_lock x)); [|by apply H]. apply eq_None_not_Some. rewrite H. by rewrite H7.
Qed.

Lemma on_xtask_info t f x u : is_Some (info (on_xtask t f x) !! u) <-> is_Some (info x !! u).
Proof.
  rewrite !info_some. unfold on_xtask, on_tk. cbn. destruct (decide (u = t)) as [->|]; [rewrite lookup_alter_eq|by rewrite lookup_alter_ne]. by rewrite fmap_is_Some.
Qed.

Lemma on_xtask_net run t f x : net_ok run x -> net_ok run (on_xtask t f x).
Proof.
  intros ([S O W] & C & Sz). split; [|done]. split; [by apply on_xtask_scheds| |done]. apply (owned_tasks run x); try done. intros u. apply on_xtask_info.
Qed.

(** The part of the state the slot table is about stays, and no task gets or loses a request. *)
Record flagged (t : Z) (f : xtask -> xtask) (x x' : rpc_xprt) : Prop := {
  fl_slots : x_slots x' = x_slots x;
  fl_reqs : x_reqs x' = x_reqs x;
  fl_backlog : backlog x' = backlog x;
  fl_tk : forall u, get_tk x' u = if decide (u = t) then f (get_tk x u) else get_tk x u;
  fl_keeps : forall k, tk_rqstp (f k) = tk_rqstp k;
}.

Lemma flagged_holds t f x x' u r : flagged t f x x' -> holds x' u r <-> holds x u r.
Proof. intros F. unfold holds. rewrite (fl_tk _ _ _ _ F). destruct (decide (u = t)); [by rewrite (fl_keeps _ _ _ _ F)|done]. Qed.

Lemma flagged_ok t f x x' : flagged t f x x' -> slots_ok x -> xids_ok x -> pins_ok x -> slots_ok x' /\ xids_ok x' /\ pins_ok x'.
Proof.
  intros F S Xi Pi. split_and!; [|unfold xids_ok; by rewrite (fl_reqs _ _ _ _ F)|unfold pins_ok; by rewrite (fl_reqs _ _ _ _ F)].
  assert (forall t r, holds x' t r <-> holds x t r) as H by (intros; by eapply flagged_holds).
  destruct S. split; rewrite ?(fl_slots _ _ _ _ F), ?(fl_reqs _ _ _ _ F), ?(fl_backlog _ _ _ _ F); try done.
  - intros u r Hu. by apply sl_holds0 with u, H.
  - intros u1 u2 r H1%H H2%H. by eapply sl_unique0.
  - intros r Hr. destruct (sl_used0 r Hr) as [|[u Hu]]; [by left|right; exists u; by apply H].
  - intros r q u K T. apply H. by eapply sl_task0.
  - intros u Hu. destruct (sl_backlog0 u Hu) as [C N]. split; [done|]. rewrite (fl_tk _ _ _ _ F). destruct (decide _); [by rewrite (fl_keeps _ _ _ _ F)|done].
Qed.

Lemma flagged_get_req t f x x' r : flagged t f x x' -> get_req x' r = get_req x r.
Proof. intros F. unfold get_req. by rewrite (fl_reqs _ _ _ _ F). Qed.

(** A queue whose flag is not touched. *)
Lemma flagged_xmit t f x x' : flagged t f x x' -> (forall k, need_xmit (f k) = need_xmit k) ->
  xmit_queue (x_queues x') = xmit_queue (x_queues x) -> xmit_queuelen (x_queues x') = xmit_queuelen (x_queues x) -> xmit_ok x -> xmit_ok x'.
Proof.
  intros F Fn Eq El [G N I T L]. assert (forall u, need_xmit (get_tk x' u) = need_xmit (get_tk x u)) as Hn by (intros u; rewrite (fl_tk _ _ _ _ F); by destruct (decide _)).
  assert (forall u r, holds x' u r <-> holds x u r) as H by (intros; by eapply flagged_holds).
  split; rewrite ?Eq, ?El; try done.
  - intros r. rewrite I. split; intros (u & Hu & N'); exists u; (split; [by apply H|]); [by rewrite Hn|by rewrite <- Hn].
  - intros u. rewrite Hn. intros Nu. destruct (T u Nu) as (r & Hr & Tr). exists r. split; [by apply H|]. by rewrite (flagged_get_req t f x x' r F).
Qed.

Lemma flagged_recv t f x x' : flagged t f x x' -> (forall k, need_recv (f k) = need_recv k) -> recv_queue (x_queues x') = recv_queue (x_queues x) -> recv_ok x -> recv_ok x'.
Proof.
  intros F Fn Eq [S I T]. assert (forall u, need_recv (get_tk x' u) = need_recv (get_tk x u)) as Hn by (intros u; rewrite (fl_tk _ _ _ _ F); by destruct (decide _)).
  assert (forall u r, holds x' u r <-> holds x u r) as H by (intros; by eapply flagged_holds).
  split; rewrite ?Eq.
  - eapply StronglySorted_ext; [|done]. intros a b. unfold xid_lt. by rewrite (flagged_get_req t f x x' a F), (flagged_get_req t f x x' b F).
  - intros r. rewrite I. split; intros (u & Hu & N'); exists u; (split; [by apply H|]); [by rewrite Hn|by rewrite <- Hn].
  - intros u. rewrite Hn. intros Nu. destruct (T u Nu) as (r & Hr & Tr). exists r. split; [by apply H|]. by rewrite (flagged_get_req t f x x' r F).
Qed.

(** A task that has a request exists. *)
Lemma holds_exists x t r : holds x t r -> is_Some (x_tasks x !! t).
Proof. unfold holds, get_tk. destruct (x_tasks x !! t); [by eexists|done]. Qed.

Lemma flagged_xtask t f x r : holds x t r -> (forall k, tk_rqstp (f k) = tk_rqstp k) -> flagged t f x (on_xtask t f x).
Proof.
  intros H F. split; try done. intros u. rewrite on_xtask_get. destruct (decide (u = t)) as [->|]; destruct (decide _) as [[? ?]|N]; try done; try tauto.
  destruct N. split; [done|]. by eapply holds_exists.
Qed.

(** ** The receive queue *)

Lemma sorted_split {A} (key : A -> Z) k l : StronglySorted (fun a b => key a < key b) l -> exists l1 o l2,
  l = l1 ++ option_list o ++ l2 /\ Forall (fun a => key a < k) l1 /\ Forall (fun a => k < key a) l2 /\ (forall y, o = Some y -> key y = k).
Proof.
  induction 1 as [|a l S IH F]; [by exists [], None, []|]. destruct (Z.lt_trichotomy (key a) k) as [L|[E|L]].
  - destruct IH as (l1 & o & l2 & -> & F1 & F2 & Fo). exists (a :: l1), o, l2. split; [done|]. split; [by constructor|done].
  - exists [], (Some a), l. split; [done|]. split; [done|]. split; [|by intros y [= <-]]. eapply Forall_impl; [exact F|]. intros b Hb. simpl in *. lia.
  - exists [], None, (a :: l). split; [done|]. split; [done|]. split; [|done]. constructor; [done|]. eapply Forall_impl; [exact F|]. intros b Hb. simpl in *. lia.
Qed.

Lemma sorted_insert {A} (key : A -> Z) a l1 l2 : StronglySorted (fun a b => key a < key b) (l1 ++ l2) ->
  Forall (fun b => key b < key a) l1 -> Forall (fun b => key a < key b) l2 -> StronglySorted (fun a b => key a < key b) (l1 ++ a :: l2).
Proof.
  induction l1 as [|b l1 IH]; simpl; intros S F1 F2; [by constructor|]. inversion S; subst. inversion F1; subst. constructor; [by apply IH|].
  rewrite Forall_app in *. destruct H2 as [? ?]. split; [done|]. by constructor.
Qed.

Lemma sorted_filter {A} (R : A -> A -> Prop) (P : A -> Prop) `{!forall a, Decision (P a)} l : StronglySorted R l -> StronglySorted R (filter P l).
Proof.
  induction 1 as [|a l S IH F]; [constructor|]. rewrite filter_cons. destruct (decide (P a)); [|done]. constructor; [done|].
  rewrite Forall_forall in *. intros b [_ Hb]%list_elem_of_filter. by apply F.
Qed.

Definition xid_of (x : rpc_xprt) (r : Z) : Z := rq_xid (get_req x r).

(** The walk by number finds the request with it, or the place for it. *)
Lemma xid_walk x xid : recv_ok x -> exists l1 o l2, in_order (recv_queue (x_queues x)) = l1 ++ option_list o ++ l2 /\
  Forall (fun r => xid_of x r < xid) l1 /\ Forall (fun r => xid < xid_of x r) l2 /\ (forall r, o = Some r -> xid_of x r = xid) /\
  fst (rb_walk (fun r => xprt_xid_cmp xid (xid_of x r)) (recv_queue (x_queues x)) 0) = (length l1, o).
Proof.
  intros R. destruct (sorted_split (xid_of x) xid _ (rc_sorted x R)) as (l1 & o & l2 & E & F1 & F2 & Fo). exists l1, o, l2. split_and!; try done.
  apply (rb_walk_split _ _ 0 l1 o l2); [done| | |].
  - eapply Forall_impl; [exact F1|]. intros r Hr. simpl in *. unfold xprt_xid_cmp. destruct (Z.eqb_spec xid (xid_of x r)); [lia|]. destruct (Z.ltb_spec xid (xid_of x r)); [lia|done].
  - eapply Forall_impl; [exact F2|]. intros r Hr. simpl in *. unfold xprt_xid_cmp. destruct (Z.eqb_spec xid (xid_of x r)); [lia|]. destruct (Z.ltb_spec xid (xid_of x r)); [done|lia].
  - intros r Hr. unfold xprt_xid_cmp. by rewrite (Fo r Hr), Z.eqb_refl.
Qed.

(** A reply is matched with the request that has its number. *)
Lemma rb_find_spec x xid r : recv_ok x -> xprt_request_rb_find xid x = Some r <-> r ∈ in_order (recv_queue (x_queues x)) /\ xid_of x r = xid.
Proof.
  intros R. destruct (xid_walk x xid R) as (l1 & o & l2 & E & F1 & F2 & Fo & W). unfold xprt_request_rb_find. unfold xid_of in W. rewrite W. simpl. rewrite E. split.
  - intros ->. split; [|by apply Fo]. apply elem_of_app. right. left.
  - intros [Hr Ex]. rewrite !elem_of_app in Hr. rewrite !Forall_forall in F1, F2. destruct Hr as [Hr|[Hr|Hr]]; [specialize (F1 r Hr); lia| |specialize (F2 r Hr); lia].
    destruct o; [|by apply elem_of_nil in Hr]. apply list_elem_of_singleton in Hr. by subst.
Qed.

Section Cores.
Context `{RbShape Z}.

Definition set_recv (b : bool) (k : xtask) : xtask := k <| need_recv := b |>.
Definition set_xmit (b : bool) (k : xtask) : xtask := k <| need_xmit := b |>.

(** A request of a task that is set up. *)
Definition ready (x : rpc_xprt) (t r : Z) : Prop := holds x t r /\ rq_task (get_req x r) = Some t.

Lemma ready_lookup x t r : slots_ok x -> ready x t r -> exists q, x_reqs x !! r = Some q /\ rq_task q = Some t.
Proof.
  intros S [Hr T]. destruct (sl_holds x S t r Hr) as [[q K] _]. exists q. split; [done|]. unfold get_req in T. by rewrite K in T.
Qed.

(** A request that is not on the queue goes to its place: its number is its own. *)
Lemma rb_insert_spec x t r : reqs_ok x -> ready x t r -> need_recv (get_tk x t) = false -> exists l1 l2,
  in_order (recv_queue (x_queues x)) = l1 ++ l2 /\
  xprt_request_rb_insert r x = on_queues (fun q => q <| recv_queue := rb_shape (recv_queue q) (l1 ++ r :: l2) |>) x /\
  StronglySorted (xid_lt x) (l1 ++ r :: l2).
Proof.
  intros [Sl Xm Rc Xi Pi] Rd Nr. destruct (xid_walk x (xid_of x r) Rc) as (l1 & o & l2 & E & F1 & F2 & Fo & W). destruct (ready_lookup x t r Sl Rd) as (q & K & T).
  assert (o = None) as ->.
  { destruct o as [y|]; [exfalso|done]. assert (y ∈ in_order (recv_queue (x_queues x))) as Hy by (rewrite E; apply elem_of_app; right; left).
    apply (rc_in x Rc) in Hy as (u & Hu & Nu). destruct (rc_task x Rc u Nu) as (y' & Hy' & Ty). assert (y' = y) as -> by (unfold holds in *; congruence).
    destruct (ready_lookup x u y Sl (conj Hu Ty)) as (qy & Ky & Tqy). assert (r = y) as ->.
    { apply (Xi r y q qy K Ky); [congruence|congruence|]. specialize (Fo y eq_refl). unfold xid_of, get_req in Fo. rewrite K, Ky in Fo. simpl in Fo. congruence. }
    assert (u = t) as -> by (by eapply (sl_unique x Sl); [|apply Rd]). congruence. }
  simpl in E. exists l1, l2. split; [done|]. split.
  - unfold xprt_request_rb_insert. unfold xid_of in W. destruct (rb_walk _ _ _) as [[p f] seen]. simpl in W. injection W as -> ->. rewrite E.
    rewrite take_app_length, drop_app_length. unfold on_queues. done.
  - apply sorted_insert; [|done|done]. pose proof (rc_sorted x Rc) as S. by rewrite E in S.
Qed.

Lemma enqueue_receive_core x t r : reqs_ok x -> ready x t r -> need_recv (get_tk x t) = false ->
  reqs_ok (on_xtask t (set_recv true) (xprt_request_rb_insert r x)).
Proof.
  intros R Rd Nr. destruct (rb_insert_spec x t r R Rd Nr) as (l1 & l2 & E & -> & Srt). destruct R as [Sl Xm Rc Xi Pi].
  set (x1 := on_queues _ x). set (x2 := on_xtask t (set_recv true) x1).
  assert (flagged t (set_recv true) x x2) as F by (destruct (flagged_xtask t (set_recv true) x1 r (proj1 Rd)) as []; [done|by split]).
  destruct (flagged_ok _ _ _ _ F Sl Xi Pi) as (Sl' & Xi' & Pi'). split; [done|by eapply flagged_xmit|split|done|done].
  - change (recv_queue (x_queues x2)) with (rb_shape (recv_queue (x_queues x)) (l1 ++ r :: l2)). rewrite rb_shape_in_order.
    eapply StronglySorted_ext; [|done]. intros a b. unfold xid_lt. by rewrite (flagged_get_req _ _ _ _ a F), (flagged_get_req _ _ _ _ b F).
  - intros s. change (recv_queue (x_queues x2)) with (rb_shape (recv_queue (x_queues x)) (l1 ++ r :: l2)). rewrite rb_shape_in_order.
    assert (s ∈ l1 ++ r :: l2 <-> s = r \/ s ∈ in_order (recv_queue (x_queues x))) as -> by (rewrite E, !elem_of_app, elem_of_cons; tauto). rewrite (rc_in x Rc). split.
    + intros [->|(u & Hu & Nu)]; [exists t|exists u]; (split; [by apply (flagged_holds _ _ _ _ _ _ F); (apply Rd || done)|]); rewrite (fl_tk _ _ _ _ F); destruct (decide _); done.
    + intros (u & Hu & Nu). apply (flagged_holds _ _ _ _ _ _ F) in Hu. rewrite (fl_tk _ _ _ _ F) in Nu. destruct (decide (u = t)) as [->|]; [left|right; by exists u].
      destruct Rd as [Hr _]. unfold holds in *. congruence.
  - intros u Nu. rewrite (fl_tk _ _ _ _ F) in Nu. assert (exists s, holds x u s /\ rq_task (get_req x s) = Some u) as (s & Hs & Ts).
    { destruct (decide (u = t)) as [->|]; [by exists r|by apply (rc_task x Rc)]. }
    exists s. rewrite (flagged_get_req _ _ _ _ s F). split; [|done]. by apply (flagged_holds _ _ _ _ _ _ F).
Qed.

Lemma dequeue_receive_core x t : reqs_ok x -> reqs_ok (xprt_request_dequeue_receive_locked t x).
Proof.
  intros [Sl Xm Rc Xi Pi]. unfold xprt_request_dequeue_receive_locked. destruct (need_recv (get_tk x t)) eqn:Nr; [|by split].
  destruct (rc_task x Rc t Nr) as (r & Hr & Tr). fold (set_recv false). set (x1 := on_xtask t _ x).
  assert (rqstp x t = r) as -> by (unfold rqstp; unfold holds in Hr; by rewrite Hr).
  set (x2 := xprt_request_rb_remove r x1).
  assert (flagged t (set_recv false) x x2) as F by (destruct (flagged_xtask t (set_recv false) x r Hr) as []; [done|by split]).
  destruct (flagged_ok _ _ _ _ F Sl Xi Pi) as (Sl' & Xi' & Pi'). split; [done|by eapply flagged_xmit|split|done|done].
  - change (recv_queue (x_queues x2)) with (rb_shape (recv_queue (x_queues x)) (filter (fun s => s <> r) (in_order (recv_queue (x_queues x))))). rewrite rb_shape_in_order. apply sorted_filter. eapply StronglySorted_ext; [|apply Rc]. intros a b. unfold xid_lt.
    by rewrite (flagged_get_req _ _ _ _ a F), (flagged_get_req _ _ _ _ b F).
  - intros s. change (recv_queue (x_queues x2)) with (rb_shape (recv_queue (x_queues x)) (filter (fun s => s <> r) (in_order (recv_queue (x_queues x))))).
    rewrite rb_shape_in_order, list_elem_of_filter, (rc_in x Rc). split.
    + intros (Ne & u & Hu & Nu). exists u. split; [by apply (flagged_holds _ _ _ _ _ _ F)|]. rewrite (fl_tk _ _ _ _ F). destruct (decide (u = t)) as [->|]; [|done].
      unfold holds in *. congruence.
    + intros (u & Hu & Nu). apply (flagged_holds _ _ _ _ _ _ F) in Hu. rewrite (fl_tk _ _ _ _ F) in Nu. destruct (decide (u = t)) as [->|Ne]; [done|].
      split; [|by exists u]. intros ->. by apply Ne, (sl_unique x Sl u t r).
  - intros u Nu. rewrite (fl_tk _ _ _ _ F) in Nu. destruct (decide (u = t)) as [->|]; [done|]. destruct (rc_task x Rc u Nu) as (s & Hs & Ts).
    exists s. rewrite (flagged_get_req _ _ _ _ s F). split; [|done]. by apply (flagged_holds _ _ _ _ _ _ F).
Qed.

(** ** The transmit queue *)

Lemma enqueue_cong_perm c r q : concat (enqueue_cong c r q) ≡ₚ r :: concat q.
Proof. induction q as [|[|p ring] q IH]; simpl; [done|done|]. destruct (c p); simpl; [|done]. rewrite IH, <- Permutation_middle. apply perm_swap. Qed.

Lemma enqueue_cong_groups c r q : Forall (fun g => g <> []) q -> Forall (fun g => g <> []) (enqueue_cong c r q).
Proof. induction 1 as [|[|p ring] q Hg F IH]; simpl; [by repeat constructor|done|]. destruct (c p); by repeat constructor. Qed.

Lemma enqueue_owner_perm o r q : concat (enqueue_owner o r q) ≡ₚ r :: concat q.
Proof.
  induction q as [|[|p ring] q IH]; simpl; [done|done|]. destruct (o p =? o r); simpl.
  - rewrite <- app_assoc. simpl. rewrite <- Permutation_middle. apply perm_swap.
  - rewrite IH, <- Permutation_middle. apply perm_swap.
Qed.

Lemma enqueue_owner_groups o r q : Forall (fun g => g <> []) q -> Forall (fun g => g <> []) (enqueue_owner o r q).
Proof. induction 1 as [|[|p ring] q Hg F IH]; simpl; [by repeat constructor|done|]. destruct (o p =? o r); by repeat constructor. Qed.

Lemma unlink_groups q r a b : Forall (fun g => g <> []) q -> list_unlink q r = (a, b) -> Forall (fun g => g <> []) (a ++ b).
Proof.
  revert a b. induction q as [|[|p ring] q IH]; intros a b F E; simpl in E; [by injection E as <- <-|inversion F; done|]. inversion F; subst. destruct (p =? r).
  - injection E as <- <-. apply Forall_app. split; [done|]. by destruct ring; repeat constructor.
  - case_bool_decide; [injection E as <- <-; rewrite app_nil_r; by constructor|]. destruct (list_unlink q r) as [a' b'] eqn:E'. injection E as <- <-.
    constructor; [done|]. by apply IH.
Qed.

(** The queue afterwards, whatever the place. *)
Lemma enqueue_xmit_core x x' t r l : reqs_ok x -> ready x t r -> need_xmit (get_tk x t) = false -> flagged t (set_xmit true) x x' ->
  xmit_queue (x_queues x') = l -> concat l ≡ₚ r :: concat (xmit_queue (x_queues x)) -> Forall (fun g => g <> []) l ->
  xmit_queuelen (x_queues x') = xmit_queuelen (x_queues x) + 1 -> recv_queue (x_queues x') = recv_queue (x_queues x) -> reqs_ok x'.
Proof.
  intros [Sl Xm Rc Xi Pi] Rd Nx F El P G Ln Er. destruct (flagged_ok _ _ _ _ F Sl Xi Pi) as (Sl' & Xi' & Pi').
  split; [done|split|by eapply flagged_recv|done|done]; rewrite ?El; try done.
  - rewrite P. constructor; [|apply Xm]. intros Hr. apply (xm_in x Xm) in Hr as (u & Hu & Nu). assert (u = t) as -> by (by eapply (sl_unique x Sl); [|apply Rd]). congruence.
  - intros s. rewrite P, elem_of_cons, (xm_in x Xm). split.
    + intros [->|(u & Hu & Nu)]; [exists t|exists u]; (split; [by apply (flagged_holds _ _ _ _ _ _ F); (apply Rd || done)|]); rewrite (fl_tk _ _ _ _ F); destruct (decide _); done.
    + intros (u & Hu & Nu). apply (flagged_holds _ _ _ _ _ _ F) in Hu. rewrite (fl_tk _ _ _ _ F) in Nu. destruct (decide (u = t)) as [->|]; [left|right; by exists u].
      destruct Rd as [Hr _]. unfold holds in *. congruence.
  - intros u Nu. rewrite (fl_tk _ _ _ _ F) in Nu. assert (exists s, holds x u s /\ rq_task (get_req x s) = Some u) as (s & Hs & Ts).
    { destruct (decide (u = t)) as [->|]; [by exists r|by apply (xm_task x Xm)]. }
    exists s. rewrite (flagged_get_req _ _ _ _ s F). split; [|done]. by apply (flagged_holds _ _ _ _ _ _ F).
  - rewrite Ln, (xm_len x Xm). unfold zlen. rewrite P. simpl. lia.
Qed.

Lemma dequeue_xmit_core x t : reqs_ok x -> reqs_ok (xprt_request_dequeue_transmit_locked t x).
Proof.
  intros [Sl Xm Rc Xi Pi]. unfold xprt_request_dequeue_transmit_locked. destruct (need_xmit (get_tk x t)) eqn:Nx; cbn [negb]; [|by split].
  destruct (xm_task x Xm t Nx) as (r & Hr & Tr). fold (set_xmit false). set (x1 := on_xtask t _ x).
  assert (flagged t (set_xmit false) x x1) as F1 by (by apply (flagged_xtask t (set_xmit false) x r)).
  assert (rqstp x1 t = r) as ->.
  { assert (holds x1 t r) as Hr1 by (by apply (flagged_holds _ _ _ _ _ _ F1)). unfold rqstp. unfold holds in Hr1. by rewrite Hr1. }
  set (x2 := on_queues _ x1). assert (flagged t (set_xmit false) x x2) as F by (destruct F1; by split).
  assert (r ∈ concat (xmit_queue (x_queues x))) as Hin by (apply (xm_in x Xm); by exists t).
  pose proof (dequeue_perm (fun t => t) (xmit_queue (x_queues x)) r (xm_nodup x Xm) Hin) as P. set (l := __rpc_list_dequeue_task (xmit_queue (x_queues x)) r) in *.
  pose proof (xm_nodup x Xm) as N. rewrite P in N. apply NoDup_cons in N as [Nr N].
  destruct (flagged_ok _ _ _ _ F Sl Xi Pi) as (Sl' & Xi' & Pi'). split; [done|split|by eapply flagged_recv|done|done].
  - change (Forall (fun g => g <> []) l). unfold l, __rpc_list_dequeue_task. destruct (list_unlink _ r) as [a b] eqn:E. eapply unlink_groups; [apply Xm|done].
  - done.
  - intros s. change (xmit_queue (x_queues x2)) with l. split.
    + intros Hs. assert (s ∈ concat (xmit_queue (x_queues x))) as Hq by (rewrite P; by right). apply (xm_in x Xm) in Hq as (u & Hu & Nu). exists u.
      split; [by apply (flagged_holds _ _ _ _ _ _ F)|]. rewrite (fl_tk _ _ _ _ F). destruct (decide (u = t)) as [->|]; [|done].
      assert (s = r) as -> by (unfold holds in *; congruence). done.
    + intros (u & Hu & Nu). apply (flagged_holds _ _ _ _ _ _ F) in Hu. rewrite (fl_tk _ _ _ _ F) in Nu. destruct (decide (u = t)) as [->|Ne]; [done|].
      assert (s ∈ concat (xmit_queue (x_queues x))) as Hq by (apply (xm_in x Xm); by exists u). rewrite P in Hq. apply elem_of_cons in Hq as [->|Hq]; [|done].
      destruct Ne. by eapply (sl_unique x Sl).
  - intros u Nu. rewrite (fl_tk _ _ _ _ F) in Nu. destruct (decide (u = t)) as [->|]; [done|]. destruct (xm_task x Xm u Nu) as (s & Hs & Ts).
    exists s. rewrite (flagged_get_req _ _ _ _ s F). split; [|done]. by apply (flagged_holds _ _ _ _ _ _ F).
  - change (xmit_queuelen (x_queues x) - 1 = zlen (concat l)). rewrite (xm_len x Xm). unfold zlen. rewrite P. simpl. lia.
Qed.
End Cores.
