(* ===== verification/TransportOps.v ===== *)
(** * The operations keep the transport in order

    Every operation of [Transport] keeps the invariant of [TransportLock], [TransportCong] and
    [TransportQueues], for any transport whose methods keep their part of the contract
    [XprtOps]; [TransportSock] discharges the contract for sockets. *)

From S2P Require Import Prelude Xdr WaitQueue WaitQueueInv WaitQueueFrame RbTree RpcTimer Transport TransportLock TransportCong TransportQueues.
From stdpp Require Import list gmap sorting.
#[local] Open Scope Z_scope.

(** Transports that do not count requests never give a credit. *)
Definition inv (counts run : bool) (x : rpc_xprt) : Prop := xprt_ok run x /\ (counts = false -> credits (x_reqs x) = 0).

(** Requests that are set up stay with their tasks, and tasks stay. *)
Definition stays (x x' : rpc_xprt) : Prop := (forall t r, ready x t r -> ready x' t r) /\ (forall t, is_Some (info x' !! t) <-> is_Some (info x !! t)).

Lemma stays_refl x : stays x x.
Proof. by split. Qed.
Lemma stays_trans x y z : stays x y -> stays y z -> stays x z.
Proof. intros [A1 B1] [A2 B2]. split; [auto|]. intros t. by rewrite B2. Qed.

Lemma soft_stays x x' : soft x x' -> stays x x'.
Proof.
  intros S. pose proof S as [(_ & _ & Ei & _) _]. split; [|intros t; by rewrite Ei]. intros t r [Hr Tr]. split; [by apply (holds_info x x')|].
  by rewrite (proj1 (soft_get x x' r S)).
Qed.

(** What sending may do: requests stay with their tasks and on their queues. *)
Definition sends_only (x x' : rpc_xprt) : Prop := x_queues x' = x_queues x /\ info x' = info x /\
  forall s, rq_task (get_req x' s) = rq_task (get_req x s) /\ rq_pin (get_req x' s) = rq_pin (get_req x s).

(** What the methods of a transport promise.  [cookie] is what its connect worker locks it with. *)
Class XprtOps (ops : rpc_xprt_ops) (counts : bool) (cookie : Z) : Prop := {
  op_reserve : forall run now t x, lock_ok run x -> awake x t -> reserves run t x (reserve_xprt ops now t x);
  op_release : exists g, forall task x, release_xprt ops task x = release g task x;
  op_prepare : forall run r x, net_ok run x -> net_ok run (prepare_request ops r x) /\ quiet x (prepare_request ops r x);
  op_wait : forall run now t x, net_ok run x -> net_ok run (wait_for_reply_request ops now t x) /\ quiet x (wait_for_reply_request ops now t x);
  op_timer : forall run t x, net_ok run x -> net_ok run (timer ops t x) /\ soft x (timer ops t x);
  op_release_request : forall run t x, net_ok run x -> (counts = false -> credits (x_reqs x) = 0) ->
    net_ok run (release_request ops t x) /\ soft x (release_request ops t x) /\ rq_cong (get_req (release_request ops t x) (rqstp x t)) = false;
  op_send : forall r t x st x', inv counts false x -> ready x t r -> send_request ops r x = (st, x') ->
    inv counts false x' /\ sends_only x x' /\ st <= 0 /\ st <> - EBADMSG;
  op_close : forall run x, inv counts run x -> inv counts run (close ops x) /\ stays x (close ops x);
  op_connect : forall t x, inv counts false x -> info x !! cookie = None -> inv counts false (connect ops t x) /\ stays x (connect ops t x);
}.

Lemma sends_stays x x' : sends_only x x' -> stays x x'.
Proof.
  intros (_ & Ei & Hr). split; [|intros t; by rewrite Ei]. intros t r [Ht Tr]. split; [by apply (holds_info x x')|]. by rewrite (proj1 (Hr r)).
Qed.

Lemma credits_soft x x' : soft x x' -> credits (x_reqs x') <= credits (x_reqs x).
Proof.
  intros S. unfold credits. apply inj_le. rewrite <- !size_dom. apply subseteq_size. intros r.
  rewrite !elem_of_dom. intros [q' K']. apply map_lookup_filter_Some in K' as [K' C']. destruct (soft_lookup x x' r q' S K') as (q & K & (_ & _ & _ & Hc)).
  exists q. apply map_lookup_filter_Some. split; [done|]. by apply Hc.
Qed.

Section Inv.
Context (counts : bool).
Implicit Type run : bool.
Notation inv := (inv counts).

Lemma inv_soft run run' x x' : net_ok run' x' -> soft x x' -> inv run x -> inv run' x'.
Proof.
  intros N S [X C]. split; [by eapply soft_ok|]. intros Hc. pose proof (credits_soft x x' S). pose proof (credits_nonneg (x_reqs x')). specialize (C Hc). lia.
Qed.

Lemma inv_quiet run run' x x' : net_ok run' x' /\ quiet x x' -> inv run x -> inv run' x' /\ stays x x'.
Proof. intros [N Q] I. split; [eapply inv_soft; [done|by apply quiet_soft|done]|]. by apply soft_stays, quiet_soft. Qed.

Lemma inv_net run x : inv run x -> net_ok run x.
Proof. intros [[N _] _]. done. Qed.
Lemma inv_reqs run x : inv run x -> reqs_ok x.
Proof. intros [[_ R] _]. done. Qed.

(** Parts no invariant looks at. *)
Lemma net_stat run f x : net_ok run x -> net_ok run (on_stat f x) /\ quiet x (on_stat f x).
Proof.
  intros N. pose proof N as ([S O W] & _). assert (quiet x (on_stat f x)) as Q by by split. split; [|done]. eapply quiet_net; [done| |done].
  split; [eapply scheds_same; [exact S|apply acts_refl|done|done|done]|by apply (owned_ext run x)|done].
Qed.

Lemma net_clnts run c x : net_ok run x -> net_ok run (x <| x_clnts := c |>) /\ quiet x (x <| x_clnts := c |>).
Proof.
  intros N. pose proof N as ([S O W] & _). assert (quiet x (x <| x_clnts := c |>)) as Q by by split. split; [|done]. eapply quiet_net; [done| |done].
  split; [eapply scheds_same; [exact S|apply acts_refl|done|done|done]|by apply (owned_ext run x)|done].
Qed.

Lemma net_status run t st x : net_ok run x -> net_ok run (set_status t st x) /\ quiet x (set_status t st x).
Proof. intros N. destruct (set_status_lock run t st x (proj1 N)) as [L Q]. split; [by eapply quiet_net|done]. Qed.

(** Fields of a request other than its task, number, pins and credit. *)
Lemma inv_req run r f x : (forall q, rq_task (f q) = rq_task q /\ rq_xid (f q) = rq_xid q /\ rq_pin (f q) = rq_pin q /\ rq_cong (f q) = rq_cong q) ->
  inv run x -> inv run (on_req r f x) /\ stays x (on_req r f x).
Proof.
  intros F I. assert (soft x (on_req r f x)) as S by (apply soft_on_req; intros q; destruct (F q) as (? & ? & ? & E); unfold alike; rewrite E; done).
  split; [|by apply soft_stays]. eapply inv_soft; [apply on_req_net; [|by apply inv_net]; intros q; apply F|done|done].
Qed.

(** Pins. *)
Lemma inv_pin run r n x : (forall q, x_reqs x !! r = Some q -> 0 <= rq_pin q + n) -> r ∉ free (x_slots x) -> inv run x ->
  inv run (on_req r (fun q => q <| rq_pin := rq_pin q + n |>) x) /\ stays x (on_req r (fun q => q <| rq_pin := rq_pin q + n |>) x).
Proof.
  intros Hn Hf [[N [Sl Xm Rc Xi Pi]] C]. set (f := fun q => q <| rq_pin := rq_pin q + n |>). set (x' := on_req r f x).
  assert (forall s, rq_task (get_req x' s) = rq_task (get_req x s) /\ rq_xid (get_req x' s) = rq_xid (get_req x s)) as G.
  { intros s. unfold get_req. cbn. destruct (decide (s = r)) as [->|]; [rewrite lookup_alter_eq|rewrite lookup_alter_ne by done]; by destruct (x_reqs x !! _). }
  assert (forall s, is_Some (x_reqs x' !! s) <-> is_Some (x_reqs x !! s)) as Sm by (intros s; cbn; rewrite lookup_alter_is_Some; done).
  assert (forall s q', x_reqs x' !! s = Some q' -> exists q, x_reqs x !! s = Some q /\ rq_task q' = rq_task q /\ rq_xid q' = rq_xid q /\ (s <> r -> q' = q) /\ (s = r -> q' = f q)) as Lk.
  { intros s q' K. cbn in K. destruct (decide (s = r)) as [->|]; [rewrite lookup_alter_eq in K|rewrite lookup_alter_ne in K by done].
    - destruct (x_reqs x !! r) as [q|]; [|done]. injection K as <-. by exists q.
    - by exists q'. }
  split; [|split; [|done]; intros t s [Hs Ts]; split; [done|by rewrite (proj1 (G s))]]. split; [|intros Hc; cbn; rewrite credits_same by done; by apply C].
  split; [by apply on_req_net|]. split.
  - destruct Sl as [A1 A2 A3 A4 A5 A6 A7 A8 A9 A10]. split; try done.
    + intros s Hs. destruct (A2 s Hs) as (q & K & T & P & Co). exists q. cbn. rewrite lookup_alter_ne by (intros ->; done). done.
    + intros t s Hs. rewrite Sm. by apply A3 with t.
    + intros s. rewrite Sm. apply A5.
    + intros s q' t K T. destruct (Lk s q' K) as (q & K0 & E & _). apply (A6 s q); congruence.
    + cbn. by rewrite map_size_alter.
  - destruct Xm as [A1 A2 A3 A4 A5]. split; try done. intros t Nt. destruct (A4 t Nt) as (s & Hs & Ts). exists s. by rewrite (proj1 (G s)).
  - destruct Rc as [A1 A2 A3]. split; try done.
    + eapply StronglySorted_ext; [|done]. intros a b. unfold xid_lt. by rewrite (proj2 (G a)), (proj2 (G b)).
    + intros t Nt. destruct (A3 t Nt) as (s & Hs & Ts). exists s. by rewrite (proj1 (G s)).
  - intros r1 r2 q1 q2 K1 K2 T1 T2 E. destruct (Lk r1 q1 K1) as (p1 & L1 & A1 & B1 & _), (Lk r2 q2 K2) as (p2 & L2 & A2 & B2 & _). apply (Xi r1 r2 p1 p2); congruence.
  - intros s q' K. destruct (Lk s q' K) as (q & K0 & _ & _ & Ne & Eq). destruct (decide (s = r)) as [->|N']; [rewrite (Eq eq_refl); cbn; by apply Hn|].
    rewrite (Ne N'). by apply (Pi s).
Qed.

(** ** Queues *)

Lemma owned_gen run x x' : x_lock x' = x_lock x -> max_reqs (x_slots x') = max_reqs (x_slots x) -> sending x' = sending x ->
  (forall t, is_Some (info x' !! t) <-> is_Some (info x !! t)) -> owned run x -> owned run x'.
Proof.
  intros El Es Eq Hi [H1 H2 H3 H4 H5 H6 H7 H8 H9 H10]. split; rewrite ?El, ?Eq; try done; [|unfold RPC_MAXCWND; by rewrite Es].
  intros t Ht. specialize (H7 t Ht). destruct (snd_is_cookie (x_lock x)); [|by apply Hi]. apply eq_None_not_Some. rewrite Hi. by rewrite H7.
Qed.

(** The lock and the senders stay, whatever becomes of the requests. *)
Lemma net_gen run x x' : net_ok run x -> scheds_ok x' -> x_lock x' = x_lock x -> max_reqs (x_slots x') = max_reqs (x_slots x) -> sending x' = sending x ->
  (forall t, is_Some (info x' !! t) <-> is_Some (info x !! t)) -> credits (x_reqs x') = credits (x_reqs x) -> Z.of_nat (size (x_reqs x')) < 2 ^ 32 -> net_ok run x'.
Proof.
  intros ([S O W] & C & Sz) S' El Em Es Hi Hc Hs. split; [split; [done|by apply (owned_gen run x)|]|split].
  - intros H1 H2 H3. rewrite El in *. rewrite Es. by apply W.
  - unfold cong_ok. by rewrite El, Hc.
  - split; [rewrite Em; apply Sz|done].
Qed.

Lemma net_queues run f x : net_ok run x -> net_ok run (on_queues f x).
Proof.
  intros N. eapply net_gen; [done| |done|done|done|done|done|apply N]. eapply scheds_same; [apply N|apply acts_refl|done|done|done].
Qed.

Lemma flagged_stays t f x x' : flagged t f x x' -> (forall u, is_Some (info x' !! u) <-> is_Some (info x !! u)) -> stays x x'.
Proof.
  intros F Hi. split; [|intros u; by rewrite Hi]. intros u r [Hr Tr]. split; [by apply (flagged_holds _ _ _ _ _ _ F)|]. by rewrite (flagged_get_req _ _ _ _ r F).
Qed.

Lemma flagged_queues t f g x r : holds x t r -> (forall k, tk_rqstp (f k) = tk_rqstp k) -> flagged t f x (on_xtask t f (on_queues g x)).
Proof.
  intros Hr F. assert (holds (on_queues g x) t r) as Hr' by exact Hr. destruct (flagged_xtask t f (on_queues g x) r Hr' F) as [A1 A2 A3 A4 A5].
  split; [exact A1|exact A2|exact A3|exact A4|exact A5].
Qed.

Lemma inv_of run x x' : net_ok run x' -> reqs_ok x' -> x_reqs x' = x_reqs x -> inv run x -> inv run x'.
Proof. intros N R E [_ C]. split; [by split|]. by rewrite E. Qed.

Context `{RbShape Z}.

Lemma need_recv_holds x t : reqs_ok x -> need_recv (get_tk x t) = true -> holds x t (rqstp x t) /\ rq_task (get_req x (rqstp x t)) = Some t.
Proof. intros R N. destruct (rc_task x (ro_recv x R) t N) as (r & Hr & Tr). unfold rqstp. unfold holds in Hr. rewrite Hr. done. Qed.

Lemma need_xmit_holds x t : reqs_ok x -> need_xmit (get_tk x t) = true -> holds x t (rqstp x t) /\ rq_task (get_req x (rqstp x t)) = Some t.
Proof. intros R N. destruct (xm_task x (ro_xmit x R) t N) as (r & Hr & Tr). unfold rqstp. unfold holds in Hr. rewrite Hr. done. Qed.

Lemma ready_rqstp x t r : ready x t r -> rqstp x t = r.
Proof. intros [E _]. unfold rqstp. unfold holds in E. by rewrite E. Qed.

Lemma inv_dequeue_receive run t x : inv run x -> inv run (xprt_request_dequeue_receive_locked t x) /\ stays x (xprt_request_dequeue_receive_locked t x).
Proof.
  intros I. pose proof (dequeue_receive_core x t (inv_reqs _ _ I)) as R. pose proof (inv_net _ _ I) as N. unfold xprt_request_dequeue_receive_locked in *.
  destruct (need_recv (get_tk x t)) eqn:Nr; [|by split; [|apply stays_refl]]. destruct (need_recv_holds x t (inv_reqs _ _ I) Nr) as [Hr _].
  split; [apply (inv_of run x); [apply net_queues, on_xtask_net, N|done|done|done]|].
  apply (flagged_stays t (set_recv false)); [|intros u; apply on_xtask_info]. destruct (flagged_xtask t (set_recv false) x _ Hr) as []; [done|by split].
Qed.

Lemma inv_dequeue_transmit run t x : inv run x -> inv run (xprt_request_dequeue_transmit_locked t x) /\ stays x (xprt_request_dequeue_transmit_locked t x).
Proof.
  intros I. pose proof (dequeue_xmit_core x t (inv_reqs _ _ I)) as R. pose proof (inv_net _ _ I) as N. unfold xprt_request_dequeue_transmit_locked in *.
  destruct (need_xmit (get_tk x t)) eqn:Nr; cbn [negb] in *; [|by split; [|apply stays_refl]]. destruct (need_xmit_holds x t (inv_reqs _ _ I) Nr) as [Hr _].
  split; [apply (inv_of run x); [apply net_queues, on_xtask_net, N|done|done|done]|].
  apply (flagged_stays t (set_xmit false)); [|intros u; apply on_xtask_info]. destruct (flagged_xtask t (set_xmit false) x _ Hr) as []; [done|by split].
Qed.

Lemma inv_enqueue_receive ops cookie `{!XprtOps ops counts cookie} run t r x : inv run x -> ready x t r ->
  inv run (xprt_request_enqueue_receive ops t x) /\ stays x (xprt_request_enqueue_receive ops t x).
Proof.
  intros I Rd. unfold xprt_request_enqueue_receive. destruct (xprt_request_need_enqueue_receive t x) eqn:Ne; cbn [negb]; [|by split; [|apply stays_refl]].
  rewrite (ready_rqstp x t r Rd). unfold xprt_request_prepare. pose proof (op_prepare run r x (inv_net _ _ I)) as P. destruct (inv_quiet run run x _ P I) as [I1 S1].
  assert (need_recv (get_tk x t) = false) as Nr by (unfold xprt_request_need_enqueue_receive in Ne; by destruct (need_recv (get_tk x t))).
  set (x1 := prepare_request ops r x) in *. destruct (inv_req run r (fun q => q <| rq_private_buf := rq_rcv_buf q |>) x1 ltac:(done) I1) as [I2 S2]. set (x2 := on_req r _ x1) in *.
  assert (need_recv (get_tk x2 t) = false) as Nr2 by (change (get_tk x2 t) with (get_tk x1 t); by rewrite (get_tk_info x x1 t (qt_info _ _ (proj2 P)))).
  pose proof (proj1 (stays_trans _ _ _ S1 S2) t r Rd) as Rd2. pose proof (enqueue_receive_core x2 t r (inv_reqs _ _ I2) Rd2 Nr2) as R3.
  assert (net_ok run (on_xtask t (set_recv true) (xprt_request_rb_insert r x2))) as N3.
  { apply on_xtask_net. unfold xprt_request_rb_insert. destruct (rb_walk _ _ _) as [[p o] seen]. destruct o; [by apply inv_net|by apply net_queues, inv_net]. }
  assert (inv run (on_xtask t (set_recv true) (xprt_request_rb_insert r x2)) /\ stays x2 (on_xtask t (set_recv true) (xprt_request_rb_insert r x2))) as [I3 S3].
  { destruct (rb_insert_spec x2 t r (inv_reqs _ _ I2) Rd2 Nr2) as (l1 & l2 & _ & E & _). rewrite E in *. split; [by apply (inv_of run x2)|].
    apply (flagged_stays t (set_recv true)); [|intros u; by rewrite on_xtask_info].
    by apply (flagged_queues t (set_recv true) _ x2 r (proj1 Rd2)). }
  destruct (inv_quiet run run _ _ (on_conn_net run (fun c => c <| idle_timer := None |>) _ (inv_net _ _ I3)) I3) as [I4 S4].
  split; [exact I4|]. eapply stays_trans; [exact S1|]. eapply stays_trans; [exact S2|]. eapply stays_trans; [exact S3|exact S4].
Qed.

(** A task whose request holds a credit, or does not, goes to its place. *)
Lemma inv_enqueue_transmit run t r x : inv run x -> ready x t r -> inv run (xprt_request_enqueue_transmit t x) /\ stays x (xprt_request_enqueue_transmit t x).
Proof.
  intros I Rd. unfold xprt_request_enqueue_transmit, xprt_request_need_enqueue_transmit. rewrite negb_involutive. destruct (need_xmit (get_tk x t)) eqn:Nx; [by split; [|apply stays_refl]|].
  rewrite (ready_rqstp x t r Rd). destruct (inv_req run r (fun q => q <| rq_bytes_sent := 0 |>) x ltac:(done) I) as [I1 S1]. set (x1 := on_req r _ x) in *.
  assert (forall y l, inv run y -> stays x1 y -> info y = info x1 -> x_queues y = x_queues x1 -> concat l ≡ₚ r :: concat (xmit_queue (x_queues y)) ->
    Forall (fun g => g <> []) l ->
    let z := on_xtask t (set_xmit true) (on_queues (fun q => q <| xmit_queuelen := xmit_queuelen q + 1 |>) (on_queues (fun q => q <| xmit_queue := l |>) y)) in
    inv run z /\ stays x1 z) as Core.
  { intros y l Iy Sy Ey Eq P G z. pose proof (proj1 (stays_trans _ _ _ S1 Sy) t r Rd) as Rdy.
    assert (need_xmit (get_tk y t) = false) as Ny by (rewrite (get_tk_info x1 y t Ey); done).
    assert (flagged t (set_xmit true) y z) as F.
    { by apply (flagged_queues t (set_xmit true) (fun q => q <| xmit_queue := l |> <| xmit_queuelen := xmit_queuelen q + 1 |>) y r (proj1 Rdy)). }
    split; [apply (inv_of run y); [apply on_xtask_net, net_queues, net_queues, inv_net, Iy| |done|exact Iy]|].
    - eapply (enqueue_xmit_core y z t r l); [by apply (inv_reqs run)|done|done|done|done|done|done|done|done].
    - eapply stays_trans; [exact Sy|]. apply (flagged_stays t (set_xmit true)); [done|]. intros u. unfold z. by rewrite on_xtask_info. }
  assert (forall y, stays x1 y -> stays x y) as St by (intros y Sy; by eapply stays_trans). pose proof (xm_groups x1 (ro_xmit x1 (inv_reqs _ _ I1))) as G1.
  destruct (rq_cong (get_req x1 r)); [|destruct (rq_seqno (get_req x1 r) =? 0)].
  - pose proof (clear_cwnd_wait_net run x1 (inv_net _ _ I1)) as Nq. destruct (inv_quiet run run _ _ Nq I1) as [I2 S2]. set (x2 := xprt_clear_congestion_window_wait x1) in *.
    destruct (Core x2 (enqueue_cong (fun p => rq_cong (get_req x2 p)) r (xmit_queue (x_queues x2))) I2 S2) as [I3 S3]; [apply Nq|apply Nq|apply enqueue_cong_perm| |split; [exact I3|by apply St]].
    apply enqueue_cong_groups. rewrite (qt_queues _ _ (proj2 Nq)). exact G1.
  - destruct (Core x1 (enqueue_owner (rq_owner x1) r (xmit_queue (x_queues x1))) I1 (stays_refl x1)) as [I3 S3]; [done|done|apply enqueue_owner_perm|by apply enqueue_owner_groups|].
    split; [exact I3|by apply St].
  - destruct (Core x1 (xmit_queue (x_queues x1) ++ [[r]]) I1 (stays_refl x1)) as [I3 S3]; [done|done| | |split; [exact I3|by apply St]].
    + rewrite concat_app. simpl. rewrite Permutation_app_comm. done.
    + apply Forall_app. split; [done|]. by repeat constructor.
Qed.
End Inv.
