(* ===== verification/TransportSlots.v ===== *)
(** * Slots change hands

    Reserving a slot, waiting for one on the backlog, setting up the request and giving it back:
    [xprt_reserve], [xprt_retry_reserve], [xprt_release] and what they call keep the
    invariant, and a slot that is given back while tasks wait goes to the first of them. *)

From S2P Require Import Prelude Xdr WaitQueue WaitQueueInv WaitQueueFrame RbTree RpcTimer Transport TransportLock TransportCong TransportQueues TransportOps.
From stdpp Require Import list gmap sorting.
#[local] Open Scope Z_scope.

(** Request [r], which is on no queue, changes; everything else stays. *)
Record rehomed (r : Z) (x x' : rpc_xprt) : Prop := {
  rh_holds : forall v s, s <> r -> holds x' v s <-> holds x v s;
  rh_xmit : forall v, need_xmit (get_tk x' v) = need_xmit (get_tk x v);
  rh_recv : forall v, need_recv (get_tk x' v) = need_recv (get_tk x v);
  rh_idle : forall v, holds x v r -> need_xmit (get_tk x v) = false /\ need_recv (get_tk x v) = false;
  rh_idle' : forall v, holds x' v r -> need_xmit (get_tk x v) = false /\ need_recv (get_tk x v) = false;
  rh_reqs : forall s, s <> r -> x_reqs x' !! s = x_reqs x !! s;
  rh_queues : x_queues x' = x_queues x;
}.

Lemma rehomed_get r x x' s : rehomed r x x' -> s <> r -> get_req x' s = get_req x s.
Proof. intros R Ne. unfold get_req. by rewrite (rh_reqs _ _ _ R). Qed.

(** The queues do not hold [r], before or after. *)
Lemma rehomed_not_in r x x' v s : rehomed r x x' -> holds x v s -> (need_xmit (get_tk x v) = true \/ need_recv (get_tk x v) = true) -> s <> r.
Proof. intros R Hs N ->. destruct (rh_idle _ _ _ R v Hs). destruct N; congruence. Qed.

Lemma rehomed_xmit r x x' : rehomed r x x' -> xmit_ok x -> xmit_ok x'.
Proof.
  intros R [G N I T L]. split; rewrite ?(rh_queues _ _ _ R); try done.
  - intros s. rewrite I. split; intros (v & Hv & Nv); exists v.
    + assert (s <> r) by (eapply rehomed_not_in; eauto). split; [by apply (rh_holds _ _ _ R)|]. by rewrite (rh_xmit _ _ _ R).
    + rewrite (rh_xmit _ _ _ R) in Nv. destruct (decide (s = r)) as [->|]; [destruct (rh_idle' _ _ _ R v Hv); congruence|]. split; [by apply (rh_holds _ _ _ R)|done].
  - intros v. rewrite (rh_xmit _ _ _ R). intros Nv. destruct (T v Nv) as (s & Hs & Ts). assert (s <> r) by (eapply rehomed_not_in; eauto).
    exists s. split; [by apply (rh_holds _ _ _ R)|]. by rewrite (rehomed_get r x x' s R).
Qed.

Lemma rehomed_recv r x x' : rehomed r x x' -> recv_ok x -> recv_ok x'.
Proof.
  intros R [S I T]. split; rewrite ?(rh_queues _ _ _ R).
  - assert (Forall (fun s => s <> r) (in_order (recv_queue (x_queues x)))) as F.
    { apply Forall_forall. intros s Hs. apply I in Hs as (v & Hv & Nv). eapply rehomed_not_in; eauto. }
    revert S F. generalize (in_order (recv_queue (x_queues x))). intros l S. induction S as [|a l S IH Fa]; intros F; [constructor|]. inversion F as [|? ? Na Fl]; subst.
    constructor; [by apply IH|]. rewrite Forall_forall in Fa, Fl |- *. intros b Hb. specialize (Fa b Hb). unfold xid_lt in *.
    rewrite (rehomed_get r x x' a R Na), (rehomed_get r x x' b R (Fl b Hb)). done.
  - intros s. rewrite I. split; intros (v & Hv & Nv); exists v.
    + assert (s <> r) by (eapply rehomed_not_in; eauto). split; [by apply (rh_holds _ _ _ R)|]. by rewrite (rh_recv _ _ _ R).
    + rewrite (rh_recv _ _ _ R) in Nv. destruct (decide (s = r)) as [->|]; [destruct (rh_idle' _ _ _ R v Hv); congruence|]. split; [by apply (rh_holds _ _ _ R)|done].
  - intros v. rewrite (rh_recv _ _ _ R). intros Nv. destruct (T v Nv) as (s & Hs & Ts). assert (s <> r) by (eapply rehomed_not_in; eauto).
    exists s. split; [by apply (rh_holds _ _ _ R)|]. by rewrite (rehomed_get r x x' s R).
Qed.

(** [r] has no task that set it up, or a number of its own. *)
Lemma rehomed_xids r x x' : rehomed r x x' -> xids_ok x ->
  (forall q, x_reqs x' !! r = Some q -> rq_task q <> None -> forall s p, s <> r -> x_reqs x !! s = Some p -> rq_task p <> None -> rq_xid p <> rq_xid q) -> xids_ok x'.
Proof.
  intros R X Hr r1 r2 q1 q2 K1 K2 T1 T2 E. destruct (decide (r1 = r)) as [->|N1], (decide (r2 = r)) as [->|N2]; [done|..].
  - rewrite (rh_reqs _ _ _ R) in K2 by done. by destruct (Hr q1 K1 T1 r2 q2).
  - rewrite (rh_reqs _ _ _ R) in K1 by done. by destruct (Hr q2 K2 T2 r1 q1).
  - rewrite (rh_reqs _ _ _ R) in K1, K2 by done. by apply (X r1 r2 q1 q2).
Qed.

Lemma rehomed_pins r x x' : rehomed r x x' -> pins_ok x -> (forall q, x_reqs x' !! r = Some q -> 0 <= rq_pin q) -> pins_ok x'.
Proof. intros R P Hr s q K. destruct (decide (s = r)) as [->|]; [by apply Hr|]. rewrite (rh_reqs _ _ _ R) in K by done. by apply (P s). Qed.

(** ** A task gets a slot *)

Lemma no_request_flags x t : reqs_ok x -> tk_rqstp (get_tk x t) = None -> need_xmit (get_tk x t) = false /\ need_recv (get_tk x t) = false.
Proof.
  intros R N. split; apply not_true_iff_false; intros C; [destruct (xm_task x (ro_xmit x R) t C) as (r & Hr & _)|destruct (rc_task x (ro_recv x R) t C) as (r & Hr & _)];
    unfold holds in Hr; congruence.
Qed.

Definition set_rq (o : option Z) (k : xtask) : xtask := k <| tk_rqstp := o |>.

(** Task [t] gets [r], which nobody has; the table is not congested. *)
Lemma assign_core x x' t r : reqs_ok x -> tk_rqstp (get_tk x t) = None ->
  (forall u, get_tk x' u = if decide (u = t) then set_rq (Some r) (get_tk x u) else get_tk x u) ->
  x_queues x' = x_queues x -> backlog x' = backlog x -> congested (x_slots x) = false -> congested (x_slots x') = false ->
  (exists q, x_reqs x' !! r = Some q /\ rq_task q = None /\ 0 <= rq_pin q) -> (forall s, s <> r -> x_reqs x' !! s = x_reqs x !! s) ->
  (forall u, ~ holds x u r) -> r ∉ free (x_slots x') -> (forall s, s <> r -> s ∈ free (x_slots x') <-> s ∈ free (x_slots x)) -> NoDup (free (x_slots x')) ->
  num_reqs (x_slots x') = Z.of_nat (size (x_reqs x')) -> min_reqs (x_slots x') <= num_reqs (x_slots x') <= max_reqs (x_slots x') /\ 0 <= min_reqs (x_slots x') -> reqs_ok x'.
Proof.
  intros R Nt G Eq Eb C C' (q & Kq & Tq & Pq) Es Hn Hf Hfr Nd Num Bd. pose proof R as [Sl Xm Rc Xi Pi]. destruct (no_request_flags x t R Nt) as [F1 F2].
  assert (forall v s, holds x' v s <-> holds x v s /\ v <> t \/ v = t /\ s = r) as Hh.
  { intros v s. unfold holds. rewrite G. destruct (decide (v = t)) as [->|]; [|tauto]. cbn. rewrite Nt. split; [intros [= <-]; tauto|]. intros [[? _]|[_ ->]]; done. }
  assert (rehomed r x x') as Rh.
  { split; try done.
    - intros v s Ne. rewrite Hh. split; [intros [[? _]|[_ ?]]; [done|congruence]|]. intros Hv. left. split; [done|]. intros ->. unfold holds in Hv. congruence.
    - intros v. rewrite G. by destruct (decide _).
    - intros v. rewrite G. by destruct (decide _).
    - intros v Hv. by destruct (Hn v).
    - intros v Hv. apply Hh in Hv as [[Hv _]|[-> _]]; [by destruct (Hn v)|done]. }
  split; [|by eapply rehomed_xmit|by eapply rehomed_recv|eapply rehomed_xids; [done|done|]|eapply rehomed_pins; [done|done|]]; [|intros ? ?; congruence|intros ? ?; by simplify_eq].
  destruct Sl as [A1 A2 A3 A4 A5 A6 A7 A8 A9 A10]. split; try done; try congruence.
  - intros s Hs. destruct (decide (s = r)) as [->|Ne]; [done|]. rewrite Es by done. apply A2. by apply Hfr.
  - intros v s Hv. apply Hh in Hv as [[Hv Nv]|[-> ->]]; [|split; [by eexists|done]]. destruct (decide (s = r)) as [->|Ne]; [by destruct (Hn v)|].
    rewrite Es, Hfr by done. by eapply A3.
  - intros v w s Hv Hw. apply Hh in Hv, Hw. destruct Hv as [[Hv _]|[-> Ev]], Hw as [[Hw _]|[-> Ew]]; subst; [by eapply A4|by destruct (Hn v)|by destruct (Hn w)|done].
  - intros s Hs. destruct (decide (s = r)) as [->|Ne]; [right; exists t; apply Hh; by right|]. rewrite Es in Hs by done. rewrite Hfr by done.
    destruct (A5 s Hs) as [|[v Hv]]; [by left|right]. exists v. apply Hh. left. split; [done|]. intros ->. unfold holds in Hv. congruence.
  - intros s q' v K T. destruct (decide (s = r)) as [->|Ne]; [congruence|]. rewrite Es in K by done. apply Hh. pose proof (A6 s q' v K T) as Hv. left. split; [done|].
    intros ->. unfold holds in Hv. congruence.
  - rewrite Eb. intros v Hv. destruct (A10 v Hv). congruence.
Qed.

Section Slots.
Context (counts : bool).
Implicit Type run : bool.
Notation inv := (inv counts).

(** Only the slot table's flags and statistics change. *)
Lemma congest_core x : reqs_ok x -> free (x_slots x) = [] -> num_reqs (x_slots x) = max_reqs (x_slots x) -> reqs_ok (on_slots (fun s => s <| congested := true |>) x).
Proof.
  intros [Sl Xm Rc Xi Pi] Ef En. split; try done; [|by destruct Xm; split|by destruct Rc; split]. destruct Sl as [A1 A2 A3 A4 A5 A6 A7 A8 A9 A10]. split; try done.
  intros v Hv. split; [done|]. by apply A10.
Qed.

(** A task without a request goes to sleep on the backlog. *)
Lemma backlog_core x x' t : reqs_ok x -> congested (x_slots x) = true -> tk_rqstp (get_tk x t) = None -> info x' = info x -> x_slots x' = x_slots x ->
  x_queues x' = x_queues x -> x_reqs x' = x_reqs x -> (queued (backlog x') = queued (backlog x) \/ queued (backlog x') ≡ₚ t :: queued (backlog x)) -> reqs_ok x'.
Proof.
  intros R C Nt Ei Es Eq Er Q. eapply (reqs_ext x x'); try done; [intros v; by rewrite (get_tk_info x x' v Ei)|]. intros v Hv. split; [done|].
  destruct Q as [Q|Q]; rewrite Q in Hv; [by apply (sl_backlog x (ro_slots x R))|]. apply elem_of_cons in Hv as [->|Hv]; [done|by apply (sl_backlog x (ro_slots x R))].
Qed.

Lemma inv_add_backlog run t x : inv run x -> tk_rqstp (get_tk x t) = None -> free (x_slots x) = [] -> num_reqs (x_slots x) = max_reqs (x_slots x) ->
  inv run (xprt_add_backlog t x) /\ stays x (xprt_add_backlog t x).
Proof.
  intros I Nt Ef En. unfold xprt_add_backlog. set (x1 := on_slots _ x). pose proof (congest_core x (inv_reqs _ _ _ I) Ef En) as R1.
  assert (net_ok run x1) as N1.
  { eapply net_gen; [by apply (inv_net counts)| |done|done|done|done|done|apply (inv_net _ _ _ I)]. eapply scheds_same; [apply (inv_net _ _ _ I)|apply acts_refl|done|done|done]. }
  pose proof (lk_scheds _ _ (proj1 N1)) as S1. pose proof (sleep_on_joins (with_queue (backlog x1) x1) t (Some cb_xprt_complete_request_init) (sc_backlog x1 S1) (sc_prios x1 S1)) as [Op J].
  set (s := rpc_sleep_on t (Some cb_xprt_complete_request_init) (with_queue (backlog x1) x1)) in *. unfold on_backlog. fold s. set (x2 := (back s x1) <| backlog := sc_queue s |>).
  assert (with_queue (backlog x2) x2 = s) as Ex by by destruct s. destruct (scheds_backlog x1 x2 S1) as [S2 I2]; [by rewrite Ex|done|done|].
  assert (reqs_ok x2) as R2 by (eapply (backlog_core x1 x2 t); [done|done|done|done|done|done|done|]; destruct J as [J|[J _]]; [by left|by right]).
  assert (net_ok run x2) as N2 by (eapply net_gen; [exact N1|exact S2|done|done|done|by rewrite I2|done|apply N1]).
  split; [split; [by split|apply I]|]. split; [|intros u; by rewrite I2]. intros u r [Hr Tr]. split; [|done]. apply (holds_info x1 x2); [done|done].
Qed.

Lemma on_xtask_info_eq t f x u : info (on_xtask t f x) !! u = None <-> info x !! u = None.
Proof. rewrite !eq_None_not_Some. by rewrite on_xtask_info. Qed.

(** [out_init_req]: the task gets [r]. *)
Lemma get_tk_out_init t r x u : is_Some (x_tasks x !! t) -> get_tk (out_init_req t r x) u = if decide (u = t) then set_rq (Some r) (get_tk x u) else get_tk x u.
Proof.
  intros [k K]. unfold out_init_req. rewrite on_xtask_get.
  assert (forall v, get_tk (set_status t 0 (on_slots (fun s => s <| max_slots := Z.max (max_slots s) (num_reqs s) |>) x)) v = get_tk x v) as G.
  { intros v. unfold get_tk, set_status, on_tk. cbn. destruct (decide (v = t)) as [->|]; [rewrite lookup_alter_eq|by rewrite lookup_alter_ne]. by destruct (x_tasks x !! t). }
  rewrite !G. assert (is_Some (x_tasks (set_status t 0 (on_slots (fun s => s <| max_slots := Z.max (max_slots s) (num_reqs s) |>) x)) !! t)) as Hs
    by (unfold set_status, on_tk; cbn; rewrite lookup_alter_eq, K; by eexists).
  destruct (decide (u = t)) as [->|]; destruct (decide _) as [[? ?]|]; try done; tauto.
Qed.

Lemma out_init_net run t r x y : net_ok run y -> x_lock x = x_lock y -> x_tasks x = x_tasks y -> sending x = sending y -> pending x = pending y -> backlog x = backlog y ->
  max_reqs (x_slots x) = max_reqs (x_slots y) -> credits (x_reqs x) = credits (x_reqs y) -> Z.of_nat (size (x_reqs x)) < 2 ^ 32 -> net_ok run (out_init_req t r x).
Proof.
  intros N El Et Es Ep Eb Em Ec Ez. unfold out_init_req. apply on_xtask_net. apply net_status. eapply (net_gen run y); try done; [|intros u; unfold info; cbn; by rewrite Et].
  eapply scheds_same; [apply N|cbn; rewrite Et; apply acts_refl|done|done|done].
Qed.

Lemma inv_alloc_slot run mem t x : inv run x -> is_Some (x_tasks x !! t) -> tk_rqstp (get_tk x t) = None -> (forall r, mem = Some r -> x_reqs x !! r = None) ->
  inv run (xprt_alloc_slot mem t x) /\ stays x (xprt_alloc_slot mem t x).
Proof.
  intros I Ht Nt Hm. pose proof (inv_net _ _ _ I) as N. pose proof (inv_reqs _ _ _ I) as R. pose proof (ro_slots x R) as Sl. unfold xprt_alloc_slot.
  assert (forall y r, x_tasks y = x_tasks x -> (forall s, s <> r -> x_reqs y !! s = x_reqs x !! s) -> (forall u, ~ holds x u r) -> stays x (out_init_req t r y)) as St.
  { intros y r Et Er Hn. assert (forall u, get_tk (out_init_req t r y) u = if decide (u = t) then set_rq (Some r) (get_tk x u) else get_tk x u) as G.
    { intros u. rewrite get_tk_out_init by by rewrite Et. unfold get_tk. by rewrite Et. }
    split.
    - intros u s [Hs Ts]. assert (s <> r) by (intros ->; by apply (Hn u)). assert (u <> t) by (intros ->; unfold holds in Hs; congruence).
      split; [unfold holds; rewrite G; by destruct (decide _)|]. unfold get_req. change (x_reqs (out_init_req t r y)) with (x_reqs y). by rewrite Er.
    - intros u. unfold out_init_req. rewrite on_xtask_info, !info_some. unfold set_status, on_tk. cbn. rewrite Et.
      destruct (decide (u = t)) as [->|]; [by rewrite lookup_alter_eq, fmap_is_Some|by rewrite lookup_alter_ne]. }
  destruct (free (x_slots x)) as [|r l] eqn:Ef.
  - unfold xprt_dynamic_alloc_slot. destruct (Z.leb_spec (max_reqs (x_slots x)) (num_reqs (x_slots x))) as [L|L].
    { change (- EAGAIN =? - ENOMEM) with false. change (- EAGAIN =? - EAGAIN) with true. cbv iota.
      destruct (inv_add_backlog run t x I Nt Ef) as [I1 S1]; [pose proof (sl_bounds x Sl); lia|].
      destruct (inv_quiet counts run run _ _ (net_status run t (- EAGAIN) _ (inv_net _ _ _ I1)) I1) as [I2 S2]. split; [done|by eapply stays_trans]. }
    assert (num_reqs (x_slots x) < 2 ^ 24) as L24 by (pose proof (proj1 (proj2 (proj2 N))); lia).
    assert (0 <= num_reqs (x_slots x)) as L0 by (rewrite (sl_num x Sl); lia).
    assert (u32 (num_reqs (x_slots x) + 1) = num_reqs (x_slots x) + 1) as Eu by (apply u32_id; unfold is_u32; lia).
    destruct mem as [r|].
    + specialize (Hm r eq_refl). set (y := (on_slots (fun s => s <| num_reqs := u32 (num_reqs s + 1) |>) x) <| x_reqs := <[r := rq_zero]> (x_reqs x) |>).
      change ((on_slots (fun s => s <| num_reqs := u32 (num_reqs s + 1) |>) x) <| x_reqs := _ |>) with y.
      assert (size (x_reqs y) = S (size (x_reqs x))) as Sz by (by apply map_size_insert_None).
      assert (congested (x_slots x) = false) as C by (destruct (congested (x_slots x)) eqn:E; [|done]; destruct (sl_congested x Sl E); lia).
      assert (forall u, ~ holds x u r) as Hn by (intros u Hu; destruct (sl_holds x Sl u r Hu) as [[q Hq] _]; congruence).
      split; [|apply St; [done|intros s Ne; by apply lookup_insert_ne|done]]. split; [split|].
      * eapply (out_init_net run t r y x); try done; [cbn; rewrite credits_insert by done; cbn; lia|]. rewrite Sz. pose proof (sl_num x Sl). lia.
      * eapply (assign_core x _ t r); try done.
        -- intros u. rewrite get_tk_out_init by done. done.
        -- exists rq_zero. split; [apply lookup_insert_eq|done].
        -- intros s Ne. by apply lookup_insert_ne.
        -- change (r ∉ free (x_slots x)). rewrite Ef. apply not_elem_of_nil.
        -- change (NoDup (free (x_slots x))). rewrite Ef. constructor.
        -- change (u32 (num_reqs (x_slots x) + 1) = Z.of_nat (size (x_reqs y))). rewrite Eu, Sz, (sl_num x Sl). lia.
        -- change (min_reqs (x_slots x) <= u32 (num_reqs (x_slots x) + 1) <= max_reqs (x_slots x) /\ 0 <= min_reqs (x_slots x)). pose proof (sl_bounds x Sl). lia.
      * intros Hc. change (credits (<[r := rq_zero]> (x_reqs x)) = 0). rewrite credits_insert by done. cbn. rewrite (proj2 I Hc). lia.
    + change (- ENOMEM =? - ENOMEM) with true. cbv iota. set (y := on_slots _ (on_slots _ x)). assert (y = x) as ->.
      { assert (u32 (u32 (num_reqs (x_slots x) + 1) - 1) = num_reqs (x_slots x)) as E2 by (rewrite Eu, u32_id; [lia|unfold is_u32; lia]). unfold y. destruct x as [l co sl qu st rq tk cs se pe ba ru pu]. destruct sl as [fr mx mn nm cg ms nx]. unfold on_slots. cbn in E2 |- *. by rewrite E2. }
      by apply (inv_quiet counts run run), I; apply net_status.
  - set (y := on_slots (fun s => s <| free := l |>) x).
    assert (r ∈ free (x_slots x)) as Hr by (rewrite Ef; left). destruct (sl_idle x Sl r Hr) as (q & K & T & P & Co).
    assert (congested (x_slots x) = false) as C by (destruct (congested (x_slots x)) eqn:E; [|done]; destruct (sl_congested x Sl E); congruence).
    assert (forall u, ~ holds x u r) as Hn by (intros u Hu; by destruct (sl_holds x Sl u r Hu)).
    pose proof (sl_free x Sl) as Nd. rewrite Ef in Nd. apply NoDup_cons in Nd as [Nr Nd].
    split; [|by apply St]. split; [split|].
    + eapply (out_init_net run t r y x); try done. apply N.
    + eapply (assign_core x _ t r); try done.
      * intros u. rewrite get_tk_out_init by done. done.
      * exists q. split; [done|]. split; [done|]. by rewrite P.
      * intros s Ne. change (s ∈ l <-> s ∈ free (x_slots x)). rewrite Ef, elem_of_cons. tauto.
      * apply (sl_num x Sl).
      * apply (sl_bounds x Sl).
    + apply I.
Qed.

(** ** The request is set up *)

(** The next number is not in use. *)
Definition fresh_xid (x : rpc_xprt) : Prop := forall s p, x_reqs x !! s = Some p -> rq_task p <> None -> rq_xid p <> u32 (next_xid (x_slots x) + 1).

Lemma on_req_twice r f g x : on_req r f (on_req r g x) = on_req r (fun q => f (g q)) x.
Proof.
  assert (alter f r (alter g r (x_reqs x)) = alter (fun q => f (g q)) r (x_reqs x)) as E.
  { apply map_eq. intros s. destruct (decide (s = r)) as [->|]; [|by rewrite !lookup_alter_ne]. rewrite !lookup_alter_eq. by destruct (x_reqs x !! r). }
  destruct x. unfold on_req in *. cbn in E |- *. by rewrite E.
Qed.

Lemma request_init_eq `{Clock} now ktime t r x : holds x t r -> exists F, xprt_request_init now ktime t x =
    on_req r F (on_slots (fun s => s <| next_xid := u32 (next_xid (x_slots x) + 1) |>) x) /\
  forall q, rq_task (F q) = Some t /\ rq_xid (F q) = u32 (next_xid (x_slots x) + 1) /\ rq_pin (F q) = rq_pin q /\ rq_cong (F q) = rq_cong q.
Proof.
  intros Hr. assert (rqstp x t = r) as Rq by (unfold rqstp; unfold holds in Hr; by rewrite Hr).
  set (x1 := on_slots (fun s => s <| next_xid := u32 (next_xid (x_slots x) + 1) |>) x).
  set (x2 := on_req (rqstp x t) (fun q => q <| rq_task := Some t |> <| rq_buffer := false |> <| rq_xid := u32 (next_xid (x_slots x) + 1) |>) x1).
  set (x3 := on_req (rqstp x t) (fun q => q <| rq_connect_cookie := u32 (connect_cookie (x_conn x2) - 1) |>) x2).
  set (x4 := on_req (rqstp x t) (fun q => q <| rq_rcv_buf := 0 |> <| rq_release_snd_buf := false |>) x3).
  change (xprt_request_init now ktime t x) with (xprt_init_majortimeo now ktime t x4). unfold xprt_init_majortimeo.
  change (rqstp x4 t) with (rqstp x t). rewrite Rq. unfold x4, x3, x2. rewrite Rq, !on_req_twice. eexists. split; [reflexivity|]. by intros q.
Qed.

Lemma inv_request_init `{Clock} run now ktime t r x : inv run x -> holds x t r -> need_xmit (get_tk x t) = false -> need_recv (get_tk x t) = false -> fresh_xid x ->
  inv run (xprt_request_init now ktime t x) /\ ready (xprt_request_init now ktime t x) t r /\ (forall u s, s <> r -> ready x u s -> ready (xprt_request_init now ktime t x) u s) /\
  info (xprt_request_init now ktime t x) = info x.
Proof.
  intros I Hr Nx Nr Fx. destruct (request_init_eq now ktime t r x Hr) as (F & E & HF). rewrite E. set (x1 := on_slots _ x). set (x2 := on_req r F x1).
  pose proof (inv_reqs _ _ _ I) as R. pose proof R as [Sl Xm Rc Xi Pi]. pose proof (inv_net _ _ _ I) as N. destruct (sl_holds x Sl t r Hr) as [[q K] Nf].
  assert (x_reqs x2 = alter F r (x_reqs x)) as Er by done.
  assert (forall v s, holds x2 v s <-> holds x v s) as Hh by done.
  assert (forall s, s <> r -> x_reqs x2 !! s = x_reqs x !! s) as Es by (intros s Ne; rewrite Er; by apply lookup_alter_ne).
  assert (x_reqs x2 !! r = Some (F q)) as K2 by (rewrite Er, lookup_alter_eq, K; done).
  assert (rehomed r x x2) as Rh.
  { split; try done; intros v Hv; assert (v = t) as -> by (by eapply (sl_unique x Sl)); done. }
  split_and!; [|split; [done|unfold get_req; rewrite K2; apply HF]|intros u s Ne [Hs Ts]; split; [done|unfold get_req; by rewrite Es]|done].
  assert (net_ok run x2) as N2.
  { apply on_req_net; [intros; apply HF|]. eapply net_gen; [exact N| |done|done|done|done|done|apply N]. eapply scheds_same; [apply N|apply acts_refl|done|done|done]. }
  split; [split; [done|split]|].
  - destruct Sl as [A1 A2 A3 A4 A5 A6 A7 A8 A9 A10]. split; try done.
    + intros s Hs. rewrite Es; [by apply A2|]. intros ->. done.
    + intros v s Hv. destruct (decide (s = r)) as [->|]; [|rewrite Es by done; by eapply A3]. split; [by eexists|done].
    + intros s Hs. destruct (decide (s = r)) as [->|Ne]; [right; by exists t|]. rewrite Es in Hs by done. by apply A5.
    + intros s q' v Kv Tv. destruct (decide (s = r)) as [->|Ne]; [|rewrite Es in Kv by done; by eapply A6]. rewrite K2 in Kv. injection Kv as <-. rewrite (proj1 (HF q)) in Tv. by injection Tv as <-.
    + change (num_reqs (x_slots x) = Z.of_nat (size (x_reqs x2))). rewrite Er, map_size_alter. done.
  - by eapply rehomed_xmit.
  - by eapply rehomed_recv.
  - eapply rehomed_xids; [done|done|]. intros q' Kq _ s p Ne Ks Tp. rewrite K2 in Kq. injection Kq as <-. destruct (HF q) as (_ & -> & _). by apply (Fx s p).
  - eapply rehomed_pins; [done|done|]. intros q' Kq. rewrite K2 in Kq. injection Kq as <-. destruct (HF q) as (_ & _ & -> & _). by apply (Pi r).
  - intros Hc. rewrite Er. rewrite credits_same by apply HF. by apply I.
Qed.
End Slots.
