(* ===== verification/TransportRelease.v ===== *)
(** * A slot is given back

    [xprt_release] takes the request from the queues, gives up the lock and the credit and then
    hands the slot to the first task of the backlog, or frees it. *)

From S2P Require Import Prelude Xdr WaitQueue WaitQueueInv WaitQueueFrame RbTree RpcTimer Transport TransportLock TransportCong TransportQueues TransportOps TransportSlots.
From stdpp Require Import list gmap sorting.
#[local] Open Scope Z_scope.

(** A request without a task. *)
Definition blank (q : rpc_rqst) : Prop := rq_task q = None /\ rq_pin q = 0 /\ rq_cong q = false.

(** [t] gives [r] up; [o] gets it, or nobody. *)
Record moved (t r : Z) (o : option Z) (x x' : rpc_xprt) : Prop := {
  mv_tk : forall v, get_tk x' v = if decide (v = t) then set_rq None (get_tk x v) else if decide (o = Some v) then set_rq (Some r) (get_tk x v) else get_tk x v;
  mv_new : forall u, o = Some u -> u <> t /\ tk_rqstp (get_tk x u) = None;
  mv_queues : x_queues x' = x_queues x;
  mv_reqs : forall s, s <> r -> x_reqs x' !! s = x_reqs x !! s;
  mv_req : forall q, x_reqs x' !! r = Some q -> blank q;
  mv_free : free (x_slots x') = free (x_slots x) /\ (is_Some o <-> is_Some (x_reqs x' !! r)) \/
    free (x_slots x') = r :: free (x_slots x) /\ o = None /\ is_Some (x_reqs x' !! r);
  mv_num : num_reqs (x_slots x') = Z.of_nat (size (x_reqs x'));
  mv_bounds : min_reqs (x_slots x') <= num_reqs (x_slots x') <= max_reqs (x_slots x') /\ 0 <= min_reqs (x_slots x');
  mv_congested : congested (x_slots x') = true -> free (x_slots x') = [] /\ num_reqs (x_slots x') = max_reqs (x_slots x');
  mv_backlog : forall v, v ∈ queued (backlog x') -> congested (x_slots x') = true /\ v <> t /\ o <> Some v /\ tk_rqstp (get_tk x v) = None;
}.

Lemma moved_holds t r o x x' v s : reqs_ok x -> holds x t r -> moved t r o x x' -> holds x' v s <-> holds x v s /\ v <> t \/ o = Some v /\ s = r.
Proof.
  intros R Ht M. unfold holds. rewrite (mv_tk _ _ _ _ _ M). destruct (decide (v = t)) as [->|Ne].
  - split; [done|]. intros [[_ ?]|[E _]]; [done|]. by destruct (mv_new _ _ _ _ _ M t E).
  - destruct (decide (o = Some v)) as [E|No]; [|split; [by left|intros [[? _]|[? _]]; done]].
    destruct (mv_new _ _ _ _ _ M v E) as [_ N]. rewrite N. cbn. split; [intros [= <-]; by right|]. intros [[? _]|[_ ->]]; done.
Qed.

Lemma moved_rehomed t r o x x' : reqs_ok x -> holds x t r -> need_xmit (get_tk x t) = false -> need_recv (get_tk x t) = false -> moved t r o x x' -> rehomed r x x'.
Proof.
  intros R Ht F1 F2 M. assert (forall v s, holds x' v s <-> holds x v s /\ v <> t \/ o = Some v /\ s = r) as Hh by (intros; by apply moved_holds).
  split; [| | | | |apply M|apply M].
  - intros v s Ne. rewrite Hh. split; [intros [[? _]|[_ ?]]; done|]. intros Hv. left. split; [done|]. intros ->. unfold holds in *. congruence.
  - intros v. rewrite (mv_tk _ _ _ _ _ M). by repeat case_decide.
  - intros v. rewrite (mv_tk _ _ _ _ _ M). by repeat case_decide.
  - intros v Hv. assert (v = t) as -> by (by eapply (sl_unique x (ro_slots x R))). done.
  - intros v Hv. apply Hh in Hv as [[Hv Ne]|[E _]]; [destruct Ne; by eapply (sl_unique x (ro_slots x R))|].
    destruct (mv_new _ _ _ _ _ M v E) as [_ N]. by apply no_request_flags.
Qed.

Lemma moved_ok t r o x x' : reqs_ok x -> holds x t r -> need_xmit (get_tk x t) = false -> need_recv (get_tk x t) = false -> moved t r o x x' -> reqs_ok x'.
Proof.
  intros R Ht F1 F2 M. pose proof (moved_rehomed t r o x x' R Ht F1 F2 M) as Rh. pose proof R as [Sl Xm Rc Xi Pi].
  assert (forall v s, holds x' v s <-> holds x v s /\ v <> t \/ o = Some v /\ s = r) as Hh by (intros; by apply moved_holds).
  split; [|by eapply rehomed_xmit|by eapply rehomed_recv|eapply rehomed_xids; [done|done|]|eapply rehomed_pins; [done|done|]];
    [|intros q K T; by destruct (mv_req _ _ _ _ _ M q K)|intros q K; destruct (mv_req _ _ _ _ _ M q K) as (_ & -> & _); done].
  destruct (sl_holds x Sl t r Ht) as [_ Nf]. pose proof (mv_free _ _ _ _ _ M) as Fr.
  assert (forall s, s <> r -> s ∈ free (x_slots x') <-> s ∈ free (x_slots x)) as Fs.
  { intros s Ne. destruct Fr as [[-> _]|[-> _]]; [done|]. rewrite elem_of_cons. tauto. }
  assert (forall v s, holds x v s -> v <> t -> s <> r) as Nr by (intros v s Hv Nv ->; by apply Nv, (sl_unique x Sl v t r)).
  destruct Sl as [A1 A2 A3 A4 A5 A6 A7 A8 A9 A10]. split; try apply M.
  - destruct Fr as [[-> _]|[-> _]]; [done|by constructor].
  - intros s Hs. destruct (decide (s = r)) as [->|Ne]; [|rewrite (mv_reqs _ _ _ _ _ M) by done; by apply A2, Fs].
    destruct Fr as [[E _]|[_ [_ [q K]]]]; [rewrite E in Hs; done|]. exists q. split; [done|]. by apply (mv_req _ _ _ _ _ M).
  - intros v s [[Hv Nv]|[E ->]]%Hh.
    + pose proof (Nr v s Hv Nv) as Ne. rewrite (mv_reqs _ _ _ _ _ M), Fs by done. by eapply A3.
    + destruct Fr as [[E' K]|(_ & C & _)]; [|congruence]. rewrite E'. split; [|done]. apply K. by eexists.
  - intros v w s Hv%Hh Hw%Hh. destruct Hv as [[Hv Nv]|[Ev Es]], Hw as [[Hw Nw]|[Ew Es']]; subst; [by eapply A4|by destruct (Nr v r)|by destruct (Nr w r)|congruence].
  - intros s Hs. destruct (decide (s = r)) as [->|Ne].
    + destruct Fr as [[E K]|(E & _ & _)]; [|left; rewrite E; left]. right. destruct (proj2 K Hs) as [u ->]. exists u. apply Hh. by right.
    + rewrite (mv_reqs _ _ _ _ _ M) in Hs by done. rewrite Fs by done. destruct (A5 s Hs) as [|[v Hv]]; [by left|right]. exists v. apply Hh. left. split; [done|].
      intros ->. unfold holds in *. congruence.
  - intros s q v K T. destruct (decide (s = r)) as [->|Ne]; [destruct (mv_req _ _ _ _ _ M q K); congruence|]. rewrite (mv_reqs _ _ _ _ _ M) in K by done.
    pose proof (A6 s q v K T) as Hv. apply Hh. left. split; [done|]. intros ->. unfold holds in *. congruence.
  - intros v Hv. destruct (mv_backlog _ _ _ _ _ M v Hv) as (C & Nt & No & N). split; [done|]. rewrite (mv_tk _ _ _ _ _ M). by destruct (decide (v = t)), (decide (o = Some v)).
Qed.

(** ** Waking the first of the backlog *)

(** A wake-up that also changes the message of the task. *)
Lemma scheds_woken x x' u k k' m : scheds_ok x -> sched_ok (with_queue (backlog x') x') -> wq_addr (backlog x') = wq_addr (backlog x) -> sending x' = sending x ->
  pending x' = pending x -> u ∈ queued (backlog x) -> x_tasks x !! u = Some k -> x_tasks x' = <[u := k']> (x_tasks x) -> tk_queued k' = false -> tk_owner k' = tk_owner k ->
  tk_priority k' = tk_priority k -> tk_active k' = tk_active k -> tk_msg k' = m -> scheds_ok x'.
Proof.
  intros S S' Ad Es Ep Hu K Et Q E1 E2 E3 E4. set (k0 := k' <| tk_msg := tk_msg k |>).
  set (x0 := x' <| x_tasks := <[u := k0]> (x_tasks x) |>).
  assert (x_tasks x0 = alter (fun k => k <| tk_msg := tk_msg k0 |>) u (x_tasks x')) as E0.
  { change (<[u := k0]> (x_tasks x) = alter (fun k => k <| tk_msg := tk_msg k0 |>) u (x_tasks x')). rewrite Et, alter_insert_eq. done. }
  assert (sched_ok (with_queue (backlog x0) x0)) as S0.
  { assert (with_queue (backlog x0) x0 = on_task u (fun k => k <| tk_msg := tk_msg k0 |>) (with_queue (backlog x') x')) as ->.
    { unfold with_queue at 1. rewrite E0. done. }
    apply on_task_ok; [|done]. by intros. }
  destruct (scheds_backlog x x0 S) as [S1 _]; [|done|done|].
  - split; [done| |done]. intros v. change (sc_tasks (with_queue (backlog x) x)) with (x_tasks x). change (sc_tasks (with_queue (backlog x0) x0)) with (<[u := k0]> (x_tasks x)).
    destruct (decide (v = u)) as [->|Ne]; [rewrite lookup_insert_eq, K|rewrite lookup_insert_ne by done; destruct (x_tasks x !! v); constructor; apply kept_refl].
    constructor. apply asleep_frame; [unfold tinfo, k0; cbn; congruence| |by left].
    left. apply (so_queued _ (sc_backlog x S)) in Hu as (k1 & K1 & A1). simpl in K1. congruence.
  - assert (x_tasks x' = alter (fun k => k <| tk_msg := (fun _ => m) (tk_msg k) |>) u (x_tasks x0)) as E5.
    { change (x_tasks x0) with (<[u := k0]> (x_tasks x)). rewrite Et, alter_insert_eq. f_equal. subst m. unfold k0. by destruct k'. }
    destruct (on_xtask_scheds u (fun _ => m) x0 S1) as [B1 B2 B3 B4 B5]. split; [..|done|]; unfold with_queue in *; rewrite E5; done.
Qed.

Lemma set_rq_offers r : offers (__xprt_set_rq r) tt (set_rq (Some r)).
Proof. intros k. unfold __xprt_set_rq. destruct (tk_rqstp (tk_msg k)); [by right|by left]. Qed.

(** The tasks after a wake-up of the backlog, and who got the request. *)
Lemma wake_backlog_spec r x b x' : scheds_ok x -> (forall v, v ∈ queued (backlog x) -> tk_rqstp (get_tk x v) = None) -> xprt_wake_up_backlog r x = (b, x') ->
  scheds_ok x' /\ x_lock x' = x_lock x /\ sending x' = sending x /\ x_queues x' = x_queues x /\ (forall v, is_Some (info x' !! v) <-> is_Some (info x !! v)) /\
  match b with
  | true => exists u, queued (backlog x) ≡ₚ u :: queued (backlog x') /\ x_slots x' = x_slots x /\ x_reqs x' = alter (fun _ => rq_zero) r (x_reqs x) /\
      forall v, get_tk x' v = if decide (v = u) then set_rq (Some r) (get_tk x v) else get_tk x v
  | false => queued (backlog x) = [] /\ queued (backlog x') = [] /\ x_slots x' = (x_slots x) <| congested := false |> /\ x_reqs x' = x_reqs x /\ forall v, get_tk x' v = get_tk x v
  end.
Proof.
  intros S Nb E. unfold xprt_wake_up_backlog in E. destruct (rpc_wake_up_first (__xprt_set_rq r) tt (with_queue (backlog x) x)) as [o [[] s]] eqn:W.
  destruct (wake_first_spec _ tt _ _ o tt s (set_rq_offers r) (sc_backlog x S) W) as (S' & Ad & C).
  set (y := (back s x) <| backlog := sc_queue s |>) in *. assert (with_queue (backlog y) y = s) as Ey by by destruct s.
  change (sc_tasks (with_queue (backlog x) x)) with (x_tasks x) in C. change (queued (sc_queue (with_queue (backlog x) x))) with (queued (backlog x)) in C.
  change (wq_addr (sc_queue (with_queue (backlog x) x))) with (wq_addr (backlog x)) in Ad.
  destruct o as [u|]; injection E as <- <-.
  - destruct C as (P & k & k' & K & K' & Q & E1 & E2 & E3 & E4 & _ & Fr).
    assert (x_tasks y = <[u := k']> (x_tasks x)) as Et.
    { change (sc_tasks s = <[u := k']> (x_tasks x)). apply map_eq. intros v. destruct (decide (v = u)) as [->|]; [by rewrite lookup_insert_eq|rewrite lookup_insert_ne by done; by apply Fr]. }
    assert (scheds_ok y) as Sy.
    { eapply (scheds_woken x y u k k'); try done; [by rewrite Ey|]. rewrite P. left. }
    split_and!; try done.
    + eapply scheds_same; [exact Sy|apply acts_refl|done|done|done].
    + intros v. rewrite !info_some. change (x_tasks (on_req r (fun _ => rq_zero) y)) with (x_tasks y). rewrite Et. destruct (decide (v = u)) as [->|]; [|by rewrite lookup_insert_ne].
      rewrite lookup_insert_eq, K. split; intros; by eexists.
    + exists u. split_and!; try done. intros v. unfold get_tk at 1. change (x_tasks (on_req r (fun _ => rq_zero) y)) with (x_tasks y). rewrite Et. unfold get_tk.
      destruct (decide (v = u)) as [->|]; [|by rewrite lookup_insert_ne]. rewrite lookup_insert_eq, K. done.
  - destruct C as (Et & Eq & C). assert (queued (backlog x) = []) as Q0.
    { destruct C as [|(u & k & Hu & K & F)]; [done|]. specialize (Nb u Hu). unfold get_tk in Nb. rewrite K in Nb. cbn in Nb. unfold __xprt_set_rq in F. by rewrite Nb in F. }
    assert (x_tasks y = x_tasks x) as Ety by done.
    destruct (scheds_backlog x y S) as [Sy Iy]; [|done|done|].
    { rewrite Ey. split; [done| |done]. rewrite Et. apply acts_refl. }
    split_and!; try done.
    + eapply scheds_same; [exact Sy|apply acts_refl|done|done|done].
    + intros v. change (info (on_slots (fun s => s <| congested := false |>) y)) with (info y). by rewrite Iy.
    + change (queued (sc_queue s) = []). by rewrite Eq.
    + intros v. by apply get_tk_info.
Qed.

(** ** Giving the slot back *)

Section Release.
Context (counts : bool).
Implicit Type run : bool.
Notation inv := (inv counts).

Lemma credits_delete m r : (forall q, m !! r = Some q -> rq_cong q = false) -> credits (delete r m) = credits m.
Proof.
  intros N. destruct (m !! r) as [q|] eqn:K; [|by rewrite delete_id]. rewrite (credits_split m r q K), (N q eq_refl). lia.
Qed.

Lemma credits_reset m r : (forall q, m !! r = Some q -> rq_cong q = false) -> credits (alter (fun _ => rq_zero) r m) = credits m.
Proof.
  intros N. destruct (m !! r) as [q|] eqn:K; [|by rewrite alter_id; [|intros; congruence]]. rewrite (credits_alter m r _ q K), (N q eq_refl). cbn. lia.
Qed.

Lemma lookup_reset (m : gmap Z rpc_rqst) r q : alter (fun _ => rq_zero) r m !! r = Some q -> blank q.
Proof. rewrite lookup_alter_eq. destruct (m !! r); [intros [= <-]; done|done]. Qed.

Lemma freed_tk t x r v : holds x t r -> get_tk (on_xtask t (set_rq None) x) v = if decide (v = t) then set_rq None (get_tk x v) else get_tk x v.
Proof.
  intros Ht. rewrite on_xtask_get. pose proof (holds_exists x t r Ht). destruct (decide (v = t)) as [->|]; destruct (decide _) as [[? ?]|N]; try done; tauto.
Qed.

(** Everything but the slots of the moved request stays. *)
Lemma moved_inv run t r o x x' : inv run x -> holds x t r -> need_xmit (get_tk x t) = false -> need_recv (get_tk x t) = false -> moved t r o x x' ->
  scheds_ok x' -> x_lock x' = x_lock x -> max_reqs (x_slots x') = max_reqs (x_slots x) -> sending x' = sending x -> (forall v, is_Some (info x' !! v) <-> is_Some (info x !! v)) ->
  credits (x_reqs x') = credits (x_reqs x) -> Z.of_nat (size (x_reqs x')) < 2 ^ 32 -> inv run x'.
Proof.
  intros I Ht F1 F2 M S El Em Es Hi Hc Hs. split; [split; [|by eapply (moved_ok t r o x x'); [eapply inv_reqs|..]]|by rewrite Hc; apply I].
  by apply (net_gen run x); [eapply inv_net|..].
Qed.

(** The three ends of a slot: the first waiter, the memory allocator, the free list. *)
Lemma moved_handed t r u x x' : reqs_ok x -> holds x t r -> NoDup (queued (backlog x)) -> queued (backlog x) ≡ₚ u :: queued (backlog x') ->
  x_queues x' = x_queues x -> x_slots x' = x_slots x -> x_reqs x' = alter (fun _ => rq_zero) r (x_reqs x) ->
  (forall v, get_tk x' v = if decide (v = t) then set_rq None (get_tk x v) else if decide (Some u = Some v) then set_rq (Some r) (get_tk x v) else get_tk x v) -> moved t r (Some u) x x'.
Proof.
  intros [Sl _ _ _ _] Ht Nd P Eq Esl Er G. rewrite P in Nd. apply NoDup_cons in Nd as [Nu _]. destruct (sl_holds x Sl t r Ht) as [Kr _].
  assert (forall v, v ∈ queued (backlog x) -> congested (x_slots x) = true /\ v <> t /\ tk_rqstp (get_tk x v) = None) as Nb.
  { intros v Hv. destruct (sl_backlog x Sl v Hv) as [C E]. split_and!; try done. intros ->. unfold holds in Ht. congruence. }
  split; rewrite ?Esl, ?Er; try done; try apply Sl.
  - intros v [= <-]. apply Nb. rewrite P. left.
  - intros s Ne. by apply lookup_alter_ne.
  - intros p Kp. by eapply lookup_reset.
  - left. split; [done|]. rewrite lookup_alter_is_Some. split; [done|intros; by eexists].
  - rewrite map_size_alter. apply Sl.
  - intros v Hv. destruct (Nb v) as (C & Nv & Rv); [rewrite P; by right|]. split_and!; try done. by intros [= <-].
Qed.

Lemma moved_freed t r x x' : reqs_ok x -> holds x t r -> min_reqs (x_slots x) < num_reqs (x_slots x) -> num_reqs (x_slots x) < 2 ^ 32 -> queued (backlog x') = [] ->
  x_queues x' = x_queues x -> x_slots x' = (x_slots x) <| congested := false |> <| num_reqs := u32 (num_reqs (x_slots x) - 1) |> -> x_reqs x' = delete r (x_reqs x) ->
  (forall v, get_tk x' v = if decide (v = t) then set_rq None (get_tk x v) else if decide (@None Z = Some v) then set_rq (Some r) (get_tk x v) else get_tk x v) -> moved t r None x x'.
Proof.
  intros [Sl _ _ _ _] Ht L L2 Q Eq Esl Er G. destruct (sl_holds x Sl t r Ht) as [[q K] _]. pose proof (sl_bounds x Sl) as B.
  assert (u32 (num_reqs (x_slots x) - 1) = num_reqs (x_slots x) - 1) as Eu by (apply u32_id; unfold is_u32; lia).
  split; rewrite ?Esl, ?Er; try done.
  - intros s Ne. by apply lookup_delete_ne.
  - intros p. by rewrite lookup_delete_eq.
  - left. split; [done|]. rewrite lookup_delete_eq. split; by intros [? ?].
  - change (u32 (num_reqs (x_slots x) - 1) = Z.of_nat (size (delete r (x_reqs x)))). rewrite Eu, map_size_delete_Some, (sl_num x Sl) by by eexists.
    assert (size (x_reqs x) <> 0%nat) by (intros Z0; apply map_size_empty_inv in Z0; rewrite Z0 in K; done). lia.
  - change (min_reqs (x_slots x) <= u32 (num_reqs (x_slots x) - 1) <= max_reqs (x_slots x) /\ 0 <= min_reqs (x_slots x)). rewrite Eu. lia.
  - intros v Hv. rewrite Q in Hv. by apply elem_of_nil in Hv.
Qed.

Lemma moved_shelved t r x x' : reqs_ok x -> holds x t r -> queued (backlog x') = [] -> x_queues x' = x_queues x ->
  x_slots x' = (x_slots x) <| congested := false |> <| free := r :: free (x_slots x) |> -> x_reqs x' = alter (fun _ => rq_zero) r (x_reqs x) ->
  (forall v, get_tk x' v = if decide (v = t) then set_rq None (get_tk x v) else if decide (@None Z = Some v) then set_rq (Some r) (get_tk x v) else get_tk x v) -> moved t r None x x'.
Proof.
  intros [Sl _ _ _ _] Ht Q Eq Esl Er G. destruct (sl_holds x Sl t r Ht) as [Kr _]. split; rewrite ?Esl, ?Er; try done; try apply Sl.
  - intros s Ne. by apply lookup_alter_ne.
  - intros p Kp. by eapply lookup_reset.
  - right. split_and!; try done. by apply lookup_alter_is_Some.
  - rewrite map_size_alter. apply Sl.
  - intros v Hv. rewrite Q in Hv. by apply elem_of_nil in Hv.
Qed.

Lemma free_slot_ok run t r x : inv run x -> holds x t r -> need_xmit (get_tk x t) = false -> need_recv (get_tk x t) = false -> rq_cong (get_req x r) = false ->
  let x' := xprt_free_slot r (on_xtask t (set_rq None) x) in
  inv run x' /\ (forall v, is_Some (info x' !! v) <-> is_Some (info x !! v)) /\ exists o, moved t r o x x' /\
    match o with Some u => queued (backlog x) ≡ₚ u :: queued (backlog x') /\ x_reqs x' !! r = Some rq_zero | None => queued (backlog x) = [] /\ queued (backlog x') = [] end.
Proof.
  intros I Ht F1 F2 Cg. pose proof (inv_reqs _ _ _ I) as R. pose proof (ro_slots x R) as Sl. pose proof (inv_net _ _ _ I) as N. set (x1 := on_xtask t (set_rq None) x).
  assert (forall v, get_tk x1 v = if decide (v = t) then set_rq None (get_tk x v) else get_tk x v) as G1 by (intros; by apply (freed_tk t x r)).
  unfold xprt_free_slot. destruct (xprt_wake_up_backlog r x1) as [b x2] eqn:W. destruct (wake_backlog_spec r x1 b x2) as (S2 & El & Es & Eq & Hi & C); [apply on_xtask_scheds, N| |done|].
  { intros v Hv. rewrite G1. destruct (decide _); [done|]. by apply (sl_backlog x Sl v Hv). }
  assert (forall v, is_Some (info x2 !! v) <-> is_Some (info x !! v)) as Hi' by (intros v; rewrite Hi; apply on_xtask_info).
  assert (forall p, x_reqs x !! r = Some p -> rq_cong p = false) as Cq by (intros p Kp; unfold get_req in Cg; by rewrite Kp in Cg).
  change (x_reqs x1) with (x_reqs x) in C. change (x_slots x1) with (x_slots x) in C. change (backlog x1) with (backlog x) in C. change (x_queues x1) with (x_queues x) in Eq.
  pose proof (proj2 (proj2 (proj2 N))) as Sz. destruct b.
  - destruct C as (u & P & Esl & Er & G). assert (moved t r (Some u) x x2) as M.
    { apply moved_handed; try done; [apply (qo_nodup _ _ (so_queue _ (sc_backlog x (lk_scheds _ _ (proj1 N)))))|].
      intros v. rewrite G, !G1. destruct (decide (v = t)) as [->|]; [|destruct (decide (v = u)) as [->|]; destruct (decide (Some _ = Some _)); done || congruence].
      destruct (decide (t = u)) as [<-|]; [|done]. destruct (sl_backlog x Sl t) as [_ E]; [rewrite P; left|]. unfold holds in Ht. congruence. }
    split; [eapply (moved_inv run t r (Some u)); try done; [by rewrite Esl|by rewrite Er, credits_reset|by rewrite Er, map_size_alter]|]. split; [done|]. exists (Some u).
    split; [done|]. split; [done|]. destruct (sl_holds x Sl t r Ht) as [[q K] _]. by rewrite Er, lookup_alter_eq, K.
  - destruct C as (Q0 & Q2 & Esl & Er & G).
    assert (forall v, get_tk x2 v = if decide (v = t) then set_rq None (get_tk x v) else if decide (@None Z = Some v) then set_rq (Some r) (get_tk x v) else get_tk x v) as G'
      by (intros v; by rewrite G, G1).
    unfold xprt_dynamic_free_slot. rewrite Esl.
    change (min_reqs ((x_slots x) <| congested := false |>)) with (min_reqs (x_slots x)). change (num_reqs ((x_slots x) <| congested := false |>)) with (num_reqs (x_slots x)).
    destruct (Z.ltb_spec (min_reqs (x_slots x)) (num_reqs (x_slots x))) as [L|L]; set (x3 := _ <| x_reqs := _ |>) || set (x3 := on_slots _ _).
    + assert (x_reqs x3 = delete r (x_reqs x)) as Er3 by (change (delete r (x_reqs x2) = delete r (x_reqs x)); by rewrite Er).
      assert (x_slots x3 = (x_slots x) <| congested := false |> <| num_reqs := u32 (num_reqs (x_slots x) - 1) |>) as Es3.
      { change (x_slots x3) with ((x_slots x2) <| num_reqs := u32 (num_reqs (x_slots x2) - 1) |>). by rewrite Esl. }
      assert (moved t r None x x3) as M by (apply moved_freed; try done; rewrite (sl_num x Sl); done).
      assert (scheds_ok x3) as S3 by (eapply scheds_same; [exact S2|apply acts_refl|done|done|done]).
      split; [eapply (moved_inv run t r None); try done; [by rewrite Es3|by rewrite Er3, credits_delete|rewrite Er3, map_size_delete_Some by apply (sl_holds x Sl t r Ht); clear -Sz; lia]|].
      split; [exact Hi'|]. exists None. by split.
    + assert (x_reqs x3 = alter (fun _ => rq_zero) r (x_reqs x)) as Er3 by (change (alter (fun _ => rq_zero) r (x_reqs x2) = alter (fun _ => rq_zero) r (x_reqs x)); by rewrite Er).
      assert (x_slots x3 = (x_slots x) <| congested := false |> <| free := r :: free (x_slots x) |>) as Es3.
      { change (x_slots x3) with ((x_slots x2) <| free := r :: free (x_slots x2) |>). by rewrite Esl. }
      assert (moved t r None x x3) as M by by apply moved_shelved.
      assert (scheds_ok x3) as S3 by (eapply scheds_same; [exact S2|apply acts_refl|done|done|done]).
      split; [eapply (moved_inv run t r None); try done; [by rewrite Es3|by rewrite Er3, credits_reset|by rewrite Er3, map_size_alter]|]. split; [exact Hi'|]. exists None. by split.
Qed.
End Release.
