(* ===== verification/TransportSteps.v ===== *)
(** * Whole operations of a transport

    The operations tasks, replies, timers and workers call, for any transport whose methods keep
    the contract [XprtOps]: each keeps the invariant; sending empties the transmit queue and
    ends. *)

From S2P Require Import Prelude Xdr WaitQueue WaitQueueInv WaitQueueFrame RbTree RpcTimer Transport TransportLock TransportCong TransportQueues TransportOps TransportSlots TransportRelease.
From stdpp Require Import list gmap sorting.
#[local] Open Scope Z_scope.

Section Steps.
Context (ops : rpc_xprt_ops) (counts : bool) (cookie : Z) `{!XprtOps ops counts cookie} `{RbShape Z} `{Clock}.
Implicit Type run : bool.
Notation inv := (inv counts).

Definition keeps (run : bool) (x x' : rpc_xprt) : Prop := inv run x' /\ stays x x'.

Lemma keeps_refl run x : inv run x -> keeps run x x.
Proof. intros I. split; [done|apply stays_refl]. Qed.

Lemma keeps_then run x y z : keeps run x y -> (inv run y -> keeps run y z) -> keeps run x z.
Proof. intros [I S] K. destruct (K I) as [I2 S2]. split; [done|by eapply stays_trans]. Qed.

Lemma keeps_quiet run x x' : inv run x -> (net_ok run x -> net_ok run x' /\ quiet x x') -> keeps run x x'.
Proof. intros I K. eapply inv_quiet; [apply K; by eapply inv_net|done]. Qed.

Lemma keeps_soft run x x' : inv run x -> net_ok run x' -> soft x x' -> keeps run x x'.
Proof. intros I N S. split; [by eapply inv_soft|by apply soft_stays]. Qed.

(** Fields of the task that the queues do not look at. *)
Lemma keeps_xtask run t f x : (forall k, tk_rqstp (f k) = tk_rqstp k /\ need_xmit (f k) = need_xmit k /\ need_recv (f k) = need_recv k) -> inv run x -> keeps run x (on_xtask t f x).
Proof.
  intros F I. destruct (x_tasks x !! t) as [k|] eqn:K.
  - assert (flagged t f x (on_xtask t f x)) as Fl.
    { split; try done; [|intros; apply F]. intros u. rewrite on_xtask_get, K. destruct (decide (u = t)) as [->|]; destruct (decide _) as [[? ?]|N]; try done. destruct N. split; [done|by eexists]. }
    pose proof (inv_reqs _ _ _ I) as [Sl Xm Rc Xi Pi]. destruct (flagged_ok _ _ _ _ Fl Sl Xi Pi) as (Sl' & Xi' & Pi').
    split; [|eapply flagged_stays; [done|intros u; apply on_xtask_info]]. apply (inv_of counts run x); [by apply on_xtask_net, (inv_net counts)| |done|done].
    split; [done|eapply flagged_xmit; try done; intros; apply F|eapply flagged_recv; try done; intros; apply F|done|done].
  - assert (alter (fun k => k <| tk_msg := f (tk_msg k) |>) t (x_tasks x) = x_tasks x) as E by (apply alter_id; intros; congruence).
    assert (on_xtask t f x = x) as ->; [|by apply keeps_refl]. destruct x. unfold on_xtask, on_tk in *. cbn in E |- *. by rewrite E.
Qed.

(** Only the value at [r] counts. *)
Lemma on_req_ext r f g x : (forall q, x_reqs x !! r = Some q -> f q = g q) -> on_req r f x = on_req r g x.
Proof.
  intros E. assert (alter f r (x_reqs x) = alter g r (x_reqs x)) as Em.
  { apply map_eq. intros s. destruct (decide (s = r)) as [->|]; [rewrite !lookup_alter_eq|by rewrite !lookup_alter_ne]. destruct (x_reqs x !! r) as [q|]; [|done]. simpl. by rewrite E. }
  destruct x. unfold on_req in *. cbn in Em |- *. by rewrite Em.
Qed.

(** ** Replies *)

Lemma keeps_lookup run ktime xid x : inv run x -> keeps run x (snd (xprt_lookup_rqst ktime xid x)).
Proof. intros I. unfold xprt_lookup_rqst. destruct (xprt_request_rb_find xid x); cbn [snd]; [by apply inv_req|]. apply keeps_quiet; [done|]. apply net_stat. Qed.

Lemma keeps_update_rtt run t x : inv run x -> keeps run x (xprt_update_rtt t x).
Proof. intros I. unfold xprt_update_rtt. destruct (_ =? 0); [by apply keeps_refl|]. apply keeps_quiet; [done|]. apply net_clnts. Qed.

Lemma keeps_complete run t copied x : inv run x -> keeps run x (xprt_complete_rqst t copied x).
Proof.
  intros I. unfold xprt_complete_rqst. eapply keeps_then; [|intros I3; apply keeps_quiet; [exact I3|apply wake_one_pending_net]].
  eapply keeps_then; [|intros I2; apply inv_dequeue_receive, I2]. eapply keeps_then; [|intros I1; apply inv_req; [done|exact I1]].
  apply keeps_quiet; [done|]. apply net_stat.
Qed.

Lemma keeps_adjust_cwnd run t result x : inv run x -> keeps run x (xprt_adjust_cwnd t result x).
Proof.
  intros I. destruct (adjust_cwnd_ok run t result x (inv_net _ _ _ I)) as (N & C & R & _). apply keeps_soft; [done|done|].
  by apply (soft_alter (rqstp x t) drop_credit).
Qed.

(** ** Timers *)

Lemma keeps_timer run t x : inv run x -> keeps run x (xprt_timer ops t x).
Proof.
  intros I. unfold xprt_timer. destruct (negb _); [by apply keeps_refl|]. destruct (_ =? 0); [|apply keeps_quiet; [done|apply net_status]].
  destruct (op_timer run t x (inv_net _ _ _ I)). by apply keeps_soft.
Qed.

Lemma keeps_wait_receive run now t x : inv run x -> keeps run x (xprt_request_wait_receive ops now t x).
Proof.
  intros I. unfold xprt_request_wait_receive. destruct (negb _); [by apply keeps_refl|]. eapply keeps_then; [apply keeps_quiet; [done|apply op_wait]|]. intros I1.
  destruct (xprt_request_retransmit_after_disconnect _ _); [|by apply keeps_refl]. apply keeps_quiet; [done|]. apply wake_one_pending_status_net.
Qed.

Lemma adjust_timeout_keeps now to q : let q' := snd (adjust_timeout now to q) in
  rq_task q' = rq_task q /\ rq_xid q' = rq_xid q /\ rq_pin q' = rq_pin q /\ rq_cong q' = rq_cong q.
Proof. unfold adjust_timeout. cbv zeta. destruct (time_before now (rq_majortimeo q)); [destruct (time_before now (rq_minortimeo q)); [done|]|]; cbn [snd]; by destruct (_ =? 0). Qed.

Lemma keeps_adjust_timeout run now t x : inv run x -> keeps run x (snd (xprt_adjust_timeout now t x)).
Proof.
  intros I. unfold xprt_adjust_timeout. destruct (adjust_timeout now (get_timeout x t) (task_req x t)) as [major req] eqn:E.
  set (y := on_req (rqstp x t) (fun _ => req) x). assert (keeps run x y) as K.
  { assert (y = on_req (rqstp x t) (fun q => snd (adjust_timeout now (get_timeout x t) q)) x) as ->.
    { apply on_req_ext. intros q Q. unfold task_req, get_req in E. rewrite Q in E. simpl in E. by rewrite E. }
    apply inv_req; [|done]. intros q. apply adjust_timeout_keeps. }
  destruct major; [|exact K]. eapply keeps_then; [exact K|]. intros I1. apply keeps_quiet; [done|]. apply net_clnts.
Qed.

(** The timers of the queues of tasks. *)
Lemma keeps_pending_timer run now x : inv run x -> keeps run x (on_pending (__rpc_queue_timer_fn now) x).
Proof. intros I. apply keeps_quiet; [done|]. intros N. apply on_pending_net; [done|]. apply timer_fn_op. apply (lk_scheds _ _ (proj1 N)). Qed.

Lemma keeps_sending_timer run now x : inv run x -> keeps run x (on_sending (__rpc_queue_timer_fn now) x).
Proof.
  intros I. apply keeps_quiet; [done|]. intros N. destruct (timer_fn_op now _ (sc_sending x (lk_scheds _ _ (proj1 N)))) as [O Q]. by apply on_sending_shrink.
Qed.

(** ** The lock *)

Lemma keeps_lock_write run now t x : inv run x -> awake x t -> keeps run x (snd (xprt_lock_write ops now t x)) /\
  (fst (xprt_lock_write ops now t x) = true -> snd_task (x_lock (snd (xprt_lock_write ops now t x))) = Some t).
Proof.
  intros I A. unfold xprt_lock_write. case_bool_decide as E; [rewrite andb_true_r|rewrite andb_false_r].
  - rewrite (ow_snd _ _ (lk_owned _ _ (proj1 (inv_net _ _ _ I))) t E). split; [by apply keeps_refl|done].
  - destruct (op_reserve run now t x (proj1 (inv_net _ _ _ I)) A) as (L & Q & G). split; [|intros F; by apply G]. apply keeps_quiet; [done|]. intros N. split; [by eapply quiet_net|done].
Qed.

Lemma keeps_release_write run t x : inv run x -> is_Some (info x !! t) -> keeps run x (xprt_release_write ops (Some t) x).
Proof.
  intros I Hi. unfold xprt_release_write. destruct (negb _); [by apply keeps_refl|]. destruct op_release as [g G]. rewrite G. apply keeps_quiet; [done|].
  intros N. destruct (release_task_ok g run x t (proj1 N) Hi) as [L Q]. split; [by eapply quiet_net|done].
Qed.

Lemma keeps_prepare_transmit run now t x : inv run x -> awake x t -> keeps run x (snd (xprt_prepare_transmit ops now t x)).
Proof.
  intros I A. unfold xprt_prepare_transmit. destruct (keeps_lock_write run now t x I A) as [K _]. destruct (xprt_lock_write ops now t x) as [got y]. cbn [fst snd] in K. destruct got; cbn [snd]; [done|].
  destruct (negb _); [|done]. eapply keeps_then; [exact K|]. intros I1. apply keeps_quiet; [done|]. apply wake_sender_net.
Qed.
(** ** Connecting and closing *)

(** The owner of the lock clears [XPRT_CLOSE_WAIT]. *)
Lemma clear_close_wait_net run x : net_ok run x -> net_ok run (on_lock (fun l => l <| close_wait := false |>) x) /\ quiet x (on_lock (fun l => l <| close_wait := false |>) x).
Proof.
  intros ([S O W] & C & Sz). split; [|by apply quiet_lock]. split; [|done]. split; [eapply scheds_same; [exact S|apply acts_refl|done|done|done]| |done].
  destruct O as [H1 H2 H3 H4 H5 H6 H7 H8 H9 H10]. by split.
Qed.

Lemma keeps_autoclose x : inv false x -> task_cleanup (x_lock x) = true -> keeps false x (xprt_autoclose ops x).
Proof.
  intros I C. unfold xprt_autoclose. set (x1 := on_lock _ x). pose proof (cleanup_starts x (inv_net _ _ _ I) C) as N1. fold x1 in N1.
  assert (quiet x x1) as Q1 by by apply quiet_lock. destruct (inv_quiet counts false true x x1 (conj N1 Q1) I) as [I1 S1].
  destruct (op_close true x1 I1) as [I2 S2]. set (x2 := close ops x1) in *. destruct (ow_run _ _ (lk_owned _ _ (proj1 (inv_net _ _ _ I2))) eq_refl) as (_ & E & _).
  unfold xprt_release_write. rewrite E, bool_decide_eq_true_2 by done. cbn [negb]. destruct op_release as [g G]. rewrite G.
  destruct (release_run_ok g x2 (proj1 (inv_net _ _ _ I2))) as [L Q]. pose proof (quiet_net true false _ _ Q L (inv_net _ _ _ I2)) as N3.
  destruct (inv_quiet counts true false x2 _ (conj N3 Q) I2) as [I3 S3]. split; [exact I3|]. eapply stays_trans; [exact S1|]. eapply stays_trans; [exact S2|exact S3].
Qed.

Lemma keeps_unlock_connect now c x : inv false x -> keeps false x (xprt_unlock_connect ops now c x).
Proof.
  intros I. unfold xprt_unlock_connect. case_bool_decide as E; cbn [negb]; [|by apply keeps_refl]. destruct (negb _); [by apply keeps_refl|].
  eapply keeps_then; [|intros I1; apply keeps_quiet; [exact I1|apply schedule_autodisconnect_net]]. destruct op_release as [g G]. rewrite G.
  apply keeps_quiet; [done|]. intros N. by apply (unlock_connect_release g false c x).
Qed.

Lemma stays_cookie x x' : stays x x' -> info x !! cookie = None -> info x' !! cookie = None.
Proof. intros [_ S] C. apply eq_None_not_Some. rewrite S, C. by intros [? ?]. Qed.

Lemma keeps_connect now t x : inv false x -> info x !! cookie = None -> awake x t -> keeps false x (xprt_connect ops now t x).
Proof.
  intros I C A. unfold xprt_connect. destruct (negb _); [apply keeps_quiet; [done|apply net_status]|]. destruct (keeps_lock_write false now t x I A) as [K _].
  destruct (xprt_lock_write ops now t x) as [got y]. cbn [snd] in K. destruct got; cbn [negb]; [|done].
  eapply keeps_then; [exact K|]. intros Iy. assert (info y !! cookie = None) as Cy by (eapply stays_cookie; [apply K|done]). assert (is_Some (info y !! t)) as Hi by (apply K, A).
  set (y1 := if close_wait (x_lock y) then _ else _). assert (keeps false y y1) as K1.
  { unfold y1. destruct (close_wait (x_lock y)); [|by apply keeps_refl]. eapply keeps_then; [|intros I1; apply op_close, I1]. apply keeps_quiet; [done|]. apply clear_close_wait_net. }
  destruct (xprt_connected y1) eqn:Cn.
  { eapply keeps_then; [exact K1|]. intros I1. apply keeps_release_write; [done|]. by apply K1. }
  set (y2 := on_req _ _ y1). assert (keeps false y y2) as K2 by (eapply keeps_then; [exact K1|]; intros I1; apply inv_req; [done|exact I1]).
  set (y3 := on_pending _ y2). assert (keeps false y y3) as K3 by (eapply keeps_then; [exact K2|]; intros I2; apply keeps_quiet; [done|]; apply sleep_pending_net).
  destruct (closing (x_conn y3)); [done|]. destruct (connecting (x_conn y3)); [done|]. set (y4 := on_conn (fun c => c <| connecting := true |>) y3).
  assert (keeps false y y4) as K4 by (eapply keeps_then; [exact K3|]; intros I3; apply keeps_quiet; [done|]; apply on_conn_net).
  change (xprt_connected y4) with (xprt_connected y3). set (y5 := if negb (xprt_connected y3) then _ else _).
  assert (keeps false y y5) as K5.
  { unfold y5. eapply keeps_then; [exact K4|]. intros I4. destruct (negb _).
    - eapply keeps_then; [apply keeps_quiet; [exact I4|apply (on_conn_net false (fun c => c <| connect_start := now |>))]|]. intros I5. apply op_connect; [done|].
      change (info y4 !! cookie = None). eapply stays_cookie; [apply K4|done].
    - eapply keeps_then; [|intros I6; apply keeps_quiet; [exact I6|apply wake_one_pending_net]]. eapply keeps_then; [|intros I5; apply keeps_quiet; [exact I5|apply net_status]].
      apply keeps_quiet; [done|]. apply on_conn_net. }
  eapply keeps_then; [exact K5|]. intros I5. apply keeps_release_write; [done|]. by apply K5.
Qed.

(** ** Sending *)

Lemma keeps_pin run r t x : inv run x -> ready x t r -> keeps run x (xprt_pin_rqst r x).
Proof.
  intros I R. pose proof (inv_reqs _ _ _ I) as Rq. apply (inv_pin counts run r 1 x); [|apply (sl_holds x (ro_slots x Rq) t r (proj1 R))|done].
  intros q K. pose proof (ro_pins x Rq r q K). lia.
Qed.

Lemma keeps_unpin run r t x : inv run x -> ready x t r -> 1 <= rq_pin (get_req x r) -> keeps run x (xprt_unpin_rqst r x).
Proof.
  intros I R P. pose proof (inv_reqs _ _ _ I) as Rq.
  destruct (inv_pin counts run r (-1) x) as [I1 S1]; [|apply (sl_holds x (ro_slots x Rq) t r (proj1 R))|done|by split].
  intros q K. unfold get_req in P. rewrite K in P. cbn in P. lia.
Qed.

(** The queues give up [r] and nothing else, and the pins stay. *)
Lemma keeps_out_dequeue run t st x : inv run x -> keeps run x (snd (out_dequeue t st x)) /\ (forall s, get_req (snd (out_dequeue t st x)) s = get_req x s) /\
  xmit_queue (x_queues (snd (out_dequeue t st x))) = (if need_xmit (get_tk x t) then __rpc_list_dequeue_task (xmit_queue (x_queues x)) (rqstp x t) else xmit_queue (x_queues x)).
Proof.
  intros I. unfold out_dequeue, xprt_request_dequeue_transmit. cbn [snd]. pose proof (inv_dequeue_transmit counts run t x I) as K1. set (y := xprt_request_dequeue_transmit_locked t x) in *.
  pose proof (wake_sender_net run t st y (inv_net _ _ _ (proj1 K1))) as [N Q]. split; [eapply keeps_then; [exact K1|]; intros I1; apply keeps_quiet; [done|by intros _]|].
  assert (x_reqs y = x_reqs x /\ xmit_queue (x_queues y) = if need_xmit (get_tk x t) then __rpc_list_dequeue_task (xmit_queue (x_queues x)) (rqstp x t) else xmit_queue (x_queues x)) as [E1 E2].
  { unfold y, xprt_request_dequeue_transmit_locked. destruct (need_xmit (get_tk x t)) eqn:Nx; cbn [negb]; [|done]. split; [done|].
    set (z := on_xtask t _ x). assert (rqstp z t = rqstp x t) as <-; [|done]. unfold rqstp, z. rewrite on_xtask_get. by destruct (decide _). }
  split; [intros s; unfold get_req; by rewrite (qt_reqs _ _ Q), E1|]. by rewrite (qt_queues _ _ Q).
Qed.
(** One request is sent: it leaves the queue, or the transport said no. *)
Definition sent_or_failed (r st : Z) (x x' : rpc_xprt) : Prop :=
  concat (xmit_queue (x_queues x)) ≡ₚ r :: concat (xmit_queue (x_queues x')) \/ st < 0 /\ st <> - EBADMSG /\ x_queues x' = x_queues x.

Lemma first_queued x r : reqs_ok x -> first_task (xmit_queue (x_queues x)) = Some r -> r ∈ concat (xmit_queue (x_queues x)) /\ exists t, ready x t r /\ need_xmit (get_tk x t) = true.
Proof.
  intros R F. pose proof (first_task_in _ _ F) as Hin. split; [done|]. apply (xm_in x (ro_xmit x R)) in Hin as (t & Ht & N). exists t. split; [|done].
  destruct (xm_task x (ro_xmit x R) t N) as (s & Hs & T). assert (s = r) as -> by (unfold holds in *; congruence). by split.
Qed.

Lemma sent_dequeue run t r st x x' : inv run x -> ready x t r -> need_xmit (get_tk x t) = true -> snd (out_dequeue t st x) = x' ->
  keeps run x x' /\ (forall s, get_req x' s = get_req x s) /\ concat (xmit_queue (x_queues x)) ≡ₚ r :: concat (xmit_queue (x_queues x')).
Proof.
  intros I R Nx <-. destruct (keeps_out_dequeue run t st x I) as (K & G & Q). split; [done|]. split; [done|]. rewrite Q, Nx, (ready_rqstp x t r R).
  pose proof (ro_xmit x (inv_reqs _ _ _ I)) as Xm. apply (dequeue_perm (fun t => t)); [apply Xm|]. apply (xm_in x Xm). exists t. by split; [apply R|].
Qed.

(** Counting does not change anything else. *)
Lemma keeps_count run x : inv run x -> keeps run x (count_send x).
Proof. intros I. unfold count_send. eapply keeps_then; [|intros I1; apply keeps_quiet; [exact I1|apply net_stat]]. apply keeps_quiet; [done|]. apply net_stat. Qed.

Lemma on_req_pin_same r f x s : (forall q, rq_pin (f q) = rq_pin q) -> rq_pin (get_req (on_req r f x) s) = rq_pin (get_req x s).
Proof.
  intros F. unfold get_req, on_req. cbn. destruct (decide (s = r)) as [->|]; [rewrite lookup_alter_eq|by rewrite lookup_alter_ne]. destruct (x_reqs x !! r); [apply F|done].
Qed.

Lemma request_transmit_ok t r x st x' : inv false x -> ready x t r -> need_xmit (get_tk x t) = true -> xprt_request_transmit ops r x = (st, x') ->
  keeps false x x' /\ (forall s, rq_pin (get_req x' s) = rq_pin (get_req x s)) /\ sent_or_failed r st x x'.
Proof.
  intros I R Nx E. unfold xprt_request_transmit in E. rewrite (proj2 R) in E. change (default 0 (Some t)) with t in E. cbv zeta in E.
  assert (forall st', out_dequeue t st' x = (st, x') -> keeps false x x' /\ (forall s, rq_pin (get_req x' s) = rq_pin (get_req x s)) /\ sent_or_failed r st x x') as Out.
  { intros st' Eo. destruct (sent_dequeue false t r st' x x' I R Nx) as (K & G & P); [by rewrite Eo|]. split; [done|]. split; [intros s; by rewrite G|by left]. }
  destruct (_ && xprt_request_data_received t x); [by eapply Out|]. destruct (_ && crneed_reencode _); [by eapply Out|]. destruct (_ && tk_signalled _); [by eapply Out|]. clear Out.
  set (x1 := on_req r (fun q => q <| rq_ntrans := rq_ntrans q + 1 |>) x) in *. assert (keeps false x x1) as K1 by (by apply inv_req).
  assert (forall s, rq_pin (get_req x1 s) = rq_pin (get_req x s)) as P1.
  { intros s. by apply on_req_pin_same. }
  destruct (send_request ops r x1) as [st1 x2] eqn:Es. destruct (op_send r t x1 st1 x2 (proj1 K1) (proj1 (proj2 K1) t r R) Es) as (I2 & So & Le & Nb).
  pose proof So as (Eq & Ei & Hr). assert (keeps false x x2) as K2 by (eapply keeps_then; [exact K1|]; intros _; split; [done|by apply sends_stays]).
  assert (forall n, keeps false x2 (on_req r (fun q => q <| rq_ntrans := n q |>) x2)) as Kn by (intros n; by apply inv_req).
  destruct (Z.eqb_spec st1 0) as [->|Ne]; cbn [negb] in E.
  - set (x3 := if tk_sent (get_tk x t) then _ else x2) in *. assert (keeps false x2 x3) as K3 by (unfold x3; destruct (tk_sent _); [apply keeps_quiet; [done|apply net_clnts]|by apply keeps_refl]).
    set (x4 := on_xtask t (fun k => k <| tk_sent := true |>) x3) in *. assert (keeps false x3 x4) as K4 by (apply keeps_xtask; [done|apply K3]).
    set (x5 := count_send x4) in *. assert (keeps false x4 x5) as K5 by (apply keeps_count, K4). set (x6 := on_req r _ x5) in *. assert (keeps false x5 x6) as K6 by (apply inv_req; [done|apply K5]).
    assert (keeps false x x6) as K by (eapply keeps_then; [exact K2|]; intros _; eapply keeps_then; [exact K3|]; intros _; eapply keeps_then; [exact K4|]; intros _; eapply keeps_then; [exact K5|]; by intros _).
    assert (x_queues x6 = x_queues x) as Q6 by (unfold x6, x5, x4, x3; change (x_queues x) with (x_queues x1); rewrite <- Eq; by destruct (tk_sent _)).
    assert (need_xmit (get_tk x6 t) = true) as N6.
    { change (get_tk x6 t) with (get_tk x4 t). unfold x4. rewrite on_xtask_get. assert (get_tk x3 t = get_tk x t) as E3.
      { unfold x3. assert (get_tk x2 t = get_tk x t) by (by apply (get_tk_info x1 x2)). by destruct (tk_sent _). }
      destruct (decide _); cbn; by rewrite E3. }
    assert (forall s, rq_pin (get_req x6 s) = rq_pin (get_req x s)) as P6.
    { intros s. rewrite <- P1, <- (proj2 (Hr s)). unfold x6. rewrite on_req_pin_same by done. unfold get_req.
      assert (x_reqs x5 = x_reqs x2) as -> by (change (x_reqs x5) with (x_reqs x3); unfold x3; by destruct (tk_sent _)). done. }
    injection E as <- <-. destruct (sent_dequeue false t r 0 x6 _ (proj1 K) (proj1 (proj2 K) t r R) N6 eq_refl) as (K7 & G7 & P7).
    split; [eapply keeps_then; [exact K|by intros _]|]. split; [intros s; by rewrite G7|]. left. rewrite <- Q6. exact P7.
  - injection E as <- <-. split; [eapply keeps_then; [exact K2|by intros _]|]. split; [|right; split_and!; [lia|done|done]].
    intros s. rewrite <- P1, <- (proj2 (Hr s)). by apply on_req_pin_same.
Qed.

Lemma on_req_pins r n x s : rq_pin (get_req (on_req r (fun q => q <| rq_pin := rq_pin q + n |>) x) s) = rq_pin (get_req x s) + (if decide (s = r /\ is_Some (x_reqs x !! r)) then n else 0).
Proof.
  unfold get_req, on_req. cbn. destruct (decide _) as [[-> [q K]]|N]; [by rewrite lookup_alter_eq, K|]. destruct (decide (s = r)) as [->|]; [|rewrite lookup_alter_ne by done; lia].
  rewrite lookup_alter_eq. destruct (x_reqs x !! r) eqn:K; [destruct N; split; [done|by eexists]|]. cbn. lia.
Qed.

(** One round of the loop of [xprt_transmit]. *)
Lemma transmit_round r x st x' : inv false x -> first_task (xmit_queue (x_queues x)) = Some r -> xprt_request_transmit ops r (xprt_pin_rqst r x) = (st, x') ->
  keeps false x (xprt_unpin_rqst r x') /\ sent_or_failed r st x (xprt_unpin_rqst r x').
Proof.
  intros I F E. destruct (first_queued x r (inv_reqs _ _ _ I) F) as (Hin & t & R & Nx). pose proof (keeps_pin false r t x I R) as K1. set (x1 := xprt_pin_rqst r x) in *.
  destruct (request_transmit_ok t r x1 st x' (proj1 K1)) as (K2 & P2 & S2); [by apply K1|done|done|].
  assert (is_Some (x_reqs x !! r)) as Sr by apply (sl_holds x (ro_slots x (inv_reqs _ _ _ I)) t r (proj1 R)).
  assert (1 <= rq_pin (get_req x' r)) as P.
  { rewrite P2. unfold x1, xprt_pin_rqst. rewrite on_req_pins. destruct (decide _) as [|N]; [|destruct N; done]. destruct Sr as [q K]. pose proof (ro_pins x (inv_reqs _ _ _ I) r q K). unfold get_req. rewrite K. cbn. lia. }
  split; [|exact S2]. eapply keeps_then; [exact K1|]. intros _. eapply keeps_then; [exact K2|]. intros I2. eapply (keeps_unpin false r t); [done| |done]. by apply K2, K1.
Qed.

(** The queue is short of what was sent; a task whose request is left has an error. *)
Definition transmitted (t : Z) (x x' : rpc_xprt) : Prop :=
  concat (xmit_queue (x_queues x')) ⊆ concat (xmit_queue (x_queues x)) /\
  (need_xmit (get_tk x' t) = true -> from_option tk_status 0 (x_tasks x' !! t) < 0).

Lemma transmit_ok fuel t x : inv false x -> (length (concat (xmit_queue (x_queues x))) < fuel)%nat -> exists x', xprt_transmit fuel ops t x = Some x' /\ keeps false x x' /\ transmitted t x x'.
Proof.
  revert x. induction fuel as [|fuel IH]; intros x I L; [lia|]. cbn [xprt_transmit]. destruct (first_task (xmit_queue (x_queues x))) as [r|] eqn:F.
  - destruct (xprt_request_transmit ops r (xprt_pin_rqst r x)) as [st x1] eqn:E. destruct (transmit_round r x st x1 I F E) as [K S]. set (x2 := xprt_unpin_rqst r x1) in *.
    assert (concat (xmit_queue (x_queues x2)) ⊆ concat (xmit_queue (x_queues x))) as Sub.
    { destruct S as [P|(_ & _ & ->)]; [|done]. intros u Hu. rewrite P. by right. }
    set (st' := if (st =? - EBADMSG) && negb (r =? rqstp x t) then 0 else st). destruct (Z.ltb_spec st' 0) as [Ls|Ls].
    + destruct (need_xmit (get_tk x2 t)) eqn:Nx; [|exists x2; split; [done|]; split; [done|]; split; [done|congruence]].
      exists (set_status t st' x2). split; [done|]. split; [eapply keeps_then; [exact K|]; intros I2; apply keeps_quiet; [done|]; apply net_status|]. split; [exact Sub|]. intros _.
      unfold set_status, on_tk. change (from_option tk_status 0 (alter (fun k => k <| tk_status := st' |>) t (x_tasks x2) !! t) < 0). rewrite lookup_alter_eq. unfold get_tk in Nx. destruct (x_tasks x2 !! t); [exact Ls|done].
    + destruct (_ && negb (need_xmit (get_tk x2 t))) eqn:D.
      { apply andb_true_iff in D as [_ D]. exists x2. split; [done|]. split; [done|]. split; [done|]. destruct (need_xmit _); done. }
      assert (length (concat (xmit_queue (x_queues x2))) < fuel)%nat as L2.
      { destruct S as [P|(Lt & Nb & _)]; [apply Permutation_length in P; cbn [length] in P; lia|]. unfold st' in Ls. destruct (Z.eqb_spec st (- EBADMSG)); [done|]. cbn in Ls. lia. }
      destruct (IH x2 (proj1 K) L2) as (x3 & E3 & K3 & Sub3 & N3). exists x3. split; [done|]. split; [eapply keeps_then; [exact K|by intros _]|]. split; [|done]. by etransitivity.
  - exists x. split; [done|]. split; [by apply keeps_refl|]. split; [done|]. intros Nx. destruct (xm_task x (ro_xmit x (inv_reqs _ _ _ I)) t Nx) as (s & Hs & _).
    assert (s ∈ concat (xmit_queue (x_queues x))) as Hq by (apply (xm_in x (ro_xmit x (inv_reqs _ _ _ I))); by exists t).
    pose proof (xm_groups x (ro_xmit x (inv_reqs _ _ _ I))) as G. destruct (xmit_queue (x_queues x)) as [|[|a g] q]; [by apply elem_of_nil in Hq|inversion G; done|done].
Qed.
End Steps.
