(* ===== verification/TransportTasks.v ===== *)
(** * Tasks come, reserve a slot, give it back and go

    The operations on slots as a whole, tasks that are created and freed, and tasks that are
    woken from the backlog. *)

From S2P Require Import Prelude Xdr WaitQueue WaitQueueInv WaitQueueFrame RbTree RpcTimer Transport TransportLock TransportCong TransportQueues TransportOps TransportSlots TransportRelease TransportSteps.
From stdpp Require Import list gmap sorting.
#[local] Open Scope Z_scope.

Section Tasks.
Context (ops : rpc_xprt_ops) (counts : bool) (cookie : Z) `{!XprtOps ops counts cookie} `{RbShape Z} `{Clock}.
Implicit Type run : bool.
Notation inv := (inv counts).
Notation keeps := (keeps counts).

(** ** Taking a request off the queues *)

Lemma dequeue_transmit_tk t x : reqs_ok x -> let x' := xprt_request_dequeue_transmit_locked t x in
  x_reqs x' = x_reqs x /\ backlog x' = backlog x /\ (forall u, tk_rqstp (get_tk x' u) = tk_rqstp (get_tk x u)) /\ need_xmit (get_tk x' t) = false /\ need_recv (get_tk x' t) = need_recv (get_tk x t).
Proof.
  intros R. unfold xprt_request_dequeue_transmit_locked. destruct (need_xmit (get_tk x t)) eqn:N; cbn [negb]; [|done]. destruct (need_xmit_holds x t R N) as [Hr _].
  destruct (flagged_xtask t (set_xmit false) x _ Hr ltac:(done)) as [_ _ _ G _]. cbv zeta. split_and!; try done.
  - intros u. change (tk_rqstp (get_tk (on_xtask t (set_xmit false) x) u) = tk_rqstp (get_tk x u)). rewrite G. by destruct (decide _).
  - change (need_xmit (get_tk (on_xtask t (set_xmit false) x) t) = false). rewrite G. by destruct (decide _).
  - change (need_recv (get_tk (on_xtask t (set_xmit false) x) t) = need_recv (get_tk x t)). rewrite G. by destruct (decide _).
Qed.

Lemma dequeue_receive_tk t x : reqs_ok x -> let x' := xprt_request_dequeue_receive_locked t x in
  x_reqs x' = x_reqs x /\ backlog x' = backlog x /\ (forall u, tk_rqstp (get_tk x' u) = tk_rqstp (get_tk x u)) /\ need_recv (get_tk x' t) = false /\ need_xmit (get_tk x' t) = need_xmit (get_tk x t).
Proof.
  intros R. unfold xprt_request_dequeue_receive_locked. destruct (need_recv (get_tk x t)) eqn:N; [|done]. destruct (need_recv_holds x t R N) as [Hr _].
  destruct (flagged_xtask t (set_recv false) x _ Hr ltac:(done)) as [_ _ _ G _]. cbv zeta. split_and!; try done.
  - intros u. change (tk_rqstp (get_tk (on_xtask t (set_recv false) x) u) = tk_rqstp (get_tk x u)). rewrite G. by destruct (decide _).
  - change (need_recv (get_tk (on_xtask t (set_recv false) x) t) = false). rewrite G. by destruct (decide _).
  - change (need_xmit (get_tk (on_xtask t (set_recv false) x) t) = need_xmit (get_tk x t)). rewrite G. by destruct (decide _).
Qed.

Lemma on_xtask_field {A} (g : xtask -> A) t f x u : (forall k, g (f k) = g k) -> g (get_tk (on_xtask t f x) u) = g (get_tk x u).
Proof. intros E. rewrite on_xtask_get. by destruct (decide _). Qed.

Lemma keeps_dequeue_xprt run t b x x' : inv run x -> xprt_request_dequeue_xprt t x = (b, x') ->
  keeps run x x' /\ x_reqs x' = x_reqs x /\ backlog x' = backlog x /\ (forall u, tk_rqstp (get_tk x' u) = tk_rqstp (get_tk x u)) /\
  (b = true -> need_xmit (get_tk x' t) = false /\ need_recv (get_tk x' t) = false /\ rq_pin (get_req x' (rqstp x t)) = 0).
Proof.
  intros I E. unfold xprt_request_dequeue_xprt in E. destruct (_ || _) eqn:C.
  - pose proof (inv_dequeue_transmit counts run t x I) as K1. destruct (dequeue_transmit_tk t x (inv_reqs _ _ _ I)) as (R1 & B1 & T1 & X1 & V1).
    set (x1 := xprt_request_dequeue_transmit_locked t x) in *. pose proof (inv_dequeue_receive counts run t x1 (proj1 K1)) as K2.
    destruct (dequeue_receive_tk t x1 (inv_reqs _ _ _ (proj1 K1))) as (R2 & B2 & T2 & V2 & X2). set (x2 := xprt_request_dequeue_receive_locked t x1) in *.
    assert (forall p, keeps run x (on_xtask t (fun k => k <| pin_wait := p |>) x2)) as K.
    { intros p. eapply keeps_then; [exact K1|]. intros _. eapply keeps_then; [exact K2|]. intros I2. by apply keeps_xtask. }
    assert (forall p u, tk_rqstp (get_tk (on_xtask t (fun k => k <| pin_wait := p |>) x2) u) = tk_rqstp (get_tk x u)) as T.
    { intros p u. rewrite (on_xtask_field tk_rqstp) by done. by rewrite T2. }
    destruct (xprt_is_pinned_rqst x2 (rqstp x t)) eqn:P; injection E as <- <-; (split; [apply K|]); split_and!; try done; try (change (x_reqs x2 = x_reqs x); congruence);
      try (change (backlog x2 = backlog x); congruence); try apply T.
    intros _. rewrite (on_xtask_field need_xmit), (on_xtask_field need_recv) by done. split; [congruence|]. split; [done|].
    unfold xprt_is_pinned_rqst in P. change (get_req (on_xtask t _ x2) (rqstp x t)) with (get_req x2 (rqstp x t)). apply negb_false_iff in P. lia.
  - injection E as <- <-. apply orb_false_iff in C as [C P]. apply orb_false_iff in C as [C1 C2]. split; [by apply keeps_refl|]. split_and!; try done. intros _. split_and!; try done.
    unfold xprt_is_pinned_rqst in P. apply negb_false_iff in P. lia.
Qed.

(** ** Giving it back *)

Lemma release_quiet run x t : inv run x -> is_Some (info x !! t) -> keeps run x (release_xprt ops (Some t) x) /\ quiet x (release_xprt ops (Some t) x).
Proof.
  intros I Hi. destruct op_release as [g G]. rewrite G. destruct (release_task_ok g run x t (proj1 (inv_net _ _ _ I)) Hi) as [L Q]. split; [|done].
  apply keeps_quiet; [done|]. intros N. split; [by eapply quiet_net|done].
Qed.

(** What became of the slot. *)
Definition slot_passed (r : Z) (x x' : rpc_xprt) : Prop :=
  (exists u, queued (backlog x) ≡ₚ u :: queued (backlog x') /\ holds x' u r /\ x_reqs x' !! r = Some rq_zero) \/
  queued (backlog x) = [] /\ (forall u, ~ holds x' u r).

Lemma release_ok now t x b x' : inv false x -> is_Some (info x !! t) -> xprt_release ops now t x = (b, x') ->
  inv false x' /\ (forall u, is_Some (info x' !! u) <-> is_Some (info x !! u)) /\ (forall u s, u <> t -> ready x u s -> ready x' u s) /\
  (b = true -> tk_rqstp (get_tk x' t) = None /\ forall r, holds x t r -> slot_passed r x x').
Proof.
  intros I Hi E. unfold xprt_release in E. destruct (tk_rqstp (get_tk x t)) as [r|] eqn:Hr.
  - destruct (xprt_request_dequeue_xprt t x) as [rd x1] eqn:D. destruct (keeps_dequeue_xprt false t rd x x1 I D) as (K1 & R1 & B1 & T1 & Fl).
    destruct rd; cbn [negb] in E; [|injection E as <- <-; split; [apply K1|]; split; [apply K1|]; split; [|done]; intros u s _ Rd; by apply K1].
    destruct (Fl eq_refl) as (F1 & F2 & _). injection E as <- <-. assert (is_Some (info x1 !! t)) as Hi1 by by apply K1.
    destruct (release_quiet false x1 t (proj1 K1) Hi1) as [K2 Q2]. set (x2 := release_xprt ops (Some t) x1) in *.
    destruct (op_release_request false t x2 (inv_net _ _ _ (proj1 K2)) (proj2 (proj1 K2))) as (N3 & S3 & C3). set (x3 := release_request ops t x2) in *.
    pose proof (keeps_soft counts false x2 x3 (proj1 K2) N3 S3) as K3. destruct (schedule_autodisconnect_net false now x3 N3) as [N4 Q4]. set (x4 := xprt_schedule_autodisconnect now x3) in *.
    pose proof (keeps_quiet counts false x3 x4 (proj1 K3) (fun _ => conj N4 Q4)) as K4. set (x5 := on_req r _ x4). assert (keeps false x4 x5) as K5 by (apply inv_req; [done|apply K4]).
    assert (info x5 = info x1) as E5.
    { change (info x5) with (info x4). rewrite (qt_info _ _ Q4). destruct S3 as [(_ & _ & -> & _) _]. by rewrite (qt_info _ _ Q2). }
    assert (forall v, get_tk x5 v = get_tk x1 v) as G5 by (intros v; by apply get_tk_info).
    assert (holds x5 t r) as H5 by (unfold holds; rewrite G5, T1; done).
    assert (backlog x5 = backlog x) as B5.
    { change (backlog x5) with (backlog x4). rewrite (qt_backlog _ _ Q4). destruct S3 as [(_ & _ & _ & ->) _]. by rewrite (qt_backlog _ _ Q2). }
    assert (rqstp x2 t = r) as Rq by (unfold rqstp; rewrite (get_tk_info x1 x2 t (qt_info _ _ Q2)), T1; by rewrite Hr).
    assert (rq_cong (get_req x5 r) = false) as C5.
    { unfold x5. rewrite get_req_alter. rewrite Rq in C3. unfold get_req in C3. rewrite (qt_reqs _ _ Q4). by destruct (x_reqs x3 !! r). }
    destruct (free_slot_ok counts false t r x5 (proj1 K5) H5) as (I6 & Hi6 & o & M & C6); [by rewrite G5|by rewrite G5|done|].
    change (on_xtask t (set_rq None) x5) with (on_xtask t (fun t0 => t0 <| tk_rqstp := None |>) x5) in *. set (x6 := xprt_free_slot r _) in *.
    assert (stays x x5) as S5 by (eapply stays_trans; [apply K1|]; eapply stays_trans; [apply K2|]; eapply stays_trans; [apply K3|]; eapply stays_trans; [apply K4|apply K5]).
    split; [done|]. split; [intros u; rewrite Hi6; apply S5|]. split.
    + intros u s Nu Rd. apply S5 in Rd as [Hs Ts]. assert (s <> r) as Ns by (intros ->; by apply Nu, (sl_unique x5 (ro_slots x5 (inv_reqs _ _ _ (proj1 K5))) u t r)).
      split; [|unfold get_req; by rewrite (mv_reqs _ _ _ _ _ M)]. apply (moved_holds t r o x5 x6 u s); [by apply (inv_reqs counts false), K5|done|done|]. by left.
    + intros _. split; [rewrite (mv_tk _ _ _ _ _ M); by destruct (decide _)|]. intros r' Hr'. assert (r' = r) as -> by (unfold holds in Hr'; congruence).
      rewrite B5 in C6. pose proof (moved_holds t r o x5 x6) as Mh. destruct o as [u|].
      * left. exists u. split; [apply C6|]. split; [|apply C6]. apply Mh; [by apply (inv_reqs counts false), K5|done|done|]. by right.
      * right. split; [apply C6|]. intros u Hu. apply Mh in Hu as [[Hu Nu]|[? _]]; [|done|by apply (inv_reqs counts false), K5|done|done].
        by apply Nu, (sl_unique x5 (ro_slots x5 (inv_reqs _ _ _ (proj1 K5))) u t r).
  - injection E as <- <-. pose proof (keeps_release_write ops counts cookie false t x I Hi) as K. split; [apply K|]. split; [apply K|]. split; [intros u s _ Rd; by apply K|].
    intros _. split; [|intros r Hh; unfold holds in Hh; congruence]. unfold xprt_release_write. destruct (negb _); [done|].
    by rewrite (get_tk_info x _ t (qt_info _ _ (proj2 (release_quiet false x t I Hi)))).
Qed.
(** ** Reserving *)

(** A request that [t] has not set up is on no queue. *)
Lemma unset_flags x t r : reqs_ok x -> holds x t r -> rq_task (get_req x r) = None -> need_xmit (get_tk x t) = false /\ need_recv (get_tk x t) = false.
Proof.
  intros R Ht N. split; apply not_true_iff_false; intros C; [destruct (xm_task x (ro_xmit x R) t C) as (s & Hs & T)|destruct (rc_task x (ro_recv x R) t C) as (s & Hs & T)];
    assert (s = r) as -> by (unfold holds in *; congruence); congruence.
Qed.

(** Slots are given out blank, and no number is taken. *)
Definition drawn (t : Z) (x x' : rpc_xprt) : Prop := next_xid (x_slots x') = next_xid (x_slots x) /\
  (forall s p, x_reqs x' !! s = Some p -> rq_task p <> None -> x_reqs x !! s = Some p) /\ (forall r, holds x' t r -> rq_task (get_req x' r) = None).

Lemma status_get_tk t st x u : get_tk (set_status t st x) u = get_tk x u.
Proof. unfold get_tk, set_status, on_tk. cbn. destruct (decide (u = t)) as [->|]; [rewrite lookup_alter_eq|by rewrite lookup_alter_ne]. by destruct (x_tasks x !! t). Qed.

Lemma drawn_status t st x : tk_rqstp (get_tk x t) = None -> drawn t x (set_status t st x).
Proof. intros N. split_and!; try done. intros r Hr. unfold holds in Hr. rewrite status_get_tk in Hr. congruence. Qed.

Lemma drawn_init t r x y : is_Some (x_tasks y !! t) -> next_xid (x_slots y) = next_xid (x_slots x) -> (forall s p, x_reqs y !! s = Some p -> rq_task p <> None -> x_reqs x !! s = Some p) ->
  rq_task (get_req y r) = None -> drawn t x (out_init_req t r y).
Proof.
  intros Ht Ex Er Tr. split_and!; [exact Ex|exact Er|]. intros s Hs. unfold holds in Hs. rewrite (get_tk_out_init t r y t Ht) in Hs. destruct (decide _); [|done]. cbn in Hs. by injection Hs as <-.
Qed.

Lemma add_backlog_drawn run t x : inv run x -> tk_rqstp (get_tk x t) = None -> x_slots (xprt_add_backlog t x) = (x_slots x) <| congested := true |> /\
  x_reqs (xprt_add_backlog t x) = x_reqs x /\ get_tk (xprt_add_backlog t x) t = get_tk x t.
Proof.
  intros I Nt. split; [done|]. split; [done|]. set (x1 := on_slots (fun s => s <| congested := true |>) x).
  assert (scheds_ok x1) as S1 by (eapply scheds_same; [apply (inv_net _ _ _ I)|apply acts_refl|done|done|done]).
  destruct (sleep_on_joins (with_queue (backlog x1) x1) t (Some cb_xprt_complete_request_init) (sc_backlog x1 S1) (sc_prios x1 S1)) as [[_ Ac _] _].
  apply (get_tk_info x1). unfold info. apply (acts_info _ _ _ Ac).
Qed.

Lemma alloc_slot_drawn run mem t x : inv run x -> is_Some (x_tasks x !! t) -> tk_rqstp (get_tk x t) = None -> (forall r, mem = Some r -> x_reqs x !! r = None) ->
  drawn t x (xprt_alloc_slot mem t x).
Proof.
  intros I Ht Nt Hm. unfold xprt_alloc_slot. destruct (free (x_slots x)) as [|r l] eqn:Ef.
  - unfold xprt_dynamic_alloc_slot. destruct (_ <=? _).
    { change (- EAGAIN =? - ENOMEM) with false. change (- EAGAIN =? - EAGAIN) with true. cbv iota. destruct (add_backlog_drawn run t x I Nt) as (E1 & E2 & E3).
      destruct (drawn_status t (- EAGAIN) (xprt_add_backlog t x)) as (A1 & A2 & A3); [by rewrite E3|]. split; [by rewrite A1, E1|]. split; [|done]. by rewrite <- E2. }
    destruct mem as [r|].
    + specialize (Hm r eq_refl). apply drawn_init; try done.
      * intros s p K T. change (<[r := rq_zero]> (x_reqs x) !! s = Some p) in K. destruct (decide (s = r)) as [->|]; [rewrite lookup_insert_eq in K; by injection K as <-|by rewrite lookup_insert_ne in K].
      * unfold get_req. change (rq_task (default rq_zero (<[r := rq_zero]> (x_reqs x) !! r)) = None). by rewrite lookup_insert_eq.
    + change (- ENOMEM =? - ENOMEM) with true. cbv iota. match goal with |- drawn t x (set_status t _ ?y) => exact (drawn_status t (- ENOMEM) y Nt) end.
  - apply drawn_init; try done. destruct (sl_idle x (ro_slots x (inv_reqs _ _ _ I)) r) as (q & K & T & _); [rewrite Ef; left|]. unfold get_req. change (rq_task (default rq_zero (x_reqs x !! r)) = None). by rewrite K.
Qed.

Lemma drawn_fresh t x x' : drawn t x x' -> fresh_xid x -> fresh_xid x'.
Proof. intros (E & R & _) F s p K T. rewrite E. by apply (F s p), T; apply R. Qed.

(** Nobody else notices. *)
Definition reserves_slot (t : Z) (x x' : rpc_xprt) : Prop :=
  (forall u s, u <> t -> ready x u s -> ready x' u s) /\ (forall u, is_Some (info x' !! u) <-> is_Some (info x !! u)) /\ (forall r, holds x' t r -> ready x' t r).

Lemma do_reserve_ok run mem now ktime t x : inv run x -> is_Some (x_tasks x !! t) -> tk_rqstp (get_tk x t) = None -> (forall r, mem = Some r -> x_reqs x !! r = None) -> fresh_xid x ->
  let x' := xprt_do_reserve mem now ktime t x in inv run x' /\ reserves_slot t x x'.
Proof.
  intros I Ht Nt Hm Fx. unfold xprt_do_reserve. destruct (inv_alloc_slot counts run mem t x I Ht Nt Hm) as [I1 S1]. pose proof (alloc_slot_drawn run mem t x I Ht Nt Hm) as D.
  set (x1 := xprt_alloc_slot mem t x) in *. destruct (tk_rqstp (get_tk x1 t)) as [r|] eqn:Hr.
  - destruct D as (D1 & D2 & D3). pose proof (D3 r Hr) as Tr. destruct (unset_flags x1 t r (inv_reqs _ _ _ I1) Hr Tr) as [F1 F2].
    destruct (inv_request_init counts run now ktime t r x1 I1 Hr F1 F2) as (I2 & R2 & St & Ei); [by eapply drawn_fresh; [split; [exact D1|split; [exact D2|exact D3]]|]|].
    split; [done|]. split_and!.
    + intros u s Nu Rd. apply S1 in Rd. apply St; [|done]. intros ->. destruct Rd as [Hu _]. by apply Nu, (sl_unique x1 (ro_slots x1 (inv_reqs _ _ _ I1)) u t r).
    + intros u. rewrite Ei. apply S1.
    + intros s Hs. assert (s = r) as -> by (destruct R2 as [Hr2 _]; unfold holds in *; congruence). done.
  - split; [done|]. split_and!; [intros u s _ Rd; by apply S1|apply S1|]. intros s Hs. unfold holds in Hs. congruence.
Qed.

Lemma status_fresh t st x : fresh_xid x -> fresh_xid (set_status t st x).
Proof. done. Qed.

Lemma status_exists t st x u : is_Some (x_tasks (set_status t st x) !! u) <-> is_Some (x_tasks x !! u).
Proof. unfold set_status, on_tk. cbn. destruct (decide (u = t)) as [->|]; [rewrite lookup_alter_eq|by rewrite lookup_alter_ne]. by rewrite fmap_is_Some. Qed.

Lemma reserves_after run t x y z : keeps run x y -> reserves_slot t y z -> reserves_slot t x z.
Proof. intros K (A & B & C). split_and!; [intros u s Nu Rd; apply A, K, Rd; done|intros u; rewrite B; apply K|done]. Qed.

Lemma reserves_stays run t x y : keeps run x y -> (forall r, holds y t r -> ready y t r) -> reserves_slot t x y.
Proof. intros K C. split_and!; [intros u s _ Rd; by apply K|apply K|done]. Qed.

Lemma keeps_status run t st x : inv run x -> keeps run x (set_status t st x).
Proof. intros I. apply keeps_quiet; [done|]. apply net_status. Qed.

Lemma throttle_ok run t x : inv run x -> tk_rqstp (get_tk x t) = None -> keeps run x (snd (xprt_throttle_congested t x)).
Proof.
  intros I Nt. unfold xprt_throttle_congested. destruct (congested (x_slots x)) eqn:C; cbn [negb snd]; [|by apply keeps_refl].
  destruct (sl_congested x (ro_slots x (inv_reqs _ _ _ I)) C). by apply inv_add_backlog.
Qed.

Lemma retry_reserve_ok run mem now ktime t x : inv run x -> is_Some (x_tasks x !! t) -> (forall r, holds x t r -> ready x t r) -> (forall r, mem = Some r -> x_reqs x !! r = None) -> fresh_xid x ->
  let x' := xprt_retry_reserve mem now ktime t x in inv run x' /\ reserves_slot t x x'.
Proof.
  intros I Ht Hr Hm Fx. unfold xprt_retry_reserve. pose proof (keeps_status run t 0 x I) as K1. rewrite status_get_tk. set (x1 := set_status t 0 x) in *.
  destruct (tk_rqstp (get_tk x t)) as [r|] eqn:Hh.
  { split; [apply K1|]. eapply reserves_stays; [done|]. intros s Hs. apply K1, Hr. unfold holds in *. unfold x1 in Hs. by rewrite status_get_tk in Hs. }
  pose proof (keeps_status run t (- EAGAIN) x1 (proj1 K1)) as K2. destruct (do_reserve_ok run mem now ktime t _ (proj1 K2)) as [I3 R3]; [unfold x1; by rewrite !status_exists|unfold x1; by rewrite !status_get_tk|done|done|].
  split; [exact I3|]. eapply reserves_after; [exact K1|]. eapply reserves_after; [exact K2|exact R3].
Qed.

Lemma reserve_slot_ok run mem now ktime t x : inv run x -> is_Some (x_tasks x !! t) -> (forall r, holds x t r -> ready x t r) -> (forall r, mem = Some r -> x_reqs x !! r = None) -> fresh_xid x ->
  let x' := xprt_reserve mem now ktime t x in inv run x' /\ reserves_slot t x x'.
Proof.
  intros I Ht Hr Hm Fx. unfold xprt_reserve. pose proof (keeps_status run t 0 x I) as K1. rewrite status_get_tk. set (x1 := set_status t 0 x) in *.
  destruct (tk_rqstp (get_tk x t)) as [r|] eqn:Hh.
  { split; [apply K1|]. eapply reserves_stays; [done|]. intros s Hs. apply K1, Hr. unfold holds in *. unfold x1 in Hs. by rewrite status_get_tk in Hs. }
  pose proof (keeps_status run t (- EAGAIN) x1 (proj1 K1)) as K2. set (x2 := set_status t (- EAGAIN) x1) in *. assert (tk_rqstp (get_tk x2 t) = None) as N2 by (unfold x2, x1; by rewrite !status_get_tk).
  assert (keeps run x x2) as K by (eapply keeps_then; [exact K1|by intros _]). pose proof (throttle_ok run t x2 (proj1 K2) N2) as K3. unfold xprt_throttle_congested in *.
  destruct (congested (x_slots x2)); cbn [negb snd] in *.
  - destruct (add_backlog_drawn run t x2 (proj1 K2) N2) as (_ & _ & E). split; [apply K3|]. eapply reserves_after; [exact K|]. eapply reserves_stays; [exact K3|].
    intros s Hs. unfold holds in Hs. rewrite E in Hs. congruence.
  - destruct (do_reserve_ok run mem now ktime t x2 (proj1 K2)) as [I3 R3]; [unfold x2, x1; by rewrite !status_exists|done|done|done|]. split; [exact I3|]. by eapply reserves_after.
Qed.

(** The callback of a task that was handed a slot. *)
Lemma complete_init_ok run now ktime t x : inv run x -> (forall r, holds x t r -> rq_task (get_req x r) = None) -> fresh_xid x ->
  let x' := xprt_complete_request_init now ktime t x in inv run x' /\ reserves_slot t x x'.
Proof.
  intros I Hn Fx. unfold xprt_complete_request_init. destruct (tk_rqstp (get_tk x t)) as [r|] eqn:Hr.
  - destruct (unset_flags x t r (inv_reqs _ _ _ I) Hr (Hn r Hr)) as [F1 F2]. destruct (inv_request_init counts run now ktime t r x I Hr F1 F2 Fx) as (I2 & R2 & St & Ei).
    split; [done|]. split_and!; [|intros u; by rewrite Ei|].
    + intros u s Nu Rd. apply St; [|done]. intros ->. destruct Rd as [Hu _]. by apply Nu, (sl_unique x (ro_slots x (inv_reqs _ _ _ I)) u t r).
    + intros s Hs. assert (s = r) as -> by (destruct R2 as [Hr2 _]; unfold holds in *; congruence). done.
  - split; [done|]. eapply reserves_stays; [by apply keeps_refl|]. intros s Hs. unfold holds in Hs. congruence.
Qed.

(** ** The backlog loses tasks *)

Lemma keeps_backlog run f x : inv run x -> queue_op (with_queue (backlog x) x) (f (with_queue (backlog x) x)) ->
  queued (sc_queue (f (with_queue (backlog x) x))) ⊆ queued (backlog x) -> keeps run x (on_backlog f x).
Proof.
  intros I Op Sub. pose proof (inv_net _ _ _ I) as N. pose proof (lk_scheds _ _ (proj1 N)) as S. set (s := f (with_queue (backlog x) x)) in *. unfold on_backlog. fold s.
  set (x1 := (back s x) <| backlog := sc_queue s |>). assert (with_queue (backlog x1) x1 = s) as Ex by by destruct s.
  destruct (scheds_backlog x x1 S) as [S1 I1]; [by rewrite Ex|done|done|]. assert (forall v, get_tk x1 v = get_tk x v) as G by (intros; by apply get_tk_info).
  assert (forall v s, holds x1 v s <-> holds x v s) as Hh by (intros v r; unfold holds; by rewrite G).
  split; [|split; [intros u r [Hr Tr]; split; [by apply Hh|done]|intros u; by rewrite I1]].
  apply (inv_of counts run x); [eapply net_gen; [exact N|exact S1|done|done|done|by rewrite I1|done|apply N]| |done|done].
  eapply (reqs_ext x x1 (inv_reqs _ _ _ I)); try done; [intros v; by rewrite G|]. intros v Hv. by apply (sl_backlog x (ro_slots x (inv_reqs _ _ _ I))), Sub.
Qed.

(** ** Tasks come and go *)

(** [t] sleeps on no queue before and after. *)
Definition idle_task (o : option (rpc_task xtask)) : Prop := match o with Some k => tk_queued k = false /\ 0 <= tk_priority k /\ tk_rqstp (tk_msg k) = None /\ need_xmit (tk_msg k) = false /\ need_recv (tk_msg k) = false | None => True end.

Lemma sched_swap T T' q rn pt rn' pt' t : (forall u, u <> t -> T' !! u = T !! u) -> idle_task (T !! t) -> idle_task (T' !! t) ->
  sched_ok (mk_sched xtask T q rn pt) -> sched_ok (mk_sched xtask T' q rn' pt').
Proof.
  intros E D D' [Q In Ac]. simpl in *. assert (t ∉ queued q) as Nt.
  { rewrite In. intros (k & K & [Qk _]). rewrite K in D. destruct D as [D _]. congruence. }
  split; simpl.
  - destruct Q. split; try done. rewrite Forall_forall in *. intros l Hl. eapply list_ok_ext; [|by apply qo_lists]. intros u Hu. unfold owner_of, task_get. simpl.
    rewrite E; [done|]. intros ->. apply Nt. unfold queued. apply list_elem_of_lookup in Hl as [i Hi]. by eapply (concat_concat (tasks q) i l).
  - intros u. rewrite In. destruct (decide (u = t)) as [->|Ne]; [|by rewrite E]. split; intros (k & K & [Qk _]); [rewrite K in D; destruct D as [D _]|rewrite K in D'; destruct D' as [D' _]]; congruence.
  - intros u k Hu K. destruct (decide (u = t)) as [->|Ne]; [done|]. rewrite E in K by done. by apply (Ac u).
Qed.

Lemma swap_scheds x x' t : (forall u, u <> t -> x_tasks x' !! u = x_tasks x !! u) -> idle_task (x_tasks x !! t) -> idle_task (x_tasks x' !! t) ->
  sending x' = sending x -> pending x' = pending x -> backlog x' = backlog x -> scheds_ok x -> scheds_ok x'.
Proof.
  intros E D D' Es Ep Eb [S P B A Pr]. split; [by rewrite Es; eapply sched_swap|by rewrite Ep; eapply sched_swap|by rewrite Eb; eapply sched_swap|by rewrite Es, Ep, Eb|].
  intros u k K. destruct (decide (u = t)) as [->|]; [|rewrite E in K by done; by apply (Pr u)]. rewrite K in D'. apply D'.
Qed.

Lemma swap_get_tk x x' t u : (forall u, u <> t -> x_tasks x' !! u = x_tasks x !! u) -> idle_task (x_tasks x !! t) -> idle_task (x_tasks x' !! t) ->
  tk_rqstp (get_tk x' u) = tk_rqstp (get_tk x u) /\ need_xmit (get_tk x' u) = need_xmit (get_tk x u) /\ need_recv (get_tk x' u) = need_recv (get_tk x u).
Proof.
  intros E D D'. unfold get_tk. destruct (decide (u = t)) as [->|]; [|by rewrite E]. destruct (x_tasks x !! t) as [k|], (x_tasks x' !! t) as [k'|]; simpl in *; try done;
    try destruct D as (_ & _ & -> & -> & ->); try destruct D' as (_ & _ & -> & -> & ->); done.
Qed.

(** A task that has no request is created or freed. *)
Lemma inv_swap run x T t : let x' := x <| x_tasks := T |> in (forall u, u <> t -> T !! u = x_tasks x !! u) -> idle_task (x_tasks x !! t) -> idle_task (T !! t) ->
  snd_task (x_lock x) <> Some t -> inv run x -> inv run x'.
Proof.
  intros x' E D D' Ns I. pose proof (inv_net _ _ _ I) as N. pose proof N as ([S O W] & C & Sz). assert (scheds_ok x') as S' by (by eapply (swap_scheds x x' t)).
  assert (forall u, tk_rqstp (get_tk x' u) = tk_rqstp (get_tk x u) /\ need_xmit (get_tk x' u) = need_xmit (get_tk x u) /\ need_recv (get_tk x' u) = need_recv (get_tk x u)) as G
    by (intros u; by apply (swap_get_tk x x' t)).
  assert (net_ok run x') as N'.
  { split; [|done]. split; [done| |done]. destruct O as [H1 H2 H3 H4 H5 H6 H7 H8 H9 H10]. split; try done. intros u Hu. specialize (H7 u Hu). unfold info in *. rewrite lookup_fmap in *.
    change (x_tasks x') with T. rewrite E; [done|]. intros ->. by apply Ns. }
  apply (inv_of counts run x); [done| |done|done]. by eapply (reqs_ext x x' (inv_reqs _ _ _ I)); try done; apply (sl_backlog x (ro_slots x (inv_reqs _ _ _ I))).
Qed.

(** A task that is killed is woken from the queue it sleeps on. *)
Lemma keeps_wake_backlog run t st x : inv run x -> keeps run x (on_backlog (rpc_wake_up_queued_task_set_status t st) x).
Proof.
  intros I. pose proof (wake_status_leaves _ t st (sc_backlog x (lk_scheds _ _ (proj1 (inv_net _ _ _ I))))) as L.
  apply keeps_backlog; [done|apply L|]. by apply leaves_sub in L.
Qed.
End Tasks.
