(* ===== verification/TransportSock.v ===== *)
(** * Datagram sockets

    The methods of a UDP transport ([net/sunrpc/xprtsock.c], [xprt_sock_sendmsg] of
    [net/sunrpc/socklib.c]): sending against the congestion window, receiving a reply, timing
    out, connecting and closing.  What the network stack answers is a parameter: [sock_answer] for
    one send, the arguments of the functions elsewhere.  The theorem is that this table of methods
    keeps the contract [XprtOps] of the transport switch.

    The bits of [sock_state], socket options and byte counts are left out. *)

From S2P Require Import Prelude Xdr WaitQueue WaitQueueInv WaitQueueFrame RbTree RpcTimer Transport TransportLock TransportCong TransportQueues TransportOps TransportSlots TransportRelease TransportSteps TransportTasks.
From stdpp Require Import list gmap sorting.
#[local] Open Scope Z_scope.

Definition ENOTSOCK := 88.
Definition ENOBUFS := 105.

(** The lengths of [rq_snd_buf]. *)
Record snd_buf := mk_snd { head_len : Z; page_len : Z; tail_len : Z; buf_len : Z }.

(** ** [socklib.c] *)

(** [send i] is what [sock_sendmsg] answers for the head, the pages and the tail: an error or a count. *)
Definition xprt_sock_sendmsg (sock : bool) (send : nat -> Z) (xdr : snd_buf) (base rmsize : Z) : Z * Z :=
  let out err sent := if 0 <? err then (0, u32 (sent + err)) else (err, sent) in
  let tail base sent := if tail_len xdr <=? base then (0, sent) else out (send 2%nat) sent in
  let pages remainder base sent :=
    if base <? page_len xdr then
      let len := u32 (page_len xdr - base) in
      let err := send 1%nat in
      if (u32 (remainder - len) =? 0) || negb (u32 err =? len) then out err sent else tail 0 (u32 (sent + err))
    else tail (u32 (base - page_len xdr)) sent in
  if negb sock then (- ENOTSOCK, 0)
  else
    let remainder := u32 (rmsize + buf_len xdr - base) in
    let want := u32 (head_len xdr + rmsize) in
    if base <? want then
      let len := u32 (want - base) in
      let err := send 0%nat in
      if (u32 (remainder - len) =? 0) || negb (u32 err =? len) then out err 0 else pages (u32 (remainder - len)) 0 (u32 err)
    else pages remainder (u32 (base - want)) 0.

(** ** [xprtsock.c] *)

(** What the network stack and the clock answer while one request is sent. *)
Record sock_answer := mk_answer {
  a_send : nat -> Z;
  a_writeable : bool;              (* sock_writeable, after a failure *)
  a_writeable' : bool;             (* and again in xs_sock_nospace *)
  a_ktime : Z;
  a_buf : snd_buf;                 (* rq_snd_buf; rq_slen is its length *)
}.

Definition xs_nospace (x : rpc_xprt) : Z * rpc_xprt :=
  if xprt_connected x then (- EAGAIN, xprt_wait_for_buffer_space x) else (- ENOTCONN, x).

Definition xs_sock_nospace (writeable : bool) (x : rpc_xprt) : Z * rpc_xprt :=
  if negb writeable then xs_nospace x else (- EAGAIN, x).

(** [process_status]; other errors are returned as they are. *)
Definition process_status (writeable : bool) (status : Z) (x : rpc_xprt) : Z * rpc_xprt :=
  if status =? - ENOTSOCK then (- ENOTCONN, x)
  else if status =? - EAGAIN then xs_sock_nospace writeable x
  else (status, x).

Definition xs_udp_send_request (a : sock_answer) (r : Z) (x : rpc_xprt) : Z * rpc_xprt :=
  if negb (bound (x_conn x)) then (- ENOTCONN, x)
  else
    let '(got, x) := xprt_request_get_cong r x in
    if negb got then (- EBADSLT, x)
    else
      let x := on_req r (fun q => q <| rq_xtime := a_ktime a |>) x in
      let '(status, sent) := xprt_sock_sendmsg (inet (x_conn x)) (a_send a) (a_buf a) 0 0 in
      if status =? - EPERM then process_status (a_writeable' a) status x
      else
        let status := if (status =? - EAGAIN) && a_writeable a then - ENOBUFS else status in
        if (0 <? sent) || (status =? 0) then
          if buf_len (a_buf a) <=? sent then (0, x) else process_status (a_writeable' a) (- EAGAIN) x
        else process_status (a_writeable' a) status x.

Definition xs_udp_timer (task : Z) (x : rpc_xprt) : rpc_xprt := xprt_adjust_cwnd task (- ETIMEDOUT) x.

Definition xs_sock_reset_connection_flags (x : rpc_xprt) : rpc_xprt :=
  on_conn (fun c => c <| closing := false |>) (on_lock (fun l => l <| close_wait := false |>) x).

Definition xs_reset_transport (x : rpc_xprt) : rpc_xprt :=
  if negb (inet (x_conn x)) then x
  else
    let x := on_conn (fun c => c <| inet := false |> <| connected := false |>) x in
    xprt_disconnect_done (xs_sock_reset_connection_flags x).

Definition xs_close (x : rpc_xprt) : rpc_xprt := on_conn (fun c => c <| reestablish_timeout := 0 |>) (xs_reset_transport x).

Section Udp.
Context `{RbShape Z} `{Clock}.

Definition XS_TCP_INIT_REEST_TO := 3 * HZ.

(** The worker [xs_udp_setup_socket] is queued; it runs as a step of its own. *)
Definition xs_connect (transport task : Z) (x : rpc_xprt) : rpc_xprt :=
  let x := snd (xprt_lock_connect task transport x) in
  if inet (x_conn x) then xprt_reconnect_backoff XS_TCP_INIT_REEST_TO x else x.

Definition xs_udp_finish_connecting (now : Z) (x : rpc_xprt) : rpc_xprt :=
  let x := if negb (inet (x_conn x)) then on_conn (fun c => c <| connected := true |> <| inet := true |>) x else x in
  on_conn (fun c => c <| connect_start := now |>) x.

Definition xs_udp_ops (a : sock_answer) (transport : Z) : rpc_xprt_ops :=
  mk_ops xprt_reserve_xprt_cong xprt_release_xprt_cong (fun _ x => x) (xs_udp_send_request a) xprt_wait_for_reply_request_rtt
    xs_udp_timer xprt_release_rqst_cong xs_close (xs_connect transport).

(** [created] is whether there was a socket to be had. *)
Definition xs_udp_setup_socket (a : sock_answer) (now transport : Z) (created : bool) (x : rpc_xprt) : rpc_xprt :=
  let '(status, x) := if created then (0, xs_udp_finish_connecting now x) else (- EIO, x) in
  let x := on_conn (fun c => c <| connecting := false |>) x in
  xprt_wake_pending_tasks status (xprt_unlock_connect (xs_udp_ops a transport) now transport x).

(** [xp] is the number the datagram starts with, [buflen] the size of [rq_private_buf] and
    [csum] the answer of [csum_partial_copy_to_xdr]. *)
Definition xs_udp_data_read_skb (ktime repsize : Z) (xp : option Z) (buflen : Z -> Z) (csum : bool) (x : rpc_xprt) : rpc_xprt :=
  if repsize <? 4 then x
  else
    match xp with
    | None => x
    | Some xid =>
        match xprt_lookup_rqst ktime xid x with
        | (None, x) => x
        | (Some rovr, x) =>
            let task := default 0 (rq_task (get_req x rovr)) in
            let x := xprt_update_rtt task (xprt_pin_rqst rovr x) in
            let copied := if repsize <? buflen rovr then repsize else buflen rovr in
            let x := if csum then x else xprt_complete_rqst task copied (xprt_adjust_cwnd task copied x) in
            xprt_unpin_rqst rovr x
        end
    end.
End Udp.

(** ** The contract *)

Lemma sendmsg_status sock send xdr base rm st sent : xprt_sock_sendmsg sock send xdr base rm = (st, sent) -> st <= 0 /\ (st = 0 \/ st = - ENOTSOCK \/ exists i, st = send i).
Proof.
  unfold xprt_sock_sendmsg. assert (forall i n, let r := if 0 <? send i then (0, u32 (n + send i)) else (send i, n) in fst r <= 0 /\ (fst r = 0 \/ fst r = - ENOTSOCK \/ exists i, fst r = send i)) as Out.
  { intros i n. destruct (Z.ltb_spec 0 (send i)); cbn; [lia|]. split; [done|]. right; right. by exists i. }
  destruct sock; cbn [negb]; [|intros [= <- <-]; unfold ENOTSOCK; lia]. intros E. apply (f_equal fst) in E. cbn [fst] in E. rewrite <- E. clear E.
  cbv zeta beta. repeat match goal with |- context [if ?b then _ else _] => match b with 0 <? send _ => fail 1 | _ => destruct b end end; apply (Out 0%nat) || apply (Out 1%nat) || apply (Out 2%nat) || (cbn; lia).
Qed.

Lemma process_status_ok run w st x st' x' : net_ok run x -> st < 0 -> st <> - EBADMSG -> process_status w st x = (st', x') ->
  net_ok run x' /\ quiet x x' /\ st' <= 0 /\ st' <> - EBADMSG.
Proof.
  intros N L B E. unfold process_status, xs_sock_nospace, xs_nospace in E. destruct (Z.eqb_spec st (- ENOTSOCK)); [injection E as <- <-; by split_and!; [|apply quiet_refl| |]|].
  destruct (Z.eqb_spec st (- EAGAIN)); [|injection E as <- <-; split_and!; [done|apply quiet_refl|lia|done]].
  destruct w; cbn [negb] in E; [injection E as <- <-; by split_and!; [|apply quiet_refl| |]|].
  destruct (xprt_connected x); injection E as <- <-; [|by split_and!; [|apply quiet_refl| |]]. destruct (buffer_space_net run x N). by split_and!.
Qed.

Section Contract.
Context `{RbShape Z} `{Clock} (a : sock_answer) (transport : Z).
(** Sending on a datagram socket does not fail with EBADMSG. *)
Context (no_badmsg : forall i, a_send a i <> - EBADMSG).
Notation inv := (inv true).

(** A credit for a request in use. *)
Lemma get_cong_inv run r t x : inv run x -> ready x t r -> let '(got, x') := xprt_request_get_cong r x in inv run x' /\ sends_only x x'.
Proof.
  intros I R. unfold xprt_request_get_cong. assert (sends_only x x) as Rf by done. destruct (rq_cong (get_req x r)); [done|].
  pose proof (sl_holds x (ro_slots x (inv_reqs _ _ _ I)) t r (proj1 R)) as [Sr Nf]. pose proof (get_cong_ok run r x (inv_net _ _ _ I) Sr) as G.
  destruct (__xprt_get_cong r x) as [ok x']. destruct G as (N & Es & Eq & Ei & Eb & _ & _ & Er).
  assert (near x x') as Nr.
  { split; [by split_and!|]. intros s. rewrite Er. destruct (decide (s = r)) as [->|]; [|destruct (x_reqs x !! s); by constructor].
    destruct (x_reqs x !! r) as [q|]; constructor. destruct ok; by split_and!. }
  split; [split; [split; [done|eapply near_reqs_ok; [done|by apply (inv_reqs true run)]]|done]|]. split_and!; [done|done|]. intros s. destruct (near_get x x' s Nr) as (? & _ & ?). done.
Qed.

Lemma sends_trans x y z : sends_only x y -> sends_only y z -> sends_only x z.
Proof. intros (A1 & A2 & A3) (B1 & B2 & B3). split_and!; [congruence|congruence|]. intros s. destruct (A3 s), (B3 s). split; congruence. Qed.

Lemma quiet_sends x x' : quiet x x' -> sends_only x x'.
Proof. intros Q. split_and!; [apply Q|apply Q|]. intros s. unfold get_req. by rewrite (qt_reqs _ _ Q). Qed.

Lemma udp_send_ok r t x st x' : inv false x -> ready x t r -> xs_udp_send_request a r x = (st, x') -> inv false x' /\ sends_only x x' /\ st <= 0 /\ st <> - EBADMSG.
Proof.
  intros I R E. unfold xs_udp_send_request in E. destruct (negb (bound _)); [injection E as <- <-; by split_and!|]. pose proof (get_cong_inv false r t x I R) as G.
  destruct (xprt_request_get_cong r x) as [got x1]. destruct G as [I1 S1]. destruct got; cbn [negb] in E; [|injection E as <- <-; by split_and!].
  set (x2 := on_req r _ x1) in E. assert (inv false x2) as I2 by (by apply inv_req). assert (sends_only x1 x2) as S2.
  { split_and!; try done. intros s. unfold x2, get_req, on_req. cbn. destruct (decide (s = r)) as [->|]; [rewrite lookup_alter_eq|by rewrite lookup_alter_ne]. by destruct (x_reqs x1 !! r). }
  pose proof (sends_trans _ _ _ S1 S2) as S. destruct (xprt_sock_sendmsg _ _ _ _ _) as [st1 sent] eqn:Sm. destruct (sendmsg_status _ _ _ _ _ _ _ Sm) as [Le Sc].
  assert (st1 <> - EBADMSG) as Nb by (destruct Sc as [->|[->|[i ->]]]; [done|done|apply no_badmsg]).
  assert (forall w st0, st0 < 0 -> st0 <> - EBADMSG -> process_status w st0 x2 = (st, x') -> inv false x' /\ sends_only x x' /\ st <= 0 /\ st <> - EBADMSG) as Ps.
  { intros w st0 L0 B0 E0. destruct (process_status_ok false w st0 x2 st x' (inv_net _ _ _ I2) L0 B0 E0) as (N3 & Q3 & Rest). split_and!; try apply Rest.
    - by destruct (inv_quiet true false false x2 x' (conj N3 Q3) I2).
    - eapply sends_trans; [exact S|by apply quiet_sends]. }
  destruct (Z.eqb_spec st1 (- EPERM)) as [->|]; [exact (Ps _ (- EPERM) eq_refl ltac:(done) E)|]. set (st2 := if (st1 =? - EAGAIN) && a_writeable a then - ENOBUFS else st1) in E.
  assert (st2 <= 0 /\ st2 <> - EBADMSG) as [L2 B2] by (unfold st2; by destruct (_ && _)).
  destruct ((0 <? sent) || (st2 =? 0)) eqn:C.
  - destruct (_ <=? sent); [injection E as <- <-; split; [exact I2|]; split; [exact S|done]|exact (Ps _ (- EAGAIN) eq_refl ltac:(done) E)].
  - apply orb_false_iff in C as [_ C]. apply Z.eqb_neq in C. exact (Ps _ st2 ltac:(lia) B2 E).
Qed.

Lemma reset_transport_net run x : net_ok run x -> net_ok run (xs_reset_transport x) /\ quiet x (xs_reset_transport x).
Proof.
  intros N. unfold xs_reset_transport, xs_sock_reset_connection_flags. destruct (negb _); [split; [done|apply quiet_refl]|].
  destruct (on_conn_net run (fun c => c <| inet := false |> <| connected := false |>) x N) as [N1 Q1]. set (x1 := on_conn _ x) in *.
  destruct (clear_close_wait_net run x1 N1) as [N2 Q2]. set (x2 := on_lock _ x1) in *. destruct (on_conn_net run (fun c => c <| closing := false |>) x2 N2) as [N3 Q3].
  destruct (disconnect_done_net run _ N3) as [N4 Q4]. split; [exact N4|]. eapply quiet_trans; [exact Q1|]. eapply quiet_trans; [exact Q2|]. eapply quiet_trans; [exact Q3|exact Q4].
Qed.

Lemma close_net run x : net_ok run x -> net_ok run (xs_close x) /\ quiet x (xs_close x).
Proof.
  intros N. unfold xs_close. destruct (reset_transport_net run x N) as [N1 Q1]. destruct (on_conn_net run (fun c => c <| reestablish_timeout := 0 |>) _ N1) as [N2 Q2].
  split; [exact N2|by eapply quiet_trans].
Qed.

Lemma connect_net run t x : net_ok run x -> info x !! transport = None -> net_ok run (xs_connect transport t x) /\ quiet x (xs_connect transport t x).
Proof.
  intros N C. unfold xs_connect. destruct (lock_connect_net run t transport x N C) as [N1 Q1].
  { intros Hq. destruct (sender_known x transport (lk_scheds _ _ (proj1 N)) Hq). congruence. }
  set (x1 := snd (xprt_lock_connect t transport x)) in *. destruct (inet (x_conn x1)); [|done]. unfold xprt_reconnect_backoff.
  match goal with |- net_ok run (on_conn ?f x1) /\ _ => destruct (on_conn_net run f x1 N1) as [N2 Q2] end. split; [exact N2|by eapply quiet_trans].
Qed.

(** The table keeps the contract of the transport switch. *)
#[export] Instance udp_ops : XprtOps (xs_udp_ops a transport) true transport.
Proof.
  split; cbn [reserve_xprt release_xprt prepare_request send_request wait_for_reply_request timer release_request close connect xs_udp_ops].
  - intros run now t x. apply reserve_cong_ok.
  - exists true. intros. apply release_cong.
  - intros run r x N. split; [done|apply quiet_refl].
  - intros run now t x N. unfold xprt_wait_for_reply_request_rtt. destruct (get_clnt x t); [by apply sleep_pending_net|split; [done|apply quiet_refl]].
  - intros run t x N. destruct (adjust_cwnd_ok run t (- ETIMEDOUT) x N) as (N1 & C1 & R1 & _). split; [done|]. by apply (soft_alter (rqstp x t) drop_credit).
  - intros run t x N _. destruct (put_cong_ok run (rqstp x t) x N) as (N1 & C1 & R1 & _). unfold xprt_release_rqst_cong. split; [done|]. split; [by apply (soft_alter (rqstp x t) drop_credit)|].
    unfold get_req. rewrite R1, lookup_alter_eq. by destruct (x_reqs x !! _).
  - apply udp_send_ok.
  - intros run x I. by apply (inv_quiet true run run), I; apply close_net, inv_net with true.
  - intros t x I C. by apply (inv_quiet true false false), I; apply connect_net, C; apply inv_net with true.
Qed.
End Contract.

(** ** A reply arrives *)

Lemma rb_find_ready x xid r : reqs_ok x -> xprt_request_rb_find xid x = Some r -> exists t, ready x t r /\ need_recv (get_tk x t) = true /\ xid_of x r = xid.
Proof.
  intros R F. apply (rb_find_spec x xid r (ro_recv x R)) in F as [Hin Ex]. apply (rc_in x (ro_recv x R)) in Hin as (t & Ht & N). exists t. split; [|done].
  destruct (rc_task x (ro_recv x R) t N) as (s & Hs & T). assert (s = r) as -> by (unfold holds in *; congruence). by split.
Qed.

Section Replies.
Context `{RbShape Z} `{Clock}.
Notation inv := (inv true).
Notation keeps := (keeps true).

(** What delivery does to the request of the reply. *)
Definition delivered (copied : Z) (q q' : rpc_rqst) : Prop :=
  rq_task q' = rq_task q /\ rq_xid q' = rq_xid q /\ rq_pin q' = rq_pin q /\ rq_cong q' = false /\ rq_reply_bytes_recvd q' = copied.

(** Completion: the reply is recorded, the request leaves the receive queue and its task the
    queue of waiting tasks. *)
Lemma complete_effect run t r copied x : inv run x -> ready x t r -> let x' := xprt_complete_rqst t copied x in
  x_reqs x' = alter (fun q => q <| rq_private_buf := copied |> <| rq_reply_bytes_recvd := copied |>) r (x_reqs x) /\
  need_recv (get_tk x' t) = false /\ t ∉ queued (pending x').
Proof.
  intros I R. unfold xprt_complete_rqst. set (x1 := on_stat _ x). change (rqstp x1 t) with (rqstp x t). rewrite (ready_rqstp x t r R). set (x2 := on_req r _ x1).
  assert (keeps run x x2) as K2 by (eapply keeps_then; [|intros I1; apply inv_req; [done|exact I1]]; apply keeps_quiet; [done|]; apply net_stat).
  assert (reqs_ok x2) as R2 by apply (inv_reqs true run), K2. destruct (dequeue_receive_tk t x2 R2) as (E3 & _ & _ & V3 & _).
  pose proof (inv_dequeue_receive true run t x2 (proj1 K2)) as [I3 _]. set (x3 := xprt_request_dequeue_receive_locked t x2) in *.
  destruct (wake_one_pending_net run t x3 (inv_net _ _ _ I3)) as [N4 Q4]. cbv zeta. rewrite (qt_reqs _ _ Q4), E3. split; [done|].
  rewrite (get_tk_info x3 _ t (qt_info _ _ Q4)). split; [done|].
  pose proof (wake_queued_leaves _ t (sc_pending x3 (lk_scheds _ _ (proj1 (inv_net _ _ _ I3))))) as [_ L]. set (s := rpc_wake_up_queued_task t (with_queue (pending x3) x3)) in *.
  change (t ∉ queued (sc_queue s)). destruct L as [[-> ?]|P]; [done|].
  pose proof (qo_nodup _ _ (so_queue _ (sc_pending x3 (lk_scheds _ _ (proj1 (inv_net _ _ _ I3)))))) as Nd. rewrite P in Nd. by apply NoDup_cons in Nd as [? _].
Qed.

Lemma update_rtt_reqs t x : x_reqs (xprt_update_rtt t x) = x_reqs x /\ info (xprt_update_rtt t x) = info x.
Proof. unfold xprt_update_rtt. by destruct (_ =? 0). Qed.

(** A reply for a task that waits. *)
Lemma read_skb_match ktime repsize xid buflen csum x r : inv false x -> 4 <= repsize -> xprt_request_rb_find xid x = Some r ->
  let x' := xs_udp_data_read_skb ktime repsize (Some xid) buflen csum x in keeps false x x' /\ exists t, ready x t r /\ (exists F, x_reqs x' = alter F r (x_reqs x) /\
    (forall q, rq_pin (F q) = rq_pin q) /\ (csum = false -> forall q, delivered (Z.min repsize (buflen r)) q (F q))) /\
    (csum = false -> need_recv (get_tk x' t) = false /\ t ∉ queued (pending x')).
Proof.
  intros I Hs F. unfold xs_udp_data_read_skb. destruct (Z.ltb_spec repsize 4); [lia|]. unfold xprt_lookup_rqst. rewrite F. destruct (rb_find_ready x xid r (inv_reqs _ _ _ I) F) as (t & R & _ & _).
  set (x1 := on_req r (fun q => q <| rq_rtt := ktime - rq_xtime q |>) x). assert (keeps false x x1) as K1 by (by apply inv_req). assert (ready x1 t r) as R1 by by apply K1.
  rewrite (proj2 R1). change (default 0 (Some t)) with t. pose proof (keeps_pin true false r t x1 (proj1 K1) R1) as K2. set (x2 := xprt_pin_rqst r x1) in *.
  pose proof (keeps_update_rtt true false t x2 (proj1 K2)) as K3. destruct (update_rtt_reqs t x2) as [E3 Ei3]. set (x3 := xprt_update_rtt t x2) in *.
  assert (ready x3 t r) as R3 by by apply K3, K2. assert (keeps false x x3) as K by (eapply keeps_then; [exact K1|]; intros _; eapply keeps_then; [exact K2|]; by intros _).
  assert (is_Some (x_reqs x !! r)) as [q0 Kq] by apply (sl_holds x (ro_slots x (inv_reqs _ _ _ I)) t r (proj1 R)). pose proof (ro_pins x (inv_reqs _ _ _ I) r q0 Kq) as P0.
  set (copied := if repsize <? buflen r then repsize else buflen r). assert (copied = Z.min repsize (buflen r)) as Ec by (unfold copied; destruct (Z.ltb_spec repsize (buflen r)); lia).
  set (F3 := fun q => q <| rq_rtt := ktime - rq_xtime q |> <| rq_pin := rq_pin q + 1 |>). assert (x_reqs x3 = alter F3 r (x_reqs x)) as R3q.
  { rewrite E3. change (x_reqs x2) with (x_reqs (on_req r (fun q => q <| rq_pin := rq_pin q + 1 |>) x1)). unfold x1. rewrite on_req_twice. done. }
  assert (forall y G, keeps false x3 y -> x_reqs y = alter G r (x_reqs x) -> (forall q, rq_pin (G q) = rq_pin q + 1) ->
    keeps false x (xprt_unpin_rqst r y) /\ x_reqs (xprt_unpin_rqst r y) = alter (fun q => (G q) <| rq_pin := rq_pin (G q) - 1 |>) r (x_reqs x)) as Un.
  { intros y G Ky Ey Pg. split.
    - eapply keeps_then; [exact K|]. intros _. eapply keeps_then; [exact Ky|]. intros Iy. eapply (keeps_unpin true false r t); [done|by apply Ky|].
      unfold get_req. rewrite Ey, lookup_alter_eq, Kq. cbn. rewrite Pg. lia.
    - unfold xprt_unpin_rqst, on_req. cbn. rewrite Ey. apply map_eq. intros s. destruct (decide (s = r)) as [->|]; [|by rewrite !lookup_alter_ne]. rewrite !lookup_alter_eq. by rewrite Kq. }
  destruct csum.
  - destruct (Un x3 F3) as [K4 E4]; [by apply keeps_refl, K|done|done|]. split; [done|]. exists t. split; [done|]. split; [|done]. eexists. split; [exact E4|]. split; [|done].
    intros q. cbn. lia.
  - pose proof (keeps_adjust_cwnd true false t copied x3 (proj1 K)) as K4. destruct (adjust_cwnd_ok false t copied x3 (inv_net _ _ _ (proj1 K))) as (_ & _ & E4 & _). set (x4 := xprt_adjust_cwnd t copied x3) in *.
    rewrite (ready_rqstp x3 t r R3), R3q in E4. pose proof (keeps_complete true false t copied x4 (proj1 K4)) as K5. assert (ready x4 t r) as R4 by by apply K4.
    destruct (complete_effect false t r copied x4 (proj1 K4) R4) as (E5 & V5 & Q5). set (x5 := xprt_complete_rqst t copied x4) in *.
    destruct (Un x5 (fun q => (drop_credit (F3 q)) <| rq_private_buf := copied |> <| rq_reply_bytes_recvd := copied |>)) as [K6 E6]; [eapply keeps_then; [exact K4|by intros _]| |done|].
    { rewrite E5, E4. apply map_eq. intros s. destruct (decide (s = r)) as [->|]; [|by rewrite !lookup_alter_ne]. rewrite !lookup_alter_eq. by rewrite Kq. }
    split; [exact K6|]. exists t. split; [done|]. split; [|intros _; split; [exact V5|exact Q5]]. eexists. split; [exact E6|]. split; [intros q; cbn; lia|]. intros _ q. rewrite <- Ec. split_and!; try done. cbn. lia.
Qed.

(** A reply nobody waits for is counted. *)
Lemma read_skb_stray ktime repsize xid buflen csum x : 4 <= repsize -> xprt_request_rb_find xid x = None ->
  xs_udp_data_read_skb ktime repsize (Some xid) buflen csum x = on_stat (fun s => s <| bad_xids := u64 (bad_xids s + 1) |>) x.
Proof. intros Hs F. unfold xs_udp_data_read_skb. destruct (Z.ltb_spec repsize 4); [lia|]. unfold xprt_lookup_rqst. by rewrite F. Qed.

Lemma keeps_read_skb ktime repsize xp buflen csum x : inv false x -> keeps false x (xs_udp_data_read_skb ktime repsize xp buflen csum x).
Proof.
  intros I. destruct (Z.ltb_spec repsize 4) as [L|L]; [unfold xs_udp_data_read_skb; destruct (Z.ltb_spec repsize 4); [by apply keeps_refl|lia]|].
  destruct xp as [xid|]; [|unfold xs_udp_data_read_skb; destruct (_ <? 4); by apply keeps_refl]. destruct (xprt_request_rb_find xid x) as [r|] eqn:F.
  - by apply (read_skb_match ktime repsize xid buflen csum x r).
  - rewrite read_skb_stray by done. apply keeps_quiet; [done|]. apply net_stat.
Qed.

Lemma keeps_setup_socket a transport now created x : (forall i, a_send a i <> - EBADMSG) -> inv false x -> keeps false x (xs_udp_setup_socket a now transport created x).
Proof.
  intros Nb I. unfold xs_udp_setup_socket. set (p := if created then _ else _). assert (exists st y, p = (st, y) /\ keeps false x y) as (st & y & -> & Ky).
  { unfold p. destruct created; (eexists _, _; split; [done|]); [|by apply keeps_refl]. unfold xs_udp_finish_connecting. destruct (negb _).
    - eapply keeps_then; [|intros I1; apply keeps_quiet; [exact I1|apply on_conn_net]]. apply keeps_quiet; [done|]. apply on_conn_net.
    - apply keeps_quiet; [done|]. apply on_conn_net. }
  eapply keeps_then; [|intros I3; apply keeps_quiet; [exact I3|apply wake_pending_net]].
  eapply keeps_then; [|intros I2; apply (keeps_unlock_connect (xs_udp_ops a transport) true transport (XprtOps0 := udp_ops a transport Nb)), I2].
  eapply keeps_then; [exact Ky|]. intros I1. apply keeps_quiet; [done|]. apply on_conn_net.
Qed.
End Replies.
