(* ===== verification/TransportTheorems.v ===== *)
(** * Theorems about the transport switch

    [xprt_step] lists what may happen to a transport: tasks that reserve, queue, send, wait and
    release, replies, timers, the socket and its workers, in any order.  The methods of the
    transport may answer differently at each step, as long as they keep [XprtOps].  The theorems
    are about the states that can be reached: nothing is lost and nobody waits in vain. *)

From S2P Require Import Prelude Xdr WaitQueue WaitQueueInv WaitQueueTheorems WaitQueueFrame RbTree RpcTimer Transport TransportLock TransportCong TransportQueues TransportOps TransportSlots TransportRelease TransportSteps TransportTasks TransportSock.
From stdpp Require Import list gmap sorting relations.
#[local] Open Scope Z_scope.

Section Reach.
Context `{RbShape Z} `{Clock} (counts : bool) (cookie : Z).
Notation inv := (inv counts).

(** Fuel that is enough (see [transmit_ok]). *)
Definition transmit_fuel (x : rpc_xprt) : nat := S (length (concat (xmit_queue (x_queues x)))).

(** A task that runs: it exists and is not asleep waiting to send. *)
Inductive xprt_step (x : rpc_xprt) : rpc_xprt -> Prop :=
(* tasks; an address that is in use is not given to a new task *)
| step_new t k : x_tasks x !! t = None -> idle_task (Some k) -> t <> cookie -> snd_task (x_lock x) <> Some t ->
    xprt_step x (x <| x_tasks := <[t := k]> (x_tasks x) |>)
| step_exit t : idle_task (x_tasks x !! t) -> snd_task (x_lock x) <> Some t -> xprt_step x (x <| x_tasks := delete t (x_tasks x) |>)
(* slots; the number a request gets is not in use, and the callback of a task runs first *)
| step_reserve mem now ktime t : is_Some (x_tasks x !! t) -> (forall r, holds x t r -> ready x t r) -> (forall r, mem = Some r -> x_reqs x !! r = None) -> fresh_xid x ->
    xprt_step x (xprt_reserve mem now ktime t x)
| step_retry mem now ktime t : is_Some (x_tasks x !! t) -> (forall r, holds x t r -> ready x t r) -> (forall r, mem = Some r -> x_reqs x !! r = None) -> fresh_xid x ->
    xprt_step x (xprt_retry_reserve mem now ktime t x)
| step_complete_init now ktime t : (forall r, holds x t r -> rq_task (get_req x r) = None) -> fresh_xid x -> xprt_step x (xprt_complete_request_init now ktime t x)
| step_release ops now t : XprtOps ops counts cookie -> is_Some (info x !! t) -> xprt_step x (snd (xprt_release ops now t x))
(* sending *)
| step_enqueue_receive ops t r : XprtOps ops counts cookie -> ready x t r -> xprt_step x (xprt_request_enqueue_receive ops t x)
| step_enqueue_transmit t r : ready x t r -> xprt_step x (xprt_request_enqueue_transmit t x)
| step_dequeue t : xprt_step x (snd (xprt_request_dequeue_xprt t x))
| step_prepare ops now t : XprtOps ops counts cookie -> awake x t -> xprt_step x (snd (xprt_prepare_transmit ops now t x))
| step_transmit ops t x' : XprtOps ops counts cookie -> xprt_transmit (transmit_fuel x) ops t x = Some x' -> xprt_step x x'
| step_end ops t : XprtOps ops counts cookie -> is_Some (info x !! t) -> xprt_step x (xprt_end_transmit ops t x)
(* waiting *)
| step_wait ops now t : XprtOps ops counts cookie -> xprt_step x (xprt_request_wait_receive ops now t x)
| step_timer ops t : XprtOps ops counts cookie -> xprt_step x (xprt_timer ops t x)
| step_adjust_timeout now t : xprt_step x (snd (xprt_adjust_timeout now t x))
| step_pending_timer now : xprt_step x (on_pending (__rpc_queue_timer_fn now) x)
| step_sending_timer now : xprt_step x (on_sending (__rpc_queue_timer_fn now) x)
| step_kill_pending t st : xprt_step x (on_pending (rpc_wake_up_queued_task_set_status t st) x)
| step_kill_sending t st : xprt_step x (on_sending (rpc_wake_up_queued_task_set_status t st) x)
| step_kill_backlog t st : xprt_step x (on_backlog (rpc_wake_up_queued_task_set_status t st) x)
(* replies *)
| step_lookup ktime xid : xprt_step x (snd (xprt_lookup_rqst ktime xid x))
| step_pin t r : ready x t r -> xprt_step x (xprt_pin_rqst r x)
| step_unpin t r : ready x t r -> 1 <= rq_pin (get_req x r) -> xprt_step x (xprt_unpin_rqst r x)
| step_update_rtt t : xprt_step x (xprt_update_rtt t x)
| step_adjust_cwnd t result : xprt_step x (xprt_adjust_cwnd t result x)
| step_complete t copied : xprt_step x (xprt_complete_rqst t copied x)
| step_datagram ktime repsize xp buflen csum : counts = true -> xprt_step x (xs_udp_data_read_skb ktime repsize xp buflen csum x)
(* the connection *)
| step_connect ops now t : XprtOps ops counts cookie -> awake x t -> xprt_step x (xprt_connect ops now t x)
| step_connected f : xprt_step x (on_conn f x)
| step_unlock_connect ops now c : XprtOps ops counts cookie -> xprt_step x (xprt_unlock_connect ops now c x)
| step_autoclose ops : XprtOps ops counts cookie -> task_cleanup (x_lock x) = true -> xprt_step x (xprt_autoclose ops x)
| step_disconnect_done : xprt_step x (xprt_disconnect_done x)
| step_force_disconnect : xprt_step x (xprt_force_disconnect x)
| step_conditional_disconnect c : xprt_step x (xprt_conditional_disconnect c x)
| step_idle now : xprt_step x (xprt_init_autodisconnect now x)
| step_wake_pending st : xprt_step x (xprt_wake_pending_tasks st x)
| step_write_space : xprt_step x (snd (xprt_write_space x))
| step_no_space : xprt_step x (xprt_wait_for_buffer_space x).

Definition good (x : rpc_xprt) : Prop := inv false x /\ info x !! cookie = None.

Lemma keeps_good x x' : good x -> keeps counts false x x' -> good x'.
Proof. intros [_ C] [I S]. split; [done|]. by eapply stays_cookie. Qed.

Lemma dom_good x x' : good x -> inv false x' -> (forall u, is_Some (info x' !! u) <-> is_Some (info x !! u)) -> good x'.
Proof. intros [_ C] I S. split; [done|]. apply eq_None_not_Some. rewrite S, C. by intros [? ?]. Qed.

Lemma new_task_good x t k : good x -> x_tasks x !! t = None -> idle_task (Some k) -> t <> cookie -> snd_task (x_lock x) <> Some t -> good (x <| x_tasks := <[t := k]> (x_tasks x) |>).
Proof.
  intros [I C] N Ik Nc Ns. split.
  - apply (inv_swap counts false x (<[t := k]> (x_tasks x)) t); [intros u Hu; by apply lookup_insert_ne|by rewrite N|by rewrite lookup_insert_eq|done|done].
  - unfold info in *. rewrite lookup_fmap in *. change (tinfo <$> <[t := k]> (x_tasks x) !! cookie = None). by rewrite lookup_insert_ne.
Qed.

Lemma exit_good x t : good x -> idle_task (x_tasks x !! t) -> snd_task (x_lock x) <> Some t -> good (x <| x_tasks := delete t (x_tasks x) |>).
Proof.
  intros [I C] Ik Ns. split.
  - apply (inv_swap counts false x (delete t (x_tasks x)) t); [intros u Hu; by apply lookup_delete_ne|done|by rewrite lookup_delete_eq|done|done].
  - unfold info in *. rewrite lookup_fmap in *. change (tinfo <$> delete t (x_tasks x) !! cookie = None). destruct (decide (cookie = t)) as [->|]; [by rewrite lookup_delete_eq|by rewrite lookup_delete_ne].
Qed.

Lemma step_good x x' : good x -> xprt_step x x' -> good x'.
Proof.
  intros G St. pose proof G as [I C]. pose proof (inv_net _ _ _ I) as N.
  assert (forall y, net_ok false y /\ quiet x y -> good y) as Qg by (intros y K; apply (keeps_good x y G), keeps_quiet; by intros).
  assert (forall y, keeps counts false x y -> good y) as Kg by (intros y; by apply keeps_good).
  destruct St as [t k|t|mem now ktime t|mem now ktime t|now ktime t|ops now t|ops t r X|t r|t|ops now t X|ops t x' X E|ops t X|ops now t X|ops t X|now t|now|now|t st|t st|t st|ktime xid|t r|t r
    |t|t result|t copied|ktime repsize xp buflen csum Ec|ops now t X|f|ops now c X|ops X| | |c|now|st| |].
  - by apply new_task_good.
  - by apply exit_good.
  - destruct (reserve_slot_ok counts false mem now ktime t x) as (I1 & _ & D & _); try done. by apply (dom_good x).
  - destruct (retry_reserve_ok counts false mem now ktime t x) as (I1 & _ & D & _); try done. by apply (dom_good x).
  - destruct (complete_init_ok counts false now ktime t x) as (I1 & _ & D & _); try done. by apply (dom_good x).
  - destruct (xprt_release ops now t x) as [b x'] eqn:E. destruct (release_ok ops counts cookie now t x b x') as (I1 & D & _); try done. by apply (dom_good x).
  - by apply Kg, (inv_enqueue_receive counts ops cookie false t r).
  - by apply Kg, (inv_enqueue_transmit counts false t r).
  - destruct (xprt_request_dequeue_xprt t x) as [b x'] eqn:E. by apply Kg, (keeps_dequeue_xprt counts false t b x x').
  - by apply Kg, (keeps_prepare_transmit ops counts cookie).
  - destruct (transmit_ok ops counts cookie (transmit_fuel x) t x I) as (y & E' & K & _); [unfold transmit_fuel; lia|]. rewrite E in E'. injection E' as ->. by apply Kg.
  - by apply Kg, (keeps_release_write ops counts cookie).
  - by apply Kg, (keeps_wait_receive ops counts cookie).
  - by apply Kg, (keeps_timer ops counts cookie).
  - by apply Kg, keeps_adjust_timeout.
  - by apply Kg, keeps_pending_timer.
  - by apply Kg, keeps_sending_timer.
  - by apply Qg, wake_one_pending_status_net.
  - by apply Qg, wake_sender_net.
  - by apply Kg, keeps_wake_backlog.
  - by apply Kg, keeps_lookup.
  - by apply Kg, (keeps_pin counts false r t).
  - by apply Kg, (keeps_unpin counts false r t).
  - by apply Kg, keeps_update_rtt.
  - by apply Kg, keeps_adjust_cwnd.
  - by apply Kg, keeps_complete.
  - apply Kg. clear -I Ec. rewrite Ec in I |- *. by apply keeps_read_skb.
  - by apply Kg, (keeps_connect ops counts cookie).
  - by apply Qg, on_conn_net.
  - by apply Kg, (keeps_unlock_connect ops counts cookie).
  - by apply Kg, (keeps_autoclose ops counts cookie).
  - by apply Qg, disconnect_done_net.
  - by apply Qg, schedule_autoclose_net.
  - by apply Qg, conditional_disconnect_net.
  - by apply Qg, init_autodisconnect_net.
  - by apply Qg, wake_pending_net.
  - by apply Qg, write_space_net.
  - by apply Qg, buffer_space_net.
Qed.

(** ** A new transport *)

Lemma prealloc_some mem l l' : prealloc mem l = Some l' -> exists a, mem = Some <$> a /\ l' = rev a ++ l.
Proof.
  revert l. induction mem as [|[r|] mem IH]; intros l E; simpl in E; [injection E as <-; by exists []| |done].
  destruct (IH _ E) as (a & -> & ->). exists (r :: a). split; [done|]. simpl. by rewrite <- app_assoc.
Qed.

Lemma blank_lookup l r q : (list_to_map ((fun r => (r, rq_zero)) <$> l) : gmap Z rpc_rqst) !! r = Some q -> q = rq_zero /\ r ∈ l.
Proof. intros K%elem_of_list_to_map_2. apply list_elem_of_fmap in K as (s & E & Hs). by simplify_eq. Qed.

Lemma blank_present l r : r ∈ l -> is_Some ((list_to_map ((fun r => (r, rq_zero)) <$> l) : gmap Z rpc_rqst) !! r).
Proof. intros Hr. apply elem_of_dom. rewrite dom_list_to_map_L. apply elem_of_list_to_set. apply list_elem_of_fmap. exists (r, rq_zero). split; [done|]. apply list_elem_of_fmap. by exists r. Qed.

Lemma blank_size l : NoDup l -> size (list_to_map ((fun r => (r, rq_zero)) <$> l) : gmap Z rpc_rqst) = length l.
Proof.
  intros N. rewrite <- size_dom, dom_list_to_map_L. rewrite <- list_fmap_compose. assert ((fst ∘ fun r : Z => (r, rq_zero)) <$> l = l) as ->; [|by apply size_list_to_set].
  clear N. induction l as [|a l IH]; [done|]. simpl. by f_equal.
Qed.

Lemma no_credits l : credits (list_to_map ((fun r => (r, rq_zero)) <$> l)) = 0.
Proof.
  unfold credits. assert (filter (fun p => rq_cong p.2 = true) (list_to_map ((fun r => (r, rq_zero)) <$> l) : gmap Z rpc_rqst) = ∅) as ->; [|by rewrite map_size_empty].
  apply map_empty. intros r. apply map_lookup_filter_None. right. intros q K. by destruct (blank_lookup l r q K) as [-> _].
Qed.

Lemma alloc_good mem max_alloc xid now x : xprt_alloc mem max_alloc xid now = Some x -> NoDup mem -> 1 <= Z.max max_alloc (zlen mem) < 2 ^ 24 -> good x.
Proof.
  unfold xprt_alloc. intros E Nd B. destruct (prealloc mem []) as [l|] eqn:P; [|done]. destruct (prealloc_some mem [] l P) as (a & -> & El). rewrite app_nil_r in El.
  assert (NoDup l) as Nl by (subst l; apply NoDup_fmap in Nd; [|apply _]; by rewrite <- Permutation_rev).
  assert (length l = length (Some <$> a)) as Ll by (subst l; by rewrite length_rev, length_fmap). unfold zlen in *. rewrite <- Ll in B. clear P El Ll Nd.
  set (q := fun addr => rpc_init_wait_queue (mk_queue addr [] 0 0 0 0 [] 0 None)) in *. set (qp := rpc_init_priority_wait_queue (mk_queue 3 [] 0 0 0 0 [] 0 None)) in *.
  assert (forall addr rn pt, sched_ok (mk_sched xtask ∅ (q addr) rn pt)) as Sq by (intros; apply init_ok; done).
  assert (forall rn pt, sched_ok (mk_sched xtask ∅ qp rn pt)) as Sp by (intros; apply init_ok; done).
  injection E as <-. set (m := list_to_map _ : gmap Z rpc_rqst). pose proof (blank_size l Nl) as Sz. fold m in Sz. pose proof (no_credits l) as Cr. fold m in Cr.
  split; [|done]. assert (forall n, (if Z.of_nat (length l) <? n then n else Z.of_nat (length l)) = Z.max n (Z.of_nat (length l))) as Em by (intros n; destruct (Z.ltb_spec (Z.of_nat (length l)) n); lia).
  split; [|by intros _]. split; [split; [split|split]|].
  - split; [apply Sq|apply Sq|apply Sp|done|]. by intros t k K.
  - split; try done. cbn. change RPC_INITCWND with 256. change RPC_CWNDSCALE with 256. lia.
  - done.
  - unfold cong_ok. cbn. by rewrite Cr.
  - split; cbn; [rewrite Em; lia|]. rewrite Sz. lia.
  - split; [|split; cbn; try done; [constructor|]|split; cbn; try done; [constructor|]| |].
    + split; cbn; try done; rewrite ?Em; try lia.
      * intros r Hr. destruct (blank_present l r Hr) as [p K]. exists p. destruct (blank_lookup l r p K) as [-> _]. by split_and!.
      * intros r [p K]. left. by destruct (blank_lookup l r p K).
      * intros r p t K. by destruct (blank_lookup l r p K) as [-> _].
      * change (forall t, t ∈ queued qp -> false = true /\ @None Z = None). assert (queued qp = []) as -> by done. by intros t ?%elem_of_nil.
    + intros r. split; [by intros ?%elem_of_nil|]. by intros (t & Ht & _).
    + intros r. split; [by intros ?%elem_of_nil|]. by intros (t & Ht & _).
    + intros r1 r2 q1 q2 K1 K2 T1. cbn in K1. by destruct (blank_lookup l r1 q1 K1) as [-> _].
    + intros r p K. cbn in K. by destruct (blank_lookup l r p K) as [-> _].
Qed.

(** The states a transport can be in. *)
Definition reachable (x : rpc_xprt) : Prop := exists mem max_alloc xid now x0,
  xprt_alloc mem max_alloc xid now = Some x0 /\ NoDup mem /\ 1 <= Z.max max_alloc (zlen mem) < 2 ^ 24 /\ rtc xprt_step x0 x.

Lemma reachable_good x : reachable x -> good x.
Proof.
  intros (mem & m & xid & now & x0 & E & Nd & B & R). pose proof (alloc_good mem m xid now x0 E Nd B) as G. clear E Nd B. induction R as [|x y z St R IH]; [done|].
  apply IH. by eapply step_good.
Qed.
End Reach.

(** ** Claims *)

(** A request that holds a credit. *)
Definition in_flight (x : rpc_xprt) (r : Z) : Prop := exists q, x_reqs x !! r = Some q /\ rq_cong q = true.

Lemma credits_some m : 1 <= credits m -> exists r q, m !! r = Some q /\ rq_cong q = true.
Proof.
  intros L. unfold credits in L. destruct (map_choose (filter (fun p : Z * rpc_rqst => rq_cong p.2 = true) m)) as (r & q & K).
  - intros E. rewrite E, map_size_empty in L. lia.
  - apply map_lookup_filter_Some in K as [K C]. by exists r, q.
Qed.

Section Claims.
Context `{RbShape Z} `{Clock} (counts : bool) (cookie : Z).

(** C19: Whatever tasks, replies, timers and the socket do, in any order, the transport stays in
    order: the write lock has an owner that is awake, the count of requests in flight is that of
    the requests that hold a credit, every request belongs to one task or is free, and the
    transmit and receive queues hold exactly the requests of the tasks marked so, the latter
    sorted by numbers that differ. *)
Theorem transport_invariant x : reachable counts cookie x -> xprt_ok false x.
Proof. intros R. by destruct (reachable_good counts cookie x R) as [[X _] _]. Qed.

(** C20: No sender waits in vain: while a task waits to send, the lock belongs to a task or a
    connect worker that does not wait for it, or to the cleanup work that is queued; or the
    socket is out of buffer space; or a request is in flight, whose reply or timeout opens the
    window. *)
Theorem sender_waits_for_someone x t : reachable counts cookie x -> t ∈ queued (sending x) ->
  (exists u, snd_task (x_lock x) = Some u /\ u ∉ queued (sending x)) \/ task_cleanup (x_lock x) = true \/ write_space (x_lock x) = true \/ exists r, in_flight x r.
Proof.
  intros R Ht. destruct (reachable_good counts cookie x R) as [[[N _] _] _]. destruct N as ([S O W] & C & _). destruct (locked (x_lock x)) eqn:L.
  - destruct (ow_held _ _ O L) as [Hs|[Hc|?]]; [|by right; left|done]. destruct (snd_task (x_lock x)) as [u|] eqn:E; [|done]. left. exists u. split; [done|]. by apply (ow_awake _ _ O).
  - destruct (write_space (x_lock x)) eqn:Ws; [by right; right; left|]. right; right; right. destruct (cwnd_wait (x_lock x)) eqn:Cw.
    + pose proof (ow_cwnd_wait _ _ O Cw) as L1. unfold cong_ok in C. rewrite C in L1. change RPC_CWNDSCALE with 256 in L1. destruct (credits_some (x_reqs x)) as (r & q & K & Cq); [lia|].
      exists r. by exists q.
    + rewrite (W L Ws Cw) in Ht. by apply elem_of_nil in Ht.
Qed.



End Claims.

Section Datagrams.
Context `{RbShape Z} `{Clock} (cookie : Z).

(** C23: A datagram is given to the task whose request has its number: the reply's length is
    recorded, at most the size of its buffer, the request leaves the receive queue, its task no
    longer waits and its credit is free, and no other request changes; a number nobody waits for
    is only counted. *)
Theorem udp_reply_delivered ktime repsize xid buflen x : reachable true cookie x -> 4 <= repsize ->
  let x' := xs_udp_data_read_skb ktime repsize (Some xid) buflen false x in
  (forall t r, holds x t r -> need_recv (get_tk x t) = true -> rq_xid (get_req x r) = xid ->
     need_recv (get_tk x' t) = false /\ t ∉ queued (pending x') /\ (forall s, s <> r -> x_reqs x' !! s = x_reqs x !! s) /\
     exists q q', x_reqs x !! r = Some q /\ x_reqs x' !! r = Some q' /\ delivered (Z.min repsize (buflen r)) q q') /\
  ((forall t, need_recv (get_tk x t) = true -> rq_xid (task_req x t) <> xid) -> x' = on_stat (fun s => s <| bad_xids := u64 (bad_xids s + 1) |>) x).
Proof.
  intros R Hs x'. destruct (reachable_good true cookie x R) as [I _]. pose proof (inv_reqs _ _ _ I) as Rq. split.
  - intros t r Ht N Ex. assert (xprt_request_rb_find xid x = Some r) as F.
    { apply (rb_find_spec x xid r (ro_recv x Rq)). split; [|done]. apply (rc_in x (ro_recv x Rq)). by exists t. }
    destruct (read_skb_match ktime repsize xid buflen false x r I Hs F) as (_ & u & Ru & (G & Eq & _ & D) & Fin). assert (u = t) as -> by (by eapply (sl_unique x (ro_slots x Rq)); [apply Ru|]).
    destruct (Fin eq_refl) as [F1 F2]. split; [done|]. split; [done|]. fold x' in Eq. split; [intros s Ne; rewrite Eq; by apply lookup_alter_ne|].
    destruct (sl_holds x (ro_slots x Rq) t r Ht) as [[q K] _]. exists q, (G q). split; [done|]. split; [by rewrite Eq, lookup_alter_eq, K|]. by apply D.
  - intros Nobody. apply read_skb_stray; [done|]. destruct (xprt_request_rb_find xid x) as [r|] eqn:F; [exfalso|done].
    destruct (rb_find_ready x xid r Rq F) as (t & Rd & N & Ex). apply (Nobody t N). unfold task_req. by rewrite (ready_rqstp x t r Rd).
Qed.
End Datagrams.

(** ** Witnesses *)

Module Demo.
#[export] Instance demo_clock : Clock := {| clock_hz := 1000; nsecs_to_jiffies := fun n => n / 1000000; usecs_to_jiffies := fun n => n / 1000 |}.
#[export] Instance demo_shape : RbShape Z := {| rb_shape := fun _ l => spine l; rb_shape_in_order := fun _ l => spine_in_order l |}.

(** A network that takes 40 bytes at a time, all there is to send. *)
Definition answer : sock_answer := mk_answer (fun _ => 40) true true 5 (mk_snd 40 0 0 40).
Definition transport := 900.
Definition ops : rpc_xprt_ops := xs_udp_ops answer transport.
#[export] Instance ops_ok : XprtOps ops true transport.
Proof. apply udp_ops. by intros i. Qed.

Definition task (owner : Z) : rpc_task xtask := mk_task xtask owner 1 0 0 None true false false None (mk_xtask None false false false false false false 50 0 1 false).
(** Two slots, three tasks: the third waits for a slot; the first two queue their requests. *)
Definition x0 : rpc_xprt := default (mk_xprt (mk_lock false false false false false None false 0 0) (mk_conn false false false false 0 0 0 0 0 0 None false)
  (mk_slots [] 0 0 0 false 0 0) (mk_queues [] 0 Leaf) (mk_stat 0 0 0 0 0 0 0) ∅ ∅ ∅ (mk_queue 0 [] 0 0 0 0 [] 0 None) (mk_queue 0 [] 0 0 0 0 [] 0 None) (mk_queue 0 [] 0 0 0 0 [] 0 None) [] [])
  (xprt_alloc [Some 100; Some 101] 2 7 0).
Definition x1 : rpc_xprt := x0 <| x_tasks := <[1 := task 1]> (x_tasks x0) |>.
Definition x2 : rpc_xprt := x1 <| x_tasks := <[2 := task 2]> (x_tasks x1) |>.
Definition x3 : rpc_xprt := x2 <| x_tasks := <[3 := task 3]> (x_tasks x2) |>.
Definition x4 : rpc_xprt := on_conn (fun c => c <| bound := true |> <| connected := true |> <| inet := true |>) x3.
Definition x5 : rpc_xprt := xprt_reserve None 10 10 1 x4.
Definition x6 : rpc_xprt := xprt_reserve None 10 10 2 x5.
Definition x7 : rpc_xprt := xprt_reserve None 10 10 3 x6.
Definition x8 : rpc_xprt := xprt_request_enqueue_receive ops 1 x7.
Definition x9 : rpc_xprt := xprt_request_enqueue_transmit 1 x8.
Definition x10 : rpc_xprt := xprt_request_enqueue_transmit 2 x9.
(** The first has the lock, the second waits for it. *)
Definition x11 : rpc_xprt := snd (xprt_prepare_transmit ops 20 1 x10).
Definition x12 : rpc_xprt := snd (xprt_prepare_transmit ops 20 2 x11).

Lemma fresh_check x : bool_decide (map_Forall (fun (_ : Z) p => rq_task p = None \/ rq_xid p <> u32 (next_xid (x_slots x) + 1)) (x_reqs x)) = true -> fresh_xid x.
Proof. intros F%bool_decide_eq_true s p K T. by destruct (F s p K). Qed.

(** A task that holds no request. *)
Lemma none_ready x t : tk_rqstp (get_tk x t) = None -> forall r, holds x t r -> ready x t r.
Proof. intros N r Hr. unfold holds in Hr. congruence. Qed.

Ltac step_by c := eapply rtc_r; [|apply c].

Lemma reach_x4 : rtc (xprt_step true transport) x0 x4.
Proof.
  step_by (step_connected true transport x3). step_by (step_new true transport x2 3 (task 3)); [|done|done|done|vm_compute; discriminate].
  step_by (step_new true transport x1 2 (task 2)); [|done|done|done|vm_compute; discriminate].
  step_by (step_new true transport x0 1 (task 1)); [|done|done|done|vm_compute; discriminate]. apply rtc_refl.
Qed.

Lemma reach_x7 : rtc (xprt_step true transport) x0 x7.
Proof.
  step_by (step_reserve true transport x6 None 10 10 3); [|by eexists; vm_compute|by apply none_ready; vm_compute|done|apply fresh_check; by vm_compute].
  step_by (step_reserve true transport x5 None 10 10 2); [|by eexists; vm_compute|by apply none_ready; vm_compute|done|apply fresh_check; by vm_compute].
  step_by (step_reserve true transport x4 None 10 10 1); [|by eexists; vm_compute|by apply none_ready; vm_compute|done|apply fresh_check; by vm_compute]. apply reach_x4.
Qed.

Lemma reach_x10 : rtc (xprt_step true transport) x0 x10.
Proof.
  step_by (step_enqueue_transmit true transport x9 2 100); [|by vm_compute]. step_by (step_enqueue_transmit true transport x8 1 101); [|by vm_compute].
  step_by (step_enqueue_receive true transport x7 ops 1 101 ops_ok); [|by vm_compute]. apply reach_x7.
Qed.

Lemma reach_x12 : rtc (xprt_step true transport) x0 x12.
Proof.
  step_by (step_prepare true transport x11 ops 20 2 ops_ok); [|split; [by eexists; vm_compute|by vm_compute; intros ?%elem_of_nil]].
  step_by (step_prepare true transport x10 ops 20 1 ops_ok); [|split; [by eexists; vm_compute|by vm_compute; intros ?%elem_of_nil]]. apply reach_x10.
Qed.

Lemma reached x : rtc (xprt_step true transport) x0 x -> reachable true transport x.
Proof. intros R. exists [Some 100; Some 101], 2, 7, 0, x0. split; [done|]. split; [|done]. apply (bool_decide_unpack _). by vm_compute. Qed.
End Demo.
Import Demo.

Lemma transport_invariant_witness : reachable true transport x12 /\ xprt_ok false x12.
Proof. split; [|apply (transport_invariant true transport)]; apply reached, reach_x12. Defined.

Lemma sender_waits_for_someone_witness : 2 ∈ queued (sending x12) /\
  ((exists u, snd_task (x_lock x12) = Some u /\ u ∉ queued (sending x12)) \/ task_cleanup (x_lock x12) = true \/ write_space (x_lock x12) = true \/ exists r, in_flight x12 r).
Proof.
  assert (2 ∈ queued (sending x12)) as T by (vm_compute; left). split; [exact T|]. apply (sender_waits_for_someone true transport x12 2); [apply reached, reach_x12|exact T].
Defined.

Lemma pair_fst {A B} (p : A * B) a : fst p = a -> p = (a, snd p).
Proof. destruct p. by intros <-. Qed.

Lemma release_x7 : xprt_release ops 30 1 x7 = (true, snd (xprt_release ops 30 1 x7)).
Proof. refine (pair_fst (xprt_release ops 30 1 x7) true _). vm_compute. reflexivity. Qed.




(** The number of the first request is 8. *)
Lemma udp_reply_delivered_witness : 4 <= 28 /\ 1 ∉ queued (pending (xs_udp_data_read_skb 9 28 (Some 8) (fun _ => 64) false x10)) /\
  exists q q', x_reqs x10 !! 101 = Some q /\ x_reqs (xs_udp_data_read_skb 9 28 (Some 8) (fun _ => 64) false x10) !! 101 = Some q' /\ delivered 28 q q'.
Proof.
  split; [lia|]. destruct (udp_reply_delivered transport 9 28 8 (fun _ => 64) x10) as [D _]; [apply reached, reach_x10|lia|].
  destruct (D 1 101) as (_ & N & _ & W); [vm_compute; reflexivity|vm_compute; reflexivity|vm_compute; reflexivity|]. exact (conj N W).
Defined.
