(* ===== verification/RpcMsg.v ===== *)
(** * RPC messages: numbers and words

    [include/linux/sunrpc/msg_prot.h], [auth.h] and [svcauth.h]: the numbers that calls
    and replies carry and the sizes that are reserved for credentials. *)

From S2P Require Import Prelude Xdr.

Definition RPC_VERSION := 2.
Definition RPC_AUTH_NULL := 0.
Definition RPC_AUTH_UNIX := 1.
Definition RPC_AUTH_SHORT := 2.
Definition RPC_AUTH_MAXFLAVOR := 8.
Definition RPC_MAX_AUTH_SIZE := 400.
Definition RPC_CALLHDRSIZE := 6.
Definition RPC_REPHDRSIZE := 4.

Definition rpc_call := 0.
Definition rpc_reply := 1.
Definition rpc_msg_accepted := 0.

Definition rpc_success := 0.
Definition rpc_prog_unavail := 1.
Definition rpc_prog_mismatch := 2.
Definition rpc_proc_unavail := 3.
Definition rpc_garbage_args := 4.
Definition rpc_system_err := 5.
Definition rpc_drop_reply := 60000.

Definition rpc_mismatch := 0.
Definition rpc_auth_error := 1.

Definition rpc_auth_ok := 0.
Definition rpc_autherr_badcred := 1.
Definition rpc_autherr_rejectedcred := 2.
Definition rpc_autherr_badverf := 3.
Definition rpc_autherr_rejectedverf := 4.
Definition rpc_autherr_tooweak := 5.
Definition rpcsec_gsserr_credproblem := 13.
Definition rpcsec_gsserr_ctxproblem := 14.

Definition NUL_CALLSLACK := 4.
Definition NUL_REPLYSLACK := 2.
Definition UNX_MAXNODENAME := 64.
Definition UNX_CALLSLACK := 21 + XDR_QUADLEN UNX_MAXNODENAME.
Definition UNX_NGROUPS := 16.

Definition SVC_GARBAGE := 1.
Definition SVC_SYSERR := 2.
Definition SVC_OK := 5.
Definition SVC_DROP := 6.
Definition SVC_CLOSE := 7.
Definition SVC_DENIED := 8.
Definition SVC_COMPLETE := 10.

(** Words of a message. *)
Definition words (ws : list Z) : list byte := concat (be32 <$> ws).

Lemma zlen_words ws : zlen (words ws) = 4 * zlen ws.
Proof. unfold words. induction ws as [|w ws IH]; [done|]. cbn [fmap list_fmap concat]. rewrite zlen_app, IH. autorewrite with nfs_len. lia. Qed.

Lemma words_app a b : words (a ++ b) = words a ++ words b.
Proof. unfold words. by rewrite fmap_app, concat_app. Qed.

Lemma words_cons w ws : words (w :: ws) = be32 w ++ words ws.
Proof. done. Qed.

#[export] Hint Rewrite zlen_words : nfs_len.
