(* ===== verification/ReplyCache.v ===== *)
(** * The server's duplicate request cache

    [fs/nfsd/nfscache.c], and its use by [nfsd_dispatch] of [fs/nfsd/nfssvc.c]: calls
    that change something are remembered with their replies, so that a retransmission
    is answered without running the call again.  Entries live in hash buckets, each a
    red-black tree ordered by the bytes of the key and a list in order of use.

    Entries are objects at addresses ([drc_heap]); tree, list and the request in
    progress share them.  The hash and checksum functions of the kernel, [HZ] and the
    size of an entry are parameters.  The counters of the cache do not wrap. *)

From S2P Require Import Prelude RbTree Xdr XdrBuf WaitQueue RpcMsg.
From stdpp Require Import list gmap.
#[local] Open Scope Z_scope.

Definition RC_UNUSED := 0.
Definition RC_INPROG := 1.
Definition RC_DONE := 2.
Definition RC_DROPIT := 0.
Definition RC_REPLY := 1.
Definition RC_DOIT := 2.
Definition RC_NOCACHE := 0.
Definition RC_REPLSTAT := 1.
Definition RC_REPLBUFF := 2.
Definition RC_CSUMLEN := 256.
Definition TARGET_BUCKET_SIZE := 64.

(** [struct sockaddr_in6] holding an address of either family. *)
Inductive sockaddr := AF_INET (port addr : Z) | AF_INET6 (port : Z) (addr : list byte) (scope_id : Z).

Record drc_key := mk_key { k_xid : Z; k_csum : Z; k_proc : Z; k_prot : Z; k_vers : Z; k_len : Z; k_addr : sockaddr }.

(** The union [c_u]; [U_none]: not yet set. *)
Inductive cached := U_none | U_vec (data : list byte) | U_status (word : list byte).

Record svc_cacherep := mk_rep {
  c_key : drc_key;
  c_state : Z;
  c_type : Z;
  c_secure : bool;
  c_timestamp : Z;
  c_u : cached;
}.
#[export] Instance upd_rep : Updatable svc_cacherep := fun r => mk_rep (c_key r) (c_state r) (c_type r) (c_secure r) (c_timestamp r) (c_u r).

Record nfsd_drc_bucket := mk_bucket { rb_head : rb_tree nat; lru_head : list nat }.
#[export] Instance upd_bucket : Updatable nfsd_drc_bucket := fun b => mk_bucket (rb_head b) (lru_head b).
#[export] Instance bucket_inhabited : Inhabited nfsd_drc_bucket := populate (mk_bucket Leaf []).

(** The part of [struct nfsd_net] the cache uses, and the entries' memory. *)
Record drc_net := mk_drc {
  drc_hashtbl : list nfsd_drc_bucket;
  max_drc_entries : Z;
  maskbits : Z;
  num_drc_entries : Z;
  drc_mem_usage : Z;
  payload_misses : Z;
  longest_chain : Z;
  longest_chain_cachesize : Z;
  drc_heap : gmap nat svc_cacherep;
}.
#[export] Instance upd_drc : Updatable drc_net := fun n =>
  mk_drc (drc_hashtbl n) (max_drc_entries n) (maskbits n) (num_drc_entries n) (drc_mem_usage n) (payload_misses n) (longest_chain n)
    (longest_chain_cachesize n) (drc_heap n).

(** The request: [rq_mem] and [rq_arg] are the call, [rq_res] the reply so far (the head
    of [rq_res]). *)
Record drc_rqst := mk_rq {
  rq_xid : Z;
  rq_proc : Z;
  rq_prot : Z;
  rq_vers : Z;
  rq_addr : sockaddr;
  rq_mem : xdr_mem;
  rq_arg : xdr_buf;
  rq_secure : bool;
  rq_cachetype : Z;
  rq_cacherep : option nat;
  rq_res : list byte;
}.
#[export] Instance upd_rq : Updatable drc_rqst := fun r =>
  mk_rq (rq_xid r) (rq_proc r) (rq_prot r) (rq_vers r) (rq_addr r) (rq_mem r) (rq_arg r) (rq_secure r) (rq_cachetype r) (rq_cacherep r) (rq_res r).

(** ** Keys as memory *)

Definition le32 (v : Z) : list byte := rev (be32 v).
Definition be16 (v : Z) : list byte := [byte_of_Z (v / 2 ^ 8); byte_of_Z v].
Definition le16 (v : Z) : list byte := rev (be16 v).

(** Family, port and address as [__rpc_copy_addr4], [__rpc_copy_addr6] and [rpc_set_port]
    leave them in zeroed memory. *)
Definition sockaddr_bytes (a : sockaddr) : list byte :=
  match a with
  | AF_INET port addr => le16 2 ++ be16 port ++ be32 addr ++ zrep 20
  | AF_INET6 port addr scope_id => le16 10 ++ be16 port ++ zrep 4 ++ addr ++ le32 scope_id
  end.
Definition key_bytes (k : drc_key) : list byte :=
  be32 (k_xid k) ++ le32 (k_csum k) ++ le32 (k_proc k) ++ le32 (k_prot k) ++ le32 (k_vers k) ++ le32 (k_len k) ++ sockaddr_bytes (k_addr k).

Fixpoint memcmp (a b : list byte) : comparison :=
  match a, b with
  | x :: a, y :: b => match Z.compare (Z_of_byte x) (Z_of_byte y) with Eq => memcmp a b | c => c end
  | _, _ => Eq
  end.

Section Cache.
Context `{RbShape nat}.
Context (hash_32 : Z -> Z -> nat) (csum_partial : list byte -> Z -> Z) (HZ REP_SIZE : Z).

Definition RC_EXPIRE := 120 * HZ.

(** ** Size of the cache *)

Definition nfsd_cache_size_limit (low_pages : Z) : Z := Z.min (u32 (Z.shiftl (16 * Z.sqrt low_pages) (PAGE_SHIFT - 10))) (256 * 1024).
Definition nfsd_hashsize (limit : Z) : Z := 2 ^ Z.log2_up (limit / TARGET_BUCKET_SIZE).
Definition nfsd_cache_hash (xid : Z) (nn : drc_net) : nat := hash_32 xid (maskbits nn).

(** [no_mem]: the counters, the table or the shrinker cannot be set up. *)
Definition nfsd_reply_cache_init (no_mem : bool) (low_pages : Z) : res drc_net :=
  let max := nfsd_cache_size_limit low_pages in
  let hashsize := nfsd_hashsize max in
  if no_mem then Err (- 12)
  else Ok (mk_drc (replicate (Z.to_nat hashsize) (mk_bucket Leaf [])) max (Z.log2 hashsize) 0 0 0 0 0 ∅).

(** ** Entries *)

Definition nfsd_reply_cache_alloc (rq : drc_rqst) (csum : Z) : svc_cacherep :=
  mk_rep (mk_key (rq_xid rq) csum (rq_proc rq) (rq_prot rq) (rq_vers rq) (xlen (rq_arg rq)) (rq_addr rq)) RC_UNUSED RC_NOCACHE false 0 U_none.

Definition set_bucket (h : nat) (b : nfsd_drc_bucket) (nn : drc_net) : drc_net := nn <| drc_hashtbl := <[h := b]> (drc_hashtbl nn) |>.
Definition set_rep (id : nat) (rp : svc_cacherep) (nn : drc_net) : drc_net := nn <| drc_heap := <[id := rp]> (drc_heap nn) |>.
Definition get_bucket (nn : drc_net) (h : nat) : nfsd_drc_bucket := drc_hashtbl nn !!! h.

Definition without_id (id : nat) (l : list nat) : list nat := List.filter (fun j => negb (j =? id)%nat) l.

(** [h]: the bucket of the entry; not used for an entry that was never inserted. *)
Definition nfsd_reply_cache_free_locked (h : nat) (id : nat) (nn : drc_net) : drc_net :=
  match drc_heap nn !! id with
  | None => nn
  | Some rp =>
      let nn := match c_u rp with
                | U_vec data => if c_type rp =? RC_REPLBUFF then nn <| drc_mem_usage := drc_mem_usage nn - zlen data |> else nn
                | _ => nn
                end in
      let nn := if negb (c_state rp =? RC_UNUSED) then
                  let b := get_bucket nn h in
                  let nn := set_bucket h (mk_bucket (rb_shape (rb_head b) (without_id id (in_order (rb_head b)))) (without_id id (lru_head b))) nn in
                  nn <| num_drc_entries := num_drc_entries nn - 1 |> <| drc_mem_usage := drc_mem_usage nn - REP_SIZE |>
                else nn in
      nn <| drc_heap := delete id (drc_heap nn) |>
  end.

Definition lru_put_end (jiffies : Z) (h id : nat) (nn : drc_net) : drc_net :=
  match drc_heap nn !! id with
  | None => nn
  | Some rp =>
      let b := get_bucket nn h in
      set_bucket h (b <| lru_head := without_id id (lru_head b) ++ [id] |>) (set_rep id (rp <| c_timestamp := jiffies |>) nn)
  end.

(** ** Pruning *)

Fixpoint prune_loop (jiffies : Z) (h : nat) (ids : list nat) (nn : drc_net) (freed : Z) : drc_net * Z :=
  match ids with
  | [] => (nn, freed)
  | id :: ids =>
      match drc_heap nn !! id with
      | None => (nn, freed)
      | Some rp =>
          if c_state rp =? RC_INPROG then prune_loop jiffies h ids nn freed
          else if (num_drc_entries nn <=? max_drc_entries nn) && time_before jiffies (u64 (c_timestamp rp + RC_EXPIRE)) then (nn, freed)
          else prune_loop jiffies h ids (nfsd_reply_cache_free_locked h id nn) (freed + 1)
      end
  end.
Definition prune_bucket (jiffies : Z) (h : nat) (nn : drc_net) : drc_net * Z :=
  prune_loop jiffies h (lru_head (get_bucket nn h)) nn 0.

Definition prune_cache_entries (jiffies : Z) (nn : drc_net) : drc_net * Z :=
  foldl (fun '(nn, freed) h => let '(nn, n) := prune_bucket jiffies h nn in (nn, freed + n)) (nn, 0) (seq 0 (length (drc_hashtbl nn))).

(** The shrinker. *)
Definition nfsd_reply_cache_count (nn : drc_net) : Z := num_drc_entries nn.
Definition nfsd_reply_cache_scan (jiffies : Z) (nn : drc_net) : drc_net * Z := prune_cache_entries jiffies nn.

(** [None]: out of fuel. *)
Fixpoint shutdown_loop (fuel : nat) (h : nat) (nn : drc_net) : option drc_net :=
  match lru_head (get_bucket nn h) with
  | [] => Some nn
  | id :: _ => match fuel with O => None | S fuel => shutdown_loop fuel h (nfsd_reply_cache_free_locked h id nn) end
  end.
Definition nfsd_reply_cache_shutdown (nn : drc_net) : option drc_net :=
  foldl (fun o h => match o with None => None | Some nn => shutdown_loop (length (lru_head (get_bucket nn h))) h nn end) (Some nn)
    (seq 0 (length (drc_hashtbl nn))).

(** ** Checksum of the call *)

Fixpoint csum_pages (fuel : nat) (m : xdr_mem) (idx base csum_len csum : Z) : Z :=
  match fuel with
  | O => csum
  | S fuel =>
      if csum_len =? 0 then csum
      else
        let len := Z.min (PAGE_SIZE - base) csum_len in
        let p := ztake len (zdrop base (m_pages m !!! Z.to_nat idx)) in
        csum_pages fuel m (idx + 1) 0 (csum_len - len) (csum_partial p csum)
  end.
Definition nfsd_cache_csum (rq : drc_rqst) : Z :=
  let buf := rq_arg rq in
  let csum_len := Z.min (iov_len (XdrBuf.head buf) + page_len buf) RC_CSUMLEN in
  let len := Z.min (iov_len (XdrBuf.head buf)) csum_len in
  let csum := csum_partial (ztake len (zdrop (iov_base (XdrBuf.head buf)) (m_lin (rq_mem rq)))) 0 in
  csum_pages (Z.to_nat RC_CSUMLEN) (rq_mem rq) (pages buf + page_idx (page_base buf)) (page_off (page_base buf)) (csum_len - len) csum.

(** ** Finding or inserting an entry *)

Definition nfsd_cache_key_cmp (key : drc_key) (nn : drc_net) (id : nat) : comparison :=
  match drc_heap nn !! id with Some rp => memcmp (key_bytes key) (key_bytes (c_key rp)) | None => Eq end.

(** The comparisons that count as payload misses. *)
Definition payload_miss (key : drc_key) (nn : drc_net) (id : nat) : bool :=
  match drc_heap nn !! id with Some rp => (k_xid key =? k_xid (c_key rp)) && negb (k_csum key =? k_csum (c_key rp)) | None => false end.

Definition tally_chain (entries : Z) (nn : drc_net) : drc_net :=
  if longest_chain nn <? entries then nn <| longest_chain := entries |> <| longest_chain_cachesize := num_drc_entries nn |>
  else if entries =? longest_chain nn then nn <| longest_chain_cachesize := Z.min (longest_chain_cachesize nn) (num_drc_entries nn) |>
  else nn.

(** The entry for the key, which is the new one when there was none. *)
Definition nfsd_cache_insert (jiffies : Z) (h : nat) (id : nat) (key : drc_key) (nn : drc_net) : nat * drc_net :=
  let b := get_bucket nn h in
  let '(place, found, seen) := rb_walk (nfsd_cache_key_cmp key nn) (rb_head b) 0 in
  let nn := nn <| payload_misses := payload_misses nn + Z.of_nat (length (List.filter (payload_miss key nn) seen)) |> in
  let '(ret, nn) := match found with
                    | Some ret => (ret, nn)
                    | None =>
                        let l := in_order (rb_head b) in
                        (id, set_bucket h (b <| rb_head := rb_shape (rb_head b) (take place l ++ id :: drop place l) |>) nn)
                    end in
  (ret, lru_put_end jiffies h ret (tally_chain (Z.of_nat (length seen)) nn)).

Definition nfsd_cache_append (rq : drc_rqst) (data : list byte) : option drc_rqst :=
  if PAGE_SIZE <? zlen (rq_res rq) + zlen data then None else Some (rq <| rq_res := rq_res rq ++ data |>).

(** What a request that was seen before gets. *)
Definition found_entry (rq : drc_rqst) (rp : svc_cacherep) : Z * drc_rqst :=
  if c_state rp =? RC_INPROG then (RC_DROPIT, rq)
  else if negb (rq_secure rq) && c_secure rp then (RC_DOIT, rq)
  else if c_type rp =? RC_NOCACHE then (RC_DOIT, rq)
  else if c_type rp =? RC_REPLSTAT then
    (RC_REPLY, rq <| rq_res := rq_res rq ++ match c_u rp with U_status w => w | _ => [] end |>)
  else if c_type rp =? RC_REPLBUFF then
    match nfsd_cache_append rq (match c_u rp with U_vec data => data | _ => [] end) with
    | None => (RC_DOIT, rq)
    | Some rq => (RC_REPLY, rq)
    end
  else (RC_DOIT, rq).

(** [new]: the address of the preallocated entry, [None] without memory. *)
Definition nfsd_cache_lookup (jiffies : Z) (new : option nat) (rq : drc_rqst) (nn : drc_net) : Z * drc_rqst * drc_net :=
  let h := nfsd_cache_hash (rq_xid rq) nn in
  let rq := rq <| rq_cacherep := None |> in
  if rq_cachetype rq =? RC_NOCACHE then (RC_DOIT, rq, nn)
  else
    match new with
    | None => (RC_DOIT, rq, nn)
    | Some id =>
        let rp := nfsd_reply_cache_alloc rq (nfsd_cache_csum rq) in
        let nn := set_rep id rp nn in
        let '(found, nn) := nfsd_cache_insert jiffies h id (c_key rp) nn in
        if negb (found =? id)%nat then
          let nn := nfsd_reply_cache_free_locked h id nn in
          match drc_heap nn !! found with
          | None => (RC_DOIT, rq, nn)
          | Some rp => let '(rtn, rq) := found_entry rq rp in (rtn, rq, nn)
          end
        else
          let rq := rq <| rq_cacherep := Some id |> in
          let nn := match drc_heap nn !! id with Some rp => set_rep id (rp <| c_state := RC_INPROG |>) nn | None => nn end in
          let nn := nn <| num_drc_entries := num_drc_entries nn + 1 |> <| drc_mem_usage := drc_mem_usage nn + REP_SIZE |> in
          (RC_DOIT, rq, fst (prune_bucket jiffies h nn))
    end.

(** [statp]: where the status word of the result is in the head of the reply; [None]:
    [NULL].  [no_mem]: the copy cannot be allocated. *)
Definition nfsd_cache_update (jiffies : Z) (no_mem : bool) (rq : drc_rqst) (cachetype : Z) (statp : option Z) (nn : drc_net) : drc_net :=
  match rq_cacherep rq with
  | None => nn
  | Some id =>
      match drc_heap nn !! id with
      | None => nn
      | Some rp =>
          let h := nfsd_cache_hash (k_xid (c_key rp)) nn in
          let free := nfsd_reply_cache_free_locked h id nn in
          let done u bufsize :=
            let nn := set_rep id (rp <| c_u := u |>) nn in
            let nn := lru_put_end jiffies h id (nn <| drc_mem_usage := drc_mem_usage nn + bufsize |>) in
            match drc_heap nn !! id with
            | Some rp => set_rep id (rp <| c_secure := rq_secure rq |> <| c_type := cachetype |> <| c_state := RC_DONE |>) nn
            | None => nn
            end in
          match statp with
          | None => free
          | Some off =>
              let len := Z.shiftr (zlen (rq_res rq) - off) 2 in
              if Z.shiftr 256 2 <? len then free
              else if cachetype =? RC_REPLSTAT then done (U_status (ztake 4 (zdrop off (rq_res rq)))) 0
              else if cachetype =? RC_REPLBUFF then
                let bufsize := Z.shiftl len 2 in
                if no_mem then free else done (U_vec (ztake bufsize (zdrop off (rq_res rq)))) bufsize
              else if cachetype =? RC_NOCACHE then free
              else done (c_u rp) 0
          end
      end
  end.

(** ** Running a request *)

(** A procedure: [pc_decode] fails or gives the type of cache entry; [pc_func] runs on
    the file system and gives its status and whether to drop the reply; [pc_encode]
    appends the result or fails. *)
Record svc_procedure (fs : Type) := mk_proc {
  pc_decode : drc_rqst -> option Z;
  pc_func : drc_rqst -> fs -> Z * bool * fs;
  pc_encode : drc_rqst -> fs -> option (list byte);
}.
Arguments pc_decode {fs} _ _.
Arguments pc_func {fs} _ _ _.
Arguments pc_encode {fs} _ _ _.

Section Dispatch.
Context {fs : Type}.

(** Up to the decision what to do with the request. *)
Definition dispatch_start (jiffies : Z) (new : option nat) (proc : svc_procedure fs) (rq : drc_rqst) (nn : drc_net)
    : option (Z * drc_rqst * drc_net) :=
  match pc_decode proc rq with
  | None => None
  | Some ct => Some (nfsd_cache_lookup jiffies new (rq <| rq_cachetype := ct |>) nn)
  end.

(** From there on: what [nfsd_dispatch] returns, the status at [statp] (the last word of
    the reply header), the request, the cache and the file system. *)
Definition dispatch_finish (jiffies : Z) (no_mem : bool) (proc : svc_procedure fs) (rq : drc_rqst) (nn : drc_net) (s : fs)
    : Z * Z * drc_rqst * drc_net * fs :=
  let statp := zlen (rq_res rq) - 4 in
  let '(stat, dropme, s) := pc_func proc rq s in
  if (stat =? rpc_drop_reply) || dropme then (0, stat, rq, nfsd_cache_update jiffies no_mem rq RC_NOCACHE None nn, s)
  else
    match pc_encode proc rq s with
    | None => (1, rpc_system_err, rq, nfsd_cache_update jiffies no_mem rq RC_NOCACHE None nn, s)
    | Some r =>
        let rq := rq <| rq_res := rq_res rq ++ r |> in
        (1, stat, rq, nfsd_cache_update jiffies no_mem rq (rq_cachetype rq) (Some (statp + 4)) nn, s)
    end.

(** [j1], [j2]: the time at the lookup and at the update. *)
Definition nfsd_dispatch (j1 j2 : Z) (new : option nat) (no_mem : bool) (proc : svc_procedure fs) (rq : drc_rqst) (nn : drc_net) (s : fs)
    : Z * Z * drc_rqst * drc_net * fs :=
  match dispatch_start j1 new proc rq nn with
  | None => (1, rpc_garbage_args, rq, nn, s)
  | Some (rtn, rq, nn) =>
      if rtn =? RC_DOIT then dispatch_finish j2 no_mem proc rq nn s
      else if rtn =? RC_REPLY then (1, rpc_success, rq, nn, s)
      else (0, rpc_success, rq, nn, s)
  end.
End Dispatch.
End Cache.

#[global] Arguments pc_decode {fs} _ _.
#[global] Arguments pc_func {fs} _ _ _.
#[global] Arguments pc_encode {fs} _ _ _.
