(* ===== verification/ReplyCacheInv.v ===== *)
(** * The duplicate request cache: order of keys, invariant

    Keys compare by their bytes, so the trees are search trees; each bucket's list has
    the entries of its tree in order of use; the counters count.  What freeing, pruning
    and moving an entry do. *)

From S2P Require Import Prelude RbTree Xdr XdrBuf WaitQueue ReplyCache.
From stdpp Require Import list gmap sorting.
#[local] Open Scope Z_scope.

(** ** Order of keys *)

Lemma Z_of_byte_inj a b : Z_of_byte a = Z_of_byte b -> a = b.
Proof. intros E. by rewrite <- (byte_of_Z_of_byte a), E, byte_of_Z_of_byte. Qed.

Lemma memcmp_refl a : memcmp a a = Eq.
Proof. induction a as [|x a IH]; [done|]. simpl. by rewrite Z.compare_refl. Qed.

Lemma memcmp_eq a b : length a = length b -> memcmp a b = Eq -> a = b.
Proof.
  revert b. induction a as [|x a IH]; intros [|y b] L; simpl in *; try done.
  destruct (Z.compare_spec (Z_of_byte x) (Z_of_byte y)) as [E| |]; try done. intros M. f_equal; [by apply Z_of_byte_inj|]. apply IH; [lia|done].
Qed.

Lemma memcmp_opp a b : memcmp b a = CompOpp (memcmp a b).
Proof.
  revert b. induction a as [|x a IH]; intros [|y b]; simpl; try done. rewrite Z.compare_antisym.
  destruct (Z.compare (Z_of_byte x) (Z_of_byte y)); simpl; try done.
Qed.

Lemma memcmp_trans a b c : length a = length b -> length b = length c -> memcmp a b = Lt -> memcmp b c = Lt -> memcmp a c = Lt.
Proof.
  revert b c. induction a as [|x a IH]; intros [|y b] [|z c] L1 L2; simpl in *; try done.
  destruct (Z.compare_spec (Z_of_byte x) (Z_of_byte y)), (Z.compare_spec (Z_of_byte y) (Z_of_byte z)), (Z.compare_spec (Z_of_byte x) (Z_of_byte z));
    try done; try lia. intros. apply (IH b c); (lia || done).
Qed.

(** Keys made of machine integers. *)
Definition sockaddr_ok (a : sockaddr) : Prop :=
  match a with
  | AF_INET port addr => 0 <= port < 2 ^ 16 /\ is_u32 addr
  | AF_INET6 port addr scope_id => 0 <= port < 2 ^ 16 /\ length addr = 16%nat /\ is_u32 scope_id
  end.
Definition key_ok (k : drc_key) : Prop :=
  is_u32 (k_xid k) /\ is_u32 (k_csum k) /\ is_u32 (k_proc k) /\ is_u32 (k_prot k) /\ is_u32 (k_vers k) /\ is_u32 (k_len k) /\ sockaddr_ok (k_addr k).

Lemma be32_length v : length (be32 v) = 4%nat.
Proof. done. Qed.

Lemma be32_inj a b : is_u32 a -> is_u32 b -> be32 a = be32 b -> a = b.
Proof.
  intros Ha Hb E. rewrite <- (u32_id a Ha), <- (u32_id b Hb), <- (be32_to_cpu_app a []), <- (be32_to_cpu_app b []). by rewrite E.
Qed.

Lemma le32_inj a b : is_u32 a -> is_u32 b -> le32 a = le32 b -> a = b.
Proof. unfold le32. intros Ha Hb E. apply be32_inj; [done..|]. by rewrite <- (rev_involutive (be32 a)), E, rev_involutive. Qed.

Lemma be16_inj a b : 0 <= a < 2 ^ 16 -> 0 <= b < 2 ^ 16 -> be16 a = be16 b -> a = b.
Proof.
  unfold be16. intros Ha Hb [= E1 E2]. apply (f_equal Z_of_byte) in E1, E2. rewrite !Z_of_byte_of_Z in E1, E2. zlia.
Qed.

Lemma sockaddr_bytes_length a : sockaddr_ok a -> length (sockaddr_bytes a) = 28%nat.
Proof. destruct a; simpl; [done|]. intros (_ & L & _). rewrite length_app, L. done. Qed.

Lemma sockaddr_bytes_inj a b : sockaddr_ok a -> sockaddr_ok b -> sockaddr_bytes a = sockaddr_bytes b -> a = b.
Proof.
  destruct a as [p x|p x s], b as [q y|q y t]; cbn [sockaddr_ok sockaddr_bytes]; intros Ha Hb E.
  - apply app_inj_1 in E as [_ E]; [|done]. apply app_inj_1 in E as [E1 E]; [|done]. apply app_inj_1 in E as [E2 _]; [|done].
    apply be16_inj in E1; [|tauto..]. apply be32_inj in E2; [|tauto..]. by subst.
  - by apply app_inj_1 in E as [E _].
  - by apply app_inj_1 in E as [E _].
  - destruct Ha as (? & La & ?), Hb as (? & Lb & ?). apply app_inj_1 in E as [_ E]; [|done]. apply app_inj_1 in E as [E1 E]; [|done].
    apply app_inj_1 in E as [_ E]; [|done]. apply app_inj_1 in E as [-> E2]; [|congruence]. apply be16_inj in E1; [|done..]. apply le32_inj in E2; [|done..]. by subst.
Qed.

Lemma key_bytes_length k : key_ok k -> length (key_bytes k) = 52%nat.
Proof. intros (_ & _ & _ & _ & _ & _ & A). unfold key_bytes. rewrite !length_app, (sockaddr_bytes_length _ A). done. Qed.

Lemma key_bytes_inj a b : key_ok a -> key_ok b -> key_bytes a = key_bytes b -> a = b.
Proof.
  destruct a, b. intros (? & ? & ? & ? & ? & ? & ?) (? & ? & ? & ? & ? & ? & ?). unfold key_bytes. cbn in *. intros E.
  repeat (apply app_inj_1 in E as [?E E]; [|done]).
  repeat match goal with H : le32 _ = le32 _ |- _ => apply le32_inj in H; [|done..] | H : be32 _ = be32 _ |- _ => apply be32_inj in H; [|done..] end.
  apply sockaddr_bytes_inj in E; [|done..]. by subst.
Qed.

Definition key_cmp (a b : drc_key) : comparison := memcmp (key_bytes a) (key_bytes b).

Lemma key_cmp_eq a b : key_ok a -> key_ok b -> key_cmp a b = Eq -> a = b.
Proof. intros Ha Hb E. apply key_bytes_inj; [done..|]. apply memcmp_eq; [|done]. by rewrite !key_bytes_length. Qed.

Lemma key_cmp_trans a b c : key_ok a -> key_ok b -> key_ok c -> key_cmp a b = Lt -> key_cmp b c = Lt -> key_cmp a c = Lt.
Proof. intros. apply (memcmp_trans _ (key_bytes b)); try done; by rewrite !key_bytes_length. Qed.

Lemma key_cmp_gt a b : key_cmp a b = Gt -> key_cmp b a = Lt.
Proof. unfold key_cmp. intros E. by rewrite memcmp_opp, E. Qed.

(** ** Lists of addresses in order of their keys *)

Notation reps := (gmap nat svc_cacherep).
Definition key_at (m : reps) (i : nat) (k : drc_key) : Prop := exists rp, m !! i = Some rp /\ c_key rp = k /\ key_ok k.

Definition by_key (m : reps) (l : list nat) : Prop :=
  StronglySorted (fun i j => forall ki kj, key_at m i ki -> key_at m j kj -> key_cmp ki kj = Lt) l /\ Forall (fun i => exists k, key_at m i k) l.

Lemma key_at_fun m i k k' : key_at m i k -> key_at m i k' -> k = k'.
Proof. intros (rp & E & <- & _) (rp' & E' & <- & _). congruence. Qed.

Lemma by_key_ext m m' l : (forall i k, i ∈ l -> key_at m' i k <-> key_at m i k) -> by_key m l -> by_key m' l.
Proof.
  intros X [S F]. split.
  - induction S as [|i l S IH R]; [constructor|]. apply Forall_cons in F as [_ F]. constructor.
    + apply IH; [|done]. intros j k Hj. apply X. by right.
    + apply Forall_forall. intros j Hj ki kj Hi Hk. rewrite Forall_forall in R. apply (R j Hj).
      * apply X; [by left|done].
      * apply X; [by right|done].
  - apply Forall_forall. intros i Hi. rewrite Forall_forall in F. destruct (F i Hi) as [k Hk]. exists k. by apply X.
Qed.

Lemma by_key_app m l1 l2 : by_key m (l1 ++ l2) <->
  by_key m l1 /\ by_key m l2 /\ forall i j ki kj, i ∈ l1 -> j ∈ l2 -> key_at m i ki -> key_at m j kj -> key_cmp ki kj = Lt.
Proof.
  unfold by_key. rewrite Forall_app. split.
  - intros [S [F1 F2]]. apply StronglySorted_app in S as (R & S1 & S2). split_and!; try done. intros i j ki kj Hi Hj. by apply (R i j Hi Hj).
  - intros ((S1 & F1) & (S2 & F2) & R). split; [|done]. apply StronglySorted_app. split_and!; try done. intros i j Hi Hj ki kj. by apply R.
Qed.

Lemma by_key_nodup m l : by_key m l -> NoDup l.
Proof.
  intros [S F]. induction S as [|i l S IH R]; [constructor|]. apply Forall_cons in F as [[k Hk] F]. constructor; [|by apply IH].
  intros Hi. rewrite Forall_forall in R. specialize (R i Hi k k Hk Hk). unfold key_cmp in R. by rewrite memcmp_refl in R.
Qed.

(** Where a key belongs in a list. *)
Lemma by_key_split m l k : key_ok k -> by_key m l ->
  exists l1 o l2, l = l1 ++ option_list o ++ l2 /\ (forall i, o = Some i -> key_at m i k) /\
    (forall i ki, i ∈ l1 -> key_at m i ki -> key_cmp k ki = Gt) /\ (forall i ki, i ∈ l2 -> key_at m i ki -> key_cmp k ki = Lt).
Proof.
  intros Kk. induction l as [|i l IH]; intros B.
  { exists [], None, []. split_and!; try done; by intros i ki ?%elem_of_nil. }
  change (i :: l) with ([i] ++ l) in B. apply by_key_app in B as (Bi & Bl & R). destruct Bi as [_ Fi]. apply Forall_cons in Fi as [[ki Hi] _].
  assert (key_ok ki) as Ki by (by destruct Hi as (? & _ & _ & ?)).
  destruct (key_cmp k ki) eqn:E.
  - apply key_cmp_eq in E; [|done..]. subst ki. exists [], (Some i), l. split; [done|]. split; [|split].
    + by intros j [= <-].
    + by intros j kj ?%elem_of_nil.
    + intros j kj Hj Hk. by apply (R i j); [left|..].
  - exists [], None, (i :: l). split; [done|]. split; [done|]. split; [by intros j kj ?%elem_of_nil|]. intros j kj [->|Hj]%elem_of_cons Hk.
    + by rewrite (key_at_fun m i kj ki).
    + apply (key_cmp_trans k ki kj); try done; [by destruct Hk as (? & _ & _ & ?)|]. by apply (R i j); [left|..].
  - destruct (IH Bl) as (l1 & o & l2 & -> & Ho & H1 & H2). exists (i :: l1), o, l2. split; [done|]. split; [done|]. split; [|done].
    intros j kj [->|Hj]%elem_of_cons Hk; [by rewrite (key_at_fun m i kj ki)|]. by apply H1 with j.
Qed.

Lemma walk_split m l1 o l2 t k : in_order t = l1 ++ option_list o ++ l2 -> by_key m (in_order t) ->
  (forall i, o = Some i -> key_at m i k) -> (forall i ki, i ∈ l1 -> key_at m i ki -> key_cmp k ki = Gt) ->
  (forall i ki, i ∈ l2 -> key_at m i ki -> key_cmp k ki = Lt) ->
  fst (rb_walk (fun i => match m !! i with Some rp => memcmp (key_bytes k) (key_bytes (c_key rp)) | None => Eq end) t 0) = (length l1, o).
Proof.
  intros E [_ F] Ho H1 H2. apply (rb_walk_split _ t 0 l1 o l2 E).
  - apply Forall_forall. intros i Hi. rewrite Forall_forall in F. destruct (F i) as [ki Hk]; [rewrite E; apply elem_of_app; by left|].
    pose proof Hk as (rp & Er & Ek & _). rewrite Er, Ek. by apply (H1 i).
  - apply Forall_forall. intros i Hi. rewrite Forall_forall in F. destruct (F i) as [ki Hk]; [rewrite E; apply elem_of_app; right; apply elem_of_app; by right|].
    pose proof Hk as (rp & Er & Ek & _). rewrite Er, Ek. by apply (H2 i).
  - intros i Hi. destruct (Ho i Hi) as (rp & -> & -> & _). apply memcmp_refl.
Qed.

(** ** Taking an address out of a list *)

Lemma elem_of_without id l i : i ∈ without_id id l <-> i ∈ l /\ i <> id.
Proof. unfold without_id. rewrite !list_elem_of_In, List.filter_In, negb_true_iff, Nat.eqb_neq. done. Qed.

Lemma without_app id l1 l2 : without_id id (l1 ++ l2) = without_id id l1 ++ without_id id l2.
Proof. apply List.filter_app. Qed.

Lemma without_other id l : id ∉ l -> without_id id l = l.
Proof.
  unfold without_id. induction l as [|i l IH]; [done|]. rewrite not_elem_of_cons. intros [N N']. simpl.
  rewrite (proj2 (Nat.eqb_neq i id)) by done. simpl. by rewrite IH.
Qed.

Lemma without_mid id l1 l2 : NoDup (l1 ++ id :: l2) -> without_id id (l1 ++ id :: l2) = l1 ++ l2.
Proof.
  intros N. apply NoDup_app in N as (N1 & N2 & N3). apply NoDup_cons in N3 as [N3 N4]. rewrite without_app, (without_other id l1).
  - unfold without_id. simpl. rewrite Nat.eqb_refl. simpl. f_equal. by apply without_other.
  - intros Hi. apply (N2 id Hi). by left.
Qed.

Lemma without_perm id l k : l ≡ₚ k -> without_id id l ≡ₚ without_id id k.
Proof. unfold without_id. induction 1; simpl; try destruct (negb _); try destruct (negb _); eauto using perm_trans; constructor. Qed.

Lemma without_sorted {R : nat -> nat -> Prop} id l : StronglySorted R l -> StronglySorted R (without_id id l).
Proof.
  unfold without_id. induction 1 as [|i l S IH F]; simpl; [constructor|]. destruct (negb (i =? id)%nat); [|done]. constructor; [done|].
  apply Forall_forall. intros j [Hj _]%elem_of_without. rewrite Forall_forall in F. by apply F.
Qed.

Lemma without_by_key m id l : by_key m l -> by_key m (without_id id l).
Proof.
  intros [S F]. split; [by apply without_sorted|]. apply Forall_forall. intros i [Hi _]%elem_of_without. rewrite Forall_forall in F. by apply F.
Qed.

Lemma sorted_ext {A} (R R' : A -> A -> Prop) l : (forall i j, i ∈ l -> j ∈ l -> R i j -> R' i j) -> StronglySorted R l -> StronglySorted R' l.
Proof.
  intros X S. induction S as [|i l S IH F]; constructor.
  - apply IH. intros a b Ha Hb. apply X; by right.
  - apply Forall_forall. intros j Hj. rewrite Forall_forall in F. apply X; [by left|by right|by apply F].
Qed.

(** ** The invariant *)

Definition stamp (m : reps) (i : nat) : Z := match m !! i with Some rp => c_timestamp rp | None => 0 end.

(** The data an entry holds. *)
Definition rep_bytes (rp : svc_cacherep) : Z :=
  match c_u rp with U_vec data => if c_type rp =? RC_REPLBUFF then zlen data else 0 | _ => 0 end.

Definition rep_ok (rp : svc_cacherep) : Prop :=
  key_ok (c_key rp) /\
  (c_state rp = RC_INPROG /\ c_type rp = RC_NOCACHE \/
   c_state rp = RC_DONE /\ (c_type rp = RC_REPLSTAT /\ (exists w, c_u rp = U_status w) \/ c_type rp = RC_REPLBUFF /\ exists d, c_u rp = U_vec d /\ zlen d <= 256)).

Record bucket_ok (hf : Z -> nat) (now : Z) (m : reps) (h : nat) (b : nfsd_drc_bucket) : Prop := {
  bk_tree : by_key m (in_order (rb_head b));
  bk_lru : lru_head b ≡ₚ in_order (rb_head b);
  bk_hash : forall i, i ∈ in_order (rb_head b) -> exists rp, m !! i = Some rp /\ hf (k_xid (c_key rp)) = h;
  bk_aged : StronglySorted (fun i j => stamp m i <= stamp m j) (lru_head b);
  bk_past : Forall (fun i => 0 <= stamp m i <= now) (lru_head b);
}.

Section Invariant.
Context `{RbShape nat}.
Context (hash_32 : Z -> Z -> nat) (csum_partial : list byte -> Z -> Z) (HZ REP_SIZE : Z).

Definition mem_total (m : reps) : Z := map_fold (fun _ rp acc => REP_SIZE + rep_bytes rp + acc) 0 m.

Definition hash_of (nn : drc_net) : Z -> nat := fun xid => nfsd_cache_hash hash_32 xid nn.

Record drc_ok (now : Z) (nn : drc_net) : Prop := {
  ok_table : forall xid, (hash_of nn xid < length (drc_hashtbl nn))%nat;
  ok_bucket : forall h b, drc_hashtbl nn !! h = Some b -> bucket_ok (hash_of nn) now (drc_heap nn) h b;
  ok_entry : forall i rp, drc_heap nn !! i = Some rp -> rep_ok rp /\ i ∈ in_order (rb_head (get_bucket nn (hash_of nn (k_xid (c_key rp)))));
  ok_num : num_drc_entries nn = Z.of_nat (size (drc_heap nn));
  ok_bytes : drc_mem_usage nn = mem_total (drc_heap nn);
}.

Lemma mem_total_insert m i rp : m !! i = None -> mem_total (<[i := rp]> m) = REP_SIZE + rep_bytes rp + mem_total m.
Proof. intros E. unfold mem_total. rewrite map_fold_insert_L; [done|intros; lia|done]. Qed.

Lemma mem_total_delete m i rp : m !! i = Some rp -> mem_total m = REP_SIZE + rep_bytes rp + mem_total (delete i m).
Proof. intros E. rewrite <- (mem_total_insert (delete i m) i rp) by apply lookup_delete_eq. by rewrite insert_delete_id. Qed.

Lemma mem_total_update m i rp rp' : m !! i = Some rp -> mem_total (<[i := rp']> m) = mem_total m - rep_bytes rp + rep_bytes rp'.
Proof.
  intros E. rewrite (mem_total_delete (<[i := rp']> m) i rp') by apply lookup_insert_eq. rewrite delete_insert_eq. rewrite (mem_total_delete m i rp E). lia.
Qed.

Lemma get_bucket_in nn h b : drc_hashtbl nn !! h = Some b -> get_bucket nn h = b.
Proof. intros E. unfold get_bucket. by apply list_lookup_total_correct. Qed.

Lemma drc_ok_get now nn xid : drc_ok now nn -> exists b, drc_hashtbl nn !! hash_of nn xid = Some b /\ get_bucket nn (hash_of nn xid) = b.
Proof.
  intros O. destruct (lookup_lt_is_Some_2 (drc_hashtbl nn) (hash_of nn xid)) as [b E]; [by apply (ok_table now)|]. exists b. split; [done|]. by apply get_bucket_in.
Qed.

(** Entries of another bucket are not concerned. *)
Lemma bucket_frame hf now m m' h b : bucket_ok hf now m h b -> (forall i, i ∈ in_order (rb_head b) -> m' !! i = m !! i) -> bucket_ok hf now m' h b.
Proof.
  intros [T L Hh A P] X. assert (forall i, i ∈ lru_head b -> stamp m' i = stamp m i) as Xs.
  { intros i Hi. unfold stamp. rewrite X; [done|]. by rewrite <- L. }
  split; [|done| | |].
  - apply (by_key_ext m); [|done]. intros i k Hi. unfold key_at. by rewrite X.
  - intros i Hi. rewrite X by done. by apply Hh.
  - eapply sorted_ext; [|exact A]. intros i j Hi Hj. cbn beta. by rewrite !Xs.
  - apply Forall_forall. intros i Hi. rewrite Forall_forall in P. rewrite Xs by done. by apply P.
Qed.

Lemma bucket_later hf now now' m h b : now <= now' -> bucket_ok hf now m h b -> bucket_ok hf now' m h b.
Proof. intros L [T Lr Hh A P]. split; try done. eapply Forall_impl; [exact P|]. cbn. lia. Qed.

Lemma drc_later now now' nn : now <= now' -> drc_ok now nn -> drc_ok now' nn.
Proof. intros L [T B E N M]. split; try done. intros h b Hb. apply (bucket_later _ now); [done|]. by apply B. Qed.

(** A key has one entry. *)
Lemma one_entry now nn i j rp rp' : drc_ok now nn -> drc_heap nn !! i = Some rp -> drc_heap nn !! j = Some rp' -> c_key rp = c_key rp' -> i = j.
Proof.
  intros O Ei Ej Ek. destruct (ok_entry now nn O i rp Ei) as [[Ki _] Hi], (ok_entry now nn O j rp' Ej) as [_ Hj]. rewrite <- Ek in Hj.
  destruct (drc_ok_get now nn (k_xid (c_key rp)) O) as (b & Eb & Eg). rewrite Eg in *.
  destruct (bk_tree _ _ _ _ _ (ok_bucket now nn O _ _ Eb)) as [S _].
  assert (forall a c, a ∈ in_order (rb_head b) -> c ∈ in_order (rb_head b) -> key_at (drc_heap nn) a (c_key rp) -> key_at (drc_heap nn) c (c_key rp) -> a = c) as U.
  { clear -S. induction S as [|x l S IH F]; [by intros a c ?%elem_of_nil|]. rewrite Forall_forall in F.
    intros a c [->|Ha]%elem_of_cons [->|Hc]%elem_of_cons Ka Kc; try done; [..|by apply IH].
    - specialize (F c Hc _ _ Ka Kc). unfold key_cmp in F. by rewrite memcmp_refl in F.
    - specialize (F a Ha _ _ Kc Ka). unfold key_cmp in F. by rewrite memcmp_refl in F. }
  apply U; try done; [by exists rp|]. exists rp'. by split_and!.
Qed.

(** A change within one bucket. *)
Lemma ok_one_bucket now now' nn nn' h b' :
  drc_ok now nn -> now <= now' -> (h < length (drc_hashtbl nn))%nat ->
  maskbits nn' = maskbits nn -> drc_hashtbl nn' = <[h := b']> (drc_hashtbl nn) ->
  bucket_ok (hash_of nn) now' (drc_heap nn') h b' ->
  (forall i rp, drc_heap nn !! i = Some rp -> hash_of nn (k_xid (c_key rp)) <> h -> drc_heap nn' !! i = Some rp) ->
  (forall i rp, drc_heap nn' !! i = Some rp -> rep_ok rp /\
     (hash_of nn (k_xid (c_key rp)) = h /\ i ∈ in_order (rb_head b') \/ hash_of nn (k_xid (c_key rp)) <> h /\ drc_heap nn !! i = Some rp)) ->
  num_drc_entries nn' = Z.of_nat (size (drc_heap nn')) -> drc_mem_usage nn' = mem_total (drc_heap nn') -> drc_ok now' nn'.
Proof.
  intros O Hn Hh Em Et B' X Y En Eb. assert (hash_of nn' = hash_of nn) as Eh by (unfold hash_of, nfsd_cache_hash; by rewrite Em).
  split; rewrite ?Eh; try done.
  - intros xid. rewrite Et, length_insert. by apply (ok_table now).
  - intros g b Hg. rewrite Et in Hg. destruct (decide (g = h)) as [->|N].
    + rewrite list_lookup_insert_eq in Hg by done. by injection Hg as <-.
    + rewrite list_lookup_insert_ne in Hg by done. pose proof (ok_bucket now nn O g b Hg) as Bg. apply (bucket_later _ now); [done|].
      apply (bucket_frame _ _ (drc_heap nn)); [done|]. intros i Hi. destruct (bk_hash _ _ _ _ _ Bg i Hi) as (rp & Er & Eg). rewrite Er. apply X; congruence.
  - intros i rp Hi. destruct (Y i rp Hi) as [R [[E Hb]|[E Ho]]]; (split; [done|]); unfold get_bucket; rewrite Et.
    + rewrite E, list_lookup_total_insert_eq by done. done.
    + rewrite list_lookup_total_insert_ne by done. by apply (ok_entry now nn O).
Qed.

(** Taking an entry out. *)
Lemma drc_ok_remove now nn nn' id rp t :
  drc_ok now nn -> drc_heap nn !! id = Some rp ->
  let h := hash_of nn (k_xid (c_key rp)) in
  let b := get_bucket nn h in
  maskbits nn' = maskbits nn -> in_order t = without_id id (in_order (rb_head b)) ->
  drc_hashtbl nn' = <[h := mk_bucket t (without_id id (lru_head b))]> (drc_hashtbl nn) -> drc_heap nn' = delete id (drc_heap nn) ->
  num_drc_entries nn' = num_drc_entries nn - 1 -> drc_mem_usage nn' = drc_mem_usage nn - rep_bytes rp - REP_SIZE -> drc_ok now nn'.
Proof.
  intros O Hi h b Em Eo Et Eh En Eb. destruct (drc_ok_get now nn (k_xid (c_key rp)) O) as (b0 & Hb & Eg). fold h in Hb, Eg. fold b in Eg. subst b0.
  pose proof (ok_bucket now nn O h b Hb) as [T L Hh A P].
  assert (forall i, i <> id -> drc_heap nn' !! i = drc_heap nn !! i) as X by (intros i N; by rewrite Eh, lookup_delete_ne).
  eapply (ok_one_bucket now now nn nn' h); try done.
  - by apply (ok_table now).
  - apply (bucket_frame _ _ (drc_heap nn)); cbn; [|intros i Hi'; apply X; rewrite Eo in Hi'; by apply elem_of_without in Hi' as [_ ?]].
    split; cbn; rewrite ?Eo; [by apply without_by_key|by apply without_perm| |by apply without_sorted|].
    + intros i [Hi' _]%elem_of_without. by apply Hh.
    + apply Forall_forall. intros i [Hi' _]%elem_of_without. rewrite Forall_forall in P. by apply P.
  - intros i r Hr N. rewrite X; [done|]. intros ->. rewrite Hi in Hr. injection Hr as ->. done.
  - intros i r Hr. rewrite Eh in Hr. apply lookup_delete_Some in Hr as [N Hr]. destruct (ok_entry now nn O i r Hr) as [R Hin]. split; [done|].
    destruct (decide (hash_of nn (k_xid (c_key r)) = h)) as [E|E]; [left|by right]. split; [done|]. cbn. rewrite Eo. apply elem_of_without. rewrite E in Hin. done.
  - rewrite En, (ok_num now nn O), Eh. rewrite map_size_delete_Some by (by eexists).
    assert (size (drc_heap nn) <> 0%nat) as N. { intros E0. apply map_size_empty_inv in E0. rewrite E0 in Hi. by rewrite lookup_empty in Hi. }
    unfold pred. destruct (size (drc_heap nn)); lia.
  - rewrite Eb, (ok_bytes now nn O), Eh. rewrite (mem_total_delete _ id rp) by done. lia.
Qed.

(** A used entry goes to the end of its list with the present time. *)
Lemma ok_touch now now' nn nn' id rp rp' :
  drc_ok now nn -> now <= now' -> 0 <= now' -> drc_heap nn !! id = Some rp ->
  let h := hash_of nn (k_xid (c_key rp)) in
  let b := get_bucket nn h in
  maskbits nn' = maskbits nn -> drc_hashtbl nn' = <[h := b <| lru_head := without_id id (lru_head b) ++ [id] |>]> (drc_hashtbl nn) ->
  drc_heap nn' = <[id := rp']> (drc_heap nn) -> c_key rp' = c_key rp -> rep_ok rp' -> c_timestamp rp' = now' ->
  num_drc_entries nn' = num_drc_entries nn -> drc_mem_usage nn' = drc_mem_usage nn - rep_bytes rp + rep_bytes rp' -> drc_ok now' nn'.
Proof.
  intros O Hn Hn0 Hi h b Em Et Eh Ek R Es En Eb. destruct (drc_ok_get now nn (k_xid (c_key rp)) O) as (b0 & Hb & Eg). fold h in Hb, Eg. fold b in Eg. subst b0.
  pose proof (ok_bucket now nn O h b Hb) as [T L Hh A P]. destruct (ok_entry now nn O id rp Hi) as [_ Hin]. fold h b in Hin.
  assert (forall i, i <> id -> drc_heap nn' !! i = drc_heap nn !! i) as X by (intros i N; by rewrite Eh, lookup_insert_ne).
  assert (drc_heap nn' !! id = Some rp') as Xi by (by rewrite Eh, lookup_insert_eq).
  assert (forall i, i <> id -> stamp (drc_heap nn') i = stamp (drc_heap nn) i) as Xs by (intros i N; unfold stamp; by rewrite X).
  assert (stamp (drc_heap nn') id = now') as Xid by (unfold stamp; by rewrite Xi).
  eapply (ok_one_bucket now now' nn nn' h); try done.
  - by apply (ok_table now).
  - split; cbn.
    + apply (by_key_ext (drc_heap nn)); [|done]. intros i k _. unfold key_at. destruct (decide (i = id)) as [->|N]; [|by rewrite X].
      rewrite Xi, Hi. split; intros (r & [= <-] & Er & Kr); eexists; (split; [done|]); by rewrite Ek in * || rewrite <- Ek in *.
    + rewrite <- L. destruct (list_elem_of_split (lru_head b) id) as (l1 & l2 & E); [by rewrite L|]. rewrite E.
      rewrite without_mid; [|rewrite <- E, L; by apply (by_key_nodup (drc_heap nn))]. rewrite <- app_assoc. apply Permutation_app_head. apply Permutation_app_comm.
    + intros i Hi'. destruct (decide (i = id)) as [->|N]; [exists rp'; split; [done|]; by rewrite Ek|]. rewrite X by done. by apply Hh.
    + apply StronglySorted_app. split_and!.
      * intros i j [Hi' N]%elem_of_without ->%list_elem_of_singleton. rewrite Xid, Xs by done. rewrite Forall_forall in P. specialize (P i Hi'). lia.
      * eapply sorted_ext; [|by apply without_sorted, A]. intros i j [_ N1]%elem_of_without [_ N2]%elem_of_without. cbn beta. by rewrite !Xs.
      * constructor; constructor.
    + apply Forall_app. split; [|constructor; [rewrite Xid; lia|constructor]]. apply Forall_forall. intros i [Hi' N]%elem_of_without.
      rewrite Xs by done. rewrite Forall_forall in P. specialize (P i Hi'). lia.
  - intros i r Hr N. rewrite X; [done|]. intros ->. rewrite Hi in Hr. injection Hr as ->. done.
  - intros i r Hr. destruct (decide (i = id)) as [->|N].
    + rewrite Xi in Hr. injection Hr as <-. split; [done|]. left. rewrite Ek. done.
    + rewrite X in Hr by done. destruct (ok_entry now nn O i r Hr) as [R' Hin']. split; [done|].
      destruct (decide (hash_of nn (k_xid (c_key r)) = h)) as [E|E]; [left|by right]. split; [done|]. cbn. by rewrite E in Hin'.
  - rewrite En, (ok_num now nn O), Eh. by rewrite map_size_insert_Some by (by eexists).
  - rewrite Eb, (ok_bytes now nn O), Eh. by rewrite (mem_total_update _ id rp).
Qed.

(** A new entry between those with smaller and those with larger keys. *)
Lemma drc_ok_add now now' nn nn' id rp t l1 l2 :
  drc_ok now nn -> now <= now' -> 0 <= now' -> drc_heap nn !! id = None ->
  let h := hash_of nn (k_xid (c_key rp)) in
  let b := get_bucket nn h in
  in_order (rb_head b) = l1 ++ l2 -> in_order t = l1 ++ id :: l2 ->
  (forall i ki, i ∈ l1 -> key_at (drc_heap nn) i ki -> key_cmp (c_key rp) ki = Gt) ->
  (forall i ki, i ∈ l2 -> key_at (drc_heap nn) i ki -> key_cmp (c_key rp) ki = Lt) ->
  maskbits nn' = maskbits nn -> drc_hashtbl nn' = <[h := mk_bucket t (lru_head b ++ [id])]> (drc_hashtbl nn) ->
  drc_heap nn' = <[id := rp]> (drc_heap nn) -> rep_ok rp -> c_timestamp rp = now' ->
  num_drc_entries nn' = num_drc_entries nn + 1 -> drc_mem_usage nn' = drc_mem_usage nn + REP_SIZE + rep_bytes rp -> drc_ok now' nn'.
Proof.
  intros O Hn Hn0 Hi h b Eo Eo' S1 S2 Em Et Eh R Es En Eb. destruct (drc_ok_get now nn (k_xid (c_key rp)) O) as (b0 & Hb & Eg). fold h in Hb, Eg. fold b in Eg. subst b0.
  pose proof (ok_bucket now nn O h b Hb) as [T L Hh A P].
  assert (drc_heap nn' !! id = Some rp) as Xi by (by rewrite Eh, lookup_insert_eq).
  assert (forall i, i <> id -> drc_heap nn' !! i = drc_heap nn !! i) as X by (intros i N; by rewrite Eh, lookup_insert_ne).
  assert (forall i, i ∈ in_order (rb_head b) -> i <> id) as Ni by (intros i Hi' ->; destruct (Hh id Hi') as (? & ? & _); congruence).
  assert (forall i k, i ∈ in_order (rb_head b) -> key_at (drc_heap nn') i k <-> key_at (drc_heap nn) i k) as Xk.
  { intros i k Hi'. unfold key_at. rewrite X; [done|]. by apply Ni. }
  assert (forall i, i ∈ lru_head b -> stamp (drc_heap nn') i = stamp (drc_heap nn) i) as Xs.
  { intros i Hi'. unfold stamp. rewrite X; [done|]. apply Ni. by rewrite <- L. }
  assert (stamp (drc_heap nn') id = now') as Xid by (unfold stamp; by rewrite Xi).
  assert (key_at (drc_heap nn') id (c_key rp)) as Kid by (exists rp; split_and!; try done; apply R).
  eapply (ok_one_bucket now now' nn nn' h); try done.
  - by apply (ok_table now).
  - split; cbn.
    + rewrite Eo'. rewrite Eo in T, Xk. apply (by_key_ext _ (drc_heap nn')) in T; [|done]. apply by_key_app in T as (T1 & T2 & T12).
      change (id :: l2) with ([id] ++ l2). rewrite !by_key_app. split_and!; try done.
      * split; [constructor; constructor|]. constructor; [by eexists|constructor].
      * intros i j ki kj ->%list_elem_of_singleton Hj Ki Kj. rewrite (key_at_fun _ _ _ _ Ki Kid). apply (S2 j); [done|]. apply Xk; [apply elem_of_app; by right|done].
      * intros i j ki kj Hi' [->%list_elem_of_singleton|Hj]%elem_of_app Ki Kj.
        -- rewrite (key_at_fun _ _ _ _ Kj Kid). apply key_cmp_gt, (S1 i); [done|]. apply Xk; [apply elem_of_app; by left|done].
        -- by apply (T12 i j).
    + rewrite L, Eo, Eo', <- app_assoc. apply Permutation_app_head. apply Permutation_app_comm.
    + rewrite Eo'. intros i [Hi'|[->|Hi']%elem_of_cons]%elem_of_app; [| |].
      * rewrite X by (apply Ni; rewrite Eo; apply elem_of_app; by left). apply Hh. rewrite Eo. apply elem_of_app. by left.
      * by exists rp.
      * rewrite X by (apply Ni; rewrite Eo; apply elem_of_app; by right). apply Hh. rewrite Eo. apply elem_of_app. by right.
    + apply StronglySorted_app. split_and!; [| |constructor; constructor].
      * intros i j Hi' ->%list_elem_of_singleton. rewrite Xid, Xs by done. rewrite Forall_forall in P. specialize (P i Hi'). lia.
      * eapply sorted_ext; [|exact A]. intros i j ??. cbn beta. by rewrite !Xs.
    + apply Forall_app. split; [|constructor; [rewrite Xid; lia|constructor]]. apply Forall_forall. intros i Hi'.
      rewrite Xs by done. rewrite Forall_forall in P. specialize (P i Hi'). lia.
  - intros i r Hr N. rewrite X; [done|]. intros ->. by rewrite Hi in Hr.
  - intros i r Hr. destruct (decide (i = id)) as [->|N].
    + rewrite Xi in Hr. injection Hr as <-. split; [done|]. left. split; [done|]. cbn. rewrite Eo'. apply elem_of_app. right. by left.
    + rewrite X in Hr by done. destruct (ok_entry now nn O i r Hr) as [R' Hin']. split; [done|].
      destruct (decide (hash_of nn (k_xid (c_key r)) = h)) as [E|E]; [left|by right]. split; [done|]. cbn. rewrite E in Hin'. fold b in Hin'. rewrite Eo in Hin'. rewrite Eo'.
      apply elem_of_app in Hin' as [?|?]; apply elem_of_app; [by left|right; by right].
  - rewrite En, (ok_num now nn O), Eh. rewrite map_size_insert_None by done. lia.
  - rewrite Eb, (ok_bytes now nn O), Eh. rewrite mem_total_insert by done. lia.
Qed.

(** ** Freeing and pruning *)

Lemma free_spec now nn id rp :
  drc_ok now nn -> drc_heap nn !! id = Some rp ->
  let h := hash_of nn (k_xid (c_key rp)) in
  let nn' := nfsd_reply_cache_free_locked REP_SIZE h id nn in
  drc_ok now nn' /\ drc_heap nn' = delete id (drc_heap nn) /\ lru_head (get_bucket nn' h) = without_id id (lru_head (get_bucket nn h)) /\
  hash_of nn' = hash_of nn /\ num_drc_entries nn' = num_drc_entries nn - 1 /\ max_drc_entries nn' = max_drc_entries nn /\
  length (drc_hashtbl nn') = length (drc_hashtbl nn).
Proof.
  intros O Hi h. destruct (ok_entry now nn O id rp Hi) as [R Hin]. unfold nfsd_reply_cache_free_locked. rewrite Hi.
  assert (negb (c_state rp =? RC_UNUSED) = true) as -> by (destruct R as [_ [[-> _]|[-> _]]]; done).
  set (nn1 := match c_u rp with U_vec _ => _ | _ => _ end).
  assert (drc_hashtbl nn1 = drc_hashtbl nn /\ drc_heap nn1 = drc_heap nn /\ maskbits nn1 = maskbits nn /\ num_drc_entries nn1 = num_drc_entries nn /\
          max_drc_entries nn1 = max_drc_entries nn /\ drc_mem_usage nn1 = drc_mem_usage nn - rep_bytes rp) as (E1 & E2 & E3 & E4 & E5 & E6).
  { unfold nn1, rep_bytes. destruct (c_u rp) as [|data|]; [|destruct (c_type rp =? RC_REPLBUFF)|]; cbn; split_and!; (done || lia). }
  clearbody nn1. assert (get_bucket nn1 h = get_bucket nn h) as Eg by (unfold get_bucket; by rewrite E1).
  assert ((h < length (drc_hashtbl nn))%nat) as Hh by (by apply (ok_table now)). rewrite Eg.
  split; [|cbn; rewrite E1, E2, E4, E5; split_and!; try done].
  - eapply (drc_ok_remove now nn); cbn; rewrite ?E1, ?E2, ?E3, ?E4, ?E6; try done. by rewrite rb_shape_in_order.
  - unfold get_bucket. cbn. rewrite E1. by rewrite list_lookup_total_insert_eq by done.
  - unfold hash_of, nfsd_cache_hash. cbn. by rewrite E3.
  - by rewrite length_insert.
Qed.
End Invariant.
