(* ===== verification/ReplyCacheOps.v ===== *)
(** * The duplicate request cache: what the operations do

    Pruning, lookup and update in terms of the entries: which are kept, which go, and
    what a request gets. *)

From S2P Require Import Prelude RbTree Xdr XdrBuf WaitQueue ReplyCache ReplyCacheInv.
From stdpp Require Import list gmap sorting.
#[local] Open Scope Z_scope.

Lemma time_before_spec now t : 0 <= now < 2 ^ 62 -> 0 <= t < 2 ^ 62 -> time_before now (u64 t) = (now <? t).
Proof.
  intros Hn Ht. unfold time_before, time_after, s64. rewrite (u64_id t) by (unfold is_u64; lia). unfold u64.
  destruct (Z.ltb_spec now t) as [L|G].
  - rewrite <- (Z.mod_unique (now - t) (2 ^ 64) (-1) (now - t + 2 ^ 64)) by lia. rewrite (proj2 (Z.ltb_ge _ (2 ^ 63))) by lia. apply Z.ltb_lt. lia.
  - rewrite Z.mod_small by lia. rewrite (proj2 (Z.ltb_lt _ (2 ^ 63))) by lia. apply Z.ltb_ge. lia.
Qed.

Section Operations.
Context `{RbShape nat}.
Context (hash_32 : Z -> Z -> nat) (csum_partial : list byte -> Z -> Z) (HZ REP_SIZE : Z) (HZ_ok : 0 < HZ < 2 ^ 40).

Let RC_EXPIRE := RC_EXPIRE HZ.
Let hash_of := hash_of hash_32.
Let drc_ok := drc_ok hash_32 REP_SIZE.

(** An entry that may go: done, and too old or one of too many. *)
Definition may_go (now : Z) (nn : drc_net) (rp : svc_cacherep) : Prop :=
  c_state rp = RC_DONE /\ (max_drc_entries nn < num_drc_entries nn \/ c_timestamp rp + RC_EXPIRE <= now).

(** [nn'] is [nn] without some entries that may go. *)
Record pruned (now : Z) (nn nn' : drc_net) : Prop := {
  pr_ok : drc_ok now nn';
  pr_sub : forall i rp, drc_heap nn' !! i = Some rp -> drc_heap nn !! i = Some rp;
  pr_gone : forall i rp, drc_heap nn !! i = Some rp -> drc_heap nn' !! i = None -> may_go now nn rp;
  pr_num : num_drc_entries nn' <= num_drc_entries nn;
  pr_hash : hash_of nn' = hash_of nn;
  pr_max : max_drc_entries nn' = max_drc_entries nn;
  pr_table : length (drc_hashtbl nn') = length (drc_hashtbl nn);
}.

Lemma pruned_refl now nn : drc_ok now nn -> pruned now nn nn.
Proof. intros O. split; try done. intros i rp E1 E2. congruence. Qed.

Lemma pruned_trans now n1 n2 n3 : pruned now n1 n2 -> pruned now n2 n3 -> pruned now n1 n3.
Proof.
  intros [O1 S1 G1 N1 H1 M1 T1] [O2 S2 G2 N2 H2 M2 T2]. split; try done; try congruence; [auto| |lia].
  intros i rp E1 E3. destruct (drc_heap n2 !! i) as [rp'|] eqn:E2; [|by apply (G1 i)].
  pose proof (S1 i rp' E2) as E1'. rewrite E1 in E1'. injection E1' as <-. destruct (G2 i rp E2 E3) as [D [L|L]]; split; auto. left. rewrite <- M1. lia.
Qed.

Lemma prune_loop_spec now h ids nn freed nn' freed' :
  drc_ok now nn -> 0 <= now < 2 ^ 61 -> NoDup ids -> (forall i, i ∈ ids -> i ∈ lru_head (get_bucket nn h)) -> (h < length (drc_hashtbl nn))%nat ->
  StronglySorted (fun i j => stamp (drc_heap nn) i <= stamp (drc_heap nn) j) ids ->
  prune_loop HZ REP_SIZE now h ids nn freed = (nn', freed') ->
  pruned now nn nn' /\ freed' - freed = num_drc_entries nn - num_drc_entries nn' /\
  forall i rp, i ∈ ids -> drc_heap nn' !! i = Some rp -> c_state rp = RC_DONE -> num_drc_entries nn' <= max_drc_entries nn' /\ now < c_timestamp rp + RC_EXPIRE.
Proof.
  intros O Hn. revert nn freed O. induction ids as [|id ids IH]; intros nn freed O ND Sub Hh St; simpl.
  { intros [= <- <-]. split_and!; [by apply pruned_refl|lia|]. by intros i rp ?%elem_of_nil. }
  apply NoDup_cons in ND as [Nid ND]. inversion St as [|? ? St' Fst]; subst.
  destruct (lookup_lt_is_Some_2 _ _ Hh) as [b Hb]. pose proof (ok_bucket _ _ _ _ O h b Hb) as [T L Hhash A P].
  rewrite (get_bucket_in nn h b Hb) in Sub. destruct (Hhash id) as (rp & Er & Eh); [rewrite <- L; apply Sub; by left|]. rewrite Er.
  destruct (ok_entry _ _ _ _ O id rp Er) as [R _].
  destruct (Z.eqb_spec (c_state rp) RC_INPROG) as [Ei|Ei].
  { intros E. destruct (IH nn freed O ND) as (Pr & Fr & Co); try done; [intros i Hi; rewrite (get_bucket_in nn h b Hb); apply Sub; by right|].
    split_and!; try done. intros i r [->|Hi]%elem_of_cons Hr Hd; [|by apply (Co i)]. apply (pr_sub _ _ _ Pr) in Hr. rewrite Er in Hr. injection Hr as <-. by rewrite Ei in Hd. }
  assert (c_state rp = RC_DONE) as Ed by (destruct R as [_ [[? _]|[? _]]]; congruence).
  assert (0 <= c_timestamp rp <= now) as Hts.
  { rewrite Forall_forall in P. specialize (P id ltac:(apply Sub; by left)). unfold stamp in P. by rewrite Er in P. }
  assert (0 <= RC_EXPIRE < 2 ^ 60) as He by (unfold RC_EXPIRE, ReplyCache.RC_EXPIRE; lia).
  fold RC_EXPIRE. rewrite time_before_spec by lia.
  destruct (Z.leb_spec (num_drc_entries nn) (max_drc_entries nn)) as [Lm|Gm], (Z.ltb_spec now (c_timestamp rp + RC_EXPIRE)) as [Lt|Gt]; cbn [andb].
  1: { intros [= <- <-]. split_and!; [by apply pruned_refl|lia|]. intros i r [->|Hi]%elem_of_cons Hr Hd; split; try lia.
       - rewrite Er in Hr. injection Hr as <-. done.
       - rewrite Forall_forall in Fst. specialize (Fst i Hi). unfold stamp in Fst. rewrite Er, Hr in Fst. lia. }
  all: pose proof (free_spec hash_32 REP_SIZE now nn id rp O Er) as (O' & Hp & Lr & Hs & Nm & Mx & Tl); rewrite Eh in *;
    set (nn1 := nfsd_reply_cache_free_locked REP_SIZE h id nn) in *; intros E;
    assert (pruned now nn nn1) as P1 by
      (split; try done; [intros i r; rewrite Hp; by intros [_ ?]%lookup_delete_Some| |lia];
       intros i r E1 E2; rewrite Hp in E2; apply lookup_delete_None in E2 as [<-|E2]; [rewrite Er in E1; injection E1 as <-; split; [done|lia]|congruence]);
    (destruct (IH nn1 (freed + 1) O' ND) as (Pr & Fr & Co);
      [intros i Hi; rewrite Lr, (get_bucket_in nn h b Hb); apply elem_of_without; split; [apply Sub; by right|by intros ->]|by rewrite Tl| |done|]);
    [eapply sorted_ext; [|exact St']; intros i j Hi Hj; cbn beta; unfold stamp; rewrite Hp, !lookup_delete_ne by (by intros ->); done|
     split_and!; [by apply (pruned_trans _ _ nn1)|lia|]; intros i r [->|Hi]%elem_of_cons Hr Hd; [|by apply (Co i)];
     apply (pr_sub _ _ _ Pr) in Hr; rewrite Hp, lookup_delete_eq in Hr; done].
Qed.

Lemma prune_bucket_spec now h nn nn' n :
  drc_ok now nn -> 0 <= now < 2 ^ 61 -> (h < length (drc_hashtbl nn))%nat -> prune_bucket HZ REP_SIZE now h nn = (nn', n) ->
  pruned now nn nn' /\ n = num_drc_entries nn - num_drc_entries nn' /\
  forall i rp, drc_heap nn' !! i = Some rp -> hash_of nn (k_xid (c_key rp)) = h -> c_state rp = RC_DONE ->
    num_drc_entries nn' <= max_drc_entries nn' /\ now < c_timestamp rp + RC_EXPIRE.
Proof.
  intros O Hn Hh E. unfold prune_bucket in E. destruct (lookup_lt_is_Some_2 _ _ Hh) as [b Hb]. pose proof (ok_bucket _ _ _ _ O h b Hb) as [T L Hhash A P].
  pose proof (get_bucket_in nn h b Hb) as Eg.
  destruct (prune_loop_spec now h (lru_head (get_bucket nn h)) nn 0 nn' n) as (Pr & Fr & Co); try done.
  - rewrite Eg, L. by apply (by_key_nodup (drc_heap nn)).
  - by rewrite Eg.
  - split_and!; [done|lia|]. intros i rp Hi Eh Hd. apply (Co i rp); try done. apply (pr_sub _ _ _ Pr) in Hi.
    destruct (ok_entry _ _ _ _ O i rp Hi) as [_ Hin]. change (ReplyCacheInv.hash_of hash_32 nn) with (hash_of nn) in Hin. rewrite Eh, Eg in Hin. by rewrite Eg, L.
Qed.

(** Pruning the whole cache. *)
Lemma prune_fold_spec now hs nn freed nn' n :
  drc_ok now nn -> 0 <= now < 2 ^ 61 -> Forall (fun h => (h < length (drc_hashtbl nn))%nat) hs ->
  foldl (fun '(nn, freed) h => let '(nn, n) := prune_bucket HZ REP_SIZE now h nn in (nn, freed + n)) (nn, freed) hs = (nn', n) ->
  pruned now nn nn' /\ n - freed = num_drc_entries nn - num_drc_entries nn' /\
  forall i rp, drc_heap nn' !! i = Some rp -> hash_of nn (k_xid (c_key rp)) ∈ hs -> c_state rp = RC_DONE -> now < c_timestamp rp + RC_EXPIRE.
Proof.
  intros O Hn. revert nn freed O. induction hs as [|h hs IH]; intros nn freed O F; simpl.
  { intros [= <- <-]. split_and!; [by apply pruned_refl|lia|]. by intros i rp _ ?%elem_of_nil. }
  apply Forall_cons in F as [Hh F]. destruct (prune_bucket HZ REP_SIZE now h nn) as [n1 k] eqn:E1. destruct (prune_bucket_spec now h nn n1 k O Hn Hh E1) as (P1 & -> & Co1).
  intros E. assert (Forall (fun g => (g < length (drc_hashtbl n1))%nat) hs) as F1.
  { eapply Forall_impl; [exact F|]. intros g Hg. by rewrite (pr_table _ _ _ P1). }
  destruct (IH n1 _ (pr_ok _ _ _ P1) F1 E) as (P2 & Fr & Co2).
  split_and!; [by apply (pruned_trans _ _ n1)|lia|]. intros i rp Hi [Eh|Hin]%elem_of_cons Hd.
  - apply (Co1 i rp); try done. by apply (pr_sub _ _ _ P2).
  - apply (Co2 i rp); try done. by rewrite (pr_hash _ _ _ P1).
Qed.

(** ** Lookup *)

Definition request_key (rq : drc_rqst) : drc_key := c_key (nfsd_reply_cache_alloc rq (nfsd_cache_csum csum_partial rq)).

Lemma csum_cacherep rq o : nfsd_cache_csum csum_partial (rq <| rq_cacherep := o |>) = nfsd_cache_csum csum_partial rq.
Proof.
  unfold nfsd_cache_csum. change (ReplyCache.rq_arg (rq <| rq_cacherep := o |>)) with (ReplyCache.rq_arg rq).
  by change (rq_mem (rq <| rq_cacherep := o |>)) with (rq_mem rq).
Qed.

(** The entry made for a request. *)
Definition new_entry (now : Z) (rq : drc_rqst) : svc_cacherep := mk_rep (request_key rq) RC_INPROG RC_NOCACHE false now U_none.

Lemma get_set nn h b : (h < length (drc_hashtbl nn))%nat -> get_bucket (set_bucket h b nn) h = b.
Proof. intros L. unfold get_bucket. cbn. by rewrite list_lookup_total_insert_eq. Qed.

Lemma tally_fields e nn : let nn' := tally_chain e nn in
  drc_hashtbl nn' = drc_hashtbl nn /\ drc_heap nn' = drc_heap nn /\ maskbits nn' = maskbits nn /\ num_drc_entries nn' = num_drc_entries nn /\
  max_drc_entries nn' = max_drc_entries nn /\ drc_mem_usage nn' = drc_mem_usage nn.
Proof. unfold tally_chain. destruct (_ <? _); [done|]. by destruct (_ =? _). Qed.

(** The walk in the bucket of a key, past the preallocated entry. *)
Lemma lookup_walk now nn id rp k l1 o l2 :
  drc_ok now nn -> drc_heap nn !! id = None -> key_ok k ->
  let b := get_bucket nn (hash_of nn (k_xid k)) in
  in_order (rb_head b) = l1 ++ option_list o ++ l2 -> (forall i, o = Some i -> key_at (drc_heap nn) i k) ->
  (forall i ki, i ∈ l1 -> key_at (drc_heap nn) i ki -> key_cmp k ki = Gt) ->
  (forall i ki, i ∈ l2 -> key_at (drc_heap nn) i ki -> key_cmp k ki = Lt) ->
  fst (rb_walk (nfsd_cache_key_cmp k (set_rep id rp nn)) (rb_head b) 0) = (length l1, o).
Proof.
  intros O Hi Kk b E Ho H1 H2. destruct (drc_ok_get _ _ _ _ (k_xid k) O) as (b0 & Hb & Eg).
  change (ReplyCacheInv.hash_of hash_32 nn) with (hash_of nn) in *. fold b in Eg. subst b0. pose proof (ok_bucket _ _ _ _ O _ _ Hb) as [T _ Hh _ _].
  assert (forall i, i ∈ in_order (rb_head b) -> <[id := rp]> (drc_heap nn) !! i = drc_heap nn !! i) as X.
  { intros i Hin. rewrite lookup_insert_ne; [done|]. intros ->. destruct (Hh i Hin) as (? & ? & _). congruence. }
  assert (forall i k', i ∈ in_order (rb_head b) -> key_at (<[id := rp]> (drc_heap nn)) i k' <-> key_at (drc_heap nn) i k') as Xk.
  { intros i k' Hin. unfold key_at. by rewrite X. }
  apply (walk_split (<[id := rp]> (drc_heap nn)) l1 o l2 (rb_head b) k E).
  - by apply (by_key_ext (drc_heap nn)).
  - intros i Hoi. apply Xk; [rewrite E, Hoi; apply elem_of_app; right; by left|by apply Ho].
  - intros i ki Hin Hk. apply (H1 i); [done|]. apply Xk; [rewrite E; apply elem_of_app; by left|done].
  - intros i ki Hin Hk. apply (H2 i); [done|]. apply Xk; [rewrite E; apply elem_of_app; right; apply elem_of_app; by right|done].
Qed.

(** A request that was seen before: its entry moves to the end of its list. *)
Lemma lookup_hit now now' nn id rq id0 rp0 :
  drc_ok now nn -> now <= now' -> 0 <= now' -> drc_heap nn !! id = None -> rq_cachetype rq <> RC_NOCACHE ->
  drc_heap nn !! id0 = Some rp0 -> c_key rp0 = request_key rq ->
  exists nn', nfsd_cache_lookup hash_32 csum_partial HZ REP_SIZE now' (Some id) rq nn =
      (fst (found_entry (rq <| rq_cacherep := None |>) rp0), snd (found_entry (rq <| rq_cacherep := None |>) rp0), nn') /\
    drc_ok now' nn' /\ drc_heap nn' = <[id0 := rp0 <| c_timestamp := now' |>]> (drc_heap nn) /\
    num_drc_entries nn' = num_drc_entries nn /\ max_drc_entries nn' = max_drc_entries nn /\ hash_of nn' = hash_of nn.
Proof.
  intros O Hn Hn0 Hi Hct H0 Ek. destruct (ok_entry _ _ _ _ O id0 rp0 H0) as [R Hin]. set (k := request_key rq) in *.
  assert (key_ok k) as Kk by (rewrite <- Ek; apply R). change (ReplyCacheInv.hash_of hash_32 nn) with (hash_of nn) in Hin. rewrite Ek in Hin.
  destruct (drc_ok_get _ _ _ _ (k_xid k) O) as (b & Hb & Eg). change (ReplyCacheInv.hash_of hash_32 nn) with (hash_of nn) in *. rewrite Eg in Hin.
  assert ((hash_of nn (k_xid k) < length (drc_hashtbl nn))%nat) as Hh by apply (ok_table _ _ _ _ O).
  pose proof (ok_bucket _ _ _ _ O _ _ Hb) as [T _ _ _ _].
  destruct (by_key_split (drc_heap nn) (in_order (rb_head b)) k Kk T) as (l1 & o & l2 & E & Ho & H1 & H2).
  assert (o = Some id0) as ->.
  { rewrite E in Hin. apply elem_of_app in Hin as [Hin|[Hin|Hin]%elem_of_app].
    - exfalso. specialize (H1 id0 k Hin). unfold key_cmp in H1. rewrite memcmp_refl in H1. by specialize (H1 ltac:(by exists rp0)).
    - destruct o as [j|]; [|by apply elem_of_nil in Hin]. by apply list_elem_of_singleton in Hin as ->.
    - exfalso. specialize (H2 id0 k Hin). unfold key_cmp in H2. rewrite memcmp_refl in H2. by specialize (H2 ltac:(by exists rp0)). }
  set (rp := nfsd_reply_cache_alloc (rq <| rq_cacherep := None |>) (nfsd_cache_csum csum_partial (rq <| rq_cacherep := None |>))).
  assert (c_key rp = k) as Er by (unfold rp; by rewrite csum_cacherep).
  pose proof (lookup_walk now nn id rp k l1 (Some id0) l2 O Hi Kk) as W. rewrite Eg in W. specialize (W E Ho H1 H2).
  assert (id0 <> id) as N by congruence.
  unfold nfsd_cache_lookup. rewrite (proj2 (Z.eqb_neq (rq_cachetype (rq <| rq_cacherep := None |>)) RC_NOCACHE)) by done.
  fold rp. rewrite Er. change (nfsd_cache_hash hash_32 (rq_xid rq) nn) with (hash_of nn (k_xid k)). set (h := hash_of nn (k_xid k)) in *.
  unfold nfsd_cache_insert. replace (get_bucket (set_rep id rp nn) h) with b by (by rewrite <- Eg).
  destruct (rb_walk _ (rb_head b) 0) as [[place found] seen]. cbn [fst] in W. injection W as -> ->.
  cbv beta iota zeta. match goal with |- context [tally_chain _ ?n] => set (nn1 := n) end. destruct (tally_fields (Z.of_nat (length seen)) nn1) as (T1 & T2 & T3 & T4 & T5 & T6).
  set (nn2 := tally_chain (Z.of_nat (length seen)) nn1) in *. unfold lru_put_end.
  assert (drc_heap nn2 = <[id := rp]> (drc_heap nn)) as Hp2 by (by rewrite T2).
  rewrite Hp2, lookup_insert_ne, H0 by done. replace (get_bucket nn2 h) with b by (rewrite <- Eg; unfold get_bucket; by rewrite T1).
  rewrite (proj2 (Nat.eqb_neq id0 id)) by done. cbn [negb]. set (nn3 := set_bucket h _ _).
  assert (drc_heap nn3 = <[id0 := rp0 <| c_timestamp := now' |>]> (<[id := rp]> (drc_heap nn))) as Hp3 by (cbn; by rewrite Hp2).
  unfold nfsd_reply_cache_free_locked. rewrite Hp3, lookup_insert_ne, lookup_insert_eq by done. cbn [c_u c_type c_state rp nfsd_reply_cache_alloc]. rewrite Z.eqb_refl. cbn [negb].
  set (nn4 := nn3 <| drc_heap := _ |>).
  assert (drc_heap nn4 = <[id0 := rp0 <| c_timestamp := now' |>]> (drc_heap nn)) as Hp4.
  { unfold nn4. cbn [drc_heap field_upd]. cbn. rewrite Hp2. rewrite delete_insert_ne by done. by rewrite delete_insert_id. }
  rewrite Hp4, lookup_insert_eq. exists nn4. split; [|split; [|split; [done|]]].
  - destruct (found_entry _ (rp0 <| c_timestamp := now' |>)) as [rtn rq'] eqn:Ef. change (found_entry (rq <| rq_cacherep := None |>) rp0 = (rtn, rq')) in Ef. by rewrite Ef.
  - eapply (ok_touch hash_32 REP_SIZE now now' nn nn4 id0 rp0 (rp0 <| c_timestamp := now' |>)); try done.
    + cbn. rewrite T1. cbn. change (ReplyCacheInv.hash_of hash_32 nn) with (hash_of nn). rewrite Ek. fold h. by rewrite Eg.
    + cbn. rewrite T6. change (rep_bytes (rp0 <| c_timestamp := now' |>)) with (rep_bytes rp0). cbn. lia.
  - cbn. rewrite T4, T5. split_and!; try done. unfold hash_of, ReplyCacheInv.hash_of, nfsd_cache_hash. cbn. by rewrite T3.
Qed.

(** A request not seen before gets an entry; then its bucket is pruned. *)
Lemma lookup_miss now now' nn id rq :
  drc_ok now nn -> now <= now' -> 0 <= now' < 2 ^ 61 -> drc_heap nn !! id = None -> rq_cachetype rq <> RC_NOCACHE -> key_ok (request_key rq) ->
  (forall i rp, drc_heap nn !! i = Some rp -> c_key rp <> request_key rq) ->
  exists nn1 nn', nfsd_cache_lookup hash_32 csum_partial HZ REP_SIZE now' (Some id) rq nn = (RC_DOIT, rq <| rq_cacherep := Some id |>, nn') /\
    drc_ok now' nn1 /\ drc_heap nn1 = <[id := new_entry now' rq]> (drc_heap nn) /\ num_drc_entries nn1 = num_drc_entries nn + 1 /\
    max_drc_entries nn1 = max_drc_entries nn /\ hash_of nn1 = hash_of nn /\ pruned now' nn1 nn' /\
    forall i rp, drc_heap nn' !! i = Some rp -> hash_of nn (k_xid (c_key rp)) = hash_of nn (rq_xid rq) -> c_state rp = RC_DONE ->
      num_drc_entries nn' <= max_drc_entries nn' /\ now' < c_timestamp rp + RC_EXPIRE.
Proof.
  intros O Hn Hn0 Hi Hct Kk Hno. set (k := request_key rq) in *.
  destruct (drc_ok_get _ _ _ _ (k_xid k) O) as (b & Hb & Eg). change (ReplyCacheInv.hash_of hash_32 nn) with (hash_of nn) in *.
  assert ((hash_of nn (k_xid k) < length (drc_hashtbl nn))%nat) as Hh by apply (ok_table _ _ _ _ O).
  pose proof (ok_bucket _ _ _ _ O _ _ Hb) as [T Lr Hhash _ _].
  destruct (by_key_split (drc_heap nn) (in_order (rb_head b)) k Kk T) as (l1 & o & l2 & E & Ho & H1 & H2).
  destruct o as [j|]. { exfalso. destruct (Ho j eq_refl) as (rp & Er & Ekr & _). by apply (Hno j rp). }
  set (rp := nfsd_reply_cache_alloc (rq <| rq_cacherep := None |>) (nfsd_cache_csum csum_partial (rq <| rq_cacherep := None |>))).
  assert (c_key rp = k) as Er by (unfold rp; by rewrite csum_cacherep).
  pose proof (lookup_walk now nn id rp k l1 None l2 O Hi Kk) as W. rewrite Eg in W. specialize (W E Ho H1 H2). cbn [option_list app] in E.
  unfold nfsd_cache_lookup. rewrite (proj2 (Z.eqb_neq (rq_cachetype (rq <| rq_cacherep := None |>)) RC_NOCACHE)) by done.
  fold rp. rewrite Er. change (nfsd_cache_hash hash_32 (rq_xid rq) nn) with (hash_of nn (k_xid k)).
  change (hash_of nn (rq_xid rq)) with (hash_of nn (k_xid k)). set (h := hash_of nn (k_xid k)) in *.
  unfold nfsd_cache_insert. replace (get_bucket (set_rep id rp nn) h) with b by (by rewrite <- Eg).
  destruct (rb_walk _ (rb_head b) 0) as [[place found] seen]. cbn [fst] in W. injection W as -> ->. cbv beta iota zeta.
  rewrite E, take_app_length, drop_app_length.
  set (t := rb_shape (rb_head b) (l1 ++ id :: l2)). match goal with |- context [tally_chain _ ?n] => set (nn1 := n) end.
  destruct (tally_fields (Z.of_nat (length seen)) nn1) as (T1 & T2 & T3 & T4 & T5 & T6). set (nn2 := tally_chain (Z.of_nat (length seen)) nn1) in *.
  assert (drc_heap nn2 = <[id := rp]> (drc_heap nn)) as Hp2 by (by rewrite T2).
  assert (get_bucket nn2 h = mk_bucket t (lru_head b)) as Eg2.
  { unfold get_bucket. rewrite T1. cbn. by rewrite list_lookup_total_insert_eq. }
  assert (id ∉ lru_head b) as Nl. { rewrite Lr. intros Hin. destruct (Hhash id Hin) as (? & ? & _). congruence. }
  unfold lru_put_end. rewrite Hp2, lookup_insert_eq, Eg2. change (lru_head (mk_bucket t (lru_head b))) with (lru_head b). rewrite (without_other id _ Nl), Nat.eqb_refl. cbn [negb]. set (nn3 := set_bucket h _ _).
  assert (drc_heap nn3 !! id = Some (rp <| c_timestamp := now' |>)) as -> by (cbn; by rewrite lookup_insert_eq).
  match goal with |- context [prune_bucket _ _ _ _ ?n] => set (nn4 := n) end.
  assert (drc_heap nn4 = <[id := new_entry now' rq]> (drc_heap nn)) as Hp4.
  { cbn. rewrite Hp2, !insert_insert_eq. unfold new_entry. fold k. by rewrite <- Er. }
  assert (hash_of nn4 = hash_of nn) as Eh4 by (unfold hash_of, ReplyCacheInv.hash_of, nfsd_cache_hash; cbn; by rewrite T3).
  assert (drc_ok now' nn4) as O4.
  { eapply (drc_ok_add hash_32 REP_SIZE now now' nn nn4 id (new_entry now' rq) t l1 l2); try done; change (ReplyCacheInv.hash_of hash_32 nn) with (hash_of nn); cbn [c_key new_entry]; fold k h;
      rewrite ?Eg; try done; [lia|by apply rb_shape_in_order| | | |].
    - cbn. rewrite T1. cbn. by rewrite list_insert_insert_eq.
    - split; [done|]. by left.
    - cbn. by rewrite T4.
    - cbn. rewrite T6. cbn. lia. }
  destruct (prune_bucket HZ REP_SIZE now' h nn4) as [nn' n] eqn:Ep.
  assert ((h < length (drc_hashtbl nn4))%nat) as Hh4 by (cbn; rewrite T1; cbn; by rewrite !length_insert).
  destruct (prune_bucket_spec now' h nn4 nn' n O4 Hn0 Hh4 Ep) as (Pr & _ & Co).
  exists nn4, nn'. cbn [fst]. split; [done|]. split; [done|]. split; [done|]. split; [cbn; by rewrite T4|]. split; [cbn; by rewrite T5|].
  split; [done|]. split; [done|]. intros i r Hr Hhr. apply (Co i r Hr). by rewrite Eh4.
Qed.

(** ** Update *)

(** What is kept of a reply, if anything. *)
Definition kept (no_mem : bool) (res : list byte) (cachetype : Z) (statp : option Z) : option cached :=
  match statp with
  | None => None
  | Some off =>
      let words := (zlen res - off) / 4 in
      if 64 <? words then None
      else if cachetype =? RC_REPLSTAT then Some (U_status (ztake 4 (zdrop off res)))
      else if cachetype =? RC_REPLBUFF then if no_mem then None else Some (U_vec (ztake (4 * words) (zdrop off res)))
      else None
  end.

(** A finished request gives its entry up or leaves the reply in it. *)
Lemma cache_update_spec now now' no_mem rq cachetype statp nn id rp :
  drc_ok now nn -> now <= now' -> 0 <= now' -> rq_cacherep rq = Some id -> drc_heap nn !! id = Some rp -> c_state rp = RC_INPROG ->
  cachetype = RC_NOCACHE \/ cachetype = RC_REPLSTAT \/ cachetype = RC_REPLBUFF -> (forall off, statp = Some off -> 0 <= off <= zlen (rq_res rq)) ->
  exists nn', nfsd_cache_update hash_32 REP_SIZE now' no_mem rq cachetype statp nn = nn' /\ drc_ok now' nn' /\ hash_of nn' = hash_of nn /\
    max_drc_entries nn' = max_drc_entries nn /\
    match kept no_mem (rq_res rq) cachetype statp with
    | None => drc_heap nn' = delete id (drc_heap nn) /\ num_drc_entries nn' = num_drc_entries nn - 1
    | Some u => drc_heap nn' = <[id := mk_rep (c_key rp) RC_DONE cachetype (rq_secure rq) now' u]> (drc_heap nn) /\ num_drc_entries nn' = num_drc_entries nn
    end.
Proof.
  intros O Hn Hn0 Hc Hi Es Hct Hoff. eexists. split; [done|]. unfold nfsd_cache_update. rewrite Hc, Hi.
  change (nfsd_cache_hash hash_32 (k_xid (c_key rp)) nn) with (hash_of nn (k_xid (c_key rp))).
  destruct (ok_entry _ _ _ _ O id rp Hi) as [R Hin].
  assert (c_type rp = RC_NOCACHE) as Ety by (destruct R as [_ [[_ ?]|[E _]]]; [done|by rewrite Es in E]).
  destruct (drc_ok_get _ _ _ _ (k_xid (c_key rp)) O) as (b & Hb & Eg). change (ReplyCacheInv.hash_of hash_32 nn) with (hash_of nn) in *.
  pose proof (free_spec hash_32 REP_SIZE now nn id rp O Hi) as (Of & Hf1 & _ & Hf3 & Hf4 & Hf5 & _).
  change (ReplyCacheInv.hash_of hash_32 nn) with (hash_of nn) in *. set (h := hash_of nn (k_xid (c_key rp))) in *.
  assert (rep_bytes rp = 0) as Rb by (unfold rep_bytes; rewrite Ety; by destruct (c_u rp)).
  assert (forall u n : _, let rp' := mk_rep (c_key rp) RC_DONE cachetype (rq_secure rq) now' u in
    rep_ok rp' -> n = rep_bytes rp' ->
    let nn1 := lru_put_end now' h id ((set_rep id (rp <| c_u := u |>) nn) <| drc_mem_usage := drc_mem_usage (set_rep id (rp <| c_u := u |>) nn) + n |>) in
    let nn' := match drc_heap nn1 !! id with
               | Some rp => set_rep id (rp <| c_secure := rq_secure rq |> <| c_type := cachetype |> <| c_state := RC_DONE |>) nn1 | None => nn1 end in
    drc_ok now' nn' /\ hash_of nn' = hash_of nn /\ max_drc_entries nn' = max_drc_entries nn /\
    drc_heap nn' = <[id := rp']> (drc_heap nn) /\ num_drc_entries nn' = num_drc_entries nn) as Done.
  { intros u n rp' R' ->. cbv zeta. unfold lru_put_end. cbn [drc_heap field_upd set_rep]. change (drc_heap (_ <| drc_mem_usage := _ |>)) with (<[id := rp <| c_u := u |>]> (drc_heap nn)).
    rewrite lookup_insert_eq. match goal with |- context [drc_heap (set_bucket h ?b' ?n)] => set (nn2 := set_bucket h b' n) end.
    assert (drc_heap nn2 = <[id := rp <| c_u := u |> <| c_timestamp := now' |>]> (<[id := rp <| c_u := u |>]> (drc_heap nn))) as Hp2 by done.
    rewrite Hp2, lookup_insert_eq. set (nn3 := set_rep id _ nn2).
    assert (drc_heap nn3 = <[id := rp']> (drc_heap nn)) as Hp3 by (cbn; by rewrite !insert_insert_eq).
    split_and!; try done. eapply (ok_touch hash_32 REP_SIZE now now' nn nn3 id rp rp'); try done.
    change (drc_mem_usage nn + rep_bytes rp' = drc_mem_usage nn - rep_bytes rp + rep_bytes rp'). rewrite Rb. lia. }
  assert (key_ok (c_key rp)) as Kk by apply R.
  unfold kept. cbv beta iota zeta. destruct statp as [off|]; [|split_and!; try done; by apply (drc_later _ _ now)].
  change (Z.shiftr 256 2) with 64. rewrite (Z.shiftr_div_pow2 (zlen (rq_res rq) - off) 2), Z.shiftl_mul_pow2 by lia. change (2 ^ 2) with 4.
  specialize (Hoff off eq_refl). set (words := (zlen (rq_res rq) - off) / 4).
  assert (0 <= words) as Hw by (apply Z.div_pos; lia).
  destruct (Z.ltb_spec 64 words) as [Lw|Gw]; [split_and!; try done; by apply (drc_later _ _ now)|].
  destruct Hct as [E|[E|E]]; rewrite E in *;
    change (RC_NOCACHE =? RC_REPLSTAT) with false; change (RC_NOCACHE =? RC_REPLBUFF) with false; change (RC_NOCACHE =? RC_NOCACHE) with true;
    change (RC_REPLSTAT =? RC_REPLSTAT) with true; change (RC_REPLBUFF =? RC_REPLSTAT) with false; change (RC_REPLBUFF =? RC_REPLBUFF) with true; cbv beta iota zeta.
  - split_and!; try done; by apply (drc_later _ _ now).
  - apply Done; [|done]. split; [done|]. right. split; [done|]. left. split; [done|]. by eexists.
  - destruct no_mem; [split_and!; try done; by apply (drc_later _ _ now)|].
    replace (4 * words) with (words * 4) by lia. assert (zlen (ztake (words * 4) (zdrop off (rq_res rq))) = words * 4) as Ez.
    { unfold words in *. unfold zlen, ztake, zdrop in *. rewrite length_take, length_drop. pose proof (Z.mul_div_le (Z.of_nat (length (rq_res rq)) - off) 4 ltac:(lia)). lia. }
    apply Done.
    + split; [done|]. right. split; [done|]. right. split; [done|]. eexists. split; [done|]. rewrite Ez. lia.
    + unfold rep_bytes. cbn. by rewrite Ez.
Qed.
End Operations.
