(* ===== verification/ReplyCacheTheorems.v ===== *)
(** * The duplicate request cache at work

    A server whose threads run requests through [nfsd_dispatch] while the shrinker
    prunes the cache, as a transition system with a log of what happened to each key.
    The log follows the life of an entry: run, dropped while running, kept, answered
    from the cache, gone.  Retransmissions get the reply of the first run. *)

From S2P Require Import Prelude RbTree Xdr XdrBuf WaitQueue RpcMsg ReplyCache ReplyCacheInv ReplyCacheOps.
From stdpp Require Import list gmap sorting.
#[local] Open Scope Z_scope.

Lemma csum_ext csum rq rq' : rq_mem rq = rq_mem rq' -> rq_arg rq = rq_arg rq' -> nfsd_cache_csum csum rq = nfsd_cache_csum csum rq'.
Proof. intros E1 E2. unfold nfsd_cache_csum. by rewrite E1, E2. Qed.

#[local] Opaque nfsd_cache_csum.

(** ** The life of an entry *)

Inductive event := E_run (k : drc_key) | E_drop (k : drc_key) | E_keep (k : drc_key) (b : list byte) | E_reply (k : drc_key) (b : list byte)
  | E_gone (k : drc_key) | E_bare (k : drc_key).
Inductive phase := Busy | Held (b : list byte).

#[export] Instance sockaddr_eq_dec : EqDecision sockaddr.
Proof. solve_decision. Defined.
#[export] Instance drc_key_eq_dec : EqDecision drc_key.
Proof. solve_decision. Defined.

(** What the cache has for a key after a log, newest event first. *)
Fixpoint status (l : list event) (k : drc_key) : option phase :=
  match l with
  | [] => None
  | E_run k' :: l => if decide (k = k') then Some Busy else status l k
  | E_keep k' b :: l => if decide (k = k') then Some (Held b) else status l k
  | E_gone k' :: l => if decide (k = k') then None else status l k
  | _ :: l => status l k
  end.

(** A call is run for a key only when the cache has nothing for it; a duplicate is
    dropped only while the first is running, and answered only with the reply kept.
    [E_bare] is a run without an entry. *)
Fixpoint legal (l : list event) : Prop :=
  match l with
  | [] => True
  | e :: l =>
      legal l /\
      match e with
      | E_run k => status l k = None
      | E_drop k => status l k = Some Busy
      | E_keep k _ => status l k = Some Busy
      | E_reply k b => status l k = Some (Held b)
      | E_gone k => status l k <> None
      | E_bare _ => True
      end
  end.

(** Entries that left. *)
Definition lost (m m' : gmap nat svc_cacherep) : list drc_key := (fun p => c_key (snd p)) <$> map_to_list (m ∖ m').
Definition gone (m m' : gmap nat svc_cacherep) : list event := E_gone <$> lost m m'.

Lemma status_gone ks l k : status ((E_gone <$> ks) ++ l) k = if decide (k ∈ ks) then None else status l k.
Proof.
  induction ks as [|k' ks IH]; [done|]. rewrite fmap_cons. cbn [app status]. rewrite IH. destruct (decide (k = k')) as [->|N].
  - by rewrite decide_True by (by left).
  - destruct (decide (k ∈ ks)); [by rewrite decide_True by (by right)|]. by rewrite decide_False by (by intros [?|?]%elem_of_cons).
Qed.

Lemma legal_gone ks l : NoDup ks -> (forall k, k ∈ ks -> status l k <> None) -> legal l -> legal ((E_gone <$> ks) ++ l).
Proof.
  induction ks as [|k ks IH]; [done|]. rewrite fmap_cons. cbn [app legal]. intros [Nk Nd]%NoDup_cons S L. split; [apply IH; [done| |done]; intros k' Hk; apply S; by right|].
  rewrite status_gone, decide_False by done. apply S. by left.
Qed.

Lemma elem_of_lost m m' k : k ∈ lost m m' <-> exists i rp, m !! i = Some rp /\ m' !! i = None /\ c_key rp = k.
Proof.
  unfold lost. rewrite list_elem_of_fmap. split.
  - intros ([i rp] & -> & Hin%elem_of_map_to_list). apply lookup_difference_Some in Hin as [? ?]. by exists i, rp.
  - intros (i & rp & E & E' & <-). exists (i, rp). split; [done|]. apply elem_of_map_to_list, lookup_difference_Some. done.
Qed.

Lemma lost_nodup m m' : (forall i j rp rp', m !! i = Some rp -> m !! j = Some rp' -> c_key rp = c_key rp' -> i = j) -> NoDup (lost m m').
Proof.
  intros U. unfold lost. apply NoDup_fmap_2_strong; [|apply NoDup_map_to_list].
  intros [i rp] [j rp'] [Hi _]%elem_of_map_to_list%lookup_difference_Some [Hj _]%elem_of_map_to_list%lookup_difference_Some E. simpl in *.
  pose proof (U i j rp rp' Hi Hj E) as <-. by rewrite Hi in Hj; injection Hj as ->.
Qed.

(** What the entries show. *)
Definition reply_of (rp : svc_cacherep) : list byte := match c_u rp with U_vec d => d | U_status w => w | U_none => [] end.
Definition phase_of (rp : svc_cacherep) : phase := if c_state rp =? RC_INPROG then Busy else Held (reply_of rp).
Definition shows (m : gmap nat svc_cacherep) (k : drc_key) (p : phase) : Prop := exists i rp, m !! i = Some rp /\ c_key rp = k /\ phase_of rp = p.
Definition tracks (l : list event) (m : gmap nat svc_cacherep) : Prop := forall k p, status l k = Some p <-> shows m k p.

Lemma tracks_none l m k : tracks l m -> (forall i rp, m !! i = Some rp -> c_key rp <> k) -> status l k = None.
Proof. intros T N. destruct (status l k) eqn:E; [|done]. apply T in E as (i & rp & Hi & Ek & _). by destruct (N i rp). Qed.

Section Server.
Context `{RbShape nat}.
Context (hash_32 : Z -> Z -> nat) (csum_partial : list byte -> Z -> Z) (HZ REP_SIZE : Z) (HZ_ok : 0 < HZ < 2 ^ 40).
Context (hash_bound : forall x bits, 0 <= bits -> Z.of_nat (hash_32 x bits) < 2 ^ bits).
Context {fs : Type}.

Let drc_ok := drc_ok hash_32 REP_SIZE.
Let hash_of := hash_of hash_32.
Let request_key := request_key csum_partial.
Let pruned := pruned hash_32 HZ REP_SIZE.

Lemma tracks_pruned now l m nn nn' :
  drc_ok now nn -> m = drc_heap nn -> pruned now nn nn' -> tracks l m -> legal l ->
  tracks (gone m (drc_heap nn') ++ l) (drc_heap nn') /\ legal (gone m (drc_heap nn') ++ l).
Proof.
  intros O -> P T L. assert (forall i j rp rp', drc_heap nn !! i = Some rp -> drc_heap nn !! j = Some rp' -> c_key rp = c_key rp' -> i = j) as U.
  { intros i j rp rp'. by apply (one_entry hash_32 REP_SIZE now). }
  split.
  - intros k p. unfold gone. rewrite status_gone. destruct (decide (k ∈ lost (drc_heap nn) (drc_heap nn'))) as [Hk|Hk].
    + split; [done|]. intros (i & rp & Hi & Ek & _). exfalso. apply elem_of_lost in Hk as (j & rp' & Hj & Hj' & Ek').
      apply (pr_sub _ _ _ _ _ _ P) in Hi as Hi'. rewrite (U i j rp rp') in Hi by (done || congruence). congruence.
    + rewrite (T k p). split; intros (i & rp & Hi & Ek & Ep); exists i, rp; split_and!; try done; [|by apply (pr_sub _ _ _ _ _ _ P)].
      destruct (drc_heap nn' !! i) as [r|] eqn:E; [apply (pr_sub _ _ _ _ _ _ P) in E; congruence|]. destruct Hk. apply elem_of_lost. by exists i, rp.
  - apply legal_gone; [by apply lost_nodup| |done]. intros k (i & rp & Hi & _ & Ek)%elem_of_lost E. assert (status l k = Some (phase_of rp)) as E' by (apply T; by exists i, rp). congruence.
Qed.

(** ** The server *)

(** [w_running]: the threads between lookup and update, each with its request and
    procedure. *)
Record drc_world := mk_world {
  w_net : drc_net;
  w_fs : fs;
  w_now : Z;
  w_running : gmap nat (drc_rqst * svc_procedure fs);
  w_log : list event;
}.

Definition cacheable (ct : Z) : Prop := ct = RC_NOCACHE \/ ct = RC_REPLSTAT \/ ct = RC_REPLBUFF.

Definition start_event (rq : drc_rqst) (rtn : Z) (rq' : drc_rqst) : event :=
  let k := request_key rq in
  if rtn =? RC_DOIT then match rq_cacherep rq' with Some _ => E_run k | None => E_bare k end
  else if rtn =? RC_REPLY then E_reply k (drop (length (rq_res rq)) (rq_res rq'))
  else E_drop k.

Definition finish_events (rq : drc_rqst) (nn : drc_net) : list event :=
  match rq_cacherep rq with
  | None => []
  | Some id => match drc_heap nn !! id with Some rp => [E_keep (request_key rq) (reply_of rp)] | None => [E_gone (request_key rq)] end
  end.

Inductive w_step : drc_world -> drc_world -> Prop :=
| W_start w r rq proc new now rtn rq' nn :
    w_running w !! r = None -> w_now w <= now < 2 ^ 61 -> (forall id, new = Some id -> drc_heap (w_net w) !! id = None) ->
    key_ok (request_key rq) -> 4 <= zlen (rq_res rq) -> (forall ct, pc_decode proc rq = Some ct -> cacheable ct) ->
    dispatch_start hash_32 csum_partial HZ REP_SIZE now new proc rq (w_net w) = Some (rtn, rq', nn) ->
    w_step w (mk_world nn (w_fs w) now (if rtn =? RC_DOIT then <[r := (rq', proc)]> (w_running w) else w_running w)
                (gone (drc_heap (w_net w)) (drc_heap nn) ++ start_event rq rtn rq' :: w_log w))
| W_finish w r rq proc no_mem now ret stat rq' nn s :
    w_running w !! r = Some (rq, proc) -> w_now w <= now < 2 ^ 61 ->
    dispatch_finish hash_32 REP_SIZE now no_mem proc rq (w_net w) (w_fs w) = (ret, stat, rq', nn, s) ->
    w_step w (mk_world nn s now (delete r (w_running w)) (finish_events rq nn ++ w_log w))
| W_scan w now nn n :
    w_now w <= now < 2 ^ 61 -> nfsd_reply_cache_scan HZ REP_SIZE now (w_net w) = (nn, n) ->
    w_step w (mk_world nn (w_fs w) now (w_running w) (gone (drc_heap (w_net w)) (drc_heap nn) ++ w_log w)).

(** A new cache, no request running. *)
Definition w_init (w : drc_world) : Prop :=
  (exists low_pages, nfsd_reply_cache_init false low_pages = Ok (w_net w)) /\ 0 <= w_now w < 2 ^ 61 /\ w_running w = ∅ /\ w_log w = [].

Record running_ok (m : gmap nat svc_cacherep) (rq : drc_rqst) (id : nat) : Prop := {
  ru_entry : exists rp, m !! id = Some rp /\ c_state rp = RC_INPROG /\ c_key rp = request_key rq;
}.

Record w_ok (w : drc_world) : Prop := {
  wo_net : drc_ok (w_now w) (w_net w);
  wo_now : 0 <= w_now w < 2 ^ 61;
  wo_rq : forall r rq proc, w_running w !! r = Some (rq, proc) -> 4 <= zlen (rq_res rq) /\ cacheable (rq_cachetype rq);
  wo_entry : forall r rq proc id, w_running w !! r = Some (rq, proc) -> rq_cacherep rq = Some id -> running_ok (drc_heap (w_net w)) rq id;
  wo_owner : forall id rp, drc_heap (w_net w) !! id = Some rp -> c_state rp = RC_INPROG ->
    exists r rq proc, w_running w !! r = Some (rq, proc) /\ rq_cacherep rq = Some id;
  wo_one : forall r1 r2 rq1 rq2 p1 p2 id, w_running w !! r1 = Some (rq1, p1) -> w_running w !! r2 = Some (rq2, p2) ->
    rq_cacherep rq1 = Some id -> rq_cacherep rq2 = Some id -> r1 = r2;
  wo_tracks : tracks (w_log w) (drc_heap (w_net w));
  wo_legal : legal (w_log w);
}.

Lemma cache_init_ok now low_pages nn : nfsd_reply_cache_init false low_pages = Ok nn -> drc_ok now nn /\ drc_heap nn = ∅.
Proof.
  unfold nfsd_reply_cache_init. intros [= <-]. split; [|done]. split; cbn; try done.
  - intros xid. unfold hash_of, nfsd_cache_hash. cbn. rewrite length_replicate. unfold nfsd_hashsize.
    set (n := Z.log2_up _). pose proof (Z.log2_up_nonneg (nfsd_cache_size_limit low_pages / TARGET_BUCKET_SIZE)) as Hp. fold n in Hp.
    rewrite Z.log2_pow2 by done. apply Nat2Z.inj_lt. rewrite Z2Nat.id by (apply Z.pow_nonneg; lia). by apply hash_bound.
  - intros h b [-> _]%lookup_replicate_1. split; cbn; [by split; constructor|done|by intros i ?%elem_of_nil|constructor|constructor].
Qed.

Lemma w_init_ok w : w_init w -> w_ok w.
Proof.
  intros ((low_pages & En) & Hn & Er & El). destruct (cache_init_ok (w_now w) low_pages (w_net w) En) as [O Eh]. split; rewrite ?Eh, ?Er, ?El; try done.
  intros k p. split; [done|]. by intros (i & rp & Hi & _).
Qed.

Lemma pruned_busy now nn nn' i rp : pruned now nn nn' -> drc_heap nn !! i = Some rp -> c_state rp = RC_INPROG -> drc_heap nn' !! i = Some rp.
Proof.
  intros P Hi Es. destruct (drc_heap nn' !! i) as [r|] eqn:E; [apply (pr_sub _ _ _ _ _ _ P) in E; congruence|].
  destruct (pr_gone _ _ _ _ _ _ P i rp Hi E) as [D _]. by rewrite Es in D.
Qed.

Lemma scan_ok w now nn n : w_ok w -> w_now w <= now < 2 ^ 61 -> nfsd_reply_cache_scan HZ REP_SIZE now (w_net w) = (nn, n) ->
  w_ok (mk_world nn (w_fs w) now (w_running w) (gone (drc_heap (w_net w)) (drc_heap nn) ++ w_log w)).
Proof.
  intros [O Hn Q E Ow One T L] Hnow Es. pose proof (drc_later _ _ (w_now w) now _ ltac:(lia) O) as O'.
  destruct (prune_fold_spec hash_32 HZ REP_SIZE HZ_ok now (seq 0 (length (drc_hashtbl (w_net w)))) (w_net w) 0 nn n O') as (P & _); [lia| |done|].
  { apply Forall_forall. intros h [_ ?]%elem_of_seq. lia. }
  destruct (tracks_pruned now (w_log w) _ (w_net w) nn O' eq_refl P T L) as [T' L'].
  split; cbn; try done; [apply P|lia| |].
  - intros r rq proc id Hr Hc. destruct (E r rq proc id Hr Hc) as [(rp & Hi & Eb & Ek)]. split. exists rp. split_and!; try done. by apply (pruned_busy now (w_net w)).
  - intros id rp Hi Eb. apply (pr_sub _ _ _ _ _ _ P) in Hi. by apply (Ow id rp).
Qed.

(** The key of a request does not depend on its reply or on its place in the cache. *)
Lemma request_key_ext rq rq' :
  rq_xid rq = rq_xid rq' -> rq_proc rq = rq_proc rq' -> rq_prot rq = rq_prot rq' -> rq_vers rq = rq_vers rq' -> rq_addr rq = rq_addr rq' ->
  rq_mem rq = rq_mem rq' -> rq_arg rq = rq_arg rq' -> request_key rq = request_key rq'.
Proof.
  intros E1 E2 E3 E4 E5 E6 E7. unfold request_key, ReplyCacheOps.request_key.
  assert (nfsd_cache_csum csum_partial rq = nfsd_cache_csum csum_partial rq') as -> by (by apply csum_ext).
  unfold nfsd_reply_cache_alloc. cbn [c_key]. by rewrite E1, E2, E3, E4, E5, E7.
Qed.

Lemma gone_none m m' : (forall i, m' !! i = None -> m !! i = None) -> gone m m' = [].
Proof.
  intros X. unfold gone, lost. replace (m ∖ m') with (∅ : gmap nat svc_cacherep); [by rewrite map_to_list_empty|].
  symmetry. apply map_empty. intros i. apply lookup_difference_None. destruct (m' !! i) eqn:E; [right; by eexists|left; by apply X].
Qed.

(** What a request seen before gets, by the phase of its entry. *)
Lemma found_event rq rp rtn rq' :
  rep_ok rp -> found_entry rq rp = (rtn, rq') -> rq_cacherep rq = None ->
  rq_cacherep rq' = None /\ rq_cachetype rq' = rq_cachetype rq /\ zlen (rq_res rq) <= zlen (rq_res rq') /\
  (rtn = RC_DROPIT /\ phase_of rp = Busy \/ rtn = RC_DOIT \/ rtn = RC_REPLY /\ phase_of rp = Held (drop (length (rq_res rq)) (rq_res rq'))).
Proof.
  intros R E Ec. unfold found_entry in E. unfold phase_of.
  assert (forall b, drop (length (rq_res rq)) (rq_res rq ++ b) = b) as Dr by (intros b; by rewrite drop_app_length).
  assert (forall b : list byte, zlen (rq_res rq) <= zlen (rq_res rq ++ b)) as Zl by (intros b; unfold zlen; rewrite length_app; lia).
  destruct R as [_ [[Es Et]|[Es D]]]; rewrite Es in *; cbn in E |- *.
  - injection E as <- <-. split_and!; try done. by left.
  - destruct (negb (rq_secure rq) && c_secure rp); [injection E as <- <-; split_and!; try done; by right; left|].
    unfold reply_of. destruct D as [[Et [w Eu]]|[Et [d [Eu _]]]]; rewrite Et, Eu in *; cbn in E.
    + injection E as <- <-. split_and!; try done; [apply Zl|]. right. right. split; [done|]. change (Held w = Held (drop (length (rq_res rq)) (rq_res rq ++ w))). by rewrite Dr.
    + unfold nfsd_cache_append in E. destruct (PAGE_SIZE <? _); injection E as <- <-; split_and!; try done; [by right; left|apply Zl|].
      right. right. split; [done|]. change (Held d = Held (drop (length (rq_res rq)) (rq_res rq ++ d))). by rewrite Dr.
Qed.

(** A request that does not get an entry of its own. *)
Lemma start_other w r (rq rq' : drc_rqst) proc now nn rtn :
  w_ok w -> w_running w !! r = None -> w_now w <= now < 2 ^ 61 -> drc_ok now nn ->
  (forall k p, shows (drc_heap nn) k p <-> shows (drc_heap (w_net w)) k p) ->
  (forall i, drc_heap nn !! i = None <-> drc_heap (w_net w) !! i = None) ->
  (forall i rp, drc_heap nn !! i = Some rp -> exists rp0, drc_heap (w_net w) !! i = Some rp0 /\ c_state rp = c_state rp0 /\ c_key rp = c_key rp0) ->
  rq_cacherep rq' = None -> 4 <= zlen (rq_res rq') -> cacheable (rq_cachetype rq') ->
  (rtn = RC_DROPIT /\ shows (drc_heap (w_net w)) (request_key rq) Busy \/ rtn = RC_DOIT \/
   rtn = RC_REPLY /\ shows (drc_heap (w_net w)) (request_key rq) (Held (drop (length (rq_res rq)) (rq_res rq')))) ->
  w_ok (mk_world nn (w_fs w) now (if rtn =? RC_DOIT then <[r := (rq', proc)]> (w_running w) else w_running w)
          (gone (drc_heap (w_net w)) (drc_heap nn) ++ start_event rq rtn rq' :: w_log w)).
Proof.
  intros [O Hn Q E Ow One T L] Hr Hnow O' Sh Dom Same Hc Hl Hct D. rewrite gone_none by (intros i; apply Dom). cbn [app].
  assert (tracks (start_event rq rtn rq' :: w_log w) (drc_heap nn) /\ legal (start_event rq rtn rq' :: w_log w)) as [T' L'].
  { unfold start_event. rewrite Hc.
    destruct D as [[-> S]|[->|[-> S]]]; cbn [Z.eqb RC_DROPIT RC_REPLY RC_DOIT Pos.eqb]; (split; [intros k p; cbn; rewrite Sh; apply T|split; [done|]]); try done; by apply T. }
  assert (forall x y, (if rtn =? RC_DOIT then <[r := (rq', proc)]> (w_running w) else w_running w) !! x = Some y -> y = (rq', proc) \/ w_running w !! x = Some y) as Ru.
  { intros x y. destruct (rtn =? RC_DOIT); [|by right]. intros [[_ <-]|[_ ?]]%lookup_insert_Some; [by left|by right]. }
  split; cbn; try done; [lia| | | |].
  - intros x rq1 p1 [Ey|Hx]%Ru; [|by apply (Q x rq1 p1)]. by injection Ey as -> ->.
  - intros x rq1 p1 id [Ey|Hx]%Ru Hid; [injection Ey as -> ->; congruence|]. destruct (E x rq1 p1 id Hx Hid) as [(rp & Hi & Eb & Ek)]. split.
    destruct (drc_heap nn !! id) as [rp'|] eqn:Ei; [|apply Dom in Ei; congruence]. destruct (Same id rp' Ei) as (rp0 & H0 & Es & Ekk). rewrite Hi in H0. injection H0 as <-.
    exists rp'. split_and!; congruence.
  - intros id rp Hi Eb. destruct (Same id rp Hi) as (rp0 & H0 & Es & _). destruct (Ow id rp0 H0) as (x & rq1 & p1 & Hx & Hid); [congruence|]. exists x, rq1, p1. split; [|done].
    destruct (rtn =? RC_DOIT); [|done]. rewrite lookup_insert_ne; [done|]. congruence.
  - intros x1 x2 rq1 rq2 p1 p2 id [Ey|H1]%Ru [Ey2|H2]%Ru I1 I2; try (injection Ey as -> ->; congruence); try (injection Ey2 as -> ->; congruence). by apply (One x1 x2 rq1 rq2 p1 p2 id).
Qed.

Lemma start_ok w r rq proc new now rtn rq' nn :
  w_ok w -> w_running w !! r = None -> w_now w <= now < 2 ^ 61 -> (forall id, new = Some id -> drc_heap (w_net w) !! id = None) ->
  key_ok (request_key rq) -> 4 <= zlen (rq_res rq) -> (forall ct, pc_decode proc rq = Some ct -> cacheable ct) ->
  dispatch_start hash_32 csum_partial HZ REP_SIZE now new proc rq (w_net w) = Some (rtn, rq', nn) ->
  w_ok (mk_world nn (w_fs w) now (if rtn =? RC_DOIT then <[r := (rq', proc)]> (w_running w) else w_running w)
          (gone (drc_heap (w_net w)) (drc_heap nn) ++ start_event rq rtn rq' :: w_log w)).
Proof.
  intros W Hr Hnow Hnew Kk Hl Hct E. unfold dispatch_start in E. destruct (pc_decode proc rq) as [ct|]; [|done]. specialize (Hct ct eq_refl). injection E as E.
  pose proof W as [O Hn Q En Ow One T L]. set (rq1 := rq <| rq_cachetype := ct |>) in *. pose proof (drc_later _ _ (w_now w) now _ ltac:(lia) O) as O'.
  assert (ReplyCacheOps.request_key csum_partial rq1 = request_key rq) as Ek by (by apply request_key_ext).
  destruct (decide (ct = RC_NOCACHE)) as [E0|E0], new as [id|].
  1,2,4: assert ((RC_DOIT, rq1 <| rq_cacherep := None |>, w_net w) = (rtn, rq', nn)) as Eq
    by (rewrite <- E; unfold nfsd_cache_lookup; change (rq_cachetype (rq1 <| rq_cacherep := None |>)) with ct;
        first [by rewrite E0, Z.eqb_refl | by rewrite (proj2 (Z.eqb_neq _ _))]);
    injection Eq as <- <- <-; apply start_other; try done; [by intros i rp Hi; exists rp|by right; left].
  assert (status (w_log w) (request_key rq) = None \/ exists id0 rp0, drc_heap (w_net w) !! id0 = Some rp0 /\ c_key rp0 = request_key rq) as [Hno|(id0 & rp0 & H0 & Ek0)].
  { destruct (status (w_log w) (request_key rq)) as [p|] eqn:Es; [|by left]. right. apply T in Es as (i & rp & ? & ? & _). by exists i, rp. }
  - assert (forall i rp, drc_heap (w_net w) !! i = Some rp -> c_key rp <> ReplyCacheOps.request_key csum_partial rq1) as Hk.
    { intros i rp Hi Ei. rewrite Ek in Ei. assert (status (w_log w) (request_key rq) = Some (phase_of rp)); [apply T; by exists i, rp|congruence]. }
    assert (key_ok (ReplyCacheOps.request_key csum_partial rq1)) as Kk1 by (rewrite Ek; exact Kk).
    destruct (lookup_miss hash_32 csum_partial HZ REP_SIZE HZ_ok (w_now w) now (w_net w) id rq1 O ltac:(lia) ltac:(lia) (Hnew id eq_refl) E0 Kk1 Hk)
      as (nn1 & nn' & El & O1 & Hp1 & _ & _ & _ & P & _).
    rewrite E in El. injection El as -> -> <-. specialize (Hnew id eq_refl).
    assert (start_event rq RC_DOIT (rq1 <| rq_cacherep := Some id |>) = E_run (request_key rq)) as -> by done. rewrite Z.eqb_refl.
    assert (c_key (new_entry csum_partial now rq1) = request_key rq) as Ekn by done.
    assert (tracks (E_run (request_key rq) :: w_log w) (drc_heap nn1)) as T1.
    { intros k p. cbn [status]. rewrite Hp1. destruct (decide (k = request_key rq)) as [->|N].
      - split; [intros [= <-]; exists id, (new_entry csum_partial now rq1); by rewrite lookup_insert_eq|].
        intros (i & rp & [[<- <-]|[_ Hi]]%lookup_insert_Some & Eki & <-); [done|]. by destruct (Hk i rp); [done|rewrite Ek].
      - rewrite (T k p). split; intros (i & rp & Hi & Eki & Ep).
        + exists i, rp. split; [|done]. rewrite lookup_insert_ne; [done|]. congruence.
        + apply lookup_insert_Some in Hi as [[<- <-]|[_ Hi]]; [congruence|]. by exists i, rp. }
    destruct (tracks_pruned now _ _ nn1 nn O1 eq_refl P T1) as [T2 L2]; [by split|].
    assert (gone (drc_heap nn1) (drc_heap nn) = gone (drc_heap (w_net w)) (drc_heap nn)) as Eg.
    { unfold gone, lost. do 3 f_equal. apply map_eq. intros i. destruct (decide (i = id)) as [->|N].
      - assert (drc_heap nn !! id = Some (new_entry csum_partial now rq1)) as Hid by (apply (pruned_busy now nn1); [done|by rewrite Hp1, lookup_insert_eq|done]).
        rewrite !lookup_difference, Hid. done.
      - rewrite !lookup_difference, Hp1, lookup_insert_ne by done. done. }
    rewrite Eg in T2, L2. assert (forall i rp, drc_heap (w_net w) !! i = Some rp -> c_state rp = RC_INPROG -> drc_heap nn !! i = Some rp) as Bu.
    { intros i rp Hi Es. apply (pruned_busy now nn1); [done| |done]. rewrite Hp1, lookup_insert_ne; [done|]. congruence. }
    assert (drc_heap nn !! id = Some (new_entry csum_partial now rq1)) as Hid by (apply (pruned_busy now nn1); [done|by rewrite Hp1, lookup_insert_eq|done]).
    split; cbn; try done; [apply P|lia| | | |].
    + intros x rq2 p2 [[<- [= <- <-]]|[_ Hx]]%lookup_insert_Some; [split; [exact Hl|exact Hct]|exact (Q x rq2 p2 Hx)].
    + intros x rq2 p2 i [[<- [= <- <-]]|[_ Hx]]%lookup_insert_Some Hi.
      * injection Hi as <-. split. exists (new_entry csum_partial now rq1). split; [exact Hid|]. split; [done|]. rewrite Ekn. apply request_key_ext; reflexivity.
      * destruct (En x rq2 p2 i Hx Hi) as [(rp & Hrp & Eb & Ekk)]. split. exists rp. split_and!; try done. by apply Bu.
    + intros i rp Hi Eb. apply (pr_sub _ _ _ _ _ _ P) in Hi. rewrite Hp1 in Hi. apply lookup_insert_Some in Hi as [[<- _]|[_ Hi]].
      * exists r, (rq1 <| rq_cacherep := Some id |>), proc. by rewrite lookup_insert_eq.
      * destruct (Ow i rp Hi Eb) as (x & rq2 & p2 & Hx & Hc). exists x, rq2, p2. split; [|done]. rewrite lookup_insert_ne; [done|]. congruence.
    + assert (forall x rq2 p2, w_running w !! x = Some (rq2, p2) -> rq_cacherep rq2 <> Some id) as Nid.
      { intros x rq2 p2 Hx Hc. destruct (En x rq2 p2 id Hx Hc) as [(rp & Hrp & _)]. congruence. }
      intros x1 x2 rq2 rq3 p2 p3 i [[<- [= <- <-]]|[_ H1]]%lookup_insert_Some [[<- [= <- <-]]|[_ H2]]%lookup_insert_Some I1 I2; try done.
      * injection I1 as <-. by destruct (Nid x2 rq3 p3).
      * injection I2 as <-. by destruct (Nid x1 rq2 p2).
      * by apply (One x1 x2 rq2 rq3 p2 p3 i).
  - destruct (lookup_hit hash_32 csum_partial HZ REP_SIZE (w_now w) now (w_net w) id rq1 id0 rp0 O ltac:(lia) ltac:(lia) (Hnew id eq_refl) E0 H0
      (eq_trans Ek0 (eq_sym Ek))) as (nn' & El & O1 & Hp & _).
    rewrite E in El. destruct (found_entry _ rp0) as [rtn0 rq0] eqn:Ef. cbn [fst snd] in El. injection El as -> -> ->.
    destruct (ok_entry _ _ _ _ O id0 rp0 H0) as [R _]. destruct (found_event _ _ _ _ R Ef eq_refl) as (F1 & F2 & F3 & F4).
    assert (forall k p, shows (drc_heap nn') k p <-> shows (drc_heap (w_net w)) k p) as Sh.
    { intros k p. rewrite Hp. split; intros (i & rp & Hi & Eki & Ep).
      - apply lookup_insert_Some in Hi as [[<- <-]|[_ Hi]]; [by exists id0, rp0|by exists i, rp].
      - destruct (decide (i = id0)) as [->|N]; [rewrite H0 in Hi; injection Hi as <-; exists id0, (rp0 <| c_timestamp := now |>); by rewrite lookup_insert_eq|].
        exists i, rp. by rewrite lookup_insert_ne. }
    apply start_other; try done.
    + intros i. rewrite Hp. rewrite lookup_insert_None. split; [by intros [? _]|]. intros Hi. split; [done|]. congruence.
    + intros i rp. rewrite Hp. intros [[<- <-]|[_ Hi]]%lookup_insert_Some; [by exists rp0|by exists rp].
    + change (rq_res (rq1 <| rq_cacherep := None |>)) with (rq_res rq) in F3. lia.
    + rewrite F2. done.
    + destruct F4 as [[-> Ep]|[->|[-> Ep]]]; [left|by right; left|right; right]; (split; [done|]); exists id0, rp0; split_and!; done.
Qed.

(** The update at the end of a request, as a step of the server. *)
Lemma update_ok w r rq rq1 proc no_mem now ct statp s :
  w_ok w -> w_running w !! r = Some (rq, proc) -> w_now w <= now < 2 ^ 61 -> rq_cacherep rq1 = rq_cacherep rq -> cacheable ct ->
  (forall off, statp = Some off -> 0 <= off <= zlen (rq_res rq1)) ->
  let nn := nfsd_cache_update hash_32 REP_SIZE now no_mem rq1 ct statp (w_net w) in
  w_ok (mk_world nn s now (delete r (w_running w)) (finish_events rq nn ++ w_log w)).
Proof.
  intros [O Hn Q En Ow One T L] Hr Hnow Ec Hct Hoff nn. unfold finish_events.
  assert (forall x y, delete r (w_running w) !! x = Some y -> w_running w !! x = Some y) as Sub by (by intros x y [_ ?]%lookup_delete_Some).
  destruct (rq_cacherep rq) as [id|] eqn:Eid.
  2: { assert (nn = w_net w) as -> by (unfold nn, nfsd_cache_update; by rewrite Ec). cbn [app].
       split; cbn; [by apply (drc_later _ _ (w_now w)); [lia|]|lia| | | | |done|done].
       - intros x rq2 p2 Hx%Sub. by apply (Q x rq2 p2).
       - intros x rq2 p2 i Hx%Sub. by apply (En x rq2 p2 i).
       - intros i rp Hi Eb. destruct (Ow i rp Hi Eb) as (x & rq2 & p2 & Hx & Hc). exists x, rq2, p2. split; [|done]. rewrite lookup_delete_ne; [done|]. congruence.
       - intros x1 x2 rq2 rq3 p2 p3 i H1%Sub H2%Sub. by apply (One x1 x2 rq2 rq3 p2 p3 i). }
  destruct (En r rq proc id Hr Eid) as [(rp & Hi & Es & Ek)].
  destruct (cache_update_spec hash_32 HZ REP_SIZE (w_now w) now no_mem rq1 ct statp (w_net w) id rp O ltac:(lia) ltac:(lia) Ec Hi Es Hct Hoff) as (nn' & Eu & O' & _ & _ & D).
  fold nn in Eu. subst nn'.
  assert (status (w_log w) (request_key rq) = Some Busy) as Sb by (apply T; exists id, rp; split_and!; try done; unfold phase_of; by rewrite Es).
  assert (forall i rp', i <> id -> drc_heap (w_net w) !! i = Some rp' -> c_key rp' <> request_key rq) as Uk.
  { intros i rp' N Hi' Ek'. apply N. apply (one_entry hash_32 REP_SIZE (w_now w) (w_net w) i id rp' rp); [done..|congruence]. }
  assert (forall i, i <> id -> drc_heap nn !! i = drc_heap (w_net w) !! i) as X.
  { intros i N. destruct (kept _ _ _ _); destruct D as [-> _]; [by rewrite lookup_insert_ne|by rewrite lookup_delete_ne]. }
  assert (forall rp', drc_heap nn !! id = Some rp' -> c_key rp' = request_key rq /\ c_state rp' = RC_DONE) as Xid.
  { intros rp'. destruct (kept _ _ _ _); destruct D as [-> _]; [rewrite lookup_insert_eq; by intros [= <-]|by rewrite lookup_delete_eq]. }
  split; cbn [w_net w_now w_running w_log]; [done|lia| | | | | |].
  - intros x rq2 p2 Hx%Sub. by apply (Q x rq2 p2).
  - intros x rq2 p2 i Hx Hc. pose proof (Sub _ _ Hx) as Hx'. apply lookup_delete_Some in Hx as [Nx _]. split. destruct (En x rq2 p2 i Hx' Hc) as [(rp2 & Hi2 & Es2 & Ek2)].
    exists rp2. rewrite X; [done|]. intros ->. apply Nx. by apply (One r x rq rq2 proc p2 id).
  - intros i rp' Hi' Eb. destruct (decide (i = id)) as [->|N]; [destruct (Xid rp' Hi') as [_ D']; by rewrite Eb in D'|]. rewrite X in Hi' by done.
    destruct (Ow i rp' Hi' Eb) as (x & rq2 & p2 & Hx & Hc). exists x, rq2, p2. split; [|done]. rewrite lookup_delete_ne; [done|]. intros <-. congruence.
  - intros x1 x2 rq2 rq3 p2 p3 i H1%Sub H2%Sub. by apply (One x1 x2 rq2 rq3 p2 p3 i).
  - intros k p. destruct (drc_heap nn !! id) as [rp'|] eqn:Eid'.
    + destruct (Xid rp' eq_refl) as [Ek' Ed']. cbn [app status]. destruct (decide (k = request_key rq)) as [->|N].
      * assert (phase_of rp' = Held (reply_of rp')) as Ph by (unfold phase_of; by rewrite Ed').
        split; [intros [= <-]; exists id, rp'; done|]. intros (i & r2 & Hi2 & Ek2 & <-).
        destruct (decide (i = id)) as [->|Ni]; [by rewrite Eid' in Hi2; injection Hi2 as <-; rewrite Ph|]. rewrite X in Hi2 by done. by destruct (Uk i r2 Ni Hi2).
      * rewrite (T k p). split; intros (i & r2 & Hi2 & Ek2 & Ep); exists i, r2; (destruct (decide (i = id)) as [->|Ni]; [|by rewrite ?X in * by done]).
        -- rewrite Hi in Hi2. injection Hi2 as <-. congruence.
        -- rewrite Eid' in Hi2. injection Hi2 as <-. congruence.
    + cbn [app status]. destruct (decide (k = request_key rq)) as [->|N].
      * split; [done|]. intros (i & r2 & Hi2 & Ek2 & _). destruct (decide (i = id)) as [->|Ni]; [congruence|]. rewrite X in Hi2 by done. by destruct (Uk i r2 Ni Hi2).
      * rewrite (T k p). split; intros (i & r2 & Hi2 & Ek2 & Ep); exists i, r2; (destruct (decide (i = id)) as [->|Ni]; [|by rewrite ?X in * by done]); [|congruence].
        rewrite Hi in Hi2. injection Hi2 as <-. congruence.
  - destruct (drc_heap nn !! id); cbn [app legal]; (split; [done|]); [done|]. by rewrite Sb.
Qed.

Lemma w_step_ok w w' : w_ok w -> w_step w w' -> w_ok w'.
Proof.
  intros W St. destruct St as [w r rq proc new now rtn rq' nn Hr Hn Hnew Kk Hl Hct E|w r rq proc no_mem now ret stat rq' nn s Hr Hn E|w now nn n Hn E].
  - by apply (start_ok w r rq proc new now).
  - unfold dispatch_finish in E. destruct (pc_func proc rq (w_fs w)) as [[st dropme] s']. destruct (wo_rq w W r rq proc Hr) as [Hl Hct].
    destruct ((st =? rpc_drop_reply) || dropme).
    { injection E as <- <- <- <- <-. by apply (update_ok w r rq rq proc); [..|left|]. }
    destruct (pc_encode proc rq s') as [b|]; injection E as <- <- <- <- <-.
    + apply (update_ok w r rq (rq <| rq_res := rq_res rq ++ b |>) proc); try done. intros off [= <-]. cbn. rewrite zlen_app. pose proof (zlen_nonneg b). lia.
    + by apply (update_ok w r rq rq proc); [..|left|].
  - by apply (scan_ok w now nn n).
Qed.

Lemma w_reachable_ok w w' : w_init w -> rtc w_step w w' -> w_ok w'.
Proof. intros I R. apply w_init_ok in I. induction R as [|a b c St R IH]; [done|]. by apply IH, (w_step_ok a). Qed.

(** C16: over every interleaving of requests, retransmissions and runs of the shrinker
    the cache stays well-formed: trees sorted by key, lists in order of use with the
    same entries, counters exact, and the entries in progress are exactly those of the
    threads that are running a cached request, one each. *)
Theorem drc_invariant w w' : w_init w -> rtc w_step w w' -> w_ok w'.
Proof. apply w_reachable_ok. Qed.


(** What a request gets for an entry that is done. *)
Lemma found_done rq rp : rep_ok rp -> c_state rp = RC_DONE ->
  found_entry rq rp =
    if negb (rq_secure rq) && c_secure rp then (RC_DOIT, rq)
    else if (c_type rp =? RC_REPLBUFF) && (PAGE_SIZE <? zlen (rq_res rq) + zlen (reply_of rp)) then (RC_DOIT, rq)
    else (RC_REPLY, rq <| rq_res := rq_res rq ++ reply_of rp |>).
Proof.
  intros [_ [[E _]|[_ D]]] Es; [by rewrite Es in E|]. unfold found_entry, reply_of, nfsd_cache_append. rewrite Es. cbn. destruct (negb (rq_secure rq) && c_secure rp); [done|].
  destruct D as [[-> [w ->]]|[-> [d [-> _]]]]; cbn; [done|]. by destruct (PAGE_SIZE <? _).
Qed.


(** The shrinker ends with a well-formed cache: no reply that is older than
    [RC_EXPIRE] is left, none that is younger has gone unless the cache was over its
    limit, calls in progress keep their entries, and the number returned is the number
    freed. *)
Theorem nfsd_reply_cache_scan_contract now nn nn' n :
  drc_ok now nn -> 0 <= now < 2 ^ 61 -> nfsd_reply_cache_scan HZ REP_SIZE now nn = (nn', n) ->
  drc_ok now nn' /\ n = num_drc_entries nn - num_drc_entries nn' /\
  (forall i rp, drc_heap nn' !! i = Some rp -> drc_heap nn !! i = Some rp /\ (c_state rp = RC_DONE -> now < c_timestamp rp + 120 * HZ)) /\
  (forall i rp, drc_heap nn !! i = Some rp -> drc_heap nn' !! i = None ->
     c_state rp = RC_DONE /\ (max_drc_entries nn < num_drc_entries nn \/ c_timestamp rp + 120 * HZ <= now)).
Proof.
  intros O Hn E. destruct (prune_fold_spec hash_32 HZ REP_SIZE HZ_ok now (seq 0 (length (drc_hashtbl nn))) nn 0 nn' n O Hn) as (P & Fr & Co); [|done|].
  { apply Forall_forall. intros h [_ ?]%elem_of_seq. lia. }
  split; [apply P|]. split; [lia|]. split; [|apply P]. intros i rp Hi. split; [by apply (pr_sub _ _ _ _ _ _ P)|]. intros Hd. apply (Co i rp Hi); [|done].
  apply elem_of_seq. pose proof (ok_table _ _ _ _ O (k_xid (c_key rp))) as Ht. change (ReplyCacheInv.hash_of hash_32 nn) with (hash_of nn) in *. lia.
Qed.


Lemma shutdown_loop_spec now h nn fuel :
  drc_ok now nn -> (h < length (drc_hashtbl nn))%nat -> length (lru_head (get_bucket nn h)) = fuel ->
  exists nn', shutdown_loop REP_SIZE fuel h nn = Some nn' /\ drc_ok now nn' /\ hash_of nn' = hash_of nn /\ length (drc_hashtbl nn') = length (drc_hashtbl nn) /\
    forall i rp, drc_heap nn' !! i = Some rp -> drc_heap nn !! i = Some rp /\ hash_of nn (k_xid (c_key rp)) <> h.
Proof.
  revert nn. induction fuel as [|fuel IH]; intros nn O Hh Hf; cbn [shutdown_loop]; destruct (lookup_lt_is_Some_2 _ _ Hh) as [b Hb];
    pose proof (ok_bucket _ _ _ _ O h b Hb) as [T Lr Hhash A P]; pose proof (get_bucket_in nn h b Hb) as Eg.
  - destruct (lru_head (get_bucket nn h)) eqn:El; [|done]. exists nn. split_and!; try done. intros i rp Hi. split; [done|]. intros Eh.
    destruct (ok_entry _ _ _ _ O i rp Hi) as [_ Hin]. change (ReplyCacheInv.hash_of hash_32 nn) with (hash_of nn) in Hin. rewrite Eh, Eg, <- Lr, <- Eg, El in Hin. by apply elem_of_nil in Hin.
  - destruct (lru_head (get_bucket nn h)) as [|id l] eqn:El; [done|]. destruct (Hhash id) as (rp & Hi & Eh); [rewrite <- Lr, <- Eg, El; by left|].
    change (ReplyCacheInv.hash_of hash_32 nn) with (hash_of nn) in Eh.
    pose proof (free_spec hash_32 REP_SIZE now nn id rp O Hi) as (O' & Hp & Hl & Hs & _ & _ & Ht). change (ReplyCacheInv.hash_of hash_32 nn) with (hash_of nn) in *. rewrite Eh in *.
    destruct (IH (nfsd_reply_cache_free_locked REP_SIZE h id nn) O') as (nn' & -> & O2 & H2 & T2 & R2); [by rewrite Ht| |].
    { rewrite Hl, El. rewrite Eg in El. pose proof (by_key_nodup _ _ T) as Nd. rewrite <- Lr, El in Nd. change (id :: l) with ([] ++ id :: l). rewrite without_mid by done. cbn in Hf |- *. lia. }
    exists nn'. split_and!; try done; [by rewrite H2|by rewrite T2|]. intros i r Hr. destruct (R2 i r Hr) as [H3 N3]. rewrite Hp in H3. apply lookup_delete_Some in H3 as [_ H3].
    split; [done|]. intros E3. apply N3. exact (eq_trans (f_equal (fun f => f (k_xid (c_key r))) Hs) E3).
Qed.

(** Shutting the cache down ends and frees every entry; the counters are back at
    zero. *)
Theorem nfsd_reply_cache_shutdown_frees now nn :
  drc_ok now nn -> exists nn', nfsd_reply_cache_shutdown REP_SIZE nn = Some nn' /\ drc_heap nn' = ∅ /\ num_drc_entries nn' = 0 /\ drc_mem_usage nn' = 0.
Proof.
  intros O. unfold nfsd_reply_cache_shutdown.
  assert (forall hs n1, drc_ok now n1 -> Forall (fun h => (h < length (drc_hashtbl n1))%nat) hs ->
    exists n2, foldl (fun o h => match o with None => None | Some nn => shutdown_loop REP_SIZE (length (lru_head (get_bucket nn h))) h nn end) (Some n1) hs = Some n2 /\
      drc_ok now n2 /\ hash_of n2 = hash_of n1 /\ forall i rp, drc_heap n2 !! i = Some rp -> drc_heap n1 !! i = Some rp /\ hash_of n1 (k_xid (c_key rp)) ∉ hs) as Fold.
  { induction hs as [|h hs IH]; intros n1 O1 F; cbn [foldl].
    - exists n1. split_and!; try done. intros i rp Hi. split; [done|]. by intros ?%elem_of_nil.
    - apply Forall_cons in F as [Hh F]. destruct (shutdown_loop_spec now h n1 _ O1 Hh eq_refl) as (n1' & -> & O1' & Eh & Et & R).
      destruct (IH n1' O1') as (n2 & -> & O2 & Eh2 & R2); [by rewrite Et|]. exists n2. split_and!; try done; [by rewrite Eh2|].
      intros i rp Hi. destruct (R2 i rp Hi) as [H1 N1]. destruct (R i rp H1) as [H0 N0]. split; [done|]. rewrite Eh in N1. by intros [?|?]%elem_of_cons. }
  destruct (Fold (seq 0 (length (drc_hashtbl nn))) nn O) as (nn' & -> & O' & Eh & R).
  { apply Forall_forall. intros h [_ ?]%elem_of_seq. lia. }
  exists nn'. split; [done|]. assert (drc_heap nn' = ∅) as E0.
  { apply map_empty. intros i. destruct (drc_heap nn' !! i) as [rp|] eqn:Ei; [|done]. destruct (R i rp Ei) as [Hi N]. destruct N. apply elem_of_seq.
    pose proof (ok_table _ _ _ _ O (k_xid (c_key rp))) as Ht. change (ReplyCacheInv.hash_of hash_32 nn) with (hash_of nn) in Ht. lia. }
  split; [done|]. rewrite (ok_num _ _ _ _ O'), (ok_bytes _ _ _ _ O'), E0. done.
Qed.
End Server.

(** ** Witnesses *)

Section Witness.
#[local] Existing Instance spine_shape.

Definition hash0 (x bits : Z) : nat := 0.
Definition csum0 (l : list byte) (c : Z) : Z := c.
Definition net0 : drc_net := match nfsd_reply_cache_init false 64 with Ok nn => nn | Err _ => mk_drc [] 0 0 0 0 0 0 0 ∅ end.
Definition world0 : drc_world := mk_world net0 0 1000 ∅ [].
Definition rq0 : drc_rqst :=
  mk_rq 7 8 6 3 (AF_INET 800 16909060) (mk_mem (replicate 64 x00) []) (mk_buf (mk_kvec 0 64) (mk_kvec 64 0) 0 0 0 0 64 64) true 0 None (replicate 24 x01).
(** A procedure that counts its runs and answers with the count. *)
Definition proc0 : svc_procedure Z := mk_proc Z (fun _ => Some RC_REPLBUFF) (fun _ s => (rpc_success, false, s + 1)) (fun _ s => Some (be32 s)).

Lemma hash0_bound x bits : 0 <= bits -> Z.of_nat (hash0 x bits) < 2 ^ bits.
Proof. intros. unfold hash0. apply Z.pow_pos_nonneg; lia. Defined.

Lemma net0_init : nfsd_reply_cache_init false 64 = Ok net0.
Proof. reflexivity. Defined.

Lemma net0_ok now : drc_ok hash0 128 now net0.
Proof. apply (cache_init_ok hash0 128 hash0_bound now 64 net0 net0_init). Defined.

Lemma world0_init : w_init world0.
Proof. split; [exists 64; exact net0_init|]. split; [cbn; lia|done]. Defined.

Lemma rq0_key : key_ok (request_key csum0 rq0).
Proof. vm_compute. intuition discriminate. Defined.

Lemma world0_step : exists w', w_step hash0 csum0 1000 128 world0 w' /\ w_log w' <> [].
Proof.
  destruct (dispatch_start hash0 csum0 1000 128 1000 (Some 5%nat) proc0 rq0 net0) as [[[rtn rq'] nn]|] eqn:E; [|by vm_compute in E].
  eexists. split; [apply (W_start hash0 csum0 1000 128 world0 0%nat rq0 proc0 (Some 5%nat) 1000 rtn rq' nn); [done|cbn; lia|done|exact rq0_key|vm_compute; discriminate| |exact E]|].
  - intros ct [= <-]. right. by right.
  - cbn. by destruct (gone _ _).
Defined.

Lemma drc_invariant_witness : exists w', rtc (w_step hash0 csum0 1000 128) world0 w' /\ w_ok hash0 csum0 128 w'.
Proof.
  destruct world0_step as (w' & St & _). exists w'. split; [by apply rtc_once|].
  apply (drc_invariant hash0 csum0 1000 128 ltac:(lia) hash0_bound world0 w' world0_init). by apply rtc_once.
Defined.



Lemma nfsd_reply_cache_scan_contract_witness : exists nn' n, nfsd_reply_cache_scan 1000 128 1000 net0 = (nn', n) /\ drc_ok hash0 128 1000 nn'.
Proof.
  destruct (nfsd_reply_cache_scan 1000 128 1000 net0) as [nn' n] eqn:E. exists nn', n. split; [done|].
  apply (nfsd_reply_cache_scan_contract hash0 1000 128 ltac:(lia) 1000 net0 nn' n (net0_ok 1000) ltac:(lia) E).
Defined.

Lemma nfsd_reply_cache_shutdown_frees_witness : exists nn', nfsd_reply_cache_shutdown 128 net0 = Some nn' /\ drc_heap nn' = ∅.
Proof.
  destruct (nfsd_reply_cache_shutdown_frees hash0 128 1000 net0 (net0_ok 1000)) as (nn' & E & Eh & _). by exists nn'.
Defined.

End Witness.
