(* ===== verification/RpcServer.v ===== *)
(** * RPC calls on the server

    [net/sunrpc/svc.c] ([svc_process], [svc_process_common], [svc_generic_init_request],
    [svc_generic_dispatch]), [svcauth.c] and the flavors AUTH_NULL and AUTH_UNIX of
    [svcauth_unix.c].

    The call is read through the kvec [rq_arg] (the head of the message) from the memory
    it lies in, with no other check than the code makes; the reply is the list of bytes
    in the head of the reply.  A program's own functions, other flavors, the id mapping
    of user namespaces and the sorting of groups are parameters.  Counters of calls per
    procedure are left out. *)

From S2P Require Import Prelude Xdr XdrBuf RpcMsg.

(** ** Requests *)

Record svc_cred := mk_cred { cr_uid : Z; cr_gid : Z; cr_group_info : option (list Z); cr_flavor : Z }.
#[export] Instance upd_cred : Updatable svc_cred := fun c => mk_cred (cr_uid c) (cr_gid c) (cr_group_info c) (cr_flavor c).

(** What is used of [struct svc_xprt]. *)
Record svc_xprt := mk_xprt { xpt_temp : bool; xpt_cong_ctrl : bool; xpt_reserved : Z; xpt_close : bool }.
#[export] Instance upd_xprt : Updatable svc_xprt := fun x => mk_xprt (xpt_temp x) (xpt_cong_ctrl x) (xpt_reserved x) (xpt_close x).

Record svc_stat := mk_stat { rpccnt : Z; rpcbadfmt : Z; rpcbadauth : Z }.
#[export] Instance upd_stat : Updatable svc_stat := fun s => mk_stat (rpccnt s) (rpcbadfmt s) (rpcbadauth s).

(** [rq_mem] is the memory the call lies in; [rq_authop] names the flavor whose
    operations are to release the credential; [rq_stats] are those of the service. *)
Record svc_rqst := mk_rqst {
  rq_mem : list byte;
  rq_arg : kvec;
  rq_res : list byte;
  rq_xid : Z;
  rq_prog : Z;
  rq_vers : Z;
  rq_proc : Z;
  rq_cred : svc_cred;
  rq_client : option Z;
  rq_authop : option Z;
  rq_auth_stat : Z;
  rq_auth_slack : Z;
  rq_splice_ok : bool;
  rq_usedeferral : bool;
  rq_dropme : bool;
  rq_reserved : Z;
  rq_xprt : option svc_xprt;
  rq_stats : svc_stat;
}.
#[export] Instance upd_rqst : Updatable svc_rqst := fun r =>
  mk_rqst (rq_mem r) (rq_arg r) (rq_res r) (rq_xid r) (rq_prog r) (rq_vers r) (rq_proc r) (rq_cred r) (rq_client r) (rq_authop r)
    (rq_auth_stat r) (rq_auth_slack r) (rq_splice_ok r) (rq_usedeferral r) (rq_dropme r) (rq_reserved r) (rq_xprt r) (rq_stats r).

Definition svc_getnl : dec svc_rqst Z := fun rq =>
  let v := rq_arg rq in
  (Ok (be32_to_cpu (zdrop (iov_base v) (rq_mem rq))), rq <| rq_arg := mk_kvec (iov_base v + 4) (u64 (iov_len v - 4)) |>).
Definition svc_putnl (val : Z) (rq : svc_rqst) : svc_rqst := rq <| rq_res := rq_res rq ++ be32 val |>.

(** [argv->iov_base += n; argv->iov_len -= n] *)
Definition skip_arg (n : Z) : dec svc_rqst unit := fun rq =>
  (Ok tt, rq <| rq_arg := mk_kvec (iov_base (rq_arg rq) + n) (u64 (iov_len (rq_arg rq) - n)) |>).
Definition dmod (f : svc_rqst -> svc_rqst) : dec svc_rqst unit := fun rq => (Ok tt, f rq).
Definition arg_len : dec svc_rqst Z := fun rq => (Ok (iov_len (rq_arg rq)), rq).

Definition xdr_ressize_check (p : Z) (rq : svc_rqst) : svc_rqst := rq <| rq_res := ztake p (rq_res rq) |>.

Definition svc_reserve (space : Z) (rq : svc_rqst) : svc_rqst :=
  let space := space + zlen (rq_res rq) in
  match rq_xprt rq with
  | Some x =>
      if space <? rq_reserved rq then
        rq <| rq_xprt := Some (x <| xpt_reserved := xpt_reserved x - (rq_reserved rq - space) |>) |> <| rq_reserved := space |>
      else rq
  | None => rq
  end.
Definition svc_reserve_auth (space : Z) (rq : svc_rqst) : svc_rqst := svc_reserve (space + rq_auth_slack rq) rq.

(** The head of the call as a transport hands it over, and the XID taken by [svc_recv].
    [svc_udp_recvfrom] does not look at the length of the datagram. *)
Definition svc_udp_arg (base len : Z) : kvec := mk_kvec base len.
Definition svc_recv_xid (rq : svc_rqst) : svc_rqst :=
  match svc_getnl rq with (Ok xid, rq) => rq <| rq_xid := xid |> | (Err _, rq) => rq end.

(** ** Credentials *)

Definition INVALID_ID := 2 ^ 32 - 1.

Section Auth.
Context (make_kuid make_kgid : Z -> Z) (groups_sort : list Z -> list Z).

Definition set_cred (f : svc_cred -> svc_cred) (rq : svc_rqst) : svc_rqst := rq <| rq_cred := f (rq_cred rq) |>.
Definition auth_fail (stat : Z) : dec svc_rqst unit := dmod (fun rq => rq <| rq_auth_stat := stat |>) ;;; dfail SVC_DENIED.

(** [Ok tt] is [SVC_OK]; [no_mem]: [groups_alloc] fails. *)
Definition svcauth_null_accept (no_mem : bool) : dec svc_rqst unit :=
  len <- arg_len;;
  if len <? 3 * 4 then dfail SVC_GARBAGE
  else
    n <- svc_getnl;;
    if negb (n =? 0) then auth_fail rpc_autherr_badcred
    else
      v <- svc_getnl;;
      if negb (v =? RPC_AUTH_NULL) then auth_fail rpc_autherr_badverf
      else
        l <- svc_getnl;;
        if negb (l =? 0) then auth_fail rpc_autherr_badverf
        else
          dmod (set_cred (fun c => c <| cr_uid := INVALID_ID |> <| cr_gid := INVALID_ID |>));;;
          if no_mem then dfail SVC_CLOSE
          else
            dmod (set_cred (fun c => c <| cr_group_info := Some [] |>));;;
            dmod (svc_putnl RPC_AUTH_NULL);;;
            dmod (svc_putnl 0);;;
            dmod (set_cred (fun c => c <| cr_flavor := RPC_AUTH_NULL |>)).

Fixpoint get_gids (n : nat) : dec svc_rqst (list Z) :=
  match n with
  | O => dret []
  | S n => g <- svc_getnl;; gs <- get_gids n;; dret (make_kgid g :: gs)
  end.

(** [len] is an [int], the other lengths are [u32]. *)
Definition svcauth_unix_accept (no_mem : bool) : dec svc_rqst unit :=
  iov_len <- arg_len;;
  let len := s32 (s32 iov_len - 3 * 4) in
  if len <? 0 then dfail SVC_GARBAGE
  else
    _ <- svc_getnl;;
    _ <- svc_getnl;;
    n <- svc_getnl;;
    let slen := XDR_QUADLEN n in
    let len := s32 (len - (slen + 3) * 4) in
    if (64 <? slen) || (len <? 0) then auth_fail rpc_autherr_badcred
    else
      skip_arg (slen * 4);;;
      uid <- svc_getnl;;
      gid <- svc_getnl;;
      dmod (set_cred (fun c => c <| cr_uid := make_kuid uid |> <| cr_gid := make_kgid gid |>));;;
      slen <- svc_getnl;;
      let len := s32 (len - (slen + 2) * 4) in
      if (UNX_NGROUPS <? slen) || (len <? 0) then auth_fail rpc_autherr_badcred
      else if no_mem then dfail SVC_CLOSE
      else
        gids <- get_gids (Z.to_nat slen);;
        dmod (set_cred (fun c => c <| cr_group_info := Some (groups_sort gids) |>));;;
        v <- svc_getnl;;
        if negb (v =? RPC_AUTH_NULL) then auth_fail rpc_autherr_badverf
        else
          l <- svc_getnl;;
          if negb (l =? 0) then auth_fail rpc_autherr_badverf
          else
            dmod (svc_putnl RPC_AUTH_NULL);;;
            dmod (svc_putnl 0);;;
            dmod (set_cred (fun c => c <| cr_flavor := RPC_AUTH_UNIX |>)).

(** Both flavors release alike: the client and the groups go. *)
Definition svcauth_unix_release (rq : svc_rqst) : Z * svc_rqst :=
  (0, set_cred (fun c => c <| cr_group_info := None |>) (rq <| rq_client := None |>)).
Definition svcauth_null_release (rq : svc_rqst) : Z * svc_rqst :=
  (0, set_cred (fun c => c <| cr_group_info := None |>) (rq <| rq_client := None |>)).

(** ** Flavors *)

(** [owner_live]: [try_module_get] succeeds. *)
Record auth_ops := mk_auth { owner_live : bool; accept : dec svc_rqst unit; release : svc_rqst -> Z * svc_rqst }.

Definition svcauth_null (no_mem : bool) : auth_ops := mk_auth true (svcauth_null_accept no_mem) svcauth_null_release.
Definition svcauth_unix (no_mem : bool) : auth_ops := mk_auth true (svcauth_unix_accept no_mem) svcauth_unix_release.
Definition authtab (no_mem : bool) : list (option auth_ops) :=
  [Some (svcauth_null no_mem); Some (svcauth_unix no_mem); None; None; None; None; None; None].

Definition svc_get_auth_ops (tab : list (option auth_ops)) (flavor : Z) : option auth_ops :=
  if RPC_AUTH_MAXFLAVOR <=? flavor then None
  else match tab !! Z.to_nat flavor with Some (Some aops) => if owner_live aops then Some aops else None | _ => None end.

(** [same]: the operations that are there are the ones to be registered. *)
Definition svc_auth_register (same : bool) (flavor : Z) (aops : auth_ops) (tab : list (option auth_ops)) : Z * list (option auth_ops) :=
  if flavor <? RPC_AUTH_MAXFLAVOR then
    match tab !!! Z.to_nat flavor with
    | None => (0, <[Z.to_nat flavor := Some aops]> tab)
    | Some _ => ((if same then 0 else - EINVAL), tab)
    end
  else (- EINVAL, tab).
Definition svc_auth_unregister (flavor : Z) (tab : list (option auth_ops)) : list (option auth_ops) :=
  if flavor <? RPC_AUTH_MAXFLAVOR then <[Z.to_nat flavor := None]> tab else tab.

Definition svc_authenticate (tab : list (option auth_ops)) : dec svc_rqst unit :=
  dmod (fun rq => rq <| rq_auth_stat := rpc_auth_ok |>);;;
  flavor <- svc_getnl;;
  match svc_get_auth_ops tab flavor with
  | None => auth_fail rpc_autherr_badcred
  | Some aops =>
      dmod (fun rq => set_cred (fun c => c <| cr_group_info := None |>) (rq <| rq_auth_slack := 0 |>) <| rq_authop := Some flavor |>);;;
      accept aops
  end.

Definition svc_authorise (tab : list (option auth_ops)) (rq : svc_rqst) : Z * svc_rqst :=
  match rq_authop rq with
  | None => (0, rq)
  | Some flavor =>
      let rq := rq <| rq_authop := None |> in
      match tab !! Z.to_nat flavor with Some (Some aops) => release aops rq | _ => (0, rq) end
  end.
End Auth.

(** ** Programs *)

Section Programs.
(** The rest of the server: arguments, results, file systems. *)
Context {st : Type}.

Record svc_procedure := mk_svc_proc {
  pc_func : option (svc_rqst -> st -> Z * svc_rqst * st);
  pc_decode : option (svc_rqst -> st -> bool * svc_rqst * st);
  pc_encode : option (svc_rqst -> st -> bool * svc_rqst * st);
  pc_release : option (svc_rqst -> st -> st);
  pc_xdrressize : Z;
}.

(** A dispatcher gets the place of the status word in the reply and returns whether
    there is a reply. *)
Definition dispatcher := svc_rqst -> Z -> st -> bool * svc_rqst * st.

Record svc_version := mk_version { vs_proc : list svc_procedure; vs_need_cong_ctrl : bool; vs_dispatch : option dispatcher }.

(** What [pg_init_request] finds. *)
Inductive init_request :=
| Init_ok (procp : svc_procedure) (dispatch : option dispatcher)
| Init_prog_unavail
| Init_prog_mismatch (lovers hivers : Z)
| Init_proc_unavail.

Record svc_program := mk_program {
  pg_prog : Z;
  pg_authenticate : dec svc_rqst unit;
  pg_init_request : svc_rqst -> init_request;
}.

Definition svc_generic_init_request (lovers hivers : Z) (pg_vers : list (option svc_version)) (rq : svc_rqst) : init_request :=
  if zlen pg_vers <=? rq_vers rq then Init_prog_mismatch lovers hivers
  else
    match pg_vers !! Z.to_nat (rq_vers rq) with
    | Some (Some versp) =>
        if vs_need_cong_ctrl versp && match rq_xprt rq with Some x => negb (xpt_cong_ctrl x) | None => false end
        then Init_prog_mismatch lovers hivers
        else if zlen (vs_proc versp) <=? rq_proc rq then Init_proc_unavail
        else
          match vs_proc versp !! Z.to_nat (rq_proc rq) with
          | Some procp => Init_ok procp (vs_dispatch versp)
          | None => Init_proc_unavail
          end
    | _ => Init_prog_mismatch lovers hivers
    end.

(** [*statp = v] *)
Definition put_stat (statp v : Z) (rq : svc_rqst) : svc_rqst := rq <| rq_res := zwrite statp (be32 v) (rq_res rq) |>.
Definition get_stat (statp : Z) (rq : svc_rqst) : Z := be32_to_cpu (zdrop statp (rq_res rq)).

Definition opt_run {A} (f : option (svc_rqst -> st -> A)) (dflt : svc_rqst -> st -> A) : svc_rqst -> st -> A :=
  match f with Some f => f | None => dflt end.

(** A procedure without [pc_func] is refused before. *)
Definition svc_generic_dispatch (procp : svc_procedure) : dispatcher := fun rq statp s =>
  let '(ok, rq, s) := opt_run (pc_decode procp) (fun rq s => (true, rq, s)) rq s in
  if negb ok then (true, put_stat statp rpc_garbage_args rq, s)
  else
    let '(stat, rq, s) := opt_run (pc_func procp) (fun rq s => (rpc_success, rq, s)) rq s in
    let rq := put_stat statp stat rq in
    if (stat =? rpc_drop_reply) || rq_dropme rq then (false, rq, s)
    else if negb (rq_auth_stat rq =? rpc_auth_ok) then (true, rq, s)
    else if negb (stat =? rpc_success) then (true, rq, s)
    else
      let '(ok, rq, s) := opt_run (pc_encode procp) (fun rq s => (true, rq, s)) rq s in
      (true, if ok then rq else put_stat statp rpc_system_err rq, s).

(** ** Processing a call *)

Context (tab : list (option auth_ops)) (sv_programs : list svc_program).

Definition result := (bool * svc_rqst * st)%type.

Definition bump (f : svc_stat -> svc_stat) (rq : svc_rqst) : svc_rqst := rq <| rq_stats := f (rq_stats rq) |>.
Definition badfmt (rq : svc_rqst) : svc_rqst := bump (fun s => s <| rpcbadfmt := rpcbadfmt s + 1 |>) rq.

Definition close_xprt (rq : svc_rqst) (s : st) : result :=
  (false, match rq_xprt rq with
          | Some x => if xpt_temp x then rq <| rq_xprt := Some (x <| xpt_close := true |>) |> else rq
          | None => rq
          end, s).
Definition sendit (rq : svc_rqst) (s : st) : result :=
  let '(rv, rq) := svc_authorise tab rq in if negb (rv =? 0) then close_xprt rq s else (true, rq, s).
Definition dropit (rq : svc_rqst) (s : st) : result := (false, snd (svc_authorise tab rq), s).
Definition close_call (rq : svc_rqst) (s : st) : result := close_xprt (snd (svc_authorise tab rq)) s.

Definition do_release (procp : svc_procedure) (rq : svc_rqst) (s : st) : st :=
  match pc_release procp with Some f => f rq s | None => s end.

Definition err_bad (stat : Z) (rq : svc_rqst) (s : st) : result := sendit (svc_putnl stat (badfmt rq)) s.
Definition err_bad_vers (lovers hivers : Z) (rq : svc_rqst) (s : st) : result :=
  sendit (svc_putnl hivers (svc_putnl lovers (svc_putnl rpc_prog_mismatch (badfmt rq)))) s.
Definition err_bad_rpc (rq : svc_rqst) (s : st) : result :=
  sendit (svc_putnl 2 (svc_putnl 2 (svc_putnl 0 (svc_putnl 1 (badfmt rq))))) s.
Definition err_bad_auth (reply_statp : Z) (rq : svc_rqst) (s : st) : result :=
  let rq := bump (fun s => s <| rpcbadauth := rpcbadauth s + 1 |>) rq in
  let rq := xdr_ressize_check reply_statp rq in
  sendit (svc_putnl (rq_auth_stat rq) (svc_putnl 1 (svc_putnl 1 rq))) s.

(** From "Syntactic check complete" on. *)
Definition run_procedure (reply_statp : Z) (procp : svc_procedure) (dispatch : option dispatcher) (rq : svc_rqst) (s : st) : result :=
  let rq := bump (fun s => s <| rpccnt := rpccnt s + 1 |>) rq in
  let statp := zlen (rq_res rq) in
  let rq := svc_putnl rpc_success rq in
  let rq := if negb (pc_xdrressize procp =? 0) then svc_reserve_auth (Z.shiftl (pc_xdrressize procp) 2) rq else rq in
  let '(has_reply, rq, s) := match dispatch with
                             | None => svc_generic_dispatch procp rq statp s
                             | Some f => f rq statp s
                             end in
  if negb has_reply then dropit rq (do_release procp rq s)
  else if match dispatch with None => get_stat statp rq =? rpc_garbage_args | Some _ => false end
  then err_bad rpc_garbage_args rq s
  else if negb (rq_auth_stat rq =? rpc_auth_ok) then err_bad_auth reply_statp rq (do_release procp rq s)
  else
    let rq := if negb (get_stat statp rq =? rpc_success) then rq <| rq_res := ztake (statp + 4) (rq_res rq) |> else rq in
    let s := do_release procp rq s in
    if match pc_encode procp with None => true | Some _ => false end then dropit rq s else sendit rq s.

(** After the credential was accepted. *)
Definition process_accepted (reply_statp : Z) (progp : option svc_program) (rq : svc_rqst) (s : st) : result :=
  match progp with
  | None => sendit (svc_putnl rpc_prog_unavail (badfmt rq)) s
  | Some progp =>
      match pg_init_request progp rq with
      | Init_prog_unavail => sendit (svc_putnl rpc_prog_unavail (badfmt rq)) s
      | Init_prog_mismatch lo hi => err_bad_vers lo hi rq s
      | Init_proc_unavail => sendit (svc_putnl rpc_proc_unavail (badfmt rq)) s
      | Init_ok procp dispatch =>
          match pc_func procp with
          | None => sendit (svc_putnl rpc_proc_unavail (badfmt rq)) s
          | Some _ => run_procedure reply_statp procp dispatch rq s
          end
      end
  end.

Definition find_program (prog : Z) : option svc_program := List.find (fun p => prog =? pg_prog p) sv_programs.

(** Up to the credential: the place of the reply's status and the program; [Err 0]: the
    RPC version is wrong. *)
Definition read_header : dec svc_rqst (Z * option svc_program) :=
  dmod (fun rq => svc_putnl (rq_xid rq) (rq <| rq_splice_ok := true |> <| rq_usedeferral := true |> <| rq_dropme := false |>));;;
  vers <- svc_getnl;;
  dmod (svc_putnl 1);;;
  if negb (vers =? RPC_VERSION) then dfail 0
  else
    reply_statp <- (fun rq => (Ok (zlen (rq_res rq)), rq));;
    dmod (svc_putnl 0);;;
    prog <- svc_getnl;;
    dmod (fun rq => rq <| rq_prog := prog |>);;;
    vers <- svc_getnl;;
    dmod (fun rq => rq <| rq_vers := vers |>);;;
    proc <- svc_getnl;;
    dmod (fun rq => rq <| rq_proc := proc |>);;;
    dret (reply_statp, find_program prog).

Definition authenticate (progp : option svc_program) : dec svc_rqst unit :=
  svc_authenticate tab;;; match progp with Some p => pg_authenticate p | None => dret tt end.

(** What [auth_res] leads to; [Ok tt] is [SVC_OK]. *)
Definition auth_switch (reply_statp : Z) (progp : option svc_program) (auth : res unit * svc_rqst) (s : st) : result :=
  match auth with
  | (Ok _, rq) => process_accepted reply_statp progp rq s
  | (Err e, rq) =>
      if e =? SVC_GARBAGE then err_bad rpc_garbage_args rq s
      else if e =? SVC_SYSERR then err_bad rpc_system_err rq s
      else if e =? SVC_DENIED then err_bad_auth reply_statp rq s
      else if e =? SVC_CLOSE then close_call rq s
      else if e =? SVC_DROP then dropit rq s
      else if e =? SVC_COMPLETE then sendit rq s
      else process_accepted reply_statp progp rq s
  end.

(** The result tells whether to send the reply. *)
Definition svc_process_common (rq : svc_rqst) (s : st) : result :=
  if iov_len (rq_arg rq) <? 6 * 4 then close_xprt rq s
  else
    match read_header rq with
    | (Err _, rq) => err_bad_rpc rq s
    | (Ok (reply_statp, progp), rq) => auth_switch reply_statp progp (authenticate progp rq) s
    end.

Definition svc_process (rq : svc_rqst) (s : st) : result :=
  let rq := rq <| rq_res := [] |> in
  match svc_getnl rq with
  | (Ok dir, rq) => if negb (dir =? 0) then (false, badfmt rq, s) else svc_process_common rq s
  | (Err _, rq) => (false, rq, s)
  end.
End Programs.

#[global] Arguments svc_procedure : clear implicits.
#[global] Arguments svc_program : clear implicits.
#[global] Arguments svc_version : clear implicits.
