(* ===== verification/RpcClient.v ===== *)
(** * RPC calls on the client

    [net/sunrpc/clnt.c] ([call_allocate]'s sizes, [rpc_xdr_encode], [rpc_encode_header],
    [rpc_decode_header], [call_decode]) with the flavors of [auth_null.c] and
    [auth_unix.c].

    Encoding works on the encode stream of XdrEncode, with the pointers the code keeps
    into the buffer; decoding works on any stream with the interface of Xdr.  The id
    mapping of user namespaces and the encoder and decoder of the procedure are
    parameters. *)

From S2P Require Import Prelude Xdr XdrBuf XdrDecode XdrEncode RpcMsg.

Definition EKEYREJECTED := 129.
Definition EPFNOSUPPORT := 96.
Definition EPROTONOSUPPORT := 93.
Definition EOPNOTSUPP := 95.

(** [struct rpc_cred] of the two flavors; of [struct cred] what is sent. *)
Inductive rpc_cred := null_cred | unix_cred (fsuid fsgid : Z) (group_info : option (list Z)).

(** What is used of [struct rpc_auth]. *)
Record rpc_auth := mk_rpc_auth { au_cslack : Z; au_rslack : Z; au_verfsize : Z; au_ralign : Z }.
#[export] Instance upd_auth : Updatable rpc_auth := fun a => mk_rpc_auth (au_cslack a) (au_rslack a) (au_verfsize a) (au_ralign a).
Definition null_auth : rpc_auth := mk_rpc_auth NUL_CALLSLACK NUL_REPLYSLACK NUL_REPLYSLACK NUL_REPLYSLACK.
Definition unix_auth : rpc_auth := mk_rpc_auth UNX_CALLSLACK NUL_REPLYSLACK NUL_REPLYSLACK 0.

Record call_clnt := mk_call_clnt { cl_prog : Z; cl_vers : Z; cl_nodename : list byte; cl_nodelen : Z; cl_discrtry : bool }.

(** [strscpy] into [cl_nodename], which has room for [UNX_MAXNODENAME] characters. *)
Definition rpc_clnt_set_nodename (clnt : call_clnt) (nodename : list byte) : call_clnt :=
  mk_call_clnt (cl_prog clnt) (cl_vers clnt) (ztake UNX_MAXNODENAME nodename)
    (if zlen nodename <=? UNX_MAXNODENAME then zlen nodename else - E2BIG) (cl_discrtry clnt).

Inductive call_action := call_encode | call_reserve | rpc_exit_task | call_other.

(** The task with its request; [cr_uptodate] is a flag of its credential, [rpcgarbage] a
    counter of the client. *)
Record call_task := mk_call_task {
  tk_xid : Z;
  tk_p_proc : Z;
  tk_cred : rpc_cred;
  tk_auth : rpc_auth;
  tk_status : Z;
  tk_rpc_status : Z;
  tk_act : call_action;
  tk_garb_retry : Z;
  tk_cred_retry : Z;
  cr_uptodate : bool;
  rpcgarbage : Z;
}.
#[export] Instance upd_call_task : Updatable call_task := fun t =>
  mk_call_task (tk_xid t) (tk_p_proc t) (tk_cred t) (tk_auth t) (tk_status t) (tk_rpc_status t) (tk_act t) (tk_garb_retry t) (tk_cred_retry t)
    (cr_uptodate t) (rpcgarbage t).

Definition rpc_call_rpcerror (status : Z) (t : call_task) : call_task :=
  t <| tk_rpc_status := status |> <| tk_status := status |> <| tk_act := rpc_exit_task |>.
Definition rpcauth_invalcred (t : call_task) : call_task := t <| cr_uptodate := false |>.

(** ** Sizes of the buffers *)

Definition rq_callsize (auth : rpc_auth) (p_arglen : Z) : Z :=
  Z.shiftl (RPC_CALLHDRSIZE + Z.shiftl (au_cslack auth) 1 + p_arglen) 2.
Definition rq_rcvsize (auth : rpc_auth) (p_replen : Z) : Z :=
  Z.shiftl (RPC_REPHDRSIZE + au_rslack auth + Z.max p_replen 2) 2.

(** ** Encoding *)

Definition loc_add (l : loc) (n : Z) : loc :=
  match l with LLin a => LLin (a + n) | LPage i o => LPage i (o + n) end.
(** [q - p] in words, for pointers into one area. *)
Definition loc_words (p q : loc) : Z :=
  match p, q with
  | LLin a, LLin b => (b - a) / 4
  | LPage _ a, LPage _ b => (b - a) / 4
  | _, _ => 0
  end.
Definition store (p : loc) (ws : list Z) (x : xdr_estream) : xdr_estream := x <| es_mem := mem_write (es_mem x) p (words ws) |>.

Section Encode.
Context (from_kuid_munged from_kgid_munged : Z -> Z).

(** [None] is -EMSGSIZE. *)
Definition nul_marshal : enc xdr_estream := fun x =>
  match xdr_reserve_space x (4 * 4) with
  | (None, _) => None
  | (Some p, x) => Some (store p [RPC_AUTH_NULL; 0; RPC_AUTH_NULL; 0] x)
  end.

(** The gids are stored before the space for them is reserved. *)
Definition unx_marshal (clnt : call_clnt) (fsuid fsgid : Z) (gi : option (list Z)) : enc xdr_estream := fun x =>
  match xdr_reserve_space x (3 * 4) with
  | (None, _) => None
  | (Some p, x) =>
      let x := store p [RPC_AUTH_UNIX] x in
      let cred_len := loc_add p 4 in
      let x := store (loc_add p 8) [0] x in
      match xdr_stream_encode_opaque (cl_nodename clnt) (cl_nodelen clnt) x with
      | None => None
      | Some x =>
          match xdr_reserve_space x (3 * 4) with
          | (None, _) => None
          | (Some p, x) =>
              let x := store p [from_kuid_munged fsuid; from_kgid_munged fsgid] x in
              let gidarr_len := loc_add p 8 in
              let p := loc_add gidarr_len 4 in
              let gids := match gi with Some gid => from_kgid_munged <$> take (Z.to_nat UNX_NGROUPS) gid | None => [] end in
              let x := store p gids x in
              let p := loc_add p (4 * zlen gids) in
              let x := store gidarr_len [loc_words gidarr_len p - 1] x in
              let x := store cred_len [Z.shiftl (loc_words cred_len p - 1) 2] x in
              match xdr_reserve_space x (Z.shiftl (loc_words gidarr_len p - 1) 2) with
              | (None, _) => None
              | (Some _, x) =>
                  match xdr_reserve_space x (2 * 4) with
                  | (None, _) => None
                  | (Some p, x) => Some (store p [RPC_AUTH_NULL; 0] x)
                  end
              end
          end
      end
  end.

Definition rpcauth_marshcred (clnt : call_clnt) (cred : rpc_cred) : enc xdr_estream :=
  match cred with
  | null_cred => nul_marshal
  | unix_cred fsuid fsgid gi => unx_marshal clnt fsuid fsgid gi
  end.

Definition rpc_encode_header (clnt : call_clnt) (t : call_task) (x : xdr_estream) : Z * call_task * xdr_estream :=
  match xdr_reserve_space x (Z.shiftl RPC_CALLHDRSIZE 2) with
  | (None, x) => (- EMSGSIZE, rpc_call_rpcerror (- EMSGSIZE) t, x)
  | (Some p, x) =>
      let x := store p [tk_xid t; rpc_call; RPC_VERSION; cl_prog clnt; cl_vers clnt; tk_p_proc t] x in
      match rpcauth_marshcred clnt (tk_cred t) x with
      | None => (- EMSGSIZE, rpc_call_rpcerror (- EMSGSIZE) t, x)
      | Some x => (0, t, x)
      end
  end.

(** The send buffer is [callsize] bytes of [m] from [rq_buffer] on; [buf] holds what the
    descriptor held before.  [None]: [xdr_init_encode] hits its BUG_ON, or the encoder of
    the procedure runs out of space. *)
Definition rpc_xdr_encode (clnt : call_clnt) (p_encode : enc xdr_estream) (m : xdr_mem) (buf : xdr_buf) (rq_buffer callsize : Z) (t : call_task)
    : option (call_task * xdr_estream) :=
  let buf := xdr_buf_init buf rq_buffer callsize in
  let buf := buf <| head := (head buf) <| iov_len := 0 |> |> in
  match xdr_init_encode (mk_estream m 0 buf 0 None (LLin 0) 0 (pages buf - 1)) buf (Some (iov_base (head buf))) with
  | None => None
  | Some x =>
      let '(err, t, x) := rpc_encode_header clnt t x in
      if negb (err =? 0) then Some (t, x)
      else match p_encode x with None => None | Some x => Some (t <| tk_status := 0 |>, x) end
  end.
End Encode.

(** ** Decoding *)

Section Decode.
Context {S : Type} `{XI : XdrIn S}.

(** What a verifier says about the sizes of replies. *)
Definition nul_validate : dec S unit :=
  p <- inline_or (2 * 4) (- EIO);;
  if negb (be32_to_cpu p =? RPC_AUTH_NULL) then dfail (- EIO)
  else if negb (be32_to_cpu (zdrop 4 p) =? 0) then dfail (- EIO)
  else dret tt.

Definition unx_validate : dec S Z :=
  p <- inline_or (2 * 4) (- EIO);;
  let flavor := be32_to_cpu p in
  if negb ((flavor =? RPC_AUTH_NULL) || (flavor =? RPC_AUTH_UNIX) || (flavor =? RPC_AUTH_SHORT)) then dfail (- EIO)
  else
    let size := be32_to_cpu (zdrop 4 p) in
    if RPC_MAX_AUTH_SIZE <? size then dfail (- EIO)
    else _ <- inline_or size (- EIO);; dret (XDR_QUADLEN size + 2).

Definition rpcauth_checkverf (t : call_task) (s : S) : Z * call_task * S :=
  match tk_cred t with
  | null_cred => match nul_validate s with (Ok _, s) => (0, t, s) | (Err e, s) => (e, t, s) end
  | unix_cred _ _ _ =>
      match unx_validate s with
      | (Ok n, s) => (0, t <| tk_auth := (tk_auth t) <| au_verfsize := n |> <| au_rslack := n |> <| au_ralign := n |> |>, s)
      | (Err e, s) => (e, t, s)
      end
  end.

Definition out_err (error : Z) (t : call_task) (s : S) : Z * call_task * S := (error, rpc_call_rpcerror error t, s).
Definition out_garbage (error : Z) (t : call_task) (s : S) : Z * call_task * S :=
  let t := t <| rpcgarbage := rpcgarbage t + 1 |> in
  if negb (tk_garb_retry t =? 0)
  then (- EAGAIN, t <| tk_garb_retry := tk_garb_retry t - 1 |> <| tk_act := call_encode |>, s)
  else out_err error t s.
Definition out_unparsable (t : call_task) (s : S) : Z * call_task * S := out_garbage (- EIO) t s.

(** The answers of a server that refused the credential or verifier. *)
Definition auth_refused (stat : Z) (t : call_task) (s : S) : Z * call_task * S :=
  if (stat =? rpc_autherr_rejectedcred) || (stat =? rpc_autherr_rejectedverf) || (stat =? rpcsec_gsserr_credproblem)
     || (stat =? rpcsec_gsserr_ctxproblem) then
    let t := rpcauth_invalcred t in
    if tk_cred_retry t =? 0 then out_err (- EACCES) t s
    else (- EKEYREJECTED, t <| tk_cred_retry := tk_cred_retry t - 1 |>, s)
  else if (stat =? rpc_autherr_badcred) || (stat =? rpc_autherr_badverf) then
    if tk_garb_retry t =? 0 then out_err (- EACCES) t s
    else (- EAGAIN, t <| tk_garb_retry := tk_garb_retry t - 1 |> <| tk_act := call_encode |>, s)
  else if stat =? rpc_autherr_tooweak then out_err (- EACCES) t s
  else out_unparsable t s.

Definition out_msg_denied (t : call_task) (s : S) : Z * call_task * S :=
  match xdr_inline_decode 4 s with
  | (None, s) => out_unparsable t s
  | (Some p, s) =>
      let stat := be32_to_cpu p in
      if stat =? rpc_auth_error then
        match xdr_inline_decode 4 s with
        | (None, s) => out_unparsable t s
        | (Some p, s) => auth_refused (be32_to_cpu p) t s
        end
      else if stat =? rpc_mismatch then out_err (- EPROTONOSUPPORT) t s
      else out_unparsable t s
  end.

(** [len] is the length of the reply. *)
Definition rpc_decode_header (len : Z) (t : call_task) (s : S) : Z * call_task * S :=
  if negb (Z.land len 3 =? 0) then out_unparsable t s
  else
    match xdr_inline_decode (3 * 4) s with
    | (None, s) => out_unparsable t s
    | (Some p, s) =>
        if negb (be32_to_cpu (zdrop 4 p) =? rpc_reply) then out_unparsable t s
        else if negb (be32_to_cpu (zdrop 8 p) =? rpc_msg_accepted) then out_msg_denied t s
        else
          let '(error, t, s) := rpcauth_checkverf t s in
          if negb (error =? 0) then out_garbage error t s
          else
            match xdr_inline_decode 4 s with
            | (None, s) => out_unparsable t s
            | (Some p, s) =>
                let stat := be32_to_cpu p in
                if stat =? rpc_success then (0, t, s)
                else if stat =? rpc_prog_unavail then out_err (- EPFNOSUPPORT) t s
                else if stat =? rpc_prog_mismatch then out_err (- EPROTONOSUPPORT) t s
                else if stat =? rpc_proc_unavail then out_err (- EOPNOTSUPP) t s
                else if (stat =? rpc_garbage_args) || (stat =? rpc_system_err) then out_garbage (- EIO) t s
                else out_unparsable t s
            end
    end.

(** What becomes of the transport: [xprt_conditional_disconnect], [xprt_release]. *)
Inductive call_effect := Disconnect | Release.

(** [call_decode] from the received reply on; [p_decode] gives the status of the results.
    [rpc_check_timeout] ends the task or leaves it alone. *)
Definition call_decode (rpc_check_timeout : call_task -> call_task) (p_decode : dec S Z) (clnt : call_clnt) (received : bool) (len : Z) (t : call_task)
    (s : S) : call_task * S * list call_effect :=
  let '(err, t, s) := if received then rpc_decode_header len t s else (- EAGAIN, t, s) in
  if err =? 0 then
    let t := t <| tk_act := rpc_exit_task |> in
    match p_decode s with
    | (Ok v, s) => (t <| tk_status := v |>, s, [])
    | (Err e, s) => (t <| tk_status := e |>, s, [])
    end
  else if err =? - EAGAIN then
    (rpc_check_timeout (t <| tk_status := 0 |> <| tk_act := call_encode |>), s, if cl_discrtry clnt then [Disconnect] else [])
  else if err =? - EKEYREJECTED then (rpcauth_invalcred (rpc_check_timeout (t <| tk_act := call_reserve |>)), s, [Release])
  else (t, s, []).
End Decode.
