(* ===== verification/RpcWire.v ===== *)
(** * RPC headers on the wire

    The bytes of a call header and of the replies; that the client's encoder writes
    them, and how the server reads them. *)

From S2P Require Import Prelude Xdr XdrSpec XdrBuf XdrDecode XdrEncode RpcMsg RpcClient RpcServer.

(** ** Memory in pieces *)

Lemma split_area {A} (l : list A) n : 0 <= n <= zlen l -> exists c r, l = c ++ r /\ zlen c = n.
Proof. intros Hn. exists (ztake n l), (zdrop n l). split; [by rewrite ztake_zdrop|llia]. Qed.

Lemma zwrite_here {A} off (s c r : list A) : off = 0 -> zlen c = zlen s -> zwrite off s (c ++ r) = s ++ r.
Proof. intros -> E. rewrite zwrite_0. f_equal. by apply zdrop_app_exact. Qed.

(** Store at a place of a memory that is cut into pieces. *)
Ltac zstore := repeat first [rewrite zwrite_here by (autorewrite with nfs_len; lia) | rewrite zwrite_app_r by (autorewrite with nfs_len; lia)].

Lemma zwrite_glue {A} a (s1 s2 d : list A) :
  0 <= a -> a + zlen s1 + zlen s2 <= zlen d -> zwrite (a + zlen s1) s2 (zwrite a s1 d) = zwrite a (s1 ++ s2) d.
Proof.
  intros Ha Hl. pose proof (zlen_nonneg s1). pose proof (zlen_nonneg s2). destruct (split_area d a) as (P & r & -> & HP); [lia|]. rewrite zlen_app in Hl.
  destruct (split_area r (zlen s1)) as (c1 & r1 & -> & L1); [lia|]. rewrite zlen_app in Hl. destruct (split_area r1 (zlen s2)) as (c2 & r2 & -> & L2); [lia|].
  rewrite !(zwrite_app_r _ _ P) by lia. f_equal. rewrite (zwrite_here _ s1) by lia. rewrite zwrite_app_r, zwrite_here by lia.
  rewrite (app_assoc c1), zwrite_here by llia. by rewrite app_assoc.
Qed.

(** ** Encoding in the head *)

(** A reservation that fits in the rest of the head. *)
Lemma reserve_head x n :
  es_iov x = Some IovHead -> es_scratch_len x = 0 -> 0 <= n <= 4096 -> es_p x + align4 n <= es_end x ->
  xdr_reserve_space x n =
    (Some (LLin (es_p x)), x <| es_p := es_p x + align4 n |> <| es_buf := (grow_cur x (align4 n)) <| xlen := xlen (grow_cur x (align4 n)) + align4 n |> |>).
Proof.
  intros Hi Hs Hn Hf. unfold xdr_reserve_space, xdr_commit_encode. rewrite Hs. cbn [Z.eqb]. rewrite xdr_align_size_align4 by lia.
  rewrite align4_shift by apply align4_mod. pose proof (align4_range n).
  rewrite (proj2 (Z.ltb_ge _ _)), (proj2 (Z.ltb_ge _ _)) by lia. cbn [orb]. unfold es_loc. by rewrite Hi.
Qed.

(** The head with [k] more bytes, when the kvec memory holds [l]. *)
Definition head_with (x : xdr_estream) (k : Z) (l : list byte) : xdr_estream :=
  x <| es_p := es_p x + k |> <| es_buf := (grow_cur x k) <| xlen := xlen (grow_cur x k) + k |> |> <| es_mem := (es_mem x) <| m_lin := l |> |>.

(** The two updates written out. *)
Definition buf_with (b : xdr_buf) (k : Z) : xdr_buf :=
  mk_buf (mk_kvec (iov_base (head b)) (iov_len (head b) + k)) (tail b) (pages b) (page_base b) (page_len b) (flags b) (buflen b) (xlen b + k).
Lemma head_with_mk m p b e sb sl pp k l :
  head_with (mk_estream m p b e (Some IovHead) sb sl pp) k l = mk_estream (mk_mem l (m_pages m)) (p + k) (buf_with b k) e (Some IovHead) sb sl pp.
Proof. reflexivity. Qed.
Lemma put_here_mk m p b e sb sl pp k bs :
  put_here (mk_estream m p b e (Some IovHead) sb sl pp) k bs =
    mk_estream (mk_mem (zwrite p bs (m_lin m)) (m_pages m)) (p + k) (buf_with b k) e (Some IovHead) sb sl pp.
Proof. reflexivity. Qed.
Lemma buf_with_twice b j k : buf_with (buf_with b j) k = buf_with b (j + k).
Proof. unfold buf_with. cbn [head iov_base iov_len tail pages page_base page_len flags buflen xlen]. f_equal; [f_equal; lia|lia]. Qed.

Lemma reserve_head_with x k l n :
  es_iov x = Some IovHead -> es_scratch_len x = 0 -> 0 <= n <= 4096 -> n mod 4 = 0 -> es_p x + k + n <= es_end x ->
  xdr_reserve_space (head_with x k l) n = (Some (LLin (es_p x + k)), head_with x (k + n) l).
Proof.
  intros Hi Hs Hn H4 Hf. rewrite reserve_head; destruct x as [mm p b e iov sb sl pp]; cbn in *; subst iov; rewrite ?align4_id by done; try (done || lia).
  match goal with |- (_, ?y) = _ => change y with (mk_estream (mk_mem l (m_pages mm)) (p + k + n) (buf_with (buf_with b k) n) e (Some IovHead) sb sl pp) end.
  rewrite head_with_mk, buf_with_twice. by rewrite Z.add_assoc.
Qed.

Lemma store_head_with x k l a ws : store (LLin a) ws (head_with x k l) = head_with x k (zwrite a (words ws) l).
Proof. done. Qed.

Lemma put_head_with x k l n bs :
  es_iov x = Some IovHead -> es_scratch_len x = 0 -> 0 <= n <= 4096 -> n mod 4 = 0 -> es_p x + k + n <= es_end x ->
  xdr_put n bs (head_with x k l) = Some (head_with x (k + n) (zwrite (es_p x + k) bs l)).
Proof. intros. change (xdr_put n bs (head_with x k l)) with (stream_put n bs (head_with x k l)). unfold stream_put. by rewrite reserve_head_with. Qed.

Lemma head_with_put x k bs : es_iov x = Some IovHead -> head_with x k (zwrite (es_p x) bs (m_lin (es_mem x))) = put_here x k bs.
Proof. intros Hi. unfold put_here, es_loc. by rewrite Hi. Qed.

Lemma head_with_0 x : es_iov x = Some IovHead -> head_with x 0 (m_lin (es_mem x)) = x.
Proof.
  intros Hi. destruct x as [m p b e iov sb sl pp]. cbn in Hi. subst iov. unfold head_with, grow_cur, iov_grow, field_upd. cbn.
  destruct b as [[hb hl] t pg pb pl fl bl xl], m. cbn. by rewrite !Z.add_0_r.
Qed.

Section Call.
Context (from_kuid_munged from_kgid_munged : Z -> Z).

(** The gids that are sent. *)
Definition sent_gids (gi : option (list Z)) : list Z :=
  match gi with Some gid => from_kgid_munged <$> take (Z.to_nat UNX_NGROUPS) gid | None => [] end.

Definition cred_bytes (name : list byte) (cred : rpc_cred) : list byte :=
  match cred with
  | null_cred => words [RPC_AUTH_NULL; 0; RPC_AUTH_NULL; 0]
  | unix_cred uid gid gi =>
      words [RPC_AUTH_UNIX; 20 + align4 (zlen name) + 4 * zlen (sent_gids gi); 0] ++ w_opaque name ++
      words [from_kuid_munged uid; from_kgid_munged gid; zlen (sent_gids gi)] ++ words (sent_gids gi) ++ words [RPC_AUTH_NULL; 0]
  end.
Definition call_header (clnt : call_clnt) (t : call_task) : list byte :=
  words [tk_xid t; rpc_call; RPC_VERSION; cl_prog clnt; cl_vers clnt; tk_p_proc t] ++ cred_bytes (cl_nodename clnt) (tk_cred t).

Lemma sent_gids_len gi : 0 <= zlen (sent_gids gi) <= UNX_NGROUPS.
Proof. pose proof (zlen_nonneg (sent_gids gi)). split; [done|]. unfold sent_gids. destruct gi; [|done]. rewrite zlen_map. unfold zlen. rewrite length_take. unfold UNX_NGROUPS. lia. Qed.

Lemma zlen_cred_bytes name cred : zlen (cred_bytes name cred) =
  match cred with null_cred => 16 | unix_cred _ _ gi => 36 + align4 (zlen name) + 4 * zlen (sent_gids gi) end.
Proof. destruct cred; cbn [cred_bytes]; autorewrite with nfs_len; lia. Qed.
#[local] Opaque words zwrite.

(** The stores of [unx_marshal], in its order, leave the fields of the credential. *)
Lemma unx_stores (l name : list byte) a n clen ids gids b :
  0 <= a -> zlen ids = 2 -> b = a + 16 + align4 (zlen name) -> b + 20 + 4 * zlen gids <= zlen l ->
  zwrite (b + 12 + 4 * zlen gids) (words [RPC_AUTH_NULL; 0])
    (zwrite (a + 4) (words [clen])
      (zwrite (b + 8) (words [n])
        (zwrite (b + 12) (words gids)
          (zwrite b (words ids)
            (zwrite (a + 12) (w_opaque name)
              (zwrite (a + 8) (words [0]) (zwrite a (words [RPC_AUTH_UNIX]) l)))))))
  = zwrite a (words [RPC_AUTH_UNIX; clen; 0] ++ w_opaque name ++ words (ids ++ [n]) ++ words gids ++ words [RPC_AUTH_NULL; 0]) l.
Proof.
  intros Ha Hi -> Hl. pose proof (align4_range (zlen name)). pose proof (zlen_nonneg name). pose proof (zlen_nonneg gids).
  destruct (split_area l a) as (A & r & -> & HA); [lia|]. rewrite zlen_app in Hl.
  destruct (split_area r 4) as (w0 & r0 & -> & L0); [lia|]. rewrite zlen_app in Hl.
  destruct (split_area r0 4) as (w1 & r1 & -> & L1); [lia|]. rewrite zlen_app in Hl.
  destruct (split_area r1 4) as (w2 & r2 & -> & L2); [lia|]. rewrite zlen_app in Hl.
  destruct (split_area r2 (4 + align4 (zlen name))) as (o & r3 & -> & Ho); [lia|]. rewrite zlen_app in Hl.
  destruct (split_area r3 8) as (u & r4 & -> & Hu); [lia|]. rewrite zlen_app in Hl.
  destruct (split_area r4 4) as (w3 & r5 & -> & L3); [lia|]. rewrite zlen_app in Hl.
  destruct (split_area r5 (4 * zlen gids)) as (g & r6 & -> & Hg); [lia|]. rewrite zlen_app in Hl.
  destruct (split_area r6 8) as (v & Z0 & -> & Hv); [lia|].
  change (words [RPC_AUTH_UNIX; clen; 0]) with (words ([RPC_AUTH_UNIX] ++ [clen] ++ [0])). rewrite !words_app.
  transitivity (A ++ words [RPC_AUTH_UNIX] ++ words [clen] ++ words [0] ++ w_opaque name ++ words ids ++ words [n] ++ words gids ++ words [RPC_AUTH_NULL; 0] ++ Z0).
  - zstore. done.
  - replace (w0 ++ w1 ++ w2 ++ o ++ u ++ w3 ++ g ++ v ++ Z0) with ((w0 ++ w1 ++ w2 ++ o ++ u ++ w3 ++ g ++ v) ++ Z0) by by rewrite <- !app_assoc.
    zstore. by rewrite <- !app_assoc.
Qed.

Lemma unx_marshal_head clnt uid gid gi x :
  es_iov x = Some IovHead -> es_scratch_len x = 0 -> cl_nodelen clnt = zlen (cl_nodename clnt) -> zlen (cl_nodename clnt) <= UNX_MAXNODENAME ->
  0 <= es_p x -> es_p x mod 4 = 0 -> es_p x + zlen (cred_bytes (cl_nodename clnt) (unix_cred uid gid gi)) <= es_end x <= zlen (m_lin (es_mem x)) ->
  unx_marshal from_kuid_munged from_kgid_munged clnt uid gid gi x =
    Some (put_here x (zlen (cred_bytes (cl_nodename clnt) (unix_cred uid gid gi))) (cred_bytes (cl_nodename clnt) (unix_cred uid gid gi))).
Proof.
  intros Hi Hs Hnl Hn Hp H4 Hf. rewrite zlen_cred_bytes in *. pose proof (sent_gids_len gi) as Hg. unfold UNX_MAXNODENAME, UNX_NGROUPS in *.
  set (name := cl_nodename clnt) in *. pose proof (zlen_nonneg name). pose proof (align4_range (zlen name)). pose proof (align4_mod (zlen name)).
  rewrite <- (head_with_0 x Hi) at 1. unfold unx_marshal. rewrite reserve_head_with by (done || lia). rewrite !store_head_with.
  unfold xdr_stream_encode_opaque. fold name. rewrite Hnl. rewrite xdr_align_size_align4 by lia. rewrite xdr_encode_opaque_spec by lia.
  cbn [loc_add]. rewrite !store_head_with. rewrite put_head_with by (done || lia || zlia). 
  rewrite reserve_head_with by (done || lia). cbn [loc_add]. fold (sent_gids gi). rewrite !store_head_with.
  cbn [loc_words].
  set (g := zlen (sent_gids gi)) in *. set (q := align4 (zlen name)) in *.
  replace ((es_p x + (0 + 3 * 4 + (4 + q)) + 8 + 4 + 4 * g - (es_p x + (0 + 3 * 4 + (4 + q)) + 8)) / 4 - 1) with g by zlia.
  replace (Z.shiftl ((es_p x + (0 + 3 * 4 + (4 + q)) + 8 + 4 + 4 * g - (es_p x + 0 + 4)) / 4 - 1) 2) with (20 + q + 4 * g)
    by (rewrite Z.shiftl_mul_pow2 by lia; zlia).
  rewrite (Z.shiftl_mul_pow2 g) by lia. change (2 ^ 2) with 4.
  rewrite reserve_head_with by (done || lia || zlia). rewrite reserve_head_with by (done || lia).
  rewrite store_head_with. rewrite <- (head_with_put x _ _ Hi). f_equal. f_equal; [lia|].
  cbn [cred_bytes]. change ([from_kuid_munged uid; from_kgid_munged gid; zlen (sent_gids gi)]) with ([from_kuid_munged uid; from_kgid_munged gid] ++ [g]).
  rewrite <- (unx_stores (m_lin (es_mem x)) name (es_p x) g _ _ _ (es_p x + 16 + q)) by (done || lia).
  repeat (f_equal; [lia|]). repeat (f_equal; try lia).
Qed.

Lemma nul_marshal_head x :
  es_iov x = Some IovHead -> es_scratch_len x = 0 -> es_p x + 16 <= es_end x ->
  nul_marshal x = Some (put_here x 16 (words [RPC_AUTH_NULL; 0; RPC_AUTH_NULL; 0])).
Proof.
  intros Hi Hs Hf. rewrite <- (head_with_0 x Hi) at 1. unfold nul_marshal. rewrite reserve_head_with by (done || lia). rewrite store_head_with.
  rewrite <- (head_with_put x _ _ Hi). do 3 f_equal; lia.
Qed.

Lemma put_here_twice x k1 b1 k2 b2 :
  es_iov x = Some IovHead -> 0 <= es_p x -> zlen b1 = k1 -> es_p x + k1 + zlen b2 <= zlen (m_lin (es_mem x)) ->
  put_here (put_here x k1 b1) k2 b2 = put_here x (k1 + k2) (b1 ++ b2).
Proof.
  intros Hi Hp Hb Hl. pose proof (zlen_nonneg b2). pose proof (zlen_nonneg b1).
  destruct x as [[lin pgs] p b e iov sb sl pp]. cbn [es_iov es_p es_mem m_lin] in *. subst iov.
  rewrite !put_here_mk, buf_with_twice, Z.add_assoc. cbn [m_lin m_pages]. do 2 f_equal. rewrite <- Hb. apply zwrite_glue; lia.
Qed.

(** The whole header, in a head that has room for it. *)
Lemma rpc_encode_header_head clnt t x :
  enc_ok x -> es_iov x = Some IovHead -> es_p x mod 4 = 0 -> cl_nodelen clnt = zlen (cl_nodename clnt) -> zlen (cl_nodename clnt) <= UNX_MAXNODENAME ->
  es_p x + zlen (call_header clnt t) <= es_end x ->
  rpc_encode_header from_kuid_munged from_kgid_munged clnt t x = (0, t, put_here x (zlen (call_header clnt t)) (call_header clnt t)).
Proof.
  intros [Hb Hph] Hi H4 Hnl Hn Hf. rewrite Hi in Hph. destruct (ok_head _ _ Hb) as (? & ? & ?). destruct Hph as (Hs & ? & ? & ? & ? & Hp & Hend & _).
  unfold call_header in *. rewrite zlen_app in *. change (zlen (words [tk_xid t; rpc_call; RPC_VERSION; cl_prog clnt; cl_vers clnt; tk_p_proc t])) with 24 in *.
  pose proof (zlen_nonneg (cred_bytes (cl_nodename clnt) (tk_cred t))).
  unfold rpc_encode_header. rewrite <- (head_with_0 x Hi) at 1. change (Z.shiftl RPC_CALLHDRSIZE 2) with 24. rewrite reserve_head_with by (done || lia).
  rewrite store_head_with, Z.add_0_r, Z.add_0_l. rewrite (head_with_put x _ _ Hi).
  set (y := put_here x 24 _).
  assert (rpcauth_marshcred from_kuid_munged from_kgid_munged clnt (tk_cred t) y =
    Some (put_here y (zlen (cred_bytes (cl_nodename clnt) (tk_cred t))) (cred_bytes (cl_nodename clnt) (tk_cred t)))) as ->.
  { assert (es_p y = es_p x + 24) as Ey by done. assert (es_end y = es_end x) as Ee by done. assert (es_iov y = Some IovHead) as Eiy by done.
    assert (zlen (m_lin (es_mem y)) = zlen (m_lin (es_mem x))) as El.
    { unfold y, put_here, es_loc. rewrite Hi. cbn. apply zlen_zwrite; [lia|]. change (zlen (words _)) with 24. lia. }
    destruct (tk_cred t) as [|uid gid gi]; cbn [rpcauth_marshcred].
    - rewrite zlen_cred_bytes in *. by rewrite nul_marshal_head by (done || lia).
    - apply unx_marshal_head; try done; try lia. rewrite Ey. zlia. }
  f_equal. unfold y. apply put_here_twice; try done; lia.
Qed.
Lemma zlen_call_header_mod clnt t : zlen (call_header clnt t) mod 4 = 0.
Proof.
  unfold call_header. rewrite zlen_app, zlen_cred_bytes. autorewrite with nfs_len. pose proof (align4_mod (zlen (cl_nodename clnt))). destruct (tk_cred t); [done|]. zlia.
Qed.

(** What the credential needs is inside what [call_allocate] counts twice. *)
Definition cred_auth (cred : rpc_cred) : rpc_auth := match cred with null_cred => null_auth | unix_cred _ _ _ => unix_auth end.

Lemma call_header_fits clnt t p_arglen :
  zlen (cl_nodename clnt) <= UNX_MAXNODENAME -> au_cslack (tk_auth t) = au_cslack (cred_auth (tk_cred t)) ->
  zlen (call_header clnt t) + 4 * p_arglen <= rq_callsize (tk_auth t) p_arglen.
Proof.
  intros Hn Ha. unfold rq_callsize, call_header. rewrite Ha, zlen_app, zlen_cred_bytes. rewrite !Z.shiftl_mul_pow2 by lia.
  change (zlen (words [tk_xid t; rpc_call; RPC_VERSION; cl_prog clnt; cl_vers clnt; tk_p_proc t])) with 24. unfold UNX_MAXNODENAME in Hn.
  pose proof (align4_mono _ _ Hn) as Hq. change (align4 64) with 64 in Hq. destruct (tk_cred t) as [|uid gid gi]; cbn [cred_auth au_cslack null_auth unix_auth].
  - unfold NUL_CALLSLACK, RPC_CALLHDRSIZE. lia.
  - pose proof (sent_gids_len gi). change UNX_CALLSLACK with 37. unfold RPC_CALLHDRSIZE, UNX_NGROUPS in *. lia.
Qed.

Lemma rpc_xdr_encode_ok clnt p_encode m buf rq_buffer p_arglen t w :
  pages_ok m -> page_base buf = 0 -> kvec_ok m (mk_kvec (iov_base (tail buf)) 0) -> 0 <= rq_buffer -> rq_buffer mod 4 = 0 -> 0 <= p_arglen ->
  rq_buffer + rq_callsize (tk_auth t) p_arglen <= zlen (m_lin m) ->
  cl_nodelen clnt = zlen (cl_nodename clnt) -> zlen (cl_nodename clnt) <= UNX_MAXNODENAME -> au_cslack (tk_auth t) = au_cslack (cred_auth (tk_cred t)) ->
  encodes p_encode w -> zlen w <= 4 * p_arglen ->
  exists x, rpc_xdr_encode from_kuid_munged from_kgid_munged clnt p_encode m buf rq_buffer (rq_callsize (tk_auth t) p_arglen) t = Some (t <| tk_status := 0 |>, x) /\
    enc_ok x /\ enc_out x = call_header clnt t ++ w.
Proof.
  intros Hm Hpb Ht Hb H4 Hpa Hr Hnl Hn Hau He Hw. pose proof (call_header_fits clnt t p_arglen Hn Hau) as Hfit. set (cs := rq_callsize (tk_auth t) p_arglen) in *.
  assert (cs mod 4 = 0) as Hc4. { unfold cs, rq_callsize. rewrite (Z.shiftl_mul_pow2 _ 2) by lia. zlia. }
  pose proof (zlen_nonneg w). pose proof (zlen_nonneg (call_header clnt t)).
  unfold rpc_xdr_encode. set (b := (xdr_buf_init buf rq_buffer cs) <| head := (head (xdr_buf_init buf rq_buffer cs)) <| iov_len := 0 |> |>).
  set (x0 := mk_estream m 0 b 0 None (LLin 0) 0 (pages b - 1)).
  destruct (xdr_init_encode_ok x0 b) as (x & E & Ex & Ei & Eo & Er); try done.
  { split; cbn; [unfold kvec_ok; cbn; lia|done|done|split_and!; (done || lia)|]. rewrite Hpb. pose proof (zlen_nonneg (m_pages m)). unfold PAGE_SIZE. lia. }
  { cbn. lia. } { cbn. by rewrite Z.sub_0_r. } { cbn. apply zlen_nonneg. }
  assert (xdr_init_encode x0 b (Some (iov_base (head b))) = Some x) as E'.
  { rewrite <- E. unfold xdr_init_encode. cbn -[Z.sub Z.ltb Z.eqb]. by rewrite (Z.add_0_r rq_buffer), Z.eqb_refl. }
  assert (es_iov x = Some IovHead /\ es_p x = rq_buffer /\ es_end x = rq_buffer + cs) as (Hi & Hp & Hend).
  { revert E. clear. unfold xdr_init_encode. cbn -[Z.sub Z.ltb]. repeat case_match; try done; intros [= <-]; cbn; split_and!; lia || done. }
  rewrite E'. cbv iota beta.
  rewrite rpc_encode_header_head by (done || lia || (rewrite Hp; done)). cbn [Z.eqb negb].
  destruct (put_inside_head x (zlen (call_header clnt t)) (call_header clnt t) Ex Hi) as (Ok1 & Out1 & Room1 & _); [lia|apply zlen_call_header_mod|done|lia|].
  destruct (He _ Ok1) as (x' & Ee & Ok2 & Out2 & _); [change (xo_room ?y) with (enc_room y); rewrite Room1, Er; cbn; lia|].
  exists x'. rewrite Ee. split; [done|]. split; [exact Ok2|]. change (xo_out ?y) with (enc_out y) in Out2. rewrite Out2, Out1, Eo. f_equal.
Qed.
End Call.
