(* ===== verification/RpcRead.v ===== *)
(** * How the server reads a call

    What the functions of RpcServer take from a message that is wholly in the head, and
    that they never leave it. *)

From S2P Require Import Prelude Xdr XdrBuf RpcMsg RpcServer.

Lemma dbind_ok {S A B} (m : dec S A) (k : A -> dec S B) s a s' : m s = (Ok a, s') -> dbind m k s = k a s'.
Proof. unfold dbind. by intros ->. Qed.

Lemma dbind_mod {B} (f : svc_rqst -> svc_rqst) (k : unit -> dec svc_rqst B) rq : dbind (dmod f) k rq = k tt (f rq).
Proof. reflexivity. Qed.

Lemma s32_neg_small z : - 2 ^ 31 <= z < 2 ^ 31 -> s32 z = z.
Proof. intros. unfold s32, u32. destruct (Z.ltb_spec (z mod 2 ^ 32) (2 ^ 31)); zlia. Qed.

(** ** A call that is what the head holds *)

Definition adv (rq : svc_rqst) (n : Z) : svc_rqst := rq <| rq_arg := mk_kvec (iov_base (rq_arg rq) + n) (iov_len (rq_arg rq) - n) |>.

(** The rest of the head is [bs]. *)
Record at_arg (rq : svc_rqst) (bs : list byte) : Prop := {
  aa_base : 0 <= iov_base (rq_arg rq);
  aa_len : iov_len (rq_arg rq) = zlen bs;
  aa_max : zlen bs < 2 ^ 31;
  aa_bytes : ztake (zlen bs) (zdrop (iov_base (rq_arg rq)) (rq_mem rq)) = bs;
}.

Lemma at_adv rq a bs : at_arg rq (a ++ bs) -> at_arg (adv rq (zlen a)) bs.
Proof.
  intros [Hb Hl Hm Hy]. pose proof (zlen_nonneg a). pose proof (zlen_nonneg bs). rewrite zlen_app in *. split; cbn; [lia|lia|lia|].
  rewrite <- (zdrop_zdrop (zlen a)) by lia. replace (zlen bs) with (zlen a + zlen bs - zlen a) by lia. rewrite <- zdrop_ztake by lia. rewrite Hy. by apply zdrop_app_exact.
Qed.

Lemma at_same rq rq' bs : rq_arg rq' = rq_arg rq -> rq_mem rq' = rq_mem rq -> at_arg rq bs -> at_arg rq' bs.
Proof. intros E1 E2 []. split; by rewrite ?E1, ?E2. Qed.

Lemma be32_to_cpu_take n l : 4 <= n -> be32_to_cpu (ztake n l) = be32_to_cpu l.
Proof.
  intros Hn. unfold ztake. destruct (Z.to_nat n) as [|[|[|[|k]]]] eqn:E; try lia. destruct l as [|a [|b [|c [|d l]]]]; reflexivity.
Qed.

Lemma getnl_at rq v bs : at_arg rq (be32 v ++ bs) -> svc_getnl rq = (Ok (u32 v), adv rq 4) /\ at_arg (adv rq 4) bs.
Proof.
  intros A. pose proof (at_adv _ _ _ A) as A'. destruct A as [Hb Hl Hm Hy]. rewrite zlen_app, zlen_be32 in *. pose proof (zlen_nonneg bs).
  split; [|exact A']. unfold svc_getnl, adv. f_equal.
  - f_equal. rewrite <- (be32_to_cpu_take (4 + zlen bs)) by lia. rewrite Hy. apply be32_to_cpu_app.
  - rewrite u64_id; [done|]. unfold is_u64. lia.
Qed.

Lemma skip_at rq n a bs : at_arg rq (a ++ bs) -> n = zlen a -> skip_arg n rq = (Ok tt, adv rq n) /\ at_arg (adv rq n) bs.
Proof.
  intros A ->. split; [|by apply at_adv]. destruct A as [Hb Hl Hm Hy]. rewrite zlen_app in *. pose proof (zlen_nonneg a). pose proof (zlen_nonneg bs).
  unfold skip_arg, adv. rewrite u64_id; [done|]. unfold is_u64. lia.
Qed.

Lemma adv_adv rq m n : adv (adv rq m) n = adv rq (m + n).
Proof. unfold adv. cbn. unfold field_upd. cbn. do 2 f_equal; lia. Qed.

Lemma adv_set_cred f rq n : adv (set_cred f rq) n = set_cred f (adv rq n).
Proof. reflexivity. Qed.

(** The same head in a request that differs elsewhere. *)
Ltac at_move A Y :=
  lazymatch type of A with at_arg ?X ?b =>
    let A' := fresh in assert (at_arg Y b) as A' by (apply (at_same X); [reflexivity|reflexivity|exact A]); clear A; rename A' into A end.
(** Take the next word. *)
Ltac take_word A :=
  let E := fresh "E" in let A' := fresh "A" in
  destruct (getnl_at _ _ _ A) as [E A']; rewrite (dbind_ok _ _ _ _ _ E); clear A E; rename A' into A; rewrite ?adv_set_cred, ?adv_adv in A; rewrite ?adv_set_cred, ?adv_adv.
Ltac skip_mod := rewrite (dbind_ok (dmod _) _ _ tt _ eq_refl).
Ltac mod_step A :=
  skip_mod; lazymatch type of A with at_arg ?r ?b => lazymatch goal with |- context [set_cred ?f r] => apply (at_same r (set_cred f r) b eq_refl eq_refl) in A end end.

Section Accept.
Context (make_kuid make_kgid : Z -> Z) (groups_sort : list Z -> list Z).

Lemma get_gids_at gids : Forall is_u32 gids -> forall rq bs, at_arg rq (words gids ++ bs) ->
  get_gids make_kgid (length gids) rq = (Ok (make_kgid <$> gids), adv rq (4 * zlen gids)) /\ at_arg (adv rq (4 * zlen gids)) bs.
Proof.
  induction 1 as [|g gids Hg _ IH]; intros rq bs A.
  - cbn. change (4 * zlen []) with 0. assert (adv rq 0 = rq) as Ez. { unfold adv. rewrite Z.add_0_r, Z.sub_0_r. destruct rq as [? []]. reflexivity. } rewrite Ez. done.
  - cbn [length get_gids]. rewrite words_cons, <- app_assoc in A. take_word A. destruct (IH _ _ A) as [E A2].
    rewrite (dbind_ok _ _ _ _ _ E). rewrite adv_adv in *. rewrite zlen_cons. replace (4 * (1 + zlen gids)) with (4 + 4 * zlen gids) by lia.
    split; [|done]. cbn [fmap list_fmap]. by rewrite (u32_id g).
Qed.

Lemma null_accept_at rq bs : at_arg rq (words [0; RPC_AUTH_NULL; 0] ++ bs) ->
  exists rq', svcauth_null_accept false rq = (Ok tt, rq') /\ at_arg rq' bs /\
    rq' = (adv rq 12) <| rq_res := rq_res rq ++ words [RPC_AUTH_NULL; 0] |> <| rq_cred := mk_cred INVALID_ID INVALID_ID (Some []) RPC_AUTH_NULL |>.
Proof.
  intros A. unfold svcauth_null_accept. pose proof (aa_len _ _ A) as Hl. rewrite !words_cons, <- !app_assoc in *. change (words [] ++ bs) with bs in *.
  rewrite (dbind_ok arg_len _ _ _ _ eq_refl). rewrite Hl. autorewrite with nfs_len. pose proof (zlen_nonneg bs). rewrite (proj2 (Z.ltb_ge _ _)) by lia.
  take_word A. change (negb (u32 0 =? 0)) with false. cbv iota. take_word A. change (negb (u32 RPC_AUTH_NULL =? RPC_AUTH_NULL)) with false. cbv iota.
  take_word A. change (negb (u32 0 =? 0)) with false. cbv iota. do 4 skip_mod. cbv iota. eexists. split; [reflexivity|].
  split; [by apply (at_same (adv rq 12))|].
  change (words [RPC_AUTH_NULL; 0]) with (be32 RPC_AUTH_NULL ++ be32 0). rewrite (app_assoc (rq_res rq)). destruct rq as [? ? ? ? ? ? ? []]. reflexivity.
Qed.

Lemma unix_accept_at rq name uid gid gids clen stamp bs :
  zlen name <= UNX_MAXNODENAME -> zlen gids <= UNX_NGROUPS -> Forall is_u32 gids ->
  at_arg rq (words [clen; stamp] ++ w_opaque name ++ words [uid; gid; zlen gids] ++ words gids ++ words [RPC_AUTH_NULL; 0] ++ bs) ->
  exists rq', svcauth_unix_accept make_kuid make_kgid groups_sort false rq = (Ok tt, rq') /\ at_arg rq' bs /\
    rq' = (adv rq (32 + align4 (zlen name) + 4 * zlen gids)) <| rq_res := rq_res rq ++ words [RPC_AUTH_NULL; 0] |>
            <| rq_cred := mk_cred (make_kuid (u32 uid)) (make_kgid (u32 gid)) (Some (groups_sort (make_kgid <$> gids))) RPC_AUTH_UNIX |>.
Proof.
  intros Hn Hg Fg A. unfold svcauth_unix_accept. pose proof (aa_len _ _ A) as Hl. pose proof (aa_max _ _ A) as Hm. unfold UNX_MAXNODENAME, UNX_NGROUPS in *.
  pose proof (zlen_nonneg name). pose proof (zlen_nonneg gids). pose proof (zlen_nonneg bs). pose proof (align4_range (zlen name)). autorewrite with nfs_len in Hl, Hm.
  unfold w_opaque in A. rewrite !words_cons, <- !app_assoc in A. change (words [] ++ ?l) with l in A.
  rewrite (dbind_ok arg_len _ _ _ _ eq_refl). rewrite Hl. rewrite (s32_small (_ + _)) by lia. rewrite s32_small by lia. rewrite (proj2 (Z.ltb_ge _ _)) by lia.
  take_word A. take_word A. take_word A. rewrite (u32_id (zlen name)) by (unfold is_u32; lia). rewrite XDR_QUADLEN_div by lia.
  assert (4 * ((zlen name + 3) / 4) = align4 (zlen name)) as Eq by done. pose proof (align4_mono _ _ Hn) as Hq. change (align4 64) with 64 in Hq.
  rewrite s32_small by lia. rewrite (proj2 (Z.ltb_ge 64 _)), (proj2 (Z.ltb_ge _ 0)) by lia. cbv iota. cbn [orb].
  destruct (skip_at _ ((zlen name + 3) / 4 * 4) _ _ A) as [Es A2]; [rewrite zlen_w_fixed; lia|]. rewrite (dbind_ok _ _ _ _ _ Es). clear A Es.
  rewrite !adv_adv in *. take_word A2. take_word A2. mod_step A2. take_word A2. rewrite (u32_id (zlen gids)) by (unfold is_u32; lia).
  rewrite s32_small by lia. rewrite (proj2 (Z.ltb_ge _ 0)), (proj2 (Z.ltb_ge _ (zlen gids))) by lia. cbn [orb].
  replace (Z.to_nat (zlen gids)) with (length gids) by (unfold zlen; lia). destruct (get_gids_at gids Fg _ _ A2) as [Eg A3]. rewrite (dbind_ok _ _ _ _ _ Eg). clear A2 Eg.
  rewrite !adv_set_cred, !adv_adv in *. mod_step A3. take_word A3. change (negb (u32 RPC_AUTH_NULL =? RPC_AUTH_NULL)) with false. cbv iota.
  take_word A3. change (negb (u32 0 =? 0)) with false. cbv iota. do 2 skip_mod. eexists. split; [reflexivity|].
  split; [by eapply at_same; [..|exact A3]|].
  replace (32 + align4 (zlen name) + 4 * zlen gids) with (4 + 4 + 4 + (zlen name + 3) / 4 * 4 + 4 + 4 + 4 + 4 * zlen gids + 4 + 4) by lia.
  change (words [RPC_AUTH_NULL; 0]) with (be32 RPC_AUTH_NULL ++ be32 0). rewrite (app_assoc (rq_res rq)). destruct rq as [? ? ? ? ? ? ? []]. reflexivity.
Qed.
End Accept.

(** ** Calls *)

Section Calls.
Context (make_kuid make_kgid : Z -> Z) (groups_sort : list Z -> list Z) {st : Type} (sv_programs : list (svc_program st)).
Notation tab := (authtab make_kuid make_kgid groups_sort false).

(** The request after the fixed part of the header. *)
Definition with_header (xid prog vers proc : Z) (rq : svc_rqst) : svc_rqst :=
  (adv rq 16) <| rq_res := words [xid; 1; 0] |> <| rq_prog := prog |> <| rq_vers := vers |> <| rq_proc := proc |> <| rq_splice_ok := true |>
    <| rq_usedeferral := true |> <| rq_dropme := false |>.

Lemma read_header_at rq prog vers proc bs :
  is_u32 prog -> is_u32 vers -> is_u32 proc -> rq_res rq = [] -> at_arg rq (words [RPC_VERSION; prog; vers; proc] ++ bs) ->
  read_header sv_programs rq = (Ok (8, find_program sv_programs prog), with_header (rq_xid rq) prog vers proc rq) /\
  at_arg (with_header (rq_xid rq) prog vers proc rq) bs.
Proof.
  intros Hp Hv Hc Er A. rewrite !words_cons, <- !app_assoc in A. change (words [] ++ ?l) with l in A.
  set (rq0 := svc_putnl (rq_xid rq) (rq <| rq_splice_ok := true |> <| rq_usedeferral := true |> <| rq_dropme := false |>)).
  assert (at_arg rq0 (be32 RPC_VERSION ++ be32 prog ++ be32 vers ++ be32 proc ++ bs)) as A0 by by apply (at_same rq).
  unfold read_header. rewrite dbind_mod. cbv beta. change (svc_putnl _ _) with rq0. take_word A0. rewrite dbind_mod.
  change (negb (u32 RPC_VERSION =? RPC_VERSION)) with false. cbv iota.
  assert (zlen (rq_res (svc_putnl 1 (adv rq0 4))) = 8) as E8. { cbn. by rewrite Er. }
  rewrite (dbind_ok _ _ _ 8 (svc_putnl 1 (adv rq0 4))) by by rewrite E8. rewrite dbind_mod.
  set (rq1 := svc_putnl 0 (svc_putnl 1 (adv rq0 4))). assert (at_arg rq1 (be32 prog ++ be32 vers ++ be32 proc ++ bs)) as A1 by by apply (at_same (adv rq0 4)). clear A0 A.
  take_word A1. rewrite !(u32_id prog) by done. rewrite dbind_mod. cbv beta.
  at_move A1 ((adv rq1 4) <| rq_prog := prog |>). take_word A1. rewrite !(u32_id vers) by done. rewrite dbind_mod. cbv beta.
  set (rq2 := adv (_ <| rq_prog := _ |>) 4) in *.
  at_move A1 (rq2 <| rq_vers := vers |>). take_word A1. rewrite !(u32_id proc) by done. rewrite dbind_mod. cbv beta.
  set (rq3 := adv (_ <| rq_vers := _ |>) 4) in *.
  assert (rq3 <| rq_proc := proc |> = with_header (rq_xid rq) prog vers proc rq) as E3.
  { unfold with_header. change 16 with (4 + 4 + 4 + 4). rewrite <- !adv_adv. subst rq3 rq2 rq1 rq0. destruct rq. cbn in Er. subst. reflexivity. }
  split; [by rewrite E3|]. rewrite <- E3. by apply (at_same rq3).
Qed.

(** The fixed part of a call that has room for a credential. *)
Lemma svc_process_start atab rq s xid prog vers proc bs :
  is_u32 xid -> is_u32 prog -> is_u32 vers -> is_u32 proc -> 8 <= zlen bs -> at_arg rq (words [xid; rpc_call; RPC_VERSION; prog; vers; proc] ++ bs) ->
  let rq2 := with_header xid prog vers proc (adv (((adv rq 4) <| rq_xid := xid |>) <| rq_res := [] |>) 4) in
  svc_process atab sv_programs (svc_recv_xid rq) s =
    auth_switch atab 8 (find_program sv_programs prog) (authenticate atab (find_program sv_programs prog) rq2) s /\ at_arg rq2 bs.
Proof.
  intros Hx Hp Hv Hc Hz A. rewrite !words_cons, <- !app_assoc in A. change (words [] ++ ?l) with l in A.
  destruct (getnl_at _ _ _ A) as [Ex A1]. unfold svc_recv_xid. rewrite Ex. rewrite (u32_id xid) by done.
  set (rq0 := (adv rq 4) <| rq_xid := xid |>). unfold svc_process. at_move A1 (rq0 <| rq_res := [] |>). destruct (getnl_at _ _ _ A1) as [Ed A2]. rewrite Ed. clear Ed A1 A.
  change (negb (u32 rpc_call =? 0)) with false. cbv iota. unfold svc_process_common. pose proof (aa_len _ _ A2) as Hl.
  autorewrite with nfs_len in Hl. rewrite (proj2 (Z.ltb_ge _ _)) by (rewrite Hl; lia).
  change (be32 RPC_VERSION ++ be32 prog ++ be32 vers ++ be32 proc ++ ?l) with (words [RPC_VERSION; prog; vers; proc] ++ l) in A2.
  assert (rq_res (adv (rq0 <| rq_res := [] |>) 4) = []) as Er by reflexivity.
  destruct (read_header_at (adv (rq0 <| rq_res := [] |>) 4) prog vers proc _ Hp Hv Hc Er A2) as [Eh A3]. rewrite Eh. split; [reflexivity|exact A3].
Qed.

(** The request after the credential. *)
Definition with_cred (n flavor : Z) (cred : svc_cred) (rq : svc_rqst) : svc_rqst :=
  (adv rq n) <| rq_res := rq_res rq ++ words [RPC_AUTH_NULL; 0] |> <| rq_cred := cred |> <| rq_authop := Some flavor |>
    <| rq_auth_stat := rpc_auth_ok |> <| rq_auth_slack := 0 |>.

Lemma authenticate_null_at rq bs : at_arg rq (words [RPC_AUTH_NULL; 0; RPC_AUTH_NULL; 0] ++ bs) ->
  let rq' := with_cred 16 RPC_AUTH_NULL (mk_cred INVALID_ID INVALID_ID (Some []) RPC_AUTH_NULL) rq in
  svc_authenticate tab rq = (Ok tt, rq') /\ at_arg rq' bs.
Proof.
  intros A. unfold svc_authenticate. rewrite dbind_mod. cbv beta. rewrite words_cons, <- app_assoc in A. at_move A (rq <| rq_auth_stat := rpc_auth_ok |>).
  take_word A. change (svc_get_auth_ops tab (u32 RPC_AUTH_NULL)) with (Some (svcauth_null false)). cbv iota. rewrite dbind_mod. cbv beta.
  set (rq1 := set_cred _ _). at_move A rq1. destruct (null_accept_at _ _ A) as (rq2 & E & A2 & ->). cbn [accept svcauth_null]. rewrite E.
  assert (forall x y : svc_rqst, x = y -> at_arg x bs -> (@Ok unit tt, x) = (Ok tt, y) /\ at_arg y bs) as X by (intros ? ? -> ?; done).
  apply X; [|exact A2]. subst rq1. unfold with_cred. change 16 with (4 + 12). rewrite <- adv_adv. destruct rq as [? ? ? ? ? ? ? []]. reflexivity.
Qed.

Lemma authenticate_unix_at rq name uid gid gids clen stamp bs :
  zlen name <= UNX_MAXNODENAME -> zlen gids <= UNX_NGROUPS -> Forall is_u32 gids ->
  at_arg rq (words [RPC_AUTH_UNIX; clen; stamp] ++ w_opaque name ++ words [uid; gid; zlen gids] ++ words gids ++ words [RPC_AUTH_NULL; 0] ++ bs) ->
  let rq' := with_cred (36 + align4 (zlen name) + 4 * zlen gids) RPC_AUTH_UNIX
               (mk_cred (make_kuid (u32 uid)) (make_kgid (u32 gid)) (Some (groups_sort (make_kgid <$> gids))) RPC_AUTH_UNIX) rq in
  svc_authenticate tab rq = (Ok tt, rq') /\ at_arg rq' bs.
Proof.
  intros Hn Hg Fg A. unfold svc_authenticate. rewrite dbind_mod. cbv beta. rewrite words_cons, <- app_assoc in A. at_move A (rq <| rq_auth_stat := rpc_auth_ok |>).
  take_word A. change (svc_get_auth_ops tab (u32 RPC_AUTH_UNIX)) with (Some (svcauth_unix make_kuid make_kgid groups_sort false)). cbv iota. rewrite dbind_mod. cbv beta.
  set (rq1 := set_cred _ _). at_move A rq1. destruct (unix_accept_at make_kuid make_kgid groups_sort _ _ _ _ _ _ _ _ Hn Hg Fg A) as (rq2 & E & A2 & ->).
  cbn [accept svcauth_unix]. rewrite E.
  assert (forall x y : svc_rqst, x = y -> at_arg x bs -> (@Ok unit tt, x) = (Ok tt, y) /\ at_arg y bs) as X by (intros ? ? -> ?; done).
  apply X; [|exact A2]. subst rq1. unfold with_cred. replace (36 + align4 (zlen name) + 4 * zlen gids) with (4 + (32 + align4 (zlen name) + 4 * zlen gids)) by lia.
  rewrite <- (adv_adv rq 4). destruct rq as [? ? ? ? ? ? ? []]. reflexivity.
Qed.

(** A credential of less than three words after its flavor. *)
Lemma authenticate_short rq flavor rest : flavor = RPC_AUTH_NULL \/ flavor = RPC_AUTH_UNIX -> 4 <= zlen rest < 12 -> at_arg rq (be32 flavor ++ rest) ->
  exists rq', svc_authenticate tab rq = (Err SVC_GARBAGE, rq') /\ rq_res rq' = rq_res rq.
Proof.
  intros Hf Hr A. unfold svc_authenticate. rewrite dbind_mod. cbv beta. at_move A (rq <| rq_auth_stat := rpc_auth_ok |>). take_word A. pose proof (aa_len _ _ A) as Hl.
  set (rq1 := adv _ 4) in *. assert (rq_res rq1 = rq_res rq) as Er by reflexivity. clearbody rq1.
  destruct Hf as [->| ->].
  - change (svc_get_auth_ops tab (u32 RPC_AUTH_NULL)) with (Some (svcauth_null false)). cbv iota. rewrite dbind_mod. cbv beta. cbn [accept svcauth_null].
    unfold svcauth_null_accept. rewrite (dbind_ok arg_len _ _ _ _ eq_refl). set (rq2 := set_cred _ _). assert (iov_len (rq_arg rq2) = zlen rest) as El by exact Hl.
    rewrite (proj2 (Z.ltb_lt (iov_len (rq_arg rq2)) (3 * 4))) by (rewrite El; lia). exists rq2. split; [reflexivity|exact Er].
  - change (svc_get_auth_ops tab (u32 RPC_AUTH_UNIX)) with (Some (svcauth_unix make_kuid make_kgid groups_sort false)). cbv iota. rewrite dbind_mod. cbv beta. cbn [accept svcauth_unix].
    unfold svcauth_unix_accept. rewrite (dbind_ok arg_len _ _ _ _ eq_refl). set (rq2 := set_cred _ _). assert (iov_len (rq_arg rq2) = zlen rest) as El by exact Hl.
    rewrite El. cbv zeta. rewrite (s32_small (zlen rest)), (s32_neg_small (zlen rest - 3 * 4)) by lia. rewrite (proj2 (Z.ltb_lt _ _)) by lia. exists rq2. split; [reflexivity|exact Er].
Qed.
End Calls.

(** ** Whatever arrives *)

(** [rq'] is further in the same head. *)
Definition moved (rq rq' : svc_rqst) : Prop :=
  exists n, 0 <= n <= iov_len (rq_arg rq) /\ rq_arg rq' = mk_kvec (iov_base (rq_arg rq) + n) (iov_len (rq_arg rq) - n) /\ rq_mem rq' = rq_mem rq.

Lemma moved_refl rq : 0 <= iov_len (rq_arg rq) -> moved rq rq.
Proof. intros. exists 0. rewrite Z.add_0_r, Z.sub_0_r. destruct rq as [? []]. done. Qed.

Lemma moved_trans a b c : moved a b -> moved b c -> moved a c.
Proof. intros (m & Hm & Ea & Em) (n & Hn & Eb & En). rewrite Ea in *. cbn in *. exists (m + n). rewrite Eb, En, Em. split; [lia|]. split; [f_equal; lia|done]. Qed.

Lemma moved_len a b : moved a b -> 0 <= iov_len (rq_arg b) <= iov_len (rq_arg a).
Proof. intros (n & Hn & -> & _). cbn. lia. Qed.

Lemma adv_0_arg rq : rq_arg (adv rq 0) = rq_arg rq.
Proof. cbn. rewrite Z.add_0_r, Z.sub_0_r. by destruct (rq_arg rq). Qed.

Lemma getnl_in rq : 4 <= iov_len (rq_arg rq) < 2 ^ 31 -> exists v, is_u32 v /\ svc_getnl rq = (Ok v, adv rq 4).
Proof.
  intros Hl. eexists. split; [apply (be32_to_cpu_range (zdrop (iov_base (rq_arg rq)) (rq_mem rq)))|]. unfold svc_getnl, adv. f_equal. rewrite u64_id; [done|]. unfold is_u64. lia.
Qed.

Lemma skip_in rq n : 0 <= n <= iov_len (rq_arg rq) -> iov_len (rq_arg rq) < 2 ^ 31 -> skip_arg n rq = (Ok tt, adv rq n).
Proof. intros Hn Hl. unfold skip_arg, adv. rewrite u64_id; [done|]. unfold is_u64. lia. Qed.

(** Take a word that is there. *)
Ltac any_word v Hv :=
  let E := fresh "E" in edestruct getnl_in as (v & Hv & E); [|rewrite (dbind_ok _ _ _ _ _ E); clear E; rewrite ?adv_set_cred, ?adv_adv; cbv beta]; [cbn; lia|].

(** What a flavor does with a request, whatever it holds. *)
Record flavor_did (rq : svc_rqst) (r : res unit) (rq' : svc_rqst) : Prop := {
  fd_moved : moved rq rq';
  fd_xid : rq_xid rq' = rq_xid rq;
  fd_authop : rq_authop rq' = rq_authop rq;
  fd_res : rq_res rq' = rq_res rq ++ match r with Ok _ => words [RPC_AUTH_NULL; 0] | Err _ => [] end;
  fd_err : match r with Ok _ => rq_auth_stat rq' = rq_auth_stat rq | Err e => e = SVC_GARBAGE \/ e = SVC_DENIED \/ e = SVC_CLOSE end;
}.

Lemma flavor_fails rq n rq' e :
  0 <= n <= iov_len (rq_arg rq) -> rq_arg rq' = rq_arg (adv rq n) -> rq_mem rq' = rq_mem rq -> rq_xid rq' = rq_xid rq -> rq_authop rq' = rq_authop rq -> rq_res rq' = rq_res rq ->
  e = SVC_GARBAGE \/ e = SVC_DENIED \/ e = SVC_CLOSE -> flavor_did rq (Err e) rq'.
Proof. intros Hn Ea Em Ex Eo Er He. split; try done; [by exists n|]. by rewrite app_nil_r. Qed.

Lemma flavor_works rq n rq' :
  0 <= n <= iov_len (rq_arg rq) -> rq_arg rq' = rq_arg (adv rq n) -> rq_mem rq' = rq_mem rq -> rq_xid rq' = rq_xid rq -> rq_authop rq' = rq_authop rq ->
  rq_res rq' = rq_res rq ++ words [RPC_AUTH_NULL; 0] -> rq_auth_stat rq' = rq_auth_stat rq -> flavor_did rq (Ok tt) rq'.
Proof. intros Hn Ea Em Ex Eo Er He. split; try done. by exists n. Qed.

Section Any.
Context (make_kuid make_kgid : Z -> Z) (groups_sort : list Z -> list Z) (no_mem : bool).

Ltac fails n := apply (flavor_fails _ n); [cbn; lia|first [reflexivity|symmetry; apply adv_0_arg|cbn; f_equal; lia]|reflexivity..|]; solve [auto].

Lemma null_accept_any rq r rq' : 0 <= iov_len (rq_arg rq) < 2 ^ 31 -> svcauth_null_accept no_mem rq = (r, rq') -> flavor_did rq r rq'.
Proof.
  intros Hl E. revert E. unfold svcauth_null_accept. rewrite (dbind_ok arg_len _ _ _ _ eq_refl).
  destruct (Z.ltb_spec (iov_len (rq_arg rq)) (3 * 4)); [intros [= <- <-]; fails 0|]. any_word n Hn.
  destruct (n =? 0); [|intros [= <- <-]; fails 4]. cbn [negb]. any_word v Hv. destruct (v =? RPC_AUTH_NULL); [|intros [= <- <-]; fails 8]. cbn [negb].
  any_word l Hlv. destruct (l =? 0); [|intros [= <- <-]; fails 12]. cbn [negb]. rewrite dbind_mod. destruct no_mem; [intros [= <- <-]; fails 12|].
  intros [= <- <-]. apply (flavor_works _ 12); try reflexivity; [cbn; lia|]. cbn. by rewrite <- app_assoc.
Qed.

Lemma get_gids_any n : forall rq, 4 * Z.of_nat n <= iov_len (rq_arg rq) < 2 ^ 31 -> exists gids, get_gids make_kgid n rq = (Ok gids, adv rq (4 * Z.of_nat n)).
Proof.
  induction n as [|n IH]; intros rq Hl.
  - exists []. unfold adv. rewrite Z.add_0_r, Z.sub_0_r. destruct rq as [? []]. reflexivity.
  - cbn [get_gids]. any_word g Hg. destruct (IH (adv rq 4)) as [gs E]; [cbn; lia|]. rewrite (dbind_ok _ _ _ _ _ E), adv_adv. eexists. unfold dret. do 2 f_equal. lia.
Qed.

Lemma unix_accept_any rq r rq' : 0 <= iov_len (rq_arg rq) < 2 ^ 31 -> svcauth_unix_accept make_kuid make_kgid groups_sort no_mem rq = (r, rq') -> flavor_did rq r rq'.
Proof.
  intros Hl E. revert E. unfold svcauth_unix_accept, UNX_NGROUPS. rewrite (dbind_ok arg_len _ _ _ _ eq_refl). rewrite (s32_small (iov_len (rq_arg rq))) by lia. cbv zeta. rewrite !(s32_neg_small (iov_len (rq_arg rq) - 3 * 4)) by lia.
  destruct (Z.ltb_spec (iov_len (rq_arg rq) - 3 * 4) 0); [intros [= <- <-]; fails 0|]. any_word c Hc. any_word sp Hs. any_word n Hn.
  set (q := XDR_QUADLEN n). assert (0 <= q) as Hq. { unfold q, XDR_QUADLEN. apply Z.shiftr_nonneg, u32_range. }
  destruct (Z.ltb_spec 64 q); [intros [= <- <-]; fails 12|]. cbn [orb]. rewrite !(s32_neg_small (iov_len (rq_arg rq) - 3 * 4 - (q + 3) * 4)) by lia.
  destruct (Z.ltb_spec (iov_len (rq_arg rq) - 3 * 4 - (q + 3) * 4) 0); [intros [= <- <-]; fails 12|].
  rewrite (dbind_ok _ _ _ _ _ (skip_in (adv rq (4 + 4 + 4)) (q * 4) ltac:(cbn; lia) ltac:(cbn; lia))). rewrite adv_adv. any_word uid Hu. any_word gid Hg. rewrite dbind_mod.
  any_word g Hgl. destruct (Z.ltb_spec 16 g); [intros [= <- <-]; fails (12 + q * 4 + 12)|]. cbn [orb]. unfold is_u32 in Hgl. rewrite !(s32_neg_small (iov_len (rq_arg rq) - 3 * 4 - (q + 3) * 4 - (g + 2) * 4)) by lia.
  destruct (Z.ltb_spec (iov_len (rq_arg rq) - 3 * 4 - (q + 3) * 4 - (g + 2) * 4) 0); [intros [= <- <-]; fails (12 + q * 4 + 12)|].
  destruct no_mem; [intros [= <- <-]; fails (12 + q * 4 + 12)|].
  match goal with |- dbind _ _ ?r = _ -> _ => destruct (get_gids_any (Z.to_nat g) r) as [gs E]; [cbn; lia|] end.
  rewrite (dbind_ok _ _ _ _ _ E), dbind_mod. clear E. rewrite Z2Nat.id by lia. rewrite adv_set_cred, adv_adv. any_word v Hv.
  destruct (v =? RPC_AUTH_NULL); [|intros [= <- <-]; fails (12 + q * 4 + 12 + 4 * g + 4)]. cbn [negb]. any_word l Hlv.
  destruct (l =? 0); [|intros [= <- <-]; fails (12 + q * 4 + 12 + 4 * g + 8)]. cbn [negb].
  intros [= <- <-]. apply (flavor_works _ (12 + q * 4 + 12 + 4 * g + 8)); try reflexivity; [cbn; lia| |].
  - cbn. f_equal; lia.
  - cbn. by rewrite <- app_assoc.
Qed.

Notation tab := (authtab make_kuid make_kgid groups_sort no_mem).

Lemma get_auth_ops_tab flavor : is_u32 flavor -> svc_get_auth_ops tab flavor =
  if flavor =? 0 then Some (svcauth_null no_mem) else if flavor =? 1 then Some (svcauth_unix make_kuid make_kgid groups_sort no_mem) else None.
Proof.
  unfold is_u32, svc_get_auth_ops, RPC_AUTH_MAXFLAVOR. intros Hf. destruct (Z.leb_spec 8 flavor).
  - rewrite !(proj2 (Z.eqb_neq _ _)) by lia. done.
  - assert (flavor = 0 \/ flavor = 1 \/ flavor = 2 \/ flavor = 3 \/ flavor = 4 \/ flavor = 5 \/ flavor = 6 \/ flavor = 7) as C by lia.
    destruct C as [->|[->|[->|[->|[->|[->|[->| ->]]]]]]]; reflexivity.
Qed.

(** The same for [svc_authenticate], which sets [rq_authop] itself. *)
Record authenticate_did (rq : svc_rqst) (r : res unit) (rq' : svc_rqst) : Prop := {
  ad_moved : moved rq rq';
  ad_xid : rq_xid rq' = rq_xid rq;
  ad_res : rq_res rq' = rq_res rq ++ match r with Ok _ => words [RPC_AUTH_NULL; 0] | Err _ => [] end;
  ad_err : match r with Ok _ => rq_auth_stat rq' = rpc_auth_ok | Err e => e = SVC_GARBAGE \/ e = SVC_DENIED \/ e = SVC_CLOSE end;
}.

Lemma authenticate_any rq r rq' : 4 <= iov_len (rq_arg rq) < 2 ^ 31 -> svc_authenticate tab rq = (r, rq') -> authenticate_did rq r rq'.
Proof.
  intros Hl E. revert E. unfold svc_authenticate. rewrite dbind_mod. cbv beta. any_word flavor Hf. rewrite get_auth_ops_tab by done.
  set (rq1 := adv (rq <| rq_auth_stat := rpc_auth_ok |>) 4). assert (moved rq rq1) as M1 by (exists 4; split; [lia|done]).
  assert (forall ops : auth_ops, (forall r rq' rq, 0 <= iov_len (rq_arg rq) < 2 ^ 31 -> accept ops rq = (r, rq') -> flavor_did rq r rq') ->
    (dmod (fun rq => set_cred (fun c => c <| cr_group_info := None |>) (rq <| rq_auth_slack := 0 |>) <| rq_authop := Some flavor |>);;; accept ops) rq1 = (r, rq') -> authenticate_did rq r rq') as X.
  { intros ops Ho. rewrite dbind_mod. cbv beta. set (rq2 := set_cred _ _). intros E. assert (moved rq rq2) as M2 by (exists 4; split; [lia|done]).
    destruct (Ho r rq' rq2) as [Mv Hx Ha Hr He]; [cbn; lia|done|]. split; [by apply (moved_trans _ rq2)|done|done|]. by destruct r; [rewrite He|]. }
  destruct (flavor =? 0). { apply X. intros. by apply (null_accept_any rq0). }
  destruct (flavor =? 1). { apply X. intros. by apply (unix_accept_any rq0). }
  intros [= <- <-]. split; [done|done|by rewrite app_nil_r|auto].
Qed.

Lemma authorise_any rq : exists rq', svc_authorise tab rq = (0, rq') /\ rq_arg rq' = rq_arg rq /\ rq_mem rq' = rq_mem rq /\ rq_res rq' = rq_res rq /\ rq_xprt rq' = rq_xprt rq.
Proof.
  unfold svc_authorise. destruct (rq_authop rq) as [f|]; [|by exists rq].
  destruct (tab !! Z.to_nat f) as [[ops|]|] eqn:E; [|by eexists..]. unfold authtab in E.
  destruct (Z.to_nat f) as [|[|[|[|[|[|[|[|]]]]]]]]; simplify_eq/=; by eexists.
Qed.
End Any.
