(* ===== verification/RpcTheorems.v ===== *)
(** * A remote procedure call, end to end

    What the client writes is what the server reads and the other way round, for the
    flavors AUTH_NULL and AUTH_UNIX; neither side leaves the message; how often a call is
    tried again. *)

From S2P Require Import Prelude Xdr XdrSpec XdrBuf XdrDecode XdrEncode RpcMsg RpcClient RpcServer RpcWire RpcRead.

(** ** Calls *)

Section Calls.
Context (from_kuid_munged from_kgid_munged make_kuid make_kgid : Z -> Z) (groups_sort : list Z -> list Z) {st : Type} (sv_programs : list (svc_program st)).
Notation tab := (authtab make_kuid make_kgid groups_sort false).
Notation call_header := (call_header from_kuid_munged from_kgid_munged).
Notation sent_gids := (sent_gids from_kgid_munged).

(** The credential the server sees. *)
Definition server_cred (cred : rpc_cred) : svc_cred :=
  match cred with
  | null_cred => mk_cred INVALID_ID INVALID_ID (Some []) RPC_AUTH_NULL
  | unix_cred uid gid gi =>
      mk_cred (make_kuid (from_kuid_munged uid)) (make_kgid (from_kgid_munged gid)) (Some (groups_sort (make_kgid <$> sent_gids gi))) RPC_AUTH_UNIX
  end.

(** Numbers of a call are 32-bit words. *)
Record call_words (clnt : call_clnt) (t : call_task) : Prop := {
  cw_xid : is_u32 (tk_xid t);
  cw_prog : is_u32 (cl_prog clnt);
  cw_vers : is_u32 (cl_vers clnt);
  cw_proc : is_u32 (tk_p_proc t);
  cw_name : zlen (cl_nodename clnt) <= UNX_MAXNODENAME;
  cw_nodelen : cl_nodelen clnt = zlen (cl_nodename clnt);
}.

Context (kuid_u32 : forall u, is_u32 (from_kuid_munged u)) (kgid_u32 : forall g, is_u32 (from_kgid_munged g)).

Lemma sent_gids_u32 gi : Forall is_u32 (sent_gids gi).
Proof. unfold RpcWire.sent_gids. destruct gi; [|done]. apply Forall_fmap, Forall_forall. intros x _. apply kgid_u32. Qed.

(** A request whose credential was accepted, as the programs see it. *)
Record arrived (clnt : call_clnt) (t : call_task) (w : list byte) (rq rq1 : svc_rqst) : Prop := {
  ar_args : at_arg rq1 w;
  ar_xid : rq_xid rq1 = tk_xid t;
  ar_prog : rq_prog rq1 = cl_prog clnt;
  ar_vers : rq_vers rq1 = cl_vers clnt;
  ar_proc : rq_proc rq1 = tk_p_proc t;
  ar_cred : rq_cred rq1 = server_cred (tk_cred t);
  ar_res : rq_res rq1 = words [tk_xid t; rpc_reply; rpc_msg_accepted; RPC_AUTH_NULL; 0];
  ar_auth : rq_auth_stat rq1 = rpc_auth_ok;
  ar_xprt : rq_xprt rq1 = rq_xprt rq;
}.

Lemma authenticate_at rq clnt t bs : call_words clnt t ->
  at_arg rq (cred_bytes from_kuid_munged from_kgid_munged (cl_nodename clnt) (tk_cred t) ++ bs) ->
  exists n flavor, svc_authenticate tab rq = (Ok tt, with_cred n flavor (server_cred (tk_cred t)) rq) /\ at_arg (with_cred n flavor (server_cred (tk_cred t)) rq) bs.
Proof.
  intros W A. destruct (tk_cred t) as [|uid gid gi]; cbn [cred_bytes server_cred] in *.
  - exists 16, RPC_AUTH_NULL. by apply authenticate_null_at.
  - rewrite <- !app_assoc in A. pose proof (proj2 (sent_gids_len from_kgid_munged gi)) as Hg. eexists _, RPC_AUTH_UNIX.
    destruct (authenticate_unix_at make_kuid make_kgid groups_sort _ _ _ _ _ _ _ _ (cw_name _ _ W) Hg (sent_gids_u32 gi) A) as [E A'].
    rewrite !u32_id in E, A' by done. split; [exact E|exact A'].
Qed.

Lemma svc_process_at rq s clnt t w : call_words clnt t -> at_arg rq (call_header clnt t ++ w) ->
  exists rq1, arrived clnt t w rq rq1 /\
    svc_process tab sv_programs (svc_recv_xid rq) s =
      auth_switch tab 8 (find_program sv_programs (cl_prog clnt))
        (match find_program sv_programs (cl_prog clnt) with Some p => pg_authenticate p rq1 | None => (Ok tt, rq1) end) s.
Proof.
  intros W A. unfold RpcWire.call_header in A. rewrite <- app_assoc in A.
  assert (8 <= zlen (cred_bytes from_kuid_munged from_kgid_munged (cl_nodename clnt) (tk_cred t) ++ w)) as Hlen.
  { rewrite zlen_app, zlen_cred_bytes. pose proof (zlen_nonneg w). pose proof (zlen_nonneg (cl_nodename clnt)). pose proof (align4_range (zlen (cl_nodename clnt))).
    destruct (tk_cred t); [lia|]. pose proof (zlen_nonneg (sent_gids group_info)). lia. }
  destruct (svc_process_start sv_programs tab rq s _ _ _ _ _ (cw_xid _ _ W) (cw_prog _ _ W) (cw_vers _ _ W) (cw_proc _ _ W) Hlen A) as [-> A3].
  set (rq2 := with_header _ _ _ _ _) in *. destruct (authenticate_at rq2 clnt t w W A3) as (n & flavor & Ea & A4).
  exists (with_cred n flavor (server_cred (tk_cred t)) rq2). split.
  - split; try done.
  - unfold authenticate. rewrite (dbind_ok _ _ _ _ _ Ea). by destruct (find_program sv_programs (cl_prog clnt)).
Qed.

(** C12: a call arrives as it was sent.  In a buffer of the size [call_allocate] computes
    the client always has room for its header, up to the longest node name and sixteen
    groups, and for the arguments; the server that gets the message reads back the XID,
    program, version and procedure, the user, group and groups of the credential as they
    map into its own numbers, and exactly the bytes of the arguments, and hands that to
    the program's own authentication with the header of the reply already started. *)
Theorem rpc_call_roundtrip clnt p_encode m buf rq_buffer p_arglen t w :
  pages_ok m -> page_base buf = 0 -> kvec_ok m (mk_kvec (iov_base (tail buf)) 0) -> 0 <= rq_buffer -> rq_buffer mod 4 = 0 -> 0 <= p_arglen ->
  rq_buffer + rq_callsize (tk_auth t) p_arglen <= zlen (m_lin m) -> au_cslack (tk_auth t) = au_cslack (cred_auth (tk_cred t)) ->
  call_words clnt t -> encodes p_encode w -> zlen w <= 4 * p_arglen ->
  exists x, rpc_xdr_encode from_kuid_munged from_kgid_munged clnt p_encode m buf rq_buffer (rq_callsize (tk_auth t) p_arglen) t = Some (t <| tk_status := 0 |>, x) /\
    forall rq s, at_arg rq (enc_out x) ->
      exists rq1, arrived clnt t w rq rq1 /\
        svc_process tab sv_programs (svc_recv_xid rq) s =
          auth_switch tab 8 (find_program sv_programs (cl_prog clnt))
            (match find_program sv_programs (cl_prog clnt) with Some p => pg_authenticate p rq1 | None => (Ok tt, rq1) end) s.
Proof.
  intros Hm Hpb Ht Hb H4 Hpa Hr Hau W He Hw.
  destruct (rpc_xdr_encode_ok from_kuid_munged from_kgid_munged clnt p_encode m buf rq_buffer p_arglen t w) as (x & E & _ & Eo); try done; [apply W|apply W|].
  exists x. split; [exact E|]. intros rq s A. rewrite Eo in A. by apply svc_process_at.
Qed.

End Calls.


(** ** Any message *)

(** What a server may send for a call: results, a status without results, a mismatch of
    program or RPC version, a refused credential; and two that no RFC knows, a status
    followed by more ([Garbage_more]) and a status without a verifier ([Short_cred]). *)
Inductive rpc_answer :=
| Success (r : list byte)
| Status (stat : Z)
| Prog_mismatch (lo hi : Z)
| Rpc_mismatch
| Auth_error (stat : Z)
| Garbage_more (r : list byte)
| Short_cred.

(** The start of every accepted reply. *)
Notation accepted xid := (words [xid; rpc_reply; rpc_msg_accepted; RPC_AUTH_NULL; 0]).

Definition answer_bytes (xid : Z) (a : rpc_answer) : list byte :=
  match a with
  | Success r => accepted xid ++ be32 rpc_success ++ r
  | Status stat => accepted xid ++ be32 stat
  | Prog_mismatch lo hi => accepted xid ++ words [rpc_prog_mismatch; lo; hi]
  | Rpc_mismatch => words [xid; rpc_reply; 1; rpc_mismatch; 2; 2]
  | Auth_error stat => words [xid; rpc_reply; 1; rpc_auth_error; stat]
  | Garbage_more r => accepted xid ++ be32 rpc_garbage_args ++ r
  | Short_cred => words [xid; rpc_reply; rpc_msg_accepted; rpc_garbage_args]
  end.
Definition answer_ok (a : rpc_answer) : Prop := match a with Status stat => is_u32 stat /\ stat <> rpc_success | _ => True end.
Definition reply_form (xid : Z) (l : list byte) : Prop := exists a, answer_ok a /\ l = answer_bytes xid a.

Section Whole.
Context {st : Type}.

(** Functions of a program that stay inside the head and add to the reply only. *)
Definition in_head {A} (f : svc_rqst -> st -> A * svc_rqst * st) : Prop := forall rq s a rq' s',
  0 <= iov_len (rq_arg rq) < 2 ^ 31 -> f rq s = (a, rq', s') -> moved rq rq' /\ exists r, rq_res rq' = rq_res rq ++ r.

(** A dispatcher may also set the status word. *)
Definition dispatch_ok (f : @dispatcher st) : Prop := forall rq statp s b rq' s',
  0 <= iov_len (rq_arg rq) < 2 ^ 31 -> 0 <= statp -> statp + 4 = zlen (rq_res rq) -> f rq statp s = (b, rq', s') ->
  moved rq rq' /\ exists stat r, is_u32 stat /\ rq_res rq' = ztake statp (rq_res rq) ++ be32 stat ++ r.

Record procedure_ok (procp : svc_procedure st) : Prop := {
  pk_decode : forall f, pc_decode procp = Some f -> in_head f;
  pk_func : forall f, pc_func procp = Some f -> in_head f /\ forall rq s a rq' s', f rq s = (a, rq', s') -> is_u32 a;
  pk_encode : forall f, pc_encode procp = Some f -> in_head f;
}.

Record program_ok (p : svc_program st) : Prop := {
  pk_auth : forall rq r rq', 0 <= iov_len (rq_arg rq) < 2 ^ 31 -> pg_authenticate p rq = (r, rq') ->
    moved rq rq' /\ rq_res rq' = rq_res rq /\ match r with Ok _ => True | Err e => e = SVC_DENIED \/ e = SVC_CLOSE \/ e = SVC_DROP end;
  pk_init : forall rq procp d, pg_init_request p rq = Init_ok procp d -> match d with Some f => dispatch_ok f | None => procedure_ok procp end;
}.

Lemma put_stat_shape statp v (rq : svc_rqst) pre stat r :
  zlen pre = statp -> rq_res rq = pre ++ be32 stat ++ r -> rq_res (put_stat statp v rq) = pre ++ be32 v ++ r.
Proof.
  intros Hp Er. unfold put_stat. cbn. rewrite Er. rewrite zwrite_app_r by lia. by rewrite zwrite_here by (autorewrite with nfs_len; lia).
Qed.

Lemma moved_put_stat (rq : svc_rqst) statp v rq0 : moved rq0 rq -> moved rq0 (put_stat statp v rq).
Proof. done. Qed.

Lemma split_stat (l : list byte) statp : 0 <= statp -> statp + 4 = zlen l -> exists stat, l = ztake statp l ++ be32 stat /\ zlen (ztake statp l) = statp.
Proof.
  intros H0 Hl. exists (be32_to_cpu (zdrop statp l)). assert (zlen (zdrop statp l) = 4) as H4 by llia. split; [|llia].
  rewrite <- (ztake_zdrop statp l) at 1. f_equal. unfold zlen in H4. destruct (zdrop statp l) as [|a [|b [|c [|d [|]]]]]; cbn in H4; try lia. by rewrite be32_be32_to_cpu.
Qed.

Lemma generic_dispatch_ok procp : procedure_ok procp -> dispatch_ok (svc_generic_dispatch procp).
Proof.
  intros [Kd Kf Ke] rq statp s b rq' s' Hl H0 Hs E. destruct (split_stat _ _ H0 Hs) as (stat0 & Er & Hz).
  unfold svc_generic_dispatch in E.
  assert (forall (f : option (svc_rqst -> st -> bool * svc_rqst * st)) rq s, (forall g, f = Some g -> in_head g) -> 0 <= iov_len (rq_arg rq) < 2 ^ 31 ->
    let '(_, rq1, _) := opt_run f (fun rq s => (true, rq, s)) rq s in moved rq rq1 /\ exists r, rq_res rq1 = rq_res rq ++ r) as X.
  { intros [g|] rq0 s0 Kg Hl0; cbn [opt_run].
    - destruct (g rq0 s0) as [[a1 r1] s1] eqn:Eg. exact (Kg g eq_refl _ _ _ _ _ Hl0 Eg).
    - split; [apply moved_refl; lia|]. exists []. by rewrite app_nil_r. }
  pose proof (X _ rq s Kd Hl) as X1. destruct (opt_run (pc_decode procp) _ rq s) as [[ok rq1] s1]. destruct X1 as (M1 & r1 & R1).
  assert (exists r, rq_res rq1 = ztake statp (rq_res rq) ++ be32 stat0 ++ r) as [q1 Q1]. { exists r1. rewrite R1, Er at 1. by rewrite <- app_assoc. }
  destruct ok; cbn [negb] in E; [|simplify_eq; split; [done|]; eexists rpc_garbage_args, _; split; [done|by eapply put_stat_shape]].
  destruct (opt_run (pc_func procp) _ rq1 s1) as [[stat rq2] s2] eqn:E2. pose proof (moved_len _ _ M1) as L1.
  assert (moved rq1 rq2 /\ (exists r, rq_res rq2 = rq_res rq1 ++ r) /\ is_u32 stat) as (M2 & (r2 & R2) & U2).
  { destruct (pc_func procp) as [g|]; cbn [opt_run] in E2.
    - destruct (Kf g eq_refl) as [Hg Hu]. destruct (Hg rq1 s1 stat rq2 s2) as [? ?]; [lia|done|]. split_and!; try done. by eapply Hu.
    - simplify_eq. split_and!; [apply moved_refl; lia| |done]. exists []. by rewrite app_nil_r. }
  pose proof (moved_trans _ _ _ M1 M2) as M12. pose proof (moved_len _ _ M12) as L2.
  assert (rq_res (put_stat statp stat rq2) = ztake statp (rq_res rq) ++ be32 stat ++ (q1 ++ r2)) as Q2.
  { eapply put_stat_shape; [done|]. rewrite R2, Q1. by rewrite <- !app_assoc. }
  set (rq3 := put_stat statp stat rq2) in *. assert (moved rq rq3) as M3 by exact M12.
  destruct ((stat =? rpc_drop_reply) || rq_dropme rq3); [simplify_eq; split; [done|by eexists stat, _]|].
  destruct (negb (rq_auth_stat rq3 =? rpc_auth_ok)); [simplify_eq; split; [done|by eexists stat, _]|].
  destruct (negb (stat =? rpc_success)); [simplify_eq; split; [done|by eexists stat, _]|].
  pose proof (X _ rq3 s2 Ke ltac:(cbn; lia)) as X4. destruct (opt_run (pc_encode procp) _ rq3 s2) as [[ok rq4] s4]. destruct X4 as (M4 & r4 & R4).
  assert (rq_res rq4 = ztake statp (rq_res rq) ++ be32 stat ++ ((q1 ++ r2) ++ r4)) as Q4 by by rewrite R4, Q2, <- !app_assoc.
  pose proof (moved_trans _ _ _ M3 M4). destruct ok; simplify_eq; split; try done; [by eexists stat, _|]. eexists rpc_system_err, _. split; [done|by eapply put_stat_shape].
Qed.

Context (make_kuid make_kgid : Z -> Z) (groups_sort : list Z -> list Z) (no_mem : bool) (sv_programs : list (svc_program st)).
Context (programs_ok : Forall program_ok sv_programs).
Notation tab := (authtab make_kuid make_kgid groups_sort no_mem).

Definition outcome (xid : Z) (rq0 : svc_rqst) (out : bool * svc_rqst * st) : Prop :=
  let '(send, rq', _) := out in moved rq0 rq' /\ (send = true -> reply_form xid (rq_res rq')).

Lemma moved_same a b c : moved a b -> rq_arg c = rq_arg b -> rq_mem c = rq_mem b -> moved a c.
Proof. intros (n & Hn & Ea & Em) E1 E2. exists n. by rewrite E1, E2. Qed.

Lemma sendit_out xid rq0 rq s : moved rq0 rq -> reply_form xid (rq_res rq) -> outcome xid rq0 (sendit tab rq s).
Proof.
  intros M F. unfold sendit. destruct (authorise_any make_kuid make_kgid groups_sort no_mem rq) as (rq' & -> & Ea & Em & Er & _). cbn.
  split; [by apply (moved_same _ rq)|]. by rewrite Er.
Qed.

Lemma dropit_out xid rq0 rq s : moved rq0 rq -> outcome xid rq0 (dropit tab rq s).
Proof.
  intros M. unfold dropit. destruct (authorise_any make_kuid make_kgid groups_sort no_mem rq) as (rq' & -> & Ea & Em & Er & _). cbn.
  split; [by apply (moved_same _ rq)|done].
Qed.

Lemma close_xprt_out xid rq0 rq s : moved rq0 rq -> outcome xid rq0 (close_xprt (st := st) rq s).
Proof. intros M. unfold close_xprt. cbn. split; [|done]. destruct (rq_xprt rq) as [x|]; [|done]. by destruct (xpt_temp x). Qed.

Lemma close_out xid rq0 rq s : moved rq0 rq -> outcome xid rq0 (close_call tab rq s).
Proof.
  intros M. unfold close_call. destruct (authorise_any make_kuid make_kgid groups_sort no_mem rq) as (rq' & -> & Ea & Em & Er & _).
  apply close_xprt_out. by apply (moved_same _ rq).
Qed.

Lemma bad_auth_out xid rq0 rq s w : moved rq0 rq -> rq_res rq = words [xid; rpc_reply] ++ w -> outcome xid rq0 (err_bad_auth tab 8 rq s).
Proof.
  intros M Er. unfold err_bad_auth. apply sendit_out; [done|]. unfold svc_putnl. cbn [rq_res]. cbn. rewrite Er, ztake_app_exact by done. rewrite <- !app_assoc. by eexists (Auth_error _).
Qed.

Lemma get_stat_at (rq : svc_rqst) statp pre stat r : zlen pre = statp -> is_u32 stat -> rq_res rq = pre ++ be32 stat ++ r -> get_stat statp rq = stat.
Proof. intros Hp Hu Er. unfold get_stat. rewrite Er, zdrop_app_exact by done. by rewrite be32_to_cpu_app, u32_id. Qed.

Lemma run_procedure_out xid rq0 procp d rq s :
  0 <= iov_len (rq_arg rq0) < 2 ^ 31 -> moved rq0 rq -> rq_res rq = accepted xid -> match d with Some f => dispatch_ok f | None => procedure_ok procp end ->
  outcome xid rq0 (run_procedure tab 8 procp d rq s).
Proof.
  intros Hl M Er Kd. unfold run_procedure. set (rq1 := if negb (pc_xdrressize procp =? 0) then _ else _).
  assert (rq_arg rq1 = rq_arg rq /\ rq_mem rq1 = rq_mem rq /\ rq_res rq1 = accepted xid ++ be32 0) as (Ea & Em & Er1).
  { subst rq1. destruct (negb _); [|cbn; by rewrite Er]. unfold svc_reserve_auth, svc_reserve. destruct (rq_xprt _); [destruct (_ <? _)|]; cbn; by rewrite Er. }
  replace (zlen (rq_res (bump _ rq))) with 20 by (cbn; by rewrite Er).
  assert (moved rq0 rq1) as M1 by by apply (moved_same _ rq). pose proof (moved_len _ _ M1) as L1.
  assert (dispatch_ok (match d with Some f => f | None => svc_generic_dispatch procp end)) as Kd'. { destruct d; [done|]. by apply generic_dispatch_ok. }
  destruct (match d with None => svc_generic_dispatch procp rq1 20 s | Some f => f rq1 20 s end) as [[hr rq2] s2] eqn:E.
  destruct (Kd' rq1 20 s hr rq2 s2) as (M2 & stat & r & Hu & Er2); [lia|lia|by rewrite Er1|by destruct d|].
  rewrite Er1, (ztake_app_exact 20 (accepted xid)) in Er2 by done. pose proof (moved_trans _ _ _ M1 M2) as M12.
  rewrite (get_stat_at rq2 20 (accepted xid) stat r eq_refl Hu Er2).
  destruct hr; cbn [negb]; [|by apply dropit_out].
  destruct (match d with None => stat =? rpc_garbage_args | Some _ => false end) eqn:Eg.
  { destruct d; [done|]. apply Z.eqb_eq in Eg as ->. unfold err_bad. apply sendit_out; [done|]. cbn. rewrite Er2, <- !app_assoc. by exists (Garbage_more (r ++ be32 rpc_garbage_args)). }
  destruct (negb (rq_auth_stat rq2 =? rpc_auth_ok)); [by apply (bad_auth_out _ _ _ _ (words [rpc_msg_accepted; RPC_AUTH_NULL; 0] ++ be32 stat ++ r))|].
  destruct (Z.eqb_spec stat rpc_success) as [->|Hs]; cbn [negb].
  - assert (reply_form xid (rq_res rq2)) as F by (rewrite Er2; by exists (Success r)). destruct (pc_encode procp); [by apply sendit_out|by apply dropit_out].
  - assert (ztake (20 + 4) (rq_res rq2) = accepted xid ++ be32 stat) as Et. { rewrite Er2, app_assoc. by apply ztake_app_exact. }
    destruct (pc_encode procp); [|by apply dropit_out]. apply sendit_out; [done|]. cbn -[ztake]. change 24 with (20 + 4). rewrite Et. by exists (Status stat).
Qed.

Lemma process_accepted_out xid rq0 progp rq s :
  0 <= iov_len (rq_arg rq0) < 2 ^ 31 -> moved rq0 rq -> rq_res rq = accepted xid -> (forall p, progp = Some p -> program_ok p) ->
  outcome xid rq0 (process_accepted tab 8 progp rq s).
Proof.
  intros Hl M Er Kp. unfold process_accepted, err_bad_vers.
  assert (forall stat, is_u32 stat -> stat <> rpc_success -> reply_form xid (rq_res (svc_putnl stat (badfmt rq)))) as F.
  { intros stat ? ?. cbn. rewrite Er. by exists (Status stat). }
  destruct progp as [p|]; [|by apply sendit_out, F].
  destruct (pg_init_request p rq) as [procp d| |lo hi|] eqn:Ei; try by apply sendit_out, F.
  - destruct (pc_func procp); [|by apply sendit_out, F]. apply run_procedure_out; try done. by eapply pk_init; [apply Kp|].
  - apply sendit_out; [done|]. cbn. rewrite Er, <- !app_assoc. by exists (Prog_mismatch lo hi).
Qed.

Lemma find_program_ok prog p : find_program sv_programs prog = Some p -> program_ok p.
Proof. intros E. apply List.find_some in E as [Hi _]. by apply (proj1 (List.Forall_forall _ _) programs_ok). Qed.

Lemma read_header_any rq r rq' : 16 <= iov_len (rq_arg rq) < 2 ^ 31 -> rq_res rq = [] -> read_header sv_programs rq = (r, rq') ->
  moved rq rq' /\ match r with
                  | Ok (statp, progp) => statp = 8 /\ iov_len (rq_arg rq') = iov_len (rq_arg rq) - 16 /\ rq_res rq' = words [rq_xid rq; rpc_reply; rpc_msg_accepted] /\
                      exists prog, progp = find_program sv_programs prog
                  | Err _ => rq_res rq' = words [rq_xid rq; rpc_reply]
                  end.
Proof.
  intros Hl Er E. revert E. unfold read_header. rewrite dbind_mod. cbv beta. any_word vers Hv. rewrite dbind_mod. destruct (vers =? RPC_VERSION); cbn [negb].
  - rewrite (dbind_ok _ _ _ 8 _) by (f_equal; f_equal; cbn; by rewrite Er). rewrite dbind_mod. any_word prog Hp. rewrite dbind_mod. cbv beta. any_word v Hv2. rewrite dbind_mod. cbv beta.
    any_word proc Hc. rewrite dbind_mod. cbv beta. intros [= <- <-]. split; [exists 16; split; [lia|]; split; [cbn; f_equal; lia|done]|].
    split; [done|]. split; [cbn; lia|]. split; [cbn; by rewrite Er|by exists prog].
  - intros [= <- <-]. split; [exists 4; split; [lia|done]|]. cbn. by rewrite Er.
Qed.

Lemma svc_process_out rq s : 4 <= iov_len (rq_arg rq) < 2 ^ 31 -> outcome (rq_xid rq) rq (svc_process tab sv_programs rq s).
Proof.
  intros Hl. unfold svc_process. destruct (getnl_in (rq <| rq_res := [] |>)) as (dir & Hd & ->); [cbn; lia|]. set (rq1 := adv _ 4).
  assert (moved rq rq1) as M1 by (exists 4; split; [lia|done]). destruct (negb (dir =? 0)); [cbn; split; [by apply (moved_same _ rq1)|done]|].
  unfold svc_process_common. destruct (Z.ltb_spec (iov_len (rq_arg rq1)) (6 * 4)) as [|H24]; [by apply close_xprt_out|]. pose proof (moved_len _ _ M1) as L1.
  destruct (read_header sv_programs rq1) as [r rq2] eqn:Eh. apply read_header_any in Eh as [M2 Hr]; [|lia|done]. pose proof (moved_trans _ _ _ M1 M2) as M12.
  destruct r as [[statp progp]|e].
  - destruct Hr as (-> & El & Er & prog & ->). unfold authenticate, dbind. destruct (svc_authenticate tab rq2) as [ra rq3] eqn:Ea.
    apply authenticate_any in Ea as [M3 Hx Hres He]; [|lia]. pose proof (moved_trans _ _ _ M12 M3) as M13. rewrite Er in Hres. pose proof (moved_len _ _ M13) as L3.
    destruct ra as [[]|e].
    + change (words _ ++ words _) with (accepted (rq_xid rq)) in Hres. destruct (find_program sv_programs prog) as [p|] eqn:Ep; cbn [auth_switch].
      * destruct (pg_authenticate p rq3) as [rp rq4] eqn:Eq. pose proof (find_program_ok _ _ Ep) as Kp. destruct (pk_auth _ Kp rq3 rp rq4) as (M4 & Er4 & Hp); [lia|done|].
        pose proof (moved_trans _ _ _ M13 M4). rewrite Hres in Er4. destruct rp as [u|e]; cbn [auth_switch].
        -- apply process_accepted_out; try done; [lia|]. by intros ? [= <-].
        -- destruct Hp as [->|[->| ->]]; cbn -[err_bad_auth close_call dropit]; [by apply (bad_auth_out _ _ _ _ (words [0; 0; 0]))|by apply close_out|by apply dropit_out].
      * apply process_accepted_out; try done. lia.
    + cbn [auth_switch]. rewrite app_nil_r in Hres. destruct He as [->|[->| ->]]; cbn -[err_bad_auth close_call err_bad].
      * unfold err_bad. apply sendit_out; [done|]. cbn. rewrite Hres. by exists Short_cred.
      * by apply (bad_auth_out _ _ _ _ (words [0])).
      * by apply close_out.
  - unfold err_bad_rpc. apply sendit_out; [done|]. cbn. rewrite Hr, <- !app_assoc. by exists Rpc_mismatch.
Qed.
End Whole.

(** ** Replies *)

Section Replies.
Context {S : Type} `{XI : XdrIn S} {XL : @XdrInLaws S XI}.

(** The stream is before [w ++ r], and [w] lies in one piece. *)
Definition in_stream (s : S) (w r : list byte) : Prop := xi_wf s /\ xi_rest s = w ++ r /\ zlen w <= xi_contig s.

Lemma inline_at s a w r n : in_stream s (a ++ w) r -> zlen a = n -> n mod 4 = 0 -> exists s', xdr_inline_decode n s = (Some a, s') /\ in_stream s' w r.
Proof.
  intros (W & Er & Hc) Ha H4. pose proof (zlen_nonneg a). pose proof (zlen_nonneg w). rewrite zlen_app in Hc.
  destruct (xi_inline_ok s n W) as (s' & E & W' & R' & C'); [lia|rewrite align4_id by done; lia|]. rewrite align4_id in R', C' by done. exists s'. split.
  - rewrite E, Er, <- app_assoc, ztake_app_exact by done. done.
  - split; [done|]. split; [|lia]. rewrite R', Er, <- app_assoc. by apply zdrop_app_exact.
Qed.

Lemma inline_short s n : xi_wf s -> 0 <= n < 2 ^ 32 -> zlen (xi_rest s) < n -> exists s', xdr_inline_decode n s = (None, s') /\ xi_wf s'.
Proof.
  intros W Hn Hs. destruct (xdr_inline_decode n s) as [r s'] eqn:E. destruct (xi_inline_sound s n r s' W Hn E) as [W' H]. exists s'.
  destruct r as [bs|]; [|done]. exfalso. destruct H as (-> & Hl & _). autorewrite with nfs_len in Hl. pose proof (zlen_nonneg (xi_rest s)). lia.
Qed.

(** What the task becomes: the sizes learnt from the verifier, an error, another try. *)
Definition seen_verf (t : call_task) : call_task :=
  match tk_cred t with null_cred => t | unix_cred _ _ _ => t <| tk_auth := mk_rpc_auth (au_cslack (tk_auth t)) 2 2 2 |> end.
Definition fails_with (e : Z) (t : call_task) : Z * call_task :=
  (e, t <| tk_rpc_status := e |> <| tk_status := e |> <| tk_act := rpc_exit_task |>).
Definition sends_again (t : call_task) : Z * call_task := (- EAGAIN, t <| tk_garb_retry := tk_garb_retry t - 1 |> <| tk_act := call_encode |>).
Definition tries_again (e : Z) (t : call_task) : Z * call_task :=
  let t := t <| rpcgarbage := rpcgarbage t + 1 |> in if tk_garb_retry t =? 0 then fails_with e t else sends_again t.

Definition refused (stat : Z) (t : call_task) : Z * call_task :=
  if bool_decide (stat ∈ [2; 4; 13; 14]) then
    let t := t <| cr_uptodate := false |> in
    if tk_cred_retry t =? 0 then fails_with (- EACCES) t else (- EKEYREJECTED, t <| tk_cred_retry := tk_cred_retry t - 1 |>)
  else if bool_decide (stat ∈ [1; 3]) then if tk_garb_retry t =? 0 then fails_with (- EACCES) t else sends_again t
  else if bool_decide (stat = 5) then fails_with (- EACCES) t
  else tries_again (- EIO) t.

Definition means (a : rpc_answer) (t : call_task) : Z * call_task :=
  match a with
  | Success _ => (0, seen_verf t)
  | Status stat =>
      if stat =? 1 then fails_with (- EPFNOSUPPORT) (seen_verf t)
      else if stat =? 2 then fails_with (- EPROTONOSUPPORT) (seen_verf t)
      else if stat =? 3 then fails_with (- EOPNOTSUPP) (seen_verf t)
      else tries_again (- EIO) (seen_verf t)
  | Prog_mismatch _ _ => fails_with (- EPROTONOSUPPORT) (seen_verf t)
  | Rpc_mismatch => fails_with (- EPROTONOSUPPORT) t
  | Auth_error stat => refused (u32 stat) t
  | Garbage_more _ => tries_again (- EIO) (seen_verf t)
  | Short_cred => tries_again (- EIO) t
  end.

(** The words the client looks at before the results. *)
Definition answer_head (xid : Z) (a : rpc_answer) : list byte := ztake 24 (answer_bytes xid a).

Lemma out_garbage_means e t (s : S) : out_garbage e t s = (fst (tries_again e t), snd (tries_again e t), s).
Proof. unfold out_garbage, tries_again, out_err, fails_with, sends_again. cbn -[Z.eqb]. by destruct (tk_garb_retry t =? 0). Qed.

Lemma refused_means stat t (s : S) : auth_refused stat t s = (fst (refused stat t), snd (refused stat t), s).
Proof.
  unfold auth_refused, refused, out_unparsable. rewrite out_garbage_means.
  destruct (decide (stat ∈ [2; 4; 13; 14])) as [H|H].
  - rewrite bool_decide_true by done. assert (((stat =? 2) || (stat =? 4) || (stat =? 13) || (stat =? 14))%bool = true) as E.
    { repeat (apply elem_of_cons in H as [->|H]; [done|]). by apply elem_of_nil in H. }
    change ((stat =? rpc_autherr_rejectedcred) || (stat =? rpc_autherr_rejectedverf) || (stat =? rpcsec_gsserr_credproblem) || (stat =? rpcsec_gsserr_ctxproblem))
      with ((stat =? 2) || (stat =? 4) || (stat =? 13) || (stat =? 14))%bool. rewrite E. unfold rpcauth_invalcred, out_err, fails_with. cbn -[Z.eqb]. by destruct (tk_cred_retry t =? 0).
  - rewrite bool_decide_false by done. rewrite !not_elem_of_cons in H. destruct H as (N2 & N4 & N13 & N14 & _).
    unfold rpc_autherr_rejectedcred, rpc_autherr_rejectedverf, rpcsec_gsserr_credproblem, rpcsec_gsserr_ctxproblem. rewrite !(proj2 (Z.eqb_neq _ _)) by done. cbn [orb].
    destruct (decide (stat ∈ [1; 3])) as [H|H].
    + rewrite bool_decide_true by done. assert ((stat =? rpc_autherr_badcred) || (stat =? rpc_autherr_badverf) = true) as ->.
      { repeat (apply elem_of_cons in H as [->|H]; [done|]). by apply elem_of_nil in H. } unfold out_err, fails_with, sends_again. by destruct (tk_garb_retry t =? 0).
    + rewrite bool_decide_false by done. rewrite !not_elem_of_cons in H. destruct H as (N1 & N3 & _). unfold rpc_autherr_badcred, rpc_autherr_badverf, rpc_autherr_tooweak.
      rewrite (proj2 (Z.eqb_neq stat 1)), (proj2 (Z.eqb_neq stat 3)) by done. cbn [orb]. destruct (Z.eqb_spec stat 5).
      * rewrite bool_decide_true by done. done.
      * by rewrite bool_decide_false by done.
Qed.

Lemma checkverf_at t s w r : in_stream s (words [RPC_AUTH_NULL; 0] ++ w) r -> exists s', rpcauth_checkverf t s = (0, seen_verf t, s') /\ in_stream s' w r.
Proof.
  intros I. destruct (inline_at s _ w r 8 I eq_refl eq_refl) as (s1 & E1 & I1). unfold rpcauth_checkverf, seen_verf, nul_validate, unx_validate, inline_or.
  destruct (tk_cred t) as [|uid gid gi].
  - unfold dbind. change (2 * 4) with 8. rewrite E1. exists s1. done.
  - destruct (inline_at s1 [] w r 0 I1 eq_refl eq_refl) as (s2 & E2 & I2). unfold dbind. change (2 * 4) with 8. rewrite E1. cbv beta iota zeta.
    change (be32_to_cpu (zdrop 4 (words [RPC_AUTH_NULL; 0]))) with 0. change (be32_to_cpu (words [RPC_AUTH_NULL; 0])) with 0. cbn -[xdr_inline_decode]. rewrite E2. exists s2. done.
Qed.

(** The first three words of a reply. *)
Lemma decode_start len t s xid stat w r : Z.land len 3 = 0 -> stat = 0 \/ stat = 1 -> in_stream s (words [xid; rpc_reply; stat] ++ w) r ->
  exists s1, in_stream s1 w r /\
    rpc_decode_header len t s =
      if stat =? 0 then
        let '(error, t, s) := rpcauth_checkverf t s1 in
        if negb (error =? 0) then out_garbage error t s
        else match xdr_inline_decode 4 s with
             | (None, s) => out_unparsable t s
             | (Some p, s) =>
                 let stat := be32_to_cpu p in
                 if stat =? rpc_success then (0, t, s)
                 else if stat =? rpc_prog_unavail then out_err (- EPFNOSUPPORT) t s
                 else if stat =? rpc_prog_mismatch then out_err (- EPROTONOSUPPORT) t s
                 else if stat =? rpc_proc_unavail then out_err (- EOPNOTSUPP) t s
                 else if (stat =? rpc_garbage_args) || (stat =? rpc_system_err) then out_garbage (- EIO) t s
                 else out_unparsable t s
             end
      else out_msg_denied t s1.
Proof.
  intros Hl Hs I. destruct (inline_at s _ _ r 12 I eq_refl eq_refl) as (s1 & E1 & I1). exists s1. split; [done|].
  unfold rpc_decode_header. rewrite Hl. change (negb (0 =? 0)) with false. change (3 * 4) with 12. rewrite E1. by destruct Hs as [->| ->].
Qed.

(** An accepted reply, up to its status. *)
Lemma decode_accepted len t s xid stat w r : Z.land len 3 = 0 -> is_u32 stat -> in_stream s (accepted xid ++ be32 stat ++ w) r ->
  exists s', in_stream s' w r /\
    rpc_decode_header len t s = if stat =? rpc_success then (0, seen_verf t, s') else (fst (means (Status stat) t), snd (means (Status stat) t), s').
Proof.
  intros Hl Hu I. change (accepted xid ++ be32 stat ++ w) with (words [xid; rpc_reply; rpc_msg_accepted] ++ words [RPC_AUTH_NULL; 0] ++ be32 stat ++ w) in I.
  destruct (decode_start len t s xid 0 _ r Hl ltac:(auto) I) as (s1 & I1 & ->). destruct (checkverf_at t s1 _ r I1) as (s2 & E2 & I2).
  destruct (inline_at s2 _ w r 4 I2 eq_refl eq_refl) as (s3 & E3 & I3). exists s3. split; [done|]. change (0 =? 0) with true. cbv iota. rewrite E2. cbv iota beta.
  change (negb (0 =? 0)) with false. cbv iota.
  rewrite E3. cbv beta iota zeta. rewrite <- (app_nil_r (be32 stat)), be32_to_cpu_app, u32_id by done. destruct (stat =? rpc_success); [done|]. unfold out_unparsable. rewrite out_garbage_means.
  unfold means, rpc_prog_unavail, rpc_prog_mismatch, rpc_proc_unavail, out_err. destruct (stat =? 1); [done|]. destruct (stat =? 2); [done|]. destruct (stat =? 3); [done|].
  by destruct ((stat =? rpc_garbage_args) || (stat =? rpc_system_err)).
Qed.

Lemma short_verf t s : xi_wf s -> zlen (xi_rest s) < 8 -> exists s', rpcauth_checkverf t s = (- EIO, t, s').
Proof.
  intros W Hs. destruct (inline_short s 8 W) as (s' & E & _); [lia|done|]. exists s'. unfold rpcauth_checkverf, nul_validate, unx_validate, inline_or, dbind.
  change (2 * 4) with 8. rewrite E. by destruct (tk_cred t).
Qed.

(** C13: what the client makes of each answer a server gives.  With results the header is
    consumed and the stream is before them; a mismatch or an unknown procedure ends the
    call with its error; a refused credential is renewed, and garbage sent again, while
    tries are left; an answer without verifier counts as garbage. *)
Theorem rpc_reply_outcome a len t s xid : answer_ok a -> Z.land len 3 = 0 -> in_stream s (ztake 24 (answer_bytes xid a)) (zdrop 24 (answer_bytes xid a)) ->
  exists s', rpc_decode_header len t s = (fst (means a t), snd (means a t), s') /\
    match a with Success r => in_stream s' [] r | _ => True end.
Proof.
  intros Ok Hl I.
  assert (forall w stat l, answer_bytes xid a = (accepted xid ++ be32 stat ++ l) -> is_u32 stat -> w = [] -> in_stream s (accepted xid ++ be32 stat ++ w) l) as X.
  { intros w stat l E _ ->. rewrite E in I. rewrite app_assoc in I. rewrite ztake_app_exact, zdrop_app_exact in I by done. by rewrite app_nil_r. }
  destruct a as [res|stat|lo hi| |stat|res|]; cbn [means].
  - destruct (decode_accepted len t s xid rpc_success [] res Hl ltac:(done) (X [] _ _ eq_refl ltac:(done) eq_refl)) as (s' & I' & E). exists s'. by rewrite E.
  - destruct Ok as [Hu Hs]. assert (answer_bytes xid (Status stat) = accepted xid ++ be32 stat ++ []) as Eb by by rewrite app_nil_r.
    destruct (decode_accepted len t s xid stat [] [] Hl Hu (X [] stat [] Eb Hu eq_refl)) as (s' & I' & E). exists s'. rewrite (proj2 (Z.eqb_neq _ _)) in E by done. by rewrite E.
  - destruct (decode_accepted len t s xid rpc_prog_mismatch [] (words [lo; hi]) Hl ltac:(done) (X [] _ (words [lo; hi]) eq_refl ltac:(done) eq_refl)) as (s' & I' & E).
    exists s'. by rewrite E.
  - destruct (decode_start len t s xid 1 (words [0; 2; 2]) [] Hl ltac:(auto) I) as (s1 & I1 & ->). change (1 =? 0) with false. cbv iota.
    destruct (inline_at s1 (be32 0) (words [2; 2]) [] 4 I1 eq_refl eq_refl) as (s2 & E2 & I2). unfold out_msg_denied. rewrite E2. by exists s2.
  - destruct (decode_start len t s xid 1 (words [1; stat]) [] Hl ltac:(auto) I) as (s1 & I1 & ->). change (1 =? 0) with false. cbv iota.
    destruct (inline_at s1 (be32 1) (words [stat]) [] 4 I1 eq_refl eq_refl) as (s2 & E2 & I2). destruct (inline_at s2 (be32 stat) [] [] 4 I2 eq_refl eq_refl) as (s3 & E3 & I3).
    unfold out_msg_denied. rewrite E2. change (be32_to_cpu (be32 1) =? rpc_auth_error) with true. cbv iota. rewrite E3, refused_means.
    rewrite <- (app_nil_r (be32 stat)), be32_to_cpu_app. by exists s3.
  - destruct (decode_accepted len t s xid rpc_garbage_args [] res Hl ltac:(done) (X [] _ _ eq_refl ltac:(done) eq_refl)) as (s' & I' & E). exists s'. by rewrite E.
  - destruct (decode_start len t s xid 0 (words [rpc_garbage_args]) [] Hl ltac:(auto) I) as (s1 & (W1 & R1 & _) & ->). change (0 =? 0) with true. cbv iota.
    destruct (short_verf t s1 W1) as (s2 & ->); [by rewrite R1|]. change (negb (- EIO =? 0)) with true. cbv iota. rewrite out_garbage_means. by exists s2.
Qed.

(** *** Retries *)

(** What a reply, whatever it holds, costs the task. *)
Definition decode_cost (t : call_task) (e : Z) (t' : call_task) : Prop :=
  e = - EAGAIN /\ tk_garb_retry t <> 0 /\ tk_garb_retry t' = tk_garb_retry t - 1 /\ tk_cred_retry t' = tk_cred_retry t \/
  e = - EKEYREJECTED /\ tk_cred_retry t <> 0 /\ tk_cred_retry t' = tk_cred_retry t - 1 /\ tk_garb_retry t' = tk_garb_retry t \/
  e <> - EAGAIN /\ e <> - EKEYREJECTED /\ (e <> 0 -> tk_act t' = rpc_exit_task /\ tk_status t' = e /\ tk_rpc_status t' = e).

(** The stream is further in the same message. *)
Definition further (s s' : S) : Prop := xi_wf s -> xi_wf s' /\ exists w, xi_rest s = w ++ xi_rest s'.

Lemma further_refl s : further s s.
Proof. intros W. split; [done|]. by exists []. Qed.

Lemma further_trans a b c : further a b -> further b c -> further a c.
Proof. intros H1 H2 W. destruct (H1 W) as [Wb (w1 & E1)]. destruct (H2 Wb) as [Wc (w2 & E2)]. split; [done|]. exists (w1 ++ w2). by rewrite E1, E2, app_assoc. Qed.

Lemma inline_further s n r s' : 0 <= n < 2 ^ 32 -> xdr_inline_decode n s = (r, s') -> further s s'.
Proof.
  intros Hn E W. destruct (xi_inline_sound s n r s' W Hn E) as [W' H]. split; [done|]. destruct r; [|done]. destruct H as (_ & _ & ->).
  exists (ztake (align4 n) (xi_rest s)). by rewrite ztake_zdrop.
Qed.

Definition decoded (t : call_task) (s : S) (out : Z * call_task * S) : Prop := let '(e, t', s') := out in decode_cost t e t' /\ further s s'.

Lemma out_garbage_decoded e t t0 s s0 : e <> - EAGAIN -> e <> - EKEYREJECTED -> e <> 0 -> tk_garb_retry t = tk_garb_retry t0 -> tk_cred_retry t = tk_cred_retry t0 -> further s0 s ->
  decoded t0 s0 (out_garbage e t s).
Proof.
  intros He1 He2 He3 Eg Ec F. rewrite out_garbage_means. cbn. split; [|done]. unfold decode_cost, tries_again, fails_with, sends_again. cbn -[Z.eqb].
  destruct (Z.eqb_spec (tk_garb_retry t) 0); cbn; [right; right; done|]. left. rewrite <- Eg, <- Ec. done.
Qed.

Lemma out_err_decoded e t t0 s s0 : e <> - EAGAIN -> e <> - EKEYREJECTED -> further s0 s -> decoded t0 s0 (out_err e t s).
Proof. intros He1 He2 F. split; [|done]. right. right. done. Qed.

Lemma refused_decoded stat t s s0 : further s0 s -> decoded t s0 (auth_refused stat t s).
Proof.
  intros F. unfold auth_refused. destruct (_ || _ || _ || _).
  - cbn -[Z.eqb out_err]. destruct (Z.eqb_spec (tk_cred_retry t) 0); [by apply out_err_decoded|]. split; [|done]. right. left. done.
  - destruct (_ || _).
    + destruct (Z.eqb_spec (tk_garb_retry t) 0); [by apply out_err_decoded|]. split; [|done]. left. done.
    + destruct (_ =? _); [by apply out_err_decoded|]. by apply out_garbage_decoded.
Qed.

Lemma checkverf_decoded t s e t' s' : rpcauth_checkverf t s = (e, t', s') ->
  (e = 0 \/ e = - EIO) /\ tk_garb_retry t' = tk_garb_retry t /\ tk_cred_retry t' = tk_cred_retry t /\ further s s'.
Proof.
  unfold rpcauth_checkverf, nul_validate, unx_validate, inline_or, dbind, dret, dfail. change (2 * 4) with 8. intros E.
  destruct (xdr_inline_decode 8 s) as [r s1] eqn:E1. apply inline_further in E1; [|lia]. destruct (tk_cred t) as [|uid gid gi].
  - destruct r as [p|]; [|by simplify_eq; auto]. repeat case_match; simplify_eq; auto.
  - destruct r as [p|]; [|by simplify_eq; auto]. destruct (negb _); [by simplify_eq; auto|].
    destruct (Z.ltb_spec RPC_MAX_AUTH_SIZE (be32_to_cpu (zdrop 4 p))); [by simplify_eq; auto|]. pose proof (be32_to_cpu_range (zdrop 4 p)) as Hr. unfold is_u32 in Hr.
    destruct (xdr_inline_decode (be32_to_cpu (zdrop 4 p)) s1) as [r2 s2] eqn:E2. apply inline_further in E2; [|lia]. pose proof (further_trans _ _ _ E1 E2).
    destruct r2; simplify_eq; auto.
Qed.

Lemma rpc_decode_header_decoded len t s : decoded t s (rpc_decode_header len t s).
Proof.
  assert (forall t1 s1, tk_garb_retry t1 = tk_garb_retry t -> tk_cred_retry t1 = tk_cred_retry t -> further s s1 -> decoded t s (out_unparsable t1 s1)) as U.
  { intros. by apply out_garbage_decoded. }
  unfold rpc_decode_header. destruct (negb _); [apply U; [done|done|apply further_refl]|]. destruct (xdr_inline_decode (3 * 4) s) as [r s1] eqn:E1. apply inline_further in E1; [|lia].
  destruct r as [p|]; [|by apply U]. destruct (negb (_ =? rpc_reply)); [by apply U|]. destruct (negb (_ =? rpc_msg_accepted)).
  - unfold out_msg_denied. destruct (xdr_inline_decode 4 s1) as [r2 s2] eqn:E2. apply inline_further in E2; [|lia]. pose proof (further_trans _ _ _ E1 E2) as F2.
    destruct r2 as [p2|]; [|by apply U]. destruct (_ =? rpc_auth_error).
    + destruct (xdr_inline_decode 4 s2) as [r3 s3] eqn:E3. apply inline_further in E3; [|lia]. pose proof (further_trans _ _ _ F2 E3). destruct r3; [by apply refused_decoded|by apply U].
    + destruct (_ =? rpc_mismatch); [by apply out_err_decoded|by apply U].
  - destruct (rpcauth_checkverf t s1) as [[e t1] s2] eqn:E2. apply checkverf_decoded in E2 as (He & Eg & Ec & F). pose proof (further_trans _ _ _ E1 F) as F2.
    destruct (Z.eqb_spec e 0) as [->|Hn]; cbn [negb].
    + destruct (xdr_inline_decode 4 s2) as [r3 s3] eqn:E3. apply inline_further in E3; [|lia]. pose proof (further_trans _ _ _ F2 E3). destruct r3 as [p3|]; [|by apply U].
      destruct (_ =? rpc_success); [split; [right; right|]; done|]. repeat (destruct (_ =? _); [by apply out_err_decoded|]). destruct (_ || _); [by apply out_garbage_decoded|by apply U].
    + destruct He as [->| ->]; [done|]. by apply out_garbage_decoded.
Qed.

(** Send a call until a reply settles it. *)
Fixpoint retry_loop (replies : list (Z * S)) (t : call_task) : option (Z * call_task) :=
  match replies with
  | [] => None
  | (len, s) :: replies =>
      let '(e, t, _) := rpc_decode_header len t s in
      if (e =? - EAGAIN) || (e =? - EKEYREJECTED) then retry_loop replies t else Some (e, t)
  end.

(** C40: a call is tried again a bounded number of times, whatever the server answers: with
    two retries for garbage and two for credentials the fifth reply at the latest settles
    it, as success or as an error the task ends with. *)
Theorem rpc_retries_end replies t :
  0 <= tk_garb_retry t -> 0 <= tk_cred_retry t -> tk_garb_retry t + tk_cred_retry t < zlen replies ->
  exists e t', retry_loop replies t = Some (e, t') /\ (e <> 0 -> tk_act t' = rpc_exit_task /\ tk_status t' = e /\ tk_rpc_status t' = e).
Proof.
  revert t. induction replies as [|[len s] replies IH]; intros t Hg Hc Hz; [rewrite zlen_nil in Hz; lia|]. rewrite zlen_cons in Hz. cbn [retry_loop].
  pose proof (rpc_decode_header_decoded len t s) as D. destruct (rpc_decode_header len t s) as [[e t1] s1]. destruct D as [D _].
  destruct D as [(-> & ? & ? & ?)|[(-> & ? & ? & ?)|(N1 & N2 & X)]].
  - change ((- EAGAIN =? - EAGAIN) || (- EAGAIN =? - EKEYREJECTED)) with true. cbv iota. apply IH; lia.
  - change ((- EKEYREJECTED =? - EAGAIN) || (- EKEYREJECTED =? - EKEYREJECTED)) with true. cbv iota. apply IH; lia.
  - rewrite !(proj2 (Z.eqb_neq _ _)) by done. cbn [orb]. by exists e, t1.
Qed.
End Replies.

(** ** Calls that are cut short *)

Section Short.
Context (make_kuid make_kgid : Z -> Z) (groups_sort : list Z -> list Z) {st : Type} (sv_programs : list (svc_program st)).
Notation tab := (authtab make_kuid make_kgid groups_sort false).

(** A call whose head ends inside the credential gets an answer without a verifier,
    the status word directly after "accepted", which RFC 5531 does not allow and the
    client takes for garbage. *)
Theorem short_credential_answer rq s xid prog vers proc flavor rest len t {S : Type} `{XdrInLaws S} (x : S) :
  is_u32 xid -> is_u32 prog -> is_u32 vers -> is_u32 proc -> flavor = RPC_AUTH_NULL \/ flavor = RPC_AUTH_UNIX -> 4 <= zlen rest < 12 ->
  at_arg rq (words [xid; rpc_call; RPC_VERSION; prog; vers; proc; flavor] ++ rest) ->
  exists rq', svc_process tab sv_programs (svc_recv_xid rq) s = (true, rq', s) /\ rq_res rq' = words [xid; rpc_reply; rpc_msg_accepted; rpc_garbage_args] /\
    (in_stream x (rq_res rq') [] -> Z.land len 3 = 0 -> exists x', rpc_decode_header len t x = (fst (tries_again (- EIO) t), snd (tries_again (- EIO) t), x')).
Proof.
  intros Hx Hp Hv Hc Hf Hr A. change (words [xid; rpc_call; RPC_VERSION; prog; vers; proc; flavor] ++ rest) with
    (words [xid; rpc_call; RPC_VERSION; prog; vers; proc] ++ be32 flavor ++ rest) in A.
  destruct (svc_process_start sv_programs tab rq s xid prog vers proc (be32 flavor ++ rest) Hx Hp Hv Hc) as [-> A2]; [rewrite zlen_app, zlen_be32; lia|done|].
  set (rq2 := with_header _ _ _ _ _) in *. assert (rq_res rq2 = words [xid; rpc_reply; rpc_msg_accepted]) as Er2 by reflexivity. clearbody rq2. unfold authenticate.
  destruct (authenticate_short make_kuid make_kgid groups_sort rq2 flavor rest Hf Hr A2) as (rq3 & Ea & Er3). rewrite Er2 in Er3.
  unfold dbind. rewrite Ea. cbn [auth_switch]. change (SVC_GARBAGE =? SVC_GARBAGE) with true. cbv iota. unfold err_bad, sendit.
  destruct (authorise_any make_kuid make_kgid groups_sort false (svc_putnl rpc_garbage_args (badfmt rq3))) as (rq' & -> & _ & _ & Er & _). exists rq'. split; [done|].
  assert (rq_res rq' = words [xid; rpc_reply; rpc_msg_accepted; rpc_garbage_args]) as Er'. { rewrite Er. cbn. by rewrite Er3. }
  split; [done|]. rewrite Er'. intros I Hl3. destruct (decode_start len t x xid 0 (words [rpc_garbage_args]) [] Hl3 ltac:(auto) I) as (s1 & (W1 & R1 & _) & ->).
  change (0 =? 0) with true. cbv iota. destruct (short_verf t s1 W1) as (s2 & ->); [by rewrite R1|]. change (negb (- EIO =? 0)) with true. cbv iota. rewrite out_garbage_means. by exists s2.
Qed.

(** [svc_udp_recvfrom] takes a datagram of any length, and taking the XID and the
    direction from one of less than eight bytes makes the length of the head wrap around,
    so that the test for a short call does not see it: the words after a datagram of one
    to four bytes, whatever memory holds there, decide whether the server answers. *)
Theorem short_datagram_reads_on P D pad v Q rq s :
  1 <= zlen D -> zlen D + zlen pad = 4 -> is_u32 v -> v <> RPC_VERSION -> rq_arg rq = svc_udp_arg (zlen P) (zlen D) ->
  (exists rq', svc_process tab sv_programs (svc_recv_xid (rq <| rq_mem := P ++ D ++ pad ++ be32 0 ++ be32 v ++ Q |>)) s = (true, rq', s) /\
     rq_res rq' = answer_bytes (be32_to_cpu (D ++ pad)) Rpc_mismatch) /\
  (exists rq', svc_process tab sv_programs (svc_recv_xid (rq <| rq_mem := P ++ D ++ pad ++ be32 1 ++ be32 v ++ Q |>)) s = (false, rq', s)).
Proof.
  intros HD Hp Hv Hn Ea. pose proof (zlen_nonneg P). pose proof (zlen_nonneg pad).
  assert (forall dir, is_u32 dir -> exists rq2, iov_len (rq_arg rq2) = 2 ^ 64 + zlen D - 8 /\ rq_xid rq2 = be32_to_cpu (D ++ pad) /\ rq_res rq2 = [] /\
     iov_base (rq_arg rq2) = zlen P + 8 /\ rq_mem rq2 = P ++ D ++ pad ++ be32 dir ++ be32 v ++ Q /\
     svc_process tab sv_programs (svc_recv_xid (rq <| rq_mem := P ++ D ++ pad ++ be32 dir ++ be32 v ++ Q |>)) s =
       if negb (dir =? 0) then (false, badfmt rq2, s) else svc_process_common tab sv_programs rq2 s) as X.
  { intros dir Hdir. set (M := P ++ D ++ pad ++ be32 dir ++ be32 v ++ Q).
    assert (be32_to_cpu (zdrop (zlen P) M) = be32_to_cpu (D ++ pad)) as Exid.
    { unfold M. rewrite zdrop_app_exact by done. rewrite <- (be32_to_cpu_take 4) by lia. rewrite app_assoc. by rewrite ztake_app_exact by llia. }
    assert (be32_to_cpu (zdrop (zlen P + 4) M) = dir) as Edir.
    { unfold M. rewrite !app_assoc. rewrite <- 2!app_assoc. rewrite zdrop_app_exact by llia. by rewrite be32_to_cpu_app, u32_id. }
    set (r1 := (rq <| rq_mem := M |> <| rq_arg := mk_kvec (zlen P + 4) (u64 (zlen D - 4)) |>) <| rq_xid := be32_to_cpu (D ++ pad) |>).
    assert (svc_recv_xid (rq <| rq_mem := M |>) = r1) as ->.
    { unfold svc_recv_xid, svc_getnl. change (rq_arg (rq <| rq_mem := M |>)) with (rq_arg rq). change (rq_mem (rq <| rq_mem := M |>)) with M. rewrite Ea. cbn [iov_base iov_len svc_udp_arg].
      by rewrite Exid. }
    exists (r1 <| rq_res := [] |> <| rq_arg := mk_kvec (zlen P + 8) (2 ^ 64 + zlen D - 8) |>). do 5 (split; [reflexivity|]). unfold svc_process, svc_getnl.
    change (rq_arg (r1 <| rq_res := [] |>)) with (mk_kvec (zlen P + 4) (u64 (zlen D - 4))). change (rq_mem (r1 <| rq_res := [] |>)) with M. cbn [iov_base iov_len]. rewrite Edir.
    replace (zlen P + 4 + 4) with (zlen P + 8) by lia. replace (u64 (u64 (zlen D - 4) - 4)) with (2 ^ 64 + zlen D - 8) by (unfold u64; zlia). done. }
  split.
  - destruct (X 0) as (rq2 & El & Ex & Er & Eb & Em & ->); [done|]. change (negb (0 =? 0)) with false. cbv iota. unfold svc_process_common.
    rewrite (proj2 (Z.ltb_ge _ _)) by (rewrite El; lia). unfold read_header. rewrite dbind_mod. cbv beta. set (rq3 := svc_putnl _ _).
    assert (svc_getnl rq3 = (Ok v, rq3 <| rq_arg := mk_kvec (zlen P + 8 + 4) (u64 (iov_len (rq_arg rq2) - 4)) |>)) as Ev.
    { unfold svc_getnl. change (rq_arg rq3) with (rq_arg rq2). change (rq_mem rq3) with (rq_mem rq2). rewrite Eb, Em. do 2 f_equal.
      rewrite !app_assoc. rewrite <- app_assoc. rewrite zdrop_app_exact by llia. by rewrite be32_to_cpu_app, u32_id. }
    rewrite (dbind_ok _ _ _ _ _ Ev), dbind_mod. rewrite (proj2 (Z.eqb_neq v RPC_VERSION)) by done. cbn [negb]. unfold dfail, err_bad_rpc, sendit.
    match goal with |- context [svc_authorise tab ?r] => destruct (authorise_any make_kuid make_kgid groups_sort false r) as (rq' & -> & _ & _ & Er' & _) end.
    exists rq'. split; [done|]. rewrite Er'. cbn. by rewrite Er, Ex.
  - destruct (X 1) as (rq2 & _ & _ & _ & _ & _ & ->); [done|]. by exists (badfmt rq2).
Qed.
End Short.


(** ** Concrete calls *)

Definition id_of (x : Z) : Z := u32 x.
Definition demo_clnt : call_clnt := mk_call_clnt 100003 3 [x68; x31] 2 false.
Definition demo_task : call_task := mk_call_task 7 1 (unix_cred 1000 100 (Some [100; 4])) unix_auth 0 0 call_other 2 2 true 0.
Definition no_programs : list (svc_program unit) := [].

Lemma demo_words : call_words demo_clnt demo_task.
Proof. by split. Defined.

Lemma rpc_call_roundtrip_witness : exists x,
  rpc_xdr_encode id_of id_of demo_clnt (xdr_stream_encode_u32 9) (mk_mem (zrep 400) []) (mk_buf (mk_kvec 0 0) (mk_kvec 0 0) 0 0 0 0 0 0) 0 (rq_callsize unix_auth 1)
    demo_task = Some (demo_task <| tk_status := 0 |>, x).
Proof.
  destruct (rpc_call_roundtrip id_of id_of id_of id_of (fun l => l) no_programs u32_range u32_range demo_clnt (xdr_stream_encode_u32 9) (mk_mem (zrep 400) [])
    (mk_buf (mk_kvec 0 0) (mk_kvec 0 0) 0 0 0 0 0 0) 0 1 demo_task (be32 9)) as (x & E & _);
    [apply Forall_nil; done|done|split_and!; done|done|done|done|done|done|apply demo_words|apply encodes_u32|done|]. exists x. exact E.
Defined.

(** A request that holds [bs] in its head, and a reply to decode. *)
Definition demo_rqst (bs : list byte) : svc_rqst :=
  mk_rqst bs (mk_kvec 0 (zlen bs)) [] 0 0 0 0 (mk_cred 0 0 None 0) None None 0 0 false false false 0 None (mk_stat 0 0 0).
Definition demo_buf (bs : list byte) : xdr_buf := mk_buf (mk_kvec 0 (zlen bs)) (mk_kvec 0 0) 0 0 0 0 0 (zlen bs).
Definition demo_stream (bs : list byte) : xdr_stream := xdr_init_decode (mk_stream (mk_mem bs []) 0 (demo_buf []) 0 None 0 None 0) (demo_buf bs) None.

Lemma demo_stream_ok bs : zlen bs < 2 ^ 31 -> zlen bs mod 4 = 0 -> xi_wf (demo_stream bs) /\ xi_rest (demo_stream bs) = bs.
Proof.
  intros Hl H4. pose proof (zlen_nonneg bs). destruct (xdr_init_decode_ok (mk_stream (mk_mem bs []) 0 (demo_buf []) 0 None 0 None 0) (demo_buf bs)) as (O & R & _).
  - split; [split|..]; cbn; unfold kvec_ok; cbn; try done; try lia. apply Forall_nil; done.
  - split; [exact O|]. change (xi_rest (demo_stream bs)) with (stream_rest (demo_stream bs)). unfold demo_stream. rewrite R. cbn. unfold buf_bytes, kvec_bytes, pages_bytes. cbn.
    rewrite !(ztake_le0 0) by lia. rewrite !app_nil_r. rewrite zdrop_le0 by lia. rewrite (ztake_all (zlen bs) bs) by lia. apply ztake_all. lia.
Qed.

Lemma rpc_reply_outcome_witness : exists s', rpc_decode_header 28 demo_task (demo_stream (answer_bytes 7 (Success (be32 5)))) = (0, seen_verf demo_task, s').
Proof.
  destruct (rpc_reply_outcome (Success (be32 5)) 28 demo_task (demo_stream (answer_bytes 7 (Success (be32 5)))) 7) as (s' & E & _); [done|done| |exists s'; exact E].
  destruct (demo_stream_ok (answer_bytes 7 (Success (be32 5)))) as [W R]; [done|done|]. split; [exact W|]. split; [by rewrite R|done].
Defined.

Lemma rpc_retries_end_witness : exists e t', retry_loop (replicate 5 (3, demo_stream [])) demo_task = Some (e, t').
Proof. destruct (rpc_retries_end (replicate 5 (3, demo_stream [])) demo_task) as (e & t' & E & _); [done|done|done|]. exists e, t'. exact E. Defined.

Lemma short_credential_answer_witness : exists rq',
  svc_process (authtab id_of id_of (fun l => l) false) no_programs (svc_recv_xid (demo_rqst (words [7; rpc_call; RPC_VERSION; 100003; 3; 1; RPC_AUTH_UNIX] ++ be32 0))) tt
    = (true, rq', tt).
Proof.
  destruct (short_credential_answer id_of id_of (fun l => l) no_programs (demo_rqst (words [7; rpc_call; RPC_VERSION; 100003; 3; 1; RPC_AUTH_UNIX] ++ be32 0)) tt 7 100003 3 1
    RPC_AUTH_UNIX (be32 0) 16 demo_task (demo_stream [])) as (rq' & E & _); [done|done|done|done|by right|done|by split|]. exists rq'. exact E.
Defined.

Lemma short_datagram_reads_on_witness : exists rq',
  svc_process (authtab id_of id_of (fun l => l) false) no_programs (svc_recv_xid ((demo_rqst [x01]) <| rq_mem := [x01; x00; x00; x00] ++ be32 0 ++ be32 3 |>)) tt = (true, rq', tt).
Proof.
  destruct (short_datagram_reads_on id_of id_of (fun l => l) no_programs [] [x01] [x00; x00; x00] 3 [] (demo_rqst [x01]) tt) as [(rq' & E & _) _]; [done|done|done|done|done|].
  exists rq'. exact E.
Defined.

